(* ===== verification/_CoqProject ===== *)
-Q . S2P
Prelude.v
Errors.v
External.v
Restaking.v
Constants.v
FeeGroups.v
Fees.v
Accounts.v
Config.v
StakeWeight.v
MerkleTree.v
MerkleTreeProps.v
VaultRegistry.v
WeightTable.v
EpochSnapshot.v
EpochState.v
EpochStateProps.v
BallotBox.v
BallotBoxProps.v
BallotBoxTheorems.v
BaseRewardRouter.v
BaseRewardRouterProps.v
BaseRouting.v
BaseRewardTheorems.v
NcnRewardRouter.v
NcnRewardProps.v
NcnRewardTheorems.v
MerkleTheorems.v
VoteHandlers.v
Ledger.v
RewardHandlers.v
BaseSide.v
NcnSide.v
VotingWindow.v
SetupHandlers.v
RegistryHandlers.v
SnapshotHandlers.v
CloseHandlers.v
SnapshotSide.v
EpochLifecycle.v
EpochClosing.v
WeightSide.v
GeneratedTree.v
GeneratedTheorems.v
StakeMetaGenerator.v
StakeMetaTheorems.v
Claiming.v
ClaimingTheorems.v
Getters.v
Keeper.v
KeeperTheorems.v
Submit.v
SubmitTheorems.v
Borsh.v
TipRouterIx.v
GeneratedClient.v
ClientAbi.v
Rpc.v
Instructions.v
Cranks.v
Network.v
ToolCalls.v
ClientAddresses.v
CrankAbi.v
ClientRouting.v
CrankTheorems.v
ClientCreation.v
KeeperLoop.v
KeeperLoopTheorems.v
SnapshotBackup.v
BackupTheorems.v
Resend.v
ResendTheorems.v
TestNcn.v
TestNcnTheorems.v
Operator.v
OperatorTheorems.v
