(* ===== verification/Prelude.v ===== *)
(** * The Jito tip router: a verification development

    The program (src/core/src, src/program/src, src/meta_merkle_tree/src) lets
    the operators of an NCN (a node consensus network) vote on the root of the
    tip distribution trees of an epoch, uploads the decided roots, and shares
    the NCN's fees among the DAO, the NCN's fee groups, the operators that voted
    with the majority, and the vaults that delegate to them.

    ** Parts of the program, in the order of an epoch

    - Set-up: an NCN has a configuration with its fees and admins (Config, Fees,
      FeeGroups) and a registry of supported tokens and vaults (VaultRegistry).
      Account checks, the epoch marker and the account payer are in Accounts.
    - Weights: an epoch copies the registry into a weight table and sets a weight
      for each token (WeightTable; handlers in RegistryHandlers).
    - Snapshot: the epoch snapshot and one operator snapshot per operator collect
      the delegated stake, weighted, per fee group (StakeWeight, EpochSnapshot;
      handlers in SetupHandlers and SnapshotHandlers).
    - Vote: operators vote in the ballot box; two thirds of the stake decide, or
      the tie breaker does (BallotBox; handlers in VoteHandlers).
    - Upload: a validator's root is uploaded when the decided meta tree has it
      (MerkleTree for the trees, VoteHandlers for the instruction).
    - Rewards: lamports that reach the base receiver are split and routed by the
      base router, and those of an (operator, fee group) by its NCN router
      (BaseRewardRouter, NcnRewardRouter; handlers in RewardHandlers).
    - Close: the accounts are closed some epochs after the decision, the epoch
      state last, leaving the marker (CloseHandlers).
    Off chain, an operator derives the root it votes for from its ledger: the
    stake metadata of the validators (StakeMetaGenerator), the claims on their
    tips and their trees (GeneratedTree), the meta tree over them (MerkleTree).
    Its client votes for the root and uploads the decided roots (Submit), and
    claims the tips (Claiming), sending the claims again until they are seen
    (Resend).  Its main loop makes the tree of every epoch's ledger and writes it to a
    file, from which the client votes (Operator).  A monitor keeps the newest
    snapshots of its ledger for the replay (SnapshotBackup).  A keeper takes every
    epoch through its phases (Keeper) with the command line tool: it reads accounts
    (Getters), sends instructions with retries (Rpc, Instructions) and decides what an
    epoch needs in each phase (Cranks); KeeperLoop is its loop; TestNcn sets up an NCN
    to try the tip router with.
    An instruction is made by the generated client (GeneratedClient), from the
    roles that the tool gives its accounts (ToolCalls); the program's entry point
    checks the program id, decodes it and hands it, with its accounts, to a handler
    (TipRouterIx).
    The epoch state (EpochState) records which accounts exist and how far each
    phase has got; nearly every handler reads it and many update it.

    ** Files and the code they model

    Errors (core/src/error.rs), Constants (constants.rs, discriminators.rs,
    utils.rs), FeeGroups (base_fee_group.rs, ncn_fee_group.rs), Fees (fees.rs),
    Accounts (loaders.rs, epoch_marker.rs, account_payer.rs), Config (config.rs
    and the program's admin_initialize_config.rs, admin_set_*.rs of the
    configuration), StakeWeight, VaultRegistry, WeightTable (weight_table.rs,
    weight_entry.rs), EpochSnapshot, EpochState, BallotBox, BaseRewardRouter,
    NcnRewardRouter (the files of core/src of the same names), MerkleTree
    (meta_merkle_tree/src), GeneratedTree (its generated_merkle_tree.rs),
    StakeMetaGenerator (stake_meta_generator.rs and lib.rs of
    tip-router-operator-cli/src), Submit (its submit.rs, tip_router.rs), Claiming
    and Resend (its claim.rs, rpc_utils.rs), Operator (its main.rs, on the side that
    closes the file's conflict, and process_epoch.rs), SnapshotBackup (its
    backup_snapshots.rs and, of process_epoch.rs, the slots and the wait for a
    snapshot), Keeper and KeeperLoop (cli/src/keeper), Getters
    (cli/src/getters.rs), Rpc, Instructions, Cranks and TestNcn
    (cli/src/instructions.rs), TipRouterIx (core/src/instruction.rs and
    program/src/lib.rs, with the names under which each handler takes its accounts),
    GeneratedClient (clients/rust/jito_tip_router/src/generated/instructions, a
    Module for each instruction; Head modules are the side that opens the conflict
    of an unmerged file).  Borsh has the encoding that both use.
    Each models the account's struct as a Record, and each method as a Definition
    of the same name in a Module of the type's name; a function of a client is a
    Definition of its name.
    VoteHandlers, RewardHandlers, SetupHandlers, RegistryHandlers,
    SnapshotHandlers and CloseHandlers have one Definition [process_x] for each
    program/src/x.rs: the account checks in the order of the code, then the
    effects.  MerkleTreeProps, EpochStateProps, BallotBoxProps,
    BaseRewardRouterProps, BaseRouting and NcnRewardProps hold the lemmas on a
    component; files ending in Theorems its promises.  Ledger, BaseSide, NcnSide,
    VotingWindow, SnapshotSide, WeightSide, EpochLifecycle and EpochClosing are
    about components that interact; ClientAddresses, ClientRouting and
    ClientCreation are about the command line tool and the program together, on
    the network of Network; ClientAbi is about the generated client and the program,
    and CrankAbi about the tool, the client and the program together.

    ** How the code is translated

    - A method that mutates its receiver returns the new value; a fallible one
      returns [res A], [Ok] or [Err] with the code's error.  Effects exist only on
      [Ok]: a failed instruction is rolled back.  An index out of bounds or an
      [unwrap] of nothing is [Err Panic].
    - Integers are [Z] with the bounds of their width written out: [checked_add]
      and the like return an option, [saturating_sub] and [cast] are as in Rust.
      Pod wrappers are the integers they hold.  Fixed arrays are lists, read and
      written with [aget] and [aset], which fail out of range.
    - A loop is a Fixpoint on the list it runs over, or has a bound that the code
      has too: routing counts iterations up to the limit passed to the
      instruction, and 8 groups of 256 votes (2048), or 64 vaults, exhaust every
      router; the loops over tree levels take the number of leaves as fuel, and
      the theorems show that the levels end before.
    - A typed account [Acct T] is its [AccountInfo] and what its data decodes to.
      The discriminator is the first byte of the data; the bytes after it are the
      body.  Reserved bytes and log messages are not modelled.  A handler
      takes its accounts as arguments; the errors for a wrong number of them, and
      which account is which, are in TipRouterIx.  Where one account may be
      passed twice and it matters, the handler says so: closing the epoch state
      itself is the case where both keys are equal.
    - Code outside the repository is a class parameter: [Solana] (addresses,
      hashing, rent, epochs, the system program's instructions, reallocation),
      [PreciseNumberOps] (spl-math), [Programs] (loaders of other programs'
      accounts, stake pool, tip distribution), [Restaking], [Switchboard],
      [TipClaim], and [Bank] and [LedgerAccounts] for the validator runtime,
      where a hash map is the list of its entries in the order of iteration.
      Account decoders are [ClaimAccounts], [KeeperAccounts] and [TdaDecoder];
      the addresses and accounts of other programs that clients use are
      [Clients].  [Borsh] has the encodings of primitive types, options and
      vectors; [ClientKeys] the program ids written into the client.  What theorems need of a parameter is a separate class of laws
      ([TransferLaws], [ReallocLaws], [CreateLaws], [SystemLaws], [IdealHash],
      [PreciseNumberLaws], [DepositLaws], [BorshLaws]); each has a concrete instance, with
      which the witnesses evaluate the handlers.  [IdealHash] idealises SHA-256 as
      collision free.
    - The network of the operator's clients and of the keeper's steps is a value
      with its answers ([Submit.Network], [Node], [Round], [Answers]), one for
      each time it is asked; theorems hold for all answers.  What a client sends
      is part of its result.  The file system of the snapshot monitor is one too
      ([Disk]): its directory is a finite map, and every call may fail.
    - The command line tool runs in the monad [Client] over a world [W] that the
      class [Rpc] lets it ask and change; a run has the requests made, an outcome
      (a value, an error that callers may handle, a panic, or no fuel for a
      polling loop), and the world after it.  An instruction is its arguments and
      the accounts it names under their roles; logs and titles are left out.
      [Network.network_rpc] makes such a world of any chain: others act before
      each call, answers, transactions and confirmations may be lost.

    ** What the theorems show

    - Vote: the box implements a map from operators to votes, its tallies are
      the sums of that map, the two-thirds rule decides, a decision is final,
      the box and the epoch state agree after every sequence of instructions, and
      the instruction accepts exactly the votes the box accepts
      (BallotBoxTheorems, VoteHandlers).
    - Roots: every leaf of a tree has a proof that verifies; under an ideal hash
      the on-chain check accepts nothing else, and only such roots are uploaded
      (MerkleTheorems, VoteHandlers).
    - Claim trees: the tips of a validator are split exactly into claims that
      have proofs (GeneratedTheorems); the metadata records the delegations
      exactly, the root does not depend on the iteration order of hash maps, and
      the chain accepts every validator's root of the decided tree
      (StakeMetaTheorems).
    - Rewards: both routers split to the last lamport, shares are floors of the
      stake's proportion, interrupted routing equals uninterrupted routing, and
      both implement one abstract ledger that can always pay what it owes
      (BaseRewardTheorems, NcnRewardTheorems, Ledger, BaseSide, NcnSide).
    - Voting and routing: routing freezes the vote; the two windows meet in
      exactly one slot (VotingWindow).
    - Weights and snapshots: progress, counts and totals agree with the contents
      through every sequence of instructions (WeightTable, WeightSide,
      EpochSnapshot, SnapshotSide, VaultRegistry).
    - Lifecycle: reallocation completes and never resets an account; a close
      is bound to its epoch and conserves lamports; a closed epoch stays closed
      (EpochStateProps, EpochLifecycle, EpochClosing).
    - Configuration: bounds and fee caps hold in every reachable configuration;
      changes need the right signatures (Config, Fees).
    - Clients: the operator's client votes until its vote is recorded, and the
      votes and uploads it sends are accepted; it asks for exactly the accounts
      that wait for a root (SubmitTheorems).  Claiming ends with no claim left,
      or with an error whose amounts are those of the round that failed, and what it
      sends has proofs that verify (ClaimingTheorems); a
      transaction is sent until the node calls it processed (ResendTheorems).
      Whatever the answers and the interleaving, a vote is for the root made, in the
      processing that wrote its file, of the ledger at the last slot of the epoch
      before; and when the processing of an epoch ends within
      it, no epoch is left out and each one with a tree is voted for
      (OperatorTheorems).
      With a working disk the backup holds the newest snapshots of the previous
      and the current epoch, at most three of each (BackupTheorems).
      The keeper cranks an epoch in the phase it is in, and comes by every epoch
      (KeeperTheorems); on any network, each of its iterations is for the epoch that
      is next, sends what the state it read calls for, and calls the epoch stalled
      exactly when only waiting is left (KeeperLoopTheorems); its loop with the cranks
      does what the steps of Keeper say (KeeperLoop).
    - Command line tool: instructions name the accounts that the program derives
      (ClientAddresses); on any network, routing the base rewards ends within 69
      calls with everything routed (each call spends 30 of the 2048 iterations),
      and the ballot box is created by one initialisation and twelve
      reallocations (ClientRouting, ClientCreation); accounts are closed in one
      order, each operator of a vault is updated once, in turn, and a distribution
      pays what was there before it routed (CrankTheorems); the set-up of a test
      vault creates each account before it uses it (TestNcnTheorems).
    - Interface: the entry point decodes exactly what is encoded and calls the
      handler of that instruction with its arguments (TipRouterIx); every
      instruction of the generated client reaches its handler with every account
      where the handler takes it, and with the flags of the interface description,
      and the other side of the unmerged files is refused (ClientAbi); every
      instruction of every crank misses nothing its builder needs and reaches its
      handler with the addresses that the program derives (CrankAbi).
    These theorems show what the code does beyond its intent:
    [EpochClosing.foreign_epoch_state_closes],
    [WeightSide.default_key_finalizes_table],
    [GeneratedTheorems.claim_status_of_staker],
    [ClaimingTheorems.made_claims_rebuilt],
    [SubmitTheorems.unlisted_account_stops_client],
    [KeeperTheorems.operator_addresses_stale],
    [KeeperTheorems.half_fetch_cranks_wrong_phase],
    [ClientCreation.prefunded_box_never_created],
    [CrankTheorems.distribution_pays_what_was_read],
    [CrankTheorems.vault_update_rotates] (a vault without operators),
    [ClientAddresses.create_config_ignores_tie_breaker],
    [BackupTheorems.partial_copy_is_accepted],
    [BackupTheorems.skipped_epoch_stays],
    [BackupTheorems.first_epochs_panic] and
    [ClientAbi.unmerged_side_refused].

    ** Not modelled

    The decoding of accounts from bytes (derived code), the JSON and file handling
    of meta_merkle_tree and of the operator client, the replay of the ledger
    (validator runtime code), the side that opens the conflict of its main.rs, the VRF clients (no module declares them; their programs are not in the
    repository), the setters of the generated builders (each stores its argument),
    the generated calls from other programs and the JavaScript client, argument
    parsing and its dispatch to the functions of the same names, metrics, and
    tests. *)

From stdpp Require Export base list option decidable tactics.
From Stdlib Require Export ZArith Lia.
From stdpp Require Import sorting.

#[global] Open Scope Z_scope.

(* ------------------------------------------------------------------ *)
(** * Machine integers: values are [Z], the bounds are exclusive. *)

Abbreviation U8  := 256%Z.
Abbreviation U16 := 65536%Z.
Abbreviation U32 := 4294967296%Z.
Abbreviation U64 := 18446744073709551616%Z.
Abbreviation U128 := 340282366920938463463374607431768211456%Z.
Abbreviation u16_max := 65535%Z.
Abbreviation u8_max := 255%Z.
Abbreviation u64_max := 18446744073709551615%Z.

(** [fits B x]: [x] is a value of the unsigned type with bound [B]. *)
Definition fits (B x : Z) : Prop := 0 <= x < B.

#[export] Instance fits_dec B x : Decision (fits B x).
Proof. unfold fits. apply _. Defined.

Definition checked_add (B a b : Z) : option Z :=
  if a + b <? B then Some (a + b) else None.
Definition checked_sub (a b : Z) : option Z :=
  if b <=? a then Some (a - b) else None.
Definition checked_mul (B a b : Z) : option Z :=
  if a * b <? B then Some (a * b) else None.
Definition checked_div (a b : Z) : option Z :=
  if b =? 0 then None else Some (a / b).
Definition saturating_sub (a b : Z) : Z := Z.max 0 (a - b).
(** An [as] cast to a narrower unsigned type. *)
Definition cast (B a : Z) : Z := a mod B.

(** Little-endian bytes of an integer ([to_le_bytes]). *)
Fixpoint to_le_bytes (n : nat) (x : Z) : list Z :=
  match n with
  | O => []
  | S n => (x mod 256) :: to_le_bytes n (x / 256)
  end.

Lemma checked_add_Some B a b c : checked_add B a b = Some c <-> c = a + b /\ a + b < B.
Proof. unfold checked_add. destruct (Z.ltb_spec (a + b) B); split; intuition (congruence || lia). Qed.
Lemma checked_sub_Some a b c : checked_sub a b = Some c <-> c = a - b /\ b <= a.
Proof. unfold checked_sub. destruct (Z.leb_spec b a); split; intuition (congruence || lia). Qed.
Lemma checked_mul_Some B a b c : checked_mul B a b = Some c <-> c = a * b /\ a * b < B.
Proof. unfold checked_mul. destruct (Z.ltb_spec (a * b) B); split; intuition (congruence || lia). Qed.
Lemma checked_div_Some a b c : checked_div a b = Some c <-> c = a / b /\ b <> 0.
Proof. unfold checked_div. destruct (Z.eqb_spec b 0); split; intuition (congruence || lia). Qed.

Lemma checked_add_ok B a b : a + b < B -> checked_add B a b = Some (a + b).
Proof. intros. apply checked_add_Some. lia. Qed.
Lemma checked_sub_ok a b : b <= a -> checked_sub a b = Some (a - b).
Proof. intros. apply checked_sub_Some. lia. Qed.
Lemma checked_mul_ok B a b : a * b < B -> checked_mul B a b = Some (a * b).
Proof. intros. apply checked_mul_Some. lia. Qed.

Lemma to_le_bytes_length n x : length (to_le_bytes n x) = n.
Proof. revert x. induction n; intros; simpl; auto. Qed.

(** The integer of little-endian bytes ([from_le_bytes]). *)
Fixpoint of_le_bytes (l : list Z) : Z := match l with [] => 0 | b :: l => b + 256 * of_le_bytes l end.

Lemma of_to_le_bytes n x : fits (256 ^ Z.of_nat n) x -> of_le_bytes (to_le_bytes n x) = x.
Proof.
  unfold fits. revert x. induction n as [|n IH]; intros x Hx; cbn [to_le_bytes of_le_bytes].
  - change (256 ^ Z.of_nat 0) with 1 in Hx. lia.
  - rewrite Nat2Z.inj_succ, Z.pow_succ_r in Hx by lia. rewrite IH.
    + pose proof (Z.div_mod x 256). lia.
    + split; [apply Z.div_pos; lia|apply Z.div_lt_upper_bound; lia].
Qed.

(** Two values that fit in [n] bytes have the same bytes only when equal. *)
Lemma to_le_bytes_inj n x y :
  fits (256 ^ Z.of_nat n) x -> fits (256 ^ Z.of_nat n) y ->
  to_le_bytes n x = to_le_bytes n y -> x = y.
Proof. intros Hx Hy Heq. by rewrite <- (of_to_le_bytes n x Hx), <- (of_to_le_bytes n y Hy), Heq. Qed.

(* ------------------------------------------------------------------ *)
(** * Fallible code: a result monad over an error type. *)

Inductive result (E A : Type) : Type :=
| Ok (a : A)
| Err (e : E).
Arguments Ok {E A} a.
Arguments Err {E A} e.

#[export] Instance result_ret E : MRet (result E) := fun A a => Ok a.
#[export] Instance result_bind E : MBind (result E) := fun A B f m =>
  match m with Ok a => f a | Err e => Err e end.
#[export] Instance result_fmap E : FMap (result E) := fun A B f m =>
  match m with Ok a => Ok (f a) | Err e => Err e end.
#[export] Instance result_eq_dec E A `{EqDecision E, EqDecision A} : EqDecision (result E A).
Proof. solve_decision. Defined.

(** [Option::ok_or]. *)
Definition ok_or {E A} (o : option A) (e : E) : result E A :=
  match o with Some a => Ok a | None => Err e end.

Definition is_ok {E A} (r : result E A) : Prop := exists a, r = Ok a.

(** A fallible fold: the [for] loops with [?] in their bodies. *)
Fixpoint foldM {E A B} (f : A -> B -> result E A) (a : A) (l : list B) : result E A :=
  match l with
  | [] => Ok a
  | b :: l => a' ← f a b; foldM f a' l
  end.

Lemma bind_Ok {E A B} (m : result E A) (f : A -> result E B) b :
  (m ≫= f) = Ok b <-> exists a, m = Ok a /\ f a = Ok b.
Proof. destruct m; simpl; split; intros; naive_solver. Qed.

Lemma ok_or_Ok {E A} (o : option A) (e : E) a : ok_or o e = Ok a <-> o = Some a.
Proof. destruct o; simpl; split; congruence. Qed.

Lemma foldM_app {E A B} (f : A -> B -> result E A) a l1 l2 :
  foldM f a (l1 ++ l2) = (a' ← foldM f a l1; foldM f a' l2).
Proof. revert a. induction l1 as [|b l1 IH]; intros; simpl; [done|]. destruct (f a b); simpl; auto. Qed.

(** Invariant rule for [foldM]. *)
Lemma foldM_inv {E A B} (P : A -> Prop) (f : A -> B -> result E A) a l a' :
  P a -> (forall x b y, b ∈ l -> P x -> f x b = Ok y -> P y) ->
  foldM f a l = Ok a' -> P a'.
Proof.
  revert a. induction l as [|b l IH]; intros a Ha Hstep Heq; simpl in Heq.
  - by injection Heq as <-.
  - apply bind_Ok in Heq as (a1 & H1 & H2).
    eapply (IH a1); eauto.
    + eapply Hstep; eauto. apply elem_of_cons; auto.
    + intros. eapply Hstep; eauto. apply elem_of_cons; auto.
Qed.

Lemma foldM_ext {E A B} (f g : A -> B -> result E A) a l : (forall x y, f x y = g x y) -> foldM f a l = foldM g a l.
Proof. intros Hfg. revert a. induction l as [|y l IH]; intros a; cbn; [done|]. rewrite Hfg. by destruct (g a y); cbn. Qed.

(** Fallible maps ([map(..).collect::<Result<Vec<_>, _>>()]). *)
Lemma mapM_Ok {E A B} (f : A -> result E B) l k : mapM f l = Ok k <-> Forall2 (fun x y => f x = Ok y) l k.
Proof.
  revert k. induction l as [|x l IH]; intros k; cbn [mapM].
  - split; [intros [= <-]; constructor|by inversion 1].
  - split.
    + intros (y & Hy & (k' & Hk & Hr)%bind_Ok)%bind_Ok. injection Hr as <-. constructor; [done|]. by apply IH.
    + inversion 1 as [|? y ? k' Hy Hk]; subst. rewrite Hy. cbn [mbind result_bind].
      by rewrite (proj2 (IH k') Hk).
Qed.

Lemma mapM_perm {E A B} (f : A -> result E B) l1 l2 k1 :
  l1 ≡ₚ l2 -> mapM f l1 = Ok k1 -> exists k2, mapM f l2 = Ok k2 /\ k1 ≡ₚ k2.
Proof.
  intros Hp HF%mapM_Ok. destruct (Permutation_Forall2 Hp HF) as (k2 & Hk & HF2).
  exists k2. split; [by apply mapM_Ok|done].
Qed.

Lemma mapM_ext {E A B} (f g : A -> result E B) l : (forall x, f x = g x) -> mapM f l = mapM g l.
Proof. intros Hfg. induction l as [|x l IH]; cbn [mapM]; [done|]. by rewrite Hfg, IH. Qed.

Lemma mapM_total {E A B} (f : A -> result E B) (g : A -> B) l :
  (forall x, x ∈ l -> f x = Ok (g x)) -> mapM f l = Ok (g <$> l).
Proof.
  induction l as [|x l IH]; intros Hf; cbn [mapM]; [done|].
  rewrite (Hf x) by (by left). cbn [mbind result_bind]. rewrite IH; [done|]. intros y Hy. apply Hf. by right.
Qed.

(** Inversion of successful runs. *)
Ltac res_inv_step :=
  match goal with
  | H : Ok _ = Ok _ |- _ => injection H as H; try subst
  | H : Err _ = Ok _ |- _ => discriminate H
  | H : Ok _ = Err _ |- _ => discriminate H
  | H : mret _ = Ok _ |- _ => injection H as H; try subst
  | H : (_ ≫= _) = Ok _ |- _ =>
      let a := fresh "x" in let H1 := fresh "Hx" in
      apply bind_Ok in H as (a & H1 & H)
  | H : ok_or _ _ = Ok _ |- _ => apply ok_or_Ok in H
  | H : checked_add _ _ _ = Some _ |- _ => apply checked_add_Some in H as [-> H]
  | H : checked_sub _ _ = Some _ |- _ => apply checked_sub_Some in H as [-> H]
  | H : checked_mul _ _ _ = Some _ |- _ => apply checked_mul_Some in H as [-> H]
  | H : checked_div _ _ = Some _ |- _ => apply checked_div_Some in H as [-> H]
  | H : (if ?b then Err _ else _) = Ok _ |- _ =>
      let E := fresh "Hif" in destruct b eqn:E; [discriminate H|]
  | H : (if ?b then _ else Err _) = Ok _ |- _ =>
      let E := fresh "Hif" in destruct b eqn:E; [|discriminate H]
  end.
Ltac res_inv := repeat (res_inv_step; cbn beta in *).

(** Checked operations whose result fits. *)
Ltac checked :=
  repeat match goal with
  | |- context [checked_add ?B ?a ?b] => rewrite (checked_add_ok B a b) by lia
  | |- context [checked_sub ?a ?b] => rewrite (checked_sub_ok a b) by lia
  | |- context [checked_mul ?B ?a ?b] => rewrite (checked_mul_ok B a b) by lia
  end; cbn [ok_or mbind result_bind].

(** Boolean guards into propositions. *)
Ltac bool_prop :=
  repeat match goal with
  | H : (_ =? _)%Z = true |- _ => apply Z.eqb_eq in H
  | H : (_ =? _)%Z = false |- _ => apply Z.eqb_neq in H
  | H : (_ <? _)%Z = true |- _ => apply Z.ltb_lt in H
  | H : (_ <? _)%Z = false |- _ => apply Z.ltb_ge in H
  | H : (_ <=? _)%Z = true |- _ => apply Z.leb_le in H
  | H : (_ <=? _)%Z = false |- _ => apply Z.leb_gt in H
  | H : bool_decide _ = true |- _ => apply bool_decide_eq_true in H
  | H : bool_decide _ = false |- _ => apply bool_decide_eq_false in H
  | H : _ && _ = true |- _ => apply andb_true_iff in H as [? H]
  | H : _ || _ = false |- _ => apply orb_false_iff in H as [? H]
  | H : negb _ = true |- _ => apply negb_true_iff in H
  | H : negb _ = false |- _ => apply negb_false_iff in H
  end.

(* ------------------------------------------------------------------ *)
(** * Sums over lists *)

Fixpoint sumZ {A} (f : A -> Z) (l : list A) : Z :=
  match l with
  | [] => 0
  | a :: l => f a + sumZ f l
  end.

Section sums.
Context {A : Type}.
Implicit Types (f g : A -> Z) (l : list A).

Lemma sumZ_app f l1 l2 : sumZ f (l1 ++ l2) = sumZ f l1 + sumZ f l2.
Proof. induction l1; simpl; lia. Qed.

Lemma sumZ_insert f l i x y :
  l !! i = Some x -> sumZ f (<[i:=y]> l) = sumZ f l - f x + f y.
Proof.
  revert i. induction l as [|a l IH]; intros [|i] Hi; simplify_eq/=; [lia|].
  rewrite (IH _ Hi). lia.
Qed.

Lemma sumZ_replicate f n x : sumZ f (replicate n x) = Z.of_nat n * f x.
Proof. induction n; simpl; lia. Qed.

Lemma sumZ_nonneg f l : (forall x, x ∈ l -> 0 <= f x) -> 0 <= sumZ f l.
Proof.
  induction l as [|a l IH]; simpl; intros H; [lia|].
  specialize (H a ltac:(left)) as Ha.
  assert (0 <= sumZ f l) by (apply IH; intros; apply H; by right). lia.
Qed.

Lemma sumZ_elem_le f l i x :
  (forall x, x ∈ l -> 0 <= f x) -> l !! i = Some x -> f x <= sumZ f l.
Proof.
  revert i. induction l as [|a l IH]; intros [|i] Hpos Hi; simplify_eq/=.
  - assert (0 <= sumZ f l) by (apply sumZ_nonneg; intros; apply Hpos; by right). lia.
  - specialize (Hpos a ltac:(left)) as Ha.
    specialize (IH i ltac:(intros; apply Hpos; by right) Hi). lia.
Qed.

Lemma sumZ_ext f g l : (forall x, x ∈ l -> f x = g x) -> sumZ f l = sumZ g l.
Proof.
  induction l as [|a l IH]; simpl; intros H; [done|].
  rewrite (H a) by left. rewrite IH; [done|]. intros; apply H; by right.
Qed.

Lemma sumZ_zero f l : (forall x, x ∈ l -> f x = 0) -> sumZ f l = 0.
Proof. intros H. rewrite (sumZ_ext f (fun _ => 0)); [|done]. clear H. induction l; simpl; lia. Qed.

Lemma sumZ_le f g l : (forall x, x ∈ l -> f x <= g x) -> sumZ f l <= sumZ g l.
Proof.
  induction l as [|a l IH]; simpl; intros H; [lia|].
  specialize (H a ltac:(left)) as Ha.
  assert (sumZ f l <= sumZ g l) by (apply IH; intros; apply H; by right). lia.
Qed.

Lemma sumZ_filter_le f (P : A -> Prop) `{!forall x, Decision (P x)} l :
  (forall x, x ∈ l -> 0 <= f x) -> sumZ f (filter P l) <= sumZ f l.
Proof.
  induction l as [|a l IH]; intros Hp; [simpl; lia|].
  specialize (Hp a ltac:(left)) as Ha.
  specialize (IH ltac:(intros; apply Hp; by right)).
  rewrite filter_cons. destruct (decide (P a)); simpl; lia.
Qed.

Lemma sumZ_add f g l : sumZ (fun x => f x + g x) l = sumZ f l + sumZ g l.
Proof. induction l; simpl; lia. Qed.

Lemma sumZ_scale f c l : sumZ (fun x => c * f x) l = c * sumZ f l.
Proof. induction l; simpl; lia. Qed.

Lemma sumZ_seq f (g : nat -> Z) l k :
  (forall i x, l !! i = Some x -> f x = g (k + i)%nat) -> sumZ f l = sumZ g (seq k (length l)).
Proof.
  revert k. induction l as [|a l IH]; intros k Hf; simpl; [done|].
  rewrite (Hf 0%nat a eq_refl), Nat.add_0_r. f_equal. apply IH.
  intros i x Hi. rewrite (Hf (S i) x Hi). f_equal. lia.
Qed.

Lemma sumZ_fmap {B} (g : B -> A) f (m : list B) : sumZ f (g <$> m) = sumZ (fun b => f (g b)) m.
Proof. induction m as [|b m IH]; [done|]. rewrite fmap_cons. simpl. by rewrite IH. Qed.

Lemma sumZ_swap {B} (h : A -> B -> Z) l (m : list B) :
  sumZ (fun a => sumZ (h a) m) l = sumZ (fun b => sumZ (fun a => h a b) l) m.
Proof.
  induction l as [|a l IH]; simpl.
  - induction m; simpl; lia.
  - rewrite IH. clear. induction m; simpl; lia.
Qed.

Lemma sumZ_drop_S f l i x : l !! i = Some x -> sumZ f (drop i l) = f x + sumZ f (drop (S i) l).
Proof. intros H. rewrite (drop_S _ _ _ H). done. Qed.
End sums.

Lemma sumZ_perm {A} (g : A -> Z) l1 l2 : l1 ≡ₚ l2 -> sumZ g l1 = sumZ g l2.
Proof. induction 1; cbn [sumZ]; lia. Qed.

Lemma filter_ext_in {A} (P Q : A -> Prop) `{!forall x, Decision (P x)} `{!forall x, Decision (Q x)} (l : list A) :
  (forall x, x ∈ l -> P x <-> Q x) -> filter P l = filter Q l.
Proof.
  induction l as [|x l IH]; intros Hpq; [done|]. rewrite !filter_cons.
  rewrite IH by (intros y Hy; apply Hpq; by right). pose proof (Hpq x (list_elem_of_here _ _)).
  destruct (decide (P x)), (decide (Q x)); tauto.
Qed.

(** Number of elements satisfying a decidable predicate ([filter(..).count()]). *)
Definition count {A} (P : A -> Prop) `{!forall x, Decision (P x)} (l : list A) : Z :=
  Z.of_nat (length (filter P l)).

Definition indic (P : Prop) `{!Decision P} : Z := if decide P then 1 else 0.

Lemma indic_true P `{!Decision P} : P -> indic P = 1.
Proof. unfold indic. by destruct (decide P). Qed.
Lemma indic_false P `{!Decision P} : ~ P -> indic P = 0.
Proof. unfold indic. by destruct (decide P). Qed.

Section counts.
Context {A : Type} (P : A -> Prop) `{!forall x, Decision (P x)}.

Lemma count_sumZ l : count P l = sumZ (fun x => indic (P x)) l.
Proof.
  unfold count, indic. induction l as [|a l IH]; [done|].
  rewrite filter_cons. simpl. destruct (decide (P a)); simpl; lia.
Qed.

Lemma count_insert l i x y :
  l !! i = Some x -> count P (<[i:=y]> l) = count P l - indic (P x) + indic (P y).
Proof. intros Hi. rewrite !count_sumZ. by rewrite (sumZ_insert _ _ _ _ y Hi). Qed.

Lemma count_bounds l : 0 <= count P l <= Z.of_nat (length l).
Proof. unfold count. pose proof (length_filter P l). lia. Qed.

Lemma count_replicate_false n x : ~ P x -> count P (replicate n x) = 0.
Proof. intros HP. rewrite count_sumZ, sumZ_replicate. rewrite (indic_false (P x) HP). lia. Qed.

Lemma count_pos l i x : l !! i = Some x -> P x -> 1 <= count P l.
Proof.
  intros Hi HP. rewrite count_sumZ.
  rewrite <- (indic_true (P x) HP).
  apply (sumZ_elem_le (fun y => indic (P y)) l i x); [|exact Hi].
  intros y _. unfold indic. destruct (decide (P y)); lia.
Qed.

Lemma count_zero l : count P l = 0 -> forall x, x ∈ l -> ~ P x.
Proof.
  intros Hc x [i Hi]%list_elem_of_lookup HP.
  pose proof (count_pos l i x Hi HP). lia.
Qed.

Lemma count_app l1 l2 : count P (l1 ++ l2) = count P l1 + count P l2.
Proof. rewrite !count_sumZ. apply sumZ_app. Qed.

Lemma count_none l : (forall x, x ∈ l -> ~ P x) -> count P l = 0.
Proof. intros Hn. rewrite count_sumZ. apply sumZ_zero. intros x Hx. by apply indic_false, Hn. Qed.

Lemma count_full_None l :
  count P l < Z.of_nat (length l) -> exists i x, l !! i = Some x /\ ~ P x.
Proof.
  intros Hlt. destruct (list_find (fun x => ~ P x) l) as [[i x]|] eqn:E.
  - apply list_find_Some in E as (? & ? & _). eauto.
  - apply list_find_None in E. exfalso.
    assert (Hl : filter P l = l).
    { clear Hlt. induction E as [|a l Ha _ IH]; [done|].
      rewrite filter_cons_True; [by rewrite IH|].
      destruct (decide (P a)); tauto. }
    unfold count in Hlt. rewrite Hl in Hlt. lia.
Qed.
End counts.

(** [list_find] under an update elsewhere, and membership after an update. *)
Lemma elem_of_insert_inv {A} (l : list A) i x y : y ∈ <[i:=x]> l -> y = x \/ y ∈ l.
Proof.
  intros [j Hj]%list_elem_of_lookup.
  destruct (decide (i = j)) as [<-|Hne].
  - destruct (decide (i < length l)%nat).
    + rewrite list_lookup_insert_eq in Hj by done. left. congruence.
    + rewrite list_insert_ge in Hj by lia. right. eapply list_elem_of_lookup_2; eauto.
  - rewrite list_lookup_insert_ne in Hj by done. right. eapply list_elem_of_lookup_2; eauto.
Qed.

Lemma Forall_In {A} (P : A -> Prop) l x : Forall P l -> x ∈ l -> P x.
Proof. intros HF [i Hi]%list_elem_of_lookup. by eapply Forall_lookup_1. Qed.

Lemma Forall_insert_2 {A} (P : A -> Prop) l i x : Forall P l -> P x -> Forall P (<[i:=x]> l).
Proof. intros. by apply Forall_insert. Qed.

(** Reflexive transitive closure with rule induction from the left. *)
Section star.
Context {S : Type} (R : S -> S -> Prop).
Inductive star : S -> S -> Prop :=
| star_refl s : star s s
| star_step s1 s2 s3 : R s1 s2 -> star s2 s3 -> star s1 s3.

Lemma star_invariant (I : S -> Prop) :
  (forall s s', I s -> R s s' -> I s') -> forall s s', star s s' -> I s -> I s'.
Proof. intros HR s s' Hs. induction Hs; eauto. Qed.

Lemma star_trans s1 s2 s3 : star s1 s2 -> star s2 s3 -> star s1 s3.
Proof. induction 1; eauto using star. Qed.
End star.
Arguments star_refl {S R} s.
Arguments star_step {S R} s1 s2 s3 _ _.

(* ------------------------------------------------------------------ *)
(** * Sorting and maxima by a key *)

(** [sort_by_key], [sort_by_cached_key]: a stable sort. *)
Section sorting.
Context {A : Type} (sort_key : A -> Z).
Fixpoint insert_by_key (x : A) (l : list A) : list A :=
  match l with
  | [] => [x]
  | y :: l => if sort_key x <=? sort_key y then x :: y :: l else y :: insert_by_key x l
  end.
Definition sort_by_key (l : list A) : list A := foldr insert_by_key [] l.

Abbreviation below := (fun x y => sort_key x <= sort_key y).

Lemma insert_by_key_perm x l : insert_by_key x l ≡ₚ x :: l.
Proof.
  induction l as [|y l IH]; cbn; [done|]. destruct (_ <=? _); [done|]. rewrite IH. apply Permutation_swap.
Qed.

Lemma sort_by_key_perm l : sort_by_key l ≡ₚ l.
Proof. induction l as [|x l IH]; cbn; [done|]. by rewrite insert_by_key_perm, IH. Qed.

Lemma insert_by_key_sorted x l : StronglySorted below l -> StronglySorted below (insert_by_key x l).
Proof.
  induction 1 as [|y l Hl IH Hy]; cbn; [by repeat constructor|]. destruct (Z.leb_spec (sort_key x) (sort_key y)).
  - constructor; [by constructor|]. constructor; [done|]. eapply List.Forall_impl; [|exact Hy]. cbn. lia.
  - constructor; [done|]. rewrite insert_by_key_perm. constructor; [lia|done].
Qed.

Lemma sort_by_key_sorted l : StronglySorted below (sort_by_key l).
Proof. induction l as [|x l IH]; cbn; [constructor|]. by apply insert_by_key_sorted. Qed.

(** [max_by_key]: the last of the largest elements. *)
Definition max_by_key (l : list A) : option A :=
  foldl (fun best x => match best with
                       | None => Some x
                       | Some b => if sort_key b <=? sort_key x then Some x else Some b
                       end) None l.

Lemma max_by_key_spec l :
  match max_by_key l with None => l = [] | Some b => b ∈ l /\ forall x, x ∈ l -> sort_key x <= sort_key b end.
Proof.
  unfold max_by_key. induction l as [|x l IH] using rev_ind; [done|]. rewrite foldl_app. cbn [foldl].
  destruct (foldl _ None l) as [b|].
  - destruct IH as [Hb Hmax]. destruct (Z.leb_spec (sort_key b) (sort_key x)).
    + split; [apply elem_of_app; right; by left|]. intros y [Hy| ->%list_elem_of_singleton]%elem_of_app; [|lia].
      specialize (Hmax y Hy). lia.
    + split; [apply elem_of_app; by left|]. intros y [Hy| ->%list_elem_of_singleton]%elem_of_app; [by apply Hmax|lia].
  - subst l. split; [by left|]. intros y ->%list_elem_of_singleton. lia.
Qed.
End sorting.

(** Decide the integer tests of the goal whose outcome [lia] knows. *)
Ltac ztests :=
  repeat (match goal with
  | |- context [Z.ltb ?x ?y] =>
      first [rewrite (proj2 (Z.ltb_lt x y)) by lia | rewrite (proj2 (Z.ltb_ge x y)) by lia]
  | |- context [Z.leb ?x ?y] =>
      first [rewrite (proj2 (Z.leb_le x y)) by lia | rewrite (proj2 (Z.leb_gt x y)) by lia]
  | |- context [Z.eqb ?x ?y] =>
      first [rewrite (proj2 (Z.eqb_eq x y)) by lia | rewrite (proj2 (Z.eqb_neq x y)) by lia]
  end; cbn).
