(* ===== verification/Errors.v ===== *)
(** Errors of the tip router program (core/src/error.rs): the enumeration
    [TipRouterError] with its wire codes, and the error type [error] of every
    fallible definition of the development.  [Tip e] is a [TipRouterError]
    (or [ProgramError::Custom(e as u32)] after a [?] conversion), [Prog p] a
    builtin [ProgramError], and [Panic] an abort of the program (index out of
    bounds, [unwrap] on [None]). *)

From S2P Require Import Prelude.

Inductive TipRouterError : Type :=
| DenominatorIsZero
| ArithmeticOverflow
| ArithmeticUnderflowError
| ArithmeticFloorError
| ModuloOverflow
| NewPreciseNumberError
| CastToImpreciseNumberError
| CastToU64Error
| CastToU128Error
| IncorrectWeightTableAdmin
| DuplicateMintsInTable
| NoMintsInTable
| TableNotInitialized
| RegistryNotInitialized
| NoVaultsInRegistry
| VaultNotInRegistry
| MintInTable
| TooManyMintsForTable
| TooManyVaultsForRegistry
| WeightTableAlreadyInitialized
| CannotCreateFutureWeightTables
| WeightMintsDoNotMatchLength
| WeightMintsDoNotMatchMintHash
| InvalidMintForWeightTable
| ConfigMintsNotUpdated
| ConfigMintListFull
| VaultRegistryListFull
| VaultRegistryVaultLocked
| VaultIndexAlreadyInUse
| MintEntryNotFound
| FeeCapExceeded
| TotalFeesCannotBeZero
| DefaultDaoWallet
| IncorrectNcnAdmin
| IncorrectNcn
| IncorrectFeeAdmin
| WeightTableNotFinalized
| WeightNotFound
| NoOperators
| VaultOperatorDelegationFinalized
| OperatorFinalized
| TooManyVaultOperatorDelegations
| DuplicateVaultOperatorDelegation
| DuplicateVoteCast
| OperatorVotesFull
| BallotTallyFull
| BallotTallyNotFoundFull
| BallotTallyNotEmpty
| ConsensusAlreadyReached
| ConsensusNotReached
| EpochSnapshotNotFinalized
| VotingNotValid
| TieBreakerAdminInvalid
| VotingNotFinalized
| TieBreakerNotInPriorVotes
| InvalidMerkleProof
| InvalidOperatorVoter
| InvalidNcnFeeGroup
| InvalidBaseFeeGroup
| OperatorRewardListFull
| OperatorRewardNotFound
| VaultRewardNotFound
| DestinationMismatch
| NcnRewardRouteNotFound
| FeeNotActive
| NoRewards
| NoFeedWeightNotSet
| SwitchboardNotRegistered
| BadSwitchboardFeed
| BadSwitchboardValue
| StaleSwitchboardFeed
| NoFeedWeightOrSwitchboardFeed
| RouterStillRouting
| InvalidEpochsBeforeStall
| InvalidEpochsBeforeClose
| InvalidSlotsAfterConsensus
| VaultNeedsUpdate
| InvalidAccountStatus
| AccountAlreadyInitialized
| BadBallot
| VotingIsNotOver
| OperatorIsNotInSnapshot
| InvalidAccountToCloseDiscriminator
| CannotCloseAccount
| CannotCloseAccountAlreadyClosed
| CannotCloseAccountNotEnoughEpochs
| CannotCloseAccountNoReceiverProvided
| CannotCloseEpochStateAccount
| InvalidDaoWallet
| EpochIsClosingDown
| MarkerExists.

#[export] Instance TipRouterError_eq_dec : EqDecision TipRouterError.
Proof. solve_decision. Defined.

(** The discriminant of each variant ([e as u32], [e as u64]). *)
Definition error_code (e : TipRouterError) : Z :=
  match e with
  | DenominatorIsZero => 8448
  | ArithmeticOverflow => 8449
  | ArithmeticUnderflowError => 8450
  | ArithmeticFloorError => 8451
  | ModuloOverflow => 8452
  | NewPreciseNumberError => 8453
  | CastToImpreciseNumberError => 8454
  | CastToU64Error => 8455
  | CastToU128Error => 8456
  | IncorrectWeightTableAdmin => 8704
  | DuplicateMintsInTable => 8705
  | NoMintsInTable => 8706
  | TableNotInitialized => 8707
  | RegistryNotInitialized => 8708
  | NoVaultsInRegistry => 8709
  | VaultNotInRegistry => 8710
  | MintInTable => 8711
  | TooManyMintsForTable => 8712
  | TooManyVaultsForRegistry => 8713
  | WeightTableAlreadyInitialized => 8714
  | CannotCreateFutureWeightTables => 8715
  | WeightMintsDoNotMatchLength => 8716
  | WeightMintsDoNotMatchMintHash => 8717
  | InvalidMintForWeightTable => 8718
  | ConfigMintsNotUpdated => 8719
  | ConfigMintListFull => 8720
  | VaultRegistryListFull => 8721
  | VaultRegistryVaultLocked => 8722
  | VaultIndexAlreadyInUse => 8723
  | MintEntryNotFound => 8724
  | FeeCapExceeded => 8725
  | TotalFeesCannotBeZero => 8726
  | DefaultDaoWallet => 8727
  | IncorrectNcnAdmin => 8728
  | IncorrectNcn => 8729
  | IncorrectFeeAdmin => 8730
  | WeightTableNotFinalized => 8731
  | WeightNotFound => 8732
  | NoOperators => 8733
  | VaultOperatorDelegationFinalized => 8734
  | OperatorFinalized => 8735
  | TooManyVaultOperatorDelegations => 8736
  | DuplicateVaultOperatorDelegation => 8737
  | DuplicateVoteCast => 8738
  | OperatorVotesFull => 8739
  | BallotTallyFull => 8740
  | BallotTallyNotFoundFull => 8741
  | BallotTallyNotEmpty => 8742
  | ConsensusAlreadyReached => 8743
  | ConsensusNotReached => 8744
  | EpochSnapshotNotFinalized => 8745
  | VotingNotValid => 8746
  | TieBreakerAdminInvalid => 8747
  | VotingNotFinalized => 8748
  | TieBreakerNotInPriorVotes => 8749
  | InvalidMerkleProof => 8750
  | InvalidOperatorVoter => 8751
  | InvalidNcnFeeGroup => 8752
  | InvalidBaseFeeGroup => 8753
  | OperatorRewardListFull => 8754
  | OperatorRewardNotFound => 8755
  | VaultRewardNotFound => 8756
  | DestinationMismatch => 8757
  | NcnRewardRouteNotFound => 8758
  | FeeNotActive => 8759
  | NoRewards => 8760
  | NoFeedWeightNotSet => 8761
  | SwitchboardNotRegistered => 8762
  | BadSwitchboardFeed => 8763
  | BadSwitchboardValue => 8764
  | StaleSwitchboardFeed => 8765
  | NoFeedWeightOrSwitchboardFeed => 8766
  | RouterStillRouting => 8767
  | InvalidEpochsBeforeStall => 8768
  | InvalidEpochsBeforeClose => 8769
  | InvalidSlotsAfterConsensus => 8770
  | VaultNeedsUpdate => 8771
  | InvalidAccountStatus => 8772
  | AccountAlreadyInitialized => 8773
  | BadBallot => 8774
  | VotingIsNotOver => 8775
  | OperatorIsNotInSnapshot => 8776
  | InvalidAccountToCloseDiscriminator => 8777
  | CannotCloseAccount => 8778
  | CannotCloseAccountAlreadyClosed => 8779
  | CannotCloseAccountNotEnoughEpochs => 8780
  | CannotCloseAccountNoReceiverProvided => 8781
  | CannotCloseEpochStateAccount => 8782
  | InvalidDaoWallet => 8783
  | EpochIsClosingDown => 8784
  | MarkerExists => 8785
  end.

Definition all_errors : list TipRouterError :=
  [ DenominatorIsZero; ArithmeticOverflow; ArithmeticUnderflowError;
    ArithmeticFloorError; ModuloOverflow; NewPreciseNumberError;
    CastToImpreciseNumberError; CastToU64Error; CastToU128Error;
    IncorrectWeightTableAdmin; DuplicateMintsInTable; NoMintsInTable;
    TableNotInitialized; RegistryNotInitialized; NoVaultsInRegistry;
    VaultNotInRegistry; MintInTable; TooManyMintsForTable;
    TooManyVaultsForRegistry; WeightTableAlreadyInitialized; CannotCreateFutureWeightTables;
    WeightMintsDoNotMatchLength; WeightMintsDoNotMatchMintHash; InvalidMintForWeightTable;
    ConfigMintsNotUpdated; ConfigMintListFull; VaultRegistryListFull;
    VaultRegistryVaultLocked; VaultIndexAlreadyInUse; MintEntryNotFound;
    FeeCapExceeded; TotalFeesCannotBeZero; DefaultDaoWallet;
    IncorrectNcnAdmin; IncorrectNcn; IncorrectFeeAdmin;
    WeightTableNotFinalized; WeightNotFound; NoOperators;
    VaultOperatorDelegationFinalized; OperatorFinalized; TooManyVaultOperatorDelegations;
    DuplicateVaultOperatorDelegation; DuplicateVoteCast; OperatorVotesFull;
    BallotTallyFull; BallotTallyNotFoundFull; BallotTallyNotEmpty;
    ConsensusAlreadyReached; ConsensusNotReached; EpochSnapshotNotFinalized;
    VotingNotValid; TieBreakerAdminInvalid; VotingNotFinalized;
    TieBreakerNotInPriorVotes; InvalidMerkleProof; InvalidOperatorVoter;
    InvalidNcnFeeGroup; InvalidBaseFeeGroup; OperatorRewardListFull;
    OperatorRewardNotFound; VaultRewardNotFound; DestinationMismatch;
    NcnRewardRouteNotFound; FeeNotActive; NoRewards;
    NoFeedWeightNotSet; SwitchboardNotRegistered; BadSwitchboardFeed;
    BadSwitchboardValue; StaleSwitchboardFeed; NoFeedWeightOrSwitchboardFeed;
    RouterStillRouting; InvalidEpochsBeforeStall; InvalidEpochsBeforeClose;
    InvalidSlotsAfterConsensus; VaultNeedsUpdate; InvalidAccountStatus;
    AccountAlreadyInitialized; BadBallot; VotingIsNotOver;
    OperatorIsNotInSnapshot; InvalidAccountToCloseDiscriminator; CannotCloseAccount;
    CannotCloseAccountAlreadyClosed; CannotCloseAccountNotEnoughEpochs; CannotCloseAccountNoReceiverProvided;
    CannotCloseEpochStateAccount; InvalidDaoWallet; EpochIsClosingDown;
    MarkerExists ].

(** The builtin [ProgramError]s the program returns. *)
Inductive ProgramError : Type :=
| InvalidAccountOwner
| InvalidAccountData
| InvalidSeeds
| InvalidArgument
| IllegalOwner
| NotEnoughAccountKeys
| ProgramArithmeticOverflow
| MissingRequiredSignature
| IncorrectProgramId
| BorshIoError
| OtherProgramError (code : Z).

#[export] Instance ProgramError_eq_dec : EqDecision ProgramError.
Proof. solve_decision. Defined.

Inductive error : Type :=
| Tip (e : TipRouterError)
| Prog (e : ProgramError)
| Panic.

#[export] Instance error_eq_dec : EqDecision error.
Proof. solve_decision. Defined.

Abbreviation res := (result error).

(** Array accesses: Rust panics when the index is out of bounds. *)
Definition aget {A} (l : list A) (i : nat) : res A := ok_or (l !! i) Panic.
Definition aset {A} (l : list A) (i : nat) (x : A) : res (list A) :=
  match l !! i with Some _ => Ok (<[i:=x]> l) | None => Err Panic end.

Lemma aget_Ok {A} (l : list A) i x : aget l i = Ok x <-> l !! i = Some x.
Proof. apply ok_or_Ok. Qed.

Lemma aset_Ok {A} (l : list A) i x l' :
  aset l i x = Ok l' <-> l' = <[i:=x]> l /\ (i < length l)%nat.
Proof.
  unfold aset. destruct (l !! i) eqn:E.
  - apply lookup_lt_Some in E. split; [intros [= <-]; done | intros [-> _]; done].
  - apply lookup_ge_None in E. split; [done | intros [_ ?]; lia].
Qed.

Lemma aget_lt {A} (l : list A) i : (i < length l)%nat -> exists x, aget l i = Ok x /\ l !! i = Some x.
Proof.
  intros H. destruct (lookup_lt_is_Some_2 l i H) as [x Hx].
  exists x. by rewrite aget_Ok.
Qed.

Lemma aset_lt {A} (l : list A) i x : (i < length l)%nat -> aset l i x = Ok (<[i:=x]> l).
Proof. intros. by apply aset_Ok. Qed.

Ltac array_inv :=
  repeat match goal with
  | H : aget _ _ = Ok _ |- _ => apply aget_Ok in H
  | H : aset _ _ _ = Ok _ |- _ => apply aset_Ok in H as [? H]; try subst
  end.

(* ------------------------------------------------------------------ *)
(** * Properties *)

Lemma all_errors_complete e : e ∈ all_errors.
Proof. apply (bool_decide_unpack _). by destruct e; vm_compute. Qed.

(** *)
Theorem error_code_inj e1 e2 : error_code e1 = error_code e2 -> e1 = e2.
Proof.
  assert (H : forallb (fun a => forallb (fun b =>
    bool_decide (a = b) || negb (error_code a =? error_code b)) all_errors) all_errors = true)
    by (vm_compute; reflexivity).
  rewrite forallb_forall in H. intros Heq.
  specialize (H e1 (proj1 (list_elem_of_In _ _) (all_errors_complete e1))).
  rewrite forallb_forall in H.
  specialize (H e2 (proj1 (list_elem_of_In _ _) (all_errors_complete e2))).
  apply orb_true_iff in H as [H|H]; [by apply bool_decide_eq_true in H|].
  apply negb_true_iff, Z.eqb_neq in H. congruence.
Qed.
