(* ===== verification/External.v ===== *)
(** Code the program calls that is not part of the repository, as interfaces:
    [PreciseNumber] (spl-math), the Solana runtime functions [Solana]
    (PDA derivation, [hashv], rent), and the data they exchange
    ([Pubkey], [AccountInfo]).  The definitions of the development take these
    interfaces as parameters; the laws the theorems rely on are separate
    classes.  [U256Precise] is one concrete fixed-point implementation, used by
    the witnesses only. *)

From stdpp Require Import countable.
From S2P Require Import Prelude Errors.

(* ------------------------------------------------------------------ *)
(** * 32-byte keys and hashes *)

(** A public key: its 32 bytes.  [Pubkey::default()] is all zeros. *)
Record Pubkey := mkPubkey { to_bytes : list Z }.

#[export] Instance Pubkey_eq_dec : EqDecision Pubkey.
Proof. solve_decision. Defined.

Definition Pubkey_default : Pubkey := mkPubkey (replicate 32 0).

(** A key whose bytes are all [n]; only used by concrete examples. *)
Definition key (n : Z) : Pubkey := mkPubkey (replicate 32 n).

(** A hash ([solana_program::hash::Hash], [[u8; 32]]): its bytes. *)
Abbreviation hash := (list Z).

(** The derived lexicographic order on byte arrays. *)
Fixpoint bytes_leb (a b : list Z) : bool :=
  match a, b with
  | [], _ => true
  | _ :: _, [] => false
  | x :: a, y :: b => if x =? y then bytes_leb a b else x <? y
  end.

Lemma bytes_leb_total a b : bytes_leb a b = true \/ bytes_leb b a = true.
Proof.
  revert b. induction a as [|x a IH]; intros [|y b]; simpl; auto.
  destruct (Z.eqb_spec x y) as [->|Hne].
  - rewrite Z.eqb_refl. auto.
  - destruct (Z.eqb_spec y x); [congruence|].
    destruct (Z.ltb_spec x y), (Z.ltb_spec y x); auto; lia.
Qed.

Lemma bytes_leb_antisym a b : bytes_leb a b = true -> bytes_leb b a = true -> a = b.
Proof.
  revert b. induction a as [|x a IH]; intros [|y b]; simpl; try done.
  destruct (Z.eqb_spec x y) as [->|Hne].
  - rewrite Z.eqb_refl. intros. f_equal. auto.
  - destruct (Z.eqb_spec y x); [congruence|].
    intros ?%Z.ltb_lt ?%Z.ltb_lt. lia.
Qed.

(* ------------------------------------------------------------------ *)
(** * Arrays searched by key *)

(** No two positions hold the same key, except where it is the default. *)
Definition distinct_keys {A} (k : A -> Pubkey) (l : list A) : Prop :=
  forall i j x y, l !! i = Some x -> l !! j = Some y -> k x = k y -> k x <> Pubkey_default -> i = j.

Lemma existsb_decide_false {A} (P : A -> Prop) `{!forall x, Decision (P x)} l :
  existsb (fun x => bool_decide (P x)) l = false <-> forall i x, l !! i = Some x -> ~ P x.
Proof.
  split.
  - intros He i x Hi HP. assert (existsb (fun x => bool_decide (P x)) l = true); [|congruence].
    apply existsb_exists. exists x. split; [|by apply bool_decide_eq_true].
    apply list_elem_of_In. by eapply list_elem_of_lookup_2.
  - intros Hn. apply not_true_is_false. intros (x & Hin & HP)%existsb_exists.
    apply list_elem_of_In, list_elem_of_lookup in Hin as [i Hi].
    apply bool_decide_eq_true in HP. by eapply Hn.
Qed.

Lemma distinct_keys_insert {A} (k : A -> Pubkey) l i x :
  distinct_keys k l -> (forall j y, j <> i -> l !! j = Some y -> k y = k x -> k x = Pubkey_default) ->
  distinct_keys k (<[i:=x]> l).
Proof.
  intros Hd Hx a b u v. rewrite !list_lookup_insert_Some.
  intros [(-> & <- & _)|[Ha Hu]] [(-> & <- & _)|[Hb Hv]] Heq Hne; [done| | |by eapply Hd].
  - exfalso. apply Hne. by eapply (Hx b v).
  - exfalso. apply Hne. rewrite Heq. eapply (Hx a u); done.
Qed.

Lemma distinct_keys_replicate {A} (k : A -> Pubkey) n x : k x = Pubkey_default -> distinct_keys k (replicate n x).
Proof. intros Hk i j u v [-> _]%lookup_replicate _ _ Hne. done. Qed.

Section keyed.
Context {A : Type} (k : A -> Pubkey) (l : list A).
Hypothesis Hd : distinct_keys k l.

(** With distinct keys the search finds the one entry with the key. *)
Lemma find_key_Some key i x :
  key <> Pubkey_default ->
  list_find (fun x => k x = key) l = Some (i, x) <-> l !! i = Some x /\ k x = key.
Proof.
  intros Hk. split; [by intros (? & ? & _)%list_find_Some|]. intros [Hi Hx].
  destruct (list_find_elem_of (fun x => k x = key) l x) as [[j y] Hf];
    [by eapply list_elem_of_lookup_2|done|].
  rewrite Hf. apply list_find_Some in Hf as (Hj & Hy & _).
  assert (i = j) as <- by (eapply Hd; eauto; congruence). by simplify_eq.
Qed.
End keyed.

Lemma find_key_None {A} (k : A -> Pubkey) l key :
  list_find (fun x => k x = key) l = None <-> forall i x, l !! i = Some x -> k x <> key.
Proof.
  rewrite list_find_None. split.
  - intros HF i x Hi. by apply (Forall_lookup_1 _ _ _ _ HF Hi).
  - intros Hn. by apply Forall_lookup_2.
Qed.

(** Distinct keys of [V], none of them [v], are fewer than [V]. *)
Lemma keys_below {A} (k : A -> Pubkey) (l : list A) (V : list Pubkey) v :
  distinct_keys k l -> (forall i x, l !! i = Some x -> k x <> Pubkey_default) ->
  (forall i x, l !! i = Some x -> k x <> v) -> v ∈ V ->
  (forall x, x ∈ l -> k x <> Pubkey_default -> k x ∈ V) -> (length l < length V)%nat.
Proof.
  intros Hd Hfull Hnone Hin HV.
  assert (Hnd : NoDup (k <$> l)).
  { apply NoDup_alt. intros i j o. rewrite !list_lookup_fmap. intros Hi Hj.
    destruct (l !! i) as [r|] eqn:Er; [|done]. destruct (l !! j) as [r'|] eqn:Er'; [|done]. simpl in *. simplify_eq.
    eapply Hd; eauto. }
  assert (Hnd' : NoDup (v :: (k <$> l))).
  { constructor; [|done]. intros (r & Hr & [j Hj]%list_elem_of_lookup)%list_elem_of_fmap. by apply (Hnone j r Hj). }
  assert (Hsub : v :: (k <$> l) ⊆+ V).
  { apply NoDup_submseteq; [done|]. intros o [->|Ho]%elem_of_cons; [done|].
    apply list_elem_of_fmap in Ho as (r & -> & Hr). apply HV; [done|].
    apply list_elem_of_lookup in Hr as [j Hj]. by apply (Hfull j). }
  apply submseteq_length in Hsub. simpl in Hsub. rewrite length_fmap in Hsub. lia.
Qed.

(** The search after an entry was overwritten by one that keeps its key, or
    a free entry by a new key. *)
Lemma find_key_insert {A} (k : A -> Pubkey) l i x y key :
  distinct_keys k l -> l !! i = Some x -> (k y = k x \/ k x = Pubkey_default /\ forall j z, l !! j = Some z -> k z <> k y) ->
  key <> Pubkey_default -> k y <> Pubkey_default ->
  distinct_keys k (<[i:=y]> l) /\
  list_find (fun z => k z = key) (<[i:=y]> l)
  = (if decide (k y = key) then Some (i, y) else list_find (fun z => k z = key) l).
Proof.
  intros Hd Hi Hy Hk Hyd. assert (Hlt := lookup_lt_Some _ _ _ Hi).
  assert (Hd' : distinct_keys k (<[i:=y]> l)).
  { apply distinct_keys_insert; [done|]. intros j z Hj Hz Heq. exfalso.
    destruct Hy as [Hy|[_ Hy]]; [|by apply (Hy j z)].
    apply Hj. eapply Hd; eauto; congruence. }
  split; [done|]. destruct (decide (k y = key)) as [<-|Hne].
  - apply find_key_Some; [done|done|]. by rewrite list_lookup_insert_eq.
  - destruct (list_find (fun z => k z = key) l) as [[j z]|] eqn:Ef.
    + apply find_key_Some in Ef as [Hj Hz]; [|done|done]. apply find_key_Some; [done|done|].
      rewrite list_lookup_insert_ne; [done|]. intros ->.
      rewrite Hi in Hj. simplify_eq. destruct Hy as [Hy|[Hy _]]; congruence.
    + rewrite find_key_None in Ef. apply find_key_None. intros j z.
      rewrite list_lookup_insert_Some. intros [(_ & <- & _)|[_ Hj]]; [done|]. by eapply Ef.
Qed.

(* ------------------------------------------------------------------ *)
(** * Accounts *)

(** The account view an instruction receives. *)
Record AccountInfo := mkAccountInfo {
  acc_key : Pubkey;
  acc_owner : Pubkey;
  acc_lamports : Z;
  acc_data : list Z;
  acc_is_signer : bool;
  acc_is_writable : bool;
}.

#[export] Instance AccountInfo_eq_dec : EqDecision AccountInfo.
Proof. solve_decision. Defined.

Definition with_lamports (a : AccountInfo) (lamports : Z) : AccountInfo :=
  mkAccountInfo (acc_key a) (acc_owner a) lamports (acc_data a) (acc_is_signer a) (acc_is_writable a).
Definition with_data (a : AccountInfo) (data : list Z) : AccountInfo :=
  mkAccountInfo (acc_key a) (acc_owner a) (acc_lamports a) data (acc_is_signer a) (acc_is_writable a).
Definition with_owner (a : AccountInfo) (owner : Pubkey) : AccountInfo :=
  mkAccountInfo (acc_key a) owner (acc_lamports a) (acc_data a) (acc_is_signer a) (acc_is_writable a).

(** The clock sysvar, as far as the program reads it. *)
Record Clock := mkClock { clock_slot : Z; clock_epoch : Z }.

(* ------------------------------------------------------------------ *)
(** * Solana runtime *)

Class Solana := {
  (** [Pubkey::find_program_address(seeds, program_id)]: address and bump *)
  find_program_address_ext : list (list Z) -> Pubkey -> Pubkey * Z;
  (** [hashv]: SHA-256 of the concatenated slices *)
  hashv : list (list Z) -> hash;
  (** [system_program::id()] *)
  system_program_id : Pubkey;
  (** [Rent::minimum_balance(data_len)] *)
  minimum_balance : Z -> Z;
  (** [EpochSchedule::get_epoch(slot)] *)
  get_epoch : Z -> Z;
  (** [invoke_signed] of the system program's [transfer(from, to, lamports)],
      [allocate(account, space)] and [assign(account, owner)], with the seeds
      of the signing account *)
  invoke_transfer : AccountInfo -> AccountInfo -> Z -> list (list Z) -> res (AccountInfo * AccountInfo);
  invoke_allocate : AccountInfo -> Z -> list (list Z) -> res AccountInfo;
  invoke_assign : AccountInfo -> Pubkey -> list (list Z) -> res AccountInfo;
  (** [AccountInfo::realloc(new_len, false)] *)
  account_realloc : AccountInfo -> Z -> res AccountInfo;
}.

(** A transfer moves lamports: it takes from one account what it gives to the
    other, changes nothing else, and is accepted when the paying account is a
    funded system account without data. *)
Class TransferLaws (S : Solana) := {
  transfer_moves from to n seeds from' to' :
    invoke_transfer from to n seeds = Ok (from', to') -> acc_key from <> acc_key to ->
    0 <= n <= acc_lamports from /\
    from' = with_lamports from (acc_lamports from - n) /\ to' = with_lamports to (acc_lamports to + n);
  transfer_funded program_id seeds bump from to n :
    find_program_address_ext seeds program_id = (acc_key from, bump) ->
    acc_owner from = system_program_id -> acc_data from = [] -> acc_is_writable from = true ->
    acc_is_writable to = true -> 0 <= n <= acc_lamports from -> acc_lamports to + n < U64 ->
    acc_key from <> acc_key to ->
    is_ok (invoke_transfer from to n (seeds ++ [[bump]]));
}.

(** A reallocation by at most the permitted increase succeeds on a writable
    account: the data is cut or extended with zeros. *)
Class ReallocLaws (S : Solana) := {
  realloc_resizes a n :
    acc_is_writable a = true -> 0 <= n <= Z.of_nat (length (acc_data a)) + 10240 ->
    account_realloc a n = Ok (with_data a (take (Z.to_nat n) (acc_data a ++ replicate (Z.to_nat n) 0)));
}.

(** The system program allocates and assigns an address of the program that signs
    for it and still belongs to the system program, within the permitted
    increase. *)
Class CreateLaws (S : Solana) := {
  allocate_zeroes program_id seeds bump a n :
    find_program_address_ext seeds program_id = (acc_key a, bump) -> acc_owner a = system_program_id ->
    acc_data a = [] -> acc_is_writable a = true -> 0 <= n <= 10240 ->
    invoke_allocate a n (seeds ++ [[bump]]) = Ok (with_data a (replicate (Z.to_nat n) 0));
  assign_sets_owner program_id seeds bump a owner :
    find_program_address_ext seeds program_id = (acc_key a, bump) -> acc_owner a = system_program_id ->
    acc_is_writable a = true -> invoke_assign a owner (seeds ++ [[bump]]) = Ok (with_owner a owner);
}.

(** An ideal hash function: collision-free on what it hashes (the
    concatenation of the slices), with 32-byte outputs. *)
Class IdealHash (S : Solana) := {
  hashv_inj a b : hashv a = hashv b -> concat a = concat b;
  hashv_length a : length (hashv a) = 32%nat;
}.

(** A concrete runtime, used by the witnesses only: a hash is an injective
    code of the hashed bytes, an address is the hash of its seeds. *)
Module ConcreteSolana.
Definition code (l : list Z) : hash := Z.pos (encode l) :: replicate 31 0.

#[export] Instance solana : Solana := {|
  find_program_address_ext seeds program_id := (mkPubkey (code (concat (seeds ++ [to_bytes program_id]))), 255);
  hashv l := code (concat l);
  system_program_id := Pubkey_default;
  minimum_balance n := (n + 128) * 6960;
  get_epoch slot := slot / 432000;
  invoke_transfer from to n seeds :=
    if negb ((0 <=? n) && (n <=? acc_lamports from)) then Err (Prog (OtherProgramError 1))
    else Ok (with_lamports from (acc_lamports from - n), with_lamports to (acc_lamports to + n));
  invoke_allocate a n seeds := Ok (with_data a (replicate (Z.to_nat n) 0));
  invoke_assign a o seeds := Ok (with_owner a o);
  account_realloc a n := Ok (with_data a (take (Z.to_nat n) (acc_data a ++ replicate (Z.to_nat n) 0)));
|}.

#[export] Instance transfer_laws : TransferLaws solana.
Proof.
  split.
  - intros from to n seeds from' to' Ht _. simpl in Ht.
    destruct (Z.leb_spec 0 n), (Z.leb_spec n (acc_lamports from)); simpl in Ht; try done.
    by injection Ht as <- <-.
  - intros. simpl. destruct (Z.leb_spec 0 n), (Z.leb_spec n (acc_lamports from)); simpl; try lia. by eexists.
Qed.

#[export] Instance realloc_laws : ReallocLaws solana.
Proof. by split. Qed.

#[export] Instance create_laws : CreateLaws solana.
Proof. by split. Qed.

#[export] Instance ideal : IdealHash solana.
Proof.
  split.
  - intros a b Heq. simpl in Heq. unfold code in Heq. injection Heq as Heq. by apply encode_inj in Heq.
  - intros a. simpl. reflexivity.
Qed.
End ConcreteSolana.

(* ------------------------------------------------------------------ *)
(** * spl-math [PreciseNumber]: 12-decimal fixed point on 256 bits *)

Definition ONE : Z := 1000000000000.

Class PreciseNumberOps := {
  PreciseNumber : Type;
  pn_new : Z -> option PreciseNumber;
  pn_checked_mul : PreciseNumber -> PreciseNumber -> option PreciseNumber;
  pn_checked_div : PreciseNumber -> PreciseNumber -> option PreciseNumber;
  pn_floor : PreciseNumber -> option PreciseNumber;
  pn_to_imprecise : PreciseNumber -> option Z;
  pn_greater_than_or_equal : PreciseNumber -> PreciseNumber -> bool;
}.

(** Laws of the fixed-point numbers.  [pn_val p] is the represented value
    in units of [1/ONE].  Products of whole numbers are exact; a quotient of
    whole numbers is at most half a unit above the exact quotient, never below
    its truncation to 12 decimals (while the scaled numerator fits in 256
    bits), and monotone; flooring and conversion are exact on what fits. *)
Class PreciseNumberLaws (O : PreciseNumberOps) := {
  pn_val : PreciseNumber -> Z;
  pn_val_nonneg p : 0 <= pn_val p;
  pn_new_spec v : fits U128 v ->
    exists p, pn_new v = Some p /\ pn_val p = v * ONE;
  pn_mul_spec p q i j :
    pn_val p = i * ONE -> pn_val q = j * ONE -> 0 <= i -> 0 <= j -> i * j < 2 ^ 192 ->
    exists r, pn_checked_mul p q = Some r /\ pn_val r = i * j * ONE;
  pn_div_zero p q : pn_val q = 0 -> pn_checked_div p q = None;
  pn_div_spec p q i j :
    pn_val p = i * ONE -> pn_val q = j * ONE -> 0 <= i -> 0 < j -> i < 2 ^ 192 ->
    exists r, pn_checked_div p q = Some r /\ 2 * (pn_val r * j) <= 2 * (i * ONE) + j;
  pn_div_trunc p q r i j :
    pn_val p = i * ONE -> pn_val q = j * ONE -> 0 <= i -> 0 < j -> i < 2 ^ 176 ->
    pn_checked_div p q = Some r -> i * ONE / j <= pn_val r;
  pn_div_mono p q r i j p' q' r' i' j' :
    pn_val p = i * ONE -> pn_val q = j * ONE -> 0 <= i -> 0 < j -> i < 2 ^ 176 ->
    pn_val p' = i' * ONE -> pn_val q' = j' * ONE -> 0 <= i' -> 0 < j' -> i' < 2 ^ 176 ->
    pn_checked_div p q = Some r -> pn_checked_div p' q' = Some r' ->
    i * j' <= i' * j -> pn_val r <= pn_val r';
  pn_floor_spec p : exists r, pn_floor p = Some r /\ pn_val r = pn_val p / ONE * ONE;
  pn_to_imprecise_spec p i : pn_val p = i * ONE -> fits U128 i -> pn_to_imprecise p = Some i;
  pn_to_imprecise_range p i : pn_to_imprecise p = Some i -> fits U128 i;
  pn_ge_spec p q : pn_greater_than_or_equal p q = (pn_val q <=? pn_val p);
}.

(** [PreciseNumber::new(v).ok_or(NewPreciseNumberError)] *)
Definition precise `{PreciseNumberOps} (v : Z) : res PreciseNumber :=
  ok_or (pn_new v) (Tip NewPreciseNumberError).

Section precise_laws.
Context `{L : PreciseNumberLaws}.

Lemma precise_ok v : fits U128 v -> exists p, precise v = Ok p /\ pn_val p = v * ONE.
Proof.
  intros Hv. destruct (pn_new_spec v Hv) as (p & Hp & Hval).
  exists p. unfold precise. by rewrite Hp.
Qed.
End precise_laws.

(* ------------------------------------------------------------------ *)
(** * A concrete implementation *)

(** Values are naturals below [2^256], one unit is [1/ONE]; products and
    quotients add half a unit before truncating, and fall back to a coarser
    computation when the scaled intermediate value does not fit. *)
Module U256Precise.
Definition B256 : Z := 2 ^ 256.
Definition new (v : Z) : option N :=
  if (0 <=? v) && (v <? U128) then Some (Z.to_N (v * ONE)) else None.
Definition mul_val (a b : Z) : Z :=
  if a * b + ONE / 2 <? B256 then (a * b + ONE / 2) / ONE
  else if b <=? a then a / ONE * b else b / ONE * a.
Definition checked_mul (a b : N) : option N :=
  let v := mul_val (Z.of_N a) (Z.of_N b) in
  if v <? B256 then Some (Z.to_N v) else None.
Definition div_val (a b : Z) : Z :=
  if a * ONE + ONE / 2 <? B256 then (a * ONE + ONE / 2) / b
  else (a + ONE / 2) / b * ONE.
Definition checked_div (a b : N) : option N :=
  if Z.of_N b =? 0 then None else Some (Z.to_N (div_val (Z.of_N a) (Z.of_N b))).
Definition floor (a : N) : option N := Some (Z.to_N (Z.of_N a / ONE * ONE)).
Definition to_imprecise (a : N) : option Z :=
  let v := (Z.of_N a + ONE / 2) / ONE in if v <? U128 then Some v else None.

#[export] Instance ops : PreciseNumberOps := {
  PreciseNumber := N;
  pn_new := new;
  pn_checked_mul := checked_mul;
  pn_checked_div := checked_div;
  pn_floor := floor;
  pn_to_imprecise := to_imprecise;
  pn_greater_than_or_equal a b := (b <=? a)%N;
}.

Lemma mul_val_whole i j :
  0 <= i -> 0 <= j -> mul_val (i * ONE) (j * ONE) = i * j * ONE.
Proof.
  intros Hi Hj. unfold mul_val.
  destruct (Z.ltb_spec (i * ONE * (j * ONE) + ONE / 2) B256) as [_|_].
  - replace (i * ONE * (j * ONE) + ONE / 2) with (ONE / 2 + (i * j * ONE) * ONE) by ring.
    rewrite Z.div_add by done. change (ONE / 2 / ONE) with 0. ring.
  - rewrite !Z.div_mul by done. destruct (_ <=? _); ring.
Qed.

Lemma div_val_exact i j :
  0 <= i -> 0 < j -> i < 2 ^ 176 -> div_val (i * ONE) (j * ONE) = i * ONE / j.
Proof.
  intros Hi Hj Hlt. unfold div_val.
  destruct (Z.ltb_spec (i * ONE * ONE + ONE / 2) B256) as [_|Hge].
  - replace (i * ONE * ONE + ONE / 2) with (ONE / 2 + (i * ONE) * ONE) by ring.
    rewrite (Z.mul_comm j ONE), <- Z.div_div by (unfold ONE; lia).
    rewrite Z.div_add by done. f_equal.
  - exfalso. revert Hge. unfold B256, ONE. apply Z.lt_nge.
    change (1000000000000 / 2) with 500000000000.
    assert (2 ^ 256 = 2 ^ 80 * 2 ^ 176) as -> by reflexivity.
    change (2 ^ 80) with 1208925819614629174706176 in *. nia.
Qed.

Lemma div_val_le i j :
  0 <= i -> 0 < j -> 2 * (div_val (i * ONE) (j * ONE) * j) <= 2 * (i * ONE) + j.
Proof.
  intros Hi Hj. unfold div_val.
  destruct (_ <? B256).
  - replace (i * ONE * ONE + ONE / 2) with (ONE / 2 + (i * ONE) * ONE) by ring.
    rewrite (Z.mul_comm j ONE), <- Z.div_div by (unfold ONE; lia).
    rewrite Z.div_add by done. change (ONE / 2 / ONE) with 0.
    pose proof (Z.mul_div_le (i * ONE) j Hj). rewrite Z.add_0_l. lia.
  - replace (i * ONE + ONE / 2) with (ONE / 2 + i * ONE) by ring.
    rewrite (Z.mul_comm j ONE), <- Z.div_div by (unfold ONE; lia).
    rewrite Z.div_add by done. change (ONE / 2 / ONE) with 0. rewrite Z.add_0_l.
    pose proof (Z.mul_div_le i j Hj). unfold ONE. nia.
Qed.

Lemma div_val_nonneg a b : 0 <= a -> 0 < b -> 0 <= div_val a b.
Proof.
  intros. unfold div_val. assert (0 <= ONE / 2) by done.
  destruct (_ <? _).
  - apply Z.div_pos; [|done]. unfold ONE in *. lia.
  - apply Z.mul_nonneg_nonneg; [|done]. apply Z.div_pos; [|done]. lia.
Qed.

Lemma u256_checked_div_Some (p q r : N) i j :
  Z.of_N p = i * ONE -> Z.of_N q = j * ONE -> 0 <= i -> 0 < j ->
  checked_div p q = Some r -> Z.of_N r = div_val (i * ONE) (j * ONE).
Proof.
  unfold checked_div. intros -> -> Hi Hj.
  destruct (Z.eqb_spec (j * ONE) 0); [unfold ONE in *; lia|].
  intros [= <-]. rewrite Z2N.id; [done|]. apply div_val_nonneg; unfold ONE; lia.
Qed.

Lemma div_mono i j i' j' :
  0 <= i -> 0 < j -> 0 <= i' -> 0 < j' -> i * j' <= i' * j -> i * ONE / j <= i' * ONE / j'.
Proof.
  intros. apply Z.div_le_lower_bound; [done|].
  pose proof (Z.mul_div_le (i * ONE) j ltac:(lia)) as Hle.
  set (v := i * ONE / j) in *. unfold ONE in *.
  apply (Z.mul_le_mono_pos_l _ _ j); nia.
Qed.

#[export] Instance laws : PreciseNumberLaws ops.
Proof.
  refine {| pn_val := Z.of_N : @PreciseNumber ops -> Z |}; simpl.
  - intros. apply N2Z.is_nonneg.
  - intros v [H0 H1]. unfold new.
    rewrite (proj2 (Z.leb_le 0 v) H0), (proj2 (Z.ltb_lt _ _) H1). simpl.
    eexists. split; [done|]. rewrite Z2N.id; [done|]. unfold ONE. lia.
  - intros p q i j Hp Hq Hi Hj Hlt. unfold checked_mul.
    rewrite Hp, Hq, mul_val_whole by done.
    assert (i * j * ONE < B256).
    { unfold ONE, B256. assert (2 ^ 256 = 2 ^ 64 * 2 ^ 192) as -> by reflexivity.
      change (2 ^ 64) with U64. lia. }
    rewrite (proj2 (Z.ltb_lt _ _)) by done. eexists. split; [done|].
    apply Z2N.id. unfold ONE. nia.
  - intros p q Hq. unfold checked_div. by rewrite Hq.
  - intros p q i j Hp Hq Hi Hj _. unfold checked_div.
    rewrite Hp, Hq. destruct (Z.eqb_spec (j * ONE) 0); [unfold ONE in *; lia|].
    eexists. split; [done|]. rewrite Z2N.id; [by apply div_val_le|].
    apply div_val_nonneg; unfold ONE; lia.
  - intros p q r i j Hp Hq Hi Hj Hlt Hr.
    by rewrite (u256_checked_div_Some _ _ _ _ _ Hp Hq Hi Hj Hr), div_val_exact.
  - intros p q r i j p' q' r' i' j' Hp Hq Hi Hj Hlt Hp' Hq' Hi' Hj' Hlt' Hr Hr' Hle.
    rewrite (u256_checked_div_Some _ _ _ _ _ Hp Hq Hi Hj Hr), div_val_exact by done.
    rewrite (u256_checked_div_Some _ _ _ _ _ Hp' Hq' Hi' Hj' Hr'), div_val_exact by done.
    by apply div_mono.
  - intros p. eexists. split; [done|]. apply Z2N.id.
    pose proof (N2Z.is_nonneg p). apply Z.mul_nonneg_nonneg; [|done].
    apply Z.div_pos; done.
  - intros p i Hp [H0 H1]. unfold to_imprecise. rewrite Hp.
    rewrite Z.add_comm, Z.div_add by done. change (ONE / 2 / ONE) with 0.
    by rewrite Z.add_0_l, (proj2 (Z.ltb_lt _ _) H1).
  - intros p i Hp. unfold to_imprecise in Hp. destruct (Z.ltb_spec ((Z.of_N p + ONE / 2) / ONE) U128); [|done].
    injection Hp as <-. split; [|done]. apply Z.div_pos; [|done].
    pose proof (N2Z.is_nonneg p). assert (0 <= ONE / 2) by done. lia.
  - intros p q. destruct (N.leb_spec q p), (Z.leb_spec (Z.of_N q) (Z.of_N p)); (done || lia).
Qed.
End U256Precise.

(* ------------------------------------------------------------------ *)
(** * Other programs and their account checks *)

(** What the instruction handlers take from the restaking, vault, stake pool
    and tip distribution programs and from [jito_jsm_core::loader]: account
    checks, fields of decoded accounts, and cross-program calls. *)
Class Programs := {
  (** [load_signer], [load_system_account], [load_system_program],
      [load_associated_token_account] *)
  load_signer : AccountInfo -> bool -> res unit;
  load_system_account : AccountInfo -> bool -> res unit;
  load_system_program : AccountInfo -> res unit;
  load_associated_token_account : AccountInfo -> Pubkey -> Pubkey -> res unit;
  (** [Ncn::load], [Operator::load], [Vault::load] with the program's id *)
  ncn_load : AccountInfo -> bool -> res unit;
  operator_load : AccountInfo -> bool -> res unit;
  vault_load : AccountInfo -> bool -> res unit;
  (** fields of the decoded [Ncn] and [Operator] *)
  ncn_admin_of : AccountInfo -> res Pubkey;
  operator_voter_of : AccountInfo -> res Pubkey;
  (** [spl_stake_pool::id()], [jito_tip_distribution::ID] *)
  spl_stake_pool_id : Pubkey;
  tip_distribution_id : Pubkey;
  (** [invoke_signed] of the stake pool's [deposit_sol]: the other accounts,
      the funding account, the destination token account, the lamports and
      the signer's seeds; the funding account and the destination after it *)
  invoke_deposit_sol : list AccountInfo -> AccountInfo -> AccountInfo -> Z -> list (list Z) ->
    res (AccountInfo * AccountInfo);
  (** [invoke_signed] of [upload_merkle_root_ix]: the distribution's
      configuration, the authority, the distribution account and the data *)
  invoke_upload_merkle_root : AccountInfo -> AccountInfo -> AccountInfo -> hash -> Z -> Z -> list (list Z) ->
    res AccountInfo;
}.

(** A system account belongs to the system program. *)
Class SystemLaws (S : Solana) (P : Programs) := {
  load_system_owner a w : load_system_account a w = Ok tt -> acc_owner a = system_program_id;
}.

(** A deposit takes the lamports from the funding account. *)
Class DepositLaws (P : Programs) := {
  deposit_takes others from to n seeds from' to' :
    invoke_deposit_sol others from to n seeds = Ok (from', to') ->
    0 <= n <= acc_lamports from /\ from' = with_lamports from (acc_lamports from - n);
}.

(** Concrete programs, used by the witnesses only: checks pass (system accounts
    belong to the system program), and the first data bytes of an account are its
    admin or voter. *)
Module ConcretePrograms.
Import ConcreteSolana.

#[export] Instance programs : Programs := {|
  load_signer a w := if acc_is_signer a then Ok tt else Err (Prog MissingRequiredSignature);
  load_system_account a w := if bool_decide (acc_owner a = system_program_id) then Ok tt else Err (Prog InvalidAccountOwner);
  load_system_program a := Ok tt;
  load_associated_token_account a o m := Ok tt;
  ncn_load a w := Ok tt;
  operator_load a w := Ok tt;
  vault_load a w := Ok tt;
  ncn_admin_of a := Ok (mkPubkey (acc_data a));
  operator_voter_of a := Ok (mkPubkey (acc_data a));
  spl_stake_pool_id := key 200;
  tip_distribution_id := key 201;
  invoke_deposit_sol others from to n seeds :=
    if negb ((0 <=? n) && (n <=? acc_lamports from)) then Err (Prog (OtherProgramError 1))
    else Ok (with_lamports from (acc_lamports from - n), to);
  invoke_upload_merkle_root c a t r total nodes seeds := Ok t;
|}.

#[export] Instance system_laws : SystemLaws solana programs.
Proof. split. intros a w. cbn. by case_bool_decide. Qed.

#[export] Instance deposit_laws : DepositLaws programs.
Proof.
  split. intros others from to n seeds from' to' Hd. simpl in Hd.
  destruct (Z.leb_spec 0 n), (Z.leb_spec n (acc_lamports from)); simpl in Hd; try done.
  by injection Hd as <- <-.
Qed.
End ConcretePrograms.
