(* ===== verification/Restaking.v ===== *)
(** The accounts of the restaking and vault programs and of the price oracle,
    as the set-up instructions read them: loaders, fields of decoded accounts
    and the activity of opt-in states, all parameters of the model. *)

From Stdlib Require Import String.
From S2P Require Import Prelude Errors External.

Class Restaking := {
  (** [load_token_mint], [Config::load] of the restaking program *)
  load_token_mint : AccountInfo -> res unit;
  restaking_config_load : AccountInfo -> bool -> res unit;
  (** [NcnOperatorState::load(state, ncn, operator)],
      [NcnVaultTicket::load(ticket, ncn, vault)],
      [VaultNcnTicket::load(ticket, vault, ncn)],
      [VaultOperatorDelegation::load(delegation, vault, operator)] *)
  ncn_operator_state_load : AccountInfo -> AccountInfo -> AccountInfo -> bool -> res unit;
  ncn_vault_ticket_load : AccountInfo -> AccountInfo -> AccountInfo -> bool -> res unit;
  vault_ncn_ticket_load : AccountInfo -> AccountInfo -> AccountInfo -> bool -> res unit;
  vault_operator_delegation_load : AccountInfo -> AccountInfo -> AccountInfo -> bool -> res unit;
  (** the epoch length in decoded configuration bytes *)
  config_epoch_length : list Z -> res Z;
  (** fields of the decoded [Ncn], [Operator], [NcnOperatorState], [Vault] *)
  ncn_program_admin_of : AccountInfo -> res Pubkey;
  ncn_weight_table_admin_of : AccountInfo -> res Pubkey;
  ncn_operator_count_of : AccountInfo -> res Z;
  ncn_vault_count_of : AccountInfo -> res Z;
  operator_fee_bps_of : AccountInfo -> res Z;
  operator_index_of : AccountInfo -> res Z;
  ncn_operator_state_index_of : AccountInfo -> res Z;
  vault_index_of : AccountInfo -> res Z;
  vault_supported_mint_of : AccountInfo -> res Pubkey;
  (** activity of the opt-ins at a slot, given the epoch length:
      [ncn_opt_in_state.is_active], [operator_opt_in_state.is_active_or_cooldown],
      the two tickets' states, and [Vault::is_update_needed] *)
  ncn_opt_in_is_active : AccountInfo -> Z -> Z -> res bool;
  operator_opt_in_is_active_or_cooldown : AccountInfo -> Z -> Z -> res bool;
  ncn_vault_ticket_is_active : AccountInfo -> Z -> Z -> res bool;
  vault_ncn_ticket_is_active_or_cooldown : AccountInfo -> Z -> Z -> res bool;
  vault_is_update_needed : AccountInfo -> Z -> Z -> res bool;
  (** [delegation_state.total_security()] of a decoded delegation *)
  delegation_total_security : AccountInfo -> res Z;
}.

(** The switchboard feed and the decimal numbers of its prices. *)
Class Switchboard := {
  Feed : Type;
  Decimal : Type;
  feed_parse : AccountInfo -> option Feed;
  feed_value : Feed -> Clock -> option Decimal;
  feed_result_slot : Feed -> Z;
  decimal_of : Z -> Decimal;
  decimal_checked_mul : Decimal -> Decimal -> option Decimal;
  decimal_round : Decimal -> Decimal;
  decimal_to_u128 : Decimal -> option Z;
}.

(** The tip distribution program's [claim], signed by the payer: the accounts
    of the claim, the proof, the amount, the bump and the signer's seeds. *)
Class TipClaim := {
  invoke_claim : list AccountInfo -> list (list Z) -> Z -> Z -> list (list Z) -> res (list AccountInfo);
}.

(** Concrete accounts, used by the witnesses only: a field is read from the
    account's first byte, every opt-in is active. *)
Module ConcreteRestaking.
Definition first_byte (a : AccountInfo) : res Z := Ok (default 0 (head (acc_data a))).

#[export] Instance restaking : Restaking := {|
  load_token_mint a := Ok tt;
  restaking_config_load a w := Ok tt;
  ncn_operator_state_load a n o w := Ok tt;
  ncn_vault_ticket_load a n v w := Ok tt;
  vault_ncn_ticket_load a v n w := Ok tt;
  vault_operator_delegation_load a v o w := Ok tt;
  config_epoch_length l := Ok 432000;
  ncn_program_admin_of a := Ok (mkPubkey (acc_data a));
  ncn_weight_table_admin_of a := Ok (mkPubkey (acc_data a));
  ncn_operator_count_of := first_byte;
  ncn_vault_count_of := first_byte;
  operator_fee_bps_of := first_byte;
  operator_index_of := first_byte;
  ncn_operator_state_index_of := first_byte;
  vault_index_of := first_byte;
  vault_supported_mint_of a := Ok (key (1 + default 0 (head (acc_data a))));
  ncn_opt_in_is_active a s l := Ok true;
  operator_opt_in_is_active_or_cooldown a s l := Ok true;
  ncn_vault_ticket_is_active a s l := Ok true;
  vault_ncn_ticket_is_active_or_cooldown a s l := Ok true;
  vault_is_update_needed a s l := Ok false;
  delegation_total_security := first_byte;
|}.

#[export] Instance switchboard : Switchboard := {|
  Feed := Z;
  Decimal := Z;
  feed_parse a := Some (acc_lamports a);
  feed_value f c := Some f;
  feed_result_slot f := f;
  decimal_of z := z;
  decimal_checked_mul a b := Some (a * b);
  decimal_round d := d;
  decimal_to_u128 d := Some d;
|}.
End ConcreteRestaking.
