(* ===== verification/Constants.v ===== *)
(** Constants (core/src/constants.rs), the reallocation step
    (core/src/utils.rs), the account discriminators
    (core/src/discriminators.rs) and the shared reward arithmetic: the floor of
    [rewards * weight / total] that the routers compute with [PreciseNumber]. *)

From S2P Require Import Prelude Errors External.

Definition MAX_FEE_BPS : Z := 10000.
Definition MAX_ST_MINTS : nat := 64.
Definition MAX_VAULTS : nat := 64.
Definition MAX_OPERATORS : nat := 256.
Definition MIN_EPOCHS_BEFORE_STALL : Z := 1.
Definition MAX_EPOCHS_BEFORE_STALL : Z := 50.
Definition MIN_EPOCHS_AFTER_CONSENSUS_BEFORE_CLOSE : Z := 10.
Definition MAX_EPOCHS_AFTER_CONSENSUS_BEFORE_CLOSE : Z := 100.
Definition MIN_VALID_SLOTS_AFTER_CONSENSUS : Z := 1000.
(** [DEFAULT_SLOTS_PER_EPOCH] of the Solana clock is 432000. *)
Definition MAX_VALID_SLOTS_AFTER_CONSENSUS : Z := 50 * 432000.
Definition PRECISE_CONSENSUS_NUMERATOR : Z := 2.
Definition PRECISE_CONSENSUS_DENOMINATOR : Z := 3.

Definition precise_consensus `{PreciseNumberOps} : res PreciseNumber :=
  n ← precise PRECISE_CONSENSUS_NUMERATOR;
  d ← precise PRECISE_CONSENSUS_DENOMINATOR;
  ok_or (pn_checked_div n d) (Tip DenominatorIsZero).

Definition DEFAULT_CONSENSUS_REACHED_SLOT : Z := u64_max.
(** [MAX_PERMITTED_DATA_INCREASE] of the Solana entrypoint is 10240. *)
Definition MAX_REALLOC_BYTES : Z := 10240.
Definition WEIGHT_PRECISION : Z := 1000000000.
Definition SWITCHBOARD_MAX_STALE_SLOTS : Z := 100.

(** The bytes of [J1toso1uCk3RLmjorhTtrVwY9HJ7X8V9yYac6Y7kGCPn]. *)
Definition JITOSOL_MINT : Pubkey := mkPubkey
  [252; 209; 65; 233; 131; 44; 175; 16; 173; 145; 116; 149; 202; 15; 39; 27;
   91; 41; 60; 212; 112; 39; 234; 115; 112; 7; 237; 64; 235; 57; 160; 189].

(** The bytes of [Jito4APyf642JPZPx3hGc6WWJ8zPKtRbRs4P815Awbb] and of
    [A43DyUGA7s8eXPxqEjJY6EBu1KKbNgfxF8h17VAHn13w]. *)
Definition JITOSOL_POOL_ADDRESS : Pubkey := mkPubkey
  [4; 138; 62; 8; 195; 180; 149; 190; 23; 244; 84; 39; 216; 155; 236; 91;
   128; 199; 226; 105; 92; 24; 100; 215; 103; 67; 219; 57; 190; 211; 70; 214].
Definition SWITCHBOARD_QUEUE : Pubkey := mkPubkey
  [134; 128; 112; 104; 67; 47; 24; 106; 20; 124; 240; 177; 58; 48; 6; 125;
   56; 98; 4; 234; 157; 108; 139; 4; 116; 58; 194; 239; 1; 11; 7; 82].

(** ** Reallocation *)

Definition get_new_size (current_size target_size : Z) : res Z :=
  s ← ok_or (checked_add U64 current_size MAX_REALLOC_BYTES) (Prog ProgramArithmeticOverflow);
  mret (Z.min s target_size).

(** Repeated reallocation calls, as the realloc instructions make them while
    the account is smaller than its target. *)
Fixpoint realloc_times (n : nat) (current_size target_size : Z) : res Z :=
  match n with
  | O => Ok current_size
  | S n => if current_size <? target_size
           then s ← get_new_size current_size target_size; realloc_times n s target_size
           else Ok current_size
  end.

(** ** Discriminators *)

Inductive Discriminators : Type :=
| DConfig | DVaultRegistry | DWeightTable | DEpochSnapshot | DOperatorSnapshot
| DBallotBox | DBaseRewardRouter | DNcnRewardRouter | DEpochState | DEpochMarker.

#[export] Instance Discriminators_eq_dec : EqDecision Discriminators.
Proof. solve_decision. Defined.

Definition discriminator (d : Discriminators) : Z :=
  match d with
  | DConfig => 1
  | DVaultRegistry => 2
  | DWeightTable => 16
  | DEpochSnapshot => 17
  | DOperatorSnapshot => 18
  | DBallotBox => 32
  | DBaseRewardRouter => 64
  | DNcnRewardRouter => 65
  | DEpochState => 80
  | DEpochMarker => 81
  end.

Lemma discriminator_inj d1 d2 : discriminator d1 = discriminator d2 -> d1 = d2.
Proof. destruct d1, d2; simpl; congruence || lia. Qed.

(** ** Reward arithmetic *)

(** The conversion [u128 -> u64] of a reward ([try_into]). *)
Definition to_u64 (v : Z) : res Z :=
  if v <? U64 then Ok v else Err (Tip CastToU64Error).

(** [floor (rewards * weight / total)] as a [u64]. *)
Definition mul_div_floor `{PreciseNumberOps} (rewards weight total : Z) : res Z :=
  pr ← precise rewards;
  pw ← precise weight;
  pt ← precise total;
  q ← ok_or (m ← pn_checked_mul pr pw; pn_checked_div m pt) (Tip ArithmeticOverflow);
  f ← ok_or (pn_floor q) (Tip ArithmeticFloorError);
  v ← ok_or (pn_to_imprecise f) (Tip CastToImpreciseNumberError);
  to_u64 v.

Section reward_math.
Context `{L : PreciseNumberLaws}.

(** The quotient exists and its floor exceeds the exact value by at most
    half a unit in the last decimal. *)
Lemma mul_div_floor_spec r w W :
  fits U64 r -> fits U128 w -> fits U128 W -> 0 < W -> w <= W ->
  exists x, mul_div_floor r w W = Ok x /\ 0 <= x <= r /\
            2 * (x * ONE * W) <= 2 * (r * w * ONE) + W /\
            (r * w < 2 ^ 176 -> r * w / W <= x).
Proof.
  intros Hr Hw HW HW0 Hle. unfold fits in *.
  destruct (precise_ok r) as (pr & Epr & Vr); [unfold fits; lia|].
  destruct (precise_ok w) as (pw & Epw & Vw); [unfold fits; lia|].
  destruct (precise_ok W) as (pW & EpW & VW); [unfold fits; lia|].
  assert (Hrw : 0 <= r * w < 2 ^ 192).
  { assert (2 ^ 192 = U64 * U128) as -> by reflexivity. nia. }
  destruct (pn_mul_spec pr pw r w) as (m & Em & Vm); [done|done|lia|lia|lia|].
  destruct (pn_div_spec m pW (r * w) W) as (d & Ed & Vd); [done|done|lia|lia|lia|].
  destruct (pn_floor_spec d) as (f & Ef & Vf).
  pose proof (pn_val_nonneg d) as Hd0.
  set (x := pn_val d / ONE) in *.
  assert (Hx0 : 0 <= x) by (apply Z.div_pos; [done|done]).
  assert (Hxd : x * ONE <= pn_val d).
  { rewrite Z.mul_comm. apply Z.mul_div_le. done. }
  assert (Hxr : x <= r).
  { apply Z.nlt_ge. intros Hlt. unfold ONE in *.
    assert ((r + 1) * 1000000000000 <= pn_val d) by lia.
    assert (r * w <= r * W) by nia. nia. }
  exists x. unfold mul_div_floor. rewrite Epr, Epw, EpW. cbn. rewrite Em. cbn.
  rewrite Ed. cbn. rewrite Ef. cbn.
  rewrite (pn_to_imprecise_spec f x) by (done || (unfold fits; lia)). cbn.
  unfold to_u64. rewrite (proj2 (Z.ltb_lt x U64)) by lia.
  split; [done|]. split; [lia|]. split; [nia|].
  intros Hsmall. subst x.
  pose proof (pn_div_trunc m pW d (r * w) W Vm VW ltac:(lia) HW0 Hsmall Ed) as Ht.
  transitivity (r * w * ONE / W / ONE); [|apply Z.div_le_mono; done].
  rewrite Z.div_div by (done || lia). rewrite Z.div_mul_cancel_r by (done || lia). done.
Qed.

(** With a divisor below one whole unit the floor is exact. *)
Lemma mul_div_floor_exact r w W :
  fits U64 r -> fits U128 w -> 0 < W < ONE -> w <= W ->
  mul_div_floor r w W = Ok (r * w / W).
Proof.
  intros Hr Hw HW Hle.
  destruct (mul_div_floor_spec r w W) as (x & Ex & Hx & Hub & Hlb);
    [done|done|unfold fits, ONE in *; lia|lia|done|].
  rewrite Ex. f_equal. unfold fits, ONE in *.
  assert (r * w / W <= x). { apply Hlb. assert (2 ^ 176 = 2 ^ 112 * U64) as -> by done. nia. }
  assert (x <= r * w / W); [|lia].
  apply Z.div_le_lower_bound; [lia|]. nia.
Qed.

(** Shares of one amount never exceed it: with weights that add up to at
    most [W] and fewer than [2 * ONE] shares, the floors add up to at most
    [r]. *)
Lemma shares_le r W (n : Z) (sw sx : Z) :
  0 < W -> 0 <= r -> 0 <= n < 2 * ONE -> sw <= W ->
  2 * (sx * ONE * W) <= 2 * (r * sw * ONE) + n * W -> sx <= r.
Proof.
  intros HW Hr Hn Hsw Hb. apply Z.nlt_ge. intros Hlt. unfold ONE in *.
  assert (r * sw <= r * W) by nia.
  assert ((r + 1) * W <= sx * W) by nia. nia.
Qed.
End reward_math.

(** ** Reallocation terminates *)

Lemma get_new_size_spec current target :
  0 <= current -> current + MAX_REALLOC_BYTES < U64 ->
  get_new_size current target = Ok (Z.min (current + MAX_REALLOC_BYTES) target).
Proof. intros. unfold get_new_size. by rewrite checked_add_ok. Qed.

(** The realloc instructions reach the target size: [n] calls suffice once
    [n * MAX_REALLOC_BYTES] covers the missing bytes, and the size never
    exceeds the target. *)
Lemma realloc_times_spec n current target :
  0 <= current -> target + MAX_REALLOC_BYTES < U64 ->
  realloc_times n current target
  = Ok (if current <? target
        then Z.min (current + Z.of_nat n * MAX_REALLOC_BYTES) target else current).
Proof.
  revert current. induction n as [|n IH]; intros c Hc Ht; simpl.
  - f_equal. destruct (Z.ltb_spec c target); lia.
  - destruct (Z.ltb_spec c target) as [Hlt|Hge]; [|done].
    rewrite get_new_size_spec by lia. simpl. unfold MAX_REALLOC_BYTES in *.
    rewrite IH by lia. f_equal.
    destruct (Z.ltb_spec (c + 10240) target); destruct (Z.ltb_spec (Z.min (c + 10240) target) target); lia.
Qed.
