(* ===== verification/FeeGroups.v ===== *)
(** The two fee group types (core/src/base_fee_group.rs and
    core/src/ncn_fee_group.rs): eight groups each, stored as one byte, with
    the conversions between the byte, the enumeration and the array index. *)

From S2P Require Import Prelude Errors External.

(** Case analysis on a byte [z] matched in [H] by a [match] on its value. *)
Ltac byte_cases z H :=
  destruct z as [|z|z]; simpl in H; try discriminate H;
  repeat (destruct z as [z|z|]; simpl in H; try discriminate H).

Module BaseFeeGroup.

Inductive BaseFeeGroupType : Type :=
| DAO | Reserved1 | Reserved2 | Reserved3 | Reserved4 | Reserved5 | Reserved6 | Reserved7.

#[global] Instance BaseFeeGroupType_eq_dec : EqDecision BaseFeeGroupType.
Proof. solve_decision. Defined.

(** [group as u8] *)
Definition as_u8 (g : BaseFeeGroupType) : Z :=
  match g with
  | DAO => 0
  | Reserved1 => 1
  | Reserved2 => 2
  | Reserved3 => 3
  | Reserved4 => 4
  | Reserved5 => 5
  | Reserved6 => 6
  | Reserved7 => 7
  end.

Record BaseFeeGroup := mk { group : Z }.

#[global] Instance BaseFeeGroup_eq_dec : EqDecision BaseFeeGroup.
Proof. solve_decision. Defined.

Definition FEE_GROUP_COUNT : nat := 8.

Definition new (group : BaseFeeGroupType) : BaseFeeGroup :=
  match group with
  | DAO => mk (as_u8 DAO)
  | Reserved1 => mk (as_u8 Reserved1)
  | Reserved2 => mk (as_u8 Reserved2)
  | Reserved3 => mk (as_u8 Reserved3)
  | Reserved4 => mk (as_u8 Reserved4)
  | Reserved5 => mk (as_u8 Reserved5)
  | Reserved6 => mk (as_u8 Reserved6)
  | Reserved7 => mk (as_u8 Reserved7)
  end.

Definition default : BaseFeeGroup := mk (as_u8 DAO).

Definition try_from (group : Z) : res BaseFeeGroup :=
  match group with
  | 0 => Ok (new DAO)
  | 1 => Ok (new Reserved1)
  | 2 => Ok (new Reserved2)
  | 3 => Ok (new Reserved3)
  | 4 => Ok (new Reserved4)
  | 5 => Ok (new Reserved5)
  | 6 => Ok (new Reserved6)
  | 7 => Ok (new Reserved7)
  | _ => Err (Tip InvalidBaseFeeGroup)
  end.

Definition dao : BaseFeeGroup := new DAO.

Definition group_type (self : BaseFeeGroup) : res BaseFeeGroupType :=
  match group self with
  | 0 => Ok DAO
  | 1 => Ok Reserved1
  | 2 => Ok Reserved2
  | 3 => Ok Reserved3
  | 4 => Ok Reserved4
  | 5 => Ok Reserved5
  | 6 => Ok Reserved6
  | 7 => Ok Reserved7
  | _ => Err (Tip InvalidNcnFeeGroup)
  end.

Definition group_index (self : BaseFeeGroup) : res nat :=
  g ← group_type self; mret (Z.to_nat (as_u8 g)).

Definition all_groups : list BaseFeeGroup :=
  [ new DAO; new Reserved1; new Reserved2; new Reserved3; new Reserved4; new Reserved5; new Reserved6; new Reserved7 ].

(** The valid groups are exactly the bytes 0 to 7, and the index of a valid
    group is that byte. *)
Lemma bfg_index_spec g i :
  group_index g = Ok i <-> group g = Z.of_nat i /\ (i < FEE_GROUP_COUNT)%nat.
Proof.
  destruct g as [z]. unfold group_index, group_type, FEE_GROUP_COUNT. simpl. split.
  - intros H. byte_cases z H; injection H as <-; simpl; lia.
  - intros [-> Hi]. do 8 (destruct i as [|i]; [reflexivity|]). lia.
Qed.

Lemma bfg_index_valid g : fits 8 (group g) -> group_index g = Ok (Z.to_nat (group g)).
Proof. intros [H0 H1]. apply bfg_index_spec. unfold FEE_GROUP_COUNT. lia. Qed.

Lemma bfg_index_lt g i : group_index g = Ok i -> (i < 8)%nat.
Proof. intros H%bfg_index_spec. by destruct H. Qed.

Lemma bfg_index_inj g1 g2 i : group_index g1 = Ok i -> group_index g2 = Ok i -> g1 = g2.
Proof.
  intros [H1 _]%bfg_index_spec [H2 _]%bfg_index_spec.
  destruct g1, g2. simpl in *. congruence.
Qed.

Lemma bfg_all_groups_length : length all_groups = FEE_GROUP_COUNT.
Proof. reflexivity. Qed.

Lemma bfg_all_groups_lookup i : (i < 8)%nat -> all_groups !! i = Some (mk (Z.of_nat i)).
Proof. intros Hi. do 8 (destruct i as [|i]; [reflexivity|]). lia. Qed.

Lemma bfg_all_groups_index i : (i < 8)%nat -> group_index (mk (Z.of_nat i)) = Ok i.
Proof. intros. by apply bfg_index_spec. Qed.

Lemma bfg_all_groups_valid g : g ∈ all_groups -> exists i, group_index g = Ok i /\ (i < 8)%nat.
Proof.
  intros [i Hi]%list_elem_of_lookup. pose proof (lookup_lt_Some _ _ _ Hi) as Hlt.
  rewrite bfg_all_groups_length in Hlt. rewrite (bfg_all_groups_lookup i) in Hi by done.
  injection Hi as <-. exists i. split; [by apply bfg_all_groups_index|done].
Qed.

End BaseFeeGroup.

Module NcnFeeGroup.

Inductive NcnFeeGroupType : Type :=
| Default | JTO | Reserved2 | Reserved3 | Reserved4 | Reserved5 | Reserved6 | Reserved7.

#[global] Instance NcnFeeGroupType_eq_dec : EqDecision NcnFeeGroupType.
Proof. solve_decision. Defined.

(** [group as u8] *)
Definition as_u8 (g : NcnFeeGroupType) : Z :=
  match g with
  | Default => 0
  | JTO => 1
  | Reserved2 => 2
  | Reserved3 => 3
  | Reserved4 => 4
  | Reserved5 => 5
  | Reserved6 => 6
  | Reserved7 => 7
  end.

Record NcnFeeGroup := mk { group : Z }.

#[global] Instance NcnFeeGroup_eq_dec : EqDecision NcnFeeGroup.
Proof. solve_decision. Defined.

Definition FEE_GROUP_COUNT : nat := 8.

Definition new (group : NcnFeeGroupType) : NcnFeeGroup :=
  match group with
  | Default => mk (as_u8 Default)
  | JTO => mk (as_u8 JTO)
  | Reserved2 => mk (as_u8 Reserved2)
  | Reserved3 => mk (as_u8 Reserved3)
  | Reserved4 => mk (as_u8 Reserved4)
  | Reserved5 => mk (as_u8 Reserved5)
  | Reserved6 => mk (as_u8 Reserved6)
  | Reserved7 => mk (as_u8 Reserved7)
  end.

Definition default : NcnFeeGroup := mk (as_u8 Default).

Definition try_from (group : Z) : res NcnFeeGroup :=
  match group with
  | 0 => Ok (new Default)
  | 1 => Ok (new JTO)
  | 2 => Ok (new Reserved2)
  | 3 => Ok (new Reserved3)
  | 4 => Ok (new Reserved4)
  | 5 => Ok (new Reserved5)
  | 6 => Ok (new Reserved6)
  | 7 => Ok (new Reserved7)
  | _ => Err (Tip InvalidNcnFeeGroup)
  end.

Definition lst : NcnFeeGroup := new Default.

Definition jto : NcnFeeGroup := new JTO.

Definition group_type (self : NcnFeeGroup) : res NcnFeeGroupType :=
  match group self with
  | 0 => Ok Default
  | 1 => Ok JTO
  | 2 => Ok Reserved2
  | 3 => Ok Reserved3
  | 4 => Ok Reserved4
  | 5 => Ok Reserved5
  | 6 => Ok Reserved6
  | 7 => Ok Reserved7
  | _ => Err (Tip InvalidNcnFeeGroup)
  end.

Definition group_index (self : NcnFeeGroup) : res nat :=
  g ← group_type self; mret (Z.to_nat (as_u8 g)).

Definition all_groups : list NcnFeeGroup :=
  [ new Default; new JTO; new Reserved2; new Reserved3; new Reserved4; new Reserved5; new Reserved6; new Reserved7 ].

(** The valid groups are exactly the bytes 0 to 7, and the index of a valid
    group is that byte. *)
Lemma nfg_index_spec g i :
  group_index g = Ok i <-> group g = Z.of_nat i /\ (i < FEE_GROUP_COUNT)%nat.
Proof.
  destruct g as [z]. unfold group_index, group_type, FEE_GROUP_COUNT. simpl. split.
  - intros H. byte_cases z H; injection H as <-; simpl; lia.
  - intros [-> Hi]. do 8 (destruct i as [|i]; [reflexivity|]). lia.
Qed.

Lemma nfg_index_valid g : fits 8 (group g) -> group_index g = Ok (Z.to_nat (group g)).
Proof. intros [H0 H1]. apply nfg_index_spec. unfold FEE_GROUP_COUNT. lia. Qed.

Lemma nfg_index_lt g i : group_index g = Ok i -> (i < 8)%nat.
Proof. intros H%nfg_index_spec. by destruct H. Qed.

Lemma nfg_index_inj g1 g2 i : group_index g1 = Ok i -> group_index g2 = Ok i -> g1 = g2.
Proof.
  intros [H1 _]%nfg_index_spec [H2 _]%nfg_index_spec.
  destruct g1, g2. simpl in *. congruence.
Qed.

Lemma nfg_all_groups_length : length all_groups = FEE_GROUP_COUNT.
Proof. reflexivity. Qed.

Lemma nfg_all_groups_lookup i : (i < 8)%nat -> all_groups !! i = Some (mk (Z.of_nat i)).
Proof. intros Hi. do 8 (destruct i as [|i]; [reflexivity|]). lia. Qed.

Lemma nfg_all_groups_index i : (i < 8)%nat -> group_index (mk (Z.of_nat i)) = Ok i.
Proof. intros. by apply nfg_index_spec. Qed.

Lemma nfg_all_groups_valid g : g ∈ all_groups -> exists i, group_index g = Ok i /\ (i < 8)%nat.
Proof.
  intros [i Hi]%list_elem_of_lookup. pose proof (lookup_lt_Some _ _ _ Hi) as Hlt.
  rewrite nfg_all_groups_length in Hlt. rewrite (nfg_all_groups_lookup i) in Hi by done.
  injection Hi as <-. exists i. split; [by apply nfg_all_groups_index|done].
Qed.

End NcnFeeGroup.

Abbreviation BaseFeeGroup := BaseFeeGroup.BaseFeeGroup.
Abbreviation NcnFeeGroup := NcnFeeGroup.NcnFeeGroup.

(** *)
Theorem fee_group_byte_roundtrip :
  (forall z g, NcnFeeGroup.try_from z = Ok g ->
     NcnFeeGroup.group g = z /\ NcnFeeGroup.group_index g = Ok (Z.to_nat z) /\
     NcnFeeGroup.all_groups !! Z.to_nat z = Some g /\
     exists t, NcnFeeGroup.group_type g = Ok t /\ NcnFeeGroup.as_u8 t = z /\ NcnFeeGroup.new t = g) /\
  (forall z g, BaseFeeGroup.try_from z = Ok g ->
     BaseFeeGroup.group g = z /\ BaseFeeGroup.group_index g = Ok (Z.to_nat z) /\
     BaseFeeGroup.all_groups !! Z.to_nat z = Some g /\
     exists t, BaseFeeGroup.group_type g = Ok t /\ BaseFeeGroup.as_u8 t = z /\ BaseFeeGroup.new t = g) /\
  (forall z, 8 <= z ->
     NcnFeeGroup.try_from z = Err (Tip InvalidNcnFeeGroup) /\
     BaseFeeGroup.try_from z = Err (Tip InvalidBaseFeeGroup)).
Proof.
  split; [|split].
  - intros z g H. byte_cases z H; injection H as <-; repeat split; eexists; repeat split; reflexivity.
  - intros z g H. byte_cases z H; injection H as <-; repeat split; eexists; repeat split; reflexivity.
  - intros z Hz. destruct z as [|z|z]; try lia.
    do 3 (destruct z as [z|z|]; try lia; try (split; reflexivity)).
Qed.
