(* ===== verification/Fees.v ===== *)
(** The fee configuration (core/src/fees.rs): [Fee], [Fees] and [FeeConfig].

    A [FeeConfig] holds two [Fees]; the one in force at an epoch and the one
    an update may change are chosen by activation epoch.  The theorems show
    that an update never changes the fees in force at the epoch it is made in,
    that it takes effect at the next epoch, and what [check_fees_okay]
    accepts. *)

From S2P Require Import Prelude Errors External Constants FeeGroups.

(* ------------------------------------------------------------------ *)
(** * Data *)

Record Fee := mkFee { fee : Z }.

Record Fees := mkFees {
  activation_epoch : Z;
  base_fee_groups_bps : list Fee;
  ncn_fee_groups_bps : list Fee;
}.

Record FeeConfig := mkFeeConfig {
  block_engine_fee_bps : Z;
  base_fee_wallets : list Pubkey;
  fee_1 : Fees;
  fee_2 : Fees;
}.

#[export] Instance Fee_eq_dec : EqDecision Fee.
Proof. solve_decision. Defined.
#[export] Instance Fees_eq_dec : EqDecision Fees.
Proof. solve_decision. Defined.
#[export] Instance FeeConfig_eq_dec : EqDecision FeeConfig.
Proof. solve_decision. Defined.

Definition Fee_default : Fee := mkFee 0.

(* ------------------------------------------------------------------ *)
(** * [Fees] *)

Module Fees.

Definition set_activation_epoch (self : Fees) (value : Z) : Fees :=
  mkFees value (base_fee_groups_bps self) (ncn_fee_groups_bps self).

Definition set_base_fee_bps (self : Fees) (base_fee_group : BaseFeeGroup) (value : Z) : res Fees :=
  if MAX_FEE_BPS <? value then Err (Tip FeeCapExceeded) else
  group_index ← BaseFeeGroup.group_index base_fee_group;
  l ← aset (base_fee_groups_bps self) group_index (mkFee value);
  mret (mkFees (activation_epoch self) l (ncn_fee_groups_bps self)).

Definition set_ncn_fee_bps (self : Fees) (ncn_fee_group : NcnFeeGroup) (value : Z) : res Fees :=
  if MAX_FEE_BPS <? value then Err (Tip FeeCapExceeded) else
  group_index ← NcnFeeGroup.group_index ncn_fee_group;
  l ← aset (ncn_fee_groups_bps self) group_index (mkFee value);
  mret (mkFees (activation_epoch self) (base_fee_groups_bps self) l).

Definition new (dao_fee_bps default_ncn_fee_bps epoch : Z) : res Fees :=
  let fees := mkFees epoch
    (replicate BaseFeeGroup.FEE_GROUP_COUNT Fee_default)
    (replicate NcnFeeGroup.FEE_GROUP_COUNT Fee_default) in
  fees ← set_base_fee_bps fees BaseFeeGroup.default dao_fee_bps;
  set_ncn_fee_bps fees NcnFeeGroup.default default_ncn_fee_bps.

Definition base_fee_bps (self : Fees) (g : BaseFeeGroup) : res Z :=
  group_index ← BaseFeeGroup.group_index g;
  f ← aget (base_fee_groups_bps self) group_index; mret (fee f).

Definition ncn_fee_bps (self : Fees) (g : NcnFeeGroup) : res Z :=
  group_index ← NcnFeeGroup.group_index g;
  f ← aget (ncn_fee_groups_bps self) group_index; mret (fee f).

Definition precise_base_fee_bps `{PreciseNumberOps} (self : Fees) (g : BaseFeeGroup) : res PreciseNumber :=
  f ← base_fee_bps self g; precise f.

Definition precise_ncn_fee_bps `{PreciseNumberOps} (self : Fees) (g : NcnFeeGroup) : res PreciseNumber :=
  f ← ncn_fee_bps self g; precise f.

Definition total_fees_bps (self : Fees) : res Z :=
  total ← foldM (fun total g =>
      b ← base_fee_bps self g;
      ok_or (checked_add U64 total b) (Tip ArithmeticOverflow)) 0 BaseFeeGroup.all_groups;
  foldM (fun total g =>
      b ← ncn_fee_bps self g;
      ok_or (checked_add U64 total b) (Tip ArithmeticOverflow)) total NcnFeeGroup.all_groups.

Definition precise_total_fee_bps `{PreciseNumberOps} (self : Fees) : res PreciseNumber :=
  t ← total_fees_bps self; precise t.

End Fees.

(* ------------------------------------------------------------------ *)
(** * [FeeConfig] *)

Module FeeConfig.

Section ops.
Context `{PreciseNumberOps}.

Definition current_fees (self : FeeConfig) (current_epoch : Z) : Fees :=
  if current_epoch <? activation_epoch (fee_1 self) then fee_2 self
  else if current_epoch <? activation_epoch (fee_2 self) then fee_1 self
  else if activation_epoch (fee_2 self) <=? activation_epoch (fee_1 self) then fee_1 self
  else fee_2 self.

(** [updatable_fees] returns a reference into the configuration: which of
    the two fields it points to, the read and the write through it. *)
Definition updatable_is_fee_1 (self : FeeConfig) (current_epoch : Z) : bool :=
  if current_epoch <? activation_epoch (fee_1 self) then true
  else if current_epoch <? activation_epoch (fee_2 self) then false
  else activation_epoch (fee_1 self) <=? activation_epoch (fee_2 self).

Definition updatable_fees (self : FeeConfig) (current_epoch : Z) : Fees :=
  if updatable_is_fee_1 self current_epoch then fee_1 self else fee_2 self.

Definition write_updatable_fees (self : FeeConfig) (current_epoch : Z) (f : Fees) : FeeConfig :=
  if updatable_is_fee_1 self current_epoch
  then mkFeeConfig (block_engine_fee_bps self) (base_fee_wallets self) f (fee_2 self)
  else mkFeeConfig (block_engine_fee_bps self) (base_fee_wallets self) (fee_1 self) f.

Definition update_updatable_epoch (self : FeeConfig) (current_epoch : Z) : res FeeConfig :=
  next_epoch ← ok_or (checked_add U64 current_epoch 1) (Tip ArithmeticOverflow);
  mret (write_updatable_fees self current_epoch
          (Fees.set_activation_epoch (updatable_fees self current_epoch) next_epoch)).

Definition total_fees_bps (self : FeeConfig) (current_epoch : Z) : res Z :=
  Fees.total_fees_bps (current_fees self current_epoch).

Definition precise_total_fee_bps (self : FeeConfig) (current_epoch : Z) : res PreciseNumber :=
  Fees.precise_total_fee_bps (current_fees self current_epoch).

Definition adjusted_fee_bps (self : FeeConfig) (f : Z) : res Z :=
  remaining_bps ← ok_or (checked_sub MAX_FEE_BPS (block_engine_fee_bps self)) (Tip ArithmeticUnderflowError);
  ok_or (x ← checked_mul U64 f MAX_FEE_BPS; checked_div x remaining_bps) (Tip DenominatorIsZero).

Definition adjusted_precise_fee_bps (self : FeeConfig) (f : Z) : res PreciseNumber :=
  remaining_bps ← ok_or (checked_sub MAX_FEE_BPS (block_engine_fee_bps self)) (Tip ArithmeticOverflow);
  precise_remaining_bps ← precise remaining_bps;
  adjusted_fee ← ok_or (checked_mul U64 f MAX_FEE_BPS) (Tip ArithmeticOverflow);
  precise_adjusted_fee ← precise adjusted_fee;
  ok_or (pn_checked_div precise_adjusted_fee precise_remaining_bps) (Tip DenominatorIsZero).

Definition adjusted_total_fees_bps (self : FeeConfig) (current_epoch : Z) : res Z :=
  t ← total_fees_bps self current_epoch;
  t16 ← (if t <? U16 then Ok t else Err (Tip ArithmeticOverflow));
  adjusted_fee_bps self t16.

Definition precise_block_engine_fee_bps (self : FeeConfig) : res PreciseNumber :=
  precise (block_engine_fee_bps self).

Definition set_block_engine_fee_bps (self : FeeConfig) (value : Z) : res FeeConfig :=
  if MAX_FEE_BPS <? value then Err (Tip FeeCapExceeded)
  else Ok (mkFeeConfig value (base_fee_wallets self) (fee_1 self) (fee_2 self)).

Definition base_fee_bps (self : FeeConfig) (g : BaseFeeGroup) (current_epoch : Z) : res Z :=
  Fees.base_fee_bps (current_fees self current_epoch) g.

Definition precise_base_fee_bps (self : FeeConfig) (g : BaseFeeGroup) (current_epoch : Z) : res PreciseNumber :=
  Fees.precise_base_fee_bps (current_fees self current_epoch) g.

Definition adjusted_base_fee_bps (self : FeeConfig) (g : BaseFeeGroup) (current_epoch : Z) : res Z :=
  f ← Fees.base_fee_bps (current_fees self current_epoch) g;
  adjusted_fee_bps self f.

Definition adjusted_precise_base_fee_bps (self : FeeConfig) (g : BaseFeeGroup) (current_epoch : Z) : res PreciseNumber :=
  f ← Fees.base_fee_bps (current_fees self current_epoch) g;
  adjusted_precise_fee_bps self f.

Definition set_base_fee_bps (self : FeeConfig) (g : BaseFeeGroup) (value current_epoch : Z) : res FeeConfig :=
  f ← Fees.set_base_fee_bps (updatable_fees self current_epoch) g value;
  mret (write_updatable_fees self current_epoch f).

Definition ncn_fee_bps (self : FeeConfig) (g : NcnFeeGroup) (current_epoch : Z) : res Z :=
  Fees.ncn_fee_bps (current_fees self current_epoch) g.

Definition precise_ncn_fee_bps (self : FeeConfig) (g : NcnFeeGroup) (current_epoch : Z) : res PreciseNumber :=
  Fees.precise_ncn_fee_bps (current_fees self current_epoch) g.

Definition adjusted_ncn_fee_bps (self : FeeConfig) (g : NcnFeeGroup) (current_epoch : Z) : res Z :=
  f ← Fees.ncn_fee_bps (current_fees self current_epoch) g;
  adjusted_fee_bps self f.

Definition adjusted_precise_ncn_fee_bps (self : FeeConfig) (g : NcnFeeGroup) (current_epoch : Z) : res PreciseNumber :=
  f ← Fees.ncn_fee_bps (current_fees self current_epoch) g;
  adjusted_precise_fee_bps self f.

Definition set_ncn_fee_bps (self : FeeConfig) (g : NcnFeeGroup) (value current_epoch : Z) : res FeeConfig :=
  f ← Fees.set_ncn_fee_bps (updatable_fees self current_epoch) g value;
  mret (write_updatable_fees self current_epoch f).

Definition base_fee_wallet (self : FeeConfig) (g : BaseFeeGroup) : res Pubkey :=
  group_index ← BaseFeeGroup.group_index g; aget (base_fee_wallets self) group_index.

Definition set_base_fee_wallet (self : FeeConfig) (g : BaseFeeGroup) (wallet : Pubkey) : res FeeConfig :=
  group_index ← BaseFeeGroup.group_index g;
  l ← aset (base_fee_wallets self) group_index wallet;
  mret (mkFeeConfig (block_engine_fee_bps self) l (fee_1 self) (fee_2 self)).

Definition set_fees_to_current (self : FeeConfig) (current_epoch : Z) : res FeeConfig :=
  if (current_epoch <? activation_epoch (fee_1 self)) || (current_epoch <? activation_epoch (fee_2 self))
  then Err (Tip FeeNotActive)
  else Ok (write_updatable_fees self current_epoch (current_fees self current_epoch)).

Definition check_fees_okay (self : FeeConfig) (current_epoch : Z) : res unit :=
  if MAX_FEE_BPS <? block_engine_fee_bps self then Err (Tip FeeCapExceeded) else
  _ ← foldM (fun _ g => _ ← adjusted_precise_base_fee_bps self g current_epoch; mret tt) tt BaseFeeGroup.all_groups;
  _ ← foldM (fun _ g => _ ← adjusted_precise_ncn_fee_bps self g current_epoch; mret tt) tt NcnFeeGroup.all_groups;
  total ← total_fees_bps self current_epoch;
  if MAX_FEE_BPS <? total then Err (Tip FeeCapExceeded) else
  if total =? 0 then Err (Tip TotalFeesCannotBeZero) else Ok tt.

Definition new (dao_fee_wallet : Pubkey) (block_engine_fee_bps dao_fee_bps default_ncn_fee_bps current_epoch : Z) : res FeeConfig :=
  if bool_decide (dao_fee_wallet = Pubkey_default) then Err (Tip DefaultDaoWallet) else
  if MAX_FEE_BPS <? block_engine_fee_bps then Err (Tip FeeCapExceeded) else
  f ← Fees.new dao_fee_bps default_ncn_fee_bps current_epoch;
  let fee_config := mkFeeConfig block_engine_fee_bps
    (replicate BaseFeeGroup.FEE_GROUP_COUNT dao_fee_wallet) f f in
  fee_config ← set_base_fee_wallet fee_config BaseFeeGroup.default dao_fee_wallet;
  _ ← check_fees_okay fee_config current_epoch;
  mret fee_config.

(** The optional assignments of [update_fee_config], one per [if let]. *)
Definition opt_step {A} (o : option A) (f : A -> FeeConfig -> res FeeConfig) (self : FeeConfig) : res FeeConfig :=
  match o with Some a => f a self | None => Ok self end.

Definition update_fee_config (self : FeeConfig)
    (new_block_engine_fee_bps : option Z) (base_fee_group : option BaseFeeGroup)
    (new_base_fee_wallet : option Pubkey) (new_base_fee_bps : option Z)
    (ncn_fee_group : option NcnFeeGroup) (new_ncn_fee_bps : option Z)
    (current_epoch : Z) : res FeeConfig :=
  self ← (if activation_epoch (updatable_fees self current_epoch) <=? current_epoch
          then set_fees_to_current self current_epoch else Ok self);
  self ← opt_step new_block_engine_fee_bps (fun v self =>
    Ok (mkFeeConfig v (base_fee_wallets self) (fee_1 self) (fee_2 self))) self;
  let base_group := default BaseFeeGroup.default base_fee_group in
  self ← opt_step new_base_fee_wallet (fun w self => set_base_fee_wallet self base_group w) self;
  self ← opt_step new_base_fee_bps (fun v self => set_base_fee_bps self base_group v current_epoch) self;
  let ncn_group := default NcnFeeGroup.default ncn_fee_group in
  self ← opt_step new_ncn_fee_bps (fun v self => set_ncn_fee_bps self ncn_group v current_epoch) self;
  self ← update_updatable_epoch self current_epoch;
  _ ← check_fees_okay self current_epoch;
  next_epoch ← ok_or (checked_add U64 current_epoch 1) (Tip ArithmeticOverflow);
  _ ← check_fees_okay self next_epoch;
  mret self.

End ops.
End FeeConfig.

(* ------------------------------------------------------------------ *)
(** * Sums of the fees *)

Definition fee_ok (f : Fee) : Prop := 0 <= fee f <= MAX_FEE_BPS.

(** Well-formed fees: eight entries per group type, none above the cap. *)
Definition fees_wf (f : Fees) : Prop :=
  length (base_fee_groups_bps f) = 8%nat /\ length (ncn_fee_groups_bps f) = 8%nat /\
  Forall fee_ok (base_fee_groups_bps f) /\ Forall fee_ok (ncn_fee_groups_bps f).

Definition fee_config_wf (fc : FeeConfig) : Prop :=
  fits U16 (block_engine_fee_bps fc) /\ length (base_fee_wallets fc) = 8%nat /\
  fees_wf (fee_1 fc) /\ fees_wf (fee_2 fc).

#[export] Instance fee_ok_dec f : Decision (fee_ok f).
Proof. unfold fee_ok. apply _. Defined.
#[export] Instance fees_wf_dec f : Decision (fees_wf f).
Proof. unfold fees_wf. apply _. Defined.
#[export] Instance fee_config_wf_dec fc : Decision (fee_config_wf fc).
Proof. unfold fee_config_wf. apply _. Defined.

Definition fees_total (f : Fees) : Z :=
  sumZ fee (base_fee_groups_bps f) + sumZ fee (ncn_fee_groups_bps f).

(** Destruct a list whose length is known to be eight. *)
Ltac eight l H :=
  do 8 (destruct l as [|? l]; [discriminate H|]); destruct l; [clear H|discriminate H].

Ltac forall_inv :=
  repeat match goal with
  | H : Forall _ (_ :: _) |- _ => apply Forall_cons_1 in H as [? H]
  | H : Forall _ [] |- _ => clear H
  end.

Lemma sumZ_fee_bound (l : list Fee) : Forall fee_ok l -> 0 <= sumZ fee l <= Z.of_nat (length l) * MAX_FEE_BPS.
Proof.
  induction 1 as [|x l Hx Hl IH]; simpl; [lia|].
  unfold fee_ok in Hx. rewrite Nat2Z.inj_succ. lia.
Qed.

Lemma fees_total_bound f : fees_wf f -> 0 <= fees_total f <= 160000.
Proof.
  intros (H1 & H2 & H3 & H4). unfold fees_total.
  apply sumZ_fee_bound in H3, H4. rewrite H1 in H3. rewrite H2 in H4.
  unfold MAX_FEE_BPS in *. lia.
Qed.

Lemma checked_add_fold (l : list Fee) t :
  Forall fee_ok l -> 0 <= t -> t + sumZ fee l < U64 ->
  foldM (fun total b => ok_or (checked_add U64 total b) (Tip ArithmeticOverflow)) t (fee <$> l)
  = Ok (t + sumZ fee l).
Proof.
  revert t. induction l as [|x l IH]; intros t Hl Ht Hb; simpl in *; [f_equal; lia|].
  apply Forall_cons_1 in Hl as [Hx Hl]. pose proof (sumZ_fee_bound l Hl).
  unfold fee_ok in Hx. rewrite checked_add_ok by lia. simpl. rewrite IH by (done || lia).
  f_equal. lia.
Qed.

Lemma total_fees_bps_ok f : fees_wf f -> Fees.total_fees_bps f = Ok (fees_total f).
Proof.
  intros Hwf. pose proof (fees_total_bound f Hwf) as Hb.
  destruct Hwf as (H1 & H2 & H3 & H4). unfold Fees.total_fees_bps, fees_total in *.
  destruct f as [act base ncn]; simpl in *.
  transitivity (total ← foldM (fun total b => ok_or (checked_add U64 total b) (Tip ArithmeticOverflow)) 0 (fee <$> base);
    foldM (fun total b => ok_or (checked_add U64 total b) (Tip ArithmeticOverflow)) total (fee <$> ncn)).
  - eight base H1. eight ncn H2. reflexivity.
  - pose proof (sumZ_fee_bound _ H3). pose proof (sumZ_fee_bound _ H4).
    rewrite checked_add_fold by (done || lia). simpl. rewrite checked_add_fold by (done || lia).
    done.
Qed.

(* ------------------------------------------------------------------ *)
(** * The update schedule *)

(** The states of the two slots at epoch [e]: both in force (and equal when
    they have the same activation epoch), or one of them pending for [e + 1]. *)
Definition sched_inv (fc : FeeConfig) (e : Z) : Prop :=
  let a1 := activation_epoch (fee_1 fc) in let a2 := activation_epoch (fee_2 fc) in
  (a1 <= e /\ a2 <= e /\ (a1 = a2 -> fee_1 fc = fee_2 fc)) \/
  (a1 = e + 1 /\ a2 <= e) \/ (a2 = e + 1 /\ a1 <= e).

(** The fees an update at epoch [e] starts from. *)
Definition pending_base (fc : FeeConfig) (e : Z) : Fees :=
  if activation_epoch (FeeConfig.updatable_fees fc e) <=? e
  then FeeConfig.current_fees fc e else FeeConfig.updatable_fees fc e.

(** [slot b T C]: the update writes to [T] and the other slot holds [C]. *)
Definition slot (fc : FeeConfig) (e : Z) (b : bool) (T C : Fees) : Prop :=
  FeeConfig.updatable_is_fee_1 fc e = b /\
  (if b then fee_1 fc else fee_2 fc) = T /\ (if b then fee_2 fc else fee_1 fc) = C.

Lemma slot_read fc e b T C : slot fc e b T C -> FeeConfig.updatable_fees fc e = T.
Proof. intros (Hb & HT & _). unfold FeeConfig.updatable_fees. by rewrite Hb. Qed.

Lemma slot_write fc e b T C T' :
  slot fc e b T C -> activation_epoch T' = activation_epoch T ->
  slot (FeeConfig.write_updatable_fees fc e T') e b T' C.
Proof.
  intros (Hb & HT & HC) Ha. unfold slot, FeeConfig.write_updatable_fees. rewrite Hb.
  unfold FeeConfig.updatable_is_fee_1 in *. destruct b; simpl; subst T C; rewrite Ha; auto.
Qed.

Lemma set_base_fee_bps_act f g v f' : Fees.set_base_fee_bps f g v = Ok f' -> activation_epoch f' = activation_epoch f.
Proof. unfold Fees.set_base_fee_bps. intros. res_inv. done. Qed.
Lemma set_ncn_fee_bps_act f g v f' : Fees.set_ncn_fee_bps f g v = Ok f' -> activation_epoch f' = activation_epoch f.
Proof. unfold Fees.set_ncn_fee_bps. intros. res_inv. done. Qed.

(** An optional change of the pending fees. *)
Definition opt_fees {A} (o : option A) (f : Fees -> A -> res Fees) (x : Fees) : res Fees :=
  match o with Some a => f x a | None => Ok x end.

(** The value the pending slot has after an update at epoch [e]. *)
Definition updated_fees (x : Fees) (bg : option BaseFeeGroup) (bv : option Z)
    (ng : option NcnFeeGroup) (nv : option Z) (e : Z) : res Fees :=
  x ← opt_fees bv (fun x v => Fees.set_base_fee_bps x (default BaseFeeGroup.default bg) v) x;
  x ← opt_fees nv (fun x v => Fees.set_ncn_fee_bps x (default NcnFeeGroup.default ng) v) x;
  mret (Fees.set_activation_epoch x (e + 1)).

Lemma sched_slot fc e fc1 :
  sched_inv fc e ->
  (if activation_epoch (FeeConfig.updatable_fees fc e) <=? e
   then FeeConfig.set_fees_to_current fc e else Ok fc) = Ok fc1 ->
  exists b, slot fc1 e b (pending_base fc e) (FeeConfig.current_fees fc e) /\
            activation_epoch (FeeConfig.current_fees fc e) <= e.
Proof.
  intros Hs. unfold pending_base, FeeConfig.set_fees_to_current, slot,
    FeeConfig.updatable_fees, FeeConfig.current_fees, FeeConfig.write_updatable_fees,
    FeeConfig.updatable_is_fee_1.
  destruct fc as [be bw [a1 b1 n1] [a2 b2 n2]]. unfold sched_inv in Hs. cbn in *.
  destruct Hs as [(H1 & H2 & Heq)|[[-> H2]|[-> H1]]].
  - destruct (Z.lt_total a1 a2) as [Hlt|[<-|Hlt]]; [| specialize (Heq eq_refl); injection Heq as -> -> |];
      ztests; intros [= <-]; exists true; cbn; ztests; auto.
  - ztests. intros [= <-]. exists true. cbn. ztests. auto.
  - ztests. intros [= <-]. exists false. cbn. ztests. auto.
Qed.

Lemma slot_steps fc1 e b T C be bw bg bv ng nv fc' :
  slot fc1 e b T C -> activation_epoch C <= e -> 0 <= e ->
  (self ← FeeConfig.opt_step be (fun v self =>
     Ok (mkFeeConfig v (base_fee_wallets self) (fee_1 self) (fee_2 self))) fc1;
   self ← FeeConfig.opt_step bw (fun w self => FeeConfig.set_base_fee_wallet self (default BaseFeeGroup.default bg) w) self;
   self ← FeeConfig.opt_step bv (fun v self => FeeConfig.set_base_fee_bps self (default BaseFeeGroup.default bg) v e) self;
   self ← FeeConfig.opt_step nv (fun v self => FeeConfig.set_ncn_fee_bps self (default NcnFeeGroup.default ng) v e) self;
   FeeConfig.update_updatable_epoch self e) = Ok fc' ->
  exists T', updated_fees T bg bv ng nv e = Ok T' /\
    (if b then fee_1 fc' else fee_2 fc') = T' /\ (if b then fee_2 fc' else fee_1 fc') = C.
Proof.
  intros Hsl HC He H. res_inv.
  assert (S1 : slot x e b T C).
  { destruct be; simpl in *; res_inv; [|done]. destruct Hsl as (Hb & HT & HC'). by split. }
  assert (S2 : slot x0 e b T C).
  { destruct bw; simpl in *; [|by res_inv].
    unfold FeeConfig.set_base_fee_wallet in *. res_inv. destruct S1 as (Hb & HT & HC'). by split. }
  assert (S3 : exists T1, opt_fees bv (fun x v => Fees.set_base_fee_bps x (default BaseFeeGroup.default bg) v) T = Ok T1
                          /\ slot x1 e b T1 C).
  { destruct bv; simpl in *; [|res_inv; eauto].
    unfold FeeConfig.set_base_fee_bps in *. res_inv. rewrite (slot_read _ _ _ _ _ S2) in *.
    eexists. split; [eassumption|]. eapply slot_write; eauto using set_base_fee_bps_act. }
  destruct S3 as (T1 & E1 & S3).
  assert (S4 : exists T2, opt_fees nv (fun x v => Fees.set_ncn_fee_bps x (default NcnFeeGroup.default ng) v) T1 = Ok T2
                          /\ slot x2 e b T2 C).
  { destruct nv; simpl in *; [|res_inv; eauto].
    unfold FeeConfig.set_ncn_fee_bps in *. res_inv. rewrite (slot_read _ _ _ _ _ S3) in *.
    eexists. split; [eassumption|]. eapply slot_write; eauto using set_ncn_fee_bps_act. }
  destruct S4 as (T2 & E2 & S4).
  exists (Fees.set_activation_epoch T2 (e + 1)). unfold updated_fees. rewrite E1. simpl. rewrite E2. simpl.
  split; [done|]. unfold FeeConfig.update_updatable_epoch in H. res_inv.
  rewrite (slot_read _ _ _ _ _ S4). destruct S4 as (Hb & HT & HC').
  unfold FeeConfig.write_updatable_fees. rewrite Hb. by destruct b.
Qed.

Lemma update_fee_config_slots `{PreciseNumberOps} fc e be bg bw bv ng nv fc' :
  0 <= e -> sched_inv fc e ->
  FeeConfig.update_fee_config fc be bg bw bv ng nv e = Ok fc' ->
  exists (b : bool) T', updated_fees (pending_base fc e) bg bv ng nv e = Ok T' /\
    activation_epoch (FeeConfig.current_fees fc e) <= e /\
    (if b then fee_1 fc' else fee_2 fc') = T' /\
    (if b then fee_2 fc' else fee_1 fc') = FeeConfig.current_fees fc e /\
    FeeConfig.check_fees_okay fc' e = Ok tt /\ FeeConfig.check_fees_okay fc' (e + 1) = Ok tt.
Proof.
  intros He Hs Hu. unfold FeeConfig.update_fee_config in Hu. res_inv.
  repeat match goal with u : () |- _ => destruct u end.
  destruct (sched_slot _ _ _ Hs Hx) as (b & Hsl & HC).
  destruct (slot_steps x e b _ _ be bw bg bv ng nv fc' Hsl HC He) as (T' & HT' & H1 & H2).
  { rewrite Hx0. simpl. rewrite Hx1. simpl. rewrite Hx2. simpl. rewrite Hx3. simpl. done. }
  exists b, T'. auto 8.
Qed.

(** The effect of an update on the schedule. *)
Lemma update_fee_config_effect `{PreciseNumberOps} fc e be bg bw bv ng nv fc' :
  0 <= e -> sched_inv fc e ->
  FeeConfig.update_fee_config fc be bg bw bv ng nv e = Ok fc' ->
  FeeConfig.current_fees fc' e = FeeConfig.current_fees fc e /\
  updated_fees (pending_base fc e) bg bv ng nv e = Ok (FeeConfig.current_fees fc' (e + 1)) /\
  activation_epoch (FeeConfig.current_fees fc' (e + 1)) = e + 1 /\
  sched_inv fc' e.
Proof.
  intros He Hs Hu.
  destruct (update_fee_config_slots _ _ _ _ _ _ _ _ _ He Hs Hu) as (b & T' & HT' & HC & H1 & H2 & _).
  assert (Ha : activation_epoch T' = e + 1).
  { unfold updated_fees in HT'. res_inv. done. }
  set (C := FeeConfig.current_fees fc e) in *.
  unfold FeeConfig.current_fees, sched_inv.
  destruct b; rewrite H1, H2, Ha; ztests; rewrite ?HT'; auto with lia.
Qed.

(** An update made at an epoch leaves the fees in force at that epoch
    unchanged, takes effect at the next one with exactly the requested
    changes, and keeps the schedule invariant. *)
Theorem update_fee_config_schedule `{PreciseNumberOps} fc e be bg bw bv ng nv fc' :
  0 <= e -> sched_inv fc e ->
  FeeConfig.update_fee_config fc be bg bw bv ng nv e = Ok fc' ->
  FeeConfig.current_fees fc' e = FeeConfig.current_fees fc e /\
  updated_fees (pending_base fc e) bg bv ng nv e = Ok (FeeConfig.current_fees fc' (e + 1)) /\
  activation_epoch (FeeConfig.current_fees fc' (e + 1)) = e + 1 /\
  sched_inv fc' e.
Proof. apply update_fee_config_effect. Qed.

(* ------------------------------------------------------------------ *)
(** * What [check_fees_okay] accepts *)

Lemma foldM_unit_ok {B} (f : unit -> B -> res unit) l :
  (forall b, b ∈ l -> f tt b = Ok tt) -> foldM f tt l = Ok tt.
Proof.
  induction l as [|b l IH]; intros Hf; [done|]. simpl.
  rewrite Hf by left. simpl. apply IH. intros; apply Hf; by right.
Qed.

Lemma foldM_unit_err {B} (f : unit -> B -> res unit) b l e :
  f tt b = Err e -> foldM f tt (b :: l) = Err e.
Proof. intros Hf. simpl. by rewrite Hf. Qed.

Lemma base_fee_bps_ok f g i :
  fees_wf f -> BaseFeeGroup.group_index g = Ok i ->
  exists x, Fees.base_fee_bps f g = Ok (fee x) /\ base_fee_groups_bps f !! i = Some x /\ fee_ok x.
Proof.
  intros (Hl & _ & HF & _) Hi. pose proof (BaseFeeGroup.bfg_index_lt _ _ Hi).
  destruct (aget_lt (base_fee_groups_bps f) i) as (x & Hx & Hlk); [lia|].
  exists x. unfold Fees.base_fee_bps. rewrite Hi. simpl. rewrite Hx. simpl.
  split; [done|]. split; [done|]. eapply Forall_lookup_1; eauto.
Qed.

Lemma ncn_fee_bps_ok f g i :
  fees_wf f -> NcnFeeGroup.group_index g = Ok i ->
  exists x, Fees.ncn_fee_bps f g = Ok (fee x) /\ ncn_fee_groups_bps f !! i = Some x /\ fee_ok x.
Proof.
  intros (_ & Hl & _ & HF) Hi. pose proof (NcnFeeGroup.nfg_index_lt _ _ Hi).
  destruct (aget_lt (ncn_fee_groups_bps f) i) as (x & Hx & Hlk); [lia|].
  exists x. unfold Fees.ncn_fee_bps. rewrite Hi. simpl. rewrite Hx. simpl.
  split; [done|]. split; [done|]. eapply Forall_lookup_1; eauto.
Qed.

Lemma current_fees_wf fc e : fee_config_wf fc -> fees_wf (FeeConfig.current_fees fc e).
Proof. intros (_ & _ & H1 & H2). unfold FeeConfig.current_fees. by repeat case_match. Qed.

Section check.
Context `{L : PreciseNumberLaws}.

Lemma adjusted_precise_fee_bps_ok fc x :
  0 <= block_engine_fee_bps fc < MAX_FEE_BPS -> fee_ok x ->
  exists p, FeeConfig.adjusted_precise_fee_bps fc (fee x) = Ok p.
Proof.
  intros Hbe Hx. unfold fee_ok, MAX_FEE_BPS in *.
  unfold FeeConfig.adjusted_precise_fee_bps, MAX_FEE_BPS.
  rewrite checked_sub_ok by lia. simpl.
  destruct (precise_ok (10000 - block_engine_fee_bps fc)) as (q & -> & Vq); [unfold fits; lia|]. simpl.
  rewrite checked_mul_ok by lia. simpl.
  destruct (precise_ok (fee x * 10000)) as (p & -> & Vp); [unfold fits; lia|]. simpl.
  destruct (pn_div_spec p q _ _ Vp Vq) as (r & -> & _); [lia|lia| |].
  - assert (2 ^ 192 = U64 * U128) as -> by reflexivity. lia.
  - simpl. eauto.
Qed.

Lemma adjusted_precise_fee_bps_zero fc x :
  block_engine_fee_bps fc = MAX_FEE_BPS -> fee_ok x ->
  FeeConfig.adjusted_precise_fee_bps fc (fee x) = Err (Tip DenominatorIsZero).
Proof.
  intros Hbe Hx. unfold fee_ok, MAX_FEE_BPS in *.
  unfold FeeConfig.adjusted_precise_fee_bps, MAX_FEE_BPS.
  rewrite Hbe, checked_sub_ok by lia. change (10000 - 10000) with 0. simpl.
  destruct (precise_ok 0) as (q & -> & Vq); [unfold fits; lia|]. simpl.
  rewrite checked_mul_ok by lia. simpl.
  destruct (precise_ok (fee x * 10000)) as (p & -> & Vp); [unfold fits; lia|]. simpl.
  rewrite pn_div_zero; [done|]. rewrite Vq. done.
Qed.

(** [check_fees_okay] on a well-formed configuration: the exact
    conditions it accepts and the error of every other case. *)
Theorem check_fees_okay_spec fc e :
  fee_config_wf fc ->
  FeeConfig.check_fees_okay fc e =
    let total := fees_total (FeeConfig.current_fees fc e) in
    if MAX_FEE_BPS <? block_engine_fee_bps fc then Err (Tip FeeCapExceeded)
    else if block_engine_fee_bps fc =? MAX_FEE_BPS then Err (Tip DenominatorIsZero)
    else if MAX_FEE_BPS <? total then Err (Tip FeeCapExceeded)
    else if total =? 0 then Err (Tip TotalFeesCannotBeZero) else Ok tt.
Proof.
  intros Hwf. pose proof (current_fees_wf fc e Hwf) as Hc.
  destruct Hwf as ((Hbe & _) & _). unfold FeeConfig.check_fees_okay. cbv zeta.
  destruct (Z.ltb_spec MAX_FEE_BPS (block_engine_fee_bps fc)) as [|Hle]; [done|].
  destruct (Z.eqb_spec (block_engine_fee_bps fc) MAX_FEE_BPS) as [Heq|Hne].
  - destruct (base_fee_bps_ok _ BaseFeeGroup.dao 0 Hc eq_refl) as (x & Hx & _ & Hok).
    unfold BaseFeeGroup.all_groups.
    rewrite (foldM_unit_err (fun _ g => _ ← FeeConfig.adjusted_precise_base_fee_bps fc g e; mret tt)
               _ _ (Tip DenominatorIsZero)); [done|].
    unfold FeeConfig.adjusted_precise_base_fee_bps.
    change (BaseFeeGroup.new BaseFeeGroup.DAO) with BaseFeeGroup.dao. rewrite Hx. simpl.
    by rewrite adjusted_precise_fee_bps_zero.
  - rewrite (foldM_unit_ok (fun _ g => _ ← FeeConfig.adjusted_precise_base_fee_bps fc g e; mret tt)).
    2:{ intros g (i & Hi & _)%BaseFeeGroup.bfg_all_groups_valid.
        unfold FeeConfig.adjusted_precise_base_fee_bps.
        destruct (base_fee_bps_ok _ g i Hc Hi) as (x & -> & _ & Hok). simpl.
        destruct (adjusted_precise_fee_bps_ok fc x) as [p ->]; [lia|done|done]. }
    rewrite (foldM_unit_ok (fun _ g => _ ← FeeConfig.adjusted_precise_ncn_fee_bps fc g e; mret tt)).
    2:{ intros g (i & Hi & _)%NcnFeeGroup.nfg_all_groups_valid.
        unfold FeeConfig.adjusted_precise_ncn_fee_bps.
        destruct (ncn_fee_bps_ok _ g i Hc Hi) as (x & -> & _ & Hok). simpl.
        destruct (adjusted_precise_fee_bps_ok fc x) as [p ->]; [lia|done|done]. }
    simpl. unfold FeeConfig.total_fees_bps. by rewrite total_fees_bps_ok.
Qed.
End check.

(* ------------------------------------------------------------------ *)
(** * Reachable configurations *)

Lemma fees_set_base_wf f g v f' : 0 <= v -> fees_wf f -> Fees.set_base_fee_bps f g v = Ok f' -> fees_wf f'.
Proof.
  unfold Fees.set_base_fee_bps. intros Hv (H1 & H2 & H3 & H4) H. res_inv. array_inv. bool_prop.
  unfold fees_wf. simpl. rewrite length_insert. repeat split; try done.
  apply Forall_insert_2; [done|]. unfold fee_ok. simpl. lia.
Qed.

Lemma fees_set_ncn_wf f g v f' : 0 <= v -> fees_wf f -> Fees.set_ncn_fee_bps f g v = Ok f' -> fees_wf f'.
Proof.
  unfold Fees.set_ncn_fee_bps. intros Hv (H1 & H2 & H3 & H4) H. res_inv. array_inv. bool_prop.
  unfold fees_wf. simpl. rewrite length_insert. repeat split; try done.
  apply Forall_insert_2; [done|]. unfold fee_ok. simpl. lia.
Qed.

Lemma fees_new_wf d n e f : 0 <= d -> 0 <= n -> Fees.new d n e = Ok f -> fees_wf f /\ activation_epoch f = e.
Proof.
  unfold Fees.new. intros Hd Hn H. res_inv.
  assert (fees_wf x).
  { eapply fees_set_base_wf; [exact Hd| |exact Hx]. unfold fees_wf. simpl.
    repeat split; try done; repeat constructor; unfold fee_ok, MAX_FEE_BPS; simpl; lia. }
  split; [eapply fees_set_ncn_wf; eauto|].
  rewrite (set_ncn_fee_bps_act _ _ _ _ H), (set_base_fee_bps_act _ _ _ _ Hx). done.
Qed.

Lemma updated_fees_wf x bg bv ng nv e T' :
  (forall v, bv = Some v -> 0 <= v) -> (forall v, nv = Some v -> 0 <= v) ->
  fees_wf x -> updated_fees x bg bv ng nv e = Ok T' -> fees_wf T'.
Proof.
  intros Hb Hn Hwf H. unfold updated_fees in H. res_inv.
  assert (fees_wf x0).
  { destruct bv; simpl in *; [eapply fees_set_base_wf; eauto | by res_inv]. }
  assert (fees_wf x1); [|done].
  destruct nv; simpl in *; [eapply fees_set_ncn_wf; eauto | by res_inv].
Qed.

(** One administrative event: an accepted fee update at the current epoch,
    or the passage of time. *)
Inductive fee_step `{PreciseNumberOps} : FeeConfig * Z -> FeeConfig * Z -> Prop :=
| fee_update fc e be bg bw bv ng nv fc' :
    (forall v, bv = Some v -> 0 <= v) -> (forall v, nv = Some v -> 0 <= v) ->
    FeeConfig.update_fee_config fc be bg bw bv ng nv e = Ok fc' ->
    fee_step (fc, e) (fc', e)
| fee_tick fc e e' : e <= e' -> fee_step (fc, e) (fc, e').

Definition fees_good `{PreciseNumberOps} (s : FeeConfig * Z) : Prop :=
  let '(fc, e) := s in
  0 <= e /\ sched_inv fc e /\ fees_wf (fee_1 fc) /\ fees_wf (fee_2 fc) /\
  forall e', e <= e' -> FeeConfig.check_fees_okay fc e' = Ok tt.

Lemma sched_later fc e e' : sched_inv fc e -> e <= e' -> sched_inv fc e'.
Proof.
  unfold sched_inv. intros H He. destruct (Z.eq_dec e e') as [<-|Hne]; [done|].
  left. split; [lia|]. split; [lia|]. intros Ha. destruct H as [(_ & _ & H)|[|]]; [auto|lia|lia].
Qed.

Lemma current_fees_stable fc e e' :
  sched_inv fc e -> e + 1 <= e' -> FeeConfig.current_fees fc e' = FeeConfig.current_fees fc (e + 1).
Proof. unfold sched_inv, FeeConfig.current_fees. intros H He. by ztests. Qed.

Lemma check_fees_okay_ext `{PreciseNumberOps} fc e e' :
  FeeConfig.current_fees fc e = FeeConfig.current_fees fc e' ->
  FeeConfig.check_fees_okay fc e = FeeConfig.check_fees_okay fc e'.
Proof.
  intros Heq. unfold FeeConfig.check_fees_okay, FeeConfig.adjusted_precise_base_fee_bps,
    FeeConfig.adjusted_precise_ncn_fee_bps, FeeConfig.total_fees_bps. by rewrite Heq.
Qed.

Lemma fees_good_step `{PreciseNumberOps} s s' : fees_good s -> fee_step s s' -> fees_good s'.
Proof.
  intros Hg Hs. destruct Hs as [fc e be bg bw bv ng nv fc' Hbv Hnv Hu|fc e e' He].
  - destruct Hg as (He & Hs & Hw1 & Hw2 & Hc).
    destruct (update_fee_config_slots _ _ _ _ _ _ _ _ _ He Hs Hu) as (b & T' & HT & HC & H1 & H2 & Hc1 & Hc2).
    destruct (update_fee_config_effect _ _ _ _ _ _ _ _ _ He Hs Hu) as (_ & _ & _ & Hs').
    assert (HwC : fees_wf (FeeConfig.current_fees fc e)).
    { unfold FeeConfig.current_fees. by repeat case_match. }
    assert (HwT : fees_wf T').
    { eapply updated_fees_wf; [exact Hbv|exact Hnv| |exact HT].
      unfold pending_base, FeeConfig.updatable_fees. by repeat case_match. }
    split; [done|]. split; [done|].
    split; [destruct b; congruence|]. split; [destruct b; congruence|].
    intros e' He'. destruct (Z.eq_dec e' e) as [->|Hne]; [done|].
    rewrite (check_fees_okay_ext _ _ (e + 1)); [done|]. apply current_fees_stable; [done|lia].
  - destruct Hg as (He0 & Hs & Hw1 & Hw2 & Hc).
    split; [lia|]. split; [by eapply sched_later|]. split; [done|]. split; [done|].
    intros. apply Hc. lia.
Qed.

Lemma fee_config_new_good `{PreciseNumberOps} dao be d n e0 fc0 :
  0 <= d -> 0 <= n -> 0 <= e0 -> FeeConfig.new dao be d n e0 = Ok fc0 -> fees_good (fc0, e0).
Proof.
  intros Hd Hn He Hnew. unfold FeeConfig.new in Hnew. res_inv.
  unfold FeeConfig.set_base_fee_wallet in Hx0. res_inv. destruct x1.
  destruct (fees_new_wf _ _ _ _ Hd Hn Hx) as [Hwf Hact].
  split; [done|]. simpl. repeat split; try apply Hwf.
  - unfold sched_inv. simpl. left. rewrite Hact. auto with lia.
  - intros e' He'. rewrite <- Hx1. apply check_fees_okay_ext.
    unfold FeeConfig.current_fees. simpl. rewrite Hact. by ztests.
Qed.

(** from a successful [FeeConfig::new], through any sequence of
    accepted updates and elapsed epochs, the schedule invariant holds, every
    fee is capped, and [check_fees_okay] accepts the current and every later
    epoch. *)
Theorem fee_config_reachable_good `{PreciseNumberOps} dao be d n e0 fc0 fc e :
  0 <= d -> 0 <= n -> 0 <= e0 ->
  FeeConfig.new dao be d n e0 = Ok fc0 -> star fee_step (fc0, e0) (fc, e) ->
  fees_good (fc, e).
Proof.
  intros Hd Hn He Hnew Hst. eapply (star_invariant fee_step fees_good); [apply fees_good_step|exact Hst|].
  exact (fee_config_new_good _ _ _ _ _ _ Hd Hn He Hnew).
Qed.

(* ------------------------------------------------------------------ *)
(** * Witnesses *)

Module FeesWitness.
Import U256Precise.

Definition fc0 : FeeConfig :=
  match FeeConfig.new (key 1) 300 270 15 100 with Ok fc => fc
  | Err _ => mkFeeConfig 0 [] (mkFees 0 [] []) (mkFees 0 [] []) end.
Definition fc1 : FeeConfig :=
  match FeeConfig.update_fee_config fc0 None None None (Some 500) (Some NcnFeeGroup.jto) (Some 20) 100 with
  | Ok fc => fc | Err _ => fc0 end.

Lemma fc0_new : FeeConfig.new (key 1) 300 270 15 100 = Ok fc0.
Proof. vm_compute. reflexivity. Qed.
Lemma fc1_update :
  FeeConfig.update_fee_config fc0 None None None (Some 500) (Some NcnFeeGroup.jto) (Some 20) 100 = Ok fc1.
Proof. vm_compute. reflexivity. Qed.
Lemma fc0_sched : sched_inv fc0 100.
Proof. left. split; [vm_compute; done|]. split; [vm_compute; done|]. reflexivity. Qed.

Lemma update_fee_config_schedule_witness :
  FeeConfig.current_fees fc1 100 = FeeConfig.current_fees fc0 100 /\
  fees_total (FeeConfig.current_fees fc1 101) = 535.
Proof.
  split; [|vm_compute; reflexivity].
  apply (update_fee_config_schedule fc0 100 None None None (Some 500) (Some NcnFeeGroup.jto) (Some 20) fc1);
    [lia | exact fc0_sched | exact fc1_update].
Defined.

Lemma check_fees_okay_spec_witness : FeeConfig.check_fees_okay fc1 101 = Ok tt.
Proof.
  rewrite (check_fees_okay_spec fc1 101); [vm_compute; reflexivity|].
  apply (bool_decide_unpack _). vm_compute. exact I.
Defined.

Lemma fee_config_reachable_good_witness : fees_good (fc1, 103).
Proof.
  eapply (fee_config_reachable_good (key 1) 300 270 15 100 fc0 fc1 103); [lia|lia|lia|exact fc0_new|].
  eapply star_step; [apply (fee_update fc0 100 None None None (Some 500) (Some NcnFeeGroup.jto) (Some 20) fc1)|].
  - intros v [= <-]. lia.
  - intros v [= <-]. lia.
  - exact fc1_update.
  - eapply star_step; [apply (fee_tick _ _ 103); lia|apply star_refl].
Defined.

(** The block engine fee is not part of the scheduled [Fees]: an update of it
    changes the adjusted fees of the epoch it is made in. *)
Lemma block_engine_fee_immediate :
  exists fc', FeeConfig.update_fee_config fc0 (Some 5000) None None None None None 100 = Ok fc' /\
    FeeConfig.adjusted_base_fee_bps fc0 BaseFeeGroup.dao 100 = Ok 278 /\
    FeeConfig.adjusted_base_fee_bps fc' BaseFeeGroup.dao 100 = Ok 540.
Proof. eexists. split; [vm_compute; reflexivity|]. split; vm_compute; reflexivity. Qed.
End FeesWitness.
