(* ===== verification/Accounts.v ===== *)
(** Account checks shared by the components (core/src/loaders.rs), the epoch
    marker (core/src/epoch_marker.rs) and the account payer
    (core/src/account_payer.rs): ownership, address, discriminator and
    writability of an account, program-derived addresses, and closing an
    account without losing lamports. *)

From Stdlib Require Import String Ascii.
From S2P Require Import Prelude Errors External Constants.

(** The bytes of a byte-string literal ([b"..."]). *)
Definition bytes_of_string (s : string) : list Z :=
  List.map (fun c => Z.of_N (N_of_ascii c)) (list_ascii_of_string s).
Arguments bytes_of_string s%_string.

(** An account of the program: its view and what its data decodes to (the
    bytes after the discriminator, read with [try_from_slice_unchecked]). *)
Record Acct (T : Type) := mkAcct { info : AccountInfo; body : T }.
Arguments mkAcct {T} _ _.
Arguments info {T} _.
Arguments body {T} _.

(** Writing an account's contents, and its lamports. *)
Definition with_body {T} (a : Acct T) (t : T) : Acct T := mkAcct (info a) t.

Section pda.
Context `{Solana}.

(** [find_program_address] of every account type: address, bump and seeds. *)
Definition find_pda (program_id : Pubkey) (seeds : list (list Z)) : Pubkey * Z * list (list Z) :=
  let '(pda, bump) := find_program_address_ext seeds program_id in (pda, bump, seeds).
End pda.

Definition check_load (program_id : Pubkey) (account : AccountInfo) (expected_pda : Pubkey)
    (expected_discriminator : option Z) (expect_writable : bool) : res unit :=
  if negb (bool_decide (acc_owner account = program_id)) then Err (Prog InvalidAccountOwner) else
  if negb (bool_decide (acc_key account = expected_pda)) then Err (Prog InvalidAccountData) else
  _ ← (match expected_discriminator with
       | Some d =>
           if bool_decide (acc_data account = []) then Err (Prog InvalidAccountData) else
           b ← aget (acc_data account) 0;
           if negb (b =? d) then Err (Prog InvalidAccountData) else Ok tt
       | None => Ok tt
       end);
  if expect_writable && negb (acc_is_writable account) then Err (Prog InvalidAccountData) else Ok tt.

(** [config_epoch_length] decodes the restaking program's configuration and
    reads its epoch length. *)
Definition load_ncn_epoch (config_epoch_length : list Z -> res Z) (restaking_config : AccountInfo)
    (current_slot : Z) (first_slot_of_ncn_epoch : option Z) : res (Z * Z) :=
  ncn_epoch_length ← config_epoch_length (acc_data restaking_config);
  current_ncn_epoch ← ok_or (checked_div current_slot ncn_epoch_length) (Tip DenominatorIsZero);
  let ncn_epoch_slot := default current_slot first_slot_of_ncn_epoch in
  ncn_epoch ← ok_or (checked_div ncn_epoch_slot ncn_epoch_length) (Tip DenominatorIsZero);
  if current_ncn_epoch <? ncn_epoch then Err (Tip CannotCreateFutureWeightTables)
  else mret (ncn_epoch, ncn_epoch_length).

(* ------------------------------------------------------------------ *)
(** * Epoch marker *)

Module EpochMarker.
Record EpochMarker := mk { ncn : Pubkey; epoch : Z; slot_closed : Z }.

Definition SIZE : Z := 8 + (32 + 8 + 8).

Definition new (ncn : Pubkey) (epoch slot_closed : Z) : EpochMarker := mk ncn epoch slot_closed.

Section pda.
Context `{Solana}.

Definition seeds (ncn : Pubkey) (epoch : Z) : list (list Z) :=
  [bytes_of_string "epoch_marker"; to_bytes ncn; to_le_bytes 8 epoch].

(** The marker's address is derived from the seeds with the NCN key pushed
    a second time. *)
Definition find_program_address (program_id ncn : Pubkey) (epoch : Z) : Pubkey * Z * list (list Z) :=
  find_pda program_id (seeds ncn epoch ++ [to_bytes ncn]).

Definition check_dne (program_id : Pubkey) (account : AccountInfo) (ncn : Pubkey) (epoch : Z) : res unit :=
  let expected_pda := (find_program_address program_id ncn epoch).1.1 in
  if negb (bool_decide (expected_pda = acc_key account)) then Err (Prog InvalidSeeds) else
  if 0 <? Z.of_nat (length (acc_data account)) then Err (Tip MarkerExists) else Ok tt.
End pda.
End EpochMarker.

(* ------------------------------------------------------------------ *)
(** * Account payer *)

Module AccountPayer.
Section pda.
Context `{Solana}.

Definition seeds (ncn : Pubkey) : list (list Z) :=
  [bytes_of_string "account_payer"; to_bytes ncn].

Definition find_program_address (program_id ncn : Pubkey) : Pubkey * Z * list (list Z) :=
  find_pda program_id (seeds ncn ++ [to_bytes ncn]).

Definition load (program_id : Pubkey) (account : AccountInfo) (ncn : Pubkey) (expect_writable : bool) : res unit :=
  let expected_pda := (find_program_address program_id ncn).1.1 in
  check_load system_program_id account expected_pda None expect_writable.

(** A transfer out of the payer, which signs with its seeds and bump. *)
Definition transfer (program_id ncn : Pubkey) (account_payer to : AccountInfo) (lamports : Z)
    : res (AccountInfo * AccountInfo) :=
  let '(account_payer_address, account_payer_bump, account_payer_seeds) := find_program_address program_id ncn in
  if negb (bool_decide (account_payer_address = acc_key account_payer)) then Err (Prog InvalidAccountData) else
  invoke_transfer account_payer to lamports (account_payer_seeds ++ [[account_payer_bump]]).

(** The payer tops the new account up to its rent; the account gets its space
    (at most [MAX_REALLOC_BYTES]) and its owner. *)
Definition pay_and_create_account (program_id ncn : Pubkey) (account_payer new_account : AccountInfo)
    (program_owner : Pubkey) (space : Z) (new_account_seeds : list (list Z)) : res (AccountInfo * AccountInfo) :=
  let required_lamports := saturating_sub (minimum_balance space) (acc_lamports new_account) in
  '(account_payer, new_account) ←
    (if 0 <? required_lamports then transfer program_id ncn account_payer new_account required_lamports
     else Ok (account_payer, new_account));
  new_account ← invoke_allocate new_account (Z.min space MAX_REALLOC_BYTES) new_account_seeds;
  new_account ← invoke_assign new_account program_owner new_account_seeds;
  mret (account_payer, new_account).

Definition pay_and_realloc (program_id ncn : Pubkey) (account_payer account : AccountInfo) (new_size : Z)
    : res (AccountInfo * AccountInfo) :=
  let required_lamports := saturating_sub (minimum_balance new_size) (acc_lamports account) in
  '(account_payer, account) ←
    (if 0 <? required_lamports then transfer program_id ncn account_payer account required_lamports
     else Ok (account_payer, account));
  account ← account_realloc account new_size;
  mret (account_payer, account).

(** Closes the program account: its lamports move to the payer, its data is
    emptied and the system program becomes its owner. *)
Definition close_account (program_id : Pubkey) (account_payer account_to_close : AccountInfo)
    : res (AccountInfo * AccountInfo) :=
  if negb (bool_decide (acc_owner account_to_close = program_id)) then Err (Prog IllegalOwner) else
  lamports ← ok_or (checked_add U64 (acc_lamports account_payer) (acc_lamports account_to_close))
               (Prog ProgramArithmeticOverflow);
  mret (with_lamports account_payer lamports,
        with_data (with_owner (with_lamports account_to_close 0) system_program_id) []).
End pda.
End AccountPayer.

(* ------------------------------------------------------------------ *)
(** * Properties *)

(** [check_load] accepts exactly the accounts with the expected owner
    and address, the expected first data byte when one is required, and
    write access when it is required. *)
Theorem check_load_spec program_id account pda d w :
  check_load program_id account pda d w = Ok tt <->
  acc_owner account = program_id /\ acc_key account = pda /\
  (match d with Some b => exists rest, acc_data account = b :: rest | None => True end) /\
  (w = true -> acc_is_writable account = true).
Proof.
  unfold check_load. destruct account as [k o l data s wr]. simpl.
  destruct (bool_decide_reflect (o = program_id)) as [->|Ho]; simpl; [|naive_solver].
  destruct (bool_decide_reflect (k = pda)) as [->|Hk]; simpl; [|naive_solver].
  destruct d as [b|]; simpl.
  - destruct data as [|x rest]; simpl; [naive_solver|].
    destruct (Z.eqb_spec x b) as [->|Hb]; simpl.
    + destruct w, wr; simpl; naive_solver.
    + split; [done|]. intros (_ & _ & [rest' Hr] & _). congruence.
  - destruct w, wr; simpl; naive_solver.
Qed.

(** Closing moves every lamport to the payer. *)
Lemma close_account_conserves `{Solana} program_id payer acc payer' acc' :
  AccountPayer.close_account program_id payer acc = Ok (payer', acc') ->
  acc_lamports payer' + acc_lamports acc' = acc_lamports payer + acc_lamports acc /\
  acc_data acc' = [] /\ acc_owner acc' = system_program_id /\ acc_owner acc = program_id.
Proof.
  unfold AccountPayer.close_account. intros Hc. res_inv. bool_prop. simpl. split; [lia|].
  by destruct acc.
Qed.
