(* ===== verification/Config.v ===== *)
(** The NCN's configuration (core/src/config.rs) and the instructions that
    create and change it (program/src/admin_initialize_config.rs,
    admin_set_parameters.rs, admin_set_new_admin.rs, admin_set_config_fees.rs),
    with the bounds its parameters keep and the signatures a change takes. *)

From Stdlib Require Import String.
From S2P Require Import Prelude Errors External Constants Accounts FeeGroups Fees.

Inductive ConfigAdminRole : Type := FeeAdmin | TieBreakerAdmin.

Record Config := mkConfig {
  cf_ncn : Pubkey;
  cf_tie_breaker_admin : Pubkey;
  cf_fee_admin : Pubkey;
  cf_valid_slots_after_consensus : Z;
  cf_epochs_before_stall : Z;
  cf_fee_config : FeeConfig;
  cf_bump : Z;
  cf_epochs_after_consensus_before_close : Z;
  cf_starting_valid_epoch : Z;
}.

#[export] Instance Config_eq_dec : EqDecision Config.
Proof. solve_decision. Defined.

Module Config.
(** [8 + size_of::<Config>()]; the fee configuration holds two [Fees] of
    [8 + 128 + 8 * 2 + 8 * 2] bytes. *)
Definition SIZE : Z :=
  8 + (32 + 32 + 32 + 8 + 8 + (2 + 8 * 32 + 128 + 2 * (8 + 128 + 8 * 2 + 8 * 2)) + 1 + 8 + 8 + 111).

Definition new (ncn tie_breaker_admin fee_admin : Pubkey) (fee_config : FeeConfig)
    (starting_valid_epoch valid_slots_after_consensus epochs_before_stall epochs_after_consensus_before_close bump : Z)
    : Config :=
  mkConfig ncn tie_breaker_admin fee_admin valid_slots_after_consensus epochs_before_stall fee_config bump
    epochs_after_consensus_before_close starting_valid_epoch.

(** Field updates. *)
Definition set_starting_valid_epoch (c : Config) (x : Z) : Config :=
  mkConfig (cf_ncn c) (cf_tie_breaker_admin c) (cf_fee_admin c) (cf_valid_slots_after_consensus c)
    (cf_epochs_before_stall c) (cf_fee_config c) (cf_bump c) (cf_epochs_after_consensus_before_close c) x.
Definition set_epochs_before_stall (c : Config) (x : Z) : Config :=
  mkConfig (cf_ncn c) (cf_tie_breaker_admin c) (cf_fee_admin c) (cf_valid_slots_after_consensus c)
    x (cf_fee_config c) (cf_bump c) (cf_epochs_after_consensus_before_close c) (cf_starting_valid_epoch c).
Definition set_epochs_after_consensus_before_close (c : Config) (x : Z) : Config :=
  mkConfig (cf_ncn c) (cf_tie_breaker_admin c) (cf_fee_admin c) (cf_valid_slots_after_consensus c)
    (cf_epochs_before_stall c) (cf_fee_config c) (cf_bump c) x (cf_starting_valid_epoch c).
Definition set_valid_slots_after_consensus (c : Config) (x : Z) : Config :=
  mkConfig (cf_ncn c) (cf_tie_breaker_admin c) (cf_fee_admin c) x
    (cf_epochs_before_stall c) (cf_fee_config c) (cf_bump c) (cf_epochs_after_consensus_before_close c)
    (cf_starting_valid_epoch c).
Definition set_fee_admin (c : Config) (x : Pubkey) : Config :=
  mkConfig (cf_ncn c) (cf_tie_breaker_admin c) x (cf_valid_slots_after_consensus c)
    (cf_epochs_before_stall c) (cf_fee_config c) (cf_bump c) (cf_epochs_after_consensus_before_close c)
    (cf_starting_valid_epoch c).
Definition set_tie_breaker_admin (c : Config) (x : Pubkey) : Config :=
  mkConfig (cf_ncn c) x (cf_fee_admin c) (cf_valid_slots_after_consensus c)
    (cf_epochs_before_stall c) (cf_fee_config c) (cf_bump c) (cf_epochs_after_consensus_before_close c)
    (cf_starting_valid_epoch c).
Definition set_fee_config (c : Config) (x : FeeConfig) : Config :=
  mkConfig (cf_ncn c) (cf_tie_breaker_admin c) (cf_fee_admin c) (cf_valid_slots_after_consensus c)
    (cf_epochs_before_stall c) x (cf_bump c) (cf_epochs_after_consensus_before_close c)
    (cf_starting_valid_epoch c).

Section pda.
Context `{Solana}.

Definition seeds (ncn : Pubkey) : list (list Z) := [bytes_of_string "config"; to_bytes ncn].

Definition find_program_address (program_id ncn : Pubkey) : Pubkey * Z * list (list Z) :=
  find_pda program_id (seeds ncn).

Definition load (program_id : Pubkey) (account : AccountInfo) (ncn : Pubkey) (expect_writable : bool) : res unit :=
  let expected_pda := (find_program_address program_id ncn).1.1 in
  check_load program_id account expected_pda (Some (discriminator DConfig)) expect_writable.
End pda.
End Config.

(* ------------------------------------------------------------------ *)
(** * The instructions *)

(** [(lo..=hi).contains(&x)] *)
Definition range_contains (lo hi x : Z) : bool := (lo <=? x) && (x <=? hi).

Section handlers.
Context `{Solana} `{PreciseNumberOps} `{Programs}.

Definition process_admin_initialize_config (program_id : Pubkey) (clock : Clock)
    (config ncn dao_fee_wallet ncn_admin tie_breaker_admin account_payer system_program : AccountInfo)
    (block_engine_fee_bps dao_fee_bps default_ncn_fee_bps epochs_before_stall
     epochs_after_consensus_before_close valid_slots_after_consensus : Z)
    : res (Acct Config * AccountInfo) :=
  _ ← load_system_account config true;
  _ ← load_system_program system_program;
  _ ← load_signer ncn_admin false;
  _ ← ncn_load ncn false;
  _ ← AccountPayer.load program_id account_payer (acc_key ncn) true;
  let epoch := clock_epoch clock in
  if MAX_FEE_BPS <? block_engine_fee_bps then Err (Tip FeeCapExceeded) else
  if MAX_FEE_BPS <? dao_fee_bps then Err (Tip FeeCapExceeded) else
  if MAX_FEE_BPS <? default_ncn_fee_bps then Err (Tip FeeCapExceeded) else
  if negb (range_contains MIN_EPOCHS_BEFORE_STALL MAX_EPOCHS_BEFORE_STALL epochs_before_stall)
  then Err (Tip InvalidEpochsBeforeStall) else
  if negb (range_contains MIN_EPOCHS_AFTER_CONSENSUS_BEFORE_CLOSE MAX_EPOCHS_AFTER_CONSENSUS_BEFORE_CLOSE
             epochs_after_consensus_before_close)
  then Err (Tip InvalidEpochsBeforeClose) else
  if negb (range_contains MIN_VALID_SLOTS_AFTER_CONSENSUS MAX_VALID_SLOTS_AFTER_CONSENSUS valid_slots_after_consensus)
  then Err (Tip InvalidSlotsAfterConsensus) else
  admin ← ncn_admin_of ncn;
  if negb (bool_decide (admin = acc_key ncn_admin)) then Err (Tip IncorrectNcnAdmin) else
  let '(config_pda, config_bump, config_seeds) := Config.find_program_address program_id (acc_key ncn) in
  let config_seeds := config_seeds ++ [[config_bump]] in
  if negb (bool_decide (config_pda = acc_key config)) then Err (Prog InvalidSeeds) else
  '(account_payer, config) ←
    AccountPayer.pay_and_create_account program_id (acc_key ncn) account_payer config program_id Config.SIZE config_seeds;
  data ← aset (acc_data config) 0 (discriminator DConfig);
  let config := with_data config data in
  fee_config ← FeeConfig.new (acc_key dao_fee_wallet) block_engine_fee_bps dao_fee_bps default_ncn_fee_bps epoch;
  let starting_valid_epoch := epoch in
  let contents := Config.new (acc_key ncn) (acc_key tie_breaker_admin) (acc_key ncn_admin) fee_config
    starting_valid_epoch valid_slots_after_consensus epochs_before_stall epochs_after_consensus_before_close
    config_bump in
  _ ← FeeConfig.check_fees_okay (cf_fee_config contents) epoch;
  mret (mkAcct config contents, account_payer).

(** The optional assignments, one per [if let]. *)
Definition opt_set (o : option Z) (lo hi : Z) (e : TipRouterError) (set : Config -> Z -> Config) (c : Config) : res Config :=
  match o with
  | Some x => if negb (range_contains lo hi x) then Err (Tip e) else Ok (set c x)
  | None => Ok c
  end.

Definition process_admin_set_parameters (program_id : Pubkey) (config : Acct Config)
    (ncn_account ncn_admin : AccountInfo)
    (starting_valid_epoch epochs_before_stall epochs_after_consensus_before_close valid_slots_after_consensus : option Z)
    : res (Acct Config) :=
  _ ← load_signer ncn_admin true;
  _ ← Config.load program_id (info config) (acc_key ncn_account) true;
  _ ← ncn_load ncn_account false;
  admin ← ncn_admin_of ncn_account;
  if negb (bool_decide (admin = acc_key ncn_admin)) then Err (Tip IncorrectNcnAdmin) else
  let c := body config in
  if negb (bool_decide (cf_ncn c = acc_key ncn_account)) then Err (Tip IncorrectNcn) else
  let c := match starting_valid_epoch with
           | Some epoch => Config.set_starting_valid_epoch c epoch
           | None => c
           end in
  c ← opt_set epochs_before_stall MIN_EPOCHS_BEFORE_STALL MAX_EPOCHS_BEFORE_STALL
        InvalidEpochsBeforeStall Config.set_epochs_before_stall c;
  c ← opt_set epochs_after_consensus_before_close MIN_EPOCHS_AFTER_CONSENSUS_BEFORE_CLOSE
        MAX_EPOCHS_AFTER_CONSENSUS_BEFORE_CLOSE InvalidEpochsBeforeClose
        Config.set_epochs_after_consensus_before_close c;
  c ← opt_set valid_slots_after_consensus MIN_VALID_SLOTS_AFTER_CONSENSUS MAX_VALID_SLOTS_AFTER_CONSENSUS
        InvalidSlotsAfterConsensus Config.set_valid_slots_after_consensus c;
  mret (with_body config c).

Definition process_admin_set_new_admin (program_id : Pubkey) (config : Acct Config)
    (ncn_account ncn_admin new_admin : AccountInfo) (role : ConfigAdminRole) : res (Acct Config) :=
  _ ← load_signer ncn_admin true;
  _ ← Config.load program_id (info config) (acc_key ncn_account) true;
  _ ← ncn_load ncn_account false;
  let c := body config in
  if negb (bool_decide (cf_ncn c = acc_key ncn_account)) then Err (Tip IncorrectNcn) else
  admin ← ncn_admin_of ncn_account;
  if negb (bool_decide (admin = acc_key ncn_admin)) then Err (Tip IncorrectNcnAdmin) else
  let c := match role with
           | FeeAdmin => Config.set_fee_admin c (acc_key new_admin)
           | TieBreakerAdmin => Config.set_tie_breaker_admin c (acc_key new_admin)
           end in
  mret (with_body config c).

(** [o.map(try_from).transpose()] *)
Definition map_transpose {A} (f : Z -> res A) (o : option Z) : res (option A) :=
  match o with Some x => a ← f x; mret (Some a) | None => mret None end.

Definition process_admin_set_config_fees (program_id : Pubkey) (clock : Clock) (config : Acct Config)
    (ncn_account fee_admin : AccountInfo) (new_block_engine_fee_bps base_fee_group : option Z)
    (new_base_fee_wallet : option Pubkey) (new_base_fee_bps ncn_fee_group new_ncn_fee_bps : option Z)
    : res (Acct Config) :=
  _ ← load_signer fee_admin true;
  _ ← Config.load program_id (info config) (acc_key ncn_account) true;
  _ ← ncn_load ncn_account false;
  let epoch := clock_epoch clock in
  let c := body config in
  if negb (bool_decide (cf_ncn c = acc_key ncn_account)) then Err (Tip IncorrectNcn) else
  if negb (bool_decide (cf_fee_admin c = acc_key fee_admin)) then Err (Tip IncorrectFeeAdmin) else
  base_fee_group ← map_transpose BaseFeeGroup.try_from base_fee_group;
  ncn_fee_group ← map_transpose NcnFeeGroup.try_from ncn_fee_group;
  fee_config ← FeeConfig.update_fee_config (cf_fee_config c) new_block_engine_fee_bps base_fee_group
    new_base_fee_wallet new_base_fee_bps ncn_fee_group new_ncn_fee_bps epoch;
  mret (with_body config (Config.set_fee_config c fee_config)).
End handlers.

(* ------------------------------------------------------------------ *)
(** * Properties *)

(** The parameters are within their bounds and the fees are good at epoch [e]. *)
Definition config_ok `{PreciseNumberOps} (c : Config) (e : Z) : Prop :=
  MIN_EPOCHS_BEFORE_STALL <= cf_epochs_before_stall c <= MAX_EPOCHS_BEFORE_STALL /\
  MIN_EPOCHS_AFTER_CONSENSUS_BEFORE_CLOSE <= cf_epochs_after_consensus_before_close c
    <= MAX_EPOCHS_AFTER_CONSENSUS_BEFORE_CLOSE /\
  MIN_VALID_SLOTS_AFTER_CONSENSUS <= cf_valid_slots_after_consensus c <= MAX_VALID_SLOTS_AFTER_CONSENSUS /\
  fees_good (cf_fee_config c, e).

Lemma range_contains_true lo hi x : range_contains lo hi x = true <-> lo <= x <= hi.
Proof. unfold range_contains. rewrite andb_true_iff, !Z.leb_le. done. Qed.

Section properties.
Context `{Solana} `{PreciseNumberOps} `{Programs}.

(** What can happen to the configuration of an NCN: the three admin
    instructions, and the passing of epochs. *)
Inductive config_step (program_id : Pubkey) : Acct Config * Z -> Acct Config * Z -> Prop :=
| step_set_parameters c e ncn admin a b d f c' :
    process_admin_set_parameters program_id c ncn admin a b d f = Ok c' ->
    config_step program_id (c, e) (c', e)
| step_set_new_admin c e ncn admin new_admin role c' :
    process_admin_set_new_admin program_id c ncn admin new_admin role = Ok c' ->
    config_step program_id (c, e) (c', e)
| step_set_config_fees c clock ncn admin be bg bw bv ng nv c' :
    (forall v, bv = Some v -> 0 <= v) -> (forall v, nv = Some v -> 0 <= v) ->
    process_admin_set_config_fees program_id clock c ncn admin be bg bw bv ng nv = Ok c' ->
    config_step program_id (c, clock_epoch clock) (c', clock_epoch clock)
| step_epochs c e e' : e <= e' -> config_step program_id (c, e) (c, e').

Lemma opt_set_cases o lo hi e set c c' :
  opt_set o lo hi e set c = Ok c' -> c' = c \/ exists x, lo <= x <= hi /\ c' = set c x.
Proof.
  unfold opt_set. destruct o as [x|]; [|intros [= <-]; by left].
  destruct (range_contains lo hi x) eqn:Hr; simpl; [|done]. intros [= <-].
  right. exists x. by apply range_contains_true in Hr.
Qed.

Lemma set_parameters_body program_id c ncn admin a b d f c' :
  process_admin_set_parameters program_id c ncn admin a b d f = Ok c' ->
  load_signer admin true = Ok tt /\ ncn_admin_of ncn = Ok (acc_key admin) /\ cf_ncn (body c) = acc_key ncn /\
  info c' = info c /\ cf_ncn (body c') = cf_ncn (body c) /\ cf_fee_admin (body c') = cf_fee_admin (body c) /\
  cf_tie_breaker_admin (body c') = cf_tie_breaker_admin (body c) /\ cf_fee_config (body c') = cf_fee_config (body c) /\
  forall e, config_ok (body c) e -> config_ok (body c') e.
Proof.
  unfold process_admin_set_parameters. intros Hp. res_inv. bool_prop.
  repeat match goal with u : () |- _ => destruct u end. subst.
  repeat match goal with Hs : opt_set _ _ _ _ _ _ = Ok _ |- _ => apply opt_set_cases in Hs as [->|(? & ? & ->)] end;
    unfold config_ok; destruct a; simpl; intuition.
Qed.

Lemma set_new_admin_body program_id c ncn admin new_admin role c' :
  process_admin_set_new_admin program_id c ncn admin new_admin role = Ok c' ->
  load_signer admin true = Ok tt /\ ncn_admin_of ncn = Ok (acc_key admin) /\ cf_ncn (body c) = acc_key ncn /\
  c' = with_body c (match role with
                    | FeeAdmin => Config.set_fee_admin (body c) (acc_key new_admin)
                    | TieBreakerAdmin => Config.set_tie_breaker_admin (body c) (acc_key new_admin)
                    end).
Proof.
  unfold process_admin_set_new_admin. intros Hp. res_inv. bool_prop.
  repeat match goal with u : () |- _ => destruct u end. subst. by destruct role.
Qed.

Lemma set_config_fees_body program_id clock c ncn admin be bg bw bv ng nv c' :
  process_admin_set_config_fees program_id clock c ncn admin be bg bw bv ng nv = Ok c' ->
  load_signer admin true = Ok tt /\ cf_fee_admin (body c) = acc_key admin /\ cf_ncn (body c) = acc_key ncn /\
  exists bg' ng' fc, map_transpose BaseFeeGroup.try_from bg = Ok bg' /\ map_transpose NcnFeeGroup.try_from ng = Ok ng' /\
    FeeConfig.update_fee_config (cf_fee_config (body c)) be bg' bw bv ng' nv (clock_epoch clock) = Ok fc /\
    c' = with_body c (Config.set_fee_config (body c) fc).
Proof.
  unfold process_admin_set_config_fees. intros Hp. res_inv. bool_prop.
  repeat match goal with u : () |- _ => destruct u end. subst. eauto 12.
Qed.

Definition config_state_ok (ncn : Pubkey) (s : Acct Config * Z) : Prop :=
  config_ok (body s.1) s.2 /\ cf_ncn (body s.1) = ncn.

Lemma config_step_ok program_id ncn s s' :
  config_state_ok ncn s -> config_step program_id s s' -> config_state_ok ncn s'.
Proof.
  unfold config_state_ok. intros [Hc Hn] Hs. destruct Hs as
    [c e n admin a b d f c' Hp|c e n admin na role c' Hp|c clock n admin be bg bw bv ng nv c' Hbv Hnv Hp|c e e' He]; simpl in *.
  - apply set_parameters_body in Hp as (_ & _ & _ & _ & Hn' & _ & _ & _ & Hok). split; [by apply Hok|congruence].
  - apply set_new_admin_body in Hp as (_ & _ & _ & ->). by destruct role.
  - apply set_config_fees_body in Hp as (_ & _ & _ & bg' & ng' & fc & _ & _ & Hu & ->). split; [|done].
    destruct Hc as (Hc1 & Hc2 & Hc3 & Hc4). split; [done|]. split; [done|]. split; [done|].
    eapply fees_good_step; [exact Hc4|]. eapply fee_update; [exact Hbv|exact Hnv|exact Hu].
  - split; [|done]. destruct Hc as (Hc1 & Hc2 & Hc3 & Hc4). split; [done|]. split; [done|]. split; [done|].
    eapply fees_good_step; [exact Hc4|]. by apply fee_tick.
Qed.

Lemma initialize_config_ok program_id clock config ncn wallet admin tie payer sys be d n stall close slots c payer' :
  0 <= d -> 0 <= n -> 0 <= clock_epoch clock ->
  process_admin_initialize_config program_id clock config ncn wallet admin tie payer sys be d n stall close slots
    = Ok (c, payer') ->
  load_signer admin false = Ok tt /\ ncn_admin_of ncn = Ok (acc_key admin) /\
  config_state_ok (acc_key ncn) (c, clock_epoch clock) /\ cf_starting_valid_epoch (body c) = clock_epoch clock.
Proof.
  intros Hd Hn He. unfold process_admin_initialize_config. intros Hp. res_inv. bool_prop.
  repeat match goal with u : () |- _ => destruct u end. subst.
  destruct (Config.find_program_address program_id (acc_key ncn)) as [[pda bump] sds]. res_inv. bool_prop.
  match goal with p : AccountInfo * AccountInfo |- _ => destruct p as [payer1 config1] end. res_inv.
  repeat match goal with Hr : range_contains _ _ _ = true |- _ => apply range_contains_true in Hr end.
  split; [done|]. split; [done|]. split; [|done]. split; [|done].
  split; [done|]. split; [done|]. split; [done|].
  match goal with Hf : FeeConfig.new _ _ _ _ _ = Ok _ |- _ => exact (fee_config_new_good _ _ _ _ _ _ Hd Hn He Hf) end.
Qed.

(** C40: from its initialisation, through every sequence of admin
    instructions and elapsed epochs, a configuration stays that of its NCN, its
    parameters stay within their bounds, and its fees stay capped and accepted
    by [check_fees_okay]. *)
Theorem config_reachable_ok program_id clock config ncn wallet admin tie payer sys be d n stall close slots c0 payer' c e :
  0 <= d -> 0 <= n -> 0 <= clock_epoch clock ->
  process_admin_initialize_config program_id clock config ncn wallet admin tie payer sys be d n stall close slots
    = Ok (c0, payer') ->
  star (config_step program_id) (c0, clock_epoch clock) (c, e) ->
  config_ok (body c) e /\ cf_ncn (body c) = acc_key ncn.
Proof.
  intros Hd Hn He Hi Hs.
  eapply (star_invariant (config_step program_id) (config_state_ok (acc_key ncn)) (config_step_ok program_id _) _ _ Hs).
  exact (proj1 (proj2 (proj2 (initialize_config_ok _ _ _ _ _ _ _ _ _ _ _ _ _ _ _ _ _ Hd Hn He Hi)))).
Qed.

(** the parameters and the admins change only with the signature of the
    NCN's own admin, the fees only with that of the fee admin, and each
    instruction changes nothing but what it is for. *)
Theorem config_changes_authorised program_id clock (c c' : Acct Config) ncn admin new_admin role a b d f be bg bw bv ng nv :
  (process_admin_set_parameters program_id c ncn admin a b d f = Ok c' ->
     load_signer admin true = Ok tt /\ ncn_admin_of ncn = Ok (acc_key admin) /\ cf_ncn (body c) = acc_key ncn /\
     cf_ncn (body c') = cf_ncn (body c) /\ cf_fee_admin (body c') = cf_fee_admin (body c) /\
     cf_tie_breaker_admin (body c') = cf_tie_breaker_admin (body c) /\ cf_fee_config (body c') = cf_fee_config (body c)) /\
  (process_admin_set_new_admin program_id c ncn admin new_admin role = Ok c' ->
     load_signer admin true = Ok tt /\ ncn_admin_of ncn = Ok (acc_key admin) /\ cf_ncn (body c) = acc_key ncn /\
     c' = with_body c (match role with
                       | FeeAdmin => Config.set_fee_admin (body c) (acc_key new_admin)
                       | TieBreakerAdmin => Config.set_tie_breaker_admin (body c) (acc_key new_admin)
                       end)) /\
  (process_admin_set_config_fees program_id clock c ncn admin be bg bw bv ng nv = Ok c' ->
     load_signer admin true = Ok tt /\ cf_fee_admin (body c) = acc_key admin /\ cf_ncn (body c) = acc_key ncn /\
     exists fc, c' = with_body c (Config.set_fee_config (body c) fc) /\
       FeeConfig.check_fees_okay fc (clock_epoch clock) = Ok tt /\
       FeeConfig.check_fees_okay fc (clock_epoch clock + 1) = Ok tt).
Proof.
  split; [|split].
  - intros Hp. apply set_parameters_body in Hp. naive_solver.
  - apply set_new_admin_body.
  - intros Hp. apply set_config_fees_body in Hp as (Hs & Ha & Hn & bg' & ng' & fc & _ & _ & Hu & ->).
    split; [done|]. split; [done|]. split; [done|]. exists fc. split; [done|].
    unfold FeeConfig.update_fee_config in Hu. res_inv.
    repeat match goal with u : () |- _ => destruct u end. done.
Qed.
End properties.

(* ------------------------------------------------------------------ *)
(** * Witnesses *)

Module ConfigWitness.
Import ConcreteSolana ConcretePrograms U256Precise.

Definition pid : Pubkey := key 77.
Definition system_account (k : Pubkey) (lamports : Z) : AccountInfo :=
  mkAccountInfo k Pubkey_default lamports [] false true.
(** The NCN [key 9], administered by [key 3]. *)
Definition ncn : AccountInfo := mkAccountInfo (key 9) (key 50) 1 (replicate 32 3) false false.
Definition admin : AccountInfo := mkAccountInfo (key 3) Pubkey_default 1 [] true true.
Definition config_key : Pubkey := (Config.find_program_address pid (key 9)).1.1.
Definition payer : AccountInfo := system_account (AccountPayer.find_program_address pid (key 9)).1.1 1000000000.
Definition init := process_admin_initialize_config pid (mkClock 43200000 100) (system_account config_key 0) ncn
  (system_account (key 1) 0) admin (system_account (key 4) 0) payer (system_account Pubkey_default 1) 300 270 15 3 10 1000.
Definition default_config : Config :=
  mkConfig Pubkey_default Pubkey_default Pubkey_default 0 0 FeesWitness.fc0 0 0 0.
Definition c0 : Acct Config := match init with Ok (c, _) => c | Err _ => mkAcct ncn default_config end.
Definition set1 := process_admin_set_parameters pid c0 ncn admin None (Some 50) None (Some 2000).
Definition c1 : Acct Config := match set1 with Ok c => c | Err _ => c0 end.

Lemma init_ok : exists p, init = Ok (c0, p).
Proof. eexists. vm_compute. reflexivity. Qed.
Lemma set1_ok : set1 = Ok c1.
Proof. vm_compute. reflexivity. Qed.
End ConfigWitness.

Import ConfigWitness ConcreteSolana ConcretePrograms.

Lemma config_reachable_ok_witness :
  config_ok (H := U256Precise.ops) (body c1) 120 /\ cf_valid_slots_after_consensus (body c1) = 2000.
Proof.
  split; [|vm_compute; reflexivity]. destruct init_ok as [p Hp].
  refine (proj1 (config_reachable_ok (H := ConcreteSolana.solana) (H0 := U256Precise.ops) (H1 := ConcretePrograms.programs)
    pid (mkClock 43200000 100) (system_account config_key 0) ncn
    (system_account (key 1) 0) admin (system_account (key 4) 0) payer (system_account Pubkey_default 1) 300 270 15 3 10
    1000 c0 p c1 120 _ _ _ Hp _));
    [lia|lia|simpl; lia|].
  eapply star_step; [exact (step_set_parameters pid c0 100 ncn admin None (Some 50) None (Some 2000) c1 set1_ok)|].
  eapply star_step; [|apply star_refl]. apply step_epochs. simpl. lia.
Defined.

(** A parameter out of its bounds, and a stranger's signature, are refused. *)
Lemma set_parameters_refused :
  process_admin_set_parameters pid c0 ncn admin None (Some 51) None None = Err (Tip InvalidEpochsBeforeStall) /\
  process_admin_set_parameters pid c0 ncn (mkAccountInfo (key 4) Pubkey_default 1 [] true true) None None None None
    = Err (Tip IncorrectNcnAdmin).
Proof. split; vm_compute; reflexivity. Qed.
