(* ===== verification/StakeWeight.v ===== *)
(** Stake weights (core/src/stake_weight.rs): the total used for voting and
    the eight per-group weights used for rewards, with checked increments and
    decrements.  [vadd] and [vsub] are the pointwise specification; the
    operations implement them exactly when no component over- or underflows. *)

From S2P Require Import Prelude Errors External FeeGroups.

Record NcnFeeGroupWeight := mkNcnFeeGroupWeight { weight : Z }.

Record StakeWeights := mkStakeWeights {
  stake_weight : Z;
  ncn_fee_group_stake_weights : list NcnFeeGroupWeight;
}.

#[export] Instance NcnFeeGroupWeight_eq_dec : EqDecision NcnFeeGroupWeight.
Proof. solve_decision. Defined.
#[export] Instance StakeWeights_eq_dec : EqDecision StakeWeights.
Proof. solve_decision. Defined.

Definition NcnFeeGroupWeight_default : NcnFeeGroupWeight := mkNcnFeeGroupWeight 0.

Module StakeWeights.

Definition default : StakeWeights :=
  mkStakeWeights 0 (replicate NcnFeeGroup.FEE_GROUP_COUNT NcnFeeGroupWeight_default).

Definition new (stake_weight : Z) : StakeWeights :=
  mkStakeWeights stake_weight (replicate NcnFeeGroup.FEE_GROUP_COUNT NcnFeeGroupWeight_default).

Definition ncn_fee_group_stake_weight (self : StakeWeights) (g : NcnFeeGroup) : res Z :=
  group_index ← NcnFeeGroup.group_index g;
  w ← aget (ncn_fee_group_stake_weights self) group_index; mret (weight w).

Definition increment_stake_weight (self : StakeWeights) (w : Z) : res StakeWeights :=
  s ← ok_or (checked_add U128 (stake_weight self) w) (Tip ArithmeticOverflow);
  mret (mkStakeWeights s (ncn_fee_group_stake_weights self)).

Definition increment_ncn_fee_group_stake_weight (self : StakeWeights) (g : NcnFeeGroup) (w : Z) : res StakeWeights :=
  group_index ← NcnFeeGroup.group_index g;
  cur ← ncn_fee_group_stake_weight self g;
  s ← ok_or (checked_add U128 cur w) (Tip ArithmeticOverflow);
  l ← aset (ncn_fee_group_stake_weights self) group_index (mkNcnFeeGroupWeight s);
  mret (mkStakeWeights (stake_weight self) l).

Definition snapshot (g : NcnFeeGroup) (w reward_multiplier_bps : Z) : res StakeWeights :=
  reward_stake_weight ← ok_or (checked_mul U128 reward_multiplier_bps w) (Tip ArithmeticOverflow);
  s ← increment_stake_weight default w;
  increment_ncn_fee_group_stake_weight s g reward_stake_weight.

Definition increment (self other : StakeWeights) : res StakeWeights :=
  self ← increment_stake_weight self (stake_weight other);
  foldM (fun self g =>
    w ← ncn_fee_group_stake_weight other g;
    increment_ncn_fee_group_stake_weight self g w) self NcnFeeGroup.all_groups.

Definition decrement_stake_weight (self : StakeWeights) (w : Z) : res StakeWeights :=
  s ← ok_or (checked_sub (stake_weight self) w) (Tip ArithmeticOverflow);
  mret (mkStakeWeights s (ncn_fee_group_stake_weights self)).

Definition decrement_ncn_fee_group_stake_weight (self : StakeWeights) (g : NcnFeeGroup) (w : Z) : res StakeWeights :=
  group_index ← NcnFeeGroup.group_index g;
  cur ← ncn_fee_group_stake_weight self g;
  s ← ok_or (checked_sub cur w) (Tip ArithmeticOverflow);
  l ← aset (ncn_fee_group_stake_weights self) group_index (mkNcnFeeGroupWeight s);
  mret (mkStakeWeights (stake_weight self) l).

Definition decrement (self other : StakeWeights) : res StakeWeights :=
  self ← decrement_stake_weight self (stake_weight other);
  foldM (fun self g =>
    w ← ncn_fee_group_stake_weight other g;
    decrement_ncn_fee_group_stake_weight self g w) self NcnFeeGroup.all_groups.

End StakeWeights.

(* ------------------------------------------------------------------ *)
(** * Specification *)

(** Group weight [i], zero outside the array. *)
Definition gw (i : nat) (s : StakeWeights) : Z :=
  match ncn_fee_group_stake_weights s !! i with Some w => weight w | None => 0 end.

Definition sw_wf (s : StakeWeights) : Prop :=
  fits U128 (stake_weight s) /\ length (ncn_fee_group_stake_weights s) = 8%nat /\
  Forall (fun w => fits U128 (weight w)) (ncn_fee_group_stake_weights s).

#[export] Instance sw_wf_dec s : Decision (sw_wf s).
Proof. unfold sw_wf. apply _. Defined.

Definition lift2 (f : Z -> Z -> Z) (a b : StakeWeights) : StakeWeights :=
  mkStakeWeights (f (stake_weight a) (stake_weight b))
    (zip_with (fun x y => mkNcnFeeGroupWeight (f (weight x) (weight y)))
       (ncn_fee_group_stake_weights a) (ncn_fee_group_stake_weights b)).
Definition vadd := lift2 Z.add.
Definition vsub := lift2 Z.sub.

Lemma sw_default_wf : sw_wf StakeWeights.default.
Proof. apply (bool_decide_unpack _). vm_compute. exact I. Qed.

Lemma sw_ext a b :
  length (ncn_fee_group_stake_weights a) = 8%nat -> length (ncn_fee_group_stake_weights b) = 8%nat ->
  stake_weight a = stake_weight b -> (forall i, (i < 8)%nat -> gw i a = gw i b) -> a = b.
Proof.
  destruct a as [t l], b as [u m]. simpl. intros Hl Hm -> Hg. f_equal.
  apply list_eq. intros i. destruct (decide (i < 8)%nat) as [Hi|Hi].
  - specialize (Hg i Hi). unfold gw in Hg. simpl in Hg.
    destruct (lookup_lt_is_Some_2 l i) as [[x] Hx]; [lia|].
    destruct (lookup_lt_is_Some_2 m i) as [[y] Hy]; [lia|].
    rewrite Hx, Hy in *. simpl in Hg. congruence.
  - rewrite !lookup_ge_None_2 by lia. done.
Qed.

Lemma gw_lift2 f a b i :
  length (ncn_fee_group_stake_weights a) = 8%nat -> length (ncn_fee_group_stake_weights b) = 8%nat ->
  (i < 8)%nat -> gw i (lift2 f a b) = f (gw i a) (gw i b).
Proof.
  intros Ha Hb Hi. unfold gw, lift2. simpl. rewrite lookup_zip_with.
  destruct (lookup_lt_is_Some_2 (ncn_fee_group_stake_weights a) i) as [x Hx]; [lia|].
  destruct (lookup_lt_is_Some_2 (ncn_fee_group_stake_weights b) i) as [y Hy]; [lia|].
  by rewrite Hx, Hy.
Qed.

Lemma lift2_length f a b :
  length (ncn_fee_group_stake_weights a) = 8%nat -> length (ncn_fee_group_stake_weights b) = 8%nat ->
  length (ncn_fee_group_stake_weights (lift2 f a b)) = 8%nat.
Proof. intros. simpl. rewrite length_zip_with. lia. Qed.

Lemma gw_fits s i : sw_wf s -> fits U128 (gw i s).
Proof.
  intros (_ & _ & HF). unfold gw. destruct (_ !! i) eqn:E; [|unfold fits; lia].
  eapply Forall_lookup_1 in HF; eauto.
Qed.

Lemma gw_default i : gw i StakeWeights.default = 0.
Proof.
  unfold gw, StakeWeights.default. simpl.
  do 8 (destruct i as [|i]; [done|]). done.
Qed.

Lemma ncn_fee_group_stake_weight_ok s g i :
  length (ncn_fee_group_stake_weights s) = 8%nat -> NcnFeeGroup.group_index g = Ok i ->
  StakeWeights.ncn_fee_group_stake_weight s g = Ok (gw i s).
Proof.
  intros Hl Hi. pose proof (NcnFeeGroup.nfg_index_lt _ _ Hi).
  unfold StakeWeights.ncn_fee_group_stake_weight, gw, aget. rewrite Hi. simpl.
  destruct (lookup_lt_is_Some_2 (ncn_fee_group_stake_weights s) i) as [x Hx]; [lia|].
  by rewrite Hx.
Qed.

Ltac eight_lists :=
  repeat match goal with
  | H : length ?l = 8%nat |- _ =>
      is_var l; do 8 (destruct l as [|[?] l]; [discriminate H|]); destruct l; [clear H|discriminate H]
  end.

Ltac fits_inv :=
  repeat match goal with
  | H : Forall _ (_ :: _) |- _ => apply Forall_cons_1 in H as [? H]
  | H : Forall _ [] |- _ => clear H
  | H : fits _ _ |- _ => destruct H
  end.

(** Run an increment or decrement on explicit arrays, in a hypothesis. *)
Ltac sw_run H :=
  unfold StakeWeights.increment, StakeWeights.increment_stake_weight,
    StakeWeights.decrement, StakeWeights.decrement_stake_weight in H;
  res_inv; simpl in H; res_inv;
  unfold StakeWeights.increment_ncn_fee_group_stake_weight,
    StakeWeights.decrement_ncn_fee_group_stake_weight,
    StakeWeights.ncn_fee_group_stake_weight, aset, aget in *;
  repeat (progress (simpl in *; res_inv)); simplify_eq/=.

(** The increments (decrements) succeed exactly when the pointwise sum
    (difference) is representable, and then return it. *)
Lemma increment_spec a b c :
  sw_wf a -> sw_wf b ->
  StakeWeights.increment a b = Ok c <-> c = vadd a b /\ sw_wf (vadd a b).
Proof.
  intros (Ha & La & Fa) (Hb & Lb & Fb). destruct a as [t l], b as [u m]. simpl in *.
  eight_lists. fits_inv. unfold sw_wf, vadd, lift2. simpl in *. split.
  - intros H'. sw_run H'.
    split; [done|]. unfold fits. split; [lia|]. split; [done|].
    repeat (apply Forall_cons_2; [simpl; lia|]). constructor.
  - intros (-> & Hf & _ & HF). fits_inv. simpl in *.
    unfold StakeWeights.increment, StakeWeights.increment_stake_weight,
      StakeWeights.increment_ncn_fee_group_stake_weight,
      StakeWeights.ncn_fee_group_stake_weight, aset, aget. simpl.
    rewrite checked_add_ok by lia. simpl.
    do 8 (rewrite checked_add_ok by lia; simpl). done.
Qed.

Lemma decrement_spec a b c :
  sw_wf a -> sw_wf b ->
  StakeWeights.decrement a b = Ok c <-> c = vsub a b /\ sw_wf (vsub a b).
Proof.
  intros (Ha & La & Fa) (Hb & Lb & Fb). destruct a as [t l], b as [u m]. simpl in *.
  eight_lists. fits_inv. unfold sw_wf, vsub, lift2. simpl in *. split.
  - intros H'. sw_run H'. split; [done|]. unfold fits. split; [lia|]. split; [done|].
    repeat (apply Forall_cons_2; [simpl; lia|]). constructor.
  - intros (-> & Hf & _ & HF). fits_inv. simpl in *.
    unfold StakeWeights.decrement, StakeWeights.decrement_stake_weight,
      StakeWeights.decrement_ncn_fee_group_stake_weight,
      StakeWeights.ncn_fee_group_stake_weight, aset, aget. simpl.
    rewrite checked_sub_ok by lia. simpl.
    do 8 (rewrite checked_sub_ok by lia; simpl). done.
Qed.

Lemma vadd_wf_intro a b :
  sw_wf a -> sw_wf b -> stake_weight a + stake_weight b < U128 ->
  (forall i, (i < 8)%nat -> gw i a + gw i b < U128) -> sw_wf (vadd a b).
Proof.
  intros Ha Hb Ht Hg.
  destruct (Ha) as (Ha1 & Ha2 & _), (Hb) as (Hb1 & Hb2 & _). unfold fits in *.
  split; [unfold fits; simpl; lia|]. split; [by apply lift2_length|].
  apply Forall_lookup_2. intros i x Hx.
  assert (Hi : (i < 8)%nat).
  { apply lookup_lt_Some in Hx. pose proof (lift2_length Z.add a b Ha2 Hb2).
    unfold vadd in Hx. lia. }
  pose proof (gw_lift2 Z.add a b i Ha2 Hb2 Hi) as Hgw. fold (vadd a b) in Hgw.
  unfold gw in Hgw at 1. rewrite Hx in Hgw. rewrite Hgw. specialize (Hg i Hi).
  pose proof (gw_fits a i Ha). pose proof (gw_fits b i Hb). unfold fits in *. lia.
Qed.

Lemma vadd_total a b : stake_weight (vadd a b) = stake_weight a + stake_weight b.
Proof. done. Qed.
Lemma vadd_gw a b i : sw_wf a -> sw_wf b -> (i < 8)%nat -> gw i (vadd a b) = gw i a + gw i b.
Proof. intros (_ & Ha & _) (_ & Hb & _) Hi. by apply gw_lift2. Qed.
Lemma vsub_gw a b i : sw_wf a -> sw_wf b -> (i < 8)%nat -> gw i (vsub a b) = gw i a - gw i b.
Proof. intros (_ & Ha & _) (_ & Hb & _) Hi. by apply gw_lift2. Qed.

(** A snapshot holds the stake in the total and the multiplied stake in its
    group, and nothing elsewhere. *)
Lemma snapshot_spec g w m s :
  0 <= w -> 0 <= m -> StakeWeights.snapshot g w m = Ok s ->
  exists i, NcnFeeGroup.group_index g = Ok i /\ sw_wf s /\ stake_weight s = w /\
    forall j, gw j s = if decide (j = i) then m * w else 0.
Proof.
  intros Hw Hm Hs. unfold StakeWeights.snapshot, StakeWeights.increment_stake_weight,
    StakeWeights.increment_ncn_fee_group_stake_weight in Hs.
  res_inv. simpl in *. res_inv. array_inv. exists x1.
  pose proof (NcnFeeGroup.nfg_index_lt _ _ Hx1) as Hlt.
  rewrite (ncn_fee_group_stake_weight_ok _ _ x1) in Hx2 by done.
  assert (x2 = 0) as -> by (injection Hx2 as <-; apply (gw_default x1)).
  clear Hx2. rewrite !Z.add_0_l in *.
  split; [done|]. split.
  { split; [unfold fits; simpl; lia|]. split; [simpl; by rewrite length_insert|].
    apply Forall_insert_2; [apply sw_default_wf|]. unfold fits. simpl. nia. }
  split; [done|]. intros j. unfold gw. simpl. destruct (decide (j = x1)) as [->|Hne].
  - rewrite list_lookup_insert_eq by done. done.
  - rewrite list_lookup_insert_ne by done. apply (gw_default j).
Qed.

Lemma vsub_wf_intro a b :
  sw_wf a -> sw_wf b -> stake_weight b <= stake_weight a ->
  (forall i, (i < 8)%nat -> gw i b <= gw i a) -> sw_wf (vsub a b).
Proof.
  intros Ha Hb Ht Hg.
  destruct (Ha) as (Ha1 & Ha2 & _), (Hb) as (Hb1 & Hb2 & _). unfold fits in *.
  split; [unfold fits; simpl; lia|]. split; [by apply lift2_length|].
  apply Forall_lookup_2. intros i x Hx.
  assert (Hi : (i < 8)%nat).
  { apply lookup_lt_Some in Hx. pose proof (lift2_length Z.sub a b Ha2 Hb2).
    unfold vsub in Hx. lia. }
  pose proof (gw_lift2 Z.sub a b i Ha2 Hb2 Hi) as Hgw. fold (vsub a b) in Hgw.
  unfold gw in Hgw at 1. rewrite Hx in Hgw. rewrite Hgw. specialize (Hg i Hi).
  pose proof (gw_fits a i Ha). pose proof (gw_fits b i Hb). unfold fits in *. lia.
Qed.

(** The error of an increment that fails. *)
Lemma increment_error a b e :
  sw_wf a -> sw_wf b -> StakeWeights.increment a b = Err e -> e = Tip ArithmeticOverflow.
Proof.
  intros (Ha & La & Fa) (Hb & Lb & Fb). destruct a as [t l], b as [u m]. simpl in *.
  eight_lists. clear. unfold StakeWeights.increment, StakeWeights.increment_stake_weight,
    StakeWeights.increment_ncn_fee_group_stake_weight,
    StakeWeights.ncn_fee_group_stake_weight, aset, aget. simpl.
  unfold checked_add. repeat (destruct (_ <? _); simpl; [|by intros [= <-]]). done.
Qed.

Lemma vsub_vadd a b : sw_wf a -> sw_wf b -> vsub (vadd a b) b = a.
Proof.
  intros (? & Ha & Hfa) (? & Hb & Hfb). 
  assert (Hl : length (ncn_fee_group_stake_weights (vadd a b)) = 8%nat) by by apply lift2_length.
  apply sw_ext; [by apply lift2_length|done|simpl; lia|].
  intros i Hi. unfold vsub, vadd in *. rewrite !gw_lift2 by done. lia.
Qed.

(** An increment is the exact checked vector sum: it succeeds exactly
    when every component fits in 128 bits, a decrement by the same weights then
    undoes it, and it fails only with [ArithmeticOverflow]. *)
Theorem increment_decrement_roundtrip a b :
  sw_wf a -> sw_wf b ->
  (forall c, StakeWeights.increment a b = Ok c ->
     sw_wf c /\ stake_weight c = stake_weight a + stake_weight b /\
     (forall i, (i < 8)%nat -> gw i c = gw i a + gw i b) /\
     StakeWeights.decrement c b = Ok a) /\
  (forall e, StakeWeights.increment a b = Err e ->
     e = Tip ArithmeticOverflow /\
     (U128 <= stake_weight a + stake_weight b \/
      exists i, (i < 8)%nat /\ U128 <= gw i a + gw i b)).
Proof.
  intros Ha Hb. split.
  - intros c Hc. apply increment_spec in Hc as [-> Hwf]; [|done|done].
    split; [done|]. split; [done|]. split; [intros; by apply vadd_gw|].
    apply decrement_spec; [done|done|]. by rewrite vsub_vadd.
  - intros e He. split; [exact (increment_error a b e Ha Hb He)|].
    destruct (decide (stake_weight a + stake_weight b < U128)); [right|left; lia].
    destruct (list_find (fun i => U128 <= gw i a + gw i b) (seq 0 8)) as [[k i]|] eqn:Ef.
    + apply list_find_Some in Ef as (Hk & Hle & _). exists i. split; [|done].
      apply list_elem_of_lookup_2, elem_of_seq in Hk. lia.
    + rewrite list_find_None in Ef. exfalso.
      assert (Hok : StakeWeights.increment a b = Ok (vadd a b)); [|congruence].
      apply increment_spec; [done|done|]. split; [done|]. apply vadd_wf_intro; [done|done|done|].
      intros i Hi. apply Z.nle_gt. apply (Forall_In _ _ i Ef). apply elem_of_seq. lia.
Qed.

Lemma increment_decrement_roundtrip_witness :
  exists a b c, StakeWeights.snapshot NcnFeeGroup.lst 1000 15000 = Ok a /\
    StakeWeights.snapshot NcnFeeGroup.jto 2000 12000 = Ok b /\
    StakeWeights.increment a b = Ok c /\ StakeWeights.decrement c b = Ok a.
Proof.
  eexists _, _, _. split; [vm_compute; reflexivity|]. split; [vm_compute; reflexivity|].
  split; [vm_compute; reflexivity|].
  apply increment_decrement_roundtrip; [| |vm_compute; reflexivity];
    apply (bool_decide_unpack _); vm_compute; exact I.
Defined.
