(* ===== verification/MerkleTree.v ===== *)
(** Merkle trees (meta_merkle_tree/src: merkle_tree.rs, utils.rs, verify.rs,
    tree_node.rs, meta_merkle_tree.rs): construction of the node array level by
    level, inclusion paths, proofs, their verification with sorted hashing, and
    the meta tree over the validators' tip distribution accounts. *)

From S2P Require Import Prelude Errors External.

Section merkle.
Context `{Solana}.

(* ------------------------------------------------------------------ *)
(** * Hashing *)

Definition LEAF_PREFIX : list Z := [0].
Definition INTERMEDIATE_PREFIX : list Z := [1].

Definition hash_leaf (d : list Z) : hash := hashv [LEAF_PREFIX; d].
Definition hash_intermediate (l r : hash) : hash := hashv [INTERMEDIATE_PREFIX; l; r].

(* ------------------------------------------------------------------ *)
(** * Proofs *)

Record ProofEntry := mkProofEntry {
  pe_target : hash;
  pe_left_sibling : option hash;
  pe_right_sibling : option hash;
}.

(** [ProofEntry::new] asserts that exactly one sibling is given. *)
Definition ProofEntry_new (target : hash) (left_sibling right_sibling : option hash) : res ProofEntry :=
  if xorb (bool_decide (left_sibling = None)) (bool_decide (right_sibling = None))
  then Ok (mkProofEntry target left_sibling right_sibling) else Err Panic.

Abbreviation Proof_ := (list ProofEntry).

(** [Proof::verify]: every entry's target is the hash of the pair it
    completes. *)
Fixpoint Proof_verify (self : Proof_) (candidate : hash) : bool :=
  match self with
  | [] => true
  | pe :: rest =>
      let lsib := default candidate (pe_left_sibling pe) in
      let rsib := default candidate (pe_right_sibling pe) in
      let h := hash_intermediate lsib rsib in
      if bool_decide (h = pe_target pe) then Proof_verify rest h else false
  end.

(* ------------------------------------------------------------------ *)
(** * The tree *)

Record MerkleTree := mkMerkleTree { leaf_count : nat; nodes : list hash }.

Definition next_level_len (level_len : nat) : nat :=
  if (level_len =? 1)%nat then 0%nat else ((level_len + 1) / 2)%nat.

(** The hash of two siblings, in order or sorted. *)
Definition hash_pair (sorted_hashes : bool) (lsib rsib : hash) : hash :=
  if sorted_hashes then
    if bytes_leb lsib rsib then hash_intermediate lsib rsib else hash_intermediate rsib lsib
  else hash_intermediate lsib rsib.

(** The body of the inner loop: push parent number [i] of the previous level. *)
Definition push_parent (sorted_hashes : bool) (prev_level_start prev_level_len : nat)
    (nodes : list hash) (i : nat) : res (list hash) :=
  let prev_level_idx := (2 * i)%nat in
  lsib ← aget nodes (prev_level_start + prev_level_idx);
  rsib ← (if (prev_level_idx + 1 <? prev_level_len)%nat
          then aget nodes (prev_level_start + prev_level_idx + 1)
          else aget nodes (prev_level_start + prev_level_idx));
  mret (nodes ++ [hash_pair sorted_hashes lsib rsib]).

(** The outer loop; [fuel] bounds the number of levels. *)
Fixpoint push_levels (fuel : nat) (sorted_hashes : bool) (nodes : list hash)
    (level_len level_start prev_level_len prev_level_start : nat) : res (list hash) :=
  if (level_len =? 0)%nat then Ok nodes else
  match fuel with
  | O => Err Panic
  | S fuel =>
      nodes ← foldM (push_parent sorted_hashes prev_level_start prev_level_len) nodes (seq 0 level_len);
      push_levels fuel sorted_hashes nodes (next_level_len level_len) (level_start + level_len)
        level_len level_start
  end.

Definition MerkleTree_new (items : list (list Z)) (sorted_hashes : bool) : res MerkleTree :=
  let n := length items in
  nodes ← push_levels n sorted_hashes (hash_leaf <$> items) (next_level_len n) n n 0;
  mret (mkMerkleTree n nodes).

Definition get_root (self : MerkleTree) : option hash := list.last (nodes self).

(** The loop of [find_path] over the levels, from the leaves to the root. *)
Fixpoint find_path_loop (fuel : nat) (nodes : list hash) (level_len level_start node_index : nat)
    (lsib rsib : option hash) (path : Proof_) : res Proof_ :=
  if (level_len =? 0)%nat then Ok path else
  match fuel with
  | O => Err Panic
  | S fuel =>
      let level := take level_len (drop level_start nodes) in
      _ ← (if (length nodes <? level_start + level_len)%nat then Err Panic else Ok tt);
      target ← aget level node_index;
      path ← (if negb (bool_decide (lsib = None)) || negb (bool_decide (rsib = None))
              then e ← ProofEntry_new target lsib rsib; mret (path ++ [e])
              else mret path);
      '(lsib, rsib) ← (if (node_index mod 2 =? 0)%nat
                       then r ← (if (node_index + 1 <? length level)%nat
                                 then aget level (node_index + 1) else aget level node_index);
                            mret (None, Some r)
                       else l ← aget level (node_index - 1); mret (Some l, None));
      find_path_loop fuel nodes (next_level_len level_len) (level_start + level_len)
        (node_index / 2) lsib rsib path
  end.

Definition find_path (self : MerkleTree) (index : nat) : res (option Proof_) :=
  if (leaf_count self <=? index)%nat then Ok None
  else p ← find_path_loop (S (leaf_count self)) (nodes self) (leaf_count self) 0 index None None [];
       mret (Some p).

(* ------------------------------------------------------------------ *)
(** * Proofs as lists of siblings (utils.rs, verify.rs) *)

Definition get_proof (merkle_tree : MerkleTree) (index : nat) : res (list hash) :=
  path ← find_path merkle_tree index;
  path ← ok_or path Panic;
  foldM (fun proof branch =>
    match pe_left_sibling branch, pe_right_sibling branch with
    | Some h, _ => Ok (proof ++ [h])
    | None, Some h => Ok (proof ++ [h])
    | None, None => Err Panic
    end) [] path.

Fixpoint computed_hash (proof : list hash) (computed : hash) : hash :=
  match proof with
  | [] => computed
  | proof_element :: proof =>
      if bytes_leb computed proof_element
      then computed_hash proof (hashv [[1]; computed; proof_element])
      else computed_hash proof (hashv [[1]; proof_element; computed])
  end.

Definition verify (proof : list hash) (root leaf : hash) : bool :=
  bool_decide (computed_hash proof leaf = root).

(* ------------------------------------------------------------------ *)
(** * Tree nodes *)

Record TreeNode := mkTreeNode {
  tip_distribution_account : Pubkey;
  tn_proof : option (list hash);
  validator_merkle_root : hash;
  max_total_claim : Z;
  max_num_nodes : Z;
}.

Definition TreeNode_new (tip_distribution_account : Pubkey) (validator_merkle_root : hash)
    (max_total_claim max_num_nodes : Z) : TreeNode :=
  mkTreeNode tip_distribution_account None validator_merkle_root max_total_claim max_num_nodes.

Definition TreeNode_hash (self : TreeNode) : hash :=
  hashv [to_bytes (tip_distribution_account self); validator_merkle_root self;
         to_le_bytes 8 (max_total_claim self); to_le_bytes 8 (max_num_nodes self)].

(* ------------------------------------------------------------------ *)
(** * The meta tree *)

(** The errors of the crate, without their messages; [MtPanic] is an
    [expect], [assert] or index that fails. *)
Inductive MerkleTreeError : Type :=
| MerkleValidationError
| MerkleRootError
| MtArithmeticOverflow
| MtPanic.

Record MetaMerkleTree := mkMetaMerkleTree {
  merkle_root : hash;
  num_nodes : Z;
  tree_nodes : list TreeNode;
}.

(** Panics inside the crate's [Result]. *)
Definition mt {A} (r : res A) : result MerkleTreeError A :=
  match r with Ok a => Ok a | Err _ => Err MtPanic end.

(** [sort_by_key(|node| node.hash())]: a stable sort. *)
Fixpoint insert_by_hash (n : TreeNode) (l : list TreeNode) : list TreeNode :=
  match l with
  | [] => [n]
  | m :: l' => if bytes_leb (TreeNode_hash n) (TreeNode_hash m) then n :: l
               else m :: insert_by_hash n l'
  end.
Definition sort_by_hash (l : list TreeNode) : list TreeNode := foldr insert_by_hash [] l.

Definition with_proof (n : TreeNode) (p : list hash) : TreeNode :=
  mkTreeNode (tip_distribution_account n) (Some p) (validator_merkle_root n)
    (max_total_claim n) (max_num_nodes n).

(** The loop that stores a proof in every node. *)
Fixpoint set_proofs (tree : MerkleTree) (i : nat) (l : list TreeNode) : res (list TreeNode) :=
  match l with
  | [] => mret []
  | n :: l => p ← get_proof tree i; rest ← set_proofs tree (S i) l; mret (with_proof n p :: rest)
  end.

Definition verify_proof (self : MetaMerkleTree) : result MerkleTreeError unit :=
  let root := merkle_root self in
  let hashed_nodes := TreeNode_hash <$> tree_nodes self in
  mk ← mt (MerkleTree_new hashed_nodes true);
  r ← ok_or (get_root mk) MerkleValidationError;
  _ ← (if bool_decide (r = root) then Ok tt else Err MtPanic);
  foldM (fun _ i =>
    h ← mt (aget hashed_nodes i);
    let node := hashv [LEAF_PREFIX; h] in
    proof ← mt (get_proof mk i);
    if verify proof root node then Ok tt else Err MerkleValidationError)
    tt (seq 0 (length hashed_nodes)).

Definition validate (self : MetaMerkleTree) : result MerkleTreeError unit :=
  let max_nodes := 2 ^ 32 - 1 in
  if max_nodes <? num_nodes self then Err MerkleValidationError else
  if negb (Z.of_nat (length (tree_nodes self)) =? num_nodes self) then Err MerkleValidationError else
  if negb (bool_decide (NoDup (tip_distribution_account <$> tree_nodes self)))
  then Err MerkleValidationError else
  match verify_proof self with
  | Ok _ => Ok tt
  | Err MtPanic => Err MtPanic
  | Err _ => Err MerkleValidationError
  end.

Definition MetaMerkleTree_new (tree_nodes : list TreeNode) : result MerkleTreeError MetaMerkleTree :=
  let tree_nodes := sort_by_hash tree_nodes in
  let hashed_nodes := TreeNode_hash <$> tree_nodes in
  tree ← mt (MerkleTree_new hashed_nodes true);
  tree_nodes ← mt (set_proofs tree 0 tree_nodes);
  root ← ok_or (get_root tree) MerkleRootError;
  let self := mkMetaMerkleTree root (Z.of_nat (length tree_nodes)) tree_nodes in
  _ ← validate self;
  mret self.

Definition get_node (self : MetaMerkleTree) (account : Pubkey) : result MerkleTreeError TreeNode :=
  '(_, n) ← ok_or (list_find (fun n => tip_distribution_account n = account) (tree_nodes self)) MtPanic;
  mret n.
End merkle.
