(* ===== verification/MerkleTreeProps.v ===== *)
(** Correctness of the Merkle trees: the node array holds the levels of the
    tree, every path of the tree verifies against its root, and under an ideal
    hash nothing else does. *)

From S2P Require Import Prelude Errors External MerkleTree.

(* ------------------------------------------------------------------ *)
(** * Reference: the tree as a tower of levels *)

Abbreviation nthd l i := (nth i l ([] : list Z)).

Lemma lookup_nthd (l : list hash) i : (i < length l)%nat -> l !! i = Some (nthd l i).
Proof. intros Hi. destruct (nth_lookup_or_length l i []); [done|lia]. Qed.

Lemma next_level_len_lt n : (1 <= n)%nat -> (next_level_len n < n)%nat.
Proof.
  intros Hn. unfold next_level_len. destruct (Nat.eqb_spec n 1); [lia|].
  apply Nat.Div0.div_lt_upper_bound; lia.
Qed.

Lemma next_level_len_pos n : (2 <= n)%nat -> (1 <= next_level_len n)%nat.
Proof.
  intros Hn. unfold next_level_len. destruct (Nat.eqb_spec n 1); [lia|].
  apply Nat.div_le_lower_bound; lia.
Qed.

Lemma next_level_len_index n i : (i < next_level_len n)%nat -> (2 * i < n)%nat /\ n <> 1%nat.
Proof.
  unfold next_level_len. destruct (Nat.eqb_spec n 1); [lia|]. intros Hi.
  pose proof (Nat.Div0.mul_div_le (n + 1) 2). lia.
Qed.

Lemma next_level_len_half n i : (2 <= n)%nat -> (i < n)%nat -> (i / 2 < next_level_len n)%nat.
Proof.
  intros Hn Hi. unfold next_level_len. destruct (Nat.eqb_spec n 1); [lia|].
  apply Nat.Div0.div_lt_upper_bound. pose proof (Nat.div_mod_eq (n + 1) 2).
  pose proof (Nat.mod_upper_bound (n + 1) 2). lia.
Qed.

Section props.
Context `{Solana}.
Implicit Types (s : bool) (l pre : list hash).

Definition right_or_self l i : hash :=
  if (2 * i + 1 <? length l)%nat then nthd l (2 * i + 1) else nthd l (2 * i).
Definition parent_at s l i : hash := hash_pair s (nthd l (2 * i)) (right_or_self l i).
Definition next_level s l : list hash := parent_at s l <$> seq 0 (next_level_len (length l)).

(** The levels from [l] up to the root, and the root; [f] bounds the height. *)
Fixpoint tower (f : nat) s l : list (list hash) :=
  match f with
  | O => []
  | S f => if (length l =? 0)%nat then [] else l :: tower f s (next_level s l)
  end.
Fixpoint root_of (f : nat) s l : hash :=
  match f with
  | O => []
  | S f => if (length l <=? 1)%nat then nthd l 0 else root_of f s (next_level s l)
  end.

Lemma next_level_length s l : length (next_level s l) = next_level_len (length l).
Proof. unfold next_level. by rewrite length_fmap, length_seq. Qed.

Lemma nthd_next_level s l i :
  (i < next_level_len (length l))%nat -> nthd (next_level s l) i = parent_at s l i.
Proof.
  intros Hi. apply nth_lookup_Some. unfold next_level. rewrite list_lookup_fmap.
  by rewrite lookup_seq_lt.
Qed.

Lemma tower_nil f s : tower f s [] = [].
Proof. by destruct f. Qed.

(** ** Construction builds the tower *)

Lemma aget_mid pre l rest i k :
  (i < length l)%nat -> k = (length pre + i)%nat -> aget (pre ++ l ++ rest) k = Ok (nthd l i).
Proof.
  intros Hi ->. apply aget_Ok. rewrite lookup_app_r by lia.
  replace (length pre + i - length pre)%nat with i by lia.
  rewrite lookup_app_l by done. by apply lookup_nthd.
Qed.

Lemma push_parent_spec s pre l rest i :
  (i < next_level_len (length l))%nat ->
  push_parent s (length pre) (length l) (pre ++ l ++ rest) i = Ok ((pre ++ l ++ rest) ++ [parent_at s l i]).
Proof.
  intros Hi. destruct (next_level_len_index (length l) i Hi) as [H2 H1].
  unfold push_parent. cbv zeta. rewrite (aget_mid pre l rest (2 * i) (length pre + 2 * i)) by lia. cbn [mbind result_bind].
  assert (Hr : (if (2 * i + 1 <? length l)%nat
                then aget (pre ++ l ++ rest) (length pre + 2 * i + 1)
                else Ok (nthd l (2 * i))) = Ok (right_or_self l i)).
  { unfold right_or_self. destruct (Nat.ltb_spec (2 * i + 1) (length l)); [apply aget_mid; lia|done]. }
  rewrite Hr. done.
Qed.

Lemma push_parents s pre l j k :
  (j + k <= next_level_len (length l))%nat ->
  foldM (push_parent s (length pre) (length l)) (pre ++ l ++ (parent_at s l <$> seq 0 j)) (seq j k)
  = Ok (pre ++ l ++ (parent_at s l <$> seq 0 (j + k))).
Proof.
  revert j. induction k as [|k IH]; intros j Hj; simpl.
  - by rewrite Nat.add_0_r.
  - rewrite push_parent_spec by lia. cbn [mbind result_bind].
    specialize (IH (S j) ltac:(lia)). rewrite <- Nat.add_succ_comm, <- IH. f_equal.
    rewrite seq_S, fmap_app, <- !app_assoc. done.
Qed.

Lemma push_levels_spec f s pre l :
  (length l <= f)%nat ->
  push_levels f s (pre ++ l) (next_level_len (length l)) (length pre + length l) (length l) (length pre)
  = Ok (pre ++ concat (tower f s l)).
Proof.
  revert pre l. induction f as [|f IH]; intros pre l Hf.
  - destruct l; [|simpl in Hf; lia]. done.
  - destruct (Nat.eqb_spec (length l) 0) as [H0|H0].
    { destruct l; [|done]. done. }
    pose proof (next_level_len_lt (length l) ltac:(lia)) as Hlt.
    cbn [push_levels tower]. rewrite (proj2 (Nat.eqb_neq _ _) H0).
    destruct (Nat.eqb_spec (next_level_len (length l)) 0) as [Hz|Hz].
    + assert (next_level s l = []) as -> by (apply length_zero_iff_nil; by rewrite next_level_length).
      rewrite tower_nil. simpl. by rewrite app_nil_r.
    + pose proof (push_parents s pre l 0 (next_level_len (length l)) ltac:(lia)) as Hp.
      simpl in Hp. rewrite app_nil_r in Hp. rewrite Hp. cbn [mbind result_bind].
      specialize (IH (pre ++ l) (next_level s l)).
      rewrite next_level_length, length_app in IH. unfold next_level at 1 in IH.
      rewrite app_assoc, IH by lia. simpl. by rewrite <- app_assoc.
Qed.

Lemma MerkleTree_new_spec items s :
  MerkleTree_new items s
  = Ok (mkMerkleTree (length items) (concat (tower (length items) s (hash_leaf <$> items)))).
Proof.
  unfold MerkleTree_new. pose proof (push_levels_spec (length items) s [] (hash_leaf <$> items)) as Hp.
  rewrite length_fmap in Hp. simpl in Hp. by rewrite Hp.
Qed.

Lemma tower_last f s l :
  (1 <= length l)%nat -> (length l <= f)%nat -> list.last (concat (tower f s l)) = Some (root_of f s l).
Proof.
  revert l. induction f as [|f IH]; intros l H1 Hf; [lia|]. simpl.
  rewrite (proj2 (Nat.eqb_neq (length l) 0)) by lia. simpl. rewrite last_app.
  pose proof (next_level_len_lt (length l) ltac:(lia)) as Hlt.
  destruct (Nat.leb_spec (length l) 1) as [Hle|Hgt].
  - destruct l as [|x [|]]; simpl in *; try lia. unfold next_level. simpl. by rewrite tower_nil.
  - rewrite IH; [done| |]; rewrite next_level_length; [|lia]. apply next_level_len_pos. lia.
Qed.

Lemma get_root_new items s t :
  MerkleTree_new items s = Ok t -> items <> [] ->
  get_root t = Some (root_of (length items) s (hash_leaf <$> items)).
Proof.
  rewrite MerkleTree_new_spec. intros [= <-] Hne. unfold get_root. simpl.
  apply tower_last; rewrite length_fmap; [|lia]. destruct items; simpl; [done|lia].
Qed.

(** ** Paths *)

(** [es] leads from [c] up to [root]: every entry holds one sibling of the
    current node and their parent. *)
Fixpoint chain s (es : list ProofEntry) (c root : hash) : Prop :=
  match es with
  | [] => c = root
  | e :: es =>
      ((exists x, pe_left_sibling e = Some x /\ pe_right_sibling e = None /\ pe_target e = hash_pair s x c) \/
       (exists x, pe_left_sibling e = None /\ pe_right_sibling e = Some x /\ pe_target e = hash_pair s c x)) /\
      chain s es (pe_target e) root
  end.

Definition pending (target : hash) (ls rs : option hash) : list ProofEntry :=
  match ls, rs with None, None => [] | _, _ => [mkProofEntry target ls rs] end.

Lemma push_pending target ls rs path :
  ls = None \/ rs = None ->
  (if negb (bool_decide (ls = None)) || negb (bool_decide (rs = None))
   then e ← ProofEntry_new target ls rs; mret (path ++ [e]) else mret path)
  = Ok (path ++ pending target ls rs).
Proof.
  intros Hn. unfold ProofEntry_new, pending.
  destruct ls as [x|], rs as [y|]; simpl; try (destruct Hn; done); by rewrite ?app_nil_r.
Qed.

Lemma level_slice f s pre l :
  (1 <= length l)%nat -> (length l <= f)%nat ->
  take (length l) (drop (length pre) (pre ++ concat (tower f s l))) = l /\
  (length pre + length l <= length (pre ++ concat (tower f s l)))%nat.
Proof.
  intros H1 Hf. destruct f as [|f]; [lia|]. simpl. rewrite (proj2 (Nat.eqb_neq (length l) 0)) by lia.
  rewrite drop_app_length. simpl. rewrite take_app_length. split; [done|].
  rewrite !length_app. lia.
Qed.

(** The siblings chosen at index [i] of level [l], and their parent. *)
Lemma sibling_parent s l i :
  (2 <= length l)%nat -> (i < length l)%nat ->
  nthd (next_level s l) (i / 2) =
    if (i mod 2 =? 0)%nat
    then hash_pair s (nthd l i) (if (i + 1 <? length l)%nat then nthd l (i + 1) else nthd l i)
    else hash_pair s (nthd l (i - 1)) (nthd l i).
Proof.
  intros Hl Hi. rewrite nthd_next_level by by apply next_level_len_half.
  unfold parent_at, right_or_self. pose proof (Nat.div_mod_eq i 2) as Hd.
  pose proof (Nat.mod_upper_bound i 2 ltac:(lia)) as Hm.
  destruct (Nat.eqb_spec (i mod 2) 0) as [He|He].
  - replace (2 * (i / 2))%nat with i by lia. done.
  - replace (2 * (i / 2))%nat with (i - 1)%nat by lia.
    replace (i - 1 + 1)%nat with i by lia. by rewrite (proj2 (Nat.ltb_lt _ _) Hi).
Qed.

Lemma find_path_loop_spec g f s pre l i ls rs path :
  (1 <= length l)%nat -> (length l <= f)%nat -> (length l <= g)%nat -> (i < length l)%nat ->
  ls = None \/ rs = None ->
  exists es, find_path_loop g (pre ++ concat (tower f s l)) (length l) (length pre) i ls rs path
    = Ok (path ++ pending (nthd l i) ls rs ++ es) /\ chain s es (nthd l i) (root_of f s l).
Proof.
  revert f pre l i ls rs path.
  induction g as [|g IH]; intros f pre l i ls rs path H1 Hf Hg Hi Hn; [lia|].
  destruct (level_slice f s pre l H1 Hf) as [Hs Hlen].
  cbn [find_path_loop]. rewrite (proj2 (Nat.eqb_neq (length l) 0)) by lia.
  rewrite Hs, (proj2 (Nat.ltb_ge _ _) Hlen). cbn [mbind result_bind].
  rewrite (proj2 (aget_Ok _ _ _) (lookup_nthd l i Hi)). cbn [mbind result_bind].
  rewrite (push_pending _ _ _ _ Hn). cbn [mbind result_bind].
  pose proof (Nat.mod_upper_bound i 2 ltac:(lia)) as Hm.
  set (sib := if (i mod 2 =? 0)%nat then (if (i + 1 <? length l)%nat then nthd l (i + 1) else nthd l i)
              else nthd l (i - 1)).
  set (ls' := if (i mod 2 =? 0)%nat then None else Some sib).
  set (rs' := if (i mod 2 =? 0)%nat then Some sib else None).
  assert (Hsib : (if (i mod 2 =? 0)%nat
      then r ← (if (i + 1 <? length l)%nat then aget l (i + 1) else Ok (nthd l i)); mret (None, Some r)
      else x ← aget l (i - 1); mret (Some x, None)) = Ok (ls', rs')).
  { unfold ls', rs', sib. destruct (Nat.eqb_spec (i mod 2) 0).
    - destruct (Nat.ltb_spec (i + 1) (length l)).
      + by rewrite (proj2 (aget_Ok _ _ _) (lookup_nthd l (i + 1) ltac:(lia))).
      + done.
    - by rewrite (proj2 (aget_Ok _ _ _) (lookup_nthd l (i - 1) ltac:(lia))). }
  rewrite Hsib. cbn [mbind result_bind].
  destruct f as [|f]; [lia|].
  destruct (Nat.leb_spec (length l) 1) as [Hle|Hgt].
  - assert (Hl1 : length l = 1%nat) by lia. rewrite Hl1. exists [].
    change (next_level_len 1) with 0%nat. rewrite app_nil_r. split.
    + by destruct g.
    + simpl. rewrite Hl1. simpl. assert (i = 0)%nat as -> by lia. done.
  - assert (Htow : concat (tower (S f) s l) = l ++ concat (tower f s (next_level s l))).
    { simpl. by rewrite (proj2 (Nat.eqb_neq (length l) 0)) by lia. }
    assert (Hroot : root_of (S f) s l = root_of f s (next_level s l)).
    { simpl. by rewrite (proj2 (Nat.leb_gt _ _) Hgt). }
    pose proof (next_level_len_lt (length l) H1). pose proof (next_level_len_pos (length l) Hgt).
    pose proof (next_level_len_half (length l) i Hgt Hi).
    destruct (IH f (pre ++ l) (next_level s l) (i / 2)%nat ls' rs' (path ++ pending (nthd l i) ls rs))
      as (es & Hes & Hch).
    1-4: rewrite next_level_length; lia.
    { unfold ls', rs'. destruct (_ =? _)%nat; auto. }
    rewrite next_level_length, length_app in Hes.
    rewrite Htow, Hroot. rewrite app_assoc, Hes.
    exists (pending (nthd (next_level s l) (i / 2)) ls' rs' ++ es).
    split; [by rewrite <- !app_assoc|].
    assert (Hpar := sibling_parent s l i ltac:(lia) Hi).
    unfold pending, ls', rs', sib in *. destruct (i mod 2 =? 0)%nat; simpl.
    + split; [|done]. right. by eexists.
    + split; [|done]. left. by eexists.
Qed.

Lemma find_path_new items s t i :
  MerkleTree_new items s = Ok t -> (i < length items)%nat ->
  exists es, find_path t i = Ok (Some es) /\
    chain s es (nthd (hash_leaf <$> items) i) (root_of (length items) s (hash_leaf <$> items)).
Proof.
  rewrite MerkleTree_new_spec. intros [= <-] Hi. unfold find_path. cbn [leaf_count nodes].
  rewrite (proj2 (Nat.leb_gt _ _) Hi).
  destruct (find_path_loop_spec (S (length items)) (length items) s [] (hash_leaf <$> items) i None None [])
    as (es & Hes & Hch); [| | | |by left|]; rewrite ?length_fmap in *; try lia.
  exists es. simpl in *. split; [|done].
  rewrite Hes. done.
Qed.

Lemma nthd_leaf items i : (i < length items)%nat -> nthd (hash_leaf <$> items) i = hash_leaf (nth i items []).
Proof.
  intros Hi. apply nth_lookup_Some. rewrite list_lookup_fmap.
  by rewrite (lookup_nthd items i Hi).
Qed.

(** ** Verification *)

Lemma chain_verify es c root : chain false es c root -> Proof_verify es c = true.
Proof.
  revert c. induction es as [|e es IH]; intros c Hc; [done|].
  destruct Hc as [[(x & El & Er & Et)|(x & El & Er & Et)] Hc]; simpl; rewrite El, Er; simpl;
    unfold hash_pair in Et; rewrite <- Et, bool_decide_true by done; auto.
Qed.

(** Sorted hashing does not depend on the side of the sibling. *)
Lemma hash_pair_comm a b : hash_pair true a b = hash_pair true b a.
Proof.
  unfold hash_pair. destruct (bytes_leb a b) eqn:E1, (bytes_leb b a) eqn:E2; try done.
  - by rewrite (bytes_leb_antisym a b).
  - destruct (bytes_leb_total a b); congruence.
Qed.

Lemma computed_hash_cons p proof c : computed_hash (p :: proof) c = computed_hash proof (hash_pair true c p).
Proof. simpl. unfold hash_pair. by destruct (bytes_leb c p). Qed.

Lemma computed_hash_app p1 p2 c : computed_hash (p1 ++ p2) c = computed_hash p2 (computed_hash p1 c).
Proof.
  revert c. induction p1 as [|p p1 IH]; intros c; [done|].
  rewrite <- app_comm_cons, !computed_hash_cons. apply IH.
Qed.

Lemma chain_proof es c root acc :
  chain true es c root ->
  exists proof, foldM (fun proof branch =>
      match pe_left_sibling branch, pe_right_sibling branch with
      | Some h, _ => Ok (proof ++ [h])
      | None, Some h => Ok (proof ++ [h])
      | None, None => Err Panic
      end) acc es = (Ok (acc ++ proof) : res (list hash)) /\ computed_hash proof c = root.
Proof.
  revert c acc. induction es as [|e es IH]; intros c acc Hc.
  - exists []. by rewrite app_nil_r.
  - destruct Hc as [[(x & El & Er & Et)|(x & El & Er & Et)] Hc];
      destruct (IH _ (acc ++ [x]) Hc) as (proof & Hf & Hp); exists (x :: proof);
      simpl foldM; rewrite El, ?Er; cbn [mbind result_bind]; rewrite Hf, <- app_assoc;
      (split; [done|]); rewrite computed_hash_cons, <- Hp, Et; [by rewrite hash_pair_comm|done].
Qed.

Lemma get_proof_new items t i :
  MerkleTree_new items true = Ok t -> (i < length items)%nat ->
  exists proof, get_proof t i = Ok proof /\
    computed_hash proof (hash_leaf (nth i items [])) = root_of (length items) true (hash_leaf <$> items).
Proof.
  intros Ht Hi. destruct (find_path_new _ _ _ _ Ht Hi) as (es & Hes & Hch).
  rewrite nthd_leaf in Hch by done. destruct (chain_proof _ _ _ [] Hch) as (proof & Hf & Hp).
  exists proof. split; [|done]. unfold get_proof. rewrite Hes. cbn [mbind result_bind ok_or].
  rewrite Hf. done.
Qed.
End props.

(* ------------------------------------------------------------------ *)
(** * Soundness under an ideal hash *)

Section ideal.
Context `{I : IdealHash}.
Implicit Types (l proof : list hash).

Lemma hash_leaf_inj d d' : hash_leaf d = hash_leaf d' -> d = d'.
Proof.
  intros Heq%hashv_inj. simpl in Heq. rewrite !app_nil_r in Heq. by injection Heq.
Qed.

Lemma hash_intermediate_inj a b a' b' :
  length a = length a' -> hash_intermediate a b = hash_intermediate a' b' -> a = a' /\ b = b'.
Proof.
  intros Hl Heq%hashv_inj. simpl in Heq. rewrite !app_nil_r in Heq. injection Heq as Heq.
  by apply app_inj_1.
Qed.

Lemma hash_leaf_not_intermediate d a b : hash_leaf d <> hash_intermediate a b.
Proof. intros Heq%hashv_inj. simpl in Heq. congruence. Qed.

Lemma hash_pair_intermediate s a b : exists x y, hash_pair s a b = hash_intermediate x y.
Proof. unfold hash_pair. destruct s; [destruct (bytes_leb a b)|]; eauto. Qed.

Lemma hash_pair_length s a b : length (hash_pair s a b) = 32%nat.
Proof.
  destruct (hash_pair_intermediate s a b) as (x & y & ->). apply hashv_length.
Qed.

Lemma hash_pair_inj a b a' b' :
  length a = 32%nat -> length b = 32%nat -> length a' = 32%nat -> length b' = 32%nat ->
  hash_pair true a b = hash_pair true a' b' -> a = a' \/ a = b'.
Proof.
  intros. unfold hash_pair in *. destruct (bytes_leb a b), (bytes_leb a' b');
    match goal with E : hash_intermediate _ _ = _ |- _ => apply hash_intermediate_inj in E as [-> ->]; [auto|congruence] end.
Qed.

Definition len32 (h : hash) : Prop := length h = 32%nat.

Lemma computed_hash_len32 proof c : len32 c -> Forall len32 proof -> len32 (computed_hash proof c).
Proof.
  revert c. induction proof as [|p proof IH]; intros c Hc Hp; [done|].
  rewrite computed_hash_cons. apply IH; [apply hash_pair_length|by apply Forall_cons_1 in Hp as [_ ?]].
Qed.

Lemma next_level_len32 s l : Forall len32 (next_level s l).
Proof.
  apply Forall_lookup_2. intros i x Hi. unfold next_level in Hi.
  rewrite list_lookup_fmap in Hi. destruct (seq 0 _ !! i); [|done]. simpl in Hi. injection Hi as <-.
  apply hash_pair_length.
Qed.

(** A hash computed from a leaf that meets the root passes through the
    level: some prefix of the proof computes one of its nodes. *)
Lemma computed_hash_meets f l proof d :
  (1 <= length l)%nat -> (length l <= f)%nat -> Forall len32 l -> Forall len32 proof ->
  computed_hash proof (hash_leaf d) = root_of f true l ->
  exists p1 p2, proof = p1 ++ p2 /\ computed_hash p1 (hash_leaf d) ∈ l.
Proof.
  revert l. induction f as [|f IH]; intros l H1 Hf Hl Hp Heq; [lia|]. simpl in Heq.
  destruct (Nat.leb_spec (length l) 1) as [Hle|Hgt].
  - exists proof, []. rewrite app_nil_r. split; [done|]. rewrite Heq.
    eapply list_elem_of_lookup_2. apply lookup_nthd. lia.
  - pose proof (next_level_len_lt (length l) H1). pose proof (next_level_len_pos (length l) Hgt).
    destruct (IH (next_level true l)) as (p1 & p2 & -> & Hin); try done;
      try (rewrite next_level_length; lia); [apply next_level_len32|].
    apply Forall_app in Hp as [Hp1 _].
    unfold next_level in Hin. apply list_elem_of_fmap in Hin as (i & Hi & Hin).
    apply elem_of_seq in Hin. destruct (next_level_len_index (length l) i) as [H2 _]; [lia|].
    unfold parent_at in Hi.
    destruct p1 as [|e p1 _] using rev_ind.
    { destruct (hash_pair_intermediate true (nthd l (2 * i)) (right_or_self l i)) as (x & y & Hxy).
      rewrite Hxy in Hi. by apply hash_leaf_not_intermediate in Hi. }
    apply Forall_app in Hp1 as [Hp1 [He _]%Forall_cons_1].
    rewrite computed_hash_app in Hi. rewrite computed_hash_cons in Hi. simpl in Hi.
    assert (Hleft : nthd l (2 * i) ∈ l) by (eapply list_elem_of_lookup_2, lookup_nthd; lia).
    assert (Hright : right_or_self l i ∈ l).
    { unfold right_or_self. destruct (Nat.ltb_spec (2 * i + 1) (length l)); [|done].
      eapply list_elem_of_lookup_2, lookup_nthd. lia. }
    exists p1, ([e] ++ p2). split; [by rewrite app_assoc|].
    apply hash_pair_inj in Hi as [->| ->]; try done.
    + apply computed_hash_len32; [apply hashv_length|done].
    + by apply (Forall_In _ _ _ Hl).
    + by apply (Forall_In _ _ _ Hl).
Qed.

Lemma proof_sound items proof d :
  items <> [] -> Forall len32 proof ->
  computed_hash proof (hash_leaf d) = root_of (length items) true (hash_leaf <$> items) -> d ∈ items.
Proof.
  intros Hne Hp Heq.
  destruct (computed_hash_meets (length items) (hash_leaf <$> items) proof d) as (p1 & p2 & -> & Hin); try done.
  - rewrite length_fmap. destruct items; simpl; [done|lia].
  - by rewrite length_fmap.
  - apply Forall_lookup_2. intros i x Hi. rewrite list_lookup_fmap in Hi.
    destruct (items !! i); [|done]. simpl in Hi. injection Hi as <-. apply hashv_length.
  - apply list_elem_of_fmap in Hin as (y & Hy & Hin).
    destruct p1 as [|e p1 _] using rev_ind; [by apply hash_leaf_inj in Hy as ->|].
    rewrite computed_hash_app, computed_hash_cons in Hy. cbn [computed_hash] in Hy.
    destruct (hash_pair_intermediate true (computed_hash p1 (hash_leaf d)) e) as (a & b & Hab).
    rewrite Hab in Hy. symmetry in Hy. by apply hash_leaf_not_intermediate in Hy.
Qed.
End ideal.

(* ------------------------------------------------------------------ *)
(** * The meta tree *)

Section meta.
Context `{Solana}.
Implicit Types (n : TreeNode) (ns : list TreeNode).

Lemma insert_by_hash_perm n ns : insert_by_hash n ns ≡ₚ n :: ns.
Proof.
  induction ns as [|m ns IH]; simpl; [done|]. destruct (bytes_leb _ _); [done|].
  rewrite IH. apply perm_swap.
Qed.

Lemma sort_by_hash_perm ns : sort_by_hash ns ≡ₚ ns.
Proof.
  induction ns as [|n ns IH]; [done|]. simpl. rewrite insert_by_hash_perm. by apply perm_skip.
Qed.

(** Sorted by hash: every node is below all later ones. *)
Fixpoint sorted_hashes (l : list hash) : Prop :=
  match l with [] => True | h :: l => Forall (fun k => bytes_leb h k = true) l /\ sorted_hashes l end.

Lemma bytes_leb_trans a b c : bytes_leb a b = true -> bytes_leb b c = true -> bytes_leb a c = true.
Proof.
  revert b c. induction a as [|x a IH]; intros [|y b] [|z c]; simpl; try done.
  destruct (Z.eqb_spec x y) as [->|Hxy].
  - destruct (Z.eqb_spec y z) as [->|Hyz]; [apply IH|done].
  - intros Hlt%Z.ltb_lt. destruct (Z.eqb_spec y z) as [->|Hyz].
    + intros _. rewrite (proj2 (Z.eqb_neq _ _) Hxy). by apply Z.ltb_lt.
    + intros Hlt2%Z.ltb_lt. rewrite (proj2 (Z.eqb_neq x z)) by lia. apply Z.ltb_lt. lia.
Qed.

Lemma insert_by_hash_sorted n ns :
  sorted_hashes (TreeNode_hash <$> ns) -> sorted_hashes (TreeNode_hash <$> insert_by_hash n ns).
Proof.
  induction ns as [|m ns IH]; simpl; [done|]. intros [Hm Hs].
  destruct (bytes_leb (TreeNode_hash n) (TreeNode_hash m)) eqn:E; simpl.
  - split; [|done]. apply Forall_cons_2; [done|].
    apply Forall_lookup_2. intros i k Hk. eapply bytes_leb_trans; [done|].
    apply (Forall_lookup_1 _ _ _ _ Hm Hk).
  - split; [|by apply IH]. rewrite insert_by_hash_perm. simpl. apply Forall_cons_2; [|done].
    destruct (bytes_leb_total (TreeNode_hash n) (TreeNode_hash m)); congruence.
Qed.

Lemma sort_by_hash_sorted ns : sorted_hashes (TreeNode_hash <$> sort_by_hash ns).
Proof. induction ns as [|n ns IH]; [done|]. by apply insert_by_hash_sorted. Qed.

(** Two sorted lists with the same elements are the same list. *)
Lemma sorted_hashes_unique a b : sorted_hashes a -> sorted_hashes b -> a ≡ₚ b -> a = b.
Proof.
  revert b. induction a as [|x a IH]; intros b Ha Hb Hp.
  - by apply Permutation_nil in Hp as ->.
  - destruct b as [|y b]; [by symmetry in Hp; apply Permutation_nil in Hp|].
    destruct Ha as [Hx Ha], Hb as [Hy Hb].
    assert (x = y) as ->.
    { assert (Hxin : x ∈ y :: b) by (rewrite <- Hp; left).
      assert (Hyin : y ∈ x :: a) by (rewrite Hp; left).
      apply elem_of_cons in Hxin as [?|Hxin]; [done|].
      apply elem_of_cons in Hyin as [?|Hyin]; [done|].
      apply bytes_leb_antisym; [apply (Forall_In _ _ _ Hx Hyin)|apply (Forall_In _ _ _ Hy Hxin)]. }
    f_equal. apply IH; [done|done|]. by eapply Permutation_cons_inv.
Qed.

Lemma with_proof_hash n p : TreeNode_hash (with_proof n p) = TreeNode_hash n.
Proof. done. Qed.

Lemma set_proofs_spec tree i ns :
  (forall j, (i <= j < i + length ns)%nat -> is_ok (get_proof tree j)) ->
  exists ns', set_proofs tree i ns = Ok ns' /\
    Forall2 (fun n n' => exists p, n' = with_proof n p) ns ns' /\
    forall j n', ns' !! j = Some n' -> exists p, get_proof tree (i + j) = Ok p /\ tn_proof n' = Some p.
Proof.
  revert i. induction ns as [|n ns IH]; intros i Hg; simpl.
  - exists []. split; [done|]. split; [constructor|]. done.
  - destruct (Hg i ltac:(simpl; lia)) as [p Hp]. rewrite Hp. cbn [mbind result_bind].
    destruct (IH (S i)) as (ns' & Hs & HF & Hl).
    { intros j Hj. apply Hg. simpl. lia. }
    rewrite Hs. cbn [mbind result_bind]. eexists. split; [done|]. split; [constructor; eauto|].
    intros [|j] n' Hj; simpl in Hj.
    + injection Hj as <-. rewrite Nat.add_0_r. eauto.
    + destruct (Hl j n' Hj) as (q & Hq & Hn). exists q. by rewrite <- Nat.add_succ_comm.
Qed.

Lemma set_proofs_shape tree i ns ns' :
  set_proofs tree i ns = Ok ns' -> Forall2 (fun n n' => exists p, n' = with_proof n p) ns ns'.
Proof.
  revert i ns'. induction ns as [|n ns IH]; intros i ns' Hs; simpl in Hs; res_inv; [constructor|].
  constructor; [by eexists|]. by eapply IH.
Qed.

Lemma Forall2_with_proof ns ns' :
  Forall2 (fun n n' => exists p, n' = with_proof n p) ns ns' ->
  TreeNode_hash <$> ns' = TreeNode_hash <$> ns /\
  tip_distribution_account <$> ns' = tip_distribution_account <$> ns.
Proof.
  induction 1 as [|n n' ns ns' [p ->] _ [IH1 IH2]]; [done|]. rewrite !fmap_cons, IH1, IH2. done.
Qed.

Definition root_of_nodes ns : hash :=
  root_of (length ns) true (hash_leaf <$> (TreeNode_hash <$> ns)).

Lemma verify_proof_ok ns ns' :
  ns' <> [] -> TreeNode_hash <$> ns' = TreeNode_hash <$> ns -> length ns' = length ns ->
  verify_proof (mkMetaMerkleTree (root_of_nodes ns) (Z.of_nat (length ns')) ns') = Ok tt.
Proof.
  intros Hne Hh Hl. unfold verify_proof. cbn [merkle_root tree_nodes].
  set (items := TreeNode_hash <$> ns').
  assert (Hitems : items <> []) by (intros E%fmap_nil_inv; done).
  assert (Hroot : root_of_nodes ns = root_of (length items) true (hash_leaf <$> items)).
  { unfold root_of_nodes, items. by rewrite length_fmap, Hl, Hh. }
  rewrite (MerkleTree_new_spec items true). cbn [mt mbind result_bind].
  set (t := mkMerkleTree _ _).
  assert (Ht : MerkleTree_new items true = Ok t) by apply MerkleTree_new_spec.
  rewrite (get_root_new _ _ _ Ht Hitems). cbn [ok_or mbind result_bind].
  rewrite bool_decide_true by done. cbn [mbind result_bind].
  clearbody t. clearbody items.
  assert (Hgen : forall k j, (j + k <= length items)%nat ->
    foldM (fun (_ : unit) i =>
      h ← mt (aget items i);
      let node := hashv [LEAF_PREFIX; h] in
      proof ← mt (get_proof t i);
      if verify proof (root_of_nodes ns) node then Ok tt else Err MerkleValidationError)
      tt (seq j k) = Ok tt).
  { induction k as [|k IHk]; intros j Hj; [done|]. cbn [seq foldM].
    rewrite (proj2 (aget_Ok _ _ _) (lookup_nthd items j ltac:(lia))). cbn [mt mbind result_bind].
    destruct (get_proof_new _ _ j Ht ltac:(lia)) as (proof & Hp & Hc). rewrite Hp. cbn [mt mbind result_bind].
    unfold verify. rewrite bool_decide_true; [apply IHk; lia|]. rewrite Hroot, <- Hc. done. }
  apply Hgen. lia.
Qed.

(** What [MetaMerkleTree::new] returns. *)
Lemma MetaMerkleTree_new_spec ns :
  ns <> [] -> NoDup (tip_distribution_account <$> ns) -> Z.of_nat (length ns) <= 2 ^ 32 - 1 ->
  exists t, MetaMerkleTree_new ns = Ok t /\
    num_nodes t = Z.of_nat (length ns) /\
    merkle_root t = root_of_nodes (sort_by_hash ns) /\
    Forall2 (fun n n' => exists p, n' = with_proof n p) (sort_by_hash ns) (tree_nodes t) /\
    forall n', n' ∈ tree_nodes t -> exists p, tn_proof n' = Some p /\
      verify p (merkle_root t) (hash_leaf (TreeNode_hash n')) = true.
Proof.
  intros Hne Hnd Hlen. unfold MetaMerkleTree_new. set (sn := sort_by_hash ns).
  assert (Hperm : sn ≡ₚ ns) by apply sort_by_hash_perm.
  assert (Hsl : length sn = length ns) by (by rewrite Hperm).
  set (items := TreeNode_hash <$> sn).
  assert (Hil : length items = length sn) by apply length_fmap.
  assert (Hitems : items <> []).
  { intros E. rewrite E in Hil. simpl in Hil. destruct ns; [done|]. simpl in Hsl. lia. }
  rewrite (MerkleTree_new_spec items true). cbn [mt mbind result_bind]. set (tree := mkMerkleTree _ _).
  assert (Ht : MerkleTree_new items true = Ok tree) by apply MerkleTree_new_spec. clearbody tree.
  destruct (set_proofs_spec tree 0 sn) as (sn' & Hs & HF & Hl).
  { intros j Hj. destruct (get_proof_new _ _ j Ht ltac:(lia)) as (p & Hp & _). by exists p. }
  rewrite Hs. cbn [mt mbind result_bind]. rewrite (get_root_new _ _ _ Ht Hitems). cbn [ok_or mbind result_bind].
  destruct (Forall2_with_proof _ _ HF) as [Hh Ha].
  assert (Hl' : length sn' = length sn) by (symmetry; by eapply Forall2_length).
  assert (Hroot : root_of (length items) true (hash_leaf <$> items) = root_of_nodes sn).
  { unfold root_of_nodes. by rewrite Hil. }
  rewrite Hroot.
  unfold validate. cbn [num_nodes tree_nodes].
  rewrite (proj2 (Z.ltb_ge _ _)) by lia. rewrite Z.eqb_refl. cbn [negb].
  rewrite bool_decide_true by (rewrite Ha, Hperm; done). cbn [negb].
  rewrite verify_proof_ok; [|intros ->; simpl in Hl'; destruct ns; [done|simpl in Hsl; lia]|done|done].
  cbn [mbind result_bind]. eexists. split; [done|]. cbn [merkle_root tree_nodes num_nodes].
  split; [by rewrite Hl', Hsl|]. split; [done|]. split; [done|]. intros n' [j Hj]%list_elem_of_lookup.
  destruct (Hl j n' Hj) as (p & Hp & Hn). exists p. split; [done|].
  assert (Hjl := lookup_lt_Some _ _ _ Hj).
  destruct (get_proof_new _ _ j Ht ltac:(lia)) as (p' & Hp' & Hc). simpl in Hp.
  assert (p' = p) as -> by congruence. unfold verify. apply bool_decide_eq_true.
  rewrite <- Hroot, <- Hc. do 2 f_equal.
  assert (Hit : items !! j = Some (TreeNode_hash n')).
  { unfold items. rewrite <- Hh. rewrite list_lookup_fmap, Hj. done. }
  symmetry. by apply nth_lookup_Some.
Qed.

(** Duplicate accounts are refused. *)
Lemma MetaMerkleTree_new_NoDup ns t :
  MetaMerkleTree_new ns = Ok t -> NoDup (tip_distribution_account <$> ns).
Proof.
  intros Ht. unfold MetaMerkleTree_new in Ht. res_inv.
  unfold mt in Hx0. destruct (set_proofs x 0 (sort_by_hash ns)) as [l|] eqn:Es in Hx0; [|done]. res_inv.
  destruct (Forall2_with_proof _ _ (set_proofs_shape _ _ _ _ Es)) as [_ Ha].
  rewrite <- (sort_by_hash_perm ns), <- Ha. unfold validate in Hx2. cbn [tree_nodes num_nodes] in Hx2.
  res_inv. by bool_prop.
Qed.

(** Every tree that [MetaMerkleTree::new] returns. *)
Lemma MetaMerkleTree_new_root ns t :
  MetaMerkleTree_new ns = Ok t ->
  merkle_root t = root_of_nodes (sort_by_hash ns) /\
  (forall n', n' ∈ tree_nodes t -> exists p, tn_proof n' = Some p /\
     verify p (merkle_root t) (hash_leaf (TreeNode_hash n')) = true) /\
  ns <> [].
Proof.
  intros Ht. pose proof (MetaMerkleTree_new_NoDup _ _ Ht) as Hnd.
  assert (Hne : ns <> []) by (intros ->; done).
  assert (Hlen : Z.of_nat (length ns) <= 2 ^ 32 - 1).
  { unfold MetaMerkleTree_new in Ht. res_inv.
    unfold mt in Hx0. destruct (set_proofs x 0 (sort_by_hash ns)) as [l|] eqn:Es in Hx0; [|done]. res_inv.
    unfold validate in Hx2. cbn [tree_nodes num_nodes] in Hx2. res_inv. bool_prop.
    apply set_proofs_shape in Es. rewrite <- (Permutation_length (sort_by_hash_perm ns)).
    apply Forall2_with_proof in Es as [Hl _]. apply (f_equal length) in Hl. rewrite !length_fmap in Hl. lia. }
  destruct (MetaMerkleTree_new_spec ns Hne Hnd Hlen) as (t' & Ht' & _ & Hr & _ & Hp).
  assert (t' = t) as -> by congruence. done.
Qed.
End meta.
