(* ===== verification/VaultRegistry.v ===== *)
(** The vault registry (core/src/vault_registry.rs): the supported tokens with
    their fee group, reward multiplier and price source, and the registered
    vaults.  The theorems state the registry's invariant over every sequence of
    operations, what each operation changes, and when it is refused. *)

From Stdlib Require Import String.
From S2P Require Import Prelude Errors External Constants Accounts FeeGroups.

Record StMintEntry := mkStMintEntry {
  sm_st_mint : Pubkey;
  sm_ncn_fee_group : NcnFeeGroup;
  sm_reward_multiplier_bps : Z;
  sm_switchboard_feed : Pubkey;
  sm_no_feed_weight : Z;
}.

#[export] Instance StMintEntry_eq_dec : EqDecision StMintEntry.
Proof. solve_decision. Defined.

Module StMintEntry.
Definition new := mkStMintEntry.
Definition default : StMintEntry :=
  mkStMintEntry Pubkey_default NcnFeeGroup.default 0 Pubkey_default 0.
Definition is_empty (self : StMintEntry) : bool := bool_decide (sm_st_mint self = Pubkey_default).
End StMintEntry.

Record VaultEntry := mkVaultEntry {
  ve_vault : Pubkey;
  ve_st_mint : Pubkey;
  ve_vault_index : Z;
  ve_slot_registered : Z;
}.

#[export] Instance VaultEntry_eq_dec : EqDecision VaultEntry.
Proof. solve_decision. Defined.

Module VaultEntry.
Definition EMPTY_VAULT_INDEX : Z := u64_max.
Definition EMPTY_SLOT_REGISTERED : Z := u64_max.
Definition new := mkVaultEntry.
Definition default : VaultEntry :=
  mkVaultEntry Pubkey_default Pubkey_default EMPTY_VAULT_INDEX EMPTY_SLOT_REGISTERED.
Definition is_empty (self : VaultEntry) : bool := ve_slot_registered self =? u64_max.
End VaultEntry.

Record VaultRegistry := mkVaultRegistry {
  vr_ncn : Pubkey;
  vr_bump : Z;
  vr_st_mint_list : list StMintEntry;
  vr_vault_list : list VaultEntry;
}.

Module VaultRegistry.
Definition SIZE : Z := 8 + (32 + 1 + 127 + 64 * (32 + 1 + 8 + 32 + 16 + 128) + 64 * (32 + 32 + 8 + 8 + 128)).

Definition new (ncn : Pubkey) (bump : Z) : VaultRegistry :=
  mkVaultRegistry ncn bump (replicate MAX_ST_MINTS StMintEntry.default) (replicate MAX_VAULTS VaultEntry.default).

(** [initialize] assigns every field of the account. *)
Definition initialize (self : VaultRegistry) (ncn : Pubkey) (bump : Z) : VaultRegistry :=
  mkVaultRegistry ncn bump (replicate MAX_ST_MINTS StMintEntry.default) (replicate MAX_VAULTS VaultEntry.default).

Section pda.
Context `{Solana}.

Definition seeds (ncn : Pubkey) : list (list Z) := [bytes_of_string "vault_registry"; to_bytes ncn].

Definition find_program_address (program_id ncn : Pubkey) : Pubkey * Z * list (list Z) :=
  find_pda program_id (seeds ncn).

Definition load (program_id : Pubkey) (account : AccountInfo) (ncn : Pubkey) (expect_writable : bool) : res unit :=
  let expected_pda := (find_program_address program_id ncn).1.1 in
  check_load program_id account expected_pda (Some (discriminator DVaultRegistry)) expect_writable.
End pda.

Definition has_st_mint (self : VaultRegistry) (mint : Pubkey) : bool :=
  existsb (fun m => bool_decide (sm_st_mint m = mint)) (vr_st_mint_list self).

Definition check_st_mint_entry (entry : StMintEntry) : res unit :=
  if (sm_no_feed_weight entry =? 0) && bool_decide (sm_switchboard_feed entry = Pubkey_default)
  then Err (Tip NoFeedWeightOrSwitchboardFeed) else Ok tt.

Definition register_st_mint (self : VaultRegistry) (st_mint : Pubkey) (ncn_fee_group : NcnFeeGroup)
    (reward_multiplier_bps : Z) (switchboard_feed : Pubkey) (no_feed_weight : Z) : res VaultRegistry :=
  if existsb (fun m => bool_decide (sm_st_mint m = st_mint)) (vr_st_mint_list self)
  then Err (Tip MintInTable) else
  '(i, _) ← ok_or (list_find (fun m => sm_st_mint m = sm_st_mint StMintEntry.default) (vr_st_mint_list self))
              (Tip VaultRegistryListFull);
  let new_mint_entry :=
    StMintEntry.new st_mint ncn_fee_group reward_multiplier_bps switchboard_feed no_feed_weight in
  _ ← check_st_mint_entry new_mint_entry;
  mret (mkVaultRegistry (vr_ncn self) (vr_bump self) (<[i:=new_mint_entry]> (vr_st_mint_list self)) (vr_vault_list self)).

Definition set_st_mint (self : VaultRegistry) (st_mint : Pubkey) (ncn_fee_group : option Z)
    (reward_multiplier_bps : option Z) (switchboard_feed : option Pubkey) (no_feed_weight : option Z)
    : res VaultRegistry :=
  '(i, e) ← ok_or (list_find (fun m => sm_st_mint m = st_mint) (vr_st_mint_list self)) (Tip MintEntryNotFound);
  group ← (match ncn_fee_group with Some g => NcnFeeGroup.try_from g | None => Ok (sm_ncn_fee_group e) end);
  let updated_mint_entry := mkStMintEntry (sm_st_mint e) group
    (default (sm_reward_multiplier_bps e) reward_multiplier_bps)
    (default (sm_switchboard_feed e) switchboard_feed)
    (default (sm_no_feed_weight e) no_feed_weight) in
  _ ← check_st_mint_entry updated_mint_entry;
  mret (mkVaultRegistry (vr_ncn self) (vr_bump self) (<[i:=updated_mint_entry]> (vr_st_mint_list self)) (vr_vault_list self)).

Definition register_vault (self : VaultRegistry) (vault st_mint : Pubkey) (vault_index current_slot : Z)
    : res VaultRegistry :=
  if existsb (fun m => bool_decide (ve_vault m = vault)) (vr_vault_list self) then Ok self else
  '(i, _) ← ok_or (list_find (fun m => ve_st_mint m = ve_st_mint VaultEntry.default) (vr_vault_list self))
              (Tip VaultRegistryListFull);
  mret (mkVaultRegistry (vr_ncn self) (vr_bump self) (vr_st_mint_list self)
          (<[i:=VaultEntry.new vault st_mint vault_index current_slot]> (vr_vault_list self))).

Definition vault_count (self : VaultRegistry) : Z :=
  count (fun m => VaultEntry.is_empty m = false) (vr_vault_list self).

Definition get_valid_vault_entries (self : VaultRegistry) : list VaultEntry :=
  filter (fun m => VaultEntry.is_empty m = false) (vr_vault_list self).

Definition get_valid_mint_entries (self : VaultRegistry) : list StMintEntry :=
  filter (fun m => StMintEntry.is_empty m = false) (vr_st_mint_list self).

Definition st_mint_count (self : VaultRegistry) : Z :=
  count (fun m => StMintEntry.is_empty m = false) (vr_st_mint_list self).

Definition get_mint_entry (self : VaultRegistry) (st_mint : Pubkey) : res StMintEntry :=
  '(_, e) ← ok_or (list_find (fun m => sm_st_mint m = st_mint) (vr_st_mint_list self)) (Tip MintEntryNotFound);
  mret e.
End VaultRegistry.

(* ------------------------------------------------------------------ *)
(** * Invariant *)

(** A registered token is priced by a feed or a constant and has a valid
    group. *)
Definition mint_ok (m : StMintEntry) : Prop :=
  sm_st_mint m <> Pubkey_default ->
  (sm_no_feed_weight m <> 0 \/ sm_switchboard_feed m <> Pubkey_default) /\
  fits 8 (NcnFeeGroup.group (sm_ncn_fee_group m)).

(** A vault entry is used exactly when it has a vault and a token. *)
Definition vault_ok (v : VaultEntry) : Prop :=
  v = VaultEntry.default \/
  ve_vault v <> Pubkey_default /\ ve_st_mint v <> Pubkey_default /\ VaultEntry.is_empty v = false.

Record registry_inv (r : VaultRegistry) : Prop := {
  ri_mints_len : length (vr_st_mint_list r) = MAX_ST_MINTS;
  ri_vaults_len : length (vr_vault_list r) = MAX_VAULTS;
  ri_mints : distinct_keys sm_st_mint (vr_st_mint_list r);
  ri_vaults : distinct_keys ve_vault (vr_vault_list r);
  ri_mint_ok : Forall mint_ok (vr_st_mint_list r);
  ri_vault_ok : Forall vault_ok (vr_vault_list r);
}.

Lemma registry_new_inv ncn bump : registry_inv (VaultRegistry.new ncn bump).
Proof.
  split; cbn -[replicate]; rewrite ?length_replicate; try done.
  - by apply distinct_keys_replicate.
  - by apply distinct_keys_replicate.
  - apply Forall_replicate. intros Hn. done.
  - apply Forall_replicate. by left.
Qed.

Lemma check_st_mint_entry_ok e :
  VaultRegistry.check_st_mint_entry e = Ok tt <->
  sm_no_feed_weight e <> 0 \/ sm_switchboard_feed e <> Pubkey_default.
Proof.
  unfold VaultRegistry.check_st_mint_entry.
  destruct (Z.eqb_spec (sm_no_feed_weight e) 0), (bool_decide_reflect (sm_switchboard_feed e = Pubkey_default));
    simpl; split; try done; naive_solver.
Qed.

(** A registration puts the new entry in the first free place. *)
Lemma register_st_mint_spec r mint g mult feed w r' :
  VaultRegistry.register_st_mint r mint g mult feed w = Ok r' <->
  VaultRegistry.has_st_mint r mint = false /\ (w <> 0 \/ feed <> Pubkey_default) /\
  exists i e, list_find (fun m => sm_st_mint m = Pubkey_default) (vr_st_mint_list r) = Some (i, e) /\
    r' = mkVaultRegistry (vr_ncn r) (vr_bump r)
           (<[i:=StMintEntry.new mint g mult feed w]> (vr_st_mint_list r)) (vr_vault_list r).
Proof.
  unfold VaultRegistry.register_st_mint, VaultRegistry.has_st_mint.
  change (sm_st_mint StMintEntry.default) with Pubkey_default.
  destruct (existsb _ _); [split; [done|by intros [? _]]|].
  destruct (list_find _ _) as [[i e]|]; simpl; [|split; [done|by intros (_ & _ & ? & ? & ? & _)]].
  set (n := StMintEntry.new mint g mult feed w).
  destruct (VaultRegistry.check_st_mint_entry n) as [[]|] eqn:Ec; simpl.
  - apply check_st_mint_entry_ok in Ec. split.
    + intros [= <-]. split; [done|]. split; [exact Ec|]. by exists i, e.
    + by intros (_ & _ & ? & ? & [= <- <-] & ->).
  - split; [done|]. intros (_ & Hp & _). exfalso.
    assert (VaultRegistry.check_st_mint_entry n = Ok tt) by (by apply check_st_mint_entry_ok). congruence.
Qed.

Lemma register_st_mint_inv r mint g mult feed w r' :
  registry_inv r -> fits 8 (NcnFeeGroup.group g) ->
  VaultRegistry.register_st_mint r mint g mult feed w = Ok r' -> registry_inv r'.
Proof.
  intros [] Hg (Hno & Hp & i & e & Hf & ->)%register_st_mint_spec.
  unfold VaultRegistry.has_st_mint in Hno. rewrite existsb_decide_false in Hno.
  split; cbn; rewrite ?length_insert; try done.
  - apply distinct_keys_insert; [done|]. intros j y _ Hj Hy. by apply Hno in Hj.
  - apply Forall_insert_2; [done|]. intros _. by split.
Qed.

Lemma set_st_mint_spec r mint g mult feed w r' :
  VaultRegistry.set_st_mint r mint g mult feed w = Ok r' ->
  exists i e e', vr_st_mint_list r !! i = Some e /\ sm_st_mint e = mint /\
    (forall j x, vr_st_mint_list r !! j = Some x -> (j < i)%nat -> sm_st_mint x <> mint) /\
    sm_st_mint e' = mint /\
    sm_reward_multiplier_bps e' = default (sm_reward_multiplier_bps e) mult /\
    sm_switchboard_feed e' = default (sm_switchboard_feed e) feed /\
    sm_no_feed_weight e' = default (sm_no_feed_weight e) w /\
    (g = None /\ sm_ncn_fee_group e' = sm_ncn_fee_group e \/
     exists z, g = Some z /\ NcnFeeGroup.try_from z = Ok (sm_ncn_fee_group e')) /\
    (sm_no_feed_weight e' <> 0 \/ sm_switchboard_feed e' <> Pubkey_default) /\
    r' = mkVaultRegistry (vr_ncn r) (vr_bump r) (<[i:=e']> (vr_st_mint_list r)) (vr_vault_list r).
Proof.
  intros Hs. unfold VaultRegistry.set_st_mint in Hs. res_inv. destruct x as [i e]. res_inv.
  apply list_find_Some in Hx as (Hi & He & Hfirst). destruct x0.
  apply check_st_mint_entry_ok in Hx1.
  eexists i, e, _. split; [done|]. split; [done|]. split; [done|].
  split; [|split; [|split; [|split; [|split; [|split; [exact Hx1|reflexivity]]]]]]; try done.
  simpl. destruct g as [z|]; [right; eauto|left]. by injection Hx0 as ->.
Qed.

Lemma try_from_fits z g : NcnFeeGroup.try_from z = Ok g -> fits 8 (NcnFeeGroup.group g).
Proof. unfold NcnFeeGroup.try_from. intros Hg. byte_cases z Hg; injection Hg as <-; by split. Qed.

Lemma set_st_mint_inv r mint g mult feed w r' :
  registry_inv r -> VaultRegistry.set_st_mint r mint g mult feed w = Ok r' -> registry_inv r'.
Proof.
  intros [] (i & e & e' & Hi & He & _ & He' & _ & _ & _ & Hg & Hp & ->)%set_st_mint_spec.
  split; cbn; rewrite ?length_insert; try done.
  - apply distinct_keys_insert; [done|]. intros j y Hj Hy Heq.
    destruct (decide (sm_st_mint e' = Pubkey_default)) as [|Hn]; [done|exfalso]. apply Hj.
    eapply ri_mints0; eauto; congruence.
  - apply Forall_insert_2; [done|]. intros Hn. split; [done|].
    destruct Hg as [[_ ->]|(z & _ & Hz)]; [|by eapply try_from_fits].
    apply (Forall_lookup_1 _ _ _ _ ri_mint_ok0 Hi). congruence.
Qed.

Lemma register_vault_spec r vault mint idx slot r' :
  VaultRegistry.register_vault r vault mint idx slot = Ok r' ->
  (exists j v, vr_vault_list r !! j = Some v /\ ve_vault v = vault) /\ r' = r \/
  (forall j v, vr_vault_list r !! j = Some v -> ve_vault v <> vault) /\
  exists i v, vr_vault_list r !! i = Some v /\ ve_st_mint v = Pubkey_default /\
    r' = mkVaultRegistry (vr_ncn r) (vr_bump r) (vr_st_mint_list r)
           (<[i:=VaultEntry.new vault mint idx slot]> (vr_vault_list r)).
Proof.
  intros Hr. unfold VaultRegistry.register_vault in Hr. destruct (existsb _ _) eqn:Ee.
  - res_inv. left. split; [|done]. apply existsb_exists in Ee as (v & Hin & Hv).
    apply list_elem_of_In, list_elem_of_lookup in Hin as [j Hj]. apply bool_decide_eq_true in Hv. eauto.
  - right. rewrite existsb_decide_false in Ee. split; [done|]. res_inv. destruct x as [i v]. res_inv.
    apply list_find_Some in Hx as (Hi & Hv & _). eauto.
Qed.

Lemma register_vault_inv r vault mint idx slot r' :
  registry_inv r -> vault <> Pubkey_default -> mint <> Pubkey_default -> slot <> u64_max ->
  VaultRegistry.register_vault r vault mint idx slot = Ok r' -> registry_inv r'.
Proof.
  intros Hr Hv Hm Hs [[_ ->]|(Hno & i & v & Hi & Hvm & ->)]%register_vault_spec; [done|].
  destruct Hr. split; cbn; rewrite ?length_insert; try done.
  - apply distinct_keys_insert; [done|]. intros j y _ Hj Hy. by apply Hno in Hj.
  - apply Forall_insert_2; [done|]. right. repeat split; [done|done|].
    unfold VaultEntry.is_empty. simpl. by apply Z.eqb_neq.
Qed.

Lemma vault_slot_empty r i v :
  registry_inv r -> vr_vault_list r !! i = Some v -> ve_st_mint v = Pubkey_default -> v = VaultEntry.default.
Proof.
  intros Hr Hi Hv. destruct (Forall_lookup_1 _ _ _ _ (ri_vault_ok _ Hr) Hi) as [?|(_ & ? & _)]; done.
Qed.

(** A free place exists exactly while fewer entries than places are used. *)
Lemma find_free {A} (k : A -> Pubkey) (l : list A) n :
  length l = n ->
  match list_find (fun m => k m = Pubkey_default) l with
  | Some (i, e) => l !! i = Some e /\ k e = Pubkey_default /\ count (fun m => k m <> Pubkey_default) l < Z.of_nat n
  | None => count (fun m => k m <> Pubkey_default) l = Z.of_nat n
  end.
Proof.
  intros <-. destruct (list_find _ l) as [[i e]|] eqn:Ef.
  - apply list_find_Some in Ef as (Hi & He & _). split; [done|]. split; [done|].
    apply Z.nle_gt. intros Hge. pose proof (count_bounds (fun m => k m <> Pubkey_default) l) as [_ Hb].
    pose proof (count_insert (fun m => k m <> Pubkey_default) l i e e Hi) as _.
    clear -Hi He Hge. revert i Hi Hge. induction l as [|a l IH]; intros i Hi Hge; [done|].
    pose proof (count_bounds (fun m => k m <> Pubkey_default) l) as [_ Hb].
    rewrite count_sumZ in *. simpl in Hge.
    assert (indic (k a <> Pubkey_default) <= 1) by (unfold indic; destruct (decide _); lia).
    destruct i as [|i]; simpl in Hi.
    + injection Hi as ->. rewrite indic_false in Hge by tauto. lia.
    + apply (IH i Hi). lia.
  - rewrite list_find_None in Ef. unfold count. f_equal.
    induction Ef as [|a l Ha _ IH]; [done|]. rewrite filter_cons_True by done. simpl. by rewrite IH.
Qed.

Lemma get_mint_entry_Ok r mint e :
  registry_inv r -> mint <> Pubkey_default ->
  VaultRegistry.get_mint_entry r mint = Ok e <-> sm_st_mint e = mint /\ e ∈ vr_st_mint_list r.
Proof.
  intros Hr Hm. unfold VaultRegistry.get_mint_entry. split.
  - intros He. res_inv. destruct x as [i x]. res_inv. apply list_find_Some in Hx as (Hi & He & _).
    split; [done|]. by eapply list_elem_of_lookup_2.
  - intros [He [i Hi]%list_elem_of_lookup].
    destruct (list_find_elem_of (fun m => sm_st_mint m = mint) (vr_st_mint_list r) e) as [[j x] Hf];
      [by eapply list_elem_of_lookup_2|done|].
    rewrite Hf. simpl. apply list_find_Some in Hf as (Hj & Hx & _).
    assert (i = j) as <- by (eapply (ri_mints _ Hr); eauto; congruence). by simplify_eq.
Qed.

(** Executions of the registry's operations, with the arguments the program
    passes: a valid fee group, a vault and a token that are not the default
    key, a current slot. *)
Inductive registry_step (r r' : VaultRegistry) : Prop :=
| step_register_st_mint mint g mult feed w :
    fits 8 (NcnFeeGroup.group g) ->
    VaultRegistry.register_st_mint r mint g mult feed w = Ok r' -> registry_step r r'
| step_set_st_mint mint g mult feed w :
    VaultRegistry.set_st_mint r mint g mult feed w = Ok r' -> registry_step r r'
| step_register_vault vault mint idx slot :
    vault <> Pubkey_default -> mint <> Pubkey_default -> slot <> u64_max ->
    VaultRegistry.register_vault r vault mint idx slot = Ok r' -> registry_step r r'.

(* ------------------------------------------------------------------ *)
(** * Properties *)

(** C39: after any sequence of operations no token and no vault is
    registered twice, every registered token has a price source and a valid fee
    group, and the used vault entries are exactly those with a vault and a
    token. *)
Theorem registry_reachable_inv ncn bump r :
  star registry_step (VaultRegistry.new ncn bump) r -> registry_inv r.
Proof.
  intros Hs. eapply star_invariant; [|exact Hs|apply registry_new_inv].
  intros s s' Hi [mint g mult feed w Hg Hr|mint g mult feed w Hr|vault mint idx slot Hv Hm Hsl Hr].
  - exact (register_st_mint_inv _ _ _ _ _ _ _ Hi Hg Hr).
  - exact (set_st_mint_inv _ _ _ _ _ _ _ Hi Hr).
  - exact (register_vault_inv _ _ _ _ _ _ Hi Hv Hm Hsl Hr).
Qed.

(** A token is registered exactly when it is new, has a price source,
    and there is room; afterwards it is found with the registered data, the
    other tokens and the vaults are as before, and it cannot be registered
    again. *)
Theorem register_st_mint_exactly r mint g mult feed w :
  registry_inv r -> mint <> Pubkey_default -> fits 8 (NcnFeeGroup.group g) ->
  ((exists r', VaultRegistry.register_st_mint r mint g mult feed w = Ok r') <->
   VaultRegistry.has_st_mint r mint = false /\ (w <> 0 \/ feed <> Pubkey_default) /\
   VaultRegistry.st_mint_count r < 64) /\
  forall r', VaultRegistry.register_st_mint r mint g mult feed w = Ok r' ->
    VaultRegistry.get_mint_entry r' mint = Ok (StMintEntry.new mint g mult feed w) /\
    (forall m, m <> mint -> m <> Pubkey_default ->
       forall e, VaultRegistry.get_mint_entry r' m = Ok e <-> VaultRegistry.get_mint_entry r m = Ok e) /\
    vr_vault_list r' = vr_vault_list r /\
    VaultRegistry.st_mint_count r' = VaultRegistry.st_mint_count r + 1 /\
    forall g' mult' feed' w', VaultRegistry.register_st_mint r' mint g' mult' feed' w' = Err (Tip MintInTable).
Proof.
  intros Hr Hm Hg.
  assert (Hcount : forall l, count (fun m => StMintEntry.is_empty m = false) l
    = count (fun m => sm_st_mint m <> Pubkey_default) l).
  { intros l. rewrite !count_sumZ. apply sumZ_ext. intros m _. unfold StMintEntry.is_empty, indic.
    destruct (bool_decide_reflect (sm_st_mint m = Pubkey_default)); destruct (decide _), (decide _); done. }
  pose proof (find_free sm_st_mint (vr_st_mint_list r) 64 (ri_mints_len _ Hr)) as Hfree.
  split.
  - split.
    + intros [r' (Hno & Hp & i & e & Hf & _)%register_st_mint_spec]. split; [done|]. split; [done|].
      rewrite Hf in Hfree. unfold VaultRegistry.st_mint_count. rewrite Hcount. lia.
    + intros (Hno & Hp & Hc). unfold VaultRegistry.st_mint_count in Hc. rewrite Hcount in Hc.
      destruct (list_find _ (vr_st_mint_list r)) as [[i e]|] eqn:Ef; [|lia].
      eexists. apply register_st_mint_spec. split; [done|]. split; [done|]. by exists i, e.
  - intros r' Hreg. assert (Hr' : registry_inv r') by exact (register_st_mint_inv _ _ _ _ _ _ _ Hr Hg Hreg).
    apply register_st_mint_spec in Hreg as (Hno & Hp & i & e & Hf & Heq).
    rewrite Hf in Hfree. destruct Hfree as (Hi & He & _).
    assert (Hlt := lookup_lt_Some _ _ _ Hi).
    unfold VaultRegistry.has_st_mint in Hno. rewrite existsb_decide_false in Hno.
    assert (Hin : StMintEntry.new mint g mult feed w ∈ vr_st_mint_list r').
    { subst r'. cbn. apply (list_elem_of_lookup_2 _ i). by rewrite list_lookup_insert_eq. }
    split; [by apply get_mint_entry_Ok|]. split; [|split; [by subst r'|split]].
    + intros m Hne Hd x. rewrite !get_mint_entry_Ok by done. subst r'. cbn. split; intros [Hx Hxin].
      * apply elem_of_insert_inv in Hxin as [->|Hxin]; [by simpl in Hx|done].
      * split; [done|]. apply list_elem_of_lookup in Hxin as [j Hj]. apply (list_elem_of_lookup_2 _ j).
        rewrite list_lookup_insert_ne; [done|]. intros <-. congruence.
    + unfold VaultRegistry.st_mint_count. rewrite !Hcount. subst r'. cbn [vr_st_mint_list].
      rewrite (count_insert _ _ _ _ _ Hi). rewrite indic_false by tauto. rewrite indic_true by done. lia.
    + intros g' mult' feed' w'. unfold VaultRegistry.register_st_mint.
      assert (existsb (fun m => bool_decide (sm_st_mint m = mint)) (vr_st_mint_list r') = true) as ->; [|done].
      apply existsb_exists. eexists. split; [by apply list_elem_of_In|]. by apply bool_decide_eq_true.
Qed.

(** Registering a vault is idempotent: a known vault changes nothing,
    a new one takes one free place and leaves the other vaults and the tokens
    alone, and only a full list refuses it. *)
Theorem register_vault_idempotent r vault mint idx slot :
  registry_inv r -> vault <> Pubkey_default -> mint <> Pubkey_default -> slot <> u64_max ->
  match VaultRegistry.register_vault r vault mint idx slot with
  | Ok r' =>
      (exists v, v ∈ vr_vault_list r' /\ ve_vault v = vault) /\
      vr_st_mint_list r' = vr_st_mint_list r /\
      (forall v, v ∈ vr_vault_list r -> VaultEntry.is_empty v = false -> v ∈ vr_vault_list r') /\
      (r' = r \/ VaultRegistry.vault_count r' = VaultRegistry.vault_count r + 1) /\
      VaultRegistry.register_vault r' vault mint idx slot = Ok r'
  | Err e => e = Tip VaultRegistryListFull /\ VaultRegistry.vault_count r = 64
  end.
Proof.
  intros Hr Hv Hm Hs.
  assert (Hagain : forall r' : VaultRegistry, (exists v, v ∈ vr_vault_list r' /\ ve_vault v = vault) ->
    VaultRegistry.register_vault r' vault mint idx slot = Ok r').
  { intros r' (v & Hin & Hvv). unfold VaultRegistry.register_vault.
    assert (existsb (fun m => bool_decide (ve_vault m = vault)) (vr_vault_list r') = true) as ->; [|done].
    apply existsb_exists. exists v. split; [by apply list_elem_of_In|]. by apply bool_decide_eq_true. }
  destruct (VaultRegistry.register_vault r vault mint idx slot) as [r'|e] eqn:Er.
  - apply register_vault_spec in Er as [[(j & v & Hj & Hvj) ->]|(Hno & i & v & Hi & Hvm & ->)].
    + assert (exists v, v ∈ vr_vault_list r /\ ve_vault v = vault)
        by (exists v; split; [by eapply list_elem_of_lookup_2|done]).
      split; [done|]. split; [done|]. split; [done|]. split; [by left|]. by apply Hagain.
    + assert (Hlt := lookup_lt_Some _ _ _ Hi). pose proof (vault_slot_empty _ _ _ Hr Hi Hvm) as ->.
      assert (Hin : VaultEntry.new vault mint idx slot ∈ <[i:=VaultEntry.new vault mint idx slot]> (vr_vault_list r)).
      { apply (list_elem_of_lookup_2 _ i). by rewrite list_lookup_insert_eq. }
      assert (exists v, v ∈ <[i:=VaultEntry.new vault mint idx slot]> (vr_vault_list r) /\ ve_vault v = vault) by eauto.
      split; [done|]. split; [done|]. split; [|split; [right|by apply Hagain]]; cbn.
      * intros x [j Hj]%list_elem_of_lookup Hx. apply (list_elem_of_lookup_2 _ j).
        rewrite list_lookup_insert_ne; [done|]. intros <-. rewrite Hi in Hj. by simplify_eq.
      * unfold VaultRegistry.vault_count. cbn. rewrite (count_insert _ _ _ _ _ Hi).
        rewrite indic_false by done. rewrite indic_true; [lia|].
        unfold VaultEntry.is_empty. simpl. by apply Z.eqb_neq.
  - unfold VaultRegistry.register_vault in Er. destruct (existsb _ _); [done|].
    change (ve_st_mint VaultEntry.default) with Pubkey_default in Er.
    pose proof (find_free ve_st_mint (vr_vault_list r) 64 (ri_vaults_len _ Hr)) as Hfree.
    destruct (list_find _ (vr_vault_list r)) as [[i v]|]; simpl in Er; [done|].
    injection Er as <-. split; [done|]. unfold VaultRegistry.vault_count.
    change 64 with (Z.of_nat 64). rewrite <- Hfree, !count_sumZ. apply sumZ_ext. intros v Hin.
    destruct (Forall_In _ _ _ (ri_vault_ok _ Hr) Hin) as [->|(_ & Hn & He)].
    + by rewrite !indic_false by (done || tauto).
    + by rewrite !indic_true by done.
Qed.

Module VaultRegistryWitness.
Definition r0 : VaultRegistry := VaultRegistry.new (key 9) 255.
Definition run (r : res VaultRegistry) : VaultRegistry := match r with Ok r => r | Err _ => r0 end.
Definition r1 := run (VaultRegistry.register_st_mint r0 (key 1) NcnFeeGroup.lst 15000 Pubkey_default 7).
Definition r2 := run (VaultRegistry.register_vault r1 (key 5) (key 1) 0 100).

Lemma wit_registry_steps : star registry_step r0 r2.
Proof.
  apply (star_step _ r1); [|apply (star_step _ r2); [|apply star_refl]].
  - eapply (step_register_st_mint _ _ (key 1) NcnFeeGroup.lst 15000 Pubkey_default 7); [by split|].
    vm_compute. reflexivity.
  - eapply (step_register_vault _ _ (key 5) (key 1) 0 100); [done..|]. vm_compute. reflexivity.
Qed.
End VaultRegistryWitness.
Import VaultRegistryWitness.

Lemma registry_reachable_inv_witness : registry_inv r2.
Proof. apply (registry_reachable_inv (key 9) 255). apply wit_registry_steps. Defined.

Lemma register_st_mint_exactly_witness :
  VaultRegistry.get_mint_entry r1 (key 1) = Ok (StMintEntry.new (key 1) NcnFeeGroup.lst 15000 Pubkey_default 7).
Proof.
  destruct (register_st_mint_exactly r0 (key 1) NcnFeeGroup.lst 15000 Pubkey_default 7) as (_ & Ha).
  - apply registry_new_inv.
  - done.
  - by split.
  - destruct (Ha r1) as (Hg & _); [vm_compute; reflexivity|exact Hg].
Defined.

Lemma register_vault_idempotent_witness :
  VaultRegistry.register_vault r2 (key 5) (key 1) 0 100 = Ok r2 /\ VaultRegistry.vault_count r2 = 1.
Proof.
  split; [|vm_compute; reflexivity].
  pose proof (register_vault_idempotent r1 (key 5) (key 1) 0 100) as Hw.
  assert (Hrun : VaultRegistry.register_vault r1 (key 5) (key 1) 0 100 = Ok r2) by (vm_compute; reflexivity).
  rewrite Hrun in Hw. apply Hw; [|done..].
  apply (register_st_mint_inv r0 (key 1) NcnFeeGroup.lst 15000 Pubkey_default 7);
    [apply registry_new_inv|by split|vm_compute; reflexivity].
Defined.
