(* ===== verification/WeightTable.v ===== *)
(** The weight table of an epoch (core/src/weight_entry.rs and
    core/src/weight_table.rs): a copy of the registry's vaults and tokens, and
    the weight set for every token.  The theorems relate initialisation, the
    weights read back, and finalisation. *)

From Stdlib Require Import String.
From S2P Require Import Prelude Errors External Constants Accounts FeeGroups VaultRegistry.

Record WeightEntry := mkWeightEntry {
  we_st_mint_entry : StMintEntry;
  we_weight : Z;
  we_slot_set : Z;
  we_slot_updated : Z;
}.

#[export] Instance WeightEntry_eq_dec : EqDecision WeightEntry.
Proof. solve_decision. Defined.

Module WeightEntry.
Definition default : WeightEntry := mkWeightEntry StMintEntry.default 0 0 0.
Definition new (mint_entry : StMintEntry) : WeightEntry := mkWeightEntry mint_entry 0 0 0.
Definition is_empty (self : WeightEntry) : bool := StMintEntry.is_empty (we_st_mint_entry self).
Definition is_set (self : WeightEntry) : bool := 0 <? we_slot_set self.
Definition st_mint (self : WeightEntry) : Pubkey := sm_st_mint (we_st_mint_entry self).
Definition precise_weight `{PreciseNumberOps} (self : WeightEntry) : res PreciseNumber :=
  precise (we_weight self).

Definition set_weight (self : WeightEntry) (weight current_slot : Z) : WeightEntry :=
  let self := mkWeightEntry (we_st_mint_entry self) weight (we_slot_set self) (we_slot_updated self) in
  let self := if we_slot_set self =? 0
              then mkWeightEntry (we_st_mint_entry self) (we_weight self) current_slot current_slot
              else self in
  mkWeightEntry (we_st_mint_entry self) (we_weight self) (we_slot_set self) current_slot.
End WeightEntry.

Record WeightTable := mkWeightTable {
  wt_ncn : Pubkey;
  wt_epoch : Z;
  wt_slot_created : Z;
  wt_vault_count : Z;
  wt_bump : Z;
  wt_vault_registry : list VaultEntry;
  wt_table : list WeightEntry;
}.

Module WeightTable.
Definition SIZE : Z := 8 + (32 + 8 + 8 + 8 + 1 + 128 + 64 * 208 + 64 * (217 + 16 + 8 + 8 + 128)).

Definition with_registry (self : WeightTable) (l : list VaultEntry) : WeightTable :=
  mkWeightTable (wt_ncn self) (wt_epoch self) (wt_slot_created self) (wt_vault_count self) (wt_bump self) l (wt_table self).
Definition with_table (self : WeightTable) (l : list WeightEntry) : WeightTable :=
  mkWeightTable (wt_ncn self) (wt_epoch self) (wt_slot_created self) (wt_vault_count self) (wt_bump self)
    (wt_vault_registry self) l.

Definition new (ncn : Pubkey) (epoch slot_created vault_count bump : Z) : WeightTable :=
  mkWeightTable ncn epoch slot_created vault_count bump
    (replicate MAX_VAULTS VaultEntry.default) (replicate MAX_ST_MINTS WeightEntry.default).

Section pda.
Context `{Solana}.

Definition seeds (ncn : Pubkey) (ncn_epoch : Z) : list (list Z) :=
  [bytes_of_string "weight_table"; to_bytes ncn; to_le_bytes 8 ncn_epoch].

Definition find_program_address (program_id ncn : Pubkey) (epoch : Z) : Pubkey * Z * list (list Z) :=
  find_pda program_id (seeds ncn epoch).

Definition load (program_id : Pubkey) (account : AccountInfo) (ncn : Pubkey) (epoch : Z)
    (expect_writable : bool) : res unit :=
  let expected_pda := (find_program_address program_id ncn epoch).1.1 in
  check_load program_id account expected_pda (Some (discriminator DWeightTable)) expect_writable.

Definition load_to_close (program_id : Pubkey) (account_to_close : AccountInfo) (ncn : Pubkey) (epoch : Z) : res unit :=
  load program_id account_to_close ncn epoch true.
End pda.

Definition get_mints (self : WeightTable) : list Pubkey :=
  WeightEntry.st_mint <$> filter (fun e => WeightEntry.is_empty e = false) (wt_table self).
Definition mint_count (self : WeightTable) : Z :=
  count (fun e => WeightEntry.is_empty e = false) (wt_table self).
Definition weight_count (self : WeightTable) : Z :=
  count (fun e => WeightEntry.is_set e = true) (wt_table self).
Definition st_mint_count (self : WeightTable) : Z :=
  count (fun e => WeightEntry.is_empty e = false) (wt_table self).
Definition vault_entry_count (self : WeightTable) : Z :=
  count (fun v => VaultEntry.is_empty v = false) (wt_vault_registry self).

Definition vault_registry_initialized (self : WeightTable) : bool :=
  wt_vault_count self =? vault_entry_count self.
Definition table_initialized (self : WeightTable) : bool := 0 <? mint_count self.
Definition finalized (self : WeightTable) : bool :=
  vault_registry_initialized self && table_initialized self && (mint_count self =? weight_count self).

Definition check_table_initialized (self : WeightTable) : res unit :=
  if negb (table_initialized self) then Err (Tip TableNotInitialized) else Ok tt.
Definition check_registry_initialized (self : WeightTable) : res unit :=
  if negb (vault_registry_initialized self) then Err (Tip RegistryNotInitialized) else Ok tt.

Definition check_registry_for_vault (self : WeightTable) (vault_index : Z) : res unit :=
  if vault_index =? VaultEntry.EMPTY_VAULT_INDEX then Err (Tip VaultNotInRegistry) else
  if negb (existsb (fun e => ve_vault_index e =? vault_index) (wt_vault_registry self))
  then Err (Tip VaultNotInRegistry) else Ok tt.

(** Both loops assign every place of an array of the same size. *)
Definition set_vault_entries (self : WeightTable) (vault_entries : list VaultEntry) : res WeightTable :=
  if vault_registry_initialized self then Err (Tip WeightTableAlreadyInitialized) else
  let self := with_registry self vault_entries in
  _ ← check_registry_initialized self;
  mret self.

Definition set_mint_entries (self : WeightTable) (mint_entries : list StMintEntry) : res WeightTable :=
  if table_initialized self then Err (Tip WeightTableAlreadyInitialized) else
  let self := with_table self (WeightEntry.new <$> mint_entries) in
  _ ← check_table_initialized self;
  mret self.

Definition initialize (self : WeightTable) (ncn : Pubkey) (ncn_epoch slot_created vault_count bump : Z)
    (vault_entries : list VaultEntry) (mint_entries : list StMintEntry) : res WeightTable :=
  let self := mkWeightTable ncn ncn_epoch slot_created vault_count bump
    (replicate MAX_VAULTS VaultEntry.default) (replicate MAX_ST_MINTS WeightEntry.default) in
  self ← set_vault_entries self vault_entries;
  set_mint_entries self mint_entries.

Definition find_entry (self : WeightTable) (mint : Pubkey) : option (nat * WeightEntry) :=
  list_find (fun e => WeightEntry.st_mint e = mint) (wt_table self).

Definition set_weight (self : WeightTable) (mint : Pubkey) (weight current_slot : Z) : res WeightTable :=
  match find_entry self mint with
  | None => Err (Tip InvalidMintForWeightTable)
  | Some (i, entry) =>
      Ok (with_table self (<[i:=WeightEntry.set_weight entry weight current_slot]> (wt_table self)))
  end.

Definition get_weight (self : WeightTable) (mint : Pubkey) : res Z :=
  match find_entry self mint with
  | None => Err (Tip InvalidMintForWeightTable)
  | Some (_, entry) => Ok (we_weight entry)
  end.

Definition get_weight_entry (self : WeightTable) (mint : Pubkey) : res WeightEntry :=
  '(_, entry) ← ok_or (find_entry self mint) (Tip InvalidMintForWeightTable); mret entry.

Definition get_precise_weight `{PreciseNumberOps} (self : WeightTable) (mint : Pubkey) : res PreciseNumber :=
  weight ← get_weight self mint; precise weight.
End WeightTable.

(* ------------------------------------------------------------------ *)
(** * Invariant *)

(** The tokens are distinct and an entry without a token has no weight. *)
Record weight_inv (t : WeightTable) : Prop := {
  wi_len : length (wt_table t) = MAX_ST_MINTS;
  wi_distinct : distinct_keys WeightEntry.st_mint (wt_table t);
  wi_empty : Forall (fun e => WeightEntry.is_empty e = true -> WeightEntry.is_set e = false) (wt_table t);
  wi_init : WeightTable.vault_registry_initialized t = true;
  wi_mints : 0 < WeightTable.mint_count t;
}.

Lemma we_is_empty e : WeightEntry.is_empty e = true <-> WeightEntry.st_mint e = Pubkey_default.
Proof. unfold WeightEntry.is_empty, StMintEntry.is_empty. apply bool_decide_eq_true. Qed.

Lemma set_weight_entry_mint e w s : we_st_mint_entry (WeightEntry.set_weight e w s) = we_st_mint_entry e.
Proof. unfold WeightEntry.set_weight. cbn. by destruct (we_slot_set e =? 0). Qed.

Lemma set_weight_entry_weight e w s : we_weight (WeightEntry.set_weight e w s) = w.
Proof. unfold WeightEntry.set_weight. cbn. by destruct (we_slot_set e =? 0). Qed.

(** The first slot is kept; an entry is set from a positive slot on. *)
Lemma set_weight_entry_slot e w s :
  we_slot_set (WeightEntry.set_weight e w s) = (if we_slot_set e =? 0 then s else we_slot_set e) /\
  we_slot_updated (WeightEntry.set_weight e w s) = s.
Proof. unfold WeightEntry.set_weight. cbn. by destruct (we_slot_set e =? 0). Qed.

Lemma find_entry_Some t mint i e :
  WeightTable.find_entry t mint = Some (i, e) ->
  wt_table t !! i = Some e /\ WeightEntry.st_mint e = mint.
Proof. intros (? & ? & _)%list_find_Some. done. Qed.

Lemma find_entry_lookup t mint i e :
  weight_inv t -> mint <> Pubkey_default -> wt_table t !! i = Some e -> WeightEntry.st_mint e = mint ->
  WeightTable.find_entry t mint = Some (i, e).
Proof.
  intros Ht Hm Hi He. unfold WeightTable.find_entry.
  destruct (list_find_elem_of (fun e => WeightEntry.st_mint e = mint) (wt_table t) e) as [[j x] Hf];
    [by eapply list_elem_of_lookup_2|done|].
  rewrite Hf. apply list_find_Some in Hf as (Hj & Hx & _).
  assert (i = j) as <- by (eapply (wi_distinct _ Ht); eauto; congruence). by simplify_eq.
Qed.

Lemma set_weight_Ok t mint w s t' :
  WeightTable.set_weight t mint w s = Ok t' <->
  exists i e, WeightTable.find_entry t mint = Some (i, e) /\
    t' = WeightTable.with_table t (<[i:=WeightEntry.set_weight e w s]> (wt_table t)).
Proof.
  unfold WeightTable.set_weight. destruct (WeightTable.find_entry t mint) as [[i e]|].
  - split; [intros [= <-]; eauto|]. by intros (? & ? & [= <- <-] & ->).
  - split; [done|]. by intros (? & ? & ? & _).
Qed.

Lemma mint_count_set t i e w s :
  wt_table t !! i = Some e ->
  WeightTable.mint_count (WeightTable.with_table t (<[i:=WeightEntry.set_weight e w s]> (wt_table t)))
  = WeightTable.mint_count t.
Proof.
  intros Hi. unfold WeightTable.mint_count. cbn. rewrite (count_insert _ _ _ _ _ Hi).
  assert (WeightEntry.is_empty (WeightEntry.set_weight e w s) = WeightEntry.is_empty e) as Heq.
  { unfold WeightEntry.is_empty. by rewrite set_weight_entry_mint. }
  unfold indic. rewrite Heq. lia.
Qed.

Lemma set_weight_inv t mint w s t' :
  weight_inv t -> mint <> Pubkey_default -> WeightTable.set_weight t mint w s = Ok t' -> weight_inv t'.
Proof.
  intros [Hl Hd He Hi Hm] Hne (i & e & [Hie Hmint]%find_entry_Some & ->)%set_weight_Ok.
  assert (Hst : WeightEntry.st_mint (WeightEntry.set_weight e w s) = mint).
  { unfold WeightEntry.st_mint. by rewrite set_weight_entry_mint. }
  split; cbn.
  - by rewrite length_insert.
  - apply distinct_keys_insert; [done|]. intros j y Hj Hy Heq. exfalso. apply Hj.
    rewrite Hst in Heq. eapply Hd; eauto; congruence.
  - apply Forall_insert_2; [done|]. intros Hemp%we_is_empty. congruence.
  - exact Hi.
  - by rewrite (mint_count_set _ _ _ _ _ Hie).
Qed.

(** [finalized] counts: all the tokens have a weight exactly when as many
    entries are set as are used. *)
Lemma finalized_all_set t :
  weight_inv t ->
  WeightTable.finalized t = true <->
  forall e, e ∈ wt_table t -> WeightEntry.is_empty e = false -> WeightEntry.is_set e = true.
Proof.
  intros [Hl Hd He Hi Hm]. unfold WeightTable.finalized, WeightTable.table_initialized.
  rewrite Hi, (proj2 (Z.ltb_lt _ _) Hm). cbn [andb]. rewrite Z.eqb_eq.
  unfold WeightTable.mint_count, WeightTable.weight_count. clear Hl Hd Hi Hm.
  revert He. generalize (wt_table t). intros tab He.
  induction He as [|e l He Hall IH]; [split; [intros _ e Hin; by apply elem_of_nil in Hin|done]|].
  rewrite !count_sumZ in *. simpl.
  assert (Hle : sumZ (fun x => indic (WeightEntry.is_set x = true)) l
                <= sumZ (fun x => indic (WeightEntry.is_empty x = false)) l).
  { apply sumZ_le. intros x Hx. pose proof (Forall_In _ _ _ Hall Hx) as Hxe. simpl in Hxe.
    unfold indic. destruct (WeightEntry.is_empty x), (WeightEntry.is_set x), (decide _), (decide _);
      try done; by specialize (Hxe eq_refl). }
  assert (H1 : indic (WeightEntry.is_set e = true) <= indic (WeightEntry.is_empty e = false)).
  { unfold indic. destruct (WeightEntry.is_empty e), (WeightEntry.is_set e), (decide _), (decide _);
      try done; by specialize (He eq_refl). }
  split.
  - intros Heq x [->|Hx]%elem_of_cons Hxe.
    + apply not_false_is_true. intros Hs. rewrite (indic_true (WeightEntry.is_empty e = false)) in Heq by done.
      rewrite indic_false in Heq by congruence. lia.
    + apply IH; [lia|done|done].
  - intros Hs. rewrite (proj2 IH) by (intros x Hx; apply Hs; by right).
    assert (indic (WeightEntry.is_empty e = false) = indic (WeightEntry.is_set e = true)); [|lia].
    unfold indic in *. destruct (WeightEntry.is_empty e) eqn:Ee.
    + rewrite (He eq_refl). done.
    + by rewrite (Hs e ltac:(left) Ee).
Qed.

(* ------------------------------------------------------------------ *)
(** * Properties *)

#[local] Arguments replicate : simpl never.
#[local] Arguments count : simpl never.

(** Initialisation succeeds exactly when the registry snapshot holds
    [vault_count > 0] vaults and at least one token; it copies both lists,
    with every token unweighted, so the table is not finalised. *)
Theorem weight_table_initialize t ncn epoch slot vc bump vaults mints t' :
  length vaults = MAX_VAULTS -> length mints = MAX_ST_MINTS ->
  WeightTable.initialize t ncn epoch slot vc bump vaults mints = Ok t' <->
  vc <> 0 /\ vc = count (fun v => VaultEntry.is_empty v = false) vaults /\
  0 < count (fun m => StMintEntry.is_empty m = false) mints /\
  t' = mkWeightTable ncn epoch slot vc bump vaults (WeightEntry.new <$> mints) /\
  WeightTable.weight_count t' = 0 /\ WeightTable.finalized t' = false.
Proof.
  intros Hv Hm.
  assert (Hcount : count (fun e => WeightEntry.is_empty e = false) (WeightEntry.new <$> mints)
                   = count (fun m => StMintEntry.is_empty m = false) mints).
  { by rewrite !count_sumZ, sumZ_fmap. }
  assert (Hset : count (fun e => WeightEntry.is_set e = true) (WeightEntry.new <$> mints) = 0).
  { rewrite count_sumZ, sumZ_fmap. by apply sumZ_zero. }
  unfold WeightTable.initialize, WeightTable.set_vault_entries, WeightTable.vault_registry_initialized,
    WeightTable.vault_entry_count. cbn [wt_vault_count wt_vault_registry].
  rewrite (count_replicate_false (fun v => VaultEntry.is_empty v = false)) by done.
  destruct (Z.eqb_spec vc 0) as [Hz|Hz]; [split; [done|by intros [? _]]|].
  unfold WeightTable.check_registry_initialized, WeightTable.vault_registry_initialized,
    WeightTable.vault_entry_count, WeightTable.with_registry. cbn.
  destruct (Z.eqb_spec vc (count (fun v => VaultEntry.is_empty v = false) vaults)) as [Hc|Hc]; cbn;
    [|split; [done|by intros (_ & ? & _)]].
  unfold WeightTable.set_mint_entries, WeightTable.table_initialized, WeightTable.mint_count. cbn.
  rewrite (count_replicate_false (fun e => WeightEntry.is_empty e = false)) by done. cbn.
  unfold WeightTable.check_table_initialized, WeightTable.table_initialized, WeightTable.mint_count,
    WeightTable.with_table. cbn. rewrite Hcount.
  destruct (Z.ltb_spec 0 (count (fun m => StMintEntry.is_empty m = false) mints)) as [Hp|Hp]; cbn;
    [|split; [done|intros (_ & _ & ? & _); lia]].
  split.
  - intros [= <-]. split; [done|]. split; [done|]. split; [done|]. split; [done|].
    unfold WeightTable.weight_count, WeightTable.finalized, WeightTable.weight_count, WeightTable.mint_count.
    cbn. rewrite Hset, Hcount. split; [done|]. rewrite (proj2 (Z.eqb_neq _ _)) by lia. by rewrite andb_false_r.
  - by intros (_ & _ & _ & -> & _).
Qed.

(** A weight that is set is read back, for its token only; a token
    that is not in the table is refused. *)
Theorem set_get_weight t mint w slot :
  weight_inv t -> mint <> Pubkey_default ->
  (forall t', WeightTable.set_weight t mint w slot = Ok t' ->
     weight_inv t' /\ WeightTable.get_weight t' mint = Ok w /\
     (forall m, m <> mint -> m <> Pubkey_default -> WeightTable.get_weight t' m = WeightTable.get_weight t m) /\
     wt_vault_registry t' = wt_vault_registry t) /\
  ((exists e, WeightTable.set_weight t mint w slot = Err e) <-> mint ∉ WeightTable.get_mints t).
Proof.
  intros Ht Hm. split.
  - intros t' Hs. assert (Ht' : weight_inv t') by exact (set_weight_inv _ _ _ _ _ Ht Hm Hs).
    split; [done|]. apply set_weight_Ok in Hs as (i & e & [Hi He]%find_entry_Some & ->).
    assert (Hlt := lookup_lt_Some _ _ _ Hi).
    assert (Hst : WeightEntry.st_mint (WeightEntry.set_weight e w slot) = mint).
    { unfold WeightEntry.st_mint. by rewrite set_weight_entry_mint. }
    split; [|split; [|done]].
    + unfold WeightTable.get_weight.
      rewrite (find_entry_lookup _ mint i (WeightEntry.set_weight e w slot) Ht' Hm); [|by cbn; rewrite list_lookup_insert_eq|done].
      by rewrite set_weight_entry_weight.
    + intros m Hne Hd. unfold WeightTable.get_weight.
      destruct (WeightTable.find_entry t m) as [[j x]|] eqn:Ef.
      * apply find_entry_Some in Ef as [Hj Hx]. rewrite (find_entry_lookup _ m j x Ht' Hd); [done| |done].
        cbn. rewrite list_lookup_insert_ne; [done|]. intros <-. congruence.
      * destruct (WeightTable.find_entry _ m) as [[j x]|] eqn:Ef' in |- *; [|done]. exfalso.
        apply find_entry_Some in Ef' as [Hj Hx]. cbn in Hj. rewrite list_lookup_insert_Some in Hj.
        destruct Hj as [(-> & <- & _)|[_ Hj]]; [congruence|].
        by rewrite (find_entry_lookup t m j x Ht Hd Hj Hx) in Ef.
  - unfold WeightTable.get_mints. split.
    + intros [e He] (x & Hx & Hin)%list_elem_of_fmap. apply list_elem_of_filter in Hin as [_ [i Hi]%list_elem_of_lookup].
      unfold WeightTable.set_weight in He. by rewrite (find_entry_lookup t mint i x Ht Hm Hi) in He.
    + intros Hn. unfold WeightTable.set_weight.
      destruct (WeightTable.find_entry t mint) as [[i e]|] eqn:Ef; [|by eexists].
      apply find_entry_Some in Ef as [Hi He]. exfalso. apply Hn. apply list_elem_of_fmap.
      exists e. split; [done|]. apply list_elem_of_filter. split; [|by eapply list_elem_of_lookup_2].
      apply not_true_is_false. rewrite we_is_empty. congruence.
Qed.

(** A weight is set for a registered token at a positive slot. *)
Definition weight_step (t t' : WeightTable) : Prop :=
  exists mint w slot, mint <> Pubkey_default /\ 0 < slot /\ WeightTable.set_weight t mint w slot = Ok t'.

(** In every table reached by setting weights of tokens, the table is
    finalised exactly when every token has a weight. *)
Theorem weight_table_finalized t t' :
  weight_inv t -> star weight_step t t' ->
  WeightTable.finalized t' = true <->
  forall e, e ∈ wt_table t' -> WeightEntry.is_empty e = false -> WeightEntry.is_set e = true.
Proof.
  intros Ht Hs. apply finalized_all_set. eapply star_invariant; [|exact Hs|exact Ht].
  intros s s' Hi (mint & w & slot & Hm & _ & Hr). exact (set_weight_inv _ _ _ _ _ Hi Hm Hr).
Qed.

(* ------------------------------------------------------------------ *)
(** * The default key *)

Module WeightTableWitness.
Definition mint (n : Z) : StMintEntry := StMintEntry.new (key n) NcnFeeGroup.lst 10000 Pubkey_default 5.
Definition vaults : list VaultEntry := VaultEntry.new (key 7) (key 1) 0 50 :: replicate 63 VaultEntry.default.
Definition mints : list StMintEntry := [mint 1; mint 2] ++ replicate 62 StMintEntry.default.
Definition t0 : WeightTable :=
  match WeightTable.initialize (WeightTable.new (key 9) 5 100 1 255) (key 9) 5 100 1 255 vaults mints with
  | Ok t => t | Err _ => WeightTable.new (key 9) 5 100 1 255 end.
Definition run (r : res WeightTable) : WeightTable := match r with Ok t => t | Err _ => t0 end.
Definition t1 := run (WeightTable.set_weight t0 (key 1) 40 120).
Definition t2 := run (WeightTable.set_weight t1 (key 2) 60 121).

Lemma wit_weight_inv : weight_inv t0.
Proof.
  split.
  - reflexivity.
  - intros i j x y Hi Hj Heq Hne.
    assert (Hl : wt_table t0 = [WeightEntry.new (mint 1); WeightEntry.new (mint 2)] ++ replicate 62 WeightEntry.default)
      by (vm_compute; reflexivity).
    rewrite Hl in Hi, Hj.
    destruct i as [|[|i]], j as [|[|j]]; simpl in Hi, Hj; try done; simplify_eq; try done;
      try (apply lookup_replicate in Hi as [-> _]; done); try (apply lookup_replicate in Hj as [-> _]; done).
  - apply (bool_decide_unpack _). vm_compute. exact I.
  - reflexivity.
  - reflexivity.
Qed.

Lemma wit_weight_steps : star weight_step t0 t2.
Proof.
  apply (star_step _ t1); [|apply (star_step _ t2); [|apply star_refl]].
  - exists (key 1), 40, 120. split; [done|]. split; [done|]. vm_compute. reflexivity.
  - exists (key 2), 60, 121. split; [done|]. split; [done|]. vm_compute. reflexivity.
Qed.
End WeightTableWitness.
Import WeightTableWitness.

(** Setting a weight for the default key marks an unused entry as set, and
    the table is then finalised although the second token has no weight. *)
Lemma default_key_finalizes :
  exists t, WeightTable.set_weight t1 Pubkey_default 1 121 = Ok t /\ WeightTable.finalized t = true /\
    WeightTable.get_weight t (key 2) = Ok 0 /\
    exists e, e ∈ wt_table t /\ WeightEntry.is_empty e = false /\ WeightEntry.is_set e = false.
Proof.
  eexists. split; [vm_compute; reflexivity|]. split; [vm_compute; reflexivity|].
  split; [vm_compute; reflexivity|]. exists (WeightEntry.new (mint 2)).
  split; [|by split]. apply (list_elem_of_lookup_2 _ 1). vm_compute. reflexivity.
Qed.

Lemma weight_table_initialize_witness :
  WeightTable.weight_count t0 = 0 /\ WeightTable.finalized t0 = false.
Proof.
  destruct (proj1 (weight_table_initialize (WeightTable.new (key 9) 5 100 1 255) (key 9) 5 100 1 255 vaults mints t0
    eq_refl eq_refl)) as (_ & _ & _ & _ & Hc & Hf).
  - vm_compute. reflexivity.
  - split; [exact Hc|exact Hf].
Defined.

Lemma set_get_weight_witness : WeightTable.get_weight t1 (key 1) = Ok 40.
Proof.
  destruct (set_get_weight t0 (key 1) 40 120) as (Hs & _); [apply wit_weight_inv|done|].
  destruct (Hs t1) as (_ & Hg & _); [vm_compute; reflexivity|exact Hg].
Defined.

Lemma weight_table_finalized_witness : WeightTable.finalized t2 = true.
Proof.
  apply (weight_table_finalized t0 t2 wit_weight_inv wit_weight_steps).
  intros e He. apply (Forall_In (fun e => WeightEntry.is_empty e = false -> WeightEntry.is_set e = true) (wt_table t2)); [|exact He].
  apply (bool_decide_unpack _). vm_compute. exact I.
Defined.
