(* ===== verification/EpochSnapshot.v ===== *)
(** Epoch and operator snapshots (core/src/epoch_snapshot.rs): the stake of
    every operator, vault by vault, and the totals of the epoch.  The theorems
    show that the totals are the sums of what was registered, that nothing is
    registered twice, and when a snapshot is final. *)

From Stdlib Require Import String.
From S2P Require Import Prelude Errors External Constants Accounts FeeGroups Fees StakeWeight VaultRegistry WeightTable.

(* ------------------------------------------------------------------ *)
(** * Epoch snapshot *)

Record EpochSnapshot := mkEpochSnapshot {
  es_ncn : Pubkey;
  es_epoch : Z;
  es_bump : Z;
  es_slot_created : Z;
  es_slot_finalized : Z;
  es_fees : Fees;
  es_operator_count : Z;
  es_vault_count : Z;
  es_operators_registered : Z;
  es_valid_operator_vault_delegations : Z;
  es_stake_weights : StakeWeights;
}.

Module EpochSnapshot.
Definition new (ncn : Pubkey) (ncn_epoch bump current_slot : Z) (fees : Fees)
    (operator_count vault_count : Z) : EpochSnapshot :=
  mkEpochSnapshot ncn ncn_epoch bump current_slot 0 fees operator_count vault_count 0 0 StakeWeights.default.

Section pda.
Context `{Solana}.

Definition seeds (ncn : Pubkey) (ncn_epoch : Z) : list (list Z) :=
  [bytes_of_string "epoch_snapshot"; to_bytes ncn; to_le_bytes 8 ncn_epoch].

Definition find_program_address (program_id ncn : Pubkey) (epoch : Z) : Pubkey * Z * list (list Z) :=
  find_pda program_id (seeds ncn epoch).

Definition load (program_id : Pubkey) (account : AccountInfo) (ncn : Pubkey) (epoch : Z)
    (expect_writable : bool) : res unit :=
  let expected_pda := (find_program_address program_id ncn epoch).1.1 in
  check_load program_id account expected_pda (Some (discriminator DEpochSnapshot)) expect_writable.

Definition load_to_close (program_id : Pubkey) (account_to_close : AccountInfo) (ncn : Pubkey) (epoch : Z) : res unit :=
  load program_id account_to_close ncn epoch true.
End pda.

Definition finalized (self : EpochSnapshot) : bool := es_operators_registered self =? es_operator_count self.

Definition increment_operator_registration (self : EpochSnapshot) (current_slot vault_operator_delegations : Z)
    (stake_weight : StakeWeights) : res EpochSnapshot :=
  if finalized self then Err (Tip OperatorFinalized) else
  registered ← ok_or (checked_add U64 (es_operators_registered self) 1) (Tip ArithmeticOverflow);
  valid ← ok_or (checked_add U64 (es_valid_operator_vault_delegations self) vault_operator_delegations)
            (Tip ArithmeticOverflow);
  weights ← StakeWeights.increment (es_stake_weights self) stake_weight;
  let self := mkEpochSnapshot (es_ncn self) (es_epoch self) (es_bump self) (es_slot_created self)
    (es_slot_finalized self) (es_fees self) (es_operator_count self) (es_vault_count self)
    registered valid weights in
  if finalized self
  then mret (mkEpochSnapshot (es_ncn self) (es_epoch self) (es_bump self) (es_slot_created self)
    current_slot (es_fees self) (es_operator_count self) (es_vault_count self)
    (es_operators_registered self) (es_valid_operator_vault_delegations self) (es_stake_weights self))
  else mret self.
End EpochSnapshot.

(* ------------------------------------------------------------------ *)
(** * Operator snapshot *)

Record VaultOperatorStakeWeight := mkVaultOperatorStakeWeight {
  vos_vault : Pubkey;
  vos_vault_index : Z;
  vos_ncn_fee_group : NcnFeeGroup;
  vos_stake_weight : StakeWeights;
}.

Module VaultOperatorStakeWeight.
Definition default : VaultOperatorStakeWeight :=
  mkVaultOperatorStakeWeight Pubkey_default u64_max NcnFeeGroup.default StakeWeights.default.
Definition new := mkVaultOperatorStakeWeight.
Definition is_empty (self : VaultOperatorStakeWeight) : bool := vos_vault_index self =? u64_max.
End VaultOperatorStakeWeight.

Record OperatorSnapshot := mkOperatorSnapshot {
  os_operator : Pubkey;
  os_ncn : Pubkey;
  os_ncn_epoch : Z;
  os_bump : Z;
  os_slot_created : Z;
  os_slot_finalized : Z;
  os_is_active : bool;
  os_ncn_operator_index : Z;
  os_operator_index : Z;
  os_operator_fee_bps : Z;
  os_vault_operator_delegation_count : Z;
  os_vault_operator_delegations_registered : Z;
  os_valid_operator_vault_delegations : Z;
  os_stake_weights : StakeWeights;
  os_vault_operator_stake_weight : list VaultOperatorStakeWeight;
}.

Module OperatorSnapshot.

Definition new (operator ncn : Pubkey) (ncn_epoch bump current_slot : Z) (is_active : bool)
    (ncn_operator_index operator_index operator_fee_bps vault_operator_delegation_count : Z) : res OperatorSnapshot :=
  if Z.of_nat MAX_VAULTS <? vault_operator_delegation_count
  then Err (Tip TooManyVaultOperatorDelegations) else
  Ok (mkOperatorSnapshot operator ncn ncn_epoch bump current_slot 0 is_active ncn_operator_index
        operator_index operator_fee_bps vault_operator_delegation_count 0 0 StakeWeights.default
        (replicate MAX_VAULTS VaultOperatorStakeWeight.default)).

(** [initialize] assigns every field; an inactive operator is final at once. *)
Definition initialize (self : OperatorSnapshot) (operator ncn : Pubkey) (ncn_epoch bump current_slot : Z)
    (is_active : bool) (ncn_operator_index operator_index operator_fee_bps vault_operator_delegation_count : Z)
    : res OperatorSnapshot :=
  if Z.of_nat MAX_VAULTS <? vault_operator_delegation_count
  then Err (Tip TooManyVaultOperatorDelegations) else
  let slot_finalized := if negb is_active then current_slot else 0 in
  let operator_fee_bps := if is_active then operator_fee_bps else 0 in
  let vault_operator_delegation_count := if is_active then vault_operator_delegation_count else 0 in
  Ok (mkOperatorSnapshot operator ncn ncn_epoch bump current_slot slot_finalized is_active
        ncn_operator_index operator_index operator_fee_bps vault_operator_delegation_count 0 0
        StakeWeights.default (replicate MAX_VAULTS VaultOperatorStakeWeight.default)).

Section pda.
Context `{Solana}.

Definition seeds (operator ncn : Pubkey) (ncn_epoch : Z) : list (list Z) :=
  [bytes_of_string "operator_snapshot"; to_bytes operator; to_bytes ncn; to_le_bytes 8 ncn_epoch].

Definition find_program_address (program_id operator ncn : Pubkey) (epoch : Z) : Pubkey * Z * list (list Z) :=
  find_pda program_id (seeds operator ncn epoch).

Definition load (program_id : Pubkey) (account : AccountInfo) (operator ncn : Pubkey) (epoch : Z)
    (expect_writable : bool) : res unit :=
  let expected_pda := (find_program_address program_id operator ncn epoch).1.1 in
  check_load program_id account expected_pda (Some (discriminator DOperatorSnapshot)) expect_writable.

(** [decode] is the account deserialiser. *)
Definition load_to_close (decode : list Z -> res OperatorSnapshot) (program_id : Pubkey)
    (account_to_close : AccountInfo) (ncn : Pubkey) (epoch : Z) : res unit :=
  account_struct ← decode (acc_data account_to_close);
  load program_id account_to_close (os_operator account_struct) ncn epoch true.
End pda.

Definition finalized (self : OperatorSnapshot) : bool :=
  os_vault_operator_delegations_registered self =? os_vault_operator_delegation_count self.

Definition contains_vault_index (self : OperatorSnapshot) (vault_index : Z) : bool :=
  existsb (fun v => vos_vault_index v =? vault_index) (os_vault_operator_stake_weight self).

Definition contains_vault (self : OperatorSnapshot) (vault : Pubkey) : bool :=
  existsb (fun v => bool_decide (vos_vault v = vault)) (os_vault_operator_stake_weight self).

Definition with_stake_weight (self : OperatorSnapshot) (l : list VaultOperatorStakeWeight) : OperatorSnapshot :=
  mkOperatorSnapshot (os_operator self) (os_ncn self) (os_ncn_epoch self) (os_bump self)
    (os_slot_created self) (os_slot_finalized self) (os_is_active self) (os_ncn_operator_index self)
    (os_operator_index self) (os_operator_fee_bps self) (os_vault_operator_delegation_count self)
    (os_vault_operator_delegations_registered self) (os_valid_operator_vault_delegations self)
    (os_stake_weights self) l.

Definition insert_vault_operator_stake_weight (self : OperatorSnapshot) (vault : Pubkey) (vault_index : Z)
    (ncn_fee_group : NcnFeeGroup) (stake_weights : StakeWeights) : res OperatorSnapshot :=
  n ← ok_or (checked_add U64 (os_vault_operator_delegations_registered self) 1) (Tip ArithmeticOverflow);
  if Z.of_nat MAX_VAULTS <? n then Err (Tip TooManyVaultOperatorDelegations) else
  if contains_vault_index self vault_index then Err (Tip DuplicateVaultOperatorDelegation) else
  l ← aset (os_vault_operator_stake_weight self) (Z.to_nat (os_vault_operator_delegations_registered self))
        (VaultOperatorStakeWeight.new vault vault_index ncn_fee_group stake_weights);
  mret (with_stake_weight self l).

Definition with_registration (self : OperatorSnapshot) (slot_finalized registered valid : Z)
    (weights : StakeWeights) : OperatorSnapshot :=
  mkOperatorSnapshot (os_operator self) (os_ncn self) (os_ncn_epoch self) (os_bump self)
    (os_slot_created self) slot_finalized (os_is_active self) (os_ncn_operator_index self)
    (os_operator_index self) (os_operator_fee_bps self) (os_vault_operator_delegation_count self)
    registered valid weights (os_vault_operator_stake_weight self).

Definition increment_vault_operator_delegation_registration (self : OperatorSnapshot) (current_slot : Z)
    (vault : Pubkey) (vault_index : Z) (ncn_fee_group : NcnFeeGroup) (stake_weights : StakeWeights)
    : res OperatorSnapshot :=
  if finalized self then Err (Tip VaultOperatorDelegationFinalized) else
  self ← insert_vault_operator_stake_weight self vault vault_index ncn_fee_group stake_weights;
  registered ← ok_or (checked_add U64 (os_vault_operator_delegations_registered self) 1) (Tip ArithmeticOverflow);
  valid ← (if 0 <? stake_weight stake_weights
           then ok_or (checked_add U64 (os_valid_operator_vault_delegations self) 1) (Tip ArithmeticOverflow)
           else Ok (os_valid_operator_vault_delegations self));
  weights ← StakeWeights.increment (os_stake_weights self) stake_weights;
  let self := with_registration self (os_slot_finalized self) registered valid weights in
  if finalized self then mret (with_registration self current_slot registered valid weights) else mret self.

(** [total_security] is what the vault program's delegation state returns. *)
Definition calculate_total_stake_weight `{PreciseNumberOps} (total_security : res Z)
    (weight_table : WeightTable) (st_mint : Pubkey) : res Z :=
  total_security ← total_security;
  precise_total_security ← precise total_security;
  precise_weight ← WeightTable.get_precise_weight weight_table st_mint;
  precise_total_stake_weight ← ok_or (pn_checked_mul precise_total_security precise_weight) (Tip ArithmeticOverflow);
  ok_or (pn_to_imprecise precise_total_stake_weight) (Tip CastToImpreciseNumberError).
End OperatorSnapshot.

(* ------------------------------------------------------------------ *)
(** * Invariant of an operator snapshot *)

Definition entry_total (v : VaultOperatorStakeWeight) : Z := stake_weight (vos_stake_weight v).
Definition entry_group (k : nat) (v : VaultOperatorStakeWeight) : Z := gw k (vos_stake_weight v).

(** The registered delegations are a prefix of the array, one per vault
    index, and the totals are their sums. *)
Record os_inv (s : OperatorSnapshot) : Prop := {
  oi_len : length (os_vault_operator_stake_weight s) = MAX_VAULTS;
  oi_range : 0 <= os_vault_operator_delegations_registered s <= os_vault_operator_delegation_count s;
  oi_max : os_vault_operator_delegation_count s <= 64;
  oi_used : forall i v, os_vault_operator_stake_weight s !! i = Some v ->
    Z.of_nat i < os_vault_operator_delegations_registered s ->
    VaultOperatorStakeWeight.is_empty v = false;
  oi_free : forall i v, os_vault_operator_stake_weight s !! i = Some v ->
    os_vault_operator_delegations_registered s <= Z.of_nat i -> v = VaultOperatorStakeWeight.default;
  oi_distinct : forall i j v w, os_vault_operator_stake_weight s !! i = Some v ->
    os_vault_operator_stake_weight s !! j = Some w ->
    vos_vault_index v = vos_vault_index w -> VaultOperatorStakeWeight.is_empty v = false -> i = j;
  oi_wf : Forall (fun v => sw_wf (vos_stake_weight v)) (os_vault_operator_stake_weight s);
  oi_sum_wf : sw_wf (os_stake_weights s);
  oi_total : stake_weight (os_stake_weights s) = sumZ entry_total (os_vault_operator_stake_weight s);
  oi_group : forall k, (k < 8)%nat -> gw k (os_stake_weights s) = sumZ (entry_group k) (os_vault_operator_stake_weight s);
  oi_valid : os_valid_operator_vault_delegations s
    = count (fun v => 0 < entry_total v) (os_vault_operator_stake_weight s);
}.

#[local] Arguments gw : simpl never.
#[local] Arguments count : simpl never.
#[local] Arguments replicate : simpl never.

Lemma initialize_inv s op ncn epoch bump slot act ni oi fee n s' :
  0 <= n -> OperatorSnapshot.initialize s op ncn epoch bump slot act ni oi fee n = Ok s' ->
  os_inv s' /\ os_vault_operator_delegations_registered s' = 0 /\
  os_vault_operator_delegation_count s' = (if act then n else 0).
Proof.
  intros Hn Hi. unfold OperatorSnapshot.initialize in Hi. res_inv. bool_prop. split; [|done].
  change (Z.of_nat MAX_VAULTS) with 64 in *.
  split; cbn; rewrite ?length_replicate; try done; try (destruct act; lia).
  - intros i v [-> _]%lookup_replicate. done.
  - intros i j v w [-> _]%lookup_replicate [-> _]%lookup_replicate. done.
  - apply Forall_replicate, sw_default_wf.
  - apply sw_default_wf.
  - intros k Hk. rewrite sumZ_replicate. unfold entry_group. cbn. rewrite gw_default. lia.
Qed.

Lemma contains_vault_index_false s i :
  OperatorSnapshot.contains_vault_index s i = false <->
  forall j v, os_vault_operator_stake_weight s !! j = Some v -> vos_vault_index v <> i.
Proof.
  unfold OperatorSnapshot.contains_vault_index. split.
  - intros He j v Hj Heq. assert (existsb (fun v => vos_vault_index v =? i) (os_vault_operator_stake_weight s) = true); [|congruence].
    apply existsb_exists. exists v. split; [|by apply Z.eqb_eq]. apply list_elem_of_In. by eapply list_elem_of_lookup_2.
  - intros Hn. apply not_true_is_false. intros (v & Hin & Hv%Z.eqb_eq)%existsb_exists.
    apply list_elem_of_In, list_elem_of_lookup in Hin as [j Hj]. by eapply Hn.
Qed.

(** What a registration does. *)
Lemma register_delegation_spec s slot vault idx g w s' :
  os_inv s -> sw_wf w ->
  OperatorSnapshot.increment_vault_operator_delegation_registration s slot vault idx g w = Ok s' ->
  os_vault_operator_delegations_registered s < os_vault_operator_delegation_count s /\
  (forall j v, os_vault_operator_stake_weight s !! j = Some v -> vos_vault_index v <> idx) /\
  os_vault_operator_stake_weight s'
  = <[Z.to_nat (os_vault_operator_delegations_registered s) := VaultOperatorStakeWeight.new vault idx g w]>
      (os_vault_operator_stake_weight s) /\
  os_vault_operator_delegations_registered s' = os_vault_operator_delegations_registered s + 1 /\
  os_vault_operator_delegation_count s' = os_vault_operator_delegation_count s /\
  os_valid_operator_vault_delegations s'
  = os_valid_operator_vault_delegations s + indic (0 < stake_weight w) /\
  os_stake_weights s' = vadd (os_stake_weights s) w /\ sw_wf (vadd (os_stake_weights s) w) /\
  os_slot_finalized s' = (if OperatorSnapshot.finalized s' then slot else os_slot_finalized s).
Proof.
  intros Hs Hw Hr. destruct (oi_range _ Hs) as [H0 H1]. pose proof (oi_max _ Hs) as H2.
  unfold OperatorSnapshot.increment_vault_operator_delegation_registration in Hr. res_inv.
  unfold OperatorSnapshot.finalized in Hif. apply Z.eqb_neq in Hif.
  unfold OperatorSnapshot.insert_vault_operator_stake_weight in Hx. res_inv. array_inv. bool_prop.
  rewrite contains_vault_index_false in Hif1. cbn in *.
  assert (Hv : x1 = os_valid_operator_vault_delegations s + indic (0 < stake_weight w)).
  { unfold indic. destruct (Z.ltb_spec 0 (stake_weight w)) in Hx1; res_inv; destruct (decide _); lia. }
  apply increment_spec in Hx2 as [-> Hwf]; [|apply (oi_sum_wf _ Hs)|done].
  split; [lia|]. split; [done|].
  destruct (OperatorSnapshot.finalized _) eqn:Ef in Hr; res_inv; cbn in *.
  - repeat split; try done; try lia; try (apply Hwf). unfold OperatorSnapshot.finalized in *. cbn in *. by rewrite Ef.
  - repeat split; try done; try lia; try (apply Hwf). unfold OperatorSnapshot.finalized in *. cbn in *. by rewrite Ef.
Qed.

Lemma register_delegation_inv s slot vault idx g w s' :
  os_inv s -> sw_wf w -> idx <> u64_max ->
  OperatorSnapshot.increment_vault_operator_delegation_registration s slot vault idx g w = Ok s' -> os_inv s'.
Proof.
  intros Hs Hw Hidx Hr.
  destruct (register_delegation_spec _ _ _ _ _ _ _ Hs Hw Hr)
    as (Hlt & Hno & Hl & Hreg & Hcnt & Hval & Hsw & Hswf & _).
  destruct Hs as [Hlen [H0 H1] H2 Hu Hf Hd Hwf Hswf0 Ht Hg Hv].
  set (n := Z.to_nat (os_vault_operator_delegations_registered s)) in *.
  set (nv := VaultOperatorStakeWeight.new vault idx g w) in *.
  destruct (lookup_lt_is_Some_2 (os_vault_operator_stake_weight s) n) as [old Hold];
    [rewrite Hlen; unfold MAX_VAULTS; lia|].
  assert (old = VaultOperatorStakeWeight.default) as -> by (apply (Hf n); [done|lia]).
  assert (Hne : VaultOperatorStakeWeight.is_empty nv = false).
  { unfold VaultOperatorStakeWeight.is_empty. simpl. by apply Z.eqb_neq. }
  split; rewrite ?Hl, ?Hreg, ?Hcnt.
  - by rewrite length_insert.
  - lia.
  - done.
  - intros i v. rewrite list_lookup_insert_Some. intros [(-> & <- & _)|[Hi Hlk]] Hlt'; [done|].
    apply (Hu i); [done|]. lia.
  - intros i v. rewrite list_lookup_insert_Some. intros [(<- & <- & _)|[Hi Hlk]] Hge; [lia|].
    apply (Hf i); [done|]. lia.
  - intros i j v u. rewrite !list_lookup_insert_Some.
    intros [(<- & <- & _)|[Hi Hlv]] [(<- & <- & _)|[Hj Hlu]] Heq He; [done| | |by eapply Hd].
    + exfalso. symmetry in Heq. by apply (Hno j u Hlu).
    + exfalso. by apply (Hno i v Hlv).
  - by apply Forall_insert_2.
  - by rewrite Hsw.
  - rewrite Hsw, (sumZ_insert _ _ _ _ _ Hold), <- Ht. unfold entry_total. cbn. lia.
  - intros k Hk. rewrite Hsw, (sumZ_insert _ _ _ _ _ Hold), <- (Hg k Hk). unfold entry_group. cbn.
    rewrite vadd_gw by done. rewrite gw_default. lia.
  - rewrite Hval, Hv, (count_insert _ _ _ _ _ Hold). rewrite (indic_false (0 < entry_total VaultOperatorStakeWeight.default)) by (cbn; lia).
    unfold indic, entry_total. simpl. destruct (decide _); lia.
Qed.

(** One vault's delegation is registered. *)
Definition os_step (s s' : OperatorSnapshot) : Prop :=
  exists slot vault idx g w, sw_wf w /\ idx <> u64_max /\
    OperatorSnapshot.increment_vault_operator_delegation_registration s slot vault idx g w = Ok s'.

Lemma os_star_inv s s' : star os_step s s' -> os_inv s -> os_inv s'.
Proof.
  apply star_invariant. intros a b Ha (slot & vault & idx & g & w & Hw & Hi & Hr).
  by eapply register_delegation_inv.
Qed.

Lemma register_delegation_ok s slot vault idx g w :
  os_inv s -> sw_wf w -> os_vault_operator_delegations_registered s < os_vault_operator_delegation_count s ->
  (forall j v, os_vault_operator_stake_weight s !! j = Some v -> vos_vault_index v <> idx) ->
  sw_wf (vadd (os_stake_weights s) w) ->
  is_ok (OperatorSnapshot.increment_vault_operator_delegation_registration s slot vault idx g w).
Proof.
  intros Hs Hw Hlt Hno Hwf. destruct (oi_range _ Hs) as [H0 H1]. pose proof (oi_max _ Hs) as H2.
  unfold OperatorSnapshot.increment_vault_operator_delegation_registration.
  unfold OperatorSnapshot.finalized at 1. rewrite (proj2 (Z.eqb_neq _ _)) by lia.
  unfold OperatorSnapshot.insert_vault_operator_stake_weight.
  checked.
  rewrite (proj2 (Z.ltb_ge (Z.of_nat MAX_VAULTS) _)) by (change (Z.of_nat MAX_VAULTS) with 64; lia).
  rewrite (proj2 (contains_vault_index_false _ _) Hno).
  rewrite aset_lt by (rewrite (oi_len _ Hs); unfold MAX_VAULTS; lia). cbn [mbind result_bind mret result_ret].
  cbn [OperatorSnapshot.with_stake_weight os_vault_operator_delegations_registered
    os_valid_operator_vault_delegations os_stake_weights].
  checked.
  assert (Hv : os_valid_operator_vault_delegations s + 1 < U64).
  { rewrite (oi_valid _ Hs). pose proof (count_bounds (fun v => 0 < entry_total v) (os_vault_operator_stake_weight s)) as Hb.
    rewrite (oi_len _ Hs) in Hb. change (Z.of_nat MAX_VAULTS) with 64 in Hb. lia. }
  rewrite (checked_add_ok U64 _ 1 Hv).
  assert (StakeWeights.increment (os_stake_weights s) w = Ok (vadd (os_stake_weights s) w)) as ->.
  { apply increment_spec; [apply (oi_sum_wf _ Hs)|done|done]. }
  destruct (0 <? stake_weight w); cbn [ok_or mbind result_bind];
    destruct (OperatorSnapshot.finalized _); by eexists.
Qed.

(* ------------------------------------------------------------------ *)
(** * Operator registrations of an epoch *)

(** One registration: slot, number of valid delegations, stake. *)
Record registration := mkRegistration { rg_slot : Z; rg_delegations : Z; rg_weights : StakeWeights }.

Definition es_register (s : EpochSnapshot) (r : registration) : res EpochSnapshot :=
  EpochSnapshot.increment_operator_registration s (rg_slot r) (rg_delegations r) (rg_weights r).

Lemma es_register_spec s r s' :
  sw_wf (es_stake_weights s) -> sw_wf (rg_weights r) -> es_register s r = Ok s' ->
  EpochSnapshot.finalized s = false /\
  es_operators_registered s' = es_operators_registered s + 1 /\
  es_valid_operator_vault_delegations s' = es_valid_operator_vault_delegations s + rg_delegations r /\
  es_stake_weights s' = vadd (es_stake_weights s) (rg_weights r) /\ sw_wf (es_stake_weights s') /\
  es_operator_count s' = es_operator_count s /\
  es_slot_finalized s' = (if EpochSnapshot.finalized s' then rg_slot r else es_slot_finalized s).
Proof.
  intros Hs Hw Hr. unfold es_register, EpochSnapshot.increment_operator_registration in Hr. res_inv.
  apply increment_spec in Hx1 as [-> Hwf]; [|done|done]. split; [done|].
  destruct (EpochSnapshot.finalized _) eqn:Ef in Hr; res_inv; cbn;
    (repeat split; try done; try apply Hwf); unfold EpochSnapshot.finalized in *; cbn in *; by rewrite Ef.
Qed.

Lemma es_registers_spec l s s' :
  sw_wf (es_stake_weights s) -> Forall (fun r => sw_wf (rg_weights r)) l ->
  es_operators_registered s <= es_operator_count s ->
  (EpochSnapshot.finalized s = false -> es_slot_finalized s = 0) ->
  foldM es_register s l = Ok s' ->
  es_operators_registered s' = es_operators_registered s + Z.of_nat (length l) /\
  es_operators_registered s' <= es_operator_count s' /\
  es_operator_count s' = es_operator_count s /\
  es_valid_operator_vault_delegations s' = es_valid_operator_vault_delegations s + sumZ rg_delegations l /\
  stake_weight (es_stake_weights s') = stake_weight (es_stake_weights s) + sumZ (fun r => stake_weight (rg_weights r)) l /\
  (forall k, (k < 8)%nat -> gw k (es_stake_weights s') = gw k (es_stake_weights s) + sumZ (fun r => gw k (rg_weights r)) l) /\
  (EpochSnapshot.finalized s' = false -> es_slot_finalized s' = 0).
Proof.
  revert s. induction l as [|r l IH]; intros s Hs Hl Hle Hsl Hf; cbn [foldM] in Hf.
  - res_inv. cbn. repeat split; try lia; try done. all: intros; simpl; lia.
  - res_inv. apply Forall_cons_1 in Hl as [Hr Hl].
    destruct (es_register_spec _ _ _ Hs Hr Hx) as (Hnf & Hreg & Hv & Hsw & Hwf & Hc & Hslot).
    unfold EpochSnapshot.finalized in Hnf. apply Z.eqb_neq in Hnf.
    destruct (IH x Hwf Hl) as (H1 & H2 & H3 & H4 & H5 & H6 & H7); [lia| |done|].
    { intros Hx'. rewrite Hx' in Hslot. rewrite Hslot. apply Hsl. unfold EpochSnapshot.finalized. by apply Z.eqb_neq. }
    rewrite H1, H4, H5, Hreg, Hv, Hsw. cbn [length sumZ]. rewrite vadd_total.
    repeat split; try lia; try done.
    intros k Hk. rewrite H6 by done. rewrite Hsw, vadd_gw by done. lia.
Qed.

(* ------------------------------------------------------------------ *)
(** * Properties *)

(** an operator snapshot starts with at most 64 vaults to register
    (none when the operator is inactive); through every sequence of
    registrations the vault indices stay distinct, the stake weights are the
    sums over the registered vaults, the number of valid delegations counts
    those with stake, and a final snapshot accepts no further vault. *)
Theorem operator_snapshot_totals s0 op ncn epoch bump slot act ni oi fee n s1 s :
  0 <= n -> OperatorSnapshot.initialize s0 op ncn epoch bump slot act ni oi fee n = Ok s1 ->
  star os_step s1 s ->
  os_inv s /\ (act = false -> OperatorSnapshot.finalized s1 = true /\ os_slot_finalized s1 = slot) /\
  (OperatorSnapshot.finalized s = true -> forall slot' vault idx g w,
     OperatorSnapshot.increment_vault_operator_delegation_registration s slot' vault idx g w
     = Err (Tip VaultOperatorDelegationFinalized)).
Proof.
  intros Hn Hi Hs. destruct (initialize_inv _ _ _ _ _ _ _ _ _ _ _ _ Hn Hi) as (Hinv & Hr & Hc).
  split; [by eapply os_star_inv|]. split.
  - intros ->. unfold OperatorSnapshot.finalized. rewrite Hr, Hc. split; [done|].
    unfold OperatorSnapshot.initialize in Hi. by res_inv.
  - intros Hf slot' vault idx g w.
    unfold OperatorSnapshot.increment_vault_operator_delegation_registration. by rewrite Hf.
Qed.

(** A delegation is registered exactly when vaults are missing, its
    vault index is new and the totals fit in 128 bits; it takes the next place,
    adds its stake to the totals, and the snapshot becomes final, at the current
    slot, with the last vault. *)
Theorem register_delegation_exactly s slot vault idx g w :
  os_inv s -> sw_wf w ->
  ((exists s', OperatorSnapshot.increment_vault_operator_delegation_registration s slot vault idx g w = Ok s') <->
   os_vault_operator_delegations_registered s < os_vault_operator_delegation_count s /\
   (forall j v, os_vault_operator_stake_weight s !! j = Some v -> vos_vault_index v <> idx) /\
   sw_wf (vadd (os_stake_weights s) w)) /\
  forall s', OperatorSnapshot.increment_vault_operator_delegation_registration s slot vault idx g w = Ok s' ->
    os_vault_operator_stake_weight s' !! Z.to_nat (os_vault_operator_delegations_registered s)
      = Some (VaultOperatorStakeWeight.new vault idx g w) /\
    os_stake_weights s' = vadd (os_stake_weights s) w /\
    (OperatorSnapshot.finalized s' = true <->
       os_vault_operator_delegations_registered s + 1 = os_vault_operator_delegation_count s) /\
    os_slot_finalized s' = (if OperatorSnapshot.finalized s' then slot else os_slot_finalized s).
Proof.
  intros Hs Hw. split.
  - split.
    + intros [s' Hr]. destruct (register_delegation_spec _ _ _ _ _ _ _ Hs Hw Hr) as (Hlt & Hno & _ & _ & _ & _ & _ & Hwf & _).
      done.
    + intros (Hlt & Hno & Hwf). by apply register_delegation_ok.
  - intros s' Hr. destruct (register_delegation_spec _ _ _ _ _ _ _ Hs Hw Hr)
      as (Hlt & Hno & Hl & Hreg & Hc & _ & Hsw & _ & Hsl).
    split; [|split; [done|split; [|done]]].
    + rewrite Hl. apply list_lookup_insert_eq. rewrite (oi_len _ Hs).
      pose proof (oi_range _ Hs). pose proof (oi_max _ Hs). unfold MAX_VAULTS. lia.
    + unfold OperatorSnapshot.finalized. by rewrite Hreg, Hc, Z.eqb_eq.
Qed.

(** the epoch snapshot counts the registered operators, at most
    [operator_count]; its delegations and stake weights are the sums over them;
    it is final exactly when all of them are registered, and then refuses
    more. *)
Theorem epoch_snapshot_totals ncn epoch bump slot fees nops nvaults l s :
  0 <= nops -> Forall (fun r => sw_wf (rg_weights r)) l ->
  foldM es_register (EpochSnapshot.new ncn epoch bump slot fees nops nvaults) l = Ok s ->
  es_operators_registered s = Z.of_nat (length l) /\ Z.of_nat (length l) <= nops /\
  es_valid_operator_vault_delegations s = sumZ rg_delegations l /\
  stake_weight (es_stake_weights s) = sumZ (fun r => stake_weight (rg_weights r)) l /\
  (forall k, (k < 8)%nat -> gw k (es_stake_weights s) = sumZ (fun r => gw k (rg_weights r)) l) /\
  (EpochSnapshot.finalized s = true <-> Z.of_nat (length l) = nops) /\
  (EpochSnapshot.finalized s = false -> es_slot_finalized s = 0) /\
  (EpochSnapshot.finalized s = true -> forall r, es_register s r = Err (Tip OperatorFinalized)).
Proof.
  intros Hn Hl Hf.
  destruct (es_registers_spec _ (EpochSnapshot.new ncn epoch bump slot fees nops nvaults) _ sw_default_wf Hl Hn (fun _ => eq_refl) Hf)
    as (H1 & H2 & H3 & H4 & H5 & H6 & H7).
  cbn in H1, H3, H4, H5. rewrite H1 in *. split; [done|]. split; [by rewrite H3 in H2|].
  split; [done|]. split; [done|]. split.
  { intros k Hk. rewrite H6 by done. cbn. rewrite gw_default. lia. }
  split; [unfold EpochSnapshot.finalized; by rewrite H1, H3, Z.eqb_eq|]. split; [done|].
  intros Hfin r. unfold es_register, EpochSnapshot.increment_operator_registration. by rewrite Hfin.
Qed.

(** The stake of a delegation is the vault's total security times the
    token's weight, exactly, whenever it fits in 128 bits. *)
Theorem total_stake_weight_exact `{L : PreciseNumberLaws} security t mint w :
  fits U64 security -> fits U128 w -> WeightTable.get_weight t mint = Ok w -> security * w < U128 ->
  OperatorSnapshot.calculate_total_stake_weight (Ok security) t mint = Ok (security * w).
Proof.
  intros Hs Hw Hg Hlt. unfold fits in *.
  destruct (precise_ok security) as (ps & Es & Vs); [unfold fits; lia|].
  destruct (precise_ok w) as (pw & Ew & Vw); [done|].
  destruct (pn_mul_spec ps pw security w Vs Vw) as (r & Er & Vr); [lia|lia|lia|].
  unfold OperatorSnapshot.calculate_total_stake_weight, WeightTable.get_precise_weight.
  cbn [mbind result_bind]. rewrite Es. cbn [mbind result_bind]. rewrite Hg. cbn [mbind result_bind].
  rewrite Ew. cbn [mbind result_bind]. rewrite Er. cbn [ok_or mbind result_bind].
  rewrite (pn_to_imprecise_spec r (security * w)); [done|done|]. unfold fits. nia.
Qed.

Module EpochSnapshotWitness.
Definition w1 : StakeWeights := mkStakeWeights 70 (mkNcnFeeGroupWeight 700 :: replicate 7 (mkNcnFeeGroupWeight 0)).
Definition w2 : StakeWeights := mkStakeWeights 20 (mkNcnFeeGroupWeight 240 :: replicate 7 (mkNcnFeeGroupWeight 0)).
Definition blank : OperatorSnapshot :=
  mkOperatorSnapshot Pubkey_default Pubkey_default 0 0 0 0 false 0 0 0 0 0 0 StakeWeights.default [].
Definition run (r : res OperatorSnapshot) : OperatorSnapshot := match r with Ok s => s | Err _ => blank end.
Definition s1 := run (OperatorSnapshot.initialize blank (key 1) (key 9) 5 255 100 true 0 0 300 2).
Definition s2 := run (OperatorSnapshot.increment_vault_operator_delegation_registration s1 101 (key 5) 0 NcnFeeGroup.lst w1).
Definition s3 := run (OperatorSnapshot.increment_vault_operator_delegation_registration s2 102 (key 6) 1 NcnFeeGroup.lst w2).
Definition fees : Fees := mkFees 0 [] [].

Lemma wit_os_steps : star os_step s1 s3.
Proof.
  apply (star_step _ s2); [|apply (star_step _ s3); [|apply star_refl]].
  - exists 101, (key 5), 0, NcnFeeGroup.lst, w1. split; [apply (bool_decide_unpack _); vm_compute; exact I|].
    split; [done|]. vm_compute. reflexivity.
  - exists 102, (key 6), 1, NcnFeeGroup.lst, w2. split; [apply (bool_decide_unpack _); vm_compute; exact I|].
    split; [done|]. vm_compute. reflexivity.
Qed.

Lemma wit_os_inv : os_inv s1.
Proof. by destruct (initialize_inv blank (key 1) (key 9) 5 255 100 true 0 0 300 2 s1) as (? & _); [|vm_compute|]. Qed.
End EpochSnapshotWitness.
Import EpochSnapshotWitness.

Lemma operator_snapshot_totals_witness : os_inv s3.
Proof.
  destruct (operator_snapshot_totals blank (key 1) (key 9) 5 255 100 true 0 0 300 2 s1 s3) as (Hi & _).
  - done.
  - vm_compute. reflexivity.
  - apply wit_os_steps.
  - exact Hi.
Defined.

Lemma register_delegation_exactly_witness : os_stake_weights s2 = vadd (os_stake_weights s1) w1.
Proof.
  destruct (register_delegation_exactly s1 101 (key 5) 0 NcnFeeGroup.lst w1) as (_ & Hr).
  - apply wit_os_inv.
  - apply (bool_decide_unpack _). vm_compute. exact I.
  - destruct (Hr s2) as (_ & Hw & _); [vm_compute; reflexivity|exact Hw].
Defined.

Lemma epoch_snapshot_totals_witness :
  exists s, foldM es_register (EpochSnapshot.new (key 9) 5 255 100 fees 2 1) [mkRegistration 101 1 w1; mkRegistration 102 1 w2] = Ok s /\
    EpochSnapshot.finalized s = true /\ stake_weight (es_stake_weights s) = 70 + (20 + 0).
Proof.
  eexists. split; [vm_compute; reflexivity|].
  destruct (epoch_snapshot_totals (key 9) 5 255 100 fees 2 1 [mkRegistration 101 1 w1; mkRegistration 102 1 w2]
    (mkEpochSnapshot (key 9) 5 255 100 102 fees 2 1 2 2 (vadd w1 w2))) as (_ & _ & _ & Ht & _ & Hf & _).
  - done.
  - apply (bool_decide_unpack _). vm_compute. exact I.
  - vm_compute. reflexivity.
  - split; [by apply Hf|exact Ht].
Defined.

Lemma total_stake_weight_exact_witness :
  OperatorSnapshot.calculate_total_stake_weight (H := U256Precise.ops) (Ok 1000) WeightTableWitness.t1 (key 1) = Ok (1000 * 40).
Proof.
  apply (total_stake_weight_exact (L := U256Precise.laws)); [by split|by split|vm_compute; reflexivity|done].
Defined.
