(* ===== verification/EpochState.v ===== *)
(** The epoch state (core/src/epoch_state.rs): which of an epoch's accounts
    exist or are closed, how far every phase has got, and the phase the epoch
    is in.

    Reserved bytes are not modelled.  [EpochSchedule::get_epoch] is a parameter
    of the definitions that use it. *)

From Stdlib Require Import String.
From S2P Require Import Prelude Errors External Constants Accounts FeeGroups.

#[local] Arguments replicate : simpl never.

(* ------------------------------------------------------------------ *)
(** * Account status *)

Inductive AccountStatus : Type := DNE | Created | CreatedWithReceiver | Closed.

#[export] Instance AccountStatus_eq_dec : EqDecision AccountStatus.
Proof. solve_decision. Defined.

(** [status as u8] *)
Definition status_u8 (s : AccountStatus) : Z :=
  match s with DNE => 0 | Created => 1 | CreatedWithReceiver => 2 | Closed => 3 end.

Definition get_account_status (u : Z) : res AccountStatus :=
  match u with
  | 0 => Ok DNE
  | 1 => Ok Created
  | 2 => Ok CreatedWithReceiver
  | 3 => Ok Closed
  | _ => Err (Tip InvalidAccountStatus)
  end.

(** The stored bytes. *)
Record EpochAccountStatus := mkEpochAccountStatus {
  as_epoch_state : Z;
  as_weight_table : Z;
  as_epoch_snapshot : Z;
  as_operator_snapshot : list Z;
  as_ballot_box : Z;
  as_base_reward_router : Z;
  as_ncn_reward_router : list Z;
}.

#[export] Instance EpochAccountStatus_eq_dec : EqDecision EpochAccountStatus.
Proof. solve_decision. Defined.

Definition NCN_ROUTERS : nat := 2048.

(** A [usize] index of the flattened (operator, group) arrays. *)
Definition get_ncn_reward_router_index (ncn_operator_index : nat) (g : NcnFeeGroup) : res nat :=
  index ← ok_or (checked_mul U64 (Z.of_nat ncn_operator_index) (Z.of_nat NcnFeeGroup.FEE_GROUP_COUNT)) (Tip ArithmeticOverflow);
  index ← ok_or (checked_add U64 index (NcnFeeGroup.group g)) (Tip ArithmeticOverflow);
  mret (Z.to_nat index).

Module EpochAccountStatus.
Definition default : EpochAccountStatus :=
  mkEpochAccountStatus 0 0 0 (replicate MAX_OPERATORS 0) 0 0 (replicate NCN_ROUTERS 0).

Definition epoch_state (self : EpochAccountStatus) : res AccountStatus := get_account_status (as_epoch_state self).
Definition weight_table (self : EpochAccountStatus) : res AccountStatus := get_account_status (as_weight_table self).
Definition epoch_snapshot (self : EpochAccountStatus) : res AccountStatus := get_account_status (as_epoch_snapshot self).
Definition operator_snapshot (self : EpochAccountStatus) (index : nat) : res AccountStatus :=
  u ← aget (as_operator_snapshot self) index; get_account_status u.
Definition ballot_box (self : EpochAccountStatus) : res AccountStatus := get_account_status (as_ballot_box self).
Definition base_reward_router (self : EpochAccountStatus) : res AccountStatus :=
  get_account_status (as_base_reward_router self).
Definition ncn_reward_router (self : EpochAccountStatus) (index : nat) (g : NcnFeeGroup) : res AccountStatus :=
  i ← get_ncn_reward_router_index index g; u ← aget (as_ncn_reward_router self) i; get_account_status u.

Definition set_epoch_state (self : EpochAccountStatus) (status : AccountStatus) : EpochAccountStatus :=
  mkEpochAccountStatus (status_u8 status) (as_weight_table self) (as_epoch_snapshot self) (as_operator_snapshot self)
    (as_ballot_box self) (as_base_reward_router self) (as_ncn_reward_router self).
Definition set_weight_table (self : EpochAccountStatus) (status : AccountStatus) : EpochAccountStatus :=
  mkEpochAccountStatus (as_epoch_state self) (status_u8 status) (as_epoch_snapshot self) (as_operator_snapshot self)
    (as_ballot_box self) (as_base_reward_router self) (as_ncn_reward_router self).
Definition set_epoch_snapshot (self : EpochAccountStatus) (status : AccountStatus) : EpochAccountStatus :=
  mkEpochAccountStatus (as_epoch_state self) (as_weight_table self) (status_u8 status) (as_operator_snapshot self)
    (as_ballot_box self) (as_base_reward_router self) (as_ncn_reward_router self).
Definition set_operator_snapshot (self : EpochAccountStatus) (index : nat) (status : AccountStatus) : res EpochAccountStatus :=
  l ← aset (as_operator_snapshot self) index (status_u8 status);
  mret (mkEpochAccountStatus (as_epoch_state self) (as_weight_table self) (as_epoch_snapshot self) l
    (as_ballot_box self) (as_base_reward_router self) (as_ncn_reward_router self)).
Definition set_ballot_box (self : EpochAccountStatus) (status : AccountStatus) : EpochAccountStatus :=
  mkEpochAccountStatus (as_epoch_state self) (as_weight_table self) (as_epoch_snapshot self) (as_operator_snapshot self)
    (status_u8 status) (as_base_reward_router self) (as_ncn_reward_router self).
Definition set_base_reward_router (self : EpochAccountStatus) (status : AccountStatus) : EpochAccountStatus :=
  mkEpochAccountStatus (as_epoch_state self) (as_weight_table self) (as_epoch_snapshot self) (as_operator_snapshot self)
    (as_ballot_box self) (status_u8 status) (as_ncn_reward_router self).
Definition set_ncn_reward_router (self : EpochAccountStatus) (index : nat) (g : NcnFeeGroup) (status : AccountStatus)
    : res EpochAccountStatus :=
  i ← get_ncn_reward_router_index index g;
  l ← aset (as_ncn_reward_router self) i (status_u8 status);
  mret (mkEpochAccountStatus (as_epoch_state self) (as_weight_table self) (as_epoch_snapshot self)
    (as_operator_snapshot self) (as_ballot_box self) (as_base_reward_router self) l).

(** An account that was never created counts as closed. *)
Definition dne_or_closed (u : Z) : bool := (u =? status_u8 DNE) || (u =? status_u8 Closed).

Definition are_all_closed (self : EpochAccountStatus) : bool :=
  if negb (as_weight_table self =? status_u8 Closed) then false else
  if negb (as_epoch_snapshot self =? status_u8 Closed) then false else
  if negb (forallb dne_or_closed (as_operator_snapshot self)) then false else
  if negb (as_ballot_box self =? status_u8 Closed) then false else
  if negb (as_base_reward_router self =? status_u8 Closed) then false else
  if negb (forallb dne_or_closed (as_ncn_reward_router self)) then false else true.
End EpochAccountStatus.

(* ------------------------------------------------------------------ *)
(** * Progress *)

Record Progress := mkProgress { pg_tally : Z; pg_total : Z }.

#[export] Instance Progress_eq_dec : EqDecision Progress.
Proof. solve_decision. Defined.

Module Progress.
Definition INVALID : Z := u64_max.
Definition default : Progress := mkProgress INVALID INVALID.
Definition new (total : Z) : Progress := mkProgress 0 total.
Definition increment (self : Progress) (amount : Z) : res Progress :=
  tally ← ok_or (checked_add U64 (pg_tally self) amount) (Tip ArithmeticOverflow);
  mret (mkProgress tally (pg_total self)).
Definition increment_one (self : Progress) : res Progress := increment self 1.
Definition set_tally (self : Progress) (tally : Z) : Progress := mkProgress tally (pg_total self).
Definition set_total (self : Progress) (total : Z) : Progress := mkProgress (pg_tally self) total.
Definition is_invalid (self : Progress) : bool := (pg_tally self =? INVALID) || (pg_total self =? INVALID).
Definition is_complete (self : Progress) : bool :=
  if is_invalid self then false else pg_total self <=? pg_tally self.
End Progress.

(** [increment] of one entry of an array of progresses. *)
Definition increment_at (l : list Progress) (i : nat) (amount : Z) : res (list Progress) :=
  p ← aget l i; p ← Progress.increment p amount; aset l i p.

(* ------------------------------------------------------------------ *)
(** * The epoch state *)

Record EpochState := mkEpochState {
  ep_ncn : Pubkey;
  ep_epoch : Z;
  ep_bump : Z;
  ep_slot_created : Z;
  ep_was_tie_breaker_set : bool;
  ep_slot_consensus_reached : Z;
  ep_operator_count : Z;
  ep_vault_count : Z;
  ep_account_status : EpochAccountStatus;
  ep_set_weight_progress : Progress;
  ep_epoch_snapshot_progress : Progress;
  ep_operator_snapshot_progress : list Progress;
  ep_voting_progress : Progress;
  ep_validation_progress : Progress;
  ep_upload_progress : Progress;
  ep_total_distribution_progress : Progress;
  ep_base_distribution_progress : Progress;
  ep_ncn_distribution_progress : list Progress;
  ep_is_closing : bool;
}.

#[export] Instance EpochState_eq_dec : EqDecision EpochState.
Proof. solve_decision. Defined.

Inductive State : Type := SetWeight | Snapshot | Vote | Distribute | Close.

#[export] Instance State_eq_dec : EqDecision State.
Proof. solve_decision. Defined.

Module EpochState.
(** Field updates. *)
Definition set_was_tie_breaker_set (s : EpochState) (x : bool) : EpochState :=
  mkEpochState (ep_ncn s) (ep_epoch s) (ep_bump s) (ep_slot_created s) x (ep_slot_consensus_reached s)
    (ep_operator_count s) (ep_vault_count s) (ep_account_status s) (ep_set_weight_progress s)
    (ep_epoch_snapshot_progress s) (ep_operator_snapshot_progress s) (ep_voting_progress s) (ep_validation_progress
    s) (ep_upload_progress s) (ep_total_distribution_progress s) (ep_base_distribution_progress s)
    (ep_ncn_distribution_progress s) (ep_is_closing s).
Definition set_slot_consensus_reached (s : EpochState) (x : Z) : EpochState :=
  mkEpochState (ep_ncn s) (ep_epoch s) (ep_bump s) (ep_slot_created s) (ep_was_tie_breaker_set s) x
    (ep_operator_count s) (ep_vault_count s) (ep_account_status s) (ep_set_weight_progress s)
    (ep_epoch_snapshot_progress s) (ep_operator_snapshot_progress s) (ep_voting_progress s) (ep_validation_progress
    s) (ep_upload_progress s) (ep_total_distribution_progress s) (ep_base_distribution_progress s)
    (ep_ncn_distribution_progress s) (ep_is_closing s).
Definition set_operator_count (s : EpochState) (x : Z) : EpochState :=
  mkEpochState (ep_ncn s) (ep_epoch s) (ep_bump s) (ep_slot_created s) (ep_was_tie_breaker_set s)
    (ep_slot_consensus_reached s) x (ep_vault_count s) (ep_account_status s) (ep_set_weight_progress s)
    (ep_epoch_snapshot_progress s) (ep_operator_snapshot_progress s) (ep_voting_progress s) (ep_validation_progress
    s) (ep_upload_progress s) (ep_total_distribution_progress s) (ep_base_distribution_progress s)
    (ep_ncn_distribution_progress s) (ep_is_closing s).
Definition set_vault_count (s : EpochState) (x : Z) : EpochState :=
  mkEpochState (ep_ncn s) (ep_epoch s) (ep_bump s) (ep_slot_created s) (ep_was_tie_breaker_set s)
    (ep_slot_consensus_reached s) (ep_operator_count s) x (ep_account_status s) (ep_set_weight_progress s)
    (ep_epoch_snapshot_progress s) (ep_operator_snapshot_progress s) (ep_voting_progress s) (ep_validation_progress
    s) (ep_upload_progress s) (ep_total_distribution_progress s) (ep_base_distribution_progress s)
    (ep_ncn_distribution_progress s) (ep_is_closing s).
Definition set_account_status (s : EpochState) (x : EpochAccountStatus) : EpochState :=
  mkEpochState (ep_ncn s) (ep_epoch s) (ep_bump s) (ep_slot_created s) (ep_was_tie_breaker_set s)
    (ep_slot_consensus_reached s) (ep_operator_count s) (ep_vault_count s) x (ep_set_weight_progress s)
    (ep_epoch_snapshot_progress s) (ep_operator_snapshot_progress s) (ep_voting_progress s) (ep_validation_progress
    s) (ep_upload_progress s) (ep_total_distribution_progress s) (ep_base_distribution_progress s)
    (ep_ncn_distribution_progress s) (ep_is_closing s).
Definition set_set_weight_progress (s : EpochState) (x : Progress) : EpochState :=
  mkEpochState (ep_ncn s) (ep_epoch s) (ep_bump s) (ep_slot_created s) (ep_was_tie_breaker_set s)
    (ep_slot_consensus_reached s) (ep_operator_count s) (ep_vault_count s) (ep_account_status s) x
    (ep_epoch_snapshot_progress s) (ep_operator_snapshot_progress s) (ep_voting_progress s) (ep_validation_progress
    s) (ep_upload_progress s) (ep_total_distribution_progress s) (ep_base_distribution_progress s)
    (ep_ncn_distribution_progress s) (ep_is_closing s).
Definition set_epoch_snapshot_progress (s : EpochState) (x : Progress) : EpochState :=
  mkEpochState (ep_ncn s) (ep_epoch s) (ep_bump s) (ep_slot_created s) (ep_was_tie_breaker_set s)
    (ep_slot_consensus_reached s) (ep_operator_count s) (ep_vault_count s) (ep_account_status s)
    (ep_set_weight_progress s) x (ep_operator_snapshot_progress s) (ep_voting_progress s) (ep_validation_progress s)
    (ep_upload_progress s) (ep_total_distribution_progress s) (ep_base_distribution_progress s)
    (ep_ncn_distribution_progress s) (ep_is_closing s).
Definition set_operator_snapshot_progress (s : EpochState) (x : list Progress) : EpochState :=
  mkEpochState (ep_ncn s) (ep_epoch s) (ep_bump s) (ep_slot_created s) (ep_was_tie_breaker_set s)
    (ep_slot_consensus_reached s) (ep_operator_count s) (ep_vault_count s) (ep_account_status s)
    (ep_set_weight_progress s) (ep_epoch_snapshot_progress s) x (ep_voting_progress s) (ep_validation_progress s)
    (ep_upload_progress s) (ep_total_distribution_progress s) (ep_base_distribution_progress s)
    (ep_ncn_distribution_progress s) (ep_is_closing s).
Definition set_voting_progress (s : EpochState) (x : Progress) : EpochState :=
  mkEpochState (ep_ncn s) (ep_epoch s) (ep_bump s) (ep_slot_created s) (ep_was_tie_breaker_set s)
    (ep_slot_consensus_reached s) (ep_operator_count s) (ep_vault_count s) (ep_account_status s)
    (ep_set_weight_progress s) (ep_epoch_snapshot_progress s) (ep_operator_snapshot_progress s) x
    (ep_validation_progress s) (ep_upload_progress s) (ep_total_distribution_progress s)
    (ep_base_distribution_progress s) (ep_ncn_distribution_progress s) (ep_is_closing s).
Definition set_validation_progress (s : EpochState) (x : Progress) : EpochState :=
  mkEpochState (ep_ncn s) (ep_epoch s) (ep_bump s) (ep_slot_created s) (ep_was_tie_breaker_set s)
    (ep_slot_consensus_reached s) (ep_operator_count s) (ep_vault_count s) (ep_account_status s)
    (ep_set_weight_progress s) (ep_epoch_snapshot_progress s) (ep_operator_snapshot_progress s) (ep_voting_progress
    s) x (ep_upload_progress s) (ep_total_distribution_progress s) (ep_base_distribution_progress s)
    (ep_ncn_distribution_progress s) (ep_is_closing s).
Definition set_upload_progress (s : EpochState) (x : Progress) : EpochState :=
  mkEpochState (ep_ncn s) (ep_epoch s) (ep_bump s) (ep_slot_created s) (ep_was_tie_breaker_set s)
    (ep_slot_consensus_reached s) (ep_operator_count s) (ep_vault_count s) (ep_account_status s)
    (ep_set_weight_progress s) (ep_epoch_snapshot_progress s) (ep_operator_snapshot_progress s) (ep_voting_progress
    s) (ep_validation_progress s) x (ep_total_distribution_progress s) (ep_base_distribution_progress s)
    (ep_ncn_distribution_progress s) (ep_is_closing s).
Definition set_total_distribution_progress (s : EpochState) (x : Progress) : EpochState :=
  mkEpochState (ep_ncn s) (ep_epoch s) (ep_bump s) (ep_slot_created s) (ep_was_tie_breaker_set s)
    (ep_slot_consensus_reached s) (ep_operator_count s) (ep_vault_count s) (ep_account_status s)
    (ep_set_weight_progress s) (ep_epoch_snapshot_progress s) (ep_operator_snapshot_progress s) (ep_voting_progress
    s) (ep_validation_progress s) (ep_upload_progress s) x (ep_base_distribution_progress s)
    (ep_ncn_distribution_progress s) (ep_is_closing s).
Definition set_base_distribution_progress (s : EpochState) (x : Progress) : EpochState :=
  mkEpochState (ep_ncn s) (ep_epoch s) (ep_bump s) (ep_slot_created s) (ep_was_tie_breaker_set s)
    (ep_slot_consensus_reached s) (ep_operator_count s) (ep_vault_count s) (ep_account_status s)
    (ep_set_weight_progress s) (ep_epoch_snapshot_progress s) (ep_operator_snapshot_progress s) (ep_voting_progress
    s) (ep_validation_progress s) (ep_upload_progress s) (ep_total_distribution_progress s) x
    (ep_ncn_distribution_progress s) (ep_is_closing s).
Definition set_ncn_distribution_progress (s : EpochState) (x : list Progress) : EpochState :=
  mkEpochState (ep_ncn s) (ep_epoch s) (ep_bump s) (ep_slot_created s) (ep_was_tie_breaker_set s)
    (ep_slot_consensus_reached s) (ep_operator_count s) (ep_vault_count s) (ep_account_status s)
    (ep_set_weight_progress s) (ep_epoch_snapshot_progress s) (ep_operator_snapshot_progress s) (ep_voting_progress
    s) (ep_validation_progress s) (ep_upload_progress s) (ep_total_distribution_progress s)
    (ep_base_distribution_progress s) x (ep_is_closing s).
Definition set_is_closing (s : EpochState) (x : bool) : EpochState :=
  mkEpochState (ep_ncn s) (ep_epoch s) (ep_bump s) (ep_slot_created s) (ep_was_tie_breaker_set s)
    (ep_slot_consensus_reached s) (ep_operator_count s) (ep_vault_count s) (ep_account_status s)
    (ep_set_weight_progress s) (ep_epoch_snapshot_progress s) (ep_operator_snapshot_progress s) (ep_voting_progress
    s) (ep_validation_progress s) (ep_upload_progress s) (ep_total_distribution_progress s)
    (ep_base_distribution_progress s) (ep_ncn_distribution_progress s) x.

(** The sizes of the fields in bytes. *)
Definition STATUS_SIZE : Z := 1 + 1 + 1 + 256 + 1 + 1 + 2048.
Definition PROGRESS_SIZE : Z := 8 + 8 + 8.
Definition SIZE : Z :=
  8 + (32 + 8 + 1 + 8 + 1 + 8 + 8 + 8 + STATUS_SIZE + PROGRESS_SIZE * (2 + 256 + 5 + 2048) + 1 + 1023).

Definition new (ncn : Pubkey) (epoch bump slot_created : Z) : EpochState :=
  mkEpochState ncn epoch bump slot_created false DEFAULT_CONSENSUS_REACHED_SLOT 0 0 EpochAccountStatus.default
    Progress.default Progress.default (replicate MAX_OPERATORS Progress.default) Progress.default Progress.default
    Progress.default Progress.default Progress.default (replicate NCN_ROUTERS Progress.default) false.

(** [initialize] keeps every field it does not name: those of a new account
    are zero bytes. *)
Definition initialize (self : EpochState) (ncn : Pubkey) (epoch bump slot_created : Z) : EpochState :=
  mkEpochState ncn epoch bump slot_created (ep_was_tie_breaker_set self) DEFAULT_CONSENSUS_REACHED_SLOT
    (ep_operator_count self) (ep_vault_count self) (ep_account_status self) (ep_set_weight_progress self)
    (ep_epoch_snapshot_progress self) (ep_operator_snapshot_progress self) (ep_voting_progress self)
    (ep_validation_progress self) (ep_upload_progress self) (ep_total_distribution_progress self)
    (ep_base_distribution_progress self) (ep_ncn_distribution_progress self) (ep_is_closing self).

Section pda.
Context `{Solana}.

Definition seeds (ncn : Pubkey) (epoch : Z) : list (list Z) :=
  [bytes_of_string "epoch_state"; to_bytes ncn; to_le_bytes 8 epoch].

Definition find_program_address (program_id ncn : Pubkey) (epoch : Z) : Pubkey * Z * list (list Z) :=
  find_pda program_id (seeds ncn epoch).

Definition load (program_id : Pubkey) (account : AccountInfo) (ncn : Pubkey) (epoch : Z)
    (expect_writable : bool) : res unit :=
  let expected_pda := (find_program_address program_id ncn epoch).1.1 in
  check_load program_id account expected_pda (Some (discriminator DEpochState)) expect_writable.

(** [contents] is what the account's data decodes to. *)
Definition load_and_check_is_closing (program_id : Pubkey) (account : AccountInfo) (contents : EpochState)
    (ncn : Pubkey) (epoch : Z) (expect_writable : bool) : res unit :=
  if ep_is_closing contents then Err (Tip EpochIsClosingDown)
  else load program_id account ncn epoch expect_writable.
End pda.

Definition load_to_close (account_to_close : EpochState) (ncn : Pubkey) (epoch : Z) : res unit :=
  if negb (bool_decide (ep_ncn account_to_close = ncn)) then Err (Tip CannotCloseAccount) else
  if negb (ep_epoch account_to_close =? epoch) then Err (Tip CannotCloseAccount) else
  if negb (EpochAccountStatus.are_all_closed (ep_account_status account_to_close))
  then Err (Tip CannotCloseEpochStateAccount) else Ok tt.

(** ** Getters *)

Definition is_consensus_reached (self : EpochState) : bool :=
  negb (ep_slot_consensus_reached self =? DEFAULT_CONSENSUS_REACHED_SLOT).

Definition get_slot_consensus_reached (self : EpochState) : res Z :=
  if ep_slot_consensus_reached self =? DEFAULT_CONSENSUS_REACHED_SLOT
  then Err (Tip ConsensusNotReached) else Ok (ep_slot_consensus_reached self).

Definition get_epoch_consensus_reached (get_epoch : Z -> Z) (self : EpochState) : res Z :=
  slot_consensus_reached ← get_slot_consensus_reached self; mret (get_epoch slot_consensus_reached).

Definition operator_snapshot_progress (self : EpochState) (ncn_operator_index : nat) : res Progress :=
  aget (ep_operator_snapshot_progress self) ncn_operator_index.

Definition ncn_distribution_progress (self : EpochState) (ncn_operator_index : nat) (g : NcnFeeGroup) : res Progress :=
  index ← get_ncn_reward_router_index ncn_operator_index g; aget (ep_ncn_distribution_progress self) index.

(** ** Updaters *)

Definition update_realloc_epoch_state (self : EpochState) : EpochState :=
  set_account_status self (EpochAccountStatus.set_epoch_state (ep_account_status self) Created).

Definition update_realloc_weight_table (self : EpochState) (vault_count st_mint_count : Z) : EpochState :=
  let self := set_account_status self (EpochAccountStatus.set_weight_table (ep_account_status self) Created) in
  let self := set_vault_count self vault_count in
  set_set_weight_progress self (Progress.new st_mint_count).

Definition update_set_weight (self : EpochState) (weights_set st_mint_count : Z) : EpochState :=
  let self := set_set_weight_progress self (Progress.set_tally (ep_set_weight_progress self) weights_set) in
  set_set_weight_progress self (Progress.set_total (ep_set_weight_progress self) st_mint_count).

Definition update_initialize_epoch_snapshot (self : EpochState) (operator_count : Z) : EpochState :=
  let self := set_account_status self (EpochAccountStatus.set_epoch_snapshot (ep_account_status self) Created) in
  let self := set_operator_count self operator_count in
  set_epoch_snapshot_progress self (Progress.new operator_count).

Definition update_realloc_operator_snapshot (self : EpochState) (ncn_operator_index : nat) (is_active : bool)
    : res EpochState :=
  status ← EpochAccountStatus.set_operator_snapshot (ep_account_status self) ncn_operator_index Created;
  let self := set_account_status self status in
  if is_active then
    l ← aset (ep_operator_snapshot_progress self) ncn_operator_index (Progress.new (ep_vault_count self));
    mret (set_operator_snapshot_progress self l)
  else
    l ← aset (ep_operator_snapshot_progress self) ncn_operator_index (Progress.new 1);
    l ← increment_at l ncn_operator_index 1;
    let self := set_operator_snapshot_progress self l in
    p ← Progress.increment_one (ep_epoch_snapshot_progress self);
    mret (set_epoch_snapshot_progress self p).

Definition update_snapshot_vault_operator_delegation (self : EpochState) (ncn_operator_index : nat) (finalized : bool)
    : res EpochState :=
  l ← increment_at (ep_operator_snapshot_progress self) ncn_operator_index 1;
  let self := set_operator_snapshot_progress self l in
  if finalized then
    p ← Progress.increment_one (ep_epoch_snapshot_progress self);
    mret (set_epoch_snapshot_progress self p)
  else mret self.

Definition update_realloc_ballot_box (self : EpochState) : EpochState :=
  let self := set_account_status self (EpochAccountStatus.set_ballot_box (ep_account_status self) Created) in
  let self := set_voting_progress self (Progress.new (ep_operator_count self)) in
  let self := set_validation_progress self (Progress.new 1) in
  set_upload_progress self (Progress.new 1).

Definition update_cast_vote (self : EpochState) (operators_voted : Z) (consensus_reached : bool) (current_slot : Z)
    : EpochState :=
  let self := if consensus_reached && negb (is_consensus_reached self)
              then set_slot_consensus_reached self current_slot else self in
  set_voting_progress self (Progress.set_tally (ep_voting_progress self) operators_voted).

Definition update_set_tie_breaker (self : EpochState) (consensus_reached : bool) (current_slot : Z) : EpochState :=
  if consensus_reached && negb (is_consensus_reached self)
  then set_was_tie_breaker_set (set_slot_consensus_reached self current_slot) true else self.

Definition update_set_merkle_root (self : EpochState) : res EpochState :=
  p ← Progress.increment_one (ep_upload_progress self);
  mret (set_upload_progress self (Progress.set_total p (pg_tally p))).

Definition update_realloc_base_reward_router (self : EpochState) : EpochState :=
  let self := set_account_status self
    (EpochAccountStatus.set_base_reward_router (ep_account_status self) CreatedWithReceiver) in
  set_base_distribution_progress self (Progress.new 0).

Definition update_realloc_ncn_reward_router (self : EpochState) (ncn_operator_index : nat) (g : NcnFeeGroup)
    : res EpochState :=
  status ← EpochAccountStatus.set_ncn_reward_router (ep_account_status self) ncn_operator_index g CreatedWithReceiver;
  let self := set_account_status self status in
  i ← get_ncn_reward_router_index ncn_operator_index g;
  l ← aset (ep_ncn_distribution_progress self) i (Progress.new 0);
  mret (set_ncn_distribution_progress self l).

Definition update_route_base_rewards (self : EpochState) (total_rewards : Z) : EpochState :=
  let self := set_total_distribution_progress self
    (Progress.set_total (ep_total_distribution_progress self) total_rewards) in
  set_base_distribution_progress self (Progress.set_total (ep_base_distribution_progress self) total_rewards).

Definition update_route_ncn_rewards (self : EpochState) (ncn_operator_index : nat) (g : NcnFeeGroup) (total_rewards : Z)
    : res EpochState :=
  i ← get_ncn_reward_router_index ncn_operator_index g;
  p ← aget (ep_ncn_distribution_progress self) i;
  l ← aset (ep_ncn_distribution_progress self) i (Progress.set_total p total_rewards);
  mret (set_ncn_distribution_progress self l).

Definition update_distribute_base_rewards (self : EpochState) (r : Z) : res EpochState :=
  t ← Progress.increment (ep_total_distribution_progress self) r;
  let self := set_total_distribution_progress self t in
  p ← Progress.increment (ep_base_distribution_progress self) r;
  mret (set_base_distribution_progress self p).

Definition update_distribute_base_ncn_rewards (self : EpochState) (r : Z) : res EpochState :=
  p ← Progress.increment (ep_base_distribution_progress self) r;
  mret (set_base_distribution_progress self p).

Definition update_distribute_ncn_rewards (self : EpochState) (ncn_operator_index : nat) (g : NcnFeeGroup) (r : Z)
    : res EpochState :=
  t ← Progress.increment (ep_total_distribution_progress self) r;
  let self := set_total_distribution_progress self t in
  i ← get_ncn_reward_router_index ncn_operator_index g;
  l ← increment_at (ep_ncn_distribution_progress self) i r;
  mret (set_ncn_distribution_progress self l).

(** ** Closers *)

Definition start_closing (self : EpochState) : EpochState := set_is_closing self true.

Definition close_epoch_state (self : EpochState) : EpochState :=
  set_account_status self (EpochAccountStatus.set_epoch_state (ep_account_status self) Closed).
Definition close_weight_table (self : EpochState) : EpochState :=
  set_account_status self (EpochAccountStatus.set_weight_table (ep_account_status self) Closed).
Definition close_epoch_snapshot (self : EpochState) : EpochState :=
  set_account_status self (EpochAccountStatus.set_epoch_snapshot (ep_account_status self) Closed).
Definition close_operator_snapshot (self : EpochState) (ncn_operator_index : nat) : res EpochState :=
  status ← EpochAccountStatus.set_operator_snapshot (ep_account_status self) ncn_operator_index Closed;
  mret (set_account_status self status).
Definition close_ballot_box (self : EpochState) : EpochState :=
  set_account_status self (EpochAccountStatus.set_ballot_box (ep_account_status self) Closed).
Definition close_base_reward_router (self : EpochState) : EpochState :=
  set_account_status self (EpochAccountStatus.set_base_reward_router (ep_account_status self) Closed).
Definition close_ncn_reward_router (self : EpochState) (ncn_operator_index : nat) (g : NcnFeeGroup) : res EpochState :=
  status ← EpochAccountStatus.set_ncn_reward_router (ep_account_status self) ncn_operator_index g Closed;
  mret (set_account_status self status).

(** ** State *)

Definition can_start_routing (self : EpochState) (valid_slots_after_consensus current_slot : Z) : res bool :=
  if negb (is_consensus_reached self) then Ok false else
  slot_consensus_reached ← get_slot_consensus_reached self;
  slot_can_start_routing ← ok_or (checked_add U64 slot_consensus_reached valid_slots_after_consensus) (Tip ArithmeticOverflow);
  mret (slot_can_start_routing <=? current_slot).

Definition can_close_epoch_accounts (get_epoch : Z -> Z) (self : EpochState)
    (epochs_after_consensus_before_close current_slot : Z) : res bool :=
  epoch_consensus_reached ← get_epoch_consensus_reached get_epoch self;
  let current_epoch := get_epoch current_slot in
  let epoch_delta := saturating_sub current_epoch epoch_consensus_reached in
  mret (epochs_after_consensus_before_close <=? epoch_delta).

(** The phases after the weights, shared by [current_state] and
    [current_state_patched]. *)
Definition state_after_weights (get_epoch : Z -> Z) (self : EpochState)
    (valid_slots_after_consensus epochs_after_consensus_before_close current_slot : Z) : res State :=
  snapshot ← EpochAccountStatus.epoch_snapshot (ep_account_status self);
  if bool_decide (snapshot = DNE) || negb (Progress.is_complete (ep_epoch_snapshot_progress self))
  then Ok Snapshot else
  ballot ← EpochAccountStatus.ballot_box (ep_account_status self);
  voting ← (if bool_decide (ballot = DNE) then Ok true
            else r ← can_start_routing self valid_slots_after_consensus current_slot; mret (negb r));
  if voting : bool then Ok Vote else
  can_close ← can_close_epoch_accounts get_epoch self epochs_after_consensus_before_close current_slot;
  if can_close : bool then Ok Close else Ok Distribute.

Definition current_state (get_epoch : Z -> Z) (self : EpochState)
    (valid_slots_after_consensus epochs_after_consensus_before_close current_slot : Z) : res State :=
  weights ← EpochAccountStatus.weight_table (ep_account_status self);
  if bool_decide (weights = DNE) || negb (Progress.is_complete (ep_set_weight_progress self)) then Ok SetWeight else
  state_after_weights get_epoch self valid_slots_after_consensus epochs_after_consensus_before_close current_slot.

Definition current_state_patched (get_epoch : Z -> Z) (self : EpochState)
    (valid_slots_after_consensus epochs_after_consensus_before_close st_mint_count current_slot : Z) : res State :=
  weights ← EpochAccountStatus.weight_table (ep_account_status self);
  if bool_decide (weights = DNE) || (pg_tally (ep_set_weight_progress self) <? st_mint_count) then Ok SetWeight else
  state_after_weights get_epoch self valid_slots_after_consensus epochs_after_consensus_before_close current_slot.
End EpochState.
