(* ===== verification/EpochStateProps.v ===== *)
(** Properties of the epoch state: the flattened (operator, group) index, the
    account statuses, the conditions for closing, and the phases. *)

From S2P Require Import Prelude Errors External Constants Accounts FeeGroups EpochState.

#[local] Arguments replicate : simpl never.

(* ------------------------------------------------------------------ *)
(** * The flattened index *)

Lemma router_index_ok i a :
  (i < 256)%nat -> (a < 8)%nat ->
  get_ncn_reward_router_index i (NcnFeeGroup.mk (Z.of_nat a)) = Ok (8 * i + a)%nat.
Proof.
  intros Hi Ha. unfold get_ncn_reward_router_index. cbn [NcnFeeGroup.group].
  change (Z.of_nat NcnFeeGroup.FEE_GROUP_COUNT) with 8. checked.
  checked. unfold mret, result_ret. f_equal. lia.
Qed.

(* ------------------------------------------------------------------ *)
(** * Well-formed statuses *)

Definition status_byte (u : Z) : Prop := 0 <= u <= 3.

Record status_wf (s : EpochAccountStatus) : Prop := {
  sw_epoch_state : status_byte (as_epoch_state s);
  sw_weight_table : status_byte (as_weight_table s);
  sw_epoch_snapshot : status_byte (as_epoch_snapshot s);
  sw_ballot_box : status_byte (as_ballot_box s);
  sw_base_reward_router : status_byte (as_base_reward_router s);
  sw_operator_len : length (as_operator_snapshot s) = 256%nat;
  sw_operator : Forall status_byte (as_operator_snapshot s);
  sw_ncn_len : length (as_ncn_reward_router s) = 2048%nat;
  sw_ncn : Forall status_byte (as_ncn_reward_router s);
}.

Record ep_wf (e : EpochState) : Prop := {
  ew_status : status_wf (ep_account_status e);
  ew_operator_progress : length (ep_operator_snapshot_progress e) = 256%nat;
  ew_ncn_progress : length (ep_ncn_distribution_progress e) = 2048%nat;
}.

Lemma status_u8_byte s : status_byte (status_u8 s).
Proof. unfold status_byte. destruct s; simpl; lia. Qed.

Lemma get_status_ok u : status_byte u -> exists s, get_account_status u = Ok s /\ status_u8 s = u.
Proof.
  unfold status_byte. intros Hu. assert (u = 0 \/ u = 1 \/ u = 2 \/ u = 3) as [->|[->|[->| ->]]] by lia; by eexists.
Qed.

Lemma get_status_inv u s : get_account_status u = Ok s <-> u = status_u8 s.
Proof.
  split.
  - unfold get_account_status. destruct u as [|[[?|[?|?|]|]|[?|?|]|]|]; intros H; try discriminate; by injection H as <-.
  - intros ->. by destruct s.
Qed.

(** Discharges the fields of [status_wf] an update does not touch. *)
Ltac status_fields :=
  match goal with H : status_wf _ |- _ => destruct H end; split; cbn; try done; try apply status_u8_byte;
  try (by rewrite length_insert); try (by apply Forall_insert_2; [|apply status_u8_byte]).

Lemma set_operator_snapshot_ok s i st :
  status_wf s -> (i < 256)%nat ->
  exists s', EpochAccountStatus.set_operator_snapshot s i st = Ok s' /\ status_wf s'.
Proof.
  intros Hs Hi. unfold EpochAccountStatus.set_operator_snapshot. rewrite aset_lt by (rewrite (sw_operator_len _ Hs); lia).
  cbn [mbind result_bind]. eexists. split; [reflexivity|]. status_fields.
Qed.

Lemma set_ncn_reward_router_ok s i a st :
  status_wf s -> (i < 256)%nat -> (a < 8)%nat ->
  EpochAccountStatus.set_ncn_reward_router s i (NcnFeeGroup.mk (Z.of_nat a)) st
  = Ok (mkEpochAccountStatus (as_epoch_state s) (as_weight_table s) (as_epoch_snapshot s) (as_operator_snapshot s)
          (as_ballot_box s) (as_base_reward_router s) (<[(8 * i + a)%nat := status_u8 st]> (as_ncn_reward_router s))).
Proof.
  intros Hs Hi Ha. unfold EpochAccountStatus.set_ncn_reward_router. rewrite router_index_ok by done.
  cbn [mbind result_bind]. by rewrite aset_lt by (rewrite (sw_ncn_len _ Hs); lia).
Qed.

Lemma ncn_reward_router_read s i a :
  status_wf s -> (i < 256)%nat -> (a < 8)%nat ->
  EpochAccountStatus.ncn_reward_router s i (NcnFeeGroup.mk (Z.of_nat a))
  = match as_ncn_reward_router s !! (8 * i + a)%nat with Some u => get_account_status u | None => Err Panic end.
Proof.
  intros Hs Hi Ha. unfold EpochAccountStatus.ncn_reward_router. rewrite router_index_ok by done. cbn [mbind result_bind].
  unfold aget. destruct (as_ncn_reward_router s !! _); done.
Qed.

(* ------------------------------------------------------------------ *)
(** * The updaters and closers as steps *)

(** Group arguments come from [NcnFeeGroup::try_from]. *)
Definition valid_group (g : NcnFeeGroup) : Prop := exists a, (a < 8)%nat /\ g = NcnFeeGroup.mk (Z.of_nat a).

Inductive ep_step (e : EpochState) : EpochState -> Prop :=
| ep_realloc_epoch_state : ep_step e (EpochState.update_realloc_epoch_state e)
| ep_realloc_weight_table v m : ep_step e (EpochState.update_realloc_weight_table e v m)
| ep_set_weight w m : ep_step e (EpochState.update_set_weight e w m)
| ep_initialize_epoch_snapshot n : ep_step e (EpochState.update_initialize_epoch_snapshot e n)
| ep_realloc_operator_snapshot i act e' :
    EpochState.update_realloc_operator_snapshot e i act = Ok e' -> ep_step e e'
| ep_snapshot_delegation i fin e' :
    EpochState.update_snapshot_vault_operator_delegation e i fin = Ok e' -> ep_step e e'
| ep_realloc_ballot_box : ep_step e (EpochState.update_realloc_ballot_box e)
| ep_cast_vote n c slot : ep_step e (EpochState.update_cast_vote e n c slot)
| ep_set_tie_breaker c slot : ep_step e (EpochState.update_set_tie_breaker e c slot)
| ep_set_merkle_root e' : EpochState.update_set_merkle_root e = Ok e' -> ep_step e e'
| ep_realloc_base_reward_router : ep_step e (EpochState.update_realloc_base_reward_router e)
| ep_realloc_ncn_reward_router i g e' :
    EpochState.update_realloc_ncn_reward_router e i g = Ok e' -> ep_step e e'
| ep_route_base_rewards r : ep_step e (EpochState.update_route_base_rewards e r)
| ep_route_ncn_rewards i g r e' : EpochState.update_route_ncn_rewards e i g r = Ok e' -> ep_step e e'
| ep_distribute_base_rewards r e' : EpochState.update_distribute_base_rewards e r = Ok e' -> ep_step e e'
| ep_distribute_base_ncn_rewards r e' : EpochState.update_distribute_base_ncn_rewards e r = Ok e' -> ep_step e e'
| ep_distribute_ncn_rewards i g r e' : EpochState.update_distribute_ncn_rewards e i g r = Ok e' -> ep_step e e'
| ep_start_closing : ep_step e (EpochState.start_closing e)
| ep_close_epoch_state : ep_step e (EpochState.close_epoch_state e)
| ep_close_weight_table : ep_step e (EpochState.close_weight_table e)
| ep_close_epoch_snapshot : ep_step e (EpochState.close_epoch_snapshot e)
| ep_close_operator_snapshot i e' : EpochState.close_operator_snapshot e i = Ok e' -> ep_step e e'
| ep_close_ballot_box : ep_step e (EpochState.close_ballot_box e)
| ep_close_base_reward_router : ep_step e (EpochState.close_base_reward_router e)
| ep_close_ncn_reward_router i g e' : EpochState.close_ncn_reward_router e i g = Ok e' -> ep_step e e'.

(** A new account's bytes are zero. *)
Definition zeroed : EpochState :=
  mkEpochState Pubkey_default 0 0 0 false 0 0 0 EpochAccountStatus.default (mkProgress 0 0) (mkProgress 0 0)
    (replicate MAX_OPERATORS (mkProgress 0 0)) (mkProgress 0 0) (mkProgress 0 0) (mkProgress 0 0) (mkProgress 0 0)
    (mkProgress 0 0) (replicate NCN_ROUTERS (mkProgress 0 0)) false.

Lemma initialize_wf ncn epoch bump slot : ep_wf (EpochState.initialize zeroed ncn epoch bump slot).
Proof.
  split; [|done|done]. split; cbn; try done; by apply Forall_replicate.
Qed.

Lemma set_operator_snapshot_wf s i st s' :
  status_wf s -> EpochAccountStatus.set_operator_snapshot s i st = Ok s' -> status_wf s'.
Proof.
  unfold EpochAccountStatus.set_operator_snapshot. intros Hs Hr. res_inv. array_inv. status_fields.
Qed.

Lemma set_ncn_reward_router_wf s i g st s' :
  status_wf s -> EpochAccountStatus.set_ncn_reward_router s i g st = Ok s' -> status_wf s'.
Proof.
  unfold EpochAccountStatus.set_ncn_reward_router. intros Hs Hr. res_inv. array_inv. status_fields.
Qed.

Lemma increment_at_length l i r l' : increment_at l i r = Ok l' -> length l' = length l.
Proof. unfold increment_at. intros Hr. res_inv. array_inv. apply length_insert. Qed.

Lemma ep_wf_intro e e' :
  ep_wf e -> status_wf (ep_account_status e') ->
  length (ep_operator_snapshot_progress e') = length (ep_operator_snapshot_progress e) ->
  length (ep_ncn_distribution_progress e') = length (ep_ncn_distribution_progress e) -> ep_wf e'.
Proof. intros [Hs Ho Hn] Hs' Ho' Hn'. split; [done|lia|lia]. Qed.

(** The array lengths of the results of updates. *)
Ltac ep_lengths :=
  repeat match goal with
  | H : increment_at _ _ _ = Ok _ |- _ => apply increment_at_length in H
  | H : aset _ _ _ = Ok _ |- _ => apply aset_Ok in H as [-> _]
  end; cbn in *; rewrite ?length_insert in *; congruence.

Lemma ep_step_wf e e' : ep_wf e -> ep_step e e' -> ep_wf e'.
Proof.
  intros He Hst. pose proof (ew_status _ He) as Hs.
  destruct Hst as [| | | |i act e' Hr|i fin e' Hr| | | |e' Hr| |i g e' Hr| |i g r e' Hr|r e' Hr|r e' Hr|i g r e' Hr| | | | |i e' Hr| | |i g e' Hr];
    try (apply (ep_wf_intro e); [done| |done|done]; cbn; (exact Hs || status_fields)).
  - unfold EpochState.update_realloc_operator_snapshot in Hr. apply bind_Ok in Hr as (st & Hst & Hr).
    apply (set_operator_snapshot_wf _ _ _ _ Hs) in Hst. destruct act; res_inv;
      (apply (ep_wf_intro e); [done|done|ep_lengths|done]).
  - unfold EpochState.update_snapshot_vault_operator_delegation in Hr. destruct fin; res_inv;
      (apply (ep_wf_intro e); [done|done|ep_lengths|done]).
  - apply (ep_wf_intro e); [done|..]; unfold EpochState.update_cast_vote; by destruct (_ && _).
  - apply (ep_wf_intro e); [done|..]; unfold EpochState.update_set_tie_breaker; by destruct (_ && _).
  - unfold EpochState.update_set_merkle_root in Hr. res_inv. by apply (ep_wf_intro e).
  - unfold EpochState.update_realloc_ncn_reward_router in Hr. apply bind_Ok in Hr as (st & Hst & Hr).
    apply (set_ncn_reward_router_wf _ _ _ _ _ Hs) in Hst. res_inv. apply (ep_wf_intro e); [done|done|done|ep_lengths].
  - unfold EpochState.update_route_ncn_rewards in Hr. res_inv. apply (ep_wf_intro e); [done|done|done|ep_lengths].
  - unfold EpochState.update_distribute_base_rewards in Hr. res_inv. by apply (ep_wf_intro e).
  - unfold EpochState.update_distribute_base_ncn_rewards in Hr. res_inv. by apply (ep_wf_intro e).
  - unfold EpochState.update_distribute_ncn_rewards in Hr. res_inv. apply (ep_wf_intro e); [done|done|done|ep_lengths].
  - unfold EpochState.close_operator_snapshot in Hr. apply bind_Ok in Hr as (st & Hst & Hr).
    apply (set_operator_snapshot_wf _ _ _ _ Hs) in Hst. res_inv. by apply (ep_wf_intro e).
  - unfold EpochState.close_ncn_reward_router in Hr. apply bind_Ok in Hr as (st & Hst & Hr).
    apply (set_ncn_reward_router_wf _ _ _ _ _ Hs) in Hst. res_inv. by apply (ep_wf_intro e).
Qed.

(** What no step changes. *)
Definition ep_keeps (e e' : EpochState) : Prop :=
  ep_ncn e' = ep_ncn e /\ ep_epoch e' = ep_epoch e /\
  (EpochState.is_consensus_reached e = true -> ep_slot_consensus_reached e' = ep_slot_consensus_reached e) /\
  (ep_is_closing e = true -> ep_is_closing e' = true).

Lemma ep_keeps_intro e e' :
  ep_ncn e' = ep_ncn e -> ep_epoch e' = ep_epoch e -> ep_slot_consensus_reached e' = ep_slot_consensus_reached e ->
  ep_is_closing e' = ep_is_closing e -> ep_keeps e e'.
Proof. intros H1 H2 H3 H4. unfold ep_keeps. rewrite H1, H2, H3, H4. done. Qed.

Lemma ep_step_keeps e e' : ep_step e e' -> ep_keeps e e'.
Proof.
  intros Hst.
  destruct Hst as [| | | |i act e' Hr|i fin e' Hr| |n c slot|c slot|e' Hr| |i g e' Hr| |i g r e' Hr|r e' Hr|r e' Hr|i g r e' Hr| | | | |i e' Hr| | |i g e' Hr];
    try by apply ep_keeps_intro.
  - unfold EpochState.update_realloc_operator_snapshot in Hr. res_inv. destruct act; res_inv; by apply ep_keeps_intro.
  - unfold EpochState.update_snapshot_vault_operator_delegation in Hr. destruct fin; res_inv; by apply ep_keeps_intro.
  - unfold EpochState.update_cast_vote, ep_keeps. destruct (EpochState.is_consensus_reached e); destruct c; done.
  - unfold EpochState.update_set_tie_breaker, ep_keeps. destruct (EpochState.is_consensus_reached e); destruct c; done.
  - unfold EpochState.update_set_merkle_root in Hr. res_inv. by apply ep_keeps_intro.
  - unfold EpochState.update_realloc_ncn_reward_router in Hr. res_inv. by apply ep_keeps_intro.
  - unfold EpochState.update_route_ncn_rewards in Hr. res_inv. by apply ep_keeps_intro.
  - unfold EpochState.update_distribute_base_rewards in Hr. res_inv. by apply ep_keeps_intro.
  - unfold EpochState.update_distribute_base_ncn_rewards in Hr. res_inv. by apply ep_keeps_intro.
  - unfold EpochState.update_distribute_ncn_rewards in Hr. res_inv. by apply ep_keeps_intro.
  - by split.
  - unfold EpochState.close_operator_snapshot in Hr. res_inv. by apply ep_keeps_intro.
  - unfold EpochState.close_ncn_reward_router in Hr. res_inv. by apply ep_keeps_intro.
Qed.

Lemma ep_keeps_trans a b c : ep_keeps a b -> ep_keeps b c -> ep_keeps a c.
Proof.
  intros (H1 & H2 & H3 & H4) (J1 & J2 & J3 & J4). split; [congruence|]. split; [congruence|]. split; [|auto].
  intros Hc. rewrite <- (H3 Hc). apply J3. unfold EpochState.is_consensus_reached in *. by rewrite (H3 Hc).
Qed.

Lemma star_ep_keeps e e' : star ep_step e e' -> ep_keeps e e'.
Proof.
  intros Hst. induction Hst as [e|e1 e2 e3 Hst _ IH]; [by apply ep_keeps_intro|].
  eapply ep_keeps_trans; [by apply ep_step_keeps|done].
Qed.

(* ------------------------------------------------------------------ *)
(** * Closing *)

Lemma dne_or_closed_spec l :
  forallb EpochAccountStatus.dne_or_closed l = true <->
  forall u, u ∈ l -> get_account_status u = Ok DNE \/ get_account_status u = Ok Closed.
Proof.
  rewrite forallb_forall. split.
  - intros Hf u Hu. specialize (Hf u (proj1 (list_elem_of_In _ _) Hu)). unfold EpochAccountStatus.dne_or_closed in Hf.
    apply orb_true_iff in Hf as [->%Z.eqb_eq| ->%Z.eqb_eq]; auto.
  - intros Hf u Hu%list_elem_of_In. unfold EpochAccountStatus.dne_or_closed. apply orb_true_iff.
    destruct (Hf u Hu) as [->%get_status_inv| ->%get_status_inv]; auto.
Qed.

Lemma are_all_closed_spec s :
  EpochAccountStatus.are_all_closed s = true <->
  EpochAccountStatus.weight_table s = Ok Closed /\ EpochAccountStatus.epoch_snapshot s = Ok Closed /\
  EpochAccountStatus.ballot_box s = Ok Closed /\ EpochAccountStatus.base_reward_router s = Ok Closed /\
  (forall u, u ∈ as_operator_snapshot s \/ u ∈ as_ncn_reward_router s ->
     get_account_status u = Ok DNE \/ get_account_status u = Ok Closed).
Proof.
  unfold EpochAccountStatus.are_all_closed, EpochAccountStatus.weight_table, EpochAccountStatus.epoch_snapshot,
    EpochAccountStatus.ballot_box, EpochAccountStatus.base_reward_router.
  rewrite !get_status_inv.
  destruct (Z.eqb_spec (as_weight_table s) (status_u8 Closed)); cbn [negb]; [|naive_solver].
  destruct (Z.eqb_spec (as_epoch_snapshot s) (status_u8 Closed)); cbn [negb]; [|naive_solver].
  pose proof (dne_or_closed_spec (as_operator_snapshot s)) as H1.
  pose proof (dne_or_closed_spec (as_ncn_reward_router s)) as H2.
  destruct (forallb _ (as_operator_snapshot s)); cbn [negb];
    [|split; [done|intros (_ & _ & _ & _ & H); exfalso; assert (false = true) by (apply H1; auto); done]].
  destruct (Z.eqb_spec (as_ballot_box s) (status_u8 Closed)); cbn [negb]; [|naive_solver].
  destruct (Z.eqb_spec (as_base_reward_router s) (status_u8 Closed)); cbn [negb]; [|naive_solver].
  destruct (forallb _ (as_ncn_reward_router s)); cbn [negb].
  - split; [|done]. intros _. do 4 (split; [done|]). intros u [Hu|Hu]; [by apply H1|by apply H2].
  - split; [done|]. intros (_ & _ & _ & _ & H). exfalso. assert (false = true) by (apply H2; auto). done.
Qed.

(* ------------------------------------------------------------------ *)
(** * Phases *)

Definition phase (s : State) : Z :=
  match s with SetWeight => 0 | Snapshot => 1 | Vote => 2 | Distribute => 3 | Close => 4 end.

Lemma can_start_routing_spec e valid slot :
  EpochState.is_consensus_reached e = true ->
  EpochState.can_start_routing e valid slot
  = if ep_slot_consensus_reached e + valid <? U64 then Ok (ep_slot_consensus_reached e + valid <=? slot)
    else Err (Tip ArithmeticOverflow).
Proof.
  intros Hc. unfold EpochState.can_start_routing, EpochState.get_slot_consensus_reached. rewrite Hc. cbn [negb].
  unfold EpochState.is_consensus_reached in Hc. destruct (_ =? DEFAULT_CONSENSUS_REACHED_SLOT); [done|].
  cbn [mbind result_bind]. unfold checked_add. by destruct (_ <? _).
Qed.

Lemma can_close_spec ge e n slot :
  EpochState.is_consensus_reached e = true ->
  EpochState.can_close_epoch_accounts ge e n slot
  = Ok (n <=? saturating_sub (ge slot) (ge (ep_slot_consensus_reached e))).
Proof.
  intros Hc. unfold EpochState.can_close_epoch_accounts, EpochState.get_epoch_consensus_reached,
    EpochState.get_slot_consensus_reached. unfold EpochState.is_consensus_reached in Hc.
  destruct (_ =? DEFAULT_CONSENSUS_REACHED_SLOT); done.
Qed.

(** What the phases after voting need. *)
Definition ready (e : EpochState) (valid slot : Z) : Prop :=
  EpochAccountStatus.weight_table (ep_account_status e) <> Ok DNE /\ Progress.is_complete (ep_set_weight_progress e) = true /\
  EpochAccountStatus.epoch_snapshot (ep_account_status e) <> Ok DNE /\ Progress.is_complete (ep_epoch_snapshot_progress e) = true /\
  EpochAccountStatus.ballot_box (ep_account_status e) <> Ok DNE /\
  EpochState.is_consensus_reached e = true /\ ep_slot_consensus_reached e + valid < U64 /\
  ep_slot_consensus_reached e + valid <= slot.

(** [current_state] on well-formed statuses, without error cases but the
    overflow of the routing slot. *)
Lemma current_state_cases ge e valid n slot :
  ep_wf e ->
  EpochState.current_state ge e valid n slot =
    if bool_decide (EpochAccountStatus.weight_table (ep_account_status e) = Ok DNE)
       || negb (Progress.is_complete (ep_set_weight_progress e)) then Ok SetWeight else
    if bool_decide (EpochAccountStatus.epoch_snapshot (ep_account_status e) = Ok DNE)
       || negb (Progress.is_complete (ep_epoch_snapshot_progress e)) then Ok Snapshot else
    if bool_decide (EpochAccountStatus.ballot_box (ep_account_status e) = Ok DNE)
       || negb (EpochState.is_consensus_reached e) then Ok Vote else
    if negb (ep_slot_consensus_reached e + valid <? U64) then Err (Tip ArithmeticOverflow) else
    if negb (ep_slot_consensus_reached e + valid <=? slot) then Ok Vote else
    if n <=? saturating_sub (ge slot) (ge (ep_slot_consensus_reached e)) then Ok Close else Ok Distribute.
Proof.
  intros [Hs _ _]. unfold EpochState.current_state, EpochState.state_after_weights.
  unfold EpochAccountStatus.weight_table, EpochAccountStatus.epoch_snapshot, EpochAccountStatus.ballot_box.
  destruct (get_status_ok _ (sw_weight_table _ Hs)) as (w & -> & _).
  destruct (get_status_ok _ (sw_epoch_snapshot _ Hs)) as (sn & -> & _).
  destruct (get_status_ok _ (sw_ballot_box _ Hs)) as (b & -> & _). cbn [mbind result_bind].
  rewrite (bool_decide_ext (Ok w = Ok DNE) (w = DNE)), (bool_decide_ext (Ok sn = Ok DNE) (sn = DNE)),
    (bool_decide_ext (Ok b = Ok DNE) (b = DNE)) by (split; [by intros [= ->]|by intros ->]).
  destruct (bool_decide (w = DNE) || _); [done|]. destruct (bool_decide (sn = DNE) || _); [done|].
  destruct (bool_decide (b = DNE)); cbn [orb mbind result_bind]; [done|].
  destruct (EpochState.is_consensus_reached e) eqn:Hc; cbn [negb].
  - rewrite can_start_routing_spec by done. destruct (_ <? U64); cbn [negb mbind result_bind mret result_ret]; [|done].
    destruct (_ <=? slot); cbn [negb]; [|done]. rewrite can_close_spec by done. cbn [mbind result_bind]. by destruct (n <=? _).
  - unfold EpochState.can_start_routing. by rewrite Hc.
Qed.

Lemma current_state_ready ge e valid n slot s :
  ep_wf e -> s = Distribute \/ s = Close ->
  EpochState.current_state ge e valid n slot = Ok s <->
  ready e valid slot /\
  (s = Close <-> n <= saturating_sub (ge slot) (ge (ep_slot_consensus_reached e))).
Proof.
  intros He Hs. rewrite current_state_cases by done. unfold ready.
  repeat match goal with
  | |- context [bool_decide ?P] => destruct (bool_decide_reflect P)
  | |- context [Progress.is_complete ?p] => destruct (Progress.is_complete p)
  | |- context [EpochState.is_consensus_reached e] => destruct (EpochState.is_consensus_reached e)
  | |- context [Z.ltb ?a ?b] => destruct (Z.ltb_spec a b)
  | |- context [Z.leb ?a ?b] => destruct (Z.leb_spec a b)
  end; cbn [orb negb]; destruct Hs as [-> | ->]; split; intros Hx; try discriminate Hx;
    try (exfalso; destruct Hx as [(? & ? & ? & ? & ? & ? & ? & ?) Hn]; try congruence; try lia; destruct Hn as [Hn1 Hn2];
         first [specialize (Hn1 eq_refl); lia | specialize (Hn2 ltac:(lia)); discriminate]).
  all: try (split; [repeat split; (done || lia)|split; (done || lia)]).
  all: try done.
Qed.

(** Time only moves the phase forward. *)
Lemma phase_monotone ge e valid n slot slot' s :
  ep_wf e -> (forall a b, a <= b -> ge a <= ge b) -> slot <= slot' ->
  EpochState.current_state ge e valid n slot = Ok s ->
  exists s', EpochState.current_state ge e valid n slot' = Ok s' /\ phase s <= phase s'.
Proof.
  intros He Hge Hle. rewrite !current_state_cases by done.
  destruct (_ || _); [intros [= <-]; by eexists|].
  destruct (_ || _); [intros [= <-]; by eexists|].
  destruct (_ || _); [intros [= <-]; by eexists|].
  destruct (negb _); [done|].
  pose proof (Hge slot slot' Hle). unfold saturating_sub.
  destruct (Z.leb_spec (ep_slot_consensus_reached e + valid) slot); cbn [negb].
  - rewrite (proj2 (Z.leb_le _ slot')) by lia. cbn [negb].
    destruct (Z.leb_spec n (Z.max 0 (ge slot - ge (ep_slot_consensus_reached e)))).
    + rewrite (proj2 (Z.leb_le n (Z.max 0 (ge slot' - ge (ep_slot_consensus_reached e))))) by lia.
      intros [= <-]. by eexists.
    + intros [= <-]. destruct (_ <=? _); eexists; split; [done|simpl; lia|done|simpl; lia].
  - intros [= <-]. destruct (negb _); [by eexists|]. destruct (_ <=? _); eexists; split; try done; simpl; lia.
Qed.

(* ------------------------------------------------------------------ *)
(** * Properties *)

(** Every account of an epoch has its own status and progress slot: for
    the 256 operators and 8 groups the flattened index is in bounds and no two
    pairs share an index. *)
Theorem router_index_injective i j a b :
  (i < 256)%nat -> (j < 256)%nat -> (a < 8)%nat -> (b < 8)%nat ->
  exists x y, get_ncn_reward_router_index i (NcnFeeGroup.mk (Z.of_nat a)) = Ok x /\
    get_ncn_reward_router_index j (NcnFeeGroup.mk (Z.of_nat b)) = Ok y /\
    (x < NCN_ROUTERS)%nat /\ (x = y <-> i = j /\ a = b).
Proof.
  intros Hi Hj Ha Hb. exists (8 * i + a)%nat, (8 * j + b)%nat. rewrite !router_index_ok by done.
  split; [done|]. split; [done|]. unfold NCN_ROUTERS. lia.
Qed.

(** Closing an operator's router of a group succeeds and marks exactly
    that router closed: every other router keeps its status, and so do all the
    other accounts. *)
Theorem close_ncn_reward_router_frame e i a :
  ep_wf e -> (i < 256)%nat -> (a < 8)%nat ->
  exists e', EpochState.close_ncn_reward_router e i (NcnFeeGroup.mk (Z.of_nat a)) = Ok e' /\ ep_wf e' /\
    (forall j b, (j < 256)%nat -> (b < 8)%nat ->
       EpochAccountStatus.ncn_reward_router (ep_account_status e') j (NcnFeeGroup.mk (Z.of_nat b))
       = if decide (j = i /\ b = a) then Ok Closed
         else EpochAccountStatus.ncn_reward_router (ep_account_status e) j (NcnFeeGroup.mk (Z.of_nat b))) /\
    (forall j, EpochAccountStatus.operator_snapshot (ep_account_status e') j
       = EpochAccountStatus.operator_snapshot (ep_account_status e) j) /\
    EpochAccountStatus.ballot_box (ep_account_status e') = EpochAccountStatus.ballot_box (ep_account_status e) /\
    EpochAccountStatus.base_reward_router (ep_account_status e') = EpochAccountStatus.base_reward_router (ep_account_status e).
Proof.
  intros He Hi Ha. pose proof (ew_status _ He) as Hs.
  pose proof (set_ncn_reward_router_ok _ i a Closed Hs Hi Ha) as Hset.
  pose proof (set_ncn_reward_router_wf _ _ _ _ _ Hs Hset) as Hs'.
  unfold EpochState.close_ncn_reward_router. rewrite Hset. cbn [mbind result_bind].
  eexists. split; [reflexivity|]. split; [by apply (ep_wf_intro e)|]. split; [|done].
  intros j b Hj Hb. cbn [EpochState.set_account_status ep_account_status].
  rewrite !ncn_reward_router_read by done. cbn [as_ncn_reward_router].
  destruct (decide (j = i /\ b = a)) as [[-> ->]|Hne].
  - rewrite list_lookup_insert_eq by (rewrite (sw_ncn_len _ Hs); lia). done.
  - rewrite list_lookup_insert_ne by lia. done.
Qed.

(** starting from a zeroed account, after any sequence of updates the
    statuses are well formed, so that every status of an existing index can
    be read; the NCN and the epoch are those of the initialisation, and a slot
    of consensus, once set, never changes. *)
Theorem epoch_state_reachable ncn epoch bump slot e :
  star ep_step (EpochState.initialize zeroed ncn epoch bump slot) e ->
  ep_wf e /\ ep_ncn e = ncn /\ ep_epoch e = epoch /\
  (forall i, (i < 256)%nat -> exists s, EpochAccountStatus.operator_snapshot (ep_account_status e) i = Ok s) /\
  (forall e', star ep_step e e' -> EpochState.is_consensus_reached e = true ->
     ep_slot_consensus_reached e' = ep_slot_consensus_reached e).
Proof.
  intros Hst. assert (He : ep_wf e).
  { eapply (star_invariant _ ep_wf); [|exact Hst|apply initialize_wf]. intros x y. apply ep_step_wf. }
  destruct (star_ep_keeps _ _ Hst) as (Hn & Hep & _). split; [done|]. split; [done|]. split; [done|]. split.
  - intros i Hi. unfold EpochAccountStatus.operator_snapshot. pose proof (ew_status _ He) as Hs.
    destruct (aget_lt (as_operator_snapshot (ep_account_status e)) i) as (u & Hu & Hl); [rewrite (sw_operator_len _ Hs); lia|].
    rewrite Hu. cbn [mbind result_bind]. destruct (get_status_ok u) as (s & Hs1 & _); [|by exists s].
    apply (Forall_lookup_1 _ _ _ _ (sw_operator _ Hs) Hl).
  - intros e' Hst' Hc. by destruct (star_ep_keeps _ _ Hst') as (_ & _ & Hk & _); apply Hk.
Qed.

(** The epoch state can be closed exactly when it is the state of that
    NCN and epoch, the weight table, epoch snapshot, ballot box and base router
    are closed, and every operator snapshot and NCN router that was ever
    created is closed. *)
Theorem epoch_state_closes_last e ncn epoch :
  EpochState.load_to_close e ncn epoch = Ok tt <->
  ep_ncn e = ncn /\ ep_epoch e = epoch /\
  EpochAccountStatus.weight_table (ep_account_status e) = Ok Closed /\
  EpochAccountStatus.epoch_snapshot (ep_account_status e) = Ok Closed /\
  EpochAccountStatus.ballot_box (ep_account_status e) = Ok Closed /\
  EpochAccountStatus.base_reward_router (ep_account_status e) = Ok Closed /\
  (forall u, u ∈ as_operator_snapshot (ep_account_status e) \/ u ∈ as_ncn_reward_router (ep_account_status e) ->
     get_account_status u = Ok DNE \/ get_account_status u = Ok Closed).
Proof.
  unfold EpochState.load_to_close. rewrite <- are_all_closed_spec.
  destruct (bool_decide_reflect (ep_ncn e = ncn)); cbn [negb]; [|naive_solver].
  destruct (Z.eqb_spec (ep_epoch e) epoch); cbn [negb]; [|naive_solver].
  destruct (EpochAccountStatus.are_all_closed _); cbn [negb]; naive_solver.
Qed.

(** The epoch is in the Distribute or Close phase exactly when weights
    and snapshots are complete, consensus was reached and the voting window
    is past; it is in Close exactly when, besides, the configured number of epochs has
    passed since consensus. *)
Theorem distribute_phase_spec ge e valid n slot s :
  ep_wf e -> s = Distribute \/ s = Close ->
  EpochState.current_state ge e valid n slot = Ok s <->
  ready e valid slot /\
  (s = Close <-> n <= saturating_sub (ge slot) (ge (ep_slot_consensus_reached e))).
Proof. apply current_state_ready. Qed.

(** For a monotone epoch schedule, the passing of slots never moves an
    epoch back to an earlier phase, and never makes its phase an error. *)
Theorem phase_never_moves_back ge e valid n slot slot' s :
  ep_wf e -> (forall a b, a <= b -> ge a <= ge b) -> slot <= slot' ->
  EpochState.current_state ge e valid n slot = Ok s ->
  exists s', EpochState.current_state ge e valid n slot' = Ok s' /\ phase s <= phase s'.
Proof. apply phase_monotone. Qed.

(* ------------------------------------------------------------------ *)
(** * Witnesses *)

Module EpochStateWitness.
Definition e0 := EpochState.initialize zeroed (key 9) 5 255 100.
Definition e1 := EpochState.update_realloc_weight_table e0 1 1.
Definition e2 := EpochState.update_set_weight e1 1 1.
Definition e3 := EpochState.update_initialize_epoch_snapshot e2 0.
Definition e4 := EpochState.update_realloc_ballot_box e3.
Definition e5 := EpochState.update_cast_vote e4 1 true 120.
(** 432000 slots an epoch. *)
Definition get_epoch (slot : Z) : Z := slot / 432000.

Lemma steps : star ep_step e0 e5.
Proof.
  apply (star_step _ e1); [apply ep_realloc_weight_table|]. apply (star_step _ e2); [apply ep_set_weight|].
  apply (star_step _ e3); [apply ep_initialize_epoch_snapshot|]. apply (star_step _ e4); [apply ep_realloc_ballot_box|].
  apply (star_step _ e5); [apply ep_cast_vote|]. apply star_refl.
Qed.

Lemma e5_wf : ep_wf e5.
Proof.
  eapply (star_invariant _ ep_wf); [|exact steps|apply initialize_wf]. intros x y. apply ep_step_wf.
Qed.

Lemma get_epoch_mono a b : a <= b -> get_epoch a <= get_epoch b.
Proof. intros. apply Z.div_le_mono; lia. Qed.
End EpochStateWitness.
Import EpochStateWitness.

Lemma router_index_injective_witness :
  exists x y, get_ncn_reward_router_index 255 (NcnFeeGroup.mk 7) = Ok x /\
    get_ncn_reward_router_index 254 (NcnFeeGroup.mk 7) = Ok y /\ x <> y.
Proof.
  destruct (router_index_injective 255 254 7 7) as (x & y & Hx & Hy & _ & Hxy); [lia|lia|lia|lia|].
  exists x, y. split; [exact Hx|]. split; [exact Hy|]. intros ->. destruct (proj1 Hxy eq_refl). lia.
Defined.

Lemma close_ncn_reward_router_frame_witness :
  exists e', EpochState.close_ncn_reward_router e5 3 (NcnFeeGroup.mk 1) = Ok e' /\
    EpochAccountStatus.ncn_reward_router (ep_account_status e') 3 (NcnFeeGroup.mk 1) = Ok Closed.
Proof.
  destruct (close_ncn_reward_router_frame e5 3 1 e5_wf) as (e' & Hr & _ & Hj & _); [lia|lia|].
  exists e'. split; [exact Hr|]. exact (Hj 3%nat 1%nat ltac:(lia) ltac:(lia)).
Defined.

Lemma epoch_state_reachable_witness :
  ep_epoch e5 = 5 /\ exists s, EpochAccountStatus.operator_snapshot (ep_account_status e5) 255 = Ok s.
Proof.
  destruct (epoch_state_reachable (key 9) 5 255 100 e5 steps) as (_ & _ & He & Hop & _).
  split; [exact He|]. apply Hop. lia.
Defined.

Lemma distribute_phase_spec_witness :
  EpochState.current_state get_epoch e5 10 2 130 = Ok Distribute /\ ready e5 10 130.
Proof.
  assert (Hr : EpochState.current_state get_epoch e5 10 2 130 = Ok Distribute) by (vm_compute; reflexivity).
  split; [exact Hr|]. apply (distribute_phase_spec get_epoch e5 10 2 130 Distribute e5_wf); [by left|exact Hr].
Defined.

Lemma phase_never_moves_back_witness :
  exists s', EpochState.current_state get_epoch e5 10 2 2000000 = Ok s' /\ 3 <= phase s'.
Proof.
  apply (phase_never_moves_back get_epoch e5 10 2 130 2000000 Distribute e5_wf get_epoch_mono); [lia|].
  vm_compute. reflexivity.
Defined.
