(* ===== verification/BallotBox.v ===== *)
(** The ballot box (core/src/ballot_box.rs): ballots, tallies, operator votes,
    the voting operations and the consensus rule.

    A [BallotBox] keeps one vote per operator and one tally per distinct
    ballot.  The invariant [bb_inv] states that every tally is exactly the sum
    of the votes that point to it; the theorems show that voting keeps it, that
    consensus needs two thirds of the stake, and that a decided ballot is
    final. *)

From Stdlib Require Import String.
From S2P Require Import Prelude Errors External Constants Accounts FeeGroups StakeWeight MerkleTree.

(* ------------------------------------------------------------------ *)
(** * Ballots *)

Record Ballot := mkBallot { meta_merkle_root : hash; ballot_is_valid : bool }.

#[export] Instance Ballot_eq_dec : EqDecision Ballot.
Proof. solve_decision. Defined.

Module Ballot.
Definition default : Ballot := mkBallot (replicate 32 0) false.

(** A ballot is valid unless its root is all zeros. *)
Definition new (merkle_root : hash) : Ballot :=
  mkBallot merkle_root (existsb (fun byte => negb (byte =? 0)) merkle_root).

(** [PartialEq for Ballot]: invalid ballots equal nothing. *)
Definition eq (self other : Ballot) : bool :=
  if negb (ballot_is_valid self) || negb (ballot_is_valid other) then false
  else bool_decide (meta_merkle_root self = meta_merkle_root other).
End Ballot.

(* ------------------------------------------------------------------ *)
(** * Tallies and votes *)

Record BallotTally := mkBallotTally {
  bt_index : Z;
  bt_ballot : Ballot;
  bt_stake_weights : StakeWeights;
  bt_tally : Z;
}.

#[export] Instance BallotTally_eq_dec : EqDecision BallotTally.
Proof. solve_decision. Defined.

Module BallotTally.
Definition default : BallotTally := mkBallotTally u16_max Ballot.default StakeWeights.default 0.

Definition new (index : Z) (ballot : Ballot) (stake_weights : StakeWeights) : BallotTally :=
  mkBallotTally index ballot stake_weights 1.

Definition is_valid (self : BallotTally) : bool := ballot_is_valid (bt_ballot self).

Definition increment_tally (self : BallotTally) (stake_weights : StakeWeights) : res BallotTally :=
  w ← StakeWeights.increment (bt_stake_weights self) stake_weights;
  t ← ok_or (checked_add U64 (bt_tally self) 1) (Tip ArithmeticOverflow);
  mret (mkBallotTally (bt_index self) (bt_ballot self) w t).

Definition decrement_tally (self : BallotTally) (stake_weights : StakeWeights) : res BallotTally :=
  w ← StakeWeights.decrement (bt_stake_weights self) stake_weights;
  t ← ok_or (checked_sub (bt_tally self) 1) (Tip ArithmeticOverflow);
  mret (mkBallotTally (bt_index self) (bt_ballot self) w t).
End BallotTally.

Record OperatorVote := mkOperatorVote {
  ov_operator : Pubkey;
  ov_slot_voted : Z;
  ov_stake_weights : StakeWeights;
  ov_ballot_index : Z;
}.

#[export] Instance OperatorVote_eq_dec : EqDecision OperatorVote.
Proof. solve_decision. Defined.

Module OperatorVote.
Definition default : OperatorVote := mkOperatorVote Pubkey_default 0 StakeWeights.default u16_max.

Definition new (ballot_index : nat) (operator : Pubkey) (current_slot : Z) (stake_weights : StakeWeights) : OperatorVote :=
  mkOperatorVote operator current_slot stake_weights (cast U16 (Z.of_nat ballot_index)).

Definition is_empty (self : OperatorVote) : bool := ov_ballot_index self =? u16_max.
End OperatorVote.

(* ------------------------------------------------------------------ *)
(** * The ballot box *)

Record BallotBox := mkBallotBox {
  bb_ncn : Pubkey;
  bb_epoch : Z;
  bb_bump : Z;
  bb_slot_created : Z;
  bb_slot_consensus_reached : Z;
  bb_operators_voted : Z;
  bb_unique_ballots : Z;
  bb_winning_ballot : Ballot;
  bb_operator_votes : list OperatorVote;
  bb_ballot_tallies : list BallotTally;
}.

#[export] Instance BallotBox_eq_dec : EqDecision BallotBox.
Proof. solve_decision. Defined.

Module BallotBox.

(** [8 + size_of::<BallotBox>()]; the tallies are 250 bytes and the votes
    250 bytes each. *)
Definition SIZE : Z := 8 + (32 + 8 + 1 + 8 + 8 + 128 + 8 + 8 + 96 + 256 * 250 + 256 * 250).

(** Field updates. *)
Definition with_tallies (self : BallotBox) (ts : list BallotTally) (unique : Z) : BallotBox :=
  mkBallotBox (bb_ncn self) (bb_epoch self) (bb_bump self) (bb_slot_created self)
    (bb_slot_consensus_reached self) (bb_operators_voted self) unique
    (bb_winning_ballot self) (bb_operator_votes self) ts.
Definition with_votes (self : BallotBox) (vs : list OperatorVote) (voted : Z) : BallotBox :=
  mkBallotBox (bb_ncn self) (bb_epoch self) (bb_bump self) (bb_slot_created self)
    (bb_slot_consensus_reached self) voted (bb_unique_ballots self)
    (bb_winning_ballot self) vs (bb_ballot_tallies self).
Definition with_slot_consensus_reached (self : BallotBox) (slot : Z) : BallotBox :=
  mkBallotBox (bb_ncn self) (bb_epoch self) (bb_bump self) (bb_slot_created self)
    slot (bb_operators_voted self) (bb_unique_ballots self)
    (bb_winning_ballot self) (bb_operator_votes self) (bb_ballot_tallies self).
Definition set_winning_ballot (self : BallotBox) (ballot : Ballot) : BallotBox :=
  mkBallotBox (bb_ncn self) (bb_epoch self) (bb_bump self) (bb_slot_created self)
    (bb_slot_consensus_reached self) (bb_operators_voted self) (bb_unique_ballots self)
    ballot (bb_operator_votes self) (bb_ballot_tallies self).

Definition new (ncn : Pubkey) (epoch bump current_slot : Z) : BallotBox :=
  mkBallotBox ncn epoch bump current_slot DEFAULT_CONSENSUS_REACHED_SLOT 0 0 Ballot.default
    (replicate MAX_OPERATORS OperatorVote.default) (replicate MAX_OPERATORS BallotTally.default).

(** [initialize] assigns every field of the account. *)
Definition initialize (self : BallotBox) (ncn : Pubkey) (epoch bump current_slot : Z) : BallotBox :=
  mkBallotBox ncn epoch bump current_slot DEFAULT_CONSENSUS_REACHED_SLOT 0 0 Ballot.default
    (replicate MAX_OPERATORS OperatorVote.default) (replicate MAX_OPERATORS BallotTally.default).

Section pda.
Context `{Solana}.

Definition seeds (ncn : Pubkey) (epoch : Z) : list (list Z) :=
  [bytes_of_string "ballot_box"; to_bytes ncn; to_le_bytes 8 epoch].

Definition find_program_address (program_id ncn : Pubkey) (epoch : Z) : Pubkey * Z * list (list Z) :=
  find_pda program_id (seeds ncn epoch).

Definition load (program_id : Pubkey) (account : AccountInfo) (ncn : Pubkey) (epoch : Z)
    (expect_writable : bool) : res unit :=
  let expected_pda := (find_program_address program_id ncn epoch).1.1 in
  check_load program_id account expected_pda (Some (discriminator DBallotBox)) expect_writable.

Definition load_to_close (program_id : Pubkey) (account_to_close : AccountInfo) (ncn : Pubkey) (epoch : Z) : res unit :=
  load program_id account_to_close ncn epoch true.
End pda.

Definition has_ballot (self : BallotBox) (ballot : Ballot) : bool :=
  existsb (fun t => Ballot.eq (bt_ballot t) ballot) (bb_ballot_tallies self).

Definition is_consensus_reached (self : BallotBox) : bool :=
  negb (bb_slot_consensus_reached self =? DEFAULT_CONSENSUS_REACHED_SLOT)
  || ballot_is_valid (bb_winning_ballot self).

Definition tie_breaker_set (self : BallotBox) : bool :=
  (bb_slot_consensus_reached self =? DEFAULT_CONSENSUS_REACHED_SLOT)
  && ballot_is_valid (bb_winning_ballot self).

Definition get_winning_ballot (self : BallotBox) : res Ballot :=
  if negb (ballot_is_valid (bb_winning_ballot self)) then Err (Tip ConsensusNotReached)
  else Ok (bb_winning_ballot self).

Definition get_winning_ballot_tally (self : BallotBox) : res BallotTally :=
  if negb (ballot_is_valid (bb_winning_ballot self)) then Err (Tip ConsensusNotReached)
  else '(_, t) ← ok_or (list_find (fun t => Ballot.eq (bt_ballot t) (bb_winning_ballot self) = true)
                          (bb_ballot_tallies self)) (Tip BallotTallyNotFoundFull);
       mret t.

Definition has_winning_ballot (self : BallotBox) : bool := ballot_is_valid (bb_winning_ballot self).

Definition increment_or_create_ballot_tally (self : BallotBox) (ballot : Ballot)
    (stake_weights : StakeWeights) : res (BallotBox * nat) :=
  match list_find (fun t => BallotTally.is_valid t && Ballot.eq (bt_ballot t) ballot = true)
          (bb_ballot_tallies self) with
  | Some (tally_index, t) =>
      t' ← BallotTally.increment_tally t stake_weights;
      mret (with_tallies self (<[tally_index := t']> (bb_ballot_tallies self)) (bb_unique_ballots self), tally_index)
  | None =>
      match list_find (fun t => BallotTally.is_valid t = false) (bb_ballot_tallies self) with
      | Some (tally_index, _) =>
          let t' := BallotTally.new (cast U16 (Z.of_nat tally_index)) ballot stake_weights in
          unique ← ok_or (checked_add U64 (bb_unique_ballots self) 1) (Tip ArithmeticOverflow);
          mret (with_tallies self (<[tally_index := t']> (bb_ballot_tallies self)) unique, tally_index)
      | None => Err (Tip BallotTallyFull)
      end
  end.

(** Determines if an operator can still cast its vote. *)
Definition is_voting_valid (self : BallotBox) (current_slot valid_slots_after_consensus : Z) : res bool :=
  if tie_breaker_set self then Ok false else
  if is_consensus_reached self then
    limit ← ok_or (checked_add U64 (bb_slot_consensus_reached self) valid_slots_after_consensus)
              (Tip ArithmeticOverflow);
    mret (current_slot <=? limit)
  else Ok true.

(** Remove the vote [vote] from the tally it points to; the tally is wiped
    when it has no vote left.  [unique_ballots] is the count read before the
    loop. *)
Definition retract_vote (self : BallotBox) (vote : OperatorVote) (unique_ballots : Z) : res BallotBox :=
  let prev_ballot_index := Z.to_nat (ov_ballot_index vote) in
  match bb_ballot_tallies self !! prev_ballot_index with
  | Some prev_tally =>
      prev_tally ← BallotTally.decrement_tally prev_tally (ov_stake_weights vote);
      if bt_tally prev_tally =? 0 then
        unique ← ok_or (checked_sub unique_ballots 1) (Tip ArithmeticOverflow);
        mret (with_tallies self (<[prev_ballot_index := BallotTally.default]> (bb_ballot_tallies self)) unique)
      else
        mret (with_tallies self (<[prev_ballot_index := prev_tally]> (bb_ballot_tallies self)) (bb_unique_ballots self))
  | None => Ok self
  end.

(** The loop over [operator_votes]: the vote at position [i] of the box is
    the head of [rest]. *)
Fixpoint record_vote (self : BallotBox) (operator : Pubkey) (operator_vote : OperatorVote)
    (unique_ballots : Z) (consensus_reached : bool) (i : nat) (rest : list OperatorVote) : res BallotBox :=
  match rest with
  | [] => Err (Tip OperatorVotesFull)
  | vote :: rest =>
      if bool_decide (ov_operator vote = operator) then
        if consensus_reached then Err (Tip ConsensusAlreadyReached) else
        self ← retract_vote self vote unique_ballots;
        mret (with_votes self (<[i := operator_vote]> (bb_operator_votes self)) (bb_operators_voted self))
      else if OperatorVote.is_empty vote then
        voted ← ok_or (checked_add U64 (bb_operators_voted self) 1) (Tip ArithmeticOverflow);
        mret (with_votes self (<[i := operator_vote]> (bb_operator_votes self)) voted)
      else record_vote self operator operator_vote unique_ballots consensus_reached (S i) rest
  end.

Definition cast_vote (self : BallotBox) (operator : Pubkey) (ballot : Ballot) (stake_weights : StakeWeights)
    (current_slot valid_slots_after_consensus : Z) : res BallotBox :=
  valid ← is_voting_valid self current_slot valid_slots_after_consensus;
  if negb valid then Err (Tip VotingNotValid) else
  if negb (ballot_is_valid ballot) then Err (Tip BadBallot) else
  '(self, ballot_index) ← increment_or_create_ballot_tally self ballot stake_weights;
  record_vote self operator (OperatorVote.new ballot_index operator current_slot stake_weights)
    (bb_unique_ballots self) (is_consensus_reached self) 0 (bb_operator_votes self).

Definition tally_votes `{PreciseNumberOps} (self : BallotBox) (total_stake_weight current_slot : Z) : res BallotBox :=
  if negb (bb_slot_consensus_reached self =? DEFAULT_CONSENSUS_REACHED_SLOT) then Ok self else
  max_tally ← ok_or (max_by_key (fun t => stake_weight (bt_stake_weights t)) (bb_ballot_tallies self)) Panic;
  let ballot_stake_weight := stake_weight (bt_stake_weights max_tally) in
  precise_ballot_stake_weight ← precise ballot_stake_weight;
  precise_total_stake_weight ← precise total_stake_weight;
  ballot_percentage_of_total ←
    ok_or (pn_checked_div precise_ballot_stake_weight precise_total_stake_weight) (Tip DenominatorIsZero);
  target_precise_percentage ← precise_consensus;
  let consensus_reached := pn_greater_than_or_equal ballot_percentage_of_total target_precise_percentage in
  if consensus_reached && negb (ballot_is_valid (bb_winning_ballot self))
  then mret (set_winning_ballot (with_slot_consensus_reached self current_slot) (bt_ballot max_tally))
  else mret self.

Definition set_tie_breaker_ballot (self : BallotBox) (meta_merkle_root : hash)
    (current_epoch epochs_before_stall : Z) : res BallotBox :=
  if is_consensus_reached self then Err (Tip ConsensusAlreadyReached) else
  stall ← ok_or (checked_add U64 (bb_epoch self) epochs_before_stall) (Tip ArithmeticOverflow);
  if current_epoch <? stall then Err (Tip VotingNotFinalized) else
  let finalized_ballot := Ballot.new meta_merkle_root in
  if negb (has_ballot self finalized_ballot) then Err (Tip TieBreakerNotInPriorVotes) else
  Ok (set_winning_ballot self finalized_ballot).

(** Checks that a validator's tree, with its claims, is a node of the decided
    meta tree. *)
Definition verify_merkle_root `{Solana} (self : BallotBox) (tip_distribution_account : Pubkey)
    (proof : list hash) (merkle_root : hash) (max_total_claim max_num_nodes : Z) : res unit :=
  let tree_node := TreeNode_new tip_distribution_account merkle_root max_total_claim max_num_nodes in
  let node_hash := hashv [LEAF_PREFIX; TreeNode_hash tree_node] in
  if negb (verify proof (meta_merkle_root (bb_winning_ballot self)) node_hash)
  then Err (Tip InvalidMerkleProof) else Ok tt.

End BallotBox.
