(* ===== verification/BallotBoxProps.v ===== *)
(** Correctness of the ballot box: the accounting invariant [bb_inv], its
    preservation by every operation, what a vote changes, when consensus is
    declared, and the finality of a decided ballot. *)

From S2P Require Import Prelude Errors External Constants FeeGroups StakeWeight BallotBox.

#[local] Arguments gw : simpl never.
#[local] Arguments ONE : simpl never.

(* ------------------------------------------------------------------ *)
(** * Measures: number of votes, voting stake, stake of a fee group *)

Inductive measure : Type := MCount | MTotal | MGroup (k : nat).

Definition measure_ok (μ : measure) : Prop :=
  match μ with MGroup k => (k < 8)%nat | _ => True end.

(** The measure of stake weights, where one vote counts one. *)
Definition wmeas (μ : measure) (w : StakeWeights) : Z :=
  match μ with MCount => 1 | MTotal => stake_weight w | MGroup k => gw k w end.
Definition tmeas (μ : measure) (t : BallotTally) : Z :=
  match μ with
  | MCount => bt_tally t
  | MTotal => stake_weight (bt_stake_weights t)
  | MGroup k => gw k (bt_stake_weights t)
  end.

(** What vote [v] contributes to tally [i], and all the votes together. *)
Definition vmeas (μ : measure) (i : Z) (v : OperatorVote) : Z :=
  if ov_ballot_index v =? i then wmeas μ (ov_stake_weights v) else 0.
Definition vsum (μ : measure) (i : Z) (vs : list OperatorVote) : Z := sumZ (vmeas μ i) vs.

#[local] Arguments vsum : simpl never.
#[local] Arguments vmeas : simpl never.
#[local] Arguments count : simpl never.

Lemma wmeas_nonneg μ w : sw_wf w -> 0 <= wmeas μ w.
Proof.
  intros Hw. destruct μ as [| |k]; simpl; [lia| |].
  - destruct Hw as [[? ?] _]. done.
  - destruct (gw_fits w k Hw). done.
Qed.

Lemma vmeas_nonneg μ i v : sw_wf (ov_stake_weights v) -> 0 <= vmeas μ i v.
Proof. intros. unfold vmeas. destruct (_ =? _); [by apply wmeas_nonneg|lia]. Qed.

Lemma vsum_nonneg μ i vs : Forall (fun v => sw_wf (ov_stake_weights v)) vs -> 0 <= vsum μ i vs.
Proof.
  intros HF. apply sumZ_nonneg. intros v Hv. apply vmeas_nonneg.
  by apply (Forall_In _ _ _ HF).
Qed.

Lemma vsum_elem_le μ i vs p v :
  Forall (fun v => sw_wf (ov_stake_weights v)) vs -> vs !! p = Some v -> vmeas μ i v <= vsum μ i vs.
Proof.
  intros HF Hp. apply (sumZ_elem_le _ _ p); [|done]. intros x Hx. apply vmeas_nonneg.
  by apply (Forall_In _ _ _ HF).
Qed.

(** A tally nobody votes for is zero in every measure. *)
Lemma vsum_count_zero μ i vs : vsum MCount i vs = 0 -> vsum μ i vs = 0.
Proof.
  intros Hz. apply sumZ_zero. intros v [p Hp]%list_elem_of_lookup. unfold vmeas.
  destruct (Z.eqb_spec (ov_ballot_index v) i) as [Hi|]; [|done]. exfalso.
  assert (vmeas MCount i v <= vsum MCount i vs) as Hle.
  { apply (sumZ_elem_le _ _ p); [|done]. intros x _. unfold vmeas. simpl. destruct (_ =? _); lia. }
  unfold vmeas in Hle. simpl in Hle. rewrite (proj2 (Z.eqb_eq _ _) Hi) in Hle. lia.
Qed.

Lemma vsum_insert μ i vs p v v' :
  vs !! p = Some v -> vsum μ i (<[p:=v']> vs) = vsum μ i vs - vmeas μ i v + vmeas μ i v'.
Proof. apply sumZ_insert. Qed.

(* ------------------------------------------------------------------ *)
(** * The invariant *)

(** Two tallies of the box never hold the same root. *)
Definition distinct_roots (ts : list BallotTally) : Prop :=
  forall i j t u, ts !! i = Some t -> ts !! j = Some u ->
    BallotTally.is_valid t = true -> Ballot.eq (bt_ballot t) (bt_ballot u) = true -> i = j.

(** A tally in use knows its index and has a vote; the others are zeroed. *)
Definition tally_ok (i : nat) (t : BallotTally) : Prop :=
  if BallotTally.is_valid t then bt_index t = Z.of_nat i /\ 1 <= bt_tally t
  else t = BallotTally.default.

Record tallies_inv (b : BallotBox) : Prop := {
  ti_len : length (bb_ballot_tallies b) = MAX_OPERATORS;
  ti_wf : Forall (fun t => sw_wf (bt_stake_weights t)) (bb_ballot_tallies b);
  ti_ok : forall i t, bb_ballot_tallies b !! i = Some t -> tally_ok i t;
  ti_unique : bb_unique_ballots b = count (fun t => BallotTally.is_valid t = true) (bb_ballot_tallies b);
  ti_roots : distinct_roots (bb_ballot_tallies b);
}.

(** The votes are a prefix of the array, one per operator. *)
Record votes_inv (b : BallotBox) : Prop := {
  vi_len : length (bb_operator_votes b) = MAX_OPERATORS;
  vi_wf : Forall (fun v => sw_wf (ov_stake_weights v)) (bb_operator_votes b);
  vi_range : 0 <= bb_operators_voted b <= 256;
  vi_cast : forall i v, bb_operator_votes b !! i = Some v -> Z.of_nat i < bb_operators_voted b ->
    ov_operator v <> Pubkey_default /\ 0 <= ov_ballot_index v < 256;
  vi_free : forall i v, bb_operator_votes b !! i = Some v -> bb_operators_voted b <= Z.of_nat i ->
    v = OperatorVote.default;
  vi_once : forall i j v w, bb_operator_votes b !! i = Some v -> bb_operator_votes b !! j = Some w ->
    ov_operator v = ov_operator w -> ov_operator v <> Pubkey_default -> i = j;
}.

(** The winning ballot, when set, is one of the ballots voted for. *)
Record winner_inv (b : BallotBox) : Prop := {
  wi_in : ballot_is_valid (bb_winning_ballot b) = true ->
    exists i t, bb_ballot_tallies b !! i = Some t /\ bt_ballot t = bb_winning_ballot b;
  wi_slot : bb_slot_consensus_reached b <> DEFAULT_CONSENSUS_REACHED_SLOT ->
    ballot_is_valid (bb_winning_ballot b) = true;
}.

(** Every tally is the sum of the votes that point to it, plus [pend]. *)
Definition acct (b : BallotBox) (pend : measure -> Z -> Z) : Prop :=
  forall μ i t, measure_ok μ -> bb_ballot_tallies b !! i = Some t ->
    tmeas μ t = vsum μ (Z.of_nat i) (bb_operator_votes b) + pend μ (Z.of_nat i).

Record bb_inv (b : BallotBox) : Prop := {
  bi_tallies : tallies_inv b;
  bi_votes : votes_inv b;
  bi_winner : winner_inv b;
  bi_acct : acct b (fun _ _ => 0);
}.

(* ------------------------------------------------------------------ *)
(** * Ballots *)

Lemma ballot_eq_true a b :
  Ballot.eq a b = true <-> a = b /\ ballot_is_valid a = true.
Proof.
  unfold Ballot.eq. destruct a as [r []], b as [s []]; simpl; try (split; [done|naive_solver]).
  rewrite bool_decide_eq_true. naive_solver.
Qed.

Lemma is_valid_default : BallotTally.is_valid BallotTally.default = false.
Proof. done. Qed.

Lemma tally_ok_default i : tally_ok i BallotTally.default.
Proof. done. Qed.

Lemma tally_ok_valid i t : tally_ok i t -> 1 <= bt_tally t -> BallotTally.is_valid t = true /\ bt_index t = Z.of_nat i.
Proof.
  unfold tally_ok. destruct (BallotTally.is_valid t); [naive_solver|]. intros ->. simpl. lia.
Qed.

(* ------------------------------------------------------------------ *)
(** * A new box *)

Lemma tmeas_default μ : measure_ok μ -> tmeas μ BallotTally.default = 0.
Proof. intros. destruct μ; simpl; [done|done|]. apply gw_default. Qed.

Lemma new_inv ncn epoch bump slot : bb_inv (BallotBox.new ncn epoch bump slot).
Proof.
  split.
  - split; cbn -[replicate count].
    + by rewrite length_replicate.
    + apply Forall_replicate, sw_default_wf.
    + intros i t [-> _]%lookup_replicate. apply tally_ok_default.
    + symmetry. apply count_replicate_false. done.
    + intros i j t u [-> _]%lookup_replicate. done.
  - split; cbn -[replicate].
    + by rewrite length_replicate.
    + apply Forall_replicate, sw_default_wf.
    + lia.
    + lia.
    + intros i v [-> _]%lookup_replicate. done.
    + intros i j v w [-> _]%lookup_replicate [-> _]%lookup_replicate. done.
  - split; simpl; done.
  - intros μ i t Hμ Ht. cbn -[replicate] in *. apply lookup_replicate in Ht as [-> Hi].
    rewrite tmeas_default by done. unfold vsum. rewrite sumZ_replicate. unfold vmeas.
    rewrite (proj2 (Z.eqb_neq _ _)); [lia|]. simpl. unfold MAX_OPERATORS in Hi. lia.
Qed.

(* ------------------------------------------------------------------ *)
(** * Changing one tally *)

Lemma increment_tally_spec t w t' :
  sw_wf (bt_stake_weights t) -> sw_wf w -> BallotTally.increment_tally t w = Ok t' ->
  sw_wf (bt_stake_weights t') /\ bt_index t' = bt_index t /\ bt_ballot t' = bt_ballot t /\
  forall μ, measure_ok μ -> tmeas μ t' = tmeas μ t + wmeas μ w.
Proof.
  intros Ht Hw Hinc. unfold BallotTally.increment_tally in Hinc. res_inv. simpl.
  apply increment_spec in Hx as [-> Hwf]; [|done|done].
  split; [done|]. split; [done|]. split; [done|].
  intros [| |k] Hμ; simpl in *; [done|done|]. by apply vadd_gw.
Qed.

Lemma decrement_tally_spec t w t' :
  sw_wf (bt_stake_weights t) -> sw_wf w -> BallotTally.decrement_tally t w = Ok t' ->
  sw_wf (bt_stake_weights t') /\ bt_index t' = bt_index t /\ bt_ballot t' = bt_ballot t /\
  (forall μ, measure_ok μ -> tmeas μ t' = tmeas μ t - wmeas μ w) /\ 1 <= bt_tally t.
Proof.
  intros Ht Hw Hdec. unfold BallotTally.decrement_tally in Hdec. res_inv. simpl.
  apply decrement_spec in Hx as [-> Hwf]; [|done|done].
  split; [done|]. split; [done|]. split; [done|]. split; [|lia].
  intros [| |k] Hμ; simpl in *; [done|done|]. by apply vsub_gw.
Qed.

(** Replacing tally [i] keeps the tallies' invariant when the new tally is
    fine and its ballot, if any, is at no other index. *)
Lemma tallies_inv_insert b i t t' u :
  tallies_inv b -> bb_ballot_tallies b !! i = Some t -> sw_wf (bt_stake_weights t') ->
  tally_ok i t' ->
  u = bb_unique_ballots b - indic (BallotTally.is_valid t = true) + indic (BallotTally.is_valid t' = true) ->
  (forall j v, j <> i -> bb_ballot_tallies b !! j = Some v -> Ballot.eq (bt_ballot t') (bt_ballot v) = false) ->
  tallies_inv (BallotBox.with_tallies b (<[i:=t']> (bb_ballot_tallies b)) u).
Proof.
  intros [Hl Hw Hok Hu Hd] Hi Hw' Hok' Hu' Hd'. split; cbn.
  - by rewrite length_insert.
  - by apply Forall_insert_2.
  - intros j v. rewrite list_lookup_insert_Some. intros [(-> & <- & _)|[_ Hj]]; auto.
  - rewrite (count_insert _ _ _ _ t' Hi). lia.
  - intros j k v x. rewrite !list_lookup_insert_Some.
    intros [(-> & <- & _)|[Hij Hj]] [(-> & <- & _)|[Hik Hk]] Hv Heq; [done| | |by eapply Hd].
    + by rewrite (Hd' _ _ (not_eq_sym Hik) Hk) in Heq.
    + apply ballot_eq_true in Heq as [Heq Hval].
      assert (Ballot.eq (bt_ballot t') (bt_ballot v) = true) as Hx.
      { apply ballot_eq_true. by rewrite <- Heq. }
      by rewrite (Hd' _ _ (not_eq_sym Hij) Hj) in Hx.
Qed.

Lemma acct_insert b i t t' u pend pend' :
  acct b pend -> bb_ballot_tallies b !! i = Some t ->
  (forall μ, measure_ok μ -> tmeas μ t' - pend' μ (Z.of_nat i) = tmeas μ t - pend μ (Z.of_nat i)) ->
  (forall μ j, j <> Z.of_nat i -> pend' μ j = pend μ j) ->
  acct (BallotBox.with_tallies b (<[i:=t']> (bb_ballot_tallies b)) u) pend'.
Proof.
  intros Ha Hi Ht Hp μ j v Hμ. cbn. rewrite list_lookup_insert_Some.
  intros [(-> & <- & _)|[Hij Hj]].
  - specialize (Ha μ j t Hμ Hi). specialize (Ht μ Hμ). lia.
  - rewrite (Ha μ j v Hμ Hj). rewrite Hp by lia. done.
Qed.

(** What [with_tallies] keeps. *)
Lemma winner_inv_insert b i t t' u :
  winner_inv b -> bb_ballot_tallies b !! i = Some t ->
  (ballot_is_valid (bb_winning_ballot b) = true -> bt_ballot t = bb_winning_ballot b -> bt_ballot t' = bt_ballot t) ->
  winner_inv (BallotBox.with_tallies b (<[i:=t']> (bb_ballot_tallies b)) u).
Proof.
  intros [Hin Hs] Hi Hb. split; cbn; [|done]. intros Hv.
  destruct (Hin Hv) as (j & v & Hj & Heq). destruct (decide (i = j)) as [<-|Hij].
  - exists i, t'. rewrite list_lookup_insert_eq by (eapply lookup_lt_Some; eauto).
    split; [done|]. rewrite Hi in Hj. simplify_eq. rewrite Hb; done.
  - exists j, v. by rewrite list_lookup_insert_ne.
Qed.

(* ------------------------------------------------------------------ *)
(** * Counting a vote in its tally *)

Definition pend_at (i : nat) (w : StakeWeights) (μ : measure) (j : Z) : Z :=
  if j =? Z.of_nat i then wmeas μ w else 0.

Lemma increment_or_create_spec b ballot w b1 i :
  tallies_inv b -> winner_inv b -> acct b (fun _ _ => 0) -> sw_wf w -> ballot_is_valid ballot = true ->
  BallotBox.increment_or_create_ballot_tally b ballot w = Ok (b1, i) ->
  tallies_inv b1 /\ winner_inv b1 /\ acct b1 (pend_at i w) /\
  b1 = BallotBox.with_tallies b (bb_ballot_tallies b1) (bb_unique_ballots b1) /\
  (exists t, bb_ballot_tallies b1 !! i = Some t /\ bt_ballot t = ballot) /\
  (forall j t, bb_ballot_tallies b !! j = Some t -> BallotTally.is_valid t = true ->
     exists t', bb_ballot_tallies b1 !! j = Some t' /\ bt_ballot t' = bt_ballot t).
Proof.
  intros Hti Hwi Hac Hw Hval Hrun. unfold BallotBox.increment_or_create_ballot_tally in Hrun.
  destruct (list_find _ (bb_ballot_tallies b)) as [[k t]|] eqn:Ef.
  - apply list_find_Some in Ef as (Hk & Hkv & _). apply andb_true_iff in Hkv as [Hkv Hkb].
    apply ballot_eq_true in Hkb as [Hkb _]. res_inv. simplify_eq. cbn.
    pose proof (ti_wf _ Hti) as Hwf. pose proof (Forall_lookup_1 _ _ _ _ Hwf Hk) as Hwk.
    destruct (increment_tally_spec _ _ _ Hwk Hw Hx) as (Hw' & Hidx & Hb' & Hm).
    assert (Hlt := lookup_lt_Some _ _ _ Hk).
    pose proof (Hm MCount I) as Hc. simpl in Hc.
    pose proof (ti_ok _ Hti _ _ Hk) as Hok. unfold tally_ok in Hok. rewrite Hkv in Hok.
    assert (Hvx : BallotTally.is_valid x = true) by (unfold BallotTally.is_valid; by rewrite Hb').
    split; [|split; [|split; [|split; [|split]]]].
    + eapply tallies_inv_insert; eauto.
      * unfold tally_ok. rewrite Hvx, Hidx. lia.
      * rewrite !indic_true by done. lia.
      * intros j v Hj Hv. apply not_true_is_false. intros Heq. rewrite Hb' in Heq.
        apply Hj. symmetry. by eapply (ti_roots _ Hti i j t v).
    + eapply winner_inv_insert; eauto.
    + eapply acct_insert; eauto.
      * intros μ Hμ. unfold pend_at. rewrite Z.eqb_refl, Hm by done. lia.
      * intros μ j Hj. unfold pend_at. by rewrite (proj2 (Z.eqb_neq _ _) Hj).
    + done.
    + exists x. by rewrite list_lookup_insert_eq.
    + intros j v Hj _. destruct (decide (i = j)) as [<-|Hij].
      * exists x. rewrite list_lookup_insert_eq by done. split; [done|]. congruence.
      * exists v. by rewrite list_lookup_insert_ne.
  - rewrite list_find_None in Ef.
    destruct (list_find _ (bb_ballot_tallies b)) as [[k t]|] eqn:Ef2 in Hrun; [|discriminate].
    apply list_find_Some in Ef2 as (Hk & Hkv & _). res_inv. simplify_eq. cbn.
    pose proof (ti_ok _ Hti _ _ Hk) as Hok. unfold tally_ok in Hok. rewrite Hkv in Hok. subst t.
    assert (Hlt := lookup_lt_Some _ _ _ Hk). assert (i < 256)%nat as Hlt' by (rewrite (ti_len _ Hti) in Hlt; done).
    split; [|split; [|split; [|split; [|split]]]].
    + eapply tallies_inv_insert; eauto.
      * unfold tally_ok, BallotTally.is_valid. simpl. rewrite Hval.
        unfold cast. rewrite Z.mod_small by lia. lia.
      * rewrite indic_false by done. rewrite indic_true by done. lia.
      * intros j v Hj Hv. simpl. apply not_true_is_false. intros Heq.
        apply ballot_eq_true in Heq as [-> _].
        apply (Forall_lookup_1 _ _ _ _ Ef Hv). unfold BallotTally.is_valid.
        rewrite Hval. simpl. by apply ballot_eq_true.
    + eapply winner_inv_insert; eauto. intros Hv Heq. by rewrite <- Heq in Hv.
    + eapply acct_insert; eauto.
      * intros μ Hμ. unfold pend_at. rewrite Z.eqb_refl, tmeas_default by done.
        destruct μ; simpl; lia.
      * intros μ j Hj. unfold pend_at. by rewrite (proj2 (Z.eqb_neq _ _) Hj).
    + done.
    + eexists. by rewrite list_lookup_insert_eq.
    + intros j v Hj Hv. exists v. rewrite list_lookup_insert_ne; [done|].
      intros <-. rewrite Hk in Hj. by simplify_eq.
Qed.

(* ------------------------------------------------------------------ *)
(** * Recording the vote *)

(** The scan stops at the operator's own vote or at the first free slot. *)
Lemma record_vote_spec b op nv u c i b' :
  BallotBox.record_vote b op nv u c i (drop i (bb_operator_votes b)) = Ok b' ->
  exists p v, (i <= p)%nat /\ bb_operator_votes b !! p = Some v /\
    (forall q x, (i <= q < p)%nat -> bb_operator_votes b !! q = Some x ->
       ov_operator x <> op /\ OperatorVote.is_empty x = false) /\
    ((ov_operator v = op /\ c = false /\ exists b1, BallotBox.retract_vote b v u = Ok b1 /\
        b' = BallotBox.with_votes b1 (<[p:=nv]> (bb_operator_votes b1)) (bb_operators_voted b1)) \/
     (ov_operator v <> op /\ OperatorVote.is_empty v = true /\
        b' = BallotBox.with_votes b (<[p:=nv]> (bb_operator_votes b)) (bb_operators_voted b + 1))).
Proof.
  remember (drop i (bb_operator_votes b)) as rest eqn:Hrest. revert i Hrest.
  induction rest as [|v rest IH]; intros i Hrest Hrun; [discriminate|].
  assert (Hi : bb_operator_votes b !! i = Some v).
  { rewrite <- (Nat.add_0_r i), <- lookup_drop, <- Hrest. done. }
  assert (Hr : rest = drop (S i) (bb_operator_votes b)).
  { rewrite (drop_S _ _ _ Hi) in Hrest. by injection Hrest. }
  simpl in Hrun. destruct (bool_decide_reflect (ov_operator v = op)) as [Hop|Hop].
  - destruct c; [discriminate|]. res_inv. exists i, v. split; [done|]. split; [done|].
    split; [intros; lia|]. left. eauto.
  - destruct (OperatorVote.is_empty v) eqn:He.
    + res_inv. exists i, v. split; [done|]. split; [done|]. split; [intros; lia|]. by right.
    + destruct (IH (S i) Hr Hrun) as (p & x & Hp & Hx & Hsc & Hres).
      exists p, x. split; [lia|]. split; [done|]. split; [|done].
      intros q y Hq Hy. destruct (decide (q = i)) as [->|]; [naive_solver|].
      apply (Hsc q y); [lia|done].
Qed.

(** Retracting the vote at position [p]: the tally it points to loses it,
    and is wiped when it was the last one.  [pend'] is the account of the
    tallies once the vote at [p] is replaced. *)
Lemma retract_vote_spec b p v b1 w i :
  tallies_inv b -> votes_inv b -> acct b (pend_at i w) -> sw_wf w ->
  bb_operator_votes b !! p = Some v -> Z.of_nat p < bb_operators_voted b ->
  BallotBox.retract_vote b v (bb_unique_ballots b) = Ok b1 ->
  tallies_inv b1 /\
  b1 = BallotBox.with_tallies b (bb_ballot_tallies b1) (bb_unique_ballots b1) /\
  acct b1 (fun μ j => pend_at i w μ j - vmeas μ j v) /\
  (forall j t t', bb_ballot_tallies b !! j = Some t -> bb_ballot_tallies b1 !! j = Some t' ->
     BallotTally.is_valid t' = true -> bt_ballot t' = bt_ballot t).
Proof.
  intros Hti Hvi Hac Hw Hp Hlt Hrun.
  destruct (vi_cast _ Hvi _ _ Hp Hlt) as [_ Hk].
  set (k := Z.to_nat (ov_ballot_index v)) in *.
  assert (Hkz : ov_ballot_index v = Z.of_nat k) by lia.
  assert (Hwv : sw_wf (ov_stake_weights v)) by apply (Forall_lookup_1 _ _ _ _ (vi_wf _ Hvi) Hp).
  unfold BallotBox.retract_vote in Hrun. fold k in Hrun.
  destruct (lookup_lt_is_Some_2 (bb_ballot_tallies b) k) as [t Ht];
    [rewrite (ti_len _ Hti); unfold MAX_OPERATORS; lia|].
  rewrite Ht in Hrun. res_inv.
  pose proof (Forall_lookup_1 _ _ _ _ (ti_wf _ Hti) Ht) as Hwt.
  destruct (decrement_tally_spec _ _ _ Hwt Hwv Hx) as (Hwx & Hidx & Hbal & Hm & Hpos).
  destruct (tally_ok_valid _ _ (ti_ok _ Hti _ _ Ht) Hpos) as [Hval Hix].
  assert (Hlk := lookup_lt_Some _ _ _ Ht).
  assert (Hsum : forall μ, measure_ok μ -> tmeas μ x
    = vsum μ (Z.of_nat k) (bb_operator_votes b) - wmeas μ (ov_stake_weights v) + pend_at i w μ (Z.of_nat k)).
  { intros μ Hμ. rewrite Hm by done. rewrite (Hac μ k t Hμ Ht). lia. }
  assert (Hvm : forall μ, vmeas μ (Z.of_nat k) v = wmeas μ (ov_stake_weights v)).
  { intros μ. unfold vmeas. by rewrite (proj2 (Z.eqb_eq _ _) Hkz). }
  assert (Hother : forall μ j, j <> Z.of_nat k -> pend_at i w μ j - vmeas μ j v = pend_at i w μ j).
  { intros μ j Hj. unfold vmeas. rewrite (proj2 (Z.eqb_neq _ _)); lia. }
  assert (Hold : forall μ, measure_ok μ -> tmeas μ t
    = vsum μ (Z.of_nat k) (bb_operator_votes b) + pend_at i w μ (Z.of_nat k)).
  { intros μ Hμ. by apply Hac. }
  destruct (bt_tally x =? 0) eqn:Hz in Hrun; res_inv; cbn.
  - apply Z.eqb_eq in Hz.
    (* no vote is left: every measure is zero *)
    pose proof (Hsum MCount I) as Hc. simpl in Hc. rewrite Hz in Hc.
    assert (Hle : 1 <= vsum MCount (Z.of_nat k) (bb_operator_votes b)).
    { pose proof (vsum_elem_le MCount (Z.of_nat k) _ _ _ (vi_wf _ Hvi) Hp) as Hv.
      rewrite Hvm in Hv. done. }
    assert (Hik : i <> k). { intros ->. unfold pend_at in Hc. rewrite Z.eqb_refl in Hc. simpl in Hc. lia. }
    assert (Hpz : forall μ, pend_at i w μ (Z.of_nat k) = 0).
    { intros μ. unfold pend_at. rewrite (proj2 (Z.eqb_neq _ _)); lia. }
    assert (Hrest : forall μ, vsum μ (Z.of_nat k) (<[p:=OperatorVote.default]> (bb_operator_votes b)) = 0).
    { intros μ. apply vsum_count_zero. rewrite (vsum_insert _ _ _ _ _ _ Hp), Hvm.
      rewrite Hpz in Hc. simpl. unfold vmeas at 1. rewrite (proj2 (Z.eqb_neq _ _)); [lia|].
      simpl. lia. }
    split; [|split; [done|split]].
    + eapply tallies_inv_insert; eauto using sw_default_wf, tally_ok_default.
      rewrite indic_true by done. rewrite indic_false by done. lia.
    + eapply acct_insert; eauto. intros μ Hμ. specialize (Hrest μ).
      rewrite (vsum_insert _ _ _ _ _ _ Hp), Hvm in Hrest.
      unfold vmeas in Hrest at 1. rewrite (proj2 (Z.eqb_neq _ _)) in Hrest by (simpl; lia).
      rewrite tmeas_default, (Hold μ Hμ), Hvm, !Hpz by done. lia.
    + intros j y y' Hj. rewrite list_lookup_insert_Some.
      intros [(-> & <- & _)|[_ Hj']] Hv; [done|congruence].
  - apply Z.eqb_neq in Hz.
    assert (Hvx : BallotTally.is_valid x = true) by (unfold BallotTally.is_valid; by rewrite Hbal).
    pose proof (Hm MCount I) as Hc. simpl in Hc.
    split; [|split; [done|split]].
    + eapply tallies_inv_insert; eauto.
      * unfold tally_ok. rewrite Hvx, Hidx. lia.
      * rewrite !indic_true by done. lia.
      * intros j y Hj Hy. apply not_true_is_false. intros Heq. rewrite Hbal in Heq.
        apply Hj. symmetry. by eapply (ti_roots _ Hti k j t y).
    + eapply acct_insert; eauto. intros μ Hμ. rewrite (Hsum μ Hμ), (Hold μ Hμ), Hvm. lia.
    + intros j y y' Hj. rewrite list_lookup_insert_Some.
      intros [(-> & <- & _)|[_ Hj']] Hv; congruence.
Qed.

(** Writing a vote in an occupied slot of the same operator, or in the first
    free slot. *)
Lemma votes_inv_insert b p v nv n :
  votes_inv b -> bb_operator_votes b !! p = Some v -> sw_wf (ov_stake_weights nv) ->
  ov_operator nv <> Pubkey_default -> 0 <= ov_ballot_index nv < 256 ->
  (Z.of_nat p < bb_operators_voted b /\ n = bb_operators_voted b /\ ov_operator v = ov_operator nv \/
   Z.of_nat p = bb_operators_voted b /\ n = bb_operators_voted b + 1 /\
   forall q x, (q < p)%nat -> bb_operator_votes b !! q = Some x -> ov_operator x <> ov_operator nv) ->
  votes_inv (BallotBox.with_votes b (<[p:=nv]> (bb_operator_votes b)) n).
Proof.
  intros [Hl Hw Hr Hc Hf Ho] Hp Hwn Hop Hix Hcase.
  assert (Hlt := lookup_lt_Some _ _ _ Hp). rewrite Hl in Hlt. unfold MAX_OPERATORS in *.
  assert (Hnew : forall q x, q <> p -> bb_operator_votes b !! q = Some x -> ov_operator x <> ov_operator nv).
  { intros q x Hq Hx Heq. destruct Hcase as [(Hpb & -> & Hv)|(Hpb & -> & Hs)].
    - apply Hq. eapply Ho; eauto; congruence.
    - destruct (decide (q < p)%nat); [by eapply Hs|].
      rewrite (Hf _ _ Hx) in Heq by lia. simpl in Heq. congruence. }
  split; cbn.
  - by rewrite length_insert.
  - by apply Forall_insert_2.
  - lia.
  - intros i x. rewrite list_lookup_insert_Some. intros [(-> & <- & _)|[Hne Hx]] Hi; [done|].
    apply (Hc i); [done|]. lia.
  - intros i x. rewrite list_lookup_insert_Some. intros [(-> & <- & _)|[Hne Hx]] Hi; [lia|].
    apply (Hf i); [done|]. lia.
  - intros i j x y. rewrite !list_lookup_insert_Some.
    intros [(-> & <- & _)|[Hni Hx]] [(-> & <- & _)|[Hnj Hy]] Heq Hd; [done| | |by eapply Ho].
    + exfalso. by apply (Hnew _ _ (not_eq_sym Hnj) Hy).
    + exfalso. by apply (Hnew _ _ (not_eq_sym Hni) Hx).
Qed.

(* ------------------------------------------------------------------ *)
(** * Casting a vote *)

Lemma count_vote_valid b i v t :
  bb_inv b -> bb_operator_votes b !! i = Some v -> ov_ballot_index v = Z.of_nat t ->
  forall x, bb_ballot_tallies b !! t = Some x -> BallotTally.is_valid x = true.
Proof.
  intros [Hti Hvi _ Hac] Hv Hix x Hx.
  pose proof (Hac MCount t x I Hx) as Hm. simpl in Hm.
  pose proof (vsum_elem_le MCount (Z.of_nat t) _ _ _ (vi_wf _ Hvi) Hv) as Hle.
  unfold vmeas in Hle. rewrite (proj2 (Z.eqb_eq _ _) Hix) in Hle. simpl in Hle.
  apply (tally_ok_valid t x); [by apply (ti_ok _ Hti)|lia].
Qed.

Lemma is_consensus_reached_spec b :
  winner_inv b -> BallotBox.is_consensus_reached b = ballot_is_valid (bb_winning_ballot b).
Proof.
  intros [_ Hs]. unfold BallotBox.is_consensus_reached.
  destruct (Z.eqb_spec (bb_slot_consensus_reached b) DEFAULT_CONSENSUS_REACHED_SLOT) as [|Hne]; [done|].
  by rewrite (Hs Hne).
Qed.

Lemma acct_with_votes b p v nv n pend :
  acct b pend -> bb_operator_votes b !! p = Some v ->
  (forall μ j, measure_ok μ -> 0 <= j < 256 -> vmeas μ j nv = vmeas μ j v + pend μ j) ->
  length (bb_ballot_tallies b) = 256%nat ->
  acct (BallotBox.with_votes b (<[p:=nv]> (bb_operator_votes b)) n) (fun _ _ => 0).
Proof.
  intros Ha Hp Hv Hl μ i t Hμ Ht. cbn in *. apply lookup_lt_Some in Ht as Hlt.
  rewrite (vsum_insert _ _ _ _ _ _ Hp), (Ha μ i t Hμ Ht), Hv by (done || lia). lia.
Qed.

(** Everything a successful vote does to the box. *)
Lemma cast_vote_effect b op ballot w slot valid b' :
  bb_inv b -> op <> Pubkey_default -> sw_wf w ->
  BallotBox.cast_vote b op ballot w slot valid = Ok b' ->
  bb_inv b' /\
  bb_winning_ballot b' = bb_winning_ballot b /\
  bb_slot_consensus_reached b' = bb_slot_consensus_reached b /\
  exists p v i, bb_operator_votes b !! p = Some v /\
    bb_operator_votes b' = <[p:=OperatorVote.new i op slot w]> (bb_operator_votes b) /\
    (ov_operator v = op /\ BallotBox.is_consensus_reached b = false \/
     ov_operator v <> op /\ v = OperatorVote.default) /\
    (i < 256)%nat /\
    (exists t, bb_ballot_tallies b' !! i = Some t /\ bt_ballot t = ballot) /\
    (forall j t t', bb_ballot_tallies b !! j = Some t -> BallotTally.is_valid t = true ->
       bb_ballot_tallies b' !! j = Some t' -> BallotTally.is_valid t' = true -> bt_ballot t' = bt_ballot t).
Proof.
  intros [Hti Hvi Hwi Hac] Hop Hw Hrun. unfold BallotBox.cast_vote in Hrun. res_inv.
  destruct x0 as [b1 i]. bool_prop.
  destruct (increment_or_create_spec _ _ _ _ _ Hti Hwi Hac Hw Hif0 Hx0)
    as (Hti1 & Hwi1 & Hac1 & Hb1 & (t & Ht & Htb) & Hkeep).
  assert (Hvotes : bb_operator_votes b1 = bb_operator_votes b) by (by rewrite Hb1).
  assert (Hvi1 : votes_inv b1) by (rewrite Hb1; destruct Hvi; split; done).
  assert (Hwb : bb_winning_ballot b1 = bb_winning_ballot b) by (by rewrite Hb1).
  assert (Hsl : bb_slot_consensus_reached b1 = bb_slot_consensus_reached b) by (by rewrite Hb1).
  assert (Hcr : BallotBox.is_consensus_reached b1 = BallotBox.is_consensus_reached b).
  { unfold BallotBox.is_consensus_reached. by rewrite Hwb, Hsl. }
  clear Hb1. assert (Hi := lookup_lt_Some _ _ _ Ht). rewrite (ti_len _ Hti1) in Hi.
  set (nv := OperatorVote.new i op slot w) in *.
  assert (Hnvi : ov_ballot_index nv = Z.of_nat i).
  { simpl. unfold cast, MAX_OPERATORS in *. rewrite Z.mod_small; lia. }
  assert (Hnv : forall μ j, vmeas μ j nv = pend_at i w μ j).
  { intros μ j. unfold vmeas, pend_at. rewrite Hnvi, Z.eqb_sym. done. }
  change (drop 0 (bb_operator_votes b1)) with (bb_operator_votes b1) in *.
  apply record_vote_spec in Hrun as (p & v & _ & Hp & Hscan & Hcase). 
  unfold MAX_OPERATORS in Hi.
  assert (Hixr : 0 <= ov_ballot_index nv < 256) by lia.
  destruct Hcase as [(Hv & Hc & b2 & Hretr & Hb')|(Hv & He & Hb')].
  - assert (Hpv : Z.of_nat p < bb_operators_voted b1).
    { apply Z.nle_gt. intros Hge. rewrite (vi_free _ Hvi1 _ _ Hp Hge) in Hv. by simpl in Hv. }
    destruct (retract_vote_spec _ _ _ _ _ _ Hti1 Hvi1 Hac1 Hw Hp Hpv Hretr) as (Hti2 & Hb2 & Hac2 & Hk2).
    assert (Hvotes2 : bb_operator_votes b2 = bb_operator_votes b1) by (by rewrite Hb2).
    assert (Hvi2 : votes_inv b2) by (rewrite Hb2; destruct Hvi1; split; done).
    assert (Hwb2 : bb_winning_ballot b2 = bb_winning_ballot b1) by (by rewrite Hb2).
    assert (Hsl2 : bb_slot_consensus_reached b2 = bb_slot_consensus_reached b1) by (by rewrite Hb2).
    assert (Hvo2 : bb_operators_voted b2 = bb_operators_voted b1) by (by rewrite Hb2). clear Hb2.
    assert (Hinv : bb_inv b').
    { subst b'. split.
      - destruct Hti2; split; done.
      - eapply votes_inv_insert; eauto; [by rewrite Hvotes2|]. left. rewrite Hvo2. eauto.
      - rewrite (is_consensus_reached_spec _ Hwi1), <- Hwb2 in Hc.
        split; cbn; [by rewrite Hc|]. rewrite Hsl2, Hwb2. apply (wi_slot _ Hwi1).
      - eapply acct_with_votes; eauto; [by rewrite Hvotes2| |apply (ti_len _ Hti2)].
        intros μ j Hμ Hj. rewrite Hnv. simpl. lia. }
    split; [done|]. subst b'. cbn in *. split; [congruence|]. split; [congruence|].
    exists p, v, i. split; [congruence|]. split; [by rewrite Hvotes2, Hvotes|]. 
    split; [left; split; congruence|]. split; [lia|].
    destruct (lookup_lt_is_Some_2 (bb_ballot_tallies b2) i) as [t2 Ht2].
    { rewrite (ti_len _ Hti2). unfold MAX_OPERATORS. lia. }
    split.
    + exists t2. split; [done|]. rewrite <- Htb. apply (Hk2 i t t2); [done|done|].
      eapply (count_vote_valid _ p nv i Hinv); cbn; [|done|done].
      rewrite list_lookup_insert_eq; [done|]. rewrite Hvotes2. by eapply lookup_lt_Some.
    + intros j y y' Hy Hyv Hy' Hyv'. destruct (Hkeep j y Hy Hyv) as (z & Hz & Hzb).
      rewrite <- Hzb. eapply (Hk2 j); eauto.
  - assert (Hpv : Z.of_nat p = bb_operators_voted b1).
    { unfold OperatorVote.is_empty in He. apply Z.eqb_eq in He.
      destruct (Z.lt_trichotomy (Z.of_nat p) (bb_operators_voted b1)) as [Hl|[Hl|Hl]]; [|done|].
      - apply (vi_cast _ Hvi1 _ _ Hp) in Hl as [_ Hl]. lia.
      - exfalso. pose proof (vi_range _ Hvi1).
        set (q := Z.to_nat (bb_operators_voted b1)).
        destruct (lookup_lt_is_Some_2 (bb_operator_votes b1) q) as [x' Hx'].
        { apply lookup_lt_Some in Hp. lia. }
        destruct (Hscan q x') as [_ Hne]; [lia|done|].
        rewrite (vi_free _ Hvi1 _ _ Hx') in Hne by lia. done. }
    assert (Hvd : v = OperatorVote.default) by (eapply (vi_free _ Hvi1); eauto; lia).
    assert (Hinv : bb_inv b').
    { subst b'. split.
      - destruct Hti1; split; done.
      - eapply votes_inv_insert; eauto. right. split; [done|]. split; [done|].
        intros q y Hq Hy. apply (Hscan q y); [lia|done].
      - destruct Hwi1; split; done.
      - eapply acct_with_votes; eauto; [|apply (ti_len _ Hti1)].
        intros μ j Hμ Hj. rewrite Hnv, Hvd. unfold vmeas.
        rewrite (proj2 (Z.eqb_neq _ _)) by (simpl; lia). done. }
    split; [done|]. subst b'. cbn in *. split; [congruence|]. split; [congruence|].
    exists p, v, i. split; [congruence|]. split; [by rewrite Hvotes|].
    split; [by right|]. split; [lia|].
    split; [eauto|]. intros j y y' Hy Hyv Hy' Hyv'.
    destruct (Hkeep j y Hy Hyv) as (z & Hz & Hzb). congruence.
Qed.

(* ------------------------------------------------------------------ *)
(** * The box as a map from operators to votes *)

(** The ballot a vote stands for, and the vote of an operator. *)
Definition ballot_voted (b : BallotBox) (v : OperatorVote) : option Ballot :=
  bt_ballot <$> bb_ballot_tallies b !! Z.to_nat (ov_ballot_index v).
Definition vote_of (b : BallotBox) (op : Pubkey) : option (Ballot * StakeWeights) :=
  '(_, v) ← list_find (fun v => ov_operator v = op) (bb_operator_votes b);
  ballot ← ballot_voted b v;
  Some (ballot, ov_stake_weights v).

Lemma vote_of_Some b p v op :
  votes_inv b -> bb_operator_votes b !! p = Some v -> ov_operator v = op -> op <> Pubkey_default ->
  vote_of b op = (ballot ← ballot_voted b v; Some (ballot, ov_stake_weights v)).
Proof.
  intros Hvi Hp Hop Hd. unfold vote_of.
  destruct (list_find_elem_of (fun v => ov_operator v = op) (bb_operator_votes b) v) as [[q x] Hq];
    [by eapply list_elem_of_lookup_2|done|].
  rewrite Hq. simpl. apply list_find_Some in Hq as (Hq & Hxop & _).
  assert (q = p) as -> by (eapply (vi_once _ Hvi); eauto; congruence). by simplify_eq.
Qed.

Lemma vote_of_None b op :
  (forall p v, bb_operator_votes b !! p = Some v -> ov_operator v <> op) -> vote_of b op = None.
Proof.
  intros Hn. unfold vote_of. rewrite (proj2 (list_find_None _ _)); [done|].
  by apply Forall_lookup_2.
Qed.

(** A vote of the box is for a valid tally of it. *)
Lemma vote_tally b p v :
  bb_inv b -> bb_operator_votes b !! p = Some v -> ov_operator v <> Pubkey_default ->
  exists t, bb_ballot_tallies b !! Z.to_nat (ov_ballot_index v) = Some t /\
    BallotTally.is_valid t = true /\ 0 <= ov_ballot_index v < 256.
Proof.
  intros Hb Hp Hop. pose proof (bi_votes _ Hb) as Hvi.
  assert (Hlt : Z.of_nat p < bb_operators_voted b).
  { apply Z.nle_gt. intros Hge. by rewrite (vi_free _ Hvi _ _ Hp Hge) in Hop. }
  destruct (vi_cast _ Hvi _ _ Hp Hlt) as [_ Hk].
  destruct (lookup_lt_is_Some_2 (bb_ballot_tallies b) (Z.to_nat (ov_ballot_index v))) as [t Ht].
  { rewrite (ti_len _ (bi_tallies _ Hb)). unfold MAX_OPERATORS. lia. }
  exists t. split; [done|]. split; [|done]. eapply (count_vote_valid _ p v); eauto. lia.
Qed.

(** The vote map after a vote. *)
Lemma cast_vote_map b op ballot w slot valid b' :
  bb_inv b -> op <> Pubkey_default -> sw_wf w ->
  BallotBox.cast_vote b op ballot w slot valid = Ok b' ->
  bb_inv b' /\ vote_of b' op = Some (ballot, w) /\
  forall op', op' <> op -> op' <> Pubkey_default -> vote_of b' op' = vote_of b op'.
Proof.
  intros Hb Hop Hw Hrun.
  destruct (cast_vote_effect _ _ _ _ _ _ _ Hb Hop Hw Hrun)
    as (Hb' & _ & _ & p & v & i & Hp & Hvs & Hv & Hi & (t & Ht & Htb) & Hkeep).
  assert (Hlt := lookup_lt_Some _ _ _ Hp).
  split; [done|]. split.
  - rewrite (vote_of_Some b' p (OperatorVote.new i op slot w) op (bi_votes _ Hb')); [|by rewrite Hvs, list_lookup_insert_eq|done|done].
    unfold ballot_voted. simpl. unfold cast. rewrite Z.mod_small, Nat2Z.id, Ht by lia.
    simpl. by rewrite Htb.
  - intros op' Hne Hd.
    destruct (list_find (fun v => ov_operator v = op') (bb_operator_votes b')) as [[q x]|] eqn:Ef.
    + apply list_find_Some in Ef as (Hq & Hxop & _).
      rewrite (vote_of_Some b' q x op' (bi_votes _ Hb') Hq Hxop Hd).
      assert (Hq0 := Hq). rewrite Hvs, list_lookup_insert_Some in Hq0.
      destruct Hq0 as [(-> & <- & _)|[Hpq Hq0]]; [by simpl in Hxop|].
      rewrite (vote_of_Some b q x op' (bi_votes _ Hb) Hq0 Hxop Hd).
      destruct (vote_tally b q x Hb Hq0) as (y & Hy & Hyv & _); [congruence|].
      destruct (vote_tally b' q x Hb' Hq) as (y' & Hy' & Hyv' & _); [congruence|].
      unfold ballot_voted. rewrite Hy, Hy'. simpl. by rewrite (Hkeep _ _ _ Hy Hyv Hy' Hyv').
    + rewrite list_find_None in Ef.
      assert (Hno : forall q x, bb_operator_votes b' !! q = Some x -> ov_operator x <> op')
        by (intros q x Hq; by apply (Forall_lookup_1 _ _ _ _ Ef Hq)).
      rewrite (vote_of_None b' op' Hno). symmetry. apply vote_of_None. intros q x Hq Hx.
      destruct (decide (q = p)) as [->|Hqp].
      * (* the slot that was overwritten *)
        rewrite Hp in Hq. injection Hq as <-. destruct Hv as [[Hv _]|[_ ->]]; [congruence|].
        by rewrite <- Hx in Hd.
      * apply (Hno q x); [|done]. by rewrite Hvs, list_lookup_insert_ne.
Qed.

Lemma cast_vote_new_voter b op ballot w slot valid b' :
  bb_inv b -> op <> Pubkey_default -> sw_wf w ->
  BallotBox.cast_vote b op ballot w slot valid = Ok b' ->
  BallotBox.is_consensus_reached b = true -> vote_of b op = None.
Proof.
  intros Hb Hop Hw Hrun Hc.
  destruct (cast_vote_effect _ _ _ _ _ _ _ Hb Hop Hw Hrun)
    as (Hb' & _ & _ & p & v & i & Hp & Hvs & [[_ Hv]|[_ ->]] & _); [congruence|].
  apply vote_of_None. intros q x Hq Hx.
  destruct (decide (q = p)) as [->|Hqp].
  - rewrite Hp in Hq. simplify_eq.
  - apply Hqp. apply (vi_once _ (bi_votes _ Hb') q p x (OperatorVote.new i op slot w)).
    + by rewrite Hvs, list_lookup_insert_ne.
    + rewrite Hvs, list_lookup_insert_eq; [done|]. by eapply lookup_lt_Some.
    + done.
    + congruence.
Qed.

(* ------------------------------------------------------------------ *)
(** * Consensus *)

Section consensus.
Context `{L : PreciseNumberLaws}.

Lemma precise_consensus_spec :
  exists n d t, precise 2 = Ok n /\ precise 3 = Ok d /\ pn_val n = 2 * ONE /\ pn_val d = 3 * ONE /\
    pn_checked_div n d = Some t /\ precise_consensus = Ok t /\ 666666666666 <= pn_val t.
Proof.
  destruct (precise_ok 2) as (n & Hn & Vn); [done|].
  destruct (precise_ok 3) as (d & Hd & Vd); [done|].
  destruct (pn_div_spec n d 2 3 Vn Vd) as (t & Ht & _); [done|done|done|].
  exists n, d, t. repeat split; try done.
  - unfold precise_consensus, PRECISE_CONSENSUS_NUMERATOR, PRECISE_CONSENSUS_DENOMINATOR.
    rewrite Hn, Hd. simpl. by rewrite Ht.
  - pose proof (pn_div_trunc n d t 2 3 Vn Vd ltac:(done) ltac:(done) ltac:(done) Ht) as Hl.
    exact Hl.
Qed.

(** The comparison of a share [m / W] with two thirds: it succeeds for every
    share of at least two thirds, and a share it accepts is short of two
    thirds by less than 10^-11. *)
Definition reaches_consensus (m W : Z) : res bool :=
  pm ← precise m; pW ← precise W;
  q ← ok_or (pn_checked_div pm pW) (Tip DenominatorIsZero);
  t ← precise_consensus;
  mret (pn_greater_than_or_equal q t).

Lemma reaches_consensus_spec m W :
  fits U128 m -> fits U128 W -> 0 < W ->
  exists r, reaches_consensus m W = Ok r /\
    (2 * W <= 3 * m -> r = true) /\ (r = true -> 1333333333331 * W <= 2 * ONE * m).
Proof.
  intros Hm HW HW0. unfold fits in *.
  destruct precise_consensus_spec as (n & d & t & _ & _ & Vn & Vd & Ht & Hc & Hlow).
  destruct (precise_ok m) as (pm & Em & Vm); [done|].
  destruct (precise_ok W) as (pW & EW & VW); [done|].
  destruct (pn_div_spec pm pW m W Vm VW) as (q & Hq & Hub); [lia|lia|lia|].
  exists (pn_greater_than_or_equal q t). unfold reaches_consensus.
  rewrite Em, EW. simpl. rewrite Hq. simpl. rewrite Hc. simpl.
  split; [done|]. rewrite pn_ge_spec. split.
  - intros Hle. apply Z.leb_le.
    apply (pn_div_mono n d t 2 3 pm pW q m W); try done; try lia.
  - intros Hr%Z.leb_le. unfold ONE in *. nia.
Qed.

(** Without any stake there is nothing to divide by. *)
Lemma reaches_consensus_zero m : fits U128 m -> reaches_consensus m 0 = Err (Tip DenominatorIsZero).
Proof.
  intros Hm. unfold reaches_consensus.
  destruct (precise_ok _ Hm) as (pm & Em & _). destruct (precise_ok 0) as (p0 & E0 & V0); [done|].
  rewrite Em, E0. simpl. rewrite pn_div_zero by (rewrite V0; done). done.
Qed.

Lemma tally_votes_unfold b W slot :
  BallotBox.tally_votes b W slot =
  if negb (bb_slot_consensus_reached b =? DEFAULT_CONSENSUS_REACHED_SLOT) then Ok b else
  t ← ok_or (max_by_key (fun t => stake_weight (bt_stake_weights t)) (bb_ballot_tallies b)) Panic;
  r ← reaches_consensus (stake_weight (bt_stake_weights t)) W;
  if r && negb (ballot_is_valid (bb_winning_ballot b))
  then mret (BallotBox.set_winning_ballot (BallotBox.with_slot_consensus_reached b slot) (bt_ballot t))
  else mret b.
Proof.
  unfold BallotBox.tally_votes, reaches_consensus. destruct (negb _); [done|].
  destruct (max_by_key _ _); [|done]. simpl.
  repeat (match goal with |- context [mbind ?f ?m] => destruct m; simpl; [|done] end). done.
Qed.

(** The largest tally of the box. *)
Lemma max_tally_exists b :
  tallies_inv b -> exists i t, bb_ballot_tallies b !! i = Some t /\
    max_by_key (fun t => stake_weight (bt_stake_weights t)) (bb_ballot_tallies b) = Some t /\
    forall j u, bb_ballot_tallies b !! j = Some u ->
      stake_weight (bt_stake_weights u) <= stake_weight (bt_stake_weights t).
Proof.
  intros Hti. pose proof (ti_len _ Hti) as Hl.
  pose proof (max_by_key_spec (fun t => stake_weight (bt_stake_weights t)) (bb_ballot_tallies b)) as Hmax.
  destruct (max_by_key _ _) as [t|]; [|by rewrite Hmax in Hl].
  destruct Hmax as [Hin Hmax]. apply list_elem_of_lookup in Hin as [i Hi].
  exists i, t. split; [exact Hi|]. split; [done|]. intros j u Hj. apply Hmax.
  by eapply list_elem_of_lookup_2.
Qed.

(** What tallying does: nothing once decided; otherwise it declares the ballot
    with the largest stake the winner when its share passes the comparison. *)
Lemma tally_votes_spec b W slot :
  bb_inv b -> fits U128 W -> 0 < W ->
  exists i t r, bb_ballot_tallies b !! i = Some t /\
    (forall j u, bb_ballot_tallies b !! j = Some u ->
       stake_weight (bt_stake_weights u) <= stake_weight (bt_stake_weights t)) /\
    reaches_consensus (stake_weight (bt_stake_weights t)) W = Ok r /\
    (r = true -> BallotTally.is_valid t = true) /\
    BallotBox.tally_votes b W slot = Ok (
      if negb (BallotBox.is_consensus_reached b) && r
      then BallotBox.set_winning_ballot (BallotBox.with_slot_consensus_reached b slot) (bt_ballot t)
      else b).
Proof.
  intros Hb HW HW0. destruct (max_tally_exists b (bi_tallies _ Hb)) as (i & t & Hi & Hmax & Hge).
  pose proof (Forall_lookup_1 _ _ _ _ (ti_wf _ (bi_tallies _ Hb)) Hi) as (Hft & _).
  destruct (reaches_consensus_spec _ W Hft HW HW0) as (r & Hr & _ & Hr2).
  exists i, t, r. split; [done|]. split; [done|]. split; [done|]. split.
  - intros ->. specialize (Hr2 eq_refl).
    pose proof (ti_ok _ (bi_tallies _ Hb) _ _ Hi) as Hok. unfold tally_ok in Hok.
    destruct (BallotTally.is_valid t); [done|]. subst t. simpl in Hr2. unfold ONE in *. lia.
  - rewrite tally_votes_unfold, Hmax. simpl. rewrite Hr. simpl.
    rewrite (is_consensus_reached_spec _ (bi_winner _ Hb)).
    destruct (Z.eqb_spec (bb_slot_consensus_reached b) DEFAULT_CONSENSUS_REACHED_SLOT) as [|Hne]; simpl.
    + rewrite andb_comm. by destruct (_ && _).
    + by rewrite (wi_slot _ (bi_winner _ Hb) Hne).
Qed.

Lemma set_winner_inv b s i t :
  bb_inv b -> bb_ballot_tallies b !! i = Some t -> BallotTally.is_valid t = true ->
  bb_inv (BallotBox.set_winning_ballot (BallotBox.with_slot_consensus_reached b s) (bt_ballot t)).
Proof.
  intros [Hti Hvi Hwi Hac] Hi Hv. split.
  - destruct Hti; split; done.
  - destruct Hvi; split; done.
  - split; cbn; [eauto|done].
  - exact Hac.
Qed.

Lemma tally_votes_inv b W slot b' :
  bb_inv b -> fits U128 W -> BallotBox.tally_votes b W slot = Ok b' ->
  bb_inv b' /\ (BallotBox.is_consensus_reached b = true -> b' = b) /\
  bb_operator_votes b' = bb_operator_votes b /\ bb_ballot_tallies b' = bb_ballot_tallies b.
Proof.
  intros Hb HW Hrun. destruct (decide (W = 0)) as [->|HW0].
  - (* nothing to divide by: only a decided box passes *)
    assert (b' = b) as ->; [|done].
    rewrite tally_votes_unfold in Hrun. destruct (negb _); [by res_inv|].
    destruct (max_tally_exists b (bi_tallies _ Hb)) as (i & t & Hi & Hmax & _).
    rewrite Hmax in Hrun. simpl in Hrun.
    rewrite reaches_consensus_zero in Hrun; [done|].
    apply (Forall_lookup_1 _ _ _ _ (ti_wf _ (bi_tallies _ Hb)) Hi).
  - destruct (tally_votes_spec b W slot Hb HW) as (i & t & r & Hi & _ & Hr & Hv & Hrun2);
      [unfold fits in HW; lia|].
    rewrite Hrun2 in Hrun. injection Hrun as <-.
    destruct (BallotBox.is_consensus_reached b), r; simpl; try done.
    split; [|done]. eapply set_winner_inv; eauto.
Qed.

(** A tally changes nothing, or declares a valid ballot the winner of an
    undecided box. *)
Lemma tally_votes_cases b W slot b' :
  bb_inv b -> fits U128 W -> BallotBox.tally_votes b W slot = Ok b' ->
  b' = b \/ (BallotBox.is_consensus_reached b = false /\ exists w, ballot_is_valid w = true /\
    b' = BallotBox.set_winning_ballot (BallotBox.with_slot_consensus_reached b slot) w).
Proof.
  intros Hb HW Hr. destruct (BallotBox.is_consensus_reached b) eqn:Hc.
  { left. by destruct (tally_votes_inv _ _ _ _ Hb HW Hr) as (_ & Hd & _); apply Hd. }
  destruct (decide (W = 0)) as [->|HW0].
  - left. rewrite tally_votes_unfold in Hr. destruct (negb _); [by res_inv|].
    destruct (max_tally_exists b (bi_tallies _ Hb)) as (i & t & Hi & Hmax & _). rewrite Hmax in Hr. simpl in Hr.
    rewrite reaches_consensus_zero in Hr; [done|].
    apply (Forall_lookup_1 _ _ _ _ (ti_wf _ (bi_tallies _ Hb)) Hi).
  - destruct (tally_votes_spec b W slot Hb HW) as (i & t & r & _ & _ & _ & Hv & Hr'); [unfold fits in HW; lia|].
    rewrite Hr', Hc in Hr. simpl in Hr. injection Hr as <-. destruct r; [|by left].
    right. split; [done|]. exists (bt_ballot t). by split; [apply Hv|].
Qed.

(** Tallying an undecided box fails exactly when there is no stake. *)
Lemma tally_votes_ok b W slot :
  bb_inv b -> fits U128 W -> is_ok (BallotBox.tally_votes b W slot) <->
  0 < W \/ bb_slot_consensus_reached b <> DEFAULT_CONSENSUS_REACHED_SLOT.
Proof.
  intros Hb HW. destruct (Z.eqb_spec (bb_slot_consensus_reached b) DEFAULT_CONSENSUS_REACHED_SLOT) as [He|He].
  - destruct (decide (W = 0)) as [->|HW0].
    + split; [|intros [|]; [lia|done]]. intros [b' Hr]. exfalso.
      rewrite tally_votes_unfold, He, Z.eqb_refl in Hr. simpl in Hr.
      destruct (max_tally_exists b (bi_tallies _ Hb)) as (i & t & Hi & Hmax & _). rewrite Hmax in Hr. simpl in Hr.
      rewrite reaches_consensus_zero in Hr; [done|].
      apply (Forall_lookup_1 _ _ _ _ (ti_wf _ (bi_tallies _ Hb)) Hi).
    + unfold fits in HW. split; [intros; left; lia|]. intros _.
      destruct (tally_votes_spec b W slot Hb HW) as (i & t & r & _ & _ & _ & _ & Hr'); [lia|]. rewrite Hr'. by eexists.
  - split; [by right|]. intros _. rewrite tally_votes_unfold, (proj2 (Z.eqb_neq _ _) He). by eexists.
Qed.
End consensus.

(* ------------------------------------------------------------------ *)
(** * Tie breaker and voting window *)

Lemma ballot_new_valid root : ballot_is_valid (Ballot.new root) = existsb (fun byte => negb (byte =? 0)) root.
Proof. done. Qed.

Lemma has_ballot_true b ballot :
  BallotBox.has_ballot b ballot = true <->
  ballot_is_valid ballot = true /\ exists i t, bb_ballot_tallies b !! i = Some t /\ bt_ballot t = ballot.
Proof.
  unfold BallotBox.has_ballot. rewrite existsb_exists. split.
  - intros (t & Hin & Heq). apply ballot_eq_true in Heq as [Heq Hv].
    apply list_elem_of_In, list_elem_of_lookup in Hin as [i Hi]. rewrite Heq in Hv. eauto.
  - intros (Hv & i & t & Hi & Heq). exists t. split.
    + apply list_elem_of_In, list_elem_of_lookup. eauto.
    + apply ballot_eq_true. by rewrite Heq.
Qed.

Lemma set_tie_breaker_ballot_spec b root epoch stall b' :
  BallotBox.set_tie_breaker_ballot b root epoch stall = Ok b' <->
  BallotBox.is_consensus_reached b = false /\ bb_epoch b + stall < U64 /\ bb_epoch b + stall <= epoch /\
  (exists i t, bb_ballot_tallies b !! i = Some t /\ bt_ballot t = Ballot.new root) /\
  ballot_is_valid (Ballot.new root) = true /\ b' = BallotBox.set_winning_ballot b (Ballot.new root).
Proof.
  unfold BallotBox.set_tie_breaker_ballot. destruct (BallotBox.is_consensus_reached b).
  { split; [done|]. intros (? & _). done. }
  unfold checked_add. destruct (Z.ltb_spec (bb_epoch b + stall) U64); simpl;
    [|split; [done|intros (_ & ? & _); lia]].
  destruct (Z.ltb_spec epoch (bb_epoch b + stall)); [split; [done|intros (_ & _ & ? & _); lia]|].
  destruct (BallotBox.has_ballot b (Ballot.new root)) eqn:Eh; simpl.
  - apply has_ballot_true in Eh as [Hv He].
    split; [intros Hr; injection Hr as <-; tauto|]. intros (_ & _ & _ & _ & _ & ->). done.
  - split; [done|]. intros (_ & _ & _ & He & Hv & _). exfalso.
    assert (BallotBox.has_ballot b (Ballot.new root) = true) by by apply has_ballot_true. congruence.
Qed.

Lemma set_tie_breaker_inv b root epoch stall b' :
  bb_inv b -> BallotBox.set_tie_breaker_ballot b root epoch stall = Ok b' ->
  bb_inv b' /\ BallotBox.is_consensus_reached b = false.
Proof.
  intros [Hti Hvi Hwi Hac] (Hc & _ & _ & (i & t & Hi & Ht) & Hv & ->)%set_tie_breaker_ballot_spec.
  split; [|done]. split.
  - destruct Hti; split; done.
  - destruct Hvi; split; done.
  - split; cbn; [eauto|]. intros Hs. by apply (wi_slot _ Hwi) in Hs; rewrite (is_consensus_reached_spec _ Hwi), Hs in Hc.
  - exact Hac.
Qed.

Lemma is_voting_valid_spec b slot valid :
  BallotBox.is_voting_valid b slot valid = Ok true <->
  BallotBox.is_consensus_reached b = false \/
  (bb_slot_consensus_reached b <> DEFAULT_CONSENSUS_REACHED_SLOT /\
   bb_slot_consensus_reached b + valid < U64 /\ slot <= bb_slot_consensus_reached b + valid).
Proof.
  unfold BallotBox.is_voting_valid, BallotBox.tie_breaker_set, BallotBox.is_consensus_reached.
  destruct (Z.eqb_spec (bb_slot_consensus_reached b) DEFAULT_CONSENSUS_REACHED_SLOT) as [He|He];
    destruct (ballot_is_valid (bb_winning_ballot b)); simpl.
  1: split; [done|intros [?|[? _]]; done].
  1: split; [by left|done].
  all: unfold checked_add; destruct (Z.ltb_spec (bb_slot_consensus_reached b + valid) U64); simpl.
  all: split; intros Hx; first [destruct Hx as [?|(_ & ? & ?)]; [discriminate|] | right].
  all: try (f_equal; apply Z.leb_le; lia); try lia; try discriminate Hx.
  all: injection Hx as Hx; apply Z.leb_le in Hx; auto.
Qed.

(** In a decided box the winning ballot's tally is found, and valid. *)
Lemma winning_tally_exists b :
  bb_inv b -> BallotBox.is_consensus_reached b = true ->
  exists t j, BallotBox.get_winning_ballot_tally b = Ok t /\ BallotBox.get_winning_ballot b = Ok (bt_ballot t) /\
    bb_ballot_tallies b !! j = Some t /\ BallotTally.is_valid t = true /\ 1 <= bt_tally t.
Proof.
  intros Hb Hc. rewrite (is_consensus_reached_spec _ (bi_winner _ Hb)) in Hc.
  destruct (wi_in _ (bi_winner _ Hb) Hc) as (i & t & Hi & Ht).
  unfold BallotBox.get_winning_ballot_tally, BallotBox.get_winning_ballot. rewrite Hc. simpl.
  destruct (list_find_elem_of (fun t => Ballot.eq (bt_ballot t) (bb_winning_ballot b) = true)
              (bb_ballot_tallies b) t) as [[j u] Hf];
    [by eapply list_elem_of_lookup_2|apply ballot_eq_true; by rewrite Ht|].
  rewrite Hf. exists u, j. apply list_find_Some in Hf as (Hj & Heq & _).
  apply ballot_eq_true in Heq as [Heq Huv]. split; [done|]. split; [by rewrite Heq|]. split; [done|].
  pose proof (ti_ok _ (bi_tallies _ Hb) _ _ Hj) as Hok. unfold tally_ok, BallotTally.is_valid in Hok.
  rewrite Huv in Hok. unfold BallotTally.is_valid. split; [done|apply Hok].
Qed.

(* ------------------------------------------------------------------ *)
(** * Executions *)

(** One successful operation on the box: a vote of an operator with its
    snapshotted stake, a tally, or the administrator's tie breaker. *)
Inductive bb_step `{PreciseNumberOps} (b b' : BallotBox) : Prop :=
| step_cast_vote op ballot w slot valid :
    op <> Pubkey_default -> sw_wf w ->
    BallotBox.cast_vote b op ballot w slot valid = Ok b' -> bb_step b b'
| step_tally_votes total slot :
    fits U128 total -> BallotBox.tally_votes b total slot = Ok b' -> bb_step b b'
| step_tie_breaker root epoch stall :
    BallotBox.set_tie_breaker_ballot b root epoch stall = Ok b' -> bb_step b b'.

Section executions.
Context `{L : PreciseNumberLaws}.

Lemma bb_step_inv b b' : bb_inv b -> bb_step b b' -> bb_inv b'.
Proof.
  intros Hb [op ballot w slot valid Hop Hw Hr|total slot Ht Hr|root epoch stall Hr].
  - by destruct (cast_vote_effect _ _ _ _ _ _ _ Hb Hop Hw Hr) as [? _].
  - by destruct (tally_votes_inv _ _ _ _ Hb Ht Hr) as [? _].
  - by destruct (set_tie_breaker_inv _ _ _ _ _ Hb Hr).
Qed.

(** What a later state keeps of a decided one. *)
Definition keeps_decision (b b' : BallotBox) : Prop :=
  bb_winning_ballot b' = bb_winning_ballot b /\
  bb_slot_consensus_reached b' = bb_slot_consensus_reached b /\
  forall op x, op <> Pubkey_default -> vote_of b op = Some x -> vote_of b' op = Some x.

Lemma bb_step_decided b b' :
  bb_inv b -> BallotBox.is_consensus_reached b = true -> bb_step b b' -> keeps_decision b b'.
Proof.
  intros Hb Hc [op ballot w slot valid Hop Hw Hr|total slot Ht Hr|root epoch stall Hr].
  - destruct (cast_vote_effect _ _ _ _ _ _ _ Hb Hop Hw Hr) as (_ & Hwin & Hsl & _).
    destruct (cast_vote_map _ _ _ _ _ _ _ Hb Hop Hw Hr) as (_ & _ & Hoth).
    pose proof (cast_vote_new_voter _ _ _ _ _ _ _ Hb Hop Hw Hr Hc) as Hnew.
    split; [done|]. split; [done|]. intros op' x Hd Hx.
    rewrite Hoth by (done || congruence). done.
  - destruct (tally_votes_inv _ _ _ _ Hb Ht Hr) as (_ & Heq & _). by rewrite Heq.
  - destruct (set_tie_breaker_inv _ _ _ _ _ Hb Hr). congruence.
Qed.

Lemma star_keeps_decision b b' :
  star bb_step b b' -> bb_inv b -> BallotBox.is_consensus_reached b = true ->
  keeps_decision b b' /\ bb_inv b'.
Proof.
  induction 1 as [b|b1 b2 b3 Hs _ IH]; intros Hb Hc; [done|].
  pose proof (bb_step_inv _ _ Hb Hs) as Hb2.
  destruct (bb_step_decided _ _ Hb Hc Hs) as (Hw & Hsl & Hv).
  destruct IH as ((Hw2 & Hsl2 & Hv2) & ?); [done| |].
  { unfold BallotBox.is_consensus_reached in *. by rewrite Hw, Hsl. }
  split; [|done]. split; [congruence|]. split; [congruence|]. auto.
Qed.
End executions.

(* ------------------------------------------------------------------ *)
(** * Tallies as sums over operators' ballots *)

(** The contribution of a vote to the ballot [ballot]. *)
Definition votes_for (b : BallotBox) (ballot : Ballot) (μ : measure) (v : OperatorVote) : Z :=
  if bool_decide (ballot_voted b v = Some ballot) then wmeas μ (ov_stake_weights v) else 0.

Lemma tally_sum b i t μ :
  bb_inv b -> bb_ballot_tallies b !! i = Some t -> BallotTally.is_valid t = true -> measure_ok μ ->
  tmeas μ t = sumZ (votes_for b (bt_ballot t) μ) (bb_operator_votes b).
Proof.
  intros Hb Hi Hv Hμ. rewrite (bi_acct _ Hb μ i t Hμ Hi), Z.add_0_r. apply sumZ_ext.
  intros v [p Hp]%list_elem_of_lookup. unfold vmeas, votes_for, ballot_voted.
  destruct (Z.eqb_spec (ov_ballot_index v) (Z.of_nat i)) as [Heq|Hne].
  - rewrite Heq, Nat2Z.id, Hi. simpl. by rewrite bool_decide_true.
  - rewrite bool_decide_false; [done|]. intros Hx.
    destruct (bb_ballot_tallies b !! Z.to_nat (ov_ballot_index v)) as [u|] eqn:Eu; [|done].
    simpl in Hx. injection Hx as Hx.
    assert (i = Z.to_nat (ov_ballot_index v)) as Hiv.
    { eapply (ti_roots _ (bi_tallies _ Hb)); eauto. apply ballot_eq_true. by rewrite Hx. }
    destruct (Z.ltb_spec (Z.of_nat p) (bb_operators_voted b)) as [Hlt|Hge].
    + destruct (vi_cast _ (bi_votes _ Hb) _ _ Hp Hlt) as [_ ?]. lia.
    + rewrite (vi_free _ (bi_votes _ Hb) _ _ Hp Hge) in Hiv. simpl in Hiv.
      apply lookup_lt_Some in Hi. rewrite (ti_len _ (bi_tallies _ Hb)) in Hi. unfold MAX_OPERATORS in Hi. lia.
Qed.

(* ------------------------------------------------------------------ *)
(** * Votes are accepted *)

(** There are at most as many distinct ballots as voters. *)
Lemma seq_vmeas_le n k v :
  sumZ (fun i => vmeas MCount (Z.of_nat i) v) (seq k n) <= indic (ov_ballot_index v < Z.of_nat (k + n)).
Proof.
  unfold indic. revert k. induction n as [|n IH]; intros k; simpl.
  - destruct (decide _); lia.
  - specialize (IH (S k)). replace (S k + n)%nat with (k + S n)%nat in IH by lia.
    unfold vmeas at 1. destruct (Z.eqb_spec (ov_ballot_index v) (Z.of_nat k)) as [He|Hne]; [|lia].
    simpl. rewrite sumZ_zero; [destruct (decide _); lia|].
    intros j [Hj _]%elem_of_seq. unfold vmeas. rewrite (proj2 (Z.eqb_neq _ _)); lia.
Qed.

Lemma unique_le_voted b : bb_inv b -> bb_unique_ballots b <= bb_operators_voted b.
Proof.
  intros Hb. destruct (bi_tallies _ Hb) as [Hl Hw Hok Hu _], (bi_votes _ Hb) as [Hvl _ Hr _ Hf _].
  rewrite Hu, count_sumZ.
  transitivity (sumZ (tmeas MCount) (bb_ballot_tallies b)).
  { apply sumZ_le. intros t [i Hi]%list_elem_of_lookup. pose proof (Hok _ _ Hi) as Ht.
    unfold tally_ok in Ht. destruct (BallotTally.is_valid t) eqn:Ev.
    - rewrite indic_true by done. simpl. lia.
    - rewrite indic_false by done. subst t. done. }
  rewrite (sumZ_seq _ (fun i => vsum MCount (Z.of_nat i) (bb_operator_votes b)) _ 0).
  2: { intros i t Hi. rewrite (bi_acct _ Hb MCount i t I Hi). simpl. lia. }
  unfold vsum. rewrite sumZ_swap, Hl.
  transitivity (count (fun v => ov_ballot_index v < 256) (bb_operator_votes b)).
  { rewrite count_sumZ. apply sumZ_le. intros v _. apply (seq_vmeas_le 256 0 v). }
  set (n := Z.to_nat (bb_operators_voted b)).
  rewrite <- (take_drop n (bb_operator_votes b)), count_app.
  rewrite (count_none _ (drop n _)).
  - pose proof (count_bounds (fun v => ov_ballot_index v < 256) (take n (bb_operator_votes b))) as [_ Hc].
    rewrite length_take in Hc. lia.
  - intros v [i Hi]%list_elem_of_lookup. rewrite lookup_drop in Hi.
    rewrite (Hf _ _ Hi) by lia. simpl. lia.
Qed.

(** The total of a measure over all votes bounds every tally. *)
Definition headroom (b : BallotBox) (w : StakeWeights) : Prop :=
  forall μ, measure_ok μ -> μ <> MCount ->
    sumZ (fun v => wmeas μ (ov_stake_weights v)) (bb_operator_votes b) + wmeas μ w < U128.

Lemma vsum_le_total μ i vs :
  Forall (fun v => sw_wf (ov_stake_weights v)) vs ->
  vsum μ i vs <= sumZ (fun v => wmeas μ (ov_stake_weights v)) vs.
Proof.
  intros HF. apply sumZ_le. intros v Hv. pose proof (Forall_In _ _ _ HF Hv) as Hw. simpl in Hw.
  unfold vmeas. destruct (_ =? _); [done|]. by apply wmeas_nonneg.
Qed.

Lemma increment_or_create_ok b ballot w :
  bb_inv b -> sw_wf w -> headroom b w -> bb_operators_voted b < 256 ->
  is_ok (BallotBox.increment_or_create_ballot_tally b ballot w).
Proof.
  intros Hb Hw Hh Hv. pose proof (unique_le_voted b Hb) as Hle.
  pose proof (bi_tallies _ Hb) as Hti. unfold BallotBox.increment_or_create_ballot_tally.
  destruct (list_find _ (bb_ballot_tallies b)) as [[k t]|] eqn:Ef.
  - apply list_find_Some in Ef as (Hk & _).
    pose proof (Forall_lookup_1 _ _ _ _ (ti_wf _ Hti) Hk) as Hwt.
    assert (Hm : forall μ, measure_ok μ -> μ <> MCount -> tmeas μ t + wmeas μ w < U128).
    { intros μ Hμ Hne. rewrite (bi_acct _ Hb μ k t Hμ Hk).
      pose proof (vsum_le_total μ (Z.of_nat k) _ (vi_wf _ (bi_votes _ Hb))).
      specialize (Hh μ Hμ Hne). lia. }
    assert (Hadd : StakeWeights.increment (bt_stake_weights t) w = Ok (vadd (bt_stake_weights t) w)).
    { apply increment_spec; [done|done|]. split; [done|]. apply vadd_wf_intro; try done.
      - by apply (Hm MTotal).
      - intros i Hi. by apply (Hm (MGroup i)). }
    assert (Hc : bt_tally t <= 256).
    { pose proof (bi_acct _ Hb MCount k t I Hk) as Hc. simpl in Hc. rewrite Hc.
      pose proof (vsum_le_total MCount (Z.of_nat k) _ (vi_wf _ (bi_votes _ Hb))) as Hs.
      rewrite (sumZ_ext _ (fun _ => 1)) in Hs by done.
      assert (forall l : list OperatorVote, sumZ (fun _ => 1) l = Z.of_nat (length l)) as Hone
        by (clear; induction l; simpl; lia).
      rewrite Hone, (vi_len _ (bi_votes _ Hb)) in Hs. unfold MAX_OPERATORS in Hs. lia. }
    unfold BallotTally.increment_tally. rewrite Hadd. simpl. rewrite checked_add_ok by lia. by eexists.
  - clear Ef. destruct (list_find _ (bb_ballot_tallies b)) as [[k t]|] eqn:Ef2.
    + rewrite checked_add_ok by lia. by eexists.
    + exfalso. rewrite list_find_None in Ef2.
      destruct (count_full_None (fun t => BallotTally.is_valid t = true) (bb_ballot_tallies b)) as (i & x & Hi & Hx).
      { rewrite (ti_len _ Hti). rewrite (ti_unique _ Hti) in Hle. unfold MAX_OPERATORS. lia. }
      pose proof (Forall_lookup_1 _ _ _ _ Ef2 Hi) as Hn.
      by apply Hn, not_true_is_false.
Qed.

Lemma retract_vote_ok b p v i w :
  tallies_inv b -> votes_inv b -> acct b (pend_at i w) -> sw_wf w ->
  bb_operator_votes b !! p = Some v -> Z.of_nat p < bb_operators_voted b ->
  is_ok (BallotBox.retract_vote b v (bb_unique_ballots b)).
Proof.
  intros Hti Hvi Hac Hw Hp Hlt. destruct (vi_cast _ Hvi _ _ Hp Hlt) as [_ Hk].
  unfold BallotBox.retract_vote. set (k := Z.to_nat (ov_ballot_index v)).
  destruct (bb_ballot_tallies b !! k) as [t|] eqn:Ht; [|by eexists].
  pose proof (Forall_lookup_1 _ _ _ _ (ti_wf _ Hti) Ht) as Hwt. simpl in Hwt.
  pose proof (Forall_lookup_1 _ _ _ _ (vi_wf _ Hvi) Hp) as Hwv. simpl in Hwv.
  assert (Hm : forall μ, measure_ok μ -> wmeas μ (ov_stake_weights v) <= tmeas μ t).
  { intros μ Hμ. rewrite (Hac μ k t Hμ Ht).
    pose proof (vsum_elem_le μ (Z.of_nat k) _ _ _ (vi_wf _ Hvi) Hp) as Hv.
    unfold vmeas in Hv. rewrite (proj2 (Z.eqb_eq _ _)) in Hv by lia.
    assert (0 <= pend_at i w μ (Z.of_nat k)); [|lia].
    unfold pend_at. destruct (_ =? _); [by apply wmeas_nonneg|done]. }
  pose proof (Hm MCount I) as Hc. simpl in Hc.
  assert (Hsub : StakeWeights.decrement (bt_stake_weights t) (ov_stake_weights v)
    = Ok (vsub (bt_stake_weights t) (ov_stake_weights v))).
  { apply decrement_spec; [done|done|]. split; [done|]. apply vsub_wf_intro; try done.
    - by apply (Hm MTotal).
    - intros j Hj. by apply (Hm (MGroup j)). }
  unfold BallotTally.decrement_tally. rewrite Hsub. simpl. rewrite (checked_sub_ok (bt_tally t) 1) by lia. simpl.
  destruct (_ =? 0); [|by eexists].
  destruct (tally_ok_valid _ _ (ti_ok _ Hti _ _ Ht) Hc) as [Hv _].
  rewrite checked_sub_ok; [by eexists|]. rewrite (ti_unique _ Hti). by eapply count_pos.
Qed.

Lemma record_vote_ok b op nv u c i q x :
  (i <= q)%nat -> bb_operator_votes b !! q = Some x -> OperatorVote.is_empty x = true ->
  bb_operators_voted b + 1 < U64 ->
  (forall p v, bb_operator_votes b !! p = Some v -> ov_operator v = op ->
     c = false /\ is_ok (BallotBox.retract_vote b v u)) ->
  is_ok (BallotBox.record_vote b op nv u c i (drop i (bb_operator_votes b))).
Proof.
  intros Hiq Hq He Hlt Hop. remember (q - i)%nat as d eqn:Hd. revert i Hiq Hd.
  induction d as [|d IH]; intros i Hiq Hd.
  all: destruct (lookup_lt_is_Some_2 (bb_operator_votes b) i) as [v Hv];
    [apply lookup_lt_Some in Hq; lia|].
  all: rewrite (drop_S _ _ _ Hv); simpl.
  all: destruct (bool_decide_reflect (ov_operator v = op)) as [Heq|Hne];
    [destruct (Hop _ _ Hv Heq) as [-> [b1 Hb1]]; rewrite Hb1; by eexists|].
  - assert (i = q) as -> by lia. simplify_eq. rewrite He, checked_add_ok by lia. by eexists.
  - destruct (OperatorVote.is_empty v); [rewrite checked_add_ok by lia; by eexists|].
    apply IH; lia.
Qed.

Lemma cast_vote_ok b op ballot w slot valid :
  bb_inv b -> op <> Pubkey_default -> sw_wf w -> ballot_is_valid ballot = true ->
  BallotBox.is_voting_valid b slot valid = Ok true ->
  bb_operators_voted b < 256 -> headroom b w ->
  BallotBox.is_consensus_reached b = false \/ vote_of b op = None ->
  is_ok (BallotBox.cast_vote b op ballot w slot valid).
Proof.
  intros Hb Hop Hw Hbal Hval Hroom Hh Hold.
  destruct (increment_or_create_ok b ballot w Hb Hw Hh Hroom) as [[b1 i] Hinc].
  unfold BallotBox.cast_vote. rewrite Hval. simpl. rewrite Hbal. simpl. rewrite Hinc. simpl.
  destruct Hb as [Hti Hvi Hwi Hac]. assert (Hb : bb_inv b) by done.
  destruct (increment_or_create_spec _ _ _ _ _ Hti Hwi Hac Hw Hbal Hinc)
    as (Hti1 & Hwi1 & Hac1 & Hb1 & _).
  assert (Hvs : bb_operator_votes b1 = bb_operator_votes b) by (by rewrite Hb1).
  assert (Hvo : bb_operators_voted b1 = bb_operators_voted b) by (by rewrite Hb1).
  assert (Hvi1 : votes_inv b1) by (rewrite Hb1; destruct Hvi; split; done).
  assert (Hcr : BallotBox.is_consensus_reached b1 = BallotBox.is_consensus_reached b)
    by (unfold BallotBox.is_consensus_reached; by rewrite Hb1).
  clear Hb1. pose proof (vi_range _ Hvi1) as Hr. set (q := Z.to_nat (bb_operators_voted b1)).
  destruct (lookup_lt_is_Some_2 (bb_operator_votes b1) q) as [x Hx].
  { rewrite (vi_len _ Hvi1). unfold MAX_OPERATORS. lia. }
  apply (record_vote_ok b1 op _ _ _ 0 q x); [lia|done| |lia|].
  - by rewrite (vi_free _ Hvi1 _ _ Hx) by lia.
  - intros p v Hp Heq.
    assert (Hpv : Z.of_nat p < bb_operators_voted b1).
    { apply Z.nle_gt. intros Hge. rewrite (vi_free _ Hvi1 _ _ Hp Hge) in Heq. by simpl in Heq. }
    split; [|by eapply retract_vote_ok].
    rewrite Hcr. destruct Hold as [?|Hnone]; [done|exfalso].
    rewrite Hvs in Hp. rewrite (vote_of_Some b p v op Hvi Hp Heq Hop) in Hnone.
    destruct (vote_tally b p v Hb Hp) as (t & Ht & _); [congruence|].
    unfold ballot_voted in Hnone. by rewrite Ht in Hnone.
Qed.
