(* ===== verification/BallotBoxTheorems.v ===== *)
(** The promises of the ballot box: the box implements a map from operators to
    (ballot, stake), its tallies are the sums of that map, consensus needs two
    thirds of the stake, a decided ballot never changes, and valid votes are
    accepted.  Witnesses run the operations on a small election. *)

From S2P Require Import Prelude Errors External Constants FeeGroups StakeWeight BallotBox BallotBoxProps.

#[local] Arguments gw : simpl never.
#[local] Arguments ONE : simpl never.

(** C1: casting a vote keeps the box's invariant (every tally is the sum of
    the votes that point to it, one vote per operator, one tally per ballot),
    records the operator's ballot and stake as its only vote, and leaves every
    other operator's vote alone. *)
Theorem cast_vote_refines b op ballot w slot valid b' :
  bb_inv b -> op <> Pubkey_default -> sw_wf w ->
  BallotBox.cast_vote b op ballot w slot valid = Ok b' ->
  bb_inv b' /\ vote_of b' op = Some (ballot, w) /\
  forall op', op' <> op -> op' <> Pubkey_default -> vote_of b' op' = vote_of b op'.
Proof. apply cast_vote_map. Qed.

(** C2: in every state the program can reach, a valid tally holds exactly
    the number of votes for its ballot, their voting stake, and their stake in
    each fee group. *)
Theorem reachable_tally_is_sum_of_votes `{L : PreciseNumberLaws} ncn epoch bump slot b i t :
  star bb_step (BallotBox.new ncn epoch bump slot) b ->
  bb_ballot_tallies b !! i = Some t -> BallotTally.is_valid t = true ->
  bt_index t = Z.of_nat i /\ 1 <= bt_tally t /\
  bt_tally t = sumZ (votes_for b (bt_ballot t) MCount) (bb_operator_votes b) /\
  stake_weight (bt_stake_weights t) = sumZ (votes_for b (bt_ballot t) MTotal) (bb_operator_votes b) /\
  forall k, (k < 8)%nat ->
    gw k (bt_stake_weights t) = sumZ (votes_for b (bt_ballot t) (MGroup k)) (bb_operator_votes b).
Proof.
  intros Hstar Hi Hv.
  assert (Hb : bb_inv b) by (eapply star_invariant; eauto using bb_step_inv, new_inv).
  pose proof (ti_ok _ (bi_tallies _ Hb) _ _ Hi) as Hok. unfold tally_ok in Hok. rewrite Hv in Hok.
  split; [apply Hok|]. split; [apply Hok|].
  split; [by apply (tally_sum b i t MCount)|]. split; [by apply (tally_sum b i t MTotal)|].
  intros k Hk. by apply (tally_sum b i t (MGroup k)).
Qed.

(** Two tallies together hold at most the stake of all votes. *)
Lemma two_tallies_le b i j t u :
  bb_inv b -> i <> j -> bb_ballot_tallies b !! i = Some t -> bb_ballot_tallies b !! j = Some u ->
  stake_weight (bt_stake_weights t) + stake_weight (bt_stake_weights u)
  <= sumZ (fun v => stake_weight (ov_stake_weights v)) (bb_operator_votes b).
Proof.
  intros Hb Hij Hi Hj.
  pose proof (bi_acct _ Hb MTotal i t I Hi) as Ht. pose proof (bi_acct _ Hb MTotal j u I Hj) as Hu.
  simpl in Ht, Hu. rewrite Ht, Hu, !Z.add_0_r. unfold vsum. rewrite <- sumZ_add.
  apply sumZ_le. intros v Hv. pose proof (Forall_In _ _ _ (vi_wf _ (bi_votes _ Hb)) Hv) as Hw.
  pose proof (wmeas_nonneg MTotal _ Hw) as H0. simpl in H0. unfold vmeas. simpl.
  destruct (Z.eqb_spec (ov_ballot_index v) (Z.of_nat i)), (Z.eqb_spec (ov_ballot_index v) (Z.of_nat j)); lia.
Qed.

(** C3: tallying an undecided box declares the ballot with the largest
    stake the winner, at the current slot, when that stake is at least two
    thirds of the total; the ballot it declares has at least two thirds of the
    total less one part in 10^11, and when the votes' stake does not exceed the
    total it beats every other ballot.  A decided box is left alone. *)
Theorem tally_votes_consensus `{L : PreciseNumberLaws} b W slot :
  bb_inv b -> fits U128 W -> 0 < W ->
  exists i t b', bb_ballot_tallies b !! i = Some t /\
    (forall j u, bb_ballot_tallies b !! j = Some u ->
       stake_weight (bt_stake_weights u) <= stake_weight (bt_stake_weights t)) /\
    BallotBox.tally_votes b W slot = Ok b' /\
    (BallotBox.is_consensus_reached b = true -> b' = b) /\
    (BallotBox.is_consensus_reached b = false ->
       (b' = b /\ 3 * stake_weight (bt_stake_weights t) < 2 * W) \/
       (bb_winning_ballot b' = bt_ballot t /\ ballot_is_valid (bt_ballot t) = true /\
        bb_slot_consensus_reached b' = slot /\ vote_of b' = vote_of b /\ bb_inv b' /\
        1333333333331 * W <= 2 * ONE * stake_weight (bt_stake_weights t) /\
        (sumZ (fun v => stake_weight (ov_stake_weights v)) (bb_operator_votes b) <= W ->
         forall j u, j <> i -> bb_ballot_tallies b !! j = Some u ->
           stake_weight (bt_stake_weights u) < stake_weight (bt_stake_weights t)))).
Proof.
  intros Hb HW HW0. destruct (tally_votes_spec b W slot Hb HW HW0) as (i & t & r & Hi & Hmax & Hr & Hv & Hrun).
  pose proof (Forall_lookup_1 _ _ _ _ (ti_wf _ (bi_tallies _ Hb)) Hi) as (Hft & _).
  destruct (reaches_consensus_spec _ W Hft HW HW0) as (r' & Hr' & H1 & H2).
  assert (r' = r) as -> by congruence.
  eexists i, t, _. split; [done|]. split; [done|]. split; [exact Hrun|].
  destruct (BallotBox.is_consensus_reached b); simpl; [done|]. split; [done|]. intros _.
  destruct r.
  - right. specialize (H2 eq_refl). specialize (Hv eq_refl).
    split; [done|]. split; [done|]. split; [done|]. split; [done|].
    split; [by eapply set_winner_inv|]. split; [done|].
    intros Hsum j u Hj Hu. pose proof (two_tallies_le b j i u t Hb Hj Hu Hi).
    unfold ONE in *. lia.
  - left. split; [done|]. destruct (Z.lt_ge_cases (3 * stake_weight (bt_stake_weights t)) (2 * W)) as [?|Hge]; [done|].
    by specialize (H1 Hge).
Qed.

(** C4: once decided, by consensus or by the tie breaker, the winning
    ballot, the consensus slot and every recorded vote stay as they are
    through every later operation. *)
Theorem decided_ballot_final `{L : PreciseNumberLaws} b b' :
  bb_inv b -> BallotBox.is_consensus_reached b = true -> star bb_step b b' ->
  bb_winning_ballot b' = bb_winning_ballot b /\
  bb_slot_consensus_reached b' = bb_slot_consensus_reached b /\
  BallotBox.is_consensus_reached b' = true /\
  forall op x, op <> Pubkey_default -> vote_of b op = Some x -> vote_of b' op = Some x.
Proof.
  intros Hb Hc Hs. destruct (star_keeps_decision _ _ Hs Hb Hc) as ((Hw & Hsl & Hv) & _).
  split; [done|]. split; [done|]. split; [|done].
  unfold BallotBox.is_consensus_reached in *. by rewrite Hw, Hsl.
Qed.

(** after the decision only operators that have not voted can still
    vote, only within the configured number of slots, and never after a tie
    breaker. *)
Theorem late_vote_window b op ballot w slot valid b' :
  bb_inv b -> op <> Pubkey_default -> sw_wf w -> BallotBox.is_consensus_reached b = true ->
  BallotBox.cast_vote b op ballot w slot valid = Ok b' ->
  BallotBox.tie_breaker_set b = false /\ slot <= bb_slot_consensus_reached b + valid /\
  vote_of b op = None.
Proof.
  intros Hb Hop Hw Hc Hrun.
  split; [|split]; [| |by eapply cast_vote_new_voter].
  all: unfold BallotBox.cast_vote in Hrun; res_inv; bool_prop; subst x;
    apply is_voting_valid_spec in Hx as [Hx|(Hs & _ & Hle)]; [congruence|].
  - unfold BallotBox.tie_breaker_set. by rewrite (proj2 (Z.eqb_neq _ _) Hs).
  - done.
Qed.

(** A vote with a valid ballot is accepted whenever the voting window
    is open, a vote slot is free, the stakes cannot overflow 128 bits, and the
    operator does not try to change its vote after the decision. *)
Theorem cast_vote_accepts b op ballot w slot valid :
  bb_inv b -> op <> Pubkey_default -> sw_wf w -> ballot_is_valid ballot = true ->
  BallotBox.is_voting_valid b slot valid = Ok true ->
  bb_operators_voted b < 256 -> headroom b w ->
  BallotBox.is_consensus_reached b = false \/ vote_of b op = None ->
  exists b', BallotBox.cast_vote b op ballot w slot valid = Ok b'.
Proof. apply cast_vote_ok. Qed.

(** the tie breaker is accepted exactly when the box is undecided,
    [epochs_before_stall] epochs have passed, and its root is that of a ballot
    that has been voted for; it then only sets the winning ballot. *)
Theorem tie_breaker_exactly b root epoch stall b' :
  BallotBox.set_tie_breaker_ballot b root epoch stall = Ok b' <->
  BallotBox.is_consensus_reached b = false /\ bb_epoch b + stall < U64 /\ bb_epoch b + stall <= epoch /\
  (exists i t, bb_ballot_tallies b !! i = Some t /\ bt_ballot t = Ballot.new root) /\
  existsb (fun byte => negb (byte =? 0)) root = true /\
  b' = BallotBox.set_winning_ballot b (Ballot.new root).
Proof. apply set_tie_breaker_ballot_spec. Qed.

(** In a decided reachable box the winning ballot's tally is found: it
    is the tally of the winning ballot and somebody voted for it. *)
Theorem winning_tally_found `{L : PreciseNumberLaws} ncn epoch bump slot b :
  star bb_step (BallotBox.new ncn epoch bump slot) b ->
  BallotBox.is_consensus_reached b = true ->
  exists t, BallotBox.get_winning_ballot_tally b = Ok t /\
    BallotBox.get_winning_ballot b = Ok (bt_ballot t) /\ 1 <= bt_tally t /\
    stake_weight (bt_stake_weights t) = sumZ (votes_for b (bt_ballot t) MTotal) (bb_operator_votes b).
Proof.
  intros Hstar Hc.
  assert (Hb : bb_inv b) by (eapply star_invariant; eauto using bb_step_inv, new_inv).
  destruct (winning_tally_exists b Hb Hc) as (t & j & Hf & Hg & Hj & Hv & H1). exists t.
  split; [done|]. split; [done|]. split; [done|]. by apply (tally_sum b j t MTotal).
Qed.

(* ------------------------------------------------------------------ *)
(** * A small election *)

Module BallotBoxWitness.
Definition stake (n : Z) : StakeWeights := default StakeWeights.default
  (match StakeWeights.snapshot NcnFeeGroup.lst n 10000 with Ok s => Some s | Err _ => None end).
Definition root (n : Z) : hash := replicate 32 n.
Definition b0 : BallotBox := BallotBox.new (key 9) 5 255 100.
Definition run (r : res BallotBox) : BallotBox := match r with Ok b => b | Err _ => b0 end.
Definition b1 := run (BallotBox.cast_vote b0 (key 1) (Ballot.new (root 7)) (stake 70) 101 10).
Definition b2 := run (BallotBox.cast_vote b1 (key 2) (Ballot.new (root 8)) (stake 20) 102 10).
Definition b3 := run (BallotBox.tally_votes (H := U256Precise.ops) b2 100 103).
Definition b4 := run (BallotBox.cast_vote b3 (key 3) (Ballot.new (root 8)) (stake 5) 110 10).

Lemma wit_stake_wf n : bool_decide (sw_wf (stake n)) = true -> sw_wf (stake n).
Proof. apply bool_decide_eq_true. Qed.

Lemma wit_step1 : bb_step (H := U256Precise.ops) b0 b1.
Proof.
  apply (step_cast_vote _ _ (key 1) (Ballot.new (root 7)) (stake 70) 101 10); [done| |vm_compute; reflexivity].
  apply (bool_decide_unpack _). vm_compute. exact I.
Qed.

Lemma wit_step2 : bb_step (H := U256Precise.ops) b1 b2.
Proof.
  apply (step_cast_vote _ _ (key 2) (Ballot.new (root 8)) (stake 20) 102 10); [done| |vm_compute; reflexivity].
  apply (bool_decide_unpack _). vm_compute. exact I.
Qed.

Lemma wit_steps : star (bb_step (H := U256Precise.ops)) b0 b2.
Proof.
  apply (star_step _ b1); [|apply (star_step _ b2); [|apply star_refl]].
  - apply wit_step1.
  - apply wit_step2.
Qed.

Lemma wit_decides : bb_step (H := U256Precise.ops) b2 b3.
Proof. apply (step_tally_votes _ _ 100 103); [by split|vm_compute; reflexivity]. Qed.

Lemma wit_steps_decided : star (bb_step (H := U256Precise.ops)) b0 b3.
Proof.
  eapply star_trans; [apply wit_steps|]. eapply star_step; [apply wit_decides|apply star_refl].
Qed.

Lemma wit_inv b : star (bb_step (H := U256Precise.ops)) b0 b -> bb_inv b.
Proof.
  intros Hs. eapply (star_invariant _ bb_inv); [|exact Hs|apply new_inv].
  intros s s'. apply (bb_step_inv (L := U256Precise.laws)).
Qed.
End BallotBoxWitness.
Import BallotBoxWitness.

Lemma cast_vote_refines_witness :
  vote_of b2 (key 2) = Some (Ballot.new (root 8), stake 20) /\ vote_of b2 (key 1) = vote_of b1 (key 1).
Proof.
  destruct (cast_vote_refines b1 (key 2) (Ballot.new (root 8)) (stake 20) 102 10 b2) as (_ & Hv & Ho).
  - apply wit_inv. eapply star_step; [apply wit_step1|apply star_refl].
  - done.
  - apply (bool_decide_unpack _). vm_compute. exact I.
  - vm_compute. reflexivity.
  - split; [exact Hv|]. apply Ho; done.
Defined.

Lemma reachable_tally_is_sum_of_votes_witness :
  stake_weight (bt_stake_weights (nth 0 (bb_ballot_tallies b3) BallotTally.default))
  = sumZ (votes_for b3 (bt_ballot (nth 0 (bb_ballot_tallies b3) BallotTally.default)) MTotal) (bb_operator_votes b3).
Proof.
  destruct (reachable_tally_is_sum_of_votes (L := U256Precise.laws) (key 9) 5 255 100 b3 0
    (nth 0 (bb_ballot_tallies b3) BallotTally.default)) as (_ & _ & _ & Ht & _).
  - apply wit_steps_decided.
  - vm_compute. reflexivity.
  - vm_compute. reflexivity.
  - exact Ht.
Defined.

Lemma tally_votes_consensus_witness :
  exists i t b', bb_ballot_tallies b2 !! i = Some t /\
    BallotBox.tally_votes (H := U256Precise.ops) b2 100 103 = Ok b' /\
    (b' = b2 /\ 3 * stake_weight (bt_stake_weights t) < 200 \/ bb_winning_ballot b' = bt_ballot t).
Proof.
  destruct (tally_votes_consensus (L := U256Precise.laws) b2 100 103) as (i & t & b' & Hi & _ & Hr & _ & Hc).
  - apply wit_inv, wit_steps.
  - by split.
  - done.
  - exists i, t, b'. split; [exact Hi|]. split; [exact Hr|].
    destruct Hc as [Hc|(Hc & _)]; [vm_compute; reflexivity|by left|by right].
Defined.

Lemma decided_ballot_final_witness :
  BallotBox.cast_vote b3 (key 3) (Ballot.new (root 8)) (stake 5) 110 10 = Ok b4 /\
  bb_winning_ballot b4 = bb_winning_ballot b3 /\ bb_slot_consensus_reached b4 = bb_slot_consensus_reached b3.
Proof.
  split; [vm_compute; reflexivity|].
  destruct (decided_ballot_final (L := U256Precise.laws) b3 b4) as (Hw & Hs & _).
  - apply wit_inv, wit_steps_decided.
  - vm_compute. reflexivity.
  - eapply star_step; [|apply star_refl].
    apply (step_cast_vote _ _ (key 3) (Ballot.new (root 8)) (stake 5) 110 10); [done| |vm_compute; reflexivity].
    apply (bool_decide_unpack _). vm_compute. exact I.
  - split; [exact Hw|exact Hs].
Defined.

Lemma late_vote_window_witness :
  BallotBox.tie_breaker_set b3 = false /\ 110 <= bb_slot_consensus_reached b3 + 10.
Proof.
  destruct (late_vote_window b3 (key 3) (Ballot.new (root 8)) (stake 5) 110 10 b4) as (Ht & Hs & _).
  - apply wit_inv, wit_steps_decided.
  - done.
  - apply (bool_decide_unpack _). vm_compute. exact I.
  - vm_compute. reflexivity.
  - vm_compute. reflexivity.
  - split; [exact Ht|exact Hs].
Defined.

Lemma cast_vote_accepts_witness :
  exists b', BallotBox.cast_vote b0 (key 1) (Ballot.new (root 7)) (stake 70) 101 10 = Ok b'.
Proof.
  apply cast_vote_accepts.
  - apply new_inv.
  - done.
  - apply (bool_decide_unpack _). vm_compute. exact I.
  - reflexivity.
  - reflexivity.
  - done.
  - intros μ Hμ Hne. destruct μ as [| |k]; [done|done|].
    rewrite sumZ_zero; [|intros v [i Hi]%list_elem_of_lookup; apply lookup_replicate in Hi as [-> _]; apply gw_default].
    do 8 (destruct k as [|k]; [vm_compute; reflexivity|]). simpl in Hμ. lia.
  - by left.
Defined.

Lemma winning_tally_found_witness :
  exists t, BallotBox.get_winning_ballot_tally b3 = Ok t /\ 1 <= bt_tally t.
Proof.
  destruct (winning_tally_found (L := U256Precise.laws) (key 9) 5 255 100 b3) as (t & Ht & _ & H1 & _).
  - apply wit_steps_decided.
  - vm_compute. reflexivity.
  - exists t. split; [exact Ht|exact H1].
Defined.
