(* ===== verification/BaseRewardRouter.v ===== *)
(** The base reward router (core/src/base_reward_router.rs): lamports that
    arrive for an epoch are split over the fee groups, the NCN groups' shares are
    routed to the operators that voted for the winning ballot, and the amounts
    are distributed.  Routing to operators is bounded per call; its state is
    saved and resumed. *)

From Stdlib Require Import String.
From S2P Require Import Prelude Errors External Constants Accounts FeeGroups Fees StakeWeight BallotBox.

Record BaseRewardRouterRewards := mkRewards { rewards : Z }.

#[export] Instance BaseRewardRouterRewards_eq_dec : EqDecision BaseRewardRouterRewards.
Proof. solve_decision. Defined.

Definition no_rewards : list BaseRewardRouterRewards := replicate NcnFeeGroup.FEE_GROUP_COUNT (mkRewards 0).

(* ------------------------------------------------------------------ *)
(** * Reward routes *)

Record NcnRewardRoute := mkNcnRewardRoute {
  nr_operator : Pubkey;
  nr_rewards : list BaseRewardRouterRewards;
}.

#[export] Instance NcnRewardRoute_eq_dec : EqDecision NcnRewardRoute.
Proof. solve_decision. Defined.

Module NcnRewardRoute.
Definition default : NcnRewardRoute := mkNcnRewardRoute Pubkey_default no_rewards.

Definition get_rewards (self : NcnRewardRoute) (g : NcnFeeGroup) : res Z :=
  group_index ← NcnFeeGroup.group_index g;
  r ← aget (nr_rewards self) group_index; mret (rewards r).

Definition is_empty (self : NcnRewardRoute) : bool := bool_decide (nr_operator self = Pubkey_default).

Definition has_rewards (self : NcnRewardRoute) : res bool :=
  foldM (fun acc g => if acc : bool then Ok true else r ← get_rewards self g; mret (0 <? r)) false NcnFeeGroup.all_groups.

Definition set_rewards (self : NcnRewardRoute) (g : NcnFeeGroup) (r : Z) : res NcnRewardRoute :=
  group_index ← NcnFeeGroup.group_index g;
  l ← aset (nr_rewards self) group_index (mkRewards r);
  mret (mkNcnRewardRoute (nr_operator self) l).

Definition new (operator : Pubkey) (g : NcnFeeGroup) (r : Z) : res NcnRewardRoute :=
  set_rewards (mkNcnRewardRoute operator no_rewards) g r.

Definition increment_rewards (self : NcnRewardRoute) (g : NcnFeeGroup) (r : Z) : res NcnRewardRoute :=
  current_rewards ← get_rewards self g;
  new_rewards ← ok_or (checked_add U64 current_rewards r) (Tip ArithmeticOverflow);
  set_rewards self g new_rewards.

Definition decrement_rewards (self : NcnRewardRoute) (g : NcnFeeGroup) (r : Z) : res NcnRewardRoute :=
  current_rewards ← get_rewards self g;
  new_rewards ← ok_or (checked_sub current_rewards r) (Tip ArithmeticOverflow);
  set_rewards self g new_rewards.
End NcnRewardRoute.

(* ------------------------------------------------------------------ *)
(** * The router *)

(** Where an unfinished routing stopped ([last_ncn_group_index],
    [last_vote_index], [last_rewards_to_process]). *)
Record RoutingState := mkRoutingState {
  last_ncn_group_index : Z;
  last_vote_index : Z;
  last_rewards_to_process : Z;
}.

#[export] Instance RoutingState_eq_dec : EqDecision RoutingState.
Proof. solve_decision. Defined.

Record BaseRewardRouter := mkBaseRewardRouter {
  br_ncn : Pubkey;
  br_epoch : Z;
  br_bump : Z;
  br_slot_created : Z;
  br_total_rewards : Z;
  br_reward_pool : Z;
  br_rewards_processed : Z;
  br_routing : RoutingState;
  br_base_fee_group_rewards : list BaseRewardRouterRewards;
  br_ncn_fee_group_rewards : list BaseRewardRouterRewards;
  br_routes : list NcnRewardRoute;
}.

#[export] Instance BaseRewardRouter_eq_dec : EqDecision BaseRewardRouter.
Proof. solve_decision. Defined.

Module BaseRewardRouter.
Definition SIZE : Z := 8 + (32 + 8 + 1 + 8 + 8 + 8 + 8 + 128 + 1 + 2 + 8 + 8 * 8 + 8 * 8 + 256 * (32 + 8 * 8)).

Definition NO_LAST_NCN_GROUP_INDEX : Z := u8_max.
Definition NO_LAST_VOTE_INDEX : Z := u16_max.
Definition NO_LAST_REWARDS_TO_PROCESS : Z := u64_max.
Definition MAX_ROUTE_BASE_ITERATIONS : Z := 30.

Definition not_routing : RoutingState :=
  mkRoutingState NO_LAST_NCN_GROUP_INDEX NO_LAST_VOTE_INDEX NO_LAST_REWARDS_TO_PROCESS.

(** Field updates. *)
Definition with_pool (self : BaseRewardRouter) (total pool : Z) : BaseRewardRouter :=
  mkBaseRewardRouter (br_ncn self) (br_epoch self) (br_bump self) (br_slot_created self) total pool
    (br_rewards_processed self) (br_routing self) (br_base_fee_group_rewards self)
    (br_ncn_fee_group_rewards self) (br_routes self).
Definition with_processed (self : BaseRewardRouter) (processed : Z) : BaseRewardRouter :=
  mkBaseRewardRouter (br_ncn self) (br_epoch self) (br_bump self) (br_slot_created self)
    (br_total_rewards self) (br_reward_pool self) processed (br_routing self)
    (br_base_fee_group_rewards self) (br_ncn_fee_group_rewards self) (br_routes self).
Definition with_routing (self : BaseRewardRouter) (s : RoutingState) : BaseRewardRouter :=
  mkBaseRewardRouter (br_ncn self) (br_epoch self) (br_bump self) (br_slot_created self)
    (br_total_rewards self) (br_reward_pool self) (br_rewards_processed self) s
    (br_base_fee_group_rewards self) (br_ncn_fee_group_rewards self) (br_routes self).
Definition with_base (self : BaseRewardRouter) (l : list BaseRewardRouterRewards) : BaseRewardRouter :=
  mkBaseRewardRouter (br_ncn self) (br_epoch self) (br_bump self) (br_slot_created self)
    (br_total_rewards self) (br_reward_pool self) (br_rewards_processed self) (br_routing self)
    l (br_ncn_fee_group_rewards self) (br_routes self).
Definition with_ncn_rewards (self : BaseRewardRouter) (l : list BaseRewardRouterRewards) : BaseRewardRouter :=
  mkBaseRewardRouter (br_ncn self) (br_epoch self) (br_bump self) (br_slot_created self)
    (br_total_rewards self) (br_reward_pool self) (br_rewards_processed self) (br_routing self)
    (br_base_fee_group_rewards self) l (br_routes self).
Definition with_routes (self : BaseRewardRouter) (l : list NcnRewardRoute) : BaseRewardRouter :=
  mkBaseRewardRouter (br_ncn self) (br_epoch self) (br_bump self) (br_slot_created self)
    (br_total_rewards self) (br_reward_pool self) (br_rewards_processed self) (br_routing self)
    (br_base_fee_group_rewards self) (br_ncn_fee_group_rewards self) l.

Definition new (ncn : Pubkey) (ncn_epoch bump slot_created : Z) : BaseRewardRouter :=
  mkBaseRewardRouter ncn ncn_epoch bump slot_created 0 0 0 not_routing no_rewards no_rewards
    (replicate MAX_OPERATORS NcnRewardRoute.default).

Definition reset_routing_state (self : BaseRewardRouter) : BaseRewardRouter := with_routing self not_routing.

(** [initialize] assigns every field and resets the routing state. *)
Definition initialize (self : BaseRewardRouter) (ncn : Pubkey) (ncn_epoch bump current_slot : Z) : BaseRewardRouter :=
  reset_routing_state
    (mkBaseRewardRouter ncn ncn_epoch bump current_slot 0 0 0 (br_routing self) no_rewards no_rewards
       (replicate MAX_OPERATORS NcnRewardRoute.default)).

Section pda.
Context `{Solana}.

Definition seeds (ncn : Pubkey) (ncn_epoch : Z) : list (list Z) :=
  [bytes_of_string "base_reward_router"; to_bytes ncn; to_le_bytes 8 ncn_epoch].

Definition find_program_address (program_id ncn : Pubkey) (epoch : Z) : Pubkey * Z * list (list Z) :=
  find_pda program_id (seeds ncn epoch).

Definition load (program_id : Pubkey) (account : AccountInfo) (ncn : Pubkey) (epoch : Z)
    (expect_writable : bool) : res unit :=
  let expected_pda := (find_program_address program_id ncn epoch).1.1 in
  check_load program_id account expected_pda (Some (discriminator DBaseRewardRouter)) expect_writable.

Definition load_to_close (program_id : Pubkey) (account_to_close : AccountInfo) (ncn : Pubkey) (epoch : Z) : res unit :=
  load program_id account_to_close ncn epoch true.

Definition rent_cost : res Z := mret (minimum_balance SIZE).
End pda.

(** ** Routing state *)

Definition still_routing (self : BaseRewardRouter) : bool :=
  negb (last_ncn_group_index (br_routing self) =? NO_LAST_NCN_GROUP_INDEX)
  || negb (last_vote_index (br_routing self) =? NO_LAST_VOTE_INDEX)
  || negb (last_rewards_to_process (br_routing self) =? NO_LAST_REWARDS_TO_PROCESS).

Definition resume_routing_state (self : BaseRewardRouter) : nat * nat * Z :=
  if negb (still_routing self) then (0%nat, 0%nat, 0) else
  (Z.to_nat (last_ncn_group_index (br_routing self)), Z.to_nat (last_vote_index (br_routing self)),
   last_rewards_to_process (br_routing self)).

Definition save_routing_state (self : BaseRewardRouter) (ncn_group_index vote_index : nat)
    (rewards_to_process : Z) : BaseRewardRouter :=
  with_routing self (mkRoutingState (cast U8 (Z.of_nat ncn_group_index)) (cast U16 (Z.of_nat vote_index))
    rewards_to_process).

(** ** Reward tallies *)

Definition total_rewards_in_transit (self : BaseRewardRouter) : res Z :=
  ok_or (checked_add U64 (br_reward_pool self) (br_rewards_processed self)) (Tip ArithmeticOverflow).

Definition route_to_reward_pool (self : BaseRewardRouter) (r : Z) : res BaseRewardRouter :=
  if r =? 0 then Ok self else
  total ← ok_or (checked_add U64 (br_total_rewards self) r) (Tip ArithmeticOverflow);
  pool ← ok_or (checked_add U64 (br_reward_pool self) r) (Tip ArithmeticOverflow);
  mret (with_pool self total pool).

Definition increment_rewards_processed (self : BaseRewardRouter) (r : Z) : res BaseRewardRouter :=
  if r =? 0 then Ok self else
  p ← ok_or (checked_add U64 (br_rewards_processed self) r) (Tip ArithmeticOverflow);
  mret (with_processed self p).

Definition decrement_rewards_processed (self : BaseRewardRouter) (r : Z) : res BaseRewardRouter :=
  if r =? 0 then Ok self else
  p ← ok_or (checked_sub (br_rewards_processed self) r) (Tip ArithmeticUnderflowError);
  mret (with_processed self p).

Definition route_from_reward_pool (self : BaseRewardRouter) (r : Z) : res BaseRewardRouter :=
  if r =? 0 then Ok self else
  pool ← ok_or (checked_sub (br_reward_pool self) r) (Tip ArithmeticUnderflowError);
  increment_rewards_processed (with_pool self (br_total_rewards self) pool) r.

(** ** Base fee group rewards *)

Definition base_fee_group_reward (self : BaseRewardRouter) (g : BaseFeeGroup) : res Z :=
  group_index ← BaseFeeGroup.group_index g;
  r ← aget (br_base_fee_group_rewards self) group_index; mret (rewards r).

Definition route_to_base_fee_group_rewards (self : BaseRewardRouter) (g : BaseFeeGroup) (r : Z) : res BaseRewardRouter :=
  if r =? 0 then Ok self else
  group_index ← BaseFeeGroup.group_index g;
  cur ← base_fee_group_reward self g;
  s ← ok_or (checked_add U64 cur r) (Tip ArithmeticOverflow);
  l ← aset (br_base_fee_group_rewards self) group_index (mkRewards s);
  mret (with_base self l).

Definition distribute_base_fee_group_rewards (self : BaseRewardRouter) (g : BaseFeeGroup) : res (BaseRewardRouter * Z) :=
  group_index ← BaseFeeGroup.group_index g;
  r ← base_fee_group_reward self g;
  z ← ok_or (checked_sub r r) (Tip ArithmeticUnderflowError);
  l ← aset (br_base_fee_group_rewards self) group_index (mkRewards z);
  self ← decrement_rewards_processed (with_base self l) r;
  mret (self, r).

(** ** NCN fee group rewards *)

Definition ncn_fee_group_rewards (self : BaseRewardRouter) (g : NcnFeeGroup) : res Z :=
  group_index ← NcnFeeGroup.group_index g;
  r ← aget (br_ncn_fee_group_rewards self) group_index; mret (rewards r).

Definition route_to_ncn_fee_group_rewards (self : BaseRewardRouter) (g : NcnFeeGroup) (r : Z) : res BaseRewardRouter :=
  if r =? 0 then Ok self else
  group_index ← NcnFeeGroup.group_index g;
  cur ← ncn_fee_group_rewards self g;
  s ← ok_or (checked_add U64 cur r) (Tip ArithmeticOverflow);
  l ← aset (br_ncn_fee_group_rewards self) group_index (mkRewards s);
  mret (with_ncn_rewards self l).

Definition route_from_ncn_fee_group_rewards (self : BaseRewardRouter) (g : NcnFeeGroup) (r : Z) : res BaseRewardRouter :=
  if r =? 0 then Ok self else
  group_index ← NcnFeeGroup.group_index g;
  cur ← ncn_fee_group_rewards self g;
  s ← ok_or (checked_sub cur r) (Tip ArithmeticUnderflowError);
  l ← aset (br_ncn_fee_group_rewards self) group_index (mkRewards s);
  mret (with_ncn_rewards self l).

(** ** Reward routes *)

Definition find_route (self : BaseRewardRouter) (operator : Pubkey) : option (nat * NcnRewardRoute) :=
  list_find (fun route => nr_operator route = operator) (br_routes self).

Definition has_operator_reward_route (self : BaseRewardRouter) (operator : Pubkey) : bool :=
  match find_route self operator with Some _ => true | None => false end.

Definition ncn_fee_group_reward_route (self : BaseRewardRouter) (operator : Pubkey) : res NcnRewardRoute :=
  '(_, route) ← ok_or (find_route self operator) (Tip NcnRewardRouteNotFound); mret route.

Definition route_to_ncn_fee_group_reward_route (self : BaseRewardRouter) (g : NcnFeeGroup)
    (operator : Pubkey) (r : Z) : res BaseRewardRouter :=
  if r =? 0 then Ok self else
  match find_route self operator with
  | Some (i, route) =>
      route ← NcnRewardRoute.increment_rewards route g r;
      mret (with_routes self (<[i:=route]> (br_routes self)))
  | None =>
      match find_route self Pubkey_default with
      | Some (i, _) =>
          route ← NcnRewardRoute.new operator g r;
          mret (with_routes self (<[i:=route]> (br_routes self)))
      | None => Err (Tip OperatorRewardListFull)
      end
  end.

Definition distribute_ncn_fee_group_reward_route (self : BaseRewardRouter) (g : NcnFeeGroup)
    (operator : Pubkey) : res (BaseRewardRouter * Z) :=
  match find_route self operator with
  | Some (i, route) =>
      r ← NcnRewardRoute.get_rewards route g;
      route ← NcnRewardRoute.decrement_rewards route g r;
      self ← decrement_rewards_processed (with_routes self (<[i:=route]> (br_routes self))) r;
      mret (self, r)
  | None => Err (Tip OperatorRewardNotFound)
  end.

(** ** Routing *)

Definition route_incoming_rewards (self : BaseRewardRouter) (rent_cost account_balance : Z) : res BaseRewardRouter :=
  total_rewards ← total_rewards_in_transit self;
  incoming_rewards ← ok_or (checked_sub account_balance total_rewards) (Tip ArithmeticUnderflowError);
  rewards_to_route ← ok_or (checked_sub incoming_rewards rent_cost) (Tip ArithmeticUnderflowError);
  route_to_reward_pool self rewards_to_route.

Section routing.
Context `{PreciseNumberOps}.

Definition calculate_reward_split (fee_bps total_fee_bps rewards_to_process : Z) : res Z :=
  if (fee_bps =? 0) || (rewards_to_process =? 0) then Ok 0
  else mul_div_floor rewards_to_process fee_bps total_fee_bps.

Definition calculate_ncn_fee_group_route_reward (ncn_route_reward_stake_weight winning_reward_stake_weight
    rewards_to_process : Z) : res Z :=
  if (ncn_route_reward_stake_weight =? 0) || (rewards_to_process =? 0) then Ok 0
  else mul_div_floor rewards_to_process ncn_route_reward_stake_weight winning_reward_stake_weight.

Definition route_base_group (f : Fees) (total_fee_bps rewards_to_process : Z)
    (self : BaseRewardRouter) (g : BaseFeeGroup) : res BaseRewardRouter :=
  base_fee ← Fees.base_fee_bps f g;
  r ← calculate_reward_split base_fee total_fee_bps rewards_to_process;
  self ← route_from_reward_pool self r;
  route_to_base_fee_group_rewards self g r.

Definition route_ncn_group (f : Fees) (total_fee_bps rewards_to_process : Z)
    (self : BaseRewardRouter) (g : NcnFeeGroup) : res BaseRewardRouter :=
  ncn_group_fee ← Fees.ncn_fee_bps f g;
  r ← calculate_reward_split ncn_group_fee total_fee_bps rewards_to_process;
  self ← route_from_reward_pool self r;
  route_to_ncn_fee_group_rewards self g r.

Definition route_reward_pool (self : BaseRewardRouter) (f : Fees) : res BaseRewardRouter :=
  let rewards_to_process := br_reward_pool self in
  total_fee_bps ← Fees.total_fees_bps f;
  self ← foldM (route_base_group f total_fee_bps rewards_to_process) self BaseFeeGroup.all_groups;
  self ← foldM (route_ncn_group f total_fee_bps rewards_to_process) self NcnFeeGroup.all_groups;
  (* DAO gets any remainder *)
  let leftover_rewards := br_reward_pool self in
  self ← route_from_reward_pool self leftover_rewards;
  route_to_base_fee_group_rewards self BaseFeeGroup.dao leftover_rewards.

(** How a loop ends: at its end, or with an early return of the function. *)
Inductive flow : Type :=
| Continue (self : BaseRewardRouter) (iterations : Z)
| Return (self : BaseRewardRouter).

(** Routing one vote: the operator's share of the group's rewards. *)
Definition route_vote (winning_stake_weight : StakeWeights) (g : NcnFeeGroup) (rewards_to_process : Z)
    (self : BaseRewardRouter) (vote : OperatorVote) : res BaseRewardRouter :=
  winning_reward_stake_weight ← StakeWeights.ncn_fee_group_stake_weight winning_stake_weight g;
  ncn_route_reward_stake_weight ← StakeWeights.ncn_fee_group_stake_weight (ov_stake_weights vote) g;
  ncn_fee_group_route_reward ←
    calculate_ncn_fee_group_route_reward ncn_route_reward_stake_weight winning_reward_stake_weight rewards_to_process;
  self ← route_from_ncn_fee_group_rewards self g ncn_fee_group_route_reward;
  route_to_ncn_fee_group_reward_route self g (ov_operator vote) ncn_fee_group_route_reward.

(** The loop over the votes from [vote_index] on. *)
Fixpoint route_votes (winning_ballot : BallotTally) (max_iterations : Z) (group_index : nat) (g : NcnFeeGroup)
    (rewards_to_process : Z) (self : BaseRewardRouter) (iterations : Z) (vote_index : nat)
    (votes : list OperatorVote) : res flow :=
  match votes with
  | [] => Ok (Continue self iterations)
  | vote :: votes =>
      if ov_ballot_index vote =? bt_index winning_ballot then
        iterations ← ok_or (checked_add U16 iterations 1) (Tip ArithmeticOverflow);
        if max_iterations <? iterations
        then Ok (Return (save_routing_state self group_index vote_index rewards_to_process))
        else
          self ← route_vote (bt_stake_weights winning_ballot) g rewards_to_process self vote;
          route_votes winning_ballot max_iterations group_index g rewards_to_process self iterations
            (S vote_index) votes
      else route_votes winning_ballot max_iterations group_index g rewards_to_process self iterations
             (S vote_index) votes
  end.

(** The remainder of a group goes to the DAO. *)
Definition route_leftover (self : BaseRewardRouter) (g : NcnFeeGroup) : res BaseRewardRouter :=
  leftover_rewards ← ncn_fee_group_rewards self g;
  self ← route_from_ncn_fee_group_rewards self g leftover_rewards;
  route_to_base_fee_group_rewards self BaseFeeGroup.dao leftover_rewards.

(** The loop over the groups [group_indexes]; the starting vote and rewards
    are those of a resumed group, then zero. *)
Fixpoint route_groups (ballot_box : BallotBox) (winning_ballot : BallotTally) (max_iterations : Z)
    (self : BaseRewardRouter) (iterations : Z) (starting_vote_index : nat) (starting_rewards_to_process : Z)
    (group_indexes : list nat) : res BaseRewardRouter :=
  match group_indexes with
  | [] => Ok (reset_routing_state self)
  | group_index :: group_indexes =>
      g ← aget NcnFeeGroup.all_groups group_index;
      rewards_to_process ← (if 0 <? starting_rewards_to_process then Ok starting_rewards_to_process
                            else ncn_fee_group_rewards self g);
      if rewards_to_process =? 0 then
        route_groups ballot_box winning_ballot max_iterations self iterations starting_vote_index 0 group_indexes
      else
        fl ← route_votes winning_ballot max_iterations group_index g rewards_to_process self iterations
               starting_vote_index (drop starting_vote_index (bb_operator_votes ballot_box));
        match fl with
        | Return self => Ok self
        | Continue self iterations =>
            self ← route_leftover self g;
            route_groups ballot_box winning_ballot max_iterations self iterations 0 0 group_indexes
        end
  end.

Definition route_ncn_fee_group_rewards (self : BaseRewardRouter) (ballot_box : BallotBox)
    (max_iterations : Z) : res BaseRewardRouter :=
  winning_ballot ← BallotBox.get_winning_ballot_tally ballot_box;
  let '(starting_group_index, starting_vote_index, starting_rewards_to_process) := resume_routing_state self in
  let max_iterations := Z.max max_iterations 1 in
  route_groups ballot_box winning_ballot max_iterations self 0 starting_vote_index starting_rewards_to_process
    (seq starting_group_index (NcnFeeGroup.FEE_GROUP_COUNT - starting_group_index)).
End routing.
End BaseRewardRouter.

(* ------------------------------------------------------------------ *)
(** * The reward receiver *)

(** The account that holds the lamports. *)
Module BaseRewardReceiver.
Section pda.
Context `{Solana}.

Definition seeds (ncn : Pubkey) (epoch : Z) : list (list Z) :=
  [bytes_of_string "base_reward_receiver"; to_bytes ncn; to_le_bytes 8 epoch].

Definition find_program_address (program_id ncn : Pubkey) (epoch : Z) : Pubkey * Z * list (list Z) :=
  find_pda program_id (seeds ncn epoch).

Definition load (program_id : Pubkey) (account : AccountInfo) (ncn : Pubkey) (epoch : Z)
    (expect_writable : bool) : res unit :=
  let expected_pda := (find_program_address program_id ncn epoch).1.1 in
  check_load system_program_id account expected_pda None expect_writable.

Definition load_to_close (program_id : Pubkey) (account_to_close : AccountInfo) (ncn : Pubkey) (epoch : Z) : res unit :=
  load program_id account_to_close ncn epoch true.

(** The receiver pays; it signs with its seeds and bump. *)
Definition transfer (program_id ncn : Pubkey) (epoch : Z) (base_reward_receiver to : AccountInfo) (lamports : Z)
    : res (AccountInfo * AccountInfo) :=
  let '(address, bump, seeds) := find_program_address program_id ncn epoch in
  if negb (bool_decide (address = acc_key base_reward_receiver)) then Err (Prog InvalidAccountData) else
  invoke_transfer base_reward_receiver to lamports (seeds ++ [[bump]]).

Definition close (program_id ncn : Pubkey) (epoch : Z) (base_reward_receiver dao_wallet account_payer : AccountInfo)
    : res (AccountInfo * AccountInfo * AccountInfo) :=
  let min_rent := minimum_balance 0 in
  let delta_lamports := saturating_sub (acc_lamports base_reward_receiver) min_rent in
  '(base_reward_receiver, dao_wallet) ←
    (if 0 <? delta_lamports
     then transfer program_id ncn epoch base_reward_receiver dao_wallet delta_lamports
     else Ok (base_reward_receiver, dao_wallet));
  '(base_reward_receiver, account_payer) ←
    transfer program_id ncn epoch base_reward_receiver account_payer min_rent;
  mret (base_reward_receiver, dao_wallet, account_payer).
End pda.
End BaseRewardReceiver.
