(* ===== verification/BaseRewardRouterProps.v ===== *)
(** Accounting of the base reward router: what the router holds is what was
    processed, every primitive keeps that balance, routing to operators is a
    fold over the winning votes, and interrupting it changes nothing. *)

From S2P Require Import Prelude Errors External Constants FeeGroups Fees StakeWeight BallotBox BallotBoxProps BaseRewardRouter.

#[local] Arguments gw : simpl never.
#[local] Arguments ONE : simpl never.
#[local] Arguments replicate : simpl never.

(* ------------------------------------------------------------------ *)
(** * Arrays of rewards *)

Definition gval (l : list BaseRewardRouterRewards) (i : nat) : Z :=
  match l !! i with Some r => rewards r | None => 0 end.
Definition upd (l : list BaseRewardRouterRewards) (i : nat) (d : Z) : list BaseRewardRouterRewards :=
  <[i := mkRewards (gval l i + d)]> l.
Definition nonneg (l : list BaseRewardRouterRewards) : Prop := Forall (fun r => 0 <= rewards r) l.

Lemma gval_lookup l i : (i < length l)%nat -> l !! i = Some (mkRewards (gval l i)).
Proof.
  intros Hi. unfold gval. destruct (lookup_lt_is_Some_2 l i Hi) as [[r] Hr]. by rewrite Hr.
Qed.

Lemma upd_length l i d : length (upd l i d) = length l.
Proof. apply length_insert. Qed.

Lemma upd_0 l i : (i < length l)%nat -> upd l i 0 = l.
Proof. intros Hi. unfold upd. rewrite Z.add_0_r. apply list_insert_id. by apply gval_lookup. Qed.

Lemma gval_upd l i d j : (i < length l)%nat -> gval (upd l i d) j = gval l j + (if decide (j = i) then d else 0).
Proof.
  intros Hi. unfold gval at 1, upd. destruct (decide (j = i)) as [->|Hne].
  - by rewrite list_lookup_insert_eq.
  - rewrite list_lookup_insert_ne by done. unfold gval. lia.
Qed.

Lemma sumZ_upd l i d : (i < length l)%nat -> sumZ rewards (upd l i d) = sumZ rewards l + d.
Proof.
  intros Hi. unfold upd. rewrite (sumZ_insert _ _ _ _ _ (gval_lookup l i Hi)). simpl. lia.
Qed.

Lemma gval_nonneg l i : nonneg l -> 0 <= gval l i.
Proof.
  intros Hn. unfold gval. destruct (l !! i) eqn:E; [|done]. apply (Forall_lookup_1 _ _ _ _ Hn E).
Qed.

Lemma gval_le_sum l i : nonneg l -> gval l i <= sumZ rewards l.
Proof.
  intros Hn. assert (Hs : 0 <= sumZ rewards l) by (apply sumZ_nonneg; intros x Hx; apply (Forall_In _ _ _ Hn Hx)).
  unfold gval. destruct (l !! i) eqn:E; [|done].
  apply (sumZ_elem_le _ _ i); [|done]. intros x Hx. apply (Forall_In _ _ _ Hn Hx).
Qed.

Lemma nonneg_upd l i d : nonneg l -> 0 <= gval l i + d -> nonneg (upd l i d).
Proof. intros. by apply Forall_insert_2. Qed.

Lemma nonneg_no_rewards : nonneg no_rewards.
Proof. apply Forall_replicate. done. Qed.

Lemma gval_no_rewards i : gval no_rewards i = 0.
Proof.
  unfold gval, no_rewards. destruct (replicate _ _ !! i) eqn:E; [|done].
  by apply lookup_replicate in E as [-> _].
Qed.

(* ------------------------------------------------------------------ *)
(** * The balance *)

Definition route_sum (r : NcnRewardRoute) : Z := sumZ rewards (nr_rewards r).

(** What the router owes to groups and operators. *)
Definition held (s : BaseRewardRouter) : Z :=
  sumZ rewards (br_base_fee_group_rewards s) + sumZ rewards (br_ncn_fee_group_rewards s)
  + sumZ route_sum (br_routes s).

Definition route_ok (V : list Pubkey) (r : NcnRewardRoute) : Prop :=
  length (nr_rewards r) = 8%nat /\ nonneg (nr_rewards r) /\
  (nr_operator r = Pubkey_default -> nr_rewards r = no_rewards) /\
  (nr_operator r <> Pubkey_default -> nr_operator r ∈ V).

(** The router with [x] processed lamports still to be credited; its routes
    are for operators of [V]. *)
Record br_pend (V : list Pubkey) (x : Z) (s : BaseRewardRouter) : Prop := {
  rp_base_len : length (br_base_fee_group_rewards s) = 8%nat;
  rp_ncn_len : length (br_ncn_fee_group_rewards s) = 8%nat;
  rp_routes_len : length (br_routes s) = MAX_OPERATORS;
  rp_base : nonneg (br_base_fee_group_rewards s);
  rp_ncn : nonneg (br_ncn_fee_group_rewards s);
  rp_routes : Forall (route_ok V) (br_routes s);
  rp_distinct : distinct_keys nr_operator (br_routes s);
  rp_pool : 0 <= br_reward_pool s;
  rp_total : br_reward_pool s + br_rewards_processed s <= br_total_rewards s < U64;
  rp_held : br_rewards_processed s = held s + x;
  rp_x : 0 <= x;
}.

Abbreviation br_inv V s := (br_pend V 0 s).

Lemma held_nonneg V x s : br_pend V x s -> 0 <= sumZ rewards (br_base_fee_group_rewards s) /\
  0 <= sumZ rewards (br_ncn_fee_group_rewards s) /\ 0 <= sumZ route_sum (br_routes s).
Proof.
  intros Hs.
  assert (Hn : forall l, nonneg l -> 0 <= sumZ rewards l).
  { intros l Hl. apply sumZ_nonneg. intros r Hr. apply (Forall_In _ _ _ Hl Hr). }
  split; [apply Hn, (rp_base _ _ _ Hs)|]. split; [apply Hn, (rp_ncn _ _ _ Hs)|].
  apply sumZ_nonneg. intros r Hr. apply Hn. by destruct (Forall_In _ _ _ (rp_routes _ _ _ Hs) Hr) as (_ & ? & _).
Qed.

Lemma new_br_inv V ncn epoch bump slot : br_inv V (BaseRewardRouter.new ncn epoch bump slot).
Proof.
  split; cbn; try done.
  - apply nonneg_no_rewards.
  - apply nonneg_no_rewards.
  - apply Forall_replicate. split; [done|]. split; [apply nonneg_no_rewards|]. done.
  - by apply distinct_keys_replicate.
Qed.

(** Two groups of indices. *)
Lemma base_reward_ok s i :
  length (br_base_fee_group_rewards s) = 8%nat -> (i < 8)%nat ->
  BaseRewardRouter.base_fee_group_reward s (BaseFeeGroup.mk (Z.of_nat i)) = Ok (gval (br_base_fee_group_rewards s) i).
Proof.
  intros Hl Hi. unfold BaseRewardRouter.base_fee_group_reward.
  rewrite (BaseFeeGroup.bfg_all_groups_index i Hi). cbn [mbind result_bind].
  rewrite (proj2 (aget_Ok _ _ _) (gval_lookup (br_base_fee_group_rewards s) i ltac:(lia))). done.
Qed.

Lemma ncn_reward_ok s i :
  length (br_ncn_fee_group_rewards s) = 8%nat -> (i < 8)%nat ->
  BaseRewardRouter.ncn_fee_group_rewards s (NcnFeeGroup.mk (Z.of_nat i)) = Ok (gval (br_ncn_fee_group_rewards s) i).
Proof.
  intros Hl Hi. unfold BaseRewardRouter.ncn_fee_group_rewards.
  rewrite (NcnFeeGroup.nfg_all_groups_index i Hi). cbn [mbind result_bind].
  rewrite (proj2 (aget_Ok _ _ _) (gval_lookup (br_ncn_fee_group_rewards s) i ltac:(lia))). done.
Qed.

(** ** Primitives *)

Lemma route_from_pool_ok V x s r :
  br_pend V x s -> 0 <= r <= br_reward_pool s ->
  exists s', BaseRewardRouter.route_from_reward_pool s r = Ok s' /\ br_pend V (x + r) s' /\
    s' = BaseRewardRouter.with_processed (BaseRewardRouter.with_pool s (br_total_rewards s) (br_reward_pool s - r))
           (br_rewards_processed s + r).
Proof.
  intros Hs Hr. destruct (rp_total _ _ _ Hs) as [Ht1 Ht2]. pose proof (rp_pool _ _ _ Hs).
  unfold BaseRewardRouter.route_from_reward_pool, BaseRewardRouter.increment_rewards_processed.
  eexists. split; [|split; [|reflexivity]].
  - destruct (Z.eqb_spec r 0) as [->|Hne].
    + rewrite Z.sub_0_r, Z.add_0_r. by destruct s.
    + checked.
      cbn [BaseRewardRouter.with_pool br_rewards_processed]. rewrite checked_add_ok by lia. done.
  - destruct Hs. split; try done; cbn in *; try lia. unfold held in *. cbn. lia.
Qed.

Lemma pend_upd_base V x s i d :
  br_pend V x s -> (i < 8)%nat -> 0 <= gval (br_base_fee_group_rewards s) i + d -> d <= x ->
  br_pend V (x - d) (BaseRewardRouter.with_base s (upd (br_base_fee_group_rewards s) i d)).
Proof.
  intros [] Hi Hd Hx. split; cbn; try done; try lia.
  - by rewrite upd_length.
  - by apply nonneg_upd.
  - unfold held in *. cbn. rewrite sumZ_upd by lia. lia.
Qed.

Lemma pend_upd_ncn V x s i d :
  br_pend V x s -> (i < 8)%nat -> 0 <= gval (br_ncn_fee_group_rewards s) i + d -> d <= x ->
  br_pend V (x - d) (BaseRewardRouter.with_ncn_rewards s (upd (br_ncn_fee_group_rewards s) i d)).
Proof.
  intros [] Hi Hd Hx. split; cbn; try done; try lia.
  - by rewrite upd_length.
  - by apply nonneg_upd.
  - unfold held in *. cbn. rewrite sumZ_upd by lia. lia.
Qed.

Lemma route_to_base_ok V x s i r :
  br_pend V x s -> (i < 8)%nat -> 0 <= r <= x ->
  exists s', BaseRewardRouter.route_to_base_fee_group_rewards s (BaseFeeGroup.mk (Z.of_nat i)) r = Ok s' /\
    br_pend V (x - r) s' /\ s' = BaseRewardRouter.with_base s (upd (br_base_fee_group_rewards s) i r).
Proof.
  intros Hs Hi Hr. destruct (held_nonneg _ _ _ Hs) as (H1 & H2 & H3).
  destruct (rp_total _ _ _ Hs) as [Ht1 Ht2]. pose proof (rp_pool _ _ _ Hs). pose proof (rp_held _ _ _ Hs) as Hh.
  pose proof (gval_le_sum _ i (rp_base _ _ _ Hs)). pose proof (gval_nonneg _ i (rp_base _ _ _ Hs)).
  pose proof (rp_base_len _ _ _ Hs) as Hl. unfold held in Hh.
  eexists. split; [|split; [|reflexivity]]; [|apply pend_upd_base; (done || lia)].
  unfold BaseRewardRouter.route_to_base_fee_group_rewards. destruct (Z.eqb_spec r 0) as [->|Hne].
  - rewrite upd_0 by lia. by destruct s.
  - rewrite (BaseFeeGroup.bfg_all_groups_index i Hi). cbn [mbind result_bind].
    rewrite base_reward_ok by done. cbn [mbind result_bind].
    checked.
    rewrite aset_lt by lia. done.
Qed.

Lemma route_to_ncn_ok V x s i r :
  br_pend V x s -> (i < 8)%nat -> 0 <= r <= x ->
  exists s', BaseRewardRouter.route_to_ncn_fee_group_rewards s (NcnFeeGroup.mk (Z.of_nat i)) r = Ok s' /\
    br_pend V (x - r) s' /\ s' = BaseRewardRouter.with_ncn_rewards s (upd (br_ncn_fee_group_rewards s) i r).
Proof.
  intros Hs Hi Hr. destruct (held_nonneg _ _ _ Hs) as (H1 & H2 & H3).
  destruct (rp_total _ _ _ Hs) as [Ht1 Ht2]. pose proof (rp_pool _ _ _ Hs). pose proof (rp_held _ _ _ Hs) as Hh.
  pose proof (gval_le_sum _ i (rp_ncn _ _ _ Hs)). pose proof (gval_nonneg _ i (rp_ncn _ _ _ Hs)).
  pose proof (rp_ncn_len _ _ _ Hs) as Hl. unfold held in Hh.
  eexists. split; [|split; [|reflexivity]]; [|apply pend_upd_ncn; (done || lia)].
  unfold BaseRewardRouter.route_to_ncn_fee_group_rewards. destruct (Z.eqb_spec r 0) as [->|Hne].
  - rewrite upd_0 by lia. by destruct s.
  - rewrite (NcnFeeGroup.nfg_all_groups_index i Hi). cbn [mbind result_bind].
    rewrite ncn_reward_ok by done. cbn [mbind result_bind].
    checked.
    rewrite aset_lt by lia. done.
Qed.

Lemma route_from_ncn_ok V x s i r :
  br_pend V x s -> (i < 8)%nat -> 0 <= r <= gval (br_ncn_fee_group_rewards s) i ->
  exists s', BaseRewardRouter.route_from_ncn_fee_group_rewards s (NcnFeeGroup.mk (Z.of_nat i)) r = Ok s' /\
    br_pend V (x + r) s' /\ s' = BaseRewardRouter.with_ncn_rewards s (upd (br_ncn_fee_group_rewards s) i (- r)).
Proof.
  intros Hs Hi Hr. pose proof (rp_ncn_len _ _ _ Hs) as Hl. pose proof (rp_x _ _ _ Hs).
  eexists. split; [|split; [|reflexivity]].
  2: { replace (x + r) with (x - - r) by lia. apply pend_upd_ncn; (done || lia). }
  unfold BaseRewardRouter.route_from_ncn_fee_group_rewards. destruct (Z.eqb_spec r 0) as [->|Hne].
  - rewrite upd_0 by lia. by destruct s.
  - rewrite (NcnFeeGroup.nfg_all_groups_index i Hi). cbn [mbind result_bind].
    rewrite ncn_reward_ok by done. cbn [mbind result_bind].
    checked.
    rewrite aset_lt by lia. done.
Qed.

(* ------------------------------------------------------------------ *)
(** * Routes *)

(** The amount routed to an operator in a group. *)
Definition route_amount (s : BaseRewardRouter) (op : Pubkey) (k : nat) : Z :=
  match BaseRewardRouter.find_route s op with Some (_, r) => gval (nr_rewards r) k | None => 0 end.

Lemma route_get_ok r i :
  length (nr_rewards r) = 8%nat -> (i < 8)%nat ->
  NcnRewardRoute.get_rewards r (NcnFeeGroup.mk (Z.of_nat i)) = Ok (gval (nr_rewards r) i).
Proof.
  intros Hl Hi. unfold NcnRewardRoute.get_rewards.
  rewrite (NcnFeeGroup.nfg_all_groups_index i Hi). cbn [mbind result_bind].
  by rewrite (proj2 (aget_Ok _ _ _) (gval_lookup (nr_rewards r) i ltac:(lia))).
Qed.

Lemma route_set_ok r i v :
  length (nr_rewards r) = 8%nat -> (i < 8)%nat ->
  NcnRewardRoute.set_rewards r (NcnFeeGroup.mk (Z.of_nat i)) v
  = Ok (mkNcnRewardRoute (nr_operator r) (<[i:=mkRewards v]> (nr_rewards r))).
Proof.
  intros Hl Hi. unfold NcnRewardRoute.set_rewards.
  rewrite (NcnFeeGroup.nfg_all_groups_index i Hi). cbn [mbind result_bind]. by rewrite aset_lt by lia.
Qed.

(** Replacing a route whose rewards change by [d] in group [i]. *)
Lemma pend_insert_route V x s j old op i d :
  br_pend V x s -> br_routes s !! j = Some old -> (i < 8)%nat -> op <> Pubkey_default -> op ∈ V ->
  nr_operator old = op \/ nr_operator old = Pubkey_default /\ BaseRewardRouter.find_route s op = None ->
  0 <= gval (nr_rewards old) i + d -> d <= x ->
  let s' := BaseRewardRouter.with_routes s (<[j:=mkNcnRewardRoute op (upd (nr_rewards old) i d)]> (br_routes s)) in
  br_pend V (x - d) s' /\
  forall op' k, op' <> Pubkey_default -> (k < 8)%nat ->
    route_amount s' op' k = route_amount s op' k + (if decide (op' = op /\ k = i) then d else 0).
Proof.
  intros Hs Hj Hi Hop HV Hold Hd Hx s'.
  destruct (Forall_lookup_1 _ _ _ _ (rp_routes _ _ _ Hs) Hj) as (Hl & Hn & He & _).
  set (new := mkNcnRewardRoute op (upd (nr_rewards old) i d)).
  assert (Hkey : nr_operator new = nr_operator old \/
    nr_operator old = Pubkey_default /\ forall j z, br_routes s !! j = Some z -> nr_operator z <> nr_operator new).
  { destruct Hold as [Hold|[Hold Hnone]]; [by left|right]. split; [done|]. by apply find_key_None. }
  destruct (find_key_insert nr_operator (br_routes s) j old new op (rp_distinct _ _ _ Hs) Hj Hkey Hop Hop) as [Hd' _].
  split.
  - destruct Hs. split; try done; try lia; cbn in *.
    + by rewrite length_insert.
    + apply Forall_insert_2; [done|]. split; [by cbn; rewrite upd_length|].
      split; [by apply nonneg_upd|]. split; [by intros ?|done].
    + unfold held in *. cbn. rewrite (sumZ_insert _ _ _ _ _ Hj). unfold route_sum at 3. cbn.
      rewrite sumZ_upd by lia. unfold route_sum at 2. lia.
  - intros op' k Hop' Hk. unfold route_amount, BaseRewardRouter.find_route, s'. cbn [BaseRewardRouter.with_routes br_routes].
    destruct (find_key_insert nr_operator (br_routes s) j old new op' (rp_distinct _ _ _ Hs) Hj Hkey Hop' Hop) as [_ Hf].
    fold new. rewrite Hf. cbn [nr_operator new].
    destruct (decide (op = op')) as [<-|Hne].
    + unfold new. cbn [nr_rewards]. rewrite gval_upd by lia.
      assert (Hold_amt : (match list_find (fun z => nr_operator z = op) (br_routes s) with
                          | Some (_, r) => gval (nr_rewards r) k | None => 0 end) = gval (nr_rewards old) k).
      { destruct Hold as [Hold|[Hold Hnone]].
        - by rewrite (proj2 (find_key_Some nr_operator _ (rp_distinct _ _ _ Hs) op j old Hop) (conj Hj Hold)).
        - unfold BaseRewardRouter.find_route in Hnone. rewrite Hnone, (He Hold). symmetry. apply gval_no_rewards. }
      rewrite Hold_amt. destruct (decide (k = i)), (decide (op = op /\ k = i)); naive_solver lia.
    + rewrite (decide_False (P := op' = op /\ k = i)) by naive_solver. lia.
Qed.

(** A voter without a route finds a free place: there are no more voters
    than places. *)
Lemma free_route_exists V x s op :
  br_pend V x s -> (length V <= 256)%nat -> op <> Pubkey_default -> op ∈ V ->
  BaseRewardRouter.find_route s op = None ->
  exists j old, BaseRewardRouter.find_route s Pubkey_default = Some (j, old) /\
    br_routes s !! j = Some old /\ nr_operator old = Pubkey_default.
Proof.
  intros Hs HV Hop Hin Hnone.
  destruct (BaseRewardRouter.find_route s Pubkey_default) as [[j old]|] eqn:Ef.
  { exists j, old. split; [done|]. by apply list_find_Some in Ef as (? & ? & _). }
  exfalso. unfold BaseRewardRouter.find_route in *.
  assert (Hlen : (length (br_routes s) < length V)%nat).
  { apply (keys_below nr_operator _ V op); try done; [apply (rp_distinct _ _ _ Hs)|by apply find_key_None|by apply find_key_None|].
    intros r Hr. by destruct (Forall_In _ _ _ (rp_routes _ _ _ Hs) Hr) as (_ & _ & _ & Hv'). }
  rewrite (rp_routes_len _ _ _ Hs) in Hlen. unfold MAX_OPERATORS in Hlen. lia.
Qed.

Lemma route_to_route_ok V x s i op r :
  br_pend V x s -> (length V <= 256)%nat -> (i < 8)%nat -> op <> Pubkey_default -> op ∈ V -> 0 <= r <= x ->
  exists s', BaseRewardRouter.route_to_ncn_fee_group_reward_route s (NcnFeeGroup.mk (Z.of_nat i)) op r = Ok s' /\
    br_pend V (x - r) s' /\ (exists l, s' = BaseRewardRouter.with_routes s l) /\
    forall op' k, op' <> Pubkey_default -> (k < 8)%nat ->
      route_amount s' op' k = route_amount s op' k + (if decide (op' = op /\ k = i) then r else 0).
Proof.
  intros Hs HV Hi Hop Hin Hr. unfold BaseRewardRouter.route_to_ncn_fee_group_reward_route.
  destruct (Z.eqb_spec r 0) as [->|Hne].
  { exists s. split; [done|]. rewrite Z.sub_0_r. split; [done|]. split; [exists (br_routes s); by destruct s|].
    intros. destruct (decide _); lia. }
  destruct (held_nonneg _ _ _ Hs) as (H1 & H2 & H3).
  destruct (rp_total _ _ _ Hs) as [Ht1 Ht2]. pose proof (rp_pool _ _ _ Hs). pose proof (rp_held _ _ _ Hs) as Hh.
  unfold held in Hh.
  destruct (BaseRewardRouter.find_route s op) as [[j old]|] eqn:Ef.
  - assert (Hj : br_routes s !! j = Some old /\ nr_operator old = op) by (apply list_find_Some in Ef as (? & ? & _); done).
    destruct Hj as [Hj Hold]. destruct (Forall_lookup_1 _ _ _ _ (rp_routes _ _ _ Hs) Hj) as (Hl & Hn & _).
    assert (Hle : gval (nr_rewards old) i <= sumZ route_sum (br_routes s)).
    { transitivity (route_sum old); [by apply gval_le_sum|]. apply (sumZ_elem_le _ _ j); [|done].
      intros y Hy. apply sumZ_nonneg. intros z Hz.
      destruct (Forall_In _ _ _ (rp_routes _ _ _ Hs) Hy) as (_ & Hy' & _). apply (Forall_In _ _ _ Hy' Hz). }
    pose proof (gval_nonneg _ i Hn).
    unfold NcnRewardRoute.increment_rewards. rewrite route_get_ok by done. cbn [mbind result_bind].
    checked. rewrite route_set_ok by done. cbn [mbind result_bind].
    destruct (pend_insert_route V x s j old op i r Hs Hj Hi Hop Hin) as [Hp Ha]; [by left|lia|lia|].
    eexists. split; [rewrite Hold; reflexivity|]. split; [exact Hp|]. split; [by eexists|exact Ha].
  - destruct (free_route_exists V x s op Hs HV Hop Hin Ef) as (j & old & Hf & Hj & Hold). rewrite Hf.
    destruct (Forall_lookup_1 _ _ _ _ (rp_routes _ _ _ Hs) Hj) as (Hl & Hn & He & _).
    unfold NcnRewardRoute.new. rewrite route_set_ok by done. cbn [mbind result_bind nr_operator nr_rewards].
    destruct (pend_insert_route V x s j old op i r Hs Hj Hi Hop Hin) as [Hp Ha];
      [by right|rewrite (He Hold), gval_no_rewards; lia|lia|].
    unfold upd in Hp, Ha. rewrite (He Hold), gval_no_rewards in Hp, Ha. cbn [Z.add] in Hp, Ha.
    eexists. split; [reflexivity|]. split; [exact Hp|]. split; [by eexists|exact Ha].
Qed.

(* ------------------------------------------------------------------ *)
(** * Shares *)

Lemma upd_upd l i a b : (i < length l)%nat -> upd (upd l i a) i b = upd l i (a + b).
Proof.
  intros Hi. unfold upd. rewrite list_insert_insert_eq. do 2 f_equal.
  unfold gval at 1. rewrite list_lookup_insert_eq by done. cbn [rewards]. lia.
Qed.

Section shares.
Context `{L : PreciseNumberLaws}.

(** The amount a weight [w] of [W] receives of [R] lamports. *)
Definition share (R w W : Z) : Z :=
  match BaseRewardRouter.calculate_ncn_fee_group_route_reward w W R with Ok x => x | Err _ => 0 end.

Lemma share_ok R w W :
  fits U64 R -> fits U128 w -> fits U128 W -> w <= W ->
  BaseRewardRouter.calculate_ncn_fee_group_route_reward w W R = Ok (share R w W) /\
  0 <= share R w W <= R /\ 2 * (share R w W * ONE * W) <= 2 * (R * w * ONE) + W.
Proof.
  intros HR Hw HW Hle. unfold share, BaseRewardRouter.calculate_ncn_fee_group_route_reward.
  unfold fits in *.
  destruct (Z.eqb_spec w 0) as [->|Hw0]; cbn [orb]; [split; [done|]; lia|].
  destruct (Z.eqb_spec R 0) as [->|HR0]; [split; [done|]; lia|].
  destruct (mul_div_floor_spec R w W) as (x & Hx & Hx1 & Hx2 & _); try done; try lia.
  rewrite Hx. done.
Qed.

(** Small totals give the exact floor. *)
Lemma share_exact R w W :
  fits U64 R -> fits U128 w -> 0 < W < ONE -> w <= W -> share R w W = R * w / W.
Proof.
  intros HR Hw HW Hle. unfold share, BaseRewardRouter.calculate_ncn_fee_group_route_reward.
  destruct (Z.eqb_spec w 0) as [->|Hw0]; cbn [orb]; [by rewrite Z.mul_0_r|].
  destruct (Z.eqb_spec R 0) as [->|HR0]; [done|].
  by rewrite mul_div_floor_exact.
Qed.

(** Shares of one amount never add up to more than it. *)
Lemma shares_sum_le {A} (w : A -> Z) (l : list A) R W :
  fits U64 R -> fits U128 W -> Forall (fun a => fits U128 (w a)) l ->
  sumZ w l <= W -> Z.of_nat (length l) < 2 * ONE ->
  0 <= sumZ (fun a => share R (w a) W) l <= R.
Proof.
  intros HR HW Hl Hsum Hlen.
  assert (Hle : forall a, a ∈ l -> w a <= W).
  { intros a [i Hi]%list_elem_of_lookup. transitivity (sumZ w l); [|done].
    apply (sumZ_elem_le _ _ i); [|done]. intros x Hx. destruct (Forall_In _ _ _ Hl Hx). done. }
  split.
  { apply sumZ_nonneg. intros a Ha. destruct (share_ok R (w a) W) as (_ & Hs & _); auto; [|lia].
    apply (Forall_In _ _ _ Hl Ha). }
  destruct (decide (W = 0)) as [->|HW0].
  { rewrite sumZ_zero; [unfold fits in *; lia|]. intros a Ha. specialize (Hle a Ha).
    destruct (Forall_In _ _ _ Hl Ha) as [H0 _]. unfold share, BaseRewardRouter.calculate_ncn_fee_group_route_reward.
    by rewrite (proj2 (Z.eqb_eq (w a) 0)) by lia. }
  unfold fits in *.
  apply (shares_le R W (Z.of_nat (length l)) (sumZ w l)); try lia.
  clear Hsum Hlen. induction l as [|a l IH]; [simpl; lia|].
  apply Forall_cons_1 in Hl as [Ha Hl].
  specialize (IH Hl ltac:(intros; apply Hle; by right)).
  destruct (share_ok R (w a) W) as (_ & _ & Hs); [done|done|done|apply Hle; left|].
  cbn [sumZ length]. rewrite Nat2Z.inj_succ. lia.
Qed.

(* ------------------------------------------------------------------ *)
(** * Routing one group *)

(** What operators are credited leaves these fields alone. *)
Definition frame (s s' : BaseRewardRouter) : Prop :=
  br_total_rewards s' = br_total_rewards s /\ br_reward_pool s' = br_reward_pool s /\
  br_rewards_processed s' = br_rewards_processed s /\ br_routing s' = br_routing s.

Lemma frame_trans a b c : frame a b -> frame b c -> frame a c.
Proof. unfold frame. intuition congruence. Qed.

(** A vote that can be credited against the tally with weights [W]. *)
Definition vote_ok (V : list Pubkey) (W : StakeWeights) (k : nat) (v : OperatorVote) : Prop :=
  sw_wf (ov_stake_weights v) /\ gw k (ov_stake_weights v) <= gw k W /\
  ov_operator v <> Pubkey_default /\ ov_operator v ∈ V.

Definition vshare (R : Z) (W : StakeWeights) (k : nat) (v : OperatorVote) : Z :=
  share R (gw k (ov_stake_weights v)) (gw k W).

Lemma route_vote_ok V s k W R v :
  br_inv V s -> (length V <= 256)%nat -> (k < 8)%nat -> sw_wf W -> fits U64 R -> vote_ok V W k v ->
  vshare R W k v <= gval (br_ncn_fee_group_rewards s) k ->
  exists s', BaseRewardRouter.route_vote W (NcnFeeGroup.mk (Z.of_nat k)) R s v = Ok s' /\ br_inv V s' /\ frame s s' /\
    br_base_fee_group_rewards s' = br_base_fee_group_rewards s /\
    br_ncn_fee_group_rewards s' = upd (br_ncn_fee_group_rewards s) k (- vshare R W k v) /\
    forall op k', op <> Pubkey_default -> (k' < 8)%nat ->
      route_amount s' op k' = route_amount s op k' + (if decide (op = ov_operator v /\ k' = k) then vshare R W k v else 0).
Proof.
  intros Hs HV Hk HW HR (Hwf & Hle & Hop & Hin) Hsh.
  pose proof (NcnFeeGroup.nfg_all_groups_index k Hk) as Hg.
  destruct (share_ok R (gw k (ov_stake_weights v)) (gw k W)) as (Hc & Hr & _); [done|by apply gw_fits|by apply gw_fits|done|].
  fold (vshare R W k v) in *.
  unfold BaseRewardRouter.route_vote.
  rewrite (ncn_fee_group_stake_weight_ok _ _ _ (proj1 (proj2 HW)) Hg). cbn [mbind result_bind].
  rewrite (ncn_fee_group_stake_weight_ok _ _ _ (proj1 (proj2 Hwf)) Hg). cbn [mbind result_bind].
  rewrite Hc. cbn [mbind result_bind]. fold (vshare R W k v).
  destruct (route_from_ncn_ok V 0 s k (vshare R W k v) Hs Hk) as (s1 & Hs1 & Hp1 & Heq1); [lia|].
  rewrite Hs1. cbn [mbind result_bind]. cbn [Z.add] in Hp1.
  destruct (route_to_route_ok V (vshare R W k v) s1 k (ov_operator v) (vshare R W k v) Hp1 HV Hk Hop Hin)
    as (s2 & Hs2 & Hp2 & (l & Heq2) & Ha); [lia|].
  rewrite Z.sub_diag in Hp2. exists s2. split; [exact Hs2|]. split; [done|].
  split; [by rewrite Heq2, Heq1|]. split; [by rewrite Heq2, Heq1|]. split; [by rewrite Heq2, Heq1|].
  intros op k' Hd Hk'. rewrite Ha by done. by rewrite Heq1.
Qed.

(** The loop body without the iteration count. *)
Definition vote_step (W : StakeWeights) (idx : Z) (g : NcnFeeGroup) (R : Z) (s : BaseRewardRouter)
    (v : OperatorVote) : res BaseRewardRouter :=
  if ov_ballot_index v =? idx then BaseRewardRouter.route_vote W g R s v else Ok s.

Lemma vote_step_match W idx g R s v :
  vote_step W idx g R s v = if ov_ballot_index v =? idx then BaseRewardRouter.route_vote W g R s v else Ok s.
Proof. done. Qed.

(** What a vote (of operator [op]) takes from the group. *)
Definition taken (R : Z) (W : StakeWeights) (idx : Z) (k : nat) (v : OperatorVote) : Z :=
  if ov_ballot_index v =? idx then vshare R W k v else 0.
Definition credit (R : Z) (W : StakeWeights) (idx : Z) (k : nat) (op : Pubkey) (v : OperatorVote) : Z :=
  if decide (op = ov_operator v) then taken R W idx k v else 0.

Lemma votes_ref_ok V W idx k R vs s :
  br_inv V s -> (length V <= 256)%nat -> (k < 8)%nat -> sw_wf W -> fits U64 R ->
  (forall v, v ∈ vs -> ov_ballot_index v = idx -> vote_ok V W k v) ->
  sumZ (taken R W idx k) vs <= gval (br_ncn_fee_group_rewards s) k ->
  exists s', foldM (vote_step W idx (NcnFeeGroup.mk (Z.of_nat k)) R) s vs = Ok s' /\ br_inv V s' /\ frame s s' /\
    br_base_fee_group_rewards s' = br_base_fee_group_rewards s /\
    br_ncn_fee_group_rewards s' = upd (br_ncn_fee_group_rewards s) k (- sumZ (taken R W idx k) vs) /\
    forall op k', op <> Pubkey_default -> (k' < 8)%nat ->
      route_amount s' op k' = route_amount s op k' + (if decide (k' = k) then sumZ (credit R W idx k op) vs else 0).
Proof.
  intros Hs HV Hk HW HR. revert s Hs. induction vs as [|v vs IH]; intros s Hs Hok Hsum; cbn [foldM sumZ] in *.
  - exists s. split; [done|]. split; [done|]. split; [done|]. split; [done|].
    rewrite upd_0 by (rewrite (rp_ncn_len _ _ _ Hs); lia). split; [done|]. intros. destruct (decide _); lia.
  - assert (Hpos : 0 <= sumZ (taken R W idx k) vs).
    { apply sumZ_nonneg. intros x Hx. unfold taken. destruct (Z.eqb_spec (ov_ballot_index x) idx) as [Hi|]; [|done].
      destruct (Hok x ltac:(by right) Hi) as (Hwf & Hle & _).
      destruct (share_ok R (gw k (ov_stake_weights x)) (gw k W)) as (_ & ? & _); [done|by apply gw_fits..|done|].
      unfold vshare. lia. }
    pose proof (vote_step_match W idx (NcnFeeGroup.mk (Z.of_nat k)) R s v) as Hm.
    unfold taken at 1 in Hsum.
    destruct (Z.eqb_spec (ov_ballot_index v) idx) as [Hi|Hi].
    + destruct (route_vote_ok V s k W R v Hs HV Hk HW HR (Hok v ltac:(left) Hi)) as (s1 & Hs1 & Hp1 & Hf1 & Hb1 & Hn1 & Ha1);
        [lia|].
      pose proof (rp_ncn_len _ _ _ Hs) as Hlen.
      destruct (IH s1 Hp1) as (s2 & Hs2 & Hp2 & Hf2 & Hb2 & Hn2 & Ha2).
      { intros x Hx. apply Hok. by right. }
      { rewrite Hn1, gval_upd by lia. rewrite decide_True by done. lia. }
      rewrite Hm, Hs1. cbn [mbind result_bind]. exists s2. split; [exact Hs2|]. split; [done|].
      split; [by eapply frame_trans|]. split; [congruence|]. split.
      * rewrite Hn2, Hn1, upd_upd by lia. f_equal. unfold taken at 2. rewrite (proj2 (Z.eqb_eq _ _) Hi). lia.
      * intros op k' Hd Hk'. rewrite Ha2, Ha1 by done. unfold credit at 2, taken at 1.
        rewrite (proj2 (Z.eqb_eq _ _) Hi).
        destruct (decide (op = ov_operator v)), (decide (k' = k)), (decide (op = ov_operator v /\ k' = k)); naive_solver lia.
    + destruct (IH s Hs) as (s2 & Hs2 & Hp2 & Hf2 & Hb2 & Hn2 & Ha2); [intros x Hx; apply Hok; by right|lia|].
      rewrite Hm. cbn [mbind result_bind]. exists s2. split; [exact Hs2|]. split; [done|]. split; [done|]. split; [done|].
      assert (Ht : taken R W idx k v = 0) by (unfold taken; by rewrite (proj2 (Z.eqb_neq _ _) Hi)).
      split; [by rewrite Hn2, Ht|]. intros op k' Hd Hk'. rewrite Ha2 by done. unfold credit at 2. rewrite Ht.
      destruct (decide (op = ov_operator v)); done.
Qed.

Lemma route_leftover_ok V s k :
  br_inv V s -> (k < 8)%nat ->
  exists s', BaseRewardRouter.route_leftover s (NcnFeeGroup.mk (Z.of_nat k)) = Ok s' /\ br_inv V s' /\ frame s s' /\
    br_base_fee_group_rewards s' = upd (br_base_fee_group_rewards s) 0 (gval (br_ncn_fee_group_rewards s) k) /\
    br_ncn_fee_group_rewards s' = upd (br_ncn_fee_group_rewards s) k (- gval (br_ncn_fee_group_rewards s) k) /\
    br_routes s' = br_routes s.
Proof.
  intros Hs Hk. unfold BaseRewardRouter.route_leftover.
  rewrite ncn_reward_ok by (apply (rp_ncn_len _ _ _ Hs) || done). cbn [mbind result_bind].
  set (x := gval (br_ncn_fee_group_rewards s) k). pose proof (gval_nonneg _ k (rp_ncn _ _ _ Hs)) as Hx. fold x in Hx.
  destruct (route_from_ncn_ok V 0 s k x Hs Hk) as (s1 & Hs1 & Hp1 & Heq1); [fold x; lia|].
  rewrite Hs1. cbn [mbind result_bind]. cbn [Z.add] in Hp1.
  destruct (route_to_base_ok V x s1 0 x Hp1) as (s2 & Hs2 & Hp2 & Heq2); [lia|lia|].
  rewrite Z.sub_diag in Hp2. exists s2. split; [exact Hs2|]. split; [done|].
  subst s2 s1. done.
Qed.
End shares.
