(* ===== verification/BaseRouting.v ===== *)
(** Routing the NCN groups' rewards to the operators (base_reward_router.rs,
    [route_ncn_fee_group_rewards]): the uninterrupted routing as a fold over
    groups and votes, its result, and the bounded, resumed routing as the same
    computation cut into calls. *)

From S2P Require Import Prelude Errors External Constants FeeGroups Fees StakeWeight BallotBox BallotBoxProps BaseRewardRouter BaseRewardRouterProps.

#[local] Arguments gw : simpl never.
#[local] Arguments ONE : simpl never.
#[local] Arguments replicate : simpl never.

Section ops.
Context `{PreciseNumberOps}.

Definition group (k : nat) : NcnFeeGroup := NcnFeeGroup.mk (Z.of_nat k).

(** Routing all of one group, and all the groups, without an iteration bound. *)
Definition finish_group (W : StakeWeights) (idx : Z) (k : nat) (R : Z) (votes : list OperatorVote)
    (s : BaseRewardRouter) : res BaseRewardRouter :=
  s' ← foldM (vote_step W idx (group k) R) s votes; BaseRewardRouter.route_leftover s' (group k).

Definition group_step (W : StakeWeights) (idx : Z) (votes : list OperatorVote) (s : BaseRewardRouter) (k : nat)
    : res BaseRewardRouter :=
  R ← BaseRewardRouter.ncn_fee_group_rewards s (group k);
  if R =? 0 then Ok s else finish_group W idx k R votes s.

Definition groups_ref (W : StakeWeights) (idx : Z) (votes : list OperatorVote) (ks : list nat)
    (s : BaseRewardRouter) : res BaseRewardRouter :=
  s' ← foldM (group_step W idx votes) s ks; mret (BaseRewardRouter.reset_routing_state s').
End ops.

Lemma aget_groups k : (k < 8)%nat -> aget NcnFeeGroup.all_groups k = Ok (group k).
Proof. intros Hk. do 8 (destruct k as [|k]; [done|]). lia. Qed.

Lemma ncn_value_fits V s k : br_inv V s -> fits U64 (gval (br_ncn_fee_group_rewards s) k).
Proof.
  intros Hs. pose proof (gval_nonneg _ k (rp_ncn _ _ _ Hs)). pose proof (gval_le_sum _ k (rp_ncn _ _ _ Hs)).
  destruct (held_nonneg _ _ _ Hs) as (? & ? & ?). pose proof (rp_total _ _ _ Hs). pose proof (rp_pool _ _ _ Hs).
  pose proof (rp_held _ _ _ Hs). unfold held, fits in *. lia.
Qed.

(* ------------------------------------------------------------------ *)
(** * The result of the uninterrupted routing *)

Section result.
Context `{L : PreciseNumberLaws}.
Context (V : list Pubkey) (W : StakeWeights) (idx : Z) (votes : list OperatorVote).
Context (HV : (length V <= 256)%nat) (HW : sw_wf W) (Hlen : (length votes <= 256)%nat).
Context (Hok : forall v k, v ∈ votes -> ov_ballot_index v = idx -> (k < 8)%nat -> vote_ok V W k v).
Context (Hsum : forall k, (k < 8)%nat -> vsum (MGroup k) idx votes <= gw k W).

Lemma taken_share R k v : taken R W idx k v = share R (vmeas (MGroup k) idx v) (gw k W).
Proof.
  unfold taken, vmeas, vshare. destruct (_ =? _); [done|].
  unfold share, BaseRewardRouter.calculate_ncn_fee_group_route_reward. done.
Qed.

Lemma taken_sum R k : fits U64 R -> (k < 8)%nat -> 0 <= sumZ (taken R W idx k) votes <= R.
Proof.
  intros HR Hk. rewrite (sumZ_ext _ (fun v => share R (vmeas (MGroup k) idx v) (gw k W)))
    by (intros; apply taken_share).
  apply shares_sum_le; [done|by apply gw_fits| |by apply Hsum|unfold ONE; lia].
  apply Forall_lookup_2. intros i v Hv%list_elem_of_lookup_2. unfold vmeas. simpl.
  destruct (Z.eqb_spec (ov_ballot_index v) idx) as [Hi|]; [|done].
  destruct (Hok v k Hv Hi Hk) as (Hwf & _). by apply gw_fits.
Qed.

(** What one group's routing does. *)
Lemma group_step_ok s k :
  br_inv V s -> (k < 8)%nat ->
  let R := gval (br_ncn_fee_group_rewards s) k in
  exists s', group_step W idx votes s k = Ok s' /\ br_inv V s' /\ frame s s' /\
    br_base_fee_group_rewards s' = upd (br_base_fee_group_rewards s) 0 (R - sumZ (taken R W idx k) votes) /\
    br_ncn_fee_group_rewards s' = upd (br_ncn_fee_group_rewards s) k (- R) /\
    forall op k', op <> Pubkey_default -> (k' < 8)%nat ->
      route_amount s' op k' = route_amount s op k' + (if decide (k' = k) then sumZ (credit R W idx k op) votes else 0).
Proof.
  intros Hs Hk R. pose proof (ncn_value_fits V s k Hs) as HR. fold R in HR.
  pose proof (rp_base_len _ _ _ Hs) as Hbl. pose proof (rp_ncn_len _ _ _ Hs) as Hnl.
  unfold group_step, group. rewrite ncn_reward_ok by done. fold R. cbn [mbind result_bind].
  destruct (Z.eqb_spec R 0) as [HR0|HR0].
  - exists s. split; [done|]. split; [done|]. split; [done|].
    assert (Hz : forall v, taken R W idx k v = 0).
    { intros v. unfold taken, vshare. rewrite HR0. unfold share, BaseRewardRouter.calculate_ncn_fee_group_route_reward.
      rewrite Z.eqb_refl, orb_true_r. by destruct (_ =? _). }
    rewrite (sumZ_zero (taken R W idx k)) by done. rewrite HR0. cbn [Z.sub Z.opp Z.add].
    rewrite !upd_0 by lia. split; [done|]. split; [done|]. intros op k' _ _.
    rewrite sumZ_zero; [destruct (decide _); lia|]. intros v _. unfold credit. rewrite <- HR0, Hz. by destruct (decide _).
  - destruct (votes_ref_ok V W idx k R votes s Hs HV Hk HW HR) as (s1 & Hs1 & Hp1 & Hf1 & Hb1 & Hn1 & Ha1).
    { intros v Hv Hi. by apply Hok. }
    { by apply taken_sum. }
    unfold finish_group, group. rewrite Hs1. cbn [mbind result_bind].
    destruct (route_leftover_ok V s1 k Hp1 Hk) as (s2 & Hs2 & Hp2 & Hf2 & Hb2 & Hn2 & Hr2).
    assert (Hv1 : gval (br_ncn_fee_group_rewards s1) k = R - sumZ (taken R W idx k) votes).
    { rewrite Hn1, gval_upd by lia. rewrite decide_True by done. unfold R. lia. }
    exists s2. split; [exact Hs2|]. split; [done|]. split; [by eapply frame_trans|].
    split; [by rewrite Hb2, Hb1, Hv1|]. split.
    + rewrite Hn2, Hv1, Hn1, upd_upd by lia. f_equal. lia.
    + intros op k' Hop Hk'. rewrite <- Ha1 by done. unfold route_amount, BaseRewardRouter.find_route. by rewrite Hr2.
Qed.

(** What a group leaves over. *)
Definition leftover (s : BaseRewardRouter) (k : nat) : Z :=
  let R := gval (br_ncn_fee_group_rewards s) k in R - sumZ (taken R W idx k) votes.

(** What the groups [ks] do. *)
Lemma groups_ok ks s :
  br_inv V s -> NoDup ks -> (forall k, k ∈ ks -> (k < 8)%nat) ->
  exists s', foldM (group_step W idx votes) s ks = Ok s' /\ br_inv V s' /\ frame s s' /\
    br_base_fee_group_rewards s' = upd (br_base_fee_group_rewards s) 0 (sumZ (leftover s) ks) /\
    (forall k, gval (br_ncn_fee_group_rewards s') k
               = if decide (k ∈ ks) then 0 else gval (br_ncn_fee_group_rewards s) k) /\
    forall op k, op <> Pubkey_default -> (k < 8)%nat ->
      route_amount s' op k = route_amount s op k
        + (if decide (k ∈ ks) then sumZ (credit (gval (br_ncn_fee_group_rewards s) k) W idx k op) votes else 0).
Proof.
  revert s. induction ks as [|k ks IH]; intros s Hs Hnd Hks.
  { exists s. split; [done|]. split; [done|]. split; [done|]. pose proof (rp_base_len _ _ _ Hs).
    cbn [sumZ]. rewrite upd_0 by lia. split; [done|]. split; [done|]. intros. rewrite decide_False by apply not_elem_of_nil. lia. }
  inversion Hnd as [|? ? Hk Hnd']; subst.
  pose proof (rp_base_len _ _ _ Hs) as Hbl. pose proof (rp_ncn_len _ _ _ Hs) as Hnl.
  assert (Hk8 : (k < 8)%nat) by (apply Hks; left).
  destruct (group_step_ok s k Hs Hk8) as (s1 & Hs1 & Hp1 & Hf1 & Hb1 & Hn1 & Ha1).
  assert (Hg : forall j, j <> k -> gval (br_ncn_fee_group_rewards s1) j = gval (br_ncn_fee_group_rewards s) j).
  { intros j Hj. rewrite Hn1, gval_upd by lia. rewrite decide_False by done. lia. }
  destruct (IH s1 Hp1 Hnd') as (s2 & Hs2 & Hp2 & Hf2 & Hb2 & Hn2 & Ha2); [intros; apply Hks; by right|].
  cbn [foldM]. rewrite Hs1. cbn [mbind result_bind]. exists s2. split; [exact Hs2|]. split; [done|].
  split; [by eapply frame_trans|]. split; [|split].
  - rewrite Hb2, Hb1, upd_upd by lia. f_equal. cbn [sumZ]. f_equal.
    apply sumZ_ext. intros j Hj. unfold leftover. rewrite Hg; [done|]. intros ->. done.
  - intros j. rewrite Hn2. destruct (decide (j = k)) as [->|Hne].
    + rewrite decide_False by done. rewrite decide_True by left. rewrite Hn1, gval_upd by lia.
      rewrite decide_True by done. lia.
    + rewrite Hg by done. destruct (decide (j ∈ ks)); [rewrite decide_True by (by right); done|].
      rewrite decide_False; [done|]. by intros [|]%elem_of_cons.
  - intros op j Hop Hj. rewrite Ha2, Ha1 by done. destruct (decide (j = k)) as [->|Hne].
    + rewrite decide_False by done. rewrite decide_True by left. lia.
    + rewrite Hg by done. destruct (decide (j ∈ ks)); [rewrite decide_True by (by right); lia|].
      rewrite decide_False; [lia|]. by intros [|]%elem_of_cons.
Qed.
End result.

(* ------------------------------------------------------------------ *)
(** * The saved routing state does not matter to the routing *)

Section routing_state.
Context `{PreciseNumberOps}.
Context (W : StakeWeights) (idx : Z) (votes : list OperatorVote) (rs : RoutingState).

Definition wr (m : res BaseRewardRouter) : res BaseRewardRouter :=
  s ← m; mret (BaseRewardRouter.with_routing s rs).

Lemma wr_bind (m : res BaseRewardRouter) (f : BaseRewardRouter -> res BaseRewardRouter) :
  (forall s, f (BaseRewardRouter.with_routing s rs) = wr (f s)) ->
  (s ← wr m; f s) = wr (s ← m; f s).
Proof. intros Hf. unfold wr at 1. destruct m as [s|e]; [|done]. cbn. apply Hf. Qed.

Lemma foldM_wr {B} (f : BaseRewardRouter -> B -> res BaseRewardRouter) l s :
  (forall s b, f (BaseRewardRouter.with_routing s rs) b = wr (f s b)) ->
  foldM f (BaseRewardRouter.with_routing s rs) l = wr (foldM f s l).
Proof.
  intros Hf. revert s. induction l as [|b l IH]; intros s; [done|].
  cbn [foldM]. rewrite Hf. by apply wr_bind.
Qed.

Lemma ncn_reward_wr s g :
  BaseRewardRouter.ncn_fee_group_rewards (BaseRewardRouter.with_routing s rs) g = BaseRewardRouter.ncn_fee_group_rewards s g.
Proof. done. Qed.

Lemma route_from_ncn_wr s g r :
  BaseRewardRouter.route_from_ncn_fee_group_rewards (BaseRewardRouter.with_routing s rs) g r
  = wr (BaseRewardRouter.route_from_ncn_fee_group_rewards s g r).
Proof.
  unfold BaseRewardRouter.route_from_ncn_fee_group_rewards. destruct (r =? 0); [done|].
  rewrite ncn_reward_wr. cbn [br_ncn_fee_group_rewards BaseRewardRouter.with_routing].
  destruct (NcnFeeGroup.group_index g); [|done]. cbn [mbind result_bind].
  destruct (BaseRewardRouter.ncn_fee_group_rewards s g); [|done]. cbn [mbind result_bind].
  destruct (ok_or _ _); [|done]. cbn [mbind result_bind]. by destruct (aset _ _ _).
Qed.

Lemma route_to_base_wr s g r :
  BaseRewardRouter.route_to_base_fee_group_rewards (BaseRewardRouter.with_routing s rs) g r
  = wr (BaseRewardRouter.route_to_base_fee_group_rewards s g r).
Proof.
  unfold BaseRewardRouter.route_to_base_fee_group_rewards. destruct (r =? 0); [done|].
  change (BaseRewardRouter.base_fee_group_reward (BaseRewardRouter.with_routing s rs) g)
    with (BaseRewardRouter.base_fee_group_reward s g).
  cbn [br_base_fee_group_rewards BaseRewardRouter.with_routing].
  destruct (BaseFeeGroup.group_index g); [|done]. cbn [mbind result_bind].
  destruct (BaseRewardRouter.base_fee_group_reward s g); [|done]. cbn [mbind result_bind].
  destruct (ok_or _ _); [|done]. cbn [mbind result_bind]. by destruct (aset _ _ _).
Qed.

Lemma route_to_route_wr s g op r :
  BaseRewardRouter.route_to_ncn_fee_group_reward_route (BaseRewardRouter.with_routing s rs) g op r
  = wr (BaseRewardRouter.route_to_ncn_fee_group_reward_route s g op r).
Proof.
  unfold BaseRewardRouter.route_to_ncn_fee_group_reward_route. destruct (r =? 0); [done|].
  change (BaseRewardRouter.find_route (BaseRewardRouter.with_routing s rs)) with (BaseRewardRouter.find_route s).
  destruct (BaseRewardRouter.find_route s op) as [[i x]|].
  - by destruct (NcnRewardRoute.increment_rewards x g r).
  - destruct (BaseRewardRouter.find_route s Pubkey_default) as [[i x]|]; [|done].
    by destruct (NcnRewardRoute.new op g r).
Qed.

Lemma vote_step_wr g R s v :
  vote_step W idx g R (BaseRewardRouter.with_routing s rs) v = wr (vote_step W idx g R s v).
Proof.
  unfold vote_step. destruct (_ =? _); [|done]. unfold BaseRewardRouter.route_vote.
  destruct (StakeWeights.ncn_fee_group_stake_weight W g); [|done]. cbn [mbind result_bind].
  destruct (StakeWeights.ncn_fee_group_stake_weight (ov_stake_weights v) g); [|done]. cbn [mbind result_bind].
  destruct (BaseRewardRouter.calculate_ncn_fee_group_route_reward _ _ _); [|done]. cbn [mbind result_bind].
  rewrite route_from_ncn_wr. apply wr_bind. intros s'. apply route_to_route_wr.
Qed.

Lemma leftover_wr s g :
  BaseRewardRouter.route_leftover (BaseRewardRouter.with_routing s rs) g = wr (BaseRewardRouter.route_leftover s g).
Proof.
  unfold BaseRewardRouter.route_leftover. rewrite ncn_reward_wr.
  destruct (BaseRewardRouter.ncn_fee_group_rewards s g); [|done]. cbn [mbind result_bind].
  rewrite route_from_ncn_wr. apply wr_bind. intros s'. apply route_to_base_wr.
Qed.

Lemma finish_group_wr k R vs s :
  finish_group W idx k R vs (BaseRewardRouter.with_routing s rs) = wr (finish_group W idx k R vs s).
Proof.
  unfold finish_group. rewrite (foldM_wr (vote_step W idx (group k) R)) by (intros; apply vote_step_wr).
  apply wr_bind. intros s'. apply leftover_wr.
Qed.

Lemma groups_ref_wr ks s :
  groups_ref W idx votes ks (BaseRewardRouter.with_routing s rs) = groups_ref W idx votes ks s.
Proof.
  unfold groups_ref. rewrite (foldM_wr (group_step W idx votes)).
  - unfold wr. by destruct (foldM _ _ _).
  - intros s' k. unfold group_step. rewrite ncn_reward_wr.
    destruct (BaseRewardRouter.ncn_fee_group_rewards s' (group k)); [|done]. cbn [mbind result_bind].
    destruct (_ =? _); [done|]. apply finish_group_wr.
Qed.
End routing_state.

(* ------------------------------------------------------------------ *)
(** * The group rewards stay amounts *)

Section amounts.
Context `{PreciseNumberOps}.

Definition ncn_ok (s : BaseRewardRouter) : Prop :=
  length (br_ncn_fee_group_rewards s) = 8%nat /\ nonneg (br_ncn_fee_group_rewards s).

Lemma route_from_ncn_amounts s g r s' :
  BaseRewardRouter.route_from_ncn_fee_group_rewards s g r = Ok s' -> ncn_ok s -> ncn_ok s'.
Proof.
  unfold BaseRewardRouter.route_from_ncn_fee_group_rewards. intros Hr [Hl Hs]. destruct (r =? 0); res_inv; [done|].
  array_inv. split; cbn; [by rewrite length_insert|]. apply Forall_insert_2; [done|]. cbn. lia.
Qed.

Lemma route_to_base_amounts s g r s' :
  BaseRewardRouter.route_to_base_fee_group_rewards s g r = Ok s' -> ncn_ok s -> ncn_ok s'.
Proof.
  unfold BaseRewardRouter.route_to_base_fee_group_rewards. intros Hr Hs. destruct (r =? 0); res_inv; done.
Qed.

Lemma route_to_route_amounts s g op r s' :
  BaseRewardRouter.route_to_ncn_fee_group_reward_route s g op r = Ok s' -> ncn_ok s -> ncn_ok s'.
Proof.
  unfold BaseRewardRouter.route_to_ncn_fee_group_reward_route. intros Hr Hs. destruct (r =? 0); [by res_inv|].
  destruct (BaseRewardRouter.find_route s op) as [[? ?]|]; [by res_inv|].
  destruct (BaseRewardRouter.find_route s Pubkey_default) as [[? ?]|]; by res_inv.
Qed.

Lemma vote_step_amounts W idx g R s v s' : vote_step W idx g R s v = Ok s' -> ncn_ok s -> ncn_ok s'.
Proof.
  unfold vote_step, BaseRewardRouter.route_vote. intros Hr Hs. destruct (_ =? _); res_inv; [|done].
  eauto using route_from_ncn_amounts, route_to_route_amounts.
Qed.

Lemma leftover_amounts s g s' : BaseRewardRouter.route_leftover s g = Ok s' -> ncn_ok s -> ncn_ok s'.
Proof.
  unfold BaseRewardRouter.route_leftover. intros Hr Hs. res_inv.
  eauto using route_from_ncn_amounts, route_to_base_amounts.
Qed.

Lemma votes_amounts W idx g R vs s s' : foldM (vote_step W idx g R) s vs = Ok s' -> ncn_ok s -> ncn_ok s'.
Proof. intros Hf Hs. eapply (foldM_inv ncn_ok); [exact Hs| |exact Hf]. intros; by eapply vote_step_amounts. Qed.
End amounts.

(* ------------------------------------------------------------------ *)
(** * Bounded calls *)

Section calls.
Context `{PreciseNumberOps}.
Context (box : BallotBox) (tally : BallotTally) (M : Z).
Context (HM : 1 <= M < U16) (Hlen : (length (bb_operator_votes box) <= 256)%nat).

Local Abbreviation W := (bt_stake_weights tally).
Local Abbreviation idx := (bt_index tally).
Local Abbreviation votes := (bb_operator_votes box).

(** What is left of the routing at vote [i] of group [k], with [R] lamports
    to share in it. *)
Definition cont (k i : nat) (R : Z) (s : BaseRewardRouter) : res BaseRewardRouter :=
  s' ← finish_group W idx k R (drop i votes) s; groups_ref W idx votes (seq (S k) (7 - k)) s'.

Lemma cont_save k i R s k' i' R' :
  cont k i R (BaseRewardRouter.save_routing_state s k' i' R') = cont k i R s.
Proof.
  unfold cont, BaseRewardRouter.save_routing_state. rewrite finish_group_wr. unfold wr.
  destruct (finish_group _ _ _ _ _ _); [|done]. cbn [mbind result_bind]. apply groups_ref_wr.
Qed.

(** The loop over votes completes, or stops before a vote it had to route. *)
Lemma route_votes_cases k R vs s it i s' :
  0 <= it <= M -> it + Z.of_nat (length vs) < U16 ->
  foldM (vote_step W idx (group k) R) s vs = Ok s' ->
  (exists it', BaseRewardRouter.route_votes tally M k (group k) R s it i vs = Ok (BaseRewardRouter.Continue s' it') /\
     it <= it' <= M /\ it' <= it + Z.of_nat (length vs)) \/
  (exists j s1, BaseRewardRouter.route_votes tally M k (group k) R s it i vs
       = Ok (BaseRewardRouter.Return (BaseRewardRouter.save_routing_state s1 k (i + j) R)) /\
     (j < length vs)%nat /\ M - it <= Z.of_nat j /\
     foldM (vote_step W idx (group k) R) s (take j vs) = Ok s1 /\
     foldM (vote_step W idx (group k) R) s1 (drop j vs) = Ok s').
Proof.
  revert s it i. induction vs as [|v vs IH]; intros s it i Hit Hb Hf; cbn [foldM] in Hf.
  { simplify_eq. left. exists it. split; [done|]. simpl. lia. }
  cbn [BaseRewardRouter.route_votes]. cbn [length] in Hb. rewrite Nat2Z.inj_succ in Hb.
  rewrite vote_step_match in Hf. destruct (ov_ballot_index v =? idx) eqn:Hi.
  - checked.
    destruct (Z.ltb_spec M (it + 1)) as [Hlt|Hle].
    + right. exists 0%nat, s. split; [by rewrite Nat.add_0_r|]. cbn [length take drop foldM].
      split; [lia|]. split; [lia|]. split; [done|]. by rewrite vote_step_match, Hi.
    + destruct (BaseRewardRouter.route_vote W (group k) R s v) as [s1|] eqn:Hv; [|done].
      cbn [mbind result_bind] in Hf |- *.
      destruct (IH s1 (it + 1) (S i)) as [(it' & Hr & Hit')|(j & s2 & Hr & Hj & Hm & Ht & Hd)]; [lia|lia|exact Hf| |].
      * left. exists it'. split; [exact Hr|]. cbn [length]. lia.
      * right. exists (S j), s2. rewrite Nat.add_succ_r. split; [exact Hr|]. cbn [length take drop foldM].
        split; [lia|]. split; [lia|]. split; [|done]. by rewrite vote_step_match, Hi, Hv.
  - cbn [mbind result_bind] in Hf.
    destruct (IH s it (S i)) as [(it' & Hr & Hit')|(j & s2 & Hr & Hj & Hm & Ht & Hd)]; [lia|lia|exact Hf| |].
    + left. exists it'. split; [exact Hr|]. cbn [length]. lia.
    + right. exists (S j), s2. rewrite Nat.add_succ_r. split; [exact Hr|]. cbn [length take drop foldM].
      split; [lia|]. split; [lia|]. split; [|done]. by rewrite vote_step_match, Hi.
Qed.

(** An interrupted routing: at vote [i] of group [k], at least [p] steps in,
    with final result [sf]. *)
Definition suspended (sf : BaseRewardRouter) (p : Z) (s : BaseRewardRouter) : Prop :=
  exists k i R s1, s = BaseRewardRouter.save_routing_state s1 k i R /\ ncn_ok s1 /\
    (k < 8)%nat /\ (i < length votes)%nat /\ 0 < R /\ cont k i R s1 = Ok sf /\
    p <= Z.of_nat (k * length votes + i).

Lemma ncn_value_ok s k : ncn_ok s -> (k < 8)%nat ->
  BaseRewardRouter.ncn_fee_group_rewards s (group k) = Ok (gval (br_ncn_fee_group_rewards s) k).
Proof. intros [Hl _] Hk. by apply ncn_reward_ok. Qed.

Lemma groups_ref_cons k ks s :
  groups_ref W idx votes (k :: ks) s = (s' ← group_step W idx votes s k; groups_ref W idx votes ks s').
Proof. unfold groups_ref. cbn [foldM]. by destruct (group_step W idx votes s k). Qed.

Lemma group_step_value s k : ncn_ok s -> (k < 8)%nat ->
  group_step W idx votes s k = let R := gval (br_ncn_fee_group_rewards s) k in
    if R =? 0 then Ok s else finish_group W idx k R votes s.
Proof. intros Hs Hk. unfold group_step. by rewrite ncn_value_ok. Qed.

Lemma suspended_le sf p q s : q <= p -> suspended sf p s -> suspended sf q s.
Proof.
  intros Hq (k & i & R & s1 & H1 & H2 & H3 & H4 & H5 & H6 & Hp). exists k, i, R, s1.
  repeat (split; [done|]). lia.
Qed.

(** Routing votes [i], [i+1], ... of group [k], then the groups after it. *)
Lemma route_group_cases n k i R s it sf (rest : BaseRewardRouter -> Z -> res BaseRewardRouter) :
  (k + S n = 8)%nat -> ncn_ok s -> 0 < R -> 0 <= it <= M -> it <= Z.of_nat (k * length votes + i) ->
  (i <= length votes)%nat -> cont k i R s = Ok sf ->
  (forall s' it', ncn_ok s' -> 0 <= it' <= M -> it' <= Z.of_nat (S k * length votes) ->
     it' - Z.of_nat (S k * length votes) <= it - Z.of_nat (k * length votes + i) ->
     groups_ref W idx votes (seq (S k) n) s' = Ok sf ->
     rest s' it' = Ok sf \/ exists s'', rest s' it' = Ok s'' /\
       suspended sf (Z.of_nat (S k * length votes) + (M - it')) s'') ->
  let r := (fl ← BaseRewardRouter.route_votes tally M k (group k) R s it i (drop i votes);
            match fl with
            | BaseRewardRouter.Return s' => Ok s'
            | BaseRewardRouter.Continue s' it' => s'' ← BaseRewardRouter.route_leftover s' (group k); rest s'' it'
            end) in
  r = Ok sf \/ exists s', r = Ok s' /\ suspended sf (Z.of_nat (k * length votes + i) + (M - it)) s'.
Proof.
  intros Hk Hs HR Hit Hpos Hi Hc Hrest r. unfold cont, finish_group in Hc.
  destruct (foldM _ s (drop i votes)) as [s1|] eqn:Hf; [|done]. cbn [mbind result_bind] in Hc.
  destruct (BaseRewardRouter.route_leftover s1 (group k)) as [s2|] eqn:Hl; [|done]. cbn [mbind result_bind] in Hc.
  assert (Hov : it + Z.of_nat (length (drop i votes)) < U16).
  { rewrite length_drop. assert (k * length votes <= 7 * 256)%nat by nia. change U16 with 65536. lia. }
  unfold r. destruct (route_votes_cases k R (drop i votes) s it i s1 Hit Hov Hf)
    as [(it' & -> & Hit' & Hb)|(j & s3 & -> & Hj & Hm & Ht & Hd)]; cbn [mbind result_bind].
  - rewrite Hl. cbn [mbind result_bind]. rewrite length_drop in Hb.
    assert (ncn_ok s2) by eauto using votes_amounts, leftover_amounts.
    destruct (Hrest s2 it') as [Hr|(s' & Hr & Hsus)]; [done|lia|lia|lia| |by left|right].
    { replace (7 - k)%nat with n in Hc by lia. exact Hc. }
    exists s'. split; [exact Hr|]. eapply suspended_le; [|exact Hsus]. lia.
  - right. eexists. split; [reflexivity|]. rewrite length_drop in Hj. exists k, (i + j)%nat, R, s3.
    split; [done|]. split; [eauto using votes_amounts|]. split; [lia|]. split; [lia|]. split; [done|]. split; [|lia].
    unfold cont, finish_group. rewrite drop_drop in Hd. rewrite Hd. cbn [mbind result_bind]. by rewrite Hl.
Qed.

(** The groups from the first vote of group [k] on. *)
Lemma route_groups_fresh n k s it sf :
  (k + n = 8)%nat -> ncn_ok s -> 0 <= it <= M -> it <= Z.of_nat (k * length votes) ->
  groups_ref W idx votes (seq k n) s = Ok sf ->
  let r := BaseRewardRouter.route_groups box tally M s it 0 0 (seq k n) in
  r = Ok sf \/ exists s', r = Ok s' /\ suspended sf (Z.of_nat (k * length votes) + (M - it)) s'.
Proof.
  revert k s it. induction n as [|n IH]; intros k s it Hk Hs Hit Hpos Href; [by left|].
  cbn [seq] in Href |- *. rewrite groups_ref_cons, group_step_value in Href by (done || lia). cbv zeta in Href.
  cbn [BaseRewardRouter.route_groups]. rewrite aget_groups by lia. cbn [mbind result_bind].
  cbn [Z.ltb Z.compare]. rewrite ncn_value_ok by (done || lia). cbn [mbind result_bind].
  set (R := gval (br_ncn_fee_group_rewards s) k) in *.
  assert (HR : 0 <= R) by (apply gval_nonneg, Hs).
  destruct (Z.eqb_spec R 0) as [HR0|HR0]; cbn [mbind result_bind] in Href.
  - destruct (IH (S k) s it) as [Hr|(s' & Hr & Hsus)]; [lia|done|done|lia|done|by left|right].
    exists s'. split; [exact Hr|]. eapply suspended_le; [|exact Hsus]. lia.
  - pose proof (route_group_cases n k 0 R s it sf
      (fun s it => BaseRewardRouter.route_groups box tally M s it 0 0 (seq (S k) n))) as Hg.
    rewrite Nat.add_0_r in Hg. apply Hg; try done; try lia; clear Hg.
    + unfold cont. rewrite drop_0. replace (7 - k)%nat with n by lia. done.
    + intros s' it' Hs' Hit' Hle Hd Hg. apply IH; (done || lia).
Qed.

Context (m : Z) (HmM : M = Z.max m 1) (Hwin : BallotBox.get_winning_ballot_tally box = Ok tally).

(** A call on a router that is not routing starts at the first group. *)
Lemma call_fresh s sf :
  BaseRewardRouter.still_routing s = false -> ncn_ok s -> groups_ref W idx votes (seq 0 8) s = Ok sf ->
  let r := BaseRewardRouter.route_ncn_fee_group_rewards s box m in
  r = Ok sf \/ exists s', r = Ok s' /\ suspended sf M s'.
Proof.
  intros Hn Hs Hg. unfold BaseRewardRouter.route_ncn_fee_group_rewards, BaseRewardRouter.resume_routing_state.
  rewrite Hwin, Hn. cbn [mbind result_bind negb]. rewrite <- HmM.
  destruct (route_groups_fresh 8 0 s 0 sf) as [Hr|(s' & Hr & Hsus)]; [lia|done|lia|lia|exact Hg|by left|right].
  exists s'. split; [exact Hr|]. eapply suspended_le; [|exact Hsus]. lia.
Qed.

Lemma suspended_routing sf p s : suspended sf p s -> BaseRewardRouter.still_routing s = true.
Proof.
  clear HmM HM.
  intros (k & i & R & s1 & -> & _ & Hk & _). unfold BaseRewardRouter.still_routing. cbn [br_routing
    BaseRewardRouter.save_routing_state BaseRewardRouter.with_routing last_ncn_group_index].
  unfold cast. rewrite Z.mod_small by lia. unfold BaseRewardRouter.NO_LAST_NCN_GROUP_INDEX.
  by rewrite (proj2 (Z.eqb_neq (Z.of_nat k) _)) by lia.
Qed.

(** A call on a suspended router goes on where it stopped. *)
Lemma call_resumed s p sf :
  suspended sf p s ->
  let r := BaseRewardRouter.route_ncn_fee_group_rewards s box m in
  r = Ok sf \/ exists s', r = Ok s' /\ suspended sf (p + M) s'.
Proof.
  intros Hsus. pose proof (suspended_routing _ _ _ Hsus) as Hst.
  destruct Hsus as (k & i & R & s1 & -> & Hs & Hk & Hi & HR & Hc & Hp).
  unfold BaseRewardRouter.route_ncn_fee_group_rewards, BaseRewardRouter.resume_routing_state.
  rewrite Hwin, Hst. cbn [mbind result_bind negb br_routing BaseRewardRouter.save_routing_state
    BaseRewardRouter.with_routing last_ncn_group_index last_vote_index last_rewards_to_process].
  rewrite <- HmM. unfold cast. rewrite !Z.mod_small by lia. rewrite !Nat2Z.id.
  change NcnFeeGroup.FEE_GROUP_COUNT with 8%nat.
  replace (8 - k)%nat with (S (7 - k)) by lia. cbn [seq BaseRewardRouter.route_groups].
  rewrite aget_groups by lia. rewrite (proj2 (Z.ltb_lt 0 R)) by lia. cbn [mbind result_bind].
  rewrite (proj2 (Z.eqb_neq R 0)) by lia.
  set (s := BaseRewardRouter.save_routing_state s1 k i R).
  destruct (route_group_cases (7 - k) k i R s 0 sf
      (fun s it => BaseRewardRouter.route_groups box tally M s it 0 0 (seq (S k) (7 - k))))
    as [Hr|(s' & Hr & Hsus)]; try done; try lia.
  - unfold s. by rewrite cont_save.
  - intros s' it' Hs' Hit' Hle Hd Hg. apply route_groups_fresh; (done || lia).
  - by left.
  - right. exists s'. split; [exact Hr|]. eapply suspended_le; [|exact Hsus]. lia.
Qed.

(** Nothing is left to do: a call only clears the saved state. *)
Lemma route_groups_done n k s it :
  (k + n = 8)%nat -> ncn_ok s -> (forall j, gval (br_ncn_fee_group_rewards s) j = 0) ->
  BaseRewardRouter.route_groups box tally M s it 0 0 (seq k n) = Ok (BaseRewardRouter.reset_routing_state s).
Proof.
  revert k. induction n as [|n IH]; intros k Hk Hs Hz; [done|]. cbn [seq BaseRewardRouter.route_groups].
  rewrite aget_groups by lia. cbn [mbind result_bind Z.ltb Z.compare].
  rewrite ncn_value_ok by (done || lia). rewrite Hz. cbn [Z.eqb mbind result_bind].
  apply IH; (done || lia).
Qed.

Lemma call_nothing s :
  BaseRewardRouter.still_routing s = false -> ncn_ok s -> (forall j, gval (br_ncn_fee_group_rewards s) j = 0) ->
  BaseRewardRouter.route_ncn_fee_group_rewards s box m = Ok (BaseRewardRouter.reset_routing_state s).
Proof.
  intros Hn Hs Hz. unfold BaseRewardRouter.route_ncn_fee_group_rewards, BaseRewardRouter.resume_routing_state.
  rewrite Hwin, Hn. cbn [mbind result_bind negb]. rewrite <- HmM.
  apply (route_groups_done 8 0); (done || lia).
Qed.

Lemma reset_not_routing s : BaseRewardRouter.still_routing (BaseRewardRouter.reset_routing_state s) = false.
Proof. done. Qed.

(** A suspended router is not past the last vote. *)
Lemma suspended_bound sf p s : suspended sf p s -> p < 8 * 256.
Proof.
  clear HmM HM. intros (k & i & R & s1 & _ & _ & Hk & Hi & _ & _ & Hp). nia. Qed.

End calls.

(* ------------------------------------------------------------------ *)
(** * The balance is kept by every call *)

Section balance.
Context `{L : PreciseNumberLaws}.
Context (V : list Pubkey) (box : BallotBox) (tally : BallotTally).
Context (HV : (length V <= 256)%nat) (HW : sw_wf (bt_stake_weights tally)).
Context (Hok : forall v k, v ∈ bb_operator_votes box -> ov_ballot_index v = bt_index tally -> (k < 8)%nat ->
  vote_ok V (bt_stake_weights tally) k v).

Lemma with_routing_inv s rs : br_inv V s -> br_inv V (BaseRewardRouter.with_routing s rs).
Proof. intros []. by split. Qed.

Lemma route_vote_inv s k R v s' :
  br_inv V s -> (k < 8)%nat -> fits U64 R -> vote_ok V (bt_stake_weights tally) k v ->
  BaseRewardRouter.route_vote (bt_stake_weights tally) (group k) R s v = Ok s' -> br_inv V s'.
Proof.
  intros Hs Hk HR Hv Hr.
  destruct (decide (vshare R (bt_stake_weights tally) k v <= gval (br_ncn_fee_group_rewards s) k)) as [Hle|Hgt].
  { destruct (route_vote_ok V s k (bt_stake_weights tally) R v Hs HV Hk HW HR Hv Hle) as (s1 & Hs1 & Hp & _).
    unfold group in Hr. rewrite Hs1 in Hr. by injection Hr as <-. }
  exfalso. destruct Hv as (Hwf & Hle & _). unfold BaseRewardRouter.route_vote, group in Hr.
  pose proof (NcnFeeGroup.nfg_all_groups_index k Hk) as Hg.
  rewrite (ncn_fee_group_stake_weight_ok _ _ _ (proj1 (proj2 HW)) Hg) in Hr. cbn [mbind result_bind] in Hr.
  rewrite (ncn_fee_group_stake_weight_ok _ _ _ (proj1 (proj2 Hwf)) Hg) in Hr. cbn [mbind result_bind] in Hr.
  destruct (share_ok R (gw k (ov_stake_weights v)) (gw k (bt_stake_weights tally))) as (Hc & Hx & _);
    [done|by apply gw_fits|by apply gw_fits|done|].
  rewrite Hc in Hr. cbn [mbind result_bind] in Hr. fold (vshare R (bt_stake_weights tally) k v) in *.
  pose proof (gval_nonneg _ k (rp_ncn _ _ _ Hs)).
  unfold BaseRewardRouter.route_from_ncn_fee_group_rewards in Hr.
  rewrite (proj2 (Z.eqb_neq (vshare R (bt_stake_weights tally) k v) 0)) in Hr by lia.
  rewrite Hg in Hr. cbn [mbind result_bind] in Hr. rewrite ncn_reward_ok in Hr by (apply (rp_ncn_len _ _ _ Hs) || done).
  cbn [mbind result_bind] in Hr. unfold checked_sub in Hr.
  rewrite (proj2 (Z.leb_gt (vshare R (bt_stake_weights tally) k v) (gval (br_ncn_fee_group_rewards s) k))) in Hr by lia. done.
Qed.

Definition saved_ok (s : BaseRewardRouter) : Prop := fits U64 (last_rewards_to_process (br_routing s)).

Definition flow_state (f : BaseRewardRouter.flow) : BaseRewardRouter :=
  match f with BaseRewardRouter.Continue s _ => s | BaseRewardRouter.Return s => s end.

Lemma route_votes_inv M k R vs s it i f :
  br_inv V s -> (k < 8)%nat -> fits U64 R -> (forall v, v ∈ vs -> v ∈ bb_operator_votes box) ->
  BaseRewardRouter.route_votes tally M k (group k) R s it i vs = Ok f ->
  br_inv V (flow_state f) /\ match f with BaseRewardRouter.Return s' => saved_ok s' | _ => True end.
Proof.
  intros Hs Hk HR. revert s it i Hs. induction vs as [|v vs IH]; intros s it i Hs Hvs Hr;
    cbn [BaseRewardRouter.route_votes] in Hr; [by injection Hr as <-|].
  destruct (Z.eqb_spec (ov_ballot_index v) (bt_index tally)) as [Hi|Hi].
  - apply bind_Ok in Hr as (it' & _ & Hr).
    destruct (_ <? _); [injection Hr as <-; split; [by apply with_routing_inv|done]|].
    apply bind_Ok in Hr as (s1 & H1 & Hr). apply (IH s1 it' (S i)); [|intros; apply Hvs; by right|done].
    eapply route_vote_inv; eauto. apply Hok; [apply Hvs; left|done|done].
  - apply (IH s it (S i)); [done|intros; apply Hvs; by right|done].
Qed.

Lemma route_leftover_inv s k s' : br_inv V s -> (k < 8)%nat ->
  BaseRewardRouter.route_leftover s (group k) = Ok s' -> br_inv V s'.
Proof.
  intros Hs Hk Hr. destruct (route_leftover_ok V s k Hs Hk) as (s1 & Hs1 & Hp & _).
  unfold group in Hr. rewrite Hs1 in Hr. by injection Hr as <-.
Qed.

Lemma route_groups_inv M ks s it i R s' :
  br_inv V s -> (forall k, k ∈ ks -> (k < 8)%nat) -> fits U64 R ->
  BaseRewardRouter.route_groups box tally M s it i R ks = Ok s' -> br_inv V s' /\ saved_ok s'.
Proof.
  revert s it i R. induction ks as [|k ks IH]; intros s it i R Hs Hks HR Hr; cbn [BaseRewardRouter.route_groups] in Hr.
  { injection Hr as <-. split; [by apply with_routing_inv|done]. }
  assert (Hk : (k < 8)%nat) by (apply Hks; left).
  assert (Hks' : forall j, j ∈ ks -> (j < 8)%nat) by (intros; apply Hks; by right).
  assert (H0 : fits U64 0) by done.
  rewrite aget_groups in Hr by done. cbn [mbind result_bind] in Hr.
  apply bind_Ok in Hr as (R' & HR' & Hr).
  assert (fits U64 R').
  { destruct (0 <? R); [by injection HR' as <-|]. unfold group in HR'.
    rewrite ncn_reward_ok in HR' by (apply (rp_ncn_len _ _ _ Hs) || done). injection HR' as <-.
    by eapply ncn_value_fits. }
  destruct (R' =? 0); [exact (IH _ _ _ _ Hs Hks' H0 Hr)|].
  apply bind_Ok in Hr as (f & Hf & Hr). apply route_votes_inv in Hf; [|done..|].
  2: { intros v [j Hj]%list_elem_of_lookup. rewrite lookup_drop in Hj. by eapply list_elem_of_lookup_2. }
  destruct Hf as [Hf Hsv]. destruct f as [s1 it1|s1]; cbn [flow_state] in Hf; [|by injection Hr as <-].
  apply bind_Ok in Hr as (s2 & H2 & Hr). eapply (IH s2 it1 0%nat 0); [|done|done|exact Hr].
  by eapply route_leftover_inv.
Qed.

Lemma route_ncn_inv s m s' :
  BallotBox.get_winning_ballot_tally box = Ok tally -> br_inv V s -> saved_ok s ->
  BaseRewardRouter.route_ncn_fee_group_rewards s box m = Ok s' -> br_inv V s' /\ saved_ok s'.
Proof.
  intros Hwin Hs Hsv Hr. unfold BaseRewardRouter.route_ncn_fee_group_rewards in Hr. rewrite Hwin in Hr.
  cbn [mbind result_bind] in Hr. unfold BaseRewardRouter.resume_routing_state in Hr.
  change NcnFeeGroup.FEE_GROUP_COUNT with 8%nat in Hr.
  destruct (BaseRewardRouter.still_routing s); cbn [negb] in Hr; (eapply route_groups_inv; [| | |exact Hr]);
    try done; intros k [? Hk]%elem_of_seq; lia.
Qed.
End balance.
