(* ===== verification/BaseRewardTheorems.v ===== *)
(** What the base reward router guarantees: the pool is split by the fees to
    the last lamport, operators that voted for the winning ballot are credited
    their share, calls may stop anywhere, and the receiver can always pay. *)

From Stdlib Require Import String.
From S2P Require Import Prelude Errors External Constants FeeGroups Fees StakeWeight BallotBox BallotBoxProps BallotBoxTheorems BaseRewardRouter BaseRewardRouterProps BaseRouting.

#[local] Arguments gw : simpl never.
#[local] Arguments ONE : simpl never.
#[local] Arguments replicate : simpl never.
#[local] Arguments vsum : simpl never.
#[local] Arguments gval : simpl never.
#[local] Arguments upd : simpl never.

Definition voters (b : BallotBox) : list Pubkey := ov_operator <$> bb_operator_votes b.

(** The winning tally of a box in its invariant. *)
Lemma winning_tally_facts b t :
  bb_inv b -> BallotBox.get_winning_ballot_tally b = Ok t ->
  sw_wf (bt_stake_weights t) /\ 0 <= bt_index t < 256 /\
  forall k, (k < 8)%nat -> vsum (MGroup k) (bt_index t) (bb_operator_votes b) = gw k (bt_stake_weights t).
Proof.
  intros Hb Ht. unfold BallotBox.get_winning_ballot_tally in Ht.
  destruct (negb _); [done|]. destruct (list_find _ _) as [[i u]|] eqn:Ef; [|done]. cbn in Ht. injection Ht as ->.
  apply list_find_Some in Ef as (Hi & Heq & _).
  pose proof (ti_ok _ (bi_tallies _ Hb) _ _ Hi) as Hok.
  pose proof (lookup_lt_Some _ _ _ Hi) as Hlt. rewrite (ti_len _ (bi_tallies _ Hb)) in Hlt. unfold MAX_OPERATORS in Hlt.
  apply ballot_eq_true in Heq as [_ Hv]. unfold tally_ok, BallotTally.is_valid in Hok. rewrite Hv in Hok.
  destruct Hok as [Hidx _]. split; [apply (Forall_lookup_1 _ _ _ _ (ti_wf _ (bi_tallies _ Hb)) Hi)|].
  split; [lia|]. intros k Hk. rewrite Hidx.
  pose proof (bi_acct _ Hb (MGroup k) i t Hk Hi) as Ha. simpl in Ha. lia.
Qed.

Lemma winning_votes_ok b t v k :
  bb_inv b -> BallotBox.get_winning_ballot_tally b = Ok t -> v ∈ bb_operator_votes b ->
  ov_ballot_index v = bt_index t -> (k < 8)%nat -> vote_ok (voters b) (bt_stake_weights t) k v.
Proof.
  intros Hb Ht Hv Hi Hk. destruct (winning_tally_facts b t Hb Ht) as (_ & Hr & Hs).
  pose proof (vi_wf _ (bi_votes _ Hb)) as Hwf.
  apply list_elem_of_lookup in Hv as Hp. destruct Hp as [p Hp].
  split; [apply (Forall_In _ _ _ Hwf Hv)|]. split.
  { rewrite <- (Hs k Hk). transitivity (vmeas (MGroup k) (bt_index t) v); [|by eapply vsum_elem_le].
    unfold vmeas. rewrite Hi, Z.eqb_refl. done. }
  destruct (Z.ltb_spec (Z.of_nat p) (bb_operators_voted b)) as [Hlt|Hge].
  - split; [by destruct (vi_cast _ (bi_votes _ Hb) _ _ Hp Hlt)|]. unfold voters. by apply list_elem_of_fmap_2.
  - rewrite (vi_free _ (bi_votes _ Hb) _ _ Hp Hge) in Hi. simpl in Hi. lia.
Qed.

Lemma voters_length b : bb_inv b -> length (voters b) = 256%nat.
Proof. intros Hb. unfold voters. rewrite length_fmap. apply (vi_len _ (bi_votes _ Hb)). Qed.

Lemma fee_le_total f x : x ∈ base_fee_groups_bps f \/ x ∈ ncn_fee_groups_bps f -> fees_wf f -> fee x <= fees_total f.
Proof.
  intros Hx (_ & _ & Hb & Hn). unfold fees_total.
  assert (Hp : forall l, Forall fee_ok l -> forall y, y ∈ l -> 0 <= fee y) by (intros l Hl y Hy; apply (Forall_In _ _ _ Hl Hy)).
  pose proof (sumZ_nonneg fee _ (Hp _ Hb)). pose proof (sumZ_nonneg fee _ (Hp _ Hn)).
  destruct Hx as [[i Hi]%list_elem_of_lookup|[i Hi]%list_elem_of_lookup].
  - pose proof (sumZ_elem_le fee _ i x (Hp _ Hb) Hi). lia.
  - pose proof (sumZ_elem_le fee _ i x (Hp _ Hn) Hi). lia.
Qed.

Section theorems.
Context `{L : PreciseNumberLaws}.

(* ------------------------------------------------------------------ *)
(** * Routing to the operators *)

(** [R] lamports of group [k] shared among the votes of [b] for tally [t]:
    what operator [op] receives, and what all receive. *)
Definition operator_share (b : BallotBox) (t : BallotTally) (R : Z) (k : nat) (op : Pubkey) : Z :=
  sumZ (credit R (bt_stake_weights t) (bt_index t) k op) (bb_operator_votes b).
Definition operators_share (b : BallotBox) (t : BallotTally) (R : Z) (k : nat) : Z :=
  sumZ (taken R (bt_stake_weights t) (bt_index t) k) (bb_operator_votes b).

Definition ncn_reward_of (s : BaseRewardRouter) (k : nat) : Z := gval (br_ncn_fee_group_rewards s) k.
Definition base_reward_of (s : BaseRewardRouter) (k : nat) : Z := gval (br_base_fee_group_rewards s) k.

(** [s'] is [s] with all the groups' rewards routed. *)
Record routed (b : BallotBox) (t : BallotTally) (s s' : BaseRewardRouter) : Prop := {
  rt_done : br_routing s' = BaseRewardRouter.not_routing;
  rt_pool : br_reward_pool s' = br_reward_pool s;
  rt_processed : br_rewards_processed s' = br_rewards_processed s;
  rt_total : br_total_rewards s' = br_total_rewards s;
  rt_ncn : forall k, ncn_reward_of s' k = 0 \/ (8 <= k)%nat;
  rt_base : forall i, (i < 8)%nat -> base_reward_of s' i = base_reward_of s i +
    (if decide (i = 0%nat)
     then sumZ (fun k => ncn_reward_of s k - operators_share b t (ncn_reward_of s k) k) (seq 0 8) else 0);
  rt_routes : forall op k, op <> Pubkey_default -> (k < 8)%nat ->
    route_amount s' op k = route_amount s op k + operator_share b t (ncn_reward_of s k) k op;
}.

Definition group_list : list nat := seq 0 8.

Lemma group_list_lt k : k ∈ group_list <-> (k < 8)%nat.
Proof. unfold group_list. rewrite elem_of_seq. lia. Qed.

(** The fold over the groups gives it. *)
Lemma routing_result b t s :
  bb_inv b -> BallotBox.get_winning_ballot_tally b = Ok t -> br_inv (voters b) s ->
  exists sf, groups_ref (bt_stake_weights t) (bt_index t) (bb_operator_votes b) group_list s = Ok sf /\
    br_inv (voters b) sf /\ routed b t s sf.
Proof.
  intros Hb Ht Hs. destruct (winning_tally_facts b t Hb Ht) as (HW & Hidx & Hsum).
  pose proof (vi_len _ (bi_votes _ Hb)) as Hvl. unfold MAX_OPERATORS in Hvl.
  destruct (groups_ok (voters b) (bt_stake_weights t) (bt_index t) (bb_operator_votes b)
    ltac:(rewrite voters_length by done; lia) HW ltac:(lia)) with (ks := group_list) (s := s)
    as (s1 & Hs1 & Hp1 & (Hf1 & Hf2 & Hf3 & _) & Hb1 & Hn1 & Ha1).
  - intros v k Hv Hi Hk. by apply (winning_votes_ok b t).
  - intros k Hk. rewrite Hsum by done. lia.
  - done.
  - apply NoDup_seq.
  - intros k Hk. by apply group_list_lt.
  - exists (BaseRewardRouter.reset_routing_state s1). split; [unfold groups_ref; by rewrite Hs1|].
    split; [by apply with_routing_inv|]. split; try done.
    + intros k. unfold ncn_reward_of. cbn [BaseRewardRouter.reset_routing_state BaseRewardRouter.with_routing
        br_ncn_fee_group_rewards]. rewrite Hn1. destruct (decide _) as [|Hk]; [by left|right].
      rewrite group_list_lt in Hk. lia.
    + intros i Hi. unfold base_reward_of. cbn [BaseRewardRouter.reset_routing_state BaseRewardRouter.with_routing
        br_base_fee_group_rewards]. rewrite Hb1, gval_upd; [done|]. rewrite (rp_base_len _ _ _ Hs). lia.
    + intros op k Hop Hk. unfold route_amount, BaseRewardRouter.find_route in *.
      cbn [BaseRewardRouter.reset_routing_state BaseRewardRouter.with_routing br_routes].
      rewrite Ha1 by done. rewrite decide_True by by apply group_list_lt. done.
Qed.

Lemma inv_ncn_ok V x s : br_pend V x s -> ncn_ok s.
Proof. intros Hs. split; [apply (rp_ncn_len _ _ _ Hs)|apply (rp_ncn _ _ _ Hs)]. Qed.

(** A sequence of calls with these iteration bounds, and the number of
    iterations they are allowed. *)
Definition calls (b : BallotBox) (s : BaseRewardRouter) (ms : list Z) : res BaseRewardRouter :=
  foldM (fun s m => BaseRewardRouter.route_ncn_fee_group_rewards s b m) s ms.
Definition steps (ms : list Z) : Z := sumZ (fun m => Z.max m 1) ms.

Lemma steps_nonneg ms : 0 <= steps ms.
Proof. apply sumZ_nonneg. intros. lia. Qed.

Lemma call_done b t s sf m :
  bb_inv b -> BallotBox.get_winning_ballot_tally b = Ok t -> br_inv (voters b) sf -> routed b t s sf ->
  BaseRewardRouter.route_ncn_fee_group_rewards sf b m = Ok sf.
Proof.
  intros Hb Ht Hs Hrt. pose proof (vi_len _ (bi_votes _ Hb)) as Hvl. unfold MAX_OPERATORS in Hvl.
  assert (Hz : forall j, gval (br_ncn_fee_group_rewards sf) j = 0).
  { intros j. destruct (rt_ncn _ _ _ _ Hrt j) as [|Hj]; [done|]. unfold gval.
    rewrite lookup_ge_None_2; [done|]. by rewrite (rp_ncn_len _ _ _ Hs). }
  assert (Hr : BaseRewardRouter.reset_routing_state sf = sf).
  { unfold BaseRewardRouter.reset_routing_state, BaseRewardRouter.with_routing. rewrite <- (rt_done _ _ _ _ Hrt). by destruct sf. }
  assert (Hn : BaseRewardRouter.still_routing sf = false).
  { unfold BaseRewardRouter.still_routing. by rewrite (rt_done _ _ _ _ Hrt). }
  rewrite (call_nothing b t (Z.max m 1) ltac:(lia) m eq_refl Ht sf Hn (inv_ncn_ok _ _ _ Hs) Hz). by rewrite Hr.
Qed.

(** Where a sequence of calls from [s] with result [sf] may be. *)
Definition progress_to (b : BallotBox) (t : BallotTally) (s sf : BaseRewardRouter) (p : Z) (s' : BaseRewardRouter) : Prop :=
  (s' = s /\ p = 0) \/ s' = sf \/ suspended b t sf p s'.

Lemma calls_progress b t s sf ms :
  bb_inv b -> BallotBox.get_winning_ballot_tally b = Ok t -> br_inv (voters b) s ->
  BaseRewardRouter.still_routing s = false ->
  groups_ref (bt_stake_weights t) (bt_index t) (bb_operator_votes b) group_list s = Ok sf ->
  br_inv (voters b) sf -> routed b t s sf -> Forall (fits U16) ms ->
  exists s', calls b s ms = Ok s' /\ progress_to b t s sf (steps ms) s'.
Proof.
  intros Hb Ht Hs Hn Hg Hsf Hrt Hms. pose proof (vi_len _ (bi_votes _ Hb)) as Hvl. unfold MAX_OPERATORS in Hvl.
  induction ms as [|m ms IH] using rev_ind; [exists s; split; [done|by left]|].
  apply Forall_app in Hms as [Hms Hm]. apply Forall_cons_1 in Hm as [Hm _].
  destruct (IH Hms) as (s1 & Hs1 & Hp). unfold calls. rewrite foldM_app. fold (calls b s ms). rewrite Hs1.
  cbn [mbind result_bind foldM]. unfold steps in *. rewrite sumZ_app. cbn [sumZ].
  assert (HM : 1 <= Z.max m 1 < U16) by (unfold fits in Hm; lia).
  destruct Hp as [[-> Hz]|[->|Hsus]].
  - destruct (call_fresh b t (Z.max m 1) HM ltac:(lia) m eq_refl Ht s sf Hn (inv_ncn_ok _ _ _ Hs) Hg) as [Hr|(s' & Hr & Hsus)];
      rewrite Hr; cbn [mbind result_bind].
    + exists sf. split; [done|]. by right; left.
    + exists s'. split; [done|]. right; right. rewrite Hz, Z.add_0_l, Z.add_0_r. done.
  - rewrite (call_done b t s sf m Hb Ht Hsf Hrt). cbn. exists sf. split; [done|]. by right; left.
  - destruct (call_resumed b t (Z.max m 1) HM ltac:(lia) m eq_refl Ht s1 _ sf Hsus) as [Hr|(s' & Hr & Hsus')];
      rewrite Hr; cbn [mbind result_bind].
    + exists sf. split; [done|]. by right; left.
    + exists s'. split; [done|]. right; right. by rewrite Z.add_0_r.
Qed.

(** With enough iterations, a sequence of calls is at its end. *)
Lemma progress_end b t s sf p s' :
  bb_inv b -> progress_to b t s sf p s' -> 2048 <= p -> s' = sf.
Proof.
  intros Hb Hp Hge. pose proof (vi_len _ (bi_votes _ Hb)) as Hvl. unfold MAX_OPERATORS in Hvl.
  destruct Hp as [[_ ->]|[|Hsus]]; [lia|done|]. apply suspended_bound in Hsus; lia.
Qed.

Lemma call_complete b t s m :
  bb_inv b -> BallotBox.get_winning_ballot_tally b = Ok t -> br_inv (voters b) s ->
  BaseRewardRouter.still_routing s = false -> 2048 <= m -> fits U16 m ->
  exists sf, BaseRewardRouter.route_ncn_fee_group_rewards s b m = Ok sf /\
    groups_ref (bt_stake_weights t) (bt_index t) (bb_operator_votes b) group_list s = Ok sf /\
    br_inv (voters b) sf /\ routed b t s sf.
Proof.
  intros Hb Ht Hs Hn Hm Hf. destruct (routing_result b t s Hb Ht Hs) as (sf & Hg & Hsf & Hrt). exists sf.
  destruct (calls_progress b t s sf [m] Hb Ht Hs Hn Hg Hsf Hrt) as (s' & Hc & Hp); [by constructor|].
  assert (s' = sf) as -> by (eapply progress_end; [done|exact Hp|]; unfold steps; cbn [sumZ]; lia).
  unfold calls in Hc. cbn [foldM] in Hc. destruct (BaseRewardRouter.route_ncn_fee_group_rewards s b m); [|done]. done.
Qed.

(* ------------------------------------------------------------------ *)
(** * Splitting the pool *)

(** A fee's part of [R] lamports when the fees add up to [T]. *)
Definition fee_split (R T : Z) (l : list Fee) (i : nat) : Z :=
  match l !! i with Some x => R * fee x / T | None => 0 end.

Lemma reward_split_ok R T x :
  fits U64 R -> 0 <= fee x <= T -> T < ONE ->
  BaseRewardRouter.calculate_reward_split (fee x) T R = Ok (R * fee x / T) /\ 0 <= R * fee x / T <= R.
Proof.
  intros HR Hx HT. unfold BaseRewardRouter.calculate_reward_split, fits in *.
  destruct (Z.eqb_spec (fee x) 0) as [->|Hx0]; cbn [orb].
  { rewrite Z.mul_0_r, Zdiv_0_l. split; [done|lia]. }
  destruct (Z.eqb_spec R 0) as [->|HR0]; [rewrite Zdiv_0_l; split; [done|lia]|].
  rewrite mul_div_floor_exact by (unfold fits, ONE in *; lia). split; [done|].
  split; [apply Z.div_pos; nia|]. apply Z.div_le_upper_bound; nia.
Qed.

Lemma splits_le R T l : 0 <= R -> Forall fee_ok l -> 0 <= T ->
  sumZ (fun x => R * fee x / T) l * T <= R * sumZ fee l.
Proof.
  intros HR Hl HT. induction l as [|x l IH]; [cbn; lia|]. apply Forall_cons_1 in Hl as [Hx Hl].
  specialize (IH Hl). cbn [sumZ].
  assert (R * fee x / T * T <= R * fee x).
  { destruct (Z.eqb_spec T 0) as [->|]; [rewrite Z.mul_0_r; destruct Hx; nia|].
    rewrite Z.mul_comm. apply Z.mul_div_le. lia. }
  nia.
Qed.

(** What splitting the pool leaves unchanged. *)
Definition split_frame (s s' : BaseRewardRouter) (x : Z) : Prop :=
  br_reward_pool s' = br_reward_pool s - x /\ br_rewards_processed s' = br_rewards_processed s + x /\
  br_total_rewards s' = br_total_rewards s /\ br_routing s' = br_routing s /\ br_routes s' = br_routes s.

Lemma split_frame_trans a b c x y : split_frame a b x -> split_frame b c y -> split_frame a c (x + y).
Proof. intros (H1 & H2 & H3 & H4 & H5) (J1 & J2 & J3 & J4 & J5). repeat split; first [lia|congruence]. Qed.

(** One group's part goes from the pool to the group. *)
Lemma route_base_group_ok V s f R T i :
  br_inv V s -> fees_wf f -> fits U64 R -> fees_total f <= T < ONE -> (i < 8)%nat ->
  fee_split R T (base_fee_groups_bps f) i <= br_reward_pool s ->
  exists s', BaseRewardRouter.route_base_group f T R s (BaseFeeGroup.mk (Z.of_nat i)) = Ok s' /\ br_inv V s' /\
    split_frame s s' (fee_split R T (base_fee_groups_bps f) i) /\
    br_base_fee_group_rewards s' = upd (br_base_fee_group_rewards s) i (fee_split R T (base_fee_groups_bps f) i) /\
    br_ncn_fee_group_rewards s' = br_ncn_fee_group_rewards s.
Proof.
  intros Hs Hf HR HT Hi Hle. unfold BaseRewardRouter.route_base_group.
  destruct (base_fee_bps_ok f (BaseFeeGroup.mk (Z.of_nat i)) i Hf (BaseFeeGroup.bfg_all_groups_index i Hi)) as (x & Hx & Hl & Hok).
  rewrite Hx. cbn [mbind result_bind]. unfold fee_split in *. rewrite Hl in *.
  assert (HxT : 0 <= fee x <= T). { pose proof (fee_le_total f x (or_introl (list_elem_of_lookup_2 _ _ _ Hl)) Hf). destruct Hok. lia. }
  destruct (reward_split_ok R T x HR HxT) as [Hr Hb]; [lia|]. rewrite Hr. cbn [mbind result_bind].
  destruct (route_from_pool_ok V 0 s (R * fee x / T) Hs) as (s1 & Hs1 & Hp1 & Heq1); [lia|].
  rewrite Hs1. cbn [mbind result_bind]. rewrite Z.add_0_l in Hp1.
  destruct (route_to_base_ok V _ s1 i (R * fee x / T) Hp1 Hi) as (s2 & Hs2 & Hp2 & Heq2); [lia|].
  rewrite Z.sub_diag in Hp2. exists s2. split; [exact Hs2|]. split; [done|]. by subst s2 s1.
Qed.

Lemma route_ncn_group_ok V s f R T i :
  br_inv V s -> fees_wf f -> fits U64 R -> fees_total f <= T < ONE -> (i < 8)%nat ->
  fee_split R T (ncn_fee_groups_bps f) i <= br_reward_pool s ->
  exists s', BaseRewardRouter.route_ncn_group f T R s (NcnFeeGroup.mk (Z.of_nat i)) = Ok s' /\ br_inv V s' /\
    split_frame s s' (fee_split R T (ncn_fee_groups_bps f) i) /\
    br_ncn_fee_group_rewards s' = upd (br_ncn_fee_group_rewards s) i (fee_split R T (ncn_fee_groups_bps f) i) /\
    br_base_fee_group_rewards s' = br_base_fee_group_rewards s.
Proof.
  intros Hs Hf HR HT Hi Hle. unfold BaseRewardRouter.route_ncn_group.
  destruct (ncn_fee_bps_ok f (NcnFeeGroup.mk (Z.of_nat i)) i Hf (NcnFeeGroup.nfg_all_groups_index i Hi)) as (x & Hx & Hl & Hok).
  rewrite Hx. cbn [mbind result_bind]. unfold fee_split in *. rewrite Hl in *.
  assert (HxT : 0 <= fee x <= T). { pose proof (fee_le_total f x (or_intror (list_elem_of_lookup_2 _ _ _ Hl)) Hf). destruct Hok. lia. }
  destruct (reward_split_ok R T x HR HxT) as [Hr Hb]; [lia|]. rewrite Hr. cbn [mbind result_bind].
  destruct (route_from_pool_ok V 0 s (R * fee x / T) Hs) as (s1 & Hs1 & Hp1 & Heq1); [lia|].
  rewrite Hs1. cbn [mbind result_bind]. rewrite Z.add_0_l in Hp1.
  destruct (route_to_ncn_ok V _ s1 i (R * fee x / T) Hp1 Hi) as (s2 & Hs2 & Hp2 & Heq2); [lia|].
  rewrite Z.sub_diag in Hp2. exists s2. split; [exact Hs2|]. split; [done|]. by subst s2 s1.
Qed.

(** All the groups of one kind. *)
Lemma split_fold V (step : BaseRewardRouter -> nat -> res BaseRewardRouter)
    (proj other : BaseRewardRouter -> list BaseRewardRouterRewards) (a : nat -> Z) gs s :
  (forall s i, br_inv V s -> (i < 8)%nat -> a i <= br_reward_pool s ->
     exists s', step s i = Ok s' /\ br_inv V s' /\ split_frame s s' (a i) /\
       proj s' = upd (proj s) i (a i) /\ other s' = other s) ->
  (forall s, br_inv V s -> length (proj s) = 8%nat) -> (forall i, 0 <= a i) ->
  NoDup gs -> (forall i, i ∈ gs -> (i < 8)%nat) -> br_inv V s -> sumZ a gs <= br_reward_pool s ->
  exists s', foldM step s gs = Ok s' /\ br_inv V s' /\ split_frame s s' (sumZ a gs) /\ other s' = other s /\
    forall i, gval (proj s') i = gval (proj s) i + (if decide (i ∈ gs) then a i else 0).
Proof.
  intros Hstep Hlen Ha. revert s. induction gs as [|i gs IH]; intros s Hnd His Hs Hsum.
  { exists s. split; [done|]. split; [done|]. split; [repeat split; cbn; lia|]. split; [done|].
    intros i. rewrite decide_False by apply not_elem_of_nil. lia. }
  inversion Hnd as [|? ? Hni Hnd']; subst. cbn [sumZ] in Hsum.
  assert (Hpos : 0 <= sumZ a gs) by (apply sumZ_nonneg; auto). pose proof (Ha i).
  assert (Hi : (i < 8)%nat) by (apply His; left).
  destruct (Hstep s i Hs Hi) as (s1 & Hs1 & Hp1 & Hf1 & Hr1 & Ho1); [lia|].
  destruct (IH s1 Hnd') as (s2 & Hs2 & Hp2 & Hf2 & Ho2 & Hg2);
    [intros; apply His; by right|done|destruct Hf1 as [-> _]; lia|].
  cbn [foldM]. rewrite Hs1. cbn [mbind result_bind]. exists s2. split; [exact Hs2|]. split; [done|].
  split; [by eapply split_frame_trans|]. split; [congruence|]. intros j. rewrite Hg2, Hr1, gval_upd by (rewrite Hlen; done).
  destruct (decide (j = i)) as [->|Hne].
  - rewrite decide_False by done. rewrite decide_True by left. lia.
  - destruct (decide (j ∈ gs)); [rewrite decide_True by (by right); lia|].
    rewrite decide_False; [lia|]. by intros [|]%elem_of_cons.
Qed.

Lemma foldM_fmap {E A B C} (f : A -> C -> result E A) (g : B -> C) a l :
  foldM f a (g <$> l) = foldM (fun a b => f a (g b)) a l.
Proof. revert a. induction l as [|b l IH]; intros a; [done|]. cbn. destruct (f a (g b)); [apply IH|done]. Qed.

(** The parts of the pool do not exceed it. *)
Lemma fee_split_seq R T l : length l = 8%nat -> sumZ (fee_split R T l) group_list = sumZ (fun x => R * fee x / T) l.
Proof.
  intros Hl. unfold group_list. rewrite <- Hl. symmetry. apply sumZ_seq. intros i x Hi. unfold fee_split. cbn [Nat.add]. by rewrite Hi.
Qed.

Lemma fee_split_nonneg R T l i : 0 <= R -> 0 <= T -> Forall fee_ok l -> 0 <= fee_split R T l i.
Proof.
  intros HR HT Hl. unfold fee_split. destruct (l !! i) as [x|] eqn:E; [|done].
  destruct (Forall_lookup_1 _ _ _ _ Hl E) as [Hx _].
  destruct (Z.eqb_spec T 0) as [->|]; [by rewrite Zdiv_0_r|]. apply Z.div_pos; nia.
Qed.

Lemma fee_splits_total R f : 0 <= R -> fees_wf f ->
  let T := fees_total f in
  sumZ (fee_split R T (base_fee_groups_bps f)) group_list + sumZ (fee_split R T (ncn_fee_groups_bps f)) group_list <= R.
Proof.
  intros HR Hf T. pose proof (fees_total_bound f Hf) as HT. fold T in HT.
  destruct Hf as (Hb & Hn & Hbo & Hno). rewrite !fee_split_seq by done.
  pose proof (splits_le R T _ HR Hbo ltac:(lia)). pose proof (splits_le R T _ HR Hno ltac:(lia)).
  assert (HT' : sumZ fee (base_fee_groups_bps f) + sumZ fee (ncn_fee_groups_bps f) = T) by done.
  destruct (Z.eqb_spec T 0) as [HT0|HT0].
  - rewrite HT0. rewrite !(sumZ_zero (fun x => R * fee x / 0)) by (intros; apply Zdiv_0_r). lia.
  - apply (Zmult_le_reg_r _ _ T); [lia|]. rewrite Z.mul_add_distr_r. nia.
Qed.

(** The pool of [s] split by the fees [f]. *)
Record pool_split (f : Fees) (s s' : BaseRewardRouter) : Prop := {
  ps_pool : br_reward_pool s' = 0;
  ps_processed : br_rewards_processed s' = br_rewards_processed s + br_reward_pool s;
  ps_total : br_total_rewards s' = br_total_rewards s;
  ps_routing : br_routing s' = br_routing s;
  ps_routes : br_routes s' = br_routes s;
  ps_ncn : forall k, ncn_reward_of s' k = ncn_reward_of s k
    + (if decide (k < 8)%nat then fee_split (br_reward_pool s) (fees_total f) (ncn_fee_groups_bps f) k else 0);
  ps_base : forall i, (0 < i)%nat -> base_reward_of s' i = base_reward_of s i
    + (if decide (i < 8)%nat then fee_split (br_reward_pool s) (fees_total f) (base_fee_groups_bps f) i else 0);
  ps_dao : base_reward_of s' 0 = base_reward_of s 0 + br_reward_pool s
    - sumZ (fee_split (br_reward_pool s) (fees_total f) (base_fee_groups_bps f)) (seq 1 7)
    - sumZ (fee_split (br_reward_pool s) (fees_total f) (ncn_fee_groups_bps f)) group_list;
}.

Lemma base_groups_seq : BaseFeeGroup.all_groups = (fun i => BaseFeeGroup.mk (Z.of_nat i)) <$> group_list.
Proof. done. Qed.
Lemma ncn_groups_seq : NcnFeeGroup.all_groups = (fun i => NcnFeeGroup.mk (Z.of_nat i)) <$> group_list.
Proof. done. Qed.

Lemma if_group {A} k (x y : A) :
  (if decide (k ∈ group_list) then x else y) = (if decide (k < 8)%nat then x else y).
Proof.
  destruct (decide (k < 8)%nat) as [Hk|Hk]; [by rewrite decide_True by by apply group_list_lt|].
  rewrite decide_False; [done|]. by rewrite group_list_lt.
Qed.

Lemma route_reward_pool_spec V s f :
  br_inv V s -> fees_wf f ->
  exists s', BaseRewardRouter.route_reward_pool s f = Ok s' /\ br_inv V s' /\ pool_split f s s'.
Proof.
  intros Hs Hf. pose proof (fees_total_bound f Hf) as HT. set (R := br_reward_pool s). set (T := fees_total f) in *.
  destruct (held_nonneg _ _ _ Hs) as (? & ? & ?). pose proof (rp_held _ _ _ Hs) as Hh. unfold held in Hh.
  pose proof (rp_pool _ _ _ Hs) as HR0. pose proof (rp_total _ _ _ Hs) as Ht.
  assert (HR : fits U64 R) by (unfold fits, R; lia).
  pose proof (fee_splits_total R f HR0 Hf) as Hsum. fold T in Hsum. cbv zeta in Hsum.
  assert (HTO : fees_total f <= T < ONE) by (unfold ONE, T in *; lia).
  set (a := fee_split R T (base_fee_groups_bps f)) in *. set (c := fee_split R T (ncn_fee_groups_bps f)) in *.
  assert (Ha : forall i, 0 <= a i) by (intros; apply fee_split_nonneg; [done|lia|apply Hf]).
  assert (Hc : forall i, 0 <= c i) by (intros; apply fee_split_nonneg; [done|lia|apply Hf]).
  pose proof (sumZ_nonneg c group_list ltac:(auto)) as Hcn. pose proof (sumZ_nonneg a group_list ltac:(auto)) as Han.
  unfold BaseRewardRouter.route_reward_pool. rewrite total_fees_bps_ok by done. fold T. cbn [mbind result_bind]. fold R.
  rewrite base_groups_seq, ncn_groups_seq, foldM_fmap.
  destruct (split_fold V (fun s i => BaseRewardRouter.route_base_group f T R s (BaseFeeGroup.mk (Z.of_nat i)))
    br_base_fee_group_rewards br_ncn_fee_group_rewards a group_list s) as (s1 & Hs1 & Hp1 & Hf1 & Ho1 & Hg1);
    [intros; by apply route_base_group_ok|apply rp_base_len|done|apply NoDup_seq|intros i; apply group_list_lt|done|unfold R in *; lia|].
  rewrite Hs1. cbn [mbind result_bind]. rewrite foldM_fmap.
  destruct (split_fold V (fun s i => BaseRewardRouter.route_ncn_group f T R s (NcnFeeGroup.mk (Z.of_nat i)))
    br_ncn_fee_group_rewards br_base_fee_group_rewards c group_list s1) as (s2 & Hs2 & Hp2 & Hf2 & Ho2 & Hg2);
    [intros; by apply route_ncn_group_ok|apply rp_ncn_len|done|apply NoDup_seq|intros i; apply group_list_lt|done
    |destruct Hf1 as [-> _]; unfold R in *; lia|].
  rewrite Hs2. cbn [mbind result_bind]. pose proof (split_frame_trans _ _ _ _ _ Hf1 Hf2) as Hf12.
  destruct (route_from_pool_ok V 0 s2 (br_reward_pool s2) Hp2) as (s3 & Hs3 & Hp3 & Heq3); [pose proof (rp_pool _ _ _ Hp2); lia|].
  rewrite Hs3. cbn [mbind result_bind]. rewrite Z.add_0_l in Hp3.
  destruct (route_to_base_ok V _ s3 0 (br_reward_pool s2) Hp3) as (s4 & Hs4 & Hp4 & Heq4); [lia|pose proof (rp_pool _ _ _ Hp2); lia|].
  rewrite Z.sub_diag in Hp4. change (Z.of_nat 0) with 0 in Hs4. exists s4. split; [exact Hs4|]. split; [done|].
  destruct Hf12 as (E1 & E2 & E3 & E4 & E5). fold R in E1, E2.
  pose proof (rp_base_len _ _ _ Hp2) as Hl2.
  split; rewrite ?Heq4, ?Heq3; cbn; fold R T a c; try (done || lia).
  - intros k. unfold ncn_reward_of. cbn. rewrite Hg2, Ho1, if_group. done.
  - intros i Hi. unfold base_reward_of. cbn. rewrite gval_upd by lia.
    rewrite decide_False by lia. rewrite Ho2, Hg1, if_group. lia.
  - unfold base_reward_of. cbn. rewrite gval_upd by lia. rewrite decide_True by done.
    rewrite Ho2, Hg1, if_group, E1. rewrite decide_True by lia.
    unfold group_list. cbn [seq sumZ]. lia.
Qed.

(* ------------------------------------------------------------------ *)
(** * Incoming rewards and distribution *)

Lemma route_to_pool_ok V s r :
  br_inv V s -> 0 <= r -> br_total_rewards s + r < U64 ->
  BaseRewardRouter.route_to_reward_pool s r
    = Ok (BaseRewardRouter.with_pool s (br_total_rewards s + r) (br_reward_pool s + r)) /\
  br_inv V (BaseRewardRouter.with_pool s (br_total_rewards s + r) (br_reward_pool s + r)).
Proof.
  intros Hs Hr Hb. destruct (held_nonneg _ _ _ Hs) as (? & ? & ?). pose proof (rp_held _ _ _ Hs) as Hh. unfold held in Hh.
  pose proof (rp_pool _ _ _ Hs). pose proof (rp_total _ _ _ Hs). split.
  - unfold BaseRewardRouter.route_to_reward_pool. destruct (Z.eqb_spec r 0) as [->|].
    + rewrite !Z.add_0_r. by destruct s.
    + checked.
      done.
  - destruct Hs. split; try done; cbn; lia.
Qed.

(** The pool takes what the account holds beyond its rent and what the router
    already accounts for. *)
Lemma route_incoming_spec V s rent balance s' :
  br_inv V s -> 0 <= rent -> BaseRewardRouter.route_incoming_rewards s rent balance = Ok s' ->
  br_inv V s' /\ br_reward_pool s' + br_rewards_processed s' + rent = balance /\
  br_rewards_processed s' = br_rewards_processed s /\
  br_total_rewards s' - br_total_rewards s = balance - rent - br_reward_pool s - br_rewards_processed s /\
  br_routing s' = br_routing s.
Proof.
  intros Hs Hrent Hr. destruct (held_nonneg _ _ _ Hs) as (? & ? & ?). pose proof (rp_held _ _ _ Hs) as Hh. unfold held in Hh.
  unfold BaseRewardRouter.route_incoming_rewards, BaseRewardRouter.total_rewards_in_transit in Hr. res_inv.
  set (inc := balance - (br_reward_pool s + br_rewards_processed s) - rent) in *.
  assert (Hb : br_total_rewards s + inc < U64).
  { unfold BaseRewardRouter.route_to_reward_pool in Hr. destruct (Z.eqb_spec inc 0) as [Hi|Hi];
      [rewrite Hi; pose proof (rp_total _ _ _ Hs); lia|]. by res_inv. }
  destruct (route_to_pool_ok V s inc Hs) as [Heq Hp]; [unfold inc; lia|done|]. rewrite Heq in Hr. injection Hr as <-.
  split; [done|]. cbn. unfold inc. repeat split; lia.
Qed.

Lemma decrement_processed_ok s r : 0 <= r <= br_rewards_processed s ->
  BaseRewardRouter.decrement_rewards_processed s r = Ok (BaseRewardRouter.with_processed s (br_rewards_processed s - r)).
Proof.
  intros Hr. unfold BaseRewardRouter.decrement_rewards_processed. destruct (Z.eqb_spec r 0) as [->|].
  - rewrite Z.sub_0_r. by destruct s.
  - rewrite checked_sub_ok by lia. done.
Qed.

(** A fee group's rewards leave the router. *)
Lemma distribute_base_ok V s i :
  br_inv V s -> (i < 8)%nat ->
  let r := base_reward_of s i in
  exists s', BaseRewardRouter.distribute_base_fee_group_rewards s (BaseFeeGroup.mk (Z.of_nat i)) = Ok (s', r) /\
    br_inv V s' /\ 0 <= r <= br_rewards_processed s /\
    s' = BaseRewardRouter.with_processed (BaseRewardRouter.with_base s (upd (br_base_fee_group_rewards s) i (- r)))
           (br_rewards_processed s - r).
Proof.
  intros Hs Hi r. destruct (held_nonneg _ _ _ Hs) as (? & ? & ?). pose proof (rp_held _ _ _ Hs) as Hh. unfold held in Hh.
  pose proof (gval_nonneg _ i (rp_base _ _ _ Hs)) as Hr0. pose proof (gval_le_sum _ i (rp_base _ _ _ Hs)) as Hr1.
  unfold base_reward_of in r. fold r in Hr0, Hr1. pose proof (rp_base_len _ _ _ Hs) as Hl.
  eexists. split; [|split; [|split; [|reflexivity]]]; [| |lia].
  - unfold BaseRewardRouter.distribute_base_fee_group_rewards.
    rewrite (BaseFeeGroup.bfg_all_groups_index i Hi). cbn [mbind result_bind].
    rewrite base_reward_ok by done. cbn [mbind result_bind]. fold r.
    checked. rewrite aset_lt by lia. cbn [mbind result_bind].
    rewrite decrement_processed_ok by (cbn; lia). cbn [mbind result_bind]. unfold upd. fold r.
    rewrite Z.sub_diag, Z.add_opp_diag_r. done.
  - pose proof (rp_total _ _ _ Hs). destruct Hs. split; cbn; try done; try lia.
    + by rewrite upd_length.
    + apply nonneg_upd; [done|]. fold r. lia.
    + unfold held in *. cbn. rewrite sumZ_upd by lia. lia.
Qed.

Lemma with_processed_inv V x s : br_pend V x s -> x <= br_rewards_processed s ->
  br_inv V (BaseRewardRouter.with_processed s (br_rewards_processed s - x)).
Proof.
  intros Hs Hx. pose proof (rp_total _ _ _ Hs). pose proof (rp_x _ _ _ Hs). destruct Hs.
  split; cbn; try done; try lia. unfold held in *. cbn. lia.
Qed.

(** An operator's rewards of a group leave the router. *)
Lemma distribute_route_ok V s op k :
  br_inv V s -> op <> Pubkey_default -> (k < 8)%nat -> BaseRewardRouter.has_operator_reward_route s op = true ->
  let r := route_amount s op k in
  exists s', BaseRewardRouter.distribute_ncn_fee_group_reward_route s (NcnFeeGroup.mk (Z.of_nat k)) op = Ok (s', r) /\
    br_inv V s' /\ 0 <= r <= br_rewards_processed s /\
    br_rewards_processed s' = br_rewards_processed s - r /\ br_reward_pool s' = br_reward_pool s /\
    br_total_rewards s' = br_total_rewards s /\ br_routing s' = br_routing s /\
    forall op' k', op' <> Pubkey_default -> (k' < 8)%nat ->
      route_amount s' op' k' = route_amount s op' k' - (if decide (op' = op /\ k' = k) then r else 0).
Proof.
  intros Hs Hop Hk Hhas r. unfold BaseRewardRouter.has_operator_reward_route in Hhas.
  destruct (BaseRewardRouter.find_route s op) as [[j old]|] eqn:Ef; [|done].
  assert (Hj : br_routes s !! j = Some old /\ nr_operator old = op) by (apply list_find_Some in Ef as (? & ? & _); done).
  destruct Hj as [Hj Hold]. destruct (Forall_lookup_1 _ _ _ _ (rp_routes _ _ _ Hs) Hj) as (Hl & Hn & _ & HV).
  assert (Hr : r = gval (nr_rewards old) k) by (unfold r, route_amount; by rewrite Ef).
  pose proof (gval_nonneg _ k Hn) as Hr0. rewrite <- Hr in Hr0.
  destruct (held_nonneg _ _ _ Hs) as (? & ? & ?). pose proof (rp_held _ _ _ Hs) as Hh. unfold held in Hh.
  assert (Hle : r <= sumZ route_sum (br_routes s)).
  { rewrite Hr. transitivity (route_sum old); [by apply gval_le_sum|]. apply (sumZ_elem_le _ _ j); [|done].
    intros y Hy. apply sumZ_nonneg. intros z Hz.
    destruct (Forall_In _ _ _ (rp_routes _ _ _ Hs) Hy) as (_ & Hy' & _). apply (Forall_In _ _ _ Hy' Hz). }
  destruct (pend_insert_route V 0 s j old op k (- r) Hs Hj Hk Hop) as [Hp Ha];
    [rewrite <- Hold; apply HV; by rewrite Hold|by left|lia|lia|].
  set (s1 := BaseRewardRouter.with_routes s _) in *. replace (0 - - r) with r in Hp by lia.
  exists (BaseRewardRouter.with_processed s1 (br_rewards_processed s1 - r)).
  split; [|split; [by apply with_processed_inv; [|cbn; lia]|]].
  - unfold BaseRewardRouter.distribute_ncn_fee_group_reward_route. rewrite Ef.
    rewrite route_get_ok by done. cbn [mbind result_bind]. rewrite <- Hr.
    unfold NcnRewardRoute.decrement_rewards. rewrite route_get_ok by done. cbn [mbind result_bind]. rewrite <- Hr.
    checked. rewrite route_set_ok by done. cbn [mbind result_bind].
    rewrite decrement_processed_ok by (cbn; lia). cbn [mbind result_bind].
    unfold s1, upd. rewrite <- Hr, Hold, Z.sub_diag, Z.add_opp_diag_r. done.
  - split; [lia|]. split; [done|]. split; [done|]. split; [done|]. split; [done|].
    intros op' k' Hop' Hk'. specialize (Ha op' k' Hop' Hk').
    change (route_amount (BaseRewardRouter.with_processed s1 (br_rewards_processed s1 - r)) op' k')
      with (route_amount s1 op' k'). rewrite Ha. destruct (decide _); lia.
Qed.

(* ------------------------------------------------------------------ *)
(** * Properties *)

(** C36: routing the reward pool never fails for well-formed fees, empties
    the pool, and gives every fee group exactly the floor of its part of the
    pool; the DAO group (base group 0) takes the rest, so that no lamport is
    lost. *)
Theorem route_reward_pool_splits V s f :
  br_inv V s -> fees_wf f ->
  exists s', BaseRewardRouter.route_reward_pool s f = Ok s' /\ br_inv V s' /\ pool_split f s s'.
Proof. apply route_reward_pool_spec. Qed.

(** C14: one call with at least 2048 iterations routes all the groups: it
    never fails (no amount underflows, every voter finds a route), every
    operator that voted for the winning ballot is credited its share of each
    group, no other operator is credited, the groups are left empty and the DAO
    group takes what the shares leave. *)
Theorem route_ncn_credits b t s m :
  bb_inv b -> BallotBox.get_winning_ballot_tally b = Ok t -> br_inv (voters b) s ->
  BaseRewardRouter.still_routing s = false -> 2048 <= m -> fits U16 m ->
  exists s', BaseRewardRouter.route_ncn_fee_group_rewards s b m = Ok s' /\ br_inv (voters b) s' /\ routed b t s s' /\
    forall k, (k < 8)%nat -> 0 <= operators_share b t (ncn_reward_of s k) k <= ncn_reward_of s k.
Proof.
  intros Hb Ht Hs Hn Hm Hf. destruct (call_complete b t s m Hb Ht Hs Hn Hm Hf) as (s' & Hr & _ & Hs' & Hrt).
  exists s'. split; [done|]. split; [done|]. split; [done|]. intros k Hk.
  destruct (winning_tally_facts b t Hb Ht) as (HW & _ & Hsum).
  pose proof (vi_len _ (bi_votes _ Hb)) as Hvl. unfold MAX_OPERATORS in Hvl.
  assert (Hok : forall v j, v ∈ bb_operator_votes b -> ov_ballot_index v = bt_index t -> (j < 8)%nat ->
    vote_ok (voters b) (bt_stake_weights t) j v) by (intros; by apply (winning_votes_ok b t)).
  assert (Hle : forall j, (j < 8)%nat -> vsum (MGroup j) (bt_index t) (bb_operator_votes b) <= gw j (bt_stake_weights t)).
  { intros j Hj. rewrite Hsum by done. lia. }
  pose proof (voters_length b Hb). eapply taken_sum; eauto; try lia. by apply (ncn_value_fits (voters b)).
Qed.

(** C15: routing may be cut into calls with any iteration bounds: no call
    fails, the routing is over exactly when the state equals the state one
    uninterrupted call leaves, and it is over as soon as the bounds add up to
    2048 iterations. *)
Theorem route_ncn_resumable b t s ms :
  bb_inv b -> BallotBox.get_winning_ballot_tally b = Ok t -> br_inv (voters b) s ->
  BaseRewardRouter.still_routing s = false -> Forall (fits U16) ms -> ms <> [] ->
  exists sf s', BaseRewardRouter.route_ncn_fee_group_rewards s b 65535 = Ok sf /\ calls b s ms = Ok s' /\
    (BaseRewardRouter.still_routing s' = false <-> s' = sf) /\ (2048 <= steps ms -> s' = sf).
Proof.
  intros Hb Ht Hs Hn Hms Hne.
  destruct (call_complete b t s 65535 Hb Ht Hs Hn) as (sf & Hr & Hg & Hsf & Hrt); [done|done|].
  destruct (calls_progress b t s sf ms Hb Ht Hs Hn Hg Hsf Hrt Hms) as (s' & Hc & Hp).
  exists sf, s'. split; [done|]. split; [done|]. split; [|by eapply progress_end].
  assert (Hsf0 : BaseRewardRouter.still_routing sf = false).
  { unfold BaseRewardRouter.still_routing. by rewrite (rt_done _ _ _ _ Hrt). }
  pose proof (vi_len _ (bi_votes _ Hb)) as Hvl. unfold MAX_OPERATORS in Hvl.
  destruct Hp as [[_ Hz]|[->|Hsus]]; [|done|].
  - exfalso. destruct ms as [|m ms]; [done|]. unfold steps in Hz. cbn [sumZ] in Hz.
    pose proof (steps_nonneg ms) as Hz'. unfold steps in Hz'. lia.
  - apply suspended_routing in Hsus; [|lia]. split; [congruence|]. intros ->. congruence.
Qed.

(** C37: an operator's reward for a vote never exceeds the rewards shared;
    for stake weights below 10^12 it is the exact floor, and for larger ones it
    exceeds the exact quotient by at most half a trillionth of a lamport. *)
Theorem route_reward_bounds R w W :
  fits U64 R -> fits U128 w -> fits U128 W -> w <= W ->
  exists x, BaseRewardRouter.calculate_ncn_fee_group_route_reward w W R = Ok x /\ 0 <= x <= R /\
    2 * (x * ONE * W) <= 2 * (R * w * ONE) + W /\ (0 < W < ONE -> x = R * w / W).
Proof.
  intros HR Hw HW Hle. destruct (share_ok R w W HR Hw HW Hle) as (H1 & H2 & H3).
  exists (share R w W). split; [done|]. split; [done|]. split; [done|]. intros HW0. by apply share_exact.
Qed.

(** a distribution hands out exactly what the group, or the operator
    in the group, was credited, sets that amount to zero and takes it off the
    processed rewards; nothing else changes. *)
Theorem distribute_exactly V s i op :
  br_inv V s -> (i < 8)%nat -> op <> Pubkey_default -> BaseRewardRouter.has_operator_reward_route s op = true ->
  (exists s', BaseRewardRouter.distribute_base_fee_group_rewards s (BaseFeeGroup.mk (Z.of_nat i)) = Ok (s', base_reward_of s i) /\
     br_inv V s' /\ base_reward_of s' i = 0 /\ br_routes s' = br_routes s /\
     br_rewards_processed s' = br_rewards_processed s - base_reward_of s i /\ br_reward_pool s' = br_reward_pool s) /\
  (exists s', BaseRewardRouter.distribute_ncn_fee_group_reward_route s (NcnFeeGroup.mk (Z.of_nat i)) op = Ok (s', route_amount s op i) /\
     br_inv V s' /\ br_reward_pool s' = br_reward_pool s /\
     br_rewards_processed s' = br_rewards_processed s - route_amount s op i /\
     forall op' k', op' <> Pubkey_default -> (k' < 8)%nat ->
       route_amount s' op' k' = if decide (op' = op /\ k' = i) then 0 else route_amount s op' k').
Proof.
  intros Hs Hi Hop Hhas. split.
  - destruct (distribute_base_ok V s i Hs Hi) as (s' & Hr & Hs' & _ & Heq). exists s'. split; [done|]. split; [done|].
    subst s'. cbn. split; [|done]. unfold base_reward_of. cbn. pose proof (rp_base_len _ _ _ Hs).
    rewrite gval_upd by lia. rewrite decide_True by done. lia.
  - destruct (distribute_route_ok V s op i Hs Hop Hi Hhas) as (s' & Hr & Hs' & _ & Hp & Hq & _ & _ & Ha).
    exists s'. split; [done|]. split; [done|]. split; [done|]. split; [done|]. intros op' k' Hop' Hk'.
    rewrite Ha by done. destruct (decide _) as [[-> ->]|]; lia.
Qed.
End theorems.

(* ------------------------------------------------------------------ *)
(** * Witnesses *)

Module BaseRewardWitness.
Import BallotBoxTheorems.BallotBoxWitness.
Definition get_fees (r : res Fees) : Fees := match r with Ok f => f | Err _ => mkFees 0 [] [] end.
Definition get_router (r : res BaseRewardRouter) : BaseRewardRouter :=
  match r with Ok s => s | Err _ => BaseRewardRouter.new (key 9) 5 255 100 end.
Definition get_tally (r : res BallotTally) : BallotTally := match r with Ok t => t | Err _ => BallotTally.default end.

Definition fees := get_fees (Fees.new 270 15 0).
Definition tally := get_tally (BallotBox.get_winning_ballot_tally b3).
Definition s0 := BaseRewardRouter.new (key 9) 5 255 100.
Definition s1 := BaseRewardRouter.with_pool s0 1000003 1000003.
Definition s2 := get_router (BaseRewardRouter.route_reward_pool (H := U256Precise.ops) s1 fees).
Definition s3 := get_router (BaseRewardRouter.route_ncn_fee_group_rewards (H := U256Precise.ops) s2 b3 65535).

Lemma tally_eq : BallotBox.get_winning_ballot_tally b3 = Ok tally.
Proof. vm_compute. reflexivity. Qed.

Lemma fees_ok : fees_wf fees.
Proof. apply (bool_decide_unpack _). vm_compute. exact I. Qed.

Lemma b3_inv : bb_inv b3.
Proof. apply wit_inv, wit_steps_decided. Qed.

Lemma s1_inv : br_inv (voters b3) s1.
Proof.
  destruct (route_to_pool_ok (voters b3) s0 1000003) as [_ Hs]; [apply new_br_inv|done|vm_compute; reflexivity|exact Hs].
Qed.

Lemma s2_inv : br_inv (voters b3) s2.
Proof.
  destruct (route_reward_pool_spec (L := U256Precise.laws) (voters b3) s1 fees s1_inv fees_ok) as (s' & Hr & Hs' & _).
  unfold s2. rewrite Hr. exact Hs'.
Qed.

Lemma s3_inv : br_inv (voters b3) s3.
Proof.
  destruct (call_complete (L := U256Precise.laws) b3 tally s2 65535 b3_inv tally_eq s2_inv) as (s' & Hr & _ & Hs' & _);
    [vm_compute; reflexivity|done|done|]. unfold s3. rewrite Hr. exact Hs'.
Qed.
End BaseRewardWitness.
Import BallotBoxTheorems.BallotBoxWitness BaseRewardWitness.

Lemma route_reward_pool_splits_witness :
  exists s', BaseRewardRouter.route_reward_pool (H := U256Precise.ops) s1 fees = Ok s' /\ br_reward_pool s' = 0 /\
    ncn_reward_of s' 0 = 0 + 1000003 * 15 / 285.
Proof.
  destruct (route_reward_pool_splits (L := U256Precise.laws) (voters b3) s1 fees s1_inv fees_ok) as (s' & Hr & _ & Hp).
  exists s'. split; [exact Hr|]. split; [exact (ps_pool _ _ _ Hp)|]. exact (ps_ncn _ _ _ Hp 0%nat).
Defined.

Lemma route_ncn_credits_witness :
  exists s', BaseRewardRouter.route_ncn_fee_group_rewards (H := U256Precise.ops) s2 b3 65535 = Ok s' /\
    route_amount s' (key 1) 0 = route_amount s2 (key 1) 0 + @operator_share U256Precise.ops b3 tally (ncn_reward_of s2 0) 0 (key 1) /\
    ncn_reward_of s2 0 = 52631.
Proof.
  destruct (route_ncn_credits (L := U256Precise.laws) b3 tally s2 65535 b3_inv tally_eq s2_inv) as (s' & Hr & _ & Hrt & _);
    [vm_compute; reflexivity|done|done|].
  exists s'. split; [exact Hr|]. split; [|vm_compute; reflexivity].
  apply (rt_routes _ _ _ _ Hrt); [done|lia].
Defined.

Lemma route_ncn_resumable_witness :
  @calls U256Precise.ops b3 s2 [1; 1] = Ok s3 /\ @calls U256Precise.ops b3 s2 [1; 1] <> Ok s2.
Proof.
  destruct (route_ncn_resumable (L := U256Precise.laws) b3 tally s2 [1; 1] b3_inv tally_eq s2_inv)
    as (sf & s' & Hr & Hc & Hd & _); [vm_compute; reflexivity|by repeat constructor|done|].
  rewrite Hc. assert (Hn : BaseRewardRouter.still_routing s' = false).
  { revert Hc. vm_compute. intros Hc. by injection Hc as <-. }
  apply Hd in Hn as ->. unfold s3. rewrite Hr. split; [reflexivity|].
  rewrite <- Hr. vm_compute. discriminate.
Defined.

Lemma route_reward_bounds_witness :
  exists x, BaseRewardRouter.calculate_ncn_fee_group_route_reward (H := U256Precise.ops) 30 70 1001 = Ok x /\ x = 1001 * 30 / 70.
Proof.
  destruct (route_reward_bounds (L := U256Precise.laws) 1001 30 70) as (x & Hx & _ & _ & Hf); [done|done|done|done|].
  exists x. split; [exact Hx|]. by apply Hf.
Defined.

Lemma distribute_exactly_witness :
  exists s', BaseRewardRouter.distribute_ncn_fee_group_reward_route s3 NcnFeeGroup.lst (key 1) = Ok (s', route_amount s3 (key 1) 0).
Proof.
  destruct (distribute_exactly (voters b3) s3 0 (key 1) s3_inv) as (_ & s' & Hr & _); [lia|done|vm_compute; reflexivity|].
  exists s'. exact Hr.
Defined.
