(* ===== verification/NcnRewardRouter.v ===== *)
(** The NCN reward router (core/src/ncn_reward_router.rs): the lamports of one
    operator and one NCN fee group go to the operator (its fee, and what is
    left over) and to the vaults that delegate to it.  Routing to vaults is
    bounded per call; its state is saved and resumed.  The basis points of a
    whole, a constant of jito_vault_core, are the parameter [MAX_BPS]. *)

From Stdlib Require Import String.
From S2P Require Import Prelude Errors External Constants Accounts FeeGroups StakeWeight EpochSnapshot.

(* ------------------------------------------------------------------ *)
(** * Vault routes *)

Record VaultRewardRoute := mkVaultRewardRoute { vr_vault : Pubkey; vr_rewards : Z }.

#[export] Instance VaultRewardRoute_eq_dec : EqDecision VaultRewardRoute.
Proof. solve_decision. Defined.

Module VaultRewardRoute.
Definition default : VaultRewardRoute := mkVaultRewardRoute Pubkey_default 0.
Definition new (vault : Pubkey) (r : Z) : res VaultRewardRoute := Ok (mkVaultRewardRoute vault r).
Definition is_empty (self : VaultRewardRoute) : bool := bool_decide (vr_vault self = Pubkey_default).
Definition has_rewards (self : VaultRewardRoute) : bool := 0 <? vr_rewards self.
Definition set_rewards (self : VaultRewardRoute) (r : Z) : res VaultRewardRoute :=
  Ok (mkVaultRewardRoute (vr_vault self) r).
Definition increment_rewards (self : VaultRewardRoute) (r : Z) : res VaultRewardRoute :=
  let current_rewards := vr_rewards self in
  new_rewards ← ok_or (checked_add U64 current_rewards r) (Tip ArithmeticOverflow);
  set_rewards self new_rewards.
Definition decrement_rewards (self : VaultRewardRoute) (r : Z) : res VaultRewardRoute :=
  let current_rewards := vr_rewards self in
  new_rewards ← ok_or (checked_sub current_rewards r) (Tip ArithmeticUnderflowError);
  set_rewards self new_rewards.
End VaultRewardRoute.

(* ------------------------------------------------------------------ *)
(** * The router *)

Record VaultRoutingState := mkVaultRoutingState {
  nr_last_rewards_to_process : Z;
  nr_last_vault_operator_delegation_index : Z;
}.

#[export] Instance VaultRoutingState_eq_dec : EqDecision VaultRoutingState.
Proof. solve_decision. Defined.

Record NcnRewardRouter := mkNcnRewardRouter {
  nr_ncn_fee_group : NcnFeeGroup;
  nr_router_operator : Pubkey;
  nr_ncn : Pubkey;
  nr_epoch : Z;
  nr_bump : Z;
  nr_slot_created : Z;
  nr_ncn_operator_index : Z;
  nr_total_rewards : Z;
  nr_reward_pool : Z;
  nr_rewards_processed : Z;
  nr_operator_rewards : Z;
  nr_routing : VaultRoutingState;
  nr_vault_reward_routes : list VaultRewardRoute;
}.

#[export] Instance NcnRewardRouter_eq_dec : EqDecision NcnRewardRouter.
Proof. solve_decision. Defined.

Module NcnRewardRouter.
Definition NO_LAST_REWARDS_TO_PROCESS : Z := u64_max.
Definition NO_LAST_VAULT_OPERATION_DELEGATION_INDEX : Z := u16_max.
Definition MAX_ROUTE_NCN_ITERATIONS : Z := 30.
Definition SIZE : Z := 8 + (1 + 32 + 32 + 8 + 1 + 8 + 8 + 8 + 8 + 8 + 8 + 128 + 8 + 2 + 64 * (32 + 8)).

Definition not_routing : VaultRoutingState :=
  mkVaultRoutingState NO_LAST_REWARDS_TO_PROCESS NO_LAST_VAULT_OPERATION_DELEGATION_INDEX.

(** Field updates. *)
Definition with_pool (self : NcnRewardRouter) (total pool : Z) : NcnRewardRouter :=
  mkNcnRewardRouter (nr_ncn_fee_group self) (nr_router_operator self) (nr_ncn self) (nr_epoch self) (nr_bump self)
    (nr_slot_created self) (nr_ncn_operator_index self) total pool (nr_rewards_processed self)
    (nr_operator_rewards self) (nr_routing self) (nr_vault_reward_routes self).
Definition with_processed (self : NcnRewardRouter) (processed : Z) : NcnRewardRouter :=
  mkNcnRewardRouter (nr_ncn_fee_group self) (nr_router_operator self) (nr_ncn self) (nr_epoch self) (nr_bump self)
    (nr_slot_created self) (nr_ncn_operator_index self) (nr_total_rewards self) (nr_reward_pool self) processed
    (nr_operator_rewards self) (nr_routing self) (nr_vault_reward_routes self).
Definition with_operator_rewards (self : NcnRewardRouter) (r : Z) : NcnRewardRouter :=
  mkNcnRewardRouter (nr_ncn_fee_group self) (nr_router_operator self) (nr_ncn self) (nr_epoch self) (nr_bump self)
    (nr_slot_created self) (nr_ncn_operator_index self) (nr_total_rewards self) (nr_reward_pool self)
    (nr_rewards_processed self) r (nr_routing self) (nr_vault_reward_routes self).
Definition with_routing (self : NcnRewardRouter) (s : VaultRoutingState) : NcnRewardRouter :=
  mkNcnRewardRouter (nr_ncn_fee_group self) (nr_router_operator self) (nr_ncn self) (nr_epoch self) (nr_bump self)
    (nr_slot_created self) (nr_ncn_operator_index self) (nr_total_rewards self) (nr_reward_pool self)
    (nr_rewards_processed self) (nr_operator_rewards self) s (nr_vault_reward_routes self).
Definition with_routes (self : NcnRewardRouter) (l : list VaultRewardRoute) : NcnRewardRouter :=
  mkNcnRewardRouter (nr_ncn_fee_group self) (nr_router_operator self) (nr_ncn self) (nr_epoch self) (nr_bump self)
    (nr_slot_created self) (nr_ncn_operator_index self) (nr_total_rewards self) (nr_reward_pool self)
    (nr_rewards_processed self) (nr_operator_rewards self) (nr_routing self) l.

Definition new (ncn_fee_group : NcnFeeGroup) (operator : Pubkey) (operator_ncn_index : Z) (ncn : Pubkey)
    (epoch bump slot_created : Z) : NcnRewardRouter :=
  mkNcnRewardRouter ncn_fee_group operator ncn epoch bump slot_created operator_ncn_index 0 0 0 0 not_routing
    (replicate MAX_VAULTS VaultRewardRoute.default).

Section pda.
Context `{Solana}.

Definition seeds (ncn_fee_group : NcnFeeGroup) (operator ncn : Pubkey) (epoch : Z) : list (list Z) :=
  [bytes_of_string "ncn_reward_router"; [NcnFeeGroup.group ncn_fee_group]; to_bytes operator; to_bytes ncn;
   to_le_bytes 8 epoch].

Definition find_program_address (program_id : Pubkey) (ncn_fee_group : NcnFeeGroup) (operator ncn : Pubkey)
    (epoch : Z) : Pubkey * Z * list (list Z) :=
  find_pda program_id (seeds ncn_fee_group operator ncn epoch).

Definition load (program_id : Pubkey) (account : AccountInfo) (ncn_fee_group : NcnFeeGroup) (operator ncn : Pubkey)
    (epoch : Z) (expect_writable : bool) : res unit :=
  let expected_pda := (find_program_address program_id ncn_fee_group operator ncn epoch).1.1 in
  check_load program_id account expected_pda (Some (discriminator DNcnRewardRouter)) expect_writable.

(** [decode] is the account deserialiser. *)
Definition load_to_close (decode : list Z -> res NcnRewardRouter) (program_id : Pubkey)
    (account_to_close : AccountInfo) (ncn : Pubkey) (epoch : Z) : res unit :=
  account_struct ← decode (acc_data account_to_close);
  let ncn_fee_group := nr_ncn_fee_group account_struct in
  let operator := nr_router_operator account_struct in
  load program_id account_to_close ncn_fee_group operator ncn epoch true.

Definition rent_cost : res Z := mret (minimum_balance SIZE).
End pda.

(** ** Routing state *)

Definition still_routing (self : NcnRewardRouter) : bool :=
  negb (nr_last_rewards_to_process (nr_routing self) =? NO_LAST_REWARDS_TO_PROCESS)
  || negb (nr_last_vault_operator_delegation_index (nr_routing self) =? NO_LAST_VAULT_OPERATION_DELEGATION_INDEX).

Definition resume_routing_state (self : NcnRewardRouter) (rewards_to_process : Z) : Z * nat :=
  if negb (still_routing self) then (rewards_to_process, 0%nat) else
  (nr_last_rewards_to_process (nr_routing self), Z.to_nat (nr_last_vault_operator_delegation_index (nr_routing self))).

Definition save_routing_state (self : NcnRewardRouter) (rewards_to_process : Z)
    (vault_operator_delegation_index : nat) : NcnRewardRouter :=
  with_routing self (mkVaultRoutingState rewards_to_process (cast U16 (Z.of_nat vault_operator_delegation_index))).

Definition reset_routing_state (self : NcnRewardRouter) : NcnRewardRouter := with_routing self not_routing.

(** ** Reward tallies *)

Definition total_rewards_in_transit (self : NcnRewardRouter) : res Z :=
  ok_or (checked_add U64 (nr_reward_pool self) (nr_rewards_processed self)) (Tip ArithmeticOverflow).

Definition route_to_reward_pool (self : NcnRewardRouter) (r : Z) : res NcnRewardRouter :=
  if r =? 0 then Ok self else
  total ← ok_or (checked_add U64 (nr_total_rewards self) r) (Tip ArithmeticOverflow);
  pool ← ok_or (checked_add U64 (nr_reward_pool self) r) (Tip ArithmeticOverflow);
  mret (with_pool self total pool).

Definition increment_rewards_processed (self : NcnRewardRouter) (r : Z) : res NcnRewardRouter :=
  if r =? 0 then Ok self else
  p ← ok_or (checked_add U64 (nr_rewards_processed self) r) (Tip ArithmeticOverflow);
  mret (with_processed self p).

Definition decrement_rewards_processed (self : NcnRewardRouter) (r : Z) : res NcnRewardRouter :=
  if r =? 0 then Ok self else
  p ← ok_or (checked_sub (nr_rewards_processed self) r) (Tip ArithmeticUnderflowError);
  mret (with_processed self p).

Definition route_from_reward_pool (self : NcnRewardRouter) (r : Z) : res NcnRewardRouter :=
  if r =? 0 then Ok self else
  pool ← ok_or (checked_sub (nr_reward_pool self) r) (Tip ArithmeticUnderflowError);
  increment_rewards_processed (with_pool self (nr_total_rewards self) pool) r.

(** ** Operator rewards *)

Definition route_to_operator_rewards (self : NcnRewardRouter) (r : Z) : res NcnRewardRouter :=
  if r =? 0 then Ok self else
  x ← ok_or (checked_add U64 (nr_operator_rewards self) r) (Tip ArithmeticOverflow);
  mret (with_operator_rewards self x).

Definition distribute_operator_rewards (self : NcnRewardRouter) : res (NcnRewardRouter * Z) :=
  let r := nr_operator_rewards self in
  x ← ok_or (checked_sub (nr_operator_rewards self) r) (Tip ArithmeticUnderflowError);
  self ← decrement_rewards_processed (with_operator_rewards self x) r;
  mret (self, r).

(** ** Vault reward routes *)

Definition find_route (self : NcnRewardRouter) (vault : Pubkey) : option (nat * VaultRewardRoute) :=
  list_find (fun route => vr_vault route = vault) (nr_vault_reward_routes self).

Definition vault_reward_route (self : NcnRewardRouter) (vault : Pubkey) : res VaultRewardRoute :=
  '(_, route) ← ok_or (find_route self vault) (Tip VaultRewardNotFound); mret route.

Definition route_to_vault_reward_route (self : NcnRewardRouter) (vault : Pubkey) (r : Z) : res NcnRewardRouter :=
  if r =? 0 then Ok self else
  match find_route self vault with
  | Some (i, route) =>
      route ← VaultRewardRoute.increment_rewards route r;
      mret (with_routes self (<[i:=route]> (nr_vault_reward_routes self)))
  | None =>
      match find_route self Pubkey_default with
      | Some (i, _) =>
          route ← VaultRewardRoute.new vault r;
          mret (with_routes self (<[i:=route]> (nr_vault_reward_routes self)))
      | None => Err (Tip OperatorRewardListFull)
      end
  end.

Definition distribute_vault_reward_route (self : NcnRewardRouter) (vault : Pubkey) : res (NcnRewardRouter * Z) :=
  match find_route self vault with
  | Some (i, route) =>
      let r := vr_rewards route in
      route ← VaultRewardRoute.decrement_rewards route r;
      self ← decrement_rewards_processed (with_routes self (<[i:=route]> (nr_vault_reward_routes self))) r;
      mret (self, r)
  | None => Err (Tip OperatorRewardNotFound)
  end.

(** ** Routing *)

Definition route_incoming_rewards (self : NcnRewardRouter) (rent_cost account_balance : Z) : res NcnRewardRouter :=
  total_rewards ← total_rewards_in_transit self;
  incoming_rewards ← ok_or (checked_sub account_balance total_rewards) (Tip ArithmeticUnderflowError);
  rewards_to_route ← ok_or (checked_sub incoming_rewards rent_cost) (Tip ArithmeticUnderflowError);
  route_to_reward_pool self rewards_to_route.

Section routing.
Context `{PreciseNumberOps}.

Definition calculate_operator_reward (MAX_BPS fee_bps rewards_to_process : Z) : res Z :=
  if (fee_bps =? 0) || (rewards_to_process =? 0) then Ok 0
  else mul_div_floor rewards_to_process fee_bps MAX_BPS.

Definition calculate_vault_reward (vault_reward_stake_weight operator_reward_stake_weight rewards_to_process : Z)
    : res Z :=
  if (operator_reward_stake_weight =? 0) || (rewards_to_process =? 0) then Ok 0
  else mul_div_floor rewards_to_process vault_reward_stake_weight operator_reward_stake_weight.

Definition route_operator_rewards (MAX_BPS : Z) (self : NcnRewardRouter) (operator_snapshot : OperatorSnapshot) : res NcnRewardRouter :=
  let rewards_to_process := nr_reward_pool self in
  operator_rewards ← calculate_operator_reward MAX_BPS (os_operator_fee_bps operator_snapshot) rewards_to_process;
  self ← route_from_reward_pool self operator_rewards;
  route_to_operator_rewards self operator_rewards.

(** Routing one vault's share of the rewards. *)
Definition route_vault (operator_stake_weight : StakeWeights) (rewards_to_process : Z) (self : NcnRewardRouter)
    (vault_operator_delegation : VaultOperatorStakeWeight) : res NcnRewardRouter :=
  let vault := vos_vault vault_operator_delegation in
  vault_reward_stake_weight ← StakeWeights.ncn_fee_group_stake_weight
    (vos_stake_weight vault_operator_delegation) (nr_ncn_fee_group self);
  operator_reward_stake_weight ← StakeWeights.ncn_fee_group_stake_weight operator_stake_weight (nr_ncn_fee_group self);
  vault_reward ← calculate_vault_reward vault_reward_stake_weight operator_reward_stake_weight rewards_to_process;
  self ← route_from_reward_pool self vault_reward;
  route_to_vault_reward_route self vault vault_reward.

(** How the loop ends: at its end, or with an early return. *)
Inductive flow : Type :=
| Continue (self : NcnRewardRouter)
| Return (self : NcnRewardRouter).

Fixpoint route_vaults (operator_stake_weight : StakeWeights) (max_iterations rewards_to_process : Z)
    (self : NcnRewardRouter) (iterations : Z) (vault_operator_delegation_index : nat)
    (delegations : list VaultOperatorStakeWeight) : res flow :=
  match delegations with
  | [] => Ok (Continue self)
  | delegation :: delegations =>
      iterations ← ok_or (checked_add U16 iterations 1) (Tip ArithmeticOverflow);
      if max_iterations <? iterations
      then Ok (Return (save_routing_state self rewards_to_process vault_operator_delegation_index))
      else
        self ← route_vault operator_stake_weight rewards_to_process self delegation;
        route_vaults operator_stake_weight max_iterations rewards_to_process self iterations
          (S vault_operator_delegation_index) delegations
  end.

(** The operator gets what is left in the pool. *)
Definition route_leftover (self : NcnRewardRouter) : res NcnRewardRouter :=
  let leftover_rewards := nr_reward_pool self in
  self ← route_from_reward_pool self leftover_rewards;
  route_to_operator_rewards self leftover_rewards.

Definition route_reward_pool (self : NcnRewardRouter) (operator_snapshot : OperatorSnapshot) (max_iterations : Z)
    : res NcnRewardRouter :=
  let operator_stake_weight := os_stake_weights operator_snapshot in
  let rewards_to_process := nr_reward_pool self in
  let '(rewards_to_process, starting_vault_operator_delegation_index) := resume_routing_state self rewards_to_process in
  if rewards_to_process =? 0 then Ok self else
  let max_iterations := Z.max max_iterations 1 in
  fl ← route_vaults operator_stake_weight max_iterations rewards_to_process self 0
         starting_vault_operator_delegation_index
         (drop starting_vault_operator_delegation_index (os_vault_operator_stake_weight operator_snapshot));
  match fl with
  | Return self => Ok self
  | Continue self => route_leftover (reset_routing_state self)
  end.
End routing.
End NcnRewardRouter.

(* ------------------------------------------------------------------ *)
(** * The reward receiver *)

Module NcnRewardReceiver.
Section pda.
Context `{Solana}.

Definition seeds (ncn_fee_group : NcnFeeGroup) (operator ncn : Pubkey) (epoch : Z) : list (list Z) :=
  [bytes_of_string "ncn_reward_receiver"; [NcnFeeGroup.group ncn_fee_group]; to_bytes operator; to_bytes ncn;
   to_le_bytes 8 epoch].

Definition find_program_address (program_id : Pubkey) (ncn_fee_group : NcnFeeGroup) (operator ncn : Pubkey)
    (epoch : Z) : Pubkey * Z * list (list Z) :=
  find_pda program_id (seeds ncn_fee_group operator ncn epoch).

Definition load (program_id : Pubkey) (account : AccountInfo) (ncn_fee_group : NcnFeeGroup) (operator ncn : Pubkey)
    (epoch : Z) (expect_writable : bool) : res unit :=
  let expected_pda := (find_program_address program_id ncn_fee_group operator ncn epoch).1.1 in
  check_load system_program_id account expected_pda None expect_writable.

(** The receiver pays; it signs with its seeds and bump. *)
Definition transfer (program_id : Pubkey) (ncn_fee_group : NcnFeeGroup) (operator ncn : Pubkey) (epoch : Z)
    (ncn_reward_receiver to : AccountInfo) (lamports : Z) : res (AccountInfo * AccountInfo) :=
  let '(address, bump, seeds) := find_program_address program_id ncn_fee_group operator ncn epoch in
  if negb (bool_decide (address = acc_key ncn_reward_receiver)) then Err (Prog InvalidAccountData) else
  invoke_transfer ncn_reward_receiver to lamports (seeds ++ [[bump]]).

Definition close (program_id : Pubkey) (ncn_fee_group : NcnFeeGroup) (operator ncn : Pubkey) (epoch : Z)
    (ncn_reward_receiver dao_wallet account_payer : AccountInfo) : res (AccountInfo * AccountInfo * AccountInfo) :=
  let min_rent := minimum_balance 0 in
  let delta_lamports := saturating_sub (acc_lamports ncn_reward_receiver) min_rent in
  '(ncn_reward_receiver, dao_wallet) ←
    (if 0 <? delta_lamports
     then transfer program_id ncn_fee_group operator ncn epoch ncn_reward_receiver dao_wallet delta_lamports
     else Ok (ncn_reward_receiver, dao_wallet));
  '(ncn_reward_receiver, account_payer) ←
    transfer program_id ncn_fee_group operator ncn epoch ncn_reward_receiver account_payer min_rent;
  mret (ncn_reward_receiver, dao_wallet, account_payer).
End pda.
End NcnRewardReceiver.
