(* ===== verification/NcnRewardProps.v ===== *)
(** Accounting of the NCN reward router: every primitive keeps the balance,
    routing to vaults is a fold over the snapshot's delegations, and
    interrupting it changes nothing. *)

From S2P Require Import Prelude Errors External Constants FeeGroups StakeWeight EpochSnapshot BaseRewardRouter BaseRewardRouterProps NcnRewardRouter.

#[local] Arguments gw : simpl never.
#[local] Arguments ONE : simpl never.
#[local] Arguments replicate : simpl never.

(* ------------------------------------------------------------------ *)
(** * The balance *)

Definition vault_route_ok (V : list Pubkey) (r : VaultRewardRoute) : Prop :=
  0 <= vr_rewards r /\ (vr_vault r = Pubkey_default -> vr_rewards r = 0) /\
  (vr_vault r <> Pubkey_default -> vr_vault r ∈ V).

(** The router with [x] processed lamports still to be credited; its routes
    are for vaults of [V]. *)
Record nr_pend (V : list Pubkey) (x : Z) (s : NcnRewardRouter) : Prop := {
  np_routes_len : length (nr_vault_reward_routes s) = MAX_VAULTS;
  np_routes : Forall (vault_route_ok V) (nr_vault_reward_routes s);
  np_distinct : distinct_keys vr_vault (nr_vault_reward_routes s);
  np_operator : 0 <= nr_operator_rewards s;
  np_pool : 0 <= nr_reward_pool s;
  np_total : nr_reward_pool s + nr_rewards_processed s <= nr_total_rewards s < U64;
  np_held : nr_rewards_processed s = nr_operator_rewards s + sumZ vr_rewards (nr_vault_reward_routes s) + x;
  np_x : 0 <= x;
}.

Abbreviation nr_inv V s := (nr_pend V 0 s).

Lemma np_sum_nonneg V x s : nr_pend V x s -> 0 <= sumZ vr_rewards (nr_vault_reward_routes s).
Proof. intros Hs. apply sumZ_nonneg. intros r Hr. by destruct (Forall_In _ _ _ (np_routes _ _ _ Hs) Hr). Qed.

Lemma np_reward_le V x s j r :
  nr_pend V x s -> nr_vault_reward_routes s !! j = Some r ->
  0 <= vr_rewards r <= sumZ vr_rewards (nr_vault_reward_routes s).
Proof.
  intros Hs Hj. split; [by destruct (Forall_lookup_1 _ _ _ _ (np_routes _ _ _ Hs) Hj)|].
  apply (sumZ_elem_le _ _ j); [|done]. intros y Hy. by destruct (Forall_In _ _ _ (np_routes _ _ _ Hs) Hy).
Qed.

Lemma new_nr_inv V g op i ncn epoch bump slot : nr_inv V (NcnRewardRouter.new g op i ncn epoch bump slot).
Proof.
  split; cbn; try done.
  - apply Forall_replicate. by split.
  - by apply distinct_keys_replicate.
Qed.

(** ** Primitives *)

Lemma vfrom_pool_ok V x s r :
  nr_pend V x s -> 0 <= r <= nr_reward_pool s ->
  NcnRewardRouter.route_from_reward_pool s r
    = Ok (NcnRewardRouter.with_processed (NcnRewardRouter.with_pool s (nr_total_rewards s) (nr_reward_pool s - r))
            (nr_rewards_processed s + r)) /\
  nr_pend V (x + r) (NcnRewardRouter.with_processed
    (NcnRewardRouter.with_pool s (nr_total_rewards s) (nr_reward_pool s - r)) (nr_rewards_processed s + r)).
Proof.
  intros Hs Hr. pose proof (np_total _ _ _ Hs). pose proof (np_pool _ _ _ Hs). pose proof (np_x _ _ _ Hs). split.
  - unfold NcnRewardRouter.route_from_reward_pool, NcnRewardRouter.increment_rewards_processed.
    destruct (Z.eqb_spec r 0) as [->|Hne].
    + rewrite Z.sub_0_r, Z.add_0_r. by destruct s.
    + checked.
      cbn [NcnRewardRouter.with_pool nr_rewards_processed]. by rewrite checked_add_ok by lia.
  - destruct Hs. split; try done; cbn in *; lia.
Qed.

Lemma vto_operator_ok V x s r :
  nr_pend V x s -> 0 <= r <= x ->
  NcnRewardRouter.route_to_operator_rewards s r
    = Ok (NcnRewardRouter.with_operator_rewards s (nr_operator_rewards s + r)) /\
  nr_pend V (x - r) (NcnRewardRouter.with_operator_rewards s (nr_operator_rewards s + r)).
Proof.
  intros Hs Hr. pose proof (np_total _ _ _ Hs). pose proof (np_pool _ _ _ Hs). pose proof (np_held _ _ _ Hs).
  pose proof (np_sum_nonneg _ _ _ Hs). pose proof (np_operator _ _ _ Hs). split.
  - unfold NcnRewardRouter.route_to_operator_rewards. destruct (Z.eqb_spec r 0) as [->|Hne].
    + rewrite Z.add_0_r. by destruct s.
    + by rewrite checked_add_ok by lia.
  - destruct Hs. split; try done; cbn in *; lia.
Qed.

Definition vault_amount (s : NcnRewardRouter) (v : Pubkey) : Z :=
  match NcnRewardRouter.find_route s v with Some (_, r) => vr_rewards r | None => 0 end.

(** Replacing a route whose rewards change by [d]. *)
Lemma vinsert_route V x s j old v d :
  nr_pend V x s -> nr_vault_reward_routes s !! j = Some old -> v <> Pubkey_default -> v ∈ V ->
  vr_vault old = v \/ vr_vault old = Pubkey_default /\ NcnRewardRouter.find_route s v = None ->
  0 <= vr_rewards old + d -> d <= x ->
  let s' := NcnRewardRouter.with_routes s (<[j:=mkVaultRewardRoute v (vr_rewards old + d)]> (nr_vault_reward_routes s)) in
  nr_pend V (x - d) s' /\
  forall v', v' <> Pubkey_default -> vault_amount s' v' = vault_amount s v' + (if decide (v' = v) then d else 0).
Proof.
  intros Hs Hj Hv HV Hold Hd Hx s'.
  destruct (Forall_lookup_1 _ _ _ _ (np_routes _ _ _ Hs) Hj) as (Hn & He & _).
  set (new := mkVaultRewardRoute v (vr_rewards old + d)).
  assert (Hkey : vr_vault new = vr_vault old \/
    vr_vault old = Pubkey_default /\ forall j z, nr_vault_reward_routes s !! j = Some z -> vr_vault z <> vr_vault new).
  { destruct Hold as [Hold|[Hold Hnone]]; [by left|right]. split; [done|]. by apply find_key_None. }
  destruct (find_key_insert vr_vault (nr_vault_reward_routes s) j old new v (np_distinct _ _ _ Hs) Hj Hkey Hv Hv) as [Hd' _].
  split.
  - destruct Hs. split; try done; try lia; cbn in *.
    + by rewrite length_insert.
    + apply Forall_insert_2; [done|]. split; [done|]. by split.
    + rewrite (sumZ_insert _ _ _ _ _ Hj). cbn. lia.
  - intros v' Hv'. unfold vault_amount, NcnRewardRouter.find_route, s'.
    cbn [NcnRewardRouter.with_routes nr_vault_reward_routes].
    destruct (find_key_insert vr_vault (nr_vault_reward_routes s) j old new v' (np_distinct _ _ _ Hs) Hj Hkey Hv' Hv) as [_ Hf].
    fold new. rewrite Hf. cbn [vr_vault new].
    destruct (decide (v = v')) as [<-|Hne].
    + rewrite decide_True by done. cbn [vr_rewards new].
      destruct Hold as [Hold|[Hold Hnone]].
      * by rewrite (proj2 (find_key_Some vr_vault _ (np_distinct _ _ _ Hs) v j old Hv) (conj Hj Hold)).
      * unfold NcnRewardRouter.find_route in Hnone. rewrite Hnone, (He Hold). lia.
    + rewrite (decide_False (P := v' = v)) by congruence. lia.
Qed.

(** There are no more vaults than places. *)
Lemma vfree_route_exists V x s v :
  nr_pend V x s -> (length V <= 64)%nat -> v <> Pubkey_default -> v ∈ V ->
  NcnRewardRouter.find_route s v = None ->
  exists j old, NcnRewardRouter.find_route s Pubkey_default = Some (j, old) /\
    nr_vault_reward_routes s !! j = Some old /\ vr_vault old = Pubkey_default.
Proof.
  intros Hs HV Hv Hin Hnone.
  destruct (NcnRewardRouter.find_route s Pubkey_default) as [[j old]|] eqn:Ef.
  { exists j, old. split; [done|]. by apply list_find_Some in Ef as (? & ? & _). }
  exfalso. unfold NcnRewardRouter.find_route in *.
  assert (Hlen : (length (nr_vault_reward_routes s) < length V)%nat).
  { apply (keys_below vr_vault _ V v); try done; [apply (np_distinct _ _ _ Hs)|by apply find_key_None|by apply find_key_None|].
    intros r Hr. by destruct (Forall_In _ _ _ (np_routes _ _ _ Hs) Hr) as (_ & _ & Hv'). }
  rewrite (np_routes_len _ _ _ Hs) in Hlen. unfold MAX_VAULTS in Hlen. lia.
Qed.

Lemma vto_vault_ok V x s v r :
  nr_pend V x s -> (length V <= 64)%nat -> (r <> 0 -> v <> Pubkey_default /\ v ∈ V) -> 0 <= r <= x ->
  exists s', NcnRewardRouter.route_to_vault_reward_route s v r = Ok s' /\ nr_pend V (x - r) s' /\
    (exists l, s' = NcnRewardRouter.with_routes s l) /\
    forall v', v' <> Pubkey_default -> vault_amount s' v' = vault_amount s v' + (if decide (v' = v) then r else 0).
Proof.
  intros Hs HV Hv Hr. unfold NcnRewardRouter.route_to_vault_reward_route.
  destruct (Z.eqb_spec r 0) as [->|Hne].
  { exists s. split; [done|]. rewrite Z.sub_0_r. split; [done|]. split; [exists (nr_vault_reward_routes s); by destruct s|].
    intros. destruct (decide _); lia. }
  destruct (Hv Hne) as [Hd Hin]. pose proof (np_total _ _ _ Hs). pose proof (np_pool _ _ _ Hs).
  pose proof (np_held _ _ _ Hs). pose proof (np_operator _ _ _ Hs).
  destruct (NcnRewardRouter.find_route s v) as [[j old]|] eqn:Ef.
  - assert (Hj : nr_vault_reward_routes s !! j = Some old /\ vr_vault old = v) by (apply list_find_Some in Ef as (? & ? & _); done).
    destruct Hj as [Hj Hold]. pose proof (np_reward_le _ _ _ _ _ Hs Hj).
    unfold VaultRewardRoute.increment_rewards. checked.
    unfold VaultRewardRoute.set_rewards. cbn [mbind result_bind].
    destruct (vinsert_route V x s j old v r Hs Hj Hd Hin) as [Hp Ha]; [by left|lia|lia|].
    eexists. split; [rewrite Hold; reflexivity|]. split; [exact Hp|]. split; [by eexists|exact Ha].
  - destruct (vfree_route_exists V x s v Hs HV Hd Hin Ef) as (j & old & Hf & Hj & Hold). rewrite Hf.
    destruct (Forall_lookup_1 _ _ _ _ (np_routes _ _ _ Hs) Hj) as (Hn & He & _).
    cbn [VaultRewardRoute.new mbind result_bind].
    destruct (vinsert_route V x s j old v r Hs Hj Hd Hin) as [Hp Ha]; [by right|rewrite (He Hold); lia|lia|].
    rewrite (He Hold) in Hp, Ha. cbn [Z.add] in Hp, Ha.
    eexists. split; [reflexivity|]. split; [exact Hp|]. split; [by eexists|exact Ha].
Qed.

Lemma vleftover_ok V s :
  nr_inv V s ->
  exists s', NcnRewardRouter.route_leftover s = Ok s' /\ nr_inv V s' /\ nr_reward_pool s' = 0 /\
    nr_rewards_processed s' = nr_rewards_processed s + nr_reward_pool s /\
    nr_operator_rewards s' = nr_operator_rewards s + nr_reward_pool s /\
    nr_vault_reward_routes s' = nr_vault_reward_routes s /\ nr_total_rewards s' = nr_total_rewards s /\
    nr_routing s' = nr_routing s /\ nr_ncn_fee_group s' = nr_ncn_fee_group s.
Proof.
  intros Hs. pose proof (np_pool _ _ _ Hs). unfold NcnRewardRouter.route_leftover.
  destruct (vfrom_pool_ok V 0 s (nr_reward_pool s) Hs) as [H1 Hp1]; [lia|]. rewrite H1. cbn [mbind result_bind].
  rewrite Z.add_0_l in Hp1. destruct (vto_operator_ok V _ _ (nr_reward_pool s) Hp1) as [H2 Hp2]; [lia|].
  rewrite H2. rewrite !Z.sub_diag in *. eexists. split; [reflexivity|]. split; [exact Hp2|]. cbn. split; [lia|]. done.
Qed.

(* ------------------------------------------------------------------ *)
(** * Incoming rewards and distribution *)

Lemma vroute_to_pool_ok V s r :
  nr_inv V s -> 0 <= r -> nr_total_rewards s + r < U64 ->
  NcnRewardRouter.route_to_reward_pool s r
    = Ok (NcnRewardRouter.with_pool s (nr_total_rewards s + r) (nr_reward_pool s + r)) /\
  nr_inv V (NcnRewardRouter.with_pool s (nr_total_rewards s + r) (nr_reward_pool s + r)).
Proof.
  intros Hs Hr Hb. pose proof (np_held _ _ _ Hs). pose proof (np_sum_nonneg _ _ _ Hs). pose proof (np_operator _ _ _ Hs).
  pose proof (np_pool _ _ _ Hs). pose proof (np_total _ _ _ Hs). split.
  - unfold NcnRewardRouter.route_to_reward_pool. destruct (Z.eqb_spec r 0) as [->|].
    + rewrite !Z.add_0_r. by destruct s.
    + by checked.
  - destruct Hs. split; try done; cbn; lia.
Qed.

Lemma vdecrement_processed_ok s r : 0 <= r <= nr_rewards_processed s ->
  NcnRewardRouter.decrement_rewards_processed s r = Ok (NcnRewardRouter.with_processed s (nr_rewards_processed s - r)).
Proof.
  intros Hr. unfold NcnRewardRouter.decrement_rewards_processed. destruct (Z.eqb_spec r 0) as [->|].
  - rewrite Z.sub_0_r. by destruct s.
  - by rewrite checked_sub_ok by lia.
Qed.

Lemma vdistribute_operator_ok V s :
  nr_inv V s ->
  exists s', NcnRewardRouter.distribute_operator_rewards s = Ok (s', nr_operator_rewards s) /\ nr_inv V s' /\
    nr_operator_rewards s' = 0 /\ nr_vault_reward_routes s' = nr_vault_reward_routes s /\
    nr_reward_pool s' = nr_reward_pool s /\ nr_rewards_processed s' = nr_rewards_processed s - nr_operator_rewards s.
Proof.
  intros Hs. pose proof (np_held _ _ _ Hs). pose proof (np_sum_nonneg _ _ _ Hs). pose proof (np_operator _ _ _ Hs).
  pose proof (np_total _ _ _ Hs).
  unfold NcnRewardRouter.distribute_operator_rewards. checked.
  rewrite vdecrement_processed_ok by (cbn; lia). cbn [mbind result_bind]. rewrite Z.sub_diag.
  eexists. split; [reflexivity|]. split; [|done].
  destruct Hs. split; try done; cbn in *; lia.
Qed.

Lemma vdistribute_vault_ok V s v :
  nr_inv V s -> v <> Pubkey_default -> NcnRewardRouter.find_route s v <> None ->
  exists s', NcnRewardRouter.distribute_vault_reward_route s v = Ok (s', vault_amount s v) /\ nr_inv V s' /\
    nr_operator_rewards s' = nr_operator_rewards s /\ nr_reward_pool s' = nr_reward_pool s /\
    nr_rewards_processed s' = nr_rewards_processed s - vault_amount s v /\
    forall v', v' <> Pubkey_default -> vault_amount s' v' = if decide (v' = v) then 0 else vault_amount s v'.
Proof.
  intros Hs Hv Hf. destruct (NcnRewardRouter.find_route s v) as [[j old]|] eqn:Ef; [|done].
  assert (Hj : nr_vault_reward_routes s !! j = Some old /\ vr_vault old = v) by (apply list_find_Some in Ef as (? & ? & _); done).
  destruct Hj as [Hj Hold]. pose proof (np_reward_le _ _ _ _ _ Hs Hj) as Hr. pose proof (np_held _ _ _ Hs).
  pose proof (np_operator _ _ _ Hs). pose proof (np_total _ _ _ Hs).
  destruct (Forall_lookup_1 _ _ _ _ (np_routes _ _ _ Hs) Hj) as (_ & _ & HV).
  assert (Ha : vault_amount s v = vr_rewards old) by (unfold vault_amount; by rewrite Ef).
  destruct (vinsert_route V 0 s j old v (- vr_rewards old) Hs Hj Hv) as [Hp Hall];
    [rewrite <- Hold; apply HV; by rewrite Hold|by left|lia|lia|].
  set (s1 := NcnRewardRouter.with_routes s _) in *. replace (0 - - vr_rewards old) with (vr_rewards old) in Hp by lia.
  exists (NcnRewardRouter.with_processed s1 (nr_rewards_processed s1 - vr_rewards old)). rewrite Ha. split; [|split; [|split; [done|split; [done|split; [done|]]]]].
  - unfold NcnRewardRouter.distribute_vault_reward_route. rewrite Ef. unfold VaultRewardRoute.decrement_rewards.
    checked. unfold VaultRewardRoute.set_rewards. cbn [mbind result_bind].
    rewrite vdecrement_processed_ok by (cbn; lia). cbn [mbind result_bind].
    unfold s1. rewrite Hold, Z.sub_diag, Z.add_opp_diag_r. done.
  - destruct Hp. split; try done; cbn in *; lia.
  - intros v' Hv'. specialize (Hall v' Hv').
    change (vault_amount (NcnRewardRouter.with_processed s1 (nr_rewards_processed s1 - vr_rewards old)) v') with (vault_amount s1 v').
    rewrite Hall. destruct (decide (v' = v)) as [->|]; lia.
Qed.

(* ------------------------------------------------------------------ *)
(** * One vault *)

Section shares.
Context `{L : PreciseNumberLaws}.

(** Vaults and operators share by the same rule. *)
Lemma vault_share_ok R w W :
  fits U64 R -> fits U128 w -> fits U128 W -> w <= W ->
  NcnRewardRouter.calculate_vault_reward w W R = Ok (share R w W) /\ 0 <= share R w W <= R.
Proof.
  intros HR Hw HW Hle. destruct (share_ok R w W HR Hw HW Hle) as (Hc & Hb & Hub). split; [|done].
  unfold NcnRewardRouter.calculate_vault_reward, BaseRewardRouter.calculate_ncn_fee_group_route_reward in *.
  destruct (Z.eqb_spec W 0) as [->|HW0]; cbn [orb].
  { unfold fits in *. rewrite (proj2 (Z.eqb_eq w 0)) in Hc by lia. cbn in Hc. by rewrite <- Hc. }
  destruct (Z.eqb_spec R 0) as [->|HR0]; [by rewrite orb_true_r in Hc|]. rewrite orb_false_r in Hc.
  destruct (Z.eqb_spec w 0) as [->|Hw0]; [|done]. change (share R 0 W) with 0.
  destruct (mul_div_floor_spec R 0 W) as (x & -> & Hx & Hx2 & _); [done|done|done|unfold fits in *; lia|unfold fits in *; lia|].
  f_equal. unfold ONE, fits in *. nia.
Qed.

Definition ventry (R : Z) (W : StakeWeights) (k : nat) (v : VaultOperatorStakeWeight) : Z :=
  share R (gw k (vos_stake_weight v)) (gw k W).

(** A delegation that can be credited against the operator's weights [W]. *)
Definition entry_ok (V : list Pubkey) (W : StakeWeights) (k : nat) (v : VaultOperatorStakeWeight) : Prop :=
  sw_wf (vos_stake_weight v) /\ gw k (vos_stake_weight v) <= gw k W /\
  (gw k (vos_stake_weight v) <> 0 -> vos_vault v <> Pubkey_default /\ vos_vault v ∈ V).

(** What routing leaves alone. *)
Definition vframe (s s' : NcnRewardRouter) : Prop :=
  nr_total_rewards s' = nr_total_rewards s /\ nr_operator_rewards s' = nr_operator_rewards s /\
  nr_ncn_fee_group s' = nr_ncn_fee_group s /\ nr_routing s' = nr_routing s.

Lemma vframe_trans a b c : vframe a b -> vframe b c -> vframe a c.
Proof. unfold vframe. intuition congruence. Qed.

Lemma route_vault_ok V s k W R e :
  nr_inv V s -> (length V <= 64)%nat -> (k < 8)%nat -> nr_ncn_fee_group s = NcnFeeGroup.mk (Z.of_nat k) ->
  sw_wf W -> fits U64 R -> entry_ok V W k e -> ventry R W k e <= nr_reward_pool s ->
  exists s', NcnRewardRouter.route_vault W R s e = Ok s' /\ nr_inv V s' /\ vframe s s' /\
    nr_reward_pool s' = nr_reward_pool s - ventry R W k e /\
    nr_rewards_processed s' = nr_rewards_processed s + ventry R W k e /\
    forall v, v <> Pubkey_default ->
      vault_amount s' v = vault_amount s v + (if decide (v = vos_vault e) then ventry R W k e else 0).
Proof.
  intros Hs HV Hk Hgr HW HR (Hwf & Hle & Hok) Hsh.
  pose proof (NcnFeeGroup.nfg_all_groups_index k Hk) as Hg.
  destruct (vault_share_ok R (gw k (vos_stake_weight e)) (gw k W)) as (Hc & Hr); [done|by apply gw_fits|by apply gw_fits|done|].
  unfold NcnRewardRouter.route_vault. rewrite Hgr.
  rewrite (ncn_fee_group_stake_weight_ok _ _ _ (proj1 (proj2 Hwf)) Hg). cbn [mbind result_bind].
  rewrite (ncn_fee_group_stake_weight_ok _ _ _ (proj1 (proj2 HW)) Hg). cbn [mbind result_bind].
  rewrite Hc. cbn [mbind result_bind]. fold (ventry R W k e) in *.
  destruct (vfrom_pool_ok V 0 s (ventry R W k e) Hs) as [H1 Hp1]; [lia|]. rewrite H1. cbn [mbind result_bind].
  rewrite Z.add_0_l in Hp1.
  destruct (vto_vault_ok V _ _ (vos_vault e) (ventry R W k e) Hp1 HV) as (s2 & Hs2 & Hp2 & (l & Heq) & Ha); [|lia|].
  { intros Hne. apply Hok. intros Hz. apply Hne. unfold ventry, share, BaseRewardRouter.calculate_ncn_fee_group_route_reward.
    by rewrite Hz. }
  rewrite Z.sub_diag in Hp2. exists s2. split; [exact Hs2|]. split; [done|]. subst s2. split; [done|]. split; [done|].
  split; [done|]. exact Ha.
Qed.

(** What vault [v] receives from delegation [e]. *)
Definition vcredit (R : Z) (W : StakeWeights) (k : nat) (v : Pubkey) (e : VaultOperatorStakeWeight) : Z :=
  if decide (v = vos_vault e) then ventry R W k e else 0.

Lemma route_vaults_ok V k W R es s :
  nr_inv V s -> (length V <= 64)%nat -> (k < 8)%nat -> nr_ncn_fee_group s = NcnFeeGroup.mk (Z.of_nat k) ->
  sw_wf W -> fits U64 R -> (forall e, e ∈ es -> entry_ok V W k e) ->
  sumZ (ventry R W k) es <= nr_reward_pool s ->
  exists s', foldM (NcnRewardRouter.route_vault W R) s es = Ok s' /\ nr_inv V s' /\ vframe s s' /\
    nr_reward_pool s' = nr_reward_pool s - sumZ (ventry R W k) es /\
    nr_rewards_processed s' = nr_rewards_processed s + sumZ (ventry R W k) es /\
    forall v, v <> Pubkey_default -> vault_amount s' v = vault_amount s v + sumZ (vcredit R W k v) es.
Proof.
  intros Hs HV Hk Hgr HW HR. revert s Hs Hgr. induction es as [|e es IH]; intros s Hs Hgr Hok Hsum; cbn [foldM sumZ] in *.
  { exists s. split; [done|]. split; [done|]. split; [done|]. split; [lia|]. split; [lia|]. intros. lia. }
  assert (Hpos : 0 <= sumZ (ventry R W k) es).
  { apply sumZ_nonneg. intros y Hy. destruct (Hok y ltac:(by right)) as (Hwf & Hle & _).
    apply vault_share_ok; [done|by apply gw_fits|by apply gw_fits|done]. }
  destruct (route_vault_ok V s k W R e Hs HV Hk Hgr HW HR (Hok e ltac:(left))) as (s1 & Hs1 & Hp1 & Hf1 & Hq1 & Hr1 & Ha1); [lia|].
  destruct (IH s1 Hp1) as (s2 & Hs2 & Hp2 & Hf2 & Hq2 & Hr2 & Ha2);
    [destruct Hf1 as (_ & _ & Hf1 & _); congruence|intros; apply Hok; by right|lia|].
  rewrite Hs1. cbn [mbind result_bind]. exists s2. split; [exact Hs2|]. split; [done|]. split; [by eapply vframe_trans|].
  split; [lia|]. split; [lia|]. intros v Hv. rewrite Ha2, Ha1 by done. unfold vcredit at 2. lia.
Qed.
End shares.

(* ------------------------------------------------------------------ *)
(** * The saved routing state does not matter to the routing *)

Section routing_state.
Context `{PreciseNumberOps}.
Context (rs : VaultRoutingState).

Definition vwr (m : res NcnRewardRouter) : res NcnRewardRouter :=
  s ← m; mret (NcnRewardRouter.with_routing s rs).

Lemma vwr_bind (m : res NcnRewardRouter) (f : NcnRewardRouter -> res NcnRewardRouter) :
  (forall s, f (NcnRewardRouter.with_routing s rs) = vwr (f s)) -> (s ← vwr m; f s) = vwr (s ← m; f s).
Proof. intros Hf. unfold vwr at 1. destruct m as [s|e]; [|done]. cbn. apply Hf. Qed.

Lemma vfrom_pool_wr s r :
  NcnRewardRouter.route_from_reward_pool (NcnRewardRouter.with_routing s rs) r
  = vwr (NcnRewardRouter.route_from_reward_pool s r).
Proof.
  unfold NcnRewardRouter.route_from_reward_pool. destruct (r =? 0) eqn:Hr; [done|].
  cbn [nr_reward_pool NcnRewardRouter.with_routing]. destruct (ok_or (checked_sub _ _) _); [|done].
  cbn [mbind result_bind]. unfold NcnRewardRouter.increment_rewards_processed. rewrite Hr. cbn [nr_rewards_processed
    NcnRewardRouter.with_routing NcnRewardRouter.with_pool]. by destruct (ok_or _ _).
Qed.

Lemma vto_vault_wr s v r :
  NcnRewardRouter.route_to_vault_reward_route (NcnRewardRouter.with_routing s rs) v r
  = vwr (NcnRewardRouter.route_to_vault_reward_route s v r).
Proof.
  unfold NcnRewardRouter.route_to_vault_reward_route. destruct (r =? 0); [done|].
  change (NcnRewardRouter.find_route (NcnRewardRouter.with_routing s rs)) with (NcnRewardRouter.find_route s).
  destruct (NcnRewardRouter.find_route s v) as [[i x]|].
  - by destruct (VaultRewardRoute.increment_rewards x r).
  - destruct (NcnRewardRouter.find_route s Pubkey_default) as [[i x]|]; [|done].
    by destruct (VaultRewardRoute.new v r).
Qed.

Lemma route_vault_wr W R s e :
  NcnRewardRouter.route_vault W R (NcnRewardRouter.with_routing s rs) e = vwr (NcnRewardRouter.route_vault W R s e).
Proof.
  unfold NcnRewardRouter.route_vault. cbn [nr_ncn_fee_group NcnRewardRouter.with_routing].
  destruct (StakeWeights.ncn_fee_group_stake_weight (vos_stake_weight e) _); [|done]. cbn [mbind result_bind].
  destruct (StakeWeights.ncn_fee_group_stake_weight W _); [|done]. cbn [mbind result_bind].
  destruct (NcnRewardRouter.calculate_vault_reward _ _ _); [|done]. cbn [mbind result_bind].
  rewrite vfrom_pool_wr. apply vwr_bind. intros s'. apply vto_vault_wr.
Qed.

Lemma foldM_vwr W R es s :
  foldM (NcnRewardRouter.route_vault W R) (NcnRewardRouter.with_routing s rs) es
  = vwr (foldM (NcnRewardRouter.route_vault W R) s es).
Proof.
  revert s. induction es as [|e es IH]; intros s; [done|]. cbn [foldM]. rewrite route_vault_wr. by apply vwr_bind.
Qed.
End routing_state.

(* ------------------------------------------------------------------ *)
(** * Bounded calls *)

Section calls.
Context `{PreciseNumberOps}.
Context (snap : OperatorSnapshot) (Hlen : (length (os_vault_operator_stake_weight snap) <= 64)%nat).

Local Abbreviation W := (os_stake_weights snap).
Local Abbreviation entries := (os_vault_operator_stake_weight snap).

(** What is left of the routing of [R] lamports at entry [i]. *)
Definition vcont (i : nat) (R : Z) (s : NcnRewardRouter) : res NcnRewardRouter :=
  s' ← foldM (NcnRewardRouter.route_vault W R) s (drop i entries);
  NcnRewardRouter.route_leftover (NcnRewardRouter.reset_routing_state s').

Lemma vcont_save i R s R' i' : vcont i R (NcnRewardRouter.save_routing_state s R' i') = vcont i R s.
Proof.
  unfold vcont, NcnRewardRouter.save_routing_state. rewrite foldM_vwr. unfold vwr.
  by destruct (foldM _ s _).
Qed.

(** The loop completes, or stops after the iterations it may do. *)
Lemma route_vaults_cases M R es s it i s' :
  0 <= it <= M -> it + Z.of_nat (length es) < U16 ->
  foldM (NcnRewardRouter.route_vault W R) s es = Ok s' ->
  NcnRewardRouter.route_vaults W M R s it i es = Ok (NcnRewardRouter.Continue s') \/
  exists j s1, NcnRewardRouter.route_vaults W M R s it i es
      = Ok (NcnRewardRouter.Return (NcnRewardRouter.save_routing_state s1 R (i + j))) /\
    (j < length es)%nat /\ Z.of_nat j = M - it /\ foldM (NcnRewardRouter.route_vault W R) s1 (drop j es) = Ok s'.
Proof.
  revert s it i. induction es as [|e es IH]; intros s it i Hit Hb Hf; cbn [foldM] in Hf.
  { simplify_eq. by left. }
  cbn [NcnRewardRouter.route_vaults]. cbn [length] in Hb. rewrite Nat2Z.inj_succ in Hb.
  checked.
  destruct (Z.ltb_spec M (it + 1)) as [Hlt|Hle].
  - right. exists 0%nat, s. split; [by rewrite Nat.add_0_r|]. cbn [length drop]. split; [lia|]. split; [lia|]. done.
  - destruct (NcnRewardRouter.route_vault W R s e) as [s1|]; [|done]. cbn [mbind result_bind] in Hf |- *.
    destruct (IH s1 (it + 1) (S i)) as [Hr|(j & s2 & Hr & Hj & Hm & Hd)]; [lia|lia|exact Hf|by left|right].
    exists (S j), s2. rewrite Nat.add_succ_r. split; [exact Hr|]. cbn [length drop]. split; [lia|]. split; [lia|]. done.
Qed.

(** An interrupted routing, [p] entries in, with final result [sf]. *)
Definition vsuspended (sf : NcnRewardRouter) (p : Z) (s : NcnRewardRouter) : Prop :=
  exists i R s1, s = NcnRewardRouter.save_routing_state s1 R i /\ (i < length entries)%nat /\ 0 < R /\
    vcont i R s1 = Ok sf /\ p <= Z.of_nat i.

Lemma vsuspended_routing sf p s : vsuspended sf p s -> NcnRewardRouter.still_routing s = true.
Proof.
  intros (i & R & s1 & -> & Hi & _). unfold NcnRewardRouter.still_routing. cbn [nr_routing
    NcnRewardRouter.save_routing_state NcnRewardRouter.with_routing nr_last_vault_operator_delegation_index].
  unfold cast. rewrite Z.mod_small by lia. unfold NcnRewardRouter.NO_LAST_VAULT_OPERATION_DELEGATION_INDEX.
  rewrite (proj2 (Z.eqb_neq (Z.of_nat i) _)) by lia. apply orb_true_r.
Qed.

(** A call from entry [i] on. *)
Lemma vcall_cases m i R s sf :
  fits U16 m -> (i <= length entries)%nat -> 0 < R -> vcont i R s = Ok sf ->
  let r := (fl ← NcnRewardRouter.route_vaults W (Z.max m 1) R s 0 i (drop i entries);
            match fl with
            | NcnRewardRouter.Return s' => Ok s'
            | NcnRewardRouter.Continue s' => NcnRewardRouter.route_leftover (NcnRewardRouter.reset_routing_state s')
            end) in
  r = Ok sf \/ exists s', r = Ok s' /\ vsuspended sf (Z.of_nat i + Z.max m 1) s'.
Proof.
  intros Hm Hi HR Hc r. unfold vcont in Hc.
  destruct (foldM _ s (drop i entries)) as [s1|] eqn:Hf; [|done]. cbn [mbind result_bind] in Hc.
  unfold r. destruct (route_vaults_cases (Z.max m 1) R (drop i entries) s 0 i s1) as [->|(j & s2 & -> & Hj & Hjm & Hd)];
    [lia|rewrite length_drop; lia|done|by left|right].
  cbn [mbind result_bind]. eexists. split; [reflexivity|]. rewrite length_drop in Hj.
  exists (i + j)%nat, R, s2. split; [done|]. split; [lia|]. split; [done|]. split; [|lia].
  unfold vcont. rewrite drop_drop in Hd. by rewrite Hd.
Qed.

Lemma vcall_fresh m s sf :
  fits U16 m -> NcnRewardRouter.still_routing s = false -> 0 < nr_reward_pool s ->
  vcont 0 (nr_reward_pool s) s = Ok sf ->
  let r := NcnRewardRouter.route_reward_pool s snap m in
  r = Ok sf \/ exists s', r = Ok s' /\ vsuspended sf (Z.max m 1) s'.
Proof.
  intros Hm Hn HR Hc. unfold NcnRewardRouter.route_reward_pool, NcnRewardRouter.resume_routing_state. rewrite Hn. cbn [negb].
  rewrite (proj2 (Z.eqb_neq (nr_reward_pool s) 0)) by lia.
  destruct (vcall_cases m 0 (nr_reward_pool s) s sf Hm ltac:(lia) HR Hc) as [Hr|(s' & Hr & Hsus)]; [by left|right].
  exists s'. by split.
Qed.

Lemma vcall_resumed m p s sf :
  fits U16 m -> vsuspended sf p s ->
  let r := NcnRewardRouter.route_reward_pool s snap m in
  r = Ok sf \/ exists s', r = Ok s' /\ vsuspended sf (p + Z.max m 1) s'.
Proof.
  intros Hm Hsus. pose proof (vsuspended_routing _ _ _ Hsus) as Hst.
  destruct Hsus as (i & R & s1 & -> & Hi & HR & Hc & Hp).
  unfold NcnRewardRouter.route_reward_pool, NcnRewardRouter.resume_routing_state. rewrite Hst. cbn [negb nr_routing
    NcnRewardRouter.save_routing_state NcnRewardRouter.with_routing nr_last_vault_operator_delegation_index
    nr_last_rewards_to_process].
  rewrite (proj2 (Z.eqb_neq R 0)) by lia. unfold cast. rewrite Z.mod_small by lia. rewrite Nat2Z.id.
  destruct (vcall_cases m i R (NcnRewardRouter.save_routing_state s1 R i) sf Hm ltac:(lia) HR) as [Hr|(s' & Hr & Hsus)].
  - by rewrite vcont_save.
  - by left.
  - right. exists s'. split; [exact Hr|]. destruct Hsus as (i' & R' & s2 & H1 & H2 & H3 & H4 & H5).
    exists i', R', s2. repeat (split; [done|]). lia.
Qed.
End calls.
