(* ===== verification/NcnRewardTheorems.v ===== *)
(** What the NCN reward router guarantees: the operator's fee and the vaults'
    shares are exact, the operator takes the rest, calls may stop anywhere,
    and distributions hand out what was credited. *)

From S2P Require Import Prelude Errors External Constants FeeGroups StakeWeight EpochSnapshot BaseRewardRouter BaseRewardRouterProps NcnRewardRouter NcnRewardProps.

#[local] Arguments gw : simpl never.
#[local] Arguments ONE : simpl never.
#[local] Arguments replicate : simpl never.

Section theorems.
Context `{L : PreciseNumberLaws}.

(** A snapshot whose stake-bearing entries name a vault. *)
Definition snapshot_vaults (snap : OperatorSnapshot) : list Pubkey := vos_vault <$> os_vault_operator_stake_weight snap.
Definition named_vaults (k : nat) (snap : OperatorSnapshot) : Prop :=
  forall e, e ∈ os_vault_operator_stake_weight snap -> gw k (vos_stake_weight e) <> 0 -> vos_vault e <> Pubkey_default.

Lemma snapshot_entry_ok snap k e :
  os_inv snap -> (k < 8)%nat -> named_vaults k snap -> e ∈ os_vault_operator_stake_weight snap ->
  entry_ok (snapshot_vaults snap) (os_stake_weights snap) k e.
Proof.
  intros Hs Hk Hn He. split; [apply (Forall_In _ _ _ (oi_wf _ Hs) He)|]. split.
  - rewrite (oi_group _ Hs k Hk). apply list_elem_of_lookup in He as [i Hi].
    apply (sumZ_elem_le (entry_group k) _ i e); [|done]. intros x Hx. unfold entry_group.
    by destruct (gw_fits (vos_stake_weight x) k (Forall_In _ _ _ (oi_wf _ Hs) Hx)).
  - intros Hne. split; [by apply Hn|]. by apply list_elem_of_fmap_2.
Qed.

Lemma snapshot_vaults_length snap : os_inv snap -> length (snapshot_vaults snap) = 64%nat.
Proof. intros Hs. unfold snapshot_vaults. rewrite length_fmap. apply (oi_len _ Hs). Qed.

(** What all the vaults, and vault [v], receive of [R] lamports. *)
Definition vaults_share (snap : OperatorSnapshot) (k : nat) (R : Z) : Z :=
  sumZ (ventry R (os_stake_weights snap) k) (os_vault_operator_stake_weight snap).
Definition vault_share (snap : OperatorSnapshot) (k : nat) (R : Z) (v : Pubkey) : Z :=
  sumZ (vcredit R (os_stake_weights snap) k v) (os_vault_operator_stake_weight snap).

Lemma vaults_share_le snap k R : os_inv snap -> (k < 8)%nat -> fits U64 R -> 0 <= vaults_share snap k R <= R.
Proof.
  intros Hs Hk HR. unfold vaults_share, ventry.
  apply (shares_sum_le (fun e => gw k (vos_stake_weight e))); [done|apply gw_fits, (oi_sum_wf _ Hs)| | |].
  - apply Forall_lookup_2. intros i e Hi. apply gw_fits. apply (Forall_lookup_1 _ _ _ _ (oi_wf _ Hs) Hi).
  - rewrite (oi_group _ Hs k Hk). done.
  - rewrite (oi_len _ Hs). unfold MAX_VAULTS, ONE. lia.
Qed.

(** [s'] is [s] with its pool routed. *)
Record pool_routed (snap : OperatorSnapshot) (k : nat) (s s' : NcnRewardRouter) : Prop := {
  pr_routing : NcnRewardRouter.still_routing s' = false;
  pr_pool : nr_reward_pool s' = 0;
  pr_processed : nr_rewards_processed s' = nr_rewards_processed s + nr_reward_pool s;
  pr_total : nr_total_rewards s' = nr_total_rewards s;
  pr_group : nr_ncn_fee_group s' = nr_ncn_fee_group s;
  pr_operator : nr_operator_rewards s' = nr_operator_rewards s + nr_reward_pool s - vaults_share snap k (nr_reward_pool s);
  pr_vaults : forall v, v <> Pubkey_default -> vault_amount s' v = vault_amount s v + vault_share snap k (nr_reward_pool s) v;
}.

Lemma reset_inv V x s : nr_pend V x s -> nr_pend V x (NcnRewardRouter.reset_routing_state s).
Proof. intros []. by split. Qed.

Lemma pool_fits V s : nr_inv V s -> fits U64 (nr_reward_pool s).
Proof.
  intros Hs. pose proof (np_pool _ _ _ Hs). pose proof (np_total _ _ _ Hs). pose proof (np_held _ _ _ Hs).
  pose proof (np_sum_nonneg _ _ _ Hs). pose proof (np_operator _ _ _ Hs). unfold fits. lia.
Qed.

Lemma vrouting_result snap k s :
  os_inv snap -> (k < 8)%nat -> named_vaults k snap -> nr_ncn_fee_group s = NcnFeeGroup.mk (Z.of_nat k) ->
  nr_inv (snapshot_vaults snap) s ->
  exists sf, vcont snap 0 (nr_reward_pool s) s = Ok sf /\ nr_inv (snapshot_vaults snap) sf /\ pool_routed snap k s sf.
Proof.
  intros Hsn Hk Hn Hg Hs. pose proof (pool_fits _ _ Hs) as HR. pose proof (vaults_share_le snap k _ Hsn Hk HR) as Hle.
  unfold vaults_share in Hle.
  destruct (route_vaults_ok (snapshot_vaults snap) k (os_stake_weights snap) (nr_reward_pool s)
    (os_vault_operator_stake_weight snap) s Hs) as (s1 & Hs1 & Hp1 & (Ht1 & Ho1 & Hg1 & _) & Hq1 & Hr1 & Ha1);
    [rewrite snapshot_vaults_length by done; lia|done|done|apply (oi_sum_wf _ Hsn)|done
    |intros; by apply snapshot_entry_ok|lia|].
  destruct (vleftover_ok _ _ (reset_inv _ _ _ Hp1)) as (s2 & Hs2 & Hp2 & H0 & H1 & H2 & H3 & H4 & H5 & H6).
  exists s2. split; [unfold vcont; rewrite drop_0, Hs1; exact Hs2|]. split; [done|].
  cbn [NcnRewardRouter.reset_routing_state NcnRewardRouter.with_routing nr_reward_pool nr_rewards_processed
    nr_operator_rewards nr_vault_reward_routes nr_total_rewards nr_routing nr_ncn_fee_group] in *.
  split; try (done || congruence).
  - unfold NcnRewardRouter.still_routing. by rewrite H5.
  - lia.
  - rewrite H2, Ho1, Hq1. unfold vaults_share. lia.
  - intros v Hv. unfold vault_amount, NcnRewardRouter.find_route in *. rewrite H3. by rewrite Ha1.
Qed.

Definition vcalls (snap : OperatorSnapshot) (s : NcnRewardRouter) (ms : list Z) : res NcnRewardRouter :=
  foldM (fun s m => NcnRewardRouter.route_reward_pool s snap m) s ms.
Definition vsteps (ms : list Z) : Z := sumZ (fun m => Z.max m 1) ms.

Lemma vcall_done snap s m :
  NcnRewardRouter.still_routing s = false -> nr_reward_pool s = 0 -> NcnRewardRouter.route_reward_pool s snap m = Ok s.
Proof.
  intros Hn Hz. unfold NcnRewardRouter.route_reward_pool, NcnRewardRouter.resume_routing_state. by rewrite Hn, Hz.
Qed.

Definition vprogress (snap : OperatorSnapshot) (s sf : NcnRewardRouter) (p : Z) (s' : NcnRewardRouter) : Prop :=
  (s' = s /\ p = 0) \/ s' = sf \/ vsuspended snap sf p s'.

Lemma vcalls_progress snap k s sf ms :
  os_inv snap -> NcnRewardRouter.still_routing s = false -> 0 < nr_reward_pool s ->
  vcont snap 0 (nr_reward_pool s) s = Ok sf -> pool_routed snap k s sf -> Forall (fits U16) ms ->
  exists s', vcalls snap s ms = Ok s' /\ vprogress snap s sf (vsteps ms) s'.
Proof.
  intros Hsn Hn HR Hc Hrt Hms. pose proof (oi_len _ Hsn) as Hlen. unfold MAX_VAULTS in Hlen.
  induction ms as [|m ms IH] using rev_ind; [exists s; split; [done|by left]|].
  apply Forall_app in Hms as [Hms Hm]. apply Forall_cons_1 in Hm as [Hm _].
  destruct (IH Hms) as (s1 & Hs1 & Hp). unfold vcalls. rewrite foldM_app. fold (vcalls snap s ms). rewrite Hs1.
  cbn [mbind result_bind foldM]. unfold vsteps in *. rewrite sumZ_app. cbn [sumZ].
  destruct Hp as [[-> Hz]|[->|Hsus]].
  - destruct (vcall_fresh snap ltac:(lia) m s sf Hm Hn HR Hc) as [Hr|(s' & Hr & Hsus)]; rewrite Hr; cbn [mbind result_bind].
    + exists sf. split; [done|]. by right; left.
    + exists s'. split; [done|]. right; right. rewrite Hz, Z.add_0_l, Z.add_0_r. done.
  - rewrite (vcall_done snap sf m (pr_routing _ _ _ _ Hrt) (pr_pool _ _ _ _ Hrt)). exists sf. split; [done|]. by right; left.
  - destruct (vcall_resumed snap ltac:(lia) m _ s1 sf Hm Hsus) as [Hr|(s' & Hr & Hsus')]; rewrite Hr; cbn [mbind result_bind].
    + exists sf. split; [done|]. by right; left.
    + exists s'. split; [done|]. right; right. by rewrite Z.add_0_r.
Qed.

Lemma vprogress_end snap s sf p s' : os_inv snap -> vprogress snap s sf p s' -> 64 <= p -> s' = sf.
Proof.
  intros Hs [[_ ->]|[|(i & R & s1 & _ & Hi & _ & _ & Hp)]] Hge; [lia|done|].
  pose proof (oi_len _ Hs) as Hlen. unfold MAX_VAULTS in Hlen. lia.
Qed.

(** A call with at least 64 iterations, on an empty pool too. *)
Lemma vcall_complete snap k s m :
  os_inv snap -> (k < 8)%nat -> named_vaults k snap -> nr_ncn_fee_group s = NcnFeeGroup.mk (Z.of_nat k) ->
  nr_inv (snapshot_vaults snap) s -> NcnRewardRouter.still_routing s = false -> 64 <= m -> fits U16 m ->
  exists sf, NcnRewardRouter.route_reward_pool s snap m = Ok sf /\ nr_inv (snapshot_vaults snap) sf /\
    pool_routed snap k s sf /\ (0 < nr_reward_pool s -> vcont snap 0 (nr_reward_pool s) s = Ok sf).
Proof.
  intros Hsn Hk Hv Hg Hs Hn Hm Hf. pose proof (np_pool _ _ _ Hs) as Hp0.
  destruct (Z.eqb_spec (nr_reward_pool s) 0) as [Hz|Hz].
  - exists s. split; [by apply vcall_done|]. split; [done|]. split; [|lia].
    assert (Hz0 : forall e, ventry 0 (os_stake_weights snap) k e = 0).
    { intros e. unfold ventry, share, BaseRewardRouter.calculate_ncn_fee_group_route_reward.
      by rewrite Z.eqb_refl, orb_true_r. }
    split; rewrite ?Hz; try (done || lia).
    + unfold vaults_share. rewrite (sumZ_zero (ventry 0 _ k)) by (intros; apply Hz0). lia.
    + intros v _. unfold vault_share. rewrite sumZ_zero; [lia|]. intros e _. unfold vcredit. rewrite Hz0. by destruct (decide _).
  - destruct (vrouting_result snap k s Hsn Hk Hv Hg Hs) as (sf & Hc & Hsf & Hrt). exists sf.
    destruct (vcalls_progress snap k s sf [m] Hsn Hn ltac:(lia) Hc Hrt) as (s' & Hc' & Hp); [by constructor|].
    assert (s' = sf) as -> by (eapply vprogress_end; [done|exact Hp|]; unfold vsteps; cbn [sumZ]; lia).
    unfold vcalls in Hc'. cbn [foldM] in Hc'. destruct (NcnRewardRouter.route_reward_pool s snap m); done.
Qed.
(** The operator's fee. *)
Lemma route_operator_ok V MAX_BPS s snap :
  nr_inv V s -> 0 < MAX_BPS < ONE -> 0 <= os_operator_fee_bps snap <= MAX_BPS ->
  let fee := nr_reward_pool s * os_operator_fee_bps snap / MAX_BPS in
  exists s', NcnRewardRouter.route_operator_rewards MAX_BPS s snap = Ok s' /\ nr_inv V s' /\
    nr_operator_rewards s' = nr_operator_rewards s + fee /\ nr_reward_pool s' = nr_reward_pool s - fee /\
    nr_rewards_processed s' = nr_rewards_processed s + fee /\ 0 <= fee <= nr_reward_pool s /\
    nr_vault_reward_routes s' = nr_vault_reward_routes s /\ nr_routing s' = nr_routing s /\
    nr_total_rewards s' = nr_total_rewards s /\ nr_ncn_fee_group s' = nr_ncn_fee_group s.
Proof.
  intros Hs HB Hf fee. pose proof (pool_fits _ _ Hs) as HR. pose proof (np_pool _ _ _ Hs) as Hp0.
  assert (Hfee : 0 <= fee <= nr_reward_pool s).
  { unfold fee. split; [apply Z.div_pos; nia|]. apply Z.div_le_upper_bound; nia. }
  assert (Hc : NcnRewardRouter.calculate_operator_reward MAX_BPS (os_operator_fee_bps snap) (nr_reward_pool s) = Ok fee).
  { unfold NcnRewardRouter.calculate_operator_reward, fee. destruct (Z.eqb_spec (os_operator_fee_bps snap) 0) as [->|]; cbn [orb].
    { by rewrite Z.mul_0_r, Zdiv_0_l. }
    destruct (Z.eqb_spec (nr_reward_pool s) 0) as [->|]; [by rewrite Zdiv_0_l|].
    apply mul_div_floor_exact; [done|unfold fits, ONE in *; lia|done|lia]. }
  unfold NcnRewardRouter.route_operator_rewards. rewrite Hc. cbn [mbind result_bind].
  destruct (vfrom_pool_ok V 0 s fee Hs) as [H1 Hp1]; [lia|]. rewrite H1. cbn [mbind result_bind]. rewrite Z.add_0_l in Hp1.
  destruct (vto_operator_ok V _ _ fee Hp1) as [H2 Hp2]; [lia|]. rewrite H2. rewrite Z.sub_diag in Hp2.
  eexists. split; [reflexivity|]. split; [exact Hp2|]. cbn. repeat (split; [done|]). done.
Qed.
End theorems.

Section properties.
Context `{L : PreciseNumberLaws}.

(** The operator's fee: for a fee of at most [MAX_BPS] basis points
    routing it never fails, moves exactly the floor of the fee's part of the
    pool from the pool to the operator and changes nothing else. *)
Theorem operator_fee_exact V MAX_BPS s snap :
  nr_inv V s -> 0 < MAX_BPS < ONE -> 0 <= os_operator_fee_bps snap <= MAX_BPS ->
  let fee := nr_reward_pool s * os_operator_fee_bps snap / MAX_BPS in
  exists s', NcnRewardRouter.route_operator_rewards MAX_BPS s snap = Ok s' /\ nr_inv V s' /\
    nr_operator_rewards s' = nr_operator_rewards s + fee /\ nr_reward_pool s' = nr_reward_pool s - fee /\
    nr_rewards_processed s' = nr_rewards_processed s + fee /\ 0 <= fee <= nr_reward_pool s /\
    nr_vault_reward_routes s' = nr_vault_reward_routes s /\ nr_routing s' = nr_routing s /\
    nr_total_rewards s' = nr_total_rewards s.
Proof.
  intros Hs HB Hf fee. destruct (route_operator_ok V MAX_BPS s snap Hs HB Hf) as (s' & ? & ? & ? & ? & ? & ? & ? & ? & ? & _).
  exists s'. done.
Qed.

(** one call with at least 64 iterations routes the whole pool: it
    never fails, every vault of the snapshot is credited its share by stake
    weight in the router's group, no other vault is credited, the operator
    takes the rest, and the pool is empty. *)
Theorem route_pool_credits snap k s m :
  os_inv snap -> (k < 8)%nat -> named_vaults k snap -> nr_ncn_fee_group s = NcnFeeGroup.mk (Z.of_nat k) ->
  nr_inv (snapshot_vaults snap) s -> NcnRewardRouter.still_routing s = false -> 64 <= m -> fits U16 m ->
  exists s', NcnRewardRouter.route_reward_pool s snap m = Ok s' /\ nr_inv (snapshot_vaults snap) s' /\
    pool_routed snap k s s' /\ 0 <= vaults_share snap k (nr_reward_pool s) <= nr_reward_pool s.
Proof.
  intros Hsn Hk Hv Hg Hs Hn Hm Hf. destruct (vcall_complete snap k s m Hsn Hk Hv Hg Hs Hn Hm Hf) as (s' & Hr & Hs' & Hrt & _).
  exists s'. split; [done|]. split; [done|]. split; [done|]. apply vaults_share_le; [done|done|]. by eapply pool_fits.
Qed.

(** routing a pool to vaults may be cut into calls with any iteration
    bounds: no call fails, the routing is over exactly when the state equals the
    one an uninterrupted call leaves, and it is over as soon as the bounds add
    up to 64 iterations. *)
Theorem route_pool_resumable snap k s ms :
  os_inv snap -> (k < 8)%nat -> named_vaults k snap -> nr_ncn_fee_group s = NcnFeeGroup.mk (Z.of_nat k) ->
  nr_inv (snapshot_vaults snap) s -> NcnRewardRouter.still_routing s = false -> 0 < nr_reward_pool s ->
  Forall (fits U16) ms -> ms <> [] ->
  exists sf s', NcnRewardRouter.route_reward_pool s snap 65535 = Ok sf /\ vcalls snap s ms = Ok s' /\
    (NcnRewardRouter.still_routing s' = false <-> s' = sf) /\ (64 <= vsteps ms -> s' = sf).
Proof.
  intros Hsn Hk Hv Hg Hs Hn HR Hms Hne.
  destruct (vcall_complete snap k s 65535 Hsn Hk Hv Hg Hs Hn) as (sf & Hr & Hsf & Hrt & Hc); [done|done|].
  destruct (vcalls_progress snap k s sf ms Hsn Hn HR (Hc HR) Hrt Hms) as (s' & Hc' & Hp).
  exists sf, s'. split; [done|]. split; [done|]. split; [|by eapply vprogress_end].
  pose proof (pr_routing _ _ _ _ Hrt) as Hsf0. pose proof (oi_len _ Hsn) as Hlen. unfold MAX_VAULTS in Hlen.
  destruct Hp as [[_ Hz]|[->|Hsus]]; [|done|].
  - exfalso. destruct ms as [|m ms]; [done|]. unfold vsteps in Hz. cbn [sumZ] in Hz.
    pose proof (sumZ_nonneg (fun m => Z.max m 1) ms ltac:(intros; lia)). lia.
  - apply vsuspended_routing in Hsus; [|lia]. split; [congruence|]. intros ->. congruence.
Qed.

(** A distribution hands out exactly what the operator, or the vault,
    was credited, sets that amount to zero and takes it off the processed
    rewards; the other amounts stay. *)
Theorem vault_distribute_exactly V s v :
  nr_inv V s -> v <> Pubkey_default -> NcnRewardRouter.find_route s v <> None ->
  (exists s', NcnRewardRouter.distribute_operator_rewards s = Ok (s', nr_operator_rewards s) /\ nr_inv V s' /\
     nr_operator_rewards s' = 0 /\ nr_vault_reward_routes s' = nr_vault_reward_routes s /\
     nr_reward_pool s' = nr_reward_pool s /\
     nr_rewards_processed s' = nr_rewards_processed s - nr_operator_rewards s) /\
  (exists s', NcnRewardRouter.distribute_vault_reward_route s v = Ok (s', vault_amount s v) /\ nr_inv V s' /\
     nr_operator_rewards s' = nr_operator_rewards s /\ nr_reward_pool s' = nr_reward_pool s /\
     nr_rewards_processed s' = nr_rewards_processed s - vault_amount s v /\
     forall v', v' <> Pubkey_default -> vault_amount s' v' = if decide (v' = v) then 0 else vault_amount s v').
Proof. intros Hs Hv Hf. split; [by apply vdistribute_operator_ok|by apply vdistribute_vault_ok]. Qed.
End properties.

(* ------------------------------------------------------------------ *)
(** * Witnesses *)

Module NcnRewardWitness.
Definition snap := EpochSnapshotWitness.s3.
Definition get_router (r : res NcnRewardRouter) : NcnRewardRouter :=
  match r with Ok s => s | Err _ => NcnRewardRouter.new NcnFeeGroup.lst (key 1) 0 (key 9) 5 255 100 end.
Definition v0 := NcnRewardRouter.new NcnFeeGroup.lst (key 1) 0 (key 9) 5 255 100.
Definition v1 := NcnRewardRouter.with_pool v0 1000003 1000003.
Definition v2 := get_router (NcnRewardRouter.route_reward_pool (H := U256Precise.ops) v1 snap 65535).

Lemma snap_inv : os_inv snap.
Proof. apply (os_star_inv _ _ EpochSnapshotWitness.wit_os_steps EpochSnapshotWitness.wit_os_inv). Qed.

Lemma snap_named : named_vaults 0 snap.
Proof.
  assert (Hf : Forall (fun e => gw 0 (vos_stake_weight e) <> 0 -> vos_vault e <> Pubkey_default)
    (os_vault_operator_stake_weight snap)).
  { apply (bool_decide_unpack _). vm_compute. exact I. }
  intros e He. apply (Forall_In _ _ _ Hf He).
Qed.

Lemma v1_inv V : nr_inv V v1.
Proof. destruct (vroute_to_pool_ok V v0 1000003) as [_ Hs]; [apply new_nr_inv|done|done|exact Hs]. Qed.

Lemma v2_inv : nr_inv (snapshot_vaults snap) v2.
Proof.
  destruct (vcall_complete (L := U256Precise.laws) snap 0 v1 65535 snap_inv ltac:(lia) snap_named eq_refl (v1_inv _) eq_refl)
    as (s' & Hr & Hs' & _); [done|done|]. unfold v2. rewrite Hr. exact Hs'.
Qed.
End NcnRewardWitness.
Import NcnRewardWitness.

Lemma operator_fee_exact_witness :
  exists s', NcnRewardRouter.route_operator_rewards (H := U256Precise.ops) 10000 v1 snap = Ok s' /\
    nr_operator_rewards s' = 0 + 1000003 * 300 / 10000.
Proof.
  destruct (operator_fee_exact (L := U256Precise.laws) [] 10000 v1 snap (v1_inv [])) as (s' & Hr & _ & Ho & _);
    [done|vm_compute; split; discriminate|]. exists s'. split; [exact Hr|exact Ho].
Defined.

Lemma route_pool_credits_witness :
  exists s', NcnRewardRouter.route_reward_pool (H := U256Precise.ops) v1 snap 64 = Ok s' /\ nr_reward_pool s' = 0 /\
    vault_amount s' (key 5) = vault_amount v1 (key 5) + @vault_share U256Precise.ops snap 0 1000003 (key 5).
Proof.
  destruct (route_pool_credits (L := U256Precise.laws) snap 0 v1 64 snap_inv ltac:(lia) snap_named eq_refl (v1_inv _) eq_refl)
    as (s' & Hr & _ & Hrt & _); [done|done|].
  exists s'. split; [exact Hr|]. split; [exact (pr_pool _ _ _ _ Hrt)|]. apply (pr_vaults _ _ _ _ Hrt). done.
Defined.

Lemma route_pool_resumable_witness :
  exists sf, NcnRewardRouter.route_reward_pool (H := U256Precise.ops) v1 snap 65535 = Ok sf /\
    @vcalls U256Precise.ops snap v1 [1; 20; 43] = Ok sf.
Proof.
  destruct (route_pool_resumable (L := U256Precise.laws) snap 0 v1 [1; 20; 43] snap_inv ltac:(lia) snap_named eq_refl (v1_inv _) eq_refl)
    as (sf & s' & Hr & Hc & _ & Hd); [done|by repeat constructor|done|].
  exists sf. split; [exact Hr|]. rewrite Hc. f_equal. apply Hd. vm_compute. discriminate.
Defined.

Lemma vault_distribute_exactly_witness :
  exists s', NcnRewardRouter.distribute_vault_reward_route v2 (key 5) = Ok (s', vault_amount v2 (key 5)).
Proof.
  destruct (vault_distribute_exactly (snapshot_vaults snap) v2 (key 5) v2_inv) as (_ & s' & Hr & _);
    [done|vm_compute; discriminate|]. exists s'. exact Hr.
Defined.
