(* ===== verification/MerkleTheorems.v ===== *)
(** The promises of the Merkle trees and of [BallotBox::verify_merkle_root]:
    every leaf has a proof that verifies, the meta tree is built for exactly the
    valid inputs and does not depend on their order, and the on-chain check
    accepts the meta tree's nodes and, under an ideal hash, only those. *)

From S2P Require Import Prelude Errors External MerkleTree MerkleTreeProps BallotBox.

(** a tree is built for every list of items; each index has a path
    that verifies its leaf ([Proof::verify] for trees in order, [verify]
    against the root for sorted trees), and no other index has one. *)
Theorem tree_paths_verify `{Solana} items i :
  exists t ts root, MerkleTree_new items false = Ok t /\ MerkleTree_new items true = Ok ts /\
    (items <> [] -> get_root ts = Some root) /\
    ((i < length items)%nat ->
       (exists path, find_path t i = Ok (Some path) /\ Proof_verify path (hash_leaf (nth i items [])) = true) /\
       (exists proof, get_proof ts i = Ok proof /\ verify proof root (hash_leaf (nth i items [])) = true)) /\
    ((length items <= i)%nat -> find_path t i = Ok None /\ get_proof ts i = Err Panic).
Proof.
  pose proof (MerkleTree_new_spec items false) as Ht. pose proof (MerkleTree_new_spec items true) as Hts.
  eexists _, _, _. split; [exact Ht|]. split; [exact Hts|].
  split; [by eapply get_root_new|]. split.
  - intros Hi. split.
    + destruct (find_path_new _ _ _ _ Ht Hi) as (es & Hes & Hch). exists es. split; [done|].
      rewrite nthd_leaf in Hch by done. by eapply chain_verify.
    + destruct (get_proof_new _ _ _ Hts Hi) as (proof & Hp & Hc). exists proof. split; [done|].
      unfold verify. by apply bool_decide_eq_true.
  - intros Hi. unfold get_proof, find_path. cbn [leaf_count].
    by rewrite (proj2 (Nat.leb_le _ _) Hi).
Qed.

(** [MetaMerkleTree::new] succeeds on every non-empty list of at most
    2^32 - 1 nodes with distinct accounts; its nodes are the given ones, each
    with a proof that verifies against the tree's root.  An empty list and
    duplicate accounts are errors. *)
Theorem meta_merkle_tree_new `{Solana} ns :
  Z.of_nat (length ns) <= 2 ^ 32 - 1 ->
  (ns <> [] -> NoDup (tip_distribution_account <$> ns) ->
   exists t, MetaMerkleTree_new ns = Ok t /\ num_nodes t = Z.of_nat (length ns) /\
     (forall n', n' ∈ tree_nodes t -> exists n p, n ∈ ns /\ n' = with_proof n p /\
        verify p (merkle_root t) (hash_leaf (TreeNode_hash n)) = true) /\
     (forall n, n ∈ ns -> exists p, with_proof n p ∈ tree_nodes t)) /\
  (ns = [] -> MetaMerkleTree_new ns = Err MerkleRootError) /\
  (~ NoDup (tip_distribution_account <$> ns) -> exists e, MetaMerkleTree_new ns = Err e).
Proof.
  intros Hlen. split; [|split].
  - intros Hne Hnd. destruct (MetaMerkleTree_new_spec ns Hne Hnd Hlen) as (t & Ht & Hn & Hr & HF & Hp).
    exists t. split; [done|]. assert (Hperm := sort_by_hash_perm ns). split; [done|]. split.
    + intros n' Hin. destruct (Hp n' Hin) as (p & Hn' & Hv).
      apply list_elem_of_lookup in Hin as [j Hj].
      destruct (Forall2_lookup_r _ _ _ _ _ HF Hj) as (n & Hnj & q & ->).
      simpl in Hn'. injection Hn' as ->. exists n, p. split; [|done].
      rewrite <- Hperm. by eapply list_elem_of_lookup_2.
    + intros n Hin. rewrite <- Hperm in Hin. apply list_elem_of_lookup in Hin as [j Hj].
      destruct (Forall2_lookup_l _ _ _ _ _ HF Hj) as (n' & Hn' & p & ->).
      exists p. by eapply list_elem_of_lookup_2.
  - intros ->. done.
  - intros Hnd. destruct (MetaMerkleTree_new ns) as [t|e] eqn:E; [|by eexists].
    by apply MetaMerkleTree_new_NoDup in E.
Qed.

(** The root of the meta tree does not depend on the order in which
    the nodes are given. *)
Theorem meta_root_order_independent `{Solana} ns ns' t t' :
  ns ≡ₚ ns' -> MetaMerkleTree_new ns = Ok t -> MetaMerkleTree_new ns' = Ok t' ->
  merkle_root t = merkle_root t'.
Proof.
  intros Hp Ht Ht'.
  assert (Hr : forall l u, MetaMerkleTree_new l = Ok u -> merkle_root u = root_of_nodes (sort_by_hash l)).
  { intros l u Hu. by destruct (MetaMerkleTree_new_root l u Hu). }
  rewrite (Hr _ _ Ht), (Hr _ _ Ht'). unfold root_of_nodes.
  assert (Heq : TreeNode_hash <$> sort_by_hash ns = TreeNode_hash <$> sort_by_hash ns').
  { apply sorted_hashes_unique; [apply sort_by_hash_sorted..|]. by rewrite !sort_by_hash_perm, Hp. }
  assert (Hl := f_equal length Heq). rewrite !length_fmap in Hl. by rewrite Heq, Hl.
Qed.

(** A ballot box decided for the root of the meta tree [t]. *)
Definition decided_for `{Solana} (b : BallotBox) (t : MetaMerkleTree) : Prop :=
  bb_winning_ballot b = Ballot.new (merkle_root t).

(** once the box has decided for the root of a meta tree, the on-chain
    check accepts every node of the tree with the proof stored in it. *)
Theorem verify_merkle_root_accepts `{Solana} b ns t n p :
  MetaMerkleTree_new ns = Ok t -> decided_for b t ->
  n ∈ tree_nodes t -> tn_proof n = Some p ->
  BallotBox.verify_merkle_root b (tip_distribution_account n) p (validator_merkle_root n)
    (max_total_claim n) (max_num_nodes n) = Ok tt.
Proof.
  intros Ht Hb Hn Hp. destruct (MetaMerkleTree_new_root _ _ Ht) as (_ & Hv & _).
  destruct (Hv n Hn) as (q & Hq & Hver). rewrite Hp in Hq. injection Hq as <-.
  unfold BallotBox.verify_merkle_root. rewrite Hb. cbn [meta_merkle_root Ballot.new].
  unfold hash_leaf in Hver. change (TreeNode_hash (TreeNode_new _ _ _ _)) with (TreeNode_hash n).
  by rewrite Hver.
Qed.

(** Byte widths of what a node hashes. *)
Definition node_wf (n : TreeNode) : Prop :=
  length (to_bytes (tip_distribution_account n)) = 32%nat /\ length (validator_merkle_root n) = 32%nat /\
  fits U64 (max_total_claim n) /\ fits U64 (max_num_nodes n).

#[export] Instance node_wf_dec n : Decision (node_wf n).
Proof. unfold node_wf. apply _. Defined.

Lemma TreeNode_hash_inj `{IdealHash} m n :
  node_wf m -> node_wf n -> TreeNode_hash m = TreeNode_hash n ->
  tip_distribution_account m = tip_distribution_account n /\
  validator_merkle_root m = validator_merkle_root n /\
  max_total_claim m = max_total_claim n /\ max_num_nodes m = max_num_nodes n.
Proof.
  intros (Hm1 & Hm2 & Hm3 & Hm4) (Hn1 & Hn2 & Hn3 & Hn4) Heq%hashv_inj.
  unfold concat in Heq. rewrite !app_nil_r in Heq.
  apply app_inj_1 in Heq as [Ha Heq]; [|congruence].
  apply app_inj_1 in Heq as [Hr Heq]; [|congruence].
  apply app_inj_1 in Heq as [Hc Hd]; [|by rewrite !to_le_bytes_length].
  apply to_le_bytes_inj in Hc; [|done|done]. apply to_le_bytes_inj in Hd; [|done|done].
  destruct (tip_distribution_account m), (tip_distribution_account n). simpl in Ha. by subst.
Qed.

Lemma verify_merkle_root_only `{IdealHash} b ns t tda proof root claim num :
  MetaMerkleTree_new ns = Ok t -> decided_for b t ->
  Forall node_wf ns -> node_wf (TreeNode_new tda root claim num) -> Forall len32 proof ->
  BallotBox.verify_merkle_root b tda proof root claim num = Ok tt ->
  exists n, n ∈ ns /\ tip_distribution_account n = tda /\ validator_merkle_root n = root /\
    max_total_claim n = claim /\ max_num_nodes n = num.
Proof.
  intros Ht Hb Hns Hnew Hlen Hok. destruct (MetaMerkleTree_new_root _ _ Ht) as (Hr & _ & Hne).
  unfold BallotBox.verify_merkle_root in Hok. res_inv. bool_prop.
  unfold verify in Hif. apply bool_decide_eq_true in Hif.
  rewrite Hb in Hif. cbn [meta_merkle_root Ballot.new] in Hif. rewrite Hr in Hif.
  set (d := TreeNode_hash (TreeNode_new tda root claim num)) in *.
  assert (Hin : d ∈ TreeNode_hash <$> sort_by_hash ns).
  { apply (proof_sound _ proof); [|done|].
    - intros E%fmap_nil_inv. apply Hne. apply Permutation_nil. by rewrite <- (sort_by_hash_perm ns), E.
    - rewrite length_fmap. exact Hif. }
  apply list_elem_of_fmap in Hin as (n & Hd & Hin). rewrite sort_by_hash_perm in Hin.
  apply TreeNode_hash_inj in Hd; [|done|by apply (Forall_In _ _ _ Hns)].
  exists n. split; [done|]. naive_solver.
Qed.

(** C9: with an ideal hash the on-chain check accepts nothing else: a
    validator root and its claim limits pass only when they are those of a node
    of the decided meta tree. *)
Theorem verify_merkle_root_sound `{IdealHash} b ns t tda proof root claim num :
  MetaMerkleTree_new ns = Ok t -> decided_for b t ->
  Forall node_wf ns -> node_wf (TreeNode_new tda root claim num) -> Forall len32 proof ->
  BallotBox.verify_merkle_root b tda proof root claim num = Ok tt ->
  exists n, n ∈ ns /\ tip_distribution_account n = tda /\ validator_merkle_root n = root /\
    max_total_claim n = claim /\ max_num_nodes n = num.
Proof. apply verify_merkle_root_only. Qed.

(* ------------------------------------------------------------------ *)
(** * A tree of two validators *)

Module MerkleWitness.
Import ConcreteSolana.
Definition n1 : TreeNode := TreeNode_new (key 1) (replicate 32 11) 1000 3.
Definition n2 : TreeNode := TreeNode_new (key 2) (replicate 32 12) 2000 4.
Definition run (r : result MerkleTreeError MetaMerkleTree) : MetaMerkleTree :=
  match r with Ok t => t | Err _ => mkMetaMerkleTree [] 0 [] end.
Definition t : MetaMerkleTree := run (MetaMerkleTree_new [n1; n2]).
Definition t' : MetaMerkleTree := run (MetaMerkleTree_new [n2; n1]).
Definition box : BallotBox :=
  BallotBox.set_winning_ballot (BallotBox.new (key 9) 5 255 100) (Ballot.new (merkle_root t)).
Definition stored (i : nat) : TreeNode := nth i (tree_nodes t) n1.
Definition proof_of (n : TreeNode) : list hash := default [] (tn_proof n).
End MerkleWitness.
Import MerkleWitness.

Lemma meta_merkle_tree_new_witness :
  (exists t, MetaMerkleTree_new (H := ConcreteSolana.solana) [n1; n2] = Ok t /\ num_nodes t = 2) /\
  exists e, MetaMerkleTree_new (H := ConcreteSolana.solana) [n1; n2; n1] = Err e.
Proof.
  destruct (meta_merkle_tree_new (H := ConcreteSolana.solana) [n1; n2]) as (Hok & _ & _); [done|].
  destruct (meta_merkle_tree_new (H := ConcreteSolana.solana) [n1; n2; n1]) as (_ & _ & Hdup); [done|].
  split.
  - destruct Hok as (u & Hu & Hn & _); [done| |exists u; split; [exact Hu|exact Hn]].
    apply (bool_decide_unpack _). vm_compute. exact I.
  - apply Hdup. apply (bool_decide_unpack _). vm_compute. exact I.
Defined.

Lemma meta_root_order_independent_witness : merkle_root t = merkle_root t'.
Proof.
  apply (meta_root_order_independent (H := ConcreteSolana.solana) [n1; n2] [n2; n1]).
  - apply (perm_swap n2 n1 []).
  - vm_compute. reflexivity.
  - vm_compute. reflexivity.
Defined.

Lemma verify_merkle_root_accepts_witness :
  BallotBox.verify_merkle_root (H := ConcreteSolana.solana) box (tip_distribution_account (stored 1))
    (proof_of (stored 1)) (validator_merkle_root (stored 1)) (max_total_claim (stored 1))
    (max_num_nodes (stored 1)) = Ok tt.
Proof.
  apply (verify_merkle_root_accepts (H := ConcreteSolana.solana) box [n1; n2] t (stored 1)).
  - vm_compute. reflexivity.
  - reflexivity.
  - apply (list_elem_of_lookup_2 _ 1). vm_compute. reflexivity.
  - vm_compute. reflexivity.
Defined.

Lemma verify_merkle_root_sound_witness :
  exists n, n ∈ [n1; n2] /\ tip_distribution_account n = key 2 /\
    validator_merkle_root n = replicate 32 12 /\ max_total_claim n = 2000 /\ max_num_nodes n = 4.
Proof.
  apply (verify_merkle_root_sound (H := ConcreteSolana.ideal) box [n1; n2] t (key 2)
    (proof_of (default n1 (snd <$> list_find (fun n => tip_distribution_account n = key 2) (tree_nodes t))))
    (replicate 32 12) 2000 4).
  - vm_compute. reflexivity.
  - reflexivity.
  - apply (bool_decide_unpack _). vm_compute. exact I.
  - apply (bool_decide_unpack _). vm_compute. exact I.
  - unfold len32. apply (bool_decide_unpack _). vm_compute. exact I.
  - vm_compute. reflexivity.
Defined.
