(* ===== verification/VoteHandlers.v ===== *)
(** The instructions of the voting phase: casting a vote
    (program/src/cast_vote.rs), breaking a tie
    (program/src/admin_set_tie_breaker.rs) and uploading a validator's root
    (program/src/set_merkle_root.rs).  The theorems show that the ballot box and
    the epoch state stay in agreement, when a vote is accepted, and that only
    roots of the decided tree are uploaded. *)

From Stdlib Require Import String.
From S2P Require Import Prelude Errors External Constants Accounts FeeGroups Fees Config StakeWeight MerkleTree VaultRegistry WeightTable EpochSnapshot EpochState BallotBox BallotBoxProps BallotBoxTheorems MerkleTreeProps MerkleTheorems.

#[local] Arguments gw : simpl never.
#[local] Arguments ONE : simpl never.

(** [derive_tip_distribution_account_address] of the tip distribution SDK. *)
Definition derive_tip_distribution_account_address `{Solana} (tip_distribution_program_id vote_pubkey : Pubkey)
    (epoch : Z) : Pubkey * Z :=
  find_program_address_ext
    [bytes_of_string "TIP_DISTRIBUTION_ACCOUNT"; to_bytes vote_pubkey; to_le_bytes 8 epoch] tip_distribution_program_id.

Section handlers.
Context `{Solana} `{PreciseNumberOps} `{Programs}.

Definition process_cast_vote (program_id : Pubkey) (clock : Clock) (epoch_state : Acct EpochState)
    (ncn_config : Acct Config) (ballot_box : Acct BallotBox) (ncn : AccountInfo) (epoch_snapshot : Acct EpochSnapshot)
    (operator_snapshot : Acct OperatorSnapshot) (operator operator_admin : AccountInfo)
    (meta_merkle_root : hash) (epoch : Z) : res (Acct EpochState * Acct BallotBox) :=
  _ ← load_signer operator_admin false;
  _ ← EpochState.load program_id (info epoch_state) (acc_key ncn) epoch false;
  _ ← Config.load program_id (info ncn_config) (acc_key ncn) false;
  _ ← ncn_load ncn false;
  _ ← operator_load operator false;
  _ ← BallotBox.load program_id (info ballot_box) (acc_key ncn) epoch true;
  _ ← EpochSnapshot.load program_id (info epoch_snapshot) (acc_key ncn) epoch false;
  _ ← OperatorSnapshot.load program_id (info operator_snapshot) (acc_key operator) (acc_key ncn) epoch false;
  voter ← operator_voter_of operator;
  if negb (bool_decide (acc_key operator_admin = voter)) then Err (Tip InvalidOperatorVoter) else
  let valid_slots_after_consensus := cf_valid_slots_after_consensus (body ncn_config) in
  let box := body ballot_box in
  if negb (EpochSnapshot.finalized (body epoch_snapshot)) then Err (Tip EpochSnapshotNotFinalized) else
  let total_stake_weights := es_stake_weights (body epoch_snapshot) in
  let operator_stake_weights := os_stake_weights (body operator_snapshot) in
  let slot := clock_slot clock in
  let ballot := Ballot.new meta_merkle_root in
  box ← BallotBox.cast_vote box (acc_key operator) ballot operator_stake_weights slot valid_slots_after_consensus;
  box ← BallotBox.tally_votes box (stake_weight total_stake_weights) slot;
  (* the message of a decided box reads the winning tally *)
  _ ← (if BallotBox.is_consensus_reached box
       then _ ← BallotBox.get_winning_ballot_tally box; mret tt else mret tt);
  let state := EpochState.update_cast_vote (body epoch_state) (bb_operators_voted box)
                 (BallotBox.is_consensus_reached box) slot in
  mret (with_body epoch_state state, with_body ballot_box box).

Definition process_admin_set_tie_breaker (program_id : Pubkey) (clock : Clock) (epoch_state : Acct EpochState)
    (ncn_config : Acct Config) (ballot_box : Acct BallotBox) (ncn tie_breaker_admin : AccountInfo)
    (meta_merkle_root : hash) (epoch : Z) : res (Acct EpochState * Acct BallotBox) :=
  _ ← EpochState.load program_id (info epoch_state) (acc_key ncn) epoch true;
  _ ← Config.load program_id (info ncn_config) (acc_key ncn) false;
  _ ← BallotBox.load program_id (info ballot_box) (acc_key ncn) epoch true;
  _ ← ncn_load ncn false;
  _ ← load_signer tie_breaker_admin false;
  if negb (bool_decide (cf_tie_breaker_admin (body ncn_config) = acc_key tie_breaker_admin))
  then Err (Tip TieBreakerAdminInvalid) else
  let current_epoch := clock_epoch clock in
  box ← BallotBox.set_tie_breaker_ballot (body ballot_box) meta_merkle_root current_epoch
          (cf_epochs_before_stall (body ncn_config));
  let slot := clock_slot clock in
  let state := EpochState.update_set_tie_breaker (body epoch_state) (BallotBox.is_consensus_reached box) slot in
  mret (with_body epoch_state state, with_body ballot_box box).

(** The distribution account is that of the epoch before. *)
Definition process_set_merkle_root (program_id : Pubkey) (epoch_state : Acct EpochState) (ncn_config : Acct Config)
    (ncn : AccountInfo) (ballot_box : Acct BallotBox)
    (vote_account tip_distribution_account tip_distribution_config tip_distribution_program : AccountInfo)
    (proof : list hash) (merkle_root : hash) (max_total_claim max_num_nodes epoch : Z)
    : res (Acct EpochState * AccountInfo) :=
  _ ← EpochState.load program_id (info epoch_state) (acc_key ncn) epoch true;
  _ ← Config.load program_id (info ncn_config) (acc_key ncn) true;
  _ ← ncn_load ncn false;
  _ ← BallotBox.load program_id (info ballot_box) (acc_key ncn) epoch false;
  if negb (bool_decide (acc_key tip_distribution_program = tip_distribution_id)) then Err (Prog InvalidAccountData) else
  tip_distribution_epoch ← ok_or (checked_sub epoch 1) (Tip ArithmeticUnderflowError);
  let tip_distribution_address :=
    (derive_tip_distribution_account_address (acc_key tip_distribution_program) (acc_key vote_account)
       tip_distribution_epoch).1 in
  if negb (bool_decide (tip_distribution_address = acc_key tip_distribution_account))
  then Err (Prog InvalidAccountData) else
  let box := body ballot_box in
  if negb (BallotBox.is_consensus_reached box) then Err (Tip ConsensusNotReached) else
  _ ← BallotBox.verify_merkle_root box tip_distribution_address proof merkle_root max_total_claim max_num_nodes;
  let '(_, bump, ncn_config_seeds) := Config.find_program_address program_id (acc_key ncn) in
  tip_distribution_account ← invoke_upload_merkle_root tip_distribution_config (info ncn_config)
    tip_distribution_account merkle_root max_total_claim max_num_nodes (ncn_config_seeds ++ [[bump]]);
  state ← EpochState.update_set_merkle_root (body epoch_state);
  mret (with_body epoch_state state, tip_distribution_account).
End handlers.

(* ------------------------------------------------------------------ *)
(** * Agreement of the ballot box and the epoch state *)

(** What the epoch state says about the vote is what the box says; after a
    tie breaker only the epoch state knows the slot of the decision. *)
Record vote_link (es : EpochState) (b : BallotBox) : Prop := {
  vl_slot : BallotBox.tie_breaker_set b = false -> ep_slot_consensus_reached es = bb_slot_consensus_reached b;
  vl_decided : EpochState.is_consensus_reached es = BallotBox.is_consensus_reached b;
  vl_tie : ep_was_tie_breaker_set es = BallotBox.tie_breaker_set b;
  vl_votes : pg_tally (ep_voting_progress es) = bb_operators_voted b;
}.

Section properties.
Context `{Solana} `{L : PreciseNumberLaws} `{Programs}.

(** The steps of a vote: the two instructions that change the box, and any
    other instruction, which leaves the box and what the epoch state says
    about the vote alone. *)
Inductive vote_step (program_id : Pubkey) :
    Acct EpochState * Acct BallotBox -> Acct EpochState * Acct BallotBox -> Prop :=
| vs_cast_vote clock es config bb ncn snap os operator admin root epoch s' :
    acc_key operator <> Pubkey_default -> sw_wf (os_stake_weights (body os)) ->
    fits U128 (stake_weight (es_stake_weights (body snap))) -> 0 <= clock_slot clock < u64_max ->
    process_cast_vote program_id clock es config bb ncn snap os operator admin root epoch = Ok s' ->
    vote_step program_id (es, bb) s'
| vs_tie_breaker clock es config bb ncn admin root epoch s' :
    0 <= clock_slot clock < u64_max ->
    process_admin_set_tie_breaker program_id clock es config bb ncn admin root epoch = Ok s' ->
    vote_step program_id (es, bb) s'
| vs_other es es' bb :
    ep_slot_consensus_reached (body es') = ep_slot_consensus_reached (body es) ->
    ep_was_tie_breaker_set (body es') = ep_was_tie_breaker_set (body es) ->
    pg_tally (ep_voting_progress (body es')) = pg_tally (ep_voting_progress (body es)) ->
    vote_step program_id (es, bb) (es', bb).

(** What an accepted vote went through. *)
Lemma process_cast_vote_body program_id clock es config bb ncn snap os operator admin root epoch es' bb' :
  process_cast_vote program_id clock es config bb ncn snap os operator admin root epoch = Ok (es', bb') ->
  load_signer admin false = Ok tt /\ operator_voter_of operator = Ok (acc_key admin) /\
  EpochSnapshot.finalized (body snap) = true /\
  exists b1, BallotBox.cast_vote (body bb) (acc_key operator) (Ballot.new root) (os_stake_weights (body os))
      (clock_slot clock) (cf_valid_slots_after_consensus (body config)) = Ok b1 /\
    BallotBox.tally_votes b1 (stake_weight (es_stake_weights (body snap))) (clock_slot clock) = Ok (body bb') /\
    body es' = EpochState.update_cast_vote (body es) (bb_operators_voted (body bb'))
                 (BallotBox.is_consensus_reached (body bb')) (clock_slot clock).
Proof.
  unfold process_cast_vote. intros Hp. res_inv. bool_prop.
  repeat match goal with u : () |- _ => destruct u end. subst. simpl. eauto 8.
Qed.

(** A cast vote leaves the decision alone. *)
Lemma cast_vote_decision b op ballot w slot valid b' :
  bb_inv b -> op <> Pubkey_default -> sw_wf w -> BallotBox.cast_vote b op ballot w slot valid = Ok b' ->
  bb_inv b' /\ BallotBox.is_consensus_reached b' = BallotBox.is_consensus_reached b /\
  BallotBox.tie_breaker_set b' = BallotBox.tie_breaker_set b /\
  bb_slot_consensus_reached b' = bb_slot_consensus_reached b.
Proof.
  intros Hb Hop Hw Hr. destruct (cast_vote_effect _ _ _ _ _ _ _ Hb Hop Hw Hr) as (Hb' & Hwin & Hsl & _).
  unfold BallotBox.is_consensus_reached, BallotBox.tie_breaker_set. by rewrite Hwin, Hsl.
Qed.

Lemma undecided_no_tie b : BallotBox.is_consensus_reached b = false -> BallotBox.tie_breaker_set b = false.
Proof.
  unfold BallotBox.is_consensus_reached, BallotBox.tie_breaker_set. intros [_ ->]%orb_false_iff. apply andb_false_r.
Qed.

(** The epoch state follows the box through a vote and its tally. *)
Lemma cast_vote_link es b b1 b2 W slot :
  vote_link es b -> bb_inv b1 -> BallotBox.is_consensus_reached b1 = BallotBox.is_consensus_reached b ->
  BallotBox.tie_breaker_set b1 = BallotBox.tie_breaker_set b ->
  bb_slot_consensus_reached b1 = bb_slot_consensus_reached b ->
  fits U128 W -> 0 <= slot < u64_max -> BallotBox.tally_votes b1 W slot = Ok b2 ->
  vote_link (EpochState.update_cast_vote es (bb_operators_voted b2) (BallotBox.is_consensus_reached b2) slot) b2.
Proof.
  intros [Hs Hd Ht Hv] Hb Ec Et Es HW Hslot Hr.
  apply tally_votes_cases in Hr as [->|(Hc & w & Hw & ->)]; [| |exact Hb|exact HW];
    unfold EpochState.update_cast_vote; rewrite Hd.
  - rewrite Ec, andb_negb_r. split; cbn; [by rewrite Et, Es|by rewrite Ec|by rewrite Et|done].
  - assert (Hb2 : BallotBox.is_consensus_reached
        (BallotBox.set_winning_ballot (BallotBox.with_slot_consensus_reached b1 slot) w) = true).
    { unfold BallotBox.is_consensus_reached. cbn. rewrite Hw. apply orb_true_r. }
    assert (Hne : (slot =? DEFAULT_CONSENSUS_REACHED_SLOT) = false)
      by (apply Z.eqb_neq; unfold DEFAULT_CONSENSUS_REACHED_SLOT; lia).
    rewrite Hb2, <- Ec, Hc. split; cbn.
    + done.
    + unfold EpochState.is_consensus_reached. cbn. rewrite Hb2. by rewrite Hne.
    + unfold BallotBox.tie_breaker_set. cbn. rewrite Hne. simpl. rewrite Ht. apply undecided_no_tie. congruence.
    + done.
Qed.

Lemma tie_breaker_link es b root epoch stall b' slot :
  vote_link es b -> bb_inv b -> 0 <= slot < u64_max ->
  BallotBox.set_tie_breaker_ballot b root epoch stall = Ok b' ->
  vote_link (EpochState.update_set_tie_breaker es (BallotBox.is_consensus_reached b') slot) b'.
Proof.
  intros [Hs Hd Ht Hv] Hb Hslot (Hc & _ & _ & _ & Hval & ->)%set_tie_breaker_ballot_spec.
  assert (Hdef : bb_slot_consensus_reached b = DEFAULT_CONSENSUS_REACHED_SLOT).
  { unfold BallotBox.is_consensus_reached in Hc. apply orb_false_iff in Hc as [Hc _]. by bool_prop. }
  assert (Hc' : BallotBox.is_consensus_reached (BallotBox.set_winning_ballot b (Ballot.new root)) = true).
  { unfold BallotBox.is_consensus_reached. apply orb_true_iff. right. exact Hval. }
  assert (Ht' : BallotBox.tie_breaker_set (BallotBox.set_winning_ballot b (Ballot.new root)) = true).
  { unfold BallotBox.tie_breaker_set. apply andb_true_iff. split; [by apply Z.eqb_eq|exact Hval]. }
  unfold EpochState.update_set_tie_breaker. rewrite Hc', Hd, Hc. split; cbn.
  - congruence.
  - unfold EpochState.is_consensus_reached. cbn. rewrite Hc'. apply negb_true_iff, Z.eqb_neq.
    unfold DEFAULT_CONSENSUS_REACHED_SLOT. lia.
  - done.
  - done.
Qed.

Definition vote_state_ok (s : Acct EpochState * Acct BallotBox) : Prop :=
  bb_inv (body s.2) /\ vote_link (body s.1) (body s.2).

Lemma vote_step_ok program_id s s' : vote_state_ok s -> vote_step program_id s s' -> vote_state_ok s'.
Proof.
  intros [Hb Hl] Hs. destruct Hs as
    [clock es config bb ncn snap os operator admin root epoch [es' bb'] Hop Hw HW Hslot Hp
    |clock es config bb ncn admin root epoch [es' bb'] Hslot Hp|es es' bb E1 E2 E3]; simpl in *.
  - apply process_cast_vote_body in Hp as (_ & _ & _ & b1 & Hc & Ht & Hes).
    destruct (cast_vote_decision _ _ _ _ _ _ _ Hb Hop Hw Hc) as (Hb1 & Ec & Et & Es).
    destruct (tally_votes_inv _ _ _ _ Hb1 HW Ht) as (Hb2 & _).
    split; [done|]. simpl. rewrite Hes.
    exact (cast_vote_link _ _ _ _ _ _ Hl Hb1 Ec Et Es HW Hslot Ht).
  - unfold process_admin_set_tie_breaker in Hp. res_inv. simpl.
    match goal with Hr : BallotBox.set_tie_breaker_ballot _ _ _ _ = Ok _ |- _ => rename Hr into Hr0 end.
    split; [by destruct (set_tie_breaker_inv _ _ _ _ _ Hb Hr0)|]. simpl.
    exact (tie_breaker_link _ _ _ _ _ _ _ Hl Hb Hslot Hr0).
  - split; [done|]. destruct Hl as [Hs Hd Ht Hv]. simpl in *. split; [by rewrite E1| |by rewrite E2|by rewrite E3].
    unfold EpochState.is_consensus_reached in *. by rewrite E1.
Qed.

(** A new box, and the epoch state its creation leaves, agree. *)
Lemma vote_init_ok es0 b0 ncn epoch bump slot :
  ep_slot_consensus_reached es0 = DEFAULT_CONSENSUS_REACHED_SLOT -> ep_was_tie_breaker_set es0 = false ->
  bb_inv (BallotBox.initialize b0 ncn epoch bump slot) /\
  vote_link (EpochState.update_realloc_ballot_box es0) (BallotBox.initialize b0 ncn epoch bump slot).
Proof.
  intros Hs Ht. split; [apply new_inv|]. split; cbn.
  - done.
  - unfold EpochState.is_consensus_reached. cbn. by rewrite Hs.
  - done.
  - done.
Qed.

(** The account checks of a vote. *)
Definition cast_vote_loads (program_id : Pubkey) (epoch_state : Acct EpochState) (ncn_config : Acct Config)
    (ballot_box : Acct BallotBox) (ncn : AccountInfo) (epoch_snapshot : Acct EpochSnapshot)
    (operator_snapshot : Acct OperatorSnapshot) (operator operator_admin : AccountInfo) (epoch : Z) : Prop :=
  load_signer operator_admin false = Ok tt /\
  EpochState.load program_id (info epoch_state) (acc_key ncn) epoch false = Ok tt /\
  Config.load program_id (info ncn_config) (acc_key ncn) false = Ok tt /\
  ncn_load ncn false = Ok tt /\ operator_load operator false = Ok tt /\
  BallotBox.load program_id (info ballot_box) (acc_key ncn) epoch true = Ok tt /\
  EpochSnapshot.load program_id (info epoch_snapshot) (acc_key ncn) epoch false = Ok tt /\
  OperatorSnapshot.load program_id (info operator_snapshot) (acc_key operator) (acc_key ncn) epoch false = Ok tt.

(** C7: from the creation of the ballot box, through every sequence of votes,
    tie breakers and other instructions, the box keeps its invariant and the
    epoch state agrees with it: on whether and at which slot the vote is
    decided, on a tie breaker, and on the number of operators that voted; in a
    decided box the winning tally that rewards are routed by exists. *)
Theorem vote_handlers_agree program_id es0 b0 ncn epoch bump slot es bb es1 bb1 :
  ep_slot_consensus_reached (body es0) = DEFAULT_CONSENSUS_REACHED_SLOT -> ep_was_tie_breaker_set (body es0) = false ->
  body es1 = EpochState.update_realloc_ballot_box (body es0) -> body bb1 = BallotBox.initialize b0 ncn epoch bump slot ->
  star (vote_step program_id) (es1, bb1) (es, bb) ->
  bb_inv (body bb) /\ vote_link (body es) (body bb) /\
  (EpochState.is_consensus_reached (body es) = true -> is_ok (BallotBox.get_winning_ballot_tally (body bb))).
Proof.
  intros Hs Ht Hes Hbb Hstar.
  assert (Hok : vote_state_ok (es, bb)).
  { eapply (star_invariant (vote_step program_id) vote_state_ok (vote_step_ok program_id) _ _ Hstar).
    unfold vote_state_ok. cbn [fst snd]. rewrite Hes, Hbb. by apply vote_init_ok. }
  destruct Hok as [Hb Hl]. split; [done|]. split; [done|]. cbn [fst snd] in *. rewrite (vl_decided _ _ Hl). intros Hc.
  destruct (winning_tally_exists _ Hb Hc) as (t & j & Hf & _). by exists t.
Qed.

Lemma cast_vote_instruction_iff program_id clock es config bb ncn snap os operator admin root epoch :
  cast_vote_loads program_id es config bb ncn snap os operator admin epoch ->
  operator_voter_of operator = Ok (acc_key admin) -> EpochSnapshot.finalized (body snap) = true ->
  bb_inv (body bb) -> acc_key operator <> Pubkey_default -> sw_wf (os_stake_weights (body os)) ->
  fits U128 (stake_weight (es_stake_weights (body snap))) ->
  (is_ok (process_cast_vote program_id clock es config bb ncn snap os operator admin root epoch) <->
   is_ok (BallotBox.cast_vote (body bb) (acc_key operator) (Ballot.new root) (os_stake_weights (body os))
            (clock_slot clock) (cf_valid_slots_after_consensus (body config))) /\
   (0 < stake_weight (es_stake_weights (body snap)) \/
    bb_slot_consensus_reached (body bb) <> DEFAULT_CONSENSUS_REACHED_SLOT)).
Proof.
  intros (L1 & L2 & L3 & L4 & L5 & L6 & L7 & L8) Hvoter Hfin Hb Hop Hw HW.
  unfold process_cast_vote. rewrite L1, L2, L3, L4, L5, L6, L7, L8, Hvoter. cbn [mbind result_bind].
  rewrite bool_decide_eq_true_2 by done. cbn [negb]. rewrite Hfin. cbn [negb].
  destruct (BallotBox.cast_vote _ _ _ _ _ _) as [b1|e] eqn:Hc; cbn [mbind result_bind];
    [|split; [by intros [? ?]|by intros [[? ?] _]]].
  destruct (cast_vote_decision _ _ _ _ _ _ _ Hb Hop Hw Hc) as (Hb1 & Ec & Et & Es).
  pose proof (tally_votes_ok b1 (stake_weight (es_stake_weights (body snap))) (clock_slot clock) Hb1 HW) as Hiff.
  rewrite Es in Hiff. rewrite <- Hiff.
  destruct (BallotBox.tally_votes _ _ _) as [b2|e] eqn:Hr; cbn [mbind result_bind];
    [|split; [by intros [? ?]|by intros [_ [? ?]]]].
  destruct (tally_votes_inv _ _ _ _ Hb1 HW Hr) as (Hb2 & _).
  split; [intros _; split; by eexists|]. intros _.
  destruct (BallotBox.is_consensus_reached b2) eqn:Hd; [|by eexists].
  destruct (winning_tally_exists b2 Hb2 Hd) as (t & j & Hf & _). rewrite Hf. cbn. by eexists.
Qed.

(** when the accounts pass their checks, the voter of the operator signs
    and the snapshot is final, the instruction accepts exactly the votes the
    ballot box accepts, provided there is stake to decide by (or the vote is
    already decided): tallying and reporting the winner never fail afterwards. *)
Theorem cast_vote_instruction_accepts program_id clock es config bb ncn snap os operator admin root epoch :
  cast_vote_loads program_id es config bb ncn snap os operator admin epoch ->
  operator_voter_of operator = Ok (acc_key admin) -> EpochSnapshot.finalized (body snap) = true ->
  bb_inv (body bb) -> acc_key operator <> Pubkey_default -> sw_wf (os_stake_weights (body os)) ->
  fits U128 (stake_weight (es_stake_weights (body snap))) ->
  (is_ok (process_cast_vote program_id clock es config bb ncn snap os operator admin root epoch) <->
   is_ok (BallotBox.cast_vote (body bb) (acc_key operator) (Ballot.new root) (os_stake_weights (body os))
            (clock_slot clock) (cf_valid_slots_after_consensus (body config))) /\
   (0 < stake_weight (es_stake_weights (body snap)) \/
    bb_slot_consensus_reached (body bb) <> DEFAULT_CONSENSUS_REACHED_SLOT)).
Proof. apply cast_vote_instruction_iff. Qed.
End properties.

(** C17: a root is uploaded only after the decision, to the distribution
    account of the validator for the epoch before, and only with the root and
    the claim limits of that account's node in the decided meta tree. *)
Theorem set_merkle_root_uploads `{IdealHash} `{Programs} program_id es config ncn bb vote tda tdc tdp
    proof root claim num epoch ns t es' tda' :
  MetaMerkleTree_new ns = Ok t -> decided_for (body bb) t ->
  Forall node_wf ns -> node_wf (TreeNode_new (acc_key tda) root claim num) -> Forall len32 proof ->
  process_set_merkle_root program_id es config ncn bb vote tda tdc tdp proof root claim num epoch = Ok (es', tda') ->
  BallotBox.is_consensus_reached (body bb) = true /\ 1 <= epoch /\
  acc_key tda = (derive_tip_distribution_account_address tip_distribution_id (acc_key vote) (epoch - 1)).1 /\
  (exists n, n ∈ ns /\ tip_distribution_account n = acc_key tda /\ validator_merkle_root n = root /\
     max_total_claim n = claim /\ max_num_nodes n = num) /\
  (exists seeds, invoke_upload_merkle_root tdc (info config) tda root claim num seeds = Ok tda') /\
  pg_tally (ep_upload_progress (body es')) = pg_tally (ep_upload_progress (body es)) + 1.
Proof.
  intros Ht Hd Hns Hn Hp Hrun. unfold process_set_merkle_root in Hrun. res_inv. bool_prop.
  repeat match goal with u : () |- _ => destruct u end.
  match goal with Ht : acc_key tdp = tip_distribution_id |- _ => rewrite Ht in * end.
  match goal with Ht : _ = acc_key tda |- _ => rewrite Ht in * end.
  destruct (Config.find_program_address program_id (acc_key ncn)) as [[pda bump] seeds]. res_inv.
  match goal with Hv : BallotBox.verify_merkle_root _ _ _ _ _ _ = Ok _ |- _ =>
    pose proof (verify_merkle_root_only _ _ _ _ _ _ _ _ Ht Hd Hns Hn Hp Hv) as Hnode end.
  match goal with Hu : EpochState.update_set_merkle_root _ = Ok _ |- _ =>
    unfold EpochState.update_set_merkle_root, Progress.increment_one, Progress.increment in Hu end. res_inv.
  split; [done|]. split; [lia|]. split; [done|]. split; [done|]. split; [by eexists|]. done.
Qed.

(* ------------------------------------------------------------------ *)
(** * A vote that decides, and an upload *)

Module VoteWitness.
Import ConcreteSolana ConcretePrograms U256Precise ConfigWitness.

Definition program_account (k : Pubkey) (d : Discriminators) : AccountInfo :=
  mkAccountInfo k pid 1 [discriminator d] false true.
Definition es0 : Acct EpochState :=
  mkAcct (program_account (EpochState.find_program_address pid (key 9) 5).1.1 DEpochState)
    (EpochState.new (key 9) 5 255 100).
Definition es1 : Acct EpochState := with_body es0 (EpochState.update_realloc_ballot_box (body es0)).
Definition bb1 : Acct BallotBox :=
  mkAcct (program_account (BallotBox.find_program_address pid (key 9) 5).1.1 DBallotBox)
    (BallotBox.initialize BallotBoxTheorems.BallotBoxWitness.b0 (key 9) 5 255 100).
Definition stake : StakeWeights := os_stake_weights EpochSnapshotWitness.s3.
Definition snap : Acct EpochSnapshot :=
  mkAcct (program_account (EpochSnapshot.find_program_address pid (key 9) 5).1.1 DEpochSnapshot)
    (mkEpochSnapshot (key 9) 5 255 100 101 (mkFees 0 [] []) 1 2 1 2 stake).
Definition os : Acct OperatorSnapshot :=
  mkAcct (program_account (OperatorSnapshot.find_program_address pid (key 1) (key 9) 5).1.1 DOperatorSnapshot)
    EpochSnapshotWitness.s3.
(** The operator [key 1], whose voter is [key 3]. *)
Definition operator : AccountInfo := mkAccountInfo (key 1) (key 50) 1 (replicate 32 3) false false.
Definition clock : Clock := mkClock 101 5.
Definition root : hash := replicate 32 7.
Definition vote := process_cast_vote pid clock es1 c0 bb1 ncn snap os operator admin root 5.
Definition es2 : Acct EpochState := match vote with Ok s => s.1 | Err _ => es1 end.
Definition bb2 : Acct BallotBox := match vote with Ok s => s.2 | Err _ => bb1 end.

Lemma vote_ok : process_cast_vote pid clock es1 c0 bb1 ncn snap os operator admin root 5 = Ok (es2, bb2).
Proof. vm_compute. reflexivity. Qed.
Lemma stake_wf : sw_wf stake.
Proof. apply (bool_decide_unpack _). vm_compute. exact I. Qed.
Lemma loads_ok : cast_vote_loads pid es1 c0 bb1 ncn snap os operator admin 5.
Proof. repeat split; vm_compute; reflexivity. Qed.

(** A validator's tree for the distribution account of [key 30]. *)
Definition tda : Pubkey := (derive_tip_distribution_account_address tip_distribution_id (key 30) 4).1.
Definition node : TreeNode := TreeNode_new tda (replicate 32 12) 2000 4.
Definition other_node : TreeNode := TreeNode_new (key 1) (replicate 32 11) 1000 3.
Definition tree : MetaMerkleTree := MerkleWitness.run (MetaMerkleTree_new [node; other_node]).
Definition proof : list hash :=
  default [] (n ← snd <$> list_find (fun n => tip_distribution_account n = tda) (tree_nodes tree); tn_proof n).
Definition bb3 : Acct BallotBox :=
  with_body bb1 (BallotBox.set_winning_ballot (body bb1) (Ballot.new (merkle_root tree))).
Definition upload := process_set_merkle_root pid es1 c0 ncn bb3 (system_account (key 30) 1) (system_account tda 1)
  (system_account (key 31) 1) (system_account tip_distribution_id 1) proof (replicate 32 12) 2000 4 5.
Definition uploaded : Acct EpochState * AccountInfo :=
  match upload with Ok s => s | Err _ => (es0, ncn) end.
Lemma upload_ok :
  process_set_merkle_root pid es1 c0 ncn bb3 (system_account (key 30) 1) (system_account tda 1)
    (system_account (key 31) 1) (system_account tip_distribution_id 1) proof (replicate 32 12) 2000 4 5
  = Ok (uploaded.1, uploaded.2).
Proof. vm_compute. reflexivity. Qed.
End VoteWitness.
Import VoteWitness ConfigWitness ConcreteSolana ConcretePrograms.

Lemma vote_handlers_agree_witness :
  bb_inv (body bb2) /\ ep_slot_consensus_reached (body es2) = 101.
Proof.
  split; [|vm_compute; reflexivity].
  apply (vote_handlers_agree (L := U256Precise.laws) pid es0 BallotBoxTheorems.BallotBoxWitness.b0 (key 9) 5 255 100
    es2 bb2 es1 bb1); [reflexivity|reflexivity|reflexivity|reflexivity|].
  eapply star_step; [|apply star_refl].
  apply (vs_cast_vote pid clock es1 c0 bb1 ncn snap os operator admin root 5 (es2, bb2)).
  - done.
  - exact stake_wf.
  - by split; vm_compute.
  - by split; vm_compute.
  - exact vote_ok.
Defined.

Lemma cast_vote_instruction_accepts_witness :
  is_ok (process_cast_vote (H0 := U256Precise.ops) pid clock es1 c0 bb1 ncn snap os operator admin root 5).
Proof.
  apply (cast_vote_instruction_accepts (L := U256Precise.laws) pid clock es1 c0 bb1 ncn snap os operator admin root 5).
  - exact loads_ok.
  - vm_compute. reflexivity.
  - vm_compute. reflexivity.
  - apply new_inv.
  - done.
  - exact stake_wf.
  - by split; vm_compute.
  - split; [eexists; vm_compute; reflexivity|left; vm_compute; reflexivity].
Defined.

Lemma set_merkle_root_uploads_witness : pg_tally (ep_upload_progress (body uploaded.1)) = 1.
Proof.
  destruct (set_merkle_root_uploads (H := ConcreteSolana.ideal) pid es1 c0 ncn bb3 (system_account (key 30) 1)
    (system_account tda 1) (system_account (key 31) 1) (system_account tip_distribution_id 1) proof
    (replicate 32 12) 2000 4 5 [node; other_node] tree uploaded.1 uploaded.2) as (_ & _ & _ & _ & _ & Hp).
  - vm_compute. reflexivity.
  - reflexivity.
  - apply (bool_decide_unpack _). vm_compute. exact I.
  - apply (bool_decide_unpack _). vm_compute. exact I.
  - unfold len32. apply (bool_decide_unpack _). vm_compute. exact I.
  - exact upload_ok.
  - rewrite Hp. vm_compute. reflexivity.
Defined.
