(* ===== verification/Ledger.v ===== *)
(** What a reward account promises, whoever its rewards are for: an abstract
    ledger of an account that collects lamports, owes them to recipients and
    pays them out.  Both reward routers implement it ([RewardSide]); the
    theorems about the ledger hold for both. *)

From S2P Require Import Prelude.

(** [lg_owed]: collected and not yet paid out; [lg_total]: ever collected;
    [lg_paid]: ever paid out; [lg_balance]: the lamports of the account. *)
Record Ledger := mkLedger { lg_owed : Z; lg_total : Z; lg_paid : Z; lg_balance : Z }.

(** What may happen to an account that keeps [rent] lamports. *)
Inductive ledger_step (rent : Z) (l : Ledger) : Ledger -> Prop :=
| lg_collect :
    rent + lg_owed l <= lg_balance l ->
    ledger_step rent l (mkLedger (lg_balance l - rent) (lg_total l + (lg_balance l - rent - lg_owed l))
                          (lg_paid l) (lg_balance l))
| lg_work : ledger_step rent l l
| lg_pay r :
    0 <= r <= lg_owed l ->
    ledger_step rent l (mkLedger (lg_owed l - r) (lg_total l) (lg_paid l + r) (lg_balance l - r))
| lg_receive n :
    0 <= n -> ledger_step rent l (mkLedger (lg_owed l) (lg_total l) (lg_paid l) (lg_balance l + n)).

(** Everything collected is paid or owed, and what is owed is there, beyond
    the rent. *)
Definition solvent (rent : Z) (l : Ledger) : Prop :=
  0 <= lg_owed l /\ lg_paid l + lg_owed l = lg_total l /\ rent + lg_owed l <= lg_balance l.

Lemma ledger_step_solvent rent l l' : solvent rent l -> ledger_step rent l l' -> solvent rent l'.
Proof. intros (H1 & H2 & H3) []; unfold solvent; cbn; lia. Qed.

(** Totals never shrink. *)
Lemma ledger_step_grows rent l l' :
  solvent rent l -> ledger_step rent l l' -> lg_total l <= lg_total l' /\ lg_paid l <= lg_paid l'.
Proof. intros (H1 & H2 & H3) []; cbn; lia. Qed.

(** A component whose states and steps implement the ledger: each of its steps
    is a step of the ledger, and keeps its invariant. *)
Class RewardSide (St : Type) := {
  side_rent : Z;
  side_inv : St -> Prop;
  side_step : St -> St -> Prop;
  ledger_of : St -> Ledger;
  side_refines s s' : side_inv s -> side_step s s' ->
    side_inv s' /\ ledger_step side_rent (ledger_of s) (ledger_of s');
}.

Section side.
Context `{RewardSide St}.

Lemma side_star_refines s s' :
  side_inv s -> star side_step s s' ->
  side_inv s' /\ star (ledger_step side_rent) (ledger_of s) (ledger_of s').
Proof.
  intros Hi Hs. revert Hi. induction Hs as [s|s s1 s2 H1 H2 IH]; intros Hi; [split; [done|apply star_refl]|].
  destruct (side_refines _ _ Hi H1) as [Hi1 Hl]. destruct (IH Hi1) as [Hi2 Hs]. split; [done|].
  eapply star_step; eauto.
Qed.

Lemma side_star_solvent s s' :
  side_inv s -> solvent side_rent (ledger_of s) -> star side_step s s' ->
  side_inv s' /\ solvent side_rent (ledger_of s') /\
  lg_total (ledger_of s) <= lg_total (ledger_of s') /\ lg_paid (ledger_of s) <= lg_paid (ledger_of s').
Proof.
  intros Hi Hl Hs. destruct (side_star_refines s s' Hi Hs) as [Hi' Hls]. split; [done|]. clear Hs Hi Hi'.
  induction Hls as [l|l l1 l2 H1 H2 IH]; [split; [done|lia]|].
  destruct (ledger_step_grows _ _ _ Hl H1). destruct IH as (? & ? & ?); [by eapply ledger_step_solvent|].
  split; [done|lia].
Qed.
End side.
