(* ===== verification/RewardHandlers.v ===== *)
(** The instructions that route and distribute rewards
    (program/src/route_base_rewards.rs, distribute_base_rewards.rs,
    distribute_base_ncn_reward_route.rs, route_ncn_rewards.rs,
    distribute_ncn_operator_rewards.rs, distribute_ncn_vault_rewards.rs). *)

From Stdlib Require Import String.
From S2P Require Import Prelude Errors External Constants Accounts FeeGroups Fees Config StakeWeight VaultRegistry WeightTable EpochSnapshot EpochState BallotBox BaseRewardRouter NcnRewardRouter.

Section handlers.
Context `{Solana} `{PreciseNumberOps} `{Programs}.

Definition process_route_base_rewards (program_id : Pubkey) (clock : Clock) (epoch_state : Acct EpochState)
    (config : Acct Config) (ncn : AccountInfo) (epoch_snapshot : Acct EpochSnapshot) (ballot_box : Acct BallotBox)
    (base_reward_router : Acct BaseRewardRouter) (base_reward_receiver : AccountInfo) (max_iterations epoch : Z)
    : res (Acct EpochState * Acct BaseRewardRouter) :=
  _ ← EpochState.load program_id (info epoch_state) (acc_key ncn) epoch true;
  _ ← Config.load program_id (info config) (acc_key ncn) false;
  _ ← ncn_load ncn false;
  _ ← EpochSnapshot.load program_id (info epoch_snapshot) (acc_key ncn) epoch false;
  _ ← BaseRewardRouter.load program_id (info base_reward_router) (acc_key ncn) epoch true;
  _ ← BallotBox.load program_id (info ballot_box) (acc_key ncn) epoch false;
  _ ← BaseRewardReceiver.load program_id base_reward_receiver (acc_key ncn) epoch true;
  let current_slot := clock_slot clock in
  voting ← BallotBox.is_voting_valid (body ballot_box) current_slot (cf_valid_slots_after_consensus (body config));
  if voting : bool then Err (Tip VotingIsNotOver) else
  let base_reward_receiver_balance := acc_lamports base_reward_receiver in
  let router := body base_reward_router in
  let rent_cost := minimum_balance 0 in
  router ← (if negb (BaseRewardRouter.still_routing router) then
              router ← BaseRewardRouter.route_incoming_rewards router rent_cost base_reward_receiver_balance;
              BaseRewardRouter.route_reward_pool router (es_fees (body epoch_snapshot))
            else Ok router);
  router ← BaseRewardRouter.route_ncn_fee_group_rewards router (body ballot_box) max_iterations;
  let state := EpochState.update_route_base_rewards (body epoch_state) (br_total_rewards router) in
  mret (with_body epoch_state state, with_body base_reward_router router).

(** [stake_accounts]: the stake pool program, pool, withdraw authority, reserve
    stake, manager fee, referrer, pool mint, token program and system program
    accounts, which are only passed on. *)
Definition process_distribute_base_rewards (program_id : Pubkey) (epoch_state : Acct EpochState)
    (ncn_config : Acct Config) (ncn : AccountInfo) (base_reward_router : Acct BaseRewardRouter)
    (base_reward_receiver base_fee_wallet base_fee_wallet_ata stake_pool_program : AccountInfo)
    (stake_accounts : list AccountInfo) (base_fee_group epoch : Z)
    : res (Acct EpochState * Acct BaseRewardRouter * AccountInfo * AccountInfo) :=
  _ ← EpochState.load program_id (info epoch_state) (acc_key ncn) epoch true;
  _ ← ncn_load ncn false;
  _ ← Config.load program_id (info ncn_config) (acc_key ncn) false;
  _ ← BaseRewardRouter.load program_id (info base_reward_router) (acc_key ncn) epoch true;
  _ ← BaseRewardReceiver.load program_id base_reward_receiver (acc_key ncn) epoch true;
  _ ← load_associated_token_account base_fee_wallet_ata (acc_key base_fee_wallet) JITOSOL_MINT;
  if negb (bool_decide (acc_key stake_pool_program = spl_stake_pool_id)) then Err (Prog InvalidAccountData) else
  group ← BaseFeeGroup.try_from base_fee_group;
  fee_wallet ← FeeConfig.base_fee_wallet (cf_fee_config (body ncn_config)) group;
  if negb (bool_decide (fee_wallet = acc_key base_fee_wallet)) then Err (Prog InvalidAccountData) else
  if BaseRewardRouter.still_routing (body base_reward_router) then Err (Tip RouterStillRouting) else
  '(router, rewards) ← BaseRewardRouter.distribute_base_fee_group_rewards (body base_reward_router) group;
  '(base_reward_receiver, base_fee_wallet_ata) ←
    (if 0 <? rewards then
       let '(_, bump, seeds) := BaseRewardReceiver.find_program_address program_id (acc_key ncn) epoch in
       invoke_deposit_sol stake_accounts base_reward_receiver base_fee_wallet_ata rewards (seeds ++ [[bump]])
     else Ok (base_reward_receiver, base_fee_wallet_ata));
  state ← EpochState.update_distribute_base_rewards (body epoch_state) rewards;
  mret (with_body epoch_state state, with_body base_reward_router router, base_reward_receiver, base_fee_wallet_ata).

Definition process_distribute_base_ncn_reward_route (program_id : Pubkey) (epoch_state : Acct EpochState)
    (ncn_config : Acct Config) (ncn operator : AccountInfo) (base_reward_router : Acct BaseRewardRouter)
    (base_reward_receiver : AccountInfo) (ncn_reward_router : Acct NcnRewardRouter)
    (ncn_reward_receiver system_program : AccountInfo) (ncn_fee_group epoch : Z)
    : res (Acct EpochState * Acct BaseRewardRouter * AccountInfo * AccountInfo) :=
  _ ← EpochState.load program_id (info epoch_state) (acc_key ncn) epoch true;
  _ ← ncn_load ncn false;
  _ ← operator_load operator false;
  ncn_fee_group ← NcnFeeGroup.try_from ncn_fee_group;
  _ ← Config.load program_id (info ncn_config) (acc_key ncn) false;
  _ ← BaseRewardRouter.load program_id (info base_reward_router) (acc_key ncn) epoch true;
  _ ← NcnRewardRouter.load program_id (info ncn_reward_router) ncn_fee_group (acc_key operator) (acc_key ncn) epoch false;
  _ ← BaseRewardReceiver.load program_id base_reward_receiver (acc_key ncn) epoch true;
  _ ← NcnRewardReceiver.load program_id ncn_reward_receiver ncn_fee_group (acc_key operator) (acc_key ncn) epoch false;
  _ ← load_system_program system_program;
  if BaseRewardRouter.still_routing (body base_reward_router) then Err (Tip RouterStillRouting) else
  '(router, rewards) ← BaseRewardRouter.distribute_ncn_fee_group_reward_route (body base_reward_router)
                         ncn_fee_group (acc_key operator);
  '(base_reward_receiver, ncn_reward_receiver) ←
    (if 0 <? rewards then
       let '(_, bump, seeds) := BaseRewardReceiver.find_program_address program_id (acc_key ncn) epoch in
       invoke_transfer base_reward_receiver ncn_reward_receiver rewards (seeds ++ [[bump]])
     else Ok (base_reward_receiver, ncn_reward_receiver));
  state ← EpochState.update_distribute_base_ncn_rewards (body epoch_state) rewards;
  mret (with_body epoch_state state, with_body base_reward_router router, base_reward_receiver, ncn_reward_receiver).

(** [MAX_BPS] is the restaking program's constant. *)
Definition process_route_ncn_rewards (MAX_BPS : Z) (program_id : Pubkey) (epoch_state : Acct EpochState)
    (ncn operator : AccountInfo) (operator_snapshot : Acct OperatorSnapshot)
    (ncn_reward_router : Acct NcnRewardRouter) (ncn_reward_receiver : AccountInfo)
    (ncn_fee_group max_iterations epoch : Z) : res (Acct EpochState * Acct NcnRewardRouter) :=
  _ ← EpochState.load program_id (info epoch_state) (acc_key ncn) epoch true;
  _ ← ncn_load ncn false;
  _ ← operator_load operator false;
  receiver_group ← NcnFeeGroup.try_from ncn_fee_group;
  _ ← NcnRewardReceiver.load program_id ncn_reward_receiver receiver_group (acc_key operator) (acc_key ncn) epoch true;
  ncn_fee_group ← NcnFeeGroup.try_from ncn_fee_group;
  _ ← OperatorSnapshot.load program_id (info operator_snapshot) (acc_key operator) (acc_key ncn) epoch false;
  _ ← NcnRewardRouter.load program_id (info ncn_reward_router) ncn_fee_group (acc_key operator) (acc_key ncn) epoch true;
  let snapshot := body operator_snapshot in
  let account_balance := acc_lamports ncn_reward_receiver in
  let router := body ncn_reward_router in
  let rent_cost := minimum_balance 0 in
  router ← (if negb (NcnRewardRouter.still_routing router) then
              router ← NcnRewardRouter.route_incoming_rewards router rent_cost account_balance;
              NcnRewardRouter.route_operator_rewards MAX_BPS router snapshot
            else Ok router);
  router ← NcnRewardRouter.route_reward_pool router snapshot max_iterations;
  state ← EpochState.update_route_ncn_rewards (body epoch_state) (Z.to_nat (os_ncn_operator_index snapshot))
            ncn_fee_group (nr_total_rewards router);
  mret (with_body epoch_state state, with_body ncn_reward_router router).

(** The payment of [rewards] from the NCN reward receiver and its record in the
    epoch state, shared by the two distributions. *)
Definition pay_ncn_rewards (program_id : Pubkey) (epoch_state : Acct EpochState) (ncn operator : AccountInfo)
    (operator_snapshot : Acct OperatorSnapshot) (ncn_reward_receiver ata : AccountInfo)
    (stake_accounts : list AccountInfo) (ncn_fee_group : NcnFeeGroup) (epoch rewards : Z)
    : res (Acct EpochState * AccountInfo * AccountInfo) :=
  '(ncn_reward_receiver, ata) ←
    (if 0 <? rewards then
       let '(_, bump, seeds) :=
         NcnRewardReceiver.find_program_address program_id ncn_fee_group (acc_key operator) (acc_key ncn) epoch in
       invoke_deposit_sol stake_accounts ncn_reward_receiver ata rewards (seeds ++ [[bump]])
     else Ok (ncn_reward_receiver, ata));
  state ← EpochState.update_distribute_ncn_rewards (body epoch_state)
            (Z.to_nat (os_ncn_operator_index (body operator_snapshot))) ncn_fee_group rewards;
  mret (with_body epoch_state state, ncn_reward_receiver, ata).

Definition process_distribute_ncn_operator_rewards (program_id : Pubkey) (epoch_state : Acct EpochState)
    (ncn_config : Acct Config) (ncn operator operator_ata : AccountInfo) (operator_snapshot : Acct OperatorSnapshot)
    (ncn_reward_router : Acct NcnRewardRouter) (ncn_reward_receiver stake_pool_program : AccountInfo)
    (stake_accounts : list AccountInfo) (ncn_fee_group epoch : Z)
    : res (Acct EpochState * Acct NcnRewardRouter * AccountInfo * AccountInfo) :=
  _ ← EpochState.load program_id (info epoch_state) (acc_key ncn) epoch true;
  _ ← ncn_load ncn false;
  _ ← operator_load operator true;
  _ ← OperatorSnapshot.load program_id (info operator_snapshot) (acc_key operator) (acc_key ncn) epoch true;
  ncn_fee_group ← NcnFeeGroup.try_from ncn_fee_group;
  _ ← Config.load program_id (info ncn_config) (acc_key ncn) false;
  _ ← NcnRewardRouter.load program_id (info ncn_reward_router) ncn_fee_group (acc_key operator) (acc_key ncn) epoch true;
  _ ← NcnRewardReceiver.load program_id ncn_reward_receiver ncn_fee_group (acc_key operator) (acc_key ncn) epoch true;
  _ ← load_associated_token_account operator_ata (acc_key operator) JITOSOL_MINT;
  if negb (bool_decide (acc_key stake_pool_program = spl_stake_pool_id)) then Err (Prog InvalidAccountData) else
  if NcnRewardRouter.still_routing (body ncn_reward_router) then Err (Tip RouterStillRouting) else
  '(router, rewards) ← NcnRewardRouter.distribute_operator_rewards (body ncn_reward_router);
  '(epoch_state, ncn_reward_receiver, operator_ata) ←
    pay_ncn_rewards program_id epoch_state ncn operator operator_snapshot ncn_reward_receiver operator_ata
      stake_accounts ncn_fee_group epoch rewards;
  mret (epoch_state, with_body ncn_reward_router router, ncn_reward_receiver, operator_ata).

Definition process_distribute_ncn_vault_rewards (program_id : Pubkey) (epoch_state : Acct EpochState)
    (ncn_config : Acct Config) (ncn operator vault vault_ata : AccountInfo) (operator_snapshot : Acct OperatorSnapshot)
    (ncn_reward_router : Acct NcnRewardRouter) (ncn_reward_receiver stake_pool_program : AccountInfo)
    (stake_accounts : list AccountInfo) (ncn_fee_group epoch : Z)
    : res (Acct EpochState * Acct NcnRewardRouter * AccountInfo * AccountInfo) :=
  _ ← EpochState.load program_id (info epoch_state) (acc_key ncn) epoch true;
  _ ← ncn_load ncn false;
  _ ← operator_load operator false;
  _ ← vault_load vault false;
  _ ← OperatorSnapshot.load program_id (info operator_snapshot) (acc_key operator) (acc_key ncn) epoch false;
  ncn_fee_group ← NcnFeeGroup.try_from ncn_fee_group;
  _ ← Config.load program_id (info ncn_config) (acc_key ncn) false;
  _ ← NcnRewardRouter.load program_id (info ncn_reward_router) ncn_fee_group (acc_key operator) (acc_key ncn) epoch true;
  _ ← NcnRewardReceiver.load program_id ncn_reward_receiver ncn_fee_group (acc_key operator) (acc_key ncn) epoch true;
  _ ← load_associated_token_account vault_ata (acc_key vault) JITOSOL_MINT;
  if negb (bool_decide (acc_key stake_pool_program = spl_stake_pool_id)) then Err (Prog InvalidAccountData) else
  if NcnRewardRouter.still_routing (body ncn_reward_router) then Err (Tip RouterStillRouting) else
  '(router, rewards) ← NcnRewardRouter.distribute_vault_reward_route (body ncn_reward_router) (acc_key vault);
  '(epoch_state, ncn_reward_receiver, vault_ata) ←
    pay_ncn_rewards program_id epoch_state ncn operator operator_snapshot ncn_reward_receiver vault_ata
      stake_accounts ncn_fee_group epoch rewards;
  mret (epoch_state, with_body ncn_reward_router router, ncn_reward_receiver, vault_ata).
End handlers.
