(* ===== verification/BaseSide.v ===== *)
(** The base reward side of an epoch: the receiver's lamports, the router and
    the epoch state under the instructions that route and distribute base
    rewards.  It implements the ledger. *)

From Stdlib Require Import String.
From S2P Require Import Prelude Errors External Constants Accounts FeeGroups Fees Config StakeWeight EpochSnapshot EpochState BallotBox BallotBoxProps BallotBoxTheorems BaseRewardRouter BaseRewardRouterProps BaseRouting BaseRewardTheorems NcnRewardRouter Ledger RewardHandlers VoteHandlers.

#[local] Arguments gw : simpl never.
#[local] Arguments replicate : simpl never.

(* ------------------------------------------------------------------ *)
(** * Routing leaves the totals alone *)

Section totals.
Context `{PreciseNumberOps}.

Definition totals (s : BaseRewardRouter) : Z * Z * Z :=
  (br_total_rewards s, br_reward_pool s, br_rewards_processed s).

Lemma route_from_ncn_totals s g r s' :
  BaseRewardRouter.route_from_ncn_fee_group_rewards s g r = Ok s' -> totals s' = totals s.
Proof. unfold BaseRewardRouter.route_from_ncn_fee_group_rewards. intros Hr. destruct (r =? 0); by res_inv. Qed.

Lemma route_to_base_totals s g r s' :
  BaseRewardRouter.route_to_base_fee_group_rewards s g r = Ok s' -> totals s' = totals s.
Proof. unfold BaseRewardRouter.route_to_base_fee_group_rewards. intros Hr. destruct (r =? 0); by res_inv. Qed.

Lemma route_to_route_totals s g op r s' :
  BaseRewardRouter.route_to_ncn_fee_group_reward_route s g op r = Ok s' -> totals s' = totals s.
Proof.
  unfold BaseRewardRouter.route_to_ncn_fee_group_reward_route. intros Hr. destruct (r =? 0); [by res_inv|].
  destruct (BaseRewardRouter.find_route s op) as [[? ?]|]; [by res_inv|].
  destruct (BaseRewardRouter.find_route s Pubkey_default) as [[? ?]|]; by res_inv.
Qed.

Lemma route_vote_totals W g R s v s' : BaseRewardRouter.route_vote W g R s v = Ok s' -> totals s' = totals s.
Proof.
  unfold BaseRewardRouter.route_vote. intros Hr. res_inv.
  etransitivity; [by eapply route_to_route_totals|by eapply route_from_ncn_totals].
Qed.

Lemma route_votes_totals tally M k g R vs s it i f :
  BaseRewardRouter.route_votes tally M k g R s it i vs = Ok f -> totals (flow_state f) = totals s.
Proof.
  revert s it i. induction vs as [|v vs IH]; intros s it i Hr; cbn [BaseRewardRouter.route_votes] in Hr; [by res_inv|].
  destruct (_ =? _); [|by eapply IH]. apply bind_Ok in Hr as (it' & _ & Hr).
  destruct (_ <? _); [by res_inv|]. apply bind_Ok in Hr as (s1 & H1 & Hr).
  rewrite (IH _ _ _ Hr). by eapply route_vote_totals.
Qed.

Lemma route_groups_totals box tally M ks s it i R s' :
  BaseRewardRouter.route_groups box tally M s it i R ks = Ok s' -> totals s' = totals s.
Proof.
  revert s it i R. induction ks as [|k ks IH]; intros s it i R Hr; cbn [BaseRewardRouter.route_groups] in Hr; [by res_inv|].
  apply bind_Ok in Hr as (g & _ & Hr). apply bind_Ok in Hr as (R' & _ & Hr).
  destruct (R' =? 0); [by eapply IH|]. apply bind_Ok in Hr as (f & Hf & Hr).
  apply route_votes_totals in Hf. destruct f as [s1 it1|s1]; cbn [flow_state] in Hf; [|by res_inv].
  apply bind_Ok in Hr as (s2 & H2 & Hr). rewrite (IH _ _ _ _ Hr).
  unfold BaseRewardRouter.route_leftover in H2. res_inv.
  etransitivity; [by eapply route_to_base_totals|]. etransitivity; [by eapply route_from_ncn_totals|done].
Qed.

Lemma route_ncn_totals s box m s' :
  BaseRewardRouter.route_ncn_fee_group_rewards s box m = Ok s' -> totals s' = totals s.
Proof.
  unfold BaseRewardRouter.route_ncn_fee_group_rewards. intros Hr. apply bind_Ok in Hr as (t & _ & Hr).
  destruct (BaseRewardRouter.resume_routing_state s) as [[? ?] ?]. by eapply route_groups_totals.
Qed.
End totals.

(* ------------------------------------------------------------------ *)
(** * The state and its steps *)

Record BaseSide := mkBaseSide {
  bs_state : Acct EpochState;
  bs_router : Acct BaseRewardRouter;
  bs_receiver : AccountInfo;
}.

Definition base_progress (s : BaseSide) : Progress := ep_base_distribution_progress (body (bs_state s)).

Definition base_ledger (s : BaseSide) : Ledger :=
  let r := body (bs_router s) in
  mkLedger (br_reward_pool r + br_rewards_processed r) (br_total_rewards r) (pg_tally (base_progress s))
    (acc_lamports (bs_receiver s)).

Section side.
Context {S : Solana} {O : PreciseNumberOps} {P : Programs}.

(** What may happen to the side of an epoch whose vote is decided as in
    [b]: the three instructions, with any accounts, lamports arriving at the
    receiver, and other instructions. *)
Inductive base_step (program_id : Pubkey) (b : BallotBox) (s : BaseSide) : BaseSide -> Prop :=
| bs_route clock config ncn snap bb m epoch es br :
    fees_wf (es_fees (body snap)) -> body bb = b ->
    process_route_base_rewards program_id clock (bs_state s) config ncn snap bb (bs_router s) (bs_receiver s) m epoch
      = Ok (es, br) ->
    base_step program_id b s (mkBaseSide es br (bs_receiver s))
| bs_distribute config ncn wallet ata pool others g epoch es br receiver ata' :
    process_distribute_base_rewards program_id (bs_state s) config ncn (bs_router s) (bs_receiver s) wallet ata pool
      others g epoch = Ok (es, br, receiver, ata') ->
    base_step program_id b s (mkBaseSide es br receiver)
| bs_distribute_ncn config ncn operator nr to system g epoch es br receiver to' :
    acc_key operator <> Pubkey_default -> acc_key (bs_receiver s) <> acc_key to ->
    process_distribute_base_ncn_reward_route program_id (bs_state s) config ncn operator (bs_router s) (bs_receiver s)
      nr to system g epoch = Ok (es, br, receiver, to') ->
    base_step program_id b s (mkBaseSide es br receiver)
| bs_tips n :
    0 <= n ->
    base_step program_id b s (mkBaseSide (bs_state s) (bs_router s)
      (with_lamports (bs_receiver s) (acc_lamports (bs_receiver s) + n)))
| bs_other es :
    ep_base_distribution_progress (body es) = base_progress s ->
    base_step program_id b s (mkBaseSide es (bs_router s) (bs_receiver s)).

(** Lamports in the tallies are those of the ledger. *)
Record base_side_ok (b : BallotBox) (s : BaseSide) : Prop := {
  bo_router : br_inv (voters b) (body (bs_router s));
  bo_saved : saved_ok (body (bs_router s));
  bo_total : pg_total (base_progress s) = br_total_rewards (body (bs_router s));
}.
End side.

(* ------------------------------------------------------------------ *)
(** * Each instruction is a step of the ledger *)

Section refinement.
Context {S : Solana} {TL : TransferLaws S} `{L : PreciseNumberLaws} {P : Programs} {DL : DepositLaws P}.
Context (program_id : Pubkey) (b : BallotBox) (t : BallotTally).
Context (Hrent : 0 <= minimum_balance 0) (Hb : bb_inv b) (Ht : BallotBox.get_winning_ballot_tally b = Ok t).

Abbreviation rent := (minimum_balance 0).
Abbreviation step_ok s s' :=
  (base_side_ok b s' /\ ledger_step rent (base_ledger s) (base_ledger s')).

Lemma base_group_small z g : BaseFeeGroup.try_from z = Ok g ->
  exists i, (i < 8)%nat /\ g = BaseFeeGroup.mk (Z.of_nat i).
Proof.
  intros Hg. exists (Z.to_nat z). byte_cases z Hg; injection Hg as <-; split; solve [cbn; lia | reflexivity].
Qed.

Lemma ncn_group_small z g : NcnFeeGroup.try_from z = Ok g ->
  exists i, (i < 8)%nat /\ g = NcnFeeGroup.mk (Z.of_nat i).
Proof.
  intros Hg. exists (Z.to_nat z). byte_cases z Hg; injection Hg as <-; split; solve [cbn; lia | reflexivity].
Qed.

(** A call of the router's loop. *)
Lemma route_ncn_ok s m s' :
  br_inv (voters b) s -> saved_ok s -> BaseRewardRouter.route_ncn_fee_group_rewards s b m = Ok s' ->
  br_inv (voters b) s' /\ saved_ok s' /\ totals s' = totals s.
Proof.
  intros Hs Hsv Hr. destruct (winning_tally_facts b t Hb Ht) as (HW & _ & _).
  destruct (route_ncn_inv (voters b) b t ltac:(rewrite voters_length by done; lia) HW) with (s := s) (m := m) (s' := s')
    as [H1 H2]; try done.
  - intros v k Hv Hi Hk. by apply (winning_votes_ok b t).
  - split; [done|]. split; [done|]. by eapply route_ncn_totals.
Qed.

Lemma route_step_ok s clock config ncn snap bb m epoch es br :
  base_side_ok b s -> fees_wf (es_fees (body snap)) -> body bb = b ->
  process_route_base_rewards program_id clock (bs_state s) config ncn snap bb (bs_router s) (bs_receiver s) m epoch
    = Ok (es, br) ->
  step_ok s (mkBaseSide es br (bs_receiver s)).
Proof.
  intros [Hr Hsv Hto] Hf Hbb Hp. unfold process_route_base_rewards in Hp. rewrite Hbb in Hp. clear Hbb. res_inv.
  set (r := body (bs_router s)) in *.
  match goal with Ha : BaseRewardRouter.route_ncn_fee_group_rewards ?x _ _ = Ok ?y,
                  Hc : (if negb _ then _ else _) = Ok ?x |- _ =>
    rename x into r1, y into r2, Ha into Hn, Hc into Hi end.
  assert (Hmid : br_inv (voters b) r1 /\ saved_ok r1 /\
    ledger_step rent (base_ledger s)
      (mkLedger (br_reward_pool r1 + br_rewards_processed r1) (br_total_rewards r1) (pg_tally (base_progress s))
         (acc_lamports (bs_receiver s)))).
  { unfold base_ledger. fold r. destruct (BaseRewardRouter.still_routing r) eqn:Hst; cbn [negb] in Hi; res_inv.
    - split; [done|]. split; [done|]. apply lg_work.
    - match goal with Ha : BaseRewardRouter.route_incoming_rewards _ _ _ = Ok ?x |- _ => rename x into r0, Ha into Hi1 end.
      pose proof Hi1 as Hi0. unfold BaseRewardRouter.route_incoming_rewards, BaseRewardRouter.total_rewards_in_transit in Hi0.
      destruct (route_incoming_spec _ r rent _ r0 Hr Hrent Hi1) as (Hr0 & E1 & E2 & E3 & E4).
      destruct (route_reward_pool_spec _ r0 _ Hr0 Hf) as (r1' & Hr1 & Hv1 & Hps).
      rewrite Hi in Hr1. injection Hr1 as <-. split; [done|]. split.
      { unfold saved_ok. rewrite (ps_routing _ _ _ Hps), E4. exact Hsv. }
      res_inv. pose proof (lg_collect rent (base_ledger s)) as Hc. unfold base_ledger in Hc. fold r in Hc. cbn in Hc.
      rewrite (ps_pool _ _ _ Hps), (ps_processed _ _ _ Hps), (ps_total _ _ _ Hps).
      replace (0 + (br_rewards_processed r0 + br_reward_pool r0)) with (acc_lamports (bs_receiver s) - rent) by lia.
      replace (br_total_rewards r0) with (br_total_rewards r +
        (acc_lamports (bs_receiver s) - rent - (br_reward_pool r + br_rewards_processed r))) by lia.
      apply Hc. lia. }
  destruct Hmid as (Hv1 & Hs1 & Hl). destruct (route_ncn_ok r1 _ r2 Hv1 Hs1 Hn) as (Hv2 & Hs2 & Htt).
  injection Htt as T1 T2 T3. split; [by split|].
  unfold base_ledger at 2. cbn. rewrite T1, T2, T3. exact Hl.
Qed.

(** What a payment of [r] lamports leaves. *)
Lemma pay_step_ok s es br receiver r :
  base_side_ok b s -> br_inv (voters b) (body br) ->
  0 <= r <= br_rewards_processed (body (bs_router s)) ->
  br_rewards_processed (body br) = br_rewards_processed (body (bs_router s)) - r ->
  br_reward_pool (body br) = br_reward_pool (body (bs_router s)) ->
  br_total_rewards (body br) = br_total_rewards (body (bs_router s)) ->
  br_routing (body br) = br_routing (body (bs_router s)) ->
  ep_base_distribution_progress (body es) = mkProgress (pg_tally (base_progress s) + r) (pg_total (base_progress s)) ->
  acc_lamports receiver = acc_lamports (bs_receiver s) - r ->
  step_ok s (mkBaseSide es br receiver).
Proof.
  intros [Hr Hsv Hto] Hv Hbd E1 E2 E3 E4 E5 E6. split.
  - split; cbn; [done|unfold saved_ok; by rewrite E4|]. unfold base_progress. cbn. rewrite E5, E3. exact Hto.
  - unfold base_ledger, base_progress. cbn. rewrite E1, E2, E3, E5, E6. cbn.
    replace (br_reward_pool (body (bs_router s)) + (br_rewards_processed (body (bs_router s)) - r))
      with (br_reward_pool (body (bs_router s)) + br_rewards_processed (body (bs_router s)) - r) by lia.
    apply (lg_pay rent (base_ledger s)). cbn. pose proof (rp_pool _ _ _ Hr). lia.
Qed.

Lemma distribute_step_ok s config ncn wallet ata pool others g epoch es br receiver ata' :
  base_side_ok b s ->
  process_distribute_base_rewards program_id (bs_state s) config ncn (bs_router s) (bs_receiver s) wallet ata pool
    others g epoch = Ok (es, br, receiver, ata') ->
  step_ok s (mkBaseSide es br receiver).
Proof.
  intros Hs Hp. unfold process_distribute_base_rewards in Hp. res_inv.
  match goal with Ha : BaseFeeGroup.try_from _ = Ok _ |- _ => apply base_group_small in Ha as (i & Hi & ->) end.
  match goal with Ha : BaseRewardRouter.distribute_base_fee_group_rewards _ _ = Ok _ |- _ => rename Ha into Hd end.
  destruct (distribute_base_ok _ _ i (bo_router _ _ Hs) Hi) as (br0 & Hd' & Hv & Hbd & Heq).
  rewrite Hd in Hd'. injection Hd' as ->.
  set (r := base_reward_of (body (bs_router s)) i) in *.
  cbn beta iota in Hp. apply bind_Ok in Hp as ([receiver1 to1] & Hpay & Hp). apply bind_Ok in Hp as (st & Hu & Hp).
  unfold EpochState.update_distribute_base_rewards, Progress.increment in Hu. res_inv.
  apply (pay_step_ok s _ _ _ r); try done; cbn; try (by rewrite Heq).
  destruct (BaseRewardReceiver.find_program_address program_id (acc_key ncn) epoch) as [[? ?] ?].
  destruct (Z.ltb_spec 0 r) in Hpay; [|res_inv; lia]. by apply deposit_takes in Hpay as [_ ->].
Qed.

Lemma distribute_ncn_step_ok s config ncn operator nr to system g epoch es br receiver to' :
  base_side_ok b s -> acc_key operator <> Pubkey_default -> acc_key (bs_receiver s) <> acc_key to ->
  process_distribute_base_ncn_reward_route program_id (bs_state s) config ncn operator (bs_router s) (bs_receiver s)
    nr to system g epoch = Ok (es, br, receiver, to') ->
  step_ok s (mkBaseSide es br receiver).
Proof.
  intros Hs Hop Hne Hp. unfold process_distribute_base_ncn_reward_route in Hp. res_inv.
  match goal with Ha : NcnFeeGroup.try_from _ = Ok _ |- _ => apply ncn_group_small in Ha as (k & Hk & ->) end.
  match goal with Ha : BaseRewardRouter.distribute_ncn_fee_group_reward_route _ _ _ = Ok _ |- _ => rename Ha into Hd end.
  destruct (BaseRewardRouter.has_operator_reward_route (body (bs_router s)) (acc_key operator)) eqn:Hhas.
  2: { unfold BaseRewardRouter.has_operator_reward_route in Hhas. unfold BaseRewardRouter.distribute_ncn_fee_group_reward_route in Hd.
       by destruct (BaseRewardRouter.find_route _ _). }
  destruct (distribute_route_ok _ _ _ k (bo_router _ _ Hs) Hop Hk Hhas) as (br0 & Hd' & Hv & Hbd & E1 & E2 & E3 & E4 & _).
  rewrite Hd in Hd'. injection Hd' as ->.
  set (r := route_amount (body (bs_router s)) (acc_key operator) k) in *.
  cbn beta iota in Hp. apply bind_Ok in Hp as ([receiver1 to1] & Hpay & Hp). apply bind_Ok in Hp as (st & Hu & Hp).
  unfold EpochState.update_distribute_base_ncn_rewards, Progress.increment in Hu. res_inv.
  apply (pay_step_ok s _ _ _ r); try done; cbn.
  destruct (BaseRewardReceiver.find_program_address program_id (acc_key ncn) epoch) as [[? ?] ?].
  destruct (Z.ltb_spec 0 r) in Hpay; [|res_inv; lia]. by apply transfer_moves in Hpay as (_ & -> & _).
Qed.

Lemma base_refines s s' : base_side_ok b s -> base_step program_id b s s' -> step_ok s s'.
Proof.
  intros Hs [clock config ncn snap bb m epoch es br Hf Hbb Hp|config ncn wallet ata pool others g epoch es br receiver ata' Hp
    |config ncn operator nr to system g epoch es br receiver to' Hop Hne Hp|n Hn|es He].
  - by eapply route_step_ok.
  - by eapply distribute_step_ok.
  - by eapply distribute_ncn_step_ok.
  - split; [by destruct Hs|]. by apply (lg_receive rent (base_ledger s)).
  - destruct Hs as [Hr Hsv Hto]. split; [split; cbn; try done; unfold base_progress in *; cbn; by rewrite He|].
    unfold base_ledger, base_progress in *. cbn. rewrite He. apply lg_work.
Qed.

#[export] Instance base_reward_side : RewardSide BaseSide := {|
  side_rent := rent;
  side_inv := base_side_ok b;
  side_step := base_step program_id b;
  ledger_of := base_ledger;
  side_refines := base_refines;
|}.
End refinement.

(* ------------------------------------------------------------------ *)
(** * Properties *)

(** The account checks of the payment of an operator's base rewards. *)
Definition base_ncn_loads `{Solana} `{Programs} (program_id : Pubkey) (s : BaseSide) (config : Acct Config)
    (ncn operator : AccountInfo) (nr : Acct NcnRewardRouter) (to system : AccountInfo) (g : NcnFeeGroup) (epoch : Z) : Prop :=
  EpochState.load program_id (info (bs_state s)) (acc_key ncn) epoch true = Ok tt /\
  ncn_load ncn false = Ok tt /\ operator_load operator false = Ok tt /\
  Config.load program_id (info config) (acc_key ncn) false = Ok tt /\
  BaseRewardRouter.load program_id (info (bs_router s)) (acc_key ncn) epoch true = Ok tt /\
  NcnRewardRouter.load program_id (info nr) g (acc_key operator) (acc_key ncn) epoch false = Ok tt /\
  BaseRewardReceiver.load program_id (bs_receiver s) (acc_key ncn) epoch true = Ok tt /\
  NcnRewardReceiver.load program_id to g (acc_key operator) (acc_key ncn) epoch false = Ok tt /\
  load_system_program system = Ok tt.

Lemma receiver_load_ok `{Solana} program_id a ncn epoch :
  BaseRewardReceiver.load program_id a ncn epoch true = Ok tt ->
  acc_owner a = system_program_id /\ acc_is_writable a = true /\
  exists bump seeds, BaseRewardReceiver.find_program_address program_id ncn epoch = (acc_key a, bump, seeds) /\
    find_program_address_ext seeds program_id = (acc_key a, bump).
Proof.
  unfold BaseRewardReceiver.load, check_load, BaseRewardReceiver.find_program_address, find_pda.
  destruct (find_program_address_ext _ _) as [pda bump] eqn:E. cbn [fst]. intros Hl. res_inv. bool_prop. subst pda.
  split; [done|]. split; [by destruct (acc_is_writable a)|]. exists bump. by eexists.
Qed.

Lemma ncn_group_try k : (k < 8)%nat -> NcnFeeGroup.try_from (Z.of_nat k) = Ok (NcnFeeGroup.mk (Z.of_nat k)).
Proof. intros Hk. do 8 (destruct k as [|k]; [reflexivity|]). lia. Qed.

Section properties.
Context {S : Solana} {TL : TransferLaws S} `{L : PreciseNumberLaws} {P : Programs} {DL : DepositLaws P}.

(** C5: from the creation of the base reward accounts, through every
    sequence of routing calls (complete or interrupted), distributions,
    arriving tips and other instructions, the receiver follows the abstract
    ledger: what was ever collected is either paid out (as the epoch state
    records) or owed, the receiver holds what is owed beyond its rent, and the
    epoch state calls the distribution complete exactly when nothing is owed:
    the pool and the rewards of every group and operator are zero. *)
Theorem base_side_solvent program_id b t s0 s r0 es0 ncn epoch bump slot :
  0 <= minimum_balance 0 -> bb_inv b -> BallotBox.get_winning_ballot_tally b = Ok t ->
  body (bs_router s0) = BaseRewardRouter.initialize r0 ncn epoch bump slot ->
  body (bs_state s0) = EpochState.update_realloc_base_reward_router es0 ->
  minimum_balance 0 <= acc_lamports (bs_receiver s0) -> star (base_step program_id b) s0 s ->
  star (ledger_step (minimum_balance 0)) (mkLedger 0 0 0 (acc_lamports (bs_receiver s0))) (base_ledger s) /\
  solvent (minimum_balance 0) (base_ledger s) /\ br_inv (voters b) (body (bs_router s)) /\
  (br_total_rewards (body (bs_router s)) < u64_max ->
   Progress.is_complete (base_progress s) = true <->
   br_reward_pool (body (bs_router s)) = 0 /\ held (body (bs_router s)) = 0).
Proof.
  intros Hrent Hb Ht Hr0 Hes0 Hfund Hstar.
  assert (Hinit : base_side_ok b s0).
  { split; rewrite ?Hr0; [apply new_br_inv|done|]. unfold base_progress. by rewrite Hes0. }
  assert (Hl0 : base_ledger s0 = mkLedger 0 0 0 (acc_lamports (bs_receiver s0)))
    by (unfold base_ledger, base_progress; by rewrite Hr0, Hes0).
  pose (side := base_reward_side program_id b t Hrent Hb Ht).
  destruct (side_star_refines (H := side) s0 s Hinit Hstar) as [Hok Hls].
  destruct (side_star_solvent (H := side) s0 s Hinit) as (_ & Hsol & _); [|done|].
  { cbn. rewrite Hl0. unfold solvent. cbn. lia. }
  cbn in Hls, Hsol. rewrite Hl0 in Hls. split; [done|]. split; [done|]. split; [apply Hok|]. intros Hmax.
  destruct Hok as [Hr _ Hto]. destruct Hsol as (_ & Hpaid & _). cbn in Hpaid.
  pose proof (rp_held _ _ _ Hr). pose proof (rp_pool _ _ _ Hr). pose proof (rp_total _ _ _ Hr).
  destruct (held_nonneg _ _ _ Hr) as (? & ? & ?). unfold held in *.
  unfold Progress.is_complete, Progress.is_invalid, Progress.INVALID. rewrite Hto. ztests. lia.
Qed.

(** a credited operator can always be paid: in a side that keeps the
    invariant and is solvent, once routing is over and the accounts pass their
    checks, the instruction succeeds, moves exactly the operator's rewards of
    the group from the receiver to the operator's NCN reward receiver, and
    leaves nothing of them in the router. *)
Theorem distribute_base_ncn_pays program_id b s config ncn operator nr to system k epoch :
  base_side_ok b s -> solvent (minimum_balance 0) (base_ledger s) -> 0 <= minimum_balance 0 -> (k < 8)%nat ->
  base_ncn_loads program_id s config ncn operator nr to system (NcnFeeGroup.mk (Z.of_nat k)) epoch ->
  BaseRewardRouter.still_routing (body (bs_router s)) = false ->
  BaseRewardRouter.has_operator_reward_route (body (bs_router s)) (acc_key operator) = true ->
  acc_key operator <> Pubkey_default -> acc_data (bs_receiver s) = [] -> acc_is_writable to = true ->
  acc_key (bs_receiver s) <> acc_key to ->
  let r := route_amount (body (bs_router s)) (acc_key operator) k in
  acc_lamports to + r < U64 ->
  exists es br,
    process_distribute_base_ncn_reward_route program_id (bs_state s) config ncn operator (bs_router s) (bs_receiver s)
      nr to system (Z.of_nat k) epoch
    = Ok (es, br, with_lamports (bs_receiver s) (acc_lamports (bs_receiver s) - r), with_lamports to (acc_lamports to + r)) /\
    route_amount (body br) (acc_key operator) k = 0 /\
    pg_tally (ep_base_distribution_progress (body es)) = pg_tally (base_progress s) + r.
Proof.
  intros [Hv Hsv Hto] (Hs1 & Hs2 & Hs3) Hrent Hk (L1 & L2 & L3 & L4 & L5 & L6 & L7 & L8 & L9) Hn Hhas Hop Hdata Hw Hne r Hfit.
  unfold process_distribute_base_ncn_reward_route. rewrite L1, L2, L3, (ncn_group_try k Hk). cbn [mbind result_bind].
  rewrite L4, L5, L6, L7, L8, L9. cbn [mbind result_bind]. rewrite Hn.
  destruct (distribute_route_ok _ _ _ k Hv Hop Hk Hhas) as (br0 & Hd & Hv0 & Hbd & E1 & E2 & E3 & E4 & Ha).
  fold r in Hd, Hbd, E1, Ha. rewrite Hd. cbn [mbind result_bind].
  destruct (receiver_load_ok _ _ _ _ L7) as (Howner & Hwr & bump & seeds & Hpda & Hext).
  cbn in Hs1, Hs2, Hs3. pose proof (rp_pool _ _ _ Hv). pose proof (rp_total _ _ _ Hv).
  assert (Hpay : (if 0 <? r then let '(_, bump, seeds) := BaseRewardReceiver.find_program_address program_id (acc_key ncn) epoch in
      invoke_transfer (bs_receiver s) to r (seeds ++ [[bump]]) else Ok (bs_receiver s, to))
    = Ok (with_lamports (bs_receiver s) (acc_lamports (bs_receiver s) - r), with_lamports to (acc_lamports to + r))).
  { rewrite Hpda. destruct (Z.ltb_spec 0 r).
    - destruct (transfer_funded program_id seeds bump (bs_receiver s) to r) as [[a a'] Htr]; try done; [lia|].
      rewrite Htr. by apply transfer_moves in Htr as (_ & -> & ->).
    - replace r with 0 by lia. rewrite Z.sub_0_r, Z.add_0_r. destruct (bs_receiver s), to. done. }
  rewrite Hpay. cbn [mbind result_bind]. unfold EpochState.update_distribute_base_ncn_rewards, Progress.increment.
  fold (base_progress s). checked.
  eexists _, _. split; [reflexivity|]. cbn. split; [|done]. rewrite Ha by done. rewrite decide_True by done. unfold r. lia.
Qed.
End properties.

(* ------------------------------------------------------------------ *)
(** * Tips of an epoch, routed and paid *)

Module BaseSideWitness.
Import ConcreteSolana ConcretePrograms ConfigWitness VoteWitness BallotBoxTheorems.BallotBoxWitness BaseRewardWitness.

Definition router_account : AccountInfo :=
  program_account (BaseRewardRouter.find_program_address pid (key 9) 5).1.1 DBaseRewardRouter.
Definition receiver_key : Pubkey := (BaseRewardReceiver.find_program_address pid (key 9) 5).1.1.
Definition rent : Z := minimum_balance 0.
Definition side0 : BaseSide := mkBaseSide
  (with_body VoteWitness.es0 (EpochState.update_realloc_base_reward_router (body VoteWitness.es0)))
  (mkAcct router_account (BaseRewardRouter.initialize s0 (key 9) 5 255 100)) (system_account receiver_key rent).
Definition side1 : BaseSide := mkBaseSide (bs_state side0) (bs_router side0)
  (with_lamports (bs_receiver side0) (acc_lamports (bs_receiver side0) + 1000003)).
Definition snapshot : Acct EpochSnapshot :=
  mkAcct (info VoteWitness.snap) (mkEpochSnapshot (key 9) 5 255 100 101 fees 1 2 1 2 VoteWitness.stake).
Definition box : Acct BallotBox := mkAcct (info VoteWitness.bb1) b3.
Definition get_ok {A} (d : A) (r : res A) : A := match r with Ok a => a | Err _ => d end.
Definition routed_side := process_route_base_rewards (H0 := U256Precise.ops) pid (mkClock 10000 5) (bs_state side1) c0
  ConfigWitness.ncn snapshot box (bs_router side1) (bs_receiver side1) 65535 5.
Definition routed : Acct EpochState * Acct BaseRewardRouter := get_ok (bs_state side1, bs_router side1) routed_side.
Definition side2 : BaseSide := mkBaseSide routed.1 routed.2 (bs_receiver side1).

Lemma base_route_run :
  process_route_base_rewards (H0 := U256Precise.ops) pid (mkClock 10000 5) (bs_state side1) c0
    ConfigWitness.ncn snapshot box (bs_router side1) (bs_receiver side1) 65535 5 = Ok (routed.1, routed.2).
Proof. vm_compute. reflexivity. Qed.

Lemma base_side_steps : star (base_step (O := U256Precise.ops) pid b3) side0 side2.
Proof.
  apply (star_step _ side1); [apply bs_tips; lia|]. apply (star_step _ side2); [|apply star_refl].
  apply (bs_route (O := U256Precise.ops) pid b3 side1 (mkClock 10000 5) c0 ConfigWitness.ncn snapshot box 65535 5
    routed.1 routed.2); [exact fees_ok|reflexivity|exact base_route_run].
Qed.

(** The operator [key 1], its router of the default group, and its receiver. *)
Definition ncn_router : Acct NcnRewardRouter :=
  mkAcct (program_account (NcnRewardRouter.find_program_address pid NcnFeeGroup.lst (key 1) (key 9) 5).1.1 DNcnRewardRouter)
    (NcnRewardRouter.new NcnFeeGroup.lst (key 1) 0 (key 9) 5 255 100).
Definition ncn_receiver : AccountInfo :=
  system_account (NcnRewardReceiver.find_program_address pid NcnFeeGroup.lst (key 1) (key 9) 5).1.1 rent.
Definition system : AccountInfo := system_account Pubkey_default 1.

Lemma loads2 : base_ncn_loads pid side2 c0 ConfigWitness.ncn VoteWitness.operator ncn_router ncn_receiver system
  (NcnFeeGroup.mk (Z.of_nat 0)) 5.
Proof. repeat split; vm_compute; reflexivity. Qed.

Lemma rent_nonneg : 0 <= minimum_balance 0.
Proof. vm_compute. discriminate. Qed.

Lemma side2_ok : base_side_ok b3 side2 /\ solvent (minimum_balance 0) (base_ledger side2).
Proof.
  pose (side := base_reward_side (L := U256Precise.laws) pid b3 tally rent_nonneg b3_inv tally_eq).
  assert (Hinit : base_side_ok b3 side0) by (split; [apply new_br_inv|done|reflexivity]).
  destruct (side_star_solvent (H := side) side0 side2 Hinit) as (Hok & Hs & _); [|exact base_side_steps|done].
  unfold solvent. vm_compute. repeat split; discriminate.
Qed.
End BaseSideWitness.
Import ConcreteSolana ConcretePrograms BaseSideWitness ConfigWitness BallotBoxTheorems.BallotBoxWitness BaseRewardWitness.

Lemma base_side_solvent_witness :
  solvent (minimum_balance 0) (base_ledger side2) /\ lg_owed (base_ledger side2) = 1000003.
Proof.
  destruct (base_side_solvent (L := U256Precise.laws) pid b3 tally side0 side2 s0
    (body VoteWitness.es0) (key 9) 5 255 100) as (_ & Hs & _).
  - exact rent_nonneg.
  - exact b3_inv.
  - exact tally_eq.
  - reflexivity.
  - reflexivity.
  - vm_compute. discriminate.
  - exact base_side_steps.
  - split; [exact Hs|vm_compute; reflexivity].
Defined.

Lemma distribute_base_ncn_pays_witness :
  exists es br, process_distribute_base_ncn_reward_route pid (bs_state side2) c0 ncn VoteWitness.operator (bs_router side2)
      (bs_receiver side2) ncn_router ncn_receiver system 0 5
    = Ok (es, br, with_lamports (bs_receiver side2) (acc_lamports (bs_receiver side2) - 52631),
        with_lamports ncn_receiver (acc_lamports ncn_receiver + 52631)).
Proof.
  destruct (distribute_base_ncn_pays pid b3 side2 c0 ncn VoteWitness.operator ncn_router ncn_receiver system 0 5
    (proj1 side2_ok) (proj2 side2_ok) rent_nonneg) as (es & br & Hp & _).
  - lia.
  - exact loads2.
  - vm_compute. reflexivity.
  - vm_compute. reflexivity.
  - done.
  - reflexivity.
  - reflexivity.
  - vm_compute. discriminate.
  - vm_compute. reflexivity.
  - exists es, br.
    assert (Hr : route_amount (body (bs_router side2)) (acc_key VoteWitness.operator) 0 = 52631) by (vm_compute; reflexivity).
    rewrite Hr in Hp. exact Hp.
Defined.
