(* ===== verification/NcnSide.v ===== *)
(** The NCN reward side of an operator in a fee group: its receiver's
    lamports, its router and its progress in the epoch state under the
    instructions that route and distribute NCN rewards.  It implements the
    same ledger as the base reward side. *)

From Stdlib Require Import String.
From S2P Require Import Prelude Errors External Constants Accounts FeeGroups Fees Config StakeWeight EpochSnapshot EpochState BaseRewardRouter BaseRewardRouterProps BaseRewardTheorems NcnRewardRouter NcnRewardProps NcnRewardTheorems Ledger RewardHandlers VoteHandlers BaseSide.

#[local] Arguments gw : simpl never.
#[local] Arguments ONE : simpl never.
#[local] Arguments replicate : simpl never.

(* ------------------------------------------------------------------ *)
(** * The balance is kept by every call *)

(** What routing within the router does not change: the rewards ever
    collected, those it accounts for, and its group. *)
Definition vtotals (s : NcnRewardRouter) : Z * Z * NcnFeeGroup :=
  (nr_total_rewards s, nr_reward_pool s + nr_rewards_processed s, nr_ncn_fee_group s).

Definition vsaved_ok (s : NcnRewardRouter) : Prop := fits U64 (nr_last_rewards_to_process (nr_routing s)).

Lemma vrouting_inv V x s rs : nr_pend V x s -> nr_pend V x (NcnRewardRouter.with_routing s rs).
Proof. intros []. by split. Qed.

Lemma vleftover_inv V s s' :
  nr_inv V s -> NcnRewardRouter.route_leftover s = Ok s' ->
  nr_inv V s' /\ vtotals s' = vtotals s /\ nr_routing s' = nr_routing s.
Proof.
  intros Hs Hr. destruct (vleftover_ok V s Hs) as (s1 & Hs1 & Hp & E1 & E2 & _ & _ & E3 & E4 & E5).
  rewrite Hs1 in Hr. injection Hr as <-. split; [done|]. unfold vtotals. rewrite E1, E2, E3, E5. split; [|done].
  f_equal. f_equal. lia.
Qed.
Section balance.
Context `{L : PreciseNumberLaws}.
Context (V : list Pubkey) (W : StakeWeights) (k : nat).
Context (HV : (length V <= 64)%nat) (HW : sw_wf W) (Hk : (k < 8)%nat).

Lemma route_vault_inv s R e s' :
  nr_inv V s -> nr_ncn_fee_group s = NcnFeeGroup.mk (Z.of_nat k) -> fits U64 R -> entry_ok V W k e ->
  NcnRewardRouter.route_vault W R s e = Ok s' ->
  nr_inv V s' /\ vtotals s' = vtotals s /\ nr_routing s' = nr_routing s.
Proof.
  intros Hs Hg HR He Hr. destruct (decide (ventry R W k e <= nr_reward_pool s)) as [Hle|Hgt].
  { destruct (route_vault_ok V s k W R e Hs HV Hk Hg HW HR He Hle) as (s1 & Hs1 & Hp & (E1 & _ & E2 & E3) & E4 & E5 & _).
    rewrite Hs1 in Hr. injection Hr as <-. split; [done|]. unfold vtotals. rewrite E1, E2, E4, E5.
    split; [|done]. f_equal. f_equal. lia. }
  exfalso. destruct He as (Hwf & Hle & _). unfold NcnRewardRouter.route_vault in Hr. rewrite Hg in Hr.
  pose proof (NcnFeeGroup.nfg_all_groups_index k Hk) as Hi.
  rewrite (ncn_fee_group_stake_weight_ok _ _ _ (proj1 (proj2 Hwf)) Hi) in Hr. cbn [mbind result_bind] in Hr.
  rewrite (ncn_fee_group_stake_weight_ok _ _ _ (proj1 (proj2 HW)) Hi) in Hr. cbn [mbind result_bind] in Hr.
  destruct (vault_share_ok R (gw k (vos_stake_weight e)) (gw k W)) as (Hc & Hx);
    [done|by apply gw_fits|by apply gw_fits|done|].
  rewrite Hc in Hr. cbn [mbind result_bind] in Hr. fold (ventry R W k e) in *.
  pose proof (np_pool _ _ _ Hs). unfold NcnRewardRouter.route_from_reward_pool in Hr.
  rewrite (proj2 (Z.eqb_neq (ventry R W k e) 0)) in Hr by lia. unfold checked_sub in Hr.
  rewrite (proj2 (Z.leb_gt (ventry R W k e) (nr_reward_pool s))) in Hr by lia. done.
Qed.

Definition vflow_state (f : NcnRewardRouter.flow) : NcnRewardRouter :=
  match f with NcnRewardRouter.Continue s => s | NcnRewardRouter.Return s => s end.

Lemma route_vaults_inv M R es s it i f :
  nr_inv V s -> nr_ncn_fee_group s = NcnFeeGroup.mk (Z.of_nat k) -> fits U64 R -> vsaved_ok s ->
  (forall e, e ∈ es -> entry_ok V W k e) ->
  NcnRewardRouter.route_vaults W M R s it i es = Ok f ->
  nr_inv V (vflow_state f) /\ vtotals (vflow_state f) = vtotals s /\ vsaved_ok (vflow_state f).
Proof.
  intros Hs Hg HR Hsv. revert s it i Hs Hg Hsv. induction es as [|e es IH]; intros s it i Hs Hg Hsv Hes Hr;
    cbn [NcnRewardRouter.route_vaults] in Hr; [by injection Hr as <-|].
  apply bind_Ok in Hr as (it' & _ & Hr).
  destruct (_ <? _); [injection Hr as <-; split; [by apply vrouting_inv|by split]|].
  apply bind_Ok in Hr as (s1 & H1 & Hr).
  destruct (route_vault_inv s R e s1 Hs Hg HR (Hes e ltac:(left)) H1) as (Hs1 & Ht1 & Hr1).
  assert (Hg1 : nr_ncn_fee_group s1 = NcnFeeGroup.mk (Z.of_nat k)) by (injection Ht1; congruence).
  destruct (IH s1 it' (S i) Hs1 Hg1) as (Hf & Ht & Hsf); [by unfold vsaved_ok; rewrite Hr1|intros; apply Hes; by right|done|].
  split; [done|]. split; [congruence|done].
Qed.

End balance.

Section pool.
Context `{L : PreciseNumberLaws}.
Context (snap : OperatorSnapshot) (k : nat).
Context (Hsnap : os_inv snap) (Hk : (k < 8)%nat) (Hnamed : named_vaults k snap).

Abbreviation V := (snapshot_vaults snap).

(** A call of the router, fresh or resumed. *)
Lemma route_pool_inv s m s' :
  nr_inv V s -> nr_ncn_fee_group s = NcnFeeGroup.mk (Z.of_nat k) -> vsaved_ok s ->
  NcnRewardRouter.route_reward_pool s snap m = Ok s' ->
  nr_inv V s' /\ vtotals s' = vtotals s /\ vsaved_ok s'.
Proof.
  intros Hs Hg Hsv Hr. unfold NcnRewardRouter.route_reward_pool in Hr.
  destruct (NcnRewardRouter.resume_routing_state s (nr_reward_pool s)) as [R i] eqn:E.
  assert (HR : fits U64 R).
  { unfold NcnRewardRouter.resume_routing_state in E. destruct (negb _); injection E as <- <-; [by eapply pool_fits|done]. }
  destruct (R =? 0); [by injection Hr as <-|]. apply bind_Ok in Hr as (f & Hf & Hr).
  apply (route_vaults_inv V (os_stake_weights snap) k) in Hf as (Hf1 & Hf2 & Hf3); try done.
  - destruct f as [s1|s1]; cbn [vflow_state] in *; [|by injection Hr as <-].
    assert (Hr1 : nr_inv V (NcnRewardRouter.reset_routing_state s1)) by by apply vrouting_inv.
    apply (vleftover_inv V) in Hr as (Hv & Ht & Hro); [|done].
    split; [done|]. split; [rewrite Ht; exact Hf2|]. unfold vsaved_ok. by rewrite Hro.
  - rewrite snapshot_vaults_length by done. lia.
  - apply (oi_sum_wf _ Hsnap).
  - intros e [j Hj]%list_elem_of_lookup. rewrite lookup_drop in Hj. apply snapshot_entry_ok; try done.
    by eapply list_elem_of_lookup_2.
Qed.
End pool.

(** The pool takes what the receiver holds beyond its rent and what the
    router accounts for. *)
Lemma vroute_incoming_spec V s rent balance s' :
  nr_inv V s -> 0 <= rent -> NcnRewardRouter.route_incoming_rewards s rent balance = Ok s' ->
  nr_inv V s' /\ nr_reward_pool s' + nr_rewards_processed s' + rent = balance /\
  rent + (nr_reward_pool s + nr_rewards_processed s) <= balance /\
  nr_total_rewards s' = nr_total_rewards s + (balance - rent - (nr_reward_pool s + nr_rewards_processed s)) /\
  nr_routing s' = nr_routing s /\ nr_ncn_fee_group s' = nr_ncn_fee_group s.
Proof.
  intros Hs Hrent Hr. unfold NcnRewardRouter.route_incoming_rewards, NcnRewardRouter.total_rewards_in_transit in Hr. res_inv.
  set (inc := balance - (nr_reward_pool s + nr_rewards_processed s) - rent) in *.
  assert (Hb : nr_total_rewards s + inc < U64).
  { unfold NcnRewardRouter.route_to_reward_pool in Hr. destruct (Z.eqb_spec inc 0) as [Hi|Hi];
      [rewrite Hi; pose proof (np_total _ _ _ Hs); lia|]. by res_inv. }
  destruct (vroute_to_pool_ok V s inc Hs) as [Heq Hp]; [unfold inc; lia|done|]. rewrite Heq in Hr. injection Hr as <-.
  split; [done|]. cbn. unfold inc. repeat split; lia.
Qed.

(** Payments leave everything else. *)
Lemma vdistribute_operator_frame s s' r :
  NcnRewardRouter.distribute_operator_rewards s = Ok (s', r) ->
  nr_total_rewards s' = nr_total_rewards s /\ nr_routing s' = nr_routing s /\ nr_ncn_fee_group s' = nr_ncn_fee_group s.
Proof.
  unfold NcnRewardRouter.distribute_operator_rewards, NcnRewardRouter.decrement_rewards_processed. intros Hr. res_inv.
  destruct (_ =? 0); by res_inv.
Qed.

Lemma vdistribute_vault_frame s v s' r :
  NcnRewardRouter.distribute_vault_reward_route s v = Ok (s', r) ->
  nr_total_rewards s' = nr_total_rewards s /\ nr_routing s' = nr_routing s /\ nr_ncn_fee_group s' = nr_ncn_fee_group s /\
  NcnRewardRouter.find_route s v <> None.
Proof.
  unfold NcnRewardRouter.distribute_vault_reward_route, NcnRewardRouter.decrement_rewards_processed. intros Hr.
  destruct (NcnRewardRouter.find_route s v) as [[i route]|]; [|done]. res_inv.
  destruct (_ =? 0); by res_inv.
Qed.

(* ------------------------------------------------------------------ *)
(** * Progress in the epoch state *)

Lemma update_route_ncn_progress es i g total es' :
  EpochState.update_route_ncn_rewards es i g total = Ok es' ->
  exists p, EpochState.ncn_distribution_progress es i g = Ok p /\
    EpochState.ncn_distribution_progress es' i g = Ok (Progress.set_total p total).
Proof.
  unfold EpochState.update_route_ncn_rewards, EpochState.ncn_distribution_progress. intros Hu. res_inv.
  match goal with H : get_ncn_reward_router_index _ _ = Ok _ |- _ => rewrite H end. cbn [mbind result_bind]. array_inv.
  eexists. split; [unfold aget; by match goal with H : _ !! _ = Some _ |- _ => rewrite H end|].
  unfold aget. cbn. rewrite list_lookup_insert_eq; [done|]. by eapply lookup_lt_Some.
Qed.

Lemma update_distribute_ncn_progress es i g r es' :
  EpochState.update_distribute_ncn_rewards es i g r = Ok es' ->
  exists p, EpochState.ncn_distribution_progress es i g = Ok p /\
    EpochState.ncn_distribution_progress es' i g = Ok (mkProgress (pg_tally p + r) (pg_total p)).
Proof.
  unfold EpochState.update_distribute_ncn_rewards, EpochState.ncn_distribution_progress, increment_at, Progress.increment.
  intros Hu. res_inv.
  match goal with H : get_ncn_reward_router_index _ _ = Ok _ |- _ => rewrite H end. cbn [mbind result_bind]. array_inv.
  eexists. split; [unfold aget; cbn in *; by match goal with H : _ !! _ = Some _ |- _ => rewrite H end|].
  unfold aget. cbn. rewrite list_lookup_insert_eq; [done|]. by eapply lookup_lt_Some.
Qed.

(* ------------------------------------------------------------------ *)
(** * The state and its steps *)

Record NcnSide := mkNcnSide {
  ns_state : Acct EpochState;
  ns_router : Acct NcnRewardRouter;
  ns_receiver : AccountInfo;
}.

(** The slot of the operator and the group in the epoch state. *)
Definition ncn_progress (snap : OperatorSnapshot) (k : nat) (es : EpochState) : res Progress :=
  EpochState.ncn_distribution_progress es (Z.to_nat (os_ncn_operator_index snap)) (NcnFeeGroup.mk (Z.of_nat k)).

Definition ncn_ledger (snap : OperatorSnapshot) (k : nat) (s : NcnSide) : Ledger :=
  let r := body (ns_router s) in
  mkLedger (nr_reward_pool r + nr_rewards_processed r) (nr_total_rewards r)
    (match ncn_progress snap k (body (ns_state s)) with Ok p => pg_tally p | Err _ => 0 end)
    (acc_lamports (ns_receiver s)).

Section side.
Context {S : Solana} {O : PreciseNumberOps} {P : Programs}.

(** What may happen to the side of the operator with snapshot [snap] in group
    [k]: the three instructions for this group, with any other accounts,
    lamports arriving at the receiver, and other instructions. *)
Inductive ncn_step (MAX_BPS : Z) (program_id : Pubkey) (snap : OperatorSnapshot) (k : nat) (s : NcnSide) : NcnSide -> Prop :=
| ns_route ncn operator os m epoch es nr :
    body os = snap ->
    process_route_ncn_rewards MAX_BPS program_id (ns_state s) ncn operator os (ns_router s) (ns_receiver s)
      (Z.of_nat k) m epoch = Ok (es, nr) ->
    ncn_step MAX_BPS program_id snap k s (mkNcnSide es nr (ns_receiver s))
| ns_operator config ncn operator ata os pool others epoch es nr receiver ata' :
    body os = snap ->
    process_distribute_ncn_operator_rewards program_id (ns_state s) config ncn operator ata os (ns_router s)
      (ns_receiver s) pool others (Z.of_nat k) epoch = Ok (es, nr, receiver, ata') ->
    ncn_step MAX_BPS program_id snap k s (mkNcnSide es nr receiver)
| ns_vault config ncn operator vault ata os pool others epoch es nr receiver ata' :
    body os = snap -> acc_key vault <> Pubkey_default ->
    process_distribute_ncn_vault_rewards program_id (ns_state s) config ncn operator vault ata os (ns_router s)
      (ns_receiver s) pool others (Z.of_nat k) epoch = Ok (es, nr, receiver, ata') ->
    ncn_step MAX_BPS program_id snap k s (mkNcnSide es nr receiver)
| ns_tips n :
    0 <= n ->
    ncn_step MAX_BPS program_id snap k s (mkNcnSide (ns_state s) (ns_router s)
      (with_lamports (ns_receiver s) (acc_lamports (ns_receiver s) + n)))
| ns_other es :
    ncn_progress snap k (body es) = ncn_progress snap k (body (ns_state s)) ->
    ncn_step MAX_BPS program_id snap k s (mkNcnSide es (ns_router s) (ns_receiver s)).

Record ncn_side_ok (snap : OperatorSnapshot) (k : nat) (s : NcnSide) : Prop := {
  no_router : nr_inv (snapshot_vaults snap) (body (ns_router s));
  no_group : nr_ncn_fee_group (body (ns_router s)) = NcnFeeGroup.mk (Z.of_nat k);
  no_saved : vsaved_ok (body (ns_router s));
  no_total : exists p, ncn_progress snap k (body (ns_state s)) = Ok p /\
    pg_total p = nr_total_rewards (body (ns_router s));
}.
End side.

(* ------------------------------------------------------------------ *)
(** * Each instruction is a step of the ledger *)

Section refinement.
Context {S : Solana} `{L : PreciseNumberLaws} {P : Programs} {DL : DepositLaws P}.
Context (MAX_BPS : Z) (program_id : Pubkey) (snap : OperatorSnapshot) (k : nat).
Context (Hrent : 0 <= minimum_balance 0) (HB : 0 < MAX_BPS < ONE) (Hfee : 0 <= os_operator_fee_bps snap <= MAX_BPS).
Context (Hsnap : os_inv snap) (Hk : (k < 8)%nat) (Hnamed : named_vaults k snap).

Abbreviation rent := (minimum_balance 0).
Abbreviation step_ok s s' :=
  (ncn_side_ok snap k s' /\ ledger_step rent (ncn_ledger snap k s) (ncn_ledger snap k s')).

(** The receiver's balance enters the router and the operator's fee leaves
    the pool, unless a routing is under way. *)
Lemma vcollect_ok s r1 :
  ncn_side_ok snap k s ->
  (if negb (NcnRewardRouter.still_routing (body (ns_router s)))
   then router ← NcnRewardRouter.route_incoming_rewards (body (ns_router s)) rent (acc_lamports (ns_receiver s));
        NcnRewardRouter.route_operator_rewards MAX_BPS router snap
   else Ok (body (ns_router s))) = Ok r1 ->
  nr_inv (snapshot_vaults snap) r1 /\ vsaved_ok r1 /\ nr_ncn_fee_group r1 = NcnFeeGroup.mk (Z.of_nat k) /\
  ledger_step rent (ncn_ledger snap k s)
    (mkLedger (nr_reward_pool r1 + nr_rewards_processed r1) (nr_total_rewards r1) (lg_paid (ncn_ledger snap k s))
       (acc_lamports (ns_receiver s))).
Proof.
  intros [Hr Hg Hsv _] Hi. destruct (NcnRewardRouter.still_routing (body (ns_router s))); cbn [negb] in Hi.
  { injection Hi as <-. split; [done|]. split; [done|]. split; [done|]. apply lg_work. }
  apply bind_Ok in Hi as (r0 & Hi0 & Hi).
  destruct (vroute_incoming_spec _ _ rent _ r0 Hr Hrent Hi0) as (Hr0 & E1 & Hle & E3 & E4 & E5).
  destruct (route_operator_ok _ MAX_BPS r0 snap Hr0 HB Hfee) as (r1' & Hr1 & Hv1 & _ & F2 & F3 & _ & _ & F4 & F5 & F6).
  rewrite Hi in Hr1. injection Hr1 as <-. split; [done|]. split; [unfold vsaved_ok; by rewrite F4, E4|].
  split; [congruence|]. rewrite F2, F3, F5, E3.
  pose proof (lg_collect rent (ncn_ledger snap k s)) as Hc. cbn [lg_owed lg_total lg_balance ncn_ledger] in Hc.
  match goal with |- ledger_step _ _ (mkLedger ?x _ _ _) =>
    replace x with (acc_lamports (ns_receiver s) - rent) by lia end.
  apply Hc. exact Hle.
Qed.

Lemma vroute_step_ok s ncn operator os m epoch es nr :
  ncn_side_ok snap k s -> body os = snap ->
  process_route_ncn_rewards MAX_BPS program_id (ns_state s) ncn operator os (ns_router s) (ns_receiver s)
    (Z.of_nat k) m epoch = Ok (es, nr) ->
  step_ok s (mkNcnSide es nr (ns_receiver s)).
Proof.
  intros Hs Hos Hp. unfold process_route_ncn_rewards in Hp. rewrite Hos, (ncn_group_try k Hk) in Hp. clear Hos. res_inv.
  match goal with H1 : NcnRewardRouter.route_reward_pool ?x _ _ = Ok ?y, H2 : (if negb _ then _ else _) = Ok ?x,
                  H3 : EpochState.update_route_ncn_rewards _ _ _ _ = Ok ?z |- _ =>
    rename x into r1, y into r2, z into st, H1 into Hn, H2 into Hi, H3 into Hu end.
  destruct (vcollect_ok s r1 Hs Hi) as (Hv1 & Hs1 & Hg1 & Hl).
  destruct (route_pool_inv snap k Hsnap Hk Hnamed r1 m r2 Hv1 Hg1 Hs1 Hn) as (Hv2 & Ht2 & Hs2).
  injection Ht2 as T1 T2 T3. apply update_route_ncn_progress in Hu as (p & Hp1 & Hp2).
  fold (ncn_progress snap k (body (ns_state s))) in Hp1. fold (ncn_progress snap k st) in Hp2.
  split.
  - split; cbn; [done|congruence|done|]. exists (Progress.set_total p (nr_total_rewards r2)). by split.
  - unfold ncn_ledger in *. cbn in *. rewrite Hp1 in *. rewrite Hp2. cbn. rewrite T1, T2. exact Hl.
Qed.

(** What a payment of [r] lamports leaves. *)
Lemma vpay_step_ok s ncn operator os ata others epoch es nr receiver ata' r :
  ncn_side_ok snap k s -> body os = snap -> nr_inv (snapshot_vaults snap) (body nr) ->
  0 <= r <= nr_reward_pool (body (ns_router s)) + nr_rewards_processed (body (ns_router s)) ->
  nr_rewards_processed (body nr) = nr_rewards_processed (body (ns_router s)) - r ->
  nr_reward_pool (body nr) = nr_reward_pool (body (ns_router s)) ->
  nr_total_rewards (body nr) = nr_total_rewards (body (ns_router s)) ->
  nr_routing (body nr) = nr_routing (body (ns_router s)) ->
  nr_ncn_fee_group (body nr) = nr_ncn_fee_group (body (ns_router s)) ->
  pay_ncn_rewards program_id (ns_state s) ncn operator os (ns_receiver s) ata others (NcnFeeGroup.mk (Z.of_nat k)) epoch r
    = Ok (es, receiver, ata') ->
  step_ok s (mkNcnSide es nr receiver).
Proof.
  intros [Hr Hg Hsv (p & Hp & Hto)] Hos Hv Hbd E1 E2 E3 E4 E5 Hpay. unfold pay_ncn_rewards in Hpay. rewrite Hos in Hpay.
  apply bind_Ok in Hpay as ([receiver1 ata1] & Hm & Hpay). apply bind_Ok in Hpay as (st & Hu & Hpay).
  injection Hpay as <- <- <-.
  apply update_distribute_ncn_progress in Hu as (p' & Hp1 & Hp2).
  fold (ncn_progress snap k (body (ns_state s))) in Hp1. fold (ncn_progress snap k st) in Hp2.
  rewrite Hp in Hp1. injection Hp1 as <-.
  assert (Hbal : acc_lamports receiver1 = acc_lamports (ns_receiver s) - r).
  { destruct (NcnRewardReceiver.find_program_address program_id _ _ _ epoch) as [[? ?] ?].
    destruct (Z.ltb_spec 0 r) in Hm; [|injection Hm as <- <-; lia]. by apply deposit_takes in Hm as [_ ->]. }
  split.
  - split; cbn; [done|congruence|unfold vsaved_ok; by rewrite E4|]. eexists. split; [exact Hp2|]. cbn. congruence.
  - unfold ncn_ledger. cbn. rewrite Hp, Hp2. cbn. rewrite E1, E2, E3, Hbal.
    replace (nr_reward_pool (body (ns_router s)) + (nr_rewards_processed (body (ns_router s)) - r))
      with (nr_reward_pool (body (ns_router s)) + nr_rewards_processed (body (ns_router s)) - r) by lia.
    apply (lg_pay rent (mkLedger _ _ _ _)). cbn. lia.
Qed.

Lemma operator_step_ok s config ncn operator ata os pool others epoch es nr receiver ata' :
  ncn_side_ok snap k s -> body os = snap ->
  process_distribute_ncn_operator_rewards program_id (ns_state s) config ncn operator ata os (ns_router s)
    (ns_receiver s) pool others (Z.of_nat k) epoch = Ok (es, nr, receiver, ata') ->
  step_ok s (mkNcnSide es nr receiver).
Proof.
  intros Hs Hos Hp. unfold process_distribute_ncn_operator_rewards in Hp. rewrite (ncn_group_try k Hk) in Hp.
  revert Hos. res_inv. intros Hos.
  match goal with H1 : NcnRewardRouter.distribute_operator_rewards _ = Ok _ |- _ => rename H1 into Hd end.
  destruct (vdistribute_operator_ok _ _ (no_router _ _ _ Hs)) as (s1 & Hd' & Hv & _ & _ & E1 & E2).
  rewrite Hd in Hd'. injection Hd' as ->. cbn beta iota in Hp.
  apply bind_Ok in Hp as ([[es1 receiver1] ata1] & Hpay & Hp). injection Hp as <- <- <- <-.
  destruct (vdistribute_operator_frame _ _ _ Hd) as (E3 & E4 & E5). pose proof (no_router _ _ _ Hs) as Hr.
  pose proof (np_held _ _ _ Hr). pose proof (np_operator _ _ _ Hr). pose proof (np_pool _ _ _ Hr).
  pose proof (np_sum_nonneg _ _ _ Hr).
  eapply vpay_step_ok; [done|exact Hos|done| |exact E2|exact E1|exact E3|exact E4|exact E5|exact Hpay]. lia.
Qed.

Lemma vault_step_ok s config ncn operator vault ata os pool others epoch es nr receiver ata' :
  ncn_side_ok snap k s -> body os = snap -> acc_key vault <> Pubkey_default ->
  process_distribute_ncn_vault_rewards program_id (ns_state s) config ncn operator vault ata os (ns_router s)
    (ns_receiver s) pool others (Z.of_nat k) epoch = Ok (es, nr, receiver, ata') ->
  step_ok s (mkNcnSide es nr receiver).
Proof.
  intros Hs Hos Hvault Hp. unfold process_distribute_ncn_vault_rewards in Hp. rewrite (ncn_group_try k Hk) in Hp.
  revert Hos. res_inv. intros Hos.
  match goal with H1 : NcnRewardRouter.distribute_vault_reward_route _ _ = Ok ?x |- _ => rename H1 into Hd; destruct x as [s2 r2] end.
  destruct (vdistribute_vault_frame _ _ _ _ Hd) as (E3 & E4 & E5 & Hf). pose proof (no_router _ _ _ Hs) as Hr.
  destruct (vdistribute_vault_ok _ _ _ Hr Hvault Hf) as (s1 & Hd' & Hv & _ & E1 & E2 & _).
  rewrite Hd in Hd'. injection Hd' as -> ->. cbn beta iota in Hp.
  apply bind_Ok in Hp as ([[es1 receiver1] ata1] & Hpay & Hp). injection Hp as <- <- <- <-.
  pose proof (np_held _ _ _ Hr). pose proof (np_operator _ _ _ Hr). pose proof (np_pool _ _ _ Hr).
  pose proof (np_sum_nonneg _ _ _ Hr). pose proof (np_operator _ _ _ Hv). pose proof (np_sum_nonneg _ _ _ Hv).
  pose proof (np_held _ _ _ Hv).
  assert (0 <= vault_amount (body (ns_router s)) (acc_key vault)).
  { unfold vault_amount. destruct (NcnRewardRouter.find_route _ _) as [[j ro]|] eqn:Ef; [|lia].
    apply list_find_Some in Ef as (Hj & _ & _). by destruct (np_reward_le _ _ _ _ _ Hr Hj). }
  eapply vpay_step_ok; [done|exact Hos|done| |exact E2|exact E1|exact E3|exact E4|exact E5|exact Hpay]. lia.
Qed.

Lemma ncn_refines s s' : ncn_side_ok snap k s -> ncn_step MAX_BPS program_id snap k s s' -> step_ok s s'.
Proof.
  intros Hs [ncn operator os m epoch es nr Hos Hp|config ncn operator ata os pool others epoch es nr receiver ata' Hos Hp
    |config ncn operator vault ata os pool others epoch es nr receiver ata' Hos Hv Hp|n Hn|es He].
  - exact (vroute_step_ok s ncn operator os m epoch es nr Hs Hos Hp).
  - exact (operator_step_ok s config ncn operator ata os pool others epoch es nr receiver ata' Hs Hos Hp).
  - exact (vault_step_ok s config ncn operator vault ata os pool others epoch es nr receiver ata' Hs Hos Hv Hp).
  - split; [by destruct Hs|]. by apply (lg_receive rent (ncn_ledger snap k s)).
  - destruct Hs as [Hr Hg Hsv Hto]. split; [split; cbn; try done; by rewrite He|].
    unfold ncn_ledger. cbn. rewrite He. apply lg_work.
Qed.

#[export] Instance ncn_reward_side : RewardSide NcnSide := {|
  side_rent := rent;
  side_inv := ncn_side_ok snap k;
  side_step := ncn_step MAX_BPS program_id snap k;
  ledger_of := ncn_ledger snap k;
  side_refines := ncn_refines;
|}.
End refinement.

(* ------------------------------------------------------------------ *)
(** * Properties *)

Section properties.
Context {S : Solana} `{L : PreciseNumberLaws} {P : Programs} {DL : DepositLaws P}.

(** C6: the same promise for the operator and its vaults in a fee group:
    from the creation of the NCN reward router, through every sequence of
    routing calls (complete or interrupted), payments to the operator and the
    vaults, arriving lamports and other instructions, the receiver follows the
    abstract ledger, it holds what is owed beyond its rent, what was collected
    is paid (as the slot of the epoch state records) or owed, and that slot is
    complete exactly when the pool, the operator's and every vault's rewards
    are zero. *)
Theorem ncn_side_solvent MAX_BPS program_id snap k s0 s es0 operator ncn epoch bump slot :
  0 <= minimum_balance 0 -> 0 < MAX_BPS < ONE -> 0 <= os_operator_fee_bps snap <= MAX_BPS ->
  os_inv snap -> (k < 8)%nat -> named_vaults k snap ->
  body (ns_router s0) = NcnRewardRouter.new (NcnFeeGroup.mk (Z.of_nat k)) operator
    (os_ncn_operator_index snap) ncn epoch bump slot ->
  EpochState.update_realloc_ncn_reward_router es0 (Z.to_nat (os_ncn_operator_index snap)) (NcnFeeGroup.mk (Z.of_nat k))
    = Ok (body (ns_state s0)) ->
  minimum_balance 0 <= acc_lamports (ns_receiver s0) -> star (ncn_step MAX_BPS program_id snap k) s0 s ->
  star (ledger_step (minimum_balance 0)) (mkLedger 0 0 0 (acc_lamports (ns_receiver s0))) (ncn_ledger snap k s) /\
  solvent (minimum_balance 0) (ncn_ledger snap k s) /\ nr_inv (snapshot_vaults snap) (body (ns_router s)) /\
  exists p, ncn_progress snap k (body (ns_state s)) = Ok p /\
    (nr_total_rewards (body (ns_router s)) < u64_max ->
     Progress.is_complete p = true <->
     nr_reward_pool (body (ns_router s)) = 0 /\ nr_operator_rewards (body (ns_router s)) = 0 /\
     sumZ vr_rewards (nr_vault_reward_routes (body (ns_router s))) = 0).
Proof.
  intros Hrent HB Hfee Hsnap Hk Hnamed Hr0 Hes0 Hfund Hstar.
  assert (Hp0 : ncn_progress snap k (body (ns_state s0)) = Ok (Progress.new 0)).
  { unfold EpochState.update_realloc_ncn_reward_router in Hes0. unfold ncn_progress, EpochState.ncn_distribution_progress.
    apply bind_Ok in Hes0 as (st & _ & Hes0). apply bind_Ok in Hes0 as (i & Hi & Hes0). rewrite Hi.
    apply bind_Ok in Hes0 as (l & Hl & Hes0). injection Hes0 as <-. cbn [mbind result_bind]. array_inv.
    unfold aget. cbn. rewrite list_lookup_insert_eq; [done|].
    exact Hl. }
  assert (Hinit : ncn_side_ok snap k s0).
  { split; rewrite ?Hr0; [apply new_nr_inv|done|done|]. by exists (Progress.new 0). }
  assert (Hl0 : ncn_ledger snap k s0 = mkLedger 0 0 0 (acc_lamports (ns_receiver s0)))
    by (unfold ncn_ledger; by rewrite Hp0, Hr0).
  pose (side := ncn_reward_side MAX_BPS program_id snap k Hrent HB Hfee Hsnap Hk Hnamed).
  destruct (side_star_refines (H := side) s0 s Hinit Hstar) as [Hok Hls].
  destruct (side_star_solvent (H := side) s0 s Hinit) as (_ & Hsol & _); [|done|].
  { cbn. rewrite Hl0. unfold solvent. cbn. lia. }
  cbn in Hls, Hsol. rewrite Hl0 in Hls. split; [done|]. split; [done|]. split; [apply Hok|].
  destruct Hok as [Hr _ _ (p & Hp & Hto)]. exists p. split; [done|]. intros Hmax.
  destruct Hsol as (_ & Hpaid & _). unfold ncn_ledger in Hpaid. rewrite Hp in Hpaid. cbn in Hpaid.
  pose proof (np_held _ _ _ Hr). pose proof (np_pool _ _ _ Hr). pose proof (np_total _ _ _ Hr).
  pose proof (np_sum_nonneg _ _ _ Hr). pose proof (np_operator _ _ _ Hr).
  unfold Progress.is_complete, Progress.is_invalid, Progress.INVALID. rewrite Hto. ztests. lia.
Qed.
End properties.

(* ------------------------------------------------------------------ *)
(** * An operator's rewards, routed and paid *)

Module NcnSideWitness.
Import ConcreteSolana ConcretePrograms ConfigWitness VoteWitness NcnRewardWitness.

Definition router_account : AccountInfo :=
  program_account (NcnRewardRouter.find_program_address pid NcnFeeGroup.lst (key 1) (key 9) 5).1.1 DNcnRewardRouter.
Definition receiver_key : Pubkey := (NcnRewardReceiver.find_program_address pid NcnFeeGroup.lst (key 1) (key 9) 5).1.1.
Definition get_ok {A} (d : A) (r : res A) : A := match r with Ok a => a | Err _ => d end.
Definition epoch_state : EpochState := EpochState.set_total_distribution_progress (body VoteWitness.es0) (Progress.new 0).
Definition side0 : NcnSide := mkNcnSide
  (with_body VoteWitness.es0 (get_ok epoch_state
     (EpochState.update_realloc_ncn_reward_router epoch_state (Z.to_nat (os_ncn_operator_index snap)) NcnFeeGroup.lst)))
  (mkAcct router_account (NcnRewardRouter.new NcnFeeGroup.lst (key 1) (os_ncn_operator_index snap) (key 9) 5 255 100))
  (system_account receiver_key (minimum_balance 0)).
Definition side1 : NcnSide := mkNcnSide (ns_state side0) (ns_router side0)
  (with_lamports (ns_receiver side0) (acc_lamports (ns_receiver side0) + 52631)).
Definition routed : Acct EpochState * Acct NcnRewardRouter := get_ok (ns_state side1, ns_router side1)
  (process_route_ncn_rewards (H0 := U256Precise.ops) 10000 pid (ns_state side1) ConfigWitness.ncn VoteWitness.operator
     VoteWitness.os (ns_router side1) (ns_receiver side1) (Z.of_nat 0) 64 5).
Definition side2 : NcnSide := mkNcnSide routed.1 routed.2 (ns_receiver side1).
Definition ata : AccountInfo := system_account (key 60) 1.
Definition pool : AccountInfo := system_account spl_stake_pool_id 1.
Definition paid : Acct EpochState * Acct NcnRewardRouter * AccountInfo * AccountInfo :=
  get_ok (ns_state side2, ns_router side2, ns_receiver side2, ata)
    (process_distribute_ncn_operator_rewards pid (ns_state side2) c0 ConfigWitness.ncn VoteWitness.operator ata
       VoteWitness.os (ns_router side2) (ns_receiver side2) pool [] (Z.of_nat 0) 5).
Definition side3 : NcnSide := mkNcnSide paid.1.1.1 paid.1.1.2 paid.1.2.

Lemma ncn_route_run :
  process_route_ncn_rewards (H0 := U256Precise.ops) 10000 pid (ns_state side1) ConfigWitness.ncn VoteWitness.operator
    VoteWitness.os (ns_router side1) (ns_receiver side1) (Z.of_nat 0) 64 5 = Ok (routed.1, routed.2).
Proof. vm_compute. reflexivity. Qed.

Lemma pay_run :
  process_distribute_ncn_operator_rewards pid (ns_state side2) c0 ConfigWitness.ncn VoteWitness.operator ata
    VoteWitness.os (ns_router side2) (ns_receiver side2) pool [] (Z.of_nat 0) 5
  = Ok (paid.1.1.1, paid.1.1.2, paid.1.2, paid.2).
Proof. vm_compute. reflexivity. Qed.

Lemma ncn_side_steps : star (ncn_step (O := U256Precise.ops) 10000 pid snap 0) side0 side3.
Proof.
  apply (star_step _ side1); [apply ns_tips; lia|]. apply (star_step _ side2).
  - exact (ns_route (O := U256Precise.ops) 10000 pid snap 0 side1 ConfigWitness.ncn VoteWitness.operator VoteWitness.os
      64 5 routed.1 routed.2 eq_refl ncn_route_run).
  - apply (star_step _ side3); [|apply star_refl].
    exact (ns_operator (O := U256Precise.ops) 10000 pid snap 0 side2 c0 ConfigWitness.ncn VoteWitness.operator ata
      VoteWitness.os pool [] 5 paid.1.1.1 paid.1.1.2 paid.1.2 paid.2 eq_refl pay_run).
Qed.
End NcnSideWitness.
Import ConcreteSolana ConcretePrograms NcnSideWitness ConfigWitness NcnRewardWitness.

Lemma ncn_side_solvent_witness :
  solvent (minimum_balance 0) (ncn_ledger snap 0 side3) /\ lg_total (ncn_ledger snap 0 side3) = 52631 /\
  0 < lg_paid (ncn_ledger snap 0 side3) < 52631.
Proof.
  destruct (ncn_side_solvent (L := U256Precise.laws) 10000 pid snap 0 side0 side3 epoch_state (key 1) (key 9) 5 255 100)
    as (_ & Hs & _).
  - exact BaseSideWitness.rent_nonneg.
  - split; reflexivity.
  - vm_compute. split; discriminate.
  - exact snap_inv.
  - lia.
  - exact snap_named.
  - reflexivity.
  - vm_compute. reflexivity.
  - vm_compute. discriminate.
  - exact ncn_side_steps.
  - split; [exact Hs|vm_compute; repeat split].
Defined.
