(* ===== verification/VotingWindow.v ===== *)
(** Voting and routing exclude each other, up to one slot: an accepted
    routing call freezes the ballot box, and the window in which votes are
    accepted and the one in which the epoch state calls routing possible. *)

From Stdlib Require Import String.
From S2P Require Import Prelude Errors External Constants Accounts FeeGroups Fees Config StakeWeight EpochSnapshot EpochState BallotBox BallotBoxProps BallotBoxTheorems BaseRewardRouter BaseRewardTheorems RewardHandlers VoteHandlers BaseSide.

(** A window that is over stays over, for no larger windows. *)
Lemma window_closed b slot valid slot' valid' :
  BallotBox.is_voting_valid b slot valid = Ok false -> slot <= slot' -> 0 <= valid' <= valid ->
  BallotBox.is_voting_valid b slot' valid' = Ok false.
Proof.
  unfold BallotBox.is_voting_valid. destruct (BallotBox.tie_breaker_set b); [done|].
  destruct (BallotBox.is_consensus_reached b); [|done]. intros Hv Hs Hl. res_inv.
  rewrite checked_add_ok by lia. cbn. f_equal.
  match goal with Hx : Z.leb _ _ = false |- _ => apply Z.leb_gt in Hx end. apply Z.leb_gt. lia.
Qed.

(** The windows, written out for a vote decided without a tie breaker. *)
Lemma windows es b slot valid :
  vote_link es b -> BallotBox.is_consensus_reached b = true -> BallotBox.tie_breaker_set b = false ->
  bb_slot_consensus_reached b + valid < U64 ->
  BallotBox.is_voting_valid b slot valid = Ok (slot <=? bb_slot_consensus_reached b + valid) /\
  EpochState.can_start_routing es valid slot = Ok (bb_slot_consensus_reached b + valid <=? slot).
Proof.
  intros [Hs Hd Ht Hv] Hc Htb Hb. specialize (Hs Htb). split.
  - unfold BallotBox.is_voting_valid. rewrite Htb, Hc. by rewrite checked_add_ok by lia.
  - unfold EpochState.can_start_routing. rewrite Hd, Hc. cbn [negb].
    unfold EpochState.is_consensus_reached in Hd. rewrite Hc in Hd. apply negb_true_iff in Hd.
    unfold EpochState.get_slot_consensus_reached. rewrite Hd. cbn [mbind result_bind]. rewrite Hs.
    by rewrite checked_add_ok by lia.
Qed.

Section properties.
Context `{Solana} `{PreciseNumberOps} `{Programs}.

(** C16: once a call that routes base rewards was accepted, the ballot box
    it read is frozen: at this or any later slot, with the same or a smaller
    number of valid slots, no vote of any operator is accepted, and no tie
    breaker is; rewards are therefore routed by one fixed set of votes. *)
Theorem routing_freezes_votes program_id clock es config ncn snap bb br receiver m epoch out :
  process_route_base_rewards program_id clock es config ncn snap bb br receiver m epoch = Ok out ->
  BallotBox.is_consensus_reached (body bb) = true /\
  (forall clock' es' config' ncn' snap' os operator voter root epoch',
     clock_slot clock <= clock_slot clock' ->
     0 <= cf_valid_slots_after_consensus (body config') <= cf_valid_slots_after_consensus (body config) ->
     ~ is_ok (process_cast_vote program_id clock' es' config' bb ncn' snap' os operator voter root epoch')) /\
  (forall clock' es' config' ncn' tie_breaker root epoch',
     ~ is_ok (process_admin_set_tie_breaker program_id clock' es' config' bb ncn' tie_breaker root epoch')).
Proof.
  intros Hp. unfold process_route_base_rewards in Hp. res_inv.
  assert (Hc : BallotBox.is_consensus_reached (body bb) = true).
  { match goal with Hr : BaseRewardRouter.route_ncn_fee_group_rewards _ _ _ = Ok _ |- _ =>
      unfold BaseRewardRouter.route_ncn_fee_group_rewards in Hr; apply bind_Ok in Hr as (t & Ht & _) end.
    unfold BallotBox.get_winning_ballot_tally in Ht. unfold BallotBox.is_consensus_reached.
    destruct (ballot_is_valid (bb_winning_ballot (body bb))); [apply orb_true_r|done]. }
  split; [done|]. split.
  - intros clock' es' config' ncn' snap' os operator voter root epoch' Hs Hv [[es2 bb2] Hr].
    apply process_cast_vote_body in Hr as (_ & _ & _ & b1 & Hcv & _).
    unfold BallotBox.cast_vote in Hcv. erewrite window_closed in Hcv by eassumption. done.
  - intros clock' es' config' ncn' tie_breaker root epoch' [[es2 bb2] Hr].
    unfold process_admin_set_tie_breaker in Hr. res_inv.
    match goal with Ht : BallotBox.set_tie_breaker_ballot _ _ _ _ = Ok _ |- _ =>
      apply set_tie_breaker_ballot_spec in Ht as (Hn & _) end. congruence.
Qed.

(** for a vote decided at slot [c] without a tie breaker, and [v] valid
    slots, votes are accepted up to and including slot [c + v], while the
    epoch state lets routing start from slot [c + v] on: at every slot one of
    the two is open, and at slot [c + v] both are, although the instruction
    that routes fails there because voting is not over. *)
Theorem windows_overlap program_id clock es config ncn snap bb br receiver m epoch c v :
  vote_link (body es) (body bb) -> BallotBox.is_consensus_reached (body bb) = true ->
  BallotBox.tie_breaker_set (body bb) = false -> c = bb_slot_consensus_reached (body bb) -> c + v < U64 ->
  (forall slot, BallotBox.is_voting_valid (body bb) slot v = Ok true \/ EpochState.can_start_routing (body es) v slot = Ok true) /\
  (forall slot, BallotBox.is_voting_valid (body bb) slot v = Ok true /\ EpochState.can_start_routing (body es) v slot = Ok true
     <-> slot = c + v) /\
  (clock_slot clock = c + v -> cf_valid_slots_after_consensus (body config) = v ->
   ~ is_ok (process_route_base_rewards program_id clock es config ncn snap bb br receiver m epoch)).
Proof.
  intros Hl Hc Htb -> Hb. set (c := bb_slot_consensus_reached (body bb)) in *.
  pose proof (fun slot => windows (body es) (body bb) slot v Hl Hc Htb Hb) as Hw. fold c in Hw.
  split; [|split].
  - intros slot. destruct (Hw slot) as [-> ->].
    destruct (Z.leb_spec slot (c + v)), (Z.leb_spec (c + v) slot); auto; lia.
  - intros slot. destruct (Hw slot) as [-> ->].
    destruct (Z.leb_spec slot (c + v)), (Z.leb_spec (c + v) slot); split; intros Hx; try lia; try done;
      by destruct Hx as [[=] [=]].
  - intros Hs Hv [out Hp]. unfold process_route_base_rewards in Hp. revert Hs Hv. res_inv. intros Hs Hv.
    match goal with Hx : BallotBox.is_voting_valid _ _ _ = Ok _ |- _ => rewrite Hs, Hv in Hx;
      destruct (Hw (c + v)) as [Hw1 _]; rewrite Hw1, Z.leb_refl in Hx end. done.
Qed.
End properties.

(* ------------------------------------------------------------------ *)
(** * Witnesses *)

Import ConcreteSolana ConcretePrograms ConfigWitness BaseSideWitness BallotBoxTheorems.BallotBoxWitness.

Lemma routing_freezes_votes_witness :
  ~ is_ok (process_cast_vote (H0 := U256Precise.ops) pid (mkClock 10001 5) (bs_state side1) c0 box ncn snapshot
             VoteWitness.os VoteWitness.operator admin (root 7) 5).
Proof.
  destruct (routing_freezes_votes (H0 := U256Precise.ops) pid (mkClock 10000 5) (bs_state side1) c0 ncn snapshot box
    (bs_router side1) (bs_receiver side1) 65535 5 (routed.1, routed.2)) as (_ & Hv & _).
  - exact base_route_run.
  - apply Hv; vm_compute; [discriminate|split; discriminate].
Defined.

Lemma windows_overlap_witness :
  BallotBox.is_voting_valid (body VoteWitness.bb2) 111 10 = Ok true /\
  EpochState.can_start_routing (body VoteWitness.es2) 10 111 = Ok true.
Proof.
  destruct (windows_overlap (H0 := U256Precise.ops) pid (mkClock 111 5) VoteWitness.es2 c0 ncn snapshot VoteWitness.bb2
    (bs_router side1) (bs_receiver side1) 65535 5 101 10) as (_ & Hw & _).
  - split; vm_compute; reflexivity.
  - vm_compute. reflexivity.
  - vm_compute. reflexivity.
  - vm_compute. reflexivity.
  - vm_compute. reflexivity.
  - by apply Hw.
Defined.
