(* ===== verification/SetupHandlers.v ===== *)
(** The instructions that create and grow the accounts of an NCN and of an
    epoch (program/src/initialize_*.rs, realloc_*.rs).  An account is created
    with at most 10240 bytes and grown to its size by further calls; the call
    that reaches the size writes the discriminator and the first contents. *)

From Stdlib Require Import String.
From S2P Require Import Prelude Errors External Restaking Constants Accounts FeeGroups Fees Config StakeWeight VaultRegistry WeightTable EpochSnapshot EpochState BallotBox BaseRewardRouter NcnRewardRouter.

Definition data_len (a : AccountInfo) : Z := Z.of_nat (length (acc_data a)).

(** [8 + size_of]: the fees take [8 + 128 + 16 + 16] bytes, the stake weights
    [16 + 8 * 16]. *)
Definition EpochSnapshot_SIZE : Z := 8 + (32 + 8 + 1 + 8 + 8 + 168 + 8 + 8 + 8 + 8 + 144 + 128).
Definition OperatorSnapshot_SIZE : Z :=
  8 + (32 + 32 + 8 + 1 + 8 + 8 + 1 + 8 + 8 + 2 + 8 + 8 + 8 + 144 + 256 + 64 * (32 + 8 + 1 + 144 + 32)).

(** [data[0] = DISCRIMINATOR] *)
Definition write_discriminator (a : AccountInfo) (d : Discriminators) : res AccountInfo :=
  data ← aset (acc_data a) 0 (discriminator d); mret (with_data a data).

Section handlers.
Context `{Solana} `{PreciseNumberOps} `{Programs} `{Restaking}.

(* ------------------------------------------------------------------ *)
(** * Creation *)

(** The last steps of every creation: the address check and the account. *)
Definition create_at (program_id ncn : Pubkey) (pda : Pubkey * Z * list (list Z)) (e : error)
    (account_payer account : AccountInfo) (space : Z) : res (AccountInfo * AccountInfo) :=
  let '(address, bump, seeds) := pda in
  if negb (bool_decide (address = acc_key account)) then Err e else
  AccountPayer.pay_and_create_account program_id ncn account_payer account program_id space (seeds ++ [[bump]]).

Definition process_initialize_vault_registry (program_id : Pubkey)
    (ncn_config : Acct Config) (vault_registry ncn account_payer system_program : AccountInfo)
    : res (AccountInfo * AccountInfo) :=
  _ ← load_system_account vault_registry true;
  _ ← load_system_program system_program;
  _ ← ncn_load ncn false;
  _ ← Config.load program_id (info ncn_config) (acc_key ncn) false;
  _ ← AccountPayer.load program_id account_payer (acc_key ncn) true;
  create_at program_id (acc_key ncn) (VaultRegistry.find_program_address program_id (acc_key ncn)) (Prog InvalidSeeds)
    account_payer vault_registry MAX_REALLOC_BYTES.

Definition process_initialize_epoch_state (program_id : Pubkey) (clock : Clock) (epoch_marker epoch_state : AccountInfo)
    (config : Acct Config) (ncn account_payer system_program : AccountInfo) (epoch : Z)
    : res (AccountInfo * AccountInfo) :=
  if clock_epoch clock <? epoch then Err (Prog InvalidArgument) else
  _ ← load_system_account epoch_state true;
  _ ← load_system_program system_program;
  _ ← ncn_load ncn false;
  _ ← Config.load program_id (info config) (acc_key ncn) false;
  _ ← AccountPayer.load program_id account_payer (acc_key ncn) true;
  _ ← EpochMarker.check_dne program_id epoch_marker (acc_key ncn) epoch;
  if epoch <? cf_starting_valid_epoch (body config) then Err (Prog InvalidArgument) else
  create_at program_id (acc_key ncn) (EpochState.find_program_address program_id (acc_key ncn) epoch) (Prog InvalidSeeds)
    account_payer epoch_state MAX_REALLOC_BYTES.

Definition process_initialize_weight_table (program_id : Pubkey) (epoch_marker : AccountInfo)
    (epoch_state : Acct EpochState) (vault_registry : Acct VaultRegistry)
    (ncn weight_table account_payer system_program : AccountInfo) (epoch : Z) : res (AccountInfo * AccountInfo) :=
  _ ← EpochState.load_and_check_is_closing program_id (info epoch_state) (body epoch_state) (acc_key ncn) epoch false;
  _ ← VaultRegistry.load program_id (info vault_registry) (acc_key ncn) false;
  _ ← ncn_load ncn false;
  _ ← AccountPayer.load program_id account_payer (acc_key ncn) true;
  _ ← EpochMarker.check_dne program_id epoch_marker (acc_key ncn) epoch;
  _ ← load_system_account weight_table true;
  _ ← load_system_program system_program;
  vault_count ← ncn_vault_count_of ncn;
  let vault_registry_count := VaultRegistry.vault_count (body vault_registry) in
  if negb (vault_count =? vault_registry_count) then Err (Prog InvalidAccountData) else
  create_at program_id (acc_key ncn) (WeightTable.find_program_address program_id (acc_key ncn) epoch)
    (Prog InvalidAccountData) account_payer weight_table MAX_REALLOC_BYTES.

Definition process_initialize_epoch_snapshot (program_id : Pubkey) (clock : Clock) (epoch_marker : AccountInfo)
    (epoch_state : Acct EpochState) (config : Acct Config) (ncn : AccountInfo) (weight_table : Acct WeightTable)
    (epoch_snapshot account_payer system_program : AccountInfo) (epoch : Z)
    : res (AccountInfo * Acct EpochSnapshot * Acct EpochState) :=
  _ ← EpochState.load_and_check_is_closing program_id (info epoch_state) (body epoch_state) (acc_key ncn) epoch true;
  _ ← Config.load program_id (info config) (acc_key ncn) false;
  _ ← ncn_load ncn false;
  _ ← AccountPayer.load program_id account_payer (acc_key ncn) true;
  _ ← EpochMarker.check_dne program_id epoch_marker (acc_key ncn) epoch;
  _ ← load_system_account epoch_snapshot true;
  _ ← load_system_program system_program;
  let current_slot := clock_slot clock in
  let ncn_epoch := epoch in
  _ ← WeightTable.load program_id (info weight_table) (acc_key ncn) ncn_epoch false;
  if negb (WeightTable.finalized (body weight_table)) then Err (Tip WeightTableNotFinalized) else
  let vault_count := wt_vault_count (body weight_table) in
  let pda := EpochSnapshot.find_program_address program_id (acc_key ncn) ncn_epoch in
  '(account_payer, epoch_snapshot) ← create_at program_id (acc_key ncn) pda (Prog InvalidAccountData)
    account_payer epoch_snapshot EpochSnapshot_SIZE;
  let ncn_fees := FeeConfig.current_fees (cf_fee_config (body config)) ncn_epoch in
  operator_count ← ncn_operator_count_of ncn;
  if operator_count =? 0 then Err (Tip NoOperators) else
  epoch_snapshot ← write_discriminator epoch_snapshot DEpochSnapshot;
  let contents := EpochSnapshot.new (acc_key ncn) ncn_epoch pda.1.2 current_slot ncn_fees operator_count vault_count in
  let state := EpochState.update_initialize_epoch_snapshot (body epoch_state) operator_count in
  mret (account_payer, mkAcct epoch_snapshot contents, with_body epoch_state state).

Definition process_initialize_operator_snapshot (program_id : Pubkey) (epoch_marker : AccountInfo)
    (epoch_state : Acct EpochState) (config : Acct Config) (ncn operator ncn_operator_state : AccountInfo)
    (epoch_snapshot : Acct EpochSnapshot) (operator_snapshot account_payer system_program : AccountInfo) (epoch : Z)
    : res (AccountInfo * AccountInfo) :=
  _ ← EpochState.load_and_check_is_closing program_id (info epoch_state) (body epoch_state) (acc_key ncn) epoch false;
  _ ← Config.load program_id (info config) (acc_key ncn) false;
  _ ← ncn_load ncn false;
  _ ← operator_load operator false;
  _ ← ncn_operator_state_load ncn_operator_state ncn operator false;
  _ ← EpochSnapshot.load program_id (info epoch_snapshot) (acc_key ncn) epoch false;
  _ ← load_system_account operator_snapshot true;
  _ ← load_system_program system_program;
  _ ← AccountPayer.load program_id account_payer (acc_key ncn) true;
  _ ← EpochMarker.check_dne program_id epoch_marker (acc_key ncn) epoch;
  let pda := OperatorSnapshot.find_program_address program_id (acc_key operator) (acc_key ncn) epoch in
  if negb (bool_decide (pda.1.1 = acc_key operator_snapshot)) then Err (Prog InvalidAccountData) else
  let operator_count := es_operator_count (body epoch_snapshot) in
  operator_index ← ncn_operator_state_index_of ncn_operator_state;
  if operator_count <=? operator_index then Err (Tip OperatorIsNotInSnapshot) else
  AccountPayer.pay_and_create_account program_id (acc_key ncn) account_payer operator_snapshot program_id
    MAX_REALLOC_BYTES (pda.2 ++ [[pda.1.2]]).

Definition process_initialize_ballot_box (program_id : Pubkey) (epoch_marker : AccountInfo) (epoch_state : Acct EpochState)
    (ncn_config : Acct Config) (ballot_box ncn account_payer system_program : AccountInfo) (epoch : Z)
    : res (AccountInfo * AccountInfo) :=
  _ ← load_system_account ballot_box true;
  _ ← load_system_program system_program;
  _ ← ncn_load ncn false;
  _ ← EpochState.load_and_check_is_closing program_id (info epoch_state) (body epoch_state) (acc_key ncn) epoch false;
  _ ← Config.load program_id (info ncn_config) (acc_key ncn) false;
  _ ← AccountPayer.load program_id account_payer (acc_key ncn) true;
  _ ← EpochMarker.check_dne program_id epoch_marker (acc_key ncn) epoch;
  create_at program_id (acc_key ncn) (BallotBox.find_program_address program_id (acc_key ncn) epoch) (Prog InvalidSeeds)
    account_payer ballot_box MAX_REALLOC_BYTES.

Definition process_initialize_base_reward_router (program_id : Pubkey) (epoch_marker : AccountInfo)
    (epoch_state : Acct EpochState) (ncn base_reward_router base_reward_receiver account_payer system_program : AccountInfo)
    (epoch : Z) : res (AccountInfo * AccountInfo * AccountInfo) :=
  _ ← EpochState.load_and_check_is_closing program_id (info epoch_state) (body epoch_state) (acc_key ncn) epoch false;
  _ ← ncn_load ncn false;
  _ ← BaseRewardReceiver.load program_id base_reward_receiver (acc_key ncn) epoch true;
  _ ← AccountPayer.load program_id account_payer (acc_key ncn) true;
  _ ← EpochMarker.check_dne program_id epoch_marker (acc_key ncn) epoch;
  _ ← load_system_account base_reward_router true;
  _ ← load_system_program system_program;
  '(account_payer, base_reward_router) ←
    create_at program_id (acc_key ncn) (BaseRewardRouter.find_program_address program_id (acc_key ncn) epoch)
      (Prog InvalidAccountData) account_payer base_reward_router MAX_REALLOC_BYTES;
  let min_rent := minimum_balance 0 in
  '(account_payer, base_reward_receiver) ←
    AccountPayer.transfer program_id (acc_key ncn) account_payer base_reward_receiver min_rent;
  mret (account_payer, base_reward_router, base_reward_receiver).

Definition process_initialize_ncn_reward_router (program_id : Pubkey) (clock : Clock) (epoch_marker : AccountInfo)
    (epoch_state : Acct EpochState) (ncn operator : AccountInfo) (operator_snapshot : Acct OperatorSnapshot)
    (ncn_reward_router ncn_reward_receiver account_payer system_program : AccountInfo) (ncn_fee_group epoch : Z)
    : res (AccountInfo * Acct NcnRewardRouter * AccountInfo * Acct EpochState) :=
  _ ← EpochState.load_and_check_is_closing program_id (info epoch_state) (body epoch_state) (acc_key ncn) epoch true;
  _ ← ncn_load ncn false;
  _ ← operator_load operator false;
  _ ← OperatorSnapshot.load program_id (info operator_snapshot) (acc_key operator) (acc_key ncn) epoch false;
  receiver_group ← NcnFeeGroup.try_from ncn_fee_group;
  _ ← NcnRewardReceiver.load program_id ncn_reward_receiver receiver_group (acc_key operator) (acc_key ncn) epoch true;
  _ ← load_system_account ncn_reward_router true;
  _ ← load_system_program system_program;
  _ ← AccountPayer.load program_id account_payer (acc_key ncn) true;
  _ ← EpochMarker.check_dne program_id epoch_marker (acc_key ncn) epoch;
  let operator_ncn_index := os_ncn_operator_index (body operator_snapshot) in
  ncn_fee_group ← NcnFeeGroup.try_from ncn_fee_group;
  let current_slot := clock_slot clock in
  let pda := NcnRewardRouter.find_program_address program_id ncn_fee_group (acc_key operator) (acc_key ncn) epoch in
  '(account_payer, ncn_reward_router) ← create_at program_id (acc_key ncn) pda (Prog InvalidAccountData)
    account_payer ncn_reward_router NcnRewardRouter.SIZE;
  ncn_reward_router ← write_discriminator ncn_reward_router DNcnRewardRouter;
  let contents := NcnRewardRouter.new ncn_fee_group (acc_key operator) operator_ncn_index (acc_key ncn) epoch
    pda.1.2 current_slot in
  let min_rent := minimum_balance 0 in
  '(account_payer, ncn_reward_receiver) ←
    AccountPayer.transfer program_id (acc_key ncn) account_payer ncn_reward_receiver min_rent;
  state ← EpochState.update_realloc_ncn_reward_router (body epoch_state) (Z.to_nat operator_ncn_index) ncn_fee_group;
  mret (account_payer, mkAcct ncn_reward_router contents, ncn_reward_receiver, with_body epoch_state state).

(* ------------------------------------------------------------------ *)
(** * Growth and first contents *)

(** One reallocation step of an account below its size [size]. *)
Definition grow (program_id ncn : Pubkey) (account_payer account : AccountInfo) (size : Z)
    : res (AccountInfo * AccountInfo) :=
  if data_len account <? size then
    new_size ← get_new_size (data_len account) size;
    AccountPayer.pay_and_realloc program_id ncn account_payer account new_size
  else Ok (account_payer, account).

(** The account has its size and no discriminator yet. *)
Definition should_initialize (account : AccountInfo) (size : Z) (d : Discriminators) : res bool :=
  if size <=? data_len account then b ← aget (acc_data account) 0; mret (negb (b =? discriminator d))
  else Ok false.

Definition process_realloc_vault_registry (program_id : Pubkey) (ncn_config : Acct Config)
    (vault_registry : Acct VaultRegistry) (ncn account_payer system_program : AccountInfo)
    : res (AccountInfo * Acct VaultRegistry) :=
  _ ← load_system_program system_program;
  _ ← ncn_load ncn false;
  _ ← Config.load program_id (info ncn_config) (acc_key ncn) false;
  _ ← AccountPayer.load program_id account_payer (acc_key ncn) true;
  let '(vault_registry_pda, vault_registry_bump, _) := VaultRegistry.find_program_address program_id (acc_key ncn) in
  if negb (bool_decide (vault_registry_pda = acc_key (info vault_registry))) then Err (Prog InvalidSeeds) else
  '(account_payer, account) ← grow program_id (acc_key ncn) account_payer (info vault_registry) VaultRegistry.SIZE;
  init ← should_initialize account VaultRegistry.SIZE DVaultRegistry;
  if init : bool then
    account ← write_discriminator account DVaultRegistry;
    mret (account_payer, mkAcct account (VaultRegistry.initialize (body vault_registry) (acc_key ncn) vault_registry_bump))
  else mret (account_payer, mkAcct account (body vault_registry)).

Definition process_realloc_epoch_state (program_id : Pubkey) (clock : Clock) (epoch_state : Acct EpochState)
    (config : Acct Config) (ncn account_payer system_program : AccountInfo) (epoch : Z)
    : res (AccountInfo * Acct EpochState) :=
  _ ← load_system_program system_program;
  _ ← ncn_load ncn false;
  _ ← Config.load program_id (info config) (acc_key ncn) false;
  _ ← AccountPayer.load program_id account_payer (acc_key ncn) true;
  let '(epoch_state_pda, epoch_state_bump, _) := EpochState.find_program_address program_id (acc_key ncn) epoch in
  if negb (bool_decide (epoch_state_pda = acc_key (info epoch_state))) then Err (Prog InvalidAccountData) else
  '(account_payer, account) ← grow program_id (acc_key ncn) account_payer (info epoch_state) EpochState.SIZE;
  init ← should_initialize account EpochState.SIZE DEpochState;
  if init : bool then
    account ← write_discriminator account DEpochState;
    let state := EpochState.initialize (body epoch_state) (acc_key ncn) epoch epoch_state_bump (clock_slot clock) in
    mret (account_payer, mkAcct account (EpochState.update_realloc_epoch_state state))
  else mret (account_payer, mkAcct account (body epoch_state)).

Definition process_realloc_weight_table (program_id : Pubkey) (clock : Clock) (epoch_state : Acct EpochState)
    (ncn_config : Acct Config) (weight_table : Acct WeightTable) (ncn : AccountInfo) (vault_registry : Acct VaultRegistry)
    (account_payer system_program : AccountInfo) (epoch : Z)
    : res (Acct EpochState * AccountInfo * Acct WeightTable) :=
  _ ← load_system_program system_program;
  _ ← ncn_load ncn false;
  _ ← EpochState.load program_id (info epoch_state) (acc_key ncn) epoch true;
  _ ← Config.load program_id (info ncn_config) (acc_key ncn) false;
  _ ← VaultRegistry.load program_id (info vault_registry) (acc_key ncn) false;
  _ ← AccountPayer.load program_id account_payer (acc_key ncn) true;
  let '(weight_table_pda, weight_table_bump, _) := WeightTable.find_program_address program_id (acc_key ncn) epoch in
  if negb (bool_decide (weight_table_pda = acc_key (info weight_table))) then Err (Prog InvalidAccountData) else
  '(account_payer, account) ← grow program_id (acc_key ncn) account_payer (info weight_table) WeightTable.SIZE;
  init ← should_initialize account WeightTable.SIZE DWeightTable;
  if init : bool then
    let vault_count := VaultRegistry.vault_count (body vault_registry) in
    let st_mint_count := VaultRegistry.st_mint_count (body vault_registry) in
    account ← write_discriminator account DWeightTable;
    table ← WeightTable.initialize (body weight_table) (acc_key ncn) epoch (clock_slot clock) vault_count
              weight_table_bump (vr_vault_list (body vault_registry)) (vr_st_mint_list (body vault_registry));
    let state := EpochState.update_realloc_weight_table (body epoch_state) vault_count st_mint_count in
    mret (with_body epoch_state state, account_payer, mkAcct account table)
  else mret (epoch_state, account_payer, mkAcct account (body weight_table)).

Definition process_realloc_operator_snapshot (program_id : Pubkey) (clock : Clock) (epoch_state : Acct EpochState)
    (ncn_config : Acct Config) (restaking_config ncn operator ncn_operator_state : AccountInfo)
    (epoch_snapshot : Acct EpochSnapshot) (operator_snapshot : Acct OperatorSnapshot)
    (account_payer system_program : AccountInfo) (epoch : Z)
    : res (Acct EpochState * Acct EpochSnapshot * Acct OperatorSnapshot * AccountInfo) :=
  _ ← EpochState.load program_id (info epoch_state) (acc_key ncn) epoch true;
  _ ← Config.load program_id (info ncn_config) (acc_key ncn) false;
  _ ← restaking_config_load restaking_config false;
  _ ← ncn_load ncn false;
  _ ← operator_load operator false;
  _ ← ncn_operator_state_load ncn_operator_state ncn operator false;
  _ ← EpochSnapshot.load program_id (info epoch_snapshot) (acc_key ncn) epoch true;
  _ ← AccountPayer.load program_id account_payer (acc_key ncn) true;
  _ ← load_system_program system_program;
  let '(operator_snapshot_pda, operator_snapshot_bump, _) :=
    OperatorSnapshot.find_program_address program_id (acc_key operator) (acc_key ncn) epoch in
  if negb (bool_decide (operator_snapshot_pda = acc_key (info operator_snapshot))) then Err (Prog InvalidAccountData) else
  '(account_payer, account) ← grow program_id (acc_key ncn) account_payer (info operator_snapshot) OperatorSnapshot_SIZE;
  init ← should_initialize account OperatorSnapshot_SIZE DOperatorSnapshot;
  if init : bool then
    let current_slot := clock_slot clock in
    '(_, ncn_epoch_length) ← load_ncn_epoch config_epoch_length restaking_config current_slot None;
    ncn_operator_okay ← ncn_opt_in_is_active ncn_operator_state current_slot ncn_epoch_length;
    operator_ncn_okay ← operator_opt_in_is_active_or_cooldown ncn_operator_state current_slot ncn_epoch_length;
    ncn_operator_index ← ncn_operator_state_index_of ncn_operator_state;
    let is_active := ncn_operator_okay && operator_ncn_okay in
    let vault_count := es_vault_count (body epoch_snapshot) in
    operator_fee_bps ← operator_fee_bps_of operator;
    operator_index ← operator_index_of operator;
    account ← write_discriminator account DOperatorSnapshot;
    snapshot ← OperatorSnapshot.initialize (body operator_snapshot) (acc_key operator) (acc_key ncn) epoch
                 operator_snapshot_bump current_slot is_active ncn_operator_index operator_index operator_fee_bps
                 vault_count;
    epoch_contents ← (if negb is_active
                      then EpochSnapshot.increment_operator_registration (body epoch_snapshot) current_slot 0
                             StakeWeights.default
                      else Ok (body epoch_snapshot));
    state ← EpochState.update_realloc_operator_snapshot (body epoch_state) (Z.to_nat ncn_operator_index) is_active;
    mret (with_body epoch_state state, with_body epoch_snapshot epoch_contents, mkAcct account snapshot, account_payer)
  else mret (epoch_state, epoch_snapshot, mkAcct account (body operator_snapshot), account_payer).

Definition process_realloc_ballot_box (program_id : Pubkey) (clock : Clock) (epoch_state : Acct EpochState)
    (ncn_config : Acct Config) (ballot_box : Acct BallotBox) (ncn account_payer system_program : AccountInfo) (epoch : Z)
    : res (Acct EpochState * Acct BallotBox * AccountInfo) :=
  _ ← load_system_program system_program;
  _ ← ncn_load ncn false;
  _ ← EpochState.load program_id (info epoch_state) (acc_key ncn) epoch false;
  _ ← Config.load program_id (info ncn_config) (acc_key ncn) false;
  _ ← AccountPayer.load program_id account_payer (acc_key ncn) true;
  let '(ballot_box_pda, ballot_box_bump, _) := BallotBox.find_program_address program_id (acc_key ncn) epoch in
  if negb (bool_decide (ballot_box_pda = acc_key (info ballot_box))) then Err (Prog InvalidAccountData) else
  '(account_payer, account) ← grow program_id (acc_key ncn) account_payer (info ballot_box) BallotBox.SIZE;
  init ← should_initialize account BallotBox.SIZE DBallotBox;
  if init : bool then
    account ← write_discriminator account DBallotBox;
    let contents := BallotBox.initialize (body ballot_box) (acc_key ncn) epoch ballot_box_bump (clock_slot clock) in
    let state := EpochState.update_realloc_ballot_box (body epoch_state) in
    mret (with_body epoch_state state, mkAcct account contents, account_payer)
  else mret (epoch_state, mkAcct account (body ballot_box), account_payer).

Definition process_realloc_base_reward_router (program_id : Pubkey) (clock : Clock) (epoch_state : Acct EpochState)
    (ncn_config : Acct Config) (base_reward_router : Acct BaseRewardRouter) (ncn account_payer system_program : AccountInfo)
    (epoch : Z) : res (Acct EpochState * Acct BaseRewardRouter * AccountInfo) :=
  _ ← load_system_program system_program;
  _ ← ncn_load ncn false;
  _ ← EpochState.load program_id (info epoch_state) (acc_key ncn) epoch true;
  _ ← Config.load program_id (info ncn_config) (acc_key ncn) false;
  _ ← AccountPayer.load program_id account_payer (acc_key ncn) true;
  let '(base_reward_router_pda, base_reward_router_bump, _) :=
    BaseRewardRouter.find_program_address program_id (acc_key ncn) epoch in
  if negb (bool_decide (base_reward_router_pda = acc_key (info base_reward_router))) then Err (Prog InvalidAccountData) else
  '(account_payer, account) ← grow program_id (acc_key ncn) account_payer (info base_reward_router) BaseRewardRouter.SIZE;
  init ← should_initialize account BaseRewardRouter.SIZE DBaseRewardRouter;
  if init : bool then
    account ← write_discriminator account DBaseRewardRouter;
    let contents := BaseRewardRouter.initialize (body base_reward_router) (acc_key ncn) epoch base_reward_router_bump
      (clock_slot clock) in
    let state := EpochState.update_realloc_base_reward_router (body epoch_state) in
    mret (with_body epoch_state state, mkAcct account contents, account_payer)
  else mret (epoch_state, mkAcct account (body base_reward_router), account_payer).
End handlers.
