(* ===== verification/RegistryHandlers.v ===== *)
(** The instructions on the vault registry and the weight table
    (program/src/admin_register_st_mint.rs, admin_set_st_mint.rs,
    register_vault.rs, admin_set_weight.rs, switchboard_set_weight.rs). *)

From Stdlib Require Import String.
From S2P Require Import Prelude Errors External Restaking Constants Accounts FeeGroups Fees Config VaultRegistry WeightTable EpochState.

Section handlers.
Context `{Solana} `{Programs} `{Restaking}.

Definition process_admin_register_st_mint (program_id : Pubkey) (config : Acct Config) (ncn st_mint : AccountInfo)
    (vault_registry : Acct VaultRegistry) (admin : AccountInfo) (ncn_fee_group reward_multiplier_bps : Z)
    (switchboard_feed : option Pubkey) (no_feed_weight : option Z) : res (Acct VaultRegistry) :=
  _ ← Config.load program_id (info config) (acc_key ncn) false;
  _ ← VaultRegistry.load program_id (info vault_registry) (acc_key ncn) true;
  _ ← ncn_load ncn false;
  _ ← load_token_mint st_mint;
  _ ← load_signer admin false;
  ncn_program_admin ← ncn_program_admin_of ncn;
  if negb (bool_decide (ncn_program_admin = acc_key admin)) then Err (Prog InvalidAccountData) else
  ncn_fee_group ← NcnFeeGroup.try_from ncn_fee_group;
  let switchboard_feed := default Pubkey_default switchboard_feed in
  let no_feed_weight := default 0 no_feed_weight in
  if bool_decide (switchboard_feed = Pubkey_default) && (no_feed_weight =? 0) then Err (Prog InvalidArgument) else
  registry ← VaultRegistry.register_st_mint (body vault_registry) (acc_key st_mint) ncn_fee_group
               reward_multiplier_bps switchboard_feed no_feed_weight;
  mret (with_body vault_registry registry).

Definition process_admin_set_st_mint (program_id : Pubkey) (config : Acct Config) (ncn : AccountInfo)
    (vault_registry : Acct VaultRegistry) (admin : AccountInfo) (st_mint : Pubkey)
    (ncn_fee_group reward_multiplier_bps : option Z) (switchboard_feed : option Pubkey) (no_feed_weight : option Z)
    : res (Acct VaultRegistry) :=
  _ ← Config.load program_id (info config) (acc_key ncn) false;
  _ ← VaultRegistry.load program_id (info vault_registry) (acc_key ncn) true;
  _ ← ncn_load ncn false;
  _ ← load_signer admin false;
  ncn_program_admin ← ncn_program_admin_of ncn;
  if negb (bool_decide (ncn_program_admin = acc_key admin)) then Err (Prog InvalidAccountData) else
  registry ← VaultRegistry.set_st_mint (body vault_registry) st_mint ncn_fee_group reward_multiplier_bps
               switchboard_feed no_feed_weight;
  mret (with_body vault_registry registry).

Definition process_register_vault (program_id : Pubkey) (clock : Clock) (config : Acct Config)
    (vault_registry : Acct VaultRegistry) (ncn vault ncn_vault_ticket : AccountInfo) : res (Acct VaultRegistry) :=
  _ ← Config.load program_id (info config) (acc_key ncn) false;
  _ ← VaultRegistry.load program_id (info vault_registry) (acc_key ncn) true;
  _ ← ncn_load ncn false;
  _ ← vault_load vault false;
  _ ← ncn_vault_ticket_load ncn_vault_ticket ncn vault false;
  let slot := clock_slot clock in
  supported_mint ← vault_supported_mint_of vault;
  if negb (VaultRegistry.has_st_mint (body vault_registry) supported_mint) then Err (Prog InvalidAccountData) else
  vault_index ← vault_index_of vault;
  registry ← VaultRegistry.register_vault (body vault_registry) (acc_key vault) supported_mint vault_index slot;
  mret (with_body vault_registry registry).

(** The last steps of both ways to set a weight. *)
Definition record_weight (clock : Clock) (epoch_state : Acct EpochState) (weight_table : Acct WeightTable)
    (st_mint : Pubkey) (weight : Z) : res (Acct EpochState * Acct WeightTable) :=
  _ ← WeightTable.check_table_initialized (body weight_table);
  if WeightTable.finalized (body weight_table) then Err (Prog InvalidAccountData) else
  table ← WeightTable.set_weight (body weight_table) st_mint weight (clock_slot clock);
  let state := EpochState.update_set_weight (body epoch_state) (WeightTable.weight_count table)
                 (WeightTable.st_mint_count table) in
  mret (with_body epoch_state state, with_body weight_table table).

Definition process_admin_set_weight (program_id : Pubkey) (clock : Clock) (epoch_state : Acct EpochState)
    (ncn : AccountInfo) (weight_table : Acct WeightTable) (weight_table_admin : AccountInfo) (st_mint : Pubkey)
    (epoch weight : Z) : res (Acct EpochState * Acct WeightTable) :=
  _ ← ncn_load ncn false;
  ncn_weight_table_admin ← ncn_weight_table_admin_of ncn;
  _ ← load_signer weight_table_admin true;
  _ ← EpochState.load program_id (info epoch_state) (acc_key ncn) epoch true;
  _ ← WeightTable.load program_id (info weight_table) (acc_key ncn) epoch true;
  if negb (bool_decide (ncn_weight_table_admin = acc_key weight_table_admin)) then Err (Tip IncorrectWeightTableAdmin) else
  record_weight clock epoch_state weight_table st_mint weight.

Context `{Switchboard}.

(** The weight of a price: whole units of [10^-9]. *)
Definition feed_weight (clock : Clock) (switchboard_feed : AccountInfo) : res Z :=
  feed ← ok_or (feed_parse switchboard_feed) (Tip BadSwitchboardFeed);
  price ← ok_or (feed_value feed clock) (Tip BadSwitchboardValue);
  let current_slot := clock_slot clock in
  stale_slot ← ok_or (checked_add U64 (feed_result_slot feed) SWITCHBOARD_MAX_STALE_SLOTS) (Tip ArithmeticOverflow);
  if stale_slot <? current_slot then Err (Tip StaleSwitchboardFeed) else
  weight ← ok_or (decimal_checked_mul price (decimal_of WEIGHT_PRECISION)) (Tip ArithmeticOverflow);
  ok_or (decimal_to_u128 (decimal_round weight)) (Tip CastToU128Error).

Definition process_switchboard_set_weight (program_id : Pubkey) (clock : Clock) (epoch_state : Acct EpochState)
    (ncn : AccountInfo) (weight_table : Acct WeightTable) (switchboard_feed : AccountInfo) (st_mint : Pubkey) (epoch : Z)
    : res (Acct EpochState * Acct WeightTable) :=
  _ ← EpochState.load program_id (info epoch_state) (acc_key ncn) epoch true;
  _ ← ncn_load ncn false;
  _ ← WeightTable.load program_id (info weight_table) (acc_key ncn) epoch true;
  weight_entry ← WeightTable.get_weight_entry (body weight_table) st_mint;
  let registered_switchboard_feed := sm_switchboard_feed (we_st_mint_entry weight_entry) in
  let no_feed_weight := sm_no_feed_weight (we_st_mint_entry weight_entry) in
  weight ← (if bool_decide (registered_switchboard_feed = Pubkey_default) then
              if no_feed_weight =? 0 then Err (Tip NoFeedWeightNotSet) else Ok no_feed_weight
            else
              if negb (bool_decide (registered_switchboard_feed = acc_key switchboard_feed))
              then Err (Tip SwitchboardNotRegistered) else feed_weight clock switchboard_feed);
  record_weight clock epoch_state weight_table st_mint weight.
End handlers.
