(* ===== verification/SnapshotHandlers.v ===== *)
(** The instruction that takes the snapshot of a delegation
    (program/src/snapshot_vault_operator_delegation.rs). *)

From Stdlib Require Import String.
From S2P Require Import Prelude Errors External Restaking Constants Accounts FeeGroups Fees Config StakeWeight VaultRegistry WeightTable EpochSnapshot EpochState.

Section handlers.
Context `{Solana} `{PreciseNumberOps} `{Programs} `{Restaking}.

Definition data_is_empty (a : AccountInfo) : bool := bool_decide (acc_data a = []).

Definition process_snapshot_vault_operator_delegation (program_id : Pubkey) (clock : Clock)
    (epoch_state : Acct EpochState) (ncn_config : Acct Config)
    (restaking_config ncn operator vault vault_ncn_ticket ncn_vault_ticket vault_operator_delegation : AccountInfo)
    (weight_table : Acct WeightTable) (epoch_snapshot : Acct EpochSnapshot) (operator_snapshot : Acct OperatorSnapshot)
    (epoch : Z) : res (Acct EpochState * Acct EpochSnapshot * Acct OperatorSnapshot) :=
  _ ← EpochState.load program_id (info epoch_state) (acc_key ncn) epoch true;
  _ ← Config.load program_id (info ncn_config) (acc_key ncn) false;
  _ ← restaking_config_load restaking_config false;
  _ ← ncn_load ncn false;
  _ ← operator_load operator false;
  _ ← vault_load vault false;
  _ ← ncn_vault_ticket_load ncn_vault_ticket ncn vault false;
  _ ← (if negb (data_is_empty vault_ncn_ticket) then vault_ncn_ticket_load vault_ncn_ticket vault ncn false else Ok tt);
  _ ← (if negb (data_is_empty vault_operator_delegation)
       then vault_operator_delegation_load vault_operator_delegation vault operator false else Ok tt);
  let current_slot := clock_slot clock in
  '(_, ncn_epoch_length) ← load_ncn_epoch config_epoch_length restaking_config current_slot None;
  _ ← WeightTable.load program_id (info weight_table) (acc_key ncn) epoch false;
  _ ← EpochSnapshot.load program_id (info epoch_snapshot) (acc_key ncn) epoch true;
  _ ← OperatorSnapshot.load program_id (info operator_snapshot) (acc_key operator) (acc_key ncn) epoch true;
  (* check vault is up to date *)
  vault_needs_update ← vault_is_update_needed vault current_slot ncn_epoch_length;
  if vault_needs_update : bool then Err (Tip VaultNeedsUpdate) else
  vault_index ← vault_index_of vault;
  st_mint ← vault_supported_mint_of vault;
  ncn_vault_okay ← ncn_vault_ticket_is_active ncn_vault_ticket current_slot ncn_epoch_length;
  vault_ncn_okay ← (if data_is_empty vault_ncn_ticket then Ok false
                    else vault_ncn_ticket_is_active_or_cooldown vault_ncn_ticket current_slot ncn_epoch_length);
  let delegation_dne := data_is_empty vault_operator_delegation in
  let is_active := vault_ncn_okay && ncn_vault_okay && negb delegation_dne in
  let weight_table_account := body weight_table in
  weight_entry ← WeightTable.get_weight_entry weight_table_account st_mint;
  _ ← WeightTable.check_registry_for_vault weight_table_account vault_index;
  total_stake_weight ← (if is_active
                        then OperatorSnapshot.calculate_total_stake_weight
                               (delegation_total_security vault_operator_delegation) weight_table_account st_mint
                        else Ok 0);
  let ncn_fee_group := sm_ncn_fee_group (we_st_mint_entry weight_entry) in
  let reward_multiplier_bps := sm_reward_multiplier_bps (we_st_mint_entry weight_entry) in
  (* increment vault operator delegation *)
  stake_weights ← StakeWeights.snapshot ncn_fee_group total_stake_weight reward_multiplier_bps;
  snapshot ← OperatorSnapshot.increment_vault_operator_delegation_registration (body operator_snapshot) current_slot
               (acc_key vault) vault_index ncn_fee_group stake_weights;
  (* if operator is finalized, increment operator registration *)
  epoch_contents ← (if OperatorSnapshot.finalized snapshot
                    then EpochSnapshot.increment_operator_registration (body epoch_snapshot) current_slot
                           (os_valid_operator_vault_delegations snapshot) (os_stake_weights snapshot)
                    else Ok (body epoch_snapshot));
  state ← EpochState.update_snapshot_vault_operator_delegation (body epoch_state)
            (Z.to_nat (os_ncn_operator_index snapshot)) (OperatorSnapshot.finalized snapshot);
  mret (with_body epoch_state state, with_body epoch_snapshot epoch_contents, with_body operator_snapshot snapshot).
End handlers.
