(* ===== verification/CloseHandlers.v ===== *)
(** Closing the accounts of an epoch and claiming tips with the payer
    (program/src/close_epoch_account.rs, claim_with_payer.rs). *)

From Stdlib Require Import String.
From S2P Require Import Prelude Errors External Restaking Constants Accounts FeeGroups Fees Config StakeWeight VaultRegistry WeightTable EpochSnapshot EpochState BallotBox BaseRewardRouter NcnRewardRouter SetupHandlers.

Section handlers.
Context `{Solana} `{PreciseNumberOps} `{Programs} `{Restaking}.

(** The accounts a close writes, besides the account it closes: the epoch
    state's contents, the DAO wallet, the payer, and the receivers passed as
    optional accounts. *)
Record Closing := mkClosing {
  cl_state : EpochState;
  cl_dao_wallet : AccountInfo;
  cl_account_payer : AccountInfo;
  cl_receivers : list AccountInfo;
}.

Definition with_state (c : Closing) (s : EpochState) : Closing :=
  mkClosing s (cl_dao_wallet c) (cl_account_payer c) (cl_receivers c).

(** The account check: what the account to close is, by its discriminator;
    [decode_os] and [decode_nr] are the account deserialisers. *)
Definition check_account (decode_os : list Z -> res OperatorSnapshot) (decode_nr : list Z -> res NcnRewardRouter)
    (program_id : Pubkey) (ncn : AccountInfo) (epoch d : Z) (account_to_close : AccountInfo) (c : Closing) : res Closing :=
  if d =? discriminator DEpochState then
    _ ← EpochState.load_to_close (cl_state c) (acc_key ncn) epoch;
    mret (with_state c (EpochState.close_epoch_state (cl_state c)))
  else if d =? discriminator DWeightTable then
    _ ← WeightTable.load_to_close program_id account_to_close (acc_key ncn) epoch;
    mret (with_state c (EpochState.close_weight_table (cl_state c)))
  else if d =? discriminator DEpochSnapshot then
    _ ← EpochSnapshot.load_to_close program_id account_to_close (acc_key ncn) epoch;
    mret (with_state c (EpochState.close_epoch_snapshot (cl_state c)))
  else if d =? discriminator DOperatorSnapshot then
    _ ← OperatorSnapshot.load_to_close decode_os program_id account_to_close (acc_key ncn) epoch;
    account_to_close_struct ← decode_os (acc_data account_to_close);
    state ← EpochState.close_operator_snapshot (cl_state c) (Z.to_nat (os_ncn_operator_index account_to_close_struct));
    mret (with_state c state)
  else if d =? discriminator DBallotBox then
    _ ← BallotBox.load_to_close program_id account_to_close (acc_key ncn) epoch;
    mret (with_state c (EpochState.close_ballot_box (cl_state c)))
  else if d =? discriminator DBaseRewardRouter then
    _ ← BaseRewardRouter.load_to_close program_id account_to_close (acc_key ncn) epoch;
    match cl_receivers c with
    | [base_reward_receiver] =>
        _ ← BaseRewardReceiver.load program_id base_reward_receiver (acc_key ncn) epoch true;
        '(base_reward_receiver, dao_wallet, account_payer) ←
          BaseRewardReceiver.close program_id (acc_key ncn) epoch base_reward_receiver (cl_dao_wallet c) (cl_account_payer c);
        mret (mkClosing (EpochState.close_base_reward_router (cl_state c)) dao_wallet account_payer [base_reward_receiver])
    | _ => Err (Tip CannotCloseAccountNoReceiverProvided)
    end
  else if d =? discriminator DNcnRewardRouter then
    _ ← NcnRewardRouter.load_to_close decode_nr program_id account_to_close (acc_key ncn) epoch;
    ncn_reward_router ← decode_nr (acc_data account_to_close);
    let ncn_operator_index := Z.to_nat (nr_ncn_operator_index ncn_reward_router) in
    let operator := nr_router_operator ncn_reward_router in
    let ncn_fee_group := nr_ncn_fee_group ncn_reward_router in
    match cl_receivers c with
    | [ncn_reward_receiver] =>
        _ ← NcnRewardReceiver.load program_id ncn_reward_receiver ncn_fee_group operator (acc_key ncn) epoch true;
        '(ncn_reward_receiver, dao_wallet, account_payer) ←
          NcnRewardReceiver.close program_id ncn_fee_group operator (acc_key ncn) epoch ncn_reward_receiver
            (cl_dao_wallet c) (cl_account_payer c);
        state ← EpochState.close_ncn_reward_router (cl_state c) ncn_operator_index ncn_fee_group;
        mret (mkClosing state dao_wallet account_payer [ncn_reward_receiver])
    | _ => Err (Tip CannotCloseAccountNoReceiverProvided)
    end
  else Err (Tip InvalidAccountToCloseDiscriminator).

(** The marker that the epoch is closed. *)
Definition create_epoch_marker (program_id : Pubkey) (clock : Clock) (ncn epoch_marker account_payer : AccountInfo)
    (epoch : Z) : res (AccountInfo * Acct EpochMarker.EpochMarker) :=
  '(account_payer, epoch_marker) ←
    create_at program_id (acc_key ncn) (EpochMarker.find_program_address program_id (acc_key ncn) epoch) (Prog InvalidSeeds)
      account_payer epoch_marker EpochMarker.SIZE;
  epoch_marker ← write_discriminator epoch_marker DEpochMarker;
  mret (account_payer, mkAcct epoch_marker (EpochMarker.new (acc_key ncn) epoch (clock_slot clock))).

(** [account_to_close] is the epoch state's own view when both have the same
    key.  The result: the marker when the epoch is closed by this call, the
    epoch state, the account to close, and the other accounts. *)
Definition process_close_epoch_account (decode_os : list Z -> res OperatorSnapshot)
    (decode_nr : list Z -> res NcnRewardRouter) (program_id : Pubkey) (clock : Clock) (epoch_marker : AccountInfo)
    (epoch_state : Acct EpochState) (config : Acct Config)
    (ncn account_to_close account_payer dao_wallet system_program : AccountInfo) (optional_accounts : list AccountInfo)
    (epoch : Z) : res (option (Acct EpochMarker.EpochMarker) * Acct EpochState * AccountInfo * Closing) :=
  _ ← load_system_program system_program;
  _ ← ncn_load ncn false;
  _ ← EpochState.load program_id (info epoch_state) (acc_key ncn) epoch false;
  _ ← Config.load program_id (info config) (acc_key ncn) false;
  _ ← AccountPayer.load program_id account_payer (acc_key ncn) false;
  _ ← EpochMarker.check_dne program_id epoch_marker (acc_key ncn) epoch;
  let closing_epoch_state := bool_decide (acc_key account_to_close = acc_key (info epoch_state)) in
  if bool_decide (acc_data account_to_close = []) then Err (Tip CannotCloseAccountAlreadyClosed) else
  dao ← FeeConfig.base_fee_wallet (cf_fee_config (body config)) BaseFeeGroup.dao;
  if negb (bool_decide (dao = acc_key dao_wallet)) then Err (Tip InvalidDaoWallet) else
  can_close ← EpochState.can_close_epoch_accounts get_epoch (body epoch_state)
                (cf_epochs_after_consensus_before_close (body config)) (clock_slot clock);
  if negb can_close then Err (Tip CannotCloseAccountNotEnoughEpochs) else
  let state := EpochState.start_closing (body epoch_state) in
  d ← (if closing_epoch_state then Ok (discriminator DEpochState) else aget (acc_data account_to_close) 0);
  closing ← check_account decode_os decode_nr program_id ncn epoch d account_to_close
              (mkClosing state dao_wallet account_payer optional_accounts);
  '(account_payer, epoch_marker) ←
    (if closing_epoch_state then
       '(account_payer, marker) ← create_epoch_marker program_id clock ncn epoch_marker (cl_account_payer closing) epoch;
       mret (account_payer, Some marker)
     else mret (cl_account_payer closing, None));
  '(account_payer, account_to_close) ← AccountPayer.close_account program_id account_payer account_to_close;
  mret (epoch_marker, with_body epoch_state (cl_state closing), account_to_close,
        mkClosing (cl_state closing) (cl_dao_wallet closing) account_payer (cl_receivers closing)).

Context `{TipClaim}.

(** The accounts the tip distribution program writes are the result. *)
Definition process_claim_with_payer (program_id : Pubkey) (account_payer : AccountInfo) (config : Acct Config)
    (ncn tip_distribution_config tip_distribution_account claim_status claimant tip_distribution_program
     system_program : AccountInfo) (proof : list (list Z)) (amount bump : Z) : res (list AccountInfo) :=
  _ ← ncn_load ncn false;
  _ ← Config.load program_id (info config) (acc_key ncn) false;
  _ ← AccountPayer.load program_id account_payer (acc_key ncn) true;
  if negb (bool_decide (acc_key tip_distribution_program = tip_distribution_id)) then Err (Prog InvalidAccountData) else
  let '(_, account_payer_bump, account_payer_seeds) := AccountPayer.find_program_address program_id (acc_key ncn) in
  invoke_claim [tip_distribution_config; tip_distribution_account; claim_status; claimant; account_payer; system_program]
    proof amount bump (account_payer_seeds ++ [[account_payer_bump]]).
End handlers.
