(* ===== verification/SnapshotSide.v ===== *)
(** The snapshot of an epoch: the epoch snapshot, the operator snapshots and
    the epoch state, kept together by the two instructions that register
    operators and delegations. *)

From Stdlib Require Import String.
From S2P Require Import Prelude Errors External Restaking Constants Accounts FeeGroups Fees Config StakeWeight VaultRegistry WeightTable EpochSnapshot EpochState NcnRewardTheorems SetupHandlers SnapshotHandlers VoteHandlers.

#[local] Arguments gw : simpl never.
#[local] Arguments replicate : simpl never.

Record SnapshotSide := mkSnapshotSide {
  sn_state : Acct EpochState;
  sn_epoch : Acct EpochSnapshot;
  sn_operators : list (Acct OperatorSnapshot);
}.

Section side.
Context {S : Solana} {O : PreciseNumberOps} {P : Programs} {R : Restaking}.

(** The weight table holds unsigned reward multipliers. *)
Definition table_typed (t : WeightTable) : Prop :=
  Forall (fun e => 0 <= sm_reward_multiplier_bps (we_st_mint_entry e)) (wt_table t).

(** What may happen: the creation of an operator's snapshot (the reallocation
    call that gives it its contents), the registration of a delegation in one
    of the snapshots, and instructions that leave the snapshots and the epoch
    state's progress alone. *)
Inductive snapshot_step (program_id : Pubkey) (s : SnapshotSide) : SnapshotSide -> Prop :=
| ss_operator clock config rc ncn operator state os payer system epoch es eps os' payer' :
    (forall payer1 account, grow program_id (acc_key ncn) payer (info os) OperatorSnapshot_SIZE = Ok (payer1, account) ->
       should_initialize account OperatorSnapshot_SIZE DOperatorSnapshot = Ok true) ->
    process_realloc_operator_snapshot program_id clock (sn_state s) config rc ncn operator state (sn_epoch s) os
      payer system epoch = Ok (es, eps, os', payer') ->
    snapshot_step program_id s (mkSnapshotSide es eps (sn_operators s ++ [os']))
| ss_delegation i os clock config rc ncn operator vault t1 t2 del table epoch es eps os' :
    sn_operators s !! i = Some os -> acc_key vault <> Pubkey_default -> table_typed (body table) ->
    process_snapshot_vault_operator_delegation program_id clock (sn_state s) config rc ncn operator vault t1 t2 del
      table (sn_epoch s) os epoch = Ok (es, eps, os') ->
    snapshot_step program_id s (mkSnapshotSide es eps (<[i:=os']> (sn_operators s)))
| ss_other es :
    ep_epoch_snapshot_progress (body es) = ep_epoch_snapshot_progress (body (sn_state s)) ->
    snapshot_step program_id s (mkSnapshotSide es (sn_epoch s) (sn_operators s)).
End side.

(** What the final snapshots contribute. *)
Definition final_part (f : OperatorSnapshot -> Z) (o : Acct OperatorSnapshot) : Z :=
  if OperatorSnapshot.finalized (body o) then f (body o) else 0.
Definition final_sum (f : OperatorSnapshot -> Z) (l : list (Acct OperatorSnapshot)) : Z := sumZ (final_part f) l.

(** A snapshot whose stake-bearing delegations name a vault, in every group. *)
Definition op_ok (o : OperatorSnapshot) : Prop := os_inv o /\ forall k, (k < 8)%nat -> named_vaults k o.

Record snapshot_ok (s : SnapshotSide) : Prop := {
  so_vaults : 0 < es_vault_count (body (sn_epoch s));
  so_ops : Forall (fun o => op_ok (body o)) (sn_operators s);
  so_wf : sw_wf (es_stake_weights (body (sn_epoch s)));
  so_registered : es_operators_registered (body (sn_epoch s)) = final_sum (fun _ => 1) (sn_operators s);
  so_count : es_operator_count (body (sn_epoch s)) < u64_max;
  so_range : es_operators_registered (body (sn_epoch s)) <= es_operator_count (body (sn_epoch s));
  so_valid : es_valid_operator_vault_delegations (body (sn_epoch s))
    = final_sum os_valid_operator_vault_delegations (sn_operators s);
  so_total : stake_weight (es_stake_weights (body (sn_epoch s)))
    = final_sum (fun o => stake_weight (os_stake_weights o)) (sn_operators s);
  so_group : forall k, (k < 8)%nat -> gw k (es_stake_weights (body (sn_epoch s)))
    = final_sum (fun o => gw k (os_stake_weights o)) (sn_operators s);
  so_progress : ep_epoch_snapshot_progress (body (sn_state s))
    = mkProgress (es_operators_registered (body (sn_epoch s))) (es_operator_count (body (sn_epoch s)));
}.

(* ------------------------------------------------------------------ *)
(** * Registrations *)

Lemma register_vault_count s slot n w s' :
  EpochSnapshot.increment_operator_registration s slot n w = Ok s' -> es_vault_count s' = es_vault_count s.
Proof.
  unfold EpochSnapshot.increment_operator_registration. intros Hr. res_inv.
  destruct (EpochSnapshot.finalized _) in Hr; by res_inv.
Qed.

(** A registration of [n] delegations with weights [w]. *)
Lemma es_register_effect s slot n w s' :
  sw_wf (es_stake_weights s) -> sw_wf w -> es_operators_registered s <= es_operator_count s ->
  EpochSnapshot.increment_operator_registration s slot n w = Ok s' ->
  es_operators_registered s' = es_operators_registered s + 1 /\ es_operators_registered s' <= es_operator_count s' /\
  es_operator_count s' = es_operator_count s /\ es_vault_count s' = es_vault_count s /\
  es_valid_operator_vault_delegations s' = es_valid_operator_vault_delegations s + n /\
  sw_wf (es_stake_weights s') /\
  stake_weight (es_stake_weights s') = stake_weight (es_stake_weights s) + stake_weight w /\
  forall k, (k < 8)%nat -> gw k (es_stake_weights s') = gw k (es_stake_weights s) + gw k w.
Proof.
  intros Hs Hw Hle Hr.
  destruct (es_register_spec s (mkRegistration slot n w) s' Hs Hw Hr) as (Hf & H1 & H2 & H3 & H4 & H5 & _).
  unfold EpochSnapshot.finalized in Hf. apply Z.eqb_neq in Hf. cbn in H2, H3.
  repeat split; try done; try lia; try apply H4.
  - by eapply register_vault_count.
  - by rewrite H3.
  - intros k Hk. rewrite H3. by apply vadd_gw.
Qed.

Lemma realloc_progress es i act es' :
  EpochState.update_realloc_operator_snapshot es i act = Ok es' ->
  ep_epoch_snapshot_progress es' = if act then ep_epoch_snapshot_progress es else
    mkProgress (pg_tally (ep_epoch_snapshot_progress es) + 1) (pg_total (ep_epoch_snapshot_progress es)).
Proof.
  unfold EpochState.update_realloc_operator_snapshot, Progress.increment_one, Progress.increment. intros Hu.
  destruct act; by res_inv.
Qed.

Lemma delegation_progress es i fin es' :
  EpochState.update_snapshot_vault_operator_delegation es i fin = Ok es' ->
  ep_epoch_snapshot_progress es' = if fin then
    mkProgress (pg_tally (ep_epoch_snapshot_progress es) + 1) (pg_total (ep_epoch_snapshot_progress es))
    else ep_epoch_snapshot_progress es.
Proof.
  unfold EpochState.update_snapshot_vault_operator_delegation, Progress.increment_one, Progress.increment. intros Hu.
  destruct fin; by res_inv.
Qed.

(** A new snapshot has no stake. *)
Lemma initialize_op_ok s op ncn epoch bump slot act ni oi fee n s' :
  0 < n -> OperatorSnapshot.initialize s op ncn epoch bump slot act ni oi fee n = Ok s' ->
  op_ok s' /\ OperatorSnapshot.finalized s' = negb act /\ os_stake_weights s' = StakeWeights.default /\
  os_valid_operator_vault_delegations s' = 0.
Proof.
  intros Hn Hi. destruct (initialize_inv _ _ _ _ _ _ _ _ _ _ _ _ (Z.lt_le_incl _ _ Hn) Hi) as (Hinv & Hr & Hc).
  unfold OperatorSnapshot.initialize in Hi. res_inv. split; [split; [done|]|].
  - intros k Hk e He. cbn in He. apply elem_of_replicate in He as [-> _].
    intros Hne. exfalso. apply Hne. by apply gw_default.
  - split; [|done]. unfold OperatorSnapshot.finalized. cbn [os_vault_operator_delegations_registered os_vault_operator_delegation_count].
    destruct act; [apply Z.eqb_neq; lia|done].
Qed.

Lemma register_op_ok s slot vault idx g w s' :
  op_ok s -> sw_wf w -> idx <> u64_max -> vault <> Pubkey_default ->
  OperatorSnapshot.increment_vault_operator_delegation_registration s slot vault idx g w = Ok s' ->
  op_ok s' /\ OperatorSnapshot.finalized s = false.
Proof.
  intros [Hs Hn] Hw Hidx Hv Hr. split; [split; [by eapply register_delegation_inv|]|].
  - destruct (register_delegation_spec _ _ _ _ _ _ _ Hs Hw Hr) as (_ & _ & Hl & _).
    intros k Hk e He Hne. rewrite Hl in He. apply list_elem_of_lookup in He as [j Hj].
    apply list_lookup_insert_Some in Hj as [(_ & <- & _)|[_ Hj]]; [done|].
    apply (Hn k Hk e); [by eapply list_elem_of_lookup_2|done].
  - unfold OperatorSnapshot.increment_vault_operator_delegation_registration in Hr.
    by destruct (OperatorSnapshot.finalized s).
Qed.

(* ------------------------------------------------------------------ *)
(** * The steps keep the invariant *)

Section steps.
Context {S : Solana} `{L : PreciseNumberLaws} {P : Programs} {R : Restaking}.

Lemma final_sum_app f l o : final_sum f (l ++ [o]) = final_sum f l + final_part f o.
Proof. unfold final_sum. rewrite sumZ_app. cbn. lia. Qed.

Lemma final_sum_insert f l i o o' : l !! i = Some o ->
  OperatorSnapshot.finalized (body o) = false ->
  final_sum f (<[i:=o']> l) = final_sum f l + final_part f o'.
Proof.
  intros Hi Hf. unfold final_sum. rewrite (sumZ_insert _ _ _ _ _ Hi). unfold final_part at 2. rewrite Hf. lia.
Qed.

Lemma snapshot_operator_step_ok program_id s clock config rc ncn operator state os payer system epoch es eps os' payer' :
  snapshot_ok s ->
  (forall payer1 account, grow program_id (acc_key ncn) payer (info os) OperatorSnapshot_SIZE = Ok (payer1, account) ->
     should_initialize account OperatorSnapshot_SIZE DOperatorSnapshot = Ok true) ->
  process_realloc_operator_snapshot program_id clock (sn_state s) config rc ncn operator state (sn_epoch s) os
    payer system epoch = Ok (es, eps, os', payer') ->
  snapshot_ok (mkSnapshotSide es eps (sn_operators s ++ [os'])).
Proof.
  intros [Hv Hops Hwf Hreg Hcount Hrange Hval Htot Hgr Hpr] Hinit Hp. unfold process_realloc_operator_snapshot in Hp. res_inv.
  destruct (OperatorSnapshot.find_program_address _ _ _ _) as [[pda bump] seeds]. res_inv.
  match goal with Hg : grow _ _ _ _ _ = Ok ?x |- _ => destruct x as [payer1 account]; rename Hg into Hgrow end.
  rewrite (Hinit _ _ Hgrow) in Hp. cbn [mbind result_bind] in Hp. res_inv.
  destruct (load_ncn_epoch _ _ _ _) as [[a len]|]; [|done]. cbn [mbind result_bind] in Hp. res_inv.
  match goal with H1 : OperatorSnapshot.initialize _ _ _ _ _ _ ?act _ _ _ _ = Ok ?x,
                  H2 : (if negb ?act then _ else _) = Ok ?y,
                  H3 : EpochState.update_realloc_operator_snapshot _ _ ?act = Ok ?z |- _ =>
    rename x into o', y into e', z into st, H1 into Hi, H2 into He, H3 into Hu; set (active := act) in * end.
  destruct (initialize_op_ok _ _ _ _ _ _ _ _ _ _ _ _ Hv Hi) as (Ho & Hfin & Hsw & Hvd).
  apply realloc_progress in Hu. rewrite Hpr in Hu. cbn [pg_tally pg_total] in Hu.
  destruct active; cbn [negb] in He, Hfin.
  - injection He as <-. split; cbn [sn_epoch sn_operators sn_state body with_body]; try done;
      try (rewrite final_sum_app; unfold final_part; cbn [body]; rewrite Hfin, Z.add_0_r; done).
    + apply Forall_app. split; [done|]. by constructor.
    + intros k Hk. rewrite final_sum_app. unfold final_part. cbn [body]. rewrite Hfin, Z.add_0_r. by apply Hgr.
  - apply es_register_effect in He as (E1 & E2 & E3 & E4 & E5 & E6 & E7 & E8); [|done|apply sw_default_wf|done].
    split; cbn [sn_epoch sn_operators sn_state body with_body]; try done;
      try (rewrite final_sum_app; unfold final_part; cbn [body]; rewrite Hfin).
    + lia.
    + apply Forall_app. split; [done|]. by constructor.
    + lia.
    + lia.
    + rewrite Hvd. lia.
    + rewrite Hsw, E7, Htot. cbn. lia.
    + intros k Hk. rewrite final_sum_app. unfold final_part. cbn [body]. rewrite Hfin, Hsw, E8, Hgr by done. done.
    + rewrite Hu, E1, E3. done.
Qed.

Lemma delegation_weights_ok table st_mint (active : bool) security w g m sw :
  0 <= m -> (if active then OperatorSnapshot.calculate_total_stake_weight security table st_mint else Ok 0) = Ok w ->
  StakeWeights.snapshot g w m = Ok sw -> sw_wf sw.
Proof.
  intros Hm Hw Hs. assert (0 <= w).
  { destruct active; [|by injection Hw as <-]. unfold OperatorSnapshot.calculate_total_stake_weight in Hw. res_inv.
    by destruct (pn_to_imprecise_range _ _ Hw). }
  by destruct (snapshot_spec g w m sw) as (i & _ & Hwf & _).
Qed.

Lemma delegation_step_ok program_id s i os clock config rc ncn operator vault t1 t2 del table epoch es eps os' :
  snapshot_ok s -> sn_operators s !! i = Some os -> acc_key vault <> Pubkey_default -> table_typed (body table) ->
  process_snapshot_vault_operator_delegation program_id clock (sn_state s) config rc ncn operator vault t1 t2 del
    table (sn_epoch s) os epoch = Ok (es, eps, os') ->
  snapshot_ok (mkSnapshotSide es eps (<[i:=os']> (sn_operators s))).
Proof.
  intros [Hv Hops Hwf Hreg Hcount Hrange Hval Htot Hgr Hpr] Hos Hvault Htyped Hp.
  unfold process_snapshot_vault_operator_delegation in Hp. res_inv.
  destruct (load_ncn_epoch _ _ _ _) as [[a len]|]; [|done]. cbn [mbind result_bind] in Hp. res_inv.
  match goal with H1 : OperatorSnapshot.increment_vault_operator_delegation_registration _ _ _ ?idx _ ?w = Ok ?x,
                  H2 : (if OperatorSnapshot.finalized ?x then _ else _) = Ok ?y,
                  H3 : EpochState.update_snapshot_vault_operator_delegation _ _ _ = Ok ?z,
                  H4 : StakeWeights.snapshot _ _ _ = Ok ?w,
                  H5 : WeightTable.check_registry_for_vault _ ?idx = Ok _,
                  H6 : WeightTable.get_weight_entry _ _ = Ok ?e |- _ =>
    rename x into o', y into e', z into st, w into sw, idx into index, e into entry, H1 into Hi, H2 into He, H3 into Hu,
      H4 into Hsn, H5 into Hix, H6 into Hent end.
  assert (Hsw : sw_wf sw).
  { eapply delegation_weights_ok; [|eassumption|exact Hsn].
    unfold WeightTable.get_weight_entry, WeightTable.find_entry in Hent.
    destruct (list_find _ _) as [[j e]|] eqn:Ef; [|done]. injection Hent as <-.
    apply list_find_Some in Ef as (Hj & _ & _). by apply (Forall_lookup_1 _ _ _ _ Htyped Hj). }
  assert (Hidx : index <> u64_max).
  { intros ->. unfold WeightTable.check_registry_for_vault, VaultEntry.EMPTY_VAULT_INDEX in Hix. by rewrite Z.eqb_refl in Hix. }
  pose proof (Forall_lookup_1 _ _ _ _ Hops Hos) as Hoso.
  destruct (register_op_ok _ _ _ _ _ _ _ Hoso Hsw Hidx Hvault Hi) as [Ho Hnf].
  apply delegation_progress in Hu. rewrite Hpr in Hu. cbn [pg_tally pg_total] in Hu.
  assert (Hall : Forall (fun o => op_ok (body o)) (<[i:=with_body os o']> (sn_operators s))) by by apply Forall_insert_2.
  assert (Hsum : forall f, final_sum f (<[i:=with_body os o']> (sn_operators s))
    = final_sum f (sn_operators s) + (if OperatorSnapshot.finalized o' then f o' else 0)) by (intros f; by apply (final_sum_insert f _ _ os)).
  destruct (OperatorSnapshot.finalized o') eqn:Hfin.
  - apply es_register_effect in He as (E1 & E2 & E3 & E4 & E5 & E6 & E7 & E8);
      [|done|apply (oi_sum_wf _ (proj1 Ho))|done].
    split; cbn [sn_epoch sn_operators sn_state body with_body]; rewrite ?Hsum; try done; try lia.
    + intros k Hk. rewrite Hsum, E8, Hgr by done. done.
    + rewrite Hu, E1, E3. done.
  - injection He as <-. split; cbn [sn_epoch sn_operators sn_state body with_body]; rewrite ?Hsum, ?Z.add_0_r; try done.
    intros k Hk. rewrite Hsum, Z.add_0_r. by apply Hgr.
Qed.

Lemma snapshot_step_ok program_id s s' : snapshot_ok s -> snapshot_step program_id s s' -> snapshot_ok s'.
Proof.
  intros Hs [clock config rc ncn operator state os payer system epoch es eps os' payer' Hi Hp
    |i os clock config rc ncn operator vault t1 t2 del table epoch es eps os' Hos Hv Ht Hp|es He].
  - exact (snapshot_operator_step_ok _ _ _ _ _ _ _ _ _ _ _ _ _ _ _ _ Hs Hi Hp).
  - exact (delegation_step_ok _ _ _ _ _ _ _ _ _ _ _ _ _ _ _ _ _ _ Hs Hos Hv Ht Hp).
  - destruct Hs. split; cbn; try done. by rewrite He.
Qed.
End steps.

(* ------------------------------------------------------------------ *)
(** * Properties *)

Section properties.
Context {S : Solana} `{L : PreciseNumberLaws} {P : Programs} {R : Restaking}.

(** C8: from the creation of the epoch snapshot, through every sequence of
    operator and delegation registrations and other instructions: the epoch
    snapshot's stake, in total and per group, and its number of delegations are
    the sums over the final operator snapshots and its count of registered
    operators is their number; the epoch state's snapshot progress is that
    count, complete exactly when the epoch snapshot is final; and every operator
    snapshot is one that votes and rewards can be counted by (its totals are
    sums over distinct vaults, and what has stake names a vault). *)
Theorem snapshots_agree program_id s0 s es ncn epoch bump slot fees nops nvaults :
  body (sn_epoch s0) = EpochSnapshot.new ncn epoch bump slot fees nops nvaults ->
  body (sn_state s0) = EpochState.update_initialize_epoch_snapshot es nops -> sn_operators s0 = [] ->
  0 < nops < u64_max -> 0 < nvaults -> star (snapshot_step program_id) s0 s ->
  let eps := body (sn_epoch s) in
  stake_weight (es_stake_weights eps) = final_sum (fun o => stake_weight (os_stake_weights o)) (sn_operators s) /\
  (forall k, (k < 8)%nat -> gw k (es_stake_weights eps) = final_sum (fun o => gw k (os_stake_weights o)) (sn_operators s)) /\
  es_valid_operator_vault_delegations eps = final_sum os_valid_operator_vault_delegations (sn_operators s) /\
  es_operators_registered eps = final_sum (fun _ => 1) (sn_operators s) /\
  (Progress.is_complete (ep_epoch_snapshot_progress (body (sn_state s))) = true <-> EpochSnapshot.finalized eps = true) /\
  Forall (fun o => op_ok (body o)) (sn_operators s).
Proof.
  intros He Hst Hops Hn Hv Hstar eps.
  assert (Hok : snapshot_ok s).
  { eapply (star_invariant (snapshot_step program_id) snapshot_ok (snapshot_step_ok program_id) _ _ Hstar).
    split; rewrite ?He, ?Hst, ?Hops; cbn; try done; try lia.
    - apply sw_default_wf.
    - intros k Hk. by apply gw_default. }
  destruct Hok as [Hvc Hall Hwf Hreg Hlt Hrange Hval Htot Hgr Hpr].
  fold eps in Hvc, Hwf, Hreg, Hlt, Hrange, Hval, Htot, Hgr, Hpr.
  split; [done|]. split; [done|]. split; [done|]. split; [done|]. split; [|done].
  rewrite Hpr. unfold Progress.is_complete, Progress.is_invalid, Progress.INVALID, EpochSnapshot.finalized. cbn [pg_tally pg_total].
  rewrite (proj2 (Z.eqb_neq (es_operators_registered eps) _)) by lia.
  rewrite (proj2 (Z.eqb_neq (es_operator_count eps) _)) by lia. cbn [orb].
  rewrite Z.leb_le, Z.eqb_eq. lia.
Qed.
End properties.

(* ------------------------------------------------------------------ *)
(** * One operator, one delegation *)

Module SnapshotSideWitness.
Import ConcreteSolana ConcretePrograms ConcreteRestaking ConfigWitness VoteWitness.

Definition get_ok {A} (d : A) (r : res A) : A := match r with Ok a => a | Err _ => d end.
Definition epoch0 : Acct EpochSnapshot :=
  mkAcct (info VoteWitness.snap) (EpochSnapshot.new (key 9) 5 255 100 (mkFees 0 [] []) 1 1).
Definition side0 : SnapshotSide := mkSnapshotSide
  (with_body VoteWitness.es0 (EpochState.update_initialize_epoch_snapshot
     (EpochState.set_vault_count (body VoteWitness.es0) 1) 1)) epoch0 [].
(** An account of full size without contents. *)
Definition os_account : Acct OperatorSnapshot :=
  mkAcct (mkAccountInfo (OperatorSnapshot.find_program_address pid (key 1) (key 9) 5).1.1 pid 1000000000
            (replicate (Z.to_nat OperatorSnapshot_SIZE) 0) false true) EpochSnapshotWitness.blank.
Definition any_account (n b : Z) : AccountInfo := mkAccountInfo (key n) (key 50) 1 [b] false false.
Definition created := get_ok (sn_state side0, sn_epoch side0, os_account, payer)
  (process_realloc_operator_snapshot pid (mkClock 101 5) (sn_state side0) c0 (any_account 40 0)
     ConfigWitness.ncn VoteWitness.operator (any_account 41 0) (sn_epoch side0) os_account payer
     (system_account Pubkey_default 1) 5).
Definition side1 : SnapshotSide := mkSnapshotSide created.1.1.1 created.1.1.2 ([] ++ [created.1.2]).
Definition table : Acct WeightTable :=
  mkAcct (program_account (WeightTable.find_program_address pid (key 9) 5).1.1 DWeightTable) WeightTableWitness.t2.
Definition delegated := get_ok (sn_state side1, sn_epoch side1, os_account)
  (process_snapshot_vault_operator_delegation (H0 := U256Precise.ops) pid (mkClock 102 5) (sn_state side1) c0
     (any_account 40 0) ConfigWitness.ncn VoteWitness.operator (any_account 7 0) (any_account 42 1) (any_account 43 1)
     (any_account 44 70) table (sn_epoch side1) created.1.2 5).
Definition side2 : SnapshotSide := mkSnapshotSide delegated.1.1 delegated.1.2 (<[0%nat:=delegated.2]> (sn_operators side1)).

Lemma create_run :
  process_realloc_operator_snapshot pid (mkClock 101 5) (sn_state side0) c0 (any_account 40 0)
    ConfigWitness.ncn VoteWitness.operator (any_account 41 0) (sn_epoch side0) os_account payer
    (system_account Pubkey_default 1) 5 = Ok (created.1.1.1, created.1.1.2, created.1.2, created.2).
Proof. vm_compute. reflexivity. Qed.

Lemma delegate_run :
  process_snapshot_vault_operator_delegation (H0 := U256Precise.ops) pid (mkClock 102 5) (sn_state side1) c0
    (any_account 40 0) ConfigWitness.ncn VoteWitness.operator (any_account 7 0) (any_account 42 1) (any_account 43 1)
    (any_account 44 70) table (sn_epoch side1) created.1.2 5 = Ok (delegated.1.1, delegated.1.2, delegated.2).
Proof. vm_compute. reflexivity. Qed.

Lemma create_init payer1 account :
  grow pid (acc_key ConfigWitness.ncn) payer (info os_account) OperatorSnapshot_SIZE = Ok (payer1, account) ->
  should_initialize account OperatorSnapshot_SIZE DOperatorSnapshot = Ok true.
Proof.
  assert (Hg : grow pid (acc_key ConfigWitness.ncn) payer (info os_account) OperatorSnapshot_SIZE
    = Ok (payer, info os_account)) by (vm_compute; reflexivity).
  rewrite Hg. intros [= _ <-]. vm_compute. reflexivity.
Qed.

Lemma snapshot_steps : star (snapshot_step (O := U256Precise.ops) pid) side0 side2.
Proof.
  apply (star_step _ side1); [|apply (star_step _ side2); [|apply star_refl]].
  - exact (ss_operator (O := U256Precise.ops) pid side0 (mkClock 101 5) c0 (any_account 40 0) ConfigWitness.ncn VoteWitness.operator
      (any_account 41 0) os_account payer (system_account Pubkey_default 1) 5 created.1.1.1 created.1.1.2 created.1.2
      created.2 create_init create_run).
  - refine (ss_delegation (O := U256Precise.ops) pid side1 0 created.1.2 (mkClock 102 5) c0 (any_account 40 0) ConfigWitness.ncn
      VoteWitness.operator (any_account 7 0) (any_account 42 1) (any_account 43 1) (any_account 44 70) table 5
      delegated.1.1 delegated.1.2 delegated.2 eq_refl _ _ delegate_run); [done|].
    apply (bool_decide_unpack _). vm_compute. exact I.
Qed.
End SnapshotSideWitness.
Import SnapshotSideWitness ConfigWitness ConcreteSolana ConcretePrograms ConcreteRestaking.

Lemma snapshots_agree_witness :
  stake_weight (es_stake_weights (body (sn_epoch side2))) = 2800 /\
  EpochSnapshot.finalized (body (sn_epoch side2)) = true /\
  final_sum (fun o => stake_weight (os_stake_weights o)) (sn_operators side2) = 2800.
Proof.
  destruct (snapshots_agree (L := U256Precise.laws) pid side0 side2
    (EpochState.set_vault_count (body VoteWitness.es0) 1) (key 9) 5 255 100 (mkFees 0 [] []) 1 1)
    as (Ht & _ & _ & _ & Hp & _).
  - reflexivity.
  - reflexivity.
  - reflexivity.
  - lia.
  - lia.
  - exact snapshot_steps.
  - assert (Hw : stake_weight (es_stake_weights (body (sn_epoch side2))) = 2800) by (vm_compute; reflexivity).
    split; [exact Hw|]. split; [apply Hp; vm_compute; reflexivity|]. rewrite <- Ht. exact Hw.
Defined.
