(* ===== verification/EpochLifecycle.v ===== *)
(** The growth of accounts through the reallocation instructions: repeated
    calls reach the full size and write the first contents, and no later call
    resets them. *)

From Stdlib Require Import String.
From S2P Require Import Prelude Errors External Restaking Constants Accounts FeeGroups Fees Config StakeWeight VaultRegistry WeightTable EpochSnapshot EpochState BallotBox BaseRewardRouter NcnRewardRouter SetupHandlers CloseHandlers VoteHandlers.

(** The account has its size and its discriminator: its contents were written. *)
Definition initialised (a : AccountInfo) (size : Z) (d : Discriminators) : Prop :=
  size <= data_len a /\ acc_data a !! 0%nat = Some (discriminator d).

(* ------------------------------------------------------------------ *)
(** * Reallocation *)

Section realloc.
Context `{Solana}.

Lemma grow_initialised program_id ncn payer a size d :
  initialised a size d -> grow program_id ncn payer a size = Ok (payer, a).
Proof. intros [Hl _]. unfold grow. by rewrite (proj2 (Z.ltb_ge _ _)) by done. Qed.

Lemma initialised_done a size d : initialised a size d -> should_initialize a size d = Ok false.
Proof.
  intros [Hl Hd]. unfold should_initialize. rewrite (proj2 (Z.leb_le _ _)) by done.
  unfold aget. rewrite Hd. cbn. by rewrite Z.eqb_refl.
Qed.
End realloc.

(** The address check passes and the account is left as it is. *)
Ltac realloc_same Hi Hp :=
  cbn [info body] in Hp, Hi; res_inv;
  repeat match type of Hp with
  | context [match ?x with pair _ _ => _ end] => destruct x; res_inv
  end;
  match goal with
  | Hg : grow _ _ _ _ _ = Ok _ |- _ =>
      rewrite (grow_initialised _ _ _ _ _ _ Hi) in Hg; injection Hg as <- <-
  end;
  match goal with
  | Hs : should_initialize _ _ _ = Ok _ |- _ =>
      rewrite (initialised_done _ _ _ Hi) in Hs; injection Hs as <-
  end;
  injection Hp as <-.

Section never_resets.
Context `{Solana} `{PreciseNumberOps} `{Programs} `{Restaking}.

(** no reallocation call changes an account that has its contents: for
    each of the six kinds of accounts, a call on an account of full size with
    its discriminator leaves the account, its contents, and everything else it
    could write (the epoch state, the epoch snapshot) as they are. *)
Theorem realloc_never_resets program_id clock config ncn payer system epoch :
  (forall r out, initialised (info r) VaultRegistry.SIZE DVaultRegistry ->
     process_realloc_vault_registry program_id config r ncn payer system = Ok out -> out = (payer, r)) /\
  (forall es out, initialised (info es) EpochState.SIZE DEpochState ->
     process_realloc_epoch_state program_id clock es config ncn payer system epoch = Ok out -> out = (payer, es)) /\
  (forall es t r out, initialised (info t) WeightTable.SIZE DWeightTable ->
     process_realloc_weight_table program_id clock es config t ncn r payer system epoch = Ok out -> out = (es, payer, t)) /\
  (forall es rc operator state eps os out, initialised (info os) OperatorSnapshot_SIZE DOperatorSnapshot ->
     process_realloc_operator_snapshot program_id clock es config rc ncn operator state eps os payer system epoch = Ok out ->
     out = (es, eps, os, payer)) /\
  (forall es bb out, initialised (info bb) BallotBox.SIZE DBallotBox ->
     process_realloc_ballot_box program_id clock es config bb ncn payer system epoch = Ok out -> out = (es, bb, payer)) /\
  (forall es br out, initialised (info br) BaseRewardRouter.SIZE DBaseRewardRouter ->
     process_realloc_base_reward_router program_id clock es config br ncn payer system epoch = Ok out -> out = (es, br, payer)).
Proof.
  repeat split.
  - intros [a b] out Hi Hp. unfold process_realloc_vault_registry in Hp.  realloc_same Hi Hp. done.
  - intros [a b] out Hi Hp. unfold process_realloc_epoch_state in Hp. realloc_same Hi Hp. done.
  - intros es [a b] r out Hi Hp. unfold process_realloc_weight_table in Hp. realloc_same Hi Hp. done.
  - intros es rc operator state eps [a b] out Hi Hp. unfold process_realloc_operator_snapshot in Hp. realloc_same Hi Hp. done.
  - intros es [a b] out Hi Hp. unfold process_realloc_ballot_box in Hp. realloc_same Hi Hp. done.
  - intros es [a b] out Hi Hp. unfold process_realloc_base_reward_router in Hp. realloc_same Hi Hp. done.
Qed.
End never_resets.

(* ------------------------------------------------------------------ *)
(** * Reallocation completes *)

Section funded.
Context `{SL : Solana} {TL : TransferLaws SL} {RL : ReallocLaws SL}.

(** The payer and a growing account between two calls: only lamports moved
    between them ([total] is what they hold together), and the account holds
    [k] zero bytes. *)
Definition growing (total : Z) (payer0 a0 : AccountInfo) (k : Z) (payer a : AccountInfo) : Prop :=
  exists l, 0 <= l <= total /\ payer = with_lamports payer0 (total - l) /\
    a = with_lamports (with_data a0 (replicate (Z.to_nat k) 0)) l.

Lemma growing_len total payer0 a0 k payer a : 0 <= k -> growing total payer0 a0 k payer a -> data_len a = k.
Proof. intros Hk (l & _ & _ & ->). unfold data_len. cbn. rewrite length_replicate. lia. Qed.

Lemma zeros_resized k n :
  0 <= k <= n -> take (Z.to_nat n) (replicate (Z.to_nat k) 0 ++ replicate (Z.to_nat n) 0) = replicate (Z.to_nat n) (0 : Z).
Proof.
  intros. rewrite <- replicate_add, take_replicate. f_equal. lia.
Qed.

Context (program_id ncn : Pubkey) (total : Z) (payer0 a0 : AccountInfo).
Hypothesis (Hpayer : AccountPayer.load program_id payer0 ncn true = Ok tt) (Hempty : acc_data payer0 = [])
  (Hwr : acc_is_writable a0 = true) (Hkey : acc_key payer0 <> acc_key a0) (Htotal : total < U64).

(** Any amount up to what the payer holds is paid. *)
Lemma payer_transfers l required :
  0 <= l <= total -> 0 <= required <= total - l ->
  forall k, AccountPayer.transfer program_id ncn (with_lamports payer0 (total - l))
    (with_lamports (with_data a0 k) l) required
  = Ok (with_lamports payer0 (total - (l + required)), with_lamports (with_data a0 k) (l + required)).
Proof using Hpayer Hempty Hwr Hkey Htotal TL.
  intros Hl Hr k. apply check_load_spec in Hpayer as (Ho & Hk & _ & Hw).
  unfold AccountPayer.transfer, AccountPayer.find_program_address, find_pda in *.
  destruct (find_program_address_ext _ program_id) as [pda bump] eqn:Ef. cbn [fst] in Hk.
  rewrite bool_decide_eq_true_2 by done. cbn [negb].
  set (from := with_lamports payer0 (total - l)). set (to := with_lamports (with_data a0 k) l).
  destruct (transfer_funded program_id (AccountPayer.seeds ncn ++ [to_bytes ncn]) bump from to required) as [[from' to'] Ht];
    unfold from, to; cbn [acc_key acc_owner acc_data acc_is_writable acc_lamports with_lamports with_data] in *;
    try done; [by rewrite <- Hk in Ef|by apply Hw|lia|].
  etransitivity; [exact Ht|]. destruct (transfer_moves _ _ _ _ _ _ Ht) as (_ & -> & ->); [done|].
  unfold from, to, with_lamports. cbn. do 3 f_equal. lia.
Qed.

(** One call: the account grows by the permitted increase, or to its size. *)
Lemma grow_step k size payer a :
  growing total payer0 a0 k payer a -> 0 <= k <= size -> size + MAX_REALLOC_BYTES < U64 ->
  (forall n, 0 <= n <= size -> 0 <= minimum_balance n <= total) ->
  exists payer' a', grow program_id ncn payer a size = Ok (payer', a') /\
    growing total payer0 a0 (Z.min (k + MAX_REALLOC_BYTES) size) payer' a'.
Proof using Hpayer Hempty Hwr Hkey Htotal TL RL.
  intros Hg Hk Hs Hrent. assert (Hlen := growing_len _ _ _ _ _ _ (proj1 Hk) Hg).
  destruct Hg as (l & Hl & -> & ->). unfold grow. rewrite Hlen. unfold MAX_REALLOC_BYTES in *.
  destruct (Z.ltb_spec k size) as [Hlt|Hge].
  - rewrite get_new_size_spec by (unfold MAX_REALLOC_BYTES; lia). cbn. unfold MAX_REALLOC_BYTES.
    set (n := Z.min (k + 10240) size). assert (Hn : k <= n <= size /\ n <= k + 10240) by lia.
    unfold AccountPayer.pay_and_realloc. specialize (Hrent n ltac:(lia)).
    set (required := saturating_sub (minimum_balance n) _).
    assert (Hreq : 0 <= required <= total - l).
    { unfold required, saturating_sub. cbn. lia. }
    exists (with_lamports payer0 (total - (l + required))),
      (with_lamports (with_data a0 (replicate (Z.to_nat n) 0)) (l + required)).
    split; [|exists (l + required); split; [lia|done]].
    assert (Hpay : (if 0 <? required
      then AccountPayer.transfer program_id ncn (with_lamports payer0 (total - l))
             (with_lamports (with_data a0 (replicate (Z.to_nat k) 0)) l) required
      else Ok (with_lamports payer0 (total - l), with_lamports (with_data a0 (replicate (Z.to_nat k) 0)) l))
      = Ok (with_lamports payer0 (total - (l + required)),
            with_lamports (with_data a0 (replicate (Z.to_nat k) 0)) (l + required))).
    { destruct (Z.ltb_spec 0 required) as [Hpos|Hzero]; [by apply payer_transfers|].
      by replace (l + required) with l by lia. }
    rewrite Hpay. cbn. rewrite realloc_resizes; cbn; [|done|rewrite length_replicate; lia].
    unfold with_data, with_lamports. cbn. by rewrite zeros_resized by lia.
  - exists (with_lamports payer0 (total - l)), (with_lamports (with_data a0 (replicate (Z.to_nat k) 0)) l).
    split; [done|]. exists l. split; [lia|]. split; [done|]. replace (Z.min (k + 10240) size) with k by lia. done.
Qed.

Lemma should_initialize_growing k size payer a d :
  growing total payer0 a0 k payer a -> 0 < k -> discriminator d <> 0 ->
  should_initialize a size d = Ok (size <=? k).
Proof.
  intros Hg Hk Hd. assert (Hlen := growing_len _ _ _ _ _ _ (Z.lt_le_incl _ _ Hk) Hg).
  destruct Hg as (l & _ & _ & ->). unfold should_initialize. rewrite Hlen.
  destruct (Z.leb_spec size k); [|done]. unfold aget. cbn.
  destruct (Z.to_nat k) as [|m] eqn:Em; [lia|]. cbn.
  by destruct (discriminator d).
Qed.

Lemma growing_total k payer a : growing total payer0 a0 k payer a -> acc_lamports payer + acc_lamports a = total.
Proof. intros (l & _ & -> & ->). cbn. lia. Qed.

Lemma write_growing k payer a d :
  growing total payer0 a0 k payer a -> 0 < k ->
  exists a', write_discriminator a d = Ok a' /\ initialised a' k d /\ data_len a' = k /\ acc_lamports a' = acc_lamports a.
Proof.
  intros (l & _ & _ & ->) Hk. unfold write_discriminator, aset, initialised, data_len. cbn.
  destruct (Z.to_nat k) as [|m] eqn:Em; [lia|]. cbn. eexists. split; [reflexivity|]. cbn.
  rewrite length_replicate. repeat split; lia.
Qed.
End funded.

Section ballot_box_completes.
Context `{SL : Solana} {TL : TransferLaws SL} {RL : ReallocLaws SL} `{Programs}.

(** The realloc instruction sent [n] times. *)
Fixpoint realloc_ballot_box_times (n : nat) (program_id : Pubkey) (clock : Clock) (es : Acct EpochState)
    (config : Acct Config) (bb : Acct BallotBox) (ncn payer system : AccountInfo) (epoch : Z)
    : res (Acct EpochState * Acct BallotBox * AccountInfo) :=
  match n with
  | O => Ok (es, bb, payer)
  | S n =>
      '(es, bb, payer) ← realloc_ballot_box_times n program_id clock es config bb ncn payer system epoch;
      process_realloc_ballot_box program_id clock es config bb ncn payer system epoch
  end.

Section calls.
Context (program_id : Pubkey) (clock : Clock) (es : Acct EpochState) (config : Acct Config) (bb : Acct BallotBox)
  (ncn payer0 system : AccountInfo) (epoch total : Z).
Hypothesis (Hsys : load_system_program system = Ok tt) (Hncn : ncn_load ncn false = Ok tt)
  (Hes : EpochState.load program_id (info es) (acc_key ncn) epoch false = Ok tt)
  (Hcf : Config.load program_id (info config) (acc_key ncn) false = Ok tt)
  (Hpayer : AccountPayer.load program_id payer0 (acc_key ncn) true = Ok tt) (Hempty : acc_data payer0 = [])
  (Hbb : acc_key (info bb) = (BallotBox.find_program_address program_id (acc_key ncn) epoch).1.1)
  (Hwr : acc_is_writable (info bb) = true) (Hkey : acc_key payer0 <> acc_key (info bb)) (Htotal : total < U64)
  (Hrent : forall n, 0 <= n <= BallotBox.SIZE -> 0 <= minimum_balance n <= total).

Lemma realloc_ballot_box_step k payer a :
  growing total payer0 (info bb) k payer a -> 0 < k < BallotBox.SIZE ->
  let k' := Z.min (k + MAX_REALLOC_BYTES) BallotBox.SIZE in
  exists payer' a', growing total payer0 (info bb) k' payer' a' /\
    process_realloc_ballot_box program_id clock es config (mkAcct a (body bb)) ncn payer system epoch =
    (if BallotBox.SIZE <=? k'
     then a'' ← write_discriminator a' DBallotBox;
          Ok (with_body es (EpochState.update_realloc_ballot_box (body es)),
              mkAcct a'' (BallotBox.initialize (body bb) (acc_key ncn) epoch
                (BallotBox.find_program_address program_id (acc_key ncn) epoch).1.2 (clock_slot clock)), payer')
     else Ok (es, mkAcct a' (body bb), payer')).
Proof using Hsys Hncn Hes Hcf Hpayer Hempty Hbb Hwr Hkey Htotal Hrent TL RL.
  intros Hg Hk k'.
  destruct (grow_step program_id (acc_key ncn) total payer0 (info bb) Hpayer Hempty Hwr Hkey Htotal k BallotBox.SIZE payer a)
    as (payer' & a' & Hgrow & Hg'); try done; [lia|].
  exists payer', a'. split; [done|]. unfold process_realloc_ballot_box. rewrite Hsys, Hncn, Hes, Hcf. cbn.
  assert (Hp : AccountPayer.load program_id payer (acc_key ncn) true = Ok tt).
  { destruct Hg as (l & _ & -> & _). exact Hpayer. }
  rewrite Hp. cbn. revert Hbb.
  destruct (BallotBox.find_program_address program_id (acc_key ncn) epoch) as [[pda bump] seeds]. cbn. intros Hpda.
  assert (Ha : acc_key a = pda) by (destruct Hg as (l & _ & _ & ->); exact Hpda).
  rewrite Ha, bool_decide_eq_true_2 by done. cbn. rewrite Hgrow. cbn.
  rewrite (should_initialize_growing total payer0 (info bb) k' BallotBox.SIZE payer' a' DBallotBox);
    [|done|unfold k', MAX_REALLOC_BYTES; lia|done]. cbn.
  by destruct (BallotBox.SIZE <=? k').
Qed.

Lemma realloc_ballot_box_calls n :
  acc_data (info bb) = replicate (Z.to_nat MAX_REALLOC_BYTES) 0 -> 0 <= acc_lamports (info bb) ->
  0 <= acc_lamports payer0 -> acc_lamports payer0 + acc_lamports (info bb) = total -> (n < 12)%nat ->
  exists payer a, growing total payer0 (info bb) (MAX_REALLOC_BYTES * (Z.of_nat n + 1)) payer a /\
    realloc_ballot_box_times n program_id clock es config bb ncn payer0 system epoch = Ok (es, mkAcct a (body bb), payer).
Proof using Hsys Hncn Hes Hcf Hpayer Hempty Hbb Hwr Hkey Htotal Hrent TL RL.
  intros Hd Ha Hp Hsum. unfold MAX_REALLOC_BYTES in *. induction n as [|n IH]; intros Hn.
  - exists payer0, (info bb). split; [|by destruct bb].
    exists (acc_lamports (info bb)). split; [lia|]. rewrite <- Hsum.
    replace (acc_lamports payer0 + acc_lamports (info bb) - acc_lamports (info bb)) with (acc_lamports payer0) by lia.
    split; [by destruct payer0|]. replace (10240 * (Z.of_nat 0 + 1)) with 10240 by lia. rewrite <- Hd. by destruct (info bb).
  - destruct IH as (payer & a & Hg & Ht); [lia|]. cbn [realloc_ballot_box_times]. rewrite Ht. cbn [mbind].
    destruct (realloc_ballot_box_step _ payer a Hg) as (payer' & a' & Hg' & Hc).
    { change BallotBox.SIZE with 128305. lia. }
    revert Hg' Hc. unfold MAX_REALLOC_BYTES. change BallotBox.SIZE with 128305.
    replace (Z.min (10240 * (Z.of_nat n + 1) + 10240) 128305) with (10240 * (Z.of_nat (S n) + 1)) by lia.
    intros Hg' Hc. exists payer', a'. split; [done|]. cbn. rewrite Hc.
    by rewrite (proj2 (Z.leb_gt _ _)) by lia.
Qed.
End calls.

(** reallocating the ballot box terminates with the box initialised.
    From the account that creation leaves (10240 zero bytes), with a payer who
    can cover the rent, the call succeeds each time it is sent; the first eleven
    calls only grow the account by 10240 bytes, and the twelfth reaches the
    full size, writes the discriminator and the first contents, and marks the
    ballot box as opened in the epoch state.  No lamport is lost. *)
Theorem realloc_ballot_box_completes program_id clock es config bb ncn payer system epoch total :
  load_system_program system = Ok tt -> ncn_load ncn false = Ok tt ->
  EpochState.load program_id (info es) (acc_key ncn) epoch false = Ok tt ->
  Config.load program_id (info config) (acc_key ncn) false = Ok tt ->
  AccountPayer.load program_id payer (acc_key ncn) true = Ok tt -> acc_data payer = [] ->
  acc_key (info bb) = (BallotBox.find_program_address program_id (acc_key ncn) epoch).1.1 ->
  acc_is_writable (info bb) = true -> acc_key payer <> acc_key (info bb) ->
  acc_data (info bb) = replicate (Z.to_nat MAX_REALLOC_BYTES) 0 ->
  0 <= acc_lamports (info bb) -> 0 <= acc_lamports payer ->
  acc_lamports payer + acc_lamports (info bb) = total -> total < U64 ->
  (forall n, 0 <= n <= BallotBox.SIZE -> 0 <= minimum_balance n <= total) ->
  (exists bb' payer',
     realloc_ballot_box_times 12 program_id clock es config bb ncn payer system epoch
     = Ok (with_body es (EpochState.update_realloc_ballot_box (body es)), bb', payer') /\
     initialised (info bb') BallotBox.SIZE DBallotBox /\ data_len (info bb') = BallotBox.SIZE /\
     body bb' = BallotBox.initialize (body bb) (acc_key ncn) epoch
       (BallotBox.find_program_address program_id (acc_key ncn) epoch).1.2 (clock_slot clock) /\
     acc_lamports payer' + acc_lamports (info bb') = total) /\
  (forall n, (n < 12)%nat -> exists bb' payer',
     realloc_ballot_box_times n program_id clock es config bb ncn payer system epoch = Ok (es, bb', payer') /\
     body bb' = body bb /\ data_len (info bb') = MAX_REALLOC_BYTES * (Z.of_nat n + 1)).
Proof.
  intros Hsys Hncn Hes Hcf Hpayer Hempty Hbb Hwr Hkey Hd Ha Hp Hsum Htotal Hrent.
  assert (Hcalls := fun n => realloc_ballot_box_calls program_id clock es config bb ncn payer system epoch total
    Hsys Hncn Hes Hcf Hpayer Hempty Hbb Hwr Hkey Htotal Hrent n Hd Ha Hp Hsum).
  split.
  - destruct (Hcalls 11%nat) as (payer1 & a1 & Hg & Ht); [lia|].
    destruct (realloc_ballot_box_step program_id clock es config bb ncn payer system epoch total
      Hsys Hncn Hes Hcf Hpayer Hempty Hbb Hwr Hkey Htotal Hrent _ payer1 a1 Hg) as (payer' & a' & Hg' & Hc); [done|].
    change (Z.min _ BallotBox.SIZE) with BallotBox.SIZE in Hg', Hc. rewrite Z.leb_refl in Hc.
    destruct (write_growing _ _ _ _ _ _ DBallotBox Hg') as (a'' & Hw & Hi & Hlen & Hlam); [done|].
    rewrite Hw in Hc. cbn [mbind] in Hc. eexists _, payer'. split.
    { cbn [realloc_ballot_box_times] in Ht |- *. rewrite Ht. cbn [mbind]. exact Hc. }
    cbn [info body]. repeat split; try done; [by apply Hi..|]. rewrite Hlam. by eapply growing_total.
  - intros n Hn. destruct (Hcalls n Hn) as (payer1 & a1 & Hg & Ht). exists (mkAcct a1 (body bb)), payer1.
    split; [done|]. split; [done|]. eapply growing_len, Hg. unfold MAX_REALLOC_BYTES. lia.
Qed.
End ballot_box_completes.

Module EpochLifecycleWitness.
Import ConcreteSolana ConcretePrograms ConcreteRestaking ConfigWitness VoteWitness.
Definition system : AccountInfo := system_account Pubkey_default 1.
Definition created_box : Acct BallotBox :=
  mkAcct (mkAccountInfo (BallotBox.find_program_address pid (key 9) 5).1.1 pid 72168320
            (replicate (Z.to_nat MAX_REALLOC_BYTES) 0) false true) (body VoteWitness.bb1).
End EpochLifecycleWitness.
Import EpochLifecycleWitness ConfigWitness ConcreteSolana ConcretePrograms ConcreteRestaking.

Lemma realloc_ballot_box_completes_witness : exists bb' payer',
  realloc_ballot_box_times 12 pid (mkClock 101 5) VoteWitness.es0 c0 created_box ConfigWitness.ncn payer system 5
  = Ok (with_body VoteWitness.es0 (EpochState.update_realloc_ballot_box (body VoteWitness.es0)), bb', payer') /\
  initialised (info bb') BallotBox.SIZE DBallotBox.
Proof.
  destruct (realloc_ballot_box_completes pid (mkClock 101 5) VoteWitness.es0 c0 created_box ConfigWitness.ncn payer system 5
    (1000000000 + 72168320)) as [(bb' & payer' & Hr & Hi & _) _].
  1-10: try reflexivity.
  - apply (bool_decide_unpack _). vm_compute. exact I.
  - apply (bool_decide_unpack _). vm_compute. exact I.
  - apply (bool_decide_unpack _). vm_compute. exact I.
  - reflexivity.
  - reflexivity.
  - intros n Hn. change BallotBox.SIZE with 128305 in Hn. cbn. lia.
  - exists bb', payer'. split; [exact Hr|exact Hi].
Defined.

(** An epoch state of full size with its contents. *)
Definition full_epoch_state : Acct EpochState :=
  mkAcct (mkAccountInfo (EpochState.find_program_address pid (key 9) 5).1.1 pid 1
            (discriminator DEpochState :: replicate (Z.to_nat EpochState.SIZE) 0) false true) (body VoteWitness.es0).

Lemma full_runs :
  match process_realloc_epoch_state pid (mkClock 101 5) full_epoch_state c0 ConfigWitness.ncn payer system 5 with
  | Ok _ => true | Err _ => false end = true.
Proof. vm_compute. reflexivity. Qed.

Lemma realloc_never_resets_witness : exists out,
  process_realloc_epoch_state pid (mkClock 101 5) full_epoch_state c0 ConfigWitness.ncn payer system 5 = Ok out /\
  out = (payer, full_epoch_state).
Proof.
  destruct (process_realloc_epoch_state pid (mkClock 101 5) full_epoch_state c0 ConfigWitness.ncn payer system 5)
    as [out|e] eqn:Hr; [|exfalso; generalize full_runs; rewrite Hr; discriminate].
  exists out. split; [reflexivity|].
  destruct (realloc_never_resets pid (mkClock 101 5) c0 ConfigWitness.ncn payer system 5) as (_ & Hes & _).
  apply (Hes full_epoch_state out); [|exact Hr].
  split; [apply (bool_decide_unpack _); vm_compute; exact I|reflexivity].
Defined.
