(* ===== verification/EpochClosing.v ===== *)
(** Closing the accounts of an epoch: what a successful close implies about the
    account that disappears, where its lamports go, and that the marker left by
    closing the epoch state ends the epoch. *)

From Stdlib Require Import String.
From S2P Require Import Prelude Errors External Restaking Constants Accounts FeeGroups Fees Config StakeWeight VaultRegistry WeightTable EpochSnapshot EpochState BallotBox BaseRewardRouter NcnRewardRouter SetupHandlers CloseHandlers VoteHandlers EpochStateProps.

Section closing.
Context `{Solana}.

(** The addresses of the accounts of one NCN and epoch, the epoch state and
    the marker aside. *)
Definition epoch_account (program_id ncn : Pubkey) (epoch : Z) (k : Pubkey) : Prop :=
  k = (WeightTable.find_program_address program_id ncn epoch).1.1 \/
  k = (EpochSnapshot.find_program_address program_id ncn epoch).1.1 \/
  (exists operator, k = (OperatorSnapshot.find_program_address program_id operator ncn epoch).1.1) \/
  k = (BallotBox.find_program_address program_id ncn epoch).1.1 \/
  k = (BaseRewardRouter.find_program_address program_id ncn epoch).1.1 \/
  (exists g operator, k = (NcnRewardRouter.find_program_address program_id g operator ncn epoch).1.1).

(** Only the account statuses changed. *)
Definition status_change (s s' : EpochState) : Prop := exists st, s' = EpochState.set_account_status s st.

(** The lamports held by the accounts a close writes. *)
Definition closing_lamports (c : Closing) : Z :=
  acc_lamports (cl_dao_wallet c) + acc_lamports (cl_account_payer c) + sumZ acc_lamports (cl_receivers c).
End closing.

(* ------------------------------------------------------------------ *)
(** * The account check *)

Section check.
Context `{Solana}.

Lemma check_load_key program_id a pda d w : check_load program_id a pda d w = Ok tt -> acc_key a = pda.
Proof. by intros (_ & ? & _)%check_load_spec. Qed.

Lemma close_operator_snapshot_status s i s' : EpochState.close_operator_snapshot s i = Ok s' -> status_change s s'.
Proof. unfold EpochState.close_operator_snapshot. intros Hc. res_inv. by eexists. Qed.

Lemma close_ncn_reward_router_status s i g s' :
  EpochState.close_ncn_reward_router s i g = Ok s' -> status_change s s'.
Proof. unfold EpochState.close_ncn_reward_router. intros Hc. res_inv. by eexists. Qed.

(** The check passes on the epoch's own accounts; or by the discriminator of an
    epoch state, once the epoch's other accounts are closed. *)
Lemma check_account_spec decode_os decode_nr program_id ncn epoch d a c c' :
  check_account decode_os decode_nr program_id ncn epoch d a c = Ok c' ->
  status_change (cl_state c) (cl_state c') /\
  (epoch_account program_id (acc_key ncn) epoch (acc_key a) \/
   d = discriminator DEpochState /\ EpochState.load_to_close (cl_state c) (acc_key ncn) epoch = Ok tt /\
   c' = with_state c (EpochState.close_epoch_state (cl_state c))).
Proof.
  unfold check_account. intros Hc.
  repeat match type of Hc with
  | (if ?b then _ else _) = Ok _ => let E := fresh "Hd" in destruct b eqn:E
  end; try discriminate.
  - res_inv. bool_prop. split; [by eexists|]. right. by destruct x.
  - res_inv. split; [by eexists|]. left. left. destruct x. by eapply check_load_key.
  - res_inv. split; [by eexists|]. left. right. left. destruct x. by eapply check_load_key.
  - unfold OperatorSnapshot.load_to_close in Hc. res_inv.
    split; [by eapply close_operator_snapshot_status|]. left. do 2 right. left. destruct x. eexists. by eapply check_load_key.
  - res_inv. split; [by eexists|]. left. do 3 right. left. destruct x. by eapply check_load_key.
  - res_inv. destruct (cl_receivers c) as [|r [|]]; try discriminate. res_inv. destruct x1 as [[r' dao] payer]. res_inv.
    split; [by eexists|]. left. do 4 right. left. destruct x. by eapply check_load_key.
  - unfold NcnRewardRouter.load_to_close in Hc. res_inv. destruct (cl_receivers c) as [|r [|]]; try discriminate.
    res_inv. match goal with Hp : NcnRewardReceiver.close _ _ _ _ _ _ _ _ = Ok ?p |- _ => destruct p as [[r' dao] payer] end.
    res_inv. split; [by eapply close_ncn_reward_router_status|]. left. do 5 right. destruct x. eexists _, _.
    by eapply check_load_key.
Qed.
End check.

(* ------------------------------------------------------------------ *)
(** * Lamports *)

Section lamports.
Context `{Solana} {TL : TransferLaws _}.

(** A transfer between accounts with different keys conserves lamports. *)
Definition moves (tr : AccountInfo -> AccountInfo -> Z -> res (AccountInfo * AccountInfo)) : Prop :=
  forall from to n from' to', tr from to n = Ok (from', to') -> acc_key from <> acc_key to ->
    acc_lamports from' + acc_lamports to' = acc_lamports from + acc_lamports to /\ acc_key from' = acc_key from.

Lemma invoke_moves (address : Pubkey) seeds : moves (fun from to n =>
  if negb (bool_decide (address = acc_key from)) then Err (Prog InvalidAccountData) else invoke_transfer from to n seeds).
Proof using TL.
  intros from to n from' to' Ht Hk. res_inv. apply transfer_moves in Ht as (_ & -> & ->); [|done]. split; [cbn; lia|done].
Qed.

(** Closing a receiver: the excess to the DAO wallet, the rent to the payer. *)
Lemma drain_moves tr r dao payer excess rent r' dao' payer' :
  moves tr ->
  ('(r, dao) ← (if 0 <? excess then tr r dao excess else Ok (r, dao));
   '(r, payer) ← tr r payer rent; mret (r, dao, payer)) = Ok (r', dao', payer') ->
  acc_key r <> acc_key dao -> acc_key r <> acc_key payer ->
  acc_lamports r' + acc_lamports dao' + acc_lamports payer' = acc_lamports r + acc_lamports dao + acc_lamports payer.
Proof.
  intros Htr Hc Hd Hp. apply bind_Ok in Hc as ([r1 dao1] & Hfirst & Hc).
  assert (Hr1 : acc_lamports r1 + acc_lamports dao1 = acc_lamports r + acc_lamports dao /\ acc_key r1 = acc_key r).
  { destruct (0 <? _); [by apply (Htr _ _ _ _ _ Hfirst)|]. by injection Hfirst as <- <-. }
  destruct Hr1 as [Hr1 Hk]. apply bind_Ok in Hc as ([r2 payer2] & Hsecond & Hc). res_inv.
  apply Htr in Hsecond as [Hs _]; [congruence|lia].
Qed.

Lemma base_receiver_close_moves program_id ncn epoch r dao payer r' dao' payer' :
  BaseRewardReceiver.close program_id ncn epoch r dao payer = Ok (r', dao', payer') ->
  acc_key r <> acc_key dao -> acc_key r <> acc_key payer ->
  acc_lamports r' + acc_lamports dao' + acc_lamports payer' = acc_lamports r + acc_lamports dao + acc_lamports payer.
Proof using TL.
  intros Hc. eapply (drain_moves (BaseRewardReceiver.transfer program_id ncn epoch)), Hc.
  unfold BaseRewardReceiver.transfer. destruct (BaseRewardReceiver.find_program_address _ _ _) as [[? ?] ?].
  apply invoke_moves.
Qed.

Lemma ncn_receiver_close_moves program_id g operator ncn epoch r dao payer r' dao' payer' :
  NcnRewardReceiver.close program_id g operator ncn epoch r dao payer = Ok (r', dao', payer') ->
  acc_key r <> acc_key dao -> acc_key r <> acc_key payer ->
  acc_lamports r' + acc_lamports dao' + acc_lamports payer' = acc_lamports r + acc_lamports dao + acc_lamports payer.
Proof using TL.
  intros Hc. eapply (drain_moves (NcnRewardReceiver.transfer program_id g operator ncn epoch)), Hc.
  unfold NcnRewardReceiver.transfer. destruct (NcnRewardReceiver.find_program_address _ _ _ _ _) as [[? ?] ?].
  apply invoke_moves.
Qed.

Lemma check_account_lamports decode_os decode_nr program_id ncn epoch d a c c' :
  check_account decode_os decode_nr program_id ncn epoch d a c = Ok c' ->
  (forall r, r ∈ cl_receivers c -> acc_key r <> acc_key (cl_dao_wallet c) /\ acc_key r <> acc_key (cl_account_payer c)) ->
  closing_lamports c' = closing_lamports c.
Proof using TL.
  unfold check_account, closing_lamports. intros Hc Hkeys.
  repeat match type of Hc with
  | (if ?b then _ else _) = Ok _ => destruct b
  end; try discriminate; res_inv; try done.
  - destruct (cl_receivers c) as [|r [|]] eqn:Er; try discriminate. res_inv. destruct x1 as [[r' dao] payer]. res_inv.
    destruct (Hkeys r) as [Hd Hp]; [left|].
    match goal with Hx : BaseRewardReceiver.close _ _ _ _ _ _ = _ |- _ => apply base_receiver_close_moves in Hx end; [|done..].
    cbn. lia.
  - destruct (cl_receivers c) as [|r [|]] eqn:Er; try discriminate. res_inv.
    match goal with Hp : NcnRewardReceiver.close _ _ _ _ _ _ _ _ = Ok ?p |- _ => destruct p as [[r' dao] payer] end. res_inv.
    destruct (Hkeys r) as [Hd Hp]; [left|].
    match goal with Hx : NcnRewardReceiver.close _ _ _ _ _ _ _ _ = _ |- _ => apply ncn_receiver_close_moves in Hx end; [|done..].
    cbn. lia.
Qed.
End lamports.

(* ------------------------------------------------------------------ *)
(** * Closing *)

Section closes.
Context `{Solana} `{PreciseNumberOps} `{Programs} `{Restaking}.

Lemma can_close_inv ge e n slot :
  EpochState.can_close_epoch_accounts ge e n slot = Ok true ->
  EpochState.is_consensus_reached e = true /\ n <= saturating_sub (ge slot) (ge (ep_slot_consensus_reached e)).
Proof.
  intros Hc. destruct (EpochState.is_consensus_reached e) eqn:Er.
  - rewrite can_close_spec in Hc by done. injection Hc as Hc. by apply Z.leb_le in Hc.
  - revert Hc. unfold EpochState.can_close_epoch_accounts, EpochState.get_epoch_consensus_reached,
      EpochState.get_slot_consensus_reached. unfold EpochState.is_consensus_reached in Er.
    apply negb_false_iff in Er. by rewrite Er.
Qed.

(** The steps of a successful close. *)
Lemma close_inv decode_os decode_nr program_id clock epoch_marker es config ncn account payer dao system
    optional epoch marker es' account' c :
  process_close_epoch_account decode_os decode_nr program_id clock epoch_marker es config ncn account payer dao system
    optional epoch = Ok (marker, es', account', c) ->
  acc_data account <> [] /\
  FeeConfig.base_fee_wallet (cf_fee_config (body config)) BaseFeeGroup.dao = Ok (acc_key dao) /\
  EpochState.can_close_epoch_accounts get_epoch (body es)
    (cf_epochs_after_consensus_before_close (body config)) (clock_slot clock) = Ok true /\
  exists d c1 payer1,
    (acc_key account = acc_key (info es) /\ d = discriminator DEpochState \/ acc_data account !! 0%nat = Some d) /\
    check_account decode_os decode_nr program_id ncn epoch d account
      (mkClosing (EpochState.start_closing (body es)) dao payer optional) = Ok c1 /\
    (acc_key account = acc_key (info es) /\
       (exists m, marker = Some m /\
          create_epoch_marker program_id clock ncn epoch_marker (cl_account_payer c1) epoch = Ok (payer1, m)) \/
     acc_key account <> acc_key (info es) /\ marker = None /\ payer1 = cl_account_payer c1) /\
    AccountPayer.close_account program_id payer1 account = Ok (cl_account_payer c, account') /\
    es' = with_body es (cl_state c1) /\
    c = mkClosing (cl_state c1) (cl_dao_wallet c1) (cl_account_payer c) (cl_receivers c1).
Proof.
  unfold process_close_epoch_account. intros Hc. res_inv. bool_prop. subst.
  destruct x9 as [payer1 marker1]. res_inv.
  match goal with Hcl : AccountPayer.close_account _ _ _ = Ok ?p |- _ => destruct p as [payer2 account2] end. res_inv.
  cbn [cl_account_payer].
  split; [done|]. split; [congruence|]. split; [done|]. exists x7, x8, payer1.
  destruct (bool_decide_reflect (acc_key account = acc_key (info es))) as [Heq|Hne]; res_inv.
  - split; [by left|]. split; [done|]. split; [|done]. left. split; [done|]. match goal with Hm : create_epoch_marker _ _ _ _ _ _ = Ok ?p |- _ => destruct p as [payer3 m] end. res_inv. by exists m.
  - split; [right; by apply aget_Ok|]. split; [done|]. split; [by right|done].
Qed.

(** a close is bound to its epoch.  When the instruction succeeds,
    consensus was reached and the configured number of epochs passed since; the
    DAO wallet is the configured one; the account belonged to the program and
    had data; it is the epoch's weight table, epoch snapshot, ballot box, base
    router, or one of its operator snapshots and NCN routers, or else (by its
    key or its discriminator) an epoch state, and then all of these are closed;
    the account ends without lamports and data, owned by the system program; the
    epoch state is marked as closing and only its account statuses change
    besides; and the marker is created exactly when the epoch state itself is
    closed. *)
Theorem close_epoch_account_checks decode_os decode_nr program_id clock epoch_marker es config ncn account payer dao system
    optional epoch marker es' account' c :
  process_close_epoch_account decode_os decode_nr program_id clock epoch_marker es config ncn account payer dao system
    optional epoch = Ok (marker, es', account', c) ->
  (EpochState.is_consensus_reached (body es) = true /\
   cf_epochs_after_consensus_before_close (body config)
   <= saturating_sub (get_epoch (clock_slot clock)) (get_epoch (ep_slot_consensus_reached (body es)))) /\
  FeeConfig.base_fee_wallet (cf_fee_config (body config)) BaseFeeGroup.dao = Ok (acc_key dao) /\
  (acc_owner account = program_id /\ acc_data account <> []) /\
  (epoch_account program_id (acc_key ncn) epoch (acc_key account) \/
   EpochState.load_to_close (EpochState.start_closing (body es)) (acc_key ncn) epoch = Ok tt /\
   (acc_key account = acc_key (info es) \/ acc_data account !! 0%nat = Some (discriminator DEpochState))) /\
  (acc_lamports account' = 0 /\ acc_data account' = [] /\ acc_owner account' = system_program_id) /\
  info es' = info es /\ status_change (EpochState.start_closing (body es)) (body es') /\
  (is_Some marker <-> acc_key account = acc_key (info es)).
Proof.
  intros (Hd & Hdao & Hcan & d & c1 & payer1 & Hhead & Hck & Hm & Hcl & -> & _)%close_inv.
  apply close_account_conserves in Hcl as Hcl'. destruct Hcl' as (_ & Hd' & Ho' & Ho).
  apply check_account_spec in Hck as [Hst Hck]. cbn [cl_state] in *. cbn [info body with_body].
  split; [by apply can_close_inv|]. split; [done|]. split; [done|].
  split. { destruct Hck as [|(-> & Hload & _)]; [by left|]. right. split; [done|]. destruct Hhead as [[? _]|]; auto. }
  split. { unfold AccountPayer.close_account in Hcl. res_inv. by cbn. }
  split; [done|]. split; [done|].
  destruct Hm as [(Hk & m & -> & _)|(Hk & -> & _)]; split; intros; done.
Qed.

(** closing any account but the epoch state conserves lamports: what the
    account, the receiver, the DAO wallet and the payer held together before the
    call, they hold together after it. *)
Theorem close_conserves_lamports {TL : TransferLaws _} decode_os decode_nr program_id clock epoch_marker es config ncn account
    payer dao system optional epoch marker es' account' c :
  process_close_epoch_account decode_os decode_nr program_id clock epoch_marker es config ncn account payer dao system
    optional epoch = Ok (marker, es', account', c) ->
  acc_key account <> acc_key (info es) ->
  (forall r, r ∈ optional -> acc_key r <> acc_key dao /\ acc_key r <> acc_key payer) ->
  acc_lamports account' = 0 /\
  closing_lamports c + acc_lamports account'
  = acc_lamports dao + acc_lamports payer + sumZ acc_lamports optional + acc_lamports account.
Proof.
  intros (Hd & Hdao & Hcan & d & c1 & payer1 & Hhead & Hck & Hm & Hcl & _ & Hc)%close_inv Hk Hr.
  apply check_account_lamports in Hck; [|done]. destruct Hm as [[? _]|(_ & _ & ->)]; [done|].
  split. { unfold AccountPayer.close_account in Hcl. res_inv. by cbn. }
  apply close_account_conserves in Hcl as [Hcl _]. rewrite Hc. unfold closing_lamports in *. cbn in *. lia.
Qed.

(** an epoch state that is not this epoch's can be closed by it.  Once
    the other accounts of an NCN's epoch are closed, the instruction accepts any
    account with the discriminator of an epoch state and owned by the program,
    whatever its NCN and epoch are and whatever state it is in: the account
    is emptied, its lamports go to the payer of the NCN that asked, and no marker
    is written. *)
Theorem foreign_epoch_state_closes decode_os decode_nr program_id clock epoch_marker es config ncn victim payer dao system
    optional epoch rest :
  load_system_program system = Ok tt -> ncn_load ncn false = Ok tt ->
  EpochState.load program_id (info es) (acc_key ncn) epoch false = Ok tt ->
  Config.load program_id (info config) (acc_key ncn) false = Ok tt ->
  AccountPayer.load program_id payer (acc_key ncn) false = Ok tt ->
  EpochMarker.check_dne program_id epoch_marker (acc_key ncn) epoch = Ok tt ->
  FeeConfig.base_fee_wallet (cf_fee_config (body config)) BaseFeeGroup.dao = Ok (acc_key dao) ->
  EpochState.can_close_epoch_accounts get_epoch (body es)
    (cf_epochs_after_consensus_before_close (body config)) (clock_slot clock) = Ok true ->
  EpochState.load_to_close (EpochState.start_closing (body es)) (acc_key ncn) epoch = Ok tt ->
  acc_key victim <> acc_key (info es) -> acc_owner victim = program_id ->
  acc_data victim = discriminator DEpochState :: rest ->
  fits U64 (acc_lamports payer + acc_lamports victim) ->
  process_close_epoch_account decode_os decode_nr program_id clock epoch_marker es config ncn victim payer dao system
    optional epoch
  = Ok (None, with_body es (EpochState.close_epoch_state (EpochState.start_closing (body es))),
        with_data (with_owner (with_lamports victim 0) system_program_id) [],
        mkClosing (EpochState.close_epoch_state (EpochState.start_closing (body es))) dao
          (with_lamports payer (acc_lamports payer + acc_lamports victim)) optional).
Proof.
  intros Hsys Hncn Hes Hcf Hp Hdne Hdao Hcan Hload Hkey Howner Hdata Hfits.
  unfold process_close_epoch_account. rewrite Hsys, Hncn, Hes, Hcf, Hp, Hdne. cbn [mbind result_bind].
  rewrite Hdata, (bool_decide_eq_false_2 (acc_key victim = _)) by done. cbn [bool_decide].
  rewrite bool_decide_eq_false_2 by done. rewrite Hdao. cbn [mbind result_bind].
  rewrite bool_decide_eq_true_2 by done. cbn [negb]. rewrite Hcan. cbn [mbind result_bind negb].
  unfold aget. cbn [lookup list_lookup ok_or mbind result_bind]. unfold check_account. rewrite Z.eqb_refl.
  cbn [cl_state]. rewrite Hload. cbn. unfold AccountPayer.close_account. rewrite Howner, bool_decide_eq_true_2 by done.
  cbn [negb]. by rewrite checked_add_ok by apply Hfits.
Qed.

(** C35: a closed epoch stays closed.  After the call that closes the epoch
    state, with the marker it leaves, none of the instructions that create an
    account of that NCN and epoch succeeds, whatever the other accounts and
    arguments are. *)
Theorem closed_epoch_stays_closed decode_os decode_nr program_id clock epoch_marker es config ncn account payer dao system
    optional epoch marker es' account' c :
  process_close_epoch_account decode_os decode_nr program_id clock epoch_marker es config ncn account payer dao system
    optional epoch = Ok (Some marker, es', account', c) ->
  let m := info marker in
  (forall clk a cf p s out, process_initialize_epoch_state program_id clk m a cf ncn p s epoch <> Ok out) /\
  (forall e vr a p s out, process_initialize_weight_table program_id m e vr ncn a p s epoch <> Ok out) /\
  (forall clk e cf wt a p s out, process_initialize_epoch_snapshot program_id clk m e cf ncn wt a p s epoch <> Ok out) /\
  (forall e cf o st eps a p s out,
     process_initialize_operator_snapshot program_id m e cf ncn o st eps a p s epoch <> Ok out) /\
  (forall e cf a p s out, process_initialize_ballot_box program_id m e cf a ncn p s epoch <> Ok out) /\
  (forall e a r p s out, process_initialize_base_reward_router program_id m e ncn a r p s epoch <> Ok out) /\
  (forall clk e o os a r p s g out,
     process_initialize_ncn_reward_router program_id clk m e ncn o os a r p s g epoch <> Ok out).
Proof.
  intros (_ & _ & _ & d & c1 & payer1 & _ & _ & Hm & _ & _ & _)%close_inv m.
  assert (Hdata : 0 < Z.of_nat (length (acc_data m))).
  { destruct Hm as [(_ & m' & [= <-] & Hm)|(_ & ? & _)]; [|done]. unfold create_epoch_marker in Hm.
    res_inv. destruct x. res_inv. unfold write_discriminator in *. res_inv.
    match goal with Ha : aset _ _ _ = Ok _ |- _ => apply aset_Ok in Ha as [-> Ha] end.
    unfold m. cbn. rewrite length_insert. lia. }
  assert (Hdne : forall x, EpochMarker.check_dne program_id m (acc_key ncn) epoch <> Ok x).
  { intros x. unfold EpochMarker.check_dne. destruct (negb _); [done|].
    by rewrite (proj2 (Z.ltb_lt _ _)) by done. }
  repeat split; intros * Hi;
    [unfold process_initialize_epoch_state in Hi|unfold process_initialize_weight_table in Hi
    |unfold process_initialize_epoch_snapshot in Hi|unfold process_initialize_operator_snapshot in Hi
    |unfold process_initialize_ballot_box in Hi|unfold process_initialize_base_reward_router in Hi
    |unfold process_initialize_ncn_reward_router in Hi]; res_inv; by eapply Hdne.
Qed.
End closes.

(* ------------------------------------------------------------------ *)
(** * Witnesses *)

(** The epoch 5 of the NCN [key 9], decided at slot 120, all accounts closed. *)
Module EpochClosingWitness.
Import ConcreteSolana ConcretePrograms ConcreteRestaking ConfigWitness VoteWitness.

Definition decided : EpochState := EpochState.update_cast_vote
  (EpochState.update_realloc_ballot_box (EpochState.update_realloc_base_reward_router (body VoteWitness.es0))) 1 true 120.
Definition closed : EpochState := EpochState.close_base_reward_router (EpochState.close_ballot_box
  (EpochState.close_epoch_snapshot (EpochState.close_weight_table decided))).
Definition es_closed : Acct EpochState := with_body VoteWitness.es0 closed.
Definition dao : AccountInfo :=
  system_account (match FeeConfig.base_fee_wallet (cf_fee_config (body c0)) BaseFeeGroup.dao with
                  | Ok k => k | Err _ => Pubkey_default end) 5.
Definition marker0 : AccountInfo := system_account (EpochMarker.find_program_address pid (key 9) 5).1.1 0.
Definition clock : Clock := mkClock 43200000 100.
Definition system : AccountInfo := system_account Pubkey_default 1.
Definition no_os (_ : list Z) : res OperatorSnapshot := Err (Prog InvalidAccountData).
Definition no_nr (_ : list Z) : res NcnRewardRouter := Err (Prog InvalidAccountData).
(** The epoch state of the NCN [key 8]. *)
Definition victim : AccountInfo :=
  with_lamports (program_account (EpochState.find_program_address pid (key 8) 7).1.1 DEpochState) 41.
Definition table : AccountInfo :=
  with_lamports (program_account (WeightTable.find_program_address pid (key 9) 5).1.1 DWeightTable) 17.

Definition get_ok {A} (d : A) (r : res A) : A := match r with Ok a => a | Err _ => d end.
Definition closing0 : Closing := mkClosing closed dao payer [].
Definition ended := get_ok (None, es_closed, victim, closing0) (process_close_epoch_account no_os no_nr pid clock marker0 es_closed c0 ConfigWitness.ncn (info es_closed) payer dao system [] 5).
Definition marker : Acct EpochMarker.EpochMarker :=
  match ended.1.1.1 with Some m => m | None => mkAcct marker0 (EpochMarker.new (key 9) 5 0) end.
Definition table_closed := get_ok (None, es_closed, table, closing0) 
  (process_close_epoch_account no_os no_nr pid clock marker0 (with_body VoteWitness.es0 decided) c0 ConfigWitness.ncn table payer dao system [] 5).

Lemma ended_run :
  process_close_epoch_account no_os no_nr pid clock marker0 es_closed c0 ConfigWitness.ncn (info es_closed) payer dao system [] 5
  = Ok (Some marker, ended.1.1.2, ended.1.2, ended.2).
Proof. vm_compute. reflexivity. Qed.

Lemma table_run :
  process_close_epoch_account no_os no_nr pid clock marker0 (with_body VoteWitness.es0 decided) c0 ConfigWitness.ncn table payer dao system [] 5
  = Ok (table_closed.1.1.1, table_closed.1.1.2, table_closed.1.2, table_closed.2).
Proof. vm_compute. reflexivity. Qed.
End EpochClosingWitness.
Import EpochClosingWitness ConfigWitness ConcreteSolana ConcretePrograms ConcreteRestaking.

Lemma close_epoch_account_checks_witness :
  acc_lamports ended.1.2 = 0 /\ acc_data ended.1.2 = [] /\ is_Some (Some marker).
Proof.
  destruct (close_epoch_account_checks no_os no_nr pid EpochClosingWitness.clock marker0 es_closed c0 ConfigWitness.ncn (info es_closed) payer
    dao EpochClosingWitness.system [] 5 (Some marker) ended.1.1.2 ended.1.2 ended.2 ended_run)
    as (_ & _ & _ & _ & (Hl & Hd & _) & _ & _ & Hm).
  split; [exact Hl|]. split; [exact Hd|]. by apply Hm.
Defined.

Lemma close_conserves_lamports_witness :
  closing_lamports table_closed.2 + acc_lamports table_closed.1.2
  = acc_lamports dao + acc_lamports payer + 0 + 17.
Proof.
  apply (close_conserves_lamports no_os no_nr pid EpochClosingWitness.clock marker0 (with_body VoteWitness.es0 decided) c0
    ConfigWitness.ncn table payer dao EpochClosingWitness.system [] 5 table_closed.1.1.1 table_closed.1.1.2 table_closed.1.2
    table_closed.2 table_run).
  - apply (bool_decide_unpack _). vm_compute. exact I.
  - intros r Hr. inversion Hr.
Defined.

(** The state of another NCN is closed, and its 41 lamports are the payer's. *)
Lemma foreign_epoch_state_closes_witness : exists c,
  process_close_epoch_account no_os no_nr pid EpochClosingWitness.clock marker0 es_closed c0 ConfigWitness.ncn victim payer
    dao EpochClosingWitness.system [] 5
  = Ok (None, with_body es_closed (EpochState.close_epoch_state (EpochState.start_closing (body es_closed))),
        with_data (with_owner (with_lamports victim 0) system_program_id) [], c) /\
  acc_lamports (cl_account_payer c) = 1000000000 + 41.
Proof.
  eexists. split.
  - apply (foreign_epoch_state_closes no_os no_nr pid EpochClosingWitness.clock marker0 es_closed c0 ConfigWitness.ncn victim
      payer dao EpochClosingWitness.system [] 5 []); try (vm_compute; reflexivity).
    + apply (bool_decide_unpack _). vm_compute. exact I.
    + split; apply (bool_decide_unpack _); vm_compute; exact I.
  - reflexivity.
Defined.

Lemma closed_epoch_stays_closed_witness :
  ~ is_ok (process_initialize_ballot_box pid (info marker) es_closed c0 (system_account (key 4) 0) ConfigWitness.ncn payer
             EpochClosingWitness.system 5).
Proof.
  intros [out Ho].
  destruct (closed_epoch_stays_closed no_os no_nr pid EpochClosingWitness.clock marker0 es_closed c0
    ConfigWitness.ncn (info es_closed) payer dao EpochClosingWitness.system [] 5 marker ended.1.1.2 ended.1.2 ended.2 ended_run)
    as (_ & _ & _ & _ & Hb & _).
  exact (Hb _ _ _ _ _ _ Ho).
Defined.
