(* ===== verification/WeightSide.v ===== *)
(** Setting weights through the instructions: the epoch state's progress counts
    what the weight table holds, a finalized table is frozen, and what the
    administrator's instruction accepts beyond the registered tokens. *)

From Stdlib Require Import String.
From S2P Require Import Prelude Errors External Restaking Constants Accounts FeeGroups Fees Config StakeWeight VaultRegistry WeightTable EpochSnapshot EpochState BallotBox VoteHandlers RegistryHandlers.

(** The epoch state and the weight table of an epoch. *)
Record WeightSide := mkWeightSide { ws_state : Acct EpochState; ws_table : Acct WeightTable }.

Definition counted (s : WeightSide) : Prop :=
  ep_set_weight_progress (body (ws_state s)) =
    mkProgress (WeightTable.weight_count (body (ws_table s))) (WeightTable.mint_count (body (ws_table s))).

Section steps.
Context `{Solana} `{PreciseNumberOps} `{Programs} `{Restaking} `{Switchboard}.

(** The two instructions, for a token other than the default key. *)
Inductive weight_call (program_id : Pubkey) (s s' : WeightSide) : Prop :=
  | wc_admin clock ncn admin st_mint epoch weight :
      st_mint <> Pubkey_default ->
      process_admin_set_weight program_id clock (ws_state s) ncn (ws_table s) admin st_mint epoch weight
      = Ok (ws_state s', ws_table s') -> weight_call program_id s s'
  | wc_switchboard clock ncn feed st_mint epoch :
      st_mint <> Pubkey_default ->
      process_switchboard_set_weight program_id clock (ws_state s) ncn (ws_table s) feed st_mint epoch
      = Ok (ws_state s', ws_table s') -> weight_call program_id s s'.

Lemma record_weight_inv clock s st_mint weight s' :
  record_weight clock (ws_state s) (ws_table s) st_mint weight = Ok (ws_state s', ws_table s') ->
  WeightTable.finalized (body (ws_table s)) = false /\ counted s' /\
  WeightTable.set_weight (body (ws_table s)) st_mint weight (clock_slot clock) = Ok (body (ws_table s')).
Proof.
  unfold record_weight. intros Hr. res_inv. destruct s' as [es wt]. cbn in *. subst.
  split; [done|]. split; [done|]. done.
Qed.

Lemma weight_call_inv program_id s s' :
  weight_call program_id s s' ->
  exists clock st_mint weight, st_mint <> Pubkey_default /\
    record_weight clock (ws_state s) (ws_table s) st_mint weight = Ok (ws_state s', ws_table s').
Proof.
  intros [clock ncn admin st_mint epoch weight Hm Hp|clock ncn feed st_mint epoch Hm Hp];
    [unfold process_admin_set_weight in Hp|unfold process_switchboard_set_weight in Hp]; res_inv; by eauto.
Qed.
End steps.

(* ------------------------------------------------------------------ *)
(** * Counting *)

(** No more weights than tokens. *)
Lemma weight_le_mint t : weight_inv t -> WeightTable.weight_count t <= WeightTable.mint_count t.
Proof.
  intros [_ _ He _ _]. unfold WeightTable.mint_count, WeightTable.weight_count. rewrite !count_sumZ.
  apply sumZ_le. intros e Hin. pose proof (Forall_In _ _ _ He Hin) as Hxe. cbn in Hxe.
  unfold indic. destruct (WeightEntry.is_empty e), (WeightEntry.is_set e), (decide _), (decide _); try done;
    by specialize (Hxe eq_refl).
Qed.

Lemma counts_bound t : weight_inv t ->
  0 <= WeightTable.weight_count t <= 64 /\ 0 < WeightTable.mint_count t <= 64.
Proof.
  intros Ht. assert (Hw := weight_le_mint t Ht). destruct Ht as [Hl _ _ _ Hm].
  assert (Hb := count_bounds (fun e => WeightEntry.is_empty e = false) (wt_table t)).
  assert (Hc := count_bounds (fun e => WeightEntry.is_set e = true) (wt_table t)).
  rewrite Hl in Hb, Hc. unfold MAX_ST_MINTS in *. unfold WeightTable.mint_count, WeightTable.weight_count in *. lia.
Qed.

Lemma complete_counts w m : 0 <= w <= 64 -> 0 < m <= 64 -> Progress.is_complete (mkProgress w m) = (m <=? w).
Proof.
  intros Hw Hm. unfold Progress.is_complete, Progress.is_invalid, Progress.INVALID. cbn [pg_tally pg_total].
  by rewrite !(proj2 (Z.eqb_neq _ _)) by lia.
Qed.

(** Progress reads as complete exactly when the table is finalized. *)
Lemma counted_complete t :
  weight_inv t ->
  Progress.is_complete (mkProgress (WeightTable.weight_count t) (WeightTable.mint_count t)) = WeightTable.finalized t.
Proof.
  intros Ht. destruct (counts_bound t Ht) as [Hw Hm]. assert (Hle := weight_le_mint t Ht).
  rewrite complete_counts by done.
  unfold WeightTable.finalized, WeightTable.table_initialized. rewrite (wi_init _ Ht), (proj2 (Z.ltb_lt _ _)) by lia.
  cbn [andb]. destruct (Z.leb_spec (WeightTable.mint_count t) (WeightTable.weight_count t)),
    (Z.eqb_spec (WeightTable.mint_count t) (WeightTable.weight_count t)); try done; lia.
Qed.

(** Fewer weights than tokens: some token has none. *)
Lemma missing_weight t :
  weight_inv t -> WeightTable.weight_count t < WeightTable.mint_count t ->
  exists j e, wt_table t !! j = Some e /\ WeightEntry.is_empty e = false /\ WeightEntry.is_set e = false.
Proof.
  intros Ht Hlt.
  destruct (decide (Forall (fun e => WeightEntry.is_empty e = false -> WeightEntry.is_set e = true) (wt_table t)))
    as [Hall|Hn].
  - assert (Hf : WeightTable.finalized t = true).
    { apply (finalized_all_set t Ht). intros e He. exact (Forall_In _ _ _ Hall He). }
    unfold WeightTable.finalized in Hf. bool_prop. lia.
  - apply not_Forall_Exists in Hn; [|tc_solve]. apply Exists_exists in Hn as (e & [j Hj]%list_elem_of_In%list_elem_of_lookup & He).
    exists j, e. split; [done|]. revert He. unfold compose.
    destruct (WeightEntry.is_empty e), (WeightEntry.is_set e); intros He; (done || (exfalso; by apply He)).
Qed.

(** Writing an unused entry counts as a weight. *)
Lemma unused_counts t i unused w slot :
  weight_inv t -> 0 < slot -> WeightTable.find_entry t Pubkey_default = Some (i, unused) ->
  we_slot_set unused = 0 ->
  let t' := WeightTable.with_table t (<[i:=WeightEntry.set_weight unused w slot]> (wt_table t)) in
  WeightTable.weight_count t' = WeightTable.weight_count t + 1 /\ WeightTable.mint_count t' = WeightTable.mint_count t.
Proof.
  intros Ht Hs [Hi He]%find_entry_Some Hz t'. split; [|by apply mint_count_set].
  assert (Hu : WeightEntry.is_set unused = false).
  { apply (Forall_lookup_1 _ _ _ _ (wi_empty _ Ht) Hi). by apply we_is_empty. }
  assert (Hs' : WeightEntry.is_set (WeightEntry.set_weight unused w slot) = true).
  { unfold WeightEntry.is_set in *. rewrite (proj1 (set_weight_entry_slot _ _ _)).
    rewrite Hz, Z.eqb_refl. by apply Z.ltb_lt. }
  unfold WeightTable.weight_count, t'. cbn. rewrite (count_insert _ _ _ _ _ Hi).
  rewrite (indic_false (WeightEntry.is_set unused = true)) by congruence.
  rewrite (indic_true (WeightEntry.is_set _ = true)) by done. lia.
Qed.

(* ------------------------------------------------------------------ *)
(** * Properties *)

Section properties.
Context `{Solana} `{PreciseNumberOps} `{Programs} `{Restaking} `{Switchboard}.

Lemma weight_call_keeps program_id s s' :
  weight_call program_id s s' -> weight_inv (body (ws_table s)) ->
  WeightTable.finalized (body (ws_table s)) = false /\ weight_inv (body (ws_table s')) /\ counted s'.
Proof.
  intros (clock & st_mint & weight & Hm & (Hf & Hc & Hs)%record_weight_inv)%weight_call_inv Ht.
  split; [done|]. split; [|done]. exact (set_weight_inv _ _ _ _ _ Ht Hm Hs).
Qed.

(** the two ways of setting weights agree with the epoch state.  From a
    table in its initial state, after any number of calls of either instruction
    for tokens, the progress recorded in the epoch state holds the number of
    weights and of tokens of the table; it reads as complete exactly when every
    token of the table has a weight; and from then on neither instruction
    succeeds again. *)
Theorem weights_progress_complete program_id s s' :
  weight_inv (body (ws_table s)) -> counted s -> star (weight_call program_id) s s' ->
  counted s' /\
  (Progress.is_complete (ep_set_weight_progress (body (ws_state s'))) = true <->
   forall e, e ∈ wt_table (body (ws_table s')) -> WeightEntry.is_empty e = false -> WeightEntry.is_set e = true) /\
  (Progress.is_complete (ep_set_weight_progress (body (ws_state s'))) = true ->
   forall s'', ~ weight_call program_id s' s'').
Proof.
  intros Ht Hc Hs.
  assert (Hinv : weight_inv (body (ws_table s')) /\ counted s').
  { eapply (star_invariant _ (fun s => weight_inv (body (ws_table s)) /\ counted s)); [|exact Hs|done].
    intros a b [Ha _] Hab. apply weight_call_keeps in Hab; [apply Hab|exact Ha]. }
  destruct Hinv as [Ht' Hc']. split; [done|]. rewrite Hc', counted_complete by done.
  split; [by apply finalized_all_set|]. intros Hf s'' Hcall%weight_call_keeps; [|done]. destruct Hcall. congruence.
Qed.

(** the administrator's instruction takes the default key for a token.
    When a single token is without a weight and the table has an unused entry,
    a call for the default key is accepted; the table is then finalized and the
    epoch's progress complete although that token has no weight, and
    no instruction can set it any more. *)
Theorem default_key_finalizes_table program_id clock es ncn wt admin epoch weight i unused :
  ncn_load ncn false = Ok tt -> ncn_weight_table_admin_of ncn = Ok (acc_key admin) -> load_signer admin true = Ok tt ->
  EpochState.load program_id (info es) (acc_key ncn) epoch true = Ok tt ->
  WeightTable.load program_id (info wt) (acc_key ncn) epoch true = Ok tt ->
  0 < clock_slot clock -> weight_inv (body wt) ->
  WeightTable.find_entry (body wt) Pubkey_default = Some (i, unused) -> we_slot_set unused = 0 ->
  WeightTable.weight_count (body wt) + 1 = WeightTable.mint_count (body wt) ->
  exists s, process_admin_set_weight program_id clock es ncn wt admin Pubkey_default epoch weight = Ok (ws_state s, ws_table s) /\
    WeightTable.finalized (body (ws_table s)) = true /\
    Progress.is_complete (ep_set_weight_progress (body (ws_state s))) = true /\
    (exists e, e ∈ wt_table (body (ws_table s)) /\ WeightEntry.is_empty e = false /\ WeightEntry.is_set e = false) /\
    (forall s', ~ weight_call program_id s s').
Proof.
  intros Hncn Hadm Hsig Hes Hwt Hslot Ht Hfind Hz Hcount.
  destruct (counts_bound _ Ht) as [Hw Hm]. destruct (missing_weight _ Ht) as (j & e & Hj & Hemp & Hset); [lia|].
  destruct (unused_counts _ i unused weight (clock_slot clock) Ht Hslot Hfind Hz) as [Hwc Hmc].
  set (t' := WeightTable.with_table _ _) in *.
  assert (Hfin : WeightTable.finalized t' = true).
  { unfold WeightTable.finalized, WeightTable.table_initialized. rewrite Hwc, Hmc, (proj2 (Z.ltb_lt _ _)), (proj2 (Z.eqb_eq _ _)) by lia.
    by rewrite (wi_init _ Ht : WeightTable.vault_registry_initialized t' = true). }
  exists (mkWeightSide (with_body es (EpochState.update_set_weight (body es) (WeightTable.weight_count t')
    (WeightTable.mint_count t'))) (with_body wt t')). cbn [ws_state ws_table].
  split.
  { unfold process_admin_set_weight. rewrite Hncn, Hadm, Hsig, Hes, Hwt. cbn.
    rewrite bool_decide_eq_true_2 by done. cbn. unfold record_weight, WeightTable.check_table_initialized,
      WeightTable.table_initialized. rewrite (proj2 (Z.ltb_lt _ _)) by lia. cbn.
    replace (WeightTable.finalized (body wt)) with false.
    2: { unfold WeightTable.finalized. by rewrite (proj2 (Z.eqb_neq _ _)), andb_false_r by lia. }
    unfold WeightTable.set_weight. by rewrite Hfind. }
  split; [done|]. split.
  { transitivity (Progress.is_complete (mkProgress (WeightTable.weight_count t') (WeightTable.mint_count t'))); [done|].
    rewrite complete_counts by lia. lia. }
  split.
  - exists e. split; [|done]. apply find_entry_Some in Hfind as [Hi He]. apply (list_elem_of_lookup_2 _ j). cbn.
    rewrite list_lookup_insert_ne; [done|]. intros ->. apply not_true_iff_false in Hemp. apply Hemp, we_is_empty. congruence.
  - intros s' (clk & st_mint & w & _ & (Hf & _)%record_weight_inv)%weight_call_inv. cbn in Hf. congruence.
Qed.
End properties.

(* ------------------------------------------------------------------ *)
(** * Witnesses *)

(** The table of two tokens of [WeightTableWitness], weighted by [key 3]. *)
Module WeightSideWitness.
Import ConcreteSolana ConcretePrograms ConcreteRestaking ConfigWitness VoteWitness WeightTableWitness.

Definition account : AccountInfo := program_account (WeightTable.find_program_address pid (key 9) 5).1.1 DWeightTable.
Definition side0 : WeightSide := mkWeightSide
  (with_body VoteWitness.es0 (EpochState.update_realloc_weight_table (body VoteWitness.es0) 1 2)) (mkAcct account t0).
Definition get_ok {A} (d : A) (r : res A) : A := match r with Ok a => a | Err _ => d end.
Definition first := get_ok (ws_state side0, ws_table side0)
  (process_admin_set_weight pid (mkClock 120 5) (ws_state side0) ConfigWitness.ncn (ws_table side0) admin (key 1) 5 40).
Definition side1 : WeightSide := mkWeightSide first.1 first.2.
Definition second := get_ok (ws_state side1, ws_table side1)
  (process_admin_set_weight pid (mkClock 121 5) (ws_state side1) ConfigWitness.ncn (ws_table side1) admin (key 2) 5 60).
Definition side2 : WeightSide := mkWeightSide second.1 second.2.

Lemma first_run :
  process_admin_set_weight pid (mkClock 120 5) (ws_state side0) ConfigWitness.ncn (ws_table side0) admin (key 1) 5 40
  = Ok (ws_state side1, ws_table side1).
Proof. vm_compute. reflexivity. Qed.
Lemma second_run :
  process_admin_set_weight pid (mkClock 121 5) (ws_state side1) ConfigWitness.ncn (ws_table side1) admin (key 2) 5 60
  = Ok (ws_state side2, ws_table side2).
Proof. vm_compute. reflexivity. Qed.

Lemma weight_side_steps : star (weight_call pid) side0 side2.
Proof.
  apply (star_step _ side1); [|apply (star_step _ side2); [|apply star_refl]].
  - exact (wc_admin pid side0 side1 (mkClock 120 5) ConfigWitness.ncn admin (key 1) 5 40 ltac:(done) first_run).
  - exact (wc_admin pid side1 side2 (mkClock 121 5) ConfigWitness.ncn admin (key 2) 5 60 ltac:(done) second_run).
Qed.

Lemma side1_inv : weight_inv (body (ws_table side1)).
Proof.
  apply (set_weight_inv t0 (key 1) 40 120); [exact wit_weight_inv|done|]. vm_compute. reflexivity.
Qed.
Lemma unused_entry : WeightTable.find_entry (body (ws_table side1)) Pubkey_default = Some (2%nat, WeightEntry.default).
Proof. vm_compute. reflexivity. Qed.
End WeightSideWitness.
Import WeightSideWitness ConcreteSolana ConcretePrograms ConcreteRestaking ConfigWitness.

Lemma weights_progress_complete_witness :
  Progress.is_complete (ep_set_weight_progress (body (ws_state side2))) = true /\
  (forall s, ~ weight_call pid side2 s).
Proof.
  destruct (weights_progress_complete pid side0 side2 WeightTableWitness.wit_weight_inv eq_refl weight_side_steps)
    as (_ & _ & Hstop).
  assert (Hc : Progress.is_complete (ep_set_weight_progress (body (ws_state side2))) = true) by (vm_compute; reflexivity).
  split; [exact Hc|]. exact (Hstop Hc).
Defined.

Lemma default_key_finalizes_table_witness :
  exists s, process_admin_set_weight pid (mkClock 121 5) (ws_state side1) ConfigWitness.ncn (ws_table side1) admin
    Pubkey_default 5 1 = Ok (ws_state s, ws_table s) /\
    WeightTable.finalized (body (ws_table s)) = true.
Proof.
  destruct (default_key_finalizes_table pid (mkClock 121 5) (ws_state side1) ConfigWitness.ncn (ws_table side1) admin 5 1 2
    WeightEntry.default) as (s & Hr & Hf & _); try (vm_compute; reflexivity).
  - exact side1_inv.
  - exists s. split; [exact Hr|exact Hf].
Defined.
