(* ===== verification/GeneratedTree.v ===== *)
(** The claim trees of the validators' tips
    (meta_merkle_tree/src/generated_merkle_tree.rs): from the stakes delegated to
    a validator and its tip distribution account, the list of claims on its tips
    (the protocol's fee, the validator's commission, the delegators' shares),
    their Merkle tree, and the meta tree over the trees of all validators.
    Reading the JSON files is not modelled; the basis points of a whole, a constant of
    jito_vault_core, are the parameter [MAX_BPS]. *)

From Stdlib Require Import String.
From S2P Require Import Prelude Errors External Accounts MerkleTree.

(** The errors of the generator, without their payloads; [GenPanic] is an
    [unwrap] or index that fails. *)
Inductive MerkleRootGeneratorError : Type :=
| AccountNotFound
| DeserializationError
| IoError
| SerdeJsonError
| GeneratorError
| MerkleTreeTestError
| CheckedMathError
| GenPanic.

(** Panics inside the generator's [Result]. *)
Definition gp {A} (r : res A) : result MerkleRootGeneratorError A :=
  match r with Ok a => Ok a | Err _ => Err GenPanic end.

(* ------------------------------------------------------------------ *)
(** * Data *)

Record Delegation := mkDelegation {
  dg_stake_account_pubkey : Pubkey;
  dg_staker_pubkey : Pubkey;
  dg_withdrawer_pubkey : Pubkey;
  dg_lamports_delegated : Z;
}.

Record TipDistributionMeta := mkTipDistributionMeta {
  td_merkle_root_upload_authority : Pubkey;
  td_tip_distribution_pubkey : Pubkey;
  td_total_tips : Z;
  td_validator_fee_bps : Z;
}.

Record StakeMeta := mkStakeMeta {
  sk_validator_vote_account : Pubkey;
  sk_validator_node_pubkey : Pubkey;
  sk_maybe_tip_distribution_meta : option TipDistributionMeta;
  sk_delegations : list Delegation;
  sk_total_delegated : Z;
  sk_commission : Z;
}.

Record StakeMetaCollection := mkStakeMetaCollection {
  sc_stake_metas : list StakeMeta;
  sc_tip_distribution_program_id : Pubkey;
  sc_bank_hash : string;
  sc_epoch : Z;
  sc_slot : Z;
}.

(** A claim: who may take how much of a validator's tips. *)
Module Claim.
Record TreeNode := mk {
  claimant : Pubkey;
  claim_status_pubkey : Pubkey;
  claim_status_bump : Z;
  staker_pubkey : Pubkey;
  withdrawer_pubkey : Pubkey;
  amount : Z;
  proof : option (list hash);
}.

Definition with_proof (n : TreeNode) (p : list hash) : TreeNode :=
  mk (claimant n) (claim_status_pubkey n) (claim_status_bump n) (staker_pubkey n) (withdrawer_pubkey n)
    (amount n) (Some p).
End Claim.

Record GeneratedMerkleTree := mkGeneratedMerkleTree {
  gm_tip_distribution_account : Pubkey;
  gm_merkle_root_upload_authority : Pubkey;
  gm_merkle_root : hash;
  gm_tree_nodes : list Claim.TreeNode;
  gm_max_total_claim : Z;
  gm_max_num_nodes : Z;
}.

Record GeneratedMerkleTreeCollection := mkGeneratedMerkleTreeCollection {
  gc_generated_merkle_trees : list GeneratedMerkleTree;
  gc_bank_hash : string;
  gc_epoch : Z;
  gc_slot : Z;
}.

(* ------------------------------------------------------------------ *)
(** * Claims on the tips of a validator *)

(** [u64::try_from] *)
Definition try_u64 (x : Z) : result MerkleRootGeneratorError Z :=
  if x <? U64 then Ok x else Err CheckedMathError.

(** [total * bps / MAX_BPS] in 128 bits, back in 64. *)
Definition fee_amount (MAX_BPS total_tips bps : Z) : result MerkleRootGeneratorError Z :=
  product ← ok_or (checked_mul U128 total_tips bps) CheckedMathError;
  quotient ← ok_or (checked_div product MAX_BPS) CheckedMathError;
  try_u64 quotient.

(** The validator's amount and what remains for the delegators: when the
    fees exceed the tips, the protocol's fee comes first. *)
Definition split_tips (total_tips protocol_fee_amount validator_amount : Z) : Z * option Z :=
  match checked_add U64 validator_amount protocol_fee_amount with
  | None => (validator_amount, None)
  | Some total_fees =>
      if total_tips <? total_fees then
        match checked_sub total_tips protocol_fee_amount with
        | Some adjusted_validator_amount => (adjusted_validator_amount, Some 0)
        | None => (0, None)
        end
      else (validator_amount,
            match checked_sub total_tips protocol_fee_amount with
            | Some v => checked_sub v validator_amount
            | None => None
            end)
  end.

Section claims.
Context `{Solana} `{Programs}.

Definition CLAIM_STATUS_SEED : list Z := bytes_of_string "CLAIM_STATUS".

(** The address of the account that records that a claim was made. *)
Definition claim_status (tip_distribution_program_id claimant tip_distribution_account : Pubkey) : Pubkey * Z :=
  find_program_address_ext [CLAIM_STATUS_SEED; to_bytes claimant; to_bytes tip_distribution_account]
    tip_distribution_program_id.

Definition base_reward_receiver_address (tip_router_program_id ncn_address : Pubkey) (epoch : Z) : Pubkey :=
  (find_program_address_ext [bytes_of_string "base_reward_receiver"; to_bytes ncn_address; to_le_bytes 8 epoch]
     tip_router_program_id).1.

(** A delegator's claim; [TIP_DISTRIBUTION_ID] is the id the crate is
    compiled with. *)
Definition delegation_node (tip_distribution_pubkey : Pubkey) (tip_router_target_epoch remaining_total_rewards
    total_delegated : Z) (delegation : Delegation) : result MerkleRootGeneratorError Claim.TreeNode :=
  let amount_delegated := dg_lamports_delegated delegation in
  product ← ok_or (checked_mul U128 amount_delegated remaining_total_rewards) CheckedMathError;
  quotient ← ok_or (checked_div product total_delegated) CheckedMathError;
  reward_amount ← try_u64 quotient;
  let '(claim_status_pubkey, claim_status_bump) :=
    claim_status tip_distribution_id (dg_staker_pubkey delegation) tip_distribution_pubkey in
  let claimant := if 737 <? tip_router_target_epoch then dg_stake_account_pubkey delegation
                  else dg_staker_pubkey delegation in
  mret (Claim.mk claimant claim_status_pubkey claim_status_bump (dg_staker_pubkey delegation)
          (dg_withdrawer_pubkey delegation) reward_amount None).

(** [map(..).collect::<Result<Vec<_>, _>>()] *)
Fixpoint collect_nodes (f : Delegation -> result MerkleRootGeneratorError Claim.TreeNode) (l : list Delegation)
    : result MerkleRootGeneratorError (list Claim.TreeNode) :=
  match l with
  | [] => mret []
  | d :: l => n ← f d; rest ← collect_nodes f l; mret (n :: rest)
  end.

Definition vec_from_stake_meta (MAX_BPS : Z) (stake_meta : StakeMeta) (protocol_fee_bps : Z) (ncn_address : Pubkey)
    (epoch : Z) (tip_distribution_program_id tip_router_program_id : Pubkey)
    : result MerkleRootGeneratorError (option (list Claim.TreeNode)) :=
  match sk_maybe_tip_distribution_meta stake_meta with
  | None => mret None
  | Some tip_distribution_meta =>
      let total_tips := td_total_tips tip_distribution_meta in
      let account := td_tip_distribution_pubkey tip_distribution_meta in
      protocol_fee_amount ← fee_amount MAX_BPS total_tips protocol_fee_bps;
      validator_amount ← fee_amount MAX_BPS total_tips (td_validator_fee_bps tip_distribution_meta);
      let '(validator_amount, remaining_total_rewards) := split_tips total_tips protocol_fee_amount validator_amount in
      remaining_total_rewards ← ok_or remaining_total_rewards CheckedMathError;
      tip_router_target_epoch ← ok_or (checked_add U64 epoch 1) CheckedMathError;
      let base_reward_receiver := base_reward_receiver_address tip_router_program_id ncn_address tip_router_target_epoch in
      let '(protocol_claim_status_pubkey, protocol_claim_status_bump) :=
        claim_status tip_distribution_program_id base_reward_receiver account in
      let validator := sk_validator_node_pubkey stake_meta in
      let '(validator_claim_status_pubkey, validator_claim_status_bump) :=
        claim_status tip_distribution_program_id validator account in
      delegators ← collect_nodes
        (delegation_node account tip_router_target_epoch remaining_total_rewards (sk_total_delegated stake_meta))
        (sk_delegations stake_meta);
      mret (Some (Claim.mk base_reward_receiver protocol_claim_status_pubkey protocol_claim_status_bump Pubkey_default
                    Pubkey_default protocol_fee_amount None ::
                  Claim.mk validator validator_claim_status_pubkey validator_claim_status_bump Pubkey_default
                    Pubkey_default validator_amount None :: delegators))
  end.

(** [Hasher]: SHA-256 of what was fed to it. *)
Definition node_hash (self : Claim.TreeNode) : hash :=
  hashv [to_bytes (Claim.claimant self); to_le_bytes 8 (Claim.amount self)].

(* ------------------------------------------------------------------ *)
(** * The trees of all validators *)

(** The loop that stores a proof in every claim. *)
Fixpoint store_proofs (merkle_tree : MerkleTree) (i : nat) (l : list Claim.TreeNode) : res (list Claim.TreeNode) :=
  match l with
  | [] => mret []
  | n :: l => p ← get_proof merkle_tree i; rest ← store_proofs merkle_tree (S i) l; mret (Claim.with_proof n p :: rest)
  end.

(** The tree of one validator, [None] without a tip distribution account. *)
Definition generated_tree (MAX_BPS protocol_fee_bps : Z) (ncn_address : Pubkey) (epoch : Z)
    (tip_distribution_program_id tip_router_program_id : Pubkey) (stake_meta : StakeMeta)
    : result MerkleRootGeneratorError (option GeneratedMerkleTree) :=
  match sk_maybe_tip_distribution_meta stake_meta with
  | None => mret None
  | Some tip_distribution_meta =>
      maybe_tree_nodes ← vec_from_stake_meta MAX_BPS stake_meta protocol_fee_bps ncn_address epoch
                           tip_distribution_program_id tip_router_program_id;
      match maybe_tree_nodes with
      | None => mret None
      | Some tree_nodes =>
          let hashed_nodes := node_hash <$> tree_nodes in
          merkle_tree ← gp (MerkleTree_new hashed_nodes true);
          let max_num_nodes := Z.of_nat (length tree_nodes) in
          tree_nodes ← gp (store_proofs merkle_tree 0 tree_nodes);
          merkle_root ← ok_or (get_root merkle_tree) GenPanic;
          mret (Some (mkGeneratedMerkleTree (td_tip_distribution_pubkey tip_distribution_meta)
                        (td_merkle_root_upload_authority tip_distribution_meta) merkle_root tree_nodes
                        (td_total_tips tip_distribution_meta) max_num_nodes))
      end
  end.

(** [filter_map(..).collect::<Result<Vec<_>, _>>()] *)
Fixpoint collect_trees (f : StakeMeta -> result MerkleRootGeneratorError (option GeneratedMerkleTree))
    (l : list StakeMeta) : result MerkleRootGeneratorError (list GeneratedMerkleTree) :=
  match l with
  | [] => mret []
  | m :: l =>
      t ← f m; rest ← collect_trees f l;
      mret (match t with Some t => t :: rest | None => rest end)
  end.

Definition new_from_stake_meta_collection (MAX_BPS : Z) (stake_meta_collection : StakeMetaCollection)
    (ncn_address : Pubkey) (epoch protocol_fee_bps : Z) (tip_router_program_id : Pubkey)
    : result MerkleRootGeneratorError GeneratedMerkleTreeCollection :=
  generated_merkle_trees ← collect_trees
    (generated_tree MAX_BPS protocol_fee_bps ncn_address epoch (sc_tip_distribution_program_id stake_meta_collection)
       tip_router_program_id)
    (sc_stake_metas stake_meta_collection);
  mret (mkGeneratedMerkleTreeCollection generated_merkle_trees (sc_bank_hash stake_meta_collection)
          (sc_epoch stake_meta_collection) (sc_slot stake_meta_collection)).

(* ------------------------------------------------------------------ *)
(** * The meta tree over them *)

(** [TreeNode::from] *)
Definition node_from_generated (t : GeneratedMerkleTree) : TreeNode :=
  mkTreeNode (gm_tip_distribution_account t) None (gm_merkle_root t) (gm_max_total_claim t) (gm_max_num_nodes t).

Definition new_from_generated_merkle_tree_collection (c : GeneratedMerkleTreeCollection)
    : result MerkleTreeError MetaMerkleTree :=
  MetaMerkleTree_new (node_from_generated <$> gc_generated_merkle_trees c).
End claims.
