(* ===== verification/GeneratedTheorems.v ===== *)
(** What the claim trees promise: the tips of a validator are split exactly and
    never exceeded, every claim has a proof for the validator's root, the
    protocol's fee is claimed by the account the reward router reads, and the
    on-chain check accepts every validator's root once the meta tree's root is
    decided. *)

From Stdlib Require Import String.
From S2P Require Import Prelude Errors External Accounts MerkleTree MerkleTreeProps MerkleTheorems BallotBox BaseRewardRouter GeneratedTree.

(* ------------------------------------------------------------------ *)
(** * Arithmetic of the shares *)

(** A delegator's share of the remaining rewards. *)
Definition share (remaining total_delegated : Z) (d : Delegation) : Z :=
  dg_lamports_delegated d * remaining / total_delegated.

Lemma share_bounds rem td d :
  0 < td -> 0 <= rem -> 0 <= dg_lamports_delegated d ->
  dg_lamports_delegated d * rem - (td - 1) <= td * share rem td d <= dg_lamports_delegated d * rem.
Proof.
  intros Ht Hr Hd. unfold share. set (x := dg_lamports_delegated d * rem).
  pose proof (Z.div_mod x td ltac:(lia)). pose proof (Z.mod_pos_bound x td Ht). lia.
Qed.

Lemma shares_bounds rem td l :
  0 < td -> 0 <= rem -> (forall d, d ∈ l -> 0 <= dg_lamports_delegated d) ->
  sumZ dg_lamports_delegated l * rem - Z.of_nat (length l) * (td - 1) <= td * sumZ (share rem td) l
  <= sumZ dg_lamports_delegated l * rem.
Proof.
  intros Ht Hr. induction l as [|d l IH]; intros Hl; [simpl; lia|].
  specialize (IH (fun x Hx => Hl x (list_elem_of_further _ _ _ Hx))).
  pose proof (share_bounds rem td d Ht Hr (Hl d (list_elem_of_here _ _))).
  cbn [sumZ length]. rewrite Nat2Z.inj_succ. lia.
Qed.

Lemma sumZ_ge_elem l d :
  (forall d, d ∈ l -> 0 <= dg_lamports_delegated d) -> d ∈ l -> dg_lamports_delegated d <= sumZ dg_lamports_delegated l.
Proof.
  intros Hl [i Hi]%list_elem_of_lookup. by apply (sumZ_elem_le dg_lamports_delegated l i d).
Qed.

(** The fee: an error exactly when it does not fit. *)
Lemma fee_amount_spec MAX_BPS total bps :
  0 < MAX_BPS -> fits U64 total -> fits U64 bps ->
  fee_amount MAX_BPS total bps
  = if total * bps / MAX_BPS <? U64 then Ok (total * bps / MAX_BPS) else Err CheckedMathError.
Proof.
  intros HM Ht Hb. unfold fits in *. unfold fee_amount.
  rewrite checked_mul_ok by nia. cbn [ok_or mbind result_bind]. unfold checked_div.
  rewrite (proj2 (Z.eqb_neq _ _)) by lia. done.
Qed.

Lemma split_tips_spec total p v :
  0 <= p -> 0 <= v -> total < U64 ->
  p <= total -> v + p < U64 -> split_tips total p v = (Z.min v (total - p), Some (total - p - Z.min v (total - p))).
Proof.
  intros Hp Hv Ht Hle Hfit. unfold split_tips. rewrite checked_add_ok by lia.
  destruct (Z.ltb_spec total (v + p)) as [Hlt|Hge].
  - rewrite checked_sub_ok by lia. f_equal; [lia|f_equal; lia].
  - rewrite !checked_sub_ok by lia. f_equal; [lia|f_equal; lia].
Qed.

Lemma split_tips_fails total p v :
  0 <= p -> 0 <= v -> total < p \/ U64 <= v + p -> (split_tips total p v).2 = None.
Proof.
  intros Hp Hv Hor. unfold split_tips, checked_add. destruct (Z.ltb_spec (v + p) U64) as [Hfit|]; [|done].
  destruct Hor as [Hlt|]; [|lia]. rewrite (proj2 (Z.ltb_lt _ _)) by lia. unfold checked_sub.
  by rewrite (proj2 (Z.leb_gt _ _)) by lia.
Qed.

(* ------------------------------------------------------------------ *)
(** * The claims of a validator *)

(** What the generator of stake metadata provides: integers in their width,
    and delegations that sum to at most the recorded total. *)
Record stake_meta_ok (m : StakeMeta) (meta : TipDistributionMeta) : Prop := {
  so_meta : sk_maybe_tip_distribution_meta m = Some meta;
  so_tips : fits U64 (td_total_tips meta);
  so_bps : fits U16 (td_validator_fee_bps meta);
  so_lamports : forall d, d ∈ sk_delegations m -> 0 <= dg_lamports_delegated d;
  so_sum : sumZ dg_lamports_delegated (sk_delegations m) <= sk_total_delegated m;
  so_total : fits U64 (sk_total_delegated m);
  so_nonzero : sk_delegations m <> [] -> 0 < sk_total_delegated m;
}.

Section claims.
Context `{Solana} `{Programs}.

Lemma delegation_node_ok account target rem td d :
  0 <= dg_lamports_delegated d <= td -> 0 < td -> td < U64 -> fits U64 rem ->
  exists n, delegation_node account target rem td d = Ok n /\ Claim.amount n = share rem td d /\
    Claim.claimant n = (if 737 <? target then dg_stake_account_pubkey d else dg_staker_pubkey d) /\
    Claim.claim_status_pubkey n = (claim_status tip_distribution_id (dg_staker_pubkey d) account).1.
Proof.
  intros Hd Ht Htd Hr. unfold fits in Hr. unfold delegation_node. assert (Hd64 : dg_lamports_delegated d < U64) by lia.
  rewrite checked_mul_ok by nia. cbn [ok_or mbind result_bind]. unfold checked_div.
  rewrite (proj2 (Z.eqb_neq _ _)) by lia. cbn [ok_or mbind result_bind]. unfold try_u64.
  assert (Hq : dg_lamports_delegated d * rem / td < U64).
  { apply (Z.le_lt_trans _ rem); [apply Z.div_le_upper_bound; nia|lia]. }
  rewrite (proj2 (Z.ltb_lt _ _) Hq). cbn [mbind result_bind].
  destruct (claim_status tip_distribution_id (dg_staker_pubkey d) account) as [k b]. by eexists.
Qed.

(** The delegators' claims, one for each delegation. *)
Lemma collect_nodes_ok account target rem td l :
  (forall d, d ∈ l -> 0 <= dg_lamports_delegated d <= td) -> (l <> [] -> 0 < td) -> td < U64 -> fits U64 rem ->
  exists ns, collect_nodes (delegation_node account target rem td) l = Ok ns /\
    Forall2 (fun d n => Claim.amount n = share rem td d /\
      Claim.claimant n = (if 737 <? target then dg_stake_account_pubkey d else dg_staker_pubkey d) /\
      Claim.claim_status_pubkey n = (claim_status tip_distribution_id (dg_staker_pubkey d) account).1) l ns.
Proof.
  intros Hl Ht Htd Hr. induction l as [|d l IH]; [eexists; split; [done|constructor]|].
  destruct (delegation_node_ok account target rem td d) as (n & Hn & Hspec); [apply Hl; left|by apply Ht|done|done|].
  destruct IH as (ns & Hns & HF); [intros x Hx; apply Hl; by right|intros _; by apply Ht|].
  exists (n :: ns). cbn [collect_nodes]. rewrite Hn, Hns. split; [done|]. by constructor.
Qed.

(** What of the tips goes to the protocol, the validator and the delegators. *)
Definition protocol_part (MAX_BPS protocol_fee_bps : Z) (meta : TipDistributionMeta) : Z :=
  td_total_tips meta * protocol_fee_bps / MAX_BPS.
Definition commission (MAX_BPS : Z) (meta : TipDistributionMeta) : Z :=
  td_total_tips meta * td_validator_fee_bps meta / MAX_BPS.
Definition validator_part (MAX_BPS protocol_fee_bps : Z) (meta : TipDistributionMeta) : Z :=
  Z.min (commission MAX_BPS meta) (td_total_tips meta - protocol_part MAX_BPS protocol_fee_bps meta).
Definition delegators_part (MAX_BPS protocol_fee_bps : Z) (meta : TipDistributionMeta) : Z :=
  td_total_tips meta - protocol_part MAX_BPS protocol_fee_bps meta - validator_part MAX_BPS protocol_fee_bps meta.

(** The whole list of claims. *)
Lemma vec_from_stake_meta_ok MAX_BPS m meta bps ncn epoch tdp trp :
  0 < MAX_BPS -> fits U64 bps -> stake_meta_ok m meta -> 0 <= epoch -> epoch + 1 < U64 ->
  protocol_part MAX_BPS bps meta <= td_total_tips meta ->
  commission MAX_BPS meta + protocol_part MAX_BPS bps meta < U64 ->
  exists first second ns,
    vec_from_stake_meta MAX_BPS m bps ncn epoch tdp trp = Ok (Some (first :: second :: ns)) /\
    (Claim.amount first = protocol_part MAX_BPS bps meta /\
     Claim.claimant first = (BaseRewardReceiver.find_program_address trp ncn (epoch + 1)).1.1 /\
     Claim.claim_status_pubkey first = (claim_status tdp (Claim.claimant first) (td_tip_distribution_pubkey meta)).1) /\
    (Claim.amount second = validator_part MAX_BPS bps meta /\ Claim.claimant second = sk_validator_node_pubkey m /\
     Claim.claim_status_pubkey second = (claim_status tdp (Claim.claimant second) (td_tip_distribution_pubkey meta)).1) /\
    Forall2 (fun d n => Claim.amount n = share (delegators_part MAX_BPS bps meta) (sk_total_delegated m) d /\
      Claim.claimant n = (if 737 <? epoch + 1 then dg_stake_account_pubkey d else dg_staker_pubkey d) /\
      Claim.claim_status_pubkey n
      = (claim_status tip_distribution_id (dg_staker_pubkey d) (td_tip_distribution_pubkey meta)).1)
      (sk_delegations m) ns.
Proof.
  intros HM Hb [Hmeta Ht Hv Hl Hsum Htd Hnz] He He' Hle Hfit.
  assert (Hp0 : 0 <= protocol_part MAX_BPS bps meta) by (unfold fits in *; apply Z.div_pos; nia).
  assert (Hv0 : 0 <= commission MAX_BPS meta) by (unfold fits in *; apply Z.div_pos; nia).
  unfold vec_from_stake_meta. rewrite Hmeta.
  rewrite (fee_amount_spec MAX_BPS _ bps) by done. fold (protocol_part MAX_BPS bps meta).
  rewrite (proj2 (Z.ltb_lt _ _)) by (unfold fits in *; lia). cbn [mbind result_bind].
  rewrite (fee_amount_spec MAX_BPS _ (td_validator_fee_bps meta)) by (done || unfold fits in *; lia). fold (commission MAX_BPS meta).
  rewrite (proj2 (Z.ltb_lt _ _)) by lia. cbn [mbind result_bind].
  rewrite split_tips_spec by (unfold fits in *; lia).
  fold (validator_part MAX_BPS bps meta) (delegators_part MAX_BPS bps meta).
  cbn [ok_or mbind result_bind]. rewrite checked_add_ok by done. cbn [ok_or mbind result_bind].
  destruct (collect_nodes_ok (td_tip_distribution_pubkey meta) (epoch + 1) (delegators_part MAX_BPS bps meta)
    (sk_total_delegated m) (sk_delegations m)) as (ns & Hns & HF); [|done|apply Htd| |].
  { intros d Hd. split; [by apply Hl|]. pose proof (sumZ_ge_elem _ d Hl Hd). lia. }
  { unfold fits, delegators_part, validator_part in *. lia. }
  unfold base_reward_receiver_address, BaseRewardReceiver.find_program_address, find_pda, BaseRewardReceiver.seeds.
  destruct (find_program_address_ext [bytes_of_string "base_reward_receiver"; _; _] trp) as [receiver rb]. cbn [fst].
  destruct (claim_status tdp receiver _) as [k1 b1] eqn:E1.
  destruct (claim_status tdp (sk_validator_node_pubkey m) _) as [k2 b2] eqn:E2.
  rewrite Hns. cbn [mbind result_bind]. eexists _, _, ns. split; [done|]. cbn. rewrite E1, E2. done.
Qed.

Lemma vec_from_stake_meta_fails MAX_BPS m meta bps ncn epoch tdp trp :
  0 < MAX_BPS -> fits U64 bps -> stake_meta_ok m meta ->
  td_total_tips meta < protocol_part MAX_BPS bps meta \/
  U64 <= commission MAX_BPS meta + protocol_part MAX_BPS bps meta ->
  vec_from_stake_meta MAX_BPS m bps ncn epoch tdp trp = Err CheckedMathError.
Proof.
  intros HM Hb [Hmeta Ht Hv _ _ _ _] Hor.
  assert (Hp0 : 0 <= protocol_part MAX_BPS bps meta) by (unfold fits in *; apply Z.div_pos; nia).
  assert (Hv0 : 0 <= commission MAX_BPS meta) by (unfold fits in *; apply Z.div_pos; nia).
  unfold vec_from_stake_meta. rewrite Hmeta.
  rewrite (fee_amount_spec MAX_BPS _ bps) by done. fold (protocol_part MAX_BPS bps meta).
  destruct (protocol_part MAX_BPS bps meta <? U64); [|done]. cbn [mbind result_bind].
  rewrite (fee_amount_spec MAX_BPS _ (td_validator_fee_bps meta)) by (done || unfold fits in *; lia).
  fold (commission MAX_BPS meta). destruct (commission MAX_BPS meta <? U64); [|done]. cbn [mbind result_bind].
  pose proof (split_tips_fails _ _ _ Hp0 Hv0 Hor) as Hnone.
  destruct (split_tips _ _ _) as [va rem]. cbn [snd] in Hnone. by rewrite Hnone.
Qed.

Lemma Forall2_amounts (f : Delegation -> Z) (P : Delegation -> Claim.TreeNode -> Prop) ds ns :
  Forall2 (fun d n => Claim.amount n = f d /\ P d n) ds ns -> Claim.amount <$> ns = f <$> ds.
Proof. induction 1 as [|d n ds ns [Ha _] _ IH]; [done|]. by rewrite !fmap_cons, Ha, IH. Qed.

Lemma sumZ_amounts ns zs : Claim.amount <$> ns = zs -> sumZ Claim.amount ns = sumZ id zs.
Proof. intros <-. rewrite sumZ_fmap. by apply sumZ_ext. Qed.

(** The claims never exceed the tips, and rounding loses less than a lamport
    for each delegation. *)
Lemma claims_total MAX_BPS bps m meta :
  0 < MAX_BPS -> fits U64 bps -> stake_meta_ok m meta -> protocol_part MAX_BPS bps meta <= td_total_tips meta ->
  let rem := delegators_part MAX_BPS bps meta in
  let claimed := protocol_part MAX_BPS bps meta + validator_part MAX_BPS bps meta
    + sumZ (share rem (sk_total_delegated m)) (sk_delegations m) in
  claimed <= td_total_tips meta /\
  (sk_delegations m <> [] -> sumZ dg_lamports_delegated (sk_delegations m) = sk_total_delegated m ->
   td_total_tips meta - claimed < Z.of_nat (length (sk_delegations m))).
Proof.
  intros HM Hb [Hmeta Ht Hv Hl Hsum Htd Hnz] Hle rem claimed.
  assert (Hrem : 0 <= rem) by (unfold rem, delegators_part, validator_part; lia).
  assert (Htot : td_total_tips meta = protocol_part MAX_BPS bps meta + validator_part MAX_BPS bps meta + rem)
    by (unfold rem, delegators_part; lia).
  unfold claimed. clear claimed.
  destruct (decide (sk_delegations m = [])) as [->|Hne]; [split; [cbn [sumZ]; lia|done]|].
  assert (Hpos := Hnz Hne).
  pose proof (shares_bounds rem (sk_total_delegated m) (sk_delegations m) Hpos Hrem Hl) as [Hs1 Hs2].
  assert (Hn : 0 < Z.of_nat (length (sk_delegations m))) by (destruct (sk_delegations m); [done|cbn; lia]).
  set (S := sumZ (share rem (sk_total_delegated m)) (sk_delegations m)) in *. split.
  - assert (S <= rem); [|lia]. apply (Z.mul_le_mono_pos_l _ _ _ Hpos). nia.
  - intros _ Heq. rewrite Heq in Hs1. assert (rem - S < Z.of_nat (length (sk_delegations m))); [|lia].
    apply (Z.mul_lt_mono_pos_l _ _ _ Hpos). lia.
Qed.

(** the tips of a validator are split exactly.  When the fees fit, the
    first claim is the protocol's fee, rounded down, the second the
    validator's commission, reduced to what the protocol's fee leaves, and each
    delegation has the floor of its proportional share of the rest; together
    they never exceed the tips, and when the delegations sum to the recorded total
    they fall short by less than a lamport each.  When the protocol's fee
    exceeds the tips, or both fees overflow, no claims are made. *)
Theorem claims_split MAX_BPS m meta bps ncn epoch tdp trp :
  0 < MAX_BPS -> fits U64 bps -> stake_meta_ok m meta -> 0 <= epoch -> epoch + 1 < U64 ->
  let rem := delegators_part MAX_BPS bps meta in
  (protocol_part MAX_BPS bps meta <= td_total_tips meta ->
   commission MAX_BPS meta + protocol_part MAX_BPS bps meta < U64 ->
   exists nodes, vec_from_stake_meta MAX_BPS m bps ncn epoch tdp trp = Ok (Some nodes) /\
     Claim.amount <$> nodes = protocol_part MAX_BPS bps meta :: validator_part MAX_BPS bps meta ::
       (share rem (sk_total_delegated m) <$> sk_delegations m) /\
     sumZ Claim.amount nodes <= td_total_tips meta /\
     (sk_delegations m <> [] -> sumZ dg_lamports_delegated (sk_delegations m) = sk_total_delegated m ->
      td_total_tips meta - sumZ Claim.amount nodes < Z.of_nat (length (sk_delegations m)))) /\
  (td_total_tips meta < protocol_part MAX_BPS bps meta \/
   U64 <= commission MAX_BPS meta + protocol_part MAX_BPS bps meta ->
   vec_from_stake_meta MAX_BPS m bps ncn epoch tdp trp = Err CheckedMathError).
Proof.
  intros HM Hb Hm He He' rem. split; [|by apply vec_from_stake_meta_fails].
  intros Hle Hfit. destruct (vec_from_stake_meta_ok MAX_BPS m meta bps ncn epoch tdp trp HM Hb Hm He He' Hle Hfit)
    as (n1 & n2 & ns & Hok & (H1 & _) & (H2 & _) & HF).
  apply Forall2_amounts in HF. exists (n1 :: n2 :: ns). split; [done|].
  assert (Ha : Claim.amount <$> n1 :: n2 :: ns = protocol_part MAX_BPS bps meta :: validator_part MAX_BPS bps meta ::
    (share rem (sk_total_delegated m) <$> sk_delegations m)) by (rewrite !fmap_cons, H1, H2, HF; done).
  split; [done|].
  assert (Hsum : sumZ Claim.amount (n1 :: n2 :: ns) = protocol_part MAX_BPS bps meta + validator_part MAX_BPS bps meta
    + sumZ (share rem (sk_total_delegated m)) (sk_delegations m)).
  { rewrite (sumZ_amounts _ _ Ha). cbn [sumZ]. rewrite sumZ_fmap. unfold id. by rewrite Z.add_assoc. }
  rewrite Hsum. exact (claims_total MAX_BPS bps m meta HM Hb Hm Hle).
Qed.
End claims.

(* ------------------------------------------------------------------ *)
(** * The tree of a validator *)

Section trees.
Context `{Solana} `{Programs}.

Lemma store_proofs_spec tree i ns :
  (forall j, (i <= j < i + length ns)%nat -> is_ok (get_proof tree j)) ->
  exists ns', store_proofs tree i ns = Ok ns' /\ length ns' = length ns /\
    forall j n, ns !! j = Some n ->
      exists p, get_proof tree (i + j) = Ok p /\ ns' !! j = Some (Claim.with_proof n p).
Proof.
  revert i. induction ns as [|n ns IH]; intros i Hg; [by exists []|].
  destruct (Hg i ltac:(cbn; lia)) as [p Hp]. destruct (IH (S i)) as (ns' & Hs & Hlen & Hl).
  { intros j Hj. apply Hg. cbn. lia. }
  exists (Claim.with_proof n p :: ns'). cbn [store_proofs]. rewrite Hp, Hs. split; [done|]. split; [cbn; lia|].
  intros [|j] x Hj; cbn in Hj.
  - injection Hj as <-. rewrite Nat.add_0_r. by exists p.
  - destruct (Hl j x Hj) as (q & Hq & Hx). exists q. by rewrite <- Nat.add_succ_comm.
Qed.

(** The claims [ns] of a validator, each with a proof for the root. *)
Definition tree_of (meta : TipDistributionMeta) (ns : list Claim.TreeNode) (t : GeneratedMerkleTree) : Prop :=
  gm_tip_distribution_account t = td_tip_distribution_pubkey meta /\ gm_max_total_claim t = td_total_tips meta /\
  gm_max_num_nodes t = Z.of_nat (length ns) /\ length (gm_tree_nodes t) = length ns /\
  forall j n, ns !! j = Some n ->
    exists p, gm_tree_nodes t !! j = Some (Claim.with_proof n p) /\
      verify p (gm_merkle_root t) (hash_leaf (node_hash n)) = true.

Lemma generated_tree_ok MAX_BPS bps ncn epoch tdp trp m meta ns :
  sk_maybe_tip_distribution_meta m = Some meta ->
  vec_from_stake_meta MAX_BPS m bps ncn epoch tdp trp = Ok (Some ns) -> ns <> [] ->
  exists t, generated_tree MAX_BPS bps ncn epoch tdp trp m = Ok (Some t) /\ tree_of meta ns t.
Proof.
  intros Hmeta Hvec Hne. unfold generated_tree. rewrite Hmeta, Hvec. cbn [mbind result_bind].
  pose proof (MerkleTree_new_spec (node_hash <$> ns) true) as Ht. rewrite Ht. cbn [gp mbind result_bind].
  assert (Hitems : node_hash <$> ns <> []) by (intros E%fmap_nil_inv; done).
  destruct (store_proofs_spec (mkMerkleTree (length (node_hash <$> ns))
    (concat (tower (length (node_hash <$> ns)) true (hash_leaf <$> (node_hash <$> ns))))) 0 ns) as (ns' & Hs & Hlen & Hl).
  { intros j Hj. destruct (get_proof_new _ _ j Ht) as (p & Hp & _); [rewrite length_fmap; lia|]. by exists p. }
  rewrite Hs. cbn [gp mbind result_bind]. rewrite (get_root_new _ _ _ Ht Hitems). cbn [ok_or mbind result_bind].
  eexists. split; [done|]. do 4 (split; [done|]). intros j n Hj. destruct (Hl j n Hj) as (p & Hp & Hn).
  exists p. split; [exact Hn|].
  assert (Hlt := lookup_lt_Some _ _ _ Hj).
  destruct (get_proof_new _ _ j Ht) as (q & Hq & Hroot); [rewrite length_fmap; lia|].
  change (0 + j)%nat with j in Hp. rewrite Hp in Hq. injection Hq as <-. assert (Hnth : nth j (node_hash <$> ns) [] = node_hash n).
  { apply nth_lookup_Some. by rewrite list_lookup_fmap, Hj. }
  rewrite Hnth in Hroot. unfold verify. by apply bool_decide_eq_true.
Qed.

(* ------------------------------------------------------------------ *)
(** * All validators *)

(** Every validator with a tip distribution account has well-formed stakes
    and fees that fit its tips. *)
Definition metas_ok (MAX_BPS bps : Z) (metas : list StakeMeta) : Prop :=
  forall m meta, m ∈ metas -> sk_maybe_tip_distribution_meta m = Some meta ->
    stake_meta_ok m meta /\ protocol_part MAX_BPS bps meta <= td_total_tips meta /\
    commission MAX_BPS meta + protocol_part MAX_BPS bps meta < U64.

Definition accounts_of (metas : list StakeMeta) : list Pubkey :=
  omap (fun m => td_tip_distribution_pubkey <$> sk_maybe_tip_distribution_meta m) metas.

Lemma accounts_of_cons m l :
  accounts_of (m :: l) = match sk_maybe_tip_distribution_meta m with
                         | Some meta => td_tip_distribution_pubkey meta :: accounts_of l
                         | None => accounts_of l
                         end.
Proof. unfold accounts_of. simpl. by destruct (sk_maybe_tip_distribution_meta m). Qed.

(** The tree [t] is that of one of the validators: its claims are the
    validator's, the protocol's fee is for the receiver of the next epoch. *)
Definition claims_of (MAX_BPS bps : Z) (ncn : Pubkey) (epoch : Z) (trp : Pubkey) (metas : list StakeMeta)
    (t : GeneratedMerkleTree) : Prop :=
  exists m meta first second ns, m ∈ metas /\ sk_maybe_tip_distribution_meta m = Some meta /\
    tree_of meta (first :: second :: ns) t /\
    Claim.claimant first = (BaseRewardReceiver.find_program_address trp ncn (epoch + 1)).1.1 /\
    Claim.amount first = protocol_part MAX_BPS bps meta /\
    Claim.claimant second = sk_validator_node_pubkey m /\ Claim.amount second = validator_part MAX_BPS bps meta /\
    Claim.amount <$> ns = (share (delegators_part MAX_BPS bps meta) (sk_total_delegated m) <$> sk_delegations m) /\
    sumZ Claim.amount (first :: second :: ns) <= gm_max_total_claim t.

Lemma generated_tree_claims MAX_BPS bps ncn epoch tdp trp m meta metas :
  0 < MAX_BPS -> fits U64 bps -> 0 <= epoch -> epoch + 1 < U64 -> metas_ok MAX_BPS bps metas ->
  m ∈ metas -> sk_maybe_tip_distribution_meta m = Some meta ->
  exists t, generated_tree MAX_BPS bps ncn epoch tdp trp m = Ok (Some t) /\
    gm_tip_distribution_account t = td_tip_distribution_pubkey meta /\
    claims_of MAX_BPS bps ncn epoch trp metas t.
Proof.
  intros HM Hb He He' Hok Hin Hmeta. destruct (Hok m meta Hin Hmeta) as (Hm & Hle & Hfit).
  destruct (vec_from_stake_meta_ok MAX_BPS m meta bps ncn epoch tdp trp HM Hb Hm He He' Hle Hfit)
    as (n1 & n2 & ns & Hvec & (H1 & Hc1 & _) & (H2 & Hc2 & _) & HF).
  destruct (generated_tree_ok MAX_BPS bps ncn epoch tdp trp m meta (n1 :: n2 :: ns) Hmeta Hvec) as (t & Ht & Htree); [done|].
  exists t. split; [done|]. split; [by destruct Htree|]. exists m, meta, n1, n2, ns.
  apply Forall2_amounts in HF. do 8 (split; [done|]).
  assert (Hmax : gm_max_total_claim t = td_total_tips meta) by (by destruct Htree as (_ & ? & _)).
  rewrite Hmax. cbn [sumZ]. rewrite (sumZ_amounts _ _ HF), H1, H2, sumZ_fmap.
  destruct (claims_total MAX_BPS bps m meta HM Hb Hm Hle) as [Hc _]. unfold id. rewrite Z.add_assoc. exact Hc.
Qed.

Lemma collect_trees_ok MAX_BPS bps ncn epoch tdp trp metas l :
  0 < MAX_BPS -> fits U64 bps -> 0 <= epoch -> epoch + 1 < U64 -> metas_ok MAX_BPS bps metas ->
  (forall m, m ∈ l -> m ∈ metas) ->
  exists ts, collect_trees (generated_tree MAX_BPS bps ncn epoch tdp trp) l = Ok ts /\
    gm_tip_distribution_account <$> ts = accounts_of l /\
    (forall t, t ∈ ts -> claims_of MAX_BPS bps ncn epoch trp metas t).
Proof.
  intros HM Hb He He' Hok. induction l as [|m l IH]; intros Hl.
  { exists []. split; [done|]. split; [done|]. intros t Ht. by apply elem_of_nil in Ht. }
  destruct IH as (ts & Hts & Ha & Hc); [intros x Hx; apply Hl; by right|]. cbn [collect_trees].
  destruct (sk_maybe_tip_distribution_meta m) as [meta|] eqn:Em.
  - destruct (generated_tree_claims MAX_BPS bps ncn epoch tdp trp m meta metas) as (t & Ht & Hta & Htc); try done.
    { apply Hl. by left. }
    exists (t :: ts). rewrite Ht, Hts. split; [done|]. split.
    + by rewrite fmap_cons, accounts_of_cons, Em, Hta, Ha.
    + intros x [->|Hx]%elem_of_cons; auto.
  - assert (Hg : generated_tree MAX_BPS bps ncn epoch tdp trp m = Ok None) by (unfold generated_tree; by rewrite Em).
    exists ts. rewrite Hg, Hts. split; [done|].
    split; [|done]. by rewrite accounts_of_cons, Em.
Qed.
End trees.

(* ------------------------------------------------------------------ *)
(** * Properties *)

Section properties.
Context `{Solana} `{Programs}.

(** C13: the generator returns a tree for every validator with a tip
    distribution account, in order.  Each tree holds the protocol's claim, whose
    claimant is the base reward receiver of the next epoch (the account that the
    router's instructions load), the validator's and the delegators'
    claims; together they stay within the tree's recorded maximum; and each
    claim is stored with a proof that verifies for the tree's root. *)
Theorem generated_trees_sound MAX_BPS sc ncn epoch bps trp :
  0 < MAX_BPS -> fits U64 bps -> 0 <= epoch -> epoch + 1 < U64 -> metas_ok MAX_BPS bps (sc_stake_metas sc) ->
  exists c, new_from_stake_meta_collection MAX_BPS sc ncn epoch bps trp = Ok c /\
    gm_tip_distribution_account <$> gc_generated_merkle_trees c = accounts_of (sc_stake_metas sc) /\
    (forall t, t ∈ gc_generated_merkle_trees c -> claims_of MAX_BPS bps ncn epoch trp (sc_stake_metas sc) t) /\
    gc_epoch c = sc_epoch sc /\ gc_slot c = sc_slot sc.
Proof.
  intros HM Hb He He' Hok.
  destruct (collect_trees_ok MAX_BPS bps ncn epoch (sc_tip_distribution_program_id sc) trp (sc_stake_metas sc)
    (sc_stake_metas sc) HM Hb He He' Hok) as (ts & Hts & Ha & Hc); [done|].
  eexists. unfold new_from_stake_meta_collection. rewrite Hts. cbn [mbind result_bind]. by repeat split.
Qed.

(** what is generated off chain is accepted on chain.  From a collection
    of stake metadata with at most 2^32 - 1 distinct tip distribution accounts
    (at least one), the generator's trees have a meta tree, and once the ballot
    box has decided for its root, the check of the upload instruction accepts
    the root, the maximal claim and the number of claims of every tree. *)
Theorem generated_roots_accepted MAX_BPS sc ncn epoch bps trp :
  0 < MAX_BPS -> fits U64 bps -> 0 <= epoch -> epoch + 1 < U64 -> metas_ok MAX_BPS bps (sc_stake_metas sc) ->
  NoDup (accounts_of (sc_stake_metas sc)) -> accounts_of (sc_stake_metas sc) <> [] ->
  Z.of_nat (length (accounts_of (sc_stake_metas sc))) <= 2 ^ 32 - 1 ->
  exists c meta_tree, new_from_stake_meta_collection MAX_BPS sc ncn epoch bps trp = Ok c /\
    new_from_generated_merkle_tree_collection c = Ok meta_tree /\
    forall b g, decided_for b meta_tree -> g ∈ gc_generated_merkle_trees c ->
      exists proof, BallotBox.verify_merkle_root b (gm_tip_distribution_account g) proof (gm_merkle_root g)
        (gm_max_total_claim g) (gm_max_num_nodes g) = Ok tt.
Proof.
  intros HM Hb He He' Hok Hnd Hne Hlen.
  destruct (collect_trees_ok MAX_BPS bps ncn epoch (sc_tip_distribution_program_id sc) trp (sc_stake_metas sc)
    (sc_stake_metas sc) HM Hb He He' Hok) as (ts & Hts & Ha & _); [done|].
  assert (Hacc : tip_distribution_account <$> (node_from_generated <$> ts) = accounts_of (sc_stake_metas sc)).
  { rewrite <- Ha, <- list_fmap_compose. by apply list_fmap_ext. }
  assert (Hlen' : Z.of_nat (length (node_from_generated <$> ts)) <= 2 ^ 32 - 1).
  { by rewrite <- (length_fmap tip_distribution_account), Hacc. }
  destruct (proj1 (meta_merkle_tree_new (node_from_generated <$> ts) Hlen')) as (t & Ht & _ & _ & Hin).
  { intros E. rewrite E in Hacc. by apply Hne. }
  { by rewrite Hacc. }
  exists (mkGeneratedMerkleTreeCollection ts (sc_bank_hash sc) (sc_epoch sc) (sc_slot sc)), t.
  split; [unfold new_from_stake_meta_collection; by rewrite Hts|]. split; [exact Ht|].
  intros b g Hd Hg. destruct (Hin (node_from_generated g)) as (p & Hp); [by apply list_elem_of_fmap_2|].
  exists p. exact (verify_merkle_root_accepts b _ t _ p Ht Hd Hp eq_refl).
Qed.

(** from epoch 737 on, the recorded claim status of a delegator's
    claim is not that of its claimant: the claimant is the stake account, the
    address of the claim status is derived from the staker.  Before, and for the
    claims of the protocol and of the validator, the two agree. *)
Theorem claim_status_of_staker MAX_BPS m meta bps ncn epoch trp :
  0 < MAX_BPS -> fits U64 bps -> stake_meta_ok m meta -> 0 <= epoch -> epoch + 1 < U64 ->
  protocol_part MAX_BPS bps meta <= td_total_tips meta ->
  commission MAX_BPS meta + protocol_part MAX_BPS bps meta < U64 ->
  let status k := (claim_status tip_distribution_id k (td_tip_distribution_pubkey meta)).1 in
  exists first second ns,
    vec_from_stake_meta MAX_BPS m bps ncn epoch tip_distribution_id trp = Ok (Some (first :: second :: ns)) /\
    Claim.claim_status_pubkey first = status (Claim.claimant first) /\
    Claim.claim_status_pubkey second = status (Claim.claimant second) /\
    (epoch < 737 -> forall n, n ∈ ns -> Claim.claim_status_pubkey n = status (Claim.claimant n)) /\
    (737 <= epoch -> Forall2 (fun d n => Claim.claimant n = dg_stake_account_pubkey d /\
       Claim.claim_status_pubkey n = status (dg_staker_pubkey d)) (sk_delegations m) ns).
Proof.
  intros HM Hb Hm He He' Hle Hfit status.
  destruct (vec_from_stake_meta_ok MAX_BPS m meta bps ncn epoch tip_distribution_id trp HM Hb Hm He He' Hle Hfit)
    as (n1 & n2 & ns & Hvec & (_ & _ & H1) & (_ & _ & H2) & HF).
  exists n1, n2, ns. split; [done|]. split; [done|]. split; [done|]. split.
  - intros Hlt n [j Hj]%list_elem_of_lookup. destruct (Forall2_lookup_r _ _ _ _ _ HF Hj) as (d & _ & _ & Hc & Hs).
    rewrite Hs, Hc. by rewrite (proj2 (Z.ltb_ge _ _)) by lia.
  - intros Hge. eapply Forall2_impl; [|exact HF]. cbn. intros d n (_ & Hc & Hs).
    by rewrite (proj2 (Z.ltb_lt _ _)) in Hc by lia.
Qed.
End properties.

(* ------------------------------------------------------------------ *)
(** * Witnesses *)

(** A validator with two delegators, and one without tips. *)
Module GeneratedWitness.
Import ConcreteSolana ConcretePrograms.
Definition meta : TipDistributionMeta := mkTipDistributionMeta (key 30) (key 31) 1000001 500.
Definition validator : StakeMeta := mkStakeMeta (key 20) (key 21) (Some meta)
  [mkDelegation (key 1) (key 2) (key 3) 600; mkDelegation (key 4) (key 5) (key 6) 400] 1000 5.
Definition idle : StakeMeta := mkStakeMeta (key 22) (key 23) None [] 0 0.
Definition collection : StakeMetaCollection := mkStakeMetaCollection [idle; validator] (key 201) EmptyString 740 100.

Lemma validator_ok : stake_meta_ok validator meta.
Proof.
  split; [reflexivity|split; cbn; lia|split; cbn; lia| |cbn; lia|split; cbn; lia|cbn; lia].
  intros d Hd. cbn in Hd. rewrite !elem_of_cons, elem_of_nil in Hd. destruct Hd as [->|[->|[]]]; cbn; lia.
Qed.

Lemma collection_ok : metas_ok 10000 300 (sc_stake_metas collection).
Proof.
  intros m t Hm Ht. cbn in Hm. rewrite !elem_of_cons, elem_of_nil in Hm. destruct Hm as [->|[->|[]]]; [done|].
  injection Ht as <-. split; [exact validator_ok|]. split; vm_compute; congruence.
Qed.
End GeneratedWitness.
Import GeneratedWitness ConcreteSolana ConcretePrograms.

(** 1000001 lamports: 30000 to the protocol, 50000 to the validator, and
    552000 and 368000 of the remaining 920001 to the delegators. *)
Lemma claims_split_witness : exists nodes,
  vec_from_stake_meta 10000 validator 300 (key 9) 740 (key 201) (key 77) = Ok (Some nodes) /\
  Claim.amount <$> nodes = [30000; 50000; 552000; 368000].
Proof.
  destruct (claims_split 10000 validator meta 300 (key 9) 740 (key 201) (key 77)) as [Hok _];
    [lia|split; lia|exact validator_ok|lia|lia|].
  destruct Hok as (nodes & Hn & Ha & _); [vm_compute; congruence|vm_compute; congruence|].
  exists nodes. split; [exact Hn|]. rewrite Ha. vm_compute. reflexivity.
Defined.

Lemma generated_trees_sound_witness : exists c,
  new_from_stake_meta_collection 10000 collection (key 9) 740 300 (key 77) = Ok c /\
  gm_tip_distribution_account <$> gc_generated_merkle_trees c = [key 31].
Proof.
  destruct (generated_trees_sound 10000 collection (key 9) 740 300 (key 77)) as (c & Hc & Ha & _);
    [lia|split; lia|lia|lia|exact collection_ok|].
  exists c. split; [exact Hc|exact Ha].
Defined.

Lemma generated_roots_accepted_witness : exists c meta_tree,
  new_from_stake_meta_collection 10000 collection (key 9) 740 300 (key 77) = Ok c /\
  new_from_generated_merkle_tree_collection c = Ok meta_tree.
Proof.
  destruct (generated_roots_accepted 10000 collection (key 9) 740 300 (key 77)) as (c & t & Hc & Ht & _);
    [lia|split; lia|lia|lia|exact collection_ok|apply NoDup_singleton|discriminate|cbn; lia|].
  exists c, t. split; [exact Hc|exact Ht].
Defined.

(** At epoch 740 the first delegator's claim status is not its claimant's. *)
Lemma claim_status_of_staker_witness : exists first second n ns,
  vec_from_stake_meta 10000 validator 300 (key 9) 740 (key 201) (key 77) = Ok (Some (first :: second :: n :: ns)) /\
  Claim.claimant n = key 1 /\ Claim.claim_status_pubkey n = (claim_status (key 201) (key 2) (key 31)).1 /\
  Claim.claim_status_pubkey n <> (claim_status (key 201) (key 1) (key 31)).1.
Proof.
  destruct (claim_status_of_staker 10000 validator meta 300 (key 9) 740 (key 77)) as (n1 & n2 & ns & Hv & _ & _ & _ & Hge);
    [lia|split; lia|exact validator_ok|lia|lia|vm_compute; congruence|vm_compute; congruence|].
  specialize (Hge ltac:(lia)). destruct ns as [|n ns]; [inversion Hge|].
  apply Forall2_cons_1 in Hge as [[Hc Hs] _]. exists n1, n2, n, ns.
  split; [exact Hv|]. split; [exact Hc|]. split; [exact Hs|]. rewrite Hs.
  apply (bool_decide_unpack _). vm_compute. exact I.
Defined.
