(* ===== verification/StakeMetaGenerator.v ===== *)
(** From a ledger to the meta root: the stake metadata of an epoch
    (tip-router-operator-cli/src/stake_meta_generator.rs) and the pipeline of the
    operator client that turns it into the root an operator votes for
    (get_meta_merkle_root in tip-router-operator-cli/src/lib.rs).

    The bank (validator runtime code) is a parameter: what the generator reads of
    it is the record [Bank], the accounts of other programs are decoded by
    functions of the class [LedgerAccounts].  A hash map is the list of its
    entries in the order in which it happens to be iterated. *)

From Stdlib Require Import String.
From stdpp Require Import sorting.
From S2P Require Import Prelude Errors External Accounts Fees MerkleTree VoteHandlers GeneratedTree.

(* ------------------------------------------------------------------ *)
(** * Orders *)

(** [Pubkey]'s order: that of its bytes. *)
Definition pubkey_le (a b : Pubkey) : Prop := bytes_leb (to_bytes a) (to_bytes b) = true.

#[export] Instance pubkey_le_dec a b : Decision (pubkey_le a b).
Proof. unfold pubkey_le. apply _. Defined.

(** Comparison by a key first, then by [R]. *)
Definition lex {A} (f : A -> Pubkey) (R : A -> A -> Prop) (a b : A) : Prop :=
  if decide (f a = f b) then R a b else pubkey_le (f a) (f b).

#[export] Instance lex_dec {A} (f : A -> Pubkey) (R : A -> A -> Prop) `{!forall a b, Decision (R a b)} a b :
  Decision (lex f R a b).
Proof. unfold lex. destruct (decide (f a = f b)); apply _. Defined.

(** [Delegation::cmp]: by stake account, withdrawer, staker and lamports. *)
Definition Delegation_le : Delegation -> Delegation -> Prop :=
  lex dg_stake_account_pubkey (lex dg_withdrawer_pubkey (lex dg_staker_pubkey
    (fun a b => dg_lamports_delegated a <= dg_lamports_delegated b))).

#[export] Instance Delegation_le_dec a b : Decision (Delegation_le a b).
Proof. unfold Delegation_le. apply _. Defined.

(** [StakeMeta::cmp] *)
Definition StakeMeta_le (a b : StakeMeta) : Prop := pubkey_le (sk_validator_vote_account a) (sk_validator_vote_account b).

#[export] Instance StakeMeta_le_dec a b : Decision (StakeMeta_le a b).
Proof. unfold StakeMeta_le. apply _. Defined.

(* ------------------------------------------------------------------ *)
(** * The ledger *)

(** Stake and vote accounts of the validator runtime, and the decoding of
    accounts: [sa_effective_stake] is [delegation().stake(epoch, history, rate)],
    [sa_authorized] the staker and the withdrawer, [config_try_deserialize] gives
    the block builder's commission and the tip receiver, and
    [tda_try_deserialize] the validator's commission and the upload authority. *)
Class LedgerAccounts := {
  StakeAccount : Type;
  VoteAccount : Type;
  StakeHistory : Type;
  sa_voter_pubkey : StakeAccount -> Pubkey;
  sa_stake : StakeAccount -> Z;
  sa_authorized : StakeAccount -> option (Pubkey * Pubkey);
  sa_effective_stake : StakeAccount -> Z -> StakeHistory -> option Z -> Z;
  va_node_pubkey : VoteAccount -> Pubkey;
  va_commission : VoteAccount -> Z;
  config_try_deserialize : list Z -> option (Z * Pubkey);
  tda_try_deserialize : list Z -> option (Z * Pubkey);
  history_from_account : Z * list Z -> option StakeHistory;
  stake_history_id : Pubkey;
}.

(** An account is its lamports and its data. *)
Record Bank `{LedgerAccounts} := mkBank {
  bk_is_frozen : bool;
  bk_epoch : Z;
  bk_slot : Z;
  bk_hash : string;
  bk_epoch_vote_accounts : Z -> option (list (Pubkey * (Z * VoteAccount)));
  bk_stake_delegations : list (Pubkey * StakeAccount);
  bk_get_account : Pubkey -> option (Z * list Z);
  bk_minimum_balance : Z -> Z;
  bk_new_warmup_cooldown_rate_epoch : option Z;
}.

(** The generator's errors, without their payloads; [GeneratorPanic] is an
    [unwrap], [expect] or assertion that fails. *)
Module StakeMetaError.
Inductive StakeMetaGeneratorError : Type :=
| AnchorError
| BlockstoreError
| BlockstoreProcessorError
| IoError
| CheckedMathError
| RpcError
| SerdeJsonError
| SnapshotSlotNotFound
| BankForksUtilsError
| GenesisConfigError
| PanicError
| GeneratorPanic.
End StakeMetaError.
Abbreviation StakeMetaGeneratorError := StakeMetaError.StakeMetaGeneratorError.

Record TipDistributionAccountWrapper := mkTipDistributionAccountWrapper {
  tw_validator_commission_bps : Z;
  tw_merkle_root_upload_authority : Pubkey;
  tw_lamports : Z;
  tw_data_len : Z;
  tw_tip_distribution_pubkey : Pubkey;
}.

(** The pipeline's errors, without their messages. *)
Module RootError.
Inductive MerkleRootError : Type :=
| StakeMetaGeneratorError
| MerkleRootGeneratorError
| MerkleTreeError.
End RootError.

(* ------------------------------------------------------------------ *)
(** * Stake metadata *)

Section generator.
Context `{Solana} `{LedgerAccounts}.

Definition CONFIG_ACCOUNT_SEED : list Z := bytes_of_string "CONFIG_ACCOUNT".
Definition TIP_ACCOUNT_SEEDS : list (list Z) :=
  [bytes_of_string "TIP_ACCOUNT_0"; bytes_of_string "TIP_ACCOUNT_1"; bytes_of_string "TIP_ACCOUNT_2";
   bytes_of_string "TIP_ACCOUNT_3"; bytes_of_string "TIP_ACCOUNT_4"; bytes_of_string "TIP_ACCOUNT_5";
   bytes_of_string "TIP_ACCOUNT_6"; bytes_of_string "TIP_ACCOUNT_7"].

(** The [tip_pdas] of [derive_tip_payment_pubkeys]. *)
Definition tip_pdas (program_id : Pubkey) : list Pubkey :=
  (fun seed => (find_program_address_ext [seed] program_id).1) <$> TIP_ACCOUNT_SEEDS.

Definition tip_distribution_account_from_tda_wrapper (tda_wrapper : TipDistributionAccountWrapper)
    (rent_exempt_amount : Z) : result StakeMetaGeneratorError TipDistributionMeta :=
  total_tips ← ok_or (checked_sub (tw_lamports tda_wrapper) rent_exempt_amount) StakeMetaError.CheckedMathError;
  mret (mkTipDistributionMeta (tw_merkle_root_upload_authority tda_wrapper) (tw_tip_distribution_pubkey tda_wrapper)
          total_tips (tw_validator_commission_bps tda_wrapper)).

(** A delegation of the stake account at [stake_pubkey]. *)
Definition delegation_of (entry : Pubkey * StakeAccount) : Delegation :=
  let '(stake_pubkey, stake_account) := entry in
  mkDelegation stake_pubkey
    (match sa_authorized stake_account with Some (staker, _) => staker | None => Pubkey_default end)
    (match sa_authorized stake_account with Some (_, withdrawer) => withdrawer | None => Pubkey_default end)
    (sa_stake stake_account).

(** The filter's condition; it reads the stake history for every entry. *)
Definition has_stake (bank : Bank) (entry : Pubkey * StakeAccount) : result StakeMetaGeneratorError bool :=
  account ← ok_or (bk_get_account bank stake_history_id) StakeMetaError.GeneratorPanic;
  history ← ok_or (history_from_account account) StakeMetaError.GeneratorPanic;
  mret (0 <? sa_effective_stake entry.2 (bk_epoch bank) history (bk_new_warmup_cooldown_rate_epoch bank)).

Fixpoint filter_stakes (bank : Bank) (l : list (Pubkey * StakeAccount))
    : result StakeMetaGeneratorError (list (Pubkey * StakeAccount)) :=
  match l with
  | [] => mret []
  | e :: l => keep ← has_stake bank e; rest ← filter_stakes bank l;
              mret (if keep : bool then e :: rest else rest)
  end.

(** [into_group_map_by]: the groups in the order in which their first
    elements occur, each in the order of its elements. *)
Fixpoint insert_group (voter : Pubkey) (d : Delegation) (groups : list (Pubkey * list Delegation))
    : list (Pubkey * list Delegation) :=
  match groups with
  | [] => [(voter, [d])]
  | (v, ds) :: groups => if decide (v = voter) then (v, ds ++ [d]) :: groups else (v, ds) :: insert_group voter d groups
  end.

Definition group_delegations_by_voter_pubkey (bank : Bank)
    : result StakeMetaGeneratorError (list (Pubkey * list Delegation)) :=
  delegations ← filter_stakes bank (bk_stake_delegations bank);
  mret (foldl (fun groups e => insert_group (sa_voter_pubkey e.2) (delegation_of e) groups) [] delegations).

Definition get_group (groups : list (Pubkey * list Delegation)) (voter : Pubkey) : option (list Delegation) :=
  snd ∘ snd <$> list_find (fun g => g.1 = voter) groups.

(** One tip account's balance above its rent; [.sum()] panics on overflow. *)
Definition add_excess (bank : Bank) (sum : Z) (pubkey : Pubkey) : result StakeMetaGeneratorError Z :=
  '(lamports, data) ← ok_or (bk_get_account bank pubkey) StakeMetaError.GeneratorPanic;
  excess ← ok_or (checked_sub lamports (bk_minimum_balance bank (Z.of_nat (length data)))) StakeMetaError.GeneratorPanic;
  ok_or (checked_add U64 sum excess) StakeMetaError.GeneratorPanic.

(** What the tip receiver gets of the tips not yet cranked. *)
Definition tip_receiver_fee (bank : Bank) (tip_payment_program_id : Pubkey) (bb_commission_pct : Z)
    : result StakeMetaGeneratorError Z :=
  excess_tip_balances ← foldM (add_excess bank) 0 (tip_pdas tip_payment_program_id);
  product ← ok_or (checked_mul U64 excess_tip_balances bb_commission_pct) StakeMetaError.GeneratorPanic;
  block_builder_tips ← ok_or (checked_div product 100) StakeMetaError.GeneratorPanic;
  ok_or (checked_sub excess_tip_balances block_builder_tips) StakeMetaError.GeneratorPanic.

(** The tip distribution account of a vote account, if it is there. *)
Definition maybe_tda (bank : Bank) (tip_distribution_program_id tip_receiver : Pubkey) (fee : Z)
    (entry : Pubkey * (Z * VoteAccount))
    : result StakeMetaGeneratorError (Pubkey * VoteAccount * option TipDistributionAccountWrapper) :=
  let '(vote_pubkey, (_, vote_account)) := entry in
  let tip_distribution_pubkey :=
    (derive_tip_distribution_account_address tip_distribution_program_id vote_pubkey (bk_epoch bank)).1 in
  match bk_get_account bank tip_distribution_pubkey with
  | None => mret (vote_pubkey, vote_account, None)
  | Some (lamports, data) =>
      match tda_try_deserialize data with
      | None => mret (vote_pubkey, vote_account, None)
      | Some (commission_bps, authority) =>
          lamports ← (if bool_decide (tip_distribution_pubkey = tip_receiver)
                      then ok_or (checked_add U64 lamports fee) StakeMetaError.GeneratorPanic else Ok lamports);
          mret (vote_pubkey, vote_account, Some (mkTipDistributionAccountWrapper commission_bps authority lamports
                                                   (Z.of_nat (length data)) tip_distribution_pubkey))
      end
  end.

(** The body of the loop over the vote accounts: [None] without a group. *)
Definition stake_meta_of (bank : Bank) (groups : list (Pubkey * list Delegation))
    (entry : Pubkey * VoteAccount * option TipDistributionAccountWrapper)
    : result StakeMetaGeneratorError (option StakeMeta) :=
  let '(vote_pubkey, vote_account, maybe_tda) := entry in
  match get_group groups vote_pubkey with
  | None => mret None
  | Some delegations =>
      total_delegated ← foldM (fun sum d => ok_or (checked_add U64 sum (dg_lamports_delegated d)) StakeMetaError.GeneratorPanic)
                          0 delegations;
      maybe_tip_distribution_meta ←
        (match maybe_tda with
         | Some tda =>
             meta ← tip_distribution_account_from_tda_wrapper tda (bk_minimum_balance bank (tw_data_len tda));
             mret (Some meta)
         | None => mret None
         end);
      mret (Some (mkStakeMeta vote_pubkey (va_node_pubkey vote_account) maybe_tip_distribution_meta
                    (merge_sort Delegation_le delegations) total_delegated (va_commission vote_account)))
  end.

Definition generate_stake_meta_collection (bank : Bank) (tip_distribution_program_id tip_payment_program_id : Pubkey)
    : result StakeMetaGeneratorError StakeMetaCollection :=
  if negb (bk_is_frozen bank) then Err StakeMetaError.GeneratorPanic else
  epoch_vote_accounts ← ok_or (bk_epoch_vote_accounts bank (bk_epoch bank)) StakeMetaError.GeneratorPanic;
  voter_pubkey_to_delegations ← group_delegations_by_voter_pubkey bank;
  let config_pda := (find_program_address_ext [CONFIG_ACCOUNT_SEED] tip_payment_program_id).1 in
  '(_, config_data) ← ok_or (bk_get_account bank config_pda) StakeMetaError.AnchorError;
  '(bb_commission_pct, tip_receiver) ← ok_or (config_try_deserialize config_data) StakeMetaError.AnchorError;
  fee ← tip_receiver_fee bank tip_payment_program_id bb_commission_pct;
  vote_pk_and_maybe_tdas ← mapM (maybe_tda bank tip_distribution_program_id tip_receiver fee) epoch_vote_accounts;
  stake_metas ← mapM (stake_meta_of bank voter_pubkey_to_delegations) vote_pk_and_maybe_tdas;
  mret (mkStakeMetaCollection (merge_sort StakeMeta_le (omap id stake_metas)) tip_distribution_program_id
          (bk_hash bank) (bk_epoch bank) (bk_slot bank)).

(* ------------------------------------------------------------------ *)
(** * The root an operator votes for *)

Definition map_err {E F A} (f : E -> F) (r : result E A) : result F A :=
  match r with Ok a => Ok a | Err e => Err (f e) end.

(** The stages between the ledger and the meta tree; the files written on the
    way are not modelled. *)
Definition get_meta_merkle_root `{Programs} (MAX_BPS : Z) (bank : Bank)
    (tip_distribution_program_id tip_payment_program_id tip_router_program_id ncn_address : Pubkey)
    (epoch protocol_fee_bps : Z) : result RootError.MerkleRootError MetaMerkleTree :=
  stake_meta_collection ← map_err (fun _ => RootError.StakeMetaGeneratorError)
    (generate_stake_meta_collection bank tip_distribution_program_id tip_payment_program_id);
  merkle_tree_coll ← map_err (fun _ => RootError.MerkleRootGeneratorError)
    (new_from_stake_meta_collection MAX_BPS stake_meta_collection ncn_address epoch protocol_fee_bps
       tip_router_program_id);
  map_err (fun _ => RootError.MerkleTreeError) (new_from_generated_merkle_tree_collection merkle_tree_coll).

(** The fee the client takes: the adjusted total of the epoch it is for. *)
Definition protocol_fee_bps_of (fee_config : FeeConfig) (target_epoch : Z) : res Z :=
  tip_router_target_epoch ← ok_or (checked_add U64 target_epoch 1) (Prog ProgramArithmeticOverflow);
  FeeConfig.adjusted_total_fees_bps fee_config tip_router_target_epoch.
End generator.
