(* ===== verification/StakeMetaTheorems.v ===== *)
(** What the generation of stake metadata promises: the root an operator votes
    for is a function of the ledger, whatever the order in which the hash maps of
    the bank are iterated; the metadata records the delegations and the tips of each
    validator exactly, those not yet cranked included; and a ledger whose generation succeeds has a root that the on-chain
    program accepts validator by validator. *)

From Stdlib Require Import String.
From stdpp Require Import sorting.
From S2P Require Import Prelude Errors External Accounts Fees MerkleTree MerkleTreeProps MerkleTheorems BallotBox VoteHandlers GeneratedTree GeneratedTheorems StakeMetaGenerator.

(* ------------------------------------------------------------------ *)
(** * The orders are total, transitive and decide equality *)

#[export] Instance pubkey_le_trans : Transitive pubkey_le.
Proof. intros a b c. apply bytes_leb_trans. Qed.

#[export] Instance pubkey_le_total : Total pubkey_le.
Proof. intros a b. apply bytes_leb_total. Qed.

#[export] Instance pubkey_le_antisym : AntiSymm (=) pubkey_le.
Proof. intros [a] [b] H1 H2. f_equal. by apply bytes_leb_antisym. Qed.

Section lex.
Context {A : Type} (f : A -> Pubkey) (R : A -> A -> Prop).

#[export] Instance lex_trans `{!Transitive R} : Transitive (lex f R).
Proof.
  intros a b c. unfold lex.
  destruct (decide (f a = f b)) as [Eab|Eab], (decide (f b = f c)) as [Ebc|Ebc], (decide (f a = f c)) as [Eac|Eac];
    try congruence; intros Hab Hbc.
  - by etrans.
  - destruct Eab. apply (anti_symm pubkey_le); congruence.
  - by etrans.
Qed.

#[export] Instance lex_total `{!Total R} : Total (lex f R).
Proof.
  intros a b. unfold lex. destruct (decide (f a = f b)), (decide (f b = f a)); try congruence.
  - apply (total R).
  - apply (total pubkey_le).
Qed.

Lemma lex_antisym a b : lex f R a b -> lex f R b a -> f a = f b /\ R a b /\ R b a.
Proof.
  unfold lex. destruct (decide (f a = f b)) as [Eab|Eab], (decide (f b = f a)) as [Eba|Eba]; try congruence; intros Hab Hba.
  - done.
  - destruct Eab. by apply (anti_symm pubkey_le).
Qed.
End lex.

#[export] Instance Delegation_le_trans : Transitive Delegation_le.
Proof. unfold Delegation_le. do 3 apply lex_trans. intros a b c. lia. Qed.

#[export] Instance Delegation_le_total : Total Delegation_le.
Proof. unfold Delegation_le. do 3 apply lex_total. intros a b. lia. Qed.

#[export] Instance Delegation_le_antisym : AntiSymm (=) Delegation_le.
Proof.
  intros a b H1 H2. destruct (lex_antisym _ _ _ _ H1 H2) as (E1 & H3 & H4).
  destruct (lex_antisym _ _ _ _ H3 H4) as (E2 & H5 & H6).
  destruct (lex_antisym _ _ _ _ H5 H6) as (E3 & H7 & H8).
  destruct a, b; cbn in *. f_equal; (done || lia).
Qed.

#[export] Instance StakeMeta_le_trans : Transitive StakeMeta_le.
Proof. intros a b c. apply pubkey_le_trans. Qed.

#[export] Instance StakeMeta_le_total : Total StakeMeta_le.
Proof. intros a b. apply pubkey_le_total. Qed.

(** Sorting forgets the order of the input, for delegations and for the
    metadata of distinct vote accounts. *)
Lemma sort_delegations_perm l1 l2 : l1 ≡ₚ l2 -> merge_sort Delegation_le l1 = merge_sort Delegation_le l2.
Proof.
  intros Hp. apply (Sorted_unique Delegation_le); [apply Sorted_merge_sort, _..|]. by rewrite !merge_sort_Permutation.
Qed.

Lemma sort_metas_perm l1 l2 :
  NoDup (sk_validator_vote_account <$> l1) -> l1 ≡ₚ l2 -> merge_sort StakeMeta_le l1 = merge_sort StakeMeta_le l2.
Proof.
  intros Hnd Hp. apply (Sorted_unique_strong StakeMeta_le); [|apply Sorted_merge_sort, _..|by rewrite !merge_sort_Permutation].
  intros x y. rewrite !merge_sort_Permutation, <- Hp. intros Hx Hy H1 H2.
  assert (E : sk_validator_vote_account x = sk_validator_vote_account y) by (by apply (anti_symm pubkey_le)).
  apply list_elem_of_lookup in Hx as [i Hi]. apply list_elem_of_lookup in Hy as [j Hj].
  assert (i = j) as <-; [|congruence]. apply (NoDup_lookup _ _ _ (sk_validator_vote_account x) Hnd);
    rewrite list_lookup_fmap; [by rewrite Hi|by rewrite Hj, E].
Qed.

(* ------------------------------------------------------------------ *)
(** * Groups of delegations *)

Section groups.
Context `{Solana} `{LedgerAccounts}.
Implicit Types bank : Bank.

Lemma get_group_cons v ds groups w :
  get_group ((v, ds) :: groups) w = if decide (v = w) then Some ds else get_group groups w.
Proof.
  unfold get_group. cbn [list_find]. destruct (decide ((v, ds).1 = w)) as [E|E]; cbn [fst] in E.
  - by rewrite decide_True.
  - rewrite decide_False by done. by destruct (list_find _ groups) as [[]|].
Qed.

Lemma get_group_insert v d groups w :
  get_group (insert_group v d groups) w
  = if decide (v = w) then Some (default [] (get_group groups v) ++ [d]) else get_group groups w.
Proof.
  induction groups as [|[u ds] groups IH]; cbn [insert_group].
  - rewrite get_group_cons. by destruct (decide (v = w)).
  - destruct (decide (u = v)) as [->|Huv]; rewrite !get_group_cons.
    + destruct (decide (v = w)); [by rewrite decide_True|done].
    + destruct (decide (u = w)) as [->|Huw]; [by rewrite decide_False|].
      rewrite IH. by rewrite (decide_False (P := u = v)).
Qed.

(** The delegations to [v] among the entries [l]. *)
Definition delegations_to (l : list (Pubkey * StakeAccount)) (v : Pubkey) : list Delegation :=
  delegation_of <$> filter (fun e => sa_voter_pubkey e.2 = v) l.

Lemma delegations_to_cons e l v :
  delegations_to (e :: l) v
  = if decide (sa_voter_pubkey e.2 = v) then delegation_of e :: delegations_to l v else delegations_to l v.
Proof. unfold delegations_to. rewrite filter_cons. by destruct (decide _). Qed.

Definition add_to_groups (groups : list (Pubkey * list Delegation)) (e : Pubkey * StakeAccount)
  : list (Pubkey * list Delegation) := insert_group (sa_voter_pubkey e.2) (delegation_of e) groups.

Lemma get_group_fold l groups w :
  get_group (foldl add_to_groups groups l) w
  = match delegations_to l w with [] => get_group groups w | ds => Some (default [] (get_group groups w) ++ ds) end.
Proof.
  revert groups. induction l as [|e l IH]; intros groups; cbn [foldl]; [done|].
  rewrite IH, delegations_to_cons. unfold add_to_groups at 1 2. rewrite get_group_insert.
  destruct (decide (sa_voter_pubkey e.2 = w)) as [->|]; [|done].
  destruct (delegations_to l w); [done|]. cbn [from_option]. unfold id at 1. by rewrite <- app_assoc.
Qed.

Definition nonempty {A} (l : list A) : option (list A) := match l with [] => None | l => Some l end.

Lemma get_group_all l w : get_group (foldl add_to_groups [] l) w = nonempty (delegations_to l w).
Proof. rewrite get_group_fold. by destruct (delegations_to l w). Qed.

(** The stake history of the bank, and the entries with effective stake. *)
Definition history_of bank : option StakeHistory := bk_get_account bank stake_history_id ≫= history_from_account.

Definition effective bank (h : StakeHistory) (e : Pubkey * StakeAccount) : Prop :=
  0 < sa_effective_stake e.2 (bk_epoch bank) h (bk_new_warmup_cooldown_rate_epoch bank).

#[export] Instance effective_dec bank h e : Decision (effective bank h e).
Proof. unfold effective. apply _. Defined.

Lemma bool_decide_ext_ltb a b : bool_decide (a < b) = (a <? b).
Proof. destruct (Z.ltb_spec a b); [by apply bool_decide_true|apply bool_decide_false; lia]. Qed.

Lemma has_stake_spec bank e :
  has_stake bank e = match history_of bank with
                     | Some h => Ok (bool_decide (effective bank h e))
                     | None => Err StakeMetaError.GeneratorPanic
                     end.
Proof.
  unfold has_stake, history_of. destruct (bk_get_account bank stake_history_id) as [a|]; [|done].
  cbn [ok_or mbind result_bind option_bind]. destruct (history_from_account a) as [h|]; [|done].
  cbn [ok_or mbind result_bind mret result_ret]. unfold effective. unfold mret, result_ret. by rewrite bool_decide_ext_ltb.
Qed.

Lemma filter_stakes_history bank h l : history_of bank = Some h -> filter_stakes bank l = Ok (filter (effective bank h) l).
Proof.
  intros Hh. induction l as [|e l IH]; cbn [filter_stakes]; [done|].
  rewrite has_stake_spec, Hh, IH, filter_cons. cbn. by destruct (decide (effective bank h e)) as [Hd|Hd];
    [rewrite bool_decide_true by done|rewrite bool_decide_false by done].
Qed.

Lemma filter_stakes_no_history bank e l : history_of bank = None -> filter_stakes bank (e :: l) = Err StakeMetaError.GeneratorPanic.
Proof. intros Hh. cbn [filter_stakes]. by rewrite has_stake_spec, Hh. Qed.

(** The entries that count: none without delegations, whatever the history. *)
Definition effective_stakes bank : option (list (Pubkey * StakeAccount)) :=
  match bk_stake_delegations bank with
  | [] => Some []
  | l => h ← history_of bank; Some (filter (effective bank h) l)
  end.

Lemma group_delegations_spec bank :
  group_delegations_by_voter_pubkey bank
  = match effective_stakes bank with
    | Some l => Ok (foldl add_to_groups [] l)
    | None => Err StakeMetaError.GeneratorPanic
    end.
Proof.
  unfold group_delegations_by_voter_pubkey, effective_stakes. destruct (bk_stake_delegations bank) as [|e l]; [done|].
  destruct (history_of bank) as [h|] eqn:Hh.
  - by rewrite (filter_stakes_history bank h) by done.
  - by rewrite filter_stakes_no_history.
Qed.

(** The sum of the delegations: an error exactly when it overflows. *)
Lemma total_delegated_spec acc (l : list Delegation) :
  (forall d, d ∈ l -> 0 <= dg_lamports_delegated d) -> acc < U64 ->
  foldM (fun sum d => ok_or (checked_add U64 sum (dg_lamports_delegated d)) StakeMetaError.GeneratorPanic) acc l
  = if acc + sumZ dg_lamports_delegated l <? U64 then Ok (acc + sumZ dg_lamports_delegated l) else Err StakeMetaError.GeneratorPanic.
Proof.
  revert acc. induction l as [|d l IH]; intros acc Hl Hacc; cbn [foldM sumZ].
  { rewrite Z.add_0_r. by rewrite (proj2 (Z.ltb_lt _ _) Hacc). }
  assert (Hl' : forall x, x ∈ l -> 0 <= dg_lamports_delegated x) by (intros x Hx; apply Hl; by right).
  pose proof (sumZ_nonneg dg_lamports_delegated l Hl'). unfold checked_add at 2.
  destruct (Z.ltb_spec (acc + dg_lamports_delegated d) U64) as [Hlt|Hge]; cbn [ok_or mbind result_bind].
  - rewrite IH by done. by rewrite Z.add_assoc.
  - by rewrite (proj2 (Z.ltb_ge _ _)) by lia.
Qed.
End groups.

(* ------------------------------------------------------------------ *)
(** * The iteration order of the hash maps does not matter *)

Section order.
Context `{Solana} `{LedgerAccounts}.

(** Two views of one ledger: equal up to the order of the entries of the two
    hash maps that the generator iterates. *)
Record same_ledger (b1 b2 : Bank) : Prop := {
  sl_frozen : bk_is_frozen b1 = bk_is_frozen b2;
  sl_epoch : bk_epoch b1 = bk_epoch b2;
  sl_slot : bk_slot b1 = bk_slot b2;
  sl_hash : bk_hash b1 = bk_hash b2;
  sl_votes : option_Forall2 (≡ₚ) (bk_epoch_vote_accounts b1 (bk_epoch b1)) (bk_epoch_vote_accounts b2 (bk_epoch b2));
  sl_stakes : bk_stake_delegations b1 ≡ₚ bk_stake_delegations b2;
  sl_account : forall k, bk_get_account b1 k = bk_get_account b2 k;
  sl_rent : forall n, bk_minimum_balance b1 n = bk_minimum_balance b2 n;
  sl_rate : bk_new_warmup_cooldown_rate_epoch b1 = bk_new_warmup_cooldown_rate_epoch b2;
}.

#[export] Instance same_ledger_sym : Symmetric same_ledger.
Proof.
  intros b1 b2 [? ? ? ? Hv ? ? ? ?]. by split.
Qed.

Section views.
Context (b1 b2 : Bank) (Hs : same_ledger b1 b2).

Lemma same_history : history_of b1 = history_of b2.
Proof. unfold history_of. by rewrite (sl_account _ _ Hs). Qed.

Lemma effective_stakes_perm : option_Forall2 (≡ₚ) (effective_stakes b1) (effective_stakes b2).
Proof.
  assert (He : forall h (l : list (Pubkey * StakeAccount)), filter (effective b1 h) l = filter (effective b2 h) l).
  { intros h l. apply list_filter_iff. intros e. unfold effective.
    by rewrite (sl_epoch _ _ Hs), (sl_rate _ _ Hs). }
  pose proof (sl_stakes _ _ Hs) as Hp. unfold effective_stakes. rewrite same_history.
  destruct (bk_stake_delegations b1) as [|e1 l1], (bk_stake_delegations b2) as [|e2 l2].
  - by constructor.
  - by apply Permutation_nil_cons in Hp.
  - by apply symmetry, Permutation_nil_cons in Hp.
  - destruct (history_of b2) as [h|]; cbn [mbind option_bind]; constructor. by rewrite He, Hp.
Qed.

Lemma same_tip_receiver_fee id pct : tip_receiver_fee b1 id pct = tip_receiver_fee b2 id pct.
Proof.
  unfold tip_receiver_fee. rewrite (foldM_ext (add_excess b1) (add_excess b2)); [done|].
  intros sum k. unfold add_excess. rewrite (sl_account _ _ Hs). destruct (bk_get_account b2 k) as [[lamports data]|]; [|done].
  cbn [ok_or mbind result_bind]. by rewrite (sl_rent _ _ Hs).
Qed.

Lemma same_maybe_tda tdp receiver fee entry : maybe_tda b1 tdp receiver fee entry = maybe_tda b2 tdp receiver fee entry.
Proof. destruct entry as [k [s v]]. unfold maybe_tda. by rewrite (sl_epoch _ _ Hs), (sl_account _ _ Hs). Qed.

Lemma same_stake_meta_of g1 g2 entry :
  (forall v, option_Forall2 (≡ₚ) (get_group g1 v) (get_group g2 v)) ->
  (forall v l, get_group g1 v = Some l -> forall d, d ∈ l -> 0 <= dg_lamports_delegated d) ->
  stake_meta_of b1 g1 entry = stake_meta_of b2 g2 entry.
Proof.
  intros Hg Hpos. destruct entry as [[k v] tda]. unfold stake_meta_of.
  specialize (Hg k). specialize (Hpos k). inversion Hg as [l1 l2 Hp E1 E2|E1 E2]; [|done].
  rewrite <- E1 in Hpos. specialize (Hpos l1 eq_refl).
  rewrite !total_delegated_spec; try lia; [|intros d Hd; apply Hpos; by rewrite Hp|done].
  rewrite (sumZ_perm _ _ _ Hp), (sort_delegations_perm _ _ Hp).
  destruct (_ <? U64); [|done]. cbn [mbind result_bind]. destruct tda as [w|]; [|done].
  by rewrite (sl_rent _ _ Hs).
Qed.
End views.

Lemma get_group_perm l1 l2 v : l1 ≡ₚ l2 ->
  option_Forall2 (≡ₚ) (get_group (foldl add_to_groups [] l1) v) (get_group (foldl add_to_groups [] l2) v).
Proof.
  intros Hp. rewrite !get_group_all.
  assert (Hd : delegations_to l1 v ≡ₚ delegations_to l2 v) by (unfold delegations_to; by rewrite Hp).
  destruct (delegations_to l1 v), (delegations_to l2 v); cbn [nonempty].
  - constructor.
  - by apply Permutation_nil_cons in Hd.
  - by apply symmetry, Permutation_nil_cons in Hd.
  - by constructor.
Qed.

(** Every delegation in a group is that of an entry of the bank. *)
Lemma group_elem bank l g v d :
  effective_stakes bank = Some l -> get_group (foldl add_to_groups [] l) v = Some g -> d ∈ g ->
  exists e, e ∈ bk_stake_delegations bank /\ d = delegation_of e /\ sa_voter_pubkey e.2 = v /\
    exists h, history_of bank = Some h /\ effective bank h e.
Proof.
  intros Hl Hg Hd. rewrite get_group_all in Hg.
  assert (Hin : d ∈ delegations_to l v) by (destruct (delegations_to l v); [done|by injection Hg as <-]).
  apply list_elem_of_fmap in Hin as (e & -> & [Hv He]%list_elem_of_filter).
  exists e. unfold effective_stakes in Hl. destruct (bk_stake_delegations bank) as [|e0 l0] eqn:E.
  { injection Hl as <-. by apply elem_of_nil in He. }
  destruct (history_of bank) as [h|]; [|done]. injection Hl as <-.
  apply list_elem_of_filter in He as [Heff He]. repeat split; try done. by exists h.
Qed.

Definition stakes_nonneg (bank : Bank) : Prop := forall e, e ∈ bk_stake_delegations bank -> 0 <= sa_stake e.2.

Lemma groups_nonneg bank l : stakes_nonneg bank -> effective_stakes bank = Some l ->
  forall v g, get_group (foldl add_to_groups [] l) v = Some g -> forall d, d ∈ g -> 0 <= dg_lamports_delegated d.
Proof.
  intros Hpos Hl v g Hg d Hd. destruct (group_elem bank l g v d Hl Hg Hd) as ([k s] & He & -> & _).
  exact (Hpos _ He).
Qed.

(** The metadata of a vote account is for that account. *)
Lemma stake_meta_of_vote bank g k v tda m : stake_meta_of bank g (k, v, tda) = Ok (Some m) -> sk_validator_vote_account m = k.
Proof. unfold stake_meta_of. destruct (get_group g k); [|done]. intros Hm. by res_inv. Qed.

Lemma maybe_tda_vote bank tdp receiver fee entry k v tda :
  maybe_tda bank tdp receiver fee entry = Ok (k, v, tda) -> k = entry.1.
Proof.
  destruct entry as [k' [s v']]. unfold maybe_tda. destruct (bk_get_account bank _) as [[a data]|]; [|by intros [=]].
  destruct (tda_try_deserialize data) as [[bps auth]|]; [|by intros [=]]. intros Hm. by res_inv.
Qed.

Lemma metas_votes bank tdp receiver fee g votes tdas metas :
  mapM (maybe_tda bank tdp receiver fee) votes = Ok tdas -> mapM (stake_meta_of bank g) tdas = Ok metas ->
  sk_validator_vote_account <$> omap id metas `sublist_of` votes.*1.
Proof.
  intros Ht%mapM_Ok Hm%mapM_Ok. revert metas Hm.
  induction Ht as [|entry [[k v] tda] votes tdas Htda _ IH]; intros metas Hm; inversion Hm as [|? m ? metas' Hmeta Hrest]; subst;
    [constructor|].
  rewrite fmap_cons, <- (maybe_tda_vote _ _ _ _ _ _ _ _ Htda). destruct m as [m|]; cbn [omap list_omap id].
  - rewrite fmap_cons, (stake_meta_of_vote _ _ _ _ _ _ Hmeta). constructor. by apply IH.
  - constructor. by apply IH.
Qed.
(** The keys of the vote accounts' map are distinct. *)
Definition votes_distinct (bank : Bank) : Prop :=
  forall votes, bk_epoch_vote_accounts bank (bk_epoch bank) = Some votes -> NoDup votes.*1.

(** The metadata of the vote accounts, before sorting. *)
Lemma metas_perm b1 b2 tdp receiver fee g1 g2 votes1 votes2 tdas1 metas1 :
  same_ledger b1 b2 -> votes1 ≡ₚ votes2 ->
  (forall v, option_Forall2 (≡ₚ) (get_group g1 v) (get_group g2 v)) ->
  (forall v l, get_group g1 v = Some l -> forall d, d ∈ l -> 0 <= dg_lamports_delegated d) ->
  mapM (maybe_tda b1 tdp receiver fee) votes1 = Ok tdas1 -> mapM (stake_meta_of b1 g1) tdas1 = Ok metas1 ->
  exists tdas2 metas2, mapM (maybe_tda b2 tdp receiver fee) votes2 = Ok tdas2 /\
    mapM (stake_meta_of b2 g2) tdas2 = Ok metas2 /\ metas1 ≡ₚ metas2.
Proof.
  intros Hs Hv Hg Hpos Ht Hm. destruct (mapM_perm _ _ _ _ Hv Ht) as (tdas2 & Ht2 & Hpt).
  destruct (mapM_perm _ _ _ _ Hpt Hm) as (metas2 & Hm2 & Hpm). exists tdas2, metas2.
  split; [|split; [|done]].
  - rewrite <- Ht2. apply mapM_ext. intros entry. symmetry. by apply same_maybe_tda.
  - rewrite <- Hm2. apply mapM_ext. intros entry. symmetry. by apply same_stake_meta_of.
Qed.

Lemma generate_same b1 b2 tdp tpp c :
  same_ledger b1 b2 -> stakes_nonneg b1 -> votes_distinct b1 ->
  generate_stake_meta_collection b1 tdp tpp = Ok c -> generate_stake_meta_collection b2 tdp tpp = Ok c.
Proof.
  intros Hs Hpos Hnd. unfold generate_stake_meta_collection. rewrite <- (sl_frozen _ _ Hs).
  destruct (negb _); [done|]. pose proof (sl_votes _ _ Hs) as Hv. pose proof (effective_stakes_perm b1 b2 Hs) as Hl.
  rewrite !group_delegations_spec. unfold votes_distinct in Hnd.
  destruct Hv as [votes1 votes2 Hv|]; [|done]. cbn [ok_or mbind result_bind].
  specialize (Hnd votes1 eq_refl). pose proof (groups_nonneg b1) as Hgp.
  destruct Hl as [l1 l2 Hl|]; [|done]. cbn [mbind result_bind]. specialize (Hgp l1 Hpos eq_refl).
  rewrite <- !(sl_account _ _ Hs). destruct (bk_get_account b1 _) as [[a data]|]; [|done]. cbn [ok_or mbind result_bind].
  destruct (config_try_deserialize data) as [[pct receiver]|]; [|done]. cbn [ok_or mbind result_bind].
  rewrite <- (same_tip_receiver_fee b1 b2 Hs). destruct (tip_receiver_fee b1 tpp pct) as [fee|]; [|done].
  cbn [mbind result_bind].
  destruct (mapM (maybe_tda b1 tdp receiver fee) votes1) as [tdas1|] eqn:Ht1; [|done]. cbn [mbind result_bind].
  destruct (mapM _ tdas1) as [metas1|] eqn:Hm1; [|done]. cbn [mbind result_bind].
  destruct (metas_perm b1 b2 tdp receiver fee (foldl add_to_groups [] l1) (foldl add_to_groups [] l2) votes1 votes2 tdas1 metas1 Hs Hv)
    as (tdas2 & metas2 & Ht2 & Hm2 & Hp); try done.
  { intros v. by apply get_group_perm. }
  rewrite Ht2. cbn [mbind result_bind]. change (foldl _ [] l2) with (foldl add_to_groups [] l2). rewrite Hm2. cbn [mbind result_bind].
  rewrite <- (sl_hash _ _ Hs), <- (sl_epoch _ _ Hs), <- (sl_slot _ _ Hs), (sort_metas_perm (omap id metas1) (omap id metas2)); [done| |by rewrite Hp].
  eapply sublist_NoDup; [exact Hnd|exact (metas_votes _ _ _ _ _ _ _ _ Ht1 Hm1)].
Qed.
End order.

(* ------------------------------------------------------------------ *)
(** * What the metadata records *)

Section spec.
Context `{Solana} `{LedgerAccounts}.
Implicit Types bank : Bank.

(** What holds of every bank: integers in their width, keys of a map distinct,
    and effective stake only where lamports are delegated. *)
Record bank_ok bank : Prop := {
  bo_votes : votes_distinct bank;
  bo_stake : forall e, e ∈ bk_stake_delegations bank -> fits U64 (sa_stake e.2);
  bo_effective : forall e h, e ∈ bk_stake_delegations bank -> effective bank h e -> 0 < sa_stake e.2;
  bo_lamports : forall k a data, bk_get_account bank k = Some (a, data) -> fits U64 a;
  bo_rent : forall n, 0 <= bk_minimum_balance bank n;
  bo_commission : forall data bps authority, tda_try_deserialize data = Some (bps, authority) -> fits U16 bps;
}.

Lemma bank_stakes_nonneg bank : bank_ok bank -> stakes_nonneg bank.
Proof. intros Hb e He. apply (bo_stake bank Hb e He). Qed.

Definition tda_address bank (tdp vote : Pubkey) : Pubkey :=
  (derive_tip_distribution_account_address tdp vote (bk_epoch bank)).1.

(** The tips of a vote account: its distribution account's balance above rent,
    with the tips not yet cranked if it is the tip receiver. *)
Definition tips_of bank (tdp receiver : Pubkey) (fee : Z) (vote : Pubkey) : option TipDistributionMeta :=
  let account := tda_address bank tdp vote in
  '(lamports, data) ← bk_get_account bank account;
  '(bps, authority) ← tda_try_deserialize data;
  let uncranked := if decide (account = receiver) then fee else 0 in
  Some (mkTipDistributionMeta authority account
          (lamports + uncranked - bk_minimum_balance bank (Z.of_nat (length data))) bps).

(** The metadata [m] records the delegations [l] of its validator exactly. *)
Record meta_of bank (l : list (Pubkey * StakeAccount)) (tdp receiver : Pubkey) (fee : Z) (m : StakeMeta) : Prop := {
  mo_delegations : sk_delegations m ≡ₚ delegations_to l (sk_validator_vote_account m);
  mo_sorted : Sorted Delegation_le (sk_delegations m);
  mo_total : sk_total_delegated m = sumZ dg_lamports_delegated (sk_delegations m);
  mo_fits : fits U64 (sk_total_delegated m);
  mo_tips : sk_maybe_tip_distribution_meta m = tips_of bank tdp receiver fee (sk_validator_vote_account m);
  mo_tips_fit : forall meta, sk_maybe_tip_distribution_meta m = Some meta -> fits U64 (td_total_tips meta);
}.

(** An account's balance above its rent. *)
Definition above_rent bank (k : Pubkey) : Z :=
  match bk_get_account bank k with
  | Some (lamports, data) => lamports - bk_minimum_balance bank (Z.of_nat (length data))
  | None => 0
  end.

(** The tips not yet cranked: what is above rent in the eight tip accounts. *)
Definition uncranked_tips bank (tpp : Pubkey) : Z := sumZ (above_rent bank) (tip_pdas tpp).

(** [receiver] is the tip receiver that the tip payment program's configuration
    names, and [fee] is its part of the tips not yet cranked: all of them less the
    block builder's percentage, rounded down. *)
Record receiver_share bank (tpp receiver : Pubkey) (fee : Z) : Prop := {
  rs_config : exists lamports data pct,
    bk_get_account bank (find_program_address_ext [CONFIG_ACCOUNT_SEED] tpp).1 = Some (lamports, data) /\
    config_try_deserialize data = Some (pct, receiver) /\
    fee = uncranked_tips bank tpp - uncranked_tips bank tpp * pct / 100;
  rs_accounts : forall k, k ∈ tip_pdas tpp -> exists lamports data,
    bk_get_account bank k = Some (lamports, data) /\ bk_minimum_balance bank (Z.of_nat (length data)) <= lamports;
  rs_nonneg : 0 <= fee;
}.

(** [m] carries the node and the commission of its vote account. *)
Definition entry_of (votes : list (Pubkey * (Z * VoteAccount))) (m : StakeMeta) : Prop :=
  exists stake v, (sk_validator_vote_account m, (stake, v)) ∈ votes /\
    sk_validator_node_pubkey m = va_node_pubkey v /\ sk_commission m = va_commission v.

Lemma add_excess_sum bank ks a tips : foldM (add_excess bank) a ks = Ok tips ->
  tips = a + sumZ (above_rent bank) ks /\
  forall k, k ∈ ks -> exists lamports data,
    bk_get_account bank k = Some (lamports, data) /\ bk_minimum_balance bank (Z.of_nat (length data)) <= lamports.
Proof.
  revert a. induction ks as [|k ks IH]; intros a; cbn [foldM sumZ].
  - intros [= <-]. split; [lia|]. intros k Hk. by apply elem_of_nil in Hk.
  - intros (a' & Ha & [-> Hks]%IH)%bind_Ok. unfold add_excess in Ha.
    destruct (bk_get_account bank k) as [[lamports data]|] eqn:Ek; [|done]. cbn [ok_or mbind result_bind] in Ha.
    res_inv. unfold above_rent at 2. rewrite Ek. split; [lia|].
    intros k' [->|Hk']%elem_of_cons; [by exists lamports, data|by apply Hks].
Qed.

Lemma tip_receiver_fee_share bank tpp lamports data pct receiver fee :
  bk_get_account bank (find_program_address_ext [CONFIG_ACCOUNT_SEED] tpp).1 = Some (lamports, data) ->
  config_try_deserialize data = Some (pct, receiver) -> tip_receiver_fee bank tpp pct = Ok fee ->
  receiver_share bank tpp receiver fee.
Proof.
  intros Hc Hd Hf. unfold tip_receiver_fee in Hf. apply bind_Ok in Hf as (tips & Ht & Hf).
  apply add_excess_sum in Ht as [-> Ha]. rewrite Z.add_0_l in Hf. fold (uncranked_tips bank tpp) in Hf. res_inv.
  split; [by exists lamports, data, pct|exact Ha|lia].
Qed.

Lemma maybe_tda_tips bank tdp receiver fee entry k v tda :
  bank_ok bank -> maybe_tda bank tdp receiver fee entry = Ok (k, v, tda) ->
  match tda with
  | Some w => tw_lamports w < U64 /\ tips_of bank tdp receiver fee k
              = Some (mkTipDistributionMeta (tw_merkle_root_upload_authority w) (tw_tip_distribution_pubkey w)
                        (tw_lamports w - bk_minimum_balance bank (tw_data_len w)) (tw_validator_commission_bps w))
  | None => tips_of bank tdp receiver fee k = None
  end.
Proof.
  intros Hb. pose proof (bo_lamports bank Hb) as Hlam. destruct entry as [k' [s v']]. unfold maybe_tda, tips_of, tda_address.
  set (a := (derive_tip_distribution_account_address tdp k' (bk_epoch bank)).1).
  destruct (bk_get_account bank a) as [[lamports data]|] eqn:Ea.
  2:{ intros [= <- <- <-]. fold a. by rewrite Ea. }
  destruct (tda_try_deserialize data) as [[bps auth]|] eqn:Ed.
  2:{ intros [= <- <- <-]. fold a. rewrite Ea. cbn. by rewrite Ed. }
  case_bool_decide as Er.
  - intros Hm. res_inv. fold a. rewrite Ea. cbn. rewrite Ed. cbn. split; [done|]. by rewrite decide_True.
  - intros Hm. res_inv. fold a. rewrite Ea. cbn. rewrite Ed. cbn. split; [apply (Hlam _ _ _ Ea)|].
    rewrite decide_False by done. by rewrite Z.add_0_r.
Qed.

Lemma stake_meta_of_spec bank l tdp receiver fee entry k v tda m :
  bank_ok bank -> effective_stakes bank = Some l ->
  maybe_tda bank tdp receiver fee entry = Ok (k, v, tda) ->
  stake_meta_of bank (foldl add_to_groups [] l) (k, v, tda) = Ok m ->
  match m with
  | Some m => delegations_to l k <> [] /\ meta_of bank l tdp receiver fee m
  | None => delegations_to l k = []
  end.
Proof.
  intros Hb Hl Htda Hm. pose proof (maybe_tda_tips _ _ _ _ _ _ _ _ Hb Htda) as Htips.
  assert (Hpos := bank_stakes_nonneg bank Hb). pose proof (bo_rent bank Hb) as Hrent.
  pose proof (groups_nonneg bank l Hpos Hl k) as Hg. unfold stake_meta_of in Hm. rewrite get_group_all in *.
  destruct (delegations_to l k) as [|d ds] eqn:Eds; cbn [nonempty] in *; [by injection Hm as <-|].
  specialize (Hg _ eq_refl). rewrite total_delegated_spec in Hm by (done || lia).
  pose proof (sumZ_nonneg dg_lamports_delegated (d :: ds) Hg) as Hsum. rewrite Z.add_0_l in Hm.
  destruct (Z.ltb_spec (sumZ dg_lamports_delegated (d :: ds)) U64) as [Hfit|]; [|done]. cbn [mbind result_bind] in Hm.
  assert (Hperm := sumZ_perm dg_lamports_delegated _ _ (merge_sort_Permutation Delegation_le (d :: ds))).
  destruct tda as [w|]; cbn [mbind result_bind mret result_ret] in Hm.
  - destruct Htips as [Hw Htips]. apply bind_Ok in Hm as (mt & Hmt & Hm). apply bind_Ok in Hmt as (meta & Hmeta & Hmt).
    injection Hmt as <-. injection Hm as <-. unfold tip_distribution_account_from_tda_wrapper in Hmeta. res_inv.
    split; [done|]. split; cbn [sk_delegations sk_validator_vote_account sk_total_delegated sk_maybe_tip_distribution_meta].
    + by rewrite merge_sort_Permutation, Eds.
    + apply Sorted_merge_sort, _.
    + by rewrite Hperm.
    + done.
    + by rewrite Htips.
    + intros meta [= <-]. cbn. specialize (Hrent (tw_data_len w)). unfold fits. lia.
  - injection Hm as <-. split; [done|].
    split; cbn [sk_delegations sk_validator_vote_account sk_total_delegated sk_maybe_tip_distribution_meta].
    + by rewrite merge_sort_Permutation, Eds.
    + apply Sorted_merge_sort, _.
    + by rewrite Hperm.
    + done.
    + by rewrite Htips.
    + done.
Qed.

(** The vote accounts with effective stake. *)
Definition staked_votes (l : list (Pubkey * StakeAccount)) (votes : list Pubkey) : list Pubkey :=
  filter (fun v => delegations_to l v <> []) votes.

Lemma stake_metas_spec bank l tdp receiver fee votes tdas metas :
  bank_ok bank -> effective_stakes bank = Some l ->
  mapM (maybe_tda bank tdp receiver fee) votes = Ok tdas ->
  mapM (stake_meta_of bank (foldl add_to_groups [] l)) tdas = Ok metas ->
  sk_validator_vote_account <$> omap id metas = staked_votes l votes.*1 /\
  Forall (meta_of bank l tdp receiver fee) (omap id metas).
Proof.
  intros Hpos Hl Ht%mapM_Ok Hm%mapM_Ok. revert metas Hm. unfold staked_votes.
  induction Ht as [|entry [[k v] tda] votes tdas Htda _ IH]; intros metas Hm;
    inversion Hm as [|? m ? metas' Hmeta Hrest]; subst; [by split|].
  destruct (IH metas' Hrest) as [IH1 IH2].
  pose proof (stake_meta_of_spec _ _ _ _ _ _ _ _ _ _ Hpos Hl Htda Hmeta) as Hspec.
  rewrite fmap_cons, <- (maybe_tda_vote _ _ _ _ _ _ _ _ Htda), filter_cons.
  destruct m as [m|]; cbn [omap list_omap id].
  - destruct Hspec as [Hne Hmo]. rewrite decide_True by done.
    rewrite fmap_cons, (stake_meta_of_vote _ _ _ _ _ _ Hmeta), IH1. split; [done|by constructor].
  - rewrite decide_False by tauto. by split.
Qed.

Lemma stake_metas_entries bank groups tdp receiver fee votes tdas metas :
  mapM (maybe_tda bank tdp receiver fee) votes = Ok tdas -> mapM (stake_meta_of bank groups) tdas = Ok metas ->
  Forall (entry_of votes) (omap id metas).
Proof.
  intros Ht%mapM_Ok Hm%mapM_Ok. apply list.Forall_forall. intros m (m' & Hin & E)%list_elem_of_omap. cbn in E. subst m'.
  apply list_elem_of_lookup in Hin as [i Hi].
  destruct (Forall2_lookup_r _ _ _ _ _ Hm Hi) as ([[k v] tda] & Htda & Hmeta).
  destruct (Forall2_lookup_r _ _ _ _ _ Ht Htda) as ([k' [stake v']] & Hvote & Hmaybe).
  assert (k' = k /\ v' = v) as [-> ->].
  { unfold maybe_tda in Hmaybe. destruct (bk_get_account bank _) as [[lamports data]|]; [|by injection Hmaybe].
    destruct (tda_try_deserialize data) as [[bps auth]|]; [|by injection Hmaybe].
    apply bind_Ok in Hmaybe as (w & _ & Hmaybe). by injection Hmaybe. }
  exists stake, v. unfold stake_meta_of in Hmeta. destruct (get_group groups k) as [ds|]; [|done]. res_inv.
  split; [|done]. by eapply list_elem_of_lookup_2.
Qed.

Lemma generate_spec bank tdp tpp sc :
  bank_ok bank -> generate_stake_meta_collection bank tdp tpp = Ok sc ->
  exists votes l receiver fee,
    bk_epoch_vote_accounts bank (bk_epoch bank) = Some votes /\ effective_stakes bank = Some l /\
    receiver_share bank tpp receiver fee /\
    sc_tip_distribution_program_id sc = tdp /\
    (sc_epoch sc, sc_slot sc, sc_bank_hash sc) = (bk_epoch bank, bk_slot bank, bk_hash bank) /\
    Sorted StakeMeta_le (sc_stake_metas sc) /\
    sk_validator_vote_account <$> sc_stake_metas sc ≡ₚ staked_votes l votes.*1 /\
    Forall (entry_of votes) (sc_stake_metas sc) /\
    Forall (meta_of bank l tdp receiver fee) (sc_stake_metas sc).
Proof.
  intros Hpos. unfold generate_stake_meta_collection. destruct (negb _); [done|]. rewrite group_delegations_spec.
  destruct (bk_epoch_vote_accounts bank (bk_epoch bank)) as [votes|] eqn:Hv; [|done]. cbn [ok_or mbind result_bind].
  destruct (effective_stakes bank) as [l|] eqn:Hl; [|done]. cbn [mbind result_bind].
  destruct (bk_get_account bank _) as [[a data]|] eqn:Ha; [|done]. cbn [ok_or mbind result_bind].
  destruct (config_try_deserialize data) as [[pct receiver]|] eqn:Hd; [|done]. cbn [ok_or mbind result_bind].
  destruct (tip_receiver_fee bank tpp pct) as [fee|] eqn:Hf; [|done]. cbn [mbind result_bind].
  destruct (mapM _ votes) as [tdas|] eqn:Ht; [|done]. cbn [mbind result_bind].
  destruct (mapM _ tdas) as [metas|] eqn:Hm; [|done]. cbn [mbind result_bind]. intros [= <-].
  destruct (stake_metas_spec _ _ _ _ _ _ _ _ Hpos Hl Ht Hm) as [H1 H2].
  pose proof (stake_metas_entries _ _ _ _ _ _ _ _ Ht Hm) as H3.
  exists votes, l, receiver, fee. do 2 (split; [done|]). split; [by eapply tip_receiver_fee_share|].
  do 2 (split; [done|]). cbn [sc_stake_metas]. split; [apply Sorted_merge_sort, _|].
  rewrite merge_sort_Permutation. by rewrite H1.
Qed.

Lemma effective_stakes_pos bank l : bank_ok bank -> effective_stakes bank = Some l ->
  forall v d, d ∈ delegations_to l v -> 0 < dg_lamports_delegated d.
Proof.
  intros Hb Hl v d Hd. destruct (group_elem bank l (delegations_to l v) v d Hl) as ([k s] & He & -> & _ & h & _ & Heff).
  - rewrite get_group_all. destruct (delegations_to l v); [by apply elem_of_nil in Hd|done].
  - done.
  - exact (bo_effective bank Hb _ h He Heff).
Qed.

(** The metadata satisfies what the claim trees assume. *)
Lemma meta_of_ok bank l tdp receiver fee m meta :
  bank_ok bank -> effective_stakes bank = Some l -> meta_of bank l tdp receiver fee m ->
  sk_maybe_tip_distribution_meta m = Some meta -> stake_meta_ok m meta.
Proof.
  intros Hb Hl [Hd _ Ht Hf Htips Hfit] Hmeta.
  assert (Hpos : forall d, d ∈ sk_delegations m -> 0 < dg_lamports_delegated d).
  { intros d. rewrite Hd. apply (effective_stakes_pos bank l Hb Hl). }
  split; [done|by apply Hfit| |intros d Hin; specialize (Hpos d Hin); lia|lia|done|].
  - rewrite Hmeta in Htips. unfold tips_of in Htips. symmetry in Htips.
    apply bind_Some in Htips as ([a data] & _ & ([bps auth] & Hbps & Hm)%bind_Some). injection Hm as <-.
    exact (bo_commission bank Hb _ _ _ Hbps).
  - intros Hne. rewrite Ht. destruct (sk_delegations m) as [|d ds]; [done|]. cbn [sumZ].
    assert (Hnn : 0 <= sumZ dg_lamports_delegated ds).
    { apply sumZ_nonneg. intros x Hx. specialize (Hpos x (list_elem_of_further _ _ _ Hx)). lia. }
    specialize (Hpos d (list_elem_of_here _ _)). lia.
Qed.
End spec.

(* ------------------------------------------------------------------ *)
(** * Properties *)

Section properties.
Context `{Solana} `{LedgerAccounts} `{Programs}.
Implicit Types bank : Bank.

(** C10: operators agree.  Two operators that see the same ledger vote for the same
    root: the result of the whole pipeline (metadata, claim trees, meta tree) does
    not depend on the order in which the vote accounts and the stake accounts are
    iterated. *)
Theorem root_order_independent MAX_BPS b1 b2 tdp tpp trp ncn epoch bps t :
  same_ledger b1 b2 -> bank_ok b1 -> bank_ok b2 ->
  get_meta_merkle_root MAX_BPS b1 tdp tpp trp ncn epoch bps = Ok t <->
  get_meta_merkle_root MAX_BPS b2 tdp tpp trp ncn epoch bps = Ok t.
Proof.
  intros Hs Hb1 Hb2.
  assert (Hone : forall x y, same_ledger x y -> bank_ok x -> get_meta_merkle_root MAX_BPS x tdp tpp trp ncn epoch bps = Ok t ->
    get_meta_merkle_root MAX_BPS y tdp tpp trp ncn epoch bps = Ok t).
  { intros x y Hxy Hx. unfold get_meta_merkle_root.
    destruct (generate_stake_meta_collection x tdp tpp) as [c|] eqn:Hc; [|done].
    by rewrite (generate_same x y tdp tpp c Hxy (bank_stakes_nonneg x Hx) (bo_votes x Hx) Hc). }
  split; apply Hone; by try symmetry.
Qed.

(** C12: the metadata is exact.  When the generator returns, there is one entry
    for each vote account of the epoch with effective stake, in the order of their
    keys; it has the account's node and commission, all the delegations with effective
    stake to that account and no others, sorted, their exact sum, and as tips the
    distribution account's balance above rent.  To the tips of the tip receiver that
    the tip payment program's configuration names, and to no other's, are added the
    tips not yet cranked: what lies above rent in the eight tip accounts, less the
    block builder's percentage of it rounded down.  Each entry satisfies what the
    claim trees assume. *)
Theorem stake_metas_exact bank tdp tpp sc :
  bank_ok bank -> generate_stake_meta_collection bank tdp tpp = Ok sc ->
  exists votes l receiver fee,
    bk_epoch_vote_accounts bank (bk_epoch bank) = Some votes /\ effective_stakes bank = Some l /\
    receiver_share bank tpp receiver fee /\
    sc_tip_distribution_program_id sc = tdp /\
    (sc_epoch sc, sc_slot sc, sc_bank_hash sc) = (bk_epoch bank, bk_slot bank, bk_hash bank) /\
    Sorted StakeMeta_le (sc_stake_metas sc) /\
    sk_validator_vote_account <$> sc_stake_metas sc ≡ₚ staked_votes l votes.*1 /\
    Forall (entry_of votes) (sc_stake_metas sc) /\
    Forall (meta_of bank l tdp receiver fee) (sc_stake_metas sc) /\
    (forall m meta, m ∈ sc_stake_metas sc -> sk_maybe_tip_distribution_meta m = Some meta -> stake_meta_ok m meta).
Proof.
  intros Hb Hg. destruct (generate_spec bank tdp tpp sc Hb Hg) as (votes & l & receiver & fee & Hv & Hl & Hf & Ht & He & Hs & Hp & Hn & Hm).
  exists votes, l, receiver, fee. do 9 (split; [done|]). intros m meta Hin Hmeta.
  exact (meta_of_ok bank l tdp receiver fee m meta Hb Hl (Forall_In _ _ _ Hm Hin) Hmeta).
Qed.

Lemma fees_fit MAX_BPS bps m meta :
  0 < MAX_BPS -> 0 <= bps <= MAX_BPS -> stake_meta_ok m meta ->
  td_validator_fee_bps meta <= MAX_BPS -> td_total_tips meta < 2 ^ 63 ->
  protocol_part MAX_BPS bps meta <= td_total_tips meta /\ commission MAX_BPS meta + protocol_part MAX_BPS bps meta < U64.
Proof.
  intros HM Hb [_ Ht Hv _ _ _ _] Hvm Htm. unfold fits, protocol_part, commission in *.
  assert (Hle : forall x, 0 <= x <= MAX_BPS -> td_total_tips meta * x / MAX_BPS <= td_total_tips meta)
    by (intros x Hx; apply Z.div_le_upper_bound; nia).
  pose proof (Hle bps Hb). pose proof (Hle (td_validator_fee_bps meta) ltac:(lia)). split; [done|].
  change U64 with (2 ^ 63 + 2 ^ 63). lia.
Qed.

Lemma accounts_length metas : (length (accounts_of metas) <= length metas)%nat.
Proof.
  induction metas as [|m l IH]; [done|]. rewrite accounts_of_cons. destruct (sk_maybe_tip_distribution_meta m); cbn; lia.
Qed.

Lemma accounts_elem metas k :
  k ∈ accounts_of metas <-> exists m meta, m ∈ metas /\ sk_maybe_tip_distribution_meta m = Some meta /\
    td_tip_distribution_pubkey meta = k.
Proof.
  unfold accounts_of. rewrite list_elem_of_omap. split.
  - intros (m & Hm & (meta & Hmeta & ->)%fmap_Some). by exists m, meta.
  - intros (m & meta & Hm & Hmeta & <-). exists m. by rewrite Hmeta.
Qed.

Lemma tips_of_account bank tdp receiver fee v meta :
  tips_of bank tdp receiver fee v = Some meta -> td_tip_distribution_pubkey meta = tda_address bank tdp v.
Proof. unfold tips_of. intros ([a data] & _ & ([bps auth] & _ & Hm)%bind_Some)%bind_Some. by injection Hm as <-. Qed.

(** Address derivation does not collide on the vote accounts of [metas]. *)
Definition distinct_addresses bank (tdp : Pubkey) (metas : list StakeMeta) : Prop :=
  forall m1 m2, m1 ∈ metas -> m2 ∈ metas ->
    tda_address bank tdp (sk_validator_vote_account m1) = tda_address bank tdp (sk_validator_vote_account m2) ->
    sk_validator_vote_account m1 = sk_validator_vote_account m2.

Lemma accounts_nodup bank l tdp receiver fee metas :
  distinct_addresses bank tdp metas -> NoDup (sk_validator_vote_account <$> metas) -> Forall (meta_of bank l tdp receiver fee) metas -> NoDup (accounts_of metas).
Proof.
  intros Hinj Hnd Hm. induction Hm as [|m metas Hmo Hm IH]; [constructor|].
  assert (Hinj' : distinct_addresses bank tdp metas) by (intros m1 m2 Hm1 Hm2; apply Hinj; by right).
  rewrite fmap_cons in Hnd. apply list.NoDup_cons in Hnd as [Hni Hnd]. rewrite accounts_of_cons.
  destruct (sk_maybe_tip_distribution_meta m) as [meta|] eqn:Em; [|by apply IH]. constructor; [|by apply IH].
  intros (m' & meta' & Hin & Hmeta' & E)%accounts_elem. apply Hni.
  pose proof (Forall_In _ _ _ Hm Hin) as Hm'. rewrite (mo_tips _ _ _ _ _ _ Hm') in Hmeta'.
  rewrite (mo_tips _ _ _ _ _ _ Hmo) in Em. apply tips_of_account in Em, Hmeta'.
  assert (E' : sk_validator_vote_account m = sk_validator_vote_account m') by (apply Hinj; [by left|by right|congruence]).
  rewrite E'. by apply list_elem_of_fmap_2.
Qed.

(** C11: from the ledger to the chain.  When the generator returns on a bank with
    a validator that has tips, basis points at most the whole and tips
    below 2^63, the pipeline yields a meta tree; and once the ballot box has decided
    for its root, the upload instruction's check accepts a root for the distribution
    account of every validator with tips, with all of these tips as the maximal claim. *)
Theorem root_from_ledger MAX_BPS bank tdp tpp trp ncn epoch bps sc :
  0 < MAX_BPS -> 0 <= bps <= MAX_BPS -> bps < U64 -> 0 <= epoch -> epoch + 1 < U64 -> bank_ok bank ->
  generate_stake_meta_collection bank tdp tpp = Ok sc ->
  (forall m meta, m ∈ sc_stake_metas sc -> sk_maybe_tip_distribution_meta m = Some meta ->
     td_validator_fee_bps meta <= MAX_BPS /\ td_total_tips meta < 2 ^ 63) ->
  distinct_addresses bank tdp (sc_stake_metas sc) -> accounts_of (sc_stake_metas sc) <> [] -> Z.of_nat (length (sc_stake_metas sc)) <= 2 ^ 32 - 1 ->
  exists t, get_meta_merkle_root MAX_BPS bank tdp tpp trp ncn epoch bps = Ok t /\
    forall b m meta, decided_for b t -> m ∈ sc_stake_metas sc -> sk_maybe_tip_distribution_meta m = Some meta ->
      exists proof root n, BallotBox.verify_merkle_root b (tda_address bank tdp (sk_validator_vote_account m)) proof root
        (td_total_tips meta) n = Ok tt.
Proof.
  intros HM Hbps Hfit He He' Hb Hg Hfees Hinj Hne Hlen.
  destruct (generate_spec bank tdp tpp sc Hb Hg) as (votes & l & receiver & fee & Hv & Hl & _ & _ & _ & _ & Hp & _ & Hm).
  assert (Hok : metas_ok MAX_BPS bps (sc_stake_metas sc)).
  { intros m meta Hin Hmeta. destruct (Hfees m meta Hin Hmeta) as [Hf1 Hf2].
    assert (Hso := meta_of_ok bank l tdp receiver fee m meta Hb Hl (Forall_In _ _ _ Hm Hin) Hmeta).
    split; [done|]. by apply (fees_fit MAX_BPS bps m). }
  assert (Hnd : NoDup (accounts_of (sc_stake_metas sc))).
  { apply (accounts_nodup bank l tdp receiver fee); [done| |done].
    rewrite Hp. unfold staked_votes. apply list.NoDup_filter. exact (bo_votes bank Hb votes Hv). }
  assert (Hlen' := accounts_length (sc_stake_metas sc)). assert (Hb64 : fits U64 bps) by (unfold fits; lia).
  destruct (generated_roots_accepted MAX_BPS sc ncn epoch bps trp HM Hb64 He He' Hok Hnd Hne ltac:(lia)) as (c & t & Hc & Ht & Hacc).
  exists t. split; [unfold get_meta_merkle_root; rewrite Hg; cbn [map_err mbind result_bind]; rewrite Hc;
    cbn [map_err mbind result_bind]; by rewrite Ht|].
  intros b m meta Hd Hin Hmeta. destruct (collect_trees_ok MAX_BPS bps ncn epoch (sc_tip_distribution_program_id sc) trp
    (sc_stake_metas sc) (sc_stake_metas sc) HM Hb64 He He' Hok) as (ts & Hts & Ha & Hcl); [done|].
  unfold new_from_stake_meta_collection in Hc. rewrite Hts in Hc. injection Hc as <-.
  assert (Hk : td_tip_distribution_pubkey meta ∈ accounts_of (sc_stake_metas sc)) by (apply accounts_elem; by exists m, meta).
  rewrite <- Ha in Hk. apply list_elem_of_fmap in Hk as (g & Hg1 & Hg2).
  destruct (Hcl g Hg2) as (m' & meta' & n1 & n2 & ns & Hin' & Hmeta' & (Hg3 & Hg4 & _) & _).
  pose proof (mo_tips _ _ _ _ _ _ (Forall_In _ _ _ Hm Hin)) as Htips. pose proof (mo_tips _ _ _ _ _ _ (Forall_In _ _ _ Hm Hin')) as Htips'.
  rewrite Hmeta in Htips. rewrite Hmeta' in Htips'.
  assert (Hacct := tips_of_account _ _ _ _ _ _ (eq_sym Htips)). assert (Hacct' := tips_of_account _ _ _ _ _ _ (eq_sym Htips')).
  assert (Hvote : sk_validator_vote_account m = sk_validator_vote_account m') by (apply Hinj; [done..|congruence]).
  assert (meta' = meta) as -> by congruence.
  destruct (Hacc b g Hd Hg2) as (proof & Hproof). exists proof, (gm_merkle_root g), (gm_max_num_nodes g).
  by rewrite <- Hacct, <- Hg3, <- Hg4.
Qed.
End properties.

(* ------------------------------------------------------------------ *)
(** * Witnesses *)

(** Two vote accounts; two of the three stakes are effective, both delegated to
    the first.  Every account has 2000000 lamports. *)
Module LedgerWitness.
Import ConcreteSolana ConcretePrograms.
#[export] Instance ledger_accounts : LedgerAccounts := {|
  StakeAccount := Pubkey * Z;
  VoteAccount := Pubkey * Z;
  StakeHistory := unit;
  sa_voter_pubkey := fst;
  sa_stake := snd;
  sa_authorized s := Some (key 7, key 8);
  sa_effective_stake s e h r := s.2;
  va_node_pubkey := fst;
  va_commission := snd;
  config_try_deserialize d := Some (5, key 99);
  tda_try_deserialize d := Some (500, key 30);
  history_from_account a := Some tt;
  stake_history_id := key 90;
|}.

Definition stakes : list (Pubkey * (Pubkey * Z)) := [(key 1, (key 20, 600)); (key 2, (key 20, 400)); (key 3, (key 21, 0))].
Definition votes : list (Pubkey * (Z * (Pubkey * Z))) := [(key 21, (0, (key 41, 5))); (key 20, (1000, (key 40, 5)))].

Definition bank (votes : list (Pubkey * (Z * (Pubkey * Z)))) (stakes : list (Pubkey * (Pubkey * Z))) : Bank :=
  mkBank ledger_accounts true 740 319680000 EmptyString (fun _ => Some votes) stakes (fun _ => Some (2000000, [1]))
    (fun _ => 1000000) None.

Lemma bank_is_ok vs ss : NoDup vs.*1 -> (forall e, e ∈ ss -> fits U64 e.2.2) -> bank_ok (bank vs ss).
Proof.
  intros Hv Hs. split; cbn; [|done|done| |lia|].
  - unfold votes_distinct. cbn. by intros ? [= <-].
  - intros k a data [= <- <-]. split; lia.
  - intros data bps authority [= <- <-]. split; lia.
Qed.

Lemma b1_ok : bank_ok (bank votes stakes).
Proof.
  apply bank_is_ok; [apply (bool_decide_unpack _); vm_compute; exact I|].
  intros e He. unfold stakes in He. rewrite !elem_of_cons, elem_of_nil in He. destruct He as [->|[->|[->|[]]]]; split; cbn; lia.
Qed.

Lemma b2_ok : bank_ok (bank (reverse votes) (reverse stakes)).
Proof.
  apply bank_is_ok; [apply (bool_decide_unpack _); vm_compute; exact I|].
  intros e He. unfold stakes in He. cbn in He. rewrite !elem_of_cons, elem_of_nil in He.
  destruct He as [->|[->|[->|[]]]]; split; cbn; lia.
Qed.

Lemma views : same_ledger (bank votes stakes) (bank (reverse votes) (reverse stakes)).
Proof.
  split; try done.
  - constructor. by rewrite reverse_Permutation.
  - cbn [bk_stake_delegations bank]. by rewrite reverse_Permutation.
Qed.

Definition sc : StakeMetaCollection :=
  match generate_stake_meta_collection (bank votes stakes) (key 201) (key 202) with Ok c => c | Err _ => mkStakeMetaCollection [] (key 0) EmptyString 0 0 end.

Lemma sc_ok : generate_stake_meta_collection (bank votes stakes) (key 201) (key 202) = Ok sc.
Proof. vm_compute. reflexivity. Qed.

Definition expected : StakeMeta :=
  mkStakeMeta (key 20) (key 40)
    (Some (mkTipDistributionMeta (key 30) (tda_address (bank votes stakes) (key 201) (key 20)) 1000000 500))
    [mkDelegation (key 1) (key 7) (key 8) 600; mkDelegation (key 2) (key 7) (key 8) 400] 1000 5.

Lemma sc_metas : sc_stake_metas sc = [expected].
Proof. vm_compute. reflexivity. Qed.

Lemma sc_metas_ok : metas_ok 10000 300 (sc_stake_metas sc).
Proof.
  rewrite sc_metas. intros m meta Hm Hmeta. apply list_elem_of_singleton in Hm as ->. injection Hmeta as <-.
  split; [split; cbn; try done; try lia|split; vm_compute; congruence].
  intros d Hd. rewrite !elem_of_cons, elem_of_nil in Hd. destruct Hd as [->|[->|[]]]; cbn; lia.
Qed.

Lemma root_exists : exists t,
  get_meta_merkle_root 10000 (bank votes stakes) (key 201) (key 202) (key 77) (key 9) 740 300 = Ok t.
Proof.
  destruct (generated_roots_accepted 10000 sc (key 9) 740 300 (key 77)) as (c & t & Hc & Ht & _);
    [lia|split; lia|lia|lia|exact sc_metas_ok|rewrite sc_metas..|].
  - apply NoDup_singleton.
  - discriminate.
  - cbn. lia.
  - exists t. unfold get_meta_merkle_root. rewrite sc_ok. cbn [map_err mbind result_bind]. rewrite Hc.
    cbn [map_err mbind result_bind]. by rewrite Ht.
Qed.
End LedgerWitness.
Import LedgerWitness ConcreteSolana ConcretePrograms.

Lemma root_order_independent_witness : exists t,
  get_meta_merkle_root 10000 (bank votes stakes) (key 201) (key 202) (key 77) (key 9) 740 300 = Ok t /\
  get_meta_merkle_root 10000 (bank (reverse votes) (reverse stakes)) (key 201) (key 202) (key 77) (key 9) 740 300 = Ok t.
Proof.
  destruct root_exists as [t Ht]. exists t. split; [exact Ht|].
  exact (proj1 (root_order_independent 10000 _ _ (key 201) (key 202) (key 77) (key 9) 740 300 t views b1_ok b2_ok) Ht).
Defined.

(** The vote account without effective stake has no entry; each of the eight tip
    accounts has 1000000 above its rent, and the block builder gets five per cent. *)
Lemma stake_metas_exact_witness : exists l,
  effective_stakes (bank votes stakes) = Some l /\ sk_validator_vote_account <$> [expected] ≡ₚ staked_votes l votes.*1 /\
  receiver_share (bank votes stakes) (key 202) (key 99) 7600000.
Proof.
  destruct (stake_metas_exact (bank votes stakes) (key 201) (key 202) sc b1_ok sc_ok)
    as (vs & l & r & f & Hv & Hl & Hr & _ & _ & _ & Hp & _).
  exists l. split; [exact Hl|]. injection Hv as <-. rewrite sc_metas in Hp. split; [exact Hp|].
  destruct (rs_config _ _ _ _ Hr) as (lamports & data & pct & Ha & Hd & Hf). injection Ha as <- <-. injection Hd as <- <-.
  assert (Hu : uncranked_tips (bank votes stakes) (key 202) = 8000000) by (vm_compute; reflexivity).
  rewrite Hu in Hf. change (8000000 - 8000000 * 5 / 100) with 7600000 in Hf. rewrite Hf in Hr. exact Hr.
Defined.

Lemma root_from_ledger_witness : exists t,
  get_meta_merkle_root 10000 (bank votes stakes) (key 201) (key 202) (key 77) (key 9) 740 300 = Ok t.
Proof.
  destruct (root_from_ledger 10000 (bank votes stakes) (key 201) (key 202) (key 77) (key 9) 740 300 sc)
    as (t & Ht & _); [lia|lia|lia|lia|lia|exact b1_ok|exact sc_ok| | | |rewrite sc_metas; cbn; lia|].
  - rewrite sc_metas. intros m meta Hm Hmeta. apply list_elem_of_singleton in Hm as ->. injection Hmeta as <-. cbn. lia.
  - rewrite sc_metas. intros m1 m2 Hm1%list_elem_of_singleton Hm2%list_elem_of_singleton _. congruence.
  - rewrite sc_metas. discriminate.
  - exists t. exact Ht.
Defined.
