(* ===== verification/Claiming.v ===== *)
(** Claiming the tips of an epoch (tip-router-operator-cli/src/claim.rs and
    get_batched_accounts of rpc_utils.rs): the accounts read, the claims that are
    built from them, the balance check, and the loop that sends the claims until
    none is left or the time is over.

    The network is a parameter: what it answers to a read, the shuffle of the
    transactions, and for how many rounds there is time.  Logs and metrics are
    left out. *)

From Stdlib Require Import String.
From stdpp Require Import gmap.
From S2P Require Import Prelude Errors External Accounts Config GeneratedTree.

#[export] Instance Pubkey_countable : Countable Pubkey.
Proof. apply (inj_countable' to_bytes mkPubkey). by intros []. Defined.

(* ------------------------------------------------------------------ *)
(** * Other code *)

(** Accounts as the node returns them, the decoding of the tip distribution
    program's accounts ([tda_of] gives whether a root is set and the upload
    authority), and constants of the client libraries. *)
Class ClaimAccounts := {
  Account : Type;
  ClaimStatus : Type;
  tda_of : Account -> option (bool * Pubkey);
  claim_status_of : Account -> option ClaimStatus;
  MAX_MULTIPLE_ACCOUNTS : nat;
  DEFAULT_TARGET_LAMPORTS_PER_SIGNATURE : Z;
  LAMPORTS_PER_SOL : Z;
}.

(** [ClaimMevError], without the messages of other code; [ClaimPanic] is an
    [unwrap] or [expect] that fails. *)
Module ClaimMev.
Inductive ClaimMevError : Type :=
| IoError
| JsonError
| AnchorError
| RpcError
| InsufficientBalance (desired_balance : Z) (payer : Pubkey) (start_balance sol_to_deposit : Z)
| NotFinished (transactions_left : nat)
| UncaughtError
| ClaimPanic.
End ClaimMev.
Abbreviation ClaimMevError := ClaimMev.ClaimMevError.

(** The instruction [ClaimWithPayerBuilder] builds, and the transaction around it. *)
Record ClaimWithPayer := mkClaimWithPayer {
  cw_account_payer : Pubkey;
  cw_ncn : Pubkey;
  cw_config : Pubkey;
  cw_tip_distribution_program : Pubkey;
  cw_tip_distribution_config : Pubkey;
  cw_tip_distribution_account : Pubkey;
  cw_claim_status : Pubkey;
  cw_claimant : Pubkey;
  cw_system_program : Pubkey;
  cw_proof : list hash;
  cw_amount : Z;
  cw_bump : Z;
}.

Record Transaction := mkTransaction {
  tx_compute_unit_limit : Z;
  tx_compute_unit_price : Z;
  tx_claim : ClaimWithPayer;
  tx_payer : Pubkey;
}.

(* ------------------------------------------------------------------ *)
(** * Reading accounts *)

Section claim.
Context `{Solana} `{ClaimAccounts}.

(** The answers of the node to the successive requests of one batch. *)
Definition Reader : Type := nat -> list Pubkey -> result ClaimMevError (list (option Account)).

(** [slice::chunks] *)
Fixpoint chunks {A} (fuel n : nat) (l : list A) : list (list A) :=
  match fuel, l with
  | S fuel, _ :: _ => take n l :: chunks fuel n (drop n l)
  | _, _ => []
  end.

(** [HashMap::extend] *)
Definition extend {A} (m : gmap Pubkey A) (entries : list (Pubkey * A)) : gmap Pubkey A :=
  foldl (fun m e => <[e.1 := e.2]> m) m entries.

Fixpoint read_chunks (rpc : Reader) (i : nat) (cs : list (list Pubkey)) (batched_accounts : gmap Pubkey (option Account))
    : result ClaimMevError (gmap Pubkey (option Account)) :=
  match cs with
  | [] => mret batched_accounts
  | pubkeys_chunk :: cs =>
      accounts ← rpc i pubkeys_chunk;
      read_chunks rpc (S i) cs (extend batched_accounts (zip pubkeys_chunk accounts))
  end.

Definition get_batched_accounts (rpc : Reader) (pubkeys : list Pubkey) : result ClaimMevError (gmap Pubkey (option Account)) :=
  read_chunks rpc 0 (chunks (length pubkeys) MAX_MULTIPLE_ACCOUNTS pubkeys) ∅.

(** [filter_map(|(pubkey, a)| Some((pubkey, a?)))] *)
Definition existing (m : gmap Pubkey (option Account)) : gmap Pubkey Account := omap id m.

(* ------------------------------------------------------------------ *)
(** * Building claims *)

Definition CONFIG_SEED : list Z := bytes_of_string "CONFIG_ACCOUNT".

(** The accounts that are the same for all claims. *)
Record ClaimTarget := mkClaimTarget {
  ct_tip_distribution_program_id : Pubkey;
  ct_tip_router_program_id : Pubkey;
  ct_ncn_address : Pubkey;
}.

Definition tip_router_config_address (t : ClaimTarget) : Pubkey :=
  (Config.find_program_address (ct_tip_router_program_id t) (ct_ncn_address t)).1.1.

(** The body of the loop over the nodes of a tree: [None] is [continue]. *)
Definition claim_node (t : ClaimTarget) (claimants : gmap Pubkey Account) (claim_statuses : gmap Pubkey ClaimStatus)
    (tip_distribution_account : Pubkey) (node : Claim.TreeNode) : result ClaimMevError (option ClaimWithPayer) :=
  if negb (bool_decide (is_Some (claimants !! Claim.claimant node)))
     || bool_decide (is_Some (claim_statuses !! Claim.claim_status_pubkey node))
     || (Claim.amount node =? 0)
  then mret None
  else
    let '(claim_status_pubkey, claim_status_bump) :=
      claim_status (ct_tip_distribution_program_id t) (Claim.claimant node) tip_distribution_account in
    proof ← ok_or (Claim.proof node) ClaimMev.ClaimPanic;
    mret (Some (mkClaimWithPayer (AccountPayer.find_program_address (ct_tip_router_program_id t) (ct_ncn_address t)).1.1
      (ct_ncn_address t) (tip_router_config_address t) (ct_tip_distribution_program_id t)
      (find_program_address_ext [CONFIG_SEED] (ct_tip_distribution_program_id t)).1
      tip_distribution_account claim_status_pubkey (Claim.claimant node) system_program_id proof
      (Claim.amount node) claim_status_bump)).

(** The body of the loop over the trees. *)
Definition claim_tree (t : ClaimTarget) (tip_distribution_accounts : gmap Pubkey (bool * Pubkey))
    (claimants : gmap Pubkey Account) (claim_statuses : gmap Pubkey ClaimStatus) (tree : GeneratedMerkleTree)
    : result ClaimMevError (list ClaimWithPayer) :=
  if gm_max_total_claim tree =? 0 then mret [] else
  '(has_root, authority) ← ok_or (tip_distribution_accounts !! gm_tip_distribution_account tree) ClaimMev.ClaimPanic;
  if negb has_root || negb (bool_decide (authority = tip_router_config_address t)) then mret [] else
  instructions ← mapM (claim_node t claimants claim_statuses (gm_tip_distribution_account tree)) (gm_tree_nodes tree);
  mret (omap id instructions).

Definition build_mev_claim_transactions (t : ClaimTarget) (merkle_trees : GeneratedMerkleTreeCollection)
    (tdas claimants claim_status : gmap Pubkey Account) (micro_lamports : Z) (payer_pubkey : Pubkey)
    : result ClaimMevError (list Transaction) :=
  let tip_distribution_accounts := omap tda_of tdas in
  let claim_statuses := omap claim_status_of claim_status in
  instructions ← mapM (claim_tree t tip_distribution_accounts claimants claim_statuses)
                   (gc_generated_merkle_trees merkle_trees);
  mret ((fun claim_ix => mkTransaction 100000 micro_lamports claim_ix payer_pubkey) <$> concat instructions).

(** The three batches of accounts read for one attempt. *)
Record Reads := mkReads { rd_tdas : Reader; rd_claimants : Reader; rd_claim_statuses : Reader }.

Definition get_claim_transactions_for_valid_unclaimed (rpc : Reads) (merkle_trees : GeneratedMerkleTreeCollection)
    (t : ClaimTarget) (micro_lamports : Z) (payer_pubkey : Pubkey) : result ClaimMevError (list Transaction) :=
  let tree_nodes := concat (omap (fun tree =>
      if bool_decide (gm_merkle_root_upload_authority tree = tip_router_config_address t)
      then Some (gm_tree_nodes tree) else None) (gc_generated_merkle_trees merkle_trees)) in
  let tda_pubkeys := gm_tip_distribution_account <$> gc_generated_merkle_trees merkle_trees in
  tdas ← get_batched_accounts (rd_tdas rpc) tda_pubkeys;
  claimants ← get_batched_accounts (rd_claimants rpc) (Claim.claimant <$> tree_nodes);
  claim_statuses ← get_batched_accounts (rd_claim_statuses rpc) (Claim.claim_status_pubkey <$> tree_nodes);
  build_mev_claim_transactions t merkle_trees (existing tdas) (existing claimants) (existing claim_statuses)
    micro_lamports payer_pubkey.

(* ------------------------------------------------------------------ *)
(** * Sending *)

(** [None] when the balance suffices, else start balance, desired balance and
    the SOL to deposit. *)
Definition is_sufficient_balance (start_balance min_rent_per_claim : option Z) (instruction_count : Z)
    : result ClaimMevError (option (Z * Z * Z)) :=
  start_balance ← ok_or start_balance ClaimMev.ClaimPanic;
  min_rent_per_claim ← ok_or min_rent_per_claim ClaimMev.ClaimPanic;
  per_claim ← ok_or (checked_add U64 min_rent_per_claim DEFAULT_TARGET_LAMPORTS_PER_SIGNATURE) ClaimMev.ClaimPanic;
  desired_balance ← ok_or (checked_mul U64 instruction_count per_claim) ClaimMev.ClaimPanic;
  if start_balance <? desired_balance then
    missing ← ok_or (checked_sub desired_balance start_balance) ClaimMev.ClaimPanic;
    rounded ← ok_or (checked_add U64 missing LAMPORTS_PER_SOL) ClaimMev.ClaimPanic;
    rounded ← ok_or (checked_sub rounded 1) ClaimMev.ClaimPanic;
    sol_to_deposit ← ok_or (checked_div rounded LAMPORTS_PER_SOL) ClaimMev.ClaimPanic;
    mret (Some (start_balance, desired_balance, sol_to_deposit))
  else mret None.

(** One iteration of the sending loop: the reads, the shuffle, the balance and
    rent the node reports, and whether it returns a blockhash.  What becomes of
    the transactions sent is seen in the reads of the next iteration. *)
Record Round := mkRound {
  rn_reads : Reads;
  rn_shuffle : list Transaction -> list Transaction;
  rn_balance : option Z;
  rn_min_rent : option Z;
  rn_blockhash : bool;
}.

(** The transactions a round sends; [None] when nothing is left to claim. *)
Definition claim_round (r : Round) (merkle_trees : GeneratedMerkleTreeCollection) (t : ClaimTarget) (micro_lamports : Z)
    (payer : Pubkey) : result ClaimMevError (option (list Transaction)) :=
  all_claim_transactions ← get_claim_transactions_for_valid_unclaimed (rn_reads r) merkle_trees t micro_lamports payer;
  match all_claim_transactions with
  | [] => mret None
  | _ =>
      let transactions := take 300 (rn_shuffle r all_claim_transactions) in
      balance ← is_sufficient_balance (rn_balance r) (rn_min_rent r) (Z.of_nat (length transactions));
      match balance with
      | Some (start_balance, desired_balance, sol_to_deposit) =>
          Err (ClaimMev.InsufficientBalance desired_balance payer start_balance sol_to_deposit)
      | None => if rn_blockhash r then mret (Some transactions) else Err ClaimMev.RpcError
      end
  end.

(** [rounds] are the iterations that begin within [max_loop_duration]; after
    them the claims left are read once more, and simulated. *)
Fixpoint claim_mev_tips (rounds : list Round) (last : Reads) (simulate : Transaction -> bool)
    (merkle_trees : GeneratedMerkleTreeCollection) (t : ClaimTarget) (micro_lamports : Z) (payer : Pubkey)
    : result ClaimMevError unit :=
  match rounds with
  | r :: rounds =>
      sent ← claim_round r merkle_trees t micro_lamports payer;
      match sent with
      | None => mret tt
      | Some _ => claim_mev_tips rounds last simulate merkle_trees t micro_lamports payer
      end
  | [] =>
      transactions ← get_claim_transactions_for_valid_unclaimed last merkle_trees t micro_lamports payer;
      match transactions with
      | [] => mret tt
      | _ => if forallb simulate transactions then Err (ClaimMev.NotFinished (length transactions))
             else Err ClaimMev.UncaughtError
      end
  end.
End claim.
