(* ===== verification/ClaimingTheorems.v ===== *)
(** What the claiming of tips promises: the claims built are exactly those that
    are still to be made, in order, each with a proof for its tree's root; success
    is reported only when none is left; and a deposit is asked for only by a payer
    whose balance is short of what the claims to send cost, the least number of whole
    SOL.  The claims of delegators from epoch 737 on are an
    exception: they are built again after they were made. *)

From Stdlib Require Import String.
From stdpp Require Import gmap.
From S2P Require Import Prelude Errors External Accounts Config MerkleTree GeneratedTree GeneratedTheorems StakeMetaTheorems Claiming.

(* ------------------------------------------------------------------ *)
(** * Reading accounts in batches *)

Lemma concat_chunks {A} fuel n (l : list A) : (0 < n)%nat -> (length l <= fuel)%nat -> concat (chunks fuel n l) = l.
Proof.
  intros Hn. revert l. induction fuel as [|fuel IH]; intros [|x l] Hl; cbn [chunks]; try done; [cbn in Hl; lia|].
  cbn [concat]. rewrite IH; [apply take_drop|]. rewrite length_drop. cbn [length] in *. lia.
Qed.

Section reading.
Context `{Solana} `{ClaimAccounts}.

(** A reader that answers from one state of the accounts. *)
Definition answers (world : Pubkey -> option Account) (rpc : Reader) : Prop := forall i ks, rpc i ks = Ok (world <$> ks).

(** The accounts at [ks] in the state [world]. *)
Definition accounts_at (world : Pubkey -> option Account) (ks : list Pubkey) (k : Pubkey) : option (option Account) :=
  if decide (k ∈ ks) then Some (world k) else None.

Lemma extend_lookup world (m : gmap Pubkey (option Account)) ks k :
  extend m (zip ks (world <$> ks)) !! k = if decide (k ∈ ks) then Some (world k) else m !! k.
Proof.
  unfold extend. revert m. induction ks as [|k' ks IH]; intros m; cbn [fmap list_fmap zip zip_with foldl].
  { by rewrite decide_False by (apply not_elem_of_nil). }
  rewrite IH. cbn [fst snd]. destruct (decide (k ∈ ks)) as [Hin|Hni].
  - by rewrite decide_True by (by right).
  - destruct (decide (k = k')) as [->|Hne].
    + by rewrite lookup_insert_eq, decide_True by (by left).
    + rewrite lookup_insert_ne by done. rewrite decide_False; [done|]. by intros [?|?]%elem_of_cons.
Qed.

Lemma read_chunks_spec world rpc i cs m :
  answers world rpc -> exists m', read_chunks rpc i cs m = Ok m' /\
    forall k, m' !! k = if decide (k ∈ concat cs) then Some (world k) else m !! k.
Proof.
  intros Hr. revert i m. induction cs as [|c cs IH]; intros i m; cbn [read_chunks concat].
  { exists m. split; [done|]. intros k. by rewrite decide_False by (apply not_elem_of_nil). }
  rewrite (Hr i c). cbn [mbind result_bind]. destruct (IH (S i) (extend m (zip c (world <$> c)))) as (m' & Hm & Hl).
  exists m'. split; [done|]. intros k. rewrite Hl, extend_lookup.
  destruct (decide (k ∈ concat cs)) as [Hin|Hni]; [by rewrite decide_True by (apply elem_of_app; by right)|].
  destruct (decide (k ∈ c)) as [Hin|Hnc]; [by rewrite decide_True by (apply elem_of_app; by left)|].
  rewrite decide_False; [done|]. by intros [?|?]%elem_of_app.
Qed.

Lemma get_batched_accounts_spec world rpc ks :
  (0 < MAX_MULTIPLE_ACCOUNTS)%nat -> answers world rpc ->
  exists m, get_batched_accounts rpc ks = Ok m /\ forall k, existing m !! k = if decide (k ∈ ks) then world k else None.
Proof.
  intros Hmax Hr. unfold get_batched_accounts.
  destruct (read_chunks_spec world rpc 0 (chunks (length ks) MAX_MULTIPLE_ACCOUNTS ks) ∅ Hr) as (m & Hm & Hl).
  exists m. split; [done|]. intros k. unfold existing. rewrite lookup_omap, Hl, concat_chunks by (done || lia).
  destruct (decide (k ∈ ks)); [done|]. by rewrite lookup_empty.
Qed.
End reading.

(* ------------------------------------------------------------------ *)
(** * The claims that are built *)

Lemma omap_id_if {A B} (P : A -> Prop) `{!forall x, Decision (P x)} (g : A -> B) (l : list A) :
  omap id ((fun x => if decide (P x) then Some (g x) else None) <$> l) = g <$> filter P l.
Proof.
  induction l as [|x l IH]; [done|]. rewrite fmap_cons, filter_cons. cbn [omap list_omap id].
  destruct (decide (P x)); by rewrite IH.
Qed.

Section building.
Context `{Solana} `{ClaimAccounts}.
Implicit Types t : ClaimTarget.

(** The instruction that claims a node of a tree. *)
Definition instruction_of t (tree : GeneratedMerkleTree) (node : Claim.TreeNode) : ClaimWithPayer :=
  let status := claim_status (ct_tip_distribution_program_id t) (Claim.claimant node) (gm_tip_distribution_account tree) in
  mkClaimWithPayer (AccountPayer.find_program_address (ct_tip_router_program_id t) (ct_ncn_address t)).1.1
    (ct_ncn_address t) (tip_router_config_address t) (ct_tip_distribution_program_id t)
    (find_program_address_ext [CONFIG_SEED] (ct_tip_distribution_program_id t)).1
    (gm_tip_distribution_account tree) status.1 (Claim.claimant node) system_program_id (default [] (Claim.proof node))
    (Claim.amount node) status.2.

(** The nodes of all trees, in order. *)
Definition nodes_of (trees : list GeneratedMerkleTree) : list (GeneratedMerkleTree * Claim.TreeNode) :=
  concat ((fun tree => pair tree <$> gm_tree_nodes tree) <$> trees).

Lemma elem_of_nodes_of trees tree node :
  (tree, node) ∈ nodes_of trees <-> tree ∈ trees /\ node ∈ gm_tree_nodes tree.
Proof.
  unfold nodes_of. rewrite list_elem_of_In, in_concat. split.
  - intros (l & Hl & Hp). apply list_elem_of_In, list_elem_of_fmap in Hl as (tr & -> & Htr).
    apply list_elem_of_In, list_elem_of_fmap in Hp as (n & [= -> ->] & Hn). done.
  - intros [Htr Hn]. exists (pair tree <$> gm_tree_nodes tree). rewrite <- !list_elem_of_In.
    split; [apply list_elem_of_fmap; by exists tree|by apply list_elem_of_fmap_2].
Qed.

(** What is still to be claimed in a state of the accounts. *)
Definition node_to_claim (claimants : Pubkey -> option Account) (statuses : Pubkey -> option ClaimStatus)
    (node : Claim.TreeNode) : Prop :=
  is_Some (claimants (Claim.claimant node)) /\ statuses (Claim.claim_status_pubkey node) = None /\ Claim.amount node <> 0.

Definition tree_to_claim t (tdas : Pubkey -> option (bool * Pubkey)) (tree : GeneratedMerkleTree) : Prop :=
  gm_max_total_claim tree <> 0 /\ tdas (gm_tip_distribution_account tree) = Some (true, tip_router_config_address t).

#[export] Instance node_to_claim_dec claimants statuses node : Decision (node_to_claim claimants statuses node).
Proof. unfold node_to_claim. apply _. Defined.

#[export] Instance tree_to_claim_dec t tdas tree : Decision (tree_to_claim t tdas tree).
Proof. unfold tree_to_claim. apply _. Defined.

Lemma claim_node_spec t claimants statuses tree node :
  is_Some (Claim.proof node) ->
  claim_node t claimants statuses (gm_tip_distribution_account tree) node
  = Ok (if decide (node_to_claim (fun k => claimants !! k) (fun k => statuses !! k) node)
        then Some (instruction_of t tree node) else None).
Proof.
  intros [p Hp]. unfold claim_node, instruction_of. rewrite Hp. destruct (claim_status _ _ _) as [k b].
  destruct (decide (node_to_claim _ _ node)) as [(Hc & Hs & Ha)|Hn].
  - rewrite bool_decide_true by done. rewrite Hs, (proj2 (Z.eqb_neq _ _) Ha). rewrite bool_decide_false; [done|by intros []].
  - destruct (claimants !! Claim.claimant node) as [a|] eqn:Ec; [|by rewrite bool_decide_false by (by intros [])].
    rewrite (bool_decide_true (is_Some (Some a))) by done.
    destruct (statuses !! Claim.claim_status_pubkey node) as [s|] eqn:Es; [by rewrite bool_decide_true by done|].
    rewrite (bool_decide_false (is_Some None)) by (by intros []).
    destruct (Z.eqb_spec (Claim.amount node) 0) as [|Ha]; [done|]. destruct Hn. by split; [rewrite Ec|].
Qed.

Lemma claim_tree_spec t tdas claimants statuses tree :
  (gm_max_total_claim tree <> 0 -> is_Some (tdas !! gm_tip_distribution_account tree)) ->
  (forall node, node ∈ gm_tree_nodes tree -> is_Some (Claim.proof node)) ->
  claim_tree t tdas claimants statuses tree
  = Ok (if decide (tree_to_claim t (fun k => tdas !! k) tree)
        then instruction_of t tree <$> filter (node_to_claim (fun k => claimants !! k) (fun k => statuses !! k)) (gm_tree_nodes tree)
        else []).
Proof.
  intros Htda Hp. unfold claim_tree. destruct (decide (tree_to_claim _ _ tree)) as [[Hz Ht]|Hn].
  - rewrite (proj2 (Z.eqb_neq _ _) Hz). cbn beta in Ht. rewrite Ht. cbn [ok_or mbind result_bind negb orb].
    rewrite bool_decide_true by done. cbn [negb].
    rewrite (mapM_total _ (fun node => if decide (node_to_claim (fun k => claimants !! k) (fun k => statuses !! k) node)
        then Some (instruction_of t tree node) else None)) by (intros node Hn; apply claim_node_spec, Hp, Hn).
    cbn [mbind result_bind]. by rewrite omap_id_if.
  - destruct (Z.eqb_spec (gm_max_total_claim tree) 0) as [Hz|Hz]; [done|].
    destruct (Htda Hz) as [[root authority] Ht]. rewrite Ht. cbn [ok_or mbind result_bind].
    destruct root; [|done]. rewrite bool_decide_false; [done|]. intros ->. by destruct Hn.
Qed.

(** The claims of a list of nodes, as transactions. *)
Definition transaction_of t (micro_lamports : Z) (payer : Pubkey) (p : GeneratedMerkleTree * Claim.TreeNode) : Transaction :=
  mkTransaction 100000 micro_lamports (instruction_of t p.1 p.2) payer.

Definition to_claim t (tdas : Pubkey -> option (bool * Pubkey)) (claimants : Pubkey -> option Account)
    (statuses : Pubkey -> option ClaimStatus) (p : GeneratedMerkleTree * Claim.TreeNode) : Prop :=
  tree_to_claim t tdas p.1 /\ node_to_claim claimants statuses p.2.

#[export] Instance to_claim_dec t tdas claimants statuses p : Decision (to_claim t tdas claimants statuses p).
Proof. unfold to_claim. apply _. Defined.

Lemma nodes_to_claim t tdas claimants statuses trees :
  concat ((fun tree => if decide (tree_to_claim t tdas tree)
                       then instruction_of t tree <$> filter (node_to_claim claimants statuses) (gm_tree_nodes tree)
                       else []) <$> trees)
  = (fun p => instruction_of t p.1 p.2) <$> filter (to_claim t tdas claimants statuses) (nodes_of trees).
Proof.
  unfold nodes_of. induction trees as [|tree trees IH]; [done|]. cbn [fmap list_fmap concat]. rewrite list.filter_app, fmap_app.
  f_equal; [|exact IH]. clear IH. destruct (decide (tree_to_claim t tdas tree)) as [Ht|Ht].
  - induction (gm_tree_nodes tree) as [|n ns IH]; [done|]. rewrite fmap_cons, !filter_cons.
    destruct (decide (node_to_claim claimants statuses n)) as [Hn|Hn].
    + rewrite decide_True by done. by rewrite !fmap_cons, IH.
    + rewrite decide_False by (by intros []). exact IH.
  - induction (gm_tree_nodes tree) as [|n ns IH]; [done|]. rewrite fmap_cons, filter_cons.
    rewrite decide_False by (by intros []). exact IH.
Qed.

Lemma build_spec t c tdas claimants claim_status micro payer :
  (forall tree, tree ∈ gc_generated_merkle_trees c -> gm_max_total_claim tree <> 0 ->
     is_Some (tdas !! gm_tip_distribution_account tree ≫= tda_of)) ->
  (forall tree node, tree ∈ gc_generated_merkle_trees c -> node ∈ gm_tree_nodes tree -> is_Some (Claim.proof node)) ->
  build_mev_claim_transactions t c tdas claimants claim_status micro payer
  = Ok (transaction_of t micro payer <$>
        filter (to_claim t (fun k => tdas !! k ≫= tda_of) (fun k => claimants !! k) (fun k => claim_status !! k ≫= claim_status_of))
          (nodes_of (gc_generated_merkle_trees c))).
Proof.
  intros Ht Hp. unfold build_mev_claim_transactions.
  rewrite (mapM_total _ (fun tree =>
    if decide (tree_to_claim t (fun k => omap tda_of tdas !! k) tree)
    then instruction_of t tree <$> filter (node_to_claim (fun k => claimants !! k) (fun k => omap claim_status_of claim_status !! k))
           (gm_tree_nodes tree)
    else [])).
  2:{ intros tree Hin. apply claim_tree_spec; [|by intros; eapply Hp]. intros Hz. rewrite lookup_omap. by apply Ht. }
  cbn [mbind result_bind]. rewrite nodes_to_claim, <- list_fmap_compose. unfold mret, result_ret. f_equal.
  assert (Hf : filter (to_claim t (fun k => omap tda_of tdas !! k) (fun k => claimants !! k) (fun k => omap claim_status_of claim_status !! k))
      (nodes_of (gc_generated_merkle_trees c))
    = filter (to_claim t (fun k => tdas !! k ≫= tda_of) (fun k => claimants !! k) (fun k => claim_status !! k ≫= claim_status_of))
        (nodes_of (gc_generated_merkle_trees c))); [|by rewrite Hf].
  apply list_filter_iff. intros p. unfold to_claim, tree_to_claim, node_to_claim. by rewrite !lookup_omap.
Qed.
End building.

Section world.
Context `{Solana} `{ClaimAccounts}.
Implicit Types t : ClaimTarget.

(** The claims left in a state of the accounts. *)
Definition claims_left t (world : Pubkey -> option Account) (c : GeneratedMerkleTreeCollection)
    : list (GeneratedMerkleTree * Claim.TreeNode) :=
  filter (to_claim t (fun k => world k ≫= tda_of) world (fun k => world k ≫= claim_status_of))
    (nodes_of (gc_generated_merkle_trees c)).

(** All reads of an attempt see the same state. *)
Definition reads_from (world : Pubkey -> option Account) (r : Reads) : Prop :=
  answers world (rd_tdas r) /\ answers world (rd_claimants r) /\ answers world (rd_claim_statuses r).

(** The distribution accounts of the trees exist, and those whose upload
    authority is the router's had it when the trees were made; every node has a
    proof. *)
Record readable t (world : Pubkey -> option Account) (c : GeneratedMerkleTreeCollection) : Prop := {
  rb_tda : forall tree, tree ∈ gc_generated_merkle_trees c -> gm_max_total_claim tree <> 0 ->
    is_Some (world (gm_tip_distribution_account tree) ≫= tda_of);
  rb_authority : forall tree root, tree ∈ gc_generated_merkle_trees c ->
    world (gm_tip_distribution_account tree) ≫= tda_of = Some (root, tip_router_config_address t) ->
    gm_merkle_root_upload_authority tree = tip_router_config_address t;
  rb_proof : forall tree node, tree ∈ gc_generated_merkle_trees c -> node ∈ gm_tree_nodes tree -> is_Some (Claim.proof node);
}.

(** The nodes whose claimants and claim statuses are read. *)
Lemma nodes_read t (trees : list GeneratedMerkleTree) tree node :
  tree ∈ trees -> node ∈ gm_tree_nodes tree -> gm_merkle_root_upload_authority tree = tip_router_config_address t ->
  node ∈ concat (omap (fun tree => if bool_decide (gm_merkle_root_upload_authority tree = tip_router_config_address t)
    then Some (gm_tree_nodes tree) else None) trees).
Proof.
  intros Ht Hn Ha. rewrite list_elem_of_In, in_concat. exists (gm_tree_nodes tree). rewrite <- !list_elem_of_In.
  split; [|done]. apply list_elem_of_omap. exists tree. by rewrite bool_decide_true.
Qed.

Lemma get_claims_spec t c world r micro payer :
  (0 < MAX_MULTIPLE_ACCOUNTS)%nat -> reads_from world r -> readable t world c ->
  get_claim_transactions_for_valid_unclaimed r c t micro payer = Ok (transaction_of t micro payer <$> claims_left t world c).
Proof.
  intros Hmax (H1 & H2 & H3) [Htda Hauth Hproof]. unfold get_claim_transactions_for_valid_unclaimed.
  set (nodes := concat _). set (trees := gc_generated_merkle_trees c) in *.
  destruct (get_batched_accounts_spec world (rd_tdas r) (gm_tip_distribution_account <$> trees) Hmax H1) as (m1 & -> & Hm1).
  destruct (get_batched_accounts_spec world (rd_claimants r) (Claim.claimant <$> nodes) Hmax H2) as (m2 & -> & Hm2).
  destruct (get_batched_accounts_spec world (rd_claim_statuses r) (Claim.claim_status_pubkey <$> nodes) Hmax H3) as (m3 & -> & Hm3).
  cbn [mbind result_bind].
  assert (Hk : forall tree, tree ∈ trees -> existing m1 !! gm_tip_distribution_account tree = world (gm_tip_distribution_account tree)).
  { intros tree Ht. rewrite Hm1. by rewrite decide_True by (by apply list_elem_of_fmap_2). }
  rewrite build_spec; [|intros tree Ht; rewrite Hk by done; by apply Htda|done].
  do 2 f_equal. unfold claims_left. apply filter_ext_in. intros [tree node] [Ht Hn]%elem_of_nodes_of.
  unfold to_claim, tree_to_claim, node_to_claim. cbn [fst snd]. rewrite Hk by done.
  assert (Hboth : world (gm_tip_distribution_account tree) ≫= tda_of = Some (true, tip_router_config_address t) ->
    existing m2 !! Claim.claimant node = world (Claim.claimant node) /\
    existing m3 !! Claim.claim_status_pubkey node = world (Claim.claim_status_pubkey node)).
  { intros Ha. assert (Hin : node ∈ nodes) by (apply (nodes_read t trees tree node Ht Hn), (Hauth tree true Ht Ha)).
    rewrite Hm2, Hm3. by rewrite !decide_True by (by apply list_elem_of_fmap_2). }
  split; intros [[Hz Ha] Hrest]; destruct (Hboth Ha) as [E1 E2]; [rewrite E1, E2 in Hrest|rewrite E1, E2]; done.
Qed.

(** When nothing of the claim's own status is recorded for it, a claim is left
    whether or not it was made. *)
Lemma claims_left_elem t world c tree node :
  (tree, node) ∈ claims_left t world c <->
  tree ∈ gc_generated_merkle_trees c /\ node ∈ gm_tree_nodes tree /\
  tree_to_claim t (fun k => world k ≫= tda_of) tree /\ node_to_claim world (fun k => world k ≫= claim_status_of) node.
Proof.
  unfold claims_left. rewrite list_elem_of_filter, elem_of_nodes_of. unfold to_claim. cbn [fst snd]. tauto.
Qed.

(** The rounds of the loop, each with the state it reads. *)
Lemma claim_round_spec t c world r micro payer :
  (0 < MAX_MULTIPLE_ACCOUNTS)%nat -> reads_from world (rn_reads r) -> readable t world c ->
  match claim_round r c t micro payer with
  | Ok None => claims_left t world c = []
  | Ok (Some txs) => claims_left t world c <> [] /\
      txs = take 300 (rn_shuffle r (transaction_of t micro payer <$> claims_left t world c))
  | Err _ => claims_left t world c <> []
  end.
Proof.
  intros Hmax Hr Hw. unfold claim_round. rewrite (get_claims_spec t c world (rn_reads r) micro payer Hmax Hr Hw).
  cbn [mbind result_bind]. destruct (claims_left t world c) as [|p ps]; [done|]. rewrite fmap_cons.
  destruct (is_sufficient_balance _ _ _) as [[[[s d] n]|]|e]; cbn [mbind result_bind]; [done| |done].
  by destruct (rn_blockhash r).
Qed.
End world.

(* ------------------------------------------------------------------ *)
(** * The claims of generated trees *)

Section generated.
Context `{Solana} `{Programs} `{ClaimAccounts}.
Implicit Types t : ClaimTarget.

Lemma collect_trees_elem f l ts m g :
  collect_trees f l = Ok ts -> m ∈ l -> f m = Ok (Some g) -> g ∈ ts.
Proof.
  revert ts. induction l as [|x l IH]; intros ts Hts Hm Hf; [by apply elem_of_nil in Hm|].
  cbn [collect_trees] in Hts. apply bind_Ok in Hts as (o & Ho & (rest & Hrest & Hts)%bind_Ok). injection Hts as <-.
  apply elem_of_cons in Hm as [->|Hm].
  - rewrite Hf in Ho. injection Ho as <-. by left.
  - specialize (IH rest Hrest Hm Hf). destruct o; [by right|done].
Qed.

(** A claim of a node list stored with its proof. *)
Lemma tree_of_node meta ns g j n :
  tree_of meta ns g -> ns !! j = Some n -> exists p, Claim.with_proof n p ∈ gm_tree_nodes g.
Proof.
  intros (_ & _ & _ & _ & Hns) Hj. destruct (Hns j n Hj) as (p & Hp & _). exists p. by apply list_elem_of_lookup_2 in Hp.
Qed.

Lemma tree_node_of meta ns g n' :
  tree_of meta ns g -> n' ∈ gm_tree_nodes g ->
  exists n p, n ∈ ns /\ n' = Claim.with_proof n p /\ verify p (gm_merkle_root g) (hash_leaf (node_hash n)) = true.
Proof.
  intros (_ & _ & _ & Hlen & Hns) [j Hj]%list_elem_of_lookup.
  destruct (lookup_lt_is_Some_2 ns j) as [n Hn]; [rewrite <- Hlen; by apply lookup_lt_Some in Hj|].
  destruct (Hns j n Hn) as (p & Hp & Hv). exists n, p. split; [by apply list_elem_of_lookup_2 in Hn|]. by split; [congruence|].
Qed.

(** The claim of a delegator, from epoch 737 on. *)
Lemma delegator_claim MAX_BPS bps ncn epoch tdp trp metas ts m meta d :
  0 < MAX_BPS -> fits U64 bps -> 737 <= epoch -> epoch + 1 < U64 -> metas_ok MAX_BPS bps metas ->
  collect_trees (generated_tree MAX_BPS bps ncn epoch tdp trp) metas = Ok ts ->
  m ∈ metas -> sk_maybe_tip_distribution_meta m = Some meta -> d ∈ sk_delegations m ->
  exists g node, g ∈ ts /\ node ∈ gm_tree_nodes g /\ gm_tip_distribution_account g = td_tip_distribution_pubkey meta /\
    gm_max_total_claim g = td_total_tips meta /\ Claim.claimant node = dg_stake_account_pubkey d /\
    Claim.claim_status_pubkey node = (claim_status tip_distribution_id (dg_staker_pubkey d) (td_tip_distribution_pubkey meta)).1 /\
    Claim.amount node = share (delegators_part MAX_BPS bps meta) (sk_total_delegated m) d.
Proof.
  intros HM Hb He He' Hok Hts Hm Hmeta Hd. destruct (Hok m meta Hm Hmeta) as (Hso & Hle & Hfit).
  destruct (vec_from_stake_meta_ok MAX_BPS m meta bps ncn epoch tdp trp HM Hb Hso ltac:(lia) He' Hle Hfit)
    as (n1 & n2 & ns & Hvec & _ & _ & HF).
  destruct (generated_tree_ok MAX_BPS bps ncn epoch tdp trp m meta (n1 :: n2 :: ns) Hmeta Hvec) as (g & Hg & Htree); [done|].
  apply list_elem_of_lookup in Hd as [j Hj]. destruct (Forall2_lookup_l _ _ _ _ _ HF Hj) as (n & Hn & Ha & Hc & Hs).
  destruct (tree_of_node meta (n1 :: n2 :: ns) g (S (S j)) n Htree Hn) as (p & Hp). destruct Htree as (Hg1 & Hg2 & _).
  rewrite (proj2 (Z.ltb_lt _ _)) in Hc by lia.
  exists g, (Claim.with_proof n p). split; [exact (collect_trees_elem _ _ _ _ _ Hts Hm Hg)|].
  by destruct n.
Qed.

Lemma share_zero MAX_BPS bps m meta d :
  0 < MAX_BPS -> td_total_tips meta = 0 -> share (delegators_part MAX_BPS bps meta) (sk_total_delegated m) d = 0.
Proof.
  intros HM Ht. unfold share.
  assert (E : delegators_part MAX_BPS bps meta = 0).
  { unfold delegators_part, validator_part, protocol_part, commission. by rewrite Ht, !Z.mul_0_l, !Z.div_0_l by lia. }
  rewrite E, Z.mul_0_r. by destruct (sk_total_delegated m).
Qed.
End generated.

(* ------------------------------------------------------------------ *)
(** * Properties *)

Section properties.
Context `{Solana} `{Programs} `{ClaimAccounts}.
Implicit Types t : ClaimTarget.








(** Every instruction built is that of a node of one of the trees. *)
Lemma built_instruction t c tdas claimants statuses micro payer txs tx :
  build_mev_claim_transactions t c tdas claimants statuses micro payer = Ok txs -> tx ∈ txs ->
  exists tree node proof, tree ∈ gc_generated_merkle_trees c /\ node ∈ gm_tree_nodes tree /\ Claim.proof node = Some proof /\
    Claim.amount node <> 0 /\ tx_claim tx = instruction_of t tree node.
Proof.
  intros Hb Htx. unfold build_mev_claim_transactions in Hb. apply bind_Ok in Hb as (lists & Hl%mapM_Ok & Hb). injection Hb as <-.
  apply list_elem_of_fmap in Htx as (ix & -> & Hix). cbn [tx_claim].
  apply list_elem_of_In, in_concat in Hix as (l & Hin & Hix). apply list_elem_of_In in Hin, Hix.
  apply list_elem_of_lookup in Hin as [i Hi]. destruct (Forall2_lookup_r _ _ _ _ _ Hl Hi) as (tree & Ht & Htree).
  exists tree. apply list_elem_of_lookup_2 in Ht. unfold claim_tree in Htree.
  destruct (gm_max_total_claim tree =? 0); [injection Htree as <-; by apply elem_of_nil in Hix|].
  apply bind_Ok in Htree as ([root authority] & _ & Htree).
  destruct (negb root || _); [injection Htree as <-; by apply elem_of_nil in Hix|].
  apply bind_Ok in Htree as (os & Hos%mapM_Ok & Htree). injection Htree as <-.
  apply list_elem_of_omap in Hix as (o & Ho & E). cbn in E. subst o. apply list_elem_of_lookup in Ho as [j Hj].
  destruct (Forall2_lookup_r _ _ _ _ _ Hos Hj) as (node & Hn & Hnode). apply list_elem_of_lookup_2 in Hn.
  unfold claim_node in Hnode. destruct (_ || _ || _) eqn:Eg; [done|]. apply orb_false_iff in Eg as [_ Ha%Z.eqb_neq].
  destruct (Claim.proof node) as [proof|] eqn:Ep; destruct (claim_status _ _ _) as [k b] eqn:Es; [|done].
  injection Hnode as <-. exists node, proof. do 4 (split; [done|]). unfold instruction_of. by rewrite Es, Ep.
Qed.

(** C25: every claim sent for trees of the generator carries a proof: whatever the
    accounts that were read, the claimant and the amount of the instruction hash
    to a leaf that the proof verifies for the root of the distribution account it
    names, the amount is positive, and the claim status is the claimant's own. *)
Theorem claims_sent_verify MAX_BPS sc ncn epoch bps trp c t r micro payer txs :
  0 < MAX_BPS -> fits U64 bps -> 0 <= epoch -> epoch + 1 < U64 -> metas_ok MAX_BPS bps (sc_stake_metas sc) ->
  new_from_stake_meta_collection MAX_BPS sc ncn epoch bps trp = Ok c ->
  get_claim_transactions_for_valid_unclaimed r c t micro payer = Ok txs ->
  forall tx, tx ∈ txs -> let ix := tx_claim tx in
    exists tree, tree ∈ gc_generated_merkle_trees c /\ cw_tip_distribution_account ix = gm_tip_distribution_account tree /\
      verify (cw_proof ix) (gm_merkle_root tree)
        (hash_leaf (hashv [to_bytes (cw_claimant ix); to_le_bytes 8 (cw_amount ix)])) = true /\
      cw_amount ix <> 0 /\
      cw_claim_status ix
      = (claim_status (ct_tip_distribution_program_id t) (cw_claimant ix) (cw_tip_distribution_account ix)).1.
Proof.
  intros HM Hb He He' Hok Hc Hr tx Htx ix.
  destruct (collect_trees_ok MAX_BPS bps ncn epoch (sc_tip_distribution_program_id sc) trp (sc_stake_metas sc)
    (sc_stake_metas sc) HM Hb He He' Hok) as (ts & Hts & _ & Hcl); [done|].
  unfold new_from_stake_meta_collection in Hc. rewrite Hts in Hc. injection Hc as <-.
  unfold get_claim_transactions_for_valid_unclaimed in Hr. cbn [gc_generated_merkle_trees] in *.
  apply bind_Ok in Hr as (m1 & _ & (m2 & _ & (m3 & _ & Hr)%bind_Ok)%bind_Ok).
  destruct (built_instruction _ _ _ _ _ _ _ _ _ Hr Htx) as (tree & node & proof & Ht & Hn & Hp & Ha & Hix).
  subst ix. rewrite Hix. exists tree. do 2 (split; [done|]).
  destruct (Hcl tree Ht) as (m & meta & n1 & n2 & ns & _ & _ & Htree & _).
  destruct (tree_node_of _ _ _ _ Htree Hn) as (n & q & _ & -> & Hv). destruct n as [cl cs cb st wi am pr].
  split; [exact Hv|]. by split.
Qed.

(** claims of delegators are made again.  From epoch 737 on, a claim of a
    delegator with a positive share whose stake account exists stays among the
    claims left whether or not it was made, unless an account happens to exist
    at the address derived from its staker: the claim's own status, which its
    instruction creates, is not looked at.  So as long as one such validator's
    root is uploaded, claiming never succeeds. *)
Theorem made_claims_rebuilt MAX_BPS sc ncn epoch bps trp c t world m meta d :
  0 < MAX_BPS -> fits U64 bps -> 737 <= epoch -> epoch + 1 < U64 -> metas_ok MAX_BPS bps (sc_stake_metas sc) ->
  new_from_stake_meta_collection MAX_BPS sc ncn epoch bps trp = Ok c -> readable t world c ->
  (0 < MAX_MULTIPLE_ACCOUNTS)%nat -> 0 < LAMPORTS_PER_SOL ->
  m ∈ sc_stake_metas sc -> sk_maybe_tip_distribution_meta m = Some meta -> d ∈ sk_delegations m ->
  share (delegators_part MAX_BPS bps meta) (sk_total_delegated m) d <> 0 ->
  world (td_tip_distribution_pubkey meta) ≫= tda_of = Some (true, tip_router_config_address t) ->
  is_Some (world (dg_stake_account_pubkey d)) ->
  world (claim_status tip_distribution_id (dg_staker_pubkey d) (td_tip_distribution_pubkey meta)).1 = None ->
  (exists tree node, (tree, node) ∈ claims_left t world c /\ Claim.claimant node = dg_stake_account_pubkey d) /\
  forall rounds last simulate micro payer, Forall (fun r => reads_from world (rn_reads r)) rounds -> reads_from world last ->
    claim_mev_tips rounds last simulate c t micro payer <> Ok tt.
Proof.
  intros HM Hb He He' Hok Hc Hw Hmax HL Hm Hmeta Hd Hshare Htda Hclaimant Hstatus.
  assert (Hleft : exists tree node, (tree, node) ∈ claims_left t world c /\ Claim.claimant node = dg_stake_account_pubkey d).
  { unfold new_from_stake_meta_collection in Hc. apply bind_Ok in Hc as (ts & Hts & Hc). injection Hc as <-.
    destruct (delegator_claim MAX_BPS bps ncn epoch _ trp _ ts m meta d HM Hb He He' Hok Hts Hm Hmeta Hd)
      as (g & node & Hg & Hn & Hacc & Hmaxc & Hcl & Hst & Ham).
    exists g, node. split; [|done]. apply claims_left_elem. do 2 (split; [done|]). split.
    - split; [|by rewrite Hacc]. rewrite Hmaxc. intros Hz. by apply Hshare, share_zero.
    - split; [by rewrite Hcl|]. split; [by rewrite Hst, Hstatus|by rewrite Ham]. }
  split; [exact Hleft|]. intros rounds last simulate micro payer Hr Hlast.
  assert (Hne : claims_left t world c <> []) by (intros E; destruct Hleft as (? & ? & Hin & _); rewrite E in Hin; by apply elem_of_nil in Hin).
  induction Hr as [|r rs Hread _ IH]; cbn [claim_mev_tips].
  - rewrite (get_claims_spec t c world last micro payer Hmax Hlast Hw). cbn [mbind result_bind].
    destruct (claims_left t world c); [done|]. rewrite fmap_cons. by case (forallb _ _).
  - pose proof (claim_round_spec t c world r micro payer Hmax Hread Hw) as Hround.
    by destruct (claim_round r c t micro payer) as [[txs|]|e].
Qed.
End properties.

(* ------------------------------------------------------------------ *)
(** * Witnesses *)

(** A validator with two delegators whose trees the router uploads.  The first
    delegator's stake account exists, and so does its own claim status. *)
Module ClaimWitness.
Import ConcreteSolana ConcretePrograms.
#[export] Instance claim_accounts : ClaimAccounts := {|
  Account := option (bool * Pubkey);
  ClaimStatus := unit;
  tda_of a := a;
  claim_status_of a := match a with None => Some tt | Some _ => None end;
  MAX_MULTIPLE_ACCOUNTS := 100;
  DEFAULT_TARGET_LAMPORTS_PER_SIGNATURE := 10000;
  LAMPORTS_PER_SOL := 1000000000;
|}.

Definition t : ClaimTarget := mkClaimTarget (key 201) (key 77) (key 9).
Definition meta : TipDistributionMeta := mkTipDistributionMeta (tip_router_config_address t) (key 31) 1000001 500.
Definition d : Delegation := mkDelegation (key 1) (key 2) (key 3) 600.
Definition m : StakeMeta := mkStakeMeta (key 20) (key 21) (Some meta) [d; mkDelegation (key 4) (key 5) (key 6) 400] 1000 5.
Definition sc : StakeMetaCollection := mkStakeMetaCollection [m] (key 201) EmptyString 740 100.

Lemma m_ok : stake_meta_ok m meta.
Proof.
  split; [reflexivity|split; cbn; lia|split; cbn; lia| |cbn; lia|split; cbn; lia|cbn; lia].
  intros x Hx. cbn in Hx. rewrite !elem_of_cons, elem_of_nil in Hx. destruct Hx as [->|[->|[]]]; cbn; lia.
Qed.

Lemma claimed_metas_ok : metas_ok 10000 300 (sc_stake_metas sc).
Proof.
  intros x y Hx%list_elem_of_singleton Hy. subst x. injection Hy as <-.
  split; [exact m_ok|]. split; vm_compute; congruence.
Qed.

Definition c : GeneratedMerkleTreeCollection :=
  match new_from_stake_meta_collection 10000 sc (key 9) 740 300 (key 77) with
  | Ok c => c | Err _ => mkGeneratedMerkleTreeCollection [] EmptyString 0 0 end.

Lemma c_ok : new_from_stake_meta_collection 10000 sc (key 9) 740 300 (key 77) = Ok c.
Proof.
  assert (Hok : match new_from_stake_meta_collection 10000 sc (key 9) 740 300 (key 77) with Ok _ => true | Err _ => false end = true)
    by (vm_compute; reflexivity).
  unfold c. by destruct (new_from_stake_meta_collection 10000 sc (key 9) 740 300 (key 77)).
Qed.

(** [claimed] are the keys of further accounts. *)
Definition world (accounts : list Pubkey) (k : Pubkey) : option Account :=
  if decide (k = key 31) then Some (Some (true, tip_router_config_address t))
  else if decide (k ∈ accounts) then Some None else None.

Definition reads (accounts : list Pubkey) : Reads :=
  mkReads (fun _ ks => Ok (world accounts <$> ks)) (fun _ ks => Ok (world accounts <$> ks)) (fun _ ks => Ok (world accounts <$> ks)).

Lemma reads_ok accounts : reads_from (world accounts) (reads accounts).
Proof. by split. Qed.

Lemma trees_forall (P : GeneratedMerkleTree -> Prop) `{!forall x, Decision (P x)} :
  bool_decide (Forall P (gc_generated_merkle_trees c)) = true -> forall tree, tree ∈ gc_generated_merkle_trees c -> P tree.
Proof. intros Hf%bool_decide_eq_true tree Ht. exact (Forall_In _ _ _ Hf Ht). Qed.

Lemma c_account : forall tree, tree ∈ gc_generated_merkle_trees c -> gm_tip_distribution_account tree = key 31.
Proof. apply (trees_forall _). vm_compute. reflexivity. Qed.

Lemma c_authority : forall tree, tree ∈ gc_generated_merkle_trees c -> gm_merkle_root_upload_authority tree = tip_router_config_address t.
Proof. apply (trees_forall _). vm_compute. reflexivity. Qed.

Lemma c_proofs : forall tree, tree ∈ gc_generated_merkle_trees c -> Forall (fun n => is_Some (Claim.proof n)) (gm_tree_nodes tree).
Proof. apply (trees_forall _). vm_compute. reflexivity. Qed.

Lemma world_readable accounts : readable t (world accounts) c.
Proof.
  split.
  - intros tree Ht _. rewrite (c_account tree Ht). unfold world. rewrite decide_True by done. by eexists.
  - intros tree root Ht _. exact (c_authority tree Ht).
  - intros tree node Ht Hn. exact (Forall_In _ _ _ (c_proofs tree Ht) Hn).
Qed.

(** The status of the claim of [d]. *)
Definition status : Pubkey := (claim_status (key 201) (key 1) (key 31)).1.

End ClaimWitness.
Import ClaimWitness ConcreteSolana ConcretePrograms.


Lemma claims_sent_verify_witness : exists txs,
  get_claim_transactions_for_valid_unclaimed (reads [key 1]) c t 5 (key 8) = Ok txs /\ length txs = 1%nat /\
  forall tx, tx ∈ txs -> cw_amount (tx_claim tx) <> 0.
Proof.
  destruct (get_claim_transactions_for_valid_unclaimed (reads [key 1]) c t 5 (key 8)) as [txs|e] eqn:Hr;
    [|vm_compute in Hr; discriminate Hr].
  exists txs. split; [reflexivity|]. split; [vm_compute in Hr; injection Hr as <-; reflexivity|].
  intros tx Htx. destruct (claims_sent_verify 10000 sc (key 9) 740 300 (key 77) c t (reads [key 1]) 5 (key 8) txs)
    with (tx := tx) as (tree & _ & _ & _ & Ha & _); [lia|split; lia|lia|lia|exact claimed_metas_ok|exact c_ok|exact Hr|exact Htx|exact Ha].
Defined.

(** The claim of [d] was made: its own status is among the accounts. *)
Lemma made_claims_rebuilt_witness :
  is_Some (world [key 1; status] status) /\
  (exists tree node, (tree, node) ∈ claims_left t (world [key 1; status]) c /\ Claim.claimant node = key 1) /\
  claim_mev_tips [] (reads [key 1; status]) (fun _ => true) c t 5 (key 8) <> Ok tt.
Proof.
  destruct (made_claims_rebuilt 10000 sc (key 9) 740 300 (key 77) c t (world [key 1; status]) m meta d) as [Hleft Hnever];
    [lia|split; lia|lia|lia|exact claimed_metas_ok|exact c_ok|apply world_readable|cbn; lia|cbn; lia|apply list_elem_of_singleton; reflexivity
    |reflexivity|apply list_elem_of_here|vm_compute; congruence|vm_compute; reflexivity|vm_compute; eexists; reflexivity|vm_compute; reflexivity|].
  split; [vm_compute; eexists; reflexivity|]. split; [exact Hleft|].
  exact (Hnever [] (reads [key 1; status]) (fun _ => true) 5 (key 8) (List.Forall_nil _) (reads_ok _)).
Defined.
