(* ===== verification/Getters.v ===== *)
(** The reads of the command line tool (cli/src/getters.rs): accounts and
    program accounts fetched from an RPC node and decoded, and what the keeper
    and the instructions compute from them.

    The node is a parameter: a [Node] is what it answers to the reads of one
    call.  The restaking and vault programs, their addresses and the layout of
    their accounts are parameters too. *)

From Stdlib Require Import String.
From S2P Require Import Prelude Errors External Constants Accounts FeeGroups Fees Config StakeWeight VaultRegistry WeightTable EpochSnapshot EpochState BallotBox BaseRewardRouter NcnRewardRouter SetupHandlers.

(** Errors are only logged: [Failed] is any error value, [KeeperPanic] an
    overflow, an [unwrap] or an [expect] that fails. *)
Inductive KeeperError : Type := Failed | KeeperPanic.

Definition lift {A} (r : res A) : result KeeperError A :=
  match r with Ok a => Ok a | Err Panic => Err KeeperPanic | Err _ => Err Failed end.

Lemma lift_Ok {A} (r : res A) x : lift r = Ok x -> r = Ok x.
Proof. unfold lift. destruct r as [y|[]]; try done. by intros [= ->]. Qed.

(** A call whose error is discarded ([.ok()]); panics go through. *)
Definition ok_of {A} (r : result KeeperError A) : result KeeperError (option A) :=
  match r with Ok a => Ok (Some a) | Err Failed => Ok None | Err KeeperPanic => Err KeeperPanic end.

(** The decoding of account data ([try_from_slice_unchecked]). *)
Class KeeperAccounts := {
  decode_config : list Z -> result KeeperError Config;
  decode_vault_registry : list Z -> result KeeperError VaultRegistry;
  decode_epoch_state : list Z -> result KeeperError EpochState;
  decode_weight_table : list Z -> result KeeperError WeightTable;
  decode_epoch_snapshot : list Z -> result KeeperError EpochSnapshot;
  decode_operator_snapshot : list Z -> result KeeperError OperatorSnapshot;
  decode_ballot_box : list Z -> result KeeperError BallotBox;
  decode_base_reward_router : list Z -> result KeeperError BaseRewardRouter;
  decode_ncn_reward_router : list Z -> result KeeperError NcnRewardRouter;
  decode_epoch_marker : list Z -> result KeeperError EpochMarker.EpochMarker;
}.

(** The restaking, vault, token and stake pool programs as a client knows them:
    their ids, the addresses they derive, and the fields of their accounts. *)
Class Clients := {
  tip_router_id : Pubkey;
  stake_pool_id : Pubkey;
  spl_token_id : Pubkey;
  (** [Pubkey::from_str] *)
  pubkey_from_str : string -> option Pubkey;
  (** [find_program_address] of the account types, the program's id first *)
  restaking_config_address : Pubkey -> Pubkey;
  ncn_address : Pubkey -> Pubkey -> Pubkey;
  operator_address : Pubkey -> Pubkey -> Pubkey;
  ncn_operator_state_address : Pubkey -> Pubkey -> Pubkey -> Pubkey;
  ncn_vault_ticket_address : Pubkey -> Pubkey -> Pubkey -> Pubkey;
  operator_vault_ticket_address : Pubkey -> Pubkey -> Pubkey -> Pubkey;
  vault_config_address : Pubkey -> Pubkey;
  vault_address : Pubkey -> Pubkey -> Pubkey;
  vault_ncn_ticket_address : Pubkey -> Pubkey -> Pubkey -> Pubkey;
  vault_operator_delegation_address : Pubkey -> Pubkey -> Pubkey -> Pubkey;
  vault_update_state_tracker_address : Pubkey -> Pubkey -> Z -> Pubkey;
  get_associated_token_address : Pubkey -> Pubkey -> Pubkey;
  find_withdraw_authority : Pubkey -> Pubkey -> Pubkey;
  (** account types, with their decoders and what is read of them *)
  VaultConfig : Type;
  decode_vault_config : list Z -> result KeeperError VaultConfig;
  vault_epoch_length : VaultConfig -> Z;
  get_epoch_from_slot : VaultConfig -> Z -> result KeeperError Z;
  RestakingConfig : Type;
  decode_restaking_config : list Z -> result KeeperError RestakingConfig;
  restaking_epoch_length : RestakingConfig -> Z;
  Ncn : Type;
  decode_ncn : list Z -> result KeeperError Ncn;
  Vault : Type;
  decode_vault : list Z -> result KeeperError Vault;
  supported_mint : Vault -> Pubkey;
  vrt_mint : Vault -> Pubkey;
  vault_fee_wallet : Vault -> Pubkey;
  is_update_needed : Vault -> Z -> Z -> result KeeperError bool;
  Operator : Type;
  decode_operator : list Z -> result KeeperError Operator;
  operator_voter : Operator -> Pubkey;
  VaultUpdateStateTracker : Type;
  decode_vault_update_state_tracker : list Z -> result KeeperError VaultUpdateStateTracker;
  last_updated_index : VaultUpdateStateTracker -> Z;
  NcnOperatorState : Type;
  NcnOperatorState_size : Z;
  decode_ncn_operator_state : list Z -> result KeeperError NcnOperatorState;
  state_operator : NcnOperatorState -> Pubkey;
  ncn_opt_in_active : NcnOperatorState -> Z -> Z -> result KeeperError bool;
  operator_opt_in_active : NcnOperatorState -> Z -> Z -> result KeeperError bool;
  NcnVaultTicket : Type;
  NcnVaultTicket_size : Z;
  decode_ncn_vault_ticket : list Z -> result KeeperError NcnVaultTicket;
  ticket_vault : NcnVaultTicket -> Pubkey;
  ncn_vault_active : NcnVaultTicket -> Z -> Z -> result KeeperError bool;
  VaultNcnTicket : Type;
  decode_vault_ncn_ticket : list Z -> result KeeperError VaultNcnTicket;
  vault_ncn_active : VaultNcnTicket -> Z -> Z -> result KeeperError bool;
  OperatorVaultTicket : Type;
  decode_operator_vault_ticket : list Z -> result KeeperError OperatorVaultTicket;
  operator_vault_active : OperatorVaultTicket -> Z -> Z -> result KeeperError bool;
  VaultOperatorDelegation : Type;
  VaultOperatorDelegation_size : Z;
  decode_vault_operator_delegation : list Z -> result KeeperError VaultOperatorDelegation;
  delegation_index : VaultOperatorDelegation -> Z;
  delegation_operator : VaultOperatorDelegation -> Pubkey;
  staked_amount : VaultOperatorDelegation -> Z;
  cooling_down_amount : VaultOperatorDelegation -> Z;
  total_security : VaultOperatorDelegation -> result KeeperError Z;
  StakePool : Type;
  decode_stake_pool : list Z -> result KeeperError StakePool;
  pool_mint : StakePool -> Pubkey;
  manager_fee_account : StakePool -> Pubkey;
  reserve_stake : StakePool -> Pubkey;
}.

(** [RpcFilterType] *)
Inductive RpcFilterType : Type :=
| DataSize (size : Z)
| MemcmpBytes (offset : Z) (bytes : list Z).

(** What the node answers: accounts as lamports and data. *)
Record Node := mkNode {
  nd_account : Pubkey -> result KeeperError (option (Z * list Z));
  nd_program_accounts : Pubkey -> list RpcFilterType -> result KeeperError (list (Pubkey * list Z));
  nd_slot : result KeeperError Z;
  (** [get_epoch_info]: the epoch and the absolute slot *)
  nd_epoch_info : result KeeperError (Z * Z);
  nd_epoch_schedule : result KeeperError (Z -> Z);
  nd_rent : Z -> result KeeperError Z;
}.

(** [CliHandler]: the keypair is its public key. *)
Record CliHandler := mkCliHandler {
  h_keypair : option Pubkey;
  h_restaking_program_id : Pubkey;
  h_vault_program_id : Pubkey;
  h_tip_router_program_id : Pubkey;
  h_token_program_id : Pubkey;
  h_ncn : option Pubkey;
  h_epoch : Z;
  h_retries : Z;
  h_priority_fee_micro_lamports : Z;
}.

(** A read whose error is replaced; panics go through. *)
Definition or_else {A} (r : result KeeperError A) (a : A) : result KeeperError A :=
  match r with Err Failed => Ok a | r => r end.

Section getters.
Context `{Solana} `{KeeperAccounts} `{Clients}.

Definition keypair (h : CliHandler) : result KeeperError Pubkey := ok_or (h_keypair h) Failed.
Definition ncn_of (h : CliHandler) : result KeeperError Pubkey := ok_or (h_ncn h) Failed.

(* ------------------------------------------------------------------ *)
(** * Helpers *)

Definition get_account (nd : Node) (account : Pubkey) : result KeeperError (option (Z * list Z)) := nd_account nd account.
Definition get_current_epoch (nd : Node) : result KeeperError Z := fst <$> nd_epoch_info nd.
Definition get_current_slot (nd : Node) : result KeeperError Z := nd_slot nd.
Definition get_current_epoch_and_slot (nd : Node) : result KeeperError (Z * Z) :=
  epoch ← get_current_epoch nd;
  slot ← get_current_slot nd;
  mret (epoch, slot).

(** An account that must exist, decoded. *)
Definition get_decoded {A} (decode : list Z -> result KeeperError A) (nd : Node) (address : Pubkey) : result KeeperError A :=
  account ← get_account nd address;
  '(_, data) ← ok_or account Failed;
  decode data.

(* ------------------------------------------------------------------ *)
(** * Tip router *)

Definition get_tip_router_config (h : CliHandler) (nd : Node) : result KeeperError Config :=
  ncn ← ncn_of h;
  get_decoded decode_config nd (Config.find_program_address (h_tip_router_program_id h) ncn).1.1.

Definition get_vault_registry (h : CliHandler) (nd : Node) : result KeeperError VaultRegistry :=
  ncn ← ncn_of h;
  get_decoded decode_vault_registry nd (VaultRegistry.find_program_address (h_tip_router_program_id h) ncn).1.1.

Definition get_epoch_state (h : CliHandler) (nd : Node) (epoch : Z) : result KeeperError EpochState :=
  ncn ← ncn_of h;
  get_decoded decode_epoch_state nd (EpochState.find_program_address (h_tip_router_program_id h) ncn epoch).1.1.

Definition get_weight_table (h : CliHandler) (nd : Node) (epoch : Z) : result KeeperError WeightTable :=
  ncn ← ncn_of h;
  get_decoded decode_weight_table nd (WeightTable.find_program_address (h_tip_router_program_id h) ncn epoch).1.1.

Definition get_epoch_snapshot (h : CliHandler) (nd : Node) (epoch : Z) : result KeeperError EpochSnapshot :=
  ncn ← ncn_of h;
  get_decoded decode_epoch_snapshot nd (EpochSnapshot.find_program_address (h_tip_router_program_id h) ncn epoch).1.1.

Definition get_operator_snapshot (h : CliHandler) (nd : Node) (operator : Pubkey) (epoch : Z) : result KeeperError OperatorSnapshot :=
  ncn ← ncn_of h;
  get_decoded decode_operator_snapshot nd
    (OperatorSnapshot.find_program_address (h_tip_router_program_id h) operator ncn epoch).1.1.

Definition get_ballot_box (h : CliHandler) (nd : Node) (epoch : Z) : result KeeperError BallotBox :=
  ncn ← ncn_of h;
  get_decoded decode_ballot_box nd (BallotBox.find_program_address (h_tip_router_program_id h) ncn epoch).1.1.

Definition get_base_reward_router (h : CliHandler) (nd : Node) (epoch : Z) : result KeeperError BaseRewardRouter :=
  ncn ← ncn_of h;
  get_decoded decode_base_reward_router nd
    (BaseRewardRouter.find_program_address (h_tip_router_program_id h) ncn epoch).1.1.

(** An account that must exist, with its address. *)
Definition get_existing (nd : Node) (address : Pubkey) : result KeeperError (Pubkey * (Z * list Z)) :=
  account ← get_account nd address;
  account ← ok_or account Failed;
  mret (address, account).

Definition get_base_reward_receiver (h : CliHandler) (nd : Node) (epoch : Z) : result KeeperError (Pubkey * (Z * list Z)) :=
  ncn ← ncn_of h;
  get_existing nd (BaseRewardReceiver.find_program_address (h_tip_router_program_id h) ncn epoch).1.1.

Definition get_ncn_reward_router (h : CliHandler) (nd : Node) (ncn_fee_group : NcnFeeGroup) (operator : Pubkey) (epoch : Z)
    : result KeeperError NcnRewardRouter :=
  ncn ← ncn_of h;
  get_decoded decode_ncn_reward_router nd
    (NcnRewardRouter.find_program_address (h_tip_router_program_id h) ncn_fee_group operator ncn epoch).1.1.

Definition get_ncn_reward_receiver (h : CliHandler) (nd : Node) (ncn_fee_group : NcnFeeGroup) (operator : Pubkey) (epoch : Z)
    : result KeeperError (Pubkey * (Z * list Z)) :=
  ncn ← ncn_of h;
  get_existing nd (NcnRewardReceiver.find_program_address (h_tip_router_program_id h) ncn_fee_group operator ncn epoch).1.1.

(** [account.lamports - rent]; the receiver is read before, and must exist. *)
Definition get_receiver_rewards (nd : Node) (address : Pubkey) : result KeeperError Z :=
  account ← get_account nd address;
  rent ← nd_rent nd 0;
  '(lamports, _) ← ok_or account Failed;
  ok_or (checked_sub lamports rent) KeeperPanic.

Definition get_base_reward_receiver_rewards (h : CliHandler) (nd : Node) (epoch : Z) : result KeeperError Z :=
  '(address, _) ← get_base_reward_receiver h nd epoch;
  get_receiver_rewards nd address.

Definition get_ncn_reward_receiver_rewards (h : CliHandler) (nd : Node) (ncn_fee_group : NcnFeeGroup) (operator : Pubkey)
    (epoch : Z) : result KeeperError Z :=
  '(address, _) ← get_ncn_reward_receiver h nd ncn_fee_group operator epoch;
  get_receiver_rewards nd address.

Fixpoint fee_groups (fees : Fees) (groups : list NcnFeeGroup) : result KeeperError (list NcnFeeGroup) :=
  match groups with
  | [] => mret []
  | g :: groups =>
      bps ← (match Fees.ncn_fee_bps fees g with Ok b => Ok b | Err _ => Err KeeperPanic end);
      rest ← fee_groups fees groups;
      mret (if 0 <? bps then g :: rest else rest)
  end.

(** A receiver that cannot be read counts for nothing. *)
Definition add_rewards (h : CliHandler) (nd : Node) (epoch total : Z) (receiver : Pubkey * NcnFeeGroup) : result KeeperError Z :=
  rewards ← or_else (get_ncn_reward_receiver_rewards h nd receiver.2 receiver.1 epoch) 0;
  ok_or (checked_add U64 total rewards) KeeperPanic.

(** The operators that voted for the ballot at [index]. *)
Definition voters_of (ballot_box : BallotBox) (index : Z) : list Pubkey :=
  ov_operator <$> filter (fun vote : OperatorVote => ov_ballot_index vote = index) (bb_operator_votes ballot_box).

(** The receivers' rewards, from those of the base receiver on: without them,
    nothing is to be distributed. *)
Definition sum_rewards (h : CliHandler) (nd : Node) (epoch : Z) (receivers : list (Pubkey * NcnFeeGroup))
    : result KeeperError Z :=
  match get_base_reward_receiver_rewards h nd epoch with
  | Err Failed => Ok 0
  | Err KeeperPanic => Err KeeperPanic
  | Ok total => foldM (add_rewards h nd epoch) total receivers
  end.

Definition receivers_of (operators : list Pubkey) (groups : list NcnFeeGroup) : list (Pubkey * NcnFeeGroup) :=
  concat ((fun operator => pair operator <$> groups) <$> operators).

Definition get_total_rewards_to_be_distributed (h : CliHandler) (nd : Node) (epoch : Z) : result KeeperError Z :=
  ballot_box ← get_ballot_box h nd epoch;
  winning_ballot ← lift (BallotBox.get_winning_ballot_tally ballot_box);
  let all_operators := voters_of ballot_box (bt_index winning_ballot) in
  epoch_snapshot ← get_epoch_snapshot h nd epoch;
  all_ncn_groups ← fee_groups (es_fees epoch_snapshot) NcnFeeGroup.all_groups;
  sum_rewards h nd epoch (receivers_of all_operators all_ncn_groups).

Definition get_account_payer (h : CliHandler) (nd : Node) : result KeeperError (Z * list Z) :=
  ncn ← ncn_of h;
  account ← get_account nd (AccountPayer.find_program_address (h_tip_router_program_id h) ncn).1.1;
  ok_or account Failed.

Definition get_epoch_marker (h : CliHandler) (nd : Node) (epoch : Z) : result KeeperError EpochMarker.EpochMarker :=
  ncn ← ncn_of h;
  get_decoded decode_epoch_marker nd (EpochMarker.find_program_address (h_tip_router_program_id h) ncn epoch).1.1.

Definition get_is_epoch_completed (h : CliHandler) (nd : Node) (epoch : Z) : result KeeperError bool :=
  ncn ← ncn_of h;
  account ← get_account nd (EpochMarker.find_program_address (h_tip_router_program_id h) ncn epoch).1.1;
  mret (bool_decide (is_Some account)).

(* ------------------------------------------------------------------ *)
(** * Restaking and vaults *)

Definition get_vault_config (h : CliHandler) (nd : Node) : result KeeperError VaultConfig :=
  get_decoded decode_vault_config nd (vault_config_address (h_vault_program_id h)).

Definition get_restaking_config (h : CliHandler) (nd : Node) : result KeeperError RestakingConfig :=
  get_decoded decode_restaking_config nd (restaking_config_address (h_restaking_program_id h)).

Definition get_ncn (h : CliHandler) (nd : Node) : result KeeperError Ncn :=
  ncn ← ncn_of h;
  get_decoded decode_ncn nd ncn.

Definition get_vault (nd : Node) (vault : Pubkey) : result KeeperError Vault := get_decoded decode_vault nd vault.

Definition get_vault_update_state_tracker (h : CliHandler) (nd : Node) (vault : Pubkey) (ncn_epoch : Z)
    : result KeeperError VaultUpdateStateTracker :=
  get_decoded decode_vault_update_state_tracker nd
    (vault_update_state_tracker_address (h_vault_program_id h) vault ncn_epoch).

Definition get_operator (nd : Node) (operator : Pubkey) : result KeeperError Operator := get_decoded decode_operator nd operator.

Definition get_ncn_operator_state (h : CliHandler) (nd : Node) (operator : Pubkey) : result KeeperError NcnOperatorState :=
  ncn ← ncn_of h;
  get_decoded decode_ncn_operator_state nd (ncn_operator_state_address (h_restaking_program_id h) ncn operator).

Definition get_vault_ncn_ticket (h : CliHandler) (nd : Node) (vault : Pubkey) : result KeeperError VaultNcnTicket :=
  ncn ← ncn_of h;
  get_decoded decode_vault_ncn_ticket nd (vault_ncn_ticket_address (h_vault_program_id h) vault ncn).

Definition get_ncn_vault_ticket (h : CliHandler) (nd : Node) (vault : Pubkey) : result KeeperError NcnVaultTicket :=
  ncn ← ncn_of h;
  get_decoded decode_ncn_vault_ticket nd (ncn_vault_ticket_address (h_restaking_program_id h) ncn vault).

Definition get_vault_operator_delegation (h : CliHandler) (nd : Node) (vault operator : Pubkey)
    : result KeeperError VaultOperatorDelegation :=
  get_decoded decode_vault_operator_delegation nd (vault_operator_delegation_address (h_vault_program_id h) vault operator).

Definition get_operator_vault_ticket (h : CliHandler) (nd : Node) (vault operator : Pubkey)
    : result KeeperError OperatorVaultTicket :=
  get_decoded decode_operator_vault_ticket nd (operator_vault_ticket_address (h_restaking_program_id h) operator vault).

Definition get_stake_pool (nd : Node) : result KeeperError StakePool := get_decoded decode_stake_pool nd JITOSOL_POOL_ADDRESS.

Record StakePoolAccounts := mkStakePoolAccounts {
  stake_pool_program_id : Pubkey;
  stake_pool_address : Pubkey;
  stake_pool : StakePool;
  stake_pool_withdraw_authority : Pubkey;
  referrer_pool_tokens_account : Pubkey;
}.

Definition get_stake_pool_accounts (h : CliHandler) (nd : Node) : result KeeperError StakePoolAccounts :=
  stake_pool ← get_stake_pool nd;
  tip_router_config ← get_tip_router_config h nd;
  base_fee_wallet ← lift (FeeConfig.base_fee_wallet (cf_fee_config tip_router_config) BaseFeeGroup.default);
  mret (mkStakePoolAccounts stake_pool_id JITOSOL_POOL_ADDRESS stake_pool
          (find_withdraw_authority stake_pool_id JITOSOL_POOL_ADDRESS)
          (get_associated_token_address base_fee_wallet (pool_mint stake_pool))).

(** The accounts of a program of one size with [owner] at offset 8 (after the
    discriminator); those that do not decode are left out. *)
Definition get_program_accounts {A} (decode : list Z -> result KeeperError A) (size : Z) (nd : Node) (program owner : Pubkey)
    : result KeeperError (list A) :=
  results ← nd_program_accounts nd program [DataSize (size + 8); MemcmpBytes 8 (to_bytes owner)];
  accounts ← mapM (fun r => ok_of (decode r.2)) results;
  mret (omap (M := list) id accounts).

Definition get_all_sorted_operators_for_vault (h : CliHandler) (nd : Node) (vault : Pubkey) : result KeeperError (list Pubkey) :=
  accounts ← get_program_accounts decode_vault_operator_delegation VaultOperatorDelegation_size nd (h_vault_program_id h) vault;
  let index_and_operator := map (fun d => (delegation_index d, delegation_operator d)) accounts in
  mret (map snd (sort_by_key fst index_and_operator)).

Definition get_all_operators_in_ncn (h : CliHandler) (nd : Node) : result KeeperError (list Pubkey) :=
  ncn ← ncn_of h;
  accounts ← get_program_accounts decode_ncn_operator_state NcnOperatorState_size nd (h_restaking_program_id h) ncn;
  mret (map state_operator accounts).

Definition get_all_vaults_in_ncn (h : CliHandler) (nd : Node) : result KeeperError (list Pubkey) :=
  ncn ← ncn_of h;
  accounts ← get_program_accounts decode_ncn_vault_ticket NcnVaultTicket_size nd (h_restaking_program_id h) ncn;
  mret (map ticket_vault accounts).

(** [rent_cost += rent * n * m] with the rent of [size] bytes; panics on
    overflow. *)
Definition add_rent (nd : Node) (size : Z) (counts : list Z) (rent_cost : Z) : result KeeperError Z :=
  rent ← nd_rent nd size;
  cost ← foldM (fun c n => ok_or (checked_mul U64 c n) KeeperPanic) rent counts;
  ok_or (checked_add U64 rent_cost cost) KeeperPanic.

Fixpoint count_fee_groups (fees : Fees) (groups : list NcnFeeGroup) : result KeeperError Z :=
  match groups with
  | [] => mret 0
  | g :: groups =>
      fee ← lift (Fees.ncn_fee_bps fees g);
      rest ← count_fee_groups fees groups;
      mret (if 0 <? fee then 1 + rest else rest)
  end.

Definition get_total_epoch_rent_cost (h : CliHandler) (nd : Node) : result KeeperError Z :=
  let current_epoch := h_epoch h in
  all_operators ← get_all_operators_in_ncn h nd;
  let operator_count := Z.of_nat (length all_operators) in
  config ← get_tip_router_config h nd;
  fee_group_count ← count_fee_groups (FeeConfig.current_fees (cf_fee_config config) current_epoch) NcnFeeGroup.all_groups;
  rent_cost ← add_rent nd EpochState.SIZE [] 0;
  rent_cost ← add_rent nd WeightTable.SIZE [] rent_cost;
  rent_cost ← add_rent nd EpochSnapshot_SIZE [] rent_cost;
  rent_cost ← add_rent nd OperatorSnapshot_SIZE [operator_count] rent_cost;
  rent_cost ← add_rent nd BallotBox.SIZE [] rent_cost;
  rent_cost ← add_rent nd BaseRewardRouter.SIZE [] rent_cost;
  rent_cost ← add_rent nd 0 [] rent_cost;
  rent_cost ← add_rent nd NcnRewardRouter.SIZE [operator_count; fee_group_count] rent_cost;
  add_rent nd 0 [operator_count; fee_group_count] rent_cost.

(* ------------------------------------------------------------------ *)
(** * The opt-ins of an operator and a vault *)

Record NcnTickets := mkNcnTickets {
  nt_slot : Z;
  nt_epoch_length : Z;
  nt_ncn : Pubkey;
  nt_vault : Pubkey;
  nt_vault_account : Vault;
  nt_operator : Pubkey;
  nt_ncn_vault_ticket_address : Pubkey;
  nt_ncn_vault_ticket : option NcnVaultTicket;
  nt_vault_ncn_ticket_address : Pubkey;
  nt_vault_ncn_ticket : option VaultNcnTicket;
  nt_vault_operator_delegation_address : Pubkey;
  nt_vault_operator_delegation : option VaultOperatorDelegation;
  nt_operator_vault_ticket_address : Pubkey;
  nt_operator_vault_ticket : option OperatorVaultTicket;
  nt_ncn_operator_state_address : Pubkey;
  nt_ncn_operator_state : option NcnOperatorState;
}.
End getters.

Module NcnTickets.
Section tickets.
Context `{Solana} `{KeeperAccounts} `{Clients}.
Definition DNE : Z := 0.
Definition NOT_ACTIVE : Z := 1.
Definition ACTIVE : Z := 2.

Definition fetch (h : CliHandler) (nd : Node) (operator vault : Pubkey) (slot epoch_length : Z) : result KeeperError NcnTickets :=
  ncn ← ncn_of h;
  vault_account ← get_vault nd vault;
  ncn_vault_ticket ← ok_of (get_ncn_vault_ticket h nd vault);
  vault_ncn_ticket ← ok_of (get_vault_ncn_ticket h nd vault);
  vault_operator_delegation ← ok_of (get_vault_operator_delegation h nd vault operator);
  operator_vault_ticket ← ok_of (get_operator_vault_ticket h nd vault operator);
  ncn_operator_state ← ok_of (get_ncn_operator_state h nd operator);
  mret (mkNcnTickets slot epoch_length ncn vault vault_account operator
    (ncn_vault_ticket_address (h_restaking_program_id h) ncn vault) ncn_vault_ticket
    (vault_ncn_ticket_address (h_vault_program_id h) vault ncn) vault_ncn_ticket
    (vault_operator_delegation_address (h_vault_program_id h) vault operator) vault_operator_delegation
    (operator_vault_ticket_address (h_restaking_program_id h) operator vault) operator_vault_ticket
    (ncn_operator_state_address (h_restaking_program_id h) ncn operator) ncn_operator_state).

Definition st_mint (t : NcnTickets) : Pubkey := supported_mint (nt_vault_account t).

(** An [unwrap]: its error is a panic. *)
Definition unwrap {A} (r : result KeeperError A) : result KeeperError A :=
  match r with Ok a => Ok a | Err _ => Err KeeperPanic end.

Definition delegation (t : NcnTickets) : result KeeperError (Z * Z * Z) :=
  match nt_vault_operator_delegation t with
  | None => mret (0, 0, 0)
  | Some d => total ← unwrap (total_security d); mret (staked_amount d, cooling_down_amount d, total)
  end.

(** What there is of an opt-in, given how it is seen to be active. *)
Definition status {A} (ticket : option A) (is_active : A -> result KeeperError bool) : result KeeperError Z :=
  match ticket with
  | None => mret DNE
  | Some a => active ← unwrap (is_active a); mret (if active : bool then ACTIVE else NOT_ACTIVE)
  end.

Definition ncn_operator (t : NcnTickets) : result KeeperError Z :=
  status (nt_ncn_operator_state t) (fun a => ncn_opt_in_active a (nt_slot t) (nt_epoch_length t)).
Definition operator_ncn (t : NcnTickets) : result KeeperError Z :=
  status (nt_ncn_operator_state t) (fun a => operator_opt_in_active a (nt_slot t) (nt_epoch_length t)).
Definition ncn_vault (t : NcnTickets) : result KeeperError Z :=
  status (nt_ncn_vault_ticket t) (fun a => ncn_vault_active a (nt_slot t) (nt_epoch_length t)).
Definition vault_ncn (t : NcnTickets) : result KeeperError Z :=
  status (nt_vault_ncn_ticket t) (fun a => vault_ncn_active a (nt_slot t) (nt_epoch_length t)).
Definition operator_vault (t : NcnTickets) : result KeeperError Z :=
  status (nt_operator_vault_ticket t) (fun a => operator_vault_active a (nt_slot t) (nt_epoch_length t)).
Definition vault_operator (t : NcnTickets) : result KeeperError Z :=
  status (nt_vault_operator_delegation t) (fun d => total ← total_security d; mret (0 <? total)).
End tickets.
End NcnTickets.

Section all_tickets.
Context `{Solana} `{KeeperAccounts} `{Clients}.
Definition get_all_tickets (h : CliHandler) (nd : Node) : result KeeperError (list NcnTickets) :=
  all_vaults ← get_all_vaults_in_ncn h nd;
  all_operators ← get_all_operators_in_ncn h nd;
  restaking_config ← get_restaking_config h nd;
  '(_, slot) ← nd_epoch_info nd;
  let epoch_length := restaking_epoch_length restaking_config in
  mapM (fun p => NcnTickets.fetch h nd p.1 p.2 slot epoch_length)
    (concat (map (fun operator => map (pair operator) all_vaults) all_operators)).
End all_tickets.

(** Concrete programs, used by the witnesses only: an address is the code of
    what it is derived from, the fields of an account are read from its first
    bytes, every opt-in is active. *)
Module ConcreteClients.
Definition pda (tag : Z) (parts : list Pubkey) : Pubkey := mkPubkey (ConcreteSolana.code (tag :: concat (to_bytes <$> parts))).
Definition field (i : nat) (d : list Z) : Z := nth i d 0.

#[export] Instance clients : Clients := {|
  tip_router_id := key 77;
  stake_pool_id := key 200;
  spl_token_id := key 202;
  pubkey_from_str s := None;
  restaking_config_address p := pda 1 [p];
  ncn_address p b := pda 2 [p; b];
  operator_address p b := pda 3 [p; b];
  ncn_operator_state_address p n o := pda 4 [p; n; o];
  ncn_vault_ticket_address p n v := pda 5 [p; n; v];
  operator_vault_ticket_address p o v := pda 6 [p; o; v];
  vault_config_address p := pda 7 [p];
  vault_address p b := pda 8 [p; b];
  vault_ncn_ticket_address p v n := pda 9 [p; v; n];
  vault_operator_delegation_address p v o := pda 10 [p; v; o];
  vault_update_state_tracker_address p v e := pda (100 + e) [p; v];
  get_associated_token_address w m := pda 11 [w; m];
  find_withdraw_authority p s := pda 12 [p; s];
  VaultConfig := Z;
  decode_vault_config d := Ok (field 0 d);
  vault_epoch_length c := c;
  get_epoch_from_slot c s := if c =? 0 then Err Failed else Ok (s / c);
  RestakingConfig := Z;
  decode_restaking_config d := Ok (field 0 d);
  restaking_epoch_length c := c;
  Ncn := Z;
  decode_ncn d := Ok (field 0 d);
  Vault := list Z;
  decode_vault d := Ok d;
  supported_mint d := key (field 0 d);
  vrt_mint d := key (field 1 d);
  vault_fee_wallet d := key (field 2 d);
  is_update_needed d s l := Ok (field 3 d =? 1);
  Operator := list Z;
  decode_operator d := Ok d;
  operator_voter d := key (field 0 d);
  VaultUpdateStateTracker := Z;
  decode_vault_update_state_tracker d := Ok (field 0 d);
  last_updated_index t := t;
  NcnOperatorState := list Z;
  NcnOperatorState_size := 400;
  decode_ncn_operator_state d := Ok d;
  state_operator d := key (field 0 d);
  ncn_opt_in_active d s l := Ok true;
  operator_opt_in_active d s l := Ok true;
  NcnVaultTicket := list Z;
  NcnVaultTicket_size := 300;
  decode_ncn_vault_ticket d := Ok d;
  ticket_vault d := key (field 0 d);
  ncn_vault_active d s l := Ok true;
  VaultNcnTicket := list Z;
  decode_vault_ncn_ticket d := Ok d;
  vault_ncn_active d s l := Ok true;
  OperatorVaultTicket := list Z;
  decode_operator_vault_ticket d := Ok d;
  operator_vault_active d s l := Ok true;
  VaultOperatorDelegation := list Z;
  VaultOperatorDelegation_size := 500;
  decode_vault_operator_delegation d := Ok d;
  delegation_index d := field 0 d;
  delegation_operator d := key (field 1 d);
  staked_amount d := field 2 d;
  cooling_down_amount d := field 3 d;
  total_security d := Ok (field 2 d + field 3 d);
  StakePool := list Z;
  decode_stake_pool d := Ok d;
  pool_mint d := key (field 0 d);
  manager_fee_account d := key (field 1 d);
  reserve_stake d := key (field 2 d);
|}.

(** Program accounts of a program: those of the first size, and of the others. *)
Definition accounts_of (operators vaults delegations : result KeeperError (list (Pubkey * list Z))) (filters : list RpcFilterType)
    : result KeeperError (list (Pubkey * list Z)) :=
  match filters with
  | DataSize n :: _ => if n =? 408 then operators else if n =? 308 then vaults else delegations
  | _ => Ok []
  end.
End ConcreteClients.
