(* ===== verification/Keeper.v ===== *)
(** The keeper (cli/src/keeper/keeper_state.rs, keeper_loop.rs and the reads of
    cli/src/getters.rs it makes): the loop that takes an NCN through its epochs
    by sending, for the epoch it is at, the instructions of the phase the epoch
    is in.

    The network is a parameter: a [Node] is what the RPC node answers to the
    reads of one call.  What an iteration sends is the list of its [Action]s, each
    a call of a crank (Cranks.v); KeeperLoop.v runs the loop with the cranks on a
    network.  Metrics are not modelled. *)

From Stdlib Require Import String.
From S2P Require Import Prelude Errors External Constants Accounts FeeGroups Fees Config StakeWeight VaultRegistry WeightTable EpochSnapshot EpochState BallotBox BaseRewardRouter NcnRewardRouter Getters.

Record KeeperState := mkKeeperState {
  ks_epoch : Z;
  ks_ncn : Pubkey;
  ks_vaults : list Pubkey;
  ks_operators : list Pubkey;
  ks_tip_router_config_address : Pubkey;
  ks_vault_registry_address : Pubkey;
  ks_epoch_state_address : Pubkey;
  ks_weight_table_address : Pubkey;
  ks_epoch_snapshot_address : Pubkey;
  ks_operator_snapshots_address : list Pubkey;
  ks_ballot_box_address : Pubkey;
  ks_base_reward_router_address : Pubkey;
  ks_base_reward_receiver_address : Pubkey;
  ks_ncn_reward_routers_address : list (list Pubkey);
  ks_ncn_reward_receivers_address : list (list Pubkey);
  ks_epoch_state : option EpochState;
  ks_current_state : option State;
  ks_is_epoch_completed : bool;
}.

Module KeeperState.
(** [Default::default] *)
Definition default : KeeperState :=
  mkKeeperState 0 Pubkey_default [] [] Pubkey_default Pubkey_default Pubkey_default Pubkey_default Pubkey_default []
    Pubkey_default Pubkey_default Pubkey_default [] [] None None false.

(** Field updates. *)
Definition set_epoch (s : KeeperState) (x : Z) : KeeperState :=
  mkKeeperState x (ks_ncn s) (ks_vaults s) (ks_operators s) (ks_tip_router_config_address s) (ks_vault_registry_address s)
    (ks_epoch_state_address s) (ks_weight_table_address s) (ks_epoch_snapshot_address s) (ks_operator_snapshots_address s)
    (ks_ballot_box_address s) (ks_base_reward_router_address s) (ks_base_reward_receiver_address s)
    (ks_ncn_reward_routers_address s) (ks_ncn_reward_receivers_address s) (ks_epoch_state s) (ks_current_state s)
    (ks_is_epoch_completed s).
Definition set_members (s : KeeperState) (ncn : Pubkey) (vaults operators : list Pubkey) : KeeperState :=
  mkKeeperState (ks_epoch s) ncn vaults operators (ks_tip_router_config_address s) (ks_vault_registry_address s)
    (ks_epoch_state_address s) (ks_weight_table_address s) (ks_epoch_snapshot_address s) (ks_operator_snapshots_address s)
    (ks_ballot_box_address s) (ks_base_reward_router_address s) (ks_base_reward_receiver_address s)
    (ks_ncn_reward_routers_address s) (ks_ncn_reward_receivers_address s) (ks_epoch_state s) (ks_current_state s)
    (ks_is_epoch_completed s).
Definition set_progress (s : KeeperState) (es : option EpochState) (current : option State) (completed : bool) : KeeperState :=
  mkKeeperState (ks_epoch s) (ks_ncn s) (ks_vaults s) (ks_operators s) (ks_tip_router_config_address s)
    (ks_vault_registry_address s) (ks_epoch_state_address s) (ks_weight_table_address s) (ks_epoch_snapshot_address s)
    (ks_operator_snapshots_address s) (ks_ballot_box_address s) (ks_base_reward_router_address s)
    (ks_base_reward_receiver_address s) (ks_ncn_reward_routers_address s) (ks_ncn_reward_receivers_address s)
    es current completed.
End KeeperState.

Section keeper.
Context `{Solana} `{KeeperAccounts} `{Clients}.

(* ------------------------------------------------------------------ *)
(** * The keeper's state *)

(** A method that mutates the keeper's state: the state it leaves, also when
    it fails. *)
Definition Update : Type := KeeperState * result KeeperError unit.

Definition update_current_state (h : CliHandler) (nd : Node) (s : KeeperState) : Update :=
  let state :=
    current_slot ← nd_slot nd;
    epoch_schedule ← nd_epoch_schedule nd;
    config ← get_tip_router_config h nd;
    epoch_state ← ok_or (ks_epoch_state s) Failed;
    if 0 <? pg_tally (ep_set_weight_progress epoch_state) then
      weight_table ← get_decoded decode_weight_table nd (ks_weight_table_address s);
      lift (EpochState.current_state_patched epoch_schedule epoch_state (cf_valid_slots_after_consensus config)
              (cf_epochs_after_consensus_before_close config) (WeightTable.st_mint_count weight_table) current_slot)
    else
      lift (EpochState.current_state epoch_schedule epoch_state (cf_valid_slots_after_consensus config)
              (cf_epochs_after_consensus_before_close config) current_slot) in
  match state with
  | Err e => (s, Err e)
  | Ok state => (KeeperState.set_progress s (ks_epoch_state s) (Some state) (ks_is_epoch_completed s), Ok tt)
  end.

Definition update_epoch_state (h : CliHandler) (nd : Node) (s : KeeperState) : Update :=
  match get_is_epoch_completed h nd (ks_epoch s) with
  | Err e => (s, Err e)
  | Ok true => (KeeperState.set_progress s (ks_epoch_state s) (ks_current_state s) true, Ok tt)
  | Ok false =>
      let s := KeeperState.set_progress s (ks_epoch_state s) (ks_current_state s) false in
      match nd_account nd (ks_epoch_state_address s) with
      | Err e => (s, Err e)
      | Ok None => (KeeperState.set_progress s None (ks_current_state s) false, Ok tt)
      | Ok (Some (_, data)) =>
          if Z.of_nat (length data) <? EpochState.SIZE
          then (KeeperState.set_progress s None (ks_current_state s) false, Ok tt)
          else match decode_epoch_state data with
               | Err e => (s, Err e)
               | Ok account => update_current_state h nd (KeeperState.set_progress s (Some account) (ks_current_state s) false)
               end
      end
  end.

(** The addresses of the accounts of an epoch; those of operators are pushed
    after the ones that are there. *)
Definition set_addresses (program_id ncn : Pubkey) (epoch : Z) (s : KeeperState) : KeeperState :=
  mkKeeperState (ks_epoch s) (ks_ncn s) (ks_vaults s) (ks_operators s)
    (Config.find_program_address program_id ncn).1.1
    (VaultRegistry.find_program_address program_id ncn).1.1
    (EpochState.find_program_address program_id ncn epoch).1.1
    (WeightTable.find_program_address program_id ncn epoch).1.1
    (EpochSnapshot.find_program_address program_id ncn epoch).1.1
    (ks_operator_snapshots_address s ++
     ((fun operator => (OperatorSnapshot.find_program_address program_id operator ncn epoch).1.1) <$> ks_operators s))
    (BallotBox.find_program_address program_id ncn epoch).1.1
    (BaseRewardRouter.find_program_address program_id ncn epoch).1.1
    (BaseRewardReceiver.find_program_address program_id ncn epoch).1.1
    (ks_ncn_reward_routers_address s ++
     ((fun operator => (fun group => (NcnRewardRouter.find_program_address program_id group operator ncn epoch).1.1)
                         <$> NcnFeeGroup.all_groups) <$> ks_operators s))
    (ks_ncn_reward_receivers_address s ++
     ((fun operator => (fun group => (NcnRewardReceiver.find_program_address program_id group operator ncn epoch).1.1)
                         <$> NcnFeeGroup.all_groups) <$> ks_operators s))
    (ks_epoch_state s) (ks_current_state s) (ks_is_epoch_completed s).

Definition fetch (h : CliHandler) (nd : Node) (epoch : Z) (s : KeeperState) : Update :=
  match ncn_of h with
  | Err e => (s, Err e)
  | Ok ncn =>
      let s := KeeperState.set_members s ncn (ks_vaults s) (ks_operators s) in
      match get_all_vaults_in_ncn h nd with
      | Err e => (s, Err e)
      | Ok vaults =>
          let s := KeeperState.set_members s ncn vaults (ks_operators s) in
          match get_all_operators_in_ncn h nd with
          | Err e => (s, Err e)
          | Ok operators =>
              let s := set_addresses (h_tip_router_program_id h) ncn epoch (KeeperState.set_members s ncn vaults operators) in
              match update_epoch_state h nd s with
              | (s, Err e) => (s, Err e)
              | (s, Ok _) => (KeeperState.set_epoch s epoch, Ok tt)
              end
          end
      end
  end.

(** The accessor of the operator snapshots: its address is looked up by index. *)
Definition operator_snapshot_address (s : KeeperState) (operator_index : nat) : result KeeperError Pubkey :=
  ok_or (ks_operator_snapshots_address s !! operator_index) KeeperPanic.

Definition detect_stall (h : CliHandler) (nd : Node) (s : KeeperState) : result KeeperError bool :=
  current_state ← ok_or (ks_current_state s) Failed;
  if bool_decide (current_state = Vote) then mret true else
  if bool_decide (current_state = Distribute) then
    total_rewards_to_be_distributed ← get_total_rewards_to_be_distributed h nd (ks_epoch s);
    mret (total_rewards_to_be_distributed <? 10000)
  else mret false.

(* ------------------------------------------------------------------ *)
(** * The loop *)

(** [keeper_epoch + 1] panics on overflow. *)
Definition progress_epoch (current_epoch : Z) (is_epoch_completed : bool) (starting_epoch last_current_epoch keeper_epoch : Z)
    (epoch_stall : bool) : result KeeperError Z :=
  if last_current_epoch <? current_epoch then mret current_epoch else
  if is_epoch_completed || epoch_stall then
    if keeper_epoch =? current_epoch then mret starting_epoch else ok_or (checked_add U64 keeper_epoch 1) KeeperPanic
  else mret keeper_epoch.

(** The variables of [run_keeper]. *)
Record Keeper := mkKeeper {
  kp_state : KeeperState;
  kp_epoch_stall : bool;
  kp_current_epoch : Z;
  kp_last_current_epoch : Z;
}.

(** What is sent to the network. *)
Inductive Action : Type :=
| RegisterVaults
| CreateEpochState (epoch : Z)
| Crank (state : State) (epoch : Z).

(** The answers of one iteration: the clock's epoch, whether the vaults are
    registered, the reads of [fetch], of [update_epoch_state] and of
    [detect_stall], and whether the crank succeeds. *)
Record Answers := mkAnswers {
  an_epoch : Z;
  an_register : bool;
  an_fetch : Node;
  an_update : Node;
  an_crank : bool;
  an_stall : Node;
}.

Definition run_keeper_init (h : CliHandler) (current_epoch : Z) : Keeper := mkKeeper KeeperState.default false (h_epoch h) current_epoch.

Definition with_kstate (k : Keeper) (s : KeeperState) : Keeper :=
  mkKeeper s (kp_epoch_stall k) (kp_current_epoch k) (kp_last_current_epoch k).

(** Step 3 and after: the crank of the current state, then the stall. *)
Definition crank_state (h : CliHandler) (a : Answers) (k : Keeper) : result KeeperError (list Action * Keeper) :=
  let s := kp_state k in
  current_state ← ok_or (ks_current_state s) KeeperPanic;
  let actions := [RegisterVaults; Crank current_state (ks_epoch s)] in
  if negb (an_crank a) then mret (actions, k) else
  match detect_stall h (an_stall a) s with
  | Err Failed => mret (actions, k)
  | Err KeeperPanic => Err KeeperPanic
  | Ok stall => mret (actions, mkKeeper s stall (kp_current_epoch k) (kp_last_current_epoch k))
  end.

(** Steps 1 and 2: the epoch's state; [None] goes on to step 3, the others are
    [continue]. *)
Definition update_epoch (h : CliHandler) (a : Answers) (s : KeeperState) : result KeeperError (KeeperState * option (list Action)) :=
  let '(s, updated) := update_epoch_state h (an_update a) s in
  match updated with
  | Err KeeperPanic => Err KeeperPanic
  | Err Failed => mret (s, Some [RegisterVaults])
  | Ok _ =>
      if ks_is_epoch_completed s then mret (s, Some [RegisterVaults]) else
      match ks_epoch_state s with
      | None => mret (s, Some [RegisterVaults; CreateEpochState (ks_epoch s)])
      | Some _ => mret (s, None)
      end
  end.

(** Steps 0 to 2: the keeper's state is fetched first when the epoch changed. *)
Definition update_state (h : CliHandler) (a : Answers) (s : KeeperState) (current_epoch : Z)
    : result KeeperError (KeeperState * option (list Action)) :=
  let '(s, fetched) := if ks_epoch s =? current_epoch then (s, Ok tt) else fetch h (an_fetch a) current_epoch s in
  match fetched with
  | Err KeeperPanic => Err KeeperPanic
  | Err Failed => mret (s, Some [RegisterVaults])
  | Ok _ => update_epoch h a s
  end.

(** One iteration of the loop: what it sends and the variables after it. *)
Definition keeper_step (h : CliHandler) (a : Answers) (k : Keeper) : result KeeperError (list Action * Keeper) :=
  let s := kp_state k in
  current_epoch ← progress_epoch (an_epoch a) (ks_is_epoch_completed s) (h_epoch h) (kp_last_current_epoch k)
                    (kp_current_epoch k) (kp_epoch_stall k);
  let k := mkKeeper s false current_epoch (Z.max (kp_last_current_epoch k) current_epoch) in
  if negb (an_register a) then mret ([RegisterVaults], k) else
  '(s, continue) ← update_state h a s current_epoch;
  match continue with
  | Some actions => mret (actions, with_kstate k s)
  | None => crank_state h a (with_kstate k s)
  end.

(** The loop, for as long as answers come. *)
Fixpoint run_keeper (h : CliHandler) (answers : list Answers) (k : Keeper) : result KeeperError (list (list Action) * Keeper) :=
  match answers with
  | [] => mret ([], k)
  | a :: answers =>
      '(actions, k) ← keeper_step h a k;
      '(rest, k) ← run_keeper h answers k;
      mret (actions :: rest, k)
  end.
End keeper.
