(* ===== verification/KeeperTheorems.v ===== *)
(** What the keeper's loop promises: the epochs it works on stay within those
    asked for and the current one, each of them gets its turn, and a crank is for the
    phase the epoch is in.  The last promise needs that [fetch] does not fail half-way:
    two failed reads are enough to crank an epoch with the phase of another. *)

From Stdlib Require Import String.
From S2P Require Import Prelude Errors External Constants Accounts FeeGroups Fees Config StakeWeight VaultRegistry WeightTable EpochSnapshot EpochState BallotBox BaseRewardRouter NcnRewardRouter Getters Keeper.

Section keeper.
Context `{Solana} `{KeeperAccounts} `{Clients}.
Implicit Types (h : CliHandler) (nd : Node) (s : KeeperState) (k : Keeper) (a : Answers).

(* ------------------------------------------------------------------ *)
(** * What updates change *)

(** The epoch the keeper is at and the addresses it reads. *)
Definition place s : Z * Pubkey * Pubkey := (ks_epoch s, ks_epoch_state_address s, ks_weight_table_address s).

Lemma update_current_state_place h nd s : place (update_current_state h nd s).1 = place s.
Proof. unfold update_current_state. by destruct (_ ≫= _) as [st|e]. Qed.

Lemma update_epoch_state_place h nd s : place (update_epoch_state h nd s).1 = place s.
Proof.
  unfold update_epoch_state. destruct (get_is_epoch_completed _ _ _) as [[]|]; [done| |done].
  cbn [ks_epoch_state_address KeeperState.set_progress]. destruct (nd_account _ _) as [[[l data]|]|]; [|done|done].
  case (_ <? _); [done|]. destruct (decode_epoch_state data); [|done]. by rewrite update_current_state_place.
Qed.

(** The phase of an epoch as a node shows it, at the given address. *)
Definition phase_at h nd (address weight_table_address : Pubkey) (phase : State) : Prop :=
  exists lamports data es slot schedule config,
    nd_account nd address = Ok (Some (lamports, data)) /\ EpochState.SIZE <= Z.of_nat (length data) /\
    decode_epoch_state data = Ok es /\ nd_slot nd = Ok slot /\ nd_epoch_schedule nd = Ok schedule /\
    get_tip_router_config h nd = Ok config /\
    if 0 <? pg_tally (ep_set_weight_progress es) then
      exists wt, get_decoded decode_weight_table nd weight_table_address = Ok wt /\
        EpochState.current_state_patched schedule es (cf_valid_slots_after_consensus config)
          (cf_epochs_after_consensus_before_close config) (WeightTable.st_mint_count wt) slot = Ok phase
    else EpochState.current_state schedule es (cf_valid_slots_after_consensus config)
           (cf_epochs_after_consensus_before_close config) slot = Ok phase.

(** An update that succeeds on an epoch that is not completed and has a state:
    the current state is the phase of the state at the recorded address. *)
Lemma update_epoch_state_phase h nd s s' :
  update_epoch_state h nd s = (s', Ok tt) -> ks_is_epoch_completed s' = false -> is_Some (ks_epoch_state s') ->
  get_is_epoch_completed h nd (ks_epoch s) = Ok false /\
  exists phase, ks_current_state s' = Some phase /\
    phase_at h nd (ks_epoch_state_address s) (ks_weight_table_address s) phase.
Proof.
  unfold update_epoch_state. destruct (get_is_epoch_completed _ _ _) as [[]|] eqn:Ec; [by intros [= <-]| |done].
  cbn [ks_epoch_state_address KeeperState.set_progress].
  destruct (nd_account nd (ks_epoch_state_address s)) as [[[l data]|]|] eqn:Ea; [|by intros [= <-] _ []|done].
  destruct (Z.ltb_spec (Z.of_nat (length data)) EpochState.SIZE) as [|Hlen]; [by intros [= <-] _ []|].
  destruct (decode_epoch_state data) as [es|] eqn:Ed; [|done]. unfold update_current_state.
  destruct (_ ≫= _) as [st|] eqn:Est; [|done]. intros [= <-] _ _. split; [done|]. exists st. split; [done|].
  apply bind_Ok in Est as (slot & Hslot & (sched & Hsched & (cfg & Hcfg & (es' & Hes & Hst)%bind_Ok)%bind_Ok)%bind_Ok).
  cbn in Hes. injection Hes as <-. exists l, data, es, slot, sched, cfg. do 6 (split; [done|]).
  destruct (0 <? _); [|by apply lift_Ok]. apply bind_Ok in Hst as (wt & Hwt & Hst). exists wt. split; [done|]. by apply lift_Ok.
Qed.

(** The addresses are those of the epoch the keeper is at. *)
Definition addressed h s : Prop :=
  exists ncn, h_ncn h = Some ncn /\
    place s = (ks_epoch s, (EpochState.find_program_address (h_tip_router_program_id h) ncn (ks_epoch s)).1.1,
               (WeightTable.find_program_address (h_tip_router_program_id h) ncn (ks_epoch s)).1.1).

(** A fetch that does not fail half-way: either the vaults or the operators
    cannot be read, or the update after them succeeds. *)
Definition clean_fetch h nd : Prop :=
  (exists e, get_all_vaults_in_ncn h nd = Err e) \/ (exists e, get_all_operators_in_ncn h nd = Err e) \/
  forall s, (update_epoch_state h nd s).2 = Ok tt.

Lemma fetch_place h nd epoch s s' r :
  fetch h nd epoch s = (s', r) -> clean_fetch h nd ->
  match r with
  | Ok _ => ks_epoch s' = epoch /\ addressed h s'
  | Err _ => place s' = place s
  end.
Proof.
  unfold fetch, ncn_of. destruct (h_ncn h) as [ncn|] eqn:En; [|by intros [= <- <-]]. cbn [ok_or].
  destruct (get_all_vaults_in_ncn h nd) as [vaults|e] eqn:Ev; [|by intros [= <- <-]].
  destruct (get_all_operators_in_ncn h nd) as [operators|e] eqn:Eo; [|by intros [= <- <-]]. cbn beta zeta.
  match goal with |- context [update_epoch_state h nd ?x] => set (s1 := x) end.
  pose proof (update_epoch_state_place h nd s1) as Hp. destruct (update_epoch_state h nd s1) as [s2 r2] eqn:Eu.
  intros Hf [[e He]|[[e He]|Hc]]; [congruence|congruence|]. specialize (Hc s1). rewrite Eu in Hc. cbn in Hc. subst r2.
  injection Hf as <- <-. split; [done|]. exists ncn. split; [done|]. cbn [fst] in Hp. unfold place in *.
  injection Hp as Hp1 Hp2 Hp3. cbn. by rewrite Hp2, Hp3.
Qed.

(* ------------------------------------------------------------------ *)
(** * One iteration *)

(** The variables stay in range, and the addresses are right once there was a
    fetch. *)
Record keeper_inv h k : Prop := {
  ki_low : h_epoch h <= kp_current_epoch k;
  ki_high : kp_current_epoch k <= kp_last_current_epoch k;
  ki_addressed : addressed h (kp_state k) \/ ks_epoch (kp_state k) = 0;
}.

Lemma progress_epoch_range current completed start last keeper stall e :
  start <= keeper <= last -> last <= current -> progress_epoch current completed start last keeper stall = Ok e ->
  start <= e <= current /\ Z.max last e = current.
Proof.
  intros Hk Hc. unfold progress_epoch. destruct (Z.ltb_spec last current); [intros [= <-]; lia|].
  destruct (completed || stall); [|intros [= <-]; lia]. destruct (Z.eqb_spec keeper current); [intros [= <-]; lia|].
  intros He. res_inv. lia.
Qed.

(** What an iteration at [current] may send, given the reads of its update. *)
Definition action_ok h nd (current : Z) (action : Action) : Prop :=
  match action with
  | RegisterVaults => True
  | CreateEpochState e => e = current /\ exists ncn, h_ncn h = Some ncn /\
      get_is_epoch_completed h nd e = Ok false /\
      match nd_account nd (EpochState.find_program_address (h_tip_router_program_id h) ncn e).1.1 with
      | Ok None => True
      | Ok (Some (_, data)) => Z.of_nat (length data) < EpochState.SIZE
      | Err _ => False
      end
  | Crank phase e => e = current /\ exists ncn, h_ncn h = Some ncn /\
      get_is_epoch_completed h nd e = Ok false /\
      phase_at h nd (EpochState.find_program_address (h_tip_router_program_id h) ncn e).1.1
        (WeightTable.find_program_address (h_tip_router_program_id h) ncn e).1.1 phase
  end.

Lemma register_ok h nd current : Forall (action_ok h nd current) [RegisterVaults].
Proof. apply list.Forall_singleton. exact I. Qed.

Lemma register_then_ok h nd current action : action_ok h nd current action -> Forall (action_ok h nd current) [RegisterVaults; action].
Proof. intros Ha. apply list.Forall_cons. split; [exact I|]. by apply list.Forall_singleton. Qed.

Lemma update_epoch_state_none h nd s s' :
  update_epoch_state h nd s = (s', Ok tt) -> ks_is_epoch_completed s' = false -> ks_epoch_state s' = None ->
  get_is_epoch_completed h nd (ks_epoch s) = Ok false /\
  match nd_account nd (ks_epoch_state_address s) with
  | Ok None => True
  | Ok (Some (_, data)) => Z.of_nat (length data) < EpochState.SIZE
  | Err _ => False
  end.
Proof.
  unfold update_epoch_state. destruct (get_is_epoch_completed _ _ _) as [[]|] eqn:Ec; [by intros [= <-]| |done].
  cbn [ks_epoch_state_address KeeperState.set_progress].
  destruct (nd_account nd (ks_epoch_state_address s)) as [[[l data]|]|] eqn:Ea; [|done|done].
  destruct (Z.ltb_spec (Z.of_nat (length data)) EpochState.SIZE) as [|Hlen]; [done|].
  destruct (decode_epoch_state data) as [es|] eqn:Ed; [|done]. unfold update_current_state.
  destruct (_ ≫= _) as [st|] eqn:Est; [|done]. by intros [= <-].
Qed.

Lemma addressed_place h s s' : place s' = place s -> addressed h s -> addressed h s'.
Proof.
  intros Hp (ncn & Hn & Ha). exists ncn. split; [done|]. rewrite Hp, Ha. by injection Hp as -> _ _.
Qed.

Definition placed h s : Prop := addressed h s \/ ks_epoch s = 0.

Lemma placed_place h s s' : place s' = place s -> placed h s -> placed h s'.
Proof. intros Hp [Ha|Hz]; [left; by apply (addressed_place h s)|right]. by injection Hp as -> _ _. Qed.

(** Step 0 leaves the keeper at the epoch, or where it was. *)
Lemma fetched_place h nd current s s' r :
  placed h s -> current <> 0 -> clean_fetch h nd ->
  (if ks_epoch s =? current then (s, Ok tt) else fetch h nd current s) = (s', r) ->
  match r with Ok _ => ks_epoch s' = current /\ addressed h s' | Err _ => placed h s' end.
Proof.
  intros Hp Hz Hc. destruct (Z.eqb_spec (ks_epoch s) current) as [E|_].
  - intros [= <- <-]. split; [done|]. destruct Hp as [Ha|Hs]; [done|lia].
  - intros Hf. pose proof (fetch_place h nd current s s' r Hf Hc) as Hf'. destruct r; [done|]. by apply (placed_place h s).
Qed.

(** An update that succeeds on an epoch that is not completed: what there is to do. *)
Lemma updated_action h nd s s' :
  addressed h s -> update_epoch_state h nd s = (s', Ok tt) -> ks_is_epoch_completed s' = false ->
  match ks_epoch_state s' with
  | Some _ => exists phase, ks_current_state s' = Some phase /\ action_ok h nd (ks_epoch s) (Crank phase (ks_epoch s))
  | None => action_ok h nd (ks_epoch s) (CreateEpochState (ks_epoch s))
  end.
Proof.
  intros (ncn & Hn & Hpla) Eu Ec. injection Hpla as Ha3 Ha4. destruct (ks_epoch_state s') as [es|] eqn:Es.
  - destruct (update_epoch_state_phase h nd s s' Eu Ec) as [Hm (phase & Hph & Hat)]; [by rewrite Es|].
    exists phase. split; [done|]. split; [done|]. exists ncn. by rewrite Ha3, Ha4 in Hat.
  - destruct (update_epoch_state_none h nd s s' Eu Ec Es) as [Hm Hnone]. split; [done|]. exists ncn. by rewrite Ha3 in Hnone.
Qed.

Lemma update_epoch_state_completed h nd s s' :
  update_epoch_state h nd s = (s', Ok tt) -> ks_is_epoch_completed s' = true -> get_is_epoch_completed h nd (ks_epoch s) = Ok true.
Proof.
  unfold update_epoch_state. destruct (get_is_epoch_completed _ _ _) as [[]|]; [done| |done].
  cbn [ks_epoch_state_address KeeperState.set_progress].
  destruct (nd_account nd (ks_epoch_state_address s)) as [[[l data]|]|]; [|by intros [= <-]|done].
  case (_ <? _); [by intros [= <-]|]. destruct (decode_epoch_state data) as [es|]; [|done]. unfold update_current_state.
  destruct (_ ≫= _) as [st|]; [|done]. by intros [= <-].
Qed.

Lemma update_state_ok h a s current s' continue :
  placed h s -> current <> 0 -> clean_fetch h (an_fetch a) -> update_state h a s current = Ok (s', continue) ->
  placed h s' /\
  match continue with
  | Some actions => Forall (action_ok h (an_update a) current) actions
  | None => ks_epoch s' = current /\ exists phase, ks_current_state s' = Some phase /\
      action_ok h (an_update a) current (Crank phase current)
  end.
Proof.
  intros Hp Hz Hc. unfold update_state, update_epoch.
  destruct (if ks_epoch s =? current then (s, Ok tt) else fetch h (an_fetch a) current s) as [s1 r1] eqn:Ef.
  pose proof (fetched_place h (an_fetch a) current s s1 r1 Hp Hz Hc Ef) as Hp1. clear Ef.
  destruct r1 as [[]|[]]; [|intros [= <- <-]; split; [done|apply register_ok]|done].
  destruct Hp1 as [He Ha]. pose proof (update_epoch_state_place h (an_update a) s1) as Hpl.
  destruct (update_epoch_state h (an_update a) s1) as [s2 r2] eqn:Eu. cbn [fst] in Hpl.
  assert (Ha2 := addressed_place h s1 s2 Hpl Ha). assert (He2 : ks_epoch s2 = current) by (injection Hpl as -> _ _; done).
  destruct r2 as [[]|[]]; [|intros [= <- <-]; split; [by left|apply register_ok]|done].
  destruct (ks_is_epoch_completed s2) eqn:Ec; [intros [= <- <-]; split; [by left|apply register_ok]|].
  pose proof (updated_action h (an_update a) s1 s2 Ha Eu Ec) as Hact. rewrite He in Hact.
  destruct (ks_epoch_state s2) as [es|] eqn:Es; intros [= <- <-]; (split; [by left|]); [by split|].
  rewrite He2. by apply register_then_ok.
Qed.

Lemma crank_state_ok h a k actions k' nd current :
  ks_epoch (kp_state k) = current ->
  (exists phase, ks_current_state (kp_state k) = Some phase /\ action_ok h nd current (Crank phase current)) ->
  crank_state h a k = Ok (actions, k') ->
  Forall (action_ok h nd current) actions /\ kp_state k' = kp_state k /\ kp_current_epoch k' = kp_current_epoch k /\
  kp_last_current_epoch k' = kp_last_current_epoch k.
Proof.
  intros He (phase & Hph & Hok). unfold crank_state. rewrite Hph, He. cbn [ok_or mbind result_bind].
  destruct (negb (an_crank a)); [by intros [= <- <-]; split; [apply register_then_ok|]|].
  by destruct (detect_stall h (an_stall a) (kp_state k)) as [|[]]; [| |done]; intros [= <- <-]; split; [apply register_then_ok| |apply register_then_ok|].
Qed.

(** One iteration keeps the invariant, and what it sends is right. *)
Lemma keeper_step_ok h a k actions k' :
  keeper_inv h k -> 0 < h_epoch h -> kp_last_current_epoch k <= an_epoch a -> clean_fetch h (an_fetch a) ->
  keeper_step h a k = Ok (actions, k') ->
  keeper_inv h k' /\ kp_last_current_epoch k' = an_epoch a /\
  Forall (action_ok h (an_update a) (kp_current_epoch k')) actions.
Proof.
  intros [Hlow Hhigh Ha] Hpos Hclock Hc Hstep. unfold keeper_step in Hstep. apply bind_Ok in Hstep as (e & He & Hstep).
  destruct (progress_epoch_range _ _ _ _ _ _ _ (conj Hlow Hhigh) Hclock He) as [[Hl Hh] Hmax].
  rewrite Hmax in Hstep. destruct (negb (an_register a)).
  { injection Hstep as <- <-. split; [by split|]. split; [done|]. apply register_ok. }
  apply bind_Ok in Hstep as ([s' continue] & Hu & Hstep).
  destruct (update_state_ok h a (kp_state k) e s' continue Ha ltac:(lia) Hc Hu) as [Hp Hcont].
  destruct continue as [acts|].
  - injection Hstep as <- <-. split; [by split|]. by split.
  - destruct Hcont as [Hse Hcrank].
    destruct (crank_state_ok h a (with_kstate (mkKeeper (kp_state k) false e (an_epoch a)) s') _ _ (an_update a) e Hse Hcrank Hstep) as (Hf & E1 & E2 & E3). cbn in E2, E3.
    rewrite E2. split; [|by split]. split; [by rewrite E2|by rewrite E2, E3|by rewrite E1].
Qed.

(** Clocks that do not go back, from [last] on. *)
Fixpoint clock_ok (last : Z) (answers : list Answers) : Prop :=
  match answers with
  | [] => True
  | a :: answers => last <= an_epoch a /\ clock_ok (an_epoch a) answers
  end.

Lemma run_keeper_ok h answers k acts k' :
  keeper_inv h k -> 0 < h_epoch h -> clock_ok (kp_last_current_epoch k) answers ->
  Forall (fun a => clean_fetch h (an_fetch a)) answers -> run_keeper h answers k = Ok (acts, k') ->
  keeper_inv h k' /\
  Forall2 (fun a actions => exists current, h_epoch h <= current <= an_epoch a /\
    Forall (action_ok h (an_update a) current) actions) answers acts.
Proof.
  intros Hinv Hpos. revert k acts Hinv. induction answers as [|a answers IH]; intros k acts Hinv Hclock Hc Hrun; cbn [run_keeper] in Hrun.
  { injection Hrun as <- <-. by split; [|constructor]. }
  apply bind_Ok in Hrun as ([actions k1] & Hstep & ([rest k2] & Hrest & Hrun)%bind_Ok). injection Hrun as <- <-.
  destruct Hclock as [Hc1 Hclock]. apply list.Forall_cons in Hc as [Hcl Hc].
  destruct (keeper_step_ok h a k actions k1 Hinv Hpos Hc1 Hcl Hstep) as (Hinv1 & Hlast & Hf).
  destruct (IH k1 rest Hinv1) as [Hinv2 HF]; [by rewrite Hlast|done|done|]. split; [done|]. constructor; [|done].
  exists (kp_current_epoch k1). split; [|done]. rewrite <- Hlast. by destruct Hinv1.
Qed.

Lemma run_keeper_init_inv h c0 : h_epoch h <= c0 -> keeper_inv h (run_keeper_init h c0).
Proof. intros Hle. split; cbn; [done|done|by right]. Qed.
End keeper.

(* ------------------------------------------------------------------ *)
(** * Turns *)

Section turns.
Context `{Solana} `{KeeperAccounts} `{Clients}.
Implicit Types (h : CliHandler) (k : Keeper) (a : Answers).

Lemma crank_state_epochs h a k actions k' :
  crank_state h a k = Ok (actions, k') ->
  kp_current_epoch k' = kp_current_epoch k /\ kp_last_current_epoch k' = kp_last_current_epoch k.
Proof.
  unfold crank_state. destruct (ks_current_state (kp_state k)) as [p|]; [|done]. cbn [ok_or mbind result_bind].
  destruct (negb (an_crank a)); [by intros [= <- <-]|].
  by destruct (detect_stall h (an_stall a) (kp_state k)) as [|[]]; [| |done]; intros [= <- <-].
Qed.

Lemma keeper_step_epochs h a k actions k' :
  keeper_step h a k = Ok (actions, k') ->
  progress_epoch (an_epoch a) (ks_is_epoch_completed (kp_state k)) (h_epoch h) (kp_last_current_epoch k)
    (kp_current_epoch k) (kp_epoch_stall k) = Ok (kp_current_epoch k') /\
  kp_last_current_epoch k' = Z.max (kp_last_current_epoch k) (kp_current_epoch k').
Proof.
  unfold keeper_step. intros Hstep. apply bind_Ok in Hstep as (e & He & Hstep).
  destruct (negb (an_register a)); [by injection Hstep as <- <-|].
  apply bind_Ok in Hstep as ([s' continue] & _ & Hstep). destruct continue; [by injection Hstep as <- <-|].
  destruct (crank_state_epochs _ _ _ _ _ Hstep) as [E1 E2]. by rewrite E1, E2.
Qed.

(** The variables after each iteration, as long as the loop runs. *)
Fixpoint keepers h (answers : list Answers) k : list Keeper :=
  match answers with
  | [] => []
  | a :: answers =>
      match keeper_step h a k with
      | Ok (_, k') => k' :: keepers h answers k'
      | Err _ => []
      end
  end.

(** The keeper is done with its epoch: it is completed, or it stalls. *)
Definition settled k : bool := ks_is_epoch_completed (kp_state k) || kp_epoch_stall k.

(** While the clock stands, the epochs follow each other in a circle. *)
Lemma keepers_epochs h C answers k i k' :
  h_epoch h <= kp_current_epoch k <= C -> kp_last_current_epoch k = C -> Forall (fun a => an_epoch a = C) answers ->
  settled k = true -> Forall (fun k => settled k = true) (keepers h answers k) -> keepers h answers k !! i = Some k' ->
  kp_current_epoch k' = h_epoch h + (kp_current_epoch k - h_epoch h + Z.of_nat i + 1) mod (C - h_epoch h + 1).
Proof.
  revert k i. induction answers as [|a answers IH]; intros k i Hk Hlast Hc Hset Hall Hi; cbn [keepers] in *; [done|].
  apply list.Forall_cons in Hc as [Ha Hc].
  destruct (keeper_step h a k) as [[acts k1]|] eqn:Hstep; [|done]. apply list.Forall_cons in Hall as [Hset1 Hall].
  destruct (keeper_step_epochs h a k acts k1 Hstep) as [He Hl]. unfold progress_epoch in He.
  unfold settled in Hset. rewrite Ha, Hlast, Z.ltb_irrefl, Hset in He.
  assert (Hnext : kp_current_epoch k1 = h_epoch h + (kp_current_epoch k - h_epoch h + 1) mod (C - h_epoch h + 1) /\
    h_epoch h <= kp_current_epoch k1 <= C).
  { destruct (Z.eqb_spec (kp_current_epoch k) C) as [E|E].
    - injection He as <-. rewrite E, Z_mod_same_full. lia.
    - res_inv. rewrite Z.mod_small by lia. lia. }
  destruct Hnext as [Hnext Hrange]. destruct i as [|i]; cbn in Hi.
  - injection Hi as <-. rewrite Hnext. do 2 f_equal. lia.
  - rewrite (IH k1 i Hrange ltac:(lia) Hc Hset1 Hall Hi), Hnext. f_equal.
    replace (h_epoch h + (kp_current_epoch k - h_epoch h + 1) mod (C - h_epoch h + 1) - h_epoch h + Z.of_nat i + 1)
      with ((kp_current_epoch k - h_epoch h + 1) mod (C - h_epoch h + 1) + (Z.of_nat i + 1)) by lia.
    rewrite Zplus_mod_idemp_l. f_equal. lia.
Qed.
End turns.

(* ------------------------------------------------------------------ *)
(** * Properties *)

Section properties.
Context `{Solana} `{KeeperAccounts} `{Clients}.
Implicit Types (h : CliHandler) (k : Keeper) (a : Answers).

(** the keeper sends what the epoch needs.  As long as the clock does not go
    back and no fetch fails half-way, every crank of an iteration is for an epoch
    between the one the keeper was started with and the clock's, which is not
    completed, and its phase is the phase that the epoch's own state, read in the
    same iteration, is in; an epoch state is created only for an epoch that has none. *)
Theorem crank_phase_is_current h c0 answers acts k' i a actions :
  0 < h_epoch h <= c0 -> clock_ok c0 answers -> Forall (fun a => clean_fetch h (an_fetch a)) answers ->
  run_keeper h answers (run_keeper_init h c0) = Ok (acts, k') -> answers !! i = Some a -> acts !! i = Some actions ->
  (forall phase e, Crank phase e ∈ actions -> h_epoch h <= e <= an_epoch a /\
     exists ncn, h_ncn h = Some ncn /\ get_is_epoch_completed h (an_update a) e = Ok false /\
       phase_at h (an_update a) (EpochState.find_program_address (h_tip_router_program_id h) ncn e).1.1
         (WeightTable.find_program_address (h_tip_router_program_id h) ncn e).1.1 phase) /\
  (forall e, CreateEpochState e ∈ actions -> h_epoch h <= e <= an_epoch a /\
     exists ncn, h_ncn h = Some ncn /\ get_is_epoch_completed h (an_update a) e = Ok false /\
       match nd_account (an_update a) (EpochState.find_program_address (h_tip_router_program_id h) ncn e).1.1 with
       | Ok None => True
       | Ok (Some (_, data)) => Z.of_nat (length data) < EpochState.SIZE
       | Err _ => False
       end).
Proof.
  intros Hh Hclock Hc Hrun Ha Hacts.
  destruct (run_keeper_ok h answers (run_keeper_init h c0) acts k' (run_keeper_init_inv h c0 ltac:(lia)) ltac:(lia) Hclock Hc Hrun)
    as [_ HF].
  destruct (Forall2_lookup_lr _ _ _ _ _ _ HF Ha Hacts) as (current & Hcur & Hok).
  split; [intros phase e He|intros e He]; destruct (Forall_In _ _ _ Hok He) as [-> Hact]; by split.
Qed.

(** C26: every epoch gets its turn.  While the clock stands at an epoch and each
    iteration ends with its epoch completed or stalled, as many iterations as there
    are epochs from the starting one to the clock's take the keeper to each of them. *)
Theorem keeper_visits_every_epoch h C answers k e :
  h_epoch h <= kp_current_epoch k <= C -> kp_last_current_epoch k = C -> Forall (fun a => an_epoch a = C) answers ->
  settled k = true -> Forall (fun k => settled k = true) (keepers h answers k) ->
  length (keepers h answers k) = Z.to_nat (C - h_epoch h + 1) -> h_epoch h <= e <= C ->
  exists k', k' ∈ keepers h answers k /\ kp_current_epoch k' = e.
Proof.
  intros Hk Hlast Hc Hset Hall Hlen He. set (n := C - h_epoch h + 1) in *.
  set (i := Z.to_nat ((e - kp_current_epoch k - 1) mod n)).
  pose proof (Z.mod_pos_bound (e - kp_current_epoch k - 1) n ltac:(lia)) as Hb.
  destruct (lookup_lt_is_Some_2 (keepers h answers k) i) as [k' Hi]; [lia|].
  exists k'. split; [by apply list_elem_of_lookup_2 in Hi|].
  rewrite (keepers_epochs h C answers k i k' Hk Hlast Hc Hset Hall Hi). fold n. unfold i. rewrite Z2Nat.id by lia.
  replace (kp_current_epoch k - h_epoch h + (e - kp_current_epoch k - 1) mod n + 1)
    with ((e - kp_current_epoch k - 1) mod n + (kp_current_epoch k - h_epoch h + 1)) by lia.
  rewrite Zplus_mod_idemp_l.
  replace (e - kp_current_epoch k - 1 + (kp_current_epoch k - h_epoch h + 1)) with (e - h_epoch h) by lia.
  rewrite Z.mod_small by lia. lia.
Qed.

(** the keeper's operator addresses go stale.  The addresses of operators
    are pushed and never cleared, so that after the keeper has moved from one epoch
    to another the accessor of an operator's snapshot still gives the address of
    the first epoch. *)
Theorem operator_addresses_stale h nd1 nd2 e1 e2 s s1 s2 ncn operators i operator :
  ks_operator_snapshots_address s = [] -> h_ncn h = Some ncn -> get_all_operators_in_ncn h nd1 = Ok operators ->
  fetch h nd1 e1 s = (s1, Ok tt) -> fetch h nd2 e2 s1 = (s2, Ok tt) -> operators !! i = Some operator ->
  ks_epoch s2 = e2 /\
  operator_snapshot_address s2 i
  = Ok (OperatorSnapshot.find_program_address (h_tip_router_program_id h) operator ncn e1).1.1.
Proof.
  intros Hs Hn Ho Hf1 Hf2 Hi.
  assert (Hkeep : forall nd s, ks_operator_snapshots_address (update_epoch_state h nd s).1 = ks_operator_snapshots_address s).
  { clear. intros nd s. unfold update_epoch_state. destruct (get_is_epoch_completed _ _ _) as [[]|]; [done| |done].
    cbn [ks_epoch_state_address KeeperState.set_progress]. destruct (nd_account _ _) as [[[l data]|]|]; [|done|done].
    case (_ <? _); [done|]. destruct (decode_epoch_state data); [|done]. unfold update_current_state.
    by destruct (_ ≫= _). }
  assert (Hfetch : forall nd e s s' ops, get_all_operators_in_ncn h nd = Ok ops -> fetch h nd e s = (s', Ok tt) -> ks_epoch s' = e /\
    ks_operator_snapshots_address s' = ks_operator_snapshots_address s ++
      ((fun operator => (OperatorSnapshot.find_program_address (h_tip_router_program_id h) operator ncn e).1.1) <$> ops)).
  { intros nd e st st' ops Hops. unfold fetch, ncn_of. rewrite Hn, Hops. cbn [ok_or]. destruct (get_all_vaults_in_ncn h nd) as [vs|]; [|done].
    cbn beta zeta. match goal with |- context [update_epoch_state h nd ?x] => pose proof (Hkeep nd x) as Hx;
      destruct (update_epoch_state h nd x) as [st2 [[]|]] end; [|done].
    intros [= <-]. split; [done|]. exact Hx. }
  destruct (Hfetch nd1 e1 s s1 operators Ho Hf1) as [_ Ha1]. rewrite Hs in Ha1. cbn [app] in Ha1.
  assert (exists ops2, get_all_operators_in_ncn h nd2 = Ok ops2) as [ops2 Ho2].
  { unfold fetch, ncn_of in Hf2. rewrite Hn in Hf2. cbn [ok_or] in Hf2. destruct (get_all_vaults_in_ncn h nd2); [|done].
    destruct (get_all_operators_in_ncn h nd2) as [ops2|]; [by exists ops2|done]. }
  destruct (Hfetch nd2 e2 s1 s2 ops2 Ho2 Hf2) as [He Ha2]. split; [done|].
  unfold operator_snapshot_address. rewrite Ha2, Ha1. rewrite lookup_app_l.
  - by rewrite list_lookup_fmap, Hi.
  - rewrite length_fmap. by apply lookup_lt_Some in Hi.
Qed.
End properties.

(* ------------------------------------------------------------------ *)
(** * Witnesses *)

(** A chain at epoch 7: epoch 5 is completed, the weights of epoch 6 are to be
    set, and epoch 7 is to be snapshotted. *)
Module KeeperWitness.
Import ConcreteSolana ConcreteClients.
Definition pid : Pubkey := key 77.
Definition ncn : Pubkey := key 9.
Definition handler (epoch : Z) : CliHandler := mkCliHandler (Some (key 3)) (key 90) (key 91) pid (key 202) (Some ncn) epoch 2 1.
Definition h : CliHandler := handler 5.

Definition es (epoch : Z) : EpochState :=
  let s := EpochState.set_set_weight_progress (EpochState.new ncn epoch 255 100) (Progress.new 0) in
  if epoch =? 6 then s
  else EpochState.set_account_status s (EpochAccountStatus.set_weight_table (ep_account_status s) Created).

#[export] Instance keeper_accounts : KeeperAccounts := {|
  decode_config d := Ok (body ConfigWitness.c0);
  decode_epoch_state d := Ok (es (nth 0 d 0));
  decode_vault_registry d := Err Failed;
  decode_weight_table d := Err Failed;
  decode_epoch_snapshot d := Err Failed;
  decode_operator_snapshot d := Err Failed;
  decode_ballot_box d := Err Failed;
  decode_base_reward_router d := Err Failed;
  decode_ncn_reward_router d := Err Failed;
  decode_epoch_marker d := Err Failed;
|}.

Definition state_address (epoch : Z) : Pubkey := (EpochState.find_program_address pid ncn epoch).1.1.
Definition marker_address (epoch : Z) : Pubkey := (EpochMarker.find_program_address pid ncn epoch).1.1.
Definition config_address : Pubkey := (Config.find_program_address pid ncn).1.1.

(** Account data that names its epoch in the first byte. *)
Definition data (epoch : Z) : list Z := epoch :: replicate (Z.to_nat EpochState.SIZE) 0.

Definition chain (k : Pubkey) : result KeeperError (option (Z * list Z)) :=
  if decide (k = marker_address 5 \/ k = config_address) then Ok (Some (1, []))
  else if decide (k = state_address 6) then Ok (Some (1, data 6))
  else if decide (k = state_address 7) then Ok (Some (1, data 7)) else Ok None.

Definition node (account : Pubkey -> result KeeperError (option (Z * list Z))) (vaults : result KeeperError (list (Pubkey * list Z))) : Node :=
  mkNode account (fun _ => accounts_of (Ok [(key 60, [31])]) vaults (Ok [])) (Ok 3000000) (Ok (7, 3000000))
    (Ok (fun slot => slot / 432000)) (fun _ => Ok 890880).

(** The chain as it is, with nothing in it, and with an account that cannot be
    read. *)
Definition up : Node := node chain (Ok []).
Definition empty : Node := node (fun _ => Ok None) (Ok []).
Definition failing (address : Pubkey) : Node := node (fun k => if decide (k = address) then Err Failed else chain k) (Ok []).

(** A chain on which every epoch is completed. *)
Definition done_node : Node := node (fun _ => Ok (Some (1, []))) (Ok []).

Definition answers_of (epoch : Z) (fetch update : Node) : Answers := mkAnswers epoch true fetch update true up.
End KeeperWitness.
Import KeeperWitness ConcreteSolana ConcreteClients.

(** The keeper started at epoch 6 cranks the weights of epoch 6. *)
Lemma crank_phase_is_current_witness : exists k',
  run_keeper (handler 6) [answers_of 7 empty up] (run_keeper_init (handler 6) 7)
  = Ok ([[RegisterVaults; Crank SetWeight 6]], k') /\
  phase_at (handler 6) up (state_address 6) (WeightTable.find_program_address pid ncn 6).1.1 SetWeight.
Proof.
  assert (Hrun : exists k', run_keeper (handler 6) [answers_of 7 empty up]
    (run_keeper_init (handler 6) 7) = Ok ([[RegisterVaults; Crank SetWeight 6]], k')).
  { eexists. vm_compute. reflexivity. }
  destruct Hrun as [k' Hrun]. exists k'. split; [exact Hrun|].
  destruct (crank_phase_is_current (handler 6) 7 [answers_of 7 empty up]
    [[RegisterVaults; Crank SetWeight 6]] k' 0 (answers_of 7 empty up)
    [RegisterVaults; Crank SetWeight 6]) as [Hcrank _];
    [cbn; lia|cbn; lia| |exact Hrun|reflexivity|reflexivity|].
  - apply List.Forall_cons; [right; right; intros s; reflexivity|apply List.Forall_nil].
  - destruct (Hcrank SetWeight 6) as (_ & n & Hn & _ & Hat); [right; left|]. injection Hn as <-. exact Hat.
Defined.

(** With epochs 5 and 6 completed, two iterations from epoch 5 visit 6 and 5. *)
Lemma keeper_visits_every_epoch_witness : exists k',
  k' ∈ keepers h [answers_of 6 done_node done_node; answers_of 6 done_node done_node]
         (mkKeeper (KeeperState.set_progress KeeperState.default None None true) false 5 6) /\ kp_current_epoch k' = 5.
Proof.
  apply (keeper_visits_every_epoch h 6); [cbn; lia|reflexivity| |reflexivity| |vm_compute; reflexivity|cbn; lia].
  - apply List.Forall_cons; [reflexivity|]. apply List.Forall_cons; [reflexivity|]. apply List.Forall_nil.
  - apply (bool_decide_unpack _). vm_compute. exact I.
Defined.

(** From epoch 5 to epoch 6 with one operator. *)
Lemma operator_addresses_stale_witness : exists s2,
  ks_epoch s2 = 6 /\ operator_snapshot_address s2 0 = Ok (OperatorSnapshot.find_program_address pid (key 31) ncn 5).1.1.
Proof.
  assert (H1 : exists s1, fetch h empty 5 KeeperState.default = (s1, Ok tt)) by (eexists; vm_compute; reflexivity).
  destruct H1 as [s1 H1].
  assert (H2 : exists s2, fetch h empty 6 s1 = (s2, Ok tt)).
  { unfold fetch. eexists. reflexivity. }
  destruct H2 as [s2 H2]. exists s2.
  exact (operator_addresses_stale h empty empty 5 6 KeeperState.default s1 s2 ncn [key 31] 0 (key 31) eq_refl eq_refl eq_refl
    H1 H2 eq_refl).
Defined.

(** What a node answers is what the chain holds, or an error. *)
Definition agrees (nd : Node) : Prop :=
  (forall k, nd_account nd k = chain k \/ nd_account nd k = Err Failed) /\
  (get_all_vaults_in_ncn h nd = Ok [] \/ get_all_vaults_in_ncn h nd = Err Failed) /\ get_all_operators_in_ncn h nd = Ok [key 31].

Lemma node_agrees account vaults :
  (forall k, account k = chain k \/ account k = Err Failed) -> vaults = Ok [] \/ vaults = Err Failed -> agrees (node account vaults).
Proof. intros Ha Hv. split; [done|]. split; [|done]. by destruct Hv as [-> | ->]; [left|right]. Qed.

Lemma up_agrees : agrees up.
Proof. apply node_agrees; by left. Qed.

Lemma failing_agrees address : agrees (failing address).
Proof. apply node_agrees; [|by left]. intros k. destruct (decide (k = address)); auto. Qed.

Lemma chain_state_6 : chain (state_address 6) = Ok (Some (1, data 6)).
Proof.
  unfold chain. rewrite decide_False by (apply (bool_decide_unpack _); vm_compute; exact I).
  by rewrite decide_True.
Qed.

Lemma config_read : get_tip_router_config h up = Ok (body ConfigWitness.c0).
Proof.
  unfold get_tip_router_config. cbn [ncn_of h handler h_ncn ok_or mbind result_bind]. unfold get_decoded, get_account.
  assert (Hc : nd_account up (Config.find_program_address (h_tip_router_program_id h) ncn).1.1 = Ok (Some (1, []))).
  { cbn [nd_account up node]. unfold chain. rewrite decide_True; [done|]. by right. }
  by rewrite Hc.
Qed.

Definition outage : list Answers :=
  [answers_of 7 up up; answers_of 7 up (failing (marker_address 6)); answers_of 7 (failing (marker_address 6)) up;
   answers_of 7 (node chain (Err Failed)) up; answers_of 7 up up].

(** a fetch that fails half-way is not harmless.  On a chain where epoch 6
    waits for its weights and epoch 7 for its snapshot, three failed reads of an
    otherwise faithful node, in three iterations in a row, make the keeper crank
    epoch 6 with the phase of epoch 7: the addresses were set for epoch 7 before
    the fetch failed, and the keeper came back to the epoch it believed to be at. *)
Theorem half_fetch_cranks_wrong_phase : exists k',
  Forall (fun a => agrees (an_fetch a) /\ agrees (an_update a)) outage /\ clock_ok 7 outage /\
  run_keeper h outage (run_keeper_init h 7)
  = Ok ([[RegisterVaults]; [RegisterVaults]; [RegisterVaults]; [RegisterVaults]; [RegisterVaults; Crank Snapshot 6]], k') /\
  get_is_epoch_completed h up 6 = Ok false /\
  phase_at h up (state_address 6) (WeightTable.find_program_address pid ncn 6).1.1 SetWeight.
Proof.
  assert (Hrun : exists k', run_keeper h outage (run_keeper_init h 7)
    = Ok ([[RegisterVaults]; [RegisterVaults]; [RegisterVaults]; [RegisterVaults]; [RegisterVaults; Crank Snapshot 6]], k')).
  { eexists. vm_compute. reflexivity. }
  destruct Hrun as [k' Hrun]. exists k'. split.
  { repeat apply List.Forall_cons; try apply List.Forall_nil; split; try apply up_agrees; try apply failing_agrees.
    apply node_agrees; [by left|by right]. }
  split; [cbn; lia|]. split; [exact Hrun|]. split; [vm_compute; reflexivity|].
  exists 1, (data 6), (es 6), 3000000, (fun slot => slot / 432000), (body ConfigWitness.c0).
  split; [exact chain_state_6|]. split; [apply Z.leb_le; vm_compute; reflexivity|]. split; [reflexivity|].
  do 2 (split; [reflexivity|]). split; [exact config_read|]. vm_compute. reflexivity.
Qed.
