(* ===== verification/Submit.v ===== *)
(** The operator's client towards the chain
    (tip-router-operator-cli/src/submit.rs and tip_router.rs): casting the vote
    for the operator's meta root, and uploading the validators' roots once the
    ballot box is decided.

    The network is a parameter: the accounts it returns, whether it has a
    blockhash, and which transactions succeed.  A run is the list of the
    instructions it sends and its outcome; logs and metrics are left out. *)

From Stdlib Require Import String.
From stdpp Require Import list.
From S2P Require Import Prelude Errors External Accounts Config MerkleTree EpochSnapshot EpochState BallotBox VoteHandlers.

(* ------------------------------------------------------------------ *)
(** * Tip distribution accounts *)

(** The account types of the tip distribution program's interface
    (tip_distribution_sdk/idls/jito_tip_distribution.json). *)
Record UploadedRoot := mkUploadedRoot {
  ur_root : hash;
  ur_max_total_claim : Z;
  ur_max_num_nodes : Z;
  ur_total_funds_claimed : Z;
  ur_num_nodes_claimed : Z;
}.

Record TipDistributionAccount := mkTipDistributionAccount {
  ta_validator_vote_account : Pubkey;
  ta_merkle_root_upload_authority : Pubkey;
  ta_merkle_root : option UploadedRoot;
  ta_epoch_created_at : Z;
  ta_validator_commission_bps : Z;
  ta_expires_at : Z;
  ta_bump : Z;
}.

(** The layout of the account's data: the discriminator, then the fields in
    their order, an option with a tag byte. *)
Definition TDA_DISCRIMINATOR : list Z := [85; 64; 113; 198; 234; 94; 120; 123].

Definition uploaded_root_data (r : option UploadedRoot) : list Z :=
  match r with
  | None => [0]
  | Some r => 1 :: ur_root r ++ to_le_bytes 8 (ur_max_total_claim r) ++ to_le_bytes 8 (ur_max_num_nodes r)
                ++ to_le_bytes 8 (ur_total_funds_claimed r) ++ to_le_bytes 8 (ur_num_nodes_claimed r)
  end.

Definition tda_data (t : TipDistributionAccount) : list Z :=
  TDA_DISCRIMINATOR ++ to_bytes (ta_validator_vote_account t) ++ to_bytes (ta_merkle_root_upload_authority t)
  ++ uploaded_root_data (ta_merkle_root t) ++ to_le_bytes 8 (ta_epoch_created_at t)
  ++ to_le_bytes 2 (ta_validator_commission_bps t) ++ to_le_bytes 8 (ta_expires_at t) ++ [ta_bump t].

(** The generated decoder ([TipDistributionAccount::try_deserialize]). *)
Class TdaDecoder := tda_decode : list Z -> option TipDistributionAccount.

(** [RpcFilterType::Memcmp]: the bytes expected at an offset. *)
Record Memcmp := mkMemcmp { mc_offset : nat; mc_bytes : list Z }.

(* ------------------------------------------------------------------ *)
(** * Instructions, errors and runs *)

(** What [CastVoteBuilder] builds. *)
Record CastVoteIx := mkCastVoteIx {
  cv_epoch_state : Pubkey;
  cv_config : Pubkey;
  cv_ballot_box : Pubkey;
  cv_ncn : Pubkey;
  cv_epoch_snapshot : Pubkey;
  cv_operator_snapshot : Pubkey;
  cv_operator : Pubkey;
  cv_operator_voter : Pubkey;
  cv_meta_merkle_root : hash;
  cv_epoch : Z;
}.

(** What [SetMerkleRootBuilder] builds. *)
Record SetMerkleRootIx := mkSetMerkleRootIx {
  sm_epoch_state : Pubkey;
  sm_config : Pubkey;
  sm_ncn : Pubkey;
  sm_ballot_box : Pubkey;
  sm_vote_account : Pubkey;
  sm_tip_distribution_account : Pubkey;
  sm_tip_distribution_config : Pubkey;
  sm_tip_distribution_program : Pubkey;
  sm_proof : list hash;
  sm_merkle_root : hash;
  sm_max_total_claim : Z;
  sm_max_num_nodes : Z;
  sm_epoch : Z;
}.

Inductive SentIx : Type :=
| Memo (data : hash) (signer : Pubkey)
| CastVote (ix : CastVoteIx)
| SetMerkleRoot (ix : SetMerkleRootIx).

(** The errors, without their messages; [SubmitPanic] is an [unwrap], [panic!]
    or overflow. *)
Module SubmitError.
Inductive SubmitError : Type :=
| RpcError
| ParsePubkeyError
| TreeFileError
| DecodeError
| VotingCheckError
| BallotTallyNotFound
| SubmitPanic.
End SubmitError.
Abbreviation SubmitError := SubmitError.SubmitError.

(** A run: the instructions sent so far, and its outcome. *)
Record sends (A : Type) := mkSends { sent : list SentIx; outcome : result SubmitError A }.
Arguments mkSends {A} _ _.
Arguments sent {A} _.
Arguments outcome {A} _.

#[export] Instance sends_ret : MRet sends := fun A a => mkSends [] (Ok a).
#[export] Instance sends_bind : MBind sends := fun A B f m =>
  match outcome m with
  | Ok a => mkSends (sent m ++ sent (f a)) (outcome (f a))
  | Err e => mkSends (sent m) (Err e)
  end.

Definition attempt {A} (r : result SubmitError A) : sends A := mkSends [] r.
Definition send (ix : SentIx) : sends unit := mkSends [ix] (Ok tt).

(** [match r { Ok(_) => .., Err(e) => error!(..) }]: errors are logged and the
    caller goes on; a panic goes through. *)
Definition logged {A} (m : sends A) : sends unit :=
  mkSends (sent m) (match outcome m with Err SubmitError.SubmitPanic => Err SubmitError.SubmitPanic | _ => Ok tt end).

(** What the network answers during one [submit_to_ncn].  An account that is
    there but does not decode is [Some None].  [net_blockhash i k] and
    [net_process i k] are about the [k]th attempt to send the [i]th upload. *)
Record Network := mkNetwork {
  net_slot : option Z;
  net_config : Pubkey -> option (option Config);
  net_ballot_box : Pubkey -> option (option BallotBox);
  net_program_accounts : Pubkey -> list Memcmp -> option (list (Pubkey * list Z));
  net_blockhash : nat -> nat -> bool;
  net_process : nat -> nat -> bool;
}.

(** The arguments that do not change between epochs. *)
Record Client := mkClient {
  cl_ncn_address : Pubkey;
  cl_tip_router_program_id : Pubkey;
  cl_tip_distribution_program_id : Pubkey;
  cl_keypair : Pubkey;
  cl_submit_as_memo : bool;
  cl_set_merkle_roots : bool;
}.

(* ------------------------------------------------------------------ *)
(** * Building the instructions *)

Section submit.
Context `{Solana} `{TdaDecoder}.

Definition cast_vote_ix (c : Client) (operator : Pubkey) (meta_merkle_root : hash) (tip_router_epoch : Z) : SentIx :=
  let program := cl_tip_router_program_id c in
  let ncn := cl_ncn_address c in
  if cl_submit_as_memo c then Memo meta_merkle_root (cl_keypair c)
  else CastVote (mkCastVoteIx
    (EpochState.find_program_address program ncn tip_router_epoch).1.1
    (Config.find_program_address program ncn).1.1
    (BallotBox.find_program_address program ncn tip_router_epoch).1.1
    ncn
    (EpochSnapshot.find_program_address program ncn tip_router_epoch).1.1
    (OperatorSnapshot.find_program_address program operator ncn tip_router_epoch).1.1
    operator (cl_keypair c) meta_merkle_root tip_router_epoch).

(** The closure of [filter_map]: [None] when the node has no proof. *)
Definition set_merkle_root_ix (c : Client) (epoch : Z) (meta_merkle_tree : MetaMerkleTree)
    (entry : Pubkey * TipDistributionAccount) : result SubmitError (option SetMerkleRootIx) :=
  let '(key, tip_distribution_account) := entry in
  let program := cl_tip_router_program_id c in
  let ncn := cl_ncn_address c in
  match get_node meta_merkle_tree key with
  | Err _ => Err SubmitError.SubmitPanic
  | Ok meta_merkle_node =>
      match tn_proof meta_merkle_node with
      | None => mret None
      | Some proof => mret (Some (mkSetMerkleRootIx
          (EpochState.find_program_address program ncn epoch).1.1
          (Config.find_program_address program ncn).1.1 ncn
          (BallotBox.find_program_address program ncn epoch).1.1
          (ta_validator_vote_account tip_distribution_account) key
          (find_program_address_ext [bytes_of_string "CONFIG_ACCOUNT"] (cl_tip_distribution_program_id c)).1
          (cl_tip_distribution_program_id c) proof (validator_merkle_root meta_merkle_node)
          (max_total_claim meta_merkle_node) (max_num_nodes meta_merkle_node) epoch))
      end
  end.

Definition set_merkle_root_ixs (c : Client) (epoch : Z) (tip_distribution_accounts : list (Pubkey * TipDistributionAccount))
    (meta_merkle_tree : MetaMerkleTree) : result SubmitError (list SetMerkleRootIx) :=
  instructions ← mapM (set_merkle_root_ix c epoch meta_merkle_tree) tip_distribution_accounts;
  mret (omap id instructions).

(** The retries of one instruction; [n] attempts are left. *)
Fixpoint send_with_retry (net : Network) (i k n : nat) (ix : SetMerkleRootIx) : sends bool :=
  match n with
  | O => mret false
  | S n =>
      if negb (net_blockhash net i k) then attempt (Err SubmitError.RpcError) else
      _ ← send (SetMerkleRoot ix);
      if net_process net i k then mret true else send_with_retry net i (S k) n ix
  end.

Fixpoint send_all (net : Network) (i : nat) (instructions : list SetMerkleRootIx) : sends (list bool) :=
  match instructions with
  | [] => mret []
  | ix :: instructions =>
      result ← send_with_retry net i 0 5 ix;
      results ← send_all net (S i) instructions;
      mret (result :: results)
  end.

Definition set_merkle_roots_batched (net : Network) (c : Client) (epoch : Z)
    (tip_distribution_accounts : list (Pubkey * TipDistributionAccount)) (meta_merkle_tree : MetaMerkleTree)
    : sends (list bool) :=
  instructions ← attempt (set_merkle_root_ixs c epoch tip_distribution_accounts meta_merkle_tree);
  send_all net 0 instructions.

(** The filters of the request: the upload authority, and the epoch at the
    place it has in an account without a root. *)
Definition upload_filters (epoch : Z) (tip_router_config_address : Pubkey) : list Memcmp :=
  [mkMemcmp (8 + 32) (to_bytes tip_router_config_address); mkMemcmp (8 + 32 + 32 + 1) (to_le_bytes 8 epoch)].

(** The closure of [filter_map], which checks the account again. *)
Definition upload_entry (epoch : Z) (tip_router_config_address : Pubkey) (entry : Pubkey * list Z)
    : option (Pubkey * TipDistributionAccount) :=
  match tda_decode entry.2 with
  | Some tip_distribution_account =>
      if (ta_epoch_created_at tip_distribution_account =? epoch)
         && bool_decide (ta_merkle_root_upload_authority tip_distribution_account = tip_router_config_address)
      then Some (entry.1, tip_distribution_account) else None
  | None => None
  end.

Definition get_tip_distribution_accounts_to_upload (net : Network) (c : Client) (epoch : Z)
    (tip_router_config_address : Pubkey) : result SubmitError (list (Pubkey * TipDistributionAccount)) :=
  tip_distribution_accounts ←
    ok_or (net_program_accounts net (cl_tip_distribution_program_id c) (upload_filters epoch tip_router_config_address))
      SubmitError.RpcError;
  mret (omap (M := list) (upload_entry epoch tip_router_config_address) tip_distribution_accounts).

(* ------------------------------------------------------------------ *)
(** * One epoch *)

(** Whether the operator's recorded vote is for another root, or missing. *)
Definition should_cast_vote (ballot_box : BallotBox) (operator_address : Pubkey) (merkle_root : hash)
    : result SubmitError bool :=
  match list_find (fun vote => ov_operator vote = operator_address) (bb_operator_votes ballot_box) with
  | Some (_, vote) =>
      tally ← ok_or (bb_ballot_tallies ballot_box !! Z.to_nat (ov_ballot_index vote)) SubmitError.BallotTallyNotFound;
      mret (negb (bool_decide (meta_merkle_root (bt_ballot tally) = merkle_root)))
  | None => mret true
  end.

(** The reads before anything is sent: [None] when there is no ballot box yet. *)
Definition read_ballot_box (net : Network) (c : Client) (tree_file : option MetaMerkleTree) (merkle_root_epoch : Z)
    : result SubmitError (option (Z * Config * MetaMerkleTree * BallotBox)) :=
  absolute_slot ← ok_or (net_slot net) SubmitError.RpcError;
  meta_merkle_tree ← ok_or tree_file SubmitError.TreeFileError;
  config ← ok_or (net_config net (Config.find_program_address (cl_tip_router_program_id c) (cl_ncn_address c)).1.1)
             SubmitError.RpcError;
  config ← ok_or config SubmitError.SubmitPanic;
  tip_router_target_epoch ← ok_or (checked_add U64 merkle_root_epoch 1) SubmitError.SubmitPanic;
  match net_ballot_box net (BallotBox.find_program_address (cl_tip_router_program_id c) (cl_ncn_address c)
                              tip_router_target_epoch).1.1 with
  | None => mret None
  | Some ballot_box =>
      ballot_box ← ok_or ballot_box SubmitError.DecodeError;
      mret (Some (absolute_slot, config, meta_merkle_tree, ballot_box))
  end.

(** The last part: uploading the roots of a decided box. *)
Definition upload_roots (net : Network) (c : Client) (ballot_box : BallotBox) (meta_merkle_tree : MetaMerkleTree)
    (merkle_root_epoch : Z) : sends unit :=
  if BallotBox.is_consensus_reached ballot_box && cl_set_merkle_roots c then
    tip_distribution_accounts ← attempt (get_tip_distribution_accounts_to_upload net c merkle_root_epoch
      (Config.find_program_address (cl_tip_router_program_id c) (cl_ncn_address c)).1.1);
    logged (set_merkle_roots_batched net c (merkle_root_epoch + 1) tip_distribution_accounts meta_merkle_tree)
  else mret tt.

Definition submit_to_ncn (net : Network) (c : Client) (operator_address : Pubkey) (tree_file : option MetaMerkleTree)
    (merkle_root_epoch : Z) : sends unit :=
  read ← attempt (read_ballot_box net c tree_file merkle_root_epoch);
  match read with
  | None => mret tt
  | Some (absolute_slot, config, meta_merkle_tree, ballot_box) =>
      is_voting_valid ← attempt
        (match BallotBox.is_voting_valid ballot_box absolute_slot (cf_valid_slots_after_consensus config) with
         | Ok valid => Ok valid
         | Err _ => Err SubmitError.VotingCheckError
         end);
      cast ← attempt (should_cast_vote ballot_box operator_address (merkle_root meta_merkle_tree));
      _ ← (if (cast : bool) && (is_voting_valid : bool)
           then send (cast_vote_ix c operator_address (merkle_root meta_merkle_tree) (merkle_root_epoch + 1))
           else mret tt);
      upload_roots net c ballot_box meta_merkle_tree merkle_root_epoch
  end.

(* ------------------------------------------------------------------ *)
(** * The monitored epochs *)

(** [rest] epochs are left, [i] are done.  [tree_files e] is the file of epoch
    [e]: absent, unreadable, or a tree; the network answers anew each time. *)
Fixpoint submit_epochs (nets : nat -> Network) (c : Client) (operator_address : Pubkey)
    (tree_files : Z -> option (option MetaMerkleTree)) (epoch : Z) (i rest : nat) : sends unit :=
  match rest with
  | O => mret tt
  | S rest =>
      process_epoch ← attempt (ok_or (checked_sub epoch (Z.of_nat i)) SubmitError.SubmitPanic);
      _ ← (match tree_files process_epoch with
           | None => mret tt
           | Some tree_file => logged (submit_to_ncn (nets i) c operator_address tree_file process_epoch)
           end);
      submit_epochs nets c operator_address tree_files epoch (S i) rest
  end.

Definition submit_recent_epochs_to_ncn (current_epoch : option Z) (nets : nat -> Network) (c : Client)
    (operator_address : option Pubkey) (tree_files : Z -> option (option MetaMerkleTree)) (num_monitored_epochs : nat)
    : sends unit :=
  epoch ← attempt (ok_or current_epoch SubmitError.RpcError);
  operator_address ← attempt (ok_or operator_address SubmitError.ParsePubkeyError);
  submit_epochs nets c operator_address tree_files epoch 0 num_monitored_epochs.
End submit.
