(* ===== verification/SubmitTheorems.v ===== *)
(** The promises of the operator's client (Submit): it votes exactly until its
    vote is recorded, the votes and uploads it sends are accepted by the
    instructions, it asks for exactly the distribution accounts that wait for a
    root, and one such account without a node in the meta tree stops it. *)

From Stdlib Require Import String.
From stdpp Require Import list.
From S2P Require Import Prelude Errors External Constants Accounts FeeGroups Fees Config StakeWeight MerkleTree VaultRegistry WeightTable EpochSnapshot EpochState BallotBox BallotBoxProps BallotBoxTheorems MerkleTreeProps MerkleTheorems VoteHandlers Submit.

#[local] Arguments gw : simpl never.
#[local] Arguments ONE : simpl never.

(* ------------------------------------------------------------------ *)
(** * Runs *)

Lemma sent_bind {A B} (m : sends A) (f : A -> sends B) :
  sent (m ≫= f) = sent m ++ (match outcome m with Ok a => sent (f a) | Err _ => [] end).
Proof. unfold mbind, sends_bind. destruct (outcome m); cbn [sent]; [done|by rewrite app_nil_r]. Qed.

Lemma outcome_bind {A B} (m : sends A) (f : A -> sends B) :
  outcome (m ≫= f) = (a ← outcome m; outcome (f a)).
Proof. unfold mbind at 1, sends_bind. by destruct (outcome m). Qed.

Lemma attempt_Ok {A B} (a : A) (f : A -> sends B) : (attempt (Ok a) ≫= f) = f a.
Proof. unfold mbind, sends_bind. cbn. by destruct (f a). Qed.

Lemma attempt_Err {A B} e (f : A -> sends B) : (attempt (Err e) ≫= f) = mkSends [] (Err e).
Proof. done. Qed.

Lemma ret_bind {A B} (a : A) (f : A -> sends B) : (mret a ≫= f) = f a.
Proof. exact (attempt_Ok a f). Qed.

Lemma logged_outcome {A} (m : sends A) :
  outcome (logged m) = Ok tt \/ outcome (logged m) = Err SubmitError.SubmitPanic.
Proof. unfold logged. cbn. destruct (outcome m) as [|[]]; auto. Qed.

Definition is_upload (x : SentIx) : Prop := match x with SetMerkleRoot _ => True | _ => False end.
#[export] Instance is_upload_dec x : Decision (is_upload x).
Proof. destruct x; [right; by intros []|right; by intros []|by left]. Defined.

(** The votes among the instructions sent. *)
Definition votes_sent (l : list SentIx) : list SentIx := filter (fun x => ~ is_upload x) l.

Lemma votes_sent_app l k : votes_sent (l ++ k) = votes_sent l ++ votes_sent k.
Proof. apply list.filter_app. Qed.

Lemma votes_sent_uploads l : Forall is_upload l -> votes_sent l = [].
Proof.
  induction 1 as [|x l Hx _ IH]; [done|]. unfold votes_sent in *. rewrite filter_cons.
  by rewrite decide_False by auto.
Qed.

Section runs.
Context `{Solana} `{TdaDecoder}.

Lemma send_with_retry_sends net i k n ix : Forall (eq (SetMerkleRoot ix)) (sent (send_with_retry net i k n ix)).
Proof.
  revert k. induction n as [|n IH]; intros k; cbn [send_with_retry]; [constructor|].
  destruct (negb _); [constructor|]. rewrite sent_bind. constructor; [done|]. cbn [outcome send].
  destruct (net_process _ _ _); [constructor|apply IH].
Qed.

Lemma send_all_sends net i ixs :
  Forall (fun x => exists ix, ix ∈ ixs /\ x = SetMerkleRoot ix) (sent (send_all net i ixs)).
Proof.
  revert i. induction ixs as [|ix ixs IH]; intros i; cbn [send_all]; [constructor|].
  rewrite sent_bind. apply list.Forall_app. split.
  - eapply list.Forall_impl; [apply send_with_retry_sends|]. intros x <-. exists ix. split; [left|done].
  - destruct (outcome (send_with_retry net i 0 5 ix)); [|constructor]. rewrite sent_bind. apply list.Forall_app. split.
    + eapply list.Forall_impl; [apply IH|]. intros x (y & Hy & ->). exists y. split; [by right|done].
    + destruct (outcome _); constructor.
Qed.

Lemma upload_roots_sends net c box tree e : Forall is_upload (sent (upload_roots net c box tree e)).
Proof.
  unfold upload_roots. destruct (_ && _); [|constructor].
  destruct (get_tip_distribution_accounts_to_upload _ _ _ _) as [l|]; [|constructor]. rewrite attempt_Ok.
  cbn [logged sent]. unfold set_merkle_roots_batched. destruct (set_merkle_root_ixs _ _ _ _) as [ixs|]; [|constructor].
  rewrite attempt_Ok. eapply list.Forall_impl; [apply send_all_sends|]. by intros x (ix & _ & ->).
Qed.

(** What a run does once the accounts are read. *)
Lemma submit_to_ncn_read net c op tf e slot cfg tree box cast :
  read_ballot_box net c tf e = Ok (Some (slot, cfg, tree, box)) ->
  should_cast_vote box op (merkle_root tree) = Ok cast ->
  submit_to_ncn net c op tf e =
  match BallotBox.is_voting_valid box slot (cf_valid_slots_after_consensus cfg) with
  | Ok valid => _ ← (if cast && valid then send (cast_vote_ix c op (merkle_root tree) (e + 1)) else mret tt);
                upload_roots net c box tree e
  | Err _ => mkSends [] (Err SubmitError.VotingCheckError)
  end.
Proof.
  intros Hr Hc. unfold submit_to_ncn. rewrite Hr, attempt_Ok.
  destruct (BallotBox.is_voting_valid _ _ _) as [valid|]; [|done]. by rewrite attempt_Ok, Hc, attempt_Ok.
Qed.
End runs.

(* ------------------------------------------------------------------ *)
(** * Voting *)

(** Whether the operator's recorded vote is for [root]. *)
Definition votes_for_root (box : BallotBox) (op : Pubkey) (root : hash) : bool :=
  match vote_of box op with Some (ballot, _) => bool_decide (meta_merkle_root ballot = root) | None => false end.

Lemma should_cast_vote_spec box op root :
  bb_inv box -> op <> Pubkey_default -> should_cast_vote box op root = Ok (negb (votes_for_root box op root)).
Proof.
  intros Hb Hop. unfold should_cast_vote, votes_for_root, vote_of.
  destruct (list_find _ (bb_operator_votes box)) as [[p v]|] eqn:Ef; [|done].
  apply list_find_Some in Ef as (Hp & Hv & _).
  destruct (vote_tally box p v Hb Hp) as (t & Ht & _); [congruence|].
  unfold ballot_voted. cbn [mbind option_bind]. rewrite Ht. done.
Qed.

Section voting.
Context `{Solana} `{L : PreciseNumberLaws} `{Programs} `{TdaDecoder}.

Lemma submit_votes net c op tf e slot cfg tree box valid :
  read_ballot_box net c tf e = Ok (Some (slot, cfg, tree, box)) -> bb_inv box -> op <> Pubkey_default ->
  BallotBox.is_voting_valid box slot (cf_valid_slots_after_consensus cfg) = Ok valid ->
  votes_sent (sent (submit_to_ncn net c op tf e)) =
    if valid && negb (votes_for_root box op (merkle_root tree))
    then [cast_vote_ix c op (merkle_root tree) (e + 1)] else [].
Proof.
  intros Hr Hb Hop Hv. rewrite (submit_to_ncn_read _ _ _ _ _ _ _ _ _ _ Hr (should_cast_vote_spec _ _ _ Hb Hop)), Hv.
  rewrite sent_bind, votes_sent_app, andb_comm.
  assert (Hix : votes_sent [cast_vote_ix c op (merkle_root tree) (e + 1)] = [cast_vote_ix c op (merkle_root tree) (e + 1)]).
  { unfold votes_sent, cast_vote_ix. by destruct (cl_submit_as_memo c). }
  destruct (valid && _); cbn [sent outcome send mret sends_ret];
    rewrite (votes_sent_uploads (sent (upload_roots _ _ _ _ _))) by apply upload_roots_sends;
    rewrite app_nil_r; [exact Hix|done].
Qed.

Lemma process_cast_vote_vote_of program_id clock es config bb ncn snap os operator voter root epoch es' bb' :
  process_cast_vote program_id clock es config bb ncn snap os operator voter root epoch = Ok (es', bb') ->
  bb_inv (body bb) -> acc_key operator <> Pubkey_default -> sw_wf (os_stake_weights (body os)) ->
  fits U128 (stake_weight (es_stake_weights (body snap))) ->
  bb_inv (body bb') /\ vote_of (body bb') (acc_key operator) = Some (Ballot.new root, os_stake_weights (body os)).
Proof.
  intros Hrun Hb Hop Hw HW. destruct (process_cast_vote_body _ _ _ _ _ _ _ _ _ _ _ _ _ _ Hrun) as (_ & _ & _ & b1 & Hc & Ht & _).
  destruct (cast_vote_map _ _ _ _ _ _ _ Hb Hop Hw Hc) as (Hb1 & Hv & _).
  destruct (tally_votes_inv _ _ _ _ Hb1 HW Ht) as (Hb' & _ & Hvs & Hts). split; [done|].
  rewrite <- Hv. unfold vote_of, ballot_voted. by rewrite Hvs, Hts.
Qed.

(** C21: with the accounts read, the client sends one vote instruction, for its
    tree's root and the epoch after the tree's, exactly when voting is still
    valid and its recorded vote is not for this root.  After the program has
    processed its vote, no run on that box sends a vote for the tree again. *)
Theorem client_votes_until_recorded net c op tf e slot cfg tree box valid :
  read_ballot_box net c tf e = Ok (Some (slot, cfg, tree, box)) -> bb_inv box -> op <> Pubkey_default ->
  BallotBox.is_voting_valid box slot (cf_valid_slots_after_consensus cfg) = Ok valid ->
  votes_sent (sent (submit_to_ncn net c op tf e)) =
    (if valid && negb (votes_for_root box op (merkle_root tree))
     then [cast_vote_ix c op (merkle_root tree) (e + 1)] else []) /\
  forall clock es config bb ncn snap os operator voter es' bb' net' slot' cfg',
    body bb = box -> acc_key operator = op -> sw_wf (os_stake_weights (body os)) ->
    fits U128 (stake_weight (es_stake_weights (body snap))) ->
    process_cast_vote (cl_tip_router_program_id c) clock es config bb ncn snap os operator voter (merkle_root tree) (e + 1)
      = Ok (es', bb') ->
    read_ballot_box net' c tf e = Ok (Some (slot', cfg', tree, body bb')) ->
    votes_sent (sent (submit_to_ncn net' c op tf e)) = [].
Proof.
  intros Hr Hb Hop Hv. split; [by eapply submit_votes|].
  intros clock es config bb ncn snap os operator voter es' bb' net' slot' cfg' Hbb Hk Hw HW Hrun Hr'.
  destruct (process_cast_vote_vote_of _ _ _ _ _ _ _ _ _ _ _ _ _ _ Hrun) as [Hb' Hvote]; [congruence..|].
  destruct (BallotBox.is_voting_valid (body bb') slot' (cf_valid_slots_after_consensus cfg')) as [valid'|] eqn:Hv'.
  - rewrite (submit_votes _ _ _ _ _ _ _ _ _ _ Hr' Hb' Hop Hv').
    unfold votes_for_root. rewrite <- Hk, Hvote. cbn [meta_merkle_root Ballot.new].
    rewrite bool_decide_eq_true_2 by done. by rewrite andb_false_r.
  - by rewrite (submit_to_ncn_read _ _ _ _ _ _ _ _ _ _ Hr' (should_cast_vote_spec _ _ _ Hb' Hop)), Hv'.
Qed.

(** The accounts a vote instruction names, as the program receives them. *)
Record vote_accounts (program_id : Pubkey) (ix : CastVoteIx) (es : Acct EpochState) (config : Acct Config)
    (bb : Acct BallotBox) (ncn : AccountInfo) (snap : Acct EpochSnapshot) (os : Acct OperatorSnapshot)
    (operator voter : AccountInfo) : Prop := {
  va_ncn : acc_key ncn = cv_ncn ix;
  va_operator : acc_key operator = cv_operator ix;
  va_voter : acc_key voter = cv_operator_voter ix;
  va_epoch_state : check_load program_id (info es) (cv_epoch_state ix) (Some (discriminator DEpochState)) false = Ok tt;
  va_config : check_load program_id (info config) (cv_config ix) (Some (discriminator DConfig)) false = Ok tt;
  va_ballot_box : check_load program_id (info bb) (cv_ballot_box ix) (Some (discriminator DBallotBox)) true = Ok tt;
  va_epoch_snapshot :
    check_load program_id (info snap) (cv_epoch_snapshot ix) (Some (discriminator DEpochSnapshot)) false = Ok tt;
  va_operator_snapshot :
    check_load program_id (info os) (cv_operator_snapshot ix) (Some (discriminator DOperatorSnapshot)) false = Ok tt;
  va_signer : load_signer voter false = Ok tt;
  va_ncn_load : ncn_load ncn false = Ok tt;
  va_operator_load : operator_load operator false = Ok tt;
}.

(** C18: the vote instruction names the accounts the program expects: with the
    operator's voter as key pair, a final snapshot, stake to decide by, a root
    that is not zero and room in the box, a vote sent while voting is valid is
    accepted by the program exactly when the vote is undecided or the operator
    has not voted yet.  In particular a client whose recorded vote differs from
    its tree, which keeps sending its vote in the window after the decision, is
    refused each time. *)
Theorem sent_vote_accepted c op root e ix clock es config bb ncn snap os operator voter :
  cast_vote_ix c op root e = CastVote ix ->
  vote_accounts (cl_tip_router_program_id c) ix es config bb ncn snap os operator voter ->
  operator_voter_of operator = Ok (cl_keypair c) -> EpochSnapshot.finalized (body snap) = true ->
  bb_inv (body bb) -> op <> Pubkey_default -> sw_wf (os_stake_weights (body os)) ->
  fits U128 (stake_weight (es_stake_weights (body snap))) -> 0 < stake_weight (es_stake_weights (body snap)) ->
  ballot_is_valid (Ballot.new root) = true -> bb_operators_voted (body bb) < 256 ->
  headroom (body bb) (os_stake_weights (body os)) ->
  BallotBox.is_voting_valid (body bb) (clock_slot clock) (cf_valid_slots_after_consensus (body config)) = Ok true ->
  is_ok (process_cast_vote (cl_tip_router_program_id c) clock es config bb ncn snap os operator voter
           (cv_meta_merkle_root ix) (cv_epoch ix)) <->
  BallotBox.is_consensus_reached (body bb) = false \/ vote_of (body bb) op = None.
Proof.
  intros Hix [Hn Ho Hvo L1 L2 L3 L4 L5 L6 L7 L8] Hvoter Hfin Hb Hop Hw HW Hpos Hroot Hroom Hh Hvalid.
  unfold cast_vote_ix in Hix. destruct (cl_submit_as_memo c); [done|]. injection Hix as <-.
  cbn [cv_ncn cv_operator cv_operator_voter cv_epoch_state cv_config cv_ballot_box cv_epoch_snapshot
       cv_operator_snapshot cv_meta_merkle_root cv_epoch] in *.
  rewrite cast_vote_instruction_iff; [|split_and!; cbv [EpochState.load Config.load BallotBox.load
    EpochSnapshot.load OperatorSnapshot.load]; rewrite ?Hn, ?Ho; done|congruence|done|done|congruence|done|done].
  rewrite Ho. split.
  - intros [[b' Hc] _]. destruct (BallotBox.is_consensus_reached (body bb)) eqn:Ec; [right|by left].
    by eapply cast_vote_new_voter.
  - intros Hcase. split; [by apply cast_vote_ok|by left].
Qed.
End voting.

(* ------------------------------------------------------------------ *)
(** * Uploading *)

Lemma find_node_by_key (l : list TreeNode) k :
  k ∈ tip_distribution_account <$> l ->
  exists i n, list_find (fun n => tip_distribution_account n = k) l = Some (i, n) /\ n ∈ l /\ tip_distribution_account n = k.
Proof.
  intros (n & -> & Hn)%list_elem_of_fmap.
  destruct (list_find_elem_of (fun m => tip_distribution_account m = tip_distribution_account n) l n) as [[i m] Hf]; [done..|].
  exists i, m. split; [exact Hf|]. apply list_find_Some in Hf as (Hm & E & _). split; [by eapply list_elem_of_lookup_2|done].
Qed.

Section uploading.
Context `{Solana} `{Programs} `{TdaDecoder}.

(** The accounts of a meta tree are those of the nodes it was built from. *)
Lemma MetaMerkleTree_new_accounts ns t :
  MetaMerkleTree_new ns = Ok t -> tip_distribution_account <$> tree_nodes t ≡ₚ tip_distribution_account <$> ns.
Proof.
  intros Ht. unfold MetaMerkleTree_new in Ht. res_inv.
  unfold mt in Hx0. destruct (set_proofs x 0 (sort_by_hash ns)) as [l|] eqn:Es in Hx0; [|done]. res_inv.
  destruct (Forall2_with_proof _ _ (set_proofs_shape _ _ _ _ Es)) as [_ Ha]. cbn [tree_nodes].
  by rewrite Ha, sort_by_hash_perm.
Qed.

Lemma submit_epochs_panics nets c op tree_files epoch i tf j n :
  (j <= i < j + n)%nat -> Z.of_nat i <= epoch -> tree_files (epoch - Z.of_nat i) = Some tf ->
  outcome (submit_to_ncn (nets i) c op tf (epoch - Z.of_nat i)) = Err SubmitError.SubmitPanic ->
  outcome (submit_epochs nets c op tree_files epoch j n) = Err SubmitError.SubmitPanic.
Proof.
  intros Hi He Hf Hrun. revert j Hi. induction n as [|n IH]; intros j Hi; [lia|]. cbn [submit_epochs].
  rewrite checked_sub_ok by lia. rewrite (attempt_Ok (epoch - Z.of_nat j)), outcome_bind.
  destruct (decide (j = i)) as [->|Hne].
  - rewrite Hf. cbn [logged outcome]. by rewrite Hrun.
  - destruct (tree_files (epoch - Z.of_nat j)) as [tf'|]; [|cbn; apply IH; lia].
    destruct (logged_outcome (submit_to_ncn (nets j) c op tf' (epoch - Z.of_nat j))) as [->| ->]; [|done].
    cbn [mbind result_bind]. apply IH. lia.
Qed.

(** The instruction for the account [key] of a validator, from the node of the tree. *)
Definition upload_of (c : Client) (epoch : Z) (entry : Pubkey * TipDistributionAccount) (n : TreeNode) (p : list hash)
    : SetMerkleRootIx :=
  mkSetMerkleRootIx (EpochState.find_program_address (cl_tip_router_program_id c) (cl_ncn_address c) epoch).1.1
    (Config.find_program_address (cl_tip_router_program_id c) (cl_ncn_address c)).1.1 (cl_ncn_address c)
    (BallotBox.find_program_address (cl_tip_router_program_id c) (cl_ncn_address c) epoch).1.1
    (ta_validator_vote_account entry.2) entry.1
    (find_program_address_ext [bytes_of_string "CONFIG_ACCOUNT"] (cl_tip_distribution_program_id c)).1
    (cl_tip_distribution_program_id c) p (validator_merkle_root n) (max_total_claim n) (max_num_nodes n) epoch.

Lemma set_merkle_root_ix_listed c epoch tree ns entry :
  MetaMerkleTree_new ns = Ok tree -> entry.1 ∈ tip_distribution_account <$> tree_nodes tree ->
  exists n p, n ∈ tree_nodes tree /\ tip_distribution_account n = entry.1 /\ tn_proof n = Some p /\
    set_merkle_root_ix c epoch tree entry = Ok (Some (upload_of c epoch entry n p)).
Proof.
  intros Ht (i & n & Hf & Hn & Hk)%find_node_by_key. destruct (MetaMerkleTree_new_root _ _ Ht) as (_ & Hp & _).
  destruct (Hp n Hn) as (p & Hproof & _). exists n, p. split_and!; [done..|].
  unfold set_merkle_root_ix, get_node. destruct entry as [k t]. cbn [fst] in Hf. rewrite Hf.
  cbn [ok_or mbind result_bind mret result_ret]. by rewrite Hproof.
Qed.

Lemma set_merkle_root_ix_unlisted c epoch tree entry :
  entry.1 ∉ tip_distribution_account <$> tree_nodes tree -> set_merkle_root_ix c epoch tree entry = Err SubmitError.SubmitPanic.
Proof.
  intros Hn. unfold set_merkle_root_ix, get_node. destruct entry as [k t]. cbn [fst] in Hn.
  destruct (list_find _ _) as [[i n]|] eqn:Ef; [|done]. apply list_find_Some in Ef as (Hi & <- & _).
  exfalso. apply Hn, list_elem_of_fmap_2. by eapply list_elem_of_lookup_2.
Qed.

Lemma set_merkle_root_ixs_unlisted c epoch tree l entry :
  entry ∈ l -> entry.1 ∉ tip_distribution_account <$> tree_nodes tree ->
  set_merkle_root_ixs c epoch l tree = Err SubmitError.SubmitPanic.
Proof.
  intros Hin Hn. unfold set_merkle_root_ixs.
  assert (mapM (set_merkle_root_ix c epoch tree) l = Err SubmitError.SubmitPanic) as ->; [|done].
  assert (Herr : forall e err, set_merkle_root_ix c epoch tree e = Err err -> err = SubmitError.SubmitPanic).
  { intros [k t] err. unfold set_merkle_root_ix. destruct (get_node tree k) as [n|]; [|by intros [= <-]].
    by destruct (tn_proof n). }
  induction Hin as [e l|e1 e l Hin IH]; cbn [mapM]; [by rewrite set_merkle_root_ix_unlisted|].
  destruct (set_merkle_root_ix c epoch tree e) as [o|err] eqn:E; cbn [mbind result_bind]; [by rewrite (IH Hn)|].
  by rewrite (Herr _ _ E).
Qed.

Lemma set_merkle_root_ixs_listed c epoch tree ns l :
  MetaMerkleTree_new ns = Ok tree -> l.*1 ⊆ tip_distribution_account <$> tree_nodes tree ->
  exists ixs, set_merkle_root_ixs c epoch l tree = Ok ixs /\
    Forall2 (fun entry ix => exists n p, n ∈ tree_nodes tree /\ tip_distribution_account n = entry.1 /\
      tn_proof n = Some p /\ ix = upload_of c epoch entry n p) l ixs.
Proof.
  intros Ht. unfold set_merkle_root_ixs. induction l as [|entry l IH]; intros Hl; cbn [mapM].
  - exists []. by split; [|constructor].
  - rewrite fmap_cons in Hl.
    destruct (set_merkle_root_ix_listed c epoch tree ns entry Ht) as (n & p & Hn & Hk & Hp & Hix); [apply Hl; left|].
    destruct IH as (ixs & Hixs & HF); [intros k Hk'; apply Hl; by right|].
    exists (upload_of c epoch entry n p :: ixs). split; [|constructor; [by exists n, p|done]].
    rewrite Hix. cbn [mbind result_bind]. apply bind_Ok in Hixs as (os & -> & [= <-]). done.
Qed.

(** The accounts an upload instruction names, as the program receives them. *)
Record upload_accounts (program_id : Pubkey) (ix : SetMerkleRootIx) (es : Acct EpochState) (config : Acct Config)
    (ncn : AccountInfo) (bb : Acct BallotBox) (vote tda tdc tdp : AccountInfo) : Prop := {
  ua_ncn : acc_key ncn = sm_ncn ix;
  ua_vote : acc_key vote = sm_vote_account ix;
  ua_tda : acc_key tda = sm_tip_distribution_account ix;
  ua_tdc : acc_key tdc = sm_tip_distribution_config ix;
  ua_tdp : acc_key tdp = sm_tip_distribution_program ix;
  ua_epoch_state : check_load program_id (info es) (sm_epoch_state ix) (Some (discriminator DEpochState)) true = Ok tt;
  ua_config : check_load program_id (info config) (sm_config ix) (Some (discriminator DConfig)) true = Ok tt;
  ua_ballot_box : check_load program_id (info bb) (sm_ballot_box ix) (Some (discriminator DBallotBox)) false = Ok tt;
  ua_ncn_load : ncn_load ncn false = Ok tt;
}.

(** C22: once the box has decided for the client's tree, the client builds one
    instruction for every distribution account of the validators in the tree,
    in their order, and the program accepts each: what is left to succeed is
    the tip distribution program's own call, and the count of uploads. *)
Theorem uploads_accepted c e ns tree l :
  MetaMerkleTree_new ns = Ok tree -> 0 <= e -> cl_tip_distribution_program_id c = tip_distribution_id ->
  l.*1 ⊆ tip_distribution_account <$> ns ->
  (forall k t, (k, t) ∈ l ->
     k = (derive_tip_distribution_account_address tip_distribution_id (ta_validator_vote_account t) e).1) ->
  exists ixs, set_merkle_root_ixs c (e + 1) l tree = Ok ixs /\ sm_tip_distribution_account <$> ixs = l.*1 /\
    forall ix es config ncn bb vote tda tdc tdp, ix ∈ ixs ->
      decided_for (body bb) tree -> BallotBox.is_consensus_reached (body bb) = true ->
      upload_accounts (cl_tip_router_program_id c) ix es config ncn bb vote tda tdc tdp ->
      process_set_merkle_root (cl_tip_router_program_id c) es config ncn bb vote tda tdc tdp (sm_proof ix)
        (sm_merkle_root ix) (sm_max_total_claim ix) (sm_max_num_nodes ix) (sm_epoch ix) =
      let '(_, bump, seeds) := Config.find_program_address (cl_tip_router_program_id c) (cl_ncn_address c) in
      tda' ← invoke_upload_merkle_root tdc (info config) tda (sm_merkle_root ix) (sm_max_total_claim ix)
               (sm_max_num_nodes ix) (seeds ++ [[bump]]);
      state ← EpochState.update_set_merkle_root (body es);
      mret (with_body es state, tda').
Proof.
  intros Ht He Htdp Hl Hder.
  destruct (set_merkle_root_ixs_listed c (e + 1) tree ns l Ht) as (ixs & Hixs & HF).
  { intros k Hk. rewrite (MetaMerkleTree_new_accounts _ _ Ht). by apply Hl. }
  exists ixs. split; [done|]. split.
  { clear Hixs Hder Hl. induction HF as [|entry ix l ixs (n & p & _ & _ & _ & ->) _ IH]; [done|].
    by rewrite !fmap_cons, IH. }
  intros ix es config ncn bb vote tda tdc tdp [j Hj]%list_elem_of_lookup Hd Hc [E1 E2 E3 E4 E5 L1 L2 L3 L4].
  destruct (Forall2_lookup_r _ _ _ _ _ HF Hj) as ([k t] & Hk & n & p & Hn & Ha & Hp & ->).
  apply list_elem_of_lookup_2, Hder in Hk.
  unfold upload_of in *. cbn [sm_ncn sm_vote_account sm_tip_distribution_account sm_tip_distribution_program
    sm_epoch_state sm_config sm_ballot_box sm_proof sm_merkle_root sm_max_total_claim sm_max_num_nodes sm_epoch fst snd] in *.
  pose proof (verify_merkle_root_accepts (body bb) ns tree n p Ht Hd Hn Hp) as Hver.
  unfold process_set_merkle_root, EpochState.load, Config.load, BallotBox.load. rewrite E1, L1, L2, L4, L3.
  cbn [mbind result_bind]. rewrite E5, Htdp. rewrite (bool_decide_eq_true_2 (tip_distribution_id = _)) by done. cbn [negb].
  rewrite checked_sub_ok by lia. cbn [ok_or mbind result_bind]. replace (e + 1 - 1) with e by lia.
  rewrite E2, E3, <- Hk, (bool_decide_eq_true_2 (k = k)) by done. cbn [negb]. rewrite Hc. cbn [negb].
  rewrite <- Ha, Hver. done.
Qed.

(** one distribution account that is not in the client's tree, among those
    that wait for a root, makes the client panic before it uploads any root; the
    panic ends the loop over the monitored epochs, whatever the other epochs
    are, and with it the task that votes. *)
Theorem unlisted_account_stops_client nets c op tree_files epoch n i tf slot cfg tree box l entry valid cast :
  (i < n)%nat -> Z.of_nat i <= epoch -> tree_files (epoch - Z.of_nat i) = Some tf ->
  read_ballot_box (nets i) c tf (epoch - Z.of_nat i) = Ok (Some (slot, cfg, tree, box)) ->
  BallotBox.is_voting_valid box slot (cf_valid_slots_after_consensus cfg) = Ok valid ->
  should_cast_vote box op (merkle_root tree) = Ok cast ->
  BallotBox.is_consensus_reached box = true -> cl_set_merkle_roots c = true ->
  get_tip_distribution_accounts_to_upload (nets i) c (epoch - Z.of_nat i)
    (Config.find_program_address (cl_tip_router_program_id c) (cl_ncn_address c)).1.1 = Ok l ->
  entry ∈ l -> entry.1 ∉ tip_distribution_account <$> tree_nodes tree ->
  Forall (fun x => ~ is_upload x) (sent (submit_to_ncn (nets i) c op tf (epoch - Z.of_nat i))) /\
  outcome (submit_to_ncn (nets i) c op tf (epoch - Z.of_nat i)) = Err SubmitError.SubmitPanic /\
  outcome (submit_recent_epochs_to_ncn (Some epoch) nets c (Some op) tree_files n) = Err SubmitError.SubmitPanic.
Proof.
  intros Hi He Hf Hr Hv Hcast Hc Hset Hl Hin Hno.
  assert (Hup : upload_roots (nets i) c box tree (epoch - Z.of_nat i) = mkSends [] (Err SubmitError.SubmitPanic)).
  { unfold upload_roots. rewrite Hc, Hset. cbn [andb]. rewrite Hl, attempt_Ok. unfold set_merkle_roots_batched.
    by rewrite (set_merkle_root_ixs_unlisted _ _ _ _ _ Hin Hno), attempt_Err. }
  assert (Hrun : Forall (fun x => ~ is_upload x) (sent (submit_to_ncn (nets i) c op tf (epoch - Z.of_nat i))) /\
    outcome (submit_to_ncn (nets i) c op tf (epoch - Z.of_nat i)) = Err SubmitError.SubmitPanic).
  { rewrite (submit_to_ncn_read _ _ _ _ _ _ _ _ _ _ Hr Hcast), Hv, sent_bind, outcome_bind, Hup.
    destruct (cast && valid); cbn; [|split; constructor]. split; [|done]. constructor; [|constructor].
    unfold cast_vote_ix. destruct (cl_submit_as_memo c); by intros []. }
  split; [apply Hrun|]. split; [apply Hrun|].
  unfold submit_recent_epochs_to_ncn. cbn [ok_or]. rewrite !attempt_Ok.
  by apply (submit_epochs_panics _ _ _ _ _ i tf 0 n); [lia|done|done|apply Hrun].
Qed.
End uploading.

(* ------------------------------------------------------------------ *)
(** * The request for distribution accounts *)

(** What the node does with a filter. *)
Definition memcmp (data : list Z) (m : Memcmp) : Prop :=
  take (length (mc_bytes m)) (drop (mc_offset m) data) = mc_bytes m.
#[export] Instance memcmp_dec data m : Decision (memcmp data m).
Proof. unfold memcmp. apply _. Defined.

(** Field widths of an account. *)
Record tda_wf (t : TipDistributionAccount) : Prop := {
  wf_vote : length (to_bytes (ta_validator_vote_account t)) = 32%nat;
  wf_authority : length (to_bytes (ta_merkle_root_upload_authority t)) = 32%nat;
  wf_epoch : fits U64 (ta_epoch_created_at t);
  wf_commission : fits U16 (ta_validator_commission_bps t);
  wf_expires : fits U64 (ta_expires_at t);
  wf_root : forall r, ta_merkle_root t = Some r -> length (ur_root r) = 32%nat /\ fits U64 (ur_max_total_claim r) /\
    fits U64 (ur_max_num_nodes r) /\ fits U64 (ur_total_funds_claimed r) /\ fits U64 (ur_num_nodes_claimed r);
}.

(** No root, or a root whose first eight bytes look like the epoch. *)
Definition waits_for_root (epoch : Z) (t : TipDistributionAccount) : Prop :=
  match ta_merkle_root t with None => True | Some r => take 8 (ur_root r) = to_le_bytes 8 epoch end.
#[export] Instance waits_for_root_dec epoch t : Decision (waits_for_root epoch t).
Proof. unfold waits_for_root. destruct (ta_merkle_root t); apply _. Defined.

Lemma take_drop_field {A} (a b c : list A) n m : length a = n -> length b = m -> take m (drop n (a ++ b ++ c)) = b.
Proof. intros <- <-. by rewrite drop_app_length, take_app_length. Qed.

Lemma memcmp_authority t k :
  tda_wf t -> length (to_bytes k) = 32%nat ->
  memcmp (tda_data t) (mkMemcmp (8 + 32) (to_bytes k)) <-> ta_merkle_root_upload_authority t = k.
Proof.
  intros Ht Hk. unfold memcmp, tda_data. cbn [mc_offset mc_bytes]. rewrite Hk, (app_assoc TDA_DISCRIMINATOR).
  rewrite take_drop_field; [|rewrite length_app; cbn [length TDA_DISCRIMINATOR]; by rewrite (wf_vote _ Ht)|by rewrite (wf_authority _ Ht)].
  destruct (ta_merkle_root_upload_authority t) as [b], k as [b']. cbn. split; congruence.
Qed.

Lemma memcmp_epoch t epoch :
  tda_wf t -> fits U64 epoch ->
  memcmp (tda_data t) (mkMemcmp (8 + 32 + 32 + 1) (to_le_bytes 8 epoch)) <->
  match ta_merkle_root t with
  | None => ta_epoch_created_at t = epoch
  | Some r => take 8 (ur_root r) = to_le_bytes 8 epoch
  end.
Proof.
  intros Ht He. unfold memcmp. cbn [mc_offset mc_bytes]. rewrite to_le_bytes_length.
  assert (Hpre : forall b rest, drop (8 + 32 + 32 + 1) (TDA_DISCRIMINATOR ++ to_bytes (ta_validator_vote_account t)
     ++ to_bytes (ta_merkle_root_upload_authority t) ++ b :: rest) = rest).
  { intros b rest. rewrite (app_assoc TDA_DISCRIMINATOR), app_assoc, (cons_middle b), (app_assoc _ [b]).
    apply drop_app_length'. rewrite !length_app, (wf_vote _ Ht), (wf_authority _ Ht). done. }
  unfold tda_data, uploaded_root_data. destruct (ta_merkle_root t) as [r|] eqn:Er; cbn [app]; rewrite Hpre.
  - rewrite <- !app_assoc, take_app_le; [done|]. rewrite (proj1 (wf_root _ Ht r Er)). lia.
  - rewrite take_app_length' by (by rewrite to_le_bytes_length). split; [|by intros ->].
    apply (to_le_bytes_inj 8); [exact (wf_epoch _ Ht)|exact He].
Qed.

(** the request for the accounts to upload.  When the node filters by the
    bytes it is asked for, what the client keeps is exactly the distribution
    accounts of the epoch with the NCN's configuration as upload authority that
    have no root, or a root that begins with the bytes of the epoch. *)
Theorem upload_filter_exact `{TdaDecoder} net c epoch config accounts :
  (forall t, tda_wf t -> tda_decode (tda_data t) = Some t) -> Forall tda_wf accounts.*2 ->
  length (to_bytes config) = 32%nat -> fits U64 epoch ->
  (forall filters, net_program_accounts net (cl_tip_distribution_program_id c) filters =
     Some (filter (fun entry => Forall (memcmp entry.2) filters) (prod_map id tda_data <$> accounts))) ->
  get_tip_distribution_accounts_to_upload net c epoch config =
  Ok (filter (fun entry => ta_epoch_created_at entry.2 = epoch /\ ta_merkle_root_upload_authority entry.2 = config /\
                           waits_for_root epoch entry.2) accounts).
Proof.
  intros Hdec Hwf Hk He Hnet. unfold get_tip_distribution_accounts_to_upload. rewrite Hnet. cbn [ok_or mbind result_bind].
  apply (f_equal Ok). clear Hnet. induction accounts as [|[k t] l IH]; [done|].
  inversion Hwf as [|? ? Ht Hl]; subst. cbn [snd] in Ht. rewrite fmap_cons.
  rewrite !filter_cons. specialize (IH Hl).
  assert (Hiff : Forall (memcmp (tda_data t)) (upload_filters epoch config) <->
    ta_merkle_root_upload_authority t = config /\
    match ta_merkle_root t with None => ta_epoch_created_at t = epoch | Some r => take 8 (ur_root r) = to_le_bytes 8 epoch end).
  { unfold upload_filters. rewrite !list.Forall_cons, list.Forall_nil, (memcmp_authority _ _ Ht Hk), (memcmp_epoch _ _ Ht He). tauto. }
  cbn [prod_map fst snd id] in *.
  destruct (decide (Forall (memcmp (tda_data t)) (upload_filters epoch config))) as [Hm|Hm]; rewrite Hiff in Hm.
  - destruct Hm as [Ha Hm]. cbn [omap list_omap]. unfold upload_entry at 1. cbn [fst snd]. rewrite (Hdec t Ht), Ha.
    rewrite bool_decide_eq_true_2, andb_true_r by done.
    destruct (Z.eqb_spec (ta_epoch_created_at t) epoch) as [Ee|Ee].
    + rewrite decide_True; [by rewrite <- IH|]. split; [done|]. split; [done|]. unfold waits_for_root. by destruct (ta_merkle_root t).
    + rewrite decide_False; [exact IH|]. by intros (? & _).
  - rewrite decide_False; [exact IH|]. intros (H1 & H2 & H3). apply Hm. split; [done|]. unfold waits_for_root in H3. by destruct (ta_merkle_root t).
Qed.

(* ------------------------------------------------------------------ *)
(** * A client of the operator [key 1] *)

Module SubmitWitness.
Import ConcreteSolana ConcretePrograms U256Precise ConfigWitness VoteWitness.

(** A decoder of the layout [tda_data]. *)
Definition decode_tail (vote authority : Pubkey) (r : option UploadedRoot) (d : list Z) : TipDistributionAccount :=
  mkTipDistributionAccount vote authority r (of_le_bytes (take 8 d)) (of_le_bytes (take 2 (drop 8 d)))
    (of_le_bytes (take 8 (drop 10 d))) (nth 0 (drop 18 d) 0).
Definition decode_root (d : list Z) : UploadedRoot :=
  mkUploadedRoot (take 32 d) (of_le_bytes (take 8 (drop 32 d))) (of_le_bytes (take 8 (drop 40 d)))
    (of_le_bytes (take 8 (drop 48 d))) (of_le_bytes (take 8 (drop 56 d))).
#[export] Instance decoder : TdaDecoder := fun d =>
  if decide (take 8 d = TDA_DISCRIMINATOR) then
    let vote := mkPubkey (take 32 (drop 8 d)) in
    let authority := mkPubkey (take 32 (drop 40 d)) in
    match drop 72 d with
    | 0 :: d => Some (decode_tail vote authority None d)
    | 1 :: d => Some (decode_tail vote authority (Some (decode_root d)) (drop 64 d))
    | _ => None
    end
  else None.

(** Cuts a list of fields at its first field. *)
Lemma cut_field {A} n m (a b : list A) : length a = n -> drop (n + m) (a ++ b) = drop m b.
Proof. intros <-. by rewrite drop_app_add. Qed.

Lemma decode_tail_ok t :
  tda_wf t ->
  decode_tail (ta_validator_vote_account t) (ta_merkle_root_upload_authority t) (ta_merkle_root t)
    (to_le_bytes 8 (ta_epoch_created_at t) ++ to_le_bytes 2 (ta_validator_commission_bps t)
     ++ to_le_bytes 8 (ta_expires_at t) ++ [ta_bump t]) = t.
Proof.
  intros [_ _ He Hc Hx _]. unfold decode_tail.
  rewrite take_app_length' by (by rewrite to_le_bytes_length).
  rewrite (take_drop_field _ _ _ 8 2), (cut_field 8 2), (cut_field 8 10), (cut_field 2 0), (cut_field 2 8), (cut_field 8 0)
    by (by rewrite ?to_le_bytes_length).
  rewrite !drop_0, take_app_length' by (by rewrite to_le_bytes_length).
  rewrite !of_to_le_bytes by done. by destruct t.
Qed.

Lemma decode_root_ok r rest :
  length (ur_root r) = 32%nat -> fits U64 (ur_max_total_claim r) -> fits U64 (ur_max_num_nodes r) ->
  fits U64 (ur_total_funds_claimed r) -> fits U64 (ur_num_nodes_claimed r) ->
  let fields := ur_root r ++ to_le_bytes 8 (ur_max_total_claim r) ++ to_le_bytes 8 (ur_max_num_nodes r)
                ++ to_le_bytes 8 (ur_total_funds_claimed r) ++ to_le_bytes 8 (ur_num_nodes_claimed r) in
  decode_root (fields ++ rest) = r /\ drop 64 (fields ++ rest) = rest.
Proof.
  intros Hr H1 H2 H3 H4 fields. unfold fields. rewrite <- !app_assoc. unfold decode_root. split.
  - rewrite take_app_length' by done.
    rewrite (cut_field 32 0), (cut_field 32 8), (cut_field 32 16), (cut_field 32 24) by done.
    rewrite drop_0, (cut_field 8 0), (cut_field 8 8), (cut_field 8 16) by (by rewrite to_le_bytes_length).
    rewrite drop_0, (cut_field 8 0), (cut_field 8 8) by (by rewrite to_le_bytes_length).
    rewrite drop_0, (cut_field 8 0), drop_0 by (by rewrite to_le_bytes_length).
    rewrite !take_app_length' by (by rewrite to_le_bytes_length).
    rewrite !of_to_le_bytes by done. by destruct r.
  - rewrite (cut_field 32 32) by done. by rewrite (cut_field 8 24), (cut_field 8 16), (cut_field 8 8), (cut_field 8 0), drop_0
      by (by rewrite to_le_bytes_length).
Qed.

(** The decoder reads what the layout writes. *)
Lemma decoder_ok t : tda_wf t -> tda_decode (tda_data t) = Some t.
Proof.
  intros Ht. pose proof (decode_tail_ok t Ht) as Htail. unfold tda_decode, decoder, tda_data.
  rewrite decide_True by done. rewrite (cut_field 8 0), (cut_field 8 32), (cut_field 8 64), drop_0 by done.
  rewrite (cut_field 32 0), (cut_field 32 32), drop_0 by apply (wf_vote _ Ht).
  rewrite (cut_field 32 0), drop_0 by apply (wf_authority _ Ht).
  rewrite !take_app_length' by (by rewrite ?(wf_vote _ Ht), ?(wf_authority _ Ht)).
  assert (Hk : forall k, mkPubkey (to_bytes k) = k) by (by intros []). rewrite !Hk.
  unfold uploaded_root_data. destruct (ta_merkle_root t) as [r|] eqn:Er; cbn [app].
  - destruct (wf_root _ Ht r Er) as (H1 & H2 & H3 & H4 & H5).
    destruct (decode_root_ok r (to_le_bytes 8 (ta_epoch_created_at t) ++ to_le_bytes 2 (ta_validator_commission_bps t)
     ++ to_le_bytes 8 (ta_expires_at t) ++ [ta_bump t]) H1 H2 H3 H4 H5) as [Hr Hd].
    by rewrite Hr, Hd, Htail.
  - by rewrite Htail.
Qed.

(** The client of the operator, whose voter is [key 3]. *)
Definition client : Client := mkClient (key 9) pid tip_distribution_id (key 3) false true.
Definition own_tree : MetaMerkleTree := mkMetaMerkleTree root 0 [].
Definition authority : Pubkey := (Config.find_program_address pid (key 9)).1.1.

Definition account (vote : Pubkey) (r : option UploadedRoot) (epoch : Z) : TipDistributionAccount :=
  mkTipDistributionAccount vote authority r epoch 500 900 255.
Definition done_root : UploadedRoot := mkUploadedRoot (replicate 32 7) 1000 3 0 0.

(** A node with these distribution accounts, which filters as it is asked to. *)
Definition network (slot : Z) (bb : Acct BallotBox) (accounts : list (Pubkey * TipDistributionAccount)) : Network :=
  mkNetwork (Some slot) (fun _ => Some (Some (body c0))) (fun _ => Some (Some (body bb)))
    (fun _ filters => Some (filter (fun entry => Forall (memcmp entry.2) filters) (prod_map id tda_data <$> accounts)))
    (fun _ _ => true) (fun _ _ => true).

Definition waiting : Pubkey * TipDistributionAccount := (tda, account (key 30) None 4).
Definition unlisted : Pubkey * TipDistributionAccount := (key 60, account (key 61) None 4).
Definition accounts : list (Pubkey * TipDistributionAccount) :=
  [waiting; (key 62, account (key 63) (Some done_root) 4); (key 64, account (key 65) None 3); unlisted].

Lemma account_wf vote r epoch :
  length (to_bytes vote) = 32%nat -> fits U64 epoch -> r = None \/ r = Some done_root -> tda_wf (account vote r epoch).
Proof.
  intros Hv He Hr. split; cbn; [done|vm_compute; reflexivity|done|by split|by split|].
  intros r' ->. destruct Hr as [?|[= ->]]; [done|]. cbn. by repeat split.
Qed.

Definition vote_ix : CastVoteIx :=
  match cast_vote_ix client (key 1) root 5 with CastVote ix => ix | _ => mkCastVoteIx pid pid pid pid pid pid pid pid [] 0 end.

Lemma vote_accounts_ok : vote_accounts pid vote_ix es1 c0 bb1 ncn snap os operator admin.
Proof. split; vm_compute; reflexivity. Qed.

Lemma headroom_initial ncn epoch bump slot : headroom (BallotBox.new ncn epoch bump slot) stake.
Proof.
  intros μ Hμ Hne. destruct μ as [| |k]; [done|vm_compute; reflexivity|].
  rewrite sumZ_zero; [|intros v [i Hi]%list_elem_of_lookup; apply lookup_replicate in Hi as [-> _]; apply gw_default].
  do 8 (destruct k as [|k]; [vm_compute; reflexivity|]). simpl in Hμ. lia.
Qed.
End SubmitWitness.
Import SubmitWitness VoteWitness ConfigWitness ConcreteSolana ConcretePrograms.

Lemma client_votes_until_recorded_witness :
  votes_sent (sent (submit_to_ncn (network 101 bb1 []) client (key 1) (Some own_tree) 4)) = [CastVote vote_ix] /\
  votes_sent (sent (submit_to_ncn (network 102 bb2 []) client (key 1) (Some own_tree) 4)) = [].
Proof.
  destruct (client_votes_until_recorded (L := U256Precise.laws) (network 101 bb1 []) client (key 1) (Some own_tree) 4 101
    (body c0) own_tree (body bb1) true) as [Hfirst Hlater].
  - vm_compute. reflexivity.
  - apply new_inv.
  - done.
  - vm_compute. reflexivity.
  - split; [rewrite Hfirst; vm_compute; reflexivity|].
    apply (Hlater clock es1 c0 bb1 ncn snap os operator admin es2 bb2 (network 102 bb2 []) 102 (body c0)).
    + done.
    + done.
    + exact stake_wf.
    + by split; vm_compute.
    + exact vote_ok.
    + vm_compute. reflexivity.
Defined.

Lemma sent_vote_accepted_witness :
  is_ok (process_cast_vote (H0 := U256Precise.ops) pid clock es1 c0 bb1 ncn snap os operator admin root 5).
Proof.
  apply (sent_vote_accepted (L := U256Precise.laws) client (key 1) root 5 vote_ix clock es1 c0 bb1 ncn snap os operator admin).
  - vm_compute. reflexivity.
  - exact vote_accounts_ok.
  - vm_compute. reflexivity.
  - vm_compute. reflexivity.
  - apply new_inv.
  - done.
  - exact stake_wf.
  - by split; vm_compute.
  - vm_compute. reflexivity.
  - vm_compute. reflexivity.
  - vm_compute. reflexivity.
  - apply headroom_initial.
  - vm_compute. reflexivity.
  - left. vm_compute. reflexivity.
Defined.

Lemma uploads_accepted_witness : exists ixs,
  set_merkle_root_ixs client 5 [waiting] tree = Ok ixs /\ sm_tip_distribution_account <$> ixs = [tda].
Proof.
  destruct (uploads_accepted client 4 [node; other_node] tree [waiting]) as (ixs & Hixs & Hk & _).
  - vm_compute. reflexivity.
  - done.
  - reflexivity.
  - intros k Hk. apply list_elem_of_singleton in Hk as ->. left.
  - intros k t Hk. apply list_elem_of_singleton in Hk as [= -> ->]. reflexivity.
  - exists ixs. by split.
Defined.

Lemma unlisted_account_stops_client_witness :
  outcome (submit_recent_epochs_to_ncn (Some 6) (fun _ => network 101 bb3 accounts) client (Some (key 1))
    (fun e => if e =? 4 then Some (Some tree) else None) 3) = Err SubmitError.SubmitPanic.
Proof.
  apply (unlisted_account_stops_client (fun _ => network 101 bb3 accounts) client (key 1)
    (fun e => if e =? 4 then Some (Some tree) else None) 6 3 2 (Some tree) 101 (body c0) tree (body bb3)
    [waiting; unlisted] unlisted false true).
  - lia.
  - lia.
  - reflexivity.
  - vm_compute. reflexivity.
  - vm_compute. reflexivity.
  - vm_compute. reflexivity.
  - vm_compute. reflexivity.
  - reflexivity.
  - vm_compute. reflexivity.
  - right. left.
  - apply (bool_decide_unpack _). vm_compute. exact I.
Defined.

Lemma upload_filter_exact_witness :
  get_tip_distribution_accounts_to_upload (network 101 bb3 accounts) client 4 authority = Ok [waiting; unlisted].
Proof.
  rewrite (upload_filter_exact (network 101 bb3 accounts) client 4 authority accounts).
  - reflexivity.
  - exact decoder_ok.
  - repeat apply list.Forall_cons_2; try apply list.Forall_nil_2; apply account_wf; auto; by split.
  - vm_compute. reflexivity.
  - by split.
  - reflexivity.
Defined.
