(* ===== verification/Borsh.v ===== *)
(** Borsh, the encoding of instructions: the codecs of the borsh crate's primitive
    types are parameters with the round trip that its documentation promises; a
    derived implementation writes the fields one after the other and an enum's
    variant as a byte before them, and is written out where the code derives it. *)

From S2P Require Import Prelude Errors External.

(** A reader takes bytes from the front. *)
Definition Reader (A : Type) : Type := list Z -> option (A * list Z).

#[export] Instance reader_ret : MRet Reader := fun A a bytes => Some (a, bytes).
#[export] Instance reader_bind : MBind Reader := fun A B f m bytes =>
  match m bytes with Some (a, rest) => f a rest | None => None end.

Definition reader_fail {A} : Reader A := fun _ => None.

Record Codec (A : Type) := mkCodec { ser : A -> list Z; de : Reader A }.
Arguments mkCodec {A} _ _.
Arguments ser {A} _ _.
Arguments de {A} _ _.

Class Borsh := {
  b_u8 : Codec Z;
  b_u16 : Codec Z;
  b_u64 : Codec Z;
  b_u128 : Codec Z;
  b_pubkey : Codec Pubkey;
  (** [[u8; 32]] *)
  b_bytes32 : Codec hash;
  b_option : forall {A}, Codec A -> Codec (option A);
  b_vec : forall {A}, Codec A -> Codec (list A);
}.

(** What is written of a value that satisfies [P] is read back. *)
Definition reads {A} (c : Codec A) (P : A -> Prop) : Prop :=
  forall a rest, P a -> de c (ser c a ++ rest) = Some (a, rest).

Definition bytes32 (h : hash) : Prop := length h = 32%nat /\ Forall (fits U8) h.
Definition option_all {A} (P : A -> Prop) (o : option A) : Prop := match o with Some a => P a | None => True end.
Definition vec_all {A} (P : A -> Prop) (l : list A) : Prop := Forall P l /\ Z.of_nat (length l) < 4294967296.

Class BorshLaws (B : Borsh) : Prop := {
  reads_u8 : reads b_u8 (fits U8);
  reads_u16 : reads b_u16 (fits U16);
  reads_u64 : reads b_u64 (fits U64);
  reads_u128 : reads b_u128 (fits U128);
  reads_pubkey : reads b_pubkey (fun k => bytes32 (to_bytes k));
  reads_bytes32 : reads b_bytes32 bytes32;
  reads_option : forall A (c : Codec A) P, reads c P -> reads (b_option c) (option_all P);
  reads_vec : forall A (c : Codec A) P, reads c P -> reads (b_vec c) (vec_all P);
}.

Lemma reads_bind {A B} (c : Codec A) (P : A -> Prop) a rest (f : A -> Reader B) :
  reads c P -> P a -> (de c ≫= f) (ser c a ++ rest) = f a rest.
Proof. intros Hc Ha. unfold mbind, reader_bind. by rewrite Hc. Qed.

Create HintDb borsh discriminated.
#[export] Hint Resolve reads_u8 reads_u16 reads_u64 reads_u128 reads_pubkey reads_bytes32 reads_option reads_vec : borsh.

(** [try_from_slice]: nothing may be left. *)
Definition try_from_slice {A} (read : Reader A) (bytes : list Z) : option A :=
  match read bytes with Some (a, []) => Some a | _ => None end.

(** Read back the fields of a derived encoding, one by one. *)
Ltac read_field :=
  rewrite <- ?app_assoc;
  lazymatch goal with
  | |- context [mbind _ (de ?c) (ser ?c ?a ++ ?rest)] => erewrite (reads_bind c _ a rest); [|solve [eauto with borsh]|cbv beta; tauto]
  end.
Ltac decode_fields := repeat read_field; try reflexivity.

(* ------------------------------------------------------------------ *)
(** * A concrete Borsh *)

(** Used by the witnesses only. *)
Module ConcreteBorsh.
Definition bytes (n : nat) : Reader (list Z) := fun l => if (length l <? n)%nat then None else Some (take n l, drop n l).

Lemma bytes_app n l rest : length l = n -> bytes n (l ++ rest) = Some (l, rest).
Proof.
  intros <-. unfold bytes. rewrite (proj2 (Nat.ltb_ge _ _)) by (rewrite length_app; lia).
  by rewrite take_app_length, drop_app_length.
Qed.

Definition le (n : nat) : Codec Z := mkCodec (to_le_bytes n) (l ← bytes n; mret (of_le_bytes l)).

Fixpoint items {A} (c : Codec A) (n : nat) : Reader (list A) :=
  match n with O => mret [] | S n => a ← de c; l ← items c n; mret (a :: l) end.

#[export] Instance borsh : Borsh := {|
  b_u8 := le 1; b_u16 := le 2; b_u64 := le 8; b_u128 := le 16;
  b_pubkey := mkCodec to_bytes (l ← bytes 32; mret (mkPubkey l));
  b_bytes32 := mkCodec id (bytes 32);
  b_option A c := mkCodec
    (fun o => match o with None => [0] | Some a => 1 :: ser c a end)
    (fun l => match l with 0 :: l => Some (None, l) | 1 :: l => (a ← de c; mret (Some a)) l | _ => None end);
  b_vec A c := mkCodec
    (fun l => to_le_bytes 4 (Z.of_nat (length l)) ++ concat (map (ser c) l))
    (n ← de (le 4); items c (Z.to_nat n));
|}.

Lemma reads_le n : reads (le n) (fits (256 ^ Z.of_nat n)).
Proof.
  intros x rest Hx. unfold le, mbind, reader_bind. cbn [ser de]. rewrite bytes_app by apply to_le_bytes_length.
  by rewrite of_to_le_bytes.
Qed.

Lemma reads_items {A} (c : Codec A) P l rest :
  reads c P -> Forall P l -> items c (length l) (concat (map (ser c) l) ++ rest) = Some (l, rest).
Proof.
  intros Hc. induction 1 as [|a l Ha Hl IH]; [done|]. cbn [length items map concat].
  rewrite <- app_assoc, (reads_bind c P) by done. unfold mbind, reader_bind. by rewrite IH.
Qed.

#[export] Instance borsh_laws : BorshLaws borsh.
Proof.
  constructor; cbn [b_u8 b_u16 b_u64 b_u128 b_pubkey b_bytes32 b_option b_vec borsh].
  1-4: apply reads_le.
  - intros k rest [Hk _]. unfold mbind, reader_bind. cbn. rewrite bytes_app by done. by destruct k.
  - intros h rest [Hh _]. cbn. by apply bytes_app.
  - intros A c P Hc [a|] rest Ho; cbn; [|done]. unfold mbind, reader_bind. by rewrite Hc.
  - intros A c P Hc l rest [Hl Hn]. cbn [ser de]. rewrite <- app_assoc.
    rewrite (reads_bind (le 4) _ (Z.of_nat (length l))) by (first [apply reads_le|split; [lia|exact Hn]]).
    rewrite Nat2Z.id. by apply (reads_items c P).
Qed.
End ConcreteBorsh.
