(* ===== verification/TipRouterIx.v ===== *)
(** The instructions of the program (core/src/instruction.rs): their arguments, their
    encoding, and the accounts that the interface description lists for each; and
    what program/src/lib.rs does with one: the program id, the decoding, the
    handler it calls, and the accounts under the names by which that handler takes
    them. *)

From Stdlib Require Import String.
From S2P Require Import Prelude Errors External Config Borsh.
#[local] Open Scope string_scope.
#[local] Open Scope list_scope.

(* ------------------------------------------------------------------ *)
(** * Instructions *)

Module TipRouterInstruction.
Inductive TipRouterInstruction : Type :=
| InitializeConfig (block_engine_fee_bps : Z) (dao_fee_bps : Z) (default_ncn_fee_bps : Z) (epochs_before_stall : Z) (epochs_after_consensus_before_close : Z) (valid_slots_after_consensus : Z)
| InitializeVaultRegistry
| ReallocVaultRegistry
| RegisterVault
| InitializeEpochState (epoch : Z)
| ReallocEpochState (epoch : Z)
| InitializeWeightTable (epoch : Z)
| ReallocWeightTable (epoch : Z)
| SwitchboardSetWeight (st_mint : Pubkey) (epoch : Z)
| InitializeEpochSnapshot (epoch : Z)
| InitializeOperatorSnapshot (epoch : Z)
| ReallocOperatorSnapshot (epoch : Z)
| SnapshotVaultOperatorDelegation (epoch : Z)
| InitializeBallotBox (epoch : Z)
| ReallocBallotBox (epoch : Z)
| CastVote (meta_merkle_root : hash) (epoch : Z)
| SetMerkleRoot (proof : list hash) (merkle_root : hash) (max_total_claim : Z) (max_num_nodes : Z) (epoch : Z)
| InitializeBaseRewardRouter (epoch : Z)
| ReallocBaseRewardRouter (epoch : Z)
| InitializeNcnRewardRouter (ncn_fee_group : Z) (epoch : Z)
| RouteBaseRewards (max_iterations : Z) (epoch : Z)
| RouteNcnRewards (ncn_fee_group : Z) (max_iterations : Z) (epoch : Z)
| DistributeBaseRewards (base_fee_group : Z) (epoch : Z)
| DistributeBaseNcnRewardRoute (ncn_fee_group : Z) (epoch : Z)
| DistributeNcnOperatorRewards (ncn_fee_group : Z) (epoch : Z)
| DistributeNcnVaultRewards (ncn_fee_group : Z) (epoch : Z)
| ClaimWithPayer (proof : list hash) (amount : Z) (bump : Z)
| CloseEpochAccount (epoch : Z)
| AdminSetParameters (starting_valid_epoch : option Z) (epochs_before_stall : option Z) (epochs_after_consensus_before_close : option Z) (valid_slots_after_consensus : option Z)
| AdminSetConfigFees (new_block_engine_fee_bps : option Z) (base_fee_group : option Z) (new_base_fee_wallet : option Pubkey) (new_base_fee_bps : option Z) (ncn_fee_group : option Z) (new_ncn_fee_bps : option Z)
| AdminSetNewAdmin (role : ConfigAdminRole)
| AdminSetTieBreaker (meta_merkle_root : hash) (epoch : Z)
| AdminSetWeight (st_mint : Pubkey) (weight : Z) (epoch : Z)
| AdminRegisterStMint (ncn_fee_group : Z) (reward_multiplier_bps : Z) (switchboard_feed : option Pubkey) (no_feed_weight : option Z)
| AdminSetStMint (st_mint : Pubkey) (ncn_fee_group : option Z) (reward_multiplier_bps : option Z) (switchboard_feed : option Pubkey) (no_feed_weight : option Z).

(** The arguments are values of their types. *)
Definition valid_key (k : Pubkey) : Prop := bytes32 (to_bytes k).

Definition valid (ix : TipRouterInstruction) : Prop :=
  match ix with
  | InitializeConfig block_engine_fee_bps dao_fee_bps default_ncn_fee_bps epochs_before_stall epochs_after_consensus_before_close valid_slots_after_consensus => fits U16 block_engine_fee_bps /\ fits U16 dao_fee_bps /\ fits U16 default_ncn_fee_bps /\ fits U64 epochs_before_stall /\ fits U64 epochs_after_consensus_before_close /\ fits U64 valid_slots_after_consensus
  | InitializeVaultRegistry => True
  | ReallocVaultRegistry => True
  | RegisterVault => True
  | InitializeEpochState epoch => fits U64 epoch
  | ReallocEpochState epoch => fits U64 epoch
  | InitializeWeightTable epoch => fits U64 epoch
  | ReallocWeightTable epoch => fits U64 epoch
  | SwitchboardSetWeight st_mint epoch => valid_key st_mint /\ fits U64 epoch
  | InitializeEpochSnapshot epoch => fits U64 epoch
  | InitializeOperatorSnapshot epoch => fits U64 epoch
  | ReallocOperatorSnapshot epoch => fits U64 epoch
  | SnapshotVaultOperatorDelegation epoch => fits U64 epoch
  | InitializeBallotBox epoch => fits U64 epoch
  | ReallocBallotBox epoch => fits U64 epoch
  | CastVote meta_merkle_root epoch => bytes32 meta_merkle_root /\ fits U64 epoch
  | SetMerkleRoot proof merkle_root max_total_claim max_num_nodes epoch => vec_all bytes32 proof /\ bytes32 merkle_root /\ fits U64 max_total_claim /\ fits U64 max_num_nodes /\ fits U64 epoch
  | InitializeBaseRewardRouter epoch => fits U64 epoch
  | ReallocBaseRewardRouter epoch => fits U64 epoch
  | InitializeNcnRewardRouter ncn_fee_group epoch => fits U8 ncn_fee_group /\ fits U64 epoch
  | RouteBaseRewards max_iterations epoch => fits U16 max_iterations /\ fits U64 epoch
  | RouteNcnRewards ncn_fee_group max_iterations epoch => fits U8 ncn_fee_group /\ fits U16 max_iterations /\ fits U64 epoch
  | DistributeBaseRewards base_fee_group epoch => fits U8 base_fee_group /\ fits U64 epoch
  | DistributeBaseNcnRewardRoute ncn_fee_group epoch => fits U8 ncn_fee_group /\ fits U64 epoch
  | DistributeNcnOperatorRewards ncn_fee_group epoch => fits U8 ncn_fee_group /\ fits U64 epoch
  | DistributeNcnVaultRewards ncn_fee_group epoch => fits U8 ncn_fee_group /\ fits U64 epoch
  | ClaimWithPayer proof amount bump => vec_all bytes32 proof /\ fits U64 amount /\ fits U8 bump
  | CloseEpochAccount epoch => fits U64 epoch
  | AdminSetParameters starting_valid_epoch epochs_before_stall epochs_after_consensus_before_close valid_slots_after_consensus => option_all (fits U64) starting_valid_epoch /\ option_all (fits U64) epochs_before_stall /\ option_all (fits U64) epochs_after_consensus_before_close /\ option_all (fits U64) valid_slots_after_consensus
  | AdminSetConfigFees new_block_engine_fee_bps base_fee_group new_base_fee_wallet new_base_fee_bps ncn_fee_group new_ncn_fee_bps => option_all (fits U16) new_block_engine_fee_bps /\ option_all (fits U8) base_fee_group /\ option_all (valid_key) new_base_fee_wallet /\ option_all (fits U16) new_base_fee_bps /\ option_all (fits U8) ncn_fee_group /\ option_all (fits U16) new_ncn_fee_bps
  | AdminSetNewAdmin _ => True
  | AdminSetTieBreaker meta_merkle_root epoch => bytes32 meta_merkle_root /\ fits U64 epoch
  | AdminSetWeight st_mint weight epoch => valid_key st_mint /\ fits U128 weight /\ fits U64 epoch
  | AdminRegisterStMint ncn_fee_group reward_multiplier_bps switchboard_feed no_feed_weight => fits U8 ncn_fee_group /\ fits U64 reward_multiplier_bps /\ option_all (valid_key) switchboard_feed /\ option_all (fits U128) no_feed_weight
  | AdminSetStMint st_mint ncn_fee_group reward_multiplier_bps switchboard_feed no_feed_weight => valid_key st_mint /\ option_all (fits U8) ncn_fee_group /\ option_all (fits U64) reward_multiplier_bps /\ option_all (valid_key) switchboard_feed /\ option_all (fits U128) no_feed_weight
  end.
End TipRouterInstruction.
Import TipRouterInstruction.

Section borsh.
Context `{Borsh}.

(** [ConfigAdminRole] derives its encoding. *)
Definition role_codec : Codec ConfigAdminRole := mkCodec
  (fun role => ser b_u8 (match role with FeeAdmin => 0 | TieBreakerAdmin => 1 end))
  (tag ← de b_u8; match tag with 0 => mret FeeAdmin | 1 => mret TieBreakerAdmin | _ => reader_fail end).

(** [BorshSerialize] and [BorshDeserialize], derived. *)
Definition try_to_vec (ix : TipRouterInstruction) : list Z :=
  match ix with
  | InitializeConfig block_engine_fee_bps dao_fee_bps default_ncn_fee_bps epochs_before_stall epochs_after_consensus_before_close valid_slots_after_consensus =>
      ser b_u8 0 ++ ser b_u16 block_engine_fee_bps ++ ser b_u16 dao_fee_bps ++ ser b_u16 default_ncn_fee_bps ++
      ser b_u64 epochs_before_stall ++ ser b_u64 epochs_after_consensus_before_close ++
      ser b_u64 valid_slots_after_consensus
  | InitializeVaultRegistry => ser b_u8 1
  | ReallocVaultRegistry => ser b_u8 2
  | RegisterVault => ser b_u8 3
  | InitializeEpochState epoch => ser b_u8 4 ++ ser b_u64 epoch
  | ReallocEpochState epoch => ser b_u8 5 ++ ser b_u64 epoch
  | InitializeWeightTable epoch => ser b_u8 6 ++ ser b_u64 epoch
  | ReallocWeightTable epoch => ser b_u8 7 ++ ser b_u64 epoch
  | SwitchboardSetWeight st_mint epoch => ser b_u8 8 ++ ser b_pubkey st_mint ++ ser b_u64 epoch
  | InitializeEpochSnapshot epoch => ser b_u8 9 ++ ser b_u64 epoch
  | InitializeOperatorSnapshot epoch => ser b_u8 10 ++ ser b_u64 epoch
  | ReallocOperatorSnapshot epoch => ser b_u8 11 ++ ser b_u64 epoch
  | SnapshotVaultOperatorDelegation epoch => ser b_u8 12 ++ ser b_u64 epoch
  | InitializeBallotBox epoch => ser b_u8 13 ++ ser b_u64 epoch
  | ReallocBallotBox epoch => ser b_u8 14 ++ ser b_u64 epoch
  | CastVote meta_merkle_root epoch => ser b_u8 15 ++ ser b_bytes32 meta_merkle_root ++ ser b_u64 epoch
  | SetMerkleRoot proof merkle_root max_total_claim max_num_nodes epoch => ser b_u8 16 ++
      ser (b_vec b_bytes32) proof ++ ser b_bytes32 merkle_root ++ ser b_u64 max_total_claim ++
      ser b_u64 max_num_nodes ++ ser b_u64 epoch
  | InitializeBaseRewardRouter epoch => ser b_u8 17 ++ ser b_u64 epoch
  | ReallocBaseRewardRouter epoch => ser b_u8 18 ++ ser b_u64 epoch
  | InitializeNcnRewardRouter ncn_fee_group epoch => ser b_u8 19 ++ ser b_u8 ncn_fee_group ++ ser b_u64 epoch
  | RouteBaseRewards max_iterations epoch => ser b_u8 20 ++ ser b_u16 max_iterations ++ ser b_u64 epoch
  | RouteNcnRewards ncn_fee_group max_iterations epoch => ser b_u8 21 ++ ser b_u8 ncn_fee_group ++
      ser b_u16 max_iterations ++ ser b_u64 epoch
  | DistributeBaseRewards base_fee_group epoch => ser b_u8 22 ++ ser b_u8 base_fee_group ++ ser b_u64 epoch
  | DistributeBaseNcnRewardRoute ncn_fee_group epoch => ser b_u8 23 ++ ser b_u8 ncn_fee_group ++ ser b_u64 epoch
  | DistributeNcnOperatorRewards ncn_fee_group epoch => ser b_u8 24 ++ ser b_u8 ncn_fee_group ++ ser b_u64 epoch
  | DistributeNcnVaultRewards ncn_fee_group epoch => ser b_u8 25 ++ ser b_u8 ncn_fee_group ++ ser b_u64 epoch
  | ClaimWithPayer proof amount bump => ser b_u8 26 ++ ser (b_vec b_bytes32) proof ++ ser b_u64 amount ++
      ser b_u8 bump
  | CloseEpochAccount epoch => ser b_u8 27 ++ ser b_u64 epoch
  | AdminSetParameters starting_valid_epoch epochs_before_stall epochs_after_consensus_before_close valid_slots_after_consensus =>
      ser b_u8 28 ++ ser (b_option b_u64) starting_valid_epoch ++ ser (b_option b_u64) epochs_before_stall ++
      ser (b_option b_u64) epochs_after_consensus_before_close ++ ser (b_option b_u64) valid_slots_after_consensus
  | AdminSetConfigFees new_block_engine_fee_bps base_fee_group new_base_fee_wallet new_base_fee_bps ncn_fee_group new_ncn_fee_bps =>
      ser b_u8 29 ++ ser (b_option b_u16) new_block_engine_fee_bps ++ ser (b_option b_u8) base_fee_group ++
      ser (b_option b_pubkey) new_base_fee_wallet ++ ser (b_option b_u16) new_base_fee_bps ++
      ser (b_option b_u8) ncn_fee_group ++ ser (b_option b_u16) new_ncn_fee_bps
  | AdminSetNewAdmin role => ser b_u8 30 ++ ser role_codec role
  | AdminSetTieBreaker meta_merkle_root epoch => ser b_u8 31 ++ ser b_bytes32 meta_merkle_root ++ ser b_u64 epoch
  | AdminSetWeight st_mint weight epoch => ser b_u8 32 ++ ser b_pubkey st_mint ++ ser b_u128 weight ++
      ser b_u64 epoch
  | AdminRegisterStMint ncn_fee_group reward_multiplier_bps switchboard_feed no_feed_weight => ser b_u8 33 ++
      ser b_u8 ncn_fee_group ++ ser b_u64 reward_multiplier_bps ++ ser (b_option b_pubkey) switchboard_feed ++
      ser (b_option b_u128) no_feed_weight
  | AdminSetStMint st_mint ncn_fee_group reward_multiplier_bps switchboard_feed no_feed_weight => ser b_u8 34 ++
      ser b_pubkey st_mint ++ ser (b_option b_u8) ncn_fee_group ++ ser (b_option b_u64) reward_multiplier_bps ++
      ser (b_option b_pubkey) switchboard_feed ++ ser (b_option b_u128) no_feed_weight
  end.

Definition deserialize : Reader TipRouterInstruction :=
  tag ← de b_u8;
  match tag with
  | 0 => block_engine_fee_bps ← de b_u16; dao_fee_bps ← de b_u16; default_ncn_fee_bps ← de b_u16;
      epochs_before_stall ← de b_u64; epochs_after_consensus_before_close ← de b_u64;
      valid_slots_after_consensus ← de b_u64;
      mret (InitializeConfig block_engine_fee_bps dao_fee_bps default_ncn_fee_bps epochs_before_stall epochs_after_consensus_before_close valid_slots_after_consensus)
  | 1 => mret InitializeVaultRegistry
  | 2 => mret ReallocVaultRegistry
  | 3 => mret RegisterVault
  | 4 => epoch ← de b_u64; mret (InitializeEpochState epoch)
  | 5 => epoch ← de b_u64; mret (ReallocEpochState epoch)
  | 6 => epoch ← de b_u64; mret (InitializeWeightTable epoch)
  | 7 => epoch ← de b_u64; mret (ReallocWeightTable epoch)
  | 8 => st_mint ← de b_pubkey; epoch ← de b_u64; mret (SwitchboardSetWeight st_mint epoch)
  | 9 => epoch ← de b_u64; mret (InitializeEpochSnapshot epoch)
  | 10 => epoch ← de b_u64; mret (InitializeOperatorSnapshot epoch)
  | 11 => epoch ← de b_u64; mret (ReallocOperatorSnapshot epoch)
  | 12 => epoch ← de b_u64; mret (SnapshotVaultOperatorDelegation epoch)
  | 13 => epoch ← de b_u64; mret (InitializeBallotBox epoch)
  | 14 => epoch ← de b_u64; mret (ReallocBallotBox epoch)
  | 15 => meta_merkle_root ← de b_bytes32; epoch ← de b_u64; mret (CastVote meta_merkle_root epoch)
  | 16 => proof ← de (b_vec b_bytes32); merkle_root ← de b_bytes32; max_total_claim ← de b_u64;
      max_num_nodes ← de b_u64; epoch ← de b_u64;
      mret (SetMerkleRoot proof merkle_root max_total_claim max_num_nodes epoch)
  | 17 => epoch ← de b_u64; mret (InitializeBaseRewardRouter epoch)
  | 18 => epoch ← de b_u64; mret (ReallocBaseRewardRouter epoch)
  | 19 => ncn_fee_group ← de b_u8; epoch ← de b_u64; mret (InitializeNcnRewardRouter ncn_fee_group epoch)
  | 20 => max_iterations ← de b_u16; epoch ← de b_u64; mret (RouteBaseRewards max_iterations epoch)
  | 21 => ncn_fee_group ← de b_u8; max_iterations ← de b_u16; epoch ← de b_u64;
      mret (RouteNcnRewards ncn_fee_group max_iterations epoch)
  | 22 => base_fee_group ← de b_u8; epoch ← de b_u64; mret (DistributeBaseRewards base_fee_group epoch)
  | 23 => ncn_fee_group ← de b_u8; epoch ← de b_u64; mret (DistributeBaseNcnRewardRoute ncn_fee_group epoch)
  | 24 => ncn_fee_group ← de b_u8; epoch ← de b_u64; mret (DistributeNcnOperatorRewards ncn_fee_group epoch)
  | 25 => ncn_fee_group ← de b_u8; epoch ← de b_u64; mret (DistributeNcnVaultRewards ncn_fee_group epoch)
  | 26 => proof ← de (b_vec b_bytes32); amount ← de b_u64; bump ← de b_u8; mret (ClaimWithPayer proof amount bump)
  | 27 => epoch ← de b_u64; mret (CloseEpochAccount epoch)
  | 28 => starting_valid_epoch ← de (b_option b_u64); epochs_before_stall ← de (b_option b_u64);
      epochs_after_consensus_before_close ← de (b_option b_u64); valid_slots_after_consensus ← de (b_option b_u64);
      mret (AdminSetParameters starting_valid_epoch epochs_before_stall epochs_after_consensus_before_close valid_slots_after_consensus)
  | 29 => new_block_engine_fee_bps ← de (b_option b_u16); base_fee_group ← de (b_option b_u8);
      new_base_fee_wallet ← de (b_option b_pubkey); new_base_fee_bps ← de (b_option b_u16);
      ncn_fee_group ← de (b_option b_u8); new_ncn_fee_bps ← de (b_option b_u16);
      mret (AdminSetConfigFees new_block_engine_fee_bps base_fee_group new_base_fee_wallet new_base_fee_bps ncn_fee_group new_ncn_fee_bps)
  | 30 => role ← de role_codec; mret (AdminSetNewAdmin role)
  | 31 => meta_merkle_root ← de b_bytes32; epoch ← de b_u64; mret (AdminSetTieBreaker meta_merkle_root epoch)
  | 32 => st_mint ← de b_pubkey; weight ← de b_u128; epoch ← de b_u64; mret (AdminSetWeight st_mint weight epoch)
  | 33 => ncn_fee_group ← de b_u8; reward_multiplier_bps ← de b_u64; switchboard_feed ← de (b_option b_pubkey);
      no_feed_weight ← de (b_option b_u128);
      mret (AdminRegisterStMint ncn_fee_group reward_multiplier_bps switchboard_feed no_feed_weight)
  | 34 => st_mint ← de b_pubkey; ncn_fee_group ← de (b_option b_u8); reward_multiplier_bps ← de (b_option b_u64);
      switchboard_feed ← de (b_option b_pubkey); no_feed_weight ← de (b_option b_u128);
      mret (AdminSetStMint st_mint ncn_fee_group reward_multiplier_bps switchboard_feed no_feed_weight)
  | _ => reader_fail
  end.
End borsh.

(* ------------------------------------------------------------------ *)
(** * The interface description *)

(** [#[account(..)]] *)
Record ShankAccount := mkShankAccount { sh_name : string; sh_writable : bool; sh_signer : bool; sh_optional : bool }.

Definition plain (name : string) := mkShankAccount name false false false.
Definition writable (name : string) := mkShankAccount name true false false.
Definition signer (name : string) := mkShankAccount name false true false.
Definition writable_signer (name : string) := mkShankAccount name true true false.
Definition optional_writable (name : string) := mkShankAccount name true false true.

Definition shank_accounts (ix : TipRouterInstruction) : list ShankAccount :=
  match ix with
  | InitializeConfig _ _ _ _ _ _ => [writable "config"; plain "ncn"; plain "fee_wallet"; signer "ncn_admin";
      plain "tie_breaker_admin"; writable "account_payer"; plain "system_program"]
  | InitializeVaultRegistry => [plain "config"; writable "vault_registry"; plain "ncn"; writable "account_payer";
      plain "system_program"]
  | ReallocVaultRegistry => [plain "config"; writable "vault_registry"; plain "ncn"; writable "account_payer";
      plain "system_program"]
  | RegisterVault => [plain "config"; writable "vault_registry"; plain "ncn"; plain "vault";
      plain "ncn_vault_ticket"]
  | InitializeEpochState _ => [plain "epoch_marker"; writable "epoch_state"; plain "config"; plain "ncn";
      writable "account_payer"; plain "system_program"]
  | ReallocEpochState _ => [writable "epoch_state"; plain "config"; plain "ncn"; writable "account_payer";
      plain "system_program"]
  | InitializeWeightTable _ => [plain "epoch_marker"; plain "epoch_state"; plain "vault_registry"; plain "ncn";
      writable "weight_table"; writable "account_payer"; plain "system_program"]
  | ReallocWeightTable _ => [writable "epoch_state"; plain "config"; writable "weight_table"; plain "ncn";
      plain "vault_registry"; writable "account_payer"; plain "system_program"]
  | SwitchboardSetWeight _ _ => [writable "epoch_state"; plain "ncn"; writable "weight_table";
      plain "switchboard_feed"]
  | InitializeEpochSnapshot _ => [plain "epoch_marker"; writable "epoch_state"; plain "config"; plain "ncn";
      plain "weight_table"; writable "epoch_snapshot"; writable "account_payer"; plain "system_program"]
  | InitializeOperatorSnapshot _ => [plain "epoch_marker"; plain "epoch_state"; plain "config"; plain "ncn";
      plain "operator"; plain "ncn_operator_state"; plain "epoch_snapshot"; writable "operator_snapshot";
      writable "account_payer"; plain "system_program"]
  | ReallocOperatorSnapshot _ => [writable "epoch_state"; plain "config"; plain "restaking_config"; plain "ncn";
      plain "operator"; plain "ncn_operator_state"; writable "epoch_snapshot"; writable "operator_snapshot";
      writable "account_payer"; plain "system_program"]
  | SnapshotVaultOperatorDelegation _ => [writable "epoch_state"; plain "config"; plain "restaking_config";
      plain "ncn"; plain "operator"; plain "vault"; plain "vault_ncn_ticket"; plain "ncn_vault_ticket";
      plain "vault_operator_delegation"; plain "weight_table"; writable "epoch_snapshot";
      writable "operator_snapshot"]
  | InitializeBallotBox _ => [plain "epoch_marker"; plain "epoch_state"; plain "config"; writable "ballot_box";
      plain "ncn"; writable "account_payer"; plain "system_program"]
  | ReallocBallotBox _ => [writable "epoch_state"; plain "config"; writable "ballot_box"; plain "ncn";
      writable "account_payer"; plain "system_program"]
  | CastVote _ _ => [writable "epoch_state"; plain "config"; writable "ballot_box"; plain "ncn";
      plain "epoch_snapshot"; plain "operator_snapshot"; plain "operator"; signer "operator_voter"]
  | SetMerkleRoot _ _ _ _ _ => [writable "epoch_state"; writable "config"; plain "ncn"; plain "ballot_box";
      plain "vote_account"; writable "tip_distribution_account"; plain "tip_distribution_config";
      plain "tip_distribution_program"]
  | InitializeBaseRewardRouter _ => [plain "epoch_marker"; plain "epoch_state"; plain "ncn";
      writable "base_reward_router"; writable "base_reward_receiver"; writable "account_payer";
      plain "system_program"]
  | ReallocBaseRewardRouter _ => [writable "epoch_state"; plain "config"; writable "base_reward_router";
      plain "ncn"; writable "account_payer"; plain "system_program"]
  | InitializeNcnRewardRouter _ _ => [plain "epoch_marker"; writable "epoch_state"; plain "ncn"; plain "operator";
      plain "operator_snapshot"; writable "ncn_reward_router"; writable "ncn_reward_receiver";
      writable "account_payer"; plain "system_program"]
  | RouteBaseRewards _ _ => [writable "epoch_state"; plain "config"; plain "ncn"; plain "epoch_snapshot";
      plain "ballot_box"; writable "base_reward_router"; writable "base_reward_receiver"]
  | RouteNcnRewards _ _ _ => [writable "epoch_state"; plain "ncn"; plain "operator"; plain "operator_snapshot";
      writable "ncn_reward_router"; writable "ncn_reward_receiver"]
  | DistributeBaseRewards _ _ => [writable "epoch_state"; plain "config"; plain "ncn";
      writable "base_reward_router"; writable "base_reward_receiver"; plain "base_fee_wallet";
      writable "base_fee_wallet_ata"; plain "stake_pool_program"; writable "stake_pool";
      plain "stake_pool_withdraw_authority"; writable "reserve_stake"; writable "manager_fee_account";
      writable "referrer_pool_tokens_account"; writable "pool_mint"; plain "token_program"; plain "system_program"]
  | DistributeBaseNcnRewardRoute _ _ => [writable "epoch_state"; plain "config"; plain "ncn"; plain "operator";
      writable "base_reward_router"; writable "base_reward_receiver"; plain "ncn_reward_router";
      writable "ncn_reward_receiver"; plain "system_program"]
  | DistributeNcnOperatorRewards _ _ => [writable "epoch_state"; plain "config"; plain "ncn"; writable "operator";
      writable "operator_ata"; writable "operator_snapshot"; writable "ncn_reward_router";
      writable "ncn_reward_receiver"; plain "stake_pool_program"; writable "stake_pool";
      plain "stake_pool_withdraw_authority"; writable "reserve_stake"; writable "manager_fee_account";
      writable "referrer_pool_tokens_account"; writable "pool_mint"; plain "token_program"; plain "system_program"]
  | DistributeNcnVaultRewards _ _ => [writable "epoch_state"; plain "config"; plain "ncn"; plain "operator";
      plain "vault"; writable "vault_ata"; writable "operator_snapshot"; writable "ncn_reward_router";
      writable "ncn_reward_receiver"; plain "stake_pool_program"; writable "stake_pool";
      plain "stake_pool_withdraw_authority"; writable "reserve_stake"; writable "manager_fee_account";
      writable "referrer_pool_tokens_account"; writable "pool_mint"; plain "token_program"; plain "system_program"]
  | ClaimWithPayer _ _ _ => [writable "account_payer"; plain "config"; plain "ncn";
      plain "tip_distribution_config"; writable "tip_distribution_account"; writable "claim_status";
      writable "claimant"; plain "tip_distribution_program"; plain "system_program"]
  | CloseEpochAccount _ => [writable "epoch_marker"; writable "epoch_state"; plain "config"; plain "ncn";
      writable "account_to_close"; writable "account_payer"; writable "dao_wallet"; plain "system_program";
      optional_writable "receiver_to_close"]
  | AdminSetParameters _ _ _ _ => [writable "config"; plain "ncn"; signer "ncn_admin"]
  | AdminSetConfigFees _ _ _ _ _ _ => [writable "config"; plain "ncn"; signer "ncn_admin"]
  | AdminSetNewAdmin _ => [writable "config"; plain "ncn"; signer "ncn_admin"; plain "new_admin"]
  | AdminSetTieBreaker _ _ => [writable "epoch_state"; plain "config"; writable "ballot_box"; plain "ncn";
      signer "tie_breaker_admin"]
  | AdminSetWeight _ _ _ => [writable "epoch_state"; plain "ncn"; writable "weight_table";
      signer "weight_table_admin"]
  | AdminRegisterStMint _ _ _ _ => [plain "config"; plain "ncn"; plain "st_mint"; writable "vault_registry";
      writable_signer "admin"]
  | AdminSetStMint _ _ _ _ _ => [plain "config"; plain "ncn"; writable "vault_registry"; writable_signer "admin"]
  end.

(* ------------------------------------------------------------------ *)
(** * The handlers *)

(** A call of a handler, with the arguments in the order of its parameters. *)
Module Handler.
Inductive Handler : Type :=
| process_admin_initialize_config (block_engine_fee_bps : Z) (dao_fee_bps : Z) (default_ncn_fee_bps : Z) (epochs_before_stall : Z) (epochs_after_consensus_before_close : Z) (valid_slots_after_consensus : Z)
| process_initialize_vault_registry
| process_realloc_vault_registry
| process_register_vault
| process_initialize_epoch_state (epoch : Z)
| process_realloc_epoch_state (epoch : Z)
| process_initialize_weight_table (epoch : Z)
| process_realloc_weight_table (epoch : Z)
| process_switchboard_set_weight (st_mint : Pubkey) (epoch : Z)
| process_initialize_epoch_snapshot (epoch : Z)
| process_initialize_operator_snapshot (epoch : Z)
| process_realloc_operator_snapshot (epoch : Z)
| process_snapshot_vault_operator_delegation (epoch : Z)
| process_initialize_ballot_box (epoch : Z)
| process_realloc_ballot_box (epoch : Z)
| process_cast_vote (meta_merkle_root : hash) (epoch : Z)
| process_set_merkle_root (proof : list hash) (merkle_root : hash) (max_total_claim : Z) (max_num_nodes : Z) (epoch : Z)
| process_initialize_base_reward_router (epoch : Z)
| process_realloc_base_reward_router (epoch : Z)
| process_initialize_ncn_reward_router (ncn_fee_group : Z) (epoch : Z)
| process_route_base_rewards (max_iterations : Z) (epoch : Z)
| process_route_ncn_rewards (ncn_fee_group : Z) (max_iterations : Z) (epoch : Z)
| process_distribute_base_rewards (base_fee_group : Z) (epoch : Z)
| process_distribute_base_ncn_reward_route (ncn_fee_group : Z) (epoch : Z)
| process_distribute_ncn_operator_rewards (ncn_fee_group : Z) (epoch : Z)
| process_distribute_ncn_vault_rewards (ncn_fee_group : Z) (epoch : Z)
| process_claim_with_payer (proof : list hash) (amount : Z) (bump : Z)
| process_close_epoch_account (epoch : Z)
| process_admin_set_parameters (starting_valid_epoch : option Z) (epochs_before_stall : option Z) (epochs_after_consensus_before_close : option Z) (valid_slots_after_consensus : option Z)
| process_admin_set_config_fees (new_block_engine_fee_bps : option Z) (base_fee_group : option Z) (new_base_fee_wallet : option Pubkey) (new_base_fee_bps : option Z) (ncn_fee_group : option Z) (new_ncn_fee_bps : option Z)
| process_admin_set_new_admin (role : ConfigAdminRole)
| process_admin_set_tie_breaker (meta_merkle_root : hash) (epoch : Z)
| process_admin_set_weight (st_mint : Pubkey) (epoch : Z) (weight : Z)
| process_admin_register_st_mint (ncn_fee_group : Z) (reward_multiplier_bps : Z) (switchboard_feed : option Pubkey) (no_feed_weight : option Z)
| process_admin_set_st_mint (st_mint : Pubkey) (ncn_fee_group : option Z) (reward_multiplier_bps : option Z) (switchboard_feed : option Pubkey) (no_feed_weight : option Z).
End Handler.
Import Handler.

(** The accounts under the names that the handlers give them. *)
Definition admin_initialize_config_accounts : list string := ["config"; "ncn"; "dao_fee_wallet"; "ncn_admin";
  "tie_breaker_admin"; "account_payer"; "system_program"].
Definition initialize_vault_registry_accounts : list string := ["ncn_config"; "vault_registry"; "ncn";
  "account_payer"; "system_program"].
Definition realloc_vault_registry_accounts : list string := ["ncn_config"; "vault_registry"; "ncn";
  "account_payer"; "system_program"].
Definition register_vault_accounts : list string := ["config"; "vault_registry"; "ncn"; "vault"; "ncn_vault_ticket"].
Definition initialize_epoch_state_accounts : list string := ["epoch_marker"; "epoch_state"; "config"; "ncn";
  "account_payer"; "system_program"].
Definition realloc_epoch_state_accounts : list string := ["epoch_state"; "config"; "ncn"; "account_payer";
  "system_program"].
Definition initialize_weight_table_accounts : list string := ["epoch_marker"; "epoch_state"; "vault_registry";
  "ncn"; "weight_table"; "account_payer"; "system_program"].
Definition realloc_weight_table_accounts : list string := ["epoch_state"; "ncn_config"; "weight_table"; "ncn";
  "vault_registry"; "account_payer"; "system_program"].
Definition switchboard_set_weight_accounts : list string := ["epoch_state"; "ncn"; "weight_table";
  "switchboard_feed"].
Definition initialize_epoch_snapshot_accounts : list string := ["epoch_marker"; "epoch_state"; "config"; "ncn";
  "weight_table"; "epoch_snapshot"; "account_payer"; "system_program"].
Definition initialize_operator_snapshot_accounts : list string := ["epoch_marker"; "epoch_state"; "config"; "ncn";
  "operator"; "ncn_operator_state"; "epoch_snapshot"; "operator_snapshot"; "account_payer"; "system_program"].
Definition realloc_operator_snapshot_accounts : list string := ["epoch_state"; "ncn_config"; "restaking_config";
  "ncn"; "operator"; "ncn_operator_state"; "epoch_snapshot"; "operator_snapshot"; "account_payer"; "system_program"].
Definition snapshot_vault_operator_delegation_accounts : list string := ["epoch_state"; "ncn_config";
  "restaking_config"; "ncn"; "operator"; "vault"; "vault_ncn_ticket"; "ncn_vault_ticket";
  "vault_operator_delegation"; "weight_table"; "epoch_snapshot"; "operator_snapshot"].
Definition initialize_ballot_box_accounts : list string := ["epoch_marker"; "epoch_state"; "ncn_config";
  "ballot_box"; "ncn"; "account_payer"; "system_program"].
Definition realloc_ballot_box_accounts : list string := ["epoch_state"; "ncn_config"; "ballot_box"; "ncn";
  "account_payer"; "system_program"].
Definition cast_vote_accounts : list string := ["epoch_state"; "ncn_config"; "ballot_box"; "ncn"; "epoch_snapshot";
  "operator_snapshot"; "operator"; "operator_admin"].
Definition set_merkle_root_accounts : list string := ["epoch_state"; "ncn_config"; "ncn"; "ballot_box";
  "vote_account"; "tip_distribution_account"; "tip_distribution_config"; "tip_distribution_program"].
Definition initialize_base_reward_router_accounts : list string := ["epoch_marker"; "epoch_state"; "ncn";
  "base_reward_router"; "base_reward_receiver"; "account_payer"; "system_program"].
Definition realloc_base_reward_router_accounts : list string := ["epoch_state"; "ncn_config"; "base_reward_router";
  "ncn"; "account_payer"; "system_program"].
Definition initialize_ncn_reward_router_accounts : list string := ["epoch_marker"; "epoch_state"; "ncn";
  "operator"; "operator_snapshot"; "ncn_reward_router"; "ncn_reward_receiver"; "account_payer"; "system_program"].
Definition route_base_rewards_accounts : list string := ["epoch_state"; "config"; "ncn"; "epoch_snapshot";
  "ballot_box"; "base_reward_router"; "base_reward_receiver"].
Definition route_ncn_rewards_accounts : list string := ["epoch_state"; "ncn"; "operator"; "operator_snapshot";
  "ncn_reward_router"; "ncn_reward_receiver"].
Definition distribute_base_rewards_accounts : list string := ["epoch_state"; "ncn_config"; "ncn";
  "base_reward_router"; "base_reward_receiver"; "base_fee_wallet"; "base_fee_wallet_ata"; "stake_pool_program";
  "stake_pool"; "stake_pool_withdraw_authority"; "reserve_stake"; "manager_fee_account";
  "referrer_pool_tokens_account"; "pool_mint"; "token_program"; "system_program"].
Definition distribute_base_ncn_reward_route_accounts : list string := ["epoch_state"; "ncn_config"; "ncn";
  "operator"; "base_reward_router"; "base_reward_receiver"; "ncn_reward_router"; "ncn_reward_receiver";
  "system_program"].
Definition distribute_ncn_operator_rewards_accounts : list string := ["epoch_state"; "ncn_config"; "ncn";
  "operator"; "operator_ata"; "operator_snapshot"; "ncn_reward_router"; "ncn_reward_receiver";
  "stake_pool_program"; "stake_pool"; "stake_pool_withdraw_authority"; "reserve_stake"; "manager_fee_account";
  "referrer_pool_tokens_account"; "pool_mint"; "token_program"; "system_program"].
Definition distribute_ncn_vault_rewards_accounts : list string := ["epoch_state"; "ncn_config"; "ncn"; "operator";
  "vault"; "vault_ata"; "operator_snapshot"; "ncn_reward_router"; "ncn_reward_receiver"; "stake_pool_program";
  "stake_pool"; "stake_pool_withdraw_authority"; "reserve_stake"; "manager_fee_account";
  "referrer_pool_tokens_account"; "pool_mint"; "token_program"; "system_program"].
Definition claim_with_payer_accounts : list string := ["account_payer"; "config"; "ncn"; "tip_distribution_config";
  "tip_distribution_account"; "claim_status"; "claimant"; "tip_distribution_program"; "system_program"].
Definition close_epoch_account_accounts : list string := ["epoch_marker"; "epoch_state"; "config"; "ncn";
  "account_to_close"; "account_payer"; "dao_wallet"; "system_program"].
Definition admin_set_parameters_accounts : list string := ["config"; "ncn_account"; "ncn_admin"].
Definition admin_set_config_fees_accounts : list string := ["config"; "ncn_account"; "fee_admin"].
Definition admin_set_new_admin_accounts : list string := ["config"; "ncn_account"; "ncn_admin"; "new_admin"].
Definition admin_set_tie_breaker_accounts : list string := ["epoch_state"; "ncn_config"; "ballot_box"; "ncn";
  "tie_breaker_admin"].
Definition admin_set_weight_accounts : list string := ["epoch_state"; "ncn"; "weight_table"; "weight_table_admin"].
Definition admin_register_st_mint_accounts : list string := ["config"; "ncn"; "st_mint"; "vault_registry"; "admin"].
Definition admin_set_st_mint_accounts : list string := ["config"; "ncn"; "vault_registry"; "admin"].

Definition handler_accounts (h : Handler) : list string :=
  match h with
  | process_admin_initialize_config _ _ _ _ _ _ => admin_initialize_config_accounts
  | process_initialize_vault_registry => initialize_vault_registry_accounts
  | process_realloc_vault_registry => realloc_vault_registry_accounts
  | process_register_vault => register_vault_accounts
  | process_initialize_epoch_state _ => initialize_epoch_state_accounts
  | process_realloc_epoch_state _ => realloc_epoch_state_accounts
  | process_initialize_weight_table _ => initialize_weight_table_accounts
  | process_realloc_weight_table _ => realloc_weight_table_accounts
  | process_switchboard_set_weight _ _ => switchboard_set_weight_accounts
  | process_initialize_epoch_snapshot _ => initialize_epoch_snapshot_accounts
  | process_initialize_operator_snapshot _ => initialize_operator_snapshot_accounts
  | process_realloc_operator_snapshot _ => realloc_operator_snapshot_accounts
  | process_snapshot_vault_operator_delegation _ => snapshot_vault_operator_delegation_accounts
  | process_initialize_ballot_box _ => initialize_ballot_box_accounts
  | process_realloc_ballot_box _ => realloc_ballot_box_accounts
  | process_cast_vote _ _ => cast_vote_accounts
  | process_set_merkle_root _ _ _ _ _ => set_merkle_root_accounts
  | process_initialize_base_reward_router _ => initialize_base_reward_router_accounts
  | process_realloc_base_reward_router _ => realloc_base_reward_router_accounts
  | process_initialize_ncn_reward_router _ _ => initialize_ncn_reward_router_accounts
  | process_route_base_rewards _ _ => route_base_rewards_accounts
  | process_route_ncn_rewards _ _ _ => route_ncn_rewards_accounts
  | process_distribute_base_rewards _ _ => distribute_base_rewards_accounts
  | process_distribute_base_ncn_reward_route _ _ => distribute_base_ncn_reward_route_accounts
  | process_distribute_ncn_operator_rewards _ _ => distribute_ncn_operator_rewards_accounts
  | process_distribute_ncn_vault_rewards _ _ => distribute_ncn_vault_rewards_accounts
  | process_claim_with_payer _ _ _ => claim_with_payer_accounts
  | process_close_epoch_account _ => close_epoch_account_accounts
  | process_admin_set_parameters _ _ _ _ => admin_set_parameters_accounts
  | process_admin_set_config_fees _ _ _ _ _ _ => admin_set_config_fees_accounts
  | process_admin_set_new_admin _ => admin_set_new_admin_accounts
  | process_admin_set_tie_breaker _ _ => admin_set_tie_breaker_accounts
  | process_admin_set_weight _ _ _ => admin_set_weight_accounts
  | process_admin_register_st_mint _ _ _ _ => admin_register_st_mint_accounts
  | process_admin_set_st_mint _ _ _ _ _ => admin_set_st_mint_accounts
  end.

(** The handler of an instruction. *)
Definition dispatch (ix : TipRouterInstruction) : Handler :=
  match ix with
  | InitializeConfig block_engine_fee_bps dao_fee_bps default_ncn_fee_bps epochs_before_stall epochs_after_consensus_before_close valid_slots_after_consensus => process_admin_initialize_config block_engine_fee_bps dao_fee_bps default_ncn_fee_bps epochs_before_stall epochs_after_consensus_before_close valid_slots_after_consensus
  | InitializeVaultRegistry => process_initialize_vault_registry
  | ReallocVaultRegistry => process_realloc_vault_registry
  | RegisterVault => process_register_vault
  | InitializeEpochState epoch => process_initialize_epoch_state epoch
  | ReallocEpochState epoch => process_realloc_epoch_state epoch
  | InitializeWeightTable epoch => process_initialize_weight_table epoch
  | ReallocWeightTable epoch => process_realloc_weight_table epoch
  | SwitchboardSetWeight st_mint epoch => process_switchboard_set_weight st_mint epoch
  | InitializeEpochSnapshot epoch => process_initialize_epoch_snapshot epoch
  | InitializeOperatorSnapshot epoch => process_initialize_operator_snapshot epoch
  | ReallocOperatorSnapshot epoch => process_realloc_operator_snapshot epoch
  | SnapshotVaultOperatorDelegation epoch => process_snapshot_vault_operator_delegation epoch
  | InitializeBallotBox epoch => process_initialize_ballot_box epoch
  | ReallocBallotBox epoch => process_realloc_ballot_box epoch
  | CastVote meta_merkle_root epoch => process_cast_vote meta_merkle_root epoch
  | SetMerkleRoot proof merkle_root max_total_claim max_num_nodes epoch => process_set_merkle_root proof merkle_root max_total_claim max_num_nodes epoch
  | InitializeBaseRewardRouter epoch => process_initialize_base_reward_router epoch
  | ReallocBaseRewardRouter epoch => process_realloc_base_reward_router epoch
  | InitializeNcnRewardRouter ncn_fee_group epoch => process_initialize_ncn_reward_router ncn_fee_group epoch
  | RouteBaseRewards max_iterations epoch => process_route_base_rewards max_iterations epoch
  | RouteNcnRewards ncn_fee_group max_iterations epoch => process_route_ncn_rewards ncn_fee_group max_iterations epoch
  | DistributeBaseRewards base_fee_group epoch => process_distribute_base_rewards base_fee_group epoch
  | DistributeBaseNcnRewardRoute ncn_fee_group epoch => process_distribute_base_ncn_reward_route ncn_fee_group epoch
  | DistributeNcnOperatorRewards ncn_fee_group epoch => process_distribute_ncn_operator_rewards ncn_fee_group epoch
  | DistributeNcnVaultRewards ncn_fee_group epoch => process_distribute_ncn_vault_rewards ncn_fee_group epoch
  | ClaimWithPayer proof amount bump => process_claim_with_payer proof amount bump
  | CloseEpochAccount epoch => process_close_epoch_account epoch
  | AdminSetParameters starting_valid_epoch epochs_before_stall epochs_after_consensus_before_close valid_slots_after_consensus => process_admin_set_parameters starting_valid_epoch epochs_before_stall epochs_after_consensus_before_close valid_slots_after_consensus
  | AdminSetConfigFees new_block_engine_fee_bps base_fee_group new_base_fee_wallet new_base_fee_bps ncn_fee_group new_ncn_fee_bps => process_admin_set_config_fees new_block_engine_fee_bps base_fee_group new_base_fee_wallet new_base_fee_bps ncn_fee_group new_ncn_fee_bps
  | AdminSetNewAdmin role => process_admin_set_new_admin role
  | AdminSetTieBreaker meta_merkle_root epoch => process_admin_set_tie_breaker meta_merkle_root epoch
  | AdminSetWeight st_mint weight epoch => process_admin_set_weight st_mint epoch weight
  | AdminRegisterStMint ncn_fee_group reward_multiplier_bps switchboard_feed no_feed_weight => process_admin_register_st_mint ncn_fee_group reward_multiplier_bps switchboard_feed no_feed_weight
  | AdminSetStMint st_mint ncn_fee_group reward_multiplier_bps switchboard_feed no_feed_weight => process_admin_set_st_mint st_mint ncn_fee_group reward_multiplier_bps switchboard_feed no_feed_weight
  end.



(** Arguments by name: the fields of an instruction, and the parameters of a
    handler. *)
Inductive Value : Type :=
| VNum (n : Z) | VOptNum (n : option Z) | VKey (k : Pubkey) | VOptKey (k : option Pubkey) | VBytes (h : hash)
| VList (l : list hash) | VRole (r : ConfigAdminRole).

Definition fields (ix : TipRouterInstruction) : list (string * Value) :=
  match ix with
  | InitializeConfig block_engine_fee_bps dao_fee_bps default_ncn_fee_bps epochs_before_stall epochs_after_consensus_before_close valid_slots_after_consensus => [
      ("block_engine_fee_bps", VNum block_engine_fee_bps); ("dao_fee_bps", VNum dao_fee_bps);
      ("default_ncn_fee_bps", VNum default_ncn_fee_bps); ("epochs_before_stall", VNum epochs_before_stall);
      ("epochs_after_consensus_before_close", VNum epochs_after_consensus_before_close);
      ("valid_slots_after_consensus", VNum valid_slots_after_consensus)]
  | InitializeVaultRegistry => []
  | ReallocVaultRegistry => []
  | RegisterVault => []
  | InitializeEpochState epoch => [("epoch", VNum epoch)]
  | ReallocEpochState epoch => [("epoch", VNum epoch)]
  | InitializeWeightTable epoch => [("epoch", VNum epoch)]
  | ReallocWeightTable epoch => [("epoch", VNum epoch)]
  | SwitchboardSetWeight st_mint epoch => [("st_mint", VKey st_mint); ("epoch", VNum epoch)]
  | InitializeEpochSnapshot epoch => [("epoch", VNum epoch)]
  | InitializeOperatorSnapshot epoch => [("epoch", VNum epoch)]
  | ReallocOperatorSnapshot epoch => [("epoch", VNum epoch)]
  | SnapshotVaultOperatorDelegation epoch => [("epoch", VNum epoch)]
  | InitializeBallotBox epoch => [("epoch", VNum epoch)]
  | ReallocBallotBox epoch => [("epoch", VNum epoch)]
  | CastVote meta_merkle_root epoch => [("meta_merkle_root", VBytes meta_merkle_root); ("epoch", VNum epoch)]
  | SetMerkleRoot proof merkle_root max_total_claim max_num_nodes epoch => [("proof", VList proof);
      ("merkle_root", VBytes merkle_root); ("max_total_claim", VNum max_total_claim);
      ("max_num_nodes", VNum max_num_nodes); ("epoch", VNum epoch)]
  | InitializeBaseRewardRouter epoch => [("epoch", VNum epoch)]
  | ReallocBaseRewardRouter epoch => [("epoch", VNum epoch)]
  | InitializeNcnRewardRouter ncn_fee_group epoch => [("ncn_fee_group", VNum ncn_fee_group); ("epoch", VNum epoch)]
  | RouteBaseRewards max_iterations epoch => [("max_iterations", VNum max_iterations); ("epoch", VNum epoch)]
  | RouteNcnRewards ncn_fee_group max_iterations epoch => [("ncn_fee_group", VNum ncn_fee_group);
      ("max_iterations", VNum max_iterations); ("epoch", VNum epoch)]
  | DistributeBaseRewards base_fee_group epoch => [("base_fee_group", VNum base_fee_group); ("epoch", VNum epoch)]
  | DistributeBaseNcnRewardRoute ncn_fee_group epoch => [("ncn_fee_group", VNum ncn_fee_group);
      ("epoch", VNum epoch)]
  | DistributeNcnOperatorRewards ncn_fee_group epoch => [("ncn_fee_group", VNum ncn_fee_group);
      ("epoch", VNum epoch)]
  | DistributeNcnVaultRewards ncn_fee_group epoch => [("ncn_fee_group", VNum ncn_fee_group); ("epoch", VNum epoch)]
  | ClaimWithPayer proof amount bump => [("proof", VList proof); ("amount", VNum amount); ("bump", VNum bump)]
  | CloseEpochAccount epoch => [("epoch", VNum epoch)]
  | AdminSetParameters starting_valid_epoch epochs_before_stall epochs_after_consensus_before_close valid_slots_after_consensus => [
      ("starting_valid_epoch", VOptNum starting_valid_epoch); ("epochs_before_stall", VOptNum epochs_before_stall);
      ("epochs_after_consensus_before_close", VOptNum epochs_after_consensus_before_close);
      ("valid_slots_after_consensus", VOptNum valid_slots_after_consensus)]
  | AdminSetConfigFees new_block_engine_fee_bps base_fee_group new_base_fee_wallet new_base_fee_bps ncn_fee_group new_ncn_fee_bps => [
      ("new_block_engine_fee_bps", VOptNum new_block_engine_fee_bps); ("base_fee_group", VOptNum base_fee_group);
      ("new_base_fee_wallet", VOptKey new_base_fee_wallet); ("new_base_fee_bps", VOptNum new_base_fee_bps);
      ("ncn_fee_group", VOptNum ncn_fee_group); ("new_ncn_fee_bps", VOptNum new_ncn_fee_bps)]
  | AdminSetNewAdmin role => [("role", VRole role)]
  | AdminSetTieBreaker meta_merkle_root epoch => [("meta_merkle_root", VBytes meta_merkle_root);
      ("epoch", VNum epoch)]
  | AdminSetWeight st_mint weight epoch => [("st_mint", VKey st_mint); ("weight", VNum weight);
      ("epoch", VNum epoch)]
  | AdminRegisterStMint ncn_fee_group reward_multiplier_bps switchboard_feed no_feed_weight => [
      ("ncn_fee_group", VNum ncn_fee_group); ("reward_multiplier_bps", VNum reward_multiplier_bps);
      ("switchboard_feed", VOptKey switchboard_feed); ("no_feed_weight", VOptNum no_feed_weight)]
  | AdminSetStMint st_mint ncn_fee_group reward_multiplier_bps switchboard_feed no_feed_weight => [
      ("st_mint", VKey st_mint); ("ncn_fee_group", VOptNum ncn_fee_group);
      ("reward_multiplier_bps", VOptNum reward_multiplier_bps); ("switchboard_feed", VOptKey switchboard_feed);
      ("no_feed_weight", VOptNum no_feed_weight)]
  end.

Definition parameters (h : Handler) : list (string * Value) :=
  match h with
  | process_admin_initialize_config block_engine_fee_bps dao_fee_bps default_ncn_fee_bps epochs_before_stall epochs_after_consensus_before_close valid_slots_after_consensus => [
      ("block_engine_fee_bps", VNum block_engine_fee_bps); ("dao_fee_bps", VNum dao_fee_bps);
      ("default_ncn_fee_bps", VNum default_ncn_fee_bps); ("epochs_before_stall", VNum epochs_before_stall);
      ("epochs_after_consensus_before_close", VNum epochs_after_consensus_before_close);
      ("valid_slots_after_consensus", VNum valid_slots_after_consensus)]
  | process_initialize_vault_registry => []
  | process_realloc_vault_registry => []
  | process_register_vault => []
  | process_initialize_epoch_state epoch => [("epoch", VNum epoch)]
  | process_realloc_epoch_state epoch => [("epoch", VNum epoch)]
  | process_initialize_weight_table epoch => [("epoch", VNum epoch)]
  | process_realloc_weight_table epoch => [("epoch", VNum epoch)]
  | process_switchboard_set_weight st_mint epoch => [("st_mint", VKey st_mint); ("epoch", VNum epoch)]
  | process_initialize_epoch_snapshot epoch => [("epoch", VNum epoch)]
  | process_initialize_operator_snapshot epoch => [("epoch", VNum epoch)]
  | process_realloc_operator_snapshot epoch => [("epoch", VNum epoch)]
  | process_snapshot_vault_operator_delegation epoch => [("epoch", VNum epoch)]
  | process_initialize_ballot_box epoch => [("epoch", VNum epoch)]
  | process_realloc_ballot_box epoch => [("epoch", VNum epoch)]
  | process_cast_vote meta_merkle_root epoch => [("meta_merkle_root", VBytes meta_merkle_root);
      ("epoch", VNum epoch)]
  | process_set_merkle_root proof merkle_root max_total_claim max_num_nodes epoch => [("proof", VList proof);
      ("merkle_root", VBytes merkle_root); ("max_total_claim", VNum max_total_claim);
      ("max_num_nodes", VNum max_num_nodes); ("epoch", VNum epoch)]
  | process_initialize_base_reward_router epoch => [("epoch", VNum epoch)]
  | process_realloc_base_reward_router epoch => [("epoch", VNum epoch)]
  | process_initialize_ncn_reward_router ncn_fee_group epoch => [("ncn_fee_group", VNum ncn_fee_group);
      ("epoch", VNum epoch)]
  | process_route_base_rewards max_iterations epoch => [("max_iterations", VNum max_iterations);
      ("epoch", VNum epoch)]
  | process_route_ncn_rewards ncn_fee_group max_iterations epoch => [("ncn_fee_group", VNum ncn_fee_group);
      ("max_iterations", VNum max_iterations); ("epoch", VNum epoch)]
  | process_distribute_base_rewards base_fee_group epoch => [("base_fee_group", VNum base_fee_group);
      ("epoch", VNum epoch)]
  | process_distribute_base_ncn_reward_route ncn_fee_group epoch => [("ncn_fee_group", VNum ncn_fee_group);
      ("epoch", VNum epoch)]
  | process_distribute_ncn_operator_rewards ncn_fee_group epoch => [("ncn_fee_group", VNum ncn_fee_group);
      ("epoch", VNum epoch)]
  | process_distribute_ncn_vault_rewards ncn_fee_group epoch => [("ncn_fee_group", VNum ncn_fee_group);
      ("epoch", VNum epoch)]
  | process_claim_with_payer proof amount bump => [("proof", VList proof); ("amount", VNum amount);
      ("bump", VNum bump)]
  | process_close_epoch_account epoch => [("epoch", VNum epoch)]
  | process_admin_set_parameters starting_valid_epoch epochs_before_stall epochs_after_consensus_before_close valid_slots_after_consensus => [
      ("starting_valid_epoch", VOptNum starting_valid_epoch); ("epochs_before_stall", VOptNum epochs_before_stall);
      ("epochs_after_consensus_before_close", VOptNum epochs_after_consensus_before_close);
      ("valid_slots_after_consensus", VOptNum valid_slots_after_consensus)]
  | process_admin_set_config_fees new_block_engine_fee_bps base_fee_group new_base_fee_wallet new_base_fee_bps ncn_fee_group new_ncn_fee_bps => [
      ("new_block_engine_fee_bps", VOptNum new_block_engine_fee_bps); ("base_fee_group", VOptNum base_fee_group);
      ("new_base_fee_wallet", VOptKey new_base_fee_wallet); ("new_base_fee_bps", VOptNum new_base_fee_bps);
      ("ncn_fee_group", VOptNum ncn_fee_group); ("new_ncn_fee_bps", VOptNum new_ncn_fee_bps)]
  | process_admin_set_new_admin role => [("role", VRole role)]
  | process_admin_set_tie_breaker meta_merkle_root epoch => [("meta_merkle_root", VBytes meta_merkle_root);
      ("epoch", VNum epoch)]
  | process_admin_set_weight st_mint epoch weight => [("st_mint", VKey st_mint); ("epoch", VNum epoch);
      ("weight", VNum weight)]
  | process_admin_register_st_mint ncn_fee_group reward_multiplier_bps switchboard_feed no_feed_weight => [
      ("ncn_fee_group", VNum ncn_fee_group); ("reward_multiplier_bps", VNum reward_multiplier_bps);
      ("switchboard_feed", VOptKey switchboard_feed); ("no_feed_weight", VOptNum no_feed_weight)]
  | process_admin_set_st_mint st_mint ncn_fee_group reward_multiplier_bps switchboard_feed no_feed_weight => [
      ("st_mint", VKey st_mint); ("ncn_fee_group", VOptNum ncn_fee_group);
      ("reward_multiplier_bps", VOptNum reward_multiplier_bps); ("switchboard_feed", VOptKey switchboard_feed);
      ("no_feed_weight", VOptNum no_feed_weight)]
  end.

(** Every handler gets every field of its instruction under the field's name. *)
Lemma dispatch_by_name ix : parameters (dispatch ix) ≡ₚ fields ix.
Proof. destruct ix; cbn [dispatch parameters fields]; try reflexivity. apply perm_skip, perm_swap. Qed.

(** A handler's call: its accounts by name, and those behind them. *)
Record Invocation (A : Type) := mkInvocation { iv_handler : Handler; iv_accounts : list (string * A); iv_optional : list A }.
Arguments mkInvocation {A} _ _ _.
Arguments iv_handler {A} _.
Arguments iv_accounts {A} _.
Arguments iv_optional {A} _.

(** [let [..] = accounts else], which wants the exact number; closing splits the
    required accounts off first, and panics when there are too few. *)
Definition take_accounts {A} (h : Handler) (accounts : list A) : res (Invocation A) :=
  let names := handler_accounts h in
  match h with
  | process_close_epoch_account _ =>
      if (length accounts <? length names)%nat then Err Panic
      else Ok (mkInvocation h (zip names (take (length names) accounts)) (drop (length names) accounts))
  | _ =>
      if (length accounts =? length names)%nat then Ok (mkInvocation h (zip names accounts) [])
      else Err (Prog NotEnoughAccountKeys)
  end.

Definition process_instruction `{Borsh} {A} (id program_id : Pubkey) (accounts : list A) (instruction_data : list Z)
    : res (Invocation A) :=
  if negb (bool_decide (program_id = id)) then Err (Prog IncorrectProgramId) else
  instruction ← ok_or (try_from_slice deserialize instruction_data) (Prog BorshIoError);
  take_accounts (dispatch instruction) accounts.

(* ------------------------------------------------------------------ *)
(** * Round trip *)

Section laws.
Context `{B : Borsh} {BL : BorshLaws B}.

Lemma reads_role : reads role_codec (fun _ => True).
Proof using BL.
  intros role rest _. unfold role_codec. cbn [ser de].
  destruct role; (rewrite (reads_bind b_u8 (fits U8)); [done|apply reads_u8|by split]).
Qed.
#[local] Hint Resolve reads_role : borsh.
#[local] Hint Extern 1 (fits _ _) => by split : borsh.

(** What a client encodes is the instruction that the program decodes. *)
Lemma deserialize_to_vec (ix : TipRouterInstruction) rest :
  valid ix -> deserialize (try_to_vec ix ++ rest) = Some (ix, rest).
Proof using BL.
  intros Hv. destruct ix; cbn [try_to_vec valid] in *; unfold deserialize; rewrite <- ?app_assoc;
    (erewrite (reads_bind b_u8 (fits U8)); [|apply reads_u8|by split]); cbn [mbind]; decode_fields.
Qed.

(** There are 35 variants. *)
Lemma deserialize_tag tag rest : 35 <= tag < U8 -> deserialize (ser b_u8 tag ++ rest) = None.
Proof using BL.
  intros Ht. unfold deserialize. rewrite (reads_bind b_u8 (fits U8)) by (first [apply reads_u8|split; lia]).
  destruct tag as [|p|p]; [lia| |lia]. do 6 (destruct p as [p|p|]; try reflexivity; try lia).
Qed.

(** C32: the entry point refuses a call under another program id, bytes behind an
    instruction and a tag that is none of the 35 instructions'; of the bytes that
    encode an instruction it makes the call of the handler for it, which gets all the
    instruction's fields under their names and the accounts as it destructures them. *)
Theorem process_instruction_outcome {A} (id program_id : Pubkey) (accounts : list A) (ix : TipRouterInstruction) :
  valid ix ->
  (program_id <> id -> forall data, process_instruction id program_id accounts data = Err (Prog IncorrectProgramId)) /\
  process_instruction id id accounts (try_to_vec ix) = take_accounts (dispatch ix) accounts /\
  parameters (dispatch ix) ≡ₚ fields ix /\
  (forall byte rest, process_instruction id id accounts (try_to_vec ix ++ byte :: rest) = Err (Prog BorshIoError)) /\
  (forall tag rest, 35 <= tag < U8 ->
     process_instruction id id accounts (ser b_u8 tag ++ rest) = Err (Prog BorshIoError)).
Proof using BL.
  intros Hv. unfold process_instruction, try_from_slice. repeat split.
  - intros Hp data. by rewrite bool_decide_false.
  - rewrite bool_decide_true by done. rewrite <- (app_nil_r (try_to_vec ix)). by rewrite deserialize_to_vec.
  - apply dispatch_by_name.
  - intros byte rest. rewrite bool_decide_true by done. by rewrite deserialize_to_vec.
  - intros tag rest Ht. rewrite bool_decide_true by done. by rewrite deserialize_tag.
Qed.
End laws.
#[export] Hint Resolve reads_role : borsh.

Import ConcreteBorsh.

Lemma process_instruction_outcome_witness :
  let id := mkPubkey (repeat 9 32) in
  let ix := CastVote (repeat 7 32) 5 in
  valid ix /\ exists inv, process_instruction id id [1; 2; 3; 4; 5; 6; 7; 8] (try_to_vec ix) = Ok inv /\
    iv_handler inv = process_cast_vote (repeat 7 32) 5 /\ list.last (iv_accounts inv) = Some ("operator_admin", 8).
Proof.
  intros id ix. assert (Hv : valid ix) by (split; [split; [done|repeat constructor; done]|by split]).
  destruct (process_instruction_outcome id id [1; 2; 3; 4; 5; 6; 7; 8] ix Hv) as (_ & Hp & _).
  split; [exact Hv|]. eexists. split; [exact Hp|]. by split.
Defined.
