(* ===== verification/GeneratedClient.v ===== *)
(** The generated client (clients/rust/jito_tip_router/src/generated/instructions): a
    module for each instruction, with the accounts and the arguments it takes, the
    instruction it makes of them, and its builder, where [None] is the panic of an
    account or argument that is not set.  The calls from other programs (Cpi) are
    left out.  Some of the files hold two unmerged versions: a module without prefix is
    the side that closes the conflict, one with the prefix Head the side that opens
    it. *)

From Stdlib Require Import String.
From S2P Require Import Prelude Errors External Config Borsh TipRouterIx.
#[local] Open Scope string_scope.
#[local] Open Scope list_scope.

Record AccountMeta := mkAccountMeta { am_pubkey : Pubkey; am_is_signer : bool; am_is_writable : bool }.
Definition new (pubkey : Pubkey) (is_signer : bool) : AccountMeta := mkAccountMeta pubkey is_signer true.
Definition new_readonly (pubkey : Pubkey) (is_signer : bool) : AccountMeta := mkAccountMeta pubkey is_signer false.

Record Instruction := mkInstruction { in_program_id : Pubkey; in_accounts : list AccountMeta; in_data : list Z }.

(** The keys that are written into the generated code. *)
Class ClientKeys := { JITO_TIP_ROUTER_ID : Pubkey; SYSTEM_PROGRAM : Pubkey; TOKEN_PROGRAM : Pubkey }.

(* ------------------------------------------------------------------ *)
Module InitializeConfig.
Record InitializeConfig := mkInitializeConfig { config : Pubkey; ncn : Pubkey; fee_wallet : Pubkey;
  ncn_admin : Pubkey; tie_breaker_admin : Pubkey; account_payer : Pubkey; system_program : Pubkey }.
Record InstructionArgs := mkArgs { arg_block_engine_fee_bps : Z; arg_dao_fee_bps : Z; arg_default_ncn_fee_bps : Z;
  arg_epochs_before_stall : Z; arg_epochs_after_consensus_before_close : Z; arg_valid_slots_after_consensus : Z }.
Definition discriminator : Z := 0.

Section instruction.
Context `{Borsh} `{ClientKeys}.
Definition try_to_vec (args : InstructionArgs) : list Z := ser b_u16 (arg_block_engine_fee_bps args) ++
  ser b_u16 (arg_dao_fee_bps args) ++ ser b_u16 (arg_default_ncn_fee_bps args) ++
  ser b_u64 (arg_epochs_before_stall args) ++ ser b_u64 (arg_epochs_after_consensus_before_close args) ++
  ser b_u64 (arg_valid_slots_after_consensus args).
Definition instruction_with_remaining_accounts (self : InitializeConfig) (args : InstructionArgs)
    (remaining_accounts : list AccountMeta) : Instruction :=
  mkInstruction JITO_TIP_ROUTER_ID ([new (config self) false; new_readonly (ncn self) false;
     new_readonly (fee_wallet self) false; new_readonly (ncn_admin self) true;
     new_readonly (tie_breaker_admin self) false; new (account_payer self) false;
     new_readonly (system_program self) false] ++ remaining_accounts)
    (ser b_u8 discriminator ++ try_to_vec args).
Record Builder := mkBuilder { b_config : option Pubkey; b_ncn : option Pubkey; b_fee_wallet : option Pubkey;
  b_ncn_admin : option Pubkey; b_tie_breaker_admin : option Pubkey; b_account_payer : option Pubkey;
  b_system_program : option Pubkey; b_block_engine_fee_bps : option Z; b_dao_fee_bps : option Z;
  b_default_ncn_fee_bps : option Z; b_epochs_before_stall : option Z;
  b_epochs_after_consensus_before_close : option Z; b_valid_slots_after_consensus : option Z;
  b_remaining_accounts : list AccountMeta }.
Definition instruction (self : Builder) : option Instruction :=
  config ← b_config self; ncn ← b_ncn self; fee_wallet ← b_fee_wallet self; ncn_admin ← b_ncn_admin self;
  tie_breaker_admin ← b_tie_breaker_admin self; account_payer ← b_account_payer self;
  let system_program := default SYSTEM_PROGRAM (b_system_program self) in
  block_engine_fee_bps ← b_block_engine_fee_bps self; dao_fee_bps ← b_dao_fee_bps self;
  default_ncn_fee_bps ← b_default_ncn_fee_bps self; epochs_before_stall ← b_epochs_before_stall self;
  epochs_after_consensus_before_close ← b_epochs_after_consensus_before_close self;
  valid_slots_after_consensus ← b_valid_slots_after_consensus self;
  Some (instruction_with_remaining_accounts (mkInitializeConfig config ncn fee_wallet ncn_admin tie_breaker_admin
    account_payer system_program)
    (mkArgs block_engine_fee_bps dao_fee_bps default_ncn_fee_bps epochs_before_stall
      epochs_after_consensus_before_close valid_slots_after_consensus) (b_remaining_accounts self)).
End instruction.
End InitializeConfig.

(* ------------------------------------------------------------------ *)
Module InitializeVaultRegistry.
Record InitializeVaultRegistry := mkInitializeVaultRegistry { config : Pubkey; vault_registry : Pubkey;
  ncn : Pubkey; account_payer : Pubkey; system_program : Pubkey }.
Definition discriminator : Z := 1.

Section instruction.
Context `{Borsh} `{ClientKeys}.
Definition instruction_with_remaining_accounts (self : InitializeVaultRegistry)
    (remaining_accounts : list AccountMeta) : Instruction :=
  mkInstruction JITO_TIP_ROUTER_ID ([new_readonly (config self) false; new (vault_registry self) false;
     new_readonly (ncn self) false; new (account_payer self) false; new_readonly (system_program self) false] ++ remaining_accounts)
    (ser b_u8 discriminator).
Record Builder := mkBuilder { b_config : option Pubkey; b_vault_registry : option Pubkey; b_ncn : option Pubkey;
  b_account_payer : option Pubkey; b_system_program : option Pubkey; b_remaining_accounts : list AccountMeta }.
Definition instruction (self : Builder) : option Instruction :=
  config ← b_config self; vault_registry ← b_vault_registry self; ncn ← b_ncn self;
  account_payer ← b_account_payer self; let system_program := default SYSTEM_PROGRAM (b_system_program self) in
  Some (instruction_with_remaining_accounts (mkInitializeVaultRegistry config vault_registry ncn account_payer
    system_program) (b_remaining_accounts self)).
End instruction.
End InitializeVaultRegistry.

(* ------------------------------------------------------------------ *)
Module ReallocVaultRegistry.
Record ReallocVaultRegistry := mkReallocVaultRegistry { config : Pubkey; vault_registry : Pubkey; ncn : Pubkey;
  account_payer : Pubkey; system_program : Pubkey }.
Definition discriminator : Z := 2.

Section instruction.
Context `{Borsh} `{ClientKeys}.
Definition instruction_with_remaining_accounts (self : ReallocVaultRegistry)
    (remaining_accounts : list AccountMeta) : Instruction :=
  mkInstruction JITO_TIP_ROUTER_ID ([new_readonly (config self) false; new (vault_registry self) false;
     new_readonly (ncn self) false; new (account_payer self) false; new_readonly (system_program self) false] ++ remaining_accounts)
    (ser b_u8 discriminator).
Record Builder := mkBuilder { b_config : option Pubkey; b_vault_registry : option Pubkey; b_ncn : option Pubkey;
  b_account_payer : option Pubkey; b_system_program : option Pubkey; b_remaining_accounts : list AccountMeta }.
Definition instruction (self : Builder) : option Instruction :=
  config ← b_config self; vault_registry ← b_vault_registry self; ncn ← b_ncn self;
  account_payer ← b_account_payer self; let system_program := default SYSTEM_PROGRAM (b_system_program self) in
  Some (instruction_with_remaining_accounts (mkReallocVaultRegistry config vault_registry ncn account_payer
    system_program) (b_remaining_accounts self)).
End instruction.
End ReallocVaultRegistry.

(* ------------------------------------------------------------------ *)
Module RegisterVault.
Record RegisterVault := mkRegisterVault { config : Pubkey; vault_registry : Pubkey; ncn : Pubkey; vault : Pubkey;
  ncn_vault_ticket : Pubkey }.
Definition discriminator : Z := 3.

Section instruction.
Context `{Borsh} `{ClientKeys}.
Definition instruction_with_remaining_accounts (self : RegisterVault)
    (remaining_accounts : list AccountMeta) : Instruction :=
  mkInstruction JITO_TIP_ROUTER_ID ([new_readonly (config self) false; new (vault_registry self) false;
     new_readonly (ncn self) false; new_readonly (vault self) false; new_readonly (ncn_vault_ticket self) false] ++ remaining_accounts)
    (ser b_u8 discriminator).
Record Builder := mkBuilder { b_config : option Pubkey; b_vault_registry : option Pubkey; b_ncn : option Pubkey;
  b_vault : option Pubkey; b_ncn_vault_ticket : option Pubkey; b_remaining_accounts : list AccountMeta }.
Definition instruction (self : Builder) : option Instruction :=
  config ← b_config self; vault_registry ← b_vault_registry self; ncn ← b_ncn self; vault ← b_vault self;
  ncn_vault_ticket ← b_ncn_vault_ticket self;
  Some (instruction_with_remaining_accounts (mkRegisterVault config vault_registry ncn vault ncn_vault_ticket) (b_remaining_accounts self)).
End instruction.
End RegisterVault.

(* ------------------------------------------------------------------ *)
Module InitializeEpochState.
Record InitializeEpochState := mkInitializeEpochState { epoch_marker : Pubkey; epoch_state : Pubkey;
  config : Pubkey; ncn : Pubkey; account_payer : Pubkey; system_program : Pubkey }.
Record InstructionArgs := mkArgs { arg_epoch : Z }.
Definition discriminator : Z := 4.

Section instruction.
Context `{Borsh} `{ClientKeys}.
Definition try_to_vec (args : InstructionArgs) : list Z := ser b_u64 (arg_epoch args).
Definition instruction_with_remaining_accounts (self : InitializeEpochState) (args : InstructionArgs)
    (remaining_accounts : list AccountMeta) : Instruction :=
  mkInstruction JITO_TIP_ROUTER_ID ([new_readonly (epoch_marker self) false; new (epoch_state self) false;
     new_readonly (config self) false; new_readonly (ncn self) false; new (account_payer self) false;
     new_readonly (system_program self) false] ++ remaining_accounts)
    (ser b_u8 discriminator ++ try_to_vec args).
Record Builder := mkBuilder { b_epoch_marker : option Pubkey; b_epoch_state : option Pubkey;
  b_config : option Pubkey; b_ncn : option Pubkey; b_account_payer : option Pubkey;
  b_system_program : option Pubkey; b_epoch : option Z; b_remaining_accounts : list AccountMeta }.
Definition instruction (self : Builder) : option Instruction :=
  epoch_marker ← b_epoch_marker self; epoch_state ← b_epoch_state self; config ← b_config self; ncn ← b_ncn self;
  account_payer ← b_account_payer self; let system_program := default SYSTEM_PROGRAM (b_system_program self) in
  epoch ← b_epoch self;
  Some (instruction_with_remaining_accounts (mkInitializeEpochState epoch_marker epoch_state config ncn
    account_payer system_program)
    (mkArgs epoch) (b_remaining_accounts self)).
End instruction.
End InitializeEpochState.

(* ------------------------------------------------------------------ *)
Module ReallocEpochState.
Record ReallocEpochState := mkReallocEpochState { epoch_state : Pubkey; config : Pubkey; ncn : Pubkey;
  account_payer : Pubkey; system_program : Pubkey }.
Record InstructionArgs := mkArgs { arg_epoch : Z }.
Definition discriminator : Z := 5.

Section instruction.
Context `{Borsh} `{ClientKeys}.
Definition try_to_vec (args : InstructionArgs) : list Z := ser b_u64 (arg_epoch args).
Definition instruction_with_remaining_accounts (self : ReallocEpochState) (args : InstructionArgs)
    (remaining_accounts : list AccountMeta) : Instruction :=
  mkInstruction JITO_TIP_ROUTER_ID ([new (epoch_state self) false; new_readonly (config self) false;
     new_readonly (ncn self) false; new (account_payer self) false; new_readonly (system_program self) false] ++ remaining_accounts)
    (ser b_u8 discriminator ++ try_to_vec args).
Record Builder := mkBuilder { b_epoch_state : option Pubkey; b_config : option Pubkey; b_ncn : option Pubkey;
  b_account_payer : option Pubkey; b_system_program : option Pubkey; b_epoch : option Z;
  b_remaining_accounts : list AccountMeta }.
Definition instruction (self : Builder) : option Instruction :=
  epoch_state ← b_epoch_state self; config ← b_config self; ncn ← b_ncn self; account_payer ← b_account_payer self;
  let system_program := default SYSTEM_PROGRAM (b_system_program self) in epoch ← b_epoch self;
  Some (instruction_with_remaining_accounts (mkReallocEpochState epoch_state config ncn account_payer
    system_program)
    (mkArgs epoch) (b_remaining_accounts self)).
End instruction.
End ReallocEpochState.

(* ------------------------------------------------------------------ *)
Module InitializeWeightTable.
Record InitializeWeightTable := mkInitializeWeightTable { epoch_marker : Pubkey; epoch_state : Pubkey;
  vault_registry : Pubkey; ncn : Pubkey; weight_table : Pubkey; account_payer : Pubkey; system_program : Pubkey }.
Record InstructionArgs := mkArgs { arg_epoch : Z }.
Definition discriminator : Z := 6.

Section instruction.
Context `{Borsh} `{ClientKeys}.
Definition try_to_vec (args : InstructionArgs) : list Z := ser b_u64 (arg_epoch args).
Definition instruction_with_remaining_accounts (self : InitializeWeightTable) (args : InstructionArgs)
    (remaining_accounts : list AccountMeta) : Instruction :=
  mkInstruction JITO_TIP_ROUTER_ID ([new_readonly (epoch_marker self) false; new_readonly (epoch_state self) false;
     new_readonly (vault_registry self) false; new_readonly (ncn self) false; new (weight_table self) false;
     new (account_payer self) false; new_readonly (system_program self) false] ++ remaining_accounts)
    (ser b_u8 discriminator ++ try_to_vec args).
Record Builder := mkBuilder { b_epoch_marker : option Pubkey; b_epoch_state : option Pubkey;
  b_vault_registry : option Pubkey; b_ncn : option Pubkey; b_weight_table : option Pubkey;
  b_account_payer : option Pubkey; b_system_program : option Pubkey; b_epoch : option Z;
  b_remaining_accounts : list AccountMeta }.
Definition instruction (self : Builder) : option Instruction :=
  epoch_marker ← b_epoch_marker self; epoch_state ← b_epoch_state self; vault_registry ← b_vault_registry self;
  ncn ← b_ncn self; weight_table ← b_weight_table self; account_payer ← b_account_payer self;
  let system_program := default SYSTEM_PROGRAM (b_system_program self) in epoch ← b_epoch self;
  Some (instruction_with_remaining_accounts (mkInitializeWeightTable epoch_marker epoch_state vault_registry ncn
    weight_table account_payer system_program)
    (mkArgs epoch) (b_remaining_accounts self)).
End instruction.
End InitializeWeightTable.

(* ------------------------------------------------------------------ *)
Module ReallocWeightTable.
Record ReallocWeightTable := mkReallocWeightTable { epoch_state : Pubkey; config : Pubkey; weight_table : Pubkey;
  ncn : Pubkey; vault_registry : Pubkey; account_payer : Pubkey; system_program : Pubkey }.
Record InstructionArgs := mkArgs { arg_epoch : Z }.
Definition discriminator : Z := 7.

Section instruction.
Context `{Borsh} `{ClientKeys}.
Definition try_to_vec (args : InstructionArgs) : list Z := ser b_u64 (arg_epoch args).
Definition instruction_with_remaining_accounts (self : ReallocWeightTable) (args : InstructionArgs)
    (remaining_accounts : list AccountMeta) : Instruction :=
  mkInstruction JITO_TIP_ROUTER_ID ([new (epoch_state self) false; new_readonly (config self) false;
     new (weight_table self) false; new_readonly (ncn self) false; new_readonly (vault_registry self) false;
     new (account_payer self) false; new_readonly (system_program self) false] ++ remaining_accounts)
    (ser b_u8 discriminator ++ try_to_vec args).
Record Builder := mkBuilder { b_epoch_state : option Pubkey; b_config : option Pubkey;
  b_weight_table : option Pubkey; b_ncn : option Pubkey; b_vault_registry : option Pubkey;
  b_account_payer : option Pubkey; b_system_program : option Pubkey; b_epoch : option Z;
  b_remaining_accounts : list AccountMeta }.
Definition instruction (self : Builder) : option Instruction :=
  epoch_state ← b_epoch_state self; config ← b_config self; weight_table ← b_weight_table self; ncn ← b_ncn self;
  vault_registry ← b_vault_registry self; account_payer ← b_account_payer self;
  let system_program := default SYSTEM_PROGRAM (b_system_program self) in epoch ← b_epoch self;
  Some (instruction_with_remaining_accounts (mkReallocWeightTable epoch_state config weight_table ncn
    vault_registry account_payer system_program)
    (mkArgs epoch) (b_remaining_accounts self)).
End instruction.
End ReallocWeightTable.

(* ------------------------------------------------------------------ *)
Module SwitchboardSetWeight.
Record SwitchboardSetWeight := mkSwitchboardSetWeight { epoch_state : Pubkey; ncn : Pubkey; weight_table : Pubkey;
  switchboard_feed : Pubkey }.
Record InstructionArgs := mkArgs { arg_st_mint : Pubkey; arg_epoch : Z }.
Definition discriminator : Z := 8.

Section instruction.
Context `{Borsh} `{ClientKeys}.
Definition try_to_vec (args : InstructionArgs) : list Z := ser b_pubkey (arg_st_mint args) ++
  ser b_u64 (arg_epoch args).
Definition instruction_with_remaining_accounts (self : SwitchboardSetWeight) (args : InstructionArgs)
    (remaining_accounts : list AccountMeta) : Instruction :=
  mkInstruction JITO_TIP_ROUTER_ID ([new (epoch_state self) false; new_readonly (ncn self) false;
     new (weight_table self) false; new_readonly (switchboard_feed self) false] ++ remaining_accounts)
    (ser b_u8 discriminator ++ try_to_vec args).
Record Builder := mkBuilder { b_epoch_state : option Pubkey; b_ncn : option Pubkey; b_weight_table : option Pubkey;
  b_switchboard_feed : option Pubkey; b_st_mint : option Pubkey; b_epoch : option Z;
  b_remaining_accounts : list AccountMeta }.
Definition instruction (self : Builder) : option Instruction :=
  epoch_state ← b_epoch_state self; ncn ← b_ncn self; weight_table ← b_weight_table self;
  switchboard_feed ← b_switchboard_feed self; st_mint ← b_st_mint self; epoch ← b_epoch self;
  Some (instruction_with_remaining_accounts (mkSwitchboardSetWeight epoch_state ncn weight_table switchboard_feed)
    (mkArgs st_mint epoch) (b_remaining_accounts self)).
End instruction.
End SwitchboardSetWeight.

(* ------------------------------------------------------------------ *)
Module InitializeEpochSnapshot.
Record InitializeEpochSnapshot := mkInitializeEpochSnapshot { epoch_marker : Pubkey; epoch_state : Pubkey;
  config : Pubkey; ncn : Pubkey; weight_table : Pubkey; epoch_snapshot : Pubkey; account_payer : Pubkey;
  system_program : Pubkey }.
Record InstructionArgs := mkArgs { arg_epoch : Z }.
Definition discriminator : Z := 9.

Section instruction.
Context `{Borsh} `{ClientKeys}.
Definition try_to_vec (args : InstructionArgs) : list Z := ser b_u64 (arg_epoch args).
Definition instruction_with_remaining_accounts (self : InitializeEpochSnapshot) (args : InstructionArgs)
    (remaining_accounts : list AccountMeta) : Instruction :=
  mkInstruction JITO_TIP_ROUTER_ID ([new_readonly (epoch_marker self) false; new (epoch_state self) false;
     new_readonly (config self) false; new_readonly (ncn self) false; new_readonly (weight_table self) false;
     new (epoch_snapshot self) false; new (account_payer self) false; new_readonly (system_program self) false] ++ remaining_accounts)
    (ser b_u8 discriminator ++ try_to_vec args).
Record Builder := mkBuilder { b_epoch_marker : option Pubkey; b_epoch_state : option Pubkey;
  b_config : option Pubkey; b_ncn : option Pubkey; b_weight_table : option Pubkey;
  b_epoch_snapshot : option Pubkey; b_account_payer : option Pubkey; b_system_program : option Pubkey;
  b_epoch : option Z; b_remaining_accounts : list AccountMeta }.
Definition instruction (self : Builder) : option Instruction :=
  epoch_marker ← b_epoch_marker self; epoch_state ← b_epoch_state self; config ← b_config self; ncn ← b_ncn self;
  weight_table ← b_weight_table self; epoch_snapshot ← b_epoch_snapshot self; account_payer ← b_account_payer self;
  let system_program := default SYSTEM_PROGRAM (b_system_program self) in epoch ← b_epoch self;
  Some (instruction_with_remaining_accounts (mkInitializeEpochSnapshot epoch_marker epoch_state config ncn
    weight_table epoch_snapshot account_payer system_program)
    (mkArgs epoch) (b_remaining_accounts self)).
End instruction.
End InitializeEpochSnapshot.

(* ------------------------------------------------------------------ *)
Module InitializeOperatorSnapshot.
Record InitializeOperatorSnapshot := mkInitializeOperatorSnapshot { epoch_marker : Pubkey; epoch_state : Pubkey;
  config : Pubkey; ncn : Pubkey; operator : Pubkey; ncn_operator_state : Pubkey; epoch_snapshot : Pubkey;
  operator_snapshot : Pubkey; account_payer : Pubkey; system_program : Pubkey }.
Record InstructionArgs := mkArgs { arg_epoch : Z }.
Definition discriminator : Z := 10.

Section instruction.
Context `{Borsh} `{ClientKeys}.
Definition try_to_vec (args : InstructionArgs) : list Z := ser b_u64 (arg_epoch args).
Definition instruction_with_remaining_accounts (self : InitializeOperatorSnapshot) (args : InstructionArgs)
    (remaining_accounts : list AccountMeta) : Instruction :=
  mkInstruction JITO_TIP_ROUTER_ID ([new_readonly (epoch_marker self) false; new_readonly (epoch_state self) false;
     new_readonly (config self) false; new_readonly (ncn self) false; new_readonly (operator self) false;
     new_readonly (ncn_operator_state self) false; new_readonly (epoch_snapshot self) false;
     new (operator_snapshot self) false; new (account_payer self) false; new_readonly (system_program self) false] ++ remaining_accounts)
    (ser b_u8 discriminator ++ try_to_vec args).
Record Builder := mkBuilder { b_epoch_marker : option Pubkey; b_epoch_state : option Pubkey;
  b_config : option Pubkey; b_ncn : option Pubkey; b_operator : option Pubkey;
  b_ncn_operator_state : option Pubkey; b_epoch_snapshot : option Pubkey; b_operator_snapshot : option Pubkey;
  b_account_payer : option Pubkey; b_system_program : option Pubkey; b_epoch : option Z;
  b_remaining_accounts : list AccountMeta }.
Definition instruction (self : Builder) : option Instruction :=
  epoch_marker ← b_epoch_marker self; epoch_state ← b_epoch_state self; config ← b_config self; ncn ← b_ncn self;
  operator ← b_operator self; ncn_operator_state ← b_ncn_operator_state self;
  epoch_snapshot ← b_epoch_snapshot self; operator_snapshot ← b_operator_snapshot self;
  account_payer ← b_account_payer self; let system_program := default SYSTEM_PROGRAM (b_system_program self) in
  epoch ← b_epoch self;
  Some (instruction_with_remaining_accounts (mkInitializeOperatorSnapshot epoch_marker epoch_state config ncn
    operator ncn_operator_state epoch_snapshot operator_snapshot account_payer system_program)
    (mkArgs epoch) (b_remaining_accounts self)).
End instruction.
End InitializeOperatorSnapshot.

(* ------------------------------------------------------------------ *)
Module ReallocOperatorSnapshot.
Record ReallocOperatorSnapshot := mkReallocOperatorSnapshot { epoch_state : Pubkey; config : Pubkey;
  restaking_config : Pubkey; ncn : Pubkey; operator : Pubkey; ncn_operator_state : Pubkey; epoch_snapshot : Pubkey;
  operator_snapshot : Pubkey; account_payer : Pubkey; system_program : Pubkey }.
Record InstructionArgs := mkArgs { arg_epoch : Z }.
Definition discriminator : Z := 11.

Section instruction.
Context `{Borsh} `{ClientKeys}.
Definition try_to_vec (args : InstructionArgs) : list Z := ser b_u64 (arg_epoch args).
Definition instruction_with_remaining_accounts (self : ReallocOperatorSnapshot) (args : InstructionArgs)
    (remaining_accounts : list AccountMeta) : Instruction :=
  mkInstruction JITO_TIP_ROUTER_ID ([new (epoch_state self) false; new_readonly (config self) false;
     new_readonly (restaking_config self) false; new_readonly (ncn self) false; new_readonly (operator self) false;
     new_readonly (ncn_operator_state self) false; new (epoch_snapshot self) false;
     new (operator_snapshot self) false; new (account_payer self) false; new_readonly (system_program self) false] ++ remaining_accounts)
    (ser b_u8 discriminator ++ try_to_vec args).
Record Builder := mkBuilder { b_epoch_state : option Pubkey; b_config : option Pubkey;
  b_restaking_config : option Pubkey; b_ncn : option Pubkey; b_operator : option Pubkey;
  b_ncn_operator_state : option Pubkey; b_epoch_snapshot : option Pubkey; b_operator_snapshot : option Pubkey;
  b_account_payer : option Pubkey; b_system_program : option Pubkey; b_epoch : option Z;
  b_remaining_accounts : list AccountMeta }.
Definition instruction (self : Builder) : option Instruction :=
  epoch_state ← b_epoch_state self; config ← b_config self; restaking_config ← b_restaking_config self;
  ncn ← b_ncn self; operator ← b_operator self; ncn_operator_state ← b_ncn_operator_state self;
  epoch_snapshot ← b_epoch_snapshot self; operator_snapshot ← b_operator_snapshot self;
  account_payer ← b_account_payer self; let system_program := default SYSTEM_PROGRAM (b_system_program self) in
  epoch ← b_epoch self;
  Some (instruction_with_remaining_accounts (mkReallocOperatorSnapshot epoch_state config restaking_config ncn
    operator ncn_operator_state epoch_snapshot operator_snapshot account_payer system_program)
    (mkArgs epoch) (b_remaining_accounts self)).
End instruction.
End ReallocOperatorSnapshot.

(* ------------------------------------------------------------------ *)
Module SnapshotVaultOperatorDelegation.
Record SnapshotVaultOperatorDelegation := mkSnapshotVaultOperatorDelegation { epoch_state : Pubkey;
  config : Pubkey; restaking_config : Pubkey; ncn : Pubkey; operator : Pubkey; vault : Pubkey;
  vault_ncn_ticket : Pubkey; ncn_vault_ticket : Pubkey; vault_operator_delegation : Pubkey; weight_table : Pubkey;
  epoch_snapshot : Pubkey; operator_snapshot : Pubkey }.
Record InstructionArgs := mkArgs { arg_epoch : Z }.
Definition discriminator : Z := 12.

Section instruction.
Context `{Borsh} `{ClientKeys}.
Definition try_to_vec (args : InstructionArgs) : list Z := ser b_u64 (arg_epoch args).
Definition instruction_with_remaining_accounts (self : SnapshotVaultOperatorDelegation) (args : InstructionArgs)
    (remaining_accounts : list AccountMeta) : Instruction :=
  mkInstruction JITO_TIP_ROUTER_ID ([new (epoch_state self) false; new_readonly (config self) false;
     new_readonly (restaking_config self) false; new_readonly (ncn self) false; new_readonly (operator self) false;
     new_readonly (vault self) false; new_readonly (vault_ncn_ticket self) false;
     new_readonly (ncn_vault_ticket self) false; new_readonly (vault_operator_delegation self) false;
     new_readonly (weight_table self) false; new (epoch_snapshot self) false; new (operator_snapshot self) false] ++ remaining_accounts)
    (ser b_u8 discriminator ++ try_to_vec args).
Record Builder := mkBuilder { b_epoch_state : option Pubkey; b_config : option Pubkey;
  b_restaking_config : option Pubkey; b_ncn : option Pubkey; b_operator : option Pubkey; b_vault : option Pubkey;
  b_vault_ncn_ticket : option Pubkey; b_ncn_vault_ticket : option Pubkey;
  b_vault_operator_delegation : option Pubkey; b_weight_table : option Pubkey; b_epoch_snapshot : option Pubkey;
  b_operator_snapshot : option Pubkey; b_epoch : option Z; b_remaining_accounts : list AccountMeta }.
Definition instruction (self : Builder) : option Instruction :=
  epoch_state ← b_epoch_state self; config ← b_config self; restaking_config ← b_restaking_config self;
  ncn ← b_ncn self; operator ← b_operator self; vault ← b_vault self; vault_ncn_ticket ← b_vault_ncn_ticket self;
  ncn_vault_ticket ← b_ncn_vault_ticket self; vault_operator_delegation ← b_vault_operator_delegation self;
  weight_table ← b_weight_table self; epoch_snapshot ← b_epoch_snapshot self;
  operator_snapshot ← b_operator_snapshot self; epoch ← b_epoch self;
  Some (instruction_with_remaining_accounts (mkSnapshotVaultOperatorDelegation epoch_state config restaking_config
    ncn operator vault vault_ncn_ticket ncn_vault_ticket vault_operator_delegation weight_table epoch_snapshot
    operator_snapshot)
    (mkArgs epoch) (b_remaining_accounts self)).
End instruction.
End SnapshotVaultOperatorDelegation.

(* ------------------------------------------------------------------ *)
Module InitializeBallotBox.
Record InitializeBallotBox := mkInitializeBallotBox { epoch_marker : Pubkey; epoch_state : Pubkey; config : Pubkey;
  ballot_box : Pubkey; ncn : Pubkey; account_payer : Pubkey; system_program : Pubkey }.
Record InstructionArgs := mkArgs { arg_epoch : Z }.
Definition discriminator : Z := 13.

Section instruction.
Context `{Borsh} `{ClientKeys}.
Definition try_to_vec (args : InstructionArgs) : list Z := ser b_u64 (arg_epoch args).
Definition instruction_with_remaining_accounts (self : InitializeBallotBox) (args : InstructionArgs)
    (remaining_accounts : list AccountMeta) : Instruction :=
  mkInstruction JITO_TIP_ROUTER_ID ([new_readonly (epoch_marker self) false; new_readonly (epoch_state self) false;
     new_readonly (config self) false; new (ballot_box self) false; new_readonly (ncn self) false;
     new (account_payer self) false; new_readonly (system_program self) false] ++ remaining_accounts)
    (ser b_u8 discriminator ++ try_to_vec args).
Record Builder := mkBuilder { b_epoch_marker : option Pubkey; b_epoch_state : option Pubkey;
  b_config : option Pubkey; b_ballot_box : option Pubkey; b_ncn : option Pubkey; b_account_payer : option Pubkey;
  b_system_program : option Pubkey; b_epoch : option Z; b_remaining_accounts : list AccountMeta }.
Definition instruction (self : Builder) : option Instruction :=
  epoch_marker ← b_epoch_marker self; epoch_state ← b_epoch_state self; config ← b_config self;
  ballot_box ← b_ballot_box self; ncn ← b_ncn self; account_payer ← b_account_payer self;
  let system_program := default SYSTEM_PROGRAM (b_system_program self) in epoch ← b_epoch self;
  Some (instruction_with_remaining_accounts (mkInitializeBallotBox epoch_marker epoch_state config ballot_box ncn
    account_payer system_program)
    (mkArgs epoch) (b_remaining_accounts self)).
End instruction.
End InitializeBallotBox.

(* ------------------------------------------------------------------ *)
Module ReallocBallotBox.
Record ReallocBallotBox := mkReallocBallotBox { epoch_state : Pubkey; config : Pubkey; ballot_box : Pubkey;
  ncn : Pubkey; account_payer : Pubkey; system_program : Pubkey }.
Record InstructionArgs := mkArgs { arg_epoch : Z }.
Definition discriminator : Z := 14.

Section instruction.
Context `{Borsh} `{ClientKeys}.
Definition try_to_vec (args : InstructionArgs) : list Z := ser b_u64 (arg_epoch args).
Definition instruction_with_remaining_accounts (self : ReallocBallotBox) (args : InstructionArgs)
    (remaining_accounts : list AccountMeta) : Instruction :=
  mkInstruction JITO_TIP_ROUTER_ID ([new (epoch_state self) false; new_readonly (config self) false;
     new (ballot_box self) false; new_readonly (ncn self) false; new (account_payer self) false;
     new_readonly (system_program self) false] ++ remaining_accounts)
    (ser b_u8 discriminator ++ try_to_vec args).
Record Builder := mkBuilder { b_epoch_state : option Pubkey; b_config : option Pubkey;
  b_ballot_box : option Pubkey; b_ncn : option Pubkey; b_account_payer : option Pubkey;
  b_system_program : option Pubkey; b_epoch : option Z; b_remaining_accounts : list AccountMeta }.
Definition instruction (self : Builder) : option Instruction :=
  epoch_state ← b_epoch_state self; config ← b_config self; ballot_box ← b_ballot_box self; ncn ← b_ncn self;
  account_payer ← b_account_payer self; let system_program := default SYSTEM_PROGRAM (b_system_program self) in
  epoch ← b_epoch self;
  Some (instruction_with_remaining_accounts (mkReallocBallotBox epoch_state config ballot_box ncn account_payer
    system_program)
    (mkArgs epoch) (b_remaining_accounts self)).
End instruction.
End ReallocBallotBox.

(* ------------------------------------------------------------------ *)
Module CastVote.
Record CastVote := mkCastVote { epoch_state : Pubkey; config : Pubkey; ballot_box : Pubkey; ncn : Pubkey;
  epoch_snapshot : Pubkey; operator_snapshot : Pubkey; operator : Pubkey; operator_voter : Pubkey }.
Record InstructionArgs := mkArgs { arg_meta_merkle_root : hash; arg_epoch : Z }.
Definition discriminator : Z := 15.

Section instruction.
Context `{Borsh} `{ClientKeys}.
Definition try_to_vec (args : InstructionArgs) : list Z := ser b_bytes32 (arg_meta_merkle_root args) ++
  ser b_u64 (arg_epoch args).
Definition instruction_with_remaining_accounts (self : CastVote) (args : InstructionArgs)
    (remaining_accounts : list AccountMeta) : Instruction :=
  mkInstruction JITO_TIP_ROUTER_ID ([new (epoch_state self) false; new_readonly (config self) false;
     new (ballot_box self) false; new_readonly (ncn self) false; new_readonly (epoch_snapshot self) false;
     new_readonly (operator_snapshot self) false; new_readonly (operator self) false;
     new_readonly (operator_voter self) true] ++ remaining_accounts)
    (ser b_u8 discriminator ++ try_to_vec args).
Record Builder := mkBuilder { b_epoch_state : option Pubkey; b_config : option Pubkey;
  b_ballot_box : option Pubkey; b_ncn : option Pubkey; b_epoch_snapshot : option Pubkey;
  b_operator_snapshot : option Pubkey; b_operator : option Pubkey; b_operator_voter : option Pubkey;
  b_meta_merkle_root : option hash; b_epoch : option Z; b_remaining_accounts : list AccountMeta }.
Definition instruction (self : Builder) : option Instruction :=
  epoch_state ← b_epoch_state self; config ← b_config self; ballot_box ← b_ballot_box self; ncn ← b_ncn self;
  epoch_snapshot ← b_epoch_snapshot self; operator_snapshot ← b_operator_snapshot self; operator ← b_operator self;
  operator_voter ← b_operator_voter self; meta_merkle_root ← b_meta_merkle_root self; epoch ← b_epoch self;
  Some (instruction_with_remaining_accounts (mkCastVote epoch_state config ballot_box ncn epoch_snapshot
    operator_snapshot operator operator_voter)
    (mkArgs meta_merkle_root epoch) (b_remaining_accounts self)).
End instruction.
End CastVote.

(* ------------------------------------------------------------------ *)
Module SetMerkleRoot.
Record SetMerkleRoot := mkSetMerkleRoot { epoch_state : Pubkey; config : Pubkey; ncn : Pubkey; ballot_box : Pubkey;
  vote_account : Pubkey; tip_distribution_account : Pubkey; tip_distribution_config : Pubkey;
  tip_distribution_program : Pubkey }.
Record InstructionArgs := mkArgs { arg_proof : list hash; arg_merkle_root : hash; arg_max_total_claim : Z;
  arg_max_num_nodes : Z; arg_epoch : Z }.
Definition discriminator : Z := 16.

Section instruction.
Context `{Borsh} `{ClientKeys}.
Definition try_to_vec (args : InstructionArgs) : list Z := ser (b_vec b_bytes32) (arg_proof args) ++
  ser b_bytes32 (arg_merkle_root args) ++ ser b_u64 (arg_max_total_claim args) ++
  ser b_u64 (arg_max_num_nodes args) ++ ser b_u64 (arg_epoch args).
Definition instruction_with_remaining_accounts (self : SetMerkleRoot) (args : InstructionArgs)
    (remaining_accounts : list AccountMeta) : Instruction :=
  mkInstruction JITO_TIP_ROUTER_ID ([new (epoch_state self) false; new (config self) false;
     new_readonly (ncn self) false; new_readonly (ballot_box self) false; new_readonly (vote_account self) false;
     new (tip_distribution_account self) false; new_readonly (tip_distribution_config self) false;
     new_readonly (tip_distribution_program self) false] ++ remaining_accounts)
    (ser b_u8 discriminator ++ try_to_vec args).
Record Builder := mkBuilder { b_epoch_state : option Pubkey; b_config : option Pubkey; b_ncn : option Pubkey;
  b_ballot_box : option Pubkey; b_vote_account : option Pubkey; b_tip_distribution_account : option Pubkey;
  b_tip_distribution_config : option Pubkey; b_tip_distribution_program : option Pubkey;
  b_proof : option (list hash); b_merkle_root : option hash; b_max_total_claim : option Z;
  b_max_num_nodes : option Z; b_epoch : option Z; b_remaining_accounts : list AccountMeta }.
Definition instruction (self : Builder) : option Instruction :=
  epoch_state ← b_epoch_state self; config ← b_config self; ncn ← b_ncn self; ballot_box ← b_ballot_box self;
  vote_account ← b_vote_account self; tip_distribution_account ← b_tip_distribution_account self;
  tip_distribution_config ← b_tip_distribution_config self;
  tip_distribution_program ← b_tip_distribution_program self; proof ← b_proof self;
  merkle_root ← b_merkle_root self; max_total_claim ← b_max_total_claim self; max_num_nodes ← b_max_num_nodes self;
  epoch ← b_epoch self;
  Some (instruction_with_remaining_accounts (mkSetMerkleRoot epoch_state config ncn ballot_box vote_account
    tip_distribution_account tip_distribution_config tip_distribution_program)
    (mkArgs proof merkle_root max_total_claim max_num_nodes epoch) (b_remaining_accounts self)).
End instruction.
End SetMerkleRoot.

(* ------------------------------------------------------------------ *)
Module InitializeBaseRewardRouter.
Record InitializeBaseRewardRouter := mkInitializeBaseRewardRouter { epoch_marker : Pubkey; epoch_state : Pubkey;
  ncn : Pubkey; base_reward_router : Pubkey; base_reward_receiver : Pubkey; account_payer : Pubkey;
  system_program : Pubkey }.
Record InstructionArgs := mkArgs { arg_epoch : Z }.
Definition discriminator : Z := 17.

Section instruction.
Context `{Borsh} `{ClientKeys}.
Definition try_to_vec (args : InstructionArgs) : list Z := ser b_u64 (arg_epoch args).
Definition instruction_with_remaining_accounts (self : InitializeBaseRewardRouter) (args : InstructionArgs)
    (remaining_accounts : list AccountMeta) : Instruction :=
  mkInstruction JITO_TIP_ROUTER_ID ([new_readonly (epoch_marker self) false; new_readonly (epoch_state self) false;
     new_readonly (ncn self) false; new (base_reward_router self) false; new (base_reward_receiver self) false;
     new (account_payer self) false; new_readonly (system_program self) false] ++ remaining_accounts)
    (ser b_u8 discriminator ++ try_to_vec args).
Record Builder := mkBuilder { b_epoch_marker : option Pubkey; b_epoch_state : option Pubkey; b_ncn : option Pubkey;
  b_base_reward_router : option Pubkey; b_base_reward_receiver : option Pubkey; b_account_payer : option Pubkey;
  b_system_program : option Pubkey; b_epoch : option Z; b_remaining_accounts : list AccountMeta }.
Definition instruction (self : Builder) : option Instruction :=
  epoch_marker ← b_epoch_marker self; epoch_state ← b_epoch_state self; ncn ← b_ncn self;
  base_reward_router ← b_base_reward_router self; base_reward_receiver ← b_base_reward_receiver self;
  account_payer ← b_account_payer self; let system_program := default SYSTEM_PROGRAM (b_system_program self) in
  epoch ← b_epoch self;
  Some (instruction_with_remaining_accounts (mkInitializeBaseRewardRouter epoch_marker epoch_state ncn
    base_reward_router base_reward_receiver account_payer system_program)
    (mkArgs epoch) (b_remaining_accounts self)).
End instruction.
End InitializeBaseRewardRouter.

(* ------------------------------------------------------------------ *)
Module ReallocBaseRewardRouter.
Record ReallocBaseRewardRouter := mkReallocBaseRewardRouter { epoch_state : Pubkey; config : Pubkey;
  base_reward_router : Pubkey; ncn : Pubkey; account_payer : Pubkey; system_program : Pubkey }.
Record InstructionArgs := mkArgs { arg_epoch : Z }.
Definition discriminator : Z := 18.

Section instruction.
Context `{Borsh} `{ClientKeys}.
Definition try_to_vec (args : InstructionArgs) : list Z := ser b_u64 (arg_epoch args).
Definition instruction_with_remaining_accounts (self : ReallocBaseRewardRouter) (args : InstructionArgs)
    (remaining_accounts : list AccountMeta) : Instruction :=
  mkInstruction JITO_TIP_ROUTER_ID ([new (epoch_state self) false; new_readonly (config self) false;
     new (base_reward_router self) false; new_readonly (ncn self) false; new (account_payer self) false;
     new_readonly (system_program self) false] ++ remaining_accounts)
    (ser b_u8 discriminator ++ try_to_vec args).
Record Builder := mkBuilder { b_epoch_state : option Pubkey; b_config : option Pubkey;
  b_base_reward_router : option Pubkey; b_ncn : option Pubkey; b_account_payer : option Pubkey;
  b_system_program : option Pubkey; b_epoch : option Z; b_remaining_accounts : list AccountMeta }.
Definition instruction (self : Builder) : option Instruction :=
  epoch_state ← b_epoch_state self; config ← b_config self; base_reward_router ← b_base_reward_router self;
  ncn ← b_ncn self; account_payer ← b_account_payer self;
  let system_program := default SYSTEM_PROGRAM (b_system_program self) in epoch ← b_epoch self;
  Some (instruction_with_remaining_accounts (mkReallocBaseRewardRouter epoch_state config base_reward_router ncn
    account_payer system_program)
    (mkArgs epoch) (b_remaining_accounts self)).
End instruction.
End ReallocBaseRewardRouter.

(* ------------------------------------------------------------------ *)
Module InitializeNcnRewardRouter.
Record InitializeNcnRewardRouter := mkInitializeNcnRewardRouter { epoch_marker : Pubkey; epoch_state : Pubkey;
  ncn : Pubkey; operator : Pubkey; operator_snapshot : Pubkey; ncn_reward_router : Pubkey;
  ncn_reward_receiver : Pubkey; account_payer : Pubkey; system_program : Pubkey }.
Record InstructionArgs := mkArgs { arg_ncn_fee_group : Z; arg_epoch : Z }.
Definition discriminator : Z := 19.

Section instruction.
Context `{Borsh} `{ClientKeys}.
Definition try_to_vec (args : InstructionArgs) : list Z := ser b_u8 (arg_ncn_fee_group args) ++
  ser b_u64 (arg_epoch args).
Definition instruction_with_remaining_accounts (self : InitializeNcnRewardRouter) (args : InstructionArgs)
    (remaining_accounts : list AccountMeta) : Instruction :=
  mkInstruction JITO_TIP_ROUTER_ID ([new_readonly (epoch_marker self) false; new (epoch_state self) false;
     new_readonly (ncn self) false; new_readonly (operator self) false;
     new_readonly (operator_snapshot self) false; new (ncn_reward_router self) false;
     new (ncn_reward_receiver self) false; new (account_payer self) false; new_readonly (system_program self) false] ++ remaining_accounts)
    (ser b_u8 discriminator ++ try_to_vec args).
Record Builder := mkBuilder { b_epoch_marker : option Pubkey; b_epoch_state : option Pubkey; b_ncn : option Pubkey;
  b_operator : option Pubkey; b_operator_snapshot : option Pubkey; b_ncn_reward_router : option Pubkey;
  b_ncn_reward_receiver : option Pubkey; b_account_payer : option Pubkey; b_system_program : option Pubkey;
  b_ncn_fee_group : option Z; b_epoch : option Z; b_remaining_accounts : list AccountMeta }.
Definition instruction (self : Builder) : option Instruction :=
  epoch_marker ← b_epoch_marker self; epoch_state ← b_epoch_state self; ncn ← b_ncn self;
  operator ← b_operator self; operator_snapshot ← b_operator_snapshot self;
  ncn_reward_router ← b_ncn_reward_router self; ncn_reward_receiver ← b_ncn_reward_receiver self;
  account_payer ← b_account_payer self; let system_program := default SYSTEM_PROGRAM (b_system_program self) in
  ncn_fee_group ← b_ncn_fee_group self; epoch ← b_epoch self;
  Some (instruction_with_remaining_accounts (mkInitializeNcnRewardRouter epoch_marker epoch_state ncn operator
    operator_snapshot ncn_reward_router ncn_reward_receiver account_payer system_program)
    (mkArgs ncn_fee_group epoch) (b_remaining_accounts self)).
End instruction.
End InitializeNcnRewardRouter.

(* ------------------------------------------------------------------ *)
Module RouteBaseRewards.
Record RouteBaseRewards := mkRouteBaseRewards { epoch_state : Pubkey; config : Pubkey; ncn : Pubkey;
  epoch_snapshot : Pubkey; ballot_box : Pubkey; base_reward_router : Pubkey; base_reward_receiver : Pubkey }.
Record InstructionArgs := mkArgs { arg_max_iterations : Z; arg_epoch : Z }.
Definition discriminator : Z := 20.

Section instruction.
Context `{Borsh} `{ClientKeys}.
Definition try_to_vec (args : InstructionArgs) : list Z := ser b_u16 (arg_max_iterations args) ++
  ser b_u64 (arg_epoch args).
Definition instruction_with_remaining_accounts (self : RouteBaseRewards) (args : InstructionArgs)
    (remaining_accounts : list AccountMeta) : Instruction :=
  mkInstruction JITO_TIP_ROUTER_ID ([new (epoch_state self) false; new_readonly (config self) false;
     new_readonly (ncn self) false; new_readonly (epoch_snapshot self) false; new_readonly (ballot_box self) false;
     new (base_reward_router self) false; new (base_reward_receiver self) false] ++ remaining_accounts)
    (ser b_u8 discriminator ++ try_to_vec args).
Record Builder := mkBuilder { b_epoch_state : option Pubkey; b_config : option Pubkey; b_ncn : option Pubkey;
  b_epoch_snapshot : option Pubkey; b_ballot_box : option Pubkey; b_base_reward_router : option Pubkey;
  b_base_reward_receiver : option Pubkey; b_max_iterations : option Z; b_epoch : option Z;
  b_remaining_accounts : list AccountMeta }.
Definition instruction (self : Builder) : option Instruction :=
  epoch_state ← b_epoch_state self; config ← b_config self; ncn ← b_ncn self;
  epoch_snapshot ← b_epoch_snapshot self; ballot_box ← b_ballot_box self;
  base_reward_router ← b_base_reward_router self; base_reward_receiver ← b_base_reward_receiver self;
  max_iterations ← b_max_iterations self; epoch ← b_epoch self;
  Some (instruction_with_remaining_accounts (mkRouteBaseRewards epoch_state config ncn epoch_snapshot ballot_box
    base_reward_router base_reward_receiver)
    (mkArgs max_iterations epoch) (b_remaining_accounts self)).
End instruction.
End RouteBaseRewards.

(* ------------------------------------------------------------------ *)
Module RouteNcnRewards.
Record RouteNcnRewards := mkRouteNcnRewards { epoch_state : Pubkey; ncn : Pubkey; operator : Pubkey;
  operator_snapshot : Pubkey; ncn_reward_router : Pubkey; ncn_reward_receiver : Pubkey }.
Record InstructionArgs := mkArgs { arg_ncn_fee_group : Z; arg_max_iterations : Z; arg_epoch : Z }.
Definition discriminator : Z := 21.

Section instruction.
Context `{Borsh} `{ClientKeys}.
Definition try_to_vec (args : InstructionArgs) : list Z := ser b_u8 (arg_ncn_fee_group args) ++
  ser b_u16 (arg_max_iterations args) ++ ser b_u64 (arg_epoch args).
Definition instruction_with_remaining_accounts (self : RouteNcnRewards) (args : InstructionArgs)
    (remaining_accounts : list AccountMeta) : Instruction :=
  mkInstruction JITO_TIP_ROUTER_ID ([new (epoch_state self) false; new_readonly (ncn self) false;
     new_readonly (operator self) false; new_readonly (operator_snapshot self) false;
     new (ncn_reward_router self) false; new (ncn_reward_receiver self) false] ++ remaining_accounts)
    (ser b_u8 discriminator ++ try_to_vec args).
Record Builder := mkBuilder { b_epoch_state : option Pubkey; b_ncn : option Pubkey; b_operator : option Pubkey;
  b_operator_snapshot : option Pubkey; b_ncn_reward_router : option Pubkey; b_ncn_reward_receiver : option Pubkey;
  b_ncn_fee_group : option Z; b_max_iterations : option Z; b_epoch : option Z;
  b_remaining_accounts : list AccountMeta }.
Definition instruction (self : Builder) : option Instruction :=
  epoch_state ← b_epoch_state self; ncn ← b_ncn self; operator ← b_operator self;
  operator_snapshot ← b_operator_snapshot self; ncn_reward_router ← b_ncn_reward_router self;
  ncn_reward_receiver ← b_ncn_reward_receiver self; ncn_fee_group ← b_ncn_fee_group self;
  max_iterations ← b_max_iterations self; epoch ← b_epoch self;
  Some (instruction_with_remaining_accounts (mkRouteNcnRewards epoch_state ncn operator operator_snapshot
    ncn_reward_router ncn_reward_receiver)
    (mkArgs ncn_fee_group max_iterations epoch) (b_remaining_accounts self)).
End instruction.
End RouteNcnRewards.

(* ------------------------------------------------------------------ *)
Module DistributeBaseRewards.
Record DistributeBaseRewards := mkDistributeBaseRewards { epoch_state : Pubkey; config : Pubkey; ncn : Pubkey;
  base_reward_router : Pubkey; base_reward_receiver : Pubkey; base_fee_wallet : Pubkey;
  base_fee_wallet_ata : Pubkey; stake_pool_program : Pubkey; stake_pool : Pubkey;
  stake_pool_withdraw_authority : Pubkey; reserve_stake : Pubkey; manager_fee_account : Pubkey;
  referrer_pool_tokens_account : Pubkey; pool_mint : Pubkey; token_program : Pubkey; system_program : Pubkey }.
Record InstructionArgs := mkArgs { arg_base_fee_group : Z; arg_epoch : Z }.
Definition discriminator : Z := 22.

Section instruction.
Context `{Borsh} `{ClientKeys}.
Definition try_to_vec (args : InstructionArgs) : list Z := ser b_u8 (arg_base_fee_group args) ++
  ser b_u64 (arg_epoch args).
Definition instruction_with_remaining_accounts (self : DistributeBaseRewards) (args : InstructionArgs)
    (remaining_accounts : list AccountMeta) : Instruction :=
  mkInstruction JITO_TIP_ROUTER_ID ([new (epoch_state self) false; new_readonly (config self) false;
     new_readonly (ncn self) false; new (base_reward_router self) false; new (base_reward_receiver self) false;
     new_readonly (base_fee_wallet self) false; new (base_fee_wallet_ata self) false;
     new_readonly (stake_pool_program self) false; new (stake_pool self) false;
     new_readonly (stake_pool_withdraw_authority self) false; new (reserve_stake self) false;
     new (manager_fee_account self) false; new (referrer_pool_tokens_account self) false;
     new (pool_mint self) false; new_readonly (token_program self) false; new_readonly (system_program self) false] ++ remaining_accounts)
    (ser b_u8 discriminator ++ try_to_vec args).
Record Builder := mkBuilder { b_epoch_state : option Pubkey; b_config : option Pubkey; b_ncn : option Pubkey;
  b_base_reward_router : option Pubkey; b_base_reward_receiver : option Pubkey; b_base_fee_wallet : option Pubkey;
  b_base_fee_wallet_ata : option Pubkey; b_stake_pool_program : option Pubkey; b_stake_pool : option Pubkey;
  b_stake_pool_withdraw_authority : option Pubkey; b_reserve_stake : option Pubkey;
  b_manager_fee_account : option Pubkey; b_referrer_pool_tokens_account : option Pubkey;
  b_pool_mint : option Pubkey; b_token_program : option Pubkey; b_system_program : option Pubkey;
  b_base_fee_group : option Z; b_epoch : option Z; b_remaining_accounts : list AccountMeta }.
Definition instruction (self : Builder) : option Instruction :=
  epoch_state ← b_epoch_state self; config ← b_config self; ncn ← b_ncn self;
  base_reward_router ← b_base_reward_router self; base_reward_receiver ← b_base_reward_receiver self;
  base_fee_wallet ← b_base_fee_wallet self; base_fee_wallet_ata ← b_base_fee_wallet_ata self;
  stake_pool_program ← b_stake_pool_program self; stake_pool ← b_stake_pool self;
  stake_pool_withdraw_authority ← b_stake_pool_withdraw_authority self; reserve_stake ← b_reserve_stake self;
  manager_fee_account ← b_manager_fee_account self;
  referrer_pool_tokens_account ← b_referrer_pool_tokens_account self; pool_mint ← b_pool_mint self;
  let token_program := default TOKEN_PROGRAM (b_token_program self) in
  let system_program := default SYSTEM_PROGRAM (b_system_program self) in base_fee_group ← b_base_fee_group self;
  epoch ← b_epoch self;
  Some (instruction_with_remaining_accounts (mkDistributeBaseRewards epoch_state config ncn base_reward_router
    base_reward_receiver base_fee_wallet base_fee_wallet_ata stake_pool_program stake_pool
    stake_pool_withdraw_authority reserve_stake manager_fee_account referrer_pool_tokens_account pool_mint
    token_program system_program)
    (mkArgs base_fee_group epoch) (b_remaining_accounts self)).
End instruction.
End DistributeBaseRewards.

(* ------------------------------------------------------------------ *)
Module DistributeBaseNcnRewardRoute.
Record DistributeBaseNcnRewardRoute := mkDistributeBaseNcnRewardRoute { epoch_state : Pubkey; config : Pubkey;
  ncn : Pubkey; operator : Pubkey; base_reward_router : Pubkey; base_reward_receiver : Pubkey;
  ncn_reward_router : Pubkey; ncn_reward_receiver : Pubkey; system_program : Pubkey }.
Record InstructionArgs := mkArgs { arg_ncn_fee_group : Z; arg_epoch : Z }.
Definition discriminator : Z := 23.

Section instruction.
Context `{Borsh} `{ClientKeys}.
Definition try_to_vec (args : InstructionArgs) : list Z := ser b_u8 (arg_ncn_fee_group args) ++
  ser b_u64 (arg_epoch args).
Definition instruction_with_remaining_accounts (self : DistributeBaseNcnRewardRoute) (args : InstructionArgs)
    (remaining_accounts : list AccountMeta) : Instruction :=
  mkInstruction JITO_TIP_ROUTER_ID ([new (epoch_state self) false; new_readonly (config self) false;
     new_readonly (ncn self) false; new_readonly (operator self) false; new (base_reward_router self) false;
     new (base_reward_receiver self) false; new_readonly (ncn_reward_router self) false;
     new (ncn_reward_receiver self) false; new_readonly (system_program self) false] ++ remaining_accounts)
    (ser b_u8 discriminator ++ try_to_vec args).
Record Builder := mkBuilder { b_epoch_state : option Pubkey; b_config : option Pubkey; b_ncn : option Pubkey;
  b_operator : option Pubkey; b_base_reward_router : option Pubkey; b_base_reward_receiver : option Pubkey;
  b_ncn_reward_router : option Pubkey; b_ncn_reward_receiver : option Pubkey; b_system_program : option Pubkey;
  b_ncn_fee_group : option Z; b_epoch : option Z; b_remaining_accounts : list AccountMeta }.
Definition instruction (self : Builder) : option Instruction :=
  epoch_state ← b_epoch_state self; config ← b_config self; ncn ← b_ncn self; operator ← b_operator self;
  base_reward_router ← b_base_reward_router self; base_reward_receiver ← b_base_reward_receiver self;
  ncn_reward_router ← b_ncn_reward_router self; ncn_reward_receiver ← b_ncn_reward_receiver self;
  let system_program := default SYSTEM_PROGRAM (b_system_program self) in ncn_fee_group ← b_ncn_fee_group self;
  epoch ← b_epoch self;
  Some (instruction_with_remaining_accounts (mkDistributeBaseNcnRewardRoute epoch_state config ncn operator
    base_reward_router base_reward_receiver ncn_reward_router ncn_reward_receiver system_program)
    (mkArgs ncn_fee_group epoch) (b_remaining_accounts self)).
End instruction.
End DistributeBaseNcnRewardRoute.

(* ------------------------------------------------------------------ *)
Module DistributeNcnOperatorRewards.
Record DistributeNcnOperatorRewards := mkDistributeNcnOperatorRewards { epoch_state : Pubkey; config : Pubkey;
  ncn : Pubkey; operator : Pubkey; operator_ata : Pubkey; operator_snapshot : Pubkey; ncn_reward_router : Pubkey;
  ncn_reward_receiver : Pubkey; stake_pool_program : Pubkey; stake_pool : Pubkey;
  stake_pool_withdraw_authority : Pubkey; reserve_stake : Pubkey; manager_fee_account : Pubkey;
  referrer_pool_tokens_account : Pubkey; pool_mint : Pubkey; token_program : Pubkey; system_program : Pubkey }.
Record InstructionArgs := mkArgs { arg_ncn_fee_group : Z; arg_epoch : Z }.
Definition discriminator : Z := 24.

Section instruction.
Context `{Borsh} `{ClientKeys}.
Definition try_to_vec (args : InstructionArgs) : list Z := ser b_u8 (arg_ncn_fee_group args) ++
  ser b_u64 (arg_epoch args).
Definition instruction_with_remaining_accounts (self : DistributeNcnOperatorRewards) (args : InstructionArgs)
    (remaining_accounts : list AccountMeta) : Instruction :=
  mkInstruction JITO_TIP_ROUTER_ID ([new (epoch_state self) false; new_readonly (config self) false;
     new_readonly (ncn self) false; new (operator self) false; new (operator_ata self) false;
     new (operator_snapshot self) false; new (ncn_reward_router self) false; new (ncn_reward_receiver self) false;
     new_readonly (stake_pool_program self) false; new (stake_pool self) false;
     new_readonly (stake_pool_withdraw_authority self) false; new (reserve_stake self) false;
     new (manager_fee_account self) false; new (referrer_pool_tokens_account self) false;
     new (pool_mint self) false; new_readonly (token_program self) false; new_readonly (system_program self) false] ++ remaining_accounts)
    (ser b_u8 discriminator ++ try_to_vec args).
Record Builder := mkBuilder { b_epoch_state : option Pubkey; b_config : option Pubkey; b_ncn : option Pubkey;
  b_operator : option Pubkey; b_operator_ata : option Pubkey; b_operator_snapshot : option Pubkey;
  b_ncn_reward_router : option Pubkey; b_ncn_reward_receiver : option Pubkey; b_stake_pool_program : option Pubkey;
  b_stake_pool : option Pubkey; b_stake_pool_withdraw_authority : option Pubkey; b_reserve_stake : option Pubkey;
  b_manager_fee_account : option Pubkey; b_referrer_pool_tokens_account : option Pubkey;
  b_pool_mint : option Pubkey; b_token_program : option Pubkey; b_system_program : option Pubkey;
  b_ncn_fee_group : option Z; b_epoch : option Z; b_remaining_accounts : list AccountMeta }.
Definition instruction (self : Builder) : option Instruction :=
  epoch_state ← b_epoch_state self; config ← b_config self; ncn ← b_ncn self; operator ← b_operator self;
  operator_ata ← b_operator_ata self; operator_snapshot ← b_operator_snapshot self;
  ncn_reward_router ← b_ncn_reward_router self; ncn_reward_receiver ← b_ncn_reward_receiver self;
  stake_pool_program ← b_stake_pool_program self; stake_pool ← b_stake_pool self;
  stake_pool_withdraw_authority ← b_stake_pool_withdraw_authority self; reserve_stake ← b_reserve_stake self;
  manager_fee_account ← b_manager_fee_account self;
  referrer_pool_tokens_account ← b_referrer_pool_tokens_account self; pool_mint ← b_pool_mint self;
  let token_program := default TOKEN_PROGRAM (b_token_program self) in
  let system_program := default SYSTEM_PROGRAM (b_system_program self) in ncn_fee_group ← b_ncn_fee_group self;
  epoch ← b_epoch self;
  Some (instruction_with_remaining_accounts (mkDistributeNcnOperatorRewards epoch_state config ncn operator
    operator_ata operator_snapshot ncn_reward_router ncn_reward_receiver stake_pool_program stake_pool
    stake_pool_withdraw_authority reserve_stake manager_fee_account referrer_pool_tokens_account pool_mint
    token_program system_program)
    (mkArgs ncn_fee_group epoch) (b_remaining_accounts self)).
End instruction.
End DistributeNcnOperatorRewards.

(* ------------------------------------------------------------------ *)
Module DistributeNcnVaultRewards.
Record DistributeNcnVaultRewards := mkDistributeNcnVaultRewards { epoch_state : Pubkey; config : Pubkey;
  ncn : Pubkey; operator : Pubkey; vault : Pubkey; vault_ata : Pubkey; operator_snapshot : Pubkey;
  ncn_reward_router : Pubkey; ncn_reward_receiver : Pubkey; stake_pool_program : Pubkey; stake_pool : Pubkey;
  stake_pool_withdraw_authority : Pubkey; reserve_stake : Pubkey; manager_fee_account : Pubkey;
  referrer_pool_tokens_account : Pubkey; pool_mint : Pubkey; token_program : Pubkey; system_program : Pubkey }.
Record InstructionArgs := mkArgs { arg_ncn_fee_group : Z; arg_epoch : Z }.
Definition discriminator : Z := 25.

Section instruction.
Context `{Borsh} `{ClientKeys}.
Definition try_to_vec (args : InstructionArgs) : list Z := ser b_u8 (arg_ncn_fee_group args) ++
  ser b_u64 (arg_epoch args).
Definition instruction_with_remaining_accounts (self : DistributeNcnVaultRewards) (args : InstructionArgs)
    (remaining_accounts : list AccountMeta) : Instruction :=
  mkInstruction JITO_TIP_ROUTER_ID ([new (epoch_state self) false; new_readonly (config self) false;
     new_readonly (ncn self) false; new_readonly (operator self) false; new_readonly (vault self) false;
     new (vault_ata self) false; new (operator_snapshot self) false; new (ncn_reward_router self) false;
     new (ncn_reward_receiver self) false; new_readonly (stake_pool_program self) false;
     new (stake_pool self) false; new_readonly (stake_pool_withdraw_authority self) false;
     new (reserve_stake self) false; new (manager_fee_account self) false;
     new (referrer_pool_tokens_account self) false; new (pool_mint self) false;
     new_readonly (token_program self) false; new_readonly (system_program self) false] ++ remaining_accounts)
    (ser b_u8 discriminator ++ try_to_vec args).
Record Builder := mkBuilder { b_epoch_state : option Pubkey; b_config : option Pubkey; b_ncn : option Pubkey;
  b_operator : option Pubkey; b_vault : option Pubkey; b_vault_ata : option Pubkey;
  b_operator_snapshot : option Pubkey; b_ncn_reward_router : option Pubkey; b_ncn_reward_receiver : option Pubkey;
  b_stake_pool_program : option Pubkey; b_stake_pool : option Pubkey;
  b_stake_pool_withdraw_authority : option Pubkey; b_reserve_stake : option Pubkey;
  b_manager_fee_account : option Pubkey; b_referrer_pool_tokens_account : option Pubkey;
  b_pool_mint : option Pubkey; b_token_program : option Pubkey; b_system_program : option Pubkey;
  b_ncn_fee_group : option Z; b_epoch : option Z; b_remaining_accounts : list AccountMeta }.
Definition instruction (self : Builder) : option Instruction :=
  epoch_state ← b_epoch_state self; config ← b_config self; ncn ← b_ncn self; operator ← b_operator self;
  vault ← b_vault self; vault_ata ← b_vault_ata self; operator_snapshot ← b_operator_snapshot self;
  ncn_reward_router ← b_ncn_reward_router self; ncn_reward_receiver ← b_ncn_reward_receiver self;
  stake_pool_program ← b_stake_pool_program self; stake_pool ← b_stake_pool self;
  stake_pool_withdraw_authority ← b_stake_pool_withdraw_authority self; reserve_stake ← b_reserve_stake self;
  manager_fee_account ← b_manager_fee_account self;
  referrer_pool_tokens_account ← b_referrer_pool_tokens_account self; pool_mint ← b_pool_mint self;
  let token_program := default TOKEN_PROGRAM (b_token_program self) in
  let system_program := default SYSTEM_PROGRAM (b_system_program self) in ncn_fee_group ← b_ncn_fee_group self;
  epoch ← b_epoch self;
  Some (instruction_with_remaining_accounts (mkDistributeNcnVaultRewards epoch_state config ncn operator vault
    vault_ata operator_snapshot ncn_reward_router ncn_reward_receiver stake_pool_program stake_pool
    stake_pool_withdraw_authority reserve_stake manager_fee_account referrer_pool_tokens_account pool_mint
    token_program system_program)
    (mkArgs ncn_fee_group epoch) (b_remaining_accounts self)).
End instruction.
End DistributeNcnVaultRewards.

(* ------------------------------------------------------------------ *)
Module ClaimWithPayer.
Record ClaimWithPayer := mkClaimWithPayer { account_payer : Pubkey; config : Pubkey; ncn : Pubkey;
  tip_distribution_config : Pubkey; tip_distribution_account : Pubkey; claim_status : Pubkey; claimant : Pubkey;
  tip_distribution_program : Pubkey; system_program : Pubkey }.
Record InstructionArgs := mkArgs { arg_proof : list hash; arg_amount : Z; arg_bump : Z }.
Definition discriminator : Z := 26.

Section instruction.
Context `{Borsh} `{ClientKeys}.
Definition try_to_vec (args : InstructionArgs) : list Z := ser (b_vec b_bytes32) (arg_proof args) ++
  ser b_u64 (arg_amount args) ++ ser b_u8 (arg_bump args).
Definition instruction_with_remaining_accounts (self : ClaimWithPayer) (args : InstructionArgs)
    (remaining_accounts : list AccountMeta) : Instruction :=
  mkInstruction JITO_TIP_ROUTER_ID ([new (account_payer self) false; new_readonly (config self) false;
     new_readonly (ncn self) false; new_readonly (tip_distribution_config self) false;
     new (tip_distribution_account self) false; new (claim_status self) false; new (claimant self) false;
     new_readonly (tip_distribution_program self) false; new_readonly (system_program self) false] ++ remaining_accounts)
    (ser b_u8 discriminator ++ try_to_vec args).
Record Builder := mkBuilder { b_account_payer : option Pubkey; b_config : option Pubkey; b_ncn : option Pubkey;
  b_tip_distribution_config : option Pubkey; b_tip_distribution_account : option Pubkey;
  b_claim_status : option Pubkey; b_claimant : option Pubkey; b_tip_distribution_program : option Pubkey;
  b_system_program : option Pubkey; b_proof : option (list hash); b_amount : option Z; b_bump : option Z;
  b_remaining_accounts : list AccountMeta }.
Definition instruction (self : Builder) : option Instruction :=
  account_payer ← b_account_payer self; config ← b_config self; ncn ← b_ncn self;
  tip_distribution_config ← b_tip_distribution_config self;
  tip_distribution_account ← b_tip_distribution_account self; claim_status ← b_claim_status self;
  claimant ← b_claimant self; tip_distribution_program ← b_tip_distribution_program self;
  let system_program := default SYSTEM_PROGRAM (b_system_program self) in proof ← b_proof self;
  amount ← b_amount self; bump ← b_bump self;
  Some (instruction_with_remaining_accounts (mkClaimWithPayer account_payer config ncn tip_distribution_config
    tip_distribution_account claim_status claimant tip_distribution_program system_program)
    (mkArgs proof amount bump) (b_remaining_accounts self)).
End instruction.
End ClaimWithPayer.

(* ------------------------------------------------------------------ *)
Module CloseEpochAccount.
Record CloseEpochAccount := mkCloseEpochAccount { epoch_marker : Pubkey; epoch_state : Pubkey; config : Pubkey;
  ncn : Pubkey; account_to_close : Pubkey; account_payer : Pubkey; dao_wallet : Pubkey; system_program : Pubkey;
  receiver_to_close : option Pubkey }.
Record InstructionArgs := mkArgs { arg_epoch : Z }.
Definition discriminator : Z := 27.

Section instruction.
Context `{Borsh} `{ClientKeys}.
Definition try_to_vec (args : InstructionArgs) : list Z := ser b_u64 (arg_epoch args).
Definition instruction_with_remaining_accounts (self : CloseEpochAccount) (args : InstructionArgs)
    (remaining_accounts : list AccountMeta) : Instruction :=
  mkInstruction JITO_TIP_ROUTER_ID ([new (epoch_marker self) false; new (epoch_state self) false;
     new_readonly (config self) false; new_readonly (ncn self) false; new (account_to_close self) false;
     new (account_payer self) false; new (dao_wallet self) false; new_readonly (system_program self) false] ++
     [match receiver_to_close self with Some receiver_to_close => new receiver_to_close false | None => new_readonly JITO_TIP_ROUTER_ID false end] ++ remaining_accounts)
    (ser b_u8 discriminator ++ try_to_vec args).
Record Builder := mkBuilder { b_epoch_marker : option Pubkey; b_epoch_state : option Pubkey;
  b_config : option Pubkey; b_ncn : option Pubkey; b_account_to_close : option Pubkey;
  b_account_payer : option Pubkey; b_dao_wallet : option Pubkey; b_system_program : option Pubkey;
  b_receiver_to_close : option Pubkey; b_epoch : option Z; b_remaining_accounts : list AccountMeta }.
Definition instruction (self : Builder) : option Instruction :=
  epoch_marker ← b_epoch_marker self; epoch_state ← b_epoch_state self; config ← b_config self; ncn ← b_ncn self;
  account_to_close ← b_account_to_close self; account_payer ← b_account_payer self; dao_wallet ← b_dao_wallet self;
  let system_program := default SYSTEM_PROGRAM (b_system_program self) in
  let receiver_to_close := b_receiver_to_close self in epoch ← b_epoch self;
  Some (instruction_with_remaining_accounts (mkCloseEpochAccount epoch_marker epoch_state config ncn
    account_to_close account_payer dao_wallet system_program receiver_to_close)
    (mkArgs epoch) (b_remaining_accounts self)).
End instruction.
End CloseEpochAccount.

(* ------------------------------------------------------------------ *)
Module AdminSetParameters.
Record AdminSetParameters := mkAdminSetParameters { config : Pubkey; ncn : Pubkey; ncn_admin : Pubkey }.
Record InstructionArgs := mkArgs { arg_starting_valid_epoch : option Z; arg_epochs_before_stall : option Z;
  arg_epochs_after_consensus_before_close : option Z; arg_valid_slots_after_consensus : option Z }.
Definition discriminator : Z := 28.

Section instruction.
Context `{Borsh} `{ClientKeys}.
Definition try_to_vec (args : InstructionArgs) : list Z := ser (b_option b_u64) (arg_starting_valid_epoch args) ++
  ser (b_option b_u64) (arg_epochs_before_stall args) ++
  ser (b_option b_u64) (arg_epochs_after_consensus_before_close args) ++
  ser (b_option b_u64) (arg_valid_slots_after_consensus args).
Definition instruction_with_remaining_accounts (self : AdminSetParameters) (args : InstructionArgs)
    (remaining_accounts : list AccountMeta) : Instruction :=
  mkInstruction JITO_TIP_ROUTER_ID ([new (config self) false; new_readonly (ncn self) false;
     new_readonly (ncn_admin self) true] ++ remaining_accounts)
    (ser b_u8 discriminator ++ try_to_vec args).
Record Builder := mkBuilder { b_config : option Pubkey; b_ncn : option Pubkey; b_ncn_admin : option Pubkey;
  b_starting_valid_epoch : option Z; b_epochs_before_stall : option Z;
  b_epochs_after_consensus_before_close : option Z; b_valid_slots_after_consensus : option Z;
  b_remaining_accounts : list AccountMeta }.
Definition instruction (self : Builder) : option Instruction :=
  config ← b_config self; ncn ← b_ncn self; ncn_admin ← b_ncn_admin self;
  let starting_valid_epoch := b_starting_valid_epoch self in
  let epochs_before_stall := b_epochs_before_stall self in
  let epochs_after_consensus_before_close := b_epochs_after_consensus_before_close self in
  let valid_slots_after_consensus := b_valid_slots_after_consensus self in
  Some (instruction_with_remaining_accounts (mkAdminSetParameters config ncn ncn_admin)
    (mkArgs starting_valid_epoch epochs_before_stall epochs_after_consensus_before_close valid_slots_after_consensus) (b_remaining_accounts self)).
End instruction.
End AdminSetParameters.

(* ------------------------------------------------------------------ *)
Module AdminSetConfigFees.
Record AdminSetConfigFees := mkAdminSetConfigFees { config : Pubkey; ncn : Pubkey; ncn_admin : Pubkey }.
Record InstructionArgs := mkArgs { arg_new_block_engine_fee_bps : option Z; arg_base_fee_group : option Z;
  arg_new_base_fee_wallet : option Pubkey; arg_new_base_fee_bps : option Z; arg_ncn_fee_group : option Z;
  arg_new_ncn_fee_bps : option Z }.
Definition discriminator : Z := 29.

Section instruction.
Context `{Borsh} `{ClientKeys}.
Definition try_to_vec (args : InstructionArgs) : list Z :=
  ser (b_option b_u16) (arg_new_block_engine_fee_bps args) ++ ser (b_option b_u8) (arg_base_fee_group args) ++
  ser (b_option b_pubkey) (arg_new_base_fee_wallet args) ++ ser (b_option b_u16) (arg_new_base_fee_bps args) ++
  ser (b_option b_u8) (arg_ncn_fee_group args) ++ ser (b_option b_u16) (arg_new_ncn_fee_bps args).
Definition instruction_with_remaining_accounts (self : AdminSetConfigFees) (args : InstructionArgs)
    (remaining_accounts : list AccountMeta) : Instruction :=
  mkInstruction JITO_TIP_ROUTER_ID ([new (config self) false; new_readonly (ncn self) false;
     new_readonly (ncn_admin self) true] ++ remaining_accounts)
    (ser b_u8 discriminator ++ try_to_vec args).
Record Builder := mkBuilder { b_config : option Pubkey; b_ncn : option Pubkey; b_ncn_admin : option Pubkey;
  b_new_block_engine_fee_bps : option Z; b_base_fee_group : option Z; b_new_base_fee_wallet : option Pubkey;
  b_new_base_fee_bps : option Z; b_ncn_fee_group : option Z; b_new_ncn_fee_bps : option Z;
  b_remaining_accounts : list AccountMeta }.
Definition instruction (self : Builder) : option Instruction :=
  config ← b_config self; ncn ← b_ncn self; ncn_admin ← b_ncn_admin self;
  let new_block_engine_fee_bps := b_new_block_engine_fee_bps self in let base_fee_group := b_base_fee_group self in
  let new_base_fee_wallet := b_new_base_fee_wallet self in let new_base_fee_bps := b_new_base_fee_bps self in
  let ncn_fee_group := b_ncn_fee_group self in let new_ncn_fee_bps := b_new_ncn_fee_bps self in
  Some (instruction_with_remaining_accounts (mkAdminSetConfigFees config ncn ncn_admin)
    (mkArgs new_block_engine_fee_bps base_fee_group new_base_fee_wallet new_base_fee_bps ncn_fee_group new_ncn_fee_bps) (b_remaining_accounts self)).
End instruction.
End AdminSetConfigFees.

(* ------------------------------------------------------------------ *)
Module AdminSetNewAdmin.
Record AdminSetNewAdmin := mkAdminSetNewAdmin { config : Pubkey; ncn : Pubkey; ncn_admin : Pubkey;
  new_admin : Pubkey }.
Record InstructionArgs := mkArgs { arg_role : ConfigAdminRole }.
Definition discriminator : Z := 30.

Section instruction.
Context `{Borsh} `{ClientKeys}.
Definition try_to_vec (args : InstructionArgs) : list Z := ser role_codec (arg_role args).
Definition instruction_with_remaining_accounts (self : AdminSetNewAdmin) (args : InstructionArgs)
    (remaining_accounts : list AccountMeta) : Instruction :=
  mkInstruction JITO_TIP_ROUTER_ID ([new (config self) false; new_readonly (ncn self) false;
     new_readonly (ncn_admin self) true; new_readonly (new_admin self) false] ++ remaining_accounts)
    (ser b_u8 discriminator ++ try_to_vec args).
Record Builder := mkBuilder { b_config : option Pubkey; b_ncn : option Pubkey; b_ncn_admin : option Pubkey;
  b_new_admin : option Pubkey; b_role : option ConfigAdminRole; b_remaining_accounts : list AccountMeta }.
Definition instruction (self : Builder) : option Instruction :=
  config ← b_config self; ncn ← b_ncn self; ncn_admin ← b_ncn_admin self; new_admin ← b_new_admin self;
  role ← b_role self;
  Some (instruction_with_remaining_accounts (mkAdminSetNewAdmin config ncn ncn_admin new_admin)
    (mkArgs role) (b_remaining_accounts self)).
End instruction.
End AdminSetNewAdmin.

(* ------------------------------------------------------------------ *)
Module AdminSetTieBreaker.
Record AdminSetTieBreaker := mkAdminSetTieBreaker { epoch_state : Pubkey; config : Pubkey; ballot_box : Pubkey;
  ncn : Pubkey; tie_breaker_admin : Pubkey }.
Record InstructionArgs := mkArgs { arg_meta_merkle_root : hash; arg_epoch : Z }.
Definition discriminator : Z := 31.

Section instruction.
Context `{Borsh} `{ClientKeys}.
Definition try_to_vec (args : InstructionArgs) : list Z := ser b_bytes32 (arg_meta_merkle_root args) ++
  ser b_u64 (arg_epoch args).
Definition instruction_with_remaining_accounts (self : AdminSetTieBreaker) (args : InstructionArgs)
    (remaining_accounts : list AccountMeta) : Instruction :=
  mkInstruction JITO_TIP_ROUTER_ID ([new (epoch_state self) false; new_readonly (config self) false;
     new (ballot_box self) false; new_readonly (ncn self) false; new_readonly (tie_breaker_admin self) true] ++ remaining_accounts)
    (ser b_u8 discriminator ++ try_to_vec args).
Record Builder := mkBuilder { b_epoch_state : option Pubkey; b_config : option Pubkey;
  b_ballot_box : option Pubkey; b_ncn : option Pubkey; b_tie_breaker_admin : option Pubkey;
  b_meta_merkle_root : option hash; b_epoch : option Z; b_remaining_accounts : list AccountMeta }.
Definition instruction (self : Builder) : option Instruction :=
  epoch_state ← b_epoch_state self; config ← b_config self; ballot_box ← b_ballot_box self; ncn ← b_ncn self;
  tie_breaker_admin ← b_tie_breaker_admin self; meta_merkle_root ← b_meta_merkle_root self; epoch ← b_epoch self;
  Some (instruction_with_remaining_accounts (mkAdminSetTieBreaker epoch_state config ballot_box ncn
    tie_breaker_admin)
    (mkArgs meta_merkle_root epoch) (b_remaining_accounts self)).
End instruction.
End AdminSetTieBreaker.

(* ------------------------------------------------------------------ *)
Module AdminSetWeight.
Record AdminSetWeight := mkAdminSetWeight { epoch_state : Pubkey; ncn : Pubkey; weight_table : Pubkey;
  weight_table_admin : Pubkey }.
Record InstructionArgs := mkArgs { arg_st_mint : Pubkey; arg_weight : Z; arg_epoch : Z }.
Definition discriminator : Z := 32.

Section instruction.
Context `{Borsh} `{ClientKeys}.
Definition try_to_vec (args : InstructionArgs) : list Z := ser b_pubkey (arg_st_mint args) ++
  ser b_u128 (arg_weight args) ++ ser b_u64 (arg_epoch args).
Definition instruction_with_remaining_accounts (self : AdminSetWeight) (args : InstructionArgs)
    (remaining_accounts : list AccountMeta) : Instruction :=
  mkInstruction JITO_TIP_ROUTER_ID ([new (epoch_state self) false; new_readonly (ncn self) false;
     new (weight_table self) false; new_readonly (weight_table_admin self) true] ++ remaining_accounts)
    (ser b_u8 discriminator ++ try_to_vec args).
Record Builder := mkBuilder { b_epoch_state : option Pubkey; b_ncn : option Pubkey; b_weight_table : option Pubkey;
  b_weight_table_admin : option Pubkey; b_st_mint : option Pubkey; b_weight : option Z; b_epoch : option Z;
  b_remaining_accounts : list AccountMeta }.
Definition instruction (self : Builder) : option Instruction :=
  epoch_state ← b_epoch_state self; ncn ← b_ncn self; weight_table ← b_weight_table self;
  weight_table_admin ← b_weight_table_admin self; st_mint ← b_st_mint self; weight ← b_weight self;
  epoch ← b_epoch self;
  Some (instruction_with_remaining_accounts (mkAdminSetWeight epoch_state ncn weight_table weight_table_admin)
    (mkArgs st_mint weight epoch) (b_remaining_accounts self)).
End instruction.
End AdminSetWeight.

(* ------------------------------------------------------------------ *)
Module AdminRegisterStMint.
Record AdminRegisterStMint := mkAdminRegisterStMint { config : Pubkey; ncn : Pubkey; st_mint : Pubkey;
  vault_registry : Pubkey; admin : Pubkey }.
Record InstructionArgs := mkArgs { arg_ncn_fee_group : Z; arg_reward_multiplier_bps : Z;
  arg_switchboard_feed : option Pubkey; arg_no_feed_weight : option Z }.
Definition discriminator : Z := 33.

Section instruction.
Context `{Borsh} `{ClientKeys}.
Definition try_to_vec (args : InstructionArgs) : list Z := ser b_u8 (arg_ncn_fee_group args) ++
  ser b_u64 (arg_reward_multiplier_bps args) ++ ser (b_option b_pubkey) (arg_switchboard_feed args) ++
  ser (b_option b_u128) (arg_no_feed_weight args).
Definition instruction_with_remaining_accounts (self : AdminRegisterStMint) (args : InstructionArgs)
    (remaining_accounts : list AccountMeta) : Instruction :=
  mkInstruction JITO_TIP_ROUTER_ID ([new_readonly (config self) false; new_readonly (ncn self) false;
     new_readonly (st_mint self) false; new (vault_registry self) false; new (admin self) true] ++ remaining_accounts)
    (ser b_u8 discriminator ++ try_to_vec args).
Record Builder := mkBuilder { b_config : option Pubkey; b_ncn : option Pubkey; b_st_mint : option Pubkey;
  b_vault_registry : option Pubkey; b_admin : option Pubkey; b_ncn_fee_group : option Z;
  b_reward_multiplier_bps : option Z; b_switchboard_feed : option Pubkey; b_no_feed_weight : option Z;
  b_remaining_accounts : list AccountMeta }.
Definition instruction (self : Builder) : option Instruction :=
  config ← b_config self; ncn ← b_ncn self; st_mint ← b_st_mint self; vault_registry ← b_vault_registry self;
  admin ← b_admin self; ncn_fee_group ← b_ncn_fee_group self; reward_multiplier_bps ← b_reward_multiplier_bps self;
  let switchboard_feed := b_switchboard_feed self in let no_feed_weight := b_no_feed_weight self in
  Some (instruction_with_remaining_accounts (mkAdminRegisterStMint config ncn st_mint vault_registry admin)
    (mkArgs ncn_fee_group reward_multiplier_bps switchboard_feed no_feed_weight) (b_remaining_accounts self)).
End instruction.
End AdminRegisterStMint.

(* ------------------------------------------------------------------ *)
Module AdminSetStMint.
Record AdminSetStMint := mkAdminSetStMint { config : Pubkey; ncn : Pubkey; vault_registry : Pubkey; admin : Pubkey }.
Record InstructionArgs := mkArgs { arg_st_mint : Pubkey; arg_ncn_fee_group : option Z;
  arg_reward_multiplier_bps : option Z; arg_switchboard_feed : option Pubkey; arg_no_feed_weight : option Z }.
Definition discriminator : Z := 34.

Section instruction.
Context `{Borsh} `{ClientKeys}.
Definition try_to_vec (args : InstructionArgs) : list Z := ser b_pubkey (arg_st_mint args) ++
  ser (b_option b_u8) (arg_ncn_fee_group args) ++ ser (b_option b_u64) (arg_reward_multiplier_bps args) ++
  ser (b_option b_pubkey) (arg_switchboard_feed args) ++ ser (b_option b_u128) (arg_no_feed_weight args).
Definition instruction_with_remaining_accounts (self : AdminSetStMint) (args : InstructionArgs)
    (remaining_accounts : list AccountMeta) : Instruction :=
  mkInstruction JITO_TIP_ROUTER_ID ([new_readonly (config self) false; new_readonly (ncn self) false;
     new (vault_registry self) false; new (admin self) true] ++ remaining_accounts)
    (ser b_u8 discriminator ++ try_to_vec args).
Record Builder := mkBuilder { b_config : option Pubkey; b_ncn : option Pubkey; b_vault_registry : option Pubkey;
  b_admin : option Pubkey; b_st_mint : option Pubkey; b_ncn_fee_group : option Z;
  b_reward_multiplier_bps : option Z; b_switchboard_feed : option Pubkey; b_no_feed_weight : option Z;
  b_remaining_accounts : list AccountMeta }.
Definition instruction (self : Builder) : option Instruction :=
  config ← b_config self; ncn ← b_ncn self; vault_registry ← b_vault_registry self; admin ← b_admin self;
  st_mint ← b_st_mint self; let ncn_fee_group := b_ncn_fee_group self in
  let reward_multiplier_bps := b_reward_multiplier_bps self in let switchboard_feed := b_switchboard_feed self in
  let no_feed_weight := b_no_feed_weight self in
  Some (instruction_with_remaining_accounts (mkAdminSetStMint config ncn vault_registry admin)
    (mkArgs st_mint ncn_fee_group reward_multiplier_bps switchboard_feed no_feed_weight) (b_remaining_accounts self)).
End instruction.
End AdminSetStMint.

(* ------------------------------------------------------------------ *)
(** * The other side of the unmerged files *)

(** The accounts of the side that opens the conflict, under the same encoding of
    the arguments, but for [AdminSetParameters], which has one argument less. *)
Module HeadInitializeEpochState.
Record HeadInitializeEpochState := mkHeadInitializeEpochState { epoch_state : Pubkey; config : Pubkey;
  ncn : Pubkey; account_payer : Pubkey; system_program : Pubkey }.

Section instruction.
Context `{Borsh} `{ClientKeys}.
Definition instruction_with_remaining_accounts (self : HeadInitializeEpochState) (args : InitializeEpochState.InstructionArgs)
    (remaining_accounts : list AccountMeta) : Instruction :=
  mkInstruction JITO_TIP_ROUTER_ID ([new (epoch_state self) false; new_readonly (config self) false;
     new_readonly (ncn self) false; new (account_payer self) false; new_readonly (system_program self) false] ++ remaining_accounts)
    (ser b_u8 InitializeEpochState.discriminator ++ InitializeEpochState.try_to_vec args).
End instruction.
End HeadInitializeEpochState.

Module HeadInitializeWeightTable.
Record HeadInitializeWeightTable := mkHeadInitializeWeightTable { epoch_state : Pubkey; vault_registry : Pubkey;
  ncn : Pubkey; weight_table : Pubkey; account_payer : Pubkey; system_program : Pubkey }.

Section instruction.
Context `{Borsh} `{ClientKeys}.
Definition instruction_with_remaining_accounts (self : HeadInitializeWeightTable) (args : InitializeWeightTable.InstructionArgs)
    (remaining_accounts : list AccountMeta) : Instruction :=
  mkInstruction JITO_TIP_ROUTER_ID ([new_readonly (epoch_state self) false;
     new_readonly (vault_registry self) false; new_readonly (ncn self) false; new (weight_table self) false;
     new (account_payer self) false; new_readonly (system_program self) false] ++ remaining_accounts)
    (ser b_u8 InitializeWeightTable.discriminator ++ InitializeWeightTable.try_to_vec args).
End instruction.
End HeadInitializeWeightTable.

Module HeadInitializeEpochSnapshot.
Record HeadInitializeEpochSnapshot := mkHeadInitializeEpochSnapshot { epoch_state : Pubkey; config : Pubkey;
  ncn : Pubkey; weight_table : Pubkey; epoch_snapshot : Pubkey; account_payer : Pubkey; system_program : Pubkey }.

Section instruction.
Context `{Borsh} `{ClientKeys}.
Definition instruction_with_remaining_accounts (self : HeadInitializeEpochSnapshot) (args : InitializeEpochSnapshot.InstructionArgs)
    (remaining_accounts : list AccountMeta) : Instruction :=
  mkInstruction JITO_TIP_ROUTER_ID ([new (epoch_state self) false; new_readonly (config self) false;
     new_readonly (ncn self) false; new_readonly (weight_table self) false; new (epoch_snapshot self) false;
     new (account_payer self) false; new_readonly (system_program self) false] ++ remaining_accounts)
    (ser b_u8 InitializeEpochSnapshot.discriminator ++ InitializeEpochSnapshot.try_to_vec args).
End instruction.
End HeadInitializeEpochSnapshot.

Module HeadInitializeOperatorSnapshot.
Record HeadInitializeOperatorSnapshot := mkHeadInitializeOperatorSnapshot { epoch_state : Pubkey; config : Pubkey;
  ncn : Pubkey; operator : Pubkey; ncn_operator_state : Pubkey; epoch_snapshot : Pubkey;
  operator_snapshot : Pubkey; account_payer : Pubkey; system_program : Pubkey }.

Section instruction.
Context `{Borsh} `{ClientKeys}.
Definition instruction_with_remaining_accounts (self : HeadInitializeOperatorSnapshot) (args : InitializeOperatorSnapshot.InstructionArgs)
    (remaining_accounts : list AccountMeta) : Instruction :=
  mkInstruction JITO_TIP_ROUTER_ID ([new_readonly (epoch_state self) false; new_readonly (config self) false;
     new_readonly (ncn self) false; new_readonly (operator self) false;
     new_readonly (ncn_operator_state self) false; new_readonly (epoch_snapshot self) false;
     new (operator_snapshot self) false; new (account_payer self) false; new_readonly (system_program self) false] ++ remaining_accounts)
    (ser b_u8 InitializeOperatorSnapshot.discriminator ++ InitializeOperatorSnapshot.try_to_vec args).
End instruction.
End HeadInitializeOperatorSnapshot.

Module HeadInitializeBallotBox.
Record HeadInitializeBallotBox := mkHeadInitializeBallotBox { epoch_state : Pubkey; config : Pubkey;
  ballot_box : Pubkey; ncn : Pubkey; account_payer : Pubkey; system_program : Pubkey }.

Section instruction.
Context `{Borsh} `{ClientKeys}.
Definition instruction_with_remaining_accounts (self : HeadInitializeBallotBox) (args : InitializeBallotBox.InstructionArgs)
    (remaining_accounts : list AccountMeta) : Instruction :=
  mkInstruction JITO_TIP_ROUTER_ID ([new_readonly (epoch_state self) false; new_readonly (config self) false;
     new (ballot_box self) false; new_readonly (ncn self) false; new (account_payer self) false;
     new_readonly (system_program self) false] ++ remaining_accounts)
    (ser b_u8 InitializeBallotBox.discriminator ++ InitializeBallotBox.try_to_vec args).
End instruction.
End HeadInitializeBallotBox.

Module HeadInitializeBaseRewardRouter.
Record HeadInitializeBaseRewardRouter := mkHeadInitializeBaseRewardRouter { epoch_state : Pubkey; ncn : Pubkey;
  base_reward_router : Pubkey; base_reward_receiver : Pubkey; account_payer : Pubkey; system_program : Pubkey }.

Section instruction.
Context `{Borsh} `{ClientKeys}.
Definition instruction_with_remaining_accounts (self : HeadInitializeBaseRewardRouter) (args : InitializeBaseRewardRouter.InstructionArgs)
    (remaining_accounts : list AccountMeta) : Instruction :=
  mkInstruction JITO_TIP_ROUTER_ID ([new_readonly (epoch_state self) false; new_readonly (ncn self) false;
     new (base_reward_router self) false; new (base_reward_receiver self) false; new (account_payer self) false;
     new_readonly (system_program self) false] ++ remaining_accounts)
    (ser b_u8 InitializeBaseRewardRouter.discriminator ++ InitializeBaseRewardRouter.try_to_vec args).
End instruction.
End HeadInitializeBaseRewardRouter.

Module HeadInitializeNcnRewardRouter.
Record HeadInitializeNcnRewardRouter := mkHeadInitializeNcnRewardRouter { epoch_state : Pubkey; ncn : Pubkey;
  operator : Pubkey; operator_snapshot : Pubkey; ncn_reward_router : Pubkey; ncn_reward_receiver : Pubkey;
  account_payer : Pubkey; system_program : Pubkey }.

Section instruction.
Context `{Borsh} `{ClientKeys}.
Definition instruction_with_remaining_accounts (self : HeadInitializeNcnRewardRouter) (args : InitializeNcnRewardRouter.InstructionArgs)
    (remaining_accounts : list AccountMeta) : Instruction :=
  mkInstruction JITO_TIP_ROUTER_ID ([new (epoch_state self) false; new_readonly (ncn self) false;
     new_readonly (operator self) false; new_readonly (operator_snapshot self) false;
     new (ncn_reward_router self) false; new (ncn_reward_receiver self) false; new (account_payer self) false;
     new_readonly (system_program self) false] ++ remaining_accounts)
    (ser b_u8 InitializeNcnRewardRouter.discriminator ++ InitializeNcnRewardRouter.try_to_vec args).
End instruction.
End HeadInitializeNcnRewardRouter.

Module HeadCloseEpochAccount.
Record HeadCloseEpochAccount := mkHeadCloseEpochAccount { epoch_state : Pubkey; config : Pubkey; ncn : Pubkey;
  account_to_close : Pubkey; account_payer : Pubkey; dao_wallet : Pubkey; system_program : Pubkey;
  receiver_to_close : option Pubkey }.

Section instruction.
Context `{Borsh} `{ClientKeys}.
Definition instruction_with_remaining_accounts (self : HeadCloseEpochAccount) (args : CloseEpochAccount.InstructionArgs)
    (remaining_accounts : list AccountMeta) : Instruction :=
  mkInstruction JITO_TIP_ROUTER_ID ([new (epoch_state self) false; new_readonly (config self) false;
     new_readonly (ncn self) false; new (account_to_close self) false; new (account_payer self) false;
     new (dao_wallet self) false; new_readonly (system_program self) false] ++
     [match receiver_to_close self with Some receiver_to_close => new receiver_to_close false | None => new_readonly JITO_TIP_ROUTER_ID false end] ++ remaining_accounts)
    (ser b_u8 CloseEpochAccount.discriminator ++ CloseEpochAccount.try_to_vec args).
End instruction.
End HeadCloseEpochAccount.

Module HeadAdminSetParameters.
Record HeadAdminSetParameters := mkHeadAdminSetParameters { config : Pubkey; ncn : Pubkey; ncn_admin : Pubkey }.
Record InstructionArgs := mkArgs { arg_epochs_before_stall : option Z;
  arg_epochs_after_consensus_before_close : option Z; arg_valid_slots_after_consensus : option Z }.

Section instruction.
Context `{Borsh} `{ClientKeys}.
Definition try_to_vec (args : InstructionArgs) : list Z := ser (b_option b_u64) (arg_epochs_before_stall args) ++
  ser (b_option b_u64) (arg_epochs_after_consensus_before_close args) ++
  ser (b_option b_u64) (arg_valid_slots_after_consensus args).
Definition instruction_with_remaining_accounts (self : HeadAdminSetParameters) (args : InstructionArgs)
    (remaining_accounts : list AccountMeta) : Instruction :=
  mkInstruction JITO_TIP_ROUTER_ID ([new (config self) false; new_readonly (ncn self) false;
     new_readonly (ncn_admin self) true] ++ remaining_accounts)
    (ser b_u8 AdminSetParameters.discriminator ++ try_to_vec args).
End instruction.
End HeadAdminSetParameters.

