(* ===== verification/ClientAbi.v ===== *)
(** The generated client against the program: every instruction that the client makes
    passes the program's entry point, which calls the handler for it with the
    client's arguments and with every account under the client's name for it; the
    accounts' flags are those of the interface description; and what the other side
    of the unmerged files makes is refused. *)

From Stdlib Require Import String.
From S2P Require Import Prelude Errors External Config Borsh TipRouterIx GeneratedClient.
Import TipRouterInstruction Handler.
#[local] Open Scope string_scope.
#[local] Open Scope list_scope.

(** A call through the client. *)
Inductive ClientCall : Type :=
| CallInitializeConfig (self : InitializeConfig.InitializeConfig) (args : InitializeConfig.InstructionArgs)
| CallInitializeVaultRegistry (self : InitializeVaultRegistry.InitializeVaultRegistry)
| CallReallocVaultRegistry (self : ReallocVaultRegistry.ReallocVaultRegistry)
| CallRegisterVault (self : RegisterVault.RegisterVault)
| CallInitializeEpochState (self : InitializeEpochState.InitializeEpochState) (args : InitializeEpochState.InstructionArgs)
| CallReallocEpochState (self : ReallocEpochState.ReallocEpochState) (args : ReallocEpochState.InstructionArgs)
| CallInitializeWeightTable (self : InitializeWeightTable.InitializeWeightTable) (args : InitializeWeightTable.InstructionArgs)
| CallReallocWeightTable (self : ReallocWeightTable.ReallocWeightTable) (args : ReallocWeightTable.InstructionArgs)
| CallSwitchboardSetWeight (self : SwitchboardSetWeight.SwitchboardSetWeight) (args : SwitchboardSetWeight.InstructionArgs)
| CallInitializeEpochSnapshot (self : InitializeEpochSnapshot.InitializeEpochSnapshot) (args : InitializeEpochSnapshot.InstructionArgs)
| CallInitializeOperatorSnapshot (self : InitializeOperatorSnapshot.InitializeOperatorSnapshot) (args : InitializeOperatorSnapshot.InstructionArgs)
| CallReallocOperatorSnapshot (self : ReallocOperatorSnapshot.ReallocOperatorSnapshot) (args : ReallocOperatorSnapshot.InstructionArgs)
| CallSnapshotVaultOperatorDelegation (self : SnapshotVaultOperatorDelegation.SnapshotVaultOperatorDelegation) (args : SnapshotVaultOperatorDelegation.InstructionArgs)
| CallInitializeBallotBox (self : InitializeBallotBox.InitializeBallotBox) (args : InitializeBallotBox.InstructionArgs)
| CallReallocBallotBox (self : ReallocBallotBox.ReallocBallotBox) (args : ReallocBallotBox.InstructionArgs)
| CallCastVote (self : CastVote.CastVote) (args : CastVote.InstructionArgs)
| CallSetMerkleRoot (self : SetMerkleRoot.SetMerkleRoot) (args : SetMerkleRoot.InstructionArgs)
| CallInitializeBaseRewardRouter (self : InitializeBaseRewardRouter.InitializeBaseRewardRouter) (args : InitializeBaseRewardRouter.InstructionArgs)
| CallReallocBaseRewardRouter (self : ReallocBaseRewardRouter.ReallocBaseRewardRouter) (args : ReallocBaseRewardRouter.InstructionArgs)
| CallInitializeNcnRewardRouter (self : InitializeNcnRewardRouter.InitializeNcnRewardRouter) (args : InitializeNcnRewardRouter.InstructionArgs)
| CallRouteBaseRewards (self : RouteBaseRewards.RouteBaseRewards) (args : RouteBaseRewards.InstructionArgs)
| CallRouteNcnRewards (self : RouteNcnRewards.RouteNcnRewards) (args : RouteNcnRewards.InstructionArgs)
| CallDistributeBaseRewards (self : DistributeBaseRewards.DistributeBaseRewards) (args : DistributeBaseRewards.InstructionArgs)
| CallDistributeBaseNcnRewardRoute (self : DistributeBaseNcnRewardRoute.DistributeBaseNcnRewardRoute) (args : DistributeBaseNcnRewardRoute.InstructionArgs)
| CallDistributeNcnOperatorRewards (self : DistributeNcnOperatorRewards.DistributeNcnOperatorRewards) (args : DistributeNcnOperatorRewards.InstructionArgs)
| CallDistributeNcnVaultRewards (self : DistributeNcnVaultRewards.DistributeNcnVaultRewards) (args : DistributeNcnVaultRewards.InstructionArgs)
| CallClaimWithPayer (self : ClaimWithPayer.ClaimWithPayer) (args : ClaimWithPayer.InstructionArgs)
| CallCloseEpochAccount (self : CloseEpochAccount.CloseEpochAccount) (args : CloseEpochAccount.InstructionArgs)
| CallAdminSetParameters (self : AdminSetParameters.AdminSetParameters) (args : AdminSetParameters.InstructionArgs)
| CallAdminSetConfigFees (self : AdminSetConfigFees.AdminSetConfigFees) (args : AdminSetConfigFees.InstructionArgs)
| CallAdminSetNewAdmin (self : AdminSetNewAdmin.AdminSetNewAdmin) (args : AdminSetNewAdmin.InstructionArgs)
| CallAdminSetTieBreaker (self : AdminSetTieBreaker.AdminSetTieBreaker) (args : AdminSetTieBreaker.InstructionArgs)
| CallAdminSetWeight (self : AdminSetWeight.AdminSetWeight) (args : AdminSetWeight.InstructionArgs)
| CallAdminRegisterStMint (self : AdminRegisterStMint.AdminRegisterStMint) (args : AdminRegisterStMint.InstructionArgs)
| CallAdminSetStMint (self : AdminSetStMint.AdminSetStMint) (args : AdminSetStMint.InstructionArgs).

(** The program's instruction with the client's arguments, by name. *)
Definition program_ix (c : ClientCall) : TipRouterInstruction :=
  match c with
  | CallInitializeConfig _ args => InitializeConfig (InitializeConfig.arg_block_engine_fee_bps args)
      (InitializeConfig.arg_dao_fee_bps args) (InitializeConfig.arg_default_ncn_fee_bps args)
      (InitializeConfig.arg_epochs_before_stall args)
      (InitializeConfig.arg_epochs_after_consensus_before_close args)
      (InitializeConfig.arg_valid_slots_after_consensus args)
  | CallInitializeVaultRegistry _ => InitializeVaultRegistry
  | CallReallocVaultRegistry _ => ReallocVaultRegistry
  | CallRegisterVault _ => RegisterVault
  | CallInitializeEpochState _ args => InitializeEpochState (InitializeEpochState.arg_epoch args)
  | CallReallocEpochState _ args => ReallocEpochState (ReallocEpochState.arg_epoch args)
  | CallInitializeWeightTable _ args => InitializeWeightTable (InitializeWeightTable.arg_epoch args)
  | CallReallocWeightTable _ args => ReallocWeightTable (ReallocWeightTable.arg_epoch args)
  | CallSwitchboardSetWeight _ args => SwitchboardSetWeight (SwitchboardSetWeight.arg_st_mint args)
      (SwitchboardSetWeight.arg_epoch args)
  | CallInitializeEpochSnapshot _ args => InitializeEpochSnapshot (InitializeEpochSnapshot.arg_epoch args)
  | CallInitializeOperatorSnapshot _ args => InitializeOperatorSnapshot (InitializeOperatorSnapshot.arg_epoch args)
  | CallReallocOperatorSnapshot _ args => ReallocOperatorSnapshot (ReallocOperatorSnapshot.arg_epoch args)
  | CallSnapshotVaultOperatorDelegation _ args => SnapshotVaultOperatorDelegation
      (SnapshotVaultOperatorDelegation.arg_epoch args)
  | CallInitializeBallotBox _ args => InitializeBallotBox (InitializeBallotBox.arg_epoch args)
  | CallReallocBallotBox _ args => ReallocBallotBox (ReallocBallotBox.arg_epoch args)
  | CallCastVote _ args => CastVote (CastVote.arg_meta_merkle_root args) (CastVote.arg_epoch args)
  | CallSetMerkleRoot _ args => SetMerkleRoot (SetMerkleRoot.arg_proof args) (SetMerkleRoot.arg_merkle_root args)
      (SetMerkleRoot.arg_max_total_claim args) (SetMerkleRoot.arg_max_num_nodes args)
      (SetMerkleRoot.arg_epoch args)
  | CallInitializeBaseRewardRouter _ args => InitializeBaseRewardRouter (InitializeBaseRewardRouter.arg_epoch args)
  | CallReallocBaseRewardRouter _ args => ReallocBaseRewardRouter (ReallocBaseRewardRouter.arg_epoch args)
  | CallInitializeNcnRewardRouter _ args => InitializeNcnRewardRouter
      (InitializeNcnRewardRouter.arg_ncn_fee_group args) (InitializeNcnRewardRouter.arg_epoch args)
  | CallRouteBaseRewards _ args => RouteBaseRewards (RouteBaseRewards.arg_max_iterations args)
      (RouteBaseRewards.arg_epoch args)
  | CallRouteNcnRewards _ args => RouteNcnRewards (RouteNcnRewards.arg_ncn_fee_group args)
      (RouteNcnRewards.arg_max_iterations args) (RouteNcnRewards.arg_epoch args)
  | CallDistributeBaseRewards _ args => DistributeBaseRewards (DistributeBaseRewards.arg_base_fee_group args)
      (DistributeBaseRewards.arg_epoch args)
  | CallDistributeBaseNcnRewardRoute _ args => DistributeBaseNcnRewardRoute
      (DistributeBaseNcnRewardRoute.arg_ncn_fee_group args) (DistributeBaseNcnRewardRoute.arg_epoch args)
  | CallDistributeNcnOperatorRewards _ args => DistributeNcnOperatorRewards
      (DistributeNcnOperatorRewards.arg_ncn_fee_group args) (DistributeNcnOperatorRewards.arg_epoch args)
  | CallDistributeNcnVaultRewards _ args => DistributeNcnVaultRewards
      (DistributeNcnVaultRewards.arg_ncn_fee_group args) (DistributeNcnVaultRewards.arg_epoch args)
  | CallClaimWithPayer _ args => ClaimWithPayer (ClaimWithPayer.arg_proof args) (ClaimWithPayer.arg_amount args)
      (ClaimWithPayer.arg_bump args)
  | CallCloseEpochAccount _ args => CloseEpochAccount (CloseEpochAccount.arg_epoch args)
  | CallAdminSetParameters _ args => AdminSetParameters (AdminSetParameters.arg_starting_valid_epoch args)
      (AdminSetParameters.arg_epochs_before_stall args)
      (AdminSetParameters.arg_epochs_after_consensus_before_close args)
      (AdminSetParameters.arg_valid_slots_after_consensus args)
  | CallAdminSetConfigFees _ args => AdminSetConfigFees (AdminSetConfigFees.arg_new_block_engine_fee_bps args)
      (AdminSetConfigFees.arg_base_fee_group args) (AdminSetConfigFees.arg_new_base_fee_wallet args)
      (AdminSetConfigFees.arg_new_base_fee_bps args) (AdminSetConfigFees.arg_ncn_fee_group args)
      (AdminSetConfigFees.arg_new_ncn_fee_bps args)
  | CallAdminSetNewAdmin _ args => AdminSetNewAdmin (AdminSetNewAdmin.arg_role args)
  | CallAdminSetTieBreaker _ args => AdminSetTieBreaker (AdminSetTieBreaker.arg_meta_merkle_root args)
      (AdminSetTieBreaker.arg_epoch args)
  | CallAdminSetWeight _ args => AdminSetWeight (AdminSetWeight.arg_st_mint args) (AdminSetWeight.arg_weight args)
      (AdminSetWeight.arg_epoch args)
  | CallAdminRegisterStMint _ args => AdminRegisterStMint (AdminRegisterStMint.arg_ncn_fee_group args)
      (AdminRegisterStMint.arg_reward_multiplier_bps args) (AdminRegisterStMint.arg_switchboard_feed args)
      (AdminRegisterStMint.arg_no_feed_weight args)
  | CallAdminSetStMint _ args => AdminSetStMint (AdminSetStMint.arg_st_mint args)
      (AdminSetStMint.arg_ncn_fee_group args) (AdminSetStMint.arg_reward_multiplier_bps args)
      (AdminSetStMint.arg_switchboard_feed args) (AdminSetStMint.arg_no_feed_weight args)
  end.

(** The client's accounts by name, in the order of its record. *)
Definition keys (c : ClientCall) : list (string * Pubkey) :=
  match c with
  | CallInitializeConfig self _ => [("config", InitializeConfig.config self); ("ncn", InitializeConfig.ncn self);
      ("fee_wallet", InitializeConfig.fee_wallet self); ("ncn_admin", InitializeConfig.ncn_admin self);
      ("tie_breaker_admin", InitializeConfig.tie_breaker_admin self);
      ("account_payer", InitializeConfig.account_payer self);
      ("system_program", InitializeConfig.system_program self)]
  | CallInitializeVaultRegistry self => [("config", InitializeVaultRegistry.config self);
      ("vault_registry", InitializeVaultRegistry.vault_registry self); ("ncn", InitializeVaultRegistry.ncn self);
      ("account_payer", InitializeVaultRegistry.account_payer self);
      ("system_program", InitializeVaultRegistry.system_program self)]
  | CallReallocVaultRegistry self => [("config", ReallocVaultRegistry.config self);
      ("vault_registry", ReallocVaultRegistry.vault_registry self); ("ncn", ReallocVaultRegistry.ncn self);
      ("account_payer", ReallocVaultRegistry.account_payer self);
      ("system_program", ReallocVaultRegistry.system_program self)]
  | CallRegisterVault self => [("config", RegisterVault.config self);
      ("vault_registry", RegisterVault.vault_registry self); ("ncn", RegisterVault.ncn self);
      ("vault", RegisterVault.vault self); ("ncn_vault_ticket", RegisterVault.ncn_vault_ticket self)]
  | CallInitializeEpochState self _ => [("epoch_marker", InitializeEpochState.epoch_marker self);
      ("epoch_state", InitializeEpochState.epoch_state self); ("config", InitializeEpochState.config self);
      ("ncn", InitializeEpochState.ncn self); ("account_payer", InitializeEpochState.account_payer self);
      ("system_program", InitializeEpochState.system_program self)]
  | CallReallocEpochState self _ => [("epoch_state", ReallocEpochState.epoch_state self);
      ("config", ReallocEpochState.config self); ("ncn", ReallocEpochState.ncn self);
      ("account_payer", ReallocEpochState.account_payer self);
      ("system_program", ReallocEpochState.system_program self)]
  | CallInitializeWeightTable self _ => [("epoch_marker", InitializeWeightTable.epoch_marker self);
      ("epoch_state", InitializeWeightTable.epoch_state self);
      ("vault_registry", InitializeWeightTable.vault_registry self); ("ncn", InitializeWeightTable.ncn self);
      ("weight_table", InitializeWeightTable.weight_table self);
      ("account_payer", InitializeWeightTable.account_payer self);
      ("system_program", InitializeWeightTable.system_program self)]
  | CallReallocWeightTable self _ => [("epoch_state", ReallocWeightTable.epoch_state self);
      ("config", ReallocWeightTable.config self); ("weight_table", ReallocWeightTable.weight_table self);
      ("ncn", ReallocWeightTable.ncn self); ("vault_registry", ReallocWeightTable.vault_registry self);
      ("account_payer", ReallocWeightTable.account_payer self);
      ("system_program", ReallocWeightTable.system_program self)]
  | CallSwitchboardSetWeight self _ => [("epoch_state", SwitchboardSetWeight.epoch_state self);
      ("ncn", SwitchboardSetWeight.ncn self); ("weight_table", SwitchboardSetWeight.weight_table self);
      ("switchboard_feed", SwitchboardSetWeight.switchboard_feed self)]
  | CallInitializeEpochSnapshot self _ => [("epoch_marker", InitializeEpochSnapshot.epoch_marker self);
      ("epoch_state", InitializeEpochSnapshot.epoch_state self); ("config", InitializeEpochSnapshot.config self);
      ("ncn", InitializeEpochSnapshot.ncn self); ("weight_table", InitializeEpochSnapshot.weight_table self);
      ("epoch_snapshot", InitializeEpochSnapshot.epoch_snapshot self);
      ("account_payer", InitializeEpochSnapshot.account_payer self);
      ("system_program", InitializeEpochSnapshot.system_program self)]
  | CallInitializeOperatorSnapshot self _ => [("epoch_marker", InitializeOperatorSnapshot.epoch_marker self);
      ("epoch_state", InitializeOperatorSnapshot.epoch_state self);
      ("config", InitializeOperatorSnapshot.config self); ("ncn", InitializeOperatorSnapshot.ncn self);
      ("operator", InitializeOperatorSnapshot.operator self);
      ("ncn_operator_state", InitializeOperatorSnapshot.ncn_operator_state self);
      ("epoch_snapshot", InitializeOperatorSnapshot.epoch_snapshot self);
      ("operator_snapshot", InitializeOperatorSnapshot.operator_snapshot self);
      ("account_payer", InitializeOperatorSnapshot.account_payer self);
      ("system_program", InitializeOperatorSnapshot.system_program self)]
  | CallReallocOperatorSnapshot self _ => [("epoch_state", ReallocOperatorSnapshot.epoch_state self);
      ("config", ReallocOperatorSnapshot.config self);
      ("restaking_config", ReallocOperatorSnapshot.restaking_config self);
      ("ncn", ReallocOperatorSnapshot.ncn self); ("operator", ReallocOperatorSnapshot.operator self);
      ("ncn_operator_state", ReallocOperatorSnapshot.ncn_operator_state self);
      ("epoch_snapshot", ReallocOperatorSnapshot.epoch_snapshot self);
      ("operator_snapshot", ReallocOperatorSnapshot.operator_snapshot self);
      ("account_payer", ReallocOperatorSnapshot.account_payer self);
      ("system_program", ReallocOperatorSnapshot.system_program self)]
  | CallSnapshotVaultOperatorDelegation self _ => [
      ("epoch_state", SnapshotVaultOperatorDelegation.epoch_state self);
      ("config", SnapshotVaultOperatorDelegation.config self);
      ("restaking_config", SnapshotVaultOperatorDelegation.restaking_config self);
      ("ncn", SnapshotVaultOperatorDelegation.ncn self);
      ("operator", SnapshotVaultOperatorDelegation.operator self);
      ("vault", SnapshotVaultOperatorDelegation.vault self);
      ("vault_ncn_ticket", SnapshotVaultOperatorDelegation.vault_ncn_ticket self);
      ("ncn_vault_ticket", SnapshotVaultOperatorDelegation.ncn_vault_ticket self);
      ("vault_operator_delegation", SnapshotVaultOperatorDelegation.vault_operator_delegation self);
      ("weight_table", SnapshotVaultOperatorDelegation.weight_table self);
      ("epoch_snapshot", SnapshotVaultOperatorDelegation.epoch_snapshot self);
      ("operator_snapshot", SnapshotVaultOperatorDelegation.operator_snapshot self)]
  | CallInitializeBallotBox self _ => [("epoch_marker", InitializeBallotBox.epoch_marker self);
      ("epoch_state", InitializeBallotBox.epoch_state self); ("config", InitializeBallotBox.config self);
      ("ballot_box", InitializeBallotBox.ballot_box self); ("ncn", InitializeBallotBox.ncn self);
      ("account_payer", InitializeBallotBox.account_payer self);
      ("system_program", InitializeBallotBox.system_program self)]
  | CallReallocBallotBox self _ => [("epoch_state", ReallocBallotBox.epoch_state self);
      ("config", ReallocBallotBox.config self); ("ballot_box", ReallocBallotBox.ballot_box self);
      ("ncn", ReallocBallotBox.ncn self); ("account_payer", ReallocBallotBox.account_payer self);
      ("system_program", ReallocBallotBox.system_program self)]
  | CallCastVote self _ => [("epoch_state", CastVote.epoch_state self); ("config", CastVote.config self);
      ("ballot_box", CastVote.ballot_box self); ("ncn", CastVote.ncn self);
      ("epoch_snapshot", CastVote.epoch_snapshot self); ("operator_snapshot", CastVote.operator_snapshot self);
      ("operator", CastVote.operator self); ("operator_voter", CastVote.operator_voter self)]
  | CallSetMerkleRoot self _ => [("epoch_state", SetMerkleRoot.epoch_state self);
      ("config", SetMerkleRoot.config self); ("ncn", SetMerkleRoot.ncn self);
      ("ballot_box", SetMerkleRoot.ballot_box self); ("vote_account", SetMerkleRoot.vote_account self);
      ("tip_distribution_account", SetMerkleRoot.tip_distribution_account self);
      ("tip_distribution_config", SetMerkleRoot.tip_distribution_config self);
      ("tip_distribution_program", SetMerkleRoot.tip_distribution_program self)]
  | CallInitializeBaseRewardRouter self _ => [("epoch_marker", InitializeBaseRewardRouter.epoch_marker self);
      ("epoch_state", InitializeBaseRewardRouter.epoch_state self); ("ncn", InitializeBaseRewardRouter.ncn self);
      ("base_reward_router", InitializeBaseRewardRouter.base_reward_router self);
      ("base_reward_receiver", InitializeBaseRewardRouter.base_reward_receiver self);
      ("account_payer", InitializeBaseRewardRouter.account_payer self);
      ("system_program", InitializeBaseRewardRouter.system_program self)]
  | CallReallocBaseRewardRouter self _ => [("epoch_state", ReallocBaseRewardRouter.epoch_state self);
      ("config", ReallocBaseRewardRouter.config self);
      ("base_reward_router", ReallocBaseRewardRouter.base_reward_router self);
      ("ncn", ReallocBaseRewardRouter.ncn self); ("account_payer", ReallocBaseRewardRouter.account_payer self);
      ("system_program", ReallocBaseRewardRouter.system_program self)]
  | CallInitializeNcnRewardRouter self _ => [("epoch_marker", InitializeNcnRewardRouter.epoch_marker self);
      ("epoch_state", InitializeNcnRewardRouter.epoch_state self); ("ncn", InitializeNcnRewardRouter.ncn self);
      ("operator", InitializeNcnRewardRouter.operator self);
      ("operator_snapshot", InitializeNcnRewardRouter.operator_snapshot self);
      ("ncn_reward_router", InitializeNcnRewardRouter.ncn_reward_router self);
      ("ncn_reward_receiver", InitializeNcnRewardRouter.ncn_reward_receiver self);
      ("account_payer", InitializeNcnRewardRouter.account_payer self);
      ("system_program", InitializeNcnRewardRouter.system_program self)]
  | CallRouteBaseRewards self _ => [("epoch_state", RouteBaseRewards.epoch_state self);
      ("config", RouteBaseRewards.config self); ("ncn", RouteBaseRewards.ncn self);
      ("epoch_snapshot", RouteBaseRewards.epoch_snapshot self); ("ballot_box", RouteBaseRewards.ballot_box self);
      ("base_reward_router", RouteBaseRewards.base_reward_router self);
      ("base_reward_receiver", RouteBaseRewards.base_reward_receiver self)]
  | CallRouteNcnRewards self _ => [("epoch_state", RouteNcnRewards.epoch_state self);
      ("ncn", RouteNcnRewards.ncn self); ("operator", RouteNcnRewards.operator self);
      ("operator_snapshot", RouteNcnRewards.operator_snapshot self);
      ("ncn_reward_router", RouteNcnRewards.ncn_reward_router self);
      ("ncn_reward_receiver", RouteNcnRewards.ncn_reward_receiver self)]
  | CallDistributeBaseRewards self _ => [("epoch_state", DistributeBaseRewards.epoch_state self);
      ("config", DistributeBaseRewards.config self); ("ncn", DistributeBaseRewards.ncn self);
      ("base_reward_router", DistributeBaseRewards.base_reward_router self);
      ("base_reward_receiver", DistributeBaseRewards.base_reward_receiver self);
      ("base_fee_wallet", DistributeBaseRewards.base_fee_wallet self);
      ("base_fee_wallet_ata", DistributeBaseRewards.base_fee_wallet_ata self);
      ("stake_pool_program", DistributeBaseRewards.stake_pool_program self);
      ("stake_pool", DistributeBaseRewards.stake_pool self);
      ("stake_pool_withdraw_authority", DistributeBaseRewards.stake_pool_withdraw_authority self);
      ("reserve_stake", DistributeBaseRewards.reserve_stake self);
      ("manager_fee_account", DistributeBaseRewards.manager_fee_account self);
      ("referrer_pool_tokens_account", DistributeBaseRewards.referrer_pool_tokens_account self);
      ("pool_mint", DistributeBaseRewards.pool_mint self);
      ("token_program", DistributeBaseRewards.token_program self);
      ("system_program", DistributeBaseRewards.system_program self)]
  | CallDistributeBaseNcnRewardRoute self _ => [("epoch_state", DistributeBaseNcnRewardRoute.epoch_state self);
      ("config", DistributeBaseNcnRewardRoute.config self); ("ncn", DistributeBaseNcnRewardRoute.ncn self);
      ("operator", DistributeBaseNcnRewardRoute.operator self);
      ("base_reward_router", DistributeBaseNcnRewardRoute.base_reward_router self);
      ("base_reward_receiver", DistributeBaseNcnRewardRoute.base_reward_receiver self);
      ("ncn_reward_router", DistributeBaseNcnRewardRoute.ncn_reward_router self);
      ("ncn_reward_receiver", DistributeBaseNcnRewardRoute.ncn_reward_receiver self);
      ("system_program", DistributeBaseNcnRewardRoute.system_program self)]
  | CallDistributeNcnOperatorRewards self _ => [("epoch_state", DistributeNcnOperatorRewards.epoch_state self);
      ("config", DistributeNcnOperatorRewards.config self); ("ncn", DistributeNcnOperatorRewards.ncn self);
      ("operator", DistributeNcnOperatorRewards.operator self);
      ("operator_ata", DistributeNcnOperatorRewards.operator_ata self);
      ("operator_snapshot", DistributeNcnOperatorRewards.operator_snapshot self);
      ("ncn_reward_router", DistributeNcnOperatorRewards.ncn_reward_router self);
      ("ncn_reward_receiver", DistributeNcnOperatorRewards.ncn_reward_receiver self);
      ("stake_pool_program", DistributeNcnOperatorRewards.stake_pool_program self);
      ("stake_pool", DistributeNcnOperatorRewards.stake_pool self);
      ("stake_pool_withdraw_authority", DistributeNcnOperatorRewards.stake_pool_withdraw_authority self);
      ("reserve_stake", DistributeNcnOperatorRewards.reserve_stake self);
      ("manager_fee_account", DistributeNcnOperatorRewards.manager_fee_account self);
      ("referrer_pool_tokens_account", DistributeNcnOperatorRewards.referrer_pool_tokens_account self);
      ("pool_mint", DistributeNcnOperatorRewards.pool_mint self);
      ("token_program", DistributeNcnOperatorRewards.token_program self);
      ("system_program", DistributeNcnOperatorRewards.system_program self)]
  | CallDistributeNcnVaultRewards self _ => [("epoch_state", DistributeNcnVaultRewards.epoch_state self);
      ("config", DistributeNcnVaultRewards.config self); ("ncn", DistributeNcnVaultRewards.ncn self);
      ("operator", DistributeNcnVaultRewards.operator self); ("vault", DistributeNcnVaultRewards.vault self);
      ("vault_ata", DistributeNcnVaultRewards.vault_ata self);
      ("operator_snapshot", DistributeNcnVaultRewards.operator_snapshot self);
      ("ncn_reward_router", DistributeNcnVaultRewards.ncn_reward_router self);
      ("ncn_reward_receiver", DistributeNcnVaultRewards.ncn_reward_receiver self);
      ("stake_pool_program", DistributeNcnVaultRewards.stake_pool_program self);
      ("stake_pool", DistributeNcnVaultRewards.stake_pool self);
      ("stake_pool_withdraw_authority", DistributeNcnVaultRewards.stake_pool_withdraw_authority self);
      ("reserve_stake", DistributeNcnVaultRewards.reserve_stake self);
      ("manager_fee_account", DistributeNcnVaultRewards.manager_fee_account self);
      ("referrer_pool_tokens_account", DistributeNcnVaultRewards.referrer_pool_tokens_account self);
      ("pool_mint", DistributeNcnVaultRewards.pool_mint self);
      ("token_program", DistributeNcnVaultRewards.token_program self);
      ("system_program", DistributeNcnVaultRewards.system_program self)]
  | CallClaimWithPayer self _ => [("account_payer", ClaimWithPayer.account_payer self);
      ("config", ClaimWithPayer.config self); ("ncn", ClaimWithPayer.ncn self);
      ("tip_distribution_config", ClaimWithPayer.tip_distribution_config self);
      ("tip_distribution_account", ClaimWithPayer.tip_distribution_account self);
      ("claim_status", ClaimWithPayer.claim_status self); ("claimant", ClaimWithPayer.claimant self);
      ("tip_distribution_program", ClaimWithPayer.tip_distribution_program self);
      ("system_program", ClaimWithPayer.system_program self)]
  | CallCloseEpochAccount self _ => [("epoch_marker", CloseEpochAccount.epoch_marker self);
      ("epoch_state", CloseEpochAccount.epoch_state self); ("config", CloseEpochAccount.config self);
      ("ncn", CloseEpochAccount.ncn self); ("account_to_close", CloseEpochAccount.account_to_close self);
      ("account_payer", CloseEpochAccount.account_payer self); ("dao_wallet", CloseEpochAccount.dao_wallet self);
      ("system_program", CloseEpochAccount.system_program self)]
  | CallAdminSetParameters self _ => [("config", AdminSetParameters.config self);
      ("ncn", AdminSetParameters.ncn self); ("ncn_admin", AdminSetParameters.ncn_admin self)]
  | CallAdminSetConfigFees self _ => [("config", AdminSetConfigFees.config self);
      ("ncn", AdminSetConfigFees.ncn self); ("ncn_admin", AdminSetConfigFees.ncn_admin self)]
  | CallAdminSetNewAdmin self _ => [("config", AdminSetNewAdmin.config self); ("ncn", AdminSetNewAdmin.ncn self);
      ("ncn_admin", AdminSetNewAdmin.ncn_admin self); ("new_admin", AdminSetNewAdmin.new_admin self)]
  | CallAdminSetTieBreaker self _ => [("epoch_state", AdminSetTieBreaker.epoch_state self);
      ("config", AdminSetTieBreaker.config self); ("ballot_box", AdminSetTieBreaker.ballot_box self);
      ("ncn", AdminSetTieBreaker.ncn self); ("tie_breaker_admin", AdminSetTieBreaker.tie_breaker_admin self)]
  | CallAdminSetWeight self _ => [("epoch_state", AdminSetWeight.epoch_state self);
      ("ncn", AdminSetWeight.ncn self); ("weight_table", AdminSetWeight.weight_table self);
      ("weight_table_admin", AdminSetWeight.weight_table_admin self)]
  | CallAdminRegisterStMint self _ => [("config", AdminRegisterStMint.config self);
      ("ncn", AdminRegisterStMint.ncn self); ("st_mint", AdminRegisterStMint.st_mint self);
      ("vault_registry", AdminRegisterStMint.vault_registry self); ("admin", AdminRegisterStMint.admin self)]
  | CallAdminSetStMint self _ => [("config", AdminSetStMint.config self); ("ncn", AdminSetStMint.ncn self);
      ("vault_registry", AdminSetStMint.vault_registry self); ("admin", AdminSetStMint.admin self)]
  end.

Section client.
Context `{B : Borsh} `{K : ClientKeys}.

(** [instruction] *)
Definition instruction_of (c : ClientCall) : Instruction :=
  match c with
  | CallInitializeConfig self args => InitializeConfig.instruction_with_remaining_accounts self args []
  | CallInitializeVaultRegistry self => InitializeVaultRegistry.instruction_with_remaining_accounts self []
  | CallReallocVaultRegistry self => ReallocVaultRegistry.instruction_with_remaining_accounts self []
  | CallRegisterVault self => RegisterVault.instruction_with_remaining_accounts self []
  | CallInitializeEpochState self args => InitializeEpochState.instruction_with_remaining_accounts self args []
  | CallReallocEpochState self args => ReallocEpochState.instruction_with_remaining_accounts self args []
  | CallInitializeWeightTable self args => InitializeWeightTable.instruction_with_remaining_accounts self args []
  | CallReallocWeightTable self args => ReallocWeightTable.instruction_with_remaining_accounts self args []
  | CallSwitchboardSetWeight self args => SwitchboardSetWeight.instruction_with_remaining_accounts self args []
  | CallInitializeEpochSnapshot self args => InitializeEpochSnapshot.instruction_with_remaining_accounts self args []
  | CallInitializeOperatorSnapshot self args => InitializeOperatorSnapshot.instruction_with_remaining_accounts self args []
  | CallReallocOperatorSnapshot self args => ReallocOperatorSnapshot.instruction_with_remaining_accounts self args []
  | CallSnapshotVaultOperatorDelegation self args => SnapshotVaultOperatorDelegation.instruction_with_remaining_accounts self args []
  | CallInitializeBallotBox self args => InitializeBallotBox.instruction_with_remaining_accounts self args []
  | CallReallocBallotBox self args => ReallocBallotBox.instruction_with_remaining_accounts self args []
  | CallCastVote self args => CastVote.instruction_with_remaining_accounts self args []
  | CallSetMerkleRoot self args => SetMerkleRoot.instruction_with_remaining_accounts self args []
  | CallInitializeBaseRewardRouter self args => InitializeBaseRewardRouter.instruction_with_remaining_accounts self args []
  | CallReallocBaseRewardRouter self args => ReallocBaseRewardRouter.instruction_with_remaining_accounts self args []
  | CallInitializeNcnRewardRouter self args => InitializeNcnRewardRouter.instruction_with_remaining_accounts self args []
  | CallRouteBaseRewards self args => RouteBaseRewards.instruction_with_remaining_accounts self args []
  | CallRouteNcnRewards self args => RouteNcnRewards.instruction_with_remaining_accounts self args []
  | CallDistributeBaseRewards self args => DistributeBaseRewards.instruction_with_remaining_accounts self args []
  | CallDistributeBaseNcnRewardRoute self args => DistributeBaseNcnRewardRoute.instruction_with_remaining_accounts self args []
  | CallDistributeNcnOperatorRewards self args => DistributeNcnOperatorRewards.instruction_with_remaining_accounts self args []
  | CallDistributeNcnVaultRewards self args => DistributeNcnVaultRewards.instruction_with_remaining_accounts self args []
  | CallClaimWithPayer self args => ClaimWithPayer.instruction_with_remaining_accounts self args []
  | CallCloseEpochAccount self args => CloseEpochAccount.instruction_with_remaining_accounts self args []
  | CallAdminSetParameters self args => AdminSetParameters.instruction_with_remaining_accounts self args []
  | CallAdminSetConfigFees self args => AdminSetConfigFees.instruction_with_remaining_accounts self args []
  | CallAdminSetNewAdmin self args => AdminSetNewAdmin.instruction_with_remaining_accounts self args []
  | CallAdminSetTieBreaker self args => AdminSetTieBreaker.instruction_with_remaining_accounts self args []
  | CallAdminSetWeight self args => AdminSetWeight.instruction_with_remaining_accounts self args []
  | CallAdminRegisterStMint self args => AdminRegisterStMint.instruction_with_remaining_accounts self args []
  | CallAdminSetStMint self args => AdminSetStMint.instruction_with_remaining_accounts self args []
  end.

(** The account behind the required ones; the program's own id stands for none. *)
Definition receiver (c : ClientCall) : list AccountMeta :=
  match c with
  | CallCloseEpochAccount self _ =>
      [match CloseEpochAccount.receiver_to_close self with
       | Some key => mkAccountMeta key false true
       | None => mkAccountMeta JITO_TIP_ROUTER_ID false false
       end]
  | _ => []
  end.
End client.

(** The client's name for a handler's account: five differ. *)
Definition client_name (name : string) : string :=
  match name with
  | "ncn_config" => "config"
  | "ncn_account" => "ncn"
  | "dao_fee_wallet" => "fee_wallet"
  | "operator_admin" => "operator_voter"
  | "fee_admin" => "ncn_admin"
  | _ => name
  end.

(** The required accounts as the interface description has them. *)
Definition required (ix : TipRouterInstruction) : list ShankAccount := filter (fun a => sh_optional a = false) (shank_accounts ix).

Definition described (a : ShankAccount) (key : Pubkey) : AccountMeta := mkAccountMeta key (sh_signer a) (sh_writable a).

Section laws.
Context `{B : Borsh} {BL : BorshLaws B} `{K : ClientKeys}.

(** The client's bytes are the program's. *)
Lemma client_data c : in_data (instruction_of c) = try_to_vec (program_ix c).
Proof using Type. by destruct c. Qed.

Lemma client_program c : in_program_id (instruction_of c) = JITO_TIP_ROUTER_ID.
Proof using Type. by destruct c. Qed.

Lemma client_names c : map sh_name (required (program_ix c)) = map fst (keys c).
Proof using Type. by destruct c. Qed.

Lemma client_accounts c :
  in_accounts (instruction_of c) = zip_with described (required (program_ix c)) (map snd (keys c)) ++ receiver c.
Proof using Type. by destruct c. Qed.

Lemma handler_names c : map client_name (handler_accounts (dispatch (program_ix c))) = map fst (keys c).
Proof using Type. by destruct c. Qed.

Lemma client_taken c :
  exists inv, take_accounts (dispatch (program_ix c)) (in_accounts (instruction_of c)) = Ok inv /\
    iv_handler inv = dispatch (program_ix c) /\ iv_optional inv = receiver c /\
    map (fun '(name, a) => (client_name name, am_pubkey a)) (iv_accounts inv) = keys c.
Proof using Type. destruct c; (eexists; split; [reflexivity|by split]). Qed.

(** What the entry point does with a call. *)
Lemma client_processed c :
  valid (program_ix c) -> let ix := instruction_of c in
  exists inv, process_instruction JITO_TIP_ROUTER_ID (in_program_id ix) (in_accounts ix) (in_data ix) = Ok inv /\
    iv_handler inv = dispatch (program_ix c) /\
    map (fun '(name, a) => (client_name name, am_pubkey a)) (iv_accounts inv) = keys c /\
    iv_optional inv = receiver c.
Proof using BL.
  intros Hv ix. destruct (client_taken c) as (inv & Htake & Hh & Ho & Hk). exists inv.
  unfold ix. rewrite client_program, client_data. unfold process_instruction, try_from_slice.
  rewrite bool_decide_true by done. rewrite <- (app_nil_r (try_to_vec (program_ix c))), deserialize_to_vec by done.
  by rewrite <- Htake.
Qed.

(** C31: with values in the range of their types for arguments, whatever a client makes
    passes the entry point of the program, which calls the instruction's handler with
    the client's arguments and binds every account to the key that the client has
    under that account's name; and the accounts are signers and writable exactly when
    the interface description says so. *)
Theorem client_calls_reach_handlers (c : ClientCall) :
  valid (program_ix c) ->
  let ix := instruction_of c in
  (exists inv, process_instruction JITO_TIP_ROUTER_ID (in_program_id ix) (in_accounts ix) (in_data ix) = Ok inv /\
     iv_handler inv = dispatch (program_ix c) /\
     map (fun '(name, a) => (client_name name, am_pubkey a)) (iv_accounts inv) = keys c /\
     iv_optional inv = receiver c) /\
  map sh_name (required (program_ix c)) = map fst (keys c) /\
  in_accounts ix = zip_with described (required (program_ix c)) (map snd (keys c)) ++ receiver c.
Proof using BL.
  intros Hv ix. split; [by apply client_processed|split; [apply client_names|apply client_accounts]].
Qed.

(** A call through the other side of an unmerged file that makes an account. *)
Inductive HeadCall : Type :=
| CallHeadInitializeEpochState (self : HeadInitializeEpochState.HeadInitializeEpochState) (args : InitializeEpochState.InstructionArgs)
| CallHeadInitializeWeightTable (self : HeadInitializeWeightTable.HeadInitializeWeightTable) (args : InitializeWeightTable.InstructionArgs)
| CallHeadInitializeEpochSnapshot (self : HeadInitializeEpochSnapshot.HeadInitializeEpochSnapshot) (args : InitializeEpochSnapshot.InstructionArgs)
| CallHeadInitializeOperatorSnapshot (self : HeadInitializeOperatorSnapshot.HeadInitializeOperatorSnapshot) (args : InitializeOperatorSnapshot.InstructionArgs)
| CallHeadInitializeBallotBox (self : HeadInitializeBallotBox.HeadInitializeBallotBox) (args : InitializeBallotBox.InstructionArgs)
| CallHeadInitializeBaseRewardRouter (self : HeadInitializeBaseRewardRouter.HeadInitializeBaseRewardRouter) (args : InitializeBaseRewardRouter.InstructionArgs)
| CallHeadInitializeNcnRewardRouter (self : HeadInitializeNcnRewardRouter.HeadInitializeNcnRewardRouter) (args : InitializeNcnRewardRouter.InstructionArgs).

Definition head_instruction (c : HeadCall) : Instruction :=
  match c with
  | CallHeadInitializeEpochState self args => HeadInitializeEpochState.instruction_with_remaining_accounts self args []
  | CallHeadInitializeWeightTable self args => HeadInitializeWeightTable.instruction_with_remaining_accounts self args []
  | CallHeadInitializeEpochSnapshot self args => HeadInitializeEpochSnapshot.instruction_with_remaining_accounts self args []
  | CallHeadInitializeOperatorSnapshot self args => HeadInitializeOperatorSnapshot.instruction_with_remaining_accounts self args []
  | CallHeadInitializeBallotBox self args => HeadInitializeBallotBox.instruction_with_remaining_accounts self args []
  | CallHeadInitializeBaseRewardRouter self args => HeadInitializeBaseRewardRouter.instruction_with_remaining_accounts self args []
  | CallHeadInitializeNcnRewardRouter self args => HeadInitializeNcnRewardRouter.instruction_with_remaining_accounts self args []
  end.

Definition head_ix (c : HeadCall) : TipRouterInstruction :=
  match c with
  | CallHeadInitializeEpochState _ args => InitializeEpochState (InitializeEpochState.arg_epoch args)
  | CallHeadInitializeWeightTable _ args => InitializeWeightTable (InitializeWeightTable.arg_epoch args)
  | CallHeadInitializeEpochSnapshot _ args => InitializeEpochSnapshot (InitializeEpochSnapshot.arg_epoch args)
  | CallHeadInitializeOperatorSnapshot _ args => InitializeOperatorSnapshot (InitializeOperatorSnapshot.arg_epoch args)
  | CallHeadInitializeBallotBox _ args => InitializeBallotBox (InitializeBallotBox.arg_epoch args)
  | CallHeadInitializeBaseRewardRouter _ args => InitializeBaseRewardRouter (InitializeBaseRewardRouter.arg_epoch args)
  | CallHeadInitializeNcnRewardRouter _ args => InitializeNcnRewardRouter (InitializeNcnRewardRouter.arg_ncn_fee_group args) (InitializeNcnRewardRouter.arg_epoch args)
  end.

Lemma head_data c : in_data (head_instruction c) = try_to_vec (head_ix c).
Proof using Type. by destruct c. Qed.

Lemma head_taken c : take_accounts (dispatch (head_ix c)) (in_accounts (head_instruction c)) = Err (Prog NotEnoughAccountKeys).
Proof using Type. by destruct c. Qed.

(** seven of the generated files that initialise an account hold two unmerged
    versions; the version before the epoch marker was added makes an instruction that
    the program decodes and then refuses, an account short. *)
Theorem unmerged_side_refused (c : HeadCall) :
  valid (head_ix c) ->
  let ix := head_instruction c in
  process_instruction JITO_TIP_ROUTER_ID JITO_TIP_ROUTER_ID (in_accounts ix) (in_data ix) = Err (Prog NotEnoughAccountKeys).
Proof using BL.
  intros Hv ix. unfold ix. rewrite head_data. unfold process_instruction, try_from_slice.
  rewrite bool_decide_true by done. rewrite <- (app_nil_r (try_to_vec (head_ix c))), deserialize_to_vec by done.
  cbn [ok_or mbind]. apply head_taken.
Qed.
End laws.

(* ------------------------------------------------------------------ *)
(** * Witnesses *)

Import ConcreteBorsh.

#[local] Instance client_keys : ClientKeys := {| JITO_TIP_ROUTER_ID := mkPubkey (repeat 1 32);
  SYSTEM_PROGRAM := mkPubkey (repeat 2 32); TOKEN_PROGRAM := mkPubkey (repeat 3 32) |}.

Definition some_key (n : Z) : Pubkey := mkPubkey (repeat n 32).

Lemma client_calls_reach_handlers_witness :
  let c := CallCastVote (CastVote.mkCastVote (some_key 11) (some_key 12) (some_key 13) (some_key 14) (some_key 15)
    (some_key 16) (some_key 17) (some_key 18)) (CastVote.mkArgs (repeat 7 32) 5) in
  valid (program_ix c) /\
  exists inv, process_instruction (some_key 1) (some_key 1) (in_accounts (instruction_of c)) (in_data (instruction_of c)) = Ok inv /\
    iv_handler inv = process_cast_vote (repeat 7 32) 5.
Proof.
  intros c. assert (Hv : valid (program_ix c)) by (split; [split; [done|repeat constructor; done]|by split]).
  destruct (client_calls_reach_handlers c Hv) as ((inv & Hp & Hh & _) & _).
  split; [exact Hv|]. exists inv. split; [exact Hp|exact Hh].
Defined.

Lemma unmerged_side_refused_witness :
  let c := CallHeadInitializeEpochState (HeadInitializeEpochState.mkHeadInitializeEpochState (some_key 11) (some_key 12)
    (some_key 13) (some_key 14) (some_key 2)) (InitializeEpochState.mkArgs 5) in
  valid (head_ix c) /\
  process_instruction (some_key 1) (some_key 1) (in_accounts (head_instruction c)) (in_data (head_instruction c))
    = Err (Prog NotEnoughAccountKeys).
Proof.
  intros c. assert (Hv : valid (head_ix c)) by (by split).
  split; [exact Hv|]. exact (unmerged_side_refused c Hv).
Defined.
