(* ===== verification/Rpc.v ===== *)
(** The command line tool's way to the network: instructions and transactions,
    [send_transactions] of cli/src/instructions.rs with its retries, and the
    monad in which its commands are written, with its program logic.

    The network is a parameter [W] with its operations ([Rpc]): each read, each
    blockhash and each transaction may change it, so that a theorem over all
    networks covers every interleaving with other clients.  A run records the
    requests made, with the transactions tried for each, and ends with a value,
    an error, a panic, or without fuel in a polling loop. *)

From Stdlib Require Import String.
From S2P Require Import Prelude Errors External Config FeeGroups Getters.

(* ------------------------------------------------------------------ *)
(** * Instructions *)

(** The names under which the builders take accounts. *)
Module Role.
Inductive Role : Type :=
| config | ncn | ncn_admin | admin | account_payer | tie_breaker_admin | fee_wallet | vault_registry | st_mint
| weight_table | epoch_state | weight_table_admin | ballot_box | new_admin | system_program | vault | ncn_vault_ticket
| epoch_marker | epoch_snapshot | operator | ncn_operator_state | operator_snapshot | restaking_config
| vault_ncn_ticket | vault_operator_delegation | operator_voter | base_reward_router | base_reward_receiver
| ncn_reward_router | ncn_reward_receiver | base_fee_wallet | base_fee_wallet_ata | vault_ata | operator_ata
| pool_mint | manager_fee_account | referrer_pool_tokens_account | reserve_stake | stake_pool
| stake_pool_withdraw_authority | stake_pool_program | token_program | account_to_close | receiver_to_close | dao_wallet
| vault_update_state_tracker | payer | vault_fee_token_account | vault_token_account | vrt_mint
| switchboard_feed | from | to | wallet | mint | base | operator_vault_ticket | depositor | depositor_token_account
| depositor_vrt_token_account.
End Role.
Abbreviation Role := Role.Role.

#[export] Instance Role_eq_dec : EqDecision Role.
Proof. solve_decision. Defined.

(** What an instruction says besides its accounts: the tip router's, those of
    the restaking and vault programs, and of the other programs used. *)
Inductive IxData : Type :=
| SetComputeUnitLimit (units : Z)
| SetComputeUnitPrice (micro_lamports : Z)
| Transfer (lamports : Z)
| CreateAccount (lamports space : Z) (owner : Pubkey)
| InitializeMint2 (mint_authority : Pubkey) (decimals : Z)
| TokenMintTo (amount : Z)
| CreateAssociatedTokenAccountIdempotent
| InitializeConfig (epochs_before_stall valid_slots_after_consensus epochs_after_consensus_before_close
    dao_fee_bps block_engine_fee_bps default_ncn_fee_bps : Z)
| AdminRegisterStMint (ncn_fee_group reward_multiplier_bps : Z) (switchboard_feed : option Pubkey) (no_feed_weight : option Z)
| AdminSetWeight (st_mint : Pubkey) (weight epoch : Z)
| AdminSetTieBreaker (meta_merkle_root : hash) (epoch : Z)
| AdminSetNewAdmin (role : ConfigAdminRole)
| AdminSetParameters (epochs_before_stall epochs_after_consensus_before_close valid_slots_after_consensus
    starting_valid_epoch : option Z)
| AdminSetConfigFees (new_block_engine_fee_bps base_fee_group : option Z) (new_base_fee_wallet : option Pubkey)
    (new_base_fee_bps ncn_fee_group new_ncn_fee_bps : option Z)
| InitializeVaultRegistry
| ReallocVaultRegistry
| RegisterVault
| InitializeEpochState (epoch : Z)
| ReallocEpochState (epoch : Z)
| InitializeWeightTable (epoch : Z)
| ReallocWeightTable (epoch : Z)
| SwitchboardSetWeight (st_mint : Pubkey) (epoch : Z)
| InitializeEpochSnapshot (epoch : Z)
| InitializeOperatorSnapshot (epoch : Z)
| ReallocOperatorSnapshot (epoch : Z)
| SnapshotVaultOperatorDelegation (epoch : Z)
| InitializeBallotBox (epoch : Z)
| ReallocBallotBox (epoch : Z)
| CastVote (meta_merkle_root : hash) (epoch : Z)
| InitializeBaseRewardRouter (epoch : Z)
| ReallocBaseRewardRouter (epoch : Z)
| InitializeNcnRewardRouter (ncn_fee_group epoch : Z)
| RouteBaseRewards (max_iterations epoch : Z)
| RouteNcnRewards (ncn_fee_group max_iterations epoch : Z)
| DistributeBaseNcnRewardRoute (ncn_fee_group epoch : Z)
| DistributeBaseRewards (base_fee_group epoch : Z)
| DistributeNcnVaultRewards (ncn_fee_group epoch : Z)
| DistributeNcnOperatorRewards (ncn_fee_group epoch : Z)
| CloseEpochAccount (epoch : Z)
| UpdateVaultBalance
| InitializeVaultUpdateStateTracker
| CrankVaultUpdateStateTracker
| CloseVaultUpdateStateTracker (ncn_epoch : Z)
| InitializeNcn
| InitializeOperator (operator_fee_bps : Z)
| InitializeNcnOperatorState
| NcnWarmupOperator
| OperatorWarmupNcn
| InitializeVault (deposit_fee_bps withdrawal_fee_bps reward_fee_bps decimals : Z)
| VaultMintTo (amount_in min_amount_out : Z)
| InitializeNcnVaultTicket
| InitializeVaultNcnTicket
| WarmupNcnVaultTicket
| WarmupVaultNcnTicket
| InitializeOperatorVaultTicket
| WarmupOperatorVaultTicket
| InitializeVaultOperatorDelegation
| AddDelegation (amount : Z)
| PullFeedUpdate (data : list Z).

#[export] Instance IxData_eq_dec : EqDecision IxData.
Proof. pose proof Pubkey_eq_dec. assert (EqDecision ConfigAdminRole) by solve_decision. solve_decision. Defined.

Record Instruction := mkIx { ix_data : IxData; ix_accounts : list (Role * Pubkey) }.

#[export] Instance Instruction_eq_dec : EqDecision Instruction.
Proof. solve_decision. Defined.

(** The account an instruction names under a role. *)
Definition account_of (ix : Instruction) (r : Role) : option Pubkey :=
  snd <$> list_find (fun x : Role * Pubkey => x.1 = r) (ix_accounts ix) ≫= fun x => Some x.2.

Record Transaction := mkTransaction {
  tx_payer : Pubkey;
  tx_signers : list Pubkey;
  tx_instructions : list Instruction;
}.

(* ------------------------------------------------------------------ *)
(** * Runs *)

(** One call of [send_transactions]: what is to be sent, and the transactions
    tried with their success. *)
Record Request := mkRequest {
  rq_instructions : list Instruction;
  rq_signers : list Pubkey;
  rq_tried : list (Transaction * bool);
}.

(** How a run can stop: an error that callers may handle, a panic, or a polling
    loop without fuel. *)
Inductive Halt : Type := HFailed | HPanic | HFuel.

Definition halt {A} (r : result KeeperError A) : result Halt A :=
  match r with Ok a => Ok a | Err Failed => Err HFailed | Err KeeperPanic => Err HPanic end.

Class Rpc (W : Type) := {
  (** what the node answers to the reads of the next call *)
  rpc_node : W -> Node * W;
  (** [get_latest_blockhash]: whether there is one *)
  rpc_blockhash : W -> bool * W;
  (** [send_and_confirm_transaction]: whether it is confirmed *)
  rpc_process : W -> Transaction -> bool * W;
  (** the update instruction of a switchboard feed, from the queue's first
      gateway, for a payer *)
  rpc_fetch_update_ix : W -> Pubkey -> Pubkey -> result KeeperError Instruction * W;
  (** [Keypair::new()] *)
  rpc_new_keypair : W -> Pubkey * W;
}.

Record Run (W A : Type) := mkRun { requests : list Request; outcome : result Halt A; world : W }.
Arguments mkRun {W A} _ _ _.
Arguments requests {W A} _.
Arguments outcome {W A} _.
Arguments world {W A} _.

Definition Client (W A : Type) : Type := W -> Run W A.

#[export] Instance client_ret W : MRet (Client W) := fun A a w => mkRun [] (Ok a) w.
#[export] Instance client_bind W : MBind (Client W) := fun A B f m w =>
  match outcome (m w) with
  | Ok a => let r := f a (world (m w)) in mkRun (requests (m w) ++ requests r) (outcome r) (world r)
  | Err e => mkRun (requests (m w)) (Err e) (world (m w))
  end.

Section client.
Context {W : Type} `{Rpc W}.

(** A computation without effects, and a read. *)
Definition pure_of {A} (r : result KeeperError A) : Client W A := fun w => mkRun [] (halt r) w.
Definition ask {A} (read : Node -> result KeeperError A) : Client W A := fun w =>
  let (nd, w) := rpc_node w in mkRun [] (halt (read nd)) w.
Definition stop {A} (e : Halt) : Client W A := fun w => mkRun [] (Err e) w.

(** A call whose error the caller looks at ([let result = ..]): [None] when it
    failed. *)
Definition tried {A} (m : Client W A) : Client W (option A) := fun w =>
  match outcome (m w) with
  | Ok a => mkRun (requests (m w)) (Ok (Some a)) (world (m w))
  | Err HFailed => mkRun (requests (m w)) (Ok None) (world (m w))
  | Err e => mkRun (requests (m w)) (Err e) (world (m w))
  end.

(** A call whose error is only logged. *)
Definition logged {A} (m : Client W A) : Client W unit := _ ← tried m; mret tt.

(** [for x in l { .. }] *)
Fixpoint for_each {A} (f : A -> Client W unit) (l : list A) : Client W unit :=
  match l with
  | [] => mret tt
  | x :: l => _ ← f x; for_each f l
  end.

Definition fetch_update_ix (feed payer : Pubkey) : Client W Instruction := fun w =>
  let (r, w) := rpc_fetch_update_ix w feed payer in mkRun [] (halt r) w.
Definition new_keypair : Client W Pubkey := fun w => let (k, w) := rpc_new_keypair w in mkRun [] (Ok k) w.

(* ------------------------------------------------------------------ *)
(** * Sending *)

(** The attempts that are left: with the compute unit price while [n] are, and
    without it at last. *)
Fixpoint send_attempts (payer : Pubkey) (signers : list Pubkey) (priced plain : list Instruction) (n : nat) (w : W)
    : list (Transaction * bool) * result Halt unit * W :=
  let (blockhash, w) := rpc_blockhash w in
  if negb blockhash then ([], Err HFailed, w) else
  match n with
  | O =>
      let tx := mkTransaction payer (payer :: signers) plain in
      let (ok, w) := rpc_process w tx in
      ([(tx, ok)], if ok : bool then Ok tt else Err HFailed, w)
  | S n =>
      let tx := mkTransaction payer (payer :: signers) priced in
      let (ok, w) := rpc_process w tx in
      if ok : bool then ([(tx, true)], Ok tt, w)
      else let '(tried, r, w) := send_attempts payer signers priced plain n w in ((tx, false) :: tried, r, w)
  end.

Definition send_request (h : CliHandler) (payer : Pubkey) (instructions : list Instruction) (signing_keypairs : list Pubkey)
    : Client W unit := fun w =>
  let all_instructions := mkIx (SetComputeUnitPrice (h_priority_fee_micro_lamports h)) [] :: instructions in
  let '(tried, r, w) := send_attempts payer signing_keypairs all_instructions instructions (Z.to_nat (h_retries h)) w in
  mkRun [mkRequest instructions signing_keypairs tried] r w.

Definition send_transactions (h : CliHandler) (instructions : list Instruction) (signing_keypairs : list Pubkey) : Client W unit :=
  payer ← pure_of (keypair h);
  send_request h payer instructions signing_keypairs.

Definition send_and_log_transaction (h : CliHandler) (instructions : list Instruction) (signing_keypairs : list Pubkey)
    : Client W unit := send_transactions h instructions signing_keypairs.

(** [get_guaranteed_epoch_and_slot]: asks until there is an answer. *)
Fixpoint get_guaranteed_epoch_and_slot (fuel : nat) : Client W (Z * Z) :=
  match fuel with
  | O => stop HFuel
  | S fuel =>
      answer ← tried (ask get_current_epoch_and_slot);
      match answer with Some result => mret result | None => get_guaranteed_epoch_and_slot fuel end
  end.

(* ------------------------------------------------------------------ *)
(** * What runs do *)

(** [m] makes only requests that satisfy [P], and returns only values that
    satisfy [Q]. *)
Definition does {A} (P : Request -> Prop) (Q : A -> Prop) (m : Client W A) : Prop :=
  forall w, Forall P (requests (m w)) /\ forall a, outcome (m w) = Ok a -> Q a.

(** Requests that satisfy [P], whatever is returned. *)
Definition emits {A} (P : Request -> Prop) (m : Client W A) : Prop := does P (fun _ => True) m.

Lemma does_ret {A} (P : Request -> Prop) (Q : A -> Prop) a : Q a -> does P Q (mret a : Client W A).
Proof. intros Ha w. split; [constructor|]. by intros ? [= <-]. Qed.

Lemma does_bind {A B} P (Q : A -> Prop) (R : B -> Prop) (m : Client W A) (f : A -> Client W B) :
  does P Q m -> (forall a, Q a -> does P R (f a)) -> does P R (m ≫= f).
Proof.
  intros Hm Hf w. destruct (Hm w) as [Hr Hq]. unfold mbind, client_bind.
  destruct (outcome (m w)) as [a|e] eqn:Eo; cbn; [|done].
  destruct (Hf a (Hq a eq_refl) (world (m w))) as [Hr2 Hq2]. split; [|done]. by apply list.Forall_app.
Qed.

Lemma does_weaken {A} (P P' : Request -> Prop) (Q Q' : A -> Prop) (m : Client W A) :
  does P Q m -> (forall r, P r -> P' r) -> (forall a, Q a -> Q' a) -> does P' Q' m.
Proof. intros Hm HP HQ w. destruct (Hm w) as [Hr Hq]. split; [eapply list.Forall_impl; eauto|eauto]. Qed.

Lemma does_pure {A} P (Q : A -> Prop) (r : result KeeperError A) : (forall a, r = Ok a -> Q a) -> does P Q (pure_of r).
Proof. intros Hr w. split; [constructor|]. cbn. intros a. destruct r as [b|[]]; try done. intros [= <-]. by apply Hr. Qed.

Lemma does_ask {A} P (Q : A -> Prop) (read : Node -> result KeeperError A) :
  (forall nd a, read nd = Ok a -> Q a) -> does P Q (ask read).
Proof.
  intros Hr w. unfold ask. destruct (rpc_node w) as [nd w']. split; [constructor|]. cbn. intros a.
  destruct (read nd) as [b|[]] eqn:E; try done. intros [= <-]. by apply (Hr nd).
Qed.

Lemma does_stop {A} P (Q : A -> Prop) e : does P Q (stop e).
Proof. intros w. by split; [constructor|]. Qed.

Lemma does_tried {A} P (Q : A -> Prop) (m : Client W A) :
  does P Q m -> does P (fun o => match o with Some a => Q a | None => True end) (tried m).
Proof.
  intros Hm w. destruct (Hm w) as [Hr Hq]. unfold tried. destruct (outcome (m w)) as [a|[]]; cbn; (split; [exact Hr|]).
  - intros ? [= <-]. by apply Hq.
  - by intros ? [= <-].
  - done.
  - done.
Qed.

Lemma emits_logged {A} P (m : Client W A) : emits P m -> emits P (logged m).
Proof. intros Hm. eapply does_bind; [by apply does_tried|]. intros. by apply does_ret. Qed.

Lemma emits_for_each {A} P (f : A -> Client W unit) l : (forall x, x ∈ l -> emits P (f x)) -> emits P (for_each f l).
Proof.
  induction l as [|x l IH]; intros Hf; [by apply does_ret|].
  eapply does_bind; [apply Hf; by left|]. intros _ _. apply IH. intros y Hy. apply Hf. by right.
Qed.

Lemma emits_update feed payer P : emits P (fetch_update_ix feed payer).
Proof. intros w. unfold fetch_update_ix. destruct (rpc_fetch_update_ix w feed payer). by split; [constructor|]. Qed.

Lemma emits_send h ixs signers (P : Request -> Prop) :
  (forall tried, P (mkRequest ixs signers tried)) -> emits P (send_and_log_transaction h ixs signers).
Proof.
  intros HP. unfold send_and_log_transaction, send_transactions. eapply does_bind; [by apply (does_pure _ (fun _ => True))|].
  intros k _ w. unfold send_request. destruct (send_attempts _ _ _ _ _ w) as [[tried r] w']. split; [|done].
  by repeat constructor.
Qed.

(** The rules for requests alone. *)
Lemma emits_ret {A} P (a : A) : emits P (mret a : Client W A).
Proof. by apply does_ret. Qed.
Lemma emits_pure {A} P (r : result KeeperError A) : emits P (pure_of r).
Proof. by apply does_pure. Qed.
Lemma emits_ask {A} P (read : Node -> result KeeperError A) : emits P (ask read).
Proof. by apply does_ask. Qed.
Lemma emits_stop {A} P e : emits P (stop e : Client W A).
Proof. apply does_stop. Qed.
Lemma emits_bind {A B} P (m : Client W A) (f : A -> Client W B) :
  emits P m -> (forall a, emits P (f a)) -> emits P (m ≫= f).
Proof. intros Hm Hf. eapply does_bind; [exact Hm|]. intros a _. apply Hf. Qed.
Lemma emits_tried {A} P (m : Client W A) : emits P m -> emits P (tried m).
Proof. intros Hm. eapply does_weaken; [by apply does_tried|done|done]. Qed.
Lemma emits_ncn {A} P h ncn (f : Pubkey -> Client W A) :
  h_ncn h = Some ncn -> emits P (f ncn) -> emits P (pure_of (ncn_of h) ≫= f).
Proof.
  intros Hn Hf. eapply (does_bind _ (fun n => n = ncn)); [|by intros ? ->]. apply does_pure.
  unfold ncn_of. rewrite Hn. by intros ? [= <-].
Qed.
Lemma emits_weaken {A} (P P' : Request -> Prop) (m : Client W A) : emits P m -> (forall r, P r -> P' r) -> emits P' m.
Proof. intros. by eapply does_weaken. Qed.

(* ------------------------------------------------------------------ *)
(** * Equations *)

Lemma client_outcome {A B} (m : Client W A) (f : A -> Client W B) w :
  outcome ((m ≫= f) w) = match outcome (m w) with Ok a => outcome (f a (world (m w))) | Err e => Err e end.
Proof. unfold mbind, client_bind. by destruct (outcome (m w)). Qed.

Lemma logged_requests {A} (m : Client W A) w : requests (logged m w) = requests (m w).
Proof. unfold logged, mbind, client_bind, tried. destruct (outcome (m w)) as [a|[]]; cbn; by rewrite ?app_nil_r. Qed.

Lemma halt_Ok {A} (r : result KeeperError A) a : halt r = Ok a -> r = Ok a.
Proof. destruct r as [b|[]]; try done. by intros [= ->]. Qed.

Lemma halt_failed {A} (r : result KeeperError A) : halt r = Err HFailed -> r = Err Failed.
Proof. by destruct r as [b|[]]. Qed.

(** A run that gets through a sequence gets through its parts. *)
Lemma client_bind_Ok {A B} (m : Client W A) (f : A -> Client W B) w b : outcome ((m ≫= f) w) = Ok b ->
  exists a, outcome (m w) = Ok a /\ outcome (f a (world (m w))) = Ok b /\
    requests ((m ≫= f) w) = requests (m w) ++ requests (f a (world (m w))).
Proof. unfold mbind, client_bind. destruct (outcome (m w)) as [a|e]; [|done]. intros Hb. by exists a. Qed.

Lemma client_tried_Ok {A} (m : Client W A) w o : outcome (tried m w) = Ok o ->
  requests (tried m w) = requests (m w) /\ outcome (m w) = match o with Some a => Ok a | None => Err HFailed end.
Proof. unfold tried. destruct (outcome (m w)) as [a|[]]; try done; by intros [= <-]. Qed.

Lemma client_ask {A} (read : Node -> result KeeperError A) w :
  requests (ask read w) = [] /\ exists nd, outcome (ask read w) = halt (read nd).
Proof. unfold ask. destruct (rpc_node w) as [nd w']. split; [done|]. by exists nd. Qed.

Lemma client_pure_Ok {A} (r : result KeeperError A) w a : outcome (pure_of r w) = Ok a -> requests (pure_of r w) = [] /\ r = Ok a.
Proof. destruct r as [b|[]]; try done. by intros [= ->]. Qed.

Lemma client_assoc {A B C} (m : Client W A) (f : A -> Client W B) (g : B -> Client W C) w :
  ((m ≫= f) ≫= g) w = (m ≫= fun a => f a ≫= g) w.
Proof.
  unfold mbind, client_bind. destruct (outcome (m w)) as [a|e]; [|done]. cbn [outcome requests world].
  destruct (outcome (f a _)); cbn [outcome requests world]; [by rewrite app_assoc|done].
Qed.

Lemma client_bind_ext {A B} (m : Client W A) (f g : A -> Client W B) w :
  (forall a v, f a v = g a v) -> (m ≫= f) w = (m ≫= g) w.
Proof. intros Hfg. unfold mbind, client_bind. destruct (outcome (m w)) as [a|e]; [by rewrite Hfg|done]. Qed.

Lemma client_left_id {A B} (a : A) (f : A -> Client W B) w : (mret a ≫= f) w = f a w.
Proof. unfold mbind, client_bind, mret, client_ret. cbn. by destruct (f a w). Qed.

Lemma client_pure {A B} (r : result KeeperError A) a (f : A -> Client W B) w : r = Ok a -> (pure_of r ≫= f) w = f a w.
Proof. intros ->. apply client_left_id. Qed.

(* ------------------------------------------------------------------ *)
(** * Retries *)

(** What was tried: the priced transaction failed a number of times, and the last
    attempt, priced or plain, decides; or there was no blockhash for it. *)
Lemma send_attempts_spec payer signers priced plain n w tried r w' :
  send_attempts payer signers priced plain n w = (tried, r, w') ->
  let tx := mkTransaction payer (payer :: signers) priced in
  exists k, (k <= n)%nat /\
    ((tried = replicate k (tx, false) /\ r = Err HFailed) \/
     (tried = replicate k (tx, false) ++ [(tx, true)] /\ (k < n)%nat /\ r = Ok tt) \/
     (exists ok : bool, tried = replicate k (tx, false) ++ [(mkTransaction payer (payer :: signers) plain, ok)] /\ k = n /\
        r = if ok then Ok tt else Err HFailed)).
Proof.
  revert w tried r w'. induction n as [|n IH]; intros w tried r w'; cbn [send_attempts];
    destruct (rpc_blockhash w) as [[] w1]; cbn [negb].
  - destruct (rpc_process w1 _) as [ok w2]. intros [= <- <- <-]. exists 0%nat. split; [lia|]. right; right. by exists ok.
  - intros [= <- <- <-]. exists 0%nat. split; [lia|]. by left.
  - destruct (rpc_process w1 _) as [[] w2].
    + intros [= <- <- <-]. exists 0%nat. split; [lia|]. right; left. split; [done|]. split; [lia|done].
    + destruct (send_attempts _ _ _ _ n w2) as [[tried' r'] w3] eqn:E. intros [= <- <- <-].
      destruct (IH _ _ _ _ E) as (k & Hk & Hcases). exists (S k). split; [lia|].
      destruct Hcases as [[-> ->]|[(-> & Hlt & ->)|(ok & -> & -> & ->)]]; [by left|right; left|right; right].
      * split; [done|]. split; [lia|done].
      * by exists ok.
  - intros [= <- <- <-]. exists 0%nat. split; [lia|]. by left.
Qed.
End client.

(** One step of showing what a program emits; requests are left as goals. *)
Ltac emit_step :=
  lazymatch goal with
  | |- emits _ (mret _) => apply emits_ret
  | |- emits _ (stop _) => apply emits_stop
  | |- emits _ (pure_of _) => apply emits_pure
  | |- emits _ (ask _) => apply emits_ask
  | |- emits _ (fetch_update_ix _ _) => apply emits_update
  | |- emits _ (tried _) => apply emits_tried
  | |- emits _ (logged _) => apply emits_logged
  | |- emits _ (for_each _ _) => apply emits_for_each; intros ? _
  | |- emits _ (send_and_log_transaction _ _ _) => apply emits_send; intros ?
  | H : h_ncn ?h = Some _ |- emits _ (pure_of (ncn_of ?h) ≫= _) => apply (emits_ncn _ _ _ _ H)
  | |- emits _ (_ ≫= _) => apply emits_bind; [|intros ?]
  | |- emits _ (match ?x with _ => _ end) => destruct x
  end; cbv zeta beta.

Create HintDb client discriminated.
#[export] Hint Resolve emits_ret emits_pure emits_ask emits_stop emits_update : client.
