(* ===== verification/Instructions.v ===== *)
(** The instructions the command line tool sends (cli/src/instructions.rs): one
    Definition for each function that builds instructions of the tip router's
    admins, the creation of accounts, votes, routing, distribution and closing.
    Each sends its request with [send_and_log_transaction]; the titles and items
    logged with it are left out. *)

From Stdlib Require Import String.
From S2P Require Import Prelude Errors External Constants Accounts FeeGroups Fees Config StakeWeight VaultRegistry WeightTable EpochSnapshot EpochState BallotBox BaseRewardRouter NcnRewardRouter SetupHandlers Getters Rpc.

(** [(SIZE as f64 / MAX_REALLOC_BYTES as f64).ceil() as u64 - 1] *)
Definition num_reallocs (size : Z) : nat := Z.to_nat ((size + MAX_REALLOC_BYTES - 1) / MAX_REALLOC_BYTES - 1).

(** The compute budget, then the reallocation as often as needed. *)
Definition realloc_ixs (size : Z) (ix : Instruction) : list Instruction :=
  mkIx (SetComputeUnitLimit 1400000) [] :: replicate (num_reallocs size) ix.

Section instructions.
Context {W : Type} `{Solana} `{KeeperAccounts} `{Clients} `{Rpc W}.
Implicit Types (h : CliHandler).

(* ------------------------------------------------------------------ *)
(** * Admin *)

Definition admin_create_config h (epochs_before_stall valid_slots_after_consensus epochs_after_consensus_before_close
    dao_fee_bps block_engine_fee default_ncn_fee_bps : Z) (fee_wallet tie_breaker_admin : option Pubkey) : Client W unit :=
  keypair ← pure_of (keypair h);
  ncn ← pure_of (ncn_of h);
  let config := (Config.find_program_address (h_tip_router_program_id h) ncn).1.1 in
  let account_payer := (AccountPayer.find_program_address (h_tip_router_program_id h) ncn).1.1 in
  let fee_wallet := default keypair fee_wallet in
  let tie_breaker_admin := default keypair tie_breaker_admin in
  let initialize_config_ix :=
    mkIx (InitializeConfig epochs_before_stall valid_slots_after_consensus epochs_after_consensus_before_close
            dao_fee_bps block_engine_fee default_ncn_fee_bps)
      [(Role.config, config); (Role.ncn_admin, keypair); (Role.ncn, ncn); (Role.account_payer, account_payer);
       (Role.tie_breaker_admin, keypair); (Role.fee_wallet, fee_wallet); (Role.system_program, system_program_id)] in
  program ← ask (fun nd => account ← get_account nd (h_tip_router_program_id h); ok_or account Failed);
  send_and_log_transaction h [initialize_config_ix] [].

Definition admin_register_st_mint h (vault : Pubkey) (ncn_fee_group : NcnFeeGroup) (reward_multiplier_bps : Z)
    (switchboard_feed : option Pubkey) (no_feed_weight : option Z) : Client W unit :=
  keypair ← pure_of (keypair h);
  ncn ← pure_of (ncn_of h);
  let config := (Config.find_program_address (h_tip_router_program_id h) ncn).1.1 in
  let vault_registry := (VaultRegistry.find_program_address (h_tip_router_program_id h) ncn).1.1 in
  vault_account ← ask (fun nd => get_vault nd vault);
  let register_st_mint_ix :=
    mkIx (AdminRegisterStMint (NcnFeeGroup.group ncn_fee_group) reward_multiplier_bps switchboard_feed no_feed_weight)
      [(Role.config, config); (Role.admin, keypair); (Role.vault_registry, vault_registry); (Role.ncn, ncn);
       (Role.st_mint, supported_mint vault_account)] in
  send_and_log_transaction h [register_st_mint_ix] [].

Definition admin_set_weight_with_st_mint h (st_mint : Pubkey) (epoch weight : Z) : Client W unit :=
  keypair ← pure_of (keypair h);
  ncn ← pure_of (ncn_of h);
  let weight_table := (WeightTable.find_program_address (h_tip_router_program_id h) ncn epoch).1.1 in
  let epoch_state := (EpochState.find_program_address (h_tip_router_program_id h) ncn epoch).1.1 in
  let admin_set_weight_ix :=
    mkIx (AdminSetWeight st_mint weight epoch)
      [(Role.ncn, ncn); (Role.weight_table, weight_table); (Role.epoch_state, epoch_state);
       (Role.weight_table_admin, keypair)] in
  send_and_log_transaction h [admin_set_weight_ix] [].

Definition admin_set_weight h (vault : Pubkey) (epoch weight : Z) : Client W unit :=
  vault_account ← ask (fun nd => get_vault nd vault);
  admin_set_weight_with_st_mint h (supported_mint vault_account) epoch weight.

Definition admin_set_tie_breaker h (epoch : Z) (meta_merkle_root : hash) : Client W unit :=
  keypair ← pure_of (keypair h);
  ncn ← pure_of (ncn_of h);
  let epoch_state := (EpochState.find_program_address (h_tip_router_program_id h) ncn epoch).1.1 in
  let ncn_config := (Config.find_program_address (h_tip_router_program_id h) ncn).1.1 in
  let ballot_box := (BallotBox.find_program_address (h_tip_router_program_id h) ncn epoch).1.1 in
  let set_tie_breaker_ix :=
    mkIx (AdminSetTieBreaker meta_merkle_root epoch)
      [(Role.epoch_state, epoch_state); (Role.config, ncn_config); (Role.ballot_box, ballot_box); (Role.ncn, ncn);
       (Role.tie_breaker_admin, keypair)] in
  send_and_log_transaction h [set_tie_breaker_ix] [].

Definition admin_set_new_admin h (new_admin : Pubkey) (set_fee_admin set_tie_breaker_admin : bool) : Client W unit :=
  keypair ← pure_of (keypair h);
  ncn ← pure_of (ncn_of h);
  let config_pda := (Config.find_program_address (h_tip_router_program_id h) ncn).1.1 in
  for_each (fun r : bool * ConfigAdminRole =>
      let '(should_set, role) := r in
      if negb should_set then mret tt else
      send_and_log_transaction h
        [mkIx (AdminSetNewAdmin role)
           [(Role.config, config_pda); (Role.ncn, ncn); (Role.ncn_admin, keypair); (Role.new_admin, new_admin)]] [])
    [(set_fee_admin, FeeAdmin); (set_tie_breaker_admin, TieBreakerAdmin)].

Definition admin_set_parameters h (epochs_before_stall epochs_after_consensus_before_close valid_slots_after_consensus
    starting_valid_epoch : option Z) : Client W unit :=
  keypair ← pure_of (keypair h);
  ncn ← pure_of (ncn_of h);
  let config_pda := (Config.find_program_address (h_tip_router_program_id h) ncn).1.1 in
  send_and_log_transaction h
    [mkIx (AdminSetParameters epochs_before_stall epochs_after_consensus_before_close valid_slots_after_consensus
             starting_valid_epoch)
       [(Role.config, config_pda); (Role.ncn, ncn); (Role.ncn_admin, keypair)]] [].

(** [lamports] is [sol_to_lamports(amount)]. *)
Definition admin_fund_account_payer h (lamports : Z) : Client W unit :=
  keypair ← pure_of (keypair h);
  ncn ← pure_of (ncn_of h);
  let account_payer := (AccountPayer.find_program_address (h_tip_router_program_id h) ncn).1.1 in
  send_and_log_transaction h [mkIx (Transfer lamports) [(Role.from, keypair); (Role.to, account_payer)]] [].

Definition admin_set_config_fees h (new_block_engine_fee_bps base_fee_group : option Z) (new_base_fee_wallet : option string)
    (new_base_fee_bps ncn_fee_group new_ncn_fee_bps : option Z) : Client W unit :=
  keypair ← pure_of (keypair h);
  ncn ← pure_of (ncn_of h);
  let config_pda := (Config.find_program_address (h_tip_router_program_id h) ncn).1.1 in
  new_base_fee_wallet ← pure_of (match new_base_fee_wallet with
                                 | None => Ok None
                                 | Some wallet => wallet ← ok_or (pubkey_from_str wallet) Failed; Ok (Some wallet)
                                 end);
  send_and_log_transaction h
    [mkIx (AdminSetConfigFees new_block_engine_fee_bps base_fee_group new_base_fee_wallet new_base_fee_bps ncn_fee_group
             new_ncn_fee_bps)
       [(Role.config, config_pda); (Role.ncn, ncn); (Role.ncn_admin, keypair)]] [].

(* ------------------------------------------------------------------ *)
(** * The registry and the accounts of an epoch *)

(** Sends the initialisation when the account is not there yet. *)
Definition initialize_if_missing h (address : Pubkey) (initialize_ix : Instruction) : Client W unit :=
  account ← ask (fun nd => get_account nd address);
  match account with
  | None => send_and_log_transaction h [initialize_ix] []
  | Some _ => mret tt
  end.

Definition create_vault_registry h : Client W unit :=
  ncn ← pure_of (ncn_of h);
  let config := (Config.find_program_address (h_tip_router_program_id h) ncn).1.1 in
  let vault_registry := (VaultRegistry.find_program_address (h_tip_router_program_id h) ncn).1.1 in
  let account_payer := (AccountPayer.find_program_address (h_tip_router_program_id h) ncn).1.1 in
  _ ← initialize_if_missing h vault_registry
    (mkIx InitializeVaultRegistry
       [(Role.config, config); (Role.account_payer, account_payer); (Role.ncn, ncn); (Role.vault_registry, vault_registry);
        (Role.system_program, system_program_id)]);
  send_and_log_transaction h
    (realloc_ixs VaultRegistry.SIZE
       (mkIx ReallocVaultRegistry
          [(Role.config, config); (Role.vault_registry, vault_registry); (Role.ncn, ncn);
           (Role.account_payer, account_payer); (Role.system_program, system_program_id)])) [].

Definition register_vault h (vault : Pubkey) : Client W unit :=
  ncn ← pure_of (ncn_of h);
  let tip_router_config := (Config.find_program_address (h_tip_router_program_id h) ncn).1.1 in
  let vault_registry := (VaultRegistry.find_program_address (h_tip_router_program_id h) ncn).1.1 in
  let ncn_vault_ticket := ncn_vault_ticket_address (h_restaking_program_id h) ncn vault in
  send_and_log_transaction h
    [mkIx RegisterVault
       [(Role.config, tip_router_config); (Role.vault_registry, vault_registry); (Role.vault, vault); (Role.ncn, ncn);
        (Role.ncn_vault_ticket, ncn_vault_ticket)]] [].

Definition create_epoch_state h (epoch : Z) : Client W unit :=
  ncn ← pure_of (ncn_of h);
  let config := (Config.find_program_address (h_tip_router_program_id h) ncn).1.1 in
  let epoch_state := (EpochState.find_program_address (h_tip_router_program_id h) ncn epoch).1.1 in
  let account_payer := (AccountPayer.find_program_address (h_tip_router_program_id h) ncn).1.1 in
  let epoch_marker := (EpochMarker.find_program_address tip_router_id ncn epoch).1.1 in
  _ ← initialize_if_missing h epoch_state
    (mkIx (InitializeEpochState epoch)
       [(Role.epoch_marker, epoch_marker); (Role.config, config); (Role.epoch_state, epoch_state); (Role.ncn, ncn);
        (Role.account_payer, account_payer); (Role.system_program, system_program_id)]);
  send_and_log_transaction h
    (realloc_ixs EpochState.SIZE
       (mkIx (ReallocEpochState epoch)
          [(Role.config, config); (Role.epoch_state, epoch_state); (Role.ncn, ncn); (Role.account_payer, account_payer);
           (Role.system_program, system_program_id)])) [].

Definition create_weight_table h (epoch : Z) : Client W unit :=
  ncn ← pure_of (ncn_of h);
  let config := (Config.find_program_address (h_tip_router_program_id h) ncn).1.1 in
  let vault_registry := (VaultRegistry.find_program_address (h_tip_router_program_id h) ncn).1.1 in
  let weight_table := (WeightTable.find_program_address (h_tip_router_program_id h) ncn epoch).1.1 in
  let epoch_state := (EpochState.find_program_address (h_tip_router_program_id h) ncn epoch).1.1 in
  let account_payer := (AccountPayer.find_program_address (h_tip_router_program_id h) ncn).1.1 in
  let epoch_marker := (EpochMarker.find_program_address tip_router_id ncn epoch).1.1 in
  _ ← initialize_if_missing h weight_table
    (mkIx (InitializeWeightTable epoch)
       [(Role.epoch_marker, epoch_marker); (Role.vault_registry, vault_registry); (Role.ncn, ncn);
        (Role.epoch_state, epoch_state); (Role.weight_table, weight_table); (Role.account_payer, account_payer);
        (Role.system_program, system_program_id)]);
  send_and_log_transaction h
    (realloc_ixs WeightTable.SIZE
       (mkIx (ReallocWeightTable epoch)
          [(Role.config, config); (Role.weight_table, weight_table); (Role.ncn, ncn); (Role.epoch_state, epoch_state);
           (Role.vault_registry, vault_registry); (Role.account_payer, account_payer);
           (Role.system_program, system_program_id)])) [].

(** The loop waits for a slot of the epoch, [fuel] times at most. *)
Fixpoint wait_for_x_slots_after_epoch (fuel : nat) (slots : Z) : Client W unit :=
  match fuel with
  | O => stop HFuel
  | S fuel =>
      current_slot ← ask get_current_slot;
      if slots <? current_slot mod 432000 then mret tt else wait_for_x_slots_after_epoch fuel slots
  end.

Definition crank_switchboard (fuel : nat) h (switchboard_feed : Pubkey) : Client W unit :=
  payer ← pure_of (keypair h);
  if bool_decide (switchboard_feed = Pubkey_default) then mret tt else
  _ ← wait_for_x_slots_after_epoch fuel 400;
  ix ← fetch_update_ix switchboard_feed payer;
  send_and_log_transaction h [mkIx (SetComputeUnitLimit 1400000) []; ix] [].

Definition set_weight_with_st_mint (fuel : nat) h (st_mint : Pubkey) (epoch : Z) : Client W unit :=
  ncn ← pure_of (ncn_of h);
  vault_registry ← ask (get_vault_registry h);
  mint_entry ← pure_of (lift (VaultRegistry.get_mint_entry vault_registry st_mint));
  let switchboard_feed := sm_switchboard_feed mint_entry in
  let epoch_state := (EpochState.find_program_address (h_tip_router_program_id h) ncn epoch).1.1 in
  let weight_table := (WeightTable.find_program_address (h_tip_router_program_id h) ncn epoch).1.1 in
  _ ← logged (crank_switchboard fuel h switchboard_feed);
  send_and_log_transaction h
    [mkIx (SwitchboardSetWeight st_mint epoch)
       [(Role.ncn, ncn); (Role.weight_table, weight_table); (Role.epoch_state, epoch_state);
        (Role.switchboard_feed, switchboard_feed)]] [].

Definition set_weight (fuel : nat) h (vault : Pubkey) (epoch : Z) : Client W unit :=
  vault_account ← ask (fun nd => get_vault nd vault);
  set_weight_with_st_mint fuel h (supported_mint vault_account) epoch.

Definition create_epoch_snapshot h (epoch : Z) : Client W unit :=
  ncn ← pure_of (ncn_of h);
  let config := (Config.find_program_address (h_tip_router_program_id h) ncn).1.1 in
  let epoch_state := (EpochState.find_program_address (h_tip_router_program_id h) ncn epoch).1.1 in
  let weight_table := (WeightTable.find_program_address (h_tip_router_program_id h) ncn epoch).1.1 in
  let epoch_snapshot := (EpochSnapshot.find_program_address (h_tip_router_program_id h) ncn epoch).1.1 in
  let account_payer := (AccountPayer.find_program_address (h_tip_router_program_id h) ncn).1.1 in
  let epoch_marker := (EpochMarker.find_program_address tip_router_id ncn epoch).1.1 in
  send_and_log_transaction h
    [mkIx (InitializeEpochSnapshot epoch)
       [(Role.epoch_marker, epoch_marker); (Role.config, config); (Role.ncn, ncn); (Role.epoch_state, epoch_state);
        (Role.weight_table, weight_table); (Role.epoch_snapshot, epoch_snapshot); (Role.account_payer, account_payer);
        (Role.system_program, system_program_id)]] [].

Definition create_operator_snapshot h (operator : Pubkey) (epoch : Z) : Client W unit :=
  ncn ← pure_of (ncn_of h);
  let config := (Config.find_program_address (h_tip_router_program_id h) ncn).1.1 in
  let epoch_state := (EpochState.find_program_address (h_tip_router_program_id h) ncn epoch).1.1 in
  let ncn_operator_state := ncn_operator_state_address (h_restaking_program_id h) ncn operator in
  let epoch_snapshot := (EpochSnapshot.find_program_address (h_tip_router_program_id h) ncn epoch).1.1 in
  let operator_snapshot := (OperatorSnapshot.find_program_address (h_tip_router_program_id h) operator ncn epoch).1.1 in
  let account_payer := (AccountPayer.find_program_address (h_tip_router_program_id h) ncn).1.1 in
  let epoch_marker := (EpochMarker.find_program_address tip_router_id ncn epoch).1.1 in
  _ ← initialize_if_missing h operator_snapshot
    (mkIx (InitializeOperatorSnapshot epoch)
       [(Role.epoch_marker, epoch_marker); (Role.config, config); (Role.ncn, ncn); (Role.operator, operator);
        (Role.epoch_state, epoch_state); (Role.ncn_operator_state, ncn_operator_state);
        (Role.epoch_snapshot, epoch_snapshot); (Role.operator_snapshot, operator_snapshot);
        (Role.account_payer, account_payer); (Role.system_program, system_program_id)]);
  send_and_log_transaction h
    (realloc_ixs OperatorSnapshot_SIZE
       (mkIx (ReallocOperatorSnapshot epoch)
          [(Role.config, config); (Role.restaking_config, restaking_config_address (h_restaking_program_id h)); (Role.ncn, ncn);
           (Role.operator, operator); (Role.epoch_state, epoch_state); (Role.ncn_operator_state, ncn_operator_state);
           (Role.epoch_snapshot, epoch_snapshot); (Role.operator_snapshot, operator_snapshot);
           (Role.account_payer, account_payer); (Role.system_program, system_program_id)])) [].

Definition snapshot_vault_operator_delegation h (vault operator : Pubkey) (epoch : Z) : Client W unit :=
  ncn ← pure_of (ncn_of h);
  let config := (Config.find_program_address (h_tip_router_program_id h) ncn).1.1 in
  let epoch_state := (EpochState.find_program_address (h_tip_router_program_id h) ncn epoch).1.1 in
  let restaking_config := restaking_config_address (h_restaking_program_id h) in
  let vault_ncn_ticket := vault_ncn_ticket_address (h_vault_program_id h) vault ncn in
  let ncn_vault_ticket := ncn_vault_ticket_address (h_restaking_program_id h) ncn vault in
  let vault_operator_delegation := vault_operator_delegation_address (h_vault_program_id h) vault operator in
  let weight_table := (WeightTable.find_program_address (h_tip_router_program_id h) ncn epoch).1.1 in
  let epoch_snapshot := (EpochSnapshot.find_program_address (h_tip_router_program_id h) ncn epoch).1.1 in
  let operator_snapshot := (OperatorSnapshot.find_program_address (h_tip_router_program_id h) operator ncn epoch).1.1 in
  send_and_log_transaction h
    [mkIx (SnapshotVaultOperatorDelegation epoch)
       [(Role.config, config); (Role.epoch_state, epoch_state); (Role.restaking_config, restaking_config); (Role.ncn, ncn);
        (Role.operator, operator); (Role.vault, vault); (Role.vault_ncn_ticket, vault_ncn_ticket);
        (Role.ncn_vault_ticket, ncn_vault_ticket); (Role.vault_operator_delegation, vault_operator_delegation);
        (Role.weight_table, weight_table); (Role.epoch_snapshot, epoch_snapshot);
        (Role.operator_snapshot, operator_snapshot)]] [].

Definition create_ballot_box h (epoch : Z) : Client W unit :=
  ncn ← pure_of (ncn_of h);
  let config := (Config.find_program_address (h_tip_router_program_id h) ncn).1.1 in
  let epoch_state := (EpochState.find_program_address (h_tip_router_program_id h) ncn epoch).1.1 in
  let ballot_box := (BallotBox.find_program_address (h_tip_router_program_id h) ncn epoch).1.1 in
  let account_payer := (AccountPayer.find_program_address (h_tip_router_program_id h) ncn).1.1 in
  let epoch_marker := (EpochMarker.find_program_address tip_router_id ncn epoch).1.1 in
  _ ← initialize_if_missing h ballot_box
    (mkIx (InitializeBallotBox epoch)
       [(Role.epoch_marker, epoch_marker); (Role.config, config); (Role.epoch_state, epoch_state);
        (Role.ballot_box, ballot_box); (Role.ncn, ncn); (Role.account_payer, account_payer);
        (Role.system_program, system_program_id)]);
  send_and_log_transaction h
    (realloc_ixs BallotBox.SIZE
       (mkIx (ReallocBallotBox epoch)
          [(Role.config, config); (Role.epoch_state, epoch_state); (Role.ballot_box, ballot_box); (Role.ncn, ncn);
           (Role.account_payer, account_payer); (Role.system_program, system_program_id)])) [].

Definition operator_cast_vote h (operator : Pubkey) (epoch : Z) (meta_merkle_root : hash) : Client W unit :=
  keypair ← pure_of (keypair h);
  ncn ← pure_of (ncn_of h);
  let config := (Config.find_program_address (h_tip_router_program_id h) ncn).1.1 in
  let epoch_state := (EpochState.find_program_address (h_tip_router_program_id h) ncn epoch).1.1 in
  let ballot_box := (BallotBox.find_program_address (h_tip_router_program_id h) ncn epoch).1.1 in
  let epoch_snapshot := (EpochSnapshot.find_program_address (h_tip_router_program_id h) ncn epoch).1.1 in
  let operator_snapshot := (OperatorSnapshot.find_program_address (h_tip_router_program_id h) operator ncn epoch).1.1 in
  send_and_log_transaction h
    [mkIx (CastVote meta_merkle_root epoch)
       [(Role.config, config); (Role.epoch_state, epoch_state); (Role.ballot_box, ballot_box); (Role.ncn, ncn);
        (Role.epoch_snapshot, epoch_snapshot); (Role.operator_snapshot, operator_snapshot); (Role.operator, operator);
        (Role.operator_voter, keypair)]] [].

Definition create_base_reward_router h (epoch : Z) : Client W unit :=
  ncn ← pure_of (ncn_of h);
  let epoch_state := (EpochState.find_program_address (h_tip_router_program_id h) ncn epoch).1.1 in
  let base_reward_router := (BaseRewardRouter.find_program_address (h_tip_router_program_id h) ncn epoch).1.1 in
  let base_reward_receiver := (BaseRewardReceiver.find_program_address (h_tip_router_program_id h) ncn epoch).1.1 in
  let account_payer := (AccountPayer.find_program_address (h_tip_router_program_id h) ncn).1.1 in
  let epoch_marker := (EpochMarker.find_program_address tip_router_id ncn epoch).1.1 in
  _ ← initialize_if_missing h base_reward_router
    (mkIx (InitializeBaseRewardRouter epoch)
       [(Role.epoch_marker, epoch_marker); (Role.ncn, ncn); (Role.epoch_state, epoch_state);
        (Role.base_reward_router, base_reward_router); (Role.base_reward_receiver, base_reward_receiver);
        (Role.account_payer, account_payer); (Role.system_program, system_program_id)]);
  send_and_log_transaction h
    (realloc_ixs BaseRewardRouter.SIZE
       (mkIx (ReallocBaseRewardRouter epoch)
          [(Role.config, (Config.find_program_address (h_tip_router_program_id h) ncn).1.1); (Role.epoch_state, epoch_state);
           (Role.base_reward_router, base_reward_router); (Role.ncn, ncn); (Role.account_payer, account_payer);
           (Role.system_program, system_program_id)])) [].

Definition create_ncn_reward_router h (ncn_fee_group : NcnFeeGroup) (operator : Pubkey) (epoch : Z) : Client W unit :=
  ncn ← pure_of (ncn_of h);
  let epoch_state := (EpochState.find_program_address (h_tip_router_program_id h) ncn epoch).1.1 in
  let operator_snapshot := (OperatorSnapshot.find_program_address (h_tip_router_program_id h) operator ncn epoch).1.1 in
  let ncn_reward_router :=
    (NcnRewardRouter.find_program_address (h_tip_router_program_id h) ncn_fee_group operator ncn epoch).1.1 in
  let ncn_reward_receiver :=
    (NcnRewardReceiver.find_program_address (h_tip_router_program_id h) ncn_fee_group operator ncn epoch).1.1 in
  let account_payer := (AccountPayer.find_program_address (h_tip_router_program_id h) ncn).1.1 in
  let epoch_marker := (EpochMarker.find_program_address tip_router_id ncn epoch).1.1 in
  send_and_log_transaction h
    [mkIx (InitializeNcnRewardRouter (NcnFeeGroup.group ncn_fee_group) epoch)
       [(Role.epoch_marker, epoch_marker); (Role.epoch_state, epoch_state); (Role.ncn, ncn); (Role.operator, operator);
        (Role.operator_snapshot, operator_snapshot); (Role.ncn_reward_router, ncn_reward_router);
        (Role.ncn_reward_receiver, ncn_reward_receiver); (Role.account_payer, account_payer);
        (Role.system_program, system_program_id)]] [].

(* ------------------------------------------------------------------ *)
(** * Routing *)

(** The loop sends until the router, read after each call, is at rest: [fuel]
    times at most. *)
Fixpoint route_until (fuel : nat) h (instructions : list Instruction) (still_routing : Node -> result KeeperError bool)
    : Client W unit :=
  match fuel with
  | O => stop HFuel
  | S fuel =>
      _ ← send_and_log_transaction h instructions [];
      still ← ask still_routing;
      if still : bool then route_until fuel h instructions still_routing else mret tt
  end.

Definition route_base_rewards (fuel : nat) h (epoch : Z) : Client W unit :=
  ncn ← pure_of (ncn_of h);
  let epoch_state := (EpochState.find_program_address (h_tip_router_program_id h) ncn epoch).1.1 in
  let config := (Config.find_program_address tip_router_id ncn).1.1 in
  let epoch_snapshot := (EpochSnapshot.find_program_address (h_tip_router_program_id h) ncn epoch).1.1 in
  let ballot_box := (BallotBox.find_program_address (h_tip_router_program_id h) ncn epoch).1.1 in
  let base_reward_router := (BaseRewardRouter.find_program_address (h_tip_router_program_id h) ncn epoch).1.1 in
  let base_reward_receiver := (BaseRewardReceiver.find_program_address (h_tip_router_program_id h) ncn epoch).1.1 in
  let max_iterations := BaseRewardRouter.MAX_ROUTE_BASE_ITERATIONS in
  let route_base_rewards_ix :=
    mkIx (RouteBaseRewards max_iterations epoch)
      [(Role.epoch_state, epoch_state); (Role.config, config); (Role.ncn, ncn); (Role.epoch_snapshot, epoch_snapshot);
       (Role.ballot_box, ballot_box); (Role.base_reward_router, base_reward_router);
       (Role.base_reward_receiver, base_reward_receiver)] in
  route_until fuel h [mkIx (SetComputeUnitLimit 1400000) []; route_base_rewards_ix]
    (fun nd => router ← get_base_reward_router h nd epoch; mret (BaseRewardRouter.still_routing router)).

Definition route_ncn_rewards (fuel : nat) h (operator : Pubkey) (ncn_fee_group : NcnFeeGroup) (epoch : Z) : Client W unit :=
  ncn ← pure_of (ncn_of h);
  let epoch_state := (EpochState.find_program_address (h_tip_router_program_id h) ncn epoch).1.1 in
  let operator_snapshot := (OperatorSnapshot.find_program_address (h_tip_router_program_id h) operator ncn epoch).1.1 in
  let ncn_reward_router :=
    (NcnRewardRouter.find_program_address (h_tip_router_program_id h) ncn_fee_group operator ncn epoch).1.1 in
  let ncn_reward_receiver :=
    (NcnRewardReceiver.find_program_address (h_tip_router_program_id h) ncn_fee_group operator ncn epoch).1.1 in
  let max_iterations := NcnRewardRouter.MAX_ROUTE_NCN_ITERATIONS in
  let route_ncn_rewards_ix :=
    mkIx (RouteNcnRewards (NcnFeeGroup.group ncn_fee_group) max_iterations epoch)
      [(Role.epoch_state, epoch_state); (Role.ncn, ncn); (Role.operator, operator);
       (Role.operator_snapshot, operator_snapshot); (Role.ncn_reward_router, ncn_reward_router);
       (Role.ncn_reward_receiver, ncn_reward_receiver)] in
  route_until fuel h [mkIx (SetComputeUnitLimit 1400000) []; route_ncn_rewards_ix]
    (fun nd => router ← get_ncn_reward_router h nd ncn_fee_group operator epoch; mret (NcnRewardRouter.still_routing router)).

(* ------------------------------------------------------------------ *)
(** * Distribution *)

Definition distribute_base_ncn_rewards h (operator : Pubkey) (ncn_fee_group : NcnFeeGroup) (epoch : Z) : Client W unit :=
  ncn ← pure_of (ncn_of h);
  let epoch_state := (EpochState.find_program_address (h_tip_router_program_id h) ncn epoch).1.1 in
  let ncn_config := (Config.find_program_address (h_tip_router_program_id h) ncn).1.1 in
  let base_reward_router := (BaseRewardRouter.find_program_address (h_tip_router_program_id h) ncn epoch).1.1 in
  let base_reward_receiver := (BaseRewardReceiver.find_program_address (h_tip_router_program_id h) ncn epoch).1.1 in
  let ncn_reward_router :=
    (NcnRewardRouter.find_program_address (h_tip_router_program_id h) ncn_fee_group operator ncn epoch).1.1 in
  let ncn_reward_receiver :=
    (NcnRewardReceiver.find_program_address (h_tip_router_program_id h) ncn_fee_group operator ncn epoch).1.1 in
  send_and_log_transaction h
    [mkIx (DistributeBaseNcnRewardRoute (NcnFeeGroup.group ncn_fee_group) epoch)
       [(Role.epoch_state, epoch_state); (Role.config, ncn_config); (Role.ncn, ncn); (Role.operator, operator);
        (Role.base_reward_router, base_reward_router); (Role.base_reward_receiver, base_reward_receiver);
        (Role.ncn_reward_router, ncn_reward_router); (Role.ncn_reward_receiver, ncn_reward_receiver);
        (Role.system_program, system_program_id)]] [].

(** [create_associated_token_account_idempotent] *)
Definition create_ata_ix (payer wallet mint token_program : Pubkey) : Instruction :=
  mkIx CreateAssociatedTokenAccountIdempotent
    [(Role.payer, payer); (Role.wallet, wallet); (Role.mint, mint); (Role.token_program, token_program)].

(** The accounts of a stake pool deposit. *)
Definition stake_pool_roles (s : StakePoolAccounts) : list (Role * Pubkey) :=
  [(Role.pool_mint, pool_mint (stake_pool s)); (Role.manager_fee_account, manager_fee_account (stake_pool s));
   (Role.referrer_pool_tokens_account, referrer_pool_tokens_account s); (Role.reserve_stake, reserve_stake (stake_pool s));
   (Role.stake_pool, stake_pool_address s); (Role.stake_pool_withdraw_authority, stake_pool_withdraw_authority s);
   (Role.stake_pool_program, stake_pool_program_id s)].

Definition distribute_base_rewards h (base_fee_group : BaseFeeGroup) (epoch : Z) : Client W unit :=
  keypair ← pure_of (keypair h);
  ncn ← pure_of (ncn_of h);
  let epoch_state := (EpochState.find_program_address (h_tip_router_program_id h) ncn epoch).1.1 in
  let ncn_config := (Config.find_program_address (h_tip_router_program_id h) ncn).1.1 in
  let base_reward_router := (BaseRewardRouter.find_program_address (h_tip_router_program_id h) ncn epoch).1.1 in
  let base_reward_receiver := (BaseRewardReceiver.find_program_address (h_tip_router_program_id h) ncn epoch).1.1 in
  tip_router_config ← ask (get_tip_router_config h);
  base_fee_wallet ← pure_of (lift (FeeConfig.base_fee_wallet (cf_fee_config tip_router_config) base_fee_group));
  stake_pool_accounts ← ask (get_stake_pool_accounts h);
  let mint := pool_mint (stake_pool stake_pool_accounts) in
  send_and_log_transaction h
    [create_ata_ix keypair base_fee_wallet mint (h_token_program_id h);
     mkIx (DistributeBaseRewards (BaseFeeGroup.group base_fee_group) epoch)
       ([(Role.epoch_state, epoch_state); (Role.config, ncn_config); (Role.ncn, ncn);
         (Role.base_reward_router, base_reward_router); (Role.base_reward_receiver, base_reward_receiver);
         (Role.system_program, system_program_id); (Role.base_fee_wallet, base_fee_wallet);
         (Role.base_fee_wallet_ata, get_associated_token_address base_fee_wallet mint);
         (Role.token_program, spl_token_id)] ++ stake_pool_roles stake_pool_accounts)] [].

Definition distribute_ncn_vault_rewards h (vault operator : Pubkey) (ncn_fee_group : NcnFeeGroup) (epoch : Z) : Client W unit :=
  keypair ← pure_of (keypair h);
  ncn ← pure_of (ncn_of h);
  let epoch_state := (EpochState.find_program_address (h_tip_router_program_id h) ncn epoch).1.1 in
  let ncn_config := (Config.find_program_address (h_tip_router_program_id h) ncn).1.1 in
  let ncn_reward_router :=
    (NcnRewardRouter.find_program_address (h_tip_router_program_id h) ncn_fee_group operator ncn epoch).1.1 in
  let ncn_reward_receiver :=
    (NcnRewardReceiver.find_program_address (h_tip_router_program_id h) ncn_fee_group operator ncn epoch).1.1 in
  let operator_snapshot := (OperatorSnapshot.find_program_address (h_tip_router_program_id h) operator ncn epoch).1.1 in
  stake_pool_accounts ← ask (get_stake_pool_accounts h);
  let mint := pool_mint (stake_pool stake_pool_accounts) in
  vault_account ← ask (fun nd => get_vault nd vault);
  let vault_fee_token_account := get_associated_token_address (vault_fee_wallet vault_account) (vrt_mint vault_account) in
  let vault_token_account := get_associated_token_address vault (supported_mint vault_account) in
  let vault_config := vault_config_address (h_vault_program_id h) in
  send_and_log_transaction h
    [mkIx (SetComputeUnitLimit 1400000) [];
     create_ata_ix keypair vault mint (h_token_program_id h);
     mkIx (DistributeNcnVaultRewards (NcnFeeGroup.group ncn_fee_group) epoch)
       ([(Role.epoch_state, epoch_state); (Role.config, ncn_config); (Role.ncn, ncn); (Role.operator, operator);
         (Role.vault, vault); (Role.vault_ata, get_associated_token_address vault mint);
         (Role.operator_snapshot, operator_snapshot); (Role.ncn_reward_router, ncn_reward_router);
         (Role.ncn_reward_receiver, ncn_reward_receiver); (Role.token_program, h_token_program_id h);
         (Role.system_program, system_program_id)] ++ stake_pool_roles stake_pool_accounts);
     mkIx UpdateVaultBalance
       [(Role.config, vault_config); (Role.vault, vault); (Role.token_program, spl_token_id);
        (Role.vault_fee_token_account, vault_fee_token_account); (Role.vault_token_account, vault_token_account);
        (Role.vrt_mint, vrt_mint vault_account)]] [].

Definition distribute_ncn_operator_rewards h (operator : Pubkey) (ncn_fee_group : NcnFeeGroup) (epoch : Z) : Client W unit :=
  keypair ← pure_of (keypair h);
  ncn ← pure_of (ncn_of h);
  let epoch_state := (EpochState.find_program_address (h_tip_router_program_id h) ncn epoch).1.1 in
  let ncn_config := (Config.find_program_address (h_tip_router_program_id h) ncn).1.1 in
  let ncn_reward_router :=
    (NcnRewardRouter.find_program_address (h_tip_router_program_id h) ncn_fee_group operator ncn epoch).1.1 in
  let ncn_reward_receiver :=
    (NcnRewardReceiver.find_program_address (h_tip_router_program_id h) ncn_fee_group operator ncn epoch).1.1 in
  let operator_snapshot := (OperatorSnapshot.find_program_address (h_tip_router_program_id h) operator ncn epoch).1.1 in
  stake_pool_accounts ← ask (get_stake_pool_accounts h);
  let mint := pool_mint (stake_pool stake_pool_accounts) in
  send_and_log_transaction h
    [create_ata_ix keypair operator mint (h_token_program_id h);
     mkIx (DistributeNcnOperatorRewards (NcnFeeGroup.group ncn_fee_group) epoch)
       ([(Role.epoch_state, epoch_state); (Role.config, ncn_config); (Role.ncn, ncn); (Role.operator, operator);
         (Role.operator_ata, get_associated_token_address operator mint); (Role.operator_snapshot, operator_snapshot);
         (Role.ncn_reward_router, ncn_reward_router); (Role.ncn_reward_receiver, ncn_reward_receiver);
         (Role.token_program, h_token_program_id h); (Role.system_program, system_program_id)]
        ++ stake_pool_roles stake_pool_accounts)] [].

(* ------------------------------------------------------------------ *)
(** * Closing *)

(** There is no account, or it has no data or no lamports. *)
Definition already_closed (account : option (Z * list Z)) : bool :=
  match account with
  | None => true
  | Some (lamports, data) => bool_decide (data = []) || (lamports =? 0)
  end.

Definition close_epoch_account h (ncn : Pubkey) (epoch : Z) (account_to_close : Pubkey) (receiver_to_close : option Pubkey)
    : Client W unit :=
  let epoch_marker := (EpochMarker.find_program_address (h_tip_router_program_id h) ncn epoch).1.1 in
  let epoch_state := (EpochState.find_program_address (h_tip_router_program_id h) ncn epoch).1.1 in
  let account_payer := (AccountPayer.find_program_address (h_tip_router_program_id h) ncn).1.1 in
  let config := (Config.find_program_address (h_tip_router_program_id h) ncn).1.1 in
  account ← ask (fun nd => get_account nd account_to_close);
  if already_closed account then mret tt else
  config_account ← ask (get_tip_router_config h);
  dao_wallet ← pure_of (lift (FeeConfig.base_fee_wallet (cf_fee_config config_account) BaseFeeGroup.dao));
  send_and_log_transaction h
    [mkIx (CloseEpochAccount epoch)
       ([(Role.account_payer, account_payer); (Role.epoch_marker, epoch_marker); (Role.config, config);
         (Role.account_to_close, account_to_close); (Role.epoch_state, epoch_state); (Role.ncn, ncn);
         (Role.dao_wallet, dao_wallet); (Role.system_program, system_program_id)]
        ++ match receiver_to_close with Some receiver => [(Role.receiver_to_close, receiver)] | None => [] end)] [].
End instructions.
