(* ===== verification/Cranks.v ===== *)
(** What the keeper does for an epoch in each of its phases (the middleware and
    the cranks of cli/src/instructions.rs, and their choice in
    cli/src/keeper/keeper_loop.rs).  [fuel] bounds the polling loops: the wait for
    a slot and the two routing loops. *)

From Stdlib Require Import String.
From S2P Require Import Prelude Errors External Constants Accounts FeeGroups Fees Config StakeWeight VaultRegistry WeightTable EpochSnapshot EpochState BallotBox BaseRewardRouter NcnRewardRouter SetupHandlers Getters Rpc Instructions.

Section cranks.
Context {W : Type} `{Solana} `{KeeperAccounts} `{Clients} `{Rpc W}.
Context (fuel : nat).
Implicit Types (h : CliHandler).

(* ------------------------------------------------------------------ *)
(** * Middleware *)

Definition CREATE_GET_RETRIES : nat := 3.

(** The reads that are left while the account is missing. *)
Fixpoint read_created (retries : nat) (address : Pubkey) : Client W (option (Z * list Z)) :=
  account ← ask (fun nd => get_account nd address);
  match account, retries with
  | None, S retries => read_created retries address
  | _, _ => mret account
  end.

Definition check_created (address : Pubkey) : Client W unit :=
  account ← read_created CREATE_GET_RETRIES address;
  match account with None => stop HFailed | Some _ => mret tt end.

(** [ncn_epoch % all_operators.len()] and its like panic without operators. *)
Definition starting_index (ncn_epoch last_updated_index operators : Z) : result KeeperError Z :=
  if operators =? 0 then Err KeeperPanic else
  Ok (if last_updated_index =? u64_max then ncn_epoch mod operators else (last_updated_index + 1) mod operators).

(** The operators in the order of the loop: all of them, from [start] on. *)
Definition rotation (start : Z) (operators : list Pubkey) : list (option Pubkey) :=
  map (fun index => operators !! Z.to_nat ((start + Z.of_nat index) mod Z.of_nat (length operators))) (seq 0 (length operators)).

Definition crank_operator h (payer vault vault_config vault_update_state_tracker : Pubkey) (operator : option Pubkey)
    : Client W unit :=
  operator ← pure_of (ok_or operator KeeperPanic);
  let vault_operator_delegation := vault_operator_delegation_address (h_vault_program_id h) vault operator in
  logged (send_and_log_transaction h
    [mkIx CrankVaultUpdateStateTracker
       [(Role.vault, vault); (Role.operator, operator); (Role.config, vault_config);
        (Role.vault_operator_delegation, vault_operator_delegation);
        (Role.vault_update_state_tracker, vault_update_state_tracker)]] [payer]).

(** The update itself, once it is known to be needed. *)
Definition update_vault h (payer vault : Pubkey) (ncn_epoch : Z) : Client W unit :=
  let vault_config := vault_config_address (h_vault_program_id h) in
  let tracker := vault_update_state_tracker_address (h_vault_program_id h) vault ncn_epoch in
  tracker_account ← ask (fun nd => get_account nd tracker);
  _ ← match tracker_account with
      | None =>
          logged (send_and_log_transaction h
            [mkIx InitializeVaultUpdateStateTracker
               [(Role.vault, vault); (Role.vault_update_state_tracker, tracker); (Role.system_program, system_program_id);
                (Role.payer, payer); (Role.config, vault_config)]] [payer])
      | Some _ => mret tt
      end;
  all_operators ← ask (fun nd => get_all_sorted_operators_for_vault h nd vault);
  tracker_state ← ask (fun nd => get_vault_update_state_tracker h nd vault ncn_epoch);
  start ← pure_of (starting_index ncn_epoch (last_updated_index tracker_state) (Z.of_nat (length all_operators)));
  _ ← for_each (crank_operator h payer vault vault_config tracker) (rotation start all_operators);
  tracker_account ← ask (fun nd => get_account nd tracker);
  match tracker_account with
  | Some _ =>
      logged (send_and_log_transaction h
        [mkIx (CloseVaultUpdateStateTracker ncn_epoch)
           [(Role.vault, vault); (Role.vault_update_state_tracker, tracker); (Role.payer, payer); (Role.config, vault_config)]]
        [payer])
  | None => mret tt
  end.

Definition full_vault_update h (vault : Pubkey) : Client W unit :=
  payer ← pure_of (keypair h);
  current_slot ← ask get_current_slot;
  vault_config ← ask (get_vault_config h);
  ncn_epoch ← pure_of (get_epoch_from_slot vault_config current_slot);
  let epoch_length := vault_epoch_length vault_config in
  vault_account ← ask (fun nd => get_vault nd vault);
  current_slot ← ask get_current_slot;
  needed ← pure_of (is_update_needed vault_account current_slot epoch_length);
  if negb needed then mret tt else update_vault h payer vault ncn_epoch.

(** The account is missing, or not as large as it gets. *)
Definition to_create (size : Z) (account : option (Z * list Z)) : bool :=
  match account with None => true | Some (_, data) => Z.of_nat (length data) <? size end.

Definition get_or_create_weight_table h (epoch : Z) : Client W WeightTable :=
  ncn ← pure_of (ncn_of h);
  let weight_table := (WeightTable.find_program_address (h_tip_router_program_id h) ncn epoch).1.1 in
  account ← ask (fun nd => get_account nd weight_table);
  _ ← (if to_create WeightTable.SIZE account
       then _ ← create_weight_table h epoch; check_created weight_table
       else mret tt);
  ask (fun nd => get_weight_table h nd epoch).

Definition get_or_create_epoch_snapshot h (epoch : Z) : Client W EpochSnapshot :=
  ncn ← pure_of (ncn_of h);
  let epoch_snapshot := (EpochSnapshot.find_program_address (h_tip_router_program_id h) ncn epoch).1.1 in
  account ← ask (fun nd => get_account nd epoch_snapshot);
  _ ← (if to_create EpochSnapshot_SIZE account
       then _ ← create_epoch_snapshot h epoch; check_created epoch_snapshot
       else mret tt);
  ask (fun nd => get_epoch_snapshot h nd epoch).

Definition get_or_create_operator_snapshot h (operator : Pubkey) (epoch : Z) : Client W OperatorSnapshot :=
  ncn ← pure_of (ncn_of h);
  let operator_snapshot := (OperatorSnapshot.find_program_address (h_tip_router_program_id h) operator ncn epoch).1.1 in
  account ← ask (fun nd => get_account nd operator_snapshot);
  _ ← (if to_create OperatorSnapshot_SIZE account
       then _ ← create_operator_snapshot h operator epoch; check_created operator_snapshot
       else mret tt);
  ask (fun nd => get_operator_snapshot h nd operator epoch).

Definition get_or_create_ballot_box h (epoch : Z) : Client W BallotBox :=
  ncn ← pure_of (ncn_of h);
  let ballot_box := (BallotBox.find_program_address (h_tip_router_program_id h) ncn epoch).1.1 in
  account ← ask (fun nd => get_account nd ballot_box);
  _ ← (if to_create BallotBox.SIZE account
       then _ ← create_ballot_box h epoch; check_created ballot_box
       else mret tt);
  ask (fun nd => get_ballot_box h nd epoch).

Definition get_or_create_base_reward_router h (epoch : Z) : Client W BaseRewardRouter :=
  ncn ← pure_of (ncn_of h);
  let base_reward_router := (BaseRewardRouter.find_program_address (h_tip_router_program_id h) ncn epoch).1.1 in
  account ← ask (fun nd => get_account nd base_reward_router);
  _ ← (if to_create BaseRewardRouter.SIZE account
       then _ ← create_base_reward_router h epoch; check_created base_reward_router
       else mret tt);
  ask (fun nd => get_base_reward_router h nd epoch).

Definition get_or_create_ncn_reward_router h (ncn_fee_group : NcnFeeGroup) (operator : Pubkey) (epoch : Z)
    : Client W NcnRewardRouter :=
  ncn ← pure_of (ncn_of h);
  let ncn_reward_router :=
    (NcnRewardRouter.find_program_address (h_tip_router_program_id h) ncn_fee_group operator ncn epoch).1.1 in
  account ← ask (fun nd => get_account nd ncn_reward_router);
  _ ← (if to_create NcnRewardRouter.SIZE account
       then _ ← create_ncn_reward_router h ncn_fee_group operator epoch; check_created ncn_reward_router
       else mret tt);
  ask (fun nd => get_ncn_reward_router h nd ncn_fee_group operator epoch).

(* ------------------------------------------------------------------ *)
(** * Set-up cranks *)

Definition crank_register_vaults h : Client W unit :=
  all_ncn_vaults ← ask (get_all_vaults_in_ncn h);
  vault_registry ← ask (get_vault_registry h);
  let all_registered_vaults := ve_vault <$> VaultRegistry.get_valid_vault_entries vault_registry in
  let vaults_to_register := filter (fun vault => vault ∉ all_registered_vaults) all_ncn_vaults in
  for_each (fun vault => logged (register_vault h vault)) vaults_to_register.

Definition crank_set_weight h (epoch : Z) : Client W unit :=
  weight_table ← get_or_create_weight_table h epoch;
  let st_mints := WeightEntry.st_mint <$>
    filter (fun entry => negb (WeightEntry.is_empty entry) && negb (WeightEntry.is_set entry) = true) (wt_table weight_table) in
  for_each (fun st_mint => logged (set_weight_with_st_mint fuel h st_mint epoch)) st_mints.

(** One operator's turn: an operator whose snapshot cannot be had is passed
    over. *)
Definition snapshot_operator h (all_vaults : list Pubkey) (epoch : Z) (operator : Pubkey) : Client W unit :=
  result ← tried (get_or_create_operator_snapshot h operator epoch);
  match result with
  | None => mret tt
  | Some operator_snapshot =>
      for_each (fun vault =>
          _ ← logged (full_vault_update h vault);
          logged (snapshot_vault_operator_delegation h vault operator epoch))
        (filter (fun vault => OperatorSnapshot.contains_vault operator_snapshot vault = false) all_vaults)
  end.

Definition crank_snapshot h (epoch : Z) : Client W unit :=
  vault_registry ← ask (get_vault_registry h);
  operators ← ask (get_all_operators_in_ncn h);
  let all_vaults := ve_vault <$> VaultRegistry.get_valid_vault_entries vault_registry in
  epoch_snapshot ← get_or_create_epoch_snapshot h epoch;
  if EpochSnapshot.finalized epoch_snapshot then mret tt else
  for_each (snapshot_operator h all_vaults epoch) operators.

(* ------------------------------------------------------------------ *)
(** * Voting *)

Definition crank_test_vote h (epoch : Z) : Client W unit :=
  voter ← pure_of (keypair h);
  let meta_merkle_root := replicate 32 8 in
  operators ← ask (get_all_operators_in_ncn h);
  _ ← for_each (fun operator =>
        operator_account ← ask (fun nd => get_operator nd operator);
        if negb (bool_decide (operator_voter operator_account = voter)) then mret tt else
        logged (operator_cast_vote h operator epoch meta_merkle_root)) operators;
  ballot_box ← get_or_create_ballot_box h epoch;
  if negb (BallotBox.is_consensus_reached ballot_box) then mret tt else
  ncn ← pure_of (ncn_of h);
  let address := (BaseRewardReceiver.find_program_address (h_tip_router_program_id h) ncn epoch).1.1 in
  base_reward_receiver ← ask (fun nd => get_account nd address);
  match base_reward_receiver with
  | Some _ => mret tt
  | None =>
      keypair ← pure_of (keypair h);
      send_and_log_transaction h [mkIx (Transfer 100000000) [(Role.from, keypair); (Role.to, address)]] []
  end.

Definition crank_vote h (epoch : Z) (test_vote : bool) : Client W unit :=
  ballot_box ← get_or_create_ballot_box h epoch;
  if BallotBox.is_consensus_reached ballot_box then mret tt else
  if test_vote then crank_test_vote h epoch else mret tt.

(* ------------------------------------------------------------------ *)
(** * Distribution *)

(** The DAO's and the other base groups' shares, as [base_reward_router] had
    them. *)
Definition distribute_base_group h (fees : Fees) (base_reward_router : BaseRewardRouter) (epoch : Z) (group : BaseFeeGroup)
    : Client W unit :=
  fee ← pure_of (lift (Fees.base_fee_bps fees group));
  if fee =? 0 then mret tt else
  rewards ← pure_of (lift (BaseRewardRouter.base_fee_group_reward base_reward_router group));
  if negb (rewards =? 0) then logged (distribute_base_rewards h group epoch) else mret tt.

(** What an NCN router holds goes to the operator, then to the vaults. *)
Definition distribute_ncn_router h (operator : Pubkey) (group : NcnFeeGroup) (epoch : Z) : Client W unit :=
  result ← tried (get_or_create_ncn_reward_router h group operator epoch);
  match result with
  | None => mret tt
  | Some ncn_reward_router =>
      paid ← (if negb (nr_operator_rewards ncn_reward_router =? 0)
              then tried (distribute_ncn_operator_rewards h operator group epoch) else mret (Some tt));
      match paid with
      | None => mret tt
      | Some _ =>
          for_each (fun vault => logged (distribute_ncn_vault_rewards h vault operator group epoch))
            (vr_vault <$> filter (fun route => negb (VaultRewardRoute.is_empty route) && VaultRewardRoute.has_rewards route = true)
               (nr_vault_reward_routes ncn_reward_router))
      end
  end.

(** From the base receiver to the NCN receiver, as [base_reward_router] had it,
    then through the NCN router; each failure ends the turn. *)
Definition distribute_ncn_group h (fees : Fees) (base_reward_router : BaseRewardRouter) (epoch : Z) (operator : Pubkey)
    (group : NcnFeeGroup) : Client W unit :=
  fee ← pure_of (lift (Fees.ncn_fee_bps fees group));
  if fee =? 0 then mret tt else
  created ← tried (get_or_create_ncn_reward_router h group operator epoch);
  match created, BaseRewardRouter.ncn_fee_group_reward_route base_reward_router operator with
  | None, _ | Some _, Err _ => mret tt
  | Some _, Ok route =>
      rewards ← pure_of (lift (NcnRewardRoute.get_rewards route group));
      moved ← (if negb (rewards =? 0) then tried (distribute_base_ncn_rewards h operator group epoch) else mret (Some tt));
      match moved with
      | None => mret tt
      | Some _ =>
          ncn_reward_receiver_rewards ← ask (fun nd => get_ncn_reward_receiver_rewards h nd group operator epoch);
          routed ← (if 0 <? ncn_reward_receiver_rewards then tried (route_ncn_rewards fuel h operator group epoch)
                    else mret (Some tt));
          match routed with
          | None => mret tt
          | Some _ => distribute_ncn_router h operator group epoch
          end
      end
  end.

Definition crank_distribute h (epoch : Z) : Client W unit :=
  operators ← ask (get_all_operators_in_ncn h);
  epoch_snapshot ← get_or_create_epoch_snapshot h epoch;
  let fees := es_fees epoch_snapshot in
  base_reward_router ← get_or_create_base_reward_router h epoch;
  base_reward_receiver_rewards ← ask (fun nd => get_base_reward_receiver_rewards h nd epoch);
  _ ← (if 0 <? base_reward_receiver_rewards then route_base_rewards fuel h epoch else mret tt);
  _ ← for_each (distribute_base_group h fees base_reward_router epoch) BaseFeeGroup.all_groups;
  for_each (fun operator => for_each (distribute_ncn_group h fees base_reward_router epoch operator) NcnFeeGroup.all_groups)
    operators.

(* ------------------------------------------------------------------ *)
(** * Closing *)

Definition crank_close_epoch_accounts h (epoch : Z) : Client W unit :=
  ncn ← pure_of (ncn_of h);
  _ ← logged (crank_distribute h epoch);
  all_operators ← ask (get_all_operators_in_ncn h);
  let pid := h_tip_router_program_id h in
  let close account receiver := logged (close_epoch_account h ncn epoch account receiver) in
  _ ← for_each (fun operator => for_each (fun group =>
        close (NcnRewardRouter.find_program_address pid group operator ncn epoch).1.1
          (Some (NcnRewardReceiver.find_program_address pid group operator ncn epoch).1.1)) NcnFeeGroup.all_groups) all_operators;
  _ ← close (BaseRewardRouter.find_program_address pid ncn epoch).1.1
        (Some (BaseRewardReceiver.find_program_address pid ncn epoch).1.1);
  _ ← close (BallotBox.find_program_address pid ncn epoch).1.1 None;
  _ ← for_each (fun operator => close (OperatorSnapshot.find_program_address pid operator ncn epoch).1.1 None) all_operators;
  _ ← close (EpochSnapshot.find_program_address pid ncn epoch).1.1 None;
  _ ← close (WeightTable.find_program_address pid ncn epoch).1.1 None;
  close (EpochState.find_program_address pid ncn epoch).1.1 None.

(** Step 3 of the keeper's loop. *)
Definition crank h (current_state : State) (epoch : Z) (test_vote : bool) : Client W unit :=
  match current_state with
  | SetWeight => crank_set_weight h epoch
  | Snapshot => crank_snapshot h epoch
  | Vote => crank_vote h epoch test_vote
  | Distribute => crank_distribute h epoch
  | Close => crank_close_epoch_accounts h epoch
  end.
End cranks.
