(* ===== verification/Network.v ===== *)
(** A network that executes the client's transactions on a chain: at each of the
    client's calls others may act first, the node may not answer, the transaction
    may be lost, and its confirmation may be lost.  What the chain does with
    instructions is a parameter; the lemmas are about all clients. *)

From Stdlib Require Import String.
From S2P Require Import Prelude Errors External Accounts Getters Rpc.

(** What happens at one call: [others] act before it; [answers]: the node answers;
    [lands]: the client's transaction is executed; [seen]: the client learns of
    it. *)
Record Event (Act : Type) := mkEvent { others : list Act; answers : bool; lands : bool; seen : bool }.
Arguments mkEvent {Act} _ _ _ _.
Arguments others {Act} _.
Arguments answers {Act} _.
Arguments lands {Act} _.
Arguments seen {Act} _.

(** After the last event nobody else acts and nothing fails. *)
Definition quiet {Act} : Event Act := mkEvent [] true true true.

Record World (St Act : Type) := mkWorld { chain : St; script : list (Event Act) }.
Arguments mkWorld {St Act} _ _.
Arguments chain {St Act} _.
Arguments script {St Act} _.

Definition no_node : Node :=
  mkNode (fun _ => Err Failed) (fun _ _ => Err Failed) (Err Failed) (Err Failed) (Err Failed) (fun _ => Err Failed).

Section network.
Context {St Act : Type} (act : St -> Act -> res St) (exec_ix : St -> Instruction -> res St) (node_of : St -> Node).

(** Actions that fail change nothing. *)
Definition others_act (s : St) (l : list Act) : St :=
  foldl (fun s a => match act s a with Ok s => s | Err _ => s end) s l.

Definition next_event (w : World St Act) : Event Act * World St Act :=
  let e := default quiet (head (script w)) in (e, mkWorld (others_act (chain w) (others e)) (tail (script w))).

(** The instructions of a transaction are executed together or not at all; the
    price of the compute units is not an action on accounts. *)
Definition exec (s : St) (ixs : list Instruction) : res St :=
  foldM (fun s ix => match ix_data ix with
                     | SetComputeUnitLimit _ | SetComputeUnitPrice _ => Ok s
                     | _ => exec_ix s ix
                     end) s ixs.

#[local] Instance network_rpc : Rpc (World St Act) := {|
  rpc_node w := let (e, w) := next_event w in (if answers e then node_of (chain w) else no_node, w);
  rpc_blockhash w := let (e, w) := next_event w in (answers e, w);
  rpc_process w tx :=
    let (e, w) := next_event w in
    if negb (lands e) then (false, w) else
    match exec (chain w) (tx_instructions tx) with
    | Ok s => (seen e, mkWorld s (script w))
    | Err _ => (false, w)
    end;
  rpc_fetch_update_ix w feed payer := (Err Failed, w);
  rpc_new_keypair w := (Pubkey_default, w);
|}.

(* ------------------------------------------------------------------ *)
(** * An invariant of the chain *)

Section invariant.
Context (I : St -> Prop) (A : Act -> Prop).
Hypothesis (Hact : forall s a s', I s -> A a -> act s a = Ok s' -> I s').

Definition world_inv (w : World St Act) : Prop := I (chain w) /\ Forall (fun e => Forall A (others e)) (script w).

Lemma others_act_inv l s : I s -> Forall A l -> I (others_act s l).
Proof using Hact.
  intros Hs Hl. revert s Hs. induction Hl as [|a l Ha _ IH]; intros s Hs; [done|]. cbn. apply IH.
  destruct (act s a) as [s'|] eqn:E; [|done]. by eapply Hact.
Qed.

Lemma next_event_inv w : world_inv w -> world_inv (next_event w).2.
Proof using Hact.
  intros [Hs Hl]. unfold next_event. split; cbn [snd chain script].
  - apply others_act_inv; [done|]. by destruct Hl.
  - by destruct Hl.
Qed.

(** A read: no answer, or one of a state of the chain. *)
Lemma ask_inv {B} (read : Node -> result KeeperError B) w : world_inv w ->
  exists nd w', ask read w = mkRun [] (halt (read nd)) w' /\ world_inv w' /\ (nd = no_node \/ nd = node_of (chain w')).
Proof using Hact.
  intros Hw. apply next_event_inv in Hw. unfold ask. cbn [rpc_node network_rpc].
  destruct (next_event w) as [e w1]. cbn [snd] in Hw. eexists _, w1. split; [reflexivity|]. split; [done|].
  destruct (answers e); [by right|by left].
Qed.

(** A transaction that keeps the invariant, and gains [P] when it is executed. *)
Section send.
Context (h : CliHandler) (payer : Pubkey) (ixs : list Instruction) (signers : list Pubkey) (P : St -> Prop).
Hypothesis (Hk : h_keypair h = Some payer).
Hypothesis (Hexec : forall s s', I s -> exec s ixs = Ok s' -> I s' /\ P s').

Lemma process_inv w tx price : world_inv w ->
  tx_instructions tx = ixs \/ tx_instructions tx = mkIx (SetComputeUnitPrice price) [] :: ixs ->
  world_inv (rpc_process w tx).2 /\ ((rpc_process w tx).1 = true -> P (chain (rpc_process w tx).2)).
Proof using Hact Hexec.
  intros Hw Htx. apply next_event_inv in Hw. cbn [rpc_process network_rpc].
  destruct (next_event w) as [e w1]. cbn [snd] in Hw. destruct (lands e); cbn [negb]; [|done].
  replace (exec (chain w1) (tx_instructions tx)) with (exec (chain w1) ixs) by (by destruct Htx as [-> | ->]).
  destruct (exec (chain w1) ixs) as [s'|] eqn:E; [|done]. destruct (Hexec _ _ (proj1 Hw) E) as [Hi Hp].
  split; [|by intros _]. split; [done|apply Hw].
Qed.

Lemma send_attempts_inv n w price tried r w' : world_inv w ->
  send_attempts payer signers (mkIx (SetComputeUnitPrice price) [] :: ixs) ixs n w = (tried, r, w') ->
  world_inv w' /\ r <> Err HPanic /\ r <> Err HFuel /\ (r = Ok tt -> P (chain w')).
Proof using Hact Hexec.
  revert w tried r w'. induction n as [|n IH]; intros w tried r w' Hw; cbn [send_attempts].
  all: apply next_event_inv in Hw; cbn [rpc_blockhash network_rpc]; destruct (next_event w) as [e w1]; cbn [snd] in Hw.
  all: destruct (answers e); cbn [negb]; [|by intros [= <- <- <-]].
  - match goal with |- context [rpc_process _ ?tx] => pose proof (process_inv w1 tx price Hw (or_introl eq_refl)) as Hp;
      destruct (rpc_process w1 tx) as [ok w2] end.
    cbn [fst snd] in Hp. intros [= <- <- <-]. destruct Hp as [Hp1 Hp2]. destruct ok; split; try done. auto.
  - match goal with |- context [rpc_process _ ?tx] => pose proof (process_inv w1 tx price Hw (or_intror eq_refl)) as Hp;
      destruct (rpc_process w1 tx) as [ok w2] end.
    cbn [fst snd] in Hp. destruct Hp as [Hp1 Hp2]. destruct ok.
    + intros [= <- <- <-]. split; [done|]. split; [done|]. split; [done|]. auto.
    + destruct (send_attempts _ _ _ _ n w2) as [[tried' r'] w3] eqn:E. intros [= <- <- <-]. by eapply IH.
Qed.

Lemma send_inv w : world_inv w ->
  let run := send_and_log_transaction h ixs signers w in
  length (requests run) = 1%nat /\ world_inv (world run) /\ outcome run <> Err HPanic /\ outcome run <> Err HFuel /\
  (outcome run = Ok tt -> P (chain (world run))).
Proof using Hact Hexec Hk.
  intros Hw. unfold send_and_log_transaction, send_transactions, mbind, client_bind, pure_of, keypair.
  rewrite Hk. cbn [ok_or halt outcome world requests]. unfold send_request.
  destruct (send_attempts _ _ _ _ _ w) as [[tried r] w'] eqn:E. cbn. split; [done|]. by eapply send_attempts_inv.
Qed.
End send.
End invariant.

(* ------------------------------------------------------------------ *)
(** * A network without failures *)

Definition reliable (w : World St Act) : Prop := Forall (fun e => answers e = true /\ lands e = true /\ seen e = true) (script w).

Lemma next_event_reliable w : reliable w ->
  reliable (next_event w).2 /\ answers (next_event w).1 = true /\ lands (next_event w).1 = true /\ seen (next_event w).1 = true.
Proof using. unfold reliable, next_event. cbn [fst snd script]. intros [|e l He Hl]; [by repeat split|]. by split. Qed.

Lemma ask_reliable {B} (read : Node -> result KeeperError B) w : reliable w ->
  exists w', ask read w = mkRun [] (halt (read (node_of (chain w')))) w' /\ reliable w'.
Proof using.
  intros Hw. destruct (next_event_reliable w Hw) as (Hw1 & Ha & _). unfold ask. cbn [rpc_node network_rpc].
  destruct (next_event w) as [e w1]. cbn [fst snd] in *. rewrite Ha. by exists w1.
Qed.

Section send.
Context (I : St -> Prop) (A : Act -> Prop).
Hypothesis (Hact : forall s a s', I s -> A a -> act s a = Ok s' -> I s').
Context (h : CliHandler) (payer : Pubkey) (ixs : list Instruction) (signers : list Pubkey).
Hypothesis (Hk : h_keypair h = Some payer) (Hexec : forall s, I s -> is_ok (exec s ixs)).

Lemma process_reliable w tx price : world_inv I A w -> reliable w ->
  tx_instructions tx = ixs \/ tx_instructions tx = mkIx (SetComputeUnitPrice price) [] :: ixs ->
  (rpc_process w tx).1 = true /\ reliable (rpc_process w tx).2.
Proof using Hact Hexec.
  intros Hw Hr Htx. apply (next_event_inv I A Hact) in Hw. destruct (next_event_reliable w Hr) as (Hr1 & _ & Hl & Hs).
  cbn [rpc_process network_rpc]. destruct (next_event w) as [e w1]. cbn [fst snd] in *. rewrite Hl. cbn [negb].
  replace (exec (chain w1) (tx_instructions tx)) with (exec (chain w1) ixs) by (by destruct Htx as [-> | ->]).
  destruct (Hexec _ (proj1 Hw)) as [s' ->]. done.
Qed.

Lemma send_reliable w : world_inv I A w -> reliable w ->
  let run := send_and_log_transaction h ixs signers w in outcome run = Ok tt /\ reliable (world run).
Proof using Hact Hexec Hk.
  intros Hw Hr. unfold send_and_log_transaction, send_transactions, mbind, client_bind, pure_of, keypair.
  rewrite Hk. cbn [ok_or halt outcome world requests]. unfold send_request.
  pose proof (next_event_inv I A Hact w Hw) as Hn. destruct (next_event_reliable w Hr) as (Hr1 & Ha & _).
  destruct (Z.to_nat (h_retries h)) as [|n]; cbn [send_attempts rpc_blockhash network_rpc];
    destruct (next_event w) as [e w1]; cbn [fst snd] in *; rewrite Ha; cbn [negb].
  all: match goal with |- context [rpc_process ?v ?tx] =>
    destruct (process_reliable v tx (h_priority_fee_micro_lamports h) Hn Hr1) as [Hp1 Hp2]; [by auto|];
    destruct (rpc_process v tx) as [ok w2] end; cbn [fst snd] in *; subst ok; by cbn.
Qed.
End send.
End network.
