(* ===== verification/ToolCalls.v ===== *)
(** The instructions of the command line tool through the generated client's builders:
    every account that an instruction names is the builder's field of its role's name
    (cli/src/instructions.rs), a builder without something it needs panics, and one
    with everything makes an instruction that the program's entry point hands to the
    handler, with the same arguments and with every account where it belongs. *)

From Stdlib Require Import String.
From S2P Require Import Prelude Errors External Config FeeGroups Borsh TipRouterIx GeneratedClient ClientAbi Getters Rpc.
#[local] Open Scope string_scope.
#[local] Open Scope list_scope.

(** A role as a name. *)
Definition role_name (r : Role) : string :=
  match r with
  | Role.config => "config"
  | Role.ncn => "ncn"
  | Role.ncn_admin => "ncn_admin"
  | Role.admin => "admin"
  | Role.account_payer => "account_payer"
  | Role.tie_breaker_admin => "tie_breaker_admin"
  | Role.fee_wallet => "fee_wallet"
  | Role.vault_registry => "vault_registry"
  | Role.st_mint => "st_mint"
  | Role.weight_table => "weight_table"
  | Role.epoch_state => "epoch_state"
  | Role.weight_table_admin => "weight_table_admin"
  | Role.ballot_box => "ballot_box"
  | Role.new_admin => "new_admin"
  | Role.system_program => "system_program"
  | Role.vault => "vault"
  | Role.ncn_vault_ticket => "ncn_vault_ticket"
  | Role.epoch_marker => "epoch_marker"
  | Role.epoch_snapshot => "epoch_snapshot"
  | Role.operator => "operator"
  | Role.ncn_operator_state => "ncn_operator_state"
  | Role.operator_snapshot => "operator_snapshot"
  | Role.restaking_config => "restaking_config"
  | Role.vault_ncn_ticket => "vault_ncn_ticket"
  | Role.vault_operator_delegation => "vault_operator_delegation"
  | Role.operator_voter => "operator_voter"
  | Role.base_reward_router => "base_reward_router"
  | Role.base_reward_receiver => "base_reward_receiver"
  | Role.ncn_reward_router => "ncn_reward_router"
  | Role.ncn_reward_receiver => "ncn_reward_receiver"
  | Role.base_fee_wallet => "base_fee_wallet"
  | Role.base_fee_wallet_ata => "base_fee_wallet_ata"
  | Role.vault_ata => "vault_ata"
  | Role.operator_ata => "operator_ata"
  | Role.pool_mint => "pool_mint"
  | Role.manager_fee_account => "manager_fee_account"
  | Role.referrer_pool_tokens_account => "referrer_pool_tokens_account"
  | Role.reserve_stake => "reserve_stake"
  | Role.stake_pool => "stake_pool"
  | Role.stake_pool_withdraw_authority => "stake_pool_withdraw_authority"
  | Role.stake_pool_program => "stake_pool_program"
  | Role.token_program => "token_program"
  | Role.account_to_close => "account_to_close"
  | Role.receiver_to_close => "receiver_to_close"
  | Role.dao_wallet => "dao_wallet"
  | Role.vault_update_state_tracker => "vault_update_state_tracker"
  | Role.payer => "payer"
  | Role.vault_fee_token_account => "vault_fee_token_account"
  | Role.vault_token_account => "vault_token_account"
  | Role.vrt_mint => "vrt_mint"
  | Role.switchboard_feed => "switchboard_feed"
  | Role.from => "from"
  | Role.to => "to"
  | Role.wallet => "wallet"
  | Role.mint => "mint"
  | Role.base => "base"
  | Role.operator_vault_ticket => "operator_vault_ticket"
  | Role.depositor => "depositor"
  | Role.depositor_token_account => "depositor_token_account"
  | Role.depositor_vrt_token_account => "depositor_vrt_token_account"
  end.

(** The roles without which the builder panics. *)
Definition needed (d : IxData) : list Role :=
  match d with
  | InitializeConfig _ _ _ _ _ _ => [Role.config; Role.ncn; Role.fee_wallet; Role.ncn_admin;
      Role.tie_breaker_admin; Role.account_payer]
  | InitializeVaultRegistry => [Role.config; Role.vault_registry; Role.ncn; Role.account_payer]
  | ReallocVaultRegistry => [Role.config; Role.vault_registry; Role.ncn; Role.account_payer]
  | RegisterVault => [Role.config; Role.vault_registry; Role.ncn; Role.vault; Role.ncn_vault_ticket]
  | InitializeEpochState _ => [Role.epoch_marker; Role.epoch_state; Role.config; Role.ncn; Role.account_payer]
  | ReallocEpochState _ => [Role.epoch_state; Role.config; Role.ncn; Role.account_payer]
  | InitializeWeightTable _ => [Role.epoch_marker; Role.epoch_state; Role.vault_registry; Role.ncn;
      Role.weight_table; Role.account_payer]
  | ReallocWeightTable _ => [Role.epoch_state; Role.config; Role.weight_table; Role.ncn; Role.vault_registry;
      Role.account_payer]
  | SwitchboardSetWeight _ _ => [Role.epoch_state; Role.ncn; Role.weight_table; Role.switchboard_feed]
  | InitializeEpochSnapshot _ => [Role.epoch_marker; Role.epoch_state; Role.config; Role.ncn; Role.weight_table;
      Role.epoch_snapshot; Role.account_payer]
  | InitializeOperatorSnapshot _ => [Role.epoch_marker; Role.epoch_state; Role.config; Role.ncn; Role.operator;
      Role.ncn_operator_state; Role.epoch_snapshot; Role.operator_snapshot; Role.account_payer]
  | ReallocOperatorSnapshot _ => [Role.epoch_state; Role.config; Role.restaking_config; Role.ncn; Role.operator;
      Role.ncn_operator_state; Role.epoch_snapshot; Role.operator_snapshot; Role.account_payer]
  | SnapshotVaultOperatorDelegation _ => [Role.epoch_state; Role.config; Role.restaking_config; Role.ncn;
      Role.operator; Role.vault; Role.vault_ncn_ticket; Role.ncn_vault_ticket; Role.vault_operator_delegation;
      Role.weight_table; Role.epoch_snapshot; Role.operator_snapshot]
  | InitializeBallotBox _ => [Role.epoch_marker; Role.epoch_state; Role.config; Role.ballot_box; Role.ncn;
      Role.account_payer]
  | ReallocBallotBox _ => [Role.epoch_state; Role.config; Role.ballot_box; Role.ncn; Role.account_payer]
  | CastVote _ _ => [Role.epoch_state; Role.config; Role.ballot_box; Role.ncn; Role.epoch_snapshot;
      Role.operator_snapshot; Role.operator; Role.operator_voter]
  | InitializeBaseRewardRouter _ => [Role.epoch_marker; Role.epoch_state; Role.ncn; Role.base_reward_router;
      Role.base_reward_receiver; Role.account_payer]
  | ReallocBaseRewardRouter _ => [Role.epoch_state; Role.config; Role.base_reward_router; Role.ncn;
      Role.account_payer]
  | InitializeNcnRewardRouter _ _ => [Role.epoch_marker; Role.epoch_state; Role.ncn; Role.operator;
      Role.operator_snapshot; Role.ncn_reward_router; Role.ncn_reward_receiver; Role.account_payer]
  | RouteBaseRewards _ _ => [Role.epoch_state; Role.config; Role.ncn; Role.epoch_snapshot; Role.ballot_box;
      Role.base_reward_router; Role.base_reward_receiver]
  | RouteNcnRewards _ _ _ => [Role.epoch_state; Role.ncn; Role.operator; Role.operator_snapshot;
      Role.ncn_reward_router; Role.ncn_reward_receiver]
  | DistributeBaseRewards _ _ => [Role.epoch_state; Role.config; Role.ncn; Role.base_reward_router;
      Role.base_reward_receiver; Role.base_fee_wallet; Role.base_fee_wallet_ata; Role.stake_pool_program;
      Role.stake_pool; Role.stake_pool_withdraw_authority; Role.reserve_stake; Role.manager_fee_account;
      Role.referrer_pool_tokens_account; Role.pool_mint]
  | DistributeBaseNcnRewardRoute _ _ => [Role.epoch_state; Role.config; Role.ncn; Role.operator;
      Role.base_reward_router; Role.base_reward_receiver; Role.ncn_reward_router; Role.ncn_reward_receiver]
  | DistributeNcnOperatorRewards _ _ => [Role.epoch_state; Role.config; Role.ncn; Role.operator; Role.operator_ata;
      Role.operator_snapshot; Role.ncn_reward_router; Role.ncn_reward_receiver; Role.stake_pool_program;
      Role.stake_pool; Role.stake_pool_withdraw_authority; Role.reserve_stake; Role.manager_fee_account;
      Role.referrer_pool_tokens_account; Role.pool_mint]
  | DistributeNcnVaultRewards _ _ => [Role.epoch_state; Role.config; Role.ncn; Role.operator; Role.vault;
      Role.vault_ata; Role.operator_snapshot; Role.ncn_reward_router; Role.ncn_reward_receiver;
      Role.stake_pool_program; Role.stake_pool; Role.stake_pool_withdraw_authority; Role.reserve_stake;
      Role.manager_fee_account; Role.referrer_pool_tokens_account; Role.pool_mint]
  | CloseEpochAccount _ => [Role.epoch_marker; Role.epoch_state; Role.config; Role.ncn; Role.account_to_close;
      Role.account_payer; Role.dao_wallet]
  | AdminSetParameters _ _ _ _ => [Role.config; Role.ncn; Role.ncn_admin]
  | AdminSetConfigFees _ _ _ _ _ _ => [Role.config; Role.ncn; Role.ncn_admin]
  | AdminSetNewAdmin _ => [Role.config; Role.ncn; Role.ncn_admin; Role.new_admin]
  | AdminSetTieBreaker _ _ => [Role.epoch_state; Role.config; Role.ballot_box; Role.ncn; Role.tie_breaker_admin]
  | AdminSetWeight _ _ _ => [Role.epoch_state; Role.ncn; Role.weight_table; Role.weight_table_admin]
  | AdminRegisterStMint _ _ _ _ => [Role.config; Role.ncn; Role.st_mint; Role.vault_registry; Role.admin]
  | _ => []
  end.

(** Those that the builder fills in itself when they are missing. *)
Definition defaulted (d : IxData) : list Role :=
  match d with
  | InitializeConfig _ _ _ _ _ _ => [Role.system_program]
  | InitializeVaultRegistry => [Role.system_program]
  | ReallocVaultRegistry => [Role.system_program]
  | InitializeEpochState _ => [Role.system_program]
  | ReallocEpochState _ => [Role.system_program]
  | InitializeWeightTable _ => [Role.system_program]
  | ReallocWeightTable _ => [Role.system_program]
  | InitializeEpochSnapshot _ => [Role.system_program]
  | InitializeOperatorSnapshot _ => [Role.system_program]
  | ReallocOperatorSnapshot _ => [Role.system_program]
  | InitializeBallotBox _ => [Role.system_program]
  | ReallocBallotBox _ => [Role.system_program]
  | InitializeBaseRewardRouter _ => [Role.system_program]
  | ReallocBaseRewardRouter _ => [Role.system_program]
  | InitializeNcnRewardRouter _ _ => [Role.system_program]
  | DistributeBaseRewards _ _ => [Role.token_program; Role.system_program]
  | DistributeBaseNcnRewardRoute _ _ => [Role.system_program]
  | DistributeNcnOperatorRewards _ _ => [Role.token_program; Role.system_program]
  | DistributeNcnVaultRewards _ _ => [Role.token_program; Role.system_program]
  | CloseEpochAccount _ => [Role.system_program]
  | _ => []
  end.

(** The tip router's instruction, and none for another program's. *)
Definition tip_router_ix (d : IxData) : option TipRouterInstruction.TipRouterInstruction :=
  match d with
  | InitializeConfig epochs_before_stall valid_slots_after_consensus epochs_after_consensus_before_close dao_fee_bps block_engine_fee_bps default_ncn_fee_bps => Some (TipRouterInstruction.InitializeConfig block_engine_fee_bps dao_fee_bps default_ncn_fee_bps epochs_before_stall epochs_after_consensus_before_close valid_slots_after_consensus)
  | InitializeVaultRegistry => Some (TipRouterInstruction.InitializeVaultRegistry)
  | ReallocVaultRegistry => Some (TipRouterInstruction.ReallocVaultRegistry)
  | RegisterVault => Some (TipRouterInstruction.RegisterVault)
  | InitializeEpochState epoch => Some (TipRouterInstruction.InitializeEpochState epoch)
  | ReallocEpochState epoch => Some (TipRouterInstruction.ReallocEpochState epoch)
  | InitializeWeightTable epoch => Some (TipRouterInstruction.InitializeWeightTable epoch)
  | ReallocWeightTable epoch => Some (TipRouterInstruction.ReallocWeightTable epoch)
  | SwitchboardSetWeight st_mint epoch => Some (TipRouterInstruction.SwitchboardSetWeight st_mint epoch)
  | InitializeEpochSnapshot epoch => Some (TipRouterInstruction.InitializeEpochSnapshot epoch)
  | InitializeOperatorSnapshot epoch => Some (TipRouterInstruction.InitializeOperatorSnapshot epoch)
  | ReallocOperatorSnapshot epoch => Some (TipRouterInstruction.ReallocOperatorSnapshot epoch)
  | SnapshotVaultOperatorDelegation epoch => Some (TipRouterInstruction.SnapshotVaultOperatorDelegation epoch)
  | InitializeBallotBox epoch => Some (TipRouterInstruction.InitializeBallotBox epoch)
  | ReallocBallotBox epoch => Some (TipRouterInstruction.ReallocBallotBox epoch)
  | CastVote meta_merkle_root epoch => Some (TipRouterInstruction.CastVote meta_merkle_root epoch)
  | InitializeBaseRewardRouter epoch => Some (TipRouterInstruction.InitializeBaseRewardRouter epoch)
  | ReallocBaseRewardRouter epoch => Some (TipRouterInstruction.ReallocBaseRewardRouter epoch)
  | InitializeNcnRewardRouter ncn_fee_group epoch => Some (TipRouterInstruction.InitializeNcnRewardRouter ncn_fee_group epoch)
  | RouteBaseRewards max_iterations epoch => Some (TipRouterInstruction.RouteBaseRewards max_iterations epoch)
  | RouteNcnRewards ncn_fee_group max_iterations epoch => Some (TipRouterInstruction.RouteNcnRewards ncn_fee_group max_iterations epoch)
  | DistributeBaseRewards base_fee_group epoch => Some (TipRouterInstruction.DistributeBaseRewards base_fee_group epoch)
  | DistributeBaseNcnRewardRoute ncn_fee_group epoch => Some (TipRouterInstruction.DistributeBaseNcnRewardRoute ncn_fee_group epoch)
  | DistributeNcnOperatorRewards ncn_fee_group epoch => Some (TipRouterInstruction.DistributeNcnOperatorRewards ncn_fee_group epoch)
  | DistributeNcnVaultRewards ncn_fee_group epoch => Some (TipRouterInstruction.DistributeNcnVaultRewards ncn_fee_group epoch)
  | CloseEpochAccount epoch => Some (TipRouterInstruction.CloseEpochAccount epoch)
  | AdminSetParameters epochs_before_stall epochs_after_consensus_before_close valid_slots_after_consensus starting_valid_epoch => Some (TipRouterInstruction.AdminSetParameters starting_valid_epoch epochs_before_stall epochs_after_consensus_before_close valid_slots_after_consensus)
  | AdminSetConfigFees new_block_engine_fee_bps base_fee_group new_base_fee_wallet new_base_fee_bps ncn_fee_group new_ncn_fee_bps => Some (TipRouterInstruction.AdminSetConfigFees new_block_engine_fee_bps base_fee_group new_base_fee_wallet new_base_fee_bps ncn_fee_group new_ncn_fee_bps)
  | AdminSetNewAdmin role => Some (TipRouterInstruction.AdminSetNewAdmin role)
  | AdminSetTieBreaker meta_merkle_root epoch => Some (TipRouterInstruction.AdminSetTieBreaker meta_merkle_root epoch)
  | AdminSetWeight st_mint weight epoch => Some (TipRouterInstruction.AdminSetWeight st_mint weight epoch)
  | AdminRegisterStMint ncn_fee_group reward_multiplier_bps switchboard_feed no_feed_weight => Some (TipRouterInstruction.AdminRegisterStMint ncn_fee_group reward_multiplier_bps switchboard_feed no_feed_weight)
  | _ => None
  end.

Section tool.
Context `{B : Borsh} `{K : ClientKeys}.

(** The builder with the accounts and arguments set. *)
Definition build (ix : Rpc.Instruction) : option GeneratedClient.Instruction :=
  let of_role := account_of ix in
  match ix_data ix with
  | InitializeConfig epochs_before_stall valid_slots_after_consensus epochs_after_consensus_before_close dao_fee_bps block_engine_fee_bps default_ncn_fee_bps => InitializeConfig.instruction (InitializeConfig.mkBuilder
      (of_role Role.config) (of_role Role.ncn) (of_role Role.fee_wallet) (of_role Role.ncn_admin)
      (of_role Role.tie_breaker_admin) (of_role Role.account_payer) (of_role Role.system_program)
      (Some block_engine_fee_bps) (Some dao_fee_bps) (Some default_ncn_fee_bps) (Some epochs_before_stall)
      (Some epochs_after_consensus_before_close) (Some valid_slots_after_consensus) [])
  | InitializeVaultRegistry => InitializeVaultRegistry.instruction (InitializeVaultRegistry.mkBuilder
      (of_role Role.config) (of_role Role.vault_registry) (of_role Role.ncn) (of_role Role.account_payer)
      (of_role Role.system_program) [])
  | ReallocVaultRegistry => ReallocVaultRegistry.instruction (ReallocVaultRegistry.mkBuilder (of_role Role.config)
      (of_role Role.vault_registry) (of_role Role.ncn) (of_role Role.account_payer) (of_role Role.system_program)
      [])
  | RegisterVault => RegisterVault.instruction (RegisterVault.mkBuilder (of_role Role.config)
      (of_role Role.vault_registry) (of_role Role.ncn) (of_role Role.vault) (of_role Role.ncn_vault_ticket) [])
  | InitializeEpochState epoch => InitializeEpochState.instruction (InitializeEpochState.mkBuilder
      (of_role Role.epoch_marker) (of_role Role.epoch_state) (of_role Role.config) (of_role Role.ncn)
      (of_role Role.account_payer) (of_role Role.system_program) (Some epoch) [])
  | ReallocEpochState epoch => ReallocEpochState.instruction (ReallocEpochState.mkBuilder
      (of_role Role.epoch_state) (of_role Role.config) (of_role Role.ncn) (of_role Role.account_payer)
      (of_role Role.system_program) (Some epoch) [])
  | InitializeWeightTable epoch => InitializeWeightTable.instruction (InitializeWeightTable.mkBuilder
      (of_role Role.epoch_marker) (of_role Role.epoch_state) (of_role Role.vault_registry) (of_role Role.ncn)
      (of_role Role.weight_table) (of_role Role.account_payer) (of_role Role.system_program) (Some epoch) [])
  | ReallocWeightTable epoch => ReallocWeightTable.instruction (ReallocWeightTable.mkBuilder
      (of_role Role.epoch_state) (of_role Role.config) (of_role Role.weight_table) (of_role Role.ncn)
      (of_role Role.vault_registry) (of_role Role.account_payer) (of_role Role.system_program) (Some epoch) [])
  | SwitchboardSetWeight st_mint epoch => SwitchboardSetWeight.instruction (SwitchboardSetWeight.mkBuilder
      (of_role Role.epoch_state) (of_role Role.ncn) (of_role Role.weight_table) (of_role Role.switchboard_feed)
      (Some st_mint) (Some epoch) [])
  | InitializeEpochSnapshot epoch => InitializeEpochSnapshot.instruction (InitializeEpochSnapshot.mkBuilder
      (of_role Role.epoch_marker) (of_role Role.epoch_state) (of_role Role.config) (of_role Role.ncn)
      (of_role Role.weight_table) (of_role Role.epoch_snapshot) (of_role Role.account_payer)
      (of_role Role.system_program) (Some epoch) [])
  | InitializeOperatorSnapshot epoch => InitializeOperatorSnapshot.instruction (InitializeOperatorSnapshot.mkBuilder
      (of_role Role.epoch_marker) (of_role Role.epoch_state) (of_role Role.config) (of_role Role.ncn)
      (of_role Role.operator) (of_role Role.ncn_operator_state) (of_role Role.epoch_snapshot)
      (of_role Role.operator_snapshot) (of_role Role.account_payer) (of_role Role.system_program) (Some epoch) [])
  | ReallocOperatorSnapshot epoch => ReallocOperatorSnapshot.instruction (ReallocOperatorSnapshot.mkBuilder
      (of_role Role.epoch_state) (of_role Role.config) (of_role Role.restaking_config) (of_role Role.ncn)
      (of_role Role.operator) (of_role Role.ncn_operator_state) (of_role Role.epoch_snapshot)
      (of_role Role.operator_snapshot) (of_role Role.account_payer) (of_role Role.system_program) (Some epoch) [])
  | SnapshotVaultOperatorDelegation epoch => SnapshotVaultOperatorDelegation.instruction (SnapshotVaultOperatorDelegation.mkBuilder
      (of_role Role.epoch_state) (of_role Role.config) (of_role Role.restaking_config) (of_role Role.ncn)
      (of_role Role.operator) (of_role Role.vault) (of_role Role.vault_ncn_ticket) (of_role Role.ncn_vault_ticket)
      (of_role Role.vault_operator_delegation) (of_role Role.weight_table) (of_role Role.epoch_snapshot)
      (of_role Role.operator_snapshot) (Some epoch) [])
  | InitializeBallotBox epoch => InitializeBallotBox.instruction (InitializeBallotBox.mkBuilder
      (of_role Role.epoch_marker) (of_role Role.epoch_state) (of_role Role.config) (of_role Role.ballot_box)
      (of_role Role.ncn) (of_role Role.account_payer) (of_role Role.system_program) (Some epoch) [])
  | ReallocBallotBox epoch => ReallocBallotBox.instruction (ReallocBallotBox.mkBuilder (of_role Role.epoch_state)
      (of_role Role.config) (of_role Role.ballot_box) (of_role Role.ncn) (of_role Role.account_payer)
      (of_role Role.system_program) (Some epoch) [])
  | CastVote meta_merkle_root epoch => CastVote.instruction (CastVote.mkBuilder (of_role Role.epoch_state)
      (of_role Role.config) (of_role Role.ballot_box) (of_role Role.ncn) (of_role Role.epoch_snapshot)
      (of_role Role.operator_snapshot) (of_role Role.operator) (of_role Role.operator_voter)
      (Some meta_merkle_root) (Some epoch) [])
  | InitializeBaseRewardRouter epoch => InitializeBaseRewardRouter.instruction (InitializeBaseRewardRouter.mkBuilder
      (of_role Role.epoch_marker) (of_role Role.epoch_state) (of_role Role.ncn) (of_role Role.base_reward_router)
      (of_role Role.base_reward_receiver) (of_role Role.account_payer) (of_role Role.system_program) (Some epoch)
      [])
  | ReallocBaseRewardRouter epoch => ReallocBaseRewardRouter.instruction (ReallocBaseRewardRouter.mkBuilder
      (of_role Role.epoch_state) (of_role Role.config) (of_role Role.base_reward_router) (of_role Role.ncn)
      (of_role Role.account_payer) (of_role Role.system_program) (Some epoch) [])
  | InitializeNcnRewardRouter ncn_fee_group epoch => InitializeNcnRewardRouter.instruction (InitializeNcnRewardRouter.mkBuilder
      (of_role Role.epoch_marker) (of_role Role.epoch_state) (of_role Role.ncn) (of_role Role.operator)
      (of_role Role.operator_snapshot) (of_role Role.ncn_reward_router) (of_role Role.ncn_reward_receiver)
      (of_role Role.account_payer) (of_role Role.system_program) (Some ncn_fee_group) (Some epoch) [])
  | RouteBaseRewards max_iterations epoch => RouteBaseRewards.instruction (RouteBaseRewards.mkBuilder
      (of_role Role.epoch_state) (of_role Role.config) (of_role Role.ncn) (of_role Role.epoch_snapshot)
      (of_role Role.ballot_box) (of_role Role.base_reward_router) (of_role Role.base_reward_receiver)
      (Some max_iterations) (Some epoch) [])
  | RouteNcnRewards ncn_fee_group max_iterations epoch => RouteNcnRewards.instruction (RouteNcnRewards.mkBuilder
      (of_role Role.epoch_state) (of_role Role.ncn) (of_role Role.operator) (of_role Role.operator_snapshot)
      (of_role Role.ncn_reward_router) (of_role Role.ncn_reward_receiver) (Some ncn_fee_group)
      (Some max_iterations) (Some epoch) [])
  | DistributeBaseRewards base_fee_group epoch => DistributeBaseRewards.instruction (DistributeBaseRewards.mkBuilder
      (of_role Role.epoch_state) (of_role Role.config) (of_role Role.ncn) (of_role Role.base_reward_router)
      (of_role Role.base_reward_receiver) (of_role Role.base_fee_wallet) (of_role Role.base_fee_wallet_ata)
      (of_role Role.stake_pool_program) (of_role Role.stake_pool) (of_role Role.stake_pool_withdraw_authority)
      (of_role Role.reserve_stake) (of_role Role.manager_fee_account) (of_role Role.referrer_pool_tokens_account)
      (of_role Role.pool_mint) (of_role Role.token_program) (of_role Role.system_program) (Some base_fee_group)
      (Some epoch) [])
  | DistributeBaseNcnRewardRoute ncn_fee_group epoch => DistributeBaseNcnRewardRoute.instruction (DistributeBaseNcnRewardRoute.mkBuilder
      (of_role Role.epoch_state) (of_role Role.config) (of_role Role.ncn) (of_role Role.operator)
      (of_role Role.base_reward_router) (of_role Role.base_reward_receiver) (of_role Role.ncn_reward_router)
      (of_role Role.ncn_reward_receiver) (of_role Role.system_program) (Some ncn_fee_group) (Some epoch) [])
  | DistributeNcnOperatorRewards ncn_fee_group epoch => DistributeNcnOperatorRewards.instruction (DistributeNcnOperatorRewards.mkBuilder
      (of_role Role.epoch_state) (of_role Role.config) (of_role Role.ncn) (of_role Role.operator)
      (of_role Role.operator_ata) (of_role Role.operator_snapshot) (of_role Role.ncn_reward_router)
      (of_role Role.ncn_reward_receiver) (of_role Role.stake_pool_program) (of_role Role.stake_pool)
      (of_role Role.stake_pool_withdraw_authority) (of_role Role.reserve_stake) (of_role Role.manager_fee_account)
      (of_role Role.referrer_pool_tokens_account) (of_role Role.pool_mint) (of_role Role.token_program)
      (of_role Role.system_program) (Some ncn_fee_group) (Some epoch) [])
  | DistributeNcnVaultRewards ncn_fee_group epoch => DistributeNcnVaultRewards.instruction (DistributeNcnVaultRewards.mkBuilder
      (of_role Role.epoch_state) (of_role Role.config) (of_role Role.ncn) (of_role Role.operator)
      (of_role Role.vault) (of_role Role.vault_ata) (of_role Role.operator_snapshot)
      (of_role Role.ncn_reward_router) (of_role Role.ncn_reward_receiver) (of_role Role.stake_pool_program)
      (of_role Role.stake_pool) (of_role Role.stake_pool_withdraw_authority) (of_role Role.reserve_stake)
      (of_role Role.manager_fee_account) (of_role Role.referrer_pool_tokens_account) (of_role Role.pool_mint)
      (of_role Role.token_program) (of_role Role.system_program) (Some ncn_fee_group) (Some epoch) [])
  | CloseEpochAccount epoch => CloseEpochAccount.instruction (CloseEpochAccount.mkBuilder
      (of_role Role.epoch_marker) (of_role Role.epoch_state) (of_role Role.config) (of_role Role.ncn)
      (of_role Role.account_to_close) (of_role Role.account_payer) (of_role Role.dao_wallet)
      (of_role Role.system_program) (of_role Role.receiver_to_close) (Some epoch) [])
  | AdminSetParameters epochs_before_stall epochs_after_consensus_before_close valid_slots_after_consensus starting_valid_epoch => AdminSetParameters.instruction (AdminSetParameters.mkBuilder
      (of_role Role.config) (of_role Role.ncn) (of_role Role.ncn_admin) starting_valid_epoch epochs_before_stall
      epochs_after_consensus_before_close valid_slots_after_consensus [])
  | AdminSetConfigFees new_block_engine_fee_bps base_fee_group new_base_fee_wallet new_base_fee_bps ncn_fee_group new_ncn_fee_bps => AdminSetConfigFees.instruction (AdminSetConfigFees.mkBuilder
      (of_role Role.config) (of_role Role.ncn) (of_role Role.ncn_admin) new_block_engine_fee_bps base_fee_group
      new_base_fee_wallet new_base_fee_bps ncn_fee_group new_ncn_fee_bps [])
  | AdminSetNewAdmin role => AdminSetNewAdmin.instruction (AdminSetNewAdmin.mkBuilder (of_role Role.config)
      (of_role Role.ncn) (of_role Role.ncn_admin) (of_role Role.new_admin) (Some role) [])
  | AdminSetTieBreaker meta_merkle_root epoch => AdminSetTieBreaker.instruction (AdminSetTieBreaker.mkBuilder
      (of_role Role.epoch_state) (of_role Role.config) (of_role Role.ballot_box) (of_role Role.ncn)
      (of_role Role.tie_breaker_admin) (Some meta_merkle_root) (Some epoch) [])
  | AdminSetWeight st_mint weight epoch => AdminSetWeight.instruction (AdminSetWeight.mkBuilder
      (of_role Role.epoch_state) (of_role Role.ncn) (of_role Role.weight_table) (of_role Role.weight_table_admin)
      (Some st_mint) (Some weight) (Some epoch) [])
  | AdminRegisterStMint ncn_fee_group reward_multiplier_bps switchboard_feed no_feed_weight => AdminRegisterStMint.instruction (AdminRegisterStMint.mkBuilder
      (of_role Role.config) (of_role Role.ncn) (of_role Role.st_mint) (of_role Role.vault_registry)
      (of_role Role.admin) (Some ncn_fee_group) (Some reward_multiplier_bps) switchboard_feed no_feed_weight [])
  | _ => None
  end.

(** The call that the builder makes when nothing it needs is missing. *)
Definition call_of (ix : Rpc.Instruction) : option ClientCall :=
  let of_role := account_of ix in
  match ix_data ix with
  | InitializeConfig epochs_before_stall valid_slots_after_consensus epochs_after_consensus_before_close dao_fee_bps block_engine_fee_bps default_ncn_fee_bps =>
      config ← of_role Role.config; ncn ← of_role Role.ncn; fee_wallet ← of_role Role.fee_wallet;
      ncn_admin ← of_role Role.ncn_admin; tie_breaker_admin ← of_role Role.tie_breaker_admin;
      account_payer ← of_role Role.account_payer;
      Some (CallInitializeConfig (InitializeConfig.mkInitializeConfig config ncn fee_wallet ncn_admin
        tie_breaker_admin account_payer (default SYSTEM_PROGRAM (of_role Role.system_program))) (InitializeConfig.mkArgs block_engine_fee_bps dao_fee_bps default_ncn_fee_bps epochs_before_stall epochs_after_consensus_before_close valid_slots_after_consensus))
  | InitializeVaultRegistry =>
      config ← of_role Role.config; vault_registry ← of_role Role.vault_registry; ncn ← of_role Role.ncn;
      account_payer ← of_role Role.account_payer;
      Some (CallInitializeVaultRegistry (InitializeVaultRegistry.mkInitializeVaultRegistry config vault_registry
        ncn account_payer (default SYSTEM_PROGRAM (of_role Role.system_program))))
  | ReallocVaultRegistry =>
      config ← of_role Role.config; vault_registry ← of_role Role.vault_registry; ncn ← of_role Role.ncn;
      account_payer ← of_role Role.account_payer;
      Some (CallReallocVaultRegistry (ReallocVaultRegistry.mkReallocVaultRegistry config vault_registry ncn
        account_payer (default SYSTEM_PROGRAM (of_role Role.system_program))))
  | RegisterVault =>
      config ← of_role Role.config; vault_registry ← of_role Role.vault_registry; ncn ← of_role Role.ncn;
      vault ← of_role Role.vault; ncn_vault_ticket ← of_role Role.ncn_vault_ticket;
      Some (CallRegisterVault (RegisterVault.mkRegisterVault config vault_registry ncn vault ncn_vault_ticket))
  | InitializeEpochState epoch =>
      epoch_marker ← of_role Role.epoch_marker; epoch_state ← of_role Role.epoch_state;
      config ← of_role Role.config; ncn ← of_role Role.ncn; account_payer ← of_role Role.account_payer;
      Some (CallInitializeEpochState (InitializeEpochState.mkInitializeEpochState epoch_marker epoch_state config
        ncn account_payer (default SYSTEM_PROGRAM (of_role Role.system_program))) (InitializeEpochState.mkArgs epoch))
  | ReallocEpochState epoch =>
      epoch_state ← of_role Role.epoch_state; config ← of_role Role.config; ncn ← of_role Role.ncn;
      account_payer ← of_role Role.account_payer;
      Some (CallReallocEpochState (ReallocEpochState.mkReallocEpochState epoch_state config ncn account_payer
        (default SYSTEM_PROGRAM (of_role Role.system_program))) (ReallocEpochState.mkArgs epoch))
  | InitializeWeightTable epoch =>
      epoch_marker ← of_role Role.epoch_marker; epoch_state ← of_role Role.epoch_state;
      vault_registry ← of_role Role.vault_registry; ncn ← of_role Role.ncn;
      weight_table ← of_role Role.weight_table; account_payer ← of_role Role.account_payer;
      Some (CallInitializeWeightTable (InitializeWeightTable.mkInitializeWeightTable epoch_marker epoch_state
        vault_registry ncn weight_table account_payer (default SYSTEM_PROGRAM (of_role Role.system_program))) (InitializeWeightTable.mkArgs epoch))
  | ReallocWeightTable epoch =>
      epoch_state ← of_role Role.epoch_state; config ← of_role Role.config;
      weight_table ← of_role Role.weight_table; ncn ← of_role Role.ncn;
      vault_registry ← of_role Role.vault_registry; account_payer ← of_role Role.account_payer;
      Some (CallReallocWeightTable (ReallocWeightTable.mkReallocWeightTable epoch_state config weight_table ncn
        vault_registry account_payer (default SYSTEM_PROGRAM (of_role Role.system_program))) (ReallocWeightTable.mkArgs epoch))
  | SwitchboardSetWeight st_mint epoch =>
      epoch_state ← of_role Role.epoch_state; ncn ← of_role Role.ncn; weight_table ← of_role Role.weight_table;
      switchboard_feed ← of_role Role.switchboard_feed;
      Some (CallSwitchboardSetWeight (SwitchboardSetWeight.mkSwitchboardSetWeight epoch_state ncn weight_table
        switchboard_feed) (SwitchboardSetWeight.mkArgs st_mint epoch))
  | InitializeEpochSnapshot epoch =>
      epoch_marker ← of_role Role.epoch_marker; epoch_state ← of_role Role.epoch_state;
      config ← of_role Role.config; ncn ← of_role Role.ncn; weight_table ← of_role Role.weight_table;
      epoch_snapshot ← of_role Role.epoch_snapshot; account_payer ← of_role Role.account_payer;
      Some (CallInitializeEpochSnapshot (InitializeEpochSnapshot.mkInitializeEpochSnapshot epoch_marker epoch_state
        config ncn weight_table epoch_snapshot account_payer (default SYSTEM_PROGRAM (of_role Role.system_program))) (InitializeEpochSnapshot.mkArgs epoch))
  | InitializeOperatorSnapshot epoch =>
      epoch_marker ← of_role Role.epoch_marker; epoch_state ← of_role Role.epoch_state;
      config ← of_role Role.config; ncn ← of_role Role.ncn; operator ← of_role Role.operator;
      ncn_operator_state ← of_role Role.ncn_operator_state; epoch_snapshot ← of_role Role.epoch_snapshot;
      operator_snapshot ← of_role Role.operator_snapshot; account_payer ← of_role Role.account_payer;
      Some (CallInitializeOperatorSnapshot (InitializeOperatorSnapshot.mkInitializeOperatorSnapshot epoch_marker
        epoch_state config ncn operator ncn_operator_state epoch_snapshot operator_snapshot account_payer
        (default SYSTEM_PROGRAM (of_role Role.system_program))) (InitializeOperatorSnapshot.mkArgs epoch))
  | ReallocOperatorSnapshot epoch =>
      epoch_state ← of_role Role.epoch_state; config ← of_role Role.config;
      restaking_config ← of_role Role.restaking_config; ncn ← of_role Role.ncn; operator ← of_role Role.operator;
      ncn_operator_state ← of_role Role.ncn_operator_state; epoch_snapshot ← of_role Role.epoch_snapshot;
      operator_snapshot ← of_role Role.operator_snapshot; account_payer ← of_role Role.account_payer;
      Some (CallReallocOperatorSnapshot (ReallocOperatorSnapshot.mkReallocOperatorSnapshot epoch_state config
        restaking_config ncn operator ncn_operator_state epoch_snapshot operator_snapshot account_payer
        (default SYSTEM_PROGRAM (of_role Role.system_program))) (ReallocOperatorSnapshot.mkArgs epoch))
  | SnapshotVaultOperatorDelegation epoch =>
      epoch_state ← of_role Role.epoch_state; config ← of_role Role.config;
      restaking_config ← of_role Role.restaking_config; ncn ← of_role Role.ncn; operator ← of_role Role.operator;
      vault ← of_role Role.vault; vault_ncn_ticket ← of_role Role.vault_ncn_ticket;
      ncn_vault_ticket ← of_role Role.ncn_vault_ticket;
      vault_operator_delegation ← of_role Role.vault_operator_delegation; weight_table ← of_role Role.weight_table;
      epoch_snapshot ← of_role Role.epoch_snapshot; operator_snapshot ← of_role Role.operator_snapshot;
      Some (CallSnapshotVaultOperatorDelegation (SnapshotVaultOperatorDelegation.mkSnapshotVaultOperatorDelegation
        epoch_state config restaking_config ncn operator vault vault_ncn_ticket ncn_vault_ticket
        vault_operator_delegation weight_table epoch_snapshot operator_snapshot) (SnapshotVaultOperatorDelegation.mkArgs epoch))
  | InitializeBallotBox epoch =>
      epoch_marker ← of_role Role.epoch_marker; epoch_state ← of_role Role.epoch_state;
      config ← of_role Role.config; ballot_box ← of_role Role.ballot_box; ncn ← of_role Role.ncn;
      account_payer ← of_role Role.account_payer;
      Some (CallInitializeBallotBox (InitializeBallotBox.mkInitializeBallotBox epoch_marker epoch_state config
        ballot_box ncn account_payer (default SYSTEM_PROGRAM (of_role Role.system_program))) (InitializeBallotBox.mkArgs epoch))
  | ReallocBallotBox epoch =>
      epoch_state ← of_role Role.epoch_state; config ← of_role Role.config; ballot_box ← of_role Role.ballot_box;
      ncn ← of_role Role.ncn; account_payer ← of_role Role.account_payer;
      Some (CallReallocBallotBox (ReallocBallotBox.mkReallocBallotBox epoch_state config ballot_box ncn
        account_payer (default SYSTEM_PROGRAM (of_role Role.system_program))) (ReallocBallotBox.mkArgs epoch))
  | CastVote meta_merkle_root epoch =>
      epoch_state ← of_role Role.epoch_state; config ← of_role Role.config; ballot_box ← of_role Role.ballot_box;
      ncn ← of_role Role.ncn; epoch_snapshot ← of_role Role.epoch_snapshot;
      operator_snapshot ← of_role Role.operator_snapshot; operator ← of_role Role.operator;
      operator_voter ← of_role Role.operator_voter;
      Some (CallCastVote (CastVote.mkCastVote epoch_state config ballot_box ncn epoch_snapshot operator_snapshot
        operator operator_voter) (CastVote.mkArgs meta_merkle_root epoch))
  | InitializeBaseRewardRouter epoch =>
      epoch_marker ← of_role Role.epoch_marker; epoch_state ← of_role Role.epoch_state; ncn ← of_role Role.ncn;
      base_reward_router ← of_role Role.base_reward_router;
      base_reward_receiver ← of_role Role.base_reward_receiver; account_payer ← of_role Role.account_payer;
      Some (CallInitializeBaseRewardRouter (InitializeBaseRewardRouter.mkInitializeBaseRewardRouter epoch_marker
        epoch_state ncn base_reward_router base_reward_receiver account_payer
        (default SYSTEM_PROGRAM (of_role Role.system_program))) (InitializeBaseRewardRouter.mkArgs epoch))
  | ReallocBaseRewardRouter epoch =>
      epoch_state ← of_role Role.epoch_state; config ← of_role Role.config;
      base_reward_router ← of_role Role.base_reward_router; ncn ← of_role Role.ncn;
      account_payer ← of_role Role.account_payer;
      Some (CallReallocBaseRewardRouter (ReallocBaseRewardRouter.mkReallocBaseRewardRouter epoch_state config
        base_reward_router ncn account_payer (default SYSTEM_PROGRAM (of_role Role.system_program))) (ReallocBaseRewardRouter.mkArgs epoch))
  | InitializeNcnRewardRouter ncn_fee_group epoch =>
      epoch_marker ← of_role Role.epoch_marker; epoch_state ← of_role Role.epoch_state; ncn ← of_role Role.ncn;
      operator ← of_role Role.operator; operator_snapshot ← of_role Role.operator_snapshot;
      ncn_reward_router ← of_role Role.ncn_reward_router; ncn_reward_receiver ← of_role Role.ncn_reward_receiver;
      account_payer ← of_role Role.account_payer;
      Some (CallInitializeNcnRewardRouter (InitializeNcnRewardRouter.mkInitializeNcnRewardRouter epoch_marker
        epoch_state ncn operator operator_snapshot ncn_reward_router ncn_reward_receiver account_payer
        (default SYSTEM_PROGRAM (of_role Role.system_program))) (InitializeNcnRewardRouter.mkArgs ncn_fee_group epoch))
  | RouteBaseRewards max_iterations epoch =>
      epoch_state ← of_role Role.epoch_state; config ← of_role Role.config; ncn ← of_role Role.ncn;
      epoch_snapshot ← of_role Role.epoch_snapshot; ballot_box ← of_role Role.ballot_box;
      base_reward_router ← of_role Role.base_reward_router;
      base_reward_receiver ← of_role Role.base_reward_receiver;
      Some (CallRouteBaseRewards (RouteBaseRewards.mkRouteBaseRewards epoch_state config ncn epoch_snapshot
        ballot_box base_reward_router base_reward_receiver) (RouteBaseRewards.mkArgs max_iterations epoch))
  | RouteNcnRewards ncn_fee_group max_iterations epoch =>
      epoch_state ← of_role Role.epoch_state; ncn ← of_role Role.ncn; operator ← of_role Role.operator;
      operator_snapshot ← of_role Role.operator_snapshot; ncn_reward_router ← of_role Role.ncn_reward_router;
      ncn_reward_receiver ← of_role Role.ncn_reward_receiver;
      Some (CallRouteNcnRewards (RouteNcnRewards.mkRouteNcnRewards epoch_state ncn operator operator_snapshot
        ncn_reward_router ncn_reward_receiver) (RouteNcnRewards.mkArgs ncn_fee_group max_iterations epoch))
  | DistributeBaseRewards base_fee_group epoch =>
      epoch_state ← of_role Role.epoch_state; config ← of_role Role.config; ncn ← of_role Role.ncn;
      base_reward_router ← of_role Role.base_reward_router;
      base_reward_receiver ← of_role Role.base_reward_receiver; base_fee_wallet ← of_role Role.base_fee_wallet;
      base_fee_wallet_ata ← of_role Role.base_fee_wallet_ata; stake_pool_program ← of_role Role.stake_pool_program;
      stake_pool ← of_role Role.stake_pool;
      stake_pool_withdraw_authority ← of_role Role.stake_pool_withdraw_authority;
      reserve_stake ← of_role Role.reserve_stake; manager_fee_account ← of_role Role.manager_fee_account;
      referrer_pool_tokens_account ← of_role Role.referrer_pool_tokens_account; pool_mint ← of_role Role.pool_mint;
      Some (CallDistributeBaseRewards (DistributeBaseRewards.mkDistributeBaseRewards epoch_state config ncn
        base_reward_router base_reward_receiver base_fee_wallet base_fee_wallet_ata stake_pool_program stake_pool
        stake_pool_withdraw_authority reserve_stake manager_fee_account referrer_pool_tokens_account pool_mint
        (default TOKEN_PROGRAM (of_role Role.token_program)) (default SYSTEM_PROGRAM (of_role Role.system_program))) (DistributeBaseRewards.mkArgs base_fee_group epoch))
  | DistributeBaseNcnRewardRoute ncn_fee_group epoch =>
      epoch_state ← of_role Role.epoch_state; config ← of_role Role.config; ncn ← of_role Role.ncn;
      operator ← of_role Role.operator; base_reward_router ← of_role Role.base_reward_router;
      base_reward_receiver ← of_role Role.base_reward_receiver; ncn_reward_router ← of_role Role.ncn_reward_router;
      ncn_reward_receiver ← of_role Role.ncn_reward_receiver;
      Some (CallDistributeBaseNcnRewardRoute (DistributeBaseNcnRewardRoute.mkDistributeBaseNcnRewardRoute
        epoch_state config ncn operator base_reward_router base_reward_receiver ncn_reward_router
        ncn_reward_receiver (default SYSTEM_PROGRAM (of_role Role.system_program))) (DistributeBaseNcnRewardRoute.mkArgs ncn_fee_group epoch))
  | DistributeNcnOperatorRewards ncn_fee_group epoch =>
      epoch_state ← of_role Role.epoch_state; config ← of_role Role.config; ncn ← of_role Role.ncn;
      operator ← of_role Role.operator; operator_ata ← of_role Role.operator_ata;
      operator_snapshot ← of_role Role.operator_snapshot; ncn_reward_router ← of_role Role.ncn_reward_router;
      ncn_reward_receiver ← of_role Role.ncn_reward_receiver; stake_pool_program ← of_role Role.stake_pool_program;
      stake_pool ← of_role Role.stake_pool;
      stake_pool_withdraw_authority ← of_role Role.stake_pool_withdraw_authority;
      reserve_stake ← of_role Role.reserve_stake; manager_fee_account ← of_role Role.manager_fee_account;
      referrer_pool_tokens_account ← of_role Role.referrer_pool_tokens_account; pool_mint ← of_role Role.pool_mint;
      Some (CallDistributeNcnOperatorRewards (DistributeNcnOperatorRewards.mkDistributeNcnOperatorRewards
        epoch_state config ncn operator operator_ata operator_snapshot ncn_reward_router ncn_reward_receiver
        stake_pool_program stake_pool stake_pool_withdraw_authority reserve_stake manager_fee_account
        referrer_pool_tokens_account pool_mint (default TOKEN_PROGRAM (of_role Role.token_program))
        (default SYSTEM_PROGRAM (of_role Role.system_program))) (DistributeNcnOperatorRewards.mkArgs ncn_fee_group epoch))
  | DistributeNcnVaultRewards ncn_fee_group epoch =>
      epoch_state ← of_role Role.epoch_state; config ← of_role Role.config; ncn ← of_role Role.ncn;
      operator ← of_role Role.operator; vault ← of_role Role.vault; vault_ata ← of_role Role.vault_ata;
      operator_snapshot ← of_role Role.operator_snapshot; ncn_reward_router ← of_role Role.ncn_reward_router;
      ncn_reward_receiver ← of_role Role.ncn_reward_receiver; stake_pool_program ← of_role Role.stake_pool_program;
      stake_pool ← of_role Role.stake_pool;
      stake_pool_withdraw_authority ← of_role Role.stake_pool_withdraw_authority;
      reserve_stake ← of_role Role.reserve_stake; manager_fee_account ← of_role Role.manager_fee_account;
      referrer_pool_tokens_account ← of_role Role.referrer_pool_tokens_account; pool_mint ← of_role Role.pool_mint;
      Some (CallDistributeNcnVaultRewards (DistributeNcnVaultRewards.mkDistributeNcnVaultRewards epoch_state config
        ncn operator vault vault_ata operator_snapshot ncn_reward_router ncn_reward_receiver stake_pool_program
        stake_pool stake_pool_withdraw_authority reserve_stake manager_fee_account referrer_pool_tokens_account
        pool_mint (default TOKEN_PROGRAM (of_role Role.token_program))
        (default SYSTEM_PROGRAM (of_role Role.system_program))) (DistributeNcnVaultRewards.mkArgs ncn_fee_group epoch))
  | CloseEpochAccount epoch =>
      epoch_marker ← of_role Role.epoch_marker; epoch_state ← of_role Role.epoch_state;
      config ← of_role Role.config; ncn ← of_role Role.ncn; account_to_close ← of_role Role.account_to_close;
      account_payer ← of_role Role.account_payer; dao_wallet ← of_role Role.dao_wallet;
      Some (CallCloseEpochAccount (CloseEpochAccount.mkCloseEpochAccount epoch_marker epoch_state config ncn
        account_to_close account_payer dao_wallet (default SYSTEM_PROGRAM (of_role Role.system_program))
        (of_role Role.receiver_to_close)) (CloseEpochAccount.mkArgs epoch))
  | AdminSetParameters epochs_before_stall epochs_after_consensus_before_close valid_slots_after_consensus starting_valid_epoch =>
      config ← of_role Role.config; ncn ← of_role Role.ncn; ncn_admin ← of_role Role.ncn_admin;
      Some (CallAdminSetParameters (AdminSetParameters.mkAdminSetParameters config ncn ncn_admin) (AdminSetParameters.mkArgs starting_valid_epoch epochs_before_stall epochs_after_consensus_before_close valid_slots_after_consensus))
  | AdminSetConfigFees new_block_engine_fee_bps base_fee_group new_base_fee_wallet new_base_fee_bps ncn_fee_group new_ncn_fee_bps =>
      config ← of_role Role.config; ncn ← of_role Role.ncn; ncn_admin ← of_role Role.ncn_admin;
      Some (CallAdminSetConfigFees (AdminSetConfigFees.mkAdminSetConfigFees config ncn ncn_admin) (AdminSetConfigFees.mkArgs new_block_engine_fee_bps base_fee_group new_base_fee_wallet new_base_fee_bps ncn_fee_group new_ncn_fee_bps))
  | AdminSetNewAdmin role =>
      config ← of_role Role.config; ncn ← of_role Role.ncn; ncn_admin ← of_role Role.ncn_admin;
      new_admin ← of_role Role.new_admin;
      Some (CallAdminSetNewAdmin (AdminSetNewAdmin.mkAdminSetNewAdmin config ncn ncn_admin new_admin) (AdminSetNewAdmin.mkArgs role))
  | AdminSetTieBreaker meta_merkle_root epoch =>
      epoch_state ← of_role Role.epoch_state; config ← of_role Role.config; ballot_box ← of_role Role.ballot_box;
      ncn ← of_role Role.ncn; tie_breaker_admin ← of_role Role.tie_breaker_admin;
      Some (CallAdminSetTieBreaker (AdminSetTieBreaker.mkAdminSetTieBreaker epoch_state config ballot_box ncn
        tie_breaker_admin) (AdminSetTieBreaker.mkArgs meta_merkle_root epoch))
  | AdminSetWeight st_mint weight epoch =>
      epoch_state ← of_role Role.epoch_state; ncn ← of_role Role.ncn; weight_table ← of_role Role.weight_table;
      weight_table_admin ← of_role Role.weight_table_admin;
      Some (CallAdminSetWeight (AdminSetWeight.mkAdminSetWeight epoch_state ncn weight_table weight_table_admin) (AdminSetWeight.mkArgs st_mint weight epoch))
  | AdminRegisterStMint ncn_fee_group reward_multiplier_bps switchboard_feed no_feed_weight =>
      config ← of_role Role.config; ncn ← of_role Role.ncn; st_mint ← of_role Role.st_mint;
      vault_registry ← of_role Role.vault_registry; admin ← of_role Role.admin;
      Some (CallAdminRegisterStMint (AdminRegisterStMint.mkAdminRegisterStMint config ncn st_mint vault_registry
        admin) (AdminRegisterStMint.mkArgs ncn_fee_group reward_multiplier_bps switchboard_feed no_feed_weight))
  | _ => None
  end.

(** The key that the builder has for a role. *)
Definition builder_key (ix : Rpc.Instruction) (r : Role) : option Pubkey :=
  match r with
  | Role.system_program => Some (default SYSTEM_PROGRAM (account_of ix r))
  | Role.token_program => Some (default TOKEN_PROGRAM (account_of ix r))
  | _ => account_of ix r
  end.

(** Nothing is missing. *)
Definition complete (ix : Rpc.Instruction) : Prop := Forall (fun r => is_Some (account_of ix r)) (needed (ix_data ix)).

#[local] Ltac account_values :=
  repeat match goal with
  | H : Forall _ (_ :: _) |- _ => apply list.Forall_cons in H as [[? ?] H]
  end.
#[local] Ltac use_values := repeat match goal with H : account_of _ _ = Some _ |- _ => rewrite H; clear H end.

(** The builder of a complete instruction makes the client's call, with the
    instruction's accounts under their roles' names. *)
Lemma build_complete ix instruction :
  tip_router_ix (ix_data ix) = Some instruction -> complete ix ->
  exists c, build ix = Some (instruction_of c) /\ program_ix c = instruction /\
    map (fun a => (a.1, Some a.2)) (keys c)
    = map (fun r => (role_name r, builder_key ix r)) (needed (ix_data ix) ++ defaulted (ix_data ix)).
Proof using Type.
  intros Hix Hc. assert (exists c, call_of ix = Some c) as [c Hcall].
  { destruct ix as [d accounts]. unfold complete in Hc.
    destruct d; try discriminate Hix; cbn [needed ix_data] in Hc; account_values; unfold call_of; cbn [ix_data];
      use_values; eexists; reflexivity. }
  exists c. destruct ix as [d accounts]. unfold complete in Hc.
  destruct d; try discriminate Hix; cbn [needed ix_data] in Hc; account_values; injection Hix as <-;
    unfold call_of in Hcall; unfold build; cbn [ix_data] in *;
    repeat match goal with H : account_of _ _ = Some _ |- _ => rewrite H in Hcall; cbn [mbind option_bind] in Hcall end;
    injection Hcall as <-; (split; [|split; [reflexivity|]]).
  all: cbn [keys map needed defaulted app role_name builder_key fst snd ix_data]; try (use_values; reflexivity).
Qed.
End tool.

