(* ===== verification/ClientAddresses.v ===== *)
(** Every tip router instruction the cranks send names the accounts that the
    program derives: the addresses its handlers check, for the epoch the crank is
    for.  It holds when the command line tool is run for the program id it was
    built with; otherwise some instructions name accounts of the other program. *)

From Stdlib Require Import String.
From S2P Require Import Prelude Errors External Constants Accounts FeeGroups Fees Config StakeWeight VaultRegistry WeightTable EpochSnapshot EpochState BallotBox BaseRewardRouter NcnRewardRouter SetupHandlers Getters Rpc Instructions Cranks ToolCalls.

(** The epoch and the fee group among an instruction's arguments. *)
Definition ix_epoch (d : IxData) : option Z :=
  match d with
  | AdminSetWeight _ _ e | AdminSetTieBreaker _ e | InitializeEpochState e | ReallocEpochState e | InitializeWeightTable e
  | ReallocWeightTable e | SwitchboardSetWeight _ e | InitializeEpochSnapshot e | InitializeOperatorSnapshot e
  | ReallocOperatorSnapshot e | SnapshotVaultOperatorDelegation e | InitializeBallotBox e | ReallocBallotBox e | CastVote _ e
  | InitializeBaseRewardRouter e | ReallocBaseRewardRouter e | InitializeNcnRewardRouter _ e | RouteBaseRewards _ e
  | RouteNcnRewards _ _ e | DistributeBaseNcnRewardRoute _ e | DistributeBaseRewards _ e | DistributeNcnVaultRewards _ e
  | DistributeNcnOperatorRewards _ e | CloseEpochAccount e => Some e
  | _ => None
  end.

Definition ix_group (d : IxData) : option Z :=
  match d with
  | InitializeNcnRewardRouter g _ | RouteNcnRewards g _ _ | DistributeBaseNcnRewardRoute g _ | DistributeNcnVaultRewards g _
  | DistributeNcnOperatorRewards g _ => Some g
  | _ => None
  end.

Section addresses.
Context {W : Type} `{Solana} `{KeeperAccounts} `{Clients} `{Rpc W}.

(** The address an account has under a role, given the operator and the vault
    the instruction names and its fee group. *)
Definition pda (h : CliHandler) (ncn : Pubkey) (epoch : Z) (operator vault : option Pubkey) (group : option Z) (r : Role)
    : option Pubkey :=
  let pid := h_tip_router_program_id h in
  match r with
  | Role.ncn => Some ncn
  | Role.system_program => Some system_program_id
  | Role.config => Some (Config.find_program_address pid ncn).1.1
  | Role.vault_registry => Some (VaultRegistry.find_program_address pid ncn).1.1
  | Role.account_payer => Some (AccountPayer.find_program_address pid ncn).1.1
  | Role.epoch_marker => Some (EpochMarker.find_program_address pid ncn epoch).1.1
  | Role.epoch_state => Some (EpochState.find_program_address pid ncn epoch).1.1
  | Role.weight_table => Some (WeightTable.find_program_address pid ncn epoch).1.1
  | Role.epoch_snapshot => Some (EpochSnapshot.find_program_address pid ncn epoch).1.1
  | Role.ballot_box => Some (BallotBox.find_program_address pid ncn epoch).1.1
  | Role.base_reward_router => Some (BaseRewardRouter.find_program_address pid ncn epoch).1.1
  | Role.base_reward_receiver => Some (BaseRewardReceiver.find_program_address pid ncn epoch).1.1
  | Role.restaking_config => Some (restaking_config_address (h_restaking_program_id h))
  | Role.operator_snapshot =>
      operator ← operator; Some (OperatorSnapshot.find_program_address pid operator ncn epoch).1.1
  | Role.ncn_operator_state => operator ← operator; Some (ncn_operator_state_address (h_restaking_program_id h) ncn operator)
  | Role.ncn_reward_router =>
      operator ← operator; group ← group;
      Some (NcnRewardRouter.find_program_address pid (NcnFeeGroup.mk group) operator ncn epoch).1.1
  | Role.ncn_reward_receiver =>
      operator ← operator; group ← group;
      Some (NcnRewardReceiver.find_program_address pid (NcnFeeGroup.mk group) operator ncn epoch).1.1
  | Role.ncn_vault_ticket => vault ← vault; Some (ncn_vault_ticket_address (h_restaking_program_id h) ncn vault)
  | Role.vault_ncn_ticket => vault ← vault; Some (vault_ncn_ticket_address (h_vault_program_id h) vault ncn)
  | Role.vault_operator_delegation =>
      operator ← operator; vault ← vault; Some (vault_operator_delegation_address (h_vault_program_id h) vault operator)
  | _ => None
  end.

(** The instruction misses nothing that its builder needs, is for [epoch], and what it
    names under the roles above are their addresses; instructions of other programs
    are not concerned. *)
Definition addressed (h : CliHandler) (ncn : Pubkey) (epoch : Z) (ix : Instruction) : Prop :=
  match tip_router_ix (ix_data ix) with
  | Some _ => complete ix /\ from_option (fun e => e = epoch) True (ix_epoch (ix_data ix)) /\
      Forall (fun a : Role * Pubkey =>
        forall k, pda h ncn epoch (account_of ix Role.operator) (account_of ix Role.vault) (ix_group (ix_data ix)) a.1 = Some k ->
          a.2 = k) (ix_accounts ix)
  | None => True
  end.

Definition request_addressed (h : CliHandler) (ncn : Pubkey) (epoch : Z) (rq : Request) : Prop :=
  Forall (addressed h ncn epoch) (rq_instructions rq).

Context (fuel : nat) (h : CliHandler) (ncn : Pubkey) (epoch : Z).
Hypothesis (Hncn : h_ncn h = Some ncn) (Hid : h_tip_router_program_id h = tip_router_id).
Hypothesis (Hfeed : forall w feed payer ix w', rpc_fetch_update_ix w feed payer = (Ok ix, w') -> exists d, ix_data ix = PullFeedUpdate d).

Lemma realloc_addressed size ix signers tried :
  addressed h ncn epoch ix -> request_addressed h ncn epoch (mkRequest (realloc_ixs size ix) signers tried).
Proof.
  intros Hix. unfold request_addressed, realloc_ixs. cbn [rq_instructions]. constructor; [done|].
  by apply Forall_replicate.
Qed.

Lemma addressed_request ixs signers tried :
  Forall (addressed h ncn epoch) ixs -> request_addressed h ncn epoch (mkRequest ixs signers tried).
Proof. done. Qed.

Lemma update_not_concerned feed payer (f : Instruction -> Client W unit) :
  (forall ix, tip_router_ix (ix_data ix) = None -> emits (request_addressed h ncn epoch) (f ix)) ->
  emits (request_addressed h ncn epoch) (fetch_update_ix feed payer ≫= f).
Proof.
  intros Hf. eapply (does_bind _ (fun ix => tip_router_ix (ix_data ix) = None)); [|exact Hf].
  intros w. unfold fetch_update_ix. destruct (rpc_fetch_update_ix w feed payer) as [[ix|[]] w'] eqn:E; (split; [constructor|]); try done.
  intros ? [= <-]. destruct (Hfeed _ _ _ _ _ E) as [d ->]. done.
Qed.
End addresses.

(** An instruction whose accounts are the addresses, by evaluation. *)
Ltac addressed_ix :=
  unfold addressed; cbn [ix_data tip_router_ix ix_epoch ix_group ix_accounts app from_option];
  first
    [ exact I
    | split; [unfold complete; cbn [ix_data needed]; repeat apply Forall_cons_2; try apply Forall_nil_2; eexists; reflexivity|];
      split; [try exact I; reflexivity|]; repeat apply Forall_cons_2; try apply Forall_nil_2; cbn; intros k;
      try discriminate; try (intros [= <-]); congruence ].

Ltac addressed_request :=
  first
    [ apply realloc_addressed; addressed_ix
    | apply addressed_request; cbn [app]; repeat apply Forall_cons_2; try apply Forall_nil_2; addressed_ix ].

Section cranks.
Context {W : Type} `{Solana} `{KeeperAccounts} `{Clients} `{Rpc W}.
Context (fuel : nat) (h : CliHandler) (ncn : Pubkey) (epoch : Z).
Hypothesis (Hncn : h_ncn h = Some ncn) (Hid : h_tip_router_program_id h = tip_router_id).
Hypothesis (Hfeed : forall w feed payer ix w', rpc_fetch_update_ix w feed payer = (Ok ix, w') -> exists d, ix_data ix = PullFeedUpdate d).

Abbreviation well_addressed := (emits (W := W) (request_addressed h ncn epoch)).

Lemma initialize_addressed address ix : addressed h ncn epoch ix -> well_addressed (initialize_if_missing h address ix).
Proof using. intros Hix. unfold initialize_if_missing. repeat emit_step. by apply list.Forall_singleton. Qed.

Lemma check_created_addressed address : well_addressed (check_created address).
Proof using.
  unfold check_created. assert (Hr : forall n, well_addressed (read_created n address)).
  { induction n; cbn [read_created]; repeat emit_step; auto. }
  repeat emit_step. apply Hr.
Qed.

Ltac address := unfold initialize_if_missing; repeat emit_step; addressed_request.

Lemma register_vault_addressed vault : well_addressed (register_vault h vault).
Proof using Hncn. unfold register_vault. address. Qed.

Lemma create_epoch_state_addressed : well_addressed (create_epoch_state h epoch).
Proof using Hncn Hid. unfold create_epoch_state. address. Qed.
Lemma create_weight_table_addressed : well_addressed (create_weight_table h epoch).
Proof using Hncn Hid. unfold create_weight_table. address. Qed.
Lemma create_epoch_snapshot_addressed : well_addressed (create_epoch_snapshot h epoch).
Proof using Hncn Hid. unfold create_epoch_snapshot. address. Qed.
Lemma create_operator_snapshot_addressed operator : well_addressed (create_operator_snapshot h operator epoch).
Proof using Hncn Hid. unfold create_operator_snapshot. address. Qed.
Lemma create_ballot_box_addressed : well_addressed (create_ballot_box h epoch).
Proof using Hncn Hid. unfold create_ballot_box. address. Qed.
Lemma create_base_reward_router_addressed : well_addressed (create_base_reward_router h epoch).
Proof using Hncn Hid. unfold create_base_reward_router. address. Qed.
Lemma create_ncn_reward_router_addressed group operator : well_addressed (create_ncn_reward_router h group operator epoch).
Proof using Hncn Hid. destruct group. unfold create_ncn_reward_router. address. Qed.
Lemma snapshot_delegation_addressed vault operator : well_addressed (snapshot_vault_operator_delegation h vault operator epoch).
Proof using Hncn Hid. unfold snapshot_vault_operator_delegation. address. Qed.
Lemma operator_cast_vote_addressed operator root : well_addressed (operator_cast_vote h operator epoch root).
Proof using Hncn Hid. unfold operator_cast_vote. address. Qed.
Lemma distribute_base_ncn_addressed operator group : well_addressed (distribute_base_ncn_rewards h operator group epoch).
Proof using Hncn Hid. destruct group. unfold distribute_base_ncn_rewards. address. Qed.
Lemma distribute_base_addressed group : well_addressed (distribute_base_rewards h group epoch).
Proof using Hncn Hid. unfold distribute_base_rewards. address. Qed.
Lemma distribute_vault_addressed vault operator group : well_addressed (distribute_ncn_vault_rewards h vault operator group epoch).
Proof using Hncn Hid. destruct group. unfold distribute_ncn_vault_rewards. address. Qed.
Lemma distribute_operator_addressed operator group : well_addressed (distribute_ncn_operator_rewards h operator group epoch).
Proof using Hncn Hid. destruct group. unfold distribute_ncn_operator_rewards. address. Qed.
Lemma close_addressed account receiver : well_addressed (close_epoch_account h ncn epoch account receiver).
Proof using Hncn Hid. destruct receiver; unfold close_epoch_account; repeat emit_step; addressed_request. Qed.

Lemma route_until_addressed ixs read : Forall (addressed h ncn epoch) ixs -> well_addressed (route_until fuel h ixs read).
Proof using. intros Hix. induction fuel as [|n IH]; cbn [route_until]; repeat emit_step; auto. Qed.

Lemma route_base_addressed : well_addressed (route_base_rewards fuel h epoch).
Proof using Hncn Hid. unfold route_base_rewards. emit_step. apply route_until_addressed. repeat apply Forall_cons_2; try apply Forall_nil_2; addressed_ix. Qed.
Lemma route_ncn_addressed operator group : well_addressed (route_ncn_rewards fuel h operator group epoch).
Proof using Hncn Hid. destruct group. unfold route_ncn_rewards. emit_step. apply route_until_addressed. repeat apply Forall_cons_2; try apply Forall_nil_2; addressed_ix. Qed.

Lemma wait_addressed slots : well_addressed (wait_for_x_slots_after_epoch fuel slots).
Proof using. induction fuel as [|n IH]; cbn [wait_for_x_slots_after_epoch]; repeat emit_step; auto. Qed.

Lemma crank_switchboard_addressed feed : well_addressed (crank_switchboard fuel h feed).
Proof using Hfeed.
  unfold crank_switchboard. apply emits_bind; [emit_step|intros payer]. case_bool_decide; [emit_step|].
  apply emits_bind; [apply wait_addressed|intros _].
  apply update_not_concerned; [done|]. intros ix Hix. emit_step. apply addressed_request.
  repeat apply Forall_cons_2; try apply Forall_nil_2; unfold addressed; [done|]. by rewrite Hix.
Qed.

Lemma set_weight_addressed st_mint : well_addressed (set_weight_with_st_mint fuel h st_mint epoch).
Proof using Hncn Hid Hfeed.
  unfold set_weight_with_st_mint. repeat emit_step; [apply crank_switchboard_addressed|addressed_request].
Qed.

(** The middleware creates what is missing, then reads it. *)
Lemma weight_table_addressed : well_addressed (get_or_create_weight_table h epoch).
Proof using Hncn Hid. unfold get_or_create_weight_table. repeat emit_step; auto using create_weight_table_addressed, check_created_addressed. Qed.
Lemma epoch_snapshot_addressed : well_addressed (get_or_create_epoch_snapshot h epoch).
Proof using Hncn Hid. unfold get_or_create_epoch_snapshot. repeat emit_step; auto using create_epoch_snapshot_addressed, check_created_addressed. Qed.
Lemma operator_snapshot_addressed operator : well_addressed (get_or_create_operator_snapshot h operator epoch).
Proof using Hncn Hid. unfold get_or_create_operator_snapshot. repeat emit_step; auto using create_operator_snapshot_addressed, check_created_addressed. Qed.
Lemma ballot_box_addressed : well_addressed (get_or_create_ballot_box h epoch).
Proof using Hncn Hid. unfold get_or_create_ballot_box. repeat emit_step; auto using create_ballot_box_addressed, check_created_addressed. Qed.
Lemma base_reward_router_addressed : well_addressed (get_or_create_base_reward_router h epoch).
Proof using Hncn Hid. unfold get_or_create_base_reward_router. repeat emit_step; auto using create_base_reward_router_addressed, check_created_addressed. Qed.
Lemma ncn_reward_router_addressed group operator : well_addressed (get_or_create_ncn_reward_router h group operator epoch).
Proof using Hncn Hid. unfold get_or_create_ncn_reward_router. repeat emit_step; auto using create_ncn_reward_router_addressed, check_created_addressed. Qed.

(** The vault updates are instructions of the vault program. *)
Lemma full_vault_update_addressed vault : well_addressed (full_vault_update h vault).
Proof using. unfold full_vault_update, update_vault, crank_operator. repeat emit_step; by repeat constructor. Qed.

Lemma distribute_addressed : well_addressed (crank_distribute fuel h epoch).
Proof using Hncn Hid.
  unfold crank_distribute, distribute_base_group, distribute_ncn_group, distribute_ncn_router. repeat emit_step;
    auto using epoch_snapshot_addressed, base_reward_router_addressed, ncn_reward_router_addressed, route_base_addressed,
      distribute_base_addressed, distribute_base_ncn_addressed, route_ncn_addressed, distribute_operator_addressed,
      distribute_vault_addressed.
Qed.

Lemma test_vote_addressed : well_addressed (crank_test_vote h epoch).
Proof using Hncn Hid.
  unfold crank_test_vote. repeat emit_step; auto using operator_cast_vote_addressed, ballot_box_addressed.
  by repeat constructor.
Qed.

(** Every instruction of every crank is addressed to the accounts the program
    derives. *)
Lemma cranks_addressed state test_vote w : Forall (request_addressed h ncn epoch) (requests (crank fuel h state epoch test_vote w)).
Proof using Hncn Hid Hfeed.
  assert (Hall : well_addressed (crank fuel h state epoch test_vote)); [|apply Hall].
  destruct state; cbn [crank];
    unfold crank_set_weight, crank_snapshot, snapshot_operator, crank_vote, crank_close_epoch_accounts; repeat emit_step;
    auto using weight_table_addressed, set_weight_addressed, epoch_snapshot_addressed, operator_snapshot_addressed,
      full_vault_update_addressed, snapshot_delegation_addressed, ballot_box_addressed, test_vote_addressed,
      distribute_addressed, close_addressed.
Qed.
End cranks.

(** The tie breaker's admin is the caller, whoever was asked for. *)
Lemma create_config_ignores_tie_breaker {W : Type} `{Solana} `{KeeperAccounts} `{Clients} `{Rpc W} (h : CliHandler)
    stall valid close dao engine ncn_fee wallet admin1 admin2 :
  admin_create_config (W := W) h stall valid close dao engine ncn_fee wallet admin1
  = admin_create_config h stall valid close dao engine ncn_fee wallet admin2.
Proof. reflexivity. Qed.

(* ------------------------------------------------------------------ *)
(** * A concrete network *)

(** A network without accounts that confirms everything. *)
Module EmptyNetwork.
Import ConcreteSolana ConcretePrograms ConcreteClients.

#[export] Instance no_accounts : KeeperAccounts := {|
  decode_config d := Err Failed;
  decode_vault_registry d := Err Failed;
  decode_epoch_state d := Err Failed;
  decode_weight_table d := Err Failed;
  decode_epoch_snapshot d := Err Failed;
  decode_operator_snapshot d := Err Failed;
  decode_ballot_box d := Err Failed;
  decode_base_reward_router d := Err Failed;
  decode_ncn_reward_router d := Err Failed;
  decode_epoch_marker d := Err Failed;
|}.

Definition empty_node : Node :=
  mkNode (fun _ => Ok None) (fun _ _ => Ok []) (Ok 1000) (Ok (5, 1000)) (Ok (fun _ => 432000)) (fun _ => Ok 0).

#[export] Instance confirms : Rpc unit := {|
  rpc_node w := (empty_node, w);
  rpc_blockhash w := (true, w);
  rpc_process w tx := (true, w);
  rpc_fetch_update_ix w feed payer := (Err Failed, w);
  rpc_new_keypair w := (key 99, w);
|}.

Definition h : CliHandler := mkCliHandler (Some (key 3)) (key 90) (key 91) (key 77) (key 202) (Some (key 9)) 5 2 1.
End EmptyNetwork.
