(* ===== verification/CrankAbi.v ===== *)
(** From the command line tool to the program's handlers: every tip router
    instruction of every crank has all that its builder needs, passes the program's
    entry point, and reaches the handler for it with the accounts that the handler
    derives. *)

From Stdlib Require Import String.
From S2P Require Import Prelude Errors External Config EpochState Borsh TipRouterIx GeneratedClient ClientAbi Getters Rpc Instructions Cranks ToolCalls ClientAddresses.
#[local] Open Scope string_scope.
#[local] Open Scope list_scope.

Lemma role_name_inj r1 r2 : role_name r1 = role_name r2 -> r1 = r2.
Proof. destruct r1; destruct r2; intros H; first [reflexivity|discriminate H]. Qed.

Lemma account_of_elem ix r k : account_of ix r = Some k -> (r, k) ∈ ix_accounts ix.
Proof.
  unfold account_of. destruct (list_find _ _) as [[i [r' k']]|] eqn:E; [|done].
  apply list_find_Some in E as (Hi & Hr & _). cbn in *. subst r'. intros [= <-]. by eapply list_elem_of_lookup_2.
Qed.

Section cranks.
Context {W : Type} `{Solana} `{KeeperAccounts} `{Clients} `{Rpc W} `{B : Borsh} {BL : BorshLaws B} `{K : ClientKeys}.
Context (fuel : nat) (h : CliHandler) (ncn : Pubkey) (epoch : Z).

(** The client's constants are the ids of the programs. *)
Hypothesis (Hsystem : SYSTEM_PROGRAM = system_program_id) (Hprogram : JITO_TIP_ROUTER_ID = tip_router_id).

(** A handler finds under its own name for an account the address that has the
    account's role. *)
Lemma addressed_processed ix instruction :
  addressed h ncn epoch ix -> tip_router_ix (ix_data ix) = Some instruction ->
  exists built, build ix = Some built /\
    (TipRouterInstruction.valid instruction ->
     exists inv, process_instruction tip_router_id (in_program_id built) (in_accounts built) (in_data built) = Ok inv /\
       iv_handler inv = dispatch instruction /\
       forall name a r address, (name, a) ∈ iv_accounts inv -> client_name name = role_name r ->
         pda h ncn epoch (account_of ix Role.operator) (account_of ix Role.vault) (ix_group (ix_data ix)) r = Some address ->
         am_pubkey a = address).
Proof using BL Hsystem Hprogram.
  unfold addressed. intros Haddr Hix. rewrite Hix in Haddr. destruct Haddr as (Hcomplete & _ & Hpda).
  destruct (build_complete ix instruction Hix Hcomplete) as (c & Hbuild & <- & Hkeys).
  exists (instruction_of c). split; [done|]. intros Hv. destruct (client_processed c Hv) as (inv & Hp & Hh & Hk & _).
  rewrite <- Hprogram. exists inv. split; [done|]. split; [done|]. intros name a r address Hin Hname Hr.
  assert (Hin' : (role_name r, Some (am_pubkey a)) ∈ map (fun a => (a.1, Some a.2)) (keys c)).
  { rewrite <- Hk. apply list_elem_of_fmap. exists (role_name r, am_pubkey a). split; [done|].
    apply list_elem_of_fmap. exists (name, a). by rewrite Hname. }
  rewrite Hkeys in Hin'. apply list_elem_of_fmap in Hin' as (r' & Heq & _). injection Heq as Hn Hkey.
  apply role_name_inj in Hn as <-. rewrite list.Forall_forall in Hpda.
  assert (Hrole : forall k, account_of ix r = Some k -> k = address).
  { intros k Hof. exact (Hpda _ (account_of_elem _ _ _ Hof) _ Hr). }
  destruct r; cbn [builder_key] in Hkey; try (by apply Hrole).
  destruct (account_of ix Role.system_program) as [k|] eqn:E; cbn in Hkey; injection Hkey as ->; [by apply Hrole|].
  cbn in Hr. by rewrite Hsystem; injection Hr.
Qed.

Hypothesis (Hncn : h_ncn h = Some ncn) (Hid : h_tip_router_program_id h = tip_router_id).
Hypothesis (Hfeed : forall w feed payer ix w', rpc_fetch_update_ix w feed payer = (Ok ix, w') -> exists d, ix_data ix = PullFeedUpdate d).

(** C30: no crank panics in the builder of a tip router instruction; what the builder
    makes passes the program's entry point, which calls the instruction's handler with
    the tool's arguments; and the handler finds, under each of its names for an
    account of the epoch, the operator or the vault, the address that the program
    derives for it. *)
Theorem cranks_reach_handlers state test_vote w rq ix instruction :
  rq ∈ requests (crank fuel h state epoch test_vote w) -> ix ∈ rq_instructions rq ->
  tip_router_ix (ix_data ix) = Some instruction ->
  exists built, build ix = Some built /\
    from_option (fun e => e = epoch) True (ix_epoch (ix_data ix)) /\
    (TipRouterInstruction.valid instruction ->
     exists inv, process_instruction tip_router_id (in_program_id built) (in_accounts built) (in_data built) = Ok inv /\
       iv_handler inv = dispatch instruction /\
       forall name a r address, (name, a) ∈ iv_accounts inv -> client_name name = role_name r ->
         pda h ncn epoch (account_of ix Role.operator) (account_of ix Role.vault) (ix_group (ix_data ix)) r = Some address ->
         am_pubkey a = address).
Proof using BL Hsystem Hprogram Hncn Hid Hfeed.
  intros Hrq Hin Hix. pose proof (cranks_addressed fuel h ncn epoch Hncn Hid Hfeed state test_vote w) as Hall.
  rewrite list.Forall_forall in Hall. specialize (Hall rq Hrq). unfold request_addressed in Hall.
  rewrite list.Forall_forall in Hall. specialize (Hall ix Hin).
  destruct (addressed_processed ix instruction Hall Hix) as (built & Hb & Hp). exists built. split; [done|].
  split; [|done]. unfold addressed in Hall. rewrite Hix in Hall. apply Hall.
Qed.
End cranks.

(* ------------------------------------------------------------------ *)
(** * Witness *)

Import ConcreteSolana ConcretePrograms ConcreteClients EmptyNetwork ConcreteBorsh.

#[local] Instance client_keys : ClientKeys := {| JITO_TIP_ROUTER_ID := tip_router_id;
  SYSTEM_PROGRAM := system_program_id; TOKEN_PROGRAM := key 3 |}.

(** The voting crank first makes the ballot box. *)
Definition voting_request : Request :=
  nth 0 (requests (crank 10 EmptyNetwork.h EpochState.Vote 5 false tt)) (mkRequest [] [] []).
Definition voting_ix : Rpc.Instruction := nth 0 (rq_instructions voting_request) (mkIx InitializeNcn []).

Lemma cranks_reach_handlers_witness :
  voting_request ∈ requests (crank 10 EmptyNetwork.h EpochState.Vote 5 false tt) /\ voting_ix ∈ rq_instructions voting_request /\
  exists built inv, build voting_ix = Some built /\
    process_instruction tip_router_id (in_program_id built) (in_accounts built) (in_data built) = Ok inv /\
    iv_handler inv = Handler.process_initialize_ballot_box 5.
Proof.
  assert (Hrq : voting_request ∈ requests (crank 10 EmptyNetwork.h EpochState.Vote 5 false tt))
    by (apply (list_elem_of_lookup_2 _ 0); vm_compute; reflexivity).
  assert (Hix : voting_ix ∈ rq_instructions voting_request) by (apply (list_elem_of_lookup_2 _ 0); vm_compute; reflexivity).
  split; [done|]. split; [done|].
  assert (Hfeed : forall w feed payer ix w', rpc_fetch_update_ix (W := unit) w feed payer = (Ok ix, w') -> exists d, ix_data ix = PullFeedUpdate d)
    by (intros ? ? ? ? ? [=]).
  destruct (cranks_reach_handlers (K := client_keys) 10 EmptyNetwork.h (key 9) 5 eq_refl eq_refl eq_refl eq_refl Hfeed
    EpochState.Vote false tt voting_request voting_ix (TipRouterInstruction.InitializeBallotBox 5) Hrq Hix) as (built & Hb & _ & Hp);
    [vm_compute; reflexivity|].
  destruct Hp as (inv & Hi & Hh & _); [by split|]. exists built, inv. split; [done|]. by split.
Defined.
