(* ===== verification/ClientRouting.v ===== *)
(** The command line tool's routing loop against the program: whatever the
    network does with its transactions, and whoever else routes at the same time,
    [route_base_rewards] of the client ends, within 69 calls, and when it reports
    success the router has routed everything. *)

From Stdlib Require Import String.
From stdpp Require Import countable.
From S2P Require Import Prelude Errors External Constants Accounts FeeGroups Fees Config StakeWeight VaultRegistry WeightTable EpochSnapshot EpochState BallotBox BallotBoxProps BallotBoxTheorems BaseRewardRouter BaseRewardRouterProps BaseRouting BaseRewardTheorems NcnRewardRouter RewardHandlers BaseSide SetupHandlers VoteHandlers Getters Rpc Network Instructions Cranks.

(* ------------------------------------------------------------------ *)
(** * The handler's work on the router *)

Lemma foldM_id {E A B} (f : A -> B -> result E A) a l : (forall x, x ∈ l -> f a x = Ok a) -> foldM f a l = Ok a.
Proof.
  induction l as [|x l IH]; intros Hf; [done|]. cbn [foldM]. rewrite Hf by (by left). cbn [mbind result_bind].
  apply IH. intros y Hy. apply Hf. by right.
Qed.

Section route_body.
Context `{L : PreciseNumberLaws}.

(** What [process_route_base_rewards] does to the router. *)
Definition route_body (f : Fees) (b : BallotBox) (rent balance : Z) (r : BaseRewardRouter) (m : Z) : res BaseRewardRouter :=
  r ← (if negb (BaseRewardRouter.still_routing r) then
         r ← BaseRewardRouter.route_incoming_rewards r rent balance;
         BaseRewardRouter.route_reward_pool r f
       else Ok r);
  BaseRewardRouter.route_ncn_fee_group_rewards r b m.

Lemma no_split fee T : BaseRewardRouter.calculate_reward_split fee T 0 = Ok 0.
Proof. unfold BaseRewardRouter.calculate_reward_split. by rewrite orb_true_r. Qed.

(** Nothing in the pool: nothing is split. *)
Lemma route_reward_pool_empty s f : fees_wf f -> br_reward_pool s = 0 -> BaseRewardRouter.route_reward_pool s f = Ok s.
Proof.
  intros Hf Hp. unfold BaseRewardRouter.route_reward_pool. rewrite total_fees_bps_ok by done. cbn [mbind result_bind].
  rewrite Hp. rewrite foldM_id; cbn [mbind result_bind].
  - rewrite foldM_id; cbn [mbind result_bind]; [by rewrite Hp|].
    intros g (i & Hi & Hlt)%NcnFeeGroup.nfg_all_groups_valid. unfold BaseRewardRouter.route_ncn_group.
    destruct (ncn_fee_bps_ok f g i Hf Hi) as (x & -> & _). cbn [mbind result_bind]. by rewrite no_split.
  - intros g (i & Hi & Hlt)%BaseFeeGroup.bfg_all_groups_valid. unfold BaseRewardRouter.route_base_group.
    destruct (base_fee_bps_ok f g i Hf Hi) as (x & -> & _). cbn [mbind result_bind]. by rewrite no_split.
Qed.

Context (f : Fees) (b : BallotBox) (t : BallotTally) (rent balance : Z) (r0 : BaseRewardRouter).
Hypothesis (Hf : fees_wf f) (Hb : bb_inv b) (Ht : BallotBox.get_winning_ballot_tally b = Ok t).
Hypothesis (Hr0 : br_inv (voters b) r0) (Hrest : BaseRewardRouter.still_routing r0 = false) (Hrent : 0 <= rent).
Hypothesis (Hin : is_ok (BaseRewardRouter.route_incoming_rewards r0 rent balance)).

(** The router when everything that came in is routed. *)
Record all_routed (sf : BaseRewardRouter) : Prop := {
  ar_inv : br_inv (voters b) sf;
  ar_rest : BaseRewardRouter.still_routing sf = false;
  ar_pool : br_reward_pool sf = 0;
  ar_ncn : forall k, ncn_reward_of sf k = 0 \/ (8 <= k)%nat;
  ar_balance : br_rewards_processed sf + rent = balance;
}.

(** Where the router is after others and the client have spent [p] iterations. *)
Definition phase (sf : BaseRewardRouter) (p : Z) (r : BaseRewardRouter) : Prop :=
  (r = r0 /\ p <= 0) \/ r = sf \/ suspended b t sf p r.

Lemma votes_bound : (length (bb_operator_votes b) <= 256)%nat.
Proof using Hb. pose proof (vi_len _ (bi_votes _ Hb)) as Hvl. unfold MAX_OPERATORS in Hvl. lia. Qed.

Lemma phase_le sf p q r : q <= p -> phase sf p r -> phase sf q r.
Proof using Hb.
  intros Hq [[-> Hp]|[->|Hs]]; [left; split; [done|lia]|by right; left|right; right].
  by eapply suspended_le; [apply votes_bound|..].
Qed.

Lemma phase_done sf p r : phase sf p r -> 2048 <= p -> r = sf.
Proof using Hb.
  intros [[_ Hp]|[->|Hs]] Hge; [lia|done|].
  apply suspended_bound in Hs; [lia|apply votes_bound].
Qed.

(** One call by anyone: it succeeds, and the iterations it may spend count. *)
Lemma route_phases : exists sf, all_routed sf /\
  forall p r m, phase sf p r -> fits U16 m ->
    exists r', route_body f b rent balance r m = Ok r' /\ (r' = sf \/ suspended b t sf (p + Z.max m 1) r').
Proof using All.
  destruct Hin as [r1 Hi]. destruct (route_incoming_spec _ _ _ _ _ Hr0 Hrent Hi) as (Hr1 & E1 & E2 & E3 & E4).
  destruct (route_reward_pool_spec _ r1 f Hr1 Hf) as (s2 & Hs2 & Hv2 & Hps).
  destruct (routing_result b t s2 Hb Ht Hv2) as (sf & Hg & Hvf & Hrt).
  pose proof votes_bound as Hvl. assert (Hst2 : BaseRewardRouter.still_routing s2 = false).
  { unfold BaseRewardRouter.still_routing in *. by rewrite (ps_routing _ _ _ Hps), E4. }
  assert (Hall : all_routed sf).
  { split; [done| | |apply (rt_ncn _ _ _ _ Hrt)|].
    - unfold BaseRewardRouter.still_routing. by rewrite (rt_done _ _ _ _ Hrt).
    - by rewrite (rt_pool _ _ _ _ Hrt), (ps_pool _ _ _ Hps).
    - rewrite (rt_processed _ _ _ _ Hrt), (ps_processed _ _ _ Hps). lia. }
  exists sf. split; [exact Hall|]. intros p r m Hp Hm. assert (HM : 1 <= Z.max m 1 < U16) by (unfold fits in Hm; lia).
  unfold route_body. destruct Hp as [[-> Hp]|[->|Hs]].
  - rewrite Hrest. cbn [negb]. rewrite Hi. cbn [mbind result_bind]. rewrite Hs2. cbn [mbind result_bind].
    destruct (call_fresh b t (Z.max m 1) HM Hvl m eq_refl Ht s2 sf Hst2 (inv_ncn_ok _ _ _ Hv2) Hg) as [Hr|(s' & Hr & Hsus)].
    + exists sf. by split; [|left].
    + exists s'. split; [done|]. right. eapply suspended_le; [exact Hvl| |exact Hsus]. lia.
  - exists sf. split; [|by left]. rewrite (ar_rest _ Hall). cbn [negb].
    unfold BaseRewardRouter.route_incoming_rewards, BaseRewardRouter.total_rewards_in_transit.
    pose proof (ar_balance _ Hall) as Hbal. pose proof (ar_pool _ Hall) as Hpool. rewrite Hpool.
    pose proof (rp_held _ _ _ Hvf) as Hh. pose proof (rp_total _ _ _ Hvf) as Htot.
    destruct (held_nonneg _ _ _ Hvf) as (? & ? & ?). unfold held in Hh.
    checked.
    rewrite (checked_sub_ok balance (0 + br_rewards_processed sf)) by lia. cbn [ok_or mbind result_bind].
    rewrite checked_sub_ok by lia. cbn [ok_or mbind result_bind].
    replace (balance - (0 + br_rewards_processed sf) - rent) with 0 by lia. unfold BaseRewardRouter.route_to_reward_pool.
    cbn [Z.eqb mbind result_bind].
    rewrite route_reward_pool_empty by done. cbn [mbind result_bind].
    by eapply call_done.
  - rewrite (suspended_routing b t Hvl _ _ _ Hs). cbn [negb mbind result_bind].
    destruct (call_resumed b t (Z.max m 1) HM Hvl m eq_refl Ht r _ sf Hs) as [Hr|(s' & Hr & Hsus)].
    + exists sf. by split; [|left].
    + exists s'. by split; [|right].
Qed.
End route_body.

(* ------------------------------------------------------------------ *)
(** * The network *)

(** What routing changes on the chain. *)
Record RouteState := mkRouteState { rw_state : Acct EpochState; rw_router : Acct BaseRewardRouter }.

Section network.
Context `{S : Solana} `{L : PreciseNumberLaws} `{P : Programs} `{C : Clients}.
Context (program_id : Pubkey) (clock : Clock) (config : Acct Config) (ncn : AccountInfo) (snapshot : Acct EpochSnapshot)
  (box : Acct BallotBox) (receiver : AccountInfo) (router_data : BaseRewardRouter -> list Z).

(** The instruction on the chain: it runs on the accounts it names. *)
Definition exec_route (s : RouteState) (max_iterations epoch : Z) : res RouteState :=
  '(es, br) ← process_route_base_rewards program_id clock (rw_state s) config ncn snapshot box (rw_router s) receiver
               max_iterations epoch;
  Ok (mkRouteState es br).

Definition names (w : RouteState) (ix : Instruction) : bool :=
  bool_decide (account_of ix Role.epoch_state = Some (acc_key (info (rw_state w)))) &&
  bool_decide (account_of ix Role.config = Some (acc_key (info config))) &&
  bool_decide (account_of ix Role.ncn = Some (acc_key ncn)) &&
  bool_decide (account_of ix Role.epoch_snapshot = Some (acc_key (info snapshot))) &&
  bool_decide (account_of ix Role.ballot_box = Some (acc_key (info box))) &&
  bool_decide (account_of ix Role.base_reward_router = Some (acc_key (info (rw_router w)))) &&
  bool_decide (account_of ix Role.base_reward_receiver = Some (acc_key receiver)).

Definition exec_ix (s : RouteState) (ix : Instruction) : res RouteState :=
  match ix_data ix with
  | RouteBaseRewards m epoch => if names s ix then exec_route s m epoch else Err (Prog InvalidAccountData)
  | _ => Err (Prog InvalidArgument)
  end.

Definition route_node (s : RouteState) : Node :=
  mkNode (fun k => if bool_decide (k = acc_key (info (rw_router s)))
                   then Ok (Some (acc_lamports (info (rw_router s)), router_data (body (rw_router s)))) else Ok None)
    (fun _ _ => Err Failed) (Err Failed) (Err Failed) (Err Failed) (fun _ => Err Failed).

(** Others route at the client's epoch, with their own iteration limits. *)
#[local] Instance route_rpc (epoch : Z) : Rpc (World RouteState Z) :=
  network_rpc (fun s m => exec_route s m epoch) exec_ix route_node.

(* ------------------------------------------------------------------ *)
(** * The client on the network *)

Section client.
Context `{K : KeeperAccounts}.
Context (h : CliHandler) (payer : Pubkey) (epoch : Z) (t : BallotTally) (es0 : Acct EpochState) (br0 : Acct BaseRewardRouter).

(** The accounts are the NCN's for the epoch, voting is over, and the client is
    run for this program. *)
Record routable : Prop := {
  ra_state : EpochState.load program_id (info es0) (acc_key ncn) epoch true = Ok tt;
  ra_config : Config.load program_id (info config) (acc_key ncn) false = Ok tt;
  ra_ncn : ncn_load ncn false = Ok tt;
  ra_snapshot : EpochSnapshot.load program_id (info snapshot) (acc_key ncn) epoch false = Ok tt;
  ra_router : BaseRewardRouter.load program_id (info br0) (acc_key ncn) epoch true = Ok tt;
  ra_box : BallotBox.load program_id (info box) (acc_key ncn) epoch false = Ok tt;
  ra_receiver : BaseRewardReceiver.load program_id receiver (acc_key ncn) epoch true = Ok tt;
  ra_voting : BallotBox.is_voting_valid (body box) (clock_slot clock) (cf_valid_slots_after_consensus (body config)) = Ok false;
  ra_keypair : h_keypair h = Some payer;
  ra_handler_ncn : h_ncn h = Some (acc_key ncn);
  ra_program : h_tip_router_program_id h = program_id;
  ra_id : tip_router_id = program_id;
}.

Context (Hra : routable) (Hdec : forall r, decode_base_reward_router (router_data r) = Ok r).
Context (Hf : fees_wf (es_fees (body snapshot))) (Hb : bb_inv (body box))
  (Ht : BallotBox.get_winning_ballot_tally (body box) = Ok t) (Hr0 : br_inv (voters (body box)) (body br0))
  (Hrest : BaseRewardRouter.still_routing (body br0) = false) (Hrent : 0 <= minimum_balance 0)
  (Hin : is_ok (BaseRewardRouter.route_incoming_rewards (body br0) (minimum_balance 0) (acc_lamports receiver))).
Context (sf : BaseRewardRouter).

Abbreviation body_of := (route_body (es_fees (body snapshot)) (body box) (minimum_balance 0) (acc_lamports receiver)).
Abbreviation suspended_at := (suspended (body box) t sf).
Hypothesis (Hsf : forall p r m, phase (body box) t (body br0) sf p r -> fits U16 m ->
    exists r', body_of r m = Ok r' /\ (r' = sf \/ suspended_at (p + Z.max m 1) r'))
  (Hsfr : BaseRewardRouter.still_routing sf = false).

(** The chain after [p] iterations at most. *)
Record state_ok (p : Z) (s : RouteState) : Prop := {
  wo_state : info (rw_state s) = info es0;
  wo_router : info (rw_router s) = info br0;
  wo_phase : phase (body box) t (body br0) sf p (body (rw_router s));
}.

(** Routing was called: it is done, or suspended. *)
Record moved (p : Z) (s : RouteState) : Prop := {
  mv_ok : state_ok p s;
  mv_phase : body (rw_router s) = sf \/ suspended_at p (body (rw_router s));
}.

Lemma exec_route_ok p s m : state_ok p s -> fits U16 m ->
  exists s', exec_route s m epoch = Ok s' /\ moved (p + Z.max m 1) s'.
Proof using Hra Hsf Hb.
  intros [H1 H2 H3] Hm. destruct (Hsf p _ m H3 Hm) as (r' & Hr & Hp). destruct Hra.
  unfold exec_route, process_route_base_rewards. rewrite H1, H2.
  rewrite ra_state0, ra_config0, ra_ncn0, ra_snapshot0, ra_router0, ra_box0, ra_receiver0, ra_voting0. cbn [mbind result_bind].
  unfold route_body in Hr. destruct (if negb _ then _ else _) as [r1|]; [|done]. cbn [mbind result_bind] in Hr |- *.
  rewrite Hr. cbn [mbind result_bind]. eexists. split; [reflexivity|].
  split; [|exact Hp]. split; cbn; try done. destruct Hp; [by right; left|by right; right].
Qed.

Lemma moved_le p q s : q <= p -> moved p s -> moved q s.
Proof using Hb.
  intros Hq [[] Hp]. split; [split; try done; by eapply phase_le|]. destruct Hp; [by left|right].
  eapply suspended_le; [by apply votes_bound|done|done].
Qed.

(** Others' calls keep what was gained. *)
Lemma others_keep_ok p s m s' : state_ok p s -> fits U16 m -> exec_route s m epoch = Ok s' -> state_ok p s'.
Proof using Hra Hsf Hb.
  intros Hs Hm He. destruct (exec_route_ok p s m Hs Hm) as (s2 & He2 & Hmv). rewrite He in He2. injection He2 as <-.
  eapply moved_le in Hmv; [by apply mv_ok in Hmv|]. lia.
Qed.

Lemma others_keep_moved p s m s' : moved p s -> fits U16 m -> exec_route s m epoch = Ok s' -> moved p s'.
Proof using Hra Hsf Hb.
  intros [Hs _] Hm He. destruct (exec_route_ok p s m Hs Hm) as (s2 & He2 & Hmv). rewrite He in He2. injection He2 as <-.
  eapply moved_le; [|done]. lia.
Qed.

(** The client's instruction. *)
Definition client_ix : Instruction :=
  mkIx (RouteBaseRewards BaseRewardRouter.MAX_ROUTE_BASE_ITERATIONS epoch)
    [(Role.epoch_state, (EpochState.find_program_address program_id (acc_key ncn) epoch).1.1);
     (Role.config, (Config.find_program_address program_id (acc_key ncn)).1.1); (Role.ncn, acc_key ncn);
     (Role.epoch_snapshot, (EpochSnapshot.find_program_address program_id (acc_key ncn) epoch).1.1);
     (Role.ballot_box, (BallotBox.find_program_address program_id (acc_key ncn) epoch).1.1);
     (Role.base_reward_router, (BaseRewardRouter.find_program_address program_id (acc_key ncn) epoch).1.1);
     (Role.base_reward_receiver, (BaseRewardReceiver.find_program_address program_id (acc_key ncn) epoch).1.1)].
Definition client_ixs : list Instruction := [mkIx (SetComputeUnitLimit 1400000) []; client_ix].

Lemma names_client p s : state_ok p s -> names s client_ix = true.
Proof using Hra.
  intros [H1 H2 _]. destruct Hra. unfold names. rewrite H1, H2.
  apply check_load_spec in ra_state0 as (_ & -> & _). apply check_load_spec in ra_config0 as (_ & -> & _).
  apply check_load_spec in ra_snapshot0 as (_ & -> & _). apply check_load_spec in ra_router0 as (_ & -> & _).
  apply check_load_spec in ra_box0 as (_ & -> & _). apply check_load_spec in ra_receiver0 as (_ & -> & _).
  repeat (rewrite bool_decide_eq_true_2 by reflexivity; cbn [andb]). done.
Qed.

(** The client's transaction. *)
Lemma exec_client p s : state_ok p s -> exists s', exec exec_ix s client_ixs = Ok s' /\ moved (p + 30) s'.
Proof using Hra Hsf Hb.
  intros Hs. destruct (exec_route_ok p s 30 Hs ltac:(unfold fits; lia)) as (s' & Hx & Hmv).
  exists s'. unfold exec. cbn [foldM client_ixs exec_ix ix_data mbind result_bind client_ix].
  rewrite (names_client p s Hs). change BaseRewardRouter.MAX_ROUTE_BASE_ITERATIONS with 30. rewrite Hx. done.
Qed.

Lemma exec_client_keeps p s s' : state_ok p s -> exec exec_ix s client_ixs = Ok s' -> state_ok p s' /\ moved (p + 30) s'.
Proof using Hra Hsf Hb.
  intros Hs He. destruct (exec_client p s Hs) as (s2 & He2 & Hmv). rewrite He in He2. injection He2 as <-. split; [|done].
  eapply moved_le in Hmv; [by apply mv_ok in Hmv|]. lia.
Qed.

Abbreviation ok_world p := (world_inv (state_ok p) (fits U16)).
Abbreviation moved_world p := (world_inv (moved p) (fits U16)).

(** The read after a call sees the router at rest only when all is routed. *)
Definition read_router (nd : Node) : result KeeperError bool :=
  router ← get_base_reward_router h nd epoch; mret (BaseRewardRouter.still_routing router).

(** What the read shows in a state of the chain. *)
Lemma read_state p s : moved p s ->
  read_router (route_node s) = Ok (BaseRewardRouter.still_routing (body (rw_router s))).
Proof using Hra Hdec.
  intros [[_ H2 _] _]. unfold read_router, get_base_reward_router, ncn_of.
  rewrite (ra_handler_ncn Hra), (ra_program Hra). cbn [ok_or mbind result_bind]. unfold get_decoded, get_account.
  pose proof (ra_router Hra) as Hk. apply check_load_spec in Hk as (_ & Hk & _). cbn [route_node nd_account].
  rewrite <- Hk, <- H2, bool_decide_eq_true_2 by done. cbn [mbind result_bind ok_or]. by rewrite Hdec.
Qed.

Lemma read_no_node : read_router no_node = Err Failed.
Proof using Hra. unfold read_router, get_base_reward_router, ncn_of. by rewrite (ra_handler_ncn Hra). Qed.

(** The loop: each round spends 30 of the 2048 iterations. *)
Lemma route_until_ok fuel : forall p w, ok_world p w -> 0 <= p < 2048 -> 2048 <= p + 30 * Z.of_nat fuel ->
  let run := route_until (H2 := route_rpc epoch) fuel h client_ixs read_router w in
  outcome run <> Err HPanic /\ outcome run <> Err HFuel /\ 30 * (Z.of_nat (length (requests run)) - 1) < 2048 - p /\
  (outcome run = Ok tt -> body (rw_router (chain (world run))) = sf).
Proof using Hra Hsf Hb Hdec Hsfr.
  induction fuel as [|fuel IH]; intros p w Hw Hp Hfuel; [lia|]. cbn [route_until].
  pose proof (send_inv _ exec_ix route_node _ _ (others_keep_ok p) h payer client_ixs [] (moved (p + 30)) (ra_keypair Hra)
    (exec_client_keeps p) w Hw) as Hsend.
  cbv zeta in Hsend, IH. unfold mbind, client_bind. unfold route_rpc in IH |- *.
  destruct (send_and_log_transaction h client_ixs [] w) as [rqs o w1]. cbn [requests outcome world] in *.
  destruct Hsend as (Hl & Hw1 & Hn1 & Hn2 & Hmv).
  destruct o as [[]|e]; cbn [outcome requests world]; [|split; [congruence|]; split; [congruence|]; by split; [lia|]].
  assert (Hw2 : moved_world (p + 30) w1) by (split; [by apply Hmv|apply Hw1]).
  destruct (ask_inv _ exec_ix route_node _ _ (others_keep_moved (p + 30)) read_router w1 Hw2) as (nd & w2 & -> & Hw3 & Hnd).
  cbn [outcome requests world]. destruct Hnd as [->| ->].
  { rewrite read_no_node. cbn [halt outcome requests]. rewrite app_nil_r. repeat split; try done. lia. }
  rewrite (read_state (p + 30)) by apply Hw3. cbn [halt].
  destruct (mv_phase _ _ (proj1 Hw3)) as [Hs|Hs].
  - rewrite Hs, Hsfr. cbn. rewrite app_nil_r. repeat split; try done. lia.
  - rewrite (suspended_routing _ _ (votes_bound _ Hb) _ _ _ Hs). cbn [halt].
    pose proof (suspended_bound _ _ (votes_bound _ Hb) _ _ _ Hs) as Hlt.
    destruct (IH (p + 30) w2) as (H1 & H2 & H3 & H4); [split; [apply mv_ok|]; apply Hw3|lia|lia|].
    cbn [outcome requests world]. rewrite !length_app, Hl. cbn [length]. split; [done|]. split; [done|]. split; [lia|done].
Qed.

(** ** On a network without failures, every call succeeds *)

Lemma route_until_reliable fuel : forall p w, ok_world p w -> reliable w -> 0 <= p < 2048 -> 2048 <= p + 30 * Z.of_nat fuel ->
  outcome (route_until (H2 := route_rpc epoch) fuel h client_ixs read_router w) = Ok tt.
Proof using Hra Hsf Hb Hdec Hsfr.
  induction fuel as [|fuel IH]; intros p w Hw Hr Hp Hfuel; [lia|]. cbn [route_until].
  pose proof (send_inv _ exec_ix route_node _ _ (others_keep_ok p) h payer client_ixs [] (moved (p + 30)) (ra_keypair Hra)
    (exec_client_keeps p) w Hw) as Hsend.
  pose proof (send_reliable _ exec_ix route_node _ _ (others_keep_ok p) h payer client_ixs [] (ra_keypair Hra)) as Hsr.
  specialize (Hsr ltac:(intros s Hs; destruct (exec_client p s Hs) as (s' & Hx & _); by exists s') w Hw Hr).
  cbv zeta in Hsend, Hsr. unfold mbind, client_bind. unfold route_rpc in IH |- *.
  destruct (send_and_log_transaction h client_ixs [] w) as [rqs o w1]. cbn [requests outcome world] in *.
  destruct Hsr as [-> Hr1], Hsend as (_ & Hw1 & _ & _ & Hmv).
  assert (Hw2 : moved_world (p + 30) w1) by (split; [by apply Hmv|apply Hw1]).
  destruct (ask_inv _ exec_ix route_node _ _ (others_keep_moved (p + 30)) read_router w1 Hw2) as (nd & w2 & Hask & Hw3 & _).
  destruct (ask_reliable (fun s m => exec_route s m epoch) exec_ix route_node read_router w1 Hr1) as (w2' & Hask' & Hr2). rewrite Hask in Hask'.
  injection Hask' as Ho <-. rewrite Hask, Ho. cbn [outcome world requests]. rewrite (read_state (p + 30)) by apply Hw3. cbn [halt].
  destruct (mv_phase _ _ (proj1 Hw3)) as [Hs|Hs]; [by rewrite Hs, Hsfr|].
  rewrite (suspended_routing _ _ (votes_bound _ Hb) _ _ _ Hs). cbn [halt].
  pose proof (suspended_bound _ _ (votes_bound _ Hb) _ _ _ Hs) as Hlt.
  apply (IH (p + 30) w2); try lia; [split; [apply mv_ok|]; apply Hw3|done].
Qed.
End client.

Lemma route_client `{K : KeeperAccounts} h payer epoch es0 br0 fuel w : routable h payer epoch es0 br0 ->
  route_base_rewards (H2 := route_rpc epoch) fuel h epoch w
  = route_until (H2 := route_rpc epoch) fuel h (client_ixs epoch) (read_router h epoch) w.
Proof using.
  intros Hra. unfold route_base_rewards. rewrite (client_pure _ (acc_key ncn)) by (unfold ncn_of; by rewrite (ra_handler_ncn _ _ _ _ _ Hra)).
  by rewrite (ra_program _ _ _ _ _ Hra), (ra_id _ _ _ _ _ Hra).
Qed.

(** C27: routing the base rewards from the command line terminates.  Whatever the
    network does (it may lose the client's transactions, confirm them without
    telling, and not answer) and however many routing calls of others land in
    between, the client's loop ends without a panic within 69 calls; when it
    reports success, everything the receiver holds beyond its rent is routed, with
    a result that does not depend on the network; and when the network does not
    fail, it reports success. *)
Theorem base_routing_client_completes `{K : KeeperAccounts} h payer epoch t es0 br0 :
  routable h payer epoch es0 br0 -> (forall r, decode_base_reward_router (router_data r) = Ok r) ->
  fees_wf (es_fees (body snapshot)) -> bb_inv (body box) -> BallotBox.get_winning_ballot_tally (body box) = Ok t ->
  br_inv (voters (body box)) (body br0) -> BaseRewardRouter.still_routing (body br0) = false ->
  0 <= minimum_balance 0 ->
  is_ok (BaseRewardRouter.route_incoming_rewards (body br0) (minimum_balance 0) (acc_lamports receiver)) ->
  exists sf, all_routed (body box) (minimum_balance 0) (acc_lamports receiver) sf /\
    forall script fuel, Forall (fun e => Forall (fits U16) (others e)) script -> (69 <= fuel)%nat ->
      let run := route_base_rewards (H2 := route_rpc epoch) fuel h epoch (mkWorld (mkRouteState es0 br0) script) in
      outcome run <> Err HPanic /\ outcome run <> Err HFuel /\ (length (requests run) <= 69)%nat /\
      (outcome run = Ok tt -> body (rw_router (chain (world run))) = sf) /\
      (reliable (mkWorld (mkRouteState es0 br0) script) -> outcome run = Ok tt).
Proof using L.
  intros Hra Hdec Hf Hb Ht Hr0 Hrest Hrent Hin.
  destruct (route_phases (es_fees (body snapshot)) (body box) t (minimum_balance 0) (acc_lamports receiver) (body br0)
    Hf Hb Ht Hr0 Hrest Hrent Hin) as (sf & Hall & Hsf).
  exists sf. split; [exact Hall|]. intros script fuel Hscript Hfuel.
  assert (Hw : world_inv (state_ok t es0 br0 sf 0) (fits U16) (mkWorld (mkRouteState es0 br0) script))
    by (split; [split; try done; by left|done]).
  pose proof (route_until_ok h payer epoch t es0 br0 Hra Hdec Hb sf Hsf (ar_rest _ _ _ _ Hall) fuel 0 _ Hw ltac:(lia) ltac:(lia))
    as Hrun.
  pose proof (route_until_reliable h payer epoch t es0 br0 Hra Hdec Hb sf Hsf (ar_rest _ _ _ _ Hall) fuel 0 _ Hw) as Hrel.
  cbv zeta in Hrun |- *. rewrite (route_client h payer epoch es0 br0 _ _ Hra).
  destruct Hrun as (H1 & H2 & H3 & H4). split; [done|]. split; [done|]. split; [lia|]. split; [done|].
  intros Hr. apply Hrel; [done|lia|lia].
Qed.
End network.

(* ------------------------------------------------------------------ *)
(** * Witness *)

(** The state of [BaseSideWitness] with 1000003 lamports to route; routers are
    stored as their code. *)
Module RoutingWitness.
Import ConcreteSolana ConcretePrograms ConcreteClients ConfigWitness VoteWitness BallotBoxTheorems.BallotBoxWitness BaseRewardWitness BaseSideWitness.

#[export] Instance Pubkey_countable : Countable Pubkey.
Proof. refine (inj_countable' to_bytes mkPubkey _). by intros []. Defined.
#[export] Instance Rewards_countable : Countable BaseRewardRouterRewards.
Proof. refine (inj_countable' rewards mkRewards _). by intros []. Defined.
#[export] Instance Route_countable : Countable NcnRewardRoute.
Proof. refine (inj_countable' (fun r => (nr_operator r, nr_rewards r)) (fun p => mkNcnRewardRoute p.1 p.2) _). by intros []. Defined.
#[export] Instance Routing_countable : Countable RoutingState.
Proof.
  refine (inj_countable' (fun r => (last_ncn_group_index r, last_vote_index r, last_rewards_to_process r))
    (fun p => mkRoutingState p.1.1 p.1.2 p.2) _). by intros [].
Defined.
#[export] Instance Router_countable : Countable BaseRewardRouter.
Proof.
  refine (inj_countable' (fun r => (br_ncn r, br_epoch r, br_bump r, br_slot_created r, br_total_rewards r, br_reward_pool r,
      br_rewards_processed r, br_routing r, br_base_fee_group_rewards r, br_ncn_fee_group_rewards r, br_routes r))
    (fun '(a, b, c, d, e, f, g, h, i, j, k) => mkBaseRewardRouter a b c d e f g h i j k) _).
  by intros [].
Defined.

Definition router_data (r : BaseRewardRouter) : list Z := [Z.pos (encode r)].
#[export] Instance accounts : KeeperAccounts := {|
  decode_config d := Err Failed;
  decode_vault_registry d := Err Failed;
  decode_epoch_state d := Err Failed;
  decode_weight_table d := Err Failed;
  decode_epoch_snapshot d := Err Failed;
  decode_operator_snapshot d := Err Failed;
  decode_ballot_box d := Err Failed;
  decode_base_reward_router d := match d with [Z.pos p] => ok_or (decode p) Failed | _ => Err Failed end;
  decode_ncn_reward_router d := Err Failed;
  decode_epoch_marker d := Err Failed;
|}.

Lemma router_decodes r : decode_base_reward_router (router_data r) = Ok r.
Proof. cbn [decode_base_reward_router accounts router_data]. by rewrite decode_encode. Qed.

Definition h : CliHandler := mkCliHandler (Some (key 3)) (key 90) (key 91) pid (key 202) (Some (key 9)) 5 2 1.

Lemma side_routable : routable pid (mkClock 10000 5) c0 ConfigWitness.ncn snapshot box (bs_receiver side1)
  h (key 3) 5 (bs_state side1) (bs_router side1).
Proof. split; vm_compute; reflexivity. Qed.

Definition script : list (Event Z) := [mkEvent [30; 0] true true true; mkEvent [] true true true].
End RoutingWitness.
Import ConcreteSolana ConcretePrograms ConcreteClients BaseSide.BaseSideWitness RoutingWitness ConfigWitness BallotBoxTheorems.BallotBoxWitness BaseRewardWitness.

Lemma base_routing_client_completes_witness : exists sf,
  BaseRewardRouter.still_routing sf = false /\ br_rewards_processed sf = 1000003 /\
  let run := route_base_rewards (H2 := route_rpc (O0 := U256Precise.ops) pid (mkClock 10000 5) c0 ncn snapshot box (bs_receiver side1) router_data 5)
    69 h 5 (mkWorld (mkRouteState (bs_state side1) (bs_router side1)) script) in
  outcome run = Ok tt /\ body (rw_router (chain (world run))) = sf.
Proof.
  destruct (base_routing_client_completes (L := U256Precise.laws) pid (mkClock 10000 5) c0 ncn snapshot box (bs_receiver side1)
    router_data h (key 3) 5 tally (bs_state side1) (bs_router side1)) as (sf & Hall & Hrun).
  - exact side_routable.
  - exact router_decodes.
  - exact fees_ok.
  - exact b3_inv.
  - exact tally_eq.
  - apply new_br_inv.
  - reflexivity.
  - vm_compute. discriminate.
  - eexists. vm_compute. reflexivity.
  - exists sf. destruct (Hrun script 69%nat) as (_ & _ & _ & Hok & Hrel).
    + apply (bool_decide_unpack _). vm_compute. exact I.
    + lia.
    + assert (Ho := Hrel ltac:(apply (bool_decide_unpack _); vm_compute; exact I)).
      split; [apply (ar_rest _ _ _ _ Hall)|]. split; [|by split; [|apply Hok]].
      pose proof (ar_balance _ _ _ _ Hall) as Hb. cbn in Hb. lia.
Defined.
