(* ===== verification/CrankTheorems.v ===== *)
(** What the cranks do with what they read: the order in which an epoch's
    accounts are closed, which rewards a distribution crank moves, and the order
    in which a vault's operators are updated.  The programs' answers play no role
    here: every theorem is about all networks. *)

From Stdlib Require Import String.
From S2P Require Import Prelude Errors External Constants Accounts FeeGroups Fees Config StakeWeight VaultRegistry WeightTable EpochSnapshot EpochState BallotBox BaseRewardRouter NcnRewardRouter SetupHandlers Getters Rpc Instructions Cranks ClientAddresses.

(* ------------------------------------------------------------------ *)
(** * Traces *)

Section traces.
Context {W T : Type} `{Rpc W}.
Implicit Types (act : Instruction -> option T).

(** What of interest the instructions of some requests do, in order. *)
Definition acts act (rqs : list Request) : list T := rqs ≫= fun rq => omap (M := list) act (rq_instructions rq).

Lemma acts_app act l k : acts act (l ++ k) = acts act l ++ acts act k.
Proof. apply bind_app. Qed.

Lemma acts_nil act rqs : Forall (fun rq => omap (M := list) act (rq_instructions rq) = []) rqs -> acts act rqs = [].
Proof. induction 1 as [|rq l Hr _ IH]; [done|]. unfold acts in *. cbn. by rewrite Hr, IH. Qed.

Lemma acts_bind {A B} act (m : Client W A) (f : A -> Client W B) w :
  acts act (requests ((m ≫= f) w)) = acts act (requests (m w)) ++
    match outcome (m w) with Ok a => acts act (requests (f a (world (m w)))) | Err _ => [] end.
Proof.
  unfold mbind, client_bind. destruct (outcome (m w)) as [a|e]; cbn [requests]; [apply acts_app|by rewrite app_nil_r].
Qed.

(** Whatever happens, the acts act [m] are some of [l], in that order. *)
Definition within {A} act (l : list T) (m : Client W A) : Prop := forall w, sublist (acts act (requests (m w))) l.

Lemma within_bind {A B} act l1 l2 (m : Client W A) (f : A -> Client W B) :
  within act l1 m -> (forall a, within act l2 (f a)) -> within act (l1 ++ l2) (m ≫= f).
Proof.
  intros Hm Hf w. rewrite acts_bind. apply sublist_app; [apply Hm|]. destruct (outcome (m w)); [apply Hf|apply sublist_nil_l].
Qed.

Lemma within_silent {A B} act l (m : Client W A) (f : A -> Client W B) :
  emits (fun rq => omap (M := list) act (rq_instructions rq) = []) m -> (forall a, within act l (f a)) -> within act l (m ≫= f).
Proof. intros Hm. apply (within_bind act []). intros w. rewrite acts_nil; [done|apply Hm]. Qed.

Lemma acts_send act h ixs signers w k : h_keypair h = Some k ->
  acts act (requests (send_and_log_transaction h ixs signers w)) = omap (M := list) act ixs.
Proof.
  intros Hk. unfold send_and_log_transaction, send_transactions. rewrite acts_bind. unfold keypair. rewrite Hk. cbn.
  unfold send_request. destruct (send_attempts _ _ _ _ _ w) as [[? ?] ?]. unfold acts. cbn. by rewrite app_nil_r.
Qed.

Lemma within_send act h ixs signers : within act (omap (M := list) act ixs) (send_and_log_transaction h ixs signers).
Proof.
  intros w. destruct (h_keypair h) as [k|] eqn:Hk; [by rewrite (acts_send _ _ _ _ _ k)|].
  unfold send_and_log_transaction, send_transactions, keypair. rewrite acts_bind, Hk. apply sublist_nil_l.
Qed.

Lemma within_for_each {A} act (g : A -> list T) (f : A -> Client W unit) l :
  (forall x, x ∈ l -> within act (g x) (f x)) -> within act (l ≫= g) (for_each f l).
Proof.
  induction l as [|x l IH]; intros Hf; [by intros w|]. cbn [for_each mbind list_bind]. apply within_bind; [apply Hf; by left|].
  intros _. apply IH. intros y Hy. apply Hf. by right.
Qed.

Lemma within_each {A} act (g : A -> T) (f : A -> Client W unit) l :
  (forall x, within act [g x] (f x)) -> within act (map g l) (for_each f l).
Proof.
  intros Hf. induction l as [|x l IH]; [by intros w|]. cbn [for_each map]. apply (within_bind act [g x]); [apply Hf|]. by intros _.
Qed.

Lemma within_logged {A} act l (m : Client W A) : within act l m -> within act l (logged m).
Proof.
  intros Hm w. rewrite logged_requests. apply Hm.
Qed.

Lemma within_emits {A} act l (m : Client W A) : emits (fun rq => omap (M := list) act (rq_instructions rq) = []) m -> within act l m.
Proof. intros Hm w. rewrite acts_nil; [apply sublist_nil_l|apply Hm]. Qed.

Lemma within_weaken {A} act l k (m : Client W A) : within act l m -> sublist l k -> within act k m.
Proof. intros Hm Hl w. by etrans; [apply Hm|]. Qed.

(** If [m] gets through at all, it acts [x]. *)
Definition surely {A} act (x : T) (m : Client W A) : Prop := forall w a, outcome (m w) = Ok a -> x ∈ acts act (requests (m w)).

(** A call that acts [x] whatever its outcome, and reads that cannot fail. *)
Definition always {A} act (x : T) (m : Client W A) : Prop := forall w, x ∈ acts act (requests (m w)).

Lemma always_ask {A B} act x (read : Node -> result KeeperError A) (f : A -> Client W B) :
  (forall w, exists a, read (rpc_node w).1 = Ok a /\ always act x (f a)) -> always act x (ask read ≫= f).
Proof.
  intros Hr w. destruct (Hr w) as (a & Ha & Hf). rewrite acts_bind. unfold ask. destruct (rpc_node w) as [nd w']. cbn in *.
  rewrite Ha. cbn. apply Hf.
Qed.

Lemma surely_left {A B} act x (m : Client W A) (f : A -> Client W B) : surely act x m -> surely act x (m ≫= f).
Proof.
  intros Hm w b. rewrite client_outcome, acts_bind. destruct (outcome (m w)) as [a|e] eqn:E; [|done]. intros _.
  apply elem_of_app. left. by eapply Hm.
Qed.

Lemma surely_right {A B} act x (m : Client W A) (f : A -> Client W B) (Q : A -> Prop) :
  (forall w a, outcome (m w) = Ok a -> Q a) -> (forall a, Q a -> surely act x (f a)) -> surely act x (m ≫= f).
Proof.
  intros Hm Hf w b. rewrite client_outcome, acts_bind. destruct (outcome (m w)) as [a|e] eqn:E; [|done]. intros Ho.
  apply elem_of_app. right. by apply (Hf a (Hm _ _ E) _ b).
Qed.

Lemma surely_then {A B} act x (m : Client W A) (f : A -> Client W B) : (forall a, surely act x (f a)) -> surely act x (m ≫= f).
Proof. intros Hf. by apply (surely_right act x m f (fun _ => True)). Qed.

Lemma surely_logged {A} act x (m : Client W A) : always act x m -> surely act x (logged m).
Proof.
  intros Hm w a _. rewrite logged_requests. apply Hm.
Qed.

Lemma surely_for_each {A} act x (f : A -> Client W unit) l y : y ∈ l -> surely act x (f y) -> surely act x (for_each f l).
Proof.
  intros Hy Hf. induction Hy as [l|z l Hy IH]; cbn [for_each]; [by apply surely_left|]. apply surely_then. auto.
Qed.

(** [m] acts exactly [l] and ends in [O]; in particular, gets through with a value
    that satisfies [Q]. *)
Definition ends {A} act (l : list T) (O : result Halt A -> Prop) (m : Client W A) : Prop :=
  forall w, O (outcome (m w)) /\ acts act (requests (m w)) = l.

Definition performs {A} act (l : list T) (Q : A -> Prop) (m : Client W A) : Prop :=
  ends act l (fun o => exists a, o = Ok a /\ Q a) m.

Lemma ends_bind {A B} act l k (Q : A -> Prop) (O : result Halt B -> Prop) (m : Client W A) (f : A -> Client W B) :
  performs act l Q m -> (forall a, Q a -> ends act k O (f a)) -> ends act (l ++ k) O (m ≫= f).
Proof.
  intros Hm Hf w. destruct (Hm w) as ((a & Ho & Ha) & Hl). destruct (Hf a Ha (world (m w))) as (Ho2 & Hk).
  by rewrite client_outcome, acts_bind, Ho, Hl, Hk.
Qed.

Lemma ends_quietly {A B} act k (Q : A -> Prop) (O : result Halt B -> Prop) (m : Client W A) (f : A -> Client W B) :
  performs act [] Q m -> (forall a, Q a -> ends act k O (f a)) -> ends act k O (m ≫= f).
Proof. apply (ends_bind act []). Qed.

Lemma ends_with {A B} act l (Q : A -> Prop) (O : result Halt B -> Prop) (m : Client W A) (f : A -> Client W B) :
  performs act l Q m -> (forall a, Q a -> ends act [] O (f a)) -> ends act l O (m ≫= f).
Proof. rewrite <- (app_nil_r l) at 2. apply ends_bind. Qed.

Lemma ends_pure {A B} act k (O : result Halt B -> Prop) (r : result KeeperError A) a (f : A -> Client W B) :
  r = Ok a -> ends act k O (f a) -> ends act k O (pure_of r ≫= f).
Proof. intros -> Hf w. rewrite client_outcome, acts_bind. apply Hf. Qed.

(** A read, of which all answers have the same value, or one that satisfies [Q]. *)
Lemma ends_ask {A B} act k (O : result Halt B -> Prop) (Q : A -> Prop) (read : Node -> result KeeperError A) (f : A -> Client W B) :
  (forall w, exists a, read (rpc_node (W := W) w).1 = Ok a /\ Q a) -> (forall a, Q a -> ends act k O (f a)) ->
  ends act k O (ask read ≫= f).
Proof.
  intros Hr. apply ends_quietly. intros w. destruct (Hr w) as (a & Ha & Hq). unfold ask. destruct (rpc_node w) as [nd w']. cbn in *.
  rewrite Ha. split; [by exists a|done].
Qed.

Lemma ends_read {A B} act k (O : result Halt B -> Prop) (read : Node -> result KeeperError A) a (f : A -> Client W B) :
  (forall w, read (rpc_node (W := W) w).1 = Ok a) -> ends act k O (f a) -> ends act k O (ask read ≫= f).
Proof. intros Hr Hf. apply (ends_ask _ _ _ (fun b => b = a)); [intros w; by exists a|by intros ? ->]. Qed.

Lemma performs_ret {A} act (Q : A -> Prop) (a : A) : Q a -> performs act [] Q (mret a : Client W A).
Proof. intros Ha w. split; [by exists a|done]. Qed.

Lemma performs_each {A} act (e : T -> A) (f : A -> Client W unit) l :
  (forall x, performs act [x] (fun _ => True) (f (e x))) -> performs act l (fun _ => True) (for_each f (map e l)).
Proof.
  intros Hf. induction l as [|x l IH]; [by apply performs_ret|]. apply (ends_bind act [x] l _ _ _ _ (Hf x)). by intros _ _.
Qed.

Lemma performs_send act h payer ixs signers : h_keypair h = Some payer ->
  performs act (omap (M := list) act ixs) (fun _ => True) (logged (send_and_log_transaction h ixs signers)).
Proof.
  intros Hk w. rewrite logged_requests, (acts_send _ _ _ _ _ payer Hk). split; [|done]. exists tt. split; [|done].
  unfold logged. rewrite client_outcome. unfold tried, send_and_log_transaction, send_transactions, keypair. rewrite Hk.
  unfold mbind, client_bind, pure_of, send_request. cbn [ok_or halt outcome world requests].
  destruct (send_attempts _ _ _ _ _ w) as [[tried r] w'] eqn:E. apply send_attempts_spec in E as (k & _ & Hr).
  destruct Hr as [[_ ->]|[(_ & _ & ->)|([] & _ & _ & ->)]]; done.
Qed.

Lemma omap_realloc act size ix : act ix = None -> act (mkIx (SetComputeUnitLimit 1400000) []) = None ->
  omap (M := list) act (realloc_ixs size ix) = [].
Proof.
  intros Hix Hl. unfold realloc_ixs. cbn. rewrite Hl. induction (num_reallocs size) as [|n IH]; [done|]. cbn. by rewrite Hix.
Qed.
End traces.

(** Programs none of whose requests matter. *)
Ltac silent :=
  repeat emit_step; cbn [rq_instructions]; try reflexivity; try (apply omap_realloc; reflexivity).

Section closing.
Context {W : Type} `{Solana} `{KeeperAccounts} `{Clients} `{Rpc W}.
Context (fuel : nat) (h : CliHandler) (ncn : Pubkey) (epoch : Z).
Hypothesis (Hncn : h_ncn h = Some ncn).

(* ------------------------------------------------------------------ *)
(** * Closing *)

(** The account that an instruction closes. *)
Definition closes (ix : Instruction) : option Pubkey :=
  match ix_data ix with CloseEpochAccount _ => account_of ix Role.account_to_close | _ => None end.

(** The accounts of an epoch in the order in which they are closed. *)
Definition close_order (all_operators : list Pubkey) : list Pubkey :=
  let pid := h_tip_router_program_id h in
  (all_operators ≫= fun operator =>
     map (fun group => (NcnRewardRouter.find_program_address pid group operator ncn epoch).1.1) NcnFeeGroup.all_groups)
  ++ [(BaseRewardRouter.find_program_address pid ncn epoch).1.1; (BallotBox.find_program_address pid ncn epoch).1.1]
  ++ map (fun operator => (OperatorSnapshot.find_program_address pid operator ncn epoch).1.1) all_operators
  ++ [(EpochSnapshot.find_program_address pid ncn epoch).1.1; (WeightTable.find_program_address pid ncn epoch).1.1;
      (EpochState.find_program_address pid ncn epoch).1.1].

Abbreviation closing := (fun rq => omap (M := list) closes (rq_instructions rq) = []).

Lemma check_created_silent address P : emits P (check_created address).
Proof using. unfold check_created. assert (Hr : forall n, emits P (read_created n address)) by (induction n; cbn [read_created]; silent; auto). silent; auto. Qed.

Lemma route_until_silent ixs read P : (forall tried, P (mkRequest ixs [] tried)) -> emits P (route_until fuel h ixs read).
Proof using. intros HP. induction fuel as [|n IH]; cbn [route_until]; repeat emit_step; auto. Qed.

Lemma distribute_closes_nothing : emits closing (crank_distribute fuel h epoch).
Proof using Hncn.
  unfold crank_distribute, distribute_base_group, distribute_ncn_group, distribute_ncn_router, get_or_create_epoch_snapshot,
    get_or_create_base_reward_router, get_or_create_ncn_reward_router, create_epoch_snapshot, create_base_reward_router,
    create_ncn_reward_router, initialize_if_missing, distribute_base_rewards, distribute_base_ncn_rewards,
    distribute_ncn_vault_rewards, distribute_ncn_operator_rewards, route_base_rewards, route_ncn_rewards.
  silent; first [apply check_created_silent | apply route_until_silent; reflexivity | idtac].
Qed.
Lemma close_within account receiver : within closes [account] (close_epoch_account h ncn epoch account receiver).
Proof using.
  unfold close_epoch_account. apply within_silent; [apply emits_ask|]. intros a. destruct (already_closed a).
  { apply within_emits, emits_ret. }
  apply within_silent; [apply emits_ask|]. intros config. apply within_silent; [apply emits_pure|]. intros dao.
  apply (within_send closes).
Qed.

(** Closing goes along [close_order], for operators that some answer of the node
    listed. *)
Lemma crank_close_within w :
  exists all_operators, (all_operators = [] \/ exists nd, get_all_operators_in_ncn h nd = Ok all_operators) /\
    sublist (acts closes (requests (crank_close_epoch_accounts fuel h epoch w))) (close_order all_operators).
Proof using Hncn.
  unfold crank_close_epoch_accounts, ncn_of. rewrite Hncn. cbn [ok_or]. rewrite acts_bind. cbn [requests pure_of halt outcome world acts mbind list_bind app].
  rewrite acts_bind, logged_requests, acts_nil by apply distribute_closes_nothing. cbn [app].
  destruct (outcome _) as [_|]; [|exists []; split; [by left|apply sublist_nil_l]].
  rewrite acts_bind. set (w1 := world _). unfold ask at 1 2 3. destruct (rpc_node w1) as [nd w2].
  destruct (get_all_operators_in_ncn h nd) as [ops|e] eqn:Eops; [|exists []; split; [by left|destruct e; apply sublist_nil_l]].
  exists ops. split; [right; by exists nd|]. cbn [requests outcome halt world acts mbind list_bind app].
  refine ((_ : within closes (close_order ops) _) w2). unfold close_order.
  assert (Hclose : forall account receiver, within closes [account] (logged (close_epoch_account h ncn epoch account receiver)))
    by (intros; apply within_logged, close_within).
  apply within_bind; [apply within_for_each; intros operator _; by apply within_each|]. intros _.
  apply (within_bind closes [_]); [done|]. intros _. apply (within_bind closes [_]); [done|]. intros _.
  apply within_bind; [by apply within_each|]. intros _.
  apply (within_bind closes [_]); [done|]. intros _. apply (within_bind closes [_]); [done|]. by intros _.
Qed.

(** ** An account that stays open is closed *)

Record open_at (account : Pubkey) (nd : Node) : Prop := {
  oa_account : exists found, get_account nd account = Ok found /\ already_closed found = false;
  oa_config : exists config dao, get_tip_router_config h nd = Ok config /\
    FeeConfig.base_fee_wallet (cf_fee_config config) BaseFeeGroup.dao = Ok dao;
}.

Lemma close_always account receiver k : h_keypair h = Some k -> (forall w, open_at account (rpc_node (W := W) w).1) ->
  always (W := W) closes account (close_epoch_account h ncn epoch account receiver).
Proof using.
  intros Hk Ho. unfold close_epoch_account. apply always_ask. intros w. destruct (Ho w) as [(found & Ha & Hc) _].
  exists found. split; [done|]. rewrite Hc. apply always_ask. intros w2. destruct (Ho w2) as [_ (config & dao & Hconf & Hdao)].
  exists config. split; [done|]. rewrite Hdao. intros w3. rewrite acts_bind. cbn [lift pure_of requests outcome halt world].
  rewrite (acts_send _ _ _ _ _ k Hk). by left.
Qed.

Lemma crank_close_surely all_operators account k : h_keypair h = Some k ->
  (forall w, get_all_operators_in_ncn h (rpc_node (W := W) w).1 = Ok all_operators) ->
  (forall w, open_at account (rpc_node (W := W) w).1) -> account ∈ close_order all_operators ->
  surely (W := W) closes account (crank_close_epoch_accounts fuel h epoch).
Proof using Hncn.
  intros Hk Hops Ho Hin. pose proof (fun receiver => surely_logged _ _ _ (close_always account receiver k Hk Ho)) as Hs.
  unfold crank_close_epoch_accounts. apply (surely_right _ _ _ _ (fun a => a = ncn)).
  { intros w a. unfold ncn_of. rewrite Hncn. cbn. by intros [= ->]. }
  intros ? ->. apply surely_then. intros _. apply (surely_right _ _ _ _ (fun a => a = all_operators)).
  { intros w a. specialize (Hops w). unfold ask. destruct (rpc_node w) as [nd w']. cbn in *. rewrite Hops. by intros [= ->]. }
  intros ? ->. unfold close_order in Hin. cbv zeta.
  apply elem_of_app in Hin as [Hin|Hin].
  { apply surely_left. apply list_elem_of_bind in Hin as (operator & Hg & Hop). apply list_elem_of_fmap in Hg as (group & -> & Hg).
    apply (surely_for_each _ _ _ _ operator); [done|]. apply (surely_for_each _ _ _ _ group); [done|]. apply Hs. }
  apply surely_then. intros _. rewrite !elem_of_app, !elem_of_cons in Hin.
  destruct Hin as [[->|[->|Hin]]|[Hin|[->|[->|[->|Hin]]]]]; try by apply not_elem_of_nil in Hin.
  - apply surely_left, Hs.
  - apply surely_then. intros _. apply surely_left, Hs.
  - do 2 (apply surely_then; intros _). apply surely_left. apply list_elem_of_fmap in Hin as (operator & -> & Hop).
    apply (surely_for_each _ _ _ _ operator); [done|]. apply Hs.
  - do 3 (apply surely_then; intros _). apply surely_left, Hs.
  - do 4 (apply surely_then; intros _). apply surely_left, Hs.
  - do 5 (apply surely_then; intros _). apply Hs.
Qed.

(** C33: closing an epoch's accounts keeps to one order, the operators' NCN routers
    first and the epoch state last, each account once, whatever fails in between;
    and no account is forgotten: one that is there at every look is requested to be
    closed whenever the crank gets to its end. *)
Theorem close_crank_in_order w : let run := crank_close_epoch_accounts fuel h epoch w in
  (exists all_operators, (all_operators = [] \/ exists nd, get_all_operators_in_ncn h nd = Ok all_operators) /\
     sublist (acts closes (requests run)) (close_order all_operators)) /\
  (forall all_operators account k, h_keypair h = Some k ->
     (forall v, get_all_operators_in_ncn h (rpc_node (W := W) v).1 = Ok all_operators) ->
     (forall v, open_at account (rpc_node (W := W) v).1) -> account ∈ close_order all_operators ->
     outcome run = Ok tt -> account ∈ acts closes (requests run)).
Proof using Hncn.
  split; [apply crank_close_within|]. intros all_operators account k Hk Hops Ho Hin Hrun.
  by apply (crank_close_surely all_operators account k Hk Hops Ho Hin w tt).
Qed.
End closing.

(* ------------------------------------------------------------------ *)
(** * Distribution *)

Section distribution.
Context {W : Type} `{Solana} `{KeeperAccounts} `{Clients} `{Rpc W}.
Context (fuel : nat) (h : CliHandler) (epoch : Z).

(** What the crank looks at before it routes. *)
Definition distribution_reads : Client W (list Pubkey * EpochSnapshot * BaseRewardRouter) :=
  operators ← ask (get_all_operators_in_ncn h);
  epoch_snapshot ← get_or_create_epoch_snapshot h epoch;
  base_reward_router ← get_or_create_base_reward_router h epoch;
  mret (operators, epoch_snapshot, base_reward_router).

Definition routes_or_distributes (d : IxData) : bool :=
  match d with
  | RouteBaseRewards _ _ | RouteNcnRewards _ _ _ | DistributeBaseRewards _ _ | DistributeBaseNcnRewardRoute _ _
  | DistributeNcnVaultRewards _ _ | DistributeNcnOperatorRewards _ _ => true
  | _ => false
  end.

(** A distribution out of the base receiver is one that [br] has rewards for. *)
Definition entitled_ix (br : BaseRewardRouter) (ix : Instruction) : Prop :=
  match ix_data ix with
  | DistributeBaseRewards group _ =>
      exists rewards, BaseRewardRouter.base_fee_group_reward br (BaseFeeGroup.mk group) = Ok rewards /\ rewards <> 0
  | DistributeBaseNcnRewardRoute group _ =>
      exists operator route rewards, account_of ix Role.operator = Some operator /\
        BaseRewardRouter.ncn_fee_group_reward_route br operator = Ok route /\
        NcnRewardRoute.get_rewards route (NcnFeeGroup.mk group) = Ok rewards /\ rewards <> 0
  | _ => True
  end.

Definition entitled (br : BaseRewardRouter) (rq : Request) : Prop := Forall (entitled_ix br) (rq_instructions rq).

Lemma entitled_realloc br size ix signers tried : entitled_ix br ix -> entitled br (mkRequest (realloc_ixs size ix) signers tried).
Proof using. intros Hix. constructor; [exact I|]. by apply Forall_replicate. Qed.

Ltac entitle := first [apply entitled_realloc; exact I | repeat first [exact I | apply Forall_cons_2 | apply Forall_nil_2]].

Lemma ncn_router_entitled br group operator : emits (entitled br) (get_or_create_ncn_reward_router (W := W) h group operator epoch).
Proof using.
  unfold get_or_create_ncn_reward_router, create_ncn_reward_router. repeat emit_step; try apply check_created_silent; entitle.
Qed.

Lemma base_group_entitled br fees group : emits (entitled br) (distribute_base_group (W := W) h fees br epoch group).
Proof using.
  unfold distribute_base_group. emit_step; [emit_step|]. emit_step; [emit_step|].
  eapply (does_bind _ (fun rewards => BaseRewardRouter.base_fee_group_reward br group = Ok rewards));
    [apply does_pure; intros; by apply lift_Ok|]. intros rewards Hr.
  destruct (Z.eqb_spec rewards 0) as [|Hne]; cbn [negb]; [apply emits_ret|]. apply emits_logged.
  unfold distribute_base_rewards. repeat emit_step.
  repeat first [exact I | apply Forall_cons_2 | apply Forall_nil_2]. destruct group. by exists rewards.
Qed.

Lemma distribute_ncn_entitled br operator group rewards route :
  BaseRewardRouter.ncn_fee_group_reward_route br operator = Ok route -> NcnRewardRoute.get_rewards route group = Ok rewards ->
  rewards <> 0 -> emits (entitled br) (distribute_base_ncn_rewards (W := W) h operator group epoch).
Proof using.
  intros Hroute Hr Hne. unfold distribute_base_ncn_rewards. repeat emit_step.
  repeat first [exact I | apply Forall_cons_2 | apply Forall_nil_2]. destruct group. by exists operator, route, rewards.
Qed.

Lemma ncn_router_turn_entitled br operator group : emits (entitled br) (distribute_ncn_router (W := W) h operator group epoch).
Proof using.
  unfold distribute_ncn_router, distribute_ncn_operator_rewards, distribute_ncn_vault_rewards.
  repeat first [apply ncn_router_entitled | emit_step]; entitle.
Qed.

Lemma route_entitled br ixs read : Forall (entitled_ix br) ixs -> emits (entitled br) (route_until (W := W) fuel h ixs read).
Proof using. intros Hix. by apply route_until_silent. Qed.

Lemma ncn_group_entitled br fees operator group :
  emits (entitled br) (distribute_ncn_group (W := W) fuel h fees br epoch operator group).
Proof using.
  unfold distribute_ncn_group. emit_step; [emit_step|]. emit_step; [emit_step|].
  apply emits_bind; [apply emits_tried, ncn_router_entitled|]. intros [created|]; [|emit_step].
  destruct (BaseRewardRouter.ncn_fee_group_reward_route br operator) as [route|] eqn:Hroute; [|emit_step].
  eapply (does_bind _ (fun rewards => NcnRewardRoute.get_rewards route group = Ok rewards));
    [apply does_pure; intros; by apply lift_Ok|]. intros rewards Hr. apply emits_bind.
  { destruct (Z.eqb_spec rewards 0) as [|Hne]; cbn [negb]; [apply emits_ret|]. apply emits_tried. by eapply distribute_ncn_entitled. }
  intros [|]; [|emit_step]. emit_step; [emit_step|]. apply emits_bind.
  { emit_step; [|emit_step]. emit_step. unfold route_ncn_rewards. emit_step; [emit_step|]. apply route_entitled. entitle. }
  intros [|]; [|emit_step]. apply ncn_router_turn_entitled.
Qed.

Lemma reads_route_nothing w :
  Forall (fun rq => Forall (fun ix => routes_or_distributes (ix_data ix) = false) (rq_instructions rq)) (requests (distribution_reads w)).
Proof using.
  assert (Hq : emits (fun rq => Forall (fun ix => routes_or_distributes (ix_data ix) = false) (rq_instructions rq)) distribution_reads);
    [|apply Hq].
  unfold distribution_reads, get_or_create_epoch_snapshot, get_or_create_base_reward_router, create_epoch_snapshot,
    create_base_reward_router, initialize_if_missing.
  repeat emit_step; try apply check_created_silent; cbn [rq_instructions].

  all: first [by repeat constructor | constructor; [done|by apply Forall_replicate]].
Qed.

(** What it does after that. *)
Definition distribution_turns '(operators, epoch_snapshot, br) : Client W unit :=
  base_reward_receiver_rewards ← ask (fun nd => get_base_reward_receiver_rewards h nd epoch);
  _ ← (if 0 <? base_reward_receiver_rewards then route_base_rewards fuel h epoch else mret tt);
  _ ← for_each (distribute_base_group h (es_fees epoch_snapshot) br epoch) BaseFeeGroup.all_groups;
  for_each (fun operator => for_each (distribute_ncn_group fuel h (es_fees epoch_snapshot) br epoch operator) NcnFeeGroup.all_groups)
    operators.

Lemma crank_distribute_split w : crank_distribute fuel h epoch w = (distribution_reads ≫= distribution_turns) w.
Proof using.
  unfold crank_distribute, distribution_reads. rewrite client_assoc. apply client_bind_ext. intros operators v.
  rewrite client_assoc. apply client_bind_ext. intros epoch_snapshot v2. rewrite client_assoc. apply client_bind_ext. intros br v3.
  by rewrite client_left_id.
Qed.

Lemma turns_entitled operators epoch_snapshot br : emits (entitled br) (distribution_turns (operators, epoch_snapshot, br)).
Proof using.
  unfold distribution_turns. emit_step; [emit_step|]. emit_step; [|emit_step].
  - emit_step; [|emit_step]. unfold route_base_rewards. emit_step; [emit_step|]. apply route_entitled. entitle.
  - emit_step. apply base_group_entitled.
  - do 2 emit_step. apply ncn_group_entitled.
Qed.

(** a distribution crank looks at the base router before it routes, and pays
    out of the base receiver only what the router held at that time: rewards that
    its own routing adds are left for another crank. *)
Theorem distribution_pays_what_was_read w :
  let before := distribution_reads w in
  let run := crank_distribute fuel h epoch w in
  Forall (fun rq => Forall (fun ix => routes_or_distributes (ix_data ix) = false) (rq_instructions rq)) (requests before) /\
  match outcome before with
  | Err e => outcome run = Err e /\ requests run = requests before
  | Ok (_, _, br) => exists after, requests run = requests before ++ after /\ Forall (entitled br) after
  end.
Proof using.
  cbv zeta. split; [apply reads_route_nothing|]. rewrite crank_distribute_split.
  unfold mbind, client_bind. destruct (outcome (distribution_reads w)) as [[[operators es] br]|e]; [|done].
  eexists. split; [done|]. apply turns_entitled.
Qed.
End distribution.

(* ------------------------------------------------------------------ *)
(** * Vault updates *)

Lemma rotation_rotate (k : Z) (l : list Pubkey) : l <> [] -> 0 <= k ->
  rotation (k mod Z.of_nat (length l)) l = map Some (rotate (Z.to_nat k) l).
Proof.
  intros Hl Hk. assert (0 < Z.of_nat (length l)) by (destruct l; [done|cbn; lia]).
  apply list_eq. intros i. unfold rotation. rewrite !list_lookup_fmap.
  destruct (decide (i < length l)%nat) as [Hi|Hi].
  - rewrite lookup_seq_lt by done. cbn [fmap option_fmap option_map]. rewrite lookup_rotate_r by done. unfold rotate_nat_add.
    rewrite Z2Nat.id, Zplus_mod_idemp_l by done.
    destruct (lookup_lt_is_Some_2 l (Z.to_nat ((k + Z.of_nat i) mod Z.of_nat (length l)))) as [x Hx].
    { pose proof (Z.mod_pos_bound (k + Z.of_nat i) (Z.of_nat (length l))). lia. }
    by rewrite Nat.add_0_l, Hx.
  - rewrite lookup_seq_ge, (lookup_ge_None_2 (rotate _ _)) by (rewrite ?length_rotate; lia). done.
Qed.

Section updates.
Context {W : Type} `{Solana} `{KeeperAccounts} `{Clients} `{Rpc W}.
Context (h : CliHandler) (payer vault : Pubkey).
Hypothesis (Hk : h_keypair h = Some payer).

(** The operator whose delegation an instruction updates. *)
Definition updated (ix : Instruction) : option Pubkey :=
  match ix_data ix with CrankVaultUpdateStateTracker => account_of ix Role.operator | _ => None end.

Context (operators : list Pubkey) (vault_config : VaultConfig) (account : Vault) (tracker : VaultUpdateStateTracker) (ncn_epoch : Z).

(** An answer of the node by which an update is due. *)
Record update_due (nd : Node) : Prop := {
  ud_config : get_vault_config h nd = Ok vault_config;
  ud_vault : get_vault nd vault = Ok account;
  ud_slot : exists slot, get_current_slot nd = Ok slot /\ get_epoch_from_slot vault_config slot = Ok ncn_epoch /\
    is_update_needed account slot (vault_epoch_length vault_config) = Ok true;
  ud_account : is_ok (get_account nd (vault_update_state_tracker_address (h_vault_program_id h) vault ncn_epoch));
  ud_tracker : get_vault_update_state_tracker h nd vault ncn_epoch = Ok tracker;
  ud_operators : get_all_sorted_operators_for_vault h nd vault = Ok operators;
}.

Hypothesis (Hdue : forall w, update_due (rpc_node (W := W) w).1).
Hypothesis (Hlast : 0 <= last_updated_index tracker) (Hepoch : 0 <= ncn_epoch).

(** The index of the next operator, which wraps around. *)
Definition next_index : Z :=
  if last_updated_index tracker =? u64_max then ncn_epoch else last_updated_index tracker + 1.

Lemma starting_index_next : operators <> [] ->
  starting_index ncn_epoch (last_updated_index tracker) (Z.of_nat (length operators)) = Ok (next_index mod Z.of_nat (length operators)).
Proof using.
  intros Hne. unfold starting_index, next_index. destruct operators; [done|]. rewrite (proj2 (Z.eqb_neq _ _)) by (cbn; lia).
  by destruct (_ =? u64_max).
Qed.

Lemma crank_operator_performs vault_config_address tracker_address operator :
  performs updated [operator] (fun _ => True) (crank_operator (W := W) h payer vault vault_config_address tracker_address (Some operator)).
Proof using Hk.
  unfold crank_operator. eapply ends_pure; [reflexivity|]. by apply (performs_send updated h payer).
Qed.

(** Once an update is due, it comes to the operators. *)
Lemma update_reaches_operators l (O : result Halt unit -> Prop) :
  let tracker_address := vault_update_state_tracker_address (h_vault_program_id h) vault ncn_epoch in
  let vault_config_address := vault_config_address (h_vault_program_id h) in
  ends (W := W) updated l O
    (start ← pure_of (starting_index ncn_epoch (last_updated_index tracker) (Z.of_nat (length operators)));
     _ ← for_each (crank_operator h payer vault vault_config_address tracker_address) (rotation start operators);
     tracker_account ← ask (fun nd => get_account nd tracker_address);
     match tracker_account with
     | Some _ =>
         logged (send_and_log_transaction h
           [mkIx (CloseVaultUpdateStateTracker ncn_epoch)
              [(Role.vault, vault); (Role.vault_update_state_tracker, tracker_address); (Role.payer, payer);
               (Role.config, vault_config_address)]] [payer])
     | None => mret tt
     end) ->
  ends updated l O (full_vault_update h vault).
Proof using Hk Hdue.
  intros ? ? Hrest. unfold full_vault_update. apply (ends_pure _ _ _ _ payer); [unfold keypair; by rewrite Hk|].
  apply (ends_ask _ _ _ (fun slot => get_epoch_from_slot vault_config slot = Ok ncn_epoch)).
  { intros w. destruct (ud_slot _ (Hdue w)) as (slot & ? & ? & _). by exists slot. }
  intros slot Hslot. apply (ends_read _ _ _ _ vault_config); [intros; apply Hdue|]. apply (ends_pure _ _ _ _ ncn_epoch); [done|].
  apply (ends_read _ _ _ _ account); [intros; apply Hdue|].
  apply (ends_ask _ _ _ (fun slot => is_update_needed account slot (vault_epoch_length vault_config) = Ok true)).
  { intros w. destruct (ud_slot _ (Hdue w)) as (now & ? & _ & ?). by exists now. }
  intros now Hneeded. apply (ends_pure _ _ _ _ true); [done|]. cbn [negb]. unfold update_vault.
  apply (ends_ask _ _ _ (fun _ => True)); [intros w; destruct (ud_account _ (Hdue w)) as [found Hf]; by exists found|].
  intros found _. apply (ends_quietly _ _ (fun _ => True)).
  { destruct found; [by apply performs_ret|]. by apply (performs_send updated h payer). }
  intros _ _. apply (ends_read _ _ _ _ operators); [intros; apply Hdue|]. apply (ends_read _ _ _ _ tracker); [intros; apply Hdue|].
  exact Hrest.
Qed.

Lemma vault_update_performs : operators <> [] ->
  performs (W := W) updated (rotate (Z.to_nat next_index) operators) (fun _ => True) (full_vault_update h vault).
Proof using Hk Hdue Hlast Hepoch.
  intros Hne. apply update_reaches_operators. cbv zeta. eapply ends_pure; [by apply starting_index_next|].
  rewrite rotation_rotate; [|done|unfold next_index; destruct (_ =? _); lia].
  eapply ends_with; [apply performs_each; intros; by apply crank_operator_performs|].
  intros _ _. apply (ends_ask _ _ _ (fun _ => True)); [intros w; destruct (ud_account _ (Hdue w)) as [found Hf]; by exists found|].
  intros [found|] _; [by apply (performs_send updated h payer)|by apply performs_ret].
Qed.

Lemma vault_update_panics : operators = [] -> ends (W := W) updated [] (fun o => o = Err HPanic) (full_vault_update h vault).
Proof using Hk Hdue.
  intros Hnil. apply update_reaches_operators. cbv zeta. rewrite Hnil. intros w. split; [|done].
  unfold starting_index. by rewrite client_outcome.
Qed.

(** when the update of a vault is due, each of its operators is updated once,
    starting after the operator that was updated last and wrapping around; and the
    update of a vault without operators panics, which no caller catches. *)
Theorem vault_update_rotates w :
  let run := logged (full_vault_update (W := W) h vault) w in
  (operators <> [] -> outcome run = Ok tt /\ acts updated (requests run) = rotate (Z.to_nat next_index) operators) /\
  (operators = [] -> outcome run = Err HPanic).
Proof using Hk Hdue Hlast Hepoch.
  cbv zeta. rewrite logged_requests. unfold logged. rewrite client_outcome. unfold tried. split; intros Hops.
  - destruct (vault_update_performs Hops w) as (([] & -> & _) & Ha). done.
  - destruct (vault_update_panics Hops w) as (-> & _). done.
Qed.
End updates.

(* ------------------------------------------------------------------ *)
(** * Witnesses *)

(** A network where every address has an account and nothing changes. *)
Module FullNetwork.
Import ConcreteSolana ConcretePrograms ConcreteClients ConfigWitness.

#[export] Instance accounts : KeeperAccounts := {|
  decode_config d := Ok (body c0);
  decode_vault_registry d := Err Failed;
  decode_epoch_state d := Err Failed;
  decode_weight_table d := Err Failed;
  decode_epoch_snapshot d := Err Failed;
  decode_operator_snapshot d := Err Failed;
  decode_ballot_box d := Err Failed;
  decode_base_reward_router d := Err Failed;
  decode_ncn_reward_router d := Err Failed;
  decode_epoch_marker d := Err Failed;
|}.

Definition node : Node :=
  mkNode (fun _ => Ok (Some (1, [0]))) (fun _ _ => Ok []) (Ok 1000) (Ok (5, 1000)) (Ok (fun _ => 432000)) (fun _ => Ok 0).

Definition answering (nd : Node) : Rpc unit := {|
  rpc_node w := (nd, w);
  rpc_blockhash w := (true, w);
  rpc_process w tx := (true, w);
  rpc_fetch_update_ix w feed payer := (Err Failed, w);
  rpc_new_keypair w := (key 99, w);
|}.
#[export] Instance rpc : Rpc unit := answering node.

(** A vault whose update is due, in the epoch 142 of 7 slots: the operators 21 to
    23, of which the one with index 7 mod 3 was updated last. *)
Definition due_node : Node :=
  mkNode (fun _ => Ok (Some (1, [7; 0; 0; 1]))) (fun _ _ => Ok [(key 1, [1; 22]); (key 2, [0; 21]); (key 3, [2; 23])])
    (Ok 1000) (Ok (5, 1000)) (Ok (fun _ => 432000)) (fun _ => Ok 0).
End FullNetwork.
Import ConcreteSolana ConcretePrograms ConcreteClients FullNetwork.

Lemma close_crank_in_order_witness :
  let box := (BallotBox.find_program_address (key 77) (key 9) 5).1.1 in
  box ∈ acts closes (requests (crank_close_epoch_accounts 10 EmptyNetwork.h 5 tt)).
Proof.
  destruct (close_crank_in_order 10 EmptyNetwork.h (key 9) 5 eq_refl tt) as [_ Hin]. apply (Hin [] _ (key 3)).
  - reflexivity.
  - intros v. reflexivity.
  - intros v. split; [by eexists|]. eexists. eexists. split; [reflexivity|]. vm_compute. reflexivity.
  - apply (bool_decide_unpack _). vm_compute. exact I.
  - vm_compute. reflexivity.
Defined.

Lemma vault_update_rotates_witness :
  let run := logged (full_vault_update (H2 := answering due_node) EmptyNetwork.h (key 60)) tt in
  outcome run = Ok tt /\ acts updated (requests run) = [key 23; key 21; key 22].
Proof.
  apply (vault_update_rotates (H1 := clients) (H2 := answering due_node) EmptyNetwork.h (key 3) (key 60) eq_refl [key 21; key 22; key 23] 7 [7; 0; 0; 1] 7 142).
  - intros w. split; try (vm_compute; reflexivity); [exists 1000; vm_compute; done|]. eexists. vm_compute. reflexivity.
  - vm_compute. discriminate.
  - lia.
  - discriminate.
Defined.
