(* ===== verification/ClientCreation.v ===== *)
(** The command line tool's creation of the ballot box against the program: the
    initialisation and the twelve reallocations of one transaction complete the
    box, whatever others send meanwhile; and an address that somebody has funded
    is never initialised. *)

From Stdlib Require Import String.
From S2P Require Import Prelude Errors External Constants Accounts FeeGroups Fees Config StakeWeight VaultRegistry WeightTable EpochSnapshot EpochState BallotBox BaseRewardRouter NcnRewardRouter SetupHandlers VoteHandlers Restaking CloseHandlers EpochLifecycle Getters Rpc Network Instructions Cranks ClientAddresses.

(** What creation changes on the chain. *)
Record CreationState := mkCreationState { cs_state : Acct EpochState; cs_box : Acct BallotBox; cs_payer : AccountInfo }.

(** What others send meanwhile. *)
Inductive CreationAct : Type := InitializeBox | ReallocBox.

Lemma with_lamports_same a : with_lamports a (acc_lamports a) = a.
Proof. by destruct a. Qed.

Section network.
Context `{SL : Solana} {TL : TransferLaws SL} {RL : ReallocLaws SL} {CL : CreateLaws SL} `{P : Programs} {YL : SystemLaws SL P}.
Context `{K : KeeperAccounts} `{C : Clients}.
Context (program_id : Pubkey) (clock : Clock) (config : Acct Config) (ncn epoch_marker system : AccountInfo) (epoch : Z).

Definition exec_initialize (s : CreationState) : res CreationState :=
  '(payer, box) ← process_initialize_ballot_box program_id epoch_marker (cs_state s) config (info (cs_box s)) ncn (cs_payer s)
                    system epoch;
  Ok (mkCreationState (cs_state s) (mkAcct box (body (cs_box s))) payer).

(** A program changes the data of its own accounts only. *)
Definition exec_realloc (s : CreationState) : res CreationState :=
  if negb (bool_decide (acc_owner (info (cs_box s)) = program_id)) then Err (Prog InvalidAccountOwner) else
  '(state, box, payer) ← process_realloc_ballot_box program_id clock (cs_state s) config (cs_box s) ncn (cs_payer s) system epoch;
  Ok (mkCreationState state box payer).

Definition creation_act (s : CreationState) (a : CreationAct) : res CreationState :=
  match a with InitializeBox => exec_initialize s | ReallocBox => exec_realloc s end.

(** The accounts an instruction names are those of the state. *)
Definition names_creation (s : CreationState) (ix : Instruction) : bool :=
  bool_decide (account_of ix Role.config = Some (acc_key (info config))) &&
  bool_decide (account_of ix Role.epoch_state = Some (acc_key (info (cs_state s)))) &&
  bool_decide (account_of ix Role.ballot_box = Some (acc_key (info (cs_box s)))) &&
  bool_decide (account_of ix Role.ncn = Some (acc_key ncn)) &&
  bool_decide (account_of ix Role.account_payer = Some (acc_key (cs_payer s))) &&
  bool_decide (account_of ix Role.system_program = Some (acc_key system)).

Definition exec_creation (s : CreationState) (ix : Instruction) : res CreationState :=
  match ix_data ix with
  | InitializeBallotBox e =>
      if (e =? epoch) && names_creation s ix && bool_decide (account_of ix Role.epoch_marker = Some (acc_key epoch_marker))
      then exec_initialize s else Err (Prog InvalidAccountData)
  | ReallocBallotBox e => if (e =? epoch) && names_creation s ix then exec_realloc s else Err (Prog InvalidAccountData)
  | _ => Err (Prog InvalidArgument)
  end.

(** An account without lamports and data does not exist. *)
Definition creation_node (s : CreationState) : Node :=
  mkNode (fun k => if bool_decide (k = acc_key (info (cs_box s))) &&
                      negb ((acc_lamports (info (cs_box s)) =? 0) && bool_decide (acc_data (info (cs_box s)) = []))
                   then Ok (Some (acc_lamports (info (cs_box s)), acc_data (info (cs_box s)))) else Ok None)
    (fun _ _ => Err Failed) (Err Failed) (Err Failed) (Err Failed) (fun _ => Err Failed).

#[local] Instance creation_rpc : Rpc (World CreationState CreationAct) := network_rpc creation_act exec_creation creation_node.

(* ------------------------------------------------------------------ *)
(** * Before creation *)

Context (h : CliHandler) (keypair : Pubkey) (es0 : Acct EpochState) (a0 : AccountInfo) (b0 : BallotBox) (payer0 : AccountInfo).
Definition start : CreationState := mkCreationState es0 (mkAcct a0 b0) payer0.
Definition total : Z := acc_lamports payer0 + acc_lamports a0.

(** The epoch is open, the address of its ballot box is unused up to its lamports,
    the account payer can pay, and the client is run for this program. *)
Record creatable : Prop := {
  ca_system : load_system_program system = Ok tt;
  ca_system_key : acc_key system = system_program_id;
  ca_ncn : ncn_load ncn false = Ok tt;
  ca_open : ep_is_closing (body es0) = false;
  ca_state : EpochState.load program_id (info es0) (acc_key ncn) epoch false = Ok tt;
  ca_config : Config.load program_id (info config) (acc_key ncn) false = Ok tt;
  ca_marker : EpochMarker.check_dne program_id epoch_marker (acc_key ncn) epoch = Ok tt;
  ca_payer : AccountPayer.load program_id payer0 (acc_key ncn) true = Ok tt;
  ca_payer_data : acc_data payer0 = [];
  ca_payer_lamports : 0 <= acc_lamports payer0;
  ca_box : load_system_account a0 true = Ok tt;
  ca_box_key : acc_key a0 = (BallotBox.find_program_address program_id (acc_key ncn) epoch).1.1;
  ca_box_data : acc_data a0 = [];
  ca_box_writable : acc_is_writable a0 = true;
  ca_box_lamports : 0 <= acc_lamports a0;
  ca_distinct : acc_key payer0 <> acc_key a0;
  ca_program : program_id <> system_program_id;
  ca_total : total < U64;
  ca_rent : forall n, 0 <= n <= BallotBox.SIZE -> 0 <= minimum_balance n <= total;
  ca_keypair : h_keypair h = Some keypair;
  ca_handler_ncn : h_ncn h = Some (acc_key ncn);
  ca_handler_program : h_tip_router_program_id h = program_id;
  ca_id : tip_router_id = program_id;
}.
Hypothesis (Hca : creatable).

(** The box once the program owns it. *)
Definition owned : AccountInfo := with_owner a0 program_id.

Record grown (k : Z) (s : CreationState) : Prop := {
  gr_state : cs_state s = es0;
  gr_body : body (cs_box s) = b0;
  gr_growing : growing total payer0 owned k (cs_payer s) (info (cs_box s));
  gr_size : MAX_REALLOC_BYTES <= k < BallotBox.SIZE;
}.

(** The box is complete: full size, its discriminator and first contents, recorded
    in the epoch state; no lamport is lost. *)
Record complete (s : CreationState) : Prop := {
  co_state : cs_state s = with_body es0 (EpochState.update_realloc_ballot_box (body es0));
  co_payer : exists l, cs_payer s = with_lamports payer0 l;
  co_total : acc_lamports (cs_payer s) + acc_lamports (info (cs_box s)) = total;
  co_key : acc_key (info (cs_box s)) = acc_key a0;
  co_owner : acc_owner (info (cs_box s)) = program_id;
  co_initialised : initialised (info (cs_box s)) BallotBox.SIZE DBallotBox;
  co_size : data_len (info (cs_box s)) = BallotBox.SIZE;
  co_body : body (cs_box s) = BallotBox.initialize b0 (acc_key ncn) epoch
    (BallotBox.find_program_address program_id (acc_key ncn) epoch).1.2 (clock_slot clock);
}.

(** At least [n] reallocations after the initialisation. *)
Definition created (n : nat) (s : CreationState) : Prop :=
  complete s \/ exists k, MAX_REALLOC_BYTES * (Z.of_nat n + 1) <= k /\ grown k s.

Lemma created_le n m s : (m <= n)%nat -> created n s -> created m s.
Proof using. intros Hm [Hc|(k & Hk & Hg)]; [by left|right]. exists k. unfold MAX_REALLOC_BYTES in *. by split; [lia|]. Qed.

Lemma created_complete s : created 12 s -> complete s.
Proof using.
  intros [Hc|(k & Hk & Hg)]; [done|]. pose proof (gr_size _ _ Hg) as Hs. unfold MAX_REALLOC_BYTES in *.
  change BallotBox.SIZE with 128305 in Hs. lia.
Qed.

Lemma created_owner n s : created n s -> acc_owner (info (cs_box s)) = program_id.
Proof using. intros [Hc|(k & _ & Hg)]; [apply Hc|]. destruct (gr_growing _ _ Hg) as (l & _ & _ & ->). done. Qed.

Lemma created_key n s : created n s -> acc_key (info (cs_box s)) = acc_key a0.
Proof using. intros [Hc|(k & _ & Hg)]; [apply Hc|]. destruct (gr_growing _ _ Hg) as (l & _ & _ & ->). done. Qed.

Lemma created_payer n s : created n s -> exists l, cs_payer s = with_lamports payer0 l.
Proof using. intros [Hc|(k & _ & Hg)]; [apply Hc|]. destruct (gr_growing _ _ Hg) as (l & _ & -> & _). by eexists. Qed.

Lemma created_state n s : created n s -> info (cs_state s) = info es0.
Proof using. intros [Hc|(k & _ & Hg)]; [by rewrite (co_state _ Hc)|by rewrite (gr_state _ _ Hg)]. Qed.

(* ------------------------------------------------------------------ *)
(** * The two instructions *)

Lemma rent_start : 0 <= minimum_balance MAX_REALLOC_BYTES <= total.
Proof using Hca. apply (ca_rent Hca). unfold MAX_REALLOC_BYTES. change BallotBox.SIZE with 128305. lia. Qed.

(** Creation: the payer tops the box up to the rent of its first bytes. *)
Lemma create_box : exists payer a,
  create_at program_id (acc_key ncn) (BallotBox.find_program_address program_id (acc_key ncn) epoch) (Prog InvalidSeeds)
    payer0 a0 MAX_REALLOC_BYTES = Ok (payer, a) /\
  growing total payer0 owned MAX_REALLOC_BYTES payer a.
Proof using Hca TL CL YL.
  pose proof rent_start as Hrent. pose proof (ca_box_key Hca) as Hkey.
  pose proof (load_system_owner _ _ (ca_box Hca)) as Howner. pose proof (ca_total Hca) as Htot.
  pose proof (ca_payer_lamports Hca). pose proof (ca_box_lamports Hca).
  set (required := saturating_sub (minimum_balance MAX_REALLOC_BYTES) (acc_lamports a0)).
  assert (Hreq : 0 <= required <= total - acc_lamports a0) by (unfold required, saturating_sub, total in *; lia).
  assert (Hl : acc_lamports a0 + required = Z.max (minimum_balance MAX_REALLOC_BYTES) (acc_lamports a0))
    by (unfold required, saturating_sub; lia).
  set (l := acc_lamports a0 + required).
  assert (Hpaid : (if 0 <? required then AccountPayer.transfer program_id (acc_key ncn) payer0 a0 required else Ok (payer0, a0))
    = Ok (with_lamports payer0 (total - l), with_lamports a0 l)).
  { assert (Hp0 : with_lamports payer0 (total - acc_lamports a0) = payer0).
    { unfold total. destruct payer0. unfold with_lamports. cbn. f_equal. lia. }
    assert (Hd : with_data a0 [] = a0) by (pose proof (ca_box_data Hca); destruct a0; cbn in *; by subst).
    destruct (Z.ltb_spec 0 required) as [Hpos|Hzero].
    - pose proof (payer_transfers program_id (acc_key ncn) total payer0 a0 (ca_payer Hca) (ca_payer_data Hca)
        (ca_box_writable Hca) (ca_distinct Hca) Htot (acc_lamports a0) required ltac:(unfold total; lia) Hreq []) as Ht.
      by rewrite Hd, Hp0, with_lamports_same in Ht.
    - replace l with (acc_lamports a0) by lia. by rewrite Hp0, with_lamports_same. }
  exists (with_lamports payer0 (total - l)), (with_lamports (with_data owned (replicate (Z.to_nat MAX_REALLOC_BYTES) 0)) l).
  split; [|exists l; by split; [lia|]].
  unfold create_at, BallotBox.find_program_address, find_pda in *.
  destruct (find_program_address_ext _ program_id) as [pda bump] eqn:Ef. cbn [fst] in Hkey.
  rewrite bool_decide_eq_true_2 by done. cbn [negb]. unfold AccountPayer.pay_and_create_account.
  cbv zeta. fold required. rewrite Hpaid. cbn [mbind result_bind]. rewrite Z.min_id. rewrite <- Hkey in Ef.
  rewrite (allocate_zeroes program_id _ bump); [|exact Ef|exact Howner|apply Hca|apply Hca|unfold MAX_REALLOC_BYTES; lia].
  cbn [mbind result_bind]. rewrite (assign_sets_owner program_id _ bump); [|exact Ef|exact Howner|apply Hca]. done.
Qed.

Lemma exec_initialize_start : exists s, exec_initialize start = Ok s /\ created 0 s.
Proof using Hca TL CL YL.
  destruct create_box as (payer & a & Hc & Hg). exists (mkCreationState es0 (mkAcct a b0) payer). split.
  - unfold exec_initialize, process_initialize_ballot_box. cbn [start cs_state cs_box cs_payer info body].
    rewrite (ca_box Hca), (ca_system Hca), (ca_ncn Hca). cbn [mbind result_bind].
    unfold EpochState.load_and_check_is_closing. rewrite (ca_open Hca), (ca_state Hca). cbn [mbind result_bind].
    rewrite (ca_config Hca), (ca_payer Hca), (ca_marker Hca). cbn [mbind result_bind]. by rewrite Hc.
  - right. exists MAX_REALLOC_BYTES. split; [unfold MAX_REALLOC_BYTES; lia|]. by split.
Qed.

(** An account that the program owns is not initialised again. *)
Lemma exec_initialize_created n s : created n s -> exists e, exec_initialize s = Err e.
Proof using Hca YL.
  intros Hs. unfold exec_initialize, process_initialize_ballot_box.
  destruct (load_system_account (info (cs_box s)) true) as [[]|e] eqn:E; [|by exists e].
  apply load_system_owner in E. rewrite (created_owner _ _ Hs) in E. by destruct (ca_program Hca).
Qed.

Lemma exec_realloc_start : exists e, exec_realloc start = Err e.
Proof using Hca YL.
  unfold exec_realloc. cbn [start cs_box info]. rewrite (load_system_owner _ _ (ca_box Hca)).
  rewrite bool_decide_eq_false_2 by (intros E; by destruct (ca_program Hca)). by eexists.
Qed.

Lemma realloc_complete s : complete s -> exec_realloc s = Ok s.
Proof using Hca.
  intros Hs. unfold exec_realloc, process_realloc_ballot_box. rewrite (co_owner _ Hs), bool_decide_eq_true_2 by done. cbn [negb].
  destruct (co_payer _ Hs) as [l Hp]. pose proof (co_initialised _ Hs) as Hi. pose proof (co_state _ Hs) as Hst.
  destruct s as [st [a b] payer]. cbn [cs_state cs_box cs_payer info body] in *.
  rewrite (ca_system Hca), (ca_ncn Hca). cbn [mbind result_bind]. rewrite Hst. cbn [with_body info body].
  rewrite (ca_state Hca), (ca_config Hca). cbn [mbind result_bind]. rewrite Hp.
  replace (AccountPayer.load program_id (with_lamports payer0 l) (acc_key ncn) true) with (Ok (E := error) tt)
    by (symmetry; exact (ca_payer Hca)). cbn [mbind result_bind].
  pose proof (co_key _ Hs) as Hk. cbn in Hk. rewrite (ca_box_key Hca) in Hk.
  destruct (BallotBox.find_program_address program_id (acc_key ncn) epoch) as [[pda bump] seeds]. cbn [fst] in Hk.
  rewrite bool_decide_eq_true_2 by done. cbn [negb]. rewrite (grow_initialised _ _ _ _ _ _ Hi). cbn [mbind result_bind].
  by rewrite (initialised_done _ _ _ Hi).
Qed.

Lemma realloc_grown n k s : MAX_REALLOC_BYTES * (Z.of_nat n + 1) <= k -> grown k s ->
  exists s', exec_realloc s = Ok s' /\ created (S n) s'.
Proof using Hca TL RL.
  intros Hk [Hst Hb Hg Hs]. destruct s as [st [a b] payer]. cbn [cs_state cs_box cs_payer info body] in *. subst st b.
  destruct (realloc_ballot_box_step program_id clock es0 config (mkAcct owned b0) ncn payer0 system epoch total
    (ca_system Hca) (ca_ncn Hca) (ca_state Hca) (ca_config Hca) (ca_payer Hca) (ca_payer_data Hca) (ca_box_key Hca)
    (ca_box_writable Hca) (ca_distinct Hca) (ca_total Hca) (ca_rent Hca) k payer a Hg
    ltac:(unfold MAX_REALLOC_BYTES in Hs; lia)) as (payer' & a' & Hg' & Hr).
  cbn [body] in Hr. unfold exec_realloc. cbn [cs_state cs_box cs_payer info body].
  rewrite bool_decide_eq_true_2 by (by destruct Hg as (? & _ & _ & ->)). cbn [negb]. rewrite Hr.
  destruct (Z.leb_spec BallotBox.SIZE (Z.min (k + MAX_REALLOC_BYTES) BallotBox.SIZE)) as [Hfull|Hmore].
  - replace (Z.min (k + MAX_REALLOC_BYTES) BallotBox.SIZE) with BallotBox.SIZE in Hg' by lia.
    destruct (write_growing total payer0 owned BallotBox.SIZE payer' a' DBallotBox Hg') as (a'' & Hw & Hi & Hlen & Hlam); [done|].
    rewrite Hw. cbn [mbind result_bind]. eexists. split; [reflexivity|]. left.
    pose proof (growing_total _ _ _ _ _ _ Hg') as Htot.
    unfold write_discriminator in Hw. destruct (aset _ _ _) as [data|] eqn:Ea; [|done]. injection Hw as <-.
    destruct Hg' as (l & _ & -> & ->).
    split; cbn [cs_state cs_box cs_payer info body]; try done. by eexists.
  - cbn [mbind result_bind]. eexists. split; [reflexivity|]. right. eexists. split; [|split; cbn [cs_state cs_box cs_payer info body]; [done|done|exact Hg'|]];
      unfold MAX_REALLOC_BYTES in *; lia.
Qed.

Lemma exec_realloc_created n s : created n s -> exists s', exec_realloc s = Ok s' /\ created (S n) s'.
Proof using Hca TL RL.
  intros [Hc|(k & Hk & Hg)]; [|by eapply realloc_grown]. exists s. split; [by apply realloc_complete|by left].
Qed.

(** Others keep what was gained. *)
Definition started (s : CreationState) : Prop := s = start \/ created 0 s.

Lemma others_keep_created s a s' : created 0 s -> True -> creation_act s a = Ok s' -> created 0 s'.
Proof using Hca TL RL YL.
  intros Hs _ Ha. destruct a; cbn in Ha.
  - destruct (exec_initialize_created 0 s Hs) as [e He]. by rewrite Ha in He.
  - destruct (exec_realloc_created 0 s Hs) as (s2 & He & Hs2). rewrite Ha in He. injection He as <-.
    by eapply created_le; [|exact Hs2]; lia.
Qed.

Lemma others_keep_started s a s' : started s -> True -> creation_act s a = Ok s' -> started s'.
Proof using Hca TL RL CL YL.
  intros [->|Hs] _ Ha; [|right; by eapply others_keep_created]. destruct a; cbn in Ha.
  - destruct exec_initialize_start as (s & He & Hs). rewrite Ha in He. injection He as <-. by right.
  - destruct exec_realloc_start as [e He]. by rewrite Ha in He.
Qed.

(* ------------------------------------------------------------------ *)
(** * The client *)

Abbreviation address := (BallotBox.find_program_address program_id (acc_key ncn) epoch).1.1.

Definition initialize_ix : Instruction :=
  mkIx (InitializeBallotBox epoch)
    [(Role.epoch_marker, (EpochMarker.find_program_address program_id (acc_key ncn) epoch).1.1);
     (Role.config, (Config.find_program_address program_id (acc_key ncn)).1.1);
     (Role.epoch_state, (EpochState.find_program_address program_id (acc_key ncn) epoch).1.1); (Role.ballot_box, address);
     (Role.ncn, acc_key ncn); (Role.account_payer, (AccountPayer.find_program_address program_id (acc_key ncn)).1.1);
     (Role.system_program, system_program_id)].
Definition realloc_ix : Instruction :=
  mkIx (ReallocBallotBox epoch)
    [(Role.config, (Config.find_program_address program_id (acc_key ncn)).1.1);
     (Role.epoch_state, (EpochState.find_program_address program_id (acc_key ncn) epoch).1.1); (Role.ballot_box, address);
     (Role.ncn, acc_key ncn); (Role.account_payer, (AccountPayer.find_program_address program_id (acc_key ncn)).1.1);
     (Role.system_program, system_program_id)].

Lemma create_client w : create_ballot_box (H2 := creation_rpc) h epoch w =
  (initialize_if_missing h address initialize_ix ≫= fun _ => send_and_log_transaction h (realloc_ixs BallotBox.SIZE realloc_ix) []) w.
Proof using Hca.
  unfold create_ballot_box. rewrite (client_pure _ (acc_key ncn)) by (unfold ncn_of; by rewrite (ca_handler_ncn Hca)).
  by rewrite (ca_handler_program Hca), (ca_id Hca).
Qed.

Lemma addresses s : info (cs_state s) = info es0 -> acc_key (info (cs_box s)) = acc_key a0 ->
  (exists l, cs_payer s = with_lamports payer0 l) ->
  names_creation s realloc_ix = true /\ names_creation s initialize_ix = true.
Proof using Hca.
  intros Hst Hbox [l Hp]. destruct Hca. unfold names_creation. rewrite Hst, Hbox, Hp, ca_box_key0, ca_system_key0. cbn [with_lamports acc_key].
  apply check_load_spec in ca_state0 as (_ & -> & _). apply check_load_spec in ca_config0 as (_ & -> & _).
  apply check_load_spec in ca_payer0 as (_ & -> & _).
  by split; repeat (rewrite bool_decide_eq_true_2 by reflexivity; cbn [andb]).
Qed.

Lemma start_addresses : names_creation start initialize_ix = true.
Proof using Hca. apply addresses; [done|done|]. exists (acc_lamports payer0). by rewrite with_lamports_same. Qed.

Lemma marker_address : account_of initialize_ix Role.epoch_marker = Some (acc_key epoch_marker).
Proof using Hca.
  pose proof (ca_marker Hca) as Hm. unfold EpochMarker.check_dne in Hm. case_bool_decide as E; [|done]. rewrite <- E. reflexivity.
Qed.

(** The initialisation, executed. *)
Lemma exec_initialize_ix_start : exists s, exec exec_creation start [initialize_ix] = Ok s /\ created 0 s.
Proof using Hca TL CL YL.
  destruct exec_initialize_start as (s & He & Hs). exists s. unfold exec. cbn [foldM ix_data initialize_ix exec_creation].
  rewrite Z.eqb_refl. cbn [andb]. rewrite start_addresses. fold initialize_ix.
  rewrite marker_address, bool_decide_eq_true_2 by done. cbn [andb]. by rewrite He.
Qed.

Lemma exec_realloc_ix s : names_creation s realloc_ix = true -> exec_creation s realloc_ix = exec_realloc s.
Proof using.
  intros Hn. unfold exec_creation. change (ix_data realloc_ix) with (ReallocBallotBox epoch). cbv iota. by rewrite Z.eqb_refl, Hn.
Qed.

(** The twelve reallocations, executed. *)
Lemma exec_reallocs n m s : created n s ->
  exists s', exec exec_creation s (replicate m realloc_ix) = Ok s' /\ created (m + n) s'.
Proof using Hca TL RL.
  revert n s. induction m as [|m IH]; intros n s Hs; [by exists s|].
  destruct (exec_realloc_created n s Hs) as (s1 & He & Hs1). destruct (IH _ _ Hs1) as (s2 & He2 & Hs2).
  exists s2. split; [|by replace (S m + n)%nat with (m + S n)%nat by lia].
  change (exec exec_creation s (replicate (S m) realloc_ix))
    with (s ← exec_creation s realloc_ix; exec exec_creation s (replicate m realloc_ix)).
  rewrite exec_realloc_ix; [by rewrite He|].
  apply (addresses s (created_state _ _ Hs) (created_key _ _ Hs) (created_payer _ _ Hs)).
Qed.

Lemma exec_batch s : created 0 s -> exists s', exec exec_creation s (realloc_ixs BallotBox.SIZE realloc_ix) = Ok s' /\ complete s'.
Proof using Hca TL RL.
  intros Hs. destruct (exec_reallocs 0 12 s Hs) as (s' & He & Hs'). exists s'. split; [exact He|]. by apply created_complete.
Qed.

(** What the client reads at the box's address. *)
Lemma read_created s : created 0 s -> exists found, get_account (creation_node s) address = Ok (Some found).
Proof using Hca.
  intros Hs. eexists. unfold get_account, creation_node. cbn [nd_account].
  rewrite (created_key _ _ Hs), (ca_box_key Hca), bool_decide_eq_true_2 by done. cbn [andb].
  rewrite (bool_decide_eq_false_2 (acc_data _ = [])); [by rewrite andb_false_r|].
  intros Hd. destruct Hs as [Hc|(k & _ & [_ _ Hg Hk])].
  - pose proof (co_size _ Hc) as Hsz. unfold data_len in Hsz. by rewrite Hd in Hsz.
  - apply growing_len in Hg; [|unfold MAX_REALLOC_BYTES in Hk; lia]. unfold data_len in Hg. rewrite Hd in Hg.
    unfold MAX_REALLOC_BYTES in Hk. cbn in Hg. lia.
Qed.

Lemma read_start : get_account (creation_node start) address =
  Ok (if acc_lamports a0 =? 0 then None else Some (acc_lamports a0, [])).
Proof using Hca.
  unfold get_account, creation_node. cbn [nd_account start cs_box info].
  rewrite (ca_box_key Hca), bool_decide_eq_true_2 by done. cbn [andb]. rewrite (ca_box_data Hca), bool_decide_eq_true_2 by done.
  rewrite andb_true_r. by destruct (acc_lamports a0 =? 0).
Qed.

Abbreviation anyone := (fun _ : CreationAct => True).

(** The batch, once the box is created. *)
Lemma batch_ok w : world_inv (created 0) anyone w ->
  let run := send_and_log_transaction (H := creation_rpc) h (realloc_ixs BallotBox.SIZE realloc_ix) [] w in
  outcome run <> Err HPanic /\ outcome run <> Err HFuel /\ world_inv (created 0) anyone (world run) /\
  (outcome run = Ok tt -> complete (chain (world run))) /\ (reliable w -> outcome run = Ok tt).
Proof using Hca TL RL YL.
  intros Hw. destruct (send_inv creation_act exec_creation creation_node _ anyone others_keep_created h keypair
    (realloc_ixs BallotBox.SIZE realloc_ix) [] complete (ca_keypair Hca)
    ltac:(intros s s' Hs He; destruct (exec_batch s Hs) as (s2 & He2 & Hc); rewrite He in He2; injection He2 as <-;
      split; [by left|done]) w Hw) as (_ & Hw2 & Hn1 & Hn2 & Hok).
  split; [done|]. split; [done|]. split; [done|]. split; [done|]. intros Hr.
  apply (send_reliable creation_act exec_creation creation_node _ anyone others_keep_created h keypair _ [] (ca_keypair Hca)
    ltac:(intros s Hs; destruct (exec_batch s Hs) as (s' & -> & _); by eexists) w Hw Hr).
Qed.

Lemma exec_initialize_ix_keeps s s' : started s -> exec exec_creation s [initialize_ix] = Ok s' -> started s' /\ created 0 s'.
Proof using Hca TL CL YL.
  intros [->|Hs] He.
  - destruct exec_initialize_ix_start as (s2 & He2 & Hs2). rewrite He in He2. injection He2 as <-. split; [by right|done].
  - change (exec exec_creation s [initialize_ix]) with (s ← exec_creation s initialize_ix; Ok s) in He.
    unfold exec_creation in He. change (ix_data initialize_ix) with (InitializeBallotBox epoch) in He. cbv iota in He.
    destruct (exec_initialize_created 0 s Hs) as [e Hx]. destruct (_ && _ && _); [by rewrite Hx in He|done].
Qed.

(** The first transaction, at an address without lamports. *)
Lemma initialize_ok w : acc_lamports a0 = 0 -> world_inv started anyone w ->
  let run := initialize_if_missing (H2 := creation_rpc) h address initialize_ix w in
  outcome run <> Err HPanic /\ outcome run <> Err HFuel /\ world_inv started anyone (world run) /\
  (outcome run = Ok tt -> created 0 (chain (world run))).
Proof using Hca TL RL CL YL.
  intros Hzero Hw. cbv zeta. unfold initialize_if_missing, mbind, client_bind, creation_rpc.
  destruct (ask_inv _ exec_creation creation_node _ _ others_keep_started (fun nd => get_account nd address) w Hw)
    as (nd & w1 & -> & Hw1 & Hnd). cbn [outcome world requests]. destruct Hnd as [-> | ->]; [done|].
  destruct (proj1 Hw1) as [Hs|Hs].
  - rewrite Hs, read_start, Hzero. cbn [Z.eqb halt].
    destruct (send_inv creation_act exec_creation creation_node _ anyone others_keep_started h keypair [initialize_ix] [] (created 0)
      (ca_keypair Hca) exec_initialize_ix_keeps w1 Hw1) as (_ & Hw2 & Hn1 & Hn2 & Hok). done.
  - destruct (read_created _ Hs) as [found ->]. cbn. split; [done|]. split; [done|]. split; [done|]. by intros _.
Qed.

(** ** On a network where nothing fails and nobody else creates the box *)

Abbreviation nobody := (fun _ : CreationAct => False).

Lemma alone_ok w : acc_lamports a0 = 0 -> world_inv (fun s => s = start) nobody w -> reliable w ->
  let run := initialize_if_missing (H2 := creation_rpc) h address initialize_ix w in outcome run = Ok tt /\ reliable (world run).
Proof using Hca TL CL YL.
  intros Hzero Hw Hr. cbv zeta. unfold initialize_if_missing, mbind, client_bind, creation_rpc.
  assert (Hact : forall s a s', s = start -> False -> creation_act s a = Ok s' -> s' = start) by done.
  destruct (ask_inv _ exec_creation creation_node _ nobody Hact (fun nd => get_account nd address) w Hw)
    as (nd & w1 & Hask & Hw1 & _).
  destruct (ask_reliable creation_act exec_creation creation_node (fun nd => get_account nd address) w Hr) as (w1' & Hask' & Hr1).
  rewrite Hask in Hask'.
  pose proof (f_equal world Hask') as Hww. pose proof (f_equal outcome Hask') as Ho. cbn [world outcome] in Hww, Ho. subst w1'.
  rewrite Hask, Ho. cbn [outcome world requests].
  assert (Hs : chain w1 = start) by apply Hw1. rewrite Hs, read_start, Hzero. cbn [Z.eqb halt].
  apply (send_reliable creation_act exec_creation creation_node _ nobody Hact h keypair [initialize_ix] [] (ca_keypair Hca)); try done.
  intros s ->. destruct exec_initialize_ix_start as (s' & -> & _). by eexists.
Qed.

(** C28: creating the ballot box from the command line works.  Whatever the network
    does with the client's transactions and whatever others send to create the box
    at the same time, the client ends without a panic, the box is as before, or
    growing, or complete, and it is complete when the client reports success: the
    program's first contents, at full size, with no lamport lost; and if nothing
    fails and nobody interferes, it reports success. *)
Theorem ballot_box_client_completes scripted : acc_lamports a0 = 0 ->
  let run := create_ballot_box (H2 := creation_rpc) h epoch (mkWorld start scripted) in
  outcome run <> Err HPanic /\ outcome run <> Err HFuel /\
  (chain (world run) = start \/ created 0 (chain (world run))) /\
  (outcome run = Ok tt -> complete (chain (world run))) /\
  (Forall (fun e => others e = []) scripted -> reliable (mkWorld start scripted) -> outcome run = Ok tt).
Proof using Hca TL RL CL YL.
  intros Hzero. cbv zeta. rewrite create_client. set (w := mkWorld start scripted).
  assert (Hw : world_inv started anyone w) by (split; [by left|]; apply Forall_true; intros; by apply Forall_true).
  destruct (initialize_ok w Hzero Hw) as (H1 & H2 & Hw1 & Hc). pose proof (alone_ok w Hzero) as Halone.
  unfold mbind, client_bind. destruct (initialize_if_missing h address initialize_ix w) as [rqs [[]|e] w1]; cbn [outcome world requests] in *.
  - destruct (batch_ok w1) as (H3 & H4 & Hw2 & Hcm & Hr2); [split; [by apply Hc|apply Hw1]|].
    split; [done|]. split; [done|]. split; [right; apply Hw2|]. split; [done|]. intros Hno Hr. apply Hr2.
    apply Halone; [|done]. split; [done|]. eapply list.Forall_impl; [exact Hno|]. cbn. by intros ? ->.
  - split; [done|]. split; [done|]. split; [apply Hw1|]. split; [done|]. intros Hno Hr.
    apply Halone; [|done]. split; [done|]. eapply list.Forall_impl; [exact Hno|]. cbn. by intros ? ->.
Qed.

Lemma exec_batch_start : exists e, exec exec_creation start (realloc_ixs BallotBox.SIZE realloc_ix) = Err e.
Proof using Hca YL.
  destruct exec_realloc_start as [e He]. exists e.
  change (exec exec_creation start (realloc_ixs BallotBox.SIZE realloc_ix))
    with (s ← exec_creation start realloc_ix; exec exec_creation s (replicate 11 realloc_ix)).
  rewrite exec_realloc_ix; [by rewrite He|].
  apply addresses; [done|done|]. exists (acc_lamports payer0). by rewrite with_lamports_same.
Qed.

(** C34: an address that holds lamports is never initialised by the client: it
    takes the lamports for the account and sends only the reallocations, which fail;
    it reports a failure and leaves the chain as it is, so that trying again is no
    better, although the program's initialisation would succeed. *)
Theorem prefunded_box_never_created scripted : 0 < acc_lamports a0 ->
  Forall (fun e => others e = []) scripted ->
  let run := create_ballot_box (H2 := creation_rpc) h epoch (mkWorld start scripted) in
  is_ok (exec_initialize start) /\ outcome run = Err HFailed /\ chain (world run) = start /\
  Forall (fun rq => forall e, InitializeBallotBox e ∉ map ix_data (rq_instructions rq)) (requests run).
Proof using Hca TL CL YL.
  intros Hpos Hno. cbv zeta. destruct exec_initialize_start as (created_state & -> & _). split; [by eexists|].
  rewrite create_client. set (w := mkWorld start scripted).
  assert (Hact : forall s a s', s = start -> False -> creation_act s a = Ok s' -> s' = start) by done.
  assert (Hw : world_inv (fun s => s = start) nobody w).
  { split; [done|]. eapply list.Forall_impl; [exact Hno|]. cbn. by intros ? ->. }
  unfold mbind, client_bind, initialize_if_missing, creation_rpc. unfold mbind, client_bind.
  destruct (ask_inv _ exec_creation creation_node _ nobody Hact (fun nd => get_account nd address) w Hw) as (nd & w1 & -> & Hw1 & Hnd).
  assert (Hs : chain w1 = start) by apply Hw1. rewrite Hs in Hnd. cbn [outcome world requests]. destruct Hnd as [-> | ->]; [done|].
  rewrite read_start, (proj2 (Z.eqb_neq _ _)) by lia. cbn [halt outcome world requests mret client_ret app].
  destruct (send_inv creation_act exec_creation creation_node _ nobody Hact h keypair (realloc_ixs BallotBox.SIZE realloc_ix) []
    (fun _ => False) (ca_keypair Hca)) with (w := w1) as (_ & Hw2 & Hn1 & Hn2 & Hok); [|done|].
  { intros s s' -> He. destruct exec_batch_start as [e Hx]. by rewrite He in Hx. }
  split; [|split; [apply Hw2|]].
  - destruct (outcome _) as [[]|[]]; naive_solver.
  - eapply (emits_send h _ _ (fun rq => forall e, InitializeBallotBox e ∉ map ix_data (rq_instructions rq))).
    intros tried e. cbn [rq_instructions realloc_ixs map]. rewrite not_elem_of_cons. split; [done|].
    intros Hin. apply list_elem_of_fmap in Hin as (ix & Hix & Hin). apply elem_of_replicate in Hin as [-> _]. done.
Qed.
End network.

(* ------------------------------------------------------------------ *)
(** * Witnesses *)

Module CreationWitness.
Import ConcreteSolana ConcretePrograms ConcreteClients ConfigWitness VoteWitness EmptyNetwork.
Definition box (lamports : Z) : AccountInfo := system_account (BallotBox.find_program_address pid (key 9) 5).1.1 lamports.
Definition marker : AccountInfo := system_account (EpochMarker.find_program_address pid (key 9) 5).1.1 0.
Definition system : AccountInfo := system_account Pubkey_default 1.

Lemma ready lamports : 0 <= lamports < 1000000 ->
  creatable pid c0 ConfigWitness.ncn marker system 5 EmptyNetwork.h (key 3) es0 (box lamports) payer.
Proof.
  intros Hl. assert (Hp : acc_lamports payer = 1000000000) by reflexivity.
  assert (Ht : total (box lamports) payer = 1000000000 + lamports) by (unfold total; by rewrite Hp).
  split; rewrite ?Ht, ?Hp; lazymatch goal with
    | |- @eq _ _ _ => vm_compute; reflexivity
    | |- not _ => apply (bool_decide_unpack _); vm_compute; exact I
    | |- _ => idtac
    end; try lia; [cbn; lia|].
  intros n Hn. change BallotBox.SIZE with 128305 in Hn. cbn. lia.
Qed.
End CreationWitness.
Import ConcreteSolana ConcretePrograms ConcreteClients ConfigWitness VoteWitness EmptyNetwork CreationWitness.

Lemma ballot_box_client_completes_witness :
  let s0 := start VoteWitness.es0 (box 0) (body VoteWitness.bb1) payer in
  let run := create_ballot_box (H2 := creation_rpc pid VoteWitness.clock c0 ConfigWitness.ncn marker CreationWitness.system 5)
    EmptyNetwork.h 5 (mkWorld s0 []) in
  outcome run = Ok tt /\ data_len (info (cs_box (chain (world run)))) = 128305.
Proof.
  destruct (ballot_box_client_completes pid VoteWitness.clock c0 ConfigWitness.ncn marker CreationWitness.system 5 EmptyNetwork.h (key 3)
    VoteWitness.es0 (box 0) (body VoteWitness.bb1) payer (ready 0 ltac:(lia)) [] eq_refl) as (_ & _ & _ & Hc & Hr).
  assert (Ho := Hr ltac:(constructor) ltac:(constructor)). split; [exact Ho|]. apply (co_size _ _ _ _ _ _ _ _ _ (Hc Ho)).
Defined.

Lemma prefunded_box_never_created_witness :
  let s0 := start VoteWitness.es0 (box 5) (body VoteWitness.bb1) payer in
  outcome (create_ballot_box (H2 := creation_rpc pid VoteWitness.clock c0 ConfigWitness.ncn marker CreationWitness.system 5)
    EmptyNetwork.h 5 (mkWorld s0 [])) = Err HFailed.
Proof.
  apply (prefunded_box_never_created pid VoteWitness.clock c0 ConfigWitness.ncn marker CreationWitness.system 5 EmptyNetwork.h (key 3)
    VoteWitness.es0 (box 5) (body VoteWitness.bb1) payer (ready 5 ltac:(lia)) []).
  - reflexivity.
  - constructor.
Defined.
