(* ===== verification/KeeperLoop.v ===== *)
(** The keeper's loop on a network (cli/src/keeper/keeper_loop.rs): each iteration
    reads, sends and continues as the code does, with the cranks it calls.  Its
    iterations are steps of Keeper.v, whose actions are the calls of the cranks.  The
    metrics, which only read, are left out. *)

From Stdlib Require Import String.
From S2P Require Import Prelude Errors External Constants Accounts FeeGroups Fees Config StakeWeight VaultRegistry WeightTable EpochSnapshot EpochState BallotBox BaseRewardRouter NcnRewardRouter SetupHandlers Getters Keeper Rpc Network Instructions Cranks.

Section loop.
Context {W : Type} `{Solana} `{KeeperAccounts} `{Clients} `{Rpc W}.
Context (fuel : nat) (h : CliHandler) (test_vote : bool).

(** A method of the keeper's state, on what the node answers; only its panics go
    further. *)
Definition update (f : Node -> Update) : Client W (KeeperState * bool) := fun w =>
  let (nd, w) := rpc_node w in
  match f nd with
  | (s, Ok _) => mkRun [] (Ok (s, true)) w
  | (s, Err Failed) => mkRun [] (Ok (s, false)) w
  | (s, Err KeeperPanic) => mkRun [] (Err HPanic) w
  end.

(** Step 3 and after. *)
Definition crank_and_detect (k : Keeper) : Client W Keeper :=
  let s := kp_state k in
  current_state ← pure_of (ok_or (ks_current_state s) KeeperPanic);
  cranked ← tried (crank fuel h current_state (ks_epoch s) test_vote);
  match cranked with
  | None => mret k
  | Some _ =>
      stall ← tried (ask (fun nd => detect_stall h nd s));
      match stall with
      | None => mret k
      | Some epoch_stall => mret (mkKeeper s epoch_stall (kp_current_epoch k) (kp_last_current_epoch k))
      end
  end.

(** Steps 1 and 2. *)
Definition update_and_crank (k : Keeper) (s : KeeperState) : Client W Keeper :=
  '(s, updated) ← update (fun nd => update_epoch_state h nd s);
  let k := with_kstate k s in
  if negb updated then mret k else
  if ks_is_epoch_completed s then mret k else
  match ks_epoch_state s with
  | None => _ ← logged (create_epoch_state h (ks_epoch s)); mret k
  | Some _ => crank_and_detect k
  end.

(** One iteration. *)
Definition iteration (k : Keeper) : Client W Keeper :=
  let s := kp_state k in
  '(current, slot) ← get_guaranteed_epoch_and_slot fuel;
  current_epoch ← pure_of (progress_epoch current (ks_is_epoch_completed s) (h_epoch h) (kp_last_current_epoch k)
                             (kp_current_epoch k) (kp_epoch_stall k));
  let k := mkKeeper s false current_epoch (Z.max (kp_last_current_epoch k) current_epoch) in
  registered ← tried (crank_register_vaults h);
  match registered with
  | None => mret k
  | Some _ =>
      if ks_epoch s =? current_epoch then update_and_crank k s else
      '(s, fetched) ← update (fun nd => fetch h nd current_epoch s);
      if negb fetched then mret (with_kstate k s) else update_and_crank k s
  end.

(** [n] iterations. *)
Fixpoint iterations (n : nat) (k : Keeper) : Client W Keeper :=
  match n with
  | O => mret k
  | S n => k ← iteration k; iterations n k
  end.

(* ------------------------------------------------------------------ *)
(** * Refinement *)

(** The calls that the actions of Keeper.v stand for. *)
Definition perform (a : Action) : Client W unit :=
  match a with
  | RegisterVaults => crank_register_vaults h
  | CreateEpochState epoch => create_epoch_state h epoch
  | Crank state epoch => crank fuel h state epoch test_vote
  end.

(** Requests made by performing some actions one after the other, each in the
    world that it finds. *)
Inductive performed : list Action -> list Request -> Prop :=
| performed_nil : performed [] []
| performed_cons a w actions rqs : performed actions rqs -> performed (a :: actions) (requests (perform a w) ++ rqs).

Lemma performed_app a1 r1 a2 r2 : performed a1 r1 -> performed a2 r2 -> performed (a1 ++ a2) (r1 ++ r2).
Proof. induction 1 as [|a w actions rqs _ IH]; intros Hp; [done|]. rewrite <- app_assoc. cbn. constructor. by apply IH. Qed.

Lemma performed_one a w : performed [a] (requests (perform a w)).
Proof. rewrite <- (app_nil_r (requests _)). constructor. constructor. Qed.

Lemma update_Ok (f : Node -> Update) w s b : outcome (update f w) = Ok (s, b) ->
  requests (update f w) = [] /\ world (update f w) = (rpc_node w).2 /\ f (rpc_node w).1 = (s, if b then Ok tt else Err Failed).
Proof using.
  unfold update. destruct (rpc_node w) as [nd w']. cbn [fst snd]. destruct (f nd) as [s1 [[]|[]]]; try done; cbn; by intros [= <- <-].
Qed.

Lemma guaranteed_requests n w : requests (get_guaranteed_epoch_and_slot n w) = [].
Proof using.
  revert w. induction n as [|n IH]; intros w; [done|]. cbn [get_guaranteed_epoch_and_slot]. unfold mbind, client_bind, tried, ask.
  destruct (rpc_node w) as [nd w']. cbn [outcome requests world].
  destruct (get_current_epoch_and_slot nd) as [a|[]]; cbn [halt outcome requests world app]; [done|apply IH|done].
Qed.

(** Step 3 and after, with what it was answered. *)
Lemma crank_and_detect_step k w k' : outcome (crank_and_detect k w) = Ok k' ->
  exists cranked stalled, forall an_epoch an_register an_fetch an_update, exists action,
    crank_state h (mkAnswers an_epoch an_register an_fetch an_update cranked stalled) k = Ok ([RegisterVaults; action], k') /\
    performed [action] (requests (crank_and_detect k w)).
Proof using.
  unfold crank_and_detect. intros Ho. apply client_bind_Ok in Ho as (state & Hst & Ho & ->).
  apply client_pure_Ok in Hst as [-> Hst]. apply client_bind_Ok in Ho as (cranked & Hcr & Ho & ->).
  apply client_tried_Ok in Hcr as [-> Hcr]. unfold crank_state. rewrite Hst. cbn [mbind result_bind].
  set (w1 := world (pure_of _ w)) in *. set (w2 := world (tried _ w1)) in *.
  destruct cranked as [[]|]; cbv beta iota in Ho |- *.
  - apply client_bind_Ok in Ho as (stall & Hs & Ho & ->). apply client_tried_Ok in Hs as [-> Hs].
    destruct (client_ask (fun nd => detect_stall h nd (kp_state k)) w2) as (-> & nd & Hn). rewrite Hn in Hs.
    exists true, nd. intros. exists (Crank state (ks_epoch (kp_state k))). cbn [an_crank negb an_stall].
    destruct stall as [stall|]; [apply halt_Ok in Hs|apply halt_failed in Hs]; rewrite Hs; injection Ho as <-.
    all: split; [reflexivity|]; cbn [requests mret client_ret app]; rewrite ?app_nil_r; apply (performed_one (Crank _ _)).
  - injection Ho as <-. exists false, (rpc_node w).1. intros. exists (Crank state (ks_epoch (kp_state k))).
    split; [reflexivity|]. cbn [requests mret client_ret app]. rewrite app_nil_r. apply (performed_one (Crank _ _)).
Qed.

(** Steps 1 and 2, with what they were answered. *)
Lemma update_and_crank_step k s w k' : outcome (update_and_crank k s w) = Ok k' ->
  exists updated cranked stalled, forall an_epoch an_register an_fetch, exists actions,
    let a := mkAnswers an_epoch an_register an_fetch updated cranked stalled in
    ('(s, continue) ← update_epoch h a s;
     match continue with
     | Some actions => mret (actions, with_kstate k s)
     | None => crank_state h a (with_kstate k s)
     end) = Ok (RegisterVaults :: actions, k') /\ performed actions (requests (update_and_crank k s w)).
Proof using.
  unfold update_and_crank. intros Ho. apply client_bind_Ok in Ho as ([s1 updated] & Hu & Ho & ->).
  set (w1 := world _) in *. apply update_Ok in Hu as (-> & _ & Hu). set (nd := (rpc_node w).1) in *. cbn [app]. exists nd. unfold update_epoch.
  destruct updated; cbn [negb] in Ho |- *.
  2:{ injection Ho as <-. exists false, nd. intros. exists []. cbn [an_update]. rewrite Hu. split; [done|constructor]. }
  destruct (ks_is_epoch_completed s1) eqn:Hc.
  { injection Ho as <-. exists false, nd. intros. exists []. cbn [an_update]. rewrite Hu, Hc. split; [done|constructor]. }
  destruct (ks_epoch_state s1) as [es|] eqn:Hes.
  - apply crank_and_detect_step in Ho as (cranked & stalled & Hstep). exists cranked, stalled. intros e r f.
    destruct (Hstep e r f nd) as (action & Hs & Hp). exists [action]. cbn [an_update].
    rewrite Hu, Hc, Hes. by split.
  - exists false, nd. intros. exists [CreateEpochState (ks_epoch s1)]. cbn [an_update]. rewrite Hu, Hc, Hes.
    apply client_bind_Ok in Ho as ([] & _ & Ho & ->). injection Ho as <-. split; [done|].
    rewrite logged_requests. cbn [requests mret client_ret]. rewrite app_nil_r. apply (performed_one (CreateEpochState _)).
Qed.

Lemma iteration_step k w k' : outcome (iteration k w) = Ok k' ->
  exists a actions, keeper_step h a k = Ok (actions, k') /\ performed actions (requests (iteration k w)).
Proof using.
  unfold iteration. intros Ho. apply client_bind_Ok in Ho as ([current slot] & Hg & Ho & ->).
  rewrite guaranteed_requests. cbn [app]. apply client_bind_Ok in Ho as (e & He & Ho & ->). apply client_pure_Ok in He as [-> He].
  cbn [app]. apply client_bind_Ok in Ho as (registered & Hr & Ho & ->). apply client_tried_Ok in Hr as [-> Hr].
  set (w1 := world (get_guaranteed_epoch_and_slot _ w)) in *. set (w2 := world (pure_of _ w1)) in *. set (w3 := world _) in *.
  unfold keeper_step. destruct registered as [[]|].
  2:{ injection Ho as <-. exists (mkAnswers current false no_node no_node false no_node), [RegisterVaults].
    cbn [an_epoch an_register negb]. rewrite He. split; [done|]. cbn [requests mret client_ret]. rewrite app_nil_r.
    apply (performed_one RegisterVaults). }
  unfold update_state. destruct (ks_epoch (kp_state k) =? e) eqn:E.
  { apply update_and_crank_step in Ho as (updated & cranked & stalled & Hstep).
    destruct (Hstep current true no_node) as (actions & Hs & Hp).
    exists (mkAnswers current true no_node updated cranked stalled), (RegisterVaults :: actions).
    cbn [an_epoch an_register negb]. rewrite He. cbn [mbind result_bind]. rewrite E.
    split; [exact Hs|]. by apply (performed_cons RegisterVaults). }
  apply client_bind_Ok in Ho as ([s fetched] & Hf & Ho & ->). apply update_Ok in Hf as (-> & _ & Hf). cbn [app].
  set (nd := (rpc_node _).1) in Hf.
  destruct fetched; cbn [negb] in Ho |- *.
  - apply update_and_crank_step in Ho as (updated & cranked & stalled & Hstep).
    destruct (Hstep current true nd) as (actions & Hs & Hp).
    exists (mkAnswers current true nd updated cranked stalled), (RegisterVaults :: actions).
    cbn [an_epoch an_register an_fetch negb]. rewrite He. cbn [mbind result_bind]. rewrite E, Hf.
    split; [exact Hs|]. by apply (performed_cons RegisterVaults).
  - injection Ho as <-. exists (mkAnswers current true nd no_node false no_node), [RegisterVaults].
    cbn [an_epoch an_register an_fetch negb]. rewrite He. cbn [mbind result_bind]. rewrite E, Hf. split; [done|].
    cbn [requests mret client_ret]. rewrite app_nil_r. apply (performed_one RegisterVaults).
Qed.

(** However many iterations the loop gets through, there are answers by which the steps
    of Keeper.v lead to the same variables, and what it has sent is what the actions of
    these steps send, in their order. *)
Lemma iterations_run_keeper n k w k' : outcome (iterations n k w) = Ok k' ->
  exists answers acts, length answers = n /\ run_keeper h answers k = Ok (acts, k') /\
    performed (concat acts) (requests (iterations n k w)).
Proof using.
  revert k w. induction n as [|n IH]; intros k w Ho.
  - injection Ho as <-. exists [], []. by repeat constructor.
  - cbn [iterations] in Ho |- *. apply client_bind_Ok in Ho as (k1 & Hi & Ho & ->).
    apply iteration_step in Hi as (a & actions & Hs & Hp). apply IH in Ho as (answers & acts & Hl & Hr & Hps).
    exists (a :: answers), (actions :: acts). cbn [run_keeper concat length]. rewrite Hs. cbn [mbind result_bind]. rewrite Hr.
    split; [by rewrite Hl|]. split; [done|]. by apply performed_app.
Qed.
End loop.
