(* ===== verification/KeeperLoopTheorems.v ===== *)
(** What the keeper does on a network (KeeperLoop), whatever the network answers: which
    epoch an iteration is for, what it sends for it, and when it calls the epoch stalled.
    Everything is said of the answers that this iteration got: the worlds below are
    those that its own calls leave. *)

From Stdlib Require Import String.
From S2P Require Import Prelude Errors External Constants Accounts FeeGroups Fees Config StakeWeight VaultRegistry WeightTable EpochSnapshot EpochState BallotBox BaseRewardRouter NcnRewardRouter SetupHandlers Getters Keeper KeeperTheorems Rpc Network Instructions Cranks KeeperLoop.

Section turns.
Context {W : Type} `{Solana} `{KeeperAccounts} `{Clients} `{Rpc W}.
Context (fuel : nat) (h : CliHandler) (test_vote : bool).

Abbreviation iteration := (iteration fuel h test_vote).
Abbreviation iterations := (iterations fuel h test_vote).

(* ------------------------------------------------------------------ *)
(** * The turn of an epoch *)








(* ------------------------------------------------------------------ *)
(** * One iteration *)













End turns.

(* ------------------------------------------------------------------ *)
(** * Witness *)

(** The clock is at epoch 6; neither epoch 5 nor epoch 6 is completed, both wait for
    votes, and every other account is there. *)
Module VotingNetwork.
Import ConcreteSolana ConcretePrograms ConcreteClients.


















End VotingNetwork.
Import VotingNetwork ConcreteSolana ConcretePrograms ConcreteClients.

