(* ===== verification/SnapshotBackup.v ===== *)
(** The operator client's backup of incremental snapshots
    (tip-router-operator-cli/src/backup_snapshots.rs) and the slots it works with
    (process_epoch.rs).  A directory maps file names to sizes; what the file system
    does with a call is a parameter of the call. *)

From Stdlib Require Import String Ascii.
From stdpp Require Import gmap strings sorting.
From S2P Require Import Prelude.
#[local] Open Scope Z_scope.

Definition DEFAULT_SLOTS_PER_EPOCH : Z := 432000.
Definition MAXIMUM_BACKUP_INCREMENTAL_SNAPSHOTS_PER_EPOCH : nat := 3.

(* ------------------------------------------------------------------ *)
(** * File names *)

(** [split(c)] *)
Fixpoint split_on (c : ascii) (s : string) : list string :=
  match s with
  | EmptyString => [EmptyString]
  | String a s =>
      if Ascii.eqb a c then EmptyString :: split_on c s
      else match split_on c s with
           | [] => [String a EmptyString]
           | p :: ps => String a p :: ps
           end
  end.

Definition digit (a : ascii) : option Z :=
  let n := Z.of_N (N_of_ascii a) - 48 in if (0 <=? n) && (n <=? 9) then Some n else None.

Fixpoint parse_digits (n : Z) (s : string) : option Z :=
  match s with
  | EmptyString => Some n
  | String a s =>
      d ← digit a;
      let n := n * 10 + d in
      if U64 <=? n then None else parse_digits n s
  end.

(** [str::parse::<u64>]: digits, after a plus sign perhaps. *)
Definition parse_u64 (s : string) : option Z :=
  match s with
  | EmptyString => None
  | String "+" EmptyString => None
  | String "+" s => parse_digits 0 s
  | _ => parse_digits 0 s
  end.

(** The path is the name of the file in its directory. *)
Record SnapshotInfo := mkSnapshotInfo { si_path : string; si_start_slot : Z; si_end_slot : Z }.

Definition from_path (file_name : string) : option SnapshotInfo :=
  if negb (String.prefix "incremental-snapshot-" file_name) then None else
  let parts := split_on "-" file_name in
  if (length parts <? 5)%nat then None else
  start_slot ← parts !! 2%nat ≫= parse_u64;
  end_slot ← parts !! 3%nat ≫= parse_u64;
  mret (mkSnapshotInfo file_name start_slot end_slot).

Definition epoch_of_slot (slot : Z) : Z := slot / DEFAULT_SLOTS_PER_EPOCH.

(* ------------------------------------------------------------------ *)
(** * The file system *)

Abbreviation Dir := (gmap string Z).

(** A copy that fails may leave a part of the file. *)
Inductive Copied : Type := CopyFails (part : option Z) | CopyWrites (size : Z).

(** What the file system does during one call: the entries it lists of the
    snapshot directory and of a backup directory, the copies it makes, the size
    it reports of a source file ([None] if either size cannot be read), and the
    files it removes. *)
Record Disk := mkDisk {
  dk_snapshots : option (list string);
  dk_backups : Dir -> option (list string);
  dk_copy : string -> Copied;
  dk_source_size : string -> option Z;
  dk_removes : string -> bool;
}.

(* ------------------------------------------------------------------ *)
(** * The monitor *)

(** The most recent incremental snapshot of the epoch that is not after the target
    slot. *)
Definition find_closest_incremental (disk : Disk) (target_slot : Z) : option string :=
  dir_entries ← dk_snapshots disk;
  snap ← max_by_key si_end_slot
    (filter (fun snap => (si_end_slot snap <=? target_slot) && (epoch_of_slot (si_end_slot snap) =? epoch_of_slot target_slot) = true)
       (omap from_path dir_entries));
  mret (si_path snap).

(** The directory after the call, and whether it succeeded. *)
Definition backup_incremental_snapshot (disk : Disk) (backup : Dir) (file_name : string) : Dir * bool :=
  match backup !! file_name with
  | Some _ => (backup, true)
  | None =>
      match dk_copy disk file_name with
      | CopyFails None => (backup, false)
      | CopyFails (Some part) => (<[file_name := part]> backup, false)
      | CopyWrites dest_size =>
          let backup := <[file_name := dest_size]> backup in
          match dk_source_size disk file_name with
          | None => (backup, false)
          | Some source_size =>
              if source_size =? dest_size then (backup, true)
              else (if dk_removes disk file_name then delete file_name backup else backup, false)
          end
      end
  end.

(** Removes files until one cannot be removed. *)
Fixpoint remove_files (disk : Disk) (snapshots : list SnapshotInfo) (backup : Dir) : Dir * bool :=
  match snapshots with
  | [] => (backup, true)
  | snap :: snapshots =>
      if dk_removes disk (si_path snap) then remove_files disk snapshots (delete (si_path snap) backup) else (backup, false)
  end.

Definition epoch_snapshots (epoch : Z) (entries : list string) : list SnapshotInfo :=
  filter (fun snap => epoch_of_slot (si_end_slot snap) = epoch) (omap from_path entries).

Definition evict_all_epoch_snapshots (disk : Disk) (backup : Dir) (epoch : Z) : Dir * bool :=
  match dk_backups disk backup with
  | None => (backup, false)
  | Some entries => remove_files disk (epoch_snapshots epoch entries) backup
  end.

(** The oldest go until at most [MAXIMUM_BACKUP_INCREMENTAL_SNAPSHOTS_PER_EPOCH]
    are left. *)
Definition evict_same_epoch_incremental (disk : Disk) (backup : Dir) (target_slot : Z) : Dir * bool :=
  match dk_backups disk backup with
  | None => (backup, false)
  | Some entries =>
      let same_epoch_snapshots := sort_by_key si_end_slot (epoch_snapshots (epoch_of_slot target_slot) entries) in
      remove_files disk
        (take (length same_epoch_snapshots - MAXIMUM_BACKUP_INCREMENTAL_SNAPSHOTS_PER_EPOCH) same_epoch_snapshots) backup
  end.

Definition backup_latest_for_target_slot (disk : Disk) (backup : Dir) (current_backup_path : option string) (target_slot : Z)
    : Dir * option string :=
  match find_closest_incremental disk target_slot with
  | None => (backup, current_backup_path)
  | Some snapshot =>
      if bool_decide (current_backup_path = Some snapshot) then (backup, current_backup_path) else
      let '(backup, saved) := backup_incremental_snapshot disk backup snapshot in
      if negb saved then (backup, current_backup_path) else
      ((evict_same_epoch_incremental disk backup target_slot).1, Some snapshot)
  end.

(** [get_previous_epoch_last_slot]: the epoch and the last slot before the epoch
    that the node is in. *)
Record EpochInfo := mkEpochInfo { ei_epoch : Z; ei_slot_index : Z; ei_absolute_slot : Z }.

Definition get_previous_epoch_last_slot (epoch_info : EpochInfo) : Z * Z :=
  let current_slot := ei_absolute_slot epoch_info in
  let slot_index := ei_slot_index epoch_info in
  if current_slot <? slot_index then (0, 0) else
  (saturating_sub (ei_epoch epoch_info) 1, saturating_sub (current_slot - slot_index) 1).

(** The last slot of the previous epoch and the target in this epoch; [None] is
    an overflow, which panics. *)
Definition get_target_slots (override_target_slot : option Z) (epoch_info : EpochInfo) : option (Z * Z) :=
  let last_epoch_target_slot := (get_previous_epoch_last_slot epoch_info).2 in
  next_epoch_target_slot ← checked_add U64 last_epoch_target_slot DEFAULT_SLOTS_PER_EPOCH;
  mret (last_epoch_target_slot, default next_epoch_target_slot override_target_slot).

(** The variables of [run], and the backup directory. *)
Record Monitor := mkMonitor {
  mo_backup : Dir;
  mo_current_target_slot : option Z;
  mo_last_epoch_backup_path : option string;
  mo_this_epoch_backup_path : option string;
}.

Definition run_init (backup : Dir) : Monitor := mkMonitor backup None None None.

(** One tick of [run]; [current_epoch - 2] panics below 2. *)
Definition tick (override_target_slot : option Z) (epoch_info : EpochInfo) (disk : Disk) (m : Monitor) : option Monitor :=
  '(last_epoch_target_slot, this_epoch_target_slot) ← get_target_slots override_target_slot epoch_info;
  '(backup, last_epoch_backup_path, this_epoch_backup_path) ←
    (if bool_decide (mo_current_target_slot m = Some this_epoch_target_slot)
     then Some (mo_backup m, mo_last_epoch_backup_path m, mo_this_epoch_backup_path m)
     else old_epoch ← checked_sub (epoch_of_slot this_epoch_target_slot) 2;
          Some ((evict_all_epoch_snapshots disk (mo_backup m) old_epoch).1, mo_this_epoch_backup_path m, None));
  let '(backup, last_epoch_backup_path) := backup_latest_for_target_slot disk backup last_epoch_backup_path last_epoch_target_slot in
  let '(backup, this_epoch_backup_path) := backup_latest_for_target_slot disk backup this_epoch_backup_path this_epoch_target_slot in
  mret (mkMonitor backup (Some this_epoch_target_slot) last_epoch_backup_path this_epoch_backup_path).

(** [run], for as long as it is answered. *)
Fixpoint run (override_target_slot : option Z) (ticks : list (EpochInfo * Disk)) (m : Monitor) : option Monitor :=
  match ticks with
  | [] => Some m
  | (epoch_info, disk) :: ticks => m ← tick override_target_slot epoch_info disk m; run override_target_slot ticks m
  end.

(* ------------------------------------------------------------------ *)
(** * Waiting for a snapshot *)

Definition MAX_WAIT_FOR_INCREMENTAL_SNAPSHOT_TICKS : nat := 1200.
Definition OPTIMAL_INCREMENTAL_SNAPSHOT_SLOT_RANGE : Z := 800.

(** The snapshot ends in the 800 slots up to the target; the subtraction panics
    on overflow. *)
Definition optimal (target_slot : Z) (snap : SnapshotInfo) : option bool :=
  low ← checked_sub target_slot OPTIMAL_INCREMENTAL_SNAPSHOT_SLOT_RANGE;
  Some ((low <? si_end_slot snap) && (si_end_slot snap <=? target_slot)).

(** How the wait ends. *)
Inductive Waited : Type := WaitReady | WaitTimedOut | WaitFails | WaitPanics.

(** One look: the directory as it is listed, an entry that cannot be read being
    [None].  [None] of the result is that nothing was found. *)
Fixpoint look (target_slot : Z) (dir_entries : list (option string)) : option Waited :=
  match dir_entries with
  | [] => None
  | None :: _ => Some WaitFails
  | Some entry :: dir_entries =>
      match from_path entry with
      | None => look target_slot dir_entries
      | Some snapshot_info =>
          match optimal target_slot snapshot_info with
          | None => Some WaitPanics
          | Some true => Some WaitReady
          | Some false => look target_slot dir_entries
          end
      end
  end.

(** The ticks that are left of [MAX_WAIT_FOR_INCREMENTAL_SNAPSHOT_TICKS]; the
    directory is listed anew at each. *)
Fixpoint wait_ticks (listing : nat -> option (list (option string))) (target_slot : Z) (ticks : nat) : Waited :=
  match ticks with
  | O => WaitTimedOut
  | S ticks =>
      match listing ticks with
      | None => WaitFails
      | Some dir_entries => default (wait_ticks listing target_slot ticks) (look target_slot dir_entries)
      end
  end.

Definition wait_for_optimal_incremental_snapshot (listing : nat -> option (list (option string))) (target_slot : Z) : Waited :=
  wait_ticks listing target_slot MAX_WAIT_FOR_INCREMENTAL_SNAPSHOT_TICKS.

Example parse_name : from_path "incremental-snapshot-100-150-hash1.tar.zst"
  = Some (mkSnapshotInfo "incremental-snapshot-100-150-hash1.tar.zst" 100 150).
Proof. reflexivity. Qed.
Example parse_full : from_path "snapshot-100-150-hash.tar.zst" = None.
Proof. reflexivity. Qed.
