(* ===== verification/BackupTheorems.v ===== *)
(** The backup of incremental snapshots: what the directory holds after every
    tick of the monitor when the disk works. *)

From Stdlib Require Import String Ascii.
From stdpp Require Import gmap strings sorting.
From S2P Require Import Prelude SnapshotBackup.
#[local] Open Scope Z_scope.

(** The snapshots of an epoch that a backup directory holds. *)
Definition kept (epoch : Z) (backup : Dir) : list SnapshotInfo := epoch_snapshots epoch (elements (dom backup)).

(** The backup holds a snapshot of the epoch that is as recent as this one. *)
Definition covered (end_slot : Z) (backup : Dir) : Prop :=
  exists s, s ∈ kept (epoch_of_slot end_slot) backup /\ end_slot <= si_end_slot s.

(** A disk that lists what is there, copies whole files and removes what it is
    asked to. *)
Record works (snapshots : list string) (disk : Disk) : Prop := {
  wk_snapshots : dk_snapshots disk = Some snapshots;
  wk_backups : forall backup, exists entries, dk_backups disk backup = Some entries /\ entries ≡ₚ elements (dom backup);
  wk_copies : forall name, name ∈ snapshots -> exists size, dk_copy disk name = CopyWrites size /\ dk_source_size disk name = Some size;
  wk_removes : forall name, dk_removes disk name = true;
}.

(* ------------------------------------------------------------------ *)
(** * Names *)

Lemma from_path_name name s : from_path name = Some s -> si_path s = name.
Proof.
  unfold from_path. destruct (negb _); [done|]. destruct (_ <? _)%nat; [done|].
  intros (start & _ & (stop & _ & [= <-])%bind_Some)%bind_Some. done.
Qed.

Lemma elem_of_epoch_snapshots epoch entries s :
  s ∈ epoch_snapshots epoch entries
  <-> epoch_of_slot (si_end_slot s) = epoch /\ si_path s ∈ entries /\ from_path (si_path s) = Some s.
Proof.
  unfold epoch_snapshots. rewrite list_elem_of_filter, list_elem_of_omap. split.
  - intros (He & name & Hin & Hs). by rewrite (from_path_name _ _ Hs).
  - intros (He & Hin & Hs). eauto.
Qed.

Lemma NoDup_epoch_snapshots epoch entries : NoDup entries -> NoDup (epoch_snapshots epoch entries).
Proof.
  intros Hnd. apply list.NoDup_filter. induction Hnd as [|name entries Hnot Hnd IH]; cbn; [constructor|].
  destruct (from_path name) as [s|] eqn:Hs; [|done]. constructor; [|done].
  intros (name' & Hin & Hs')%list_elem_of_omap. apply Hnot. by rewrite <- (from_path_name _ _ Hs), (from_path_name _ _ Hs').
Qed.

Lemma epoch_snapshots_perm epoch entries entries' :
  entries ≡ₚ entries' -> epoch_snapshots epoch entries ≡ₚ epoch_snapshots epoch entries'.
Proof. intros Hp. unfold epoch_snapshots. by rewrite Hp. Qed.

Lemma elem_of_kept epoch backup s :
  s ∈ kept epoch backup
  <-> epoch_of_slot (si_end_slot s) = epoch /\ is_Some (backup !! si_path s) /\ from_path (si_path s) = Some s.
Proof. unfold kept. by rewrite elem_of_epoch_snapshots, elem_of_elements, elem_of_dom. Qed.

Lemma NoDup_kept epoch backup : NoDup (kept epoch backup).
Proof. apply NoDup_epoch_snapshots, NoDup_elements. Qed.
#[local] Hint Resolve NoDup_kept : core.

Lemma kept_length_le epoch backup (l : list SnapshotInfo) :
  (forall s, s ∈ kept epoch backup -> s ∈ l) -> (length (kept epoch backup) <= length l)%nat.
Proof. intros Hsub. by apply submseteq_length, NoDup_submseteq. Qed.

Lemma elem_of_take_in {A : Type} (x : A) n (l : list A) : x ∈ take n l -> x ∈ l.
Proof. intros Hx. rewrite <- (take_drop n l). apply elem_of_app. by left. Qed.

Lemma last_in_drop {A : Type} (x : A) n (l : list A) : list.last l = Some x -> (n < length l)%nat -> x ∈ drop n l.
Proof.
  intros Hlast Hn. rewrite last_lookup in Hlast. apply list_elem_of_lookup_2 with (i := (pred (length l) - n)%nat).
  rewrite lookup_drop. by replace (n + (pred (length l) - n))%nat with (pred (length l)) by lia.
Qed.

Lemma sorted_last {A : Type} (key : A -> Z) (l : list A) x y :
  StronglySorted (fun a b => key a <= key b) l -> list.last l = Some y -> x ∈ l -> key x <= key y.
Proof.
  intros Hl. revert x. induction Hl as [|a l Hl IH Ha] using StronglySorted_ind; intros x Hlast Hx; [by apply elem_of_nil in Hx|].
  destruct l as [|b l]; [apply list_elem_of_singleton in Hx as ->; by simplify_eq/=|].
  change (list.last (a :: b :: l)) with (list.last (b :: l)) in Hlast.
  apply elem_of_cons in Hx as [->|Hx]; [|by apply IH].
  rewrite List.Forall_forall in Ha. apply Ha. apply elem_of_list_In || apply list_elem_of_In.
  apply last_Some in Hlast as [l' ->]. apply elem_of_app. right. by left.
Qed.

(* ------------------------------------------------------------------ *)
(** * What the monitor does to the directory *)

Section working.
Context (snapshots : list string) (disk : Disk) (W : works snapshots disk).

Lemma remove_files_all gone backup :
  (remove_files disk gone backup).2 = true
  /\ forall name, (remove_files disk gone backup).1 !! name = if decide (name ∈ si_path <$> gone) then None else backup !! name.
Proof using W.
  induction gone as [|s gone IH] in backup |- *; cbn [remove_files].
  - split; [done|]. intros name. by rewrite decide_False by (cbn; apply not_elem_of_nil).
  - rewrite (wk_removes _ _ W). destruct (IH (delete (si_path s) backup)) as [Hok Hget]. split; [done|].
    intros name. rewrite Hget, fmap_cons. destruct (decide (name = si_path s)) as [->|Hne].
    + rewrite lookup_delete_eq. rewrite (decide_True (P := si_path s ∈ _ :: _)) by left. by case_decide.
    + rewrite lookup_delete_ne by done. destruct (decide (name ∈ si_path <$> gone)) as [Hin|Hnin].
      * by rewrite decide_True by (by right).
      * by rewrite decide_False by (by rewrite elem_of_cons; intros [?|?]).
Qed.

(** What is kept of an epoch when files go. *)
Lemma elem_of_kept_removed gone epoch backup s :
  (forall g, g ∈ gone -> from_path (si_path g) = Some g) ->
  s ∈ kept epoch (remove_files disk gone backup).1 <-> s ∈ kept epoch backup /\ s ∉ gone.
Proof using W.
  intros Hgone. rewrite !elem_of_kept, (proj2 (remove_files_all gone backup)).
  assert (Hp : from_path (si_path s) = Some s -> (si_path s ∈ si_path <$> gone <-> s ∈ gone)).
  { intros Hs. rewrite list_elem_of_fmap. split; [|eauto]. intros (g & Hpath & Hg). pose proof (Hgone g Hg) as Hg'.
    rewrite <- Hpath in Hg'. by simplify_eq. }
  case_decide as Hin.
  - split; [intros (_ & [? [=]] & _)|]. intros ((_ & _ & Hs) & Hn). by apply Hp in Hin.
  - split; [|by intros [? _]]. intros (He & Hl & Hs). split; [done|]. by rewrite <- (Hp Hs).
Qed.

Lemma evict_all_kept epoch backup s :
  s ∈ kept epoch (evict_all_epoch_snapshots disk backup epoch).1 -> False.
Proof using W.
  unfold evict_all_epoch_snapshots. destruct (wk_backups _ _ W backup) as (entries & -> & Hp).
  rewrite elem_of_kept_removed by (intros g; rewrite elem_of_epoch_snapshots; tauto).
  intros [Hs Hn]. apply Hn. by rewrite (epoch_snapshots_perm _ _ _ Hp).
Qed.

Lemma evict_all_other old epoch backup s :
  epoch <> old -> s ∈ kept epoch (evict_all_epoch_snapshots disk backup old).1 <-> s ∈ kept epoch backup.
Proof using W.
  intros Hne. unfold evict_all_epoch_snapshots. destruct (wk_backups _ _ W backup) as (entries & -> & Hp).
  rewrite elem_of_kept_removed by (intros g; rewrite elem_of_epoch_snapshots; tauto).
  split; [by intros [? _]|]. intros Hs. split; [done|]. rewrite elem_of_epoch_snapshots.
  apply elem_of_kept in Hs. intros (? & _). by intuition congruence.
Qed.

(** The eviction of one epoch: what stays are the three newest. *)
Lemma evict_same_epoch_kept backup target_slot :
  let epoch := epoch_of_slot target_slot in
  let backup' := (evict_same_epoch_incremental disk backup target_slot).1 in
  (length (kept epoch backup') <= MAXIMUM_BACKUP_INCREMENTAL_SNAPSHOTS_PER_EPOCH)%nat
  /\ (forall e s, s ∈ kept e backup' -> s ∈ kept e backup)
  /\ (forall e s, e <> epoch -> s ∈ kept e backup -> s ∈ kept e backup')
  /\ (forall s, s ∈ kept epoch backup -> exists newest, newest ∈ kept epoch backup' /\ si_end_slot s <= si_end_slot newest).
Proof using W.
  cbn zeta. unfold evict_same_epoch_incremental. destruct (wk_backups _ _ W backup) as (entries & -> & Hp).
  set (epoch := epoch_of_slot target_slot). set (L := sort_by_key si_end_slot (epoch_snapshots epoch entries)).
  set (n := (length L - _)%nat). assert (HL : L ≡ₚ kept epoch backup).
  { unfold L. rewrite sort_by_key_perm. by apply epoch_snapshots_perm. }
  assert (Hgone : forall g, g ∈ take n L -> g ∈ kept epoch backup).
  { intros g Hg. rewrite <- HL. by eapply elem_of_take_in. }
  assert (HK : forall e s, s ∈ kept e (remove_files disk (take n L) backup).1 <-> s ∈ kept e backup /\ s ∉ take n L).
  { intros e s. apply elem_of_kept_removed. intros g Hg%Hgone. apply elem_of_kept in Hg. tauto. }
  assert (Hnd : NoDup (take n L ++ drop n L)) by (rewrite take_drop, HL; apply NoDup_kept).
  apply list.NoDup_app in Hnd as (_ & Hsep & _).
  assert (Hdrop : forall s, s ∈ kept epoch (remove_files disk (take n L) backup).1 <-> s ∈ drop n L).
  { intros s. rewrite HK, <- HL. rewrite <- (take_drop n L) at 1. rewrite elem_of_app. split; [tauto|].
    intros Hs. split; [by right|]. intros Ht. by apply (Hsep s). }
  split_and!.
  - etrans; [by apply kept_length_le; intros s; apply Hdrop|]. rewrite length_drop. unfold n. lia.
  - intros e s [? _]%HK. done.
  - intros e s Hne Hs. apply HK. split; [done|]. intros Hg%Hgone. apply elem_of_kept in Hg, Hs. by intuition congruence.
  - intros s Hs. rewrite <- HL in Hs. destruct (list.last L) as [newest|] eqn:Hlast.
    + exists newest. split.
      * apply Hdrop. apply last_in_drop; [done|]. apply last_Some in Hlast as [? Heq].
        unfold n, MAXIMUM_BACKUP_INCREMENTAL_SNAPSHOTS_PER_EPOCH. rewrite Heq, length_app. cbn. lia.
      * by eapply (sorted_last si_end_slot L); [apply sort_by_key_sorted| |].
    + apply last_None in Hlast. rewrite Hlast in Hs. by apply elem_of_nil in Hs.
Qed.

Lemma evict_same_epoch_covered end_slot backup target_slot :
  covered end_slot backup -> covered end_slot (evict_same_epoch_incremental disk backup target_slot).1.
Proof using W.
  intros (s & Hs & Hle). destruct (evict_same_epoch_kept backup target_slot) as (_ & _ & Hother & Hnewest).
  destruct (decide (epoch_of_slot end_slot = epoch_of_slot target_slot)) as [He|Hne].
  - rewrite He in Hs. destruct (Hnewest s Hs) as (newest & Hn & Hle'). exists newest. rewrite He. split; [done|lia].
  - exists s. split; [by apply Hother|done].
Qed.

Lemma evict_all_covered end_slot backup old :
  epoch_of_slot end_slot <> old -> covered end_slot backup -> covered end_slot (evict_all_epoch_snapshots disk backup old).1.
Proof using W. intros Hne (s & Hs & Hle). exists s. split; [|done]. by apply evict_all_other. Qed.

(** A backup of one file. *)
Lemma backup_one name backup :
  name ∈ snapshots ->
  exists backup', backup_incremental_snapshot disk backup name = (backup', true)
    /\ is_Some (backup' !! name)
    /\ forall other, other <> name \/ is_Some (backup !! other) -> backup' !! other = backup !! other.
Proof using W.
  intros Hin. unfold backup_incremental_snapshot. destruct (backup !! name) eqn:Hold.
  - exists backup. split_and!; [done|by rewrite Hold|done].
  - destruct (wk_copies _ _ W name Hin) as (size & -> & ->). rewrite Z.eqb_refl. eexists. split_and!; [done| |].
    + by rewrite lookup_insert_eq.
    + intros other Hother. apply lookup_insert_ne. intros <-. rewrite Hold in Hother. by destruct Hother as [|[? [=]]].
Qed.

Lemma backup_one_kept name backup backup' info epoch s :
  from_path name = Some info ->
  is_Some (backup' !! name) ->
  (forall other, other <> name \/ is_Some (backup !! other) -> backup' !! other = backup !! other) ->
  s ∈ kept epoch backup' <-> s ∈ kept epoch backup \/ (s = info /\ epoch_of_slot (si_end_slot info) = epoch).
Proof using.
  intros Hinfo Hname Hother. rewrite !elem_of_kept. split.
  - intros (He & Hl & Hs). destruct (decide (si_path s = name)) as [Hp|Hp].
    + right. rewrite Hp in Hs. by simplify_eq.
    + left. rewrite <- (Hother (si_path s)) by tauto. done.
  - intros [(He & Hl & Hs)|[-> He]].
    + rewrite (Hother (si_path s)) by tauto. done.
    + by rewrite (from_path_name _ _ Hinfo).
Qed.

(** The file that is looked for. *)
Lemma find_closest_spec target_slot :
  match find_closest_incremental disk target_slot with
  | None => forall name s, name ∈ snapshots -> from_path name = Some s ->
      si_end_slot s <= target_slot -> epoch_of_slot (si_end_slot s) = epoch_of_slot target_slot -> False
  | Some name => exists best, name ∈ snapshots /\ from_path name = Some best
      /\ epoch_of_slot (si_end_slot best) = epoch_of_slot target_slot
      /\ forall name' s, name' ∈ snapshots -> from_path name' = Some s ->
           si_end_slot s <= target_slot -> epoch_of_slot (si_end_slot s) = epoch_of_slot target_slot -> si_end_slot s <= si_end_slot best
  end.
Proof using W.
  unfold find_closest_incremental. rewrite (wk_snapshots _ _ W). cbn [mbind option_bind].
  set (l := filter _ _). assert (Hl : forall s, s ∈ l <-> (si_end_slot s <= target_slot
    /\ epoch_of_slot (si_end_slot s) = epoch_of_slot target_slot) /\ si_path s ∈ snapshots /\ from_path (si_path s) = Some s).
  { intros s. unfold l. rewrite list_elem_of_filter, list_elem_of_omap, andb_true_iff, Z.leb_le, Z.eqb_eq. split.
    - intros (Hc & name & Hin & Hs). by rewrite (from_path_name _ _ Hs).
    - intros (Hc & Hin & Hs). eauto. }
  pose proof (max_by_key_spec si_end_slot l) as Hmax. destruct (max_by_key _ l) as [best|]; cbn [mbind option_bind mret option_ret].
  - destruct Hmax as [Hbest Hmax]. apply Hl in Hbest as ((_ & He) & Hin & Hs). exists best. split_and!; [done..|].
    intros name s Hname Hs' Hle Heq. apply Hmax, Hl. by rewrite (from_path_name _ _ Hs').
  - intros name s Hname Hs Hle Heq. apply (elem_of_nil s). rewrite <- Hmax. apply Hl. by rewrite (from_path_name _ _ Hs).
Qed.

(** Every listed snapshot that serves the target is covered. *)
Definition served (target_slot : Z) (backup : Dir) : Prop :=
  forall name s, name ∈ snapshots -> from_path name = Some s ->
    si_end_slot s <= target_slot -> epoch_of_slot (si_end_slot s) = epoch_of_slot target_slot ->
    covered (si_end_slot s) backup.

(** A remembered path is of a snapshot that is covered, unless its epoch is
    older. *)
Definition path_ok (epoch : Z) (path : option string) (backup : Dir) : Prop :=
  forall name, path = Some name -> exists s, from_path name = Some s
    /\ (epoch <= epoch_of_slot (si_end_slot s) -> covered (si_end_slot s) backup).

Definition bounded (backup : Dir) : Prop :=
  forall epoch, (length (kept epoch backup) <= MAXIMUM_BACKUP_INCREMENTAL_SNAPSHOTS_PER_EPOCH)%nat.

Lemma backup_latest_spec backup path target_slot epoch :
  let '(backup', path') := backup_latest_for_target_slot disk backup path target_slot in
  epoch <= epoch_of_slot target_slot ->
  path_ok epoch path backup ->
  (bounded backup -> bounded backup')
  /\ (forall e s, s ∈ kept e backup' -> s ∈ kept e backup \/ e = epoch_of_slot target_slot)
  /\ (forall end_slot, covered end_slot backup -> covered end_slot backup')
  /\ path_ok epoch path' backup'
  /\ served target_slot backup'.
Proof using W.
  pose proof (find_closest_spec target_slot) as Hfind. unfold backup_latest_for_target_slot.
  destruct (find_closest_incremental disk target_slot) as [name|].
  2: { intros _ Hpath. split_and!; [done|by left|done|done|]. intros name s Hn Hs Hle He. exfalso. eauto. }
  destruct Hfind as (best & Hin & Hbest & He & Hmax).
  assert (Hserved : forall backup', covered (si_end_slot best) backup' -> served target_slot backup').
  { intros backup' (k & Hk & Hle) name' s Hname' Hs Hle' He'. exists k. rewrite He', <- He. split; [done|].
    specialize (Hmax name' s Hname' Hs Hle' He'). lia. }
  case_bool_decide as Hp.
  { intros Hep Hpath. destruct (Hpath name Hp) as (s & Hs & Hcov). simplify_eq.
    split_and!; [done|by left|done|done|]. apply Hserved, Hcov. lia. }
  destruct (backup_one name backup Hin) as (copied & Hcopy & Hname & Hother). rewrite Hcopy. cbn [negb].
  pose proof (backup_one_kept name backup copied best) as Hkept.
  specialize (fun e s => Hkept e s Hbest Hname Hother).
  destruct (evict_same_epoch_kept copied target_slot) as (Hthree & Hfewer & _ & _).
  pose proof (fun slot => evict_same_epoch_covered slot copied target_slot) as Hcov.
  destruct (evict_same_epoch_incremental disk copied target_slot) as [evicted ok]. cbn [fst] in *.
  assert (Hnew : covered (si_end_slot best) evicted).
  { apply Hcov. exists best. split; [apply Hkept; by right|lia]. }
  intros Hep Hpath. split_and!.
  - intros Hb e. destruct (decide (e = epoch_of_slot target_slot)) as [->|Hne]; [done|].
    etrans; [apply (kept_length_le e evicted (kept e backup))|apply Hb].
    intros s [Hs|[_ Hs]]%Hfewer%Hkept; [done|congruence].
  - intros e s [Hs|[_ Hs]]%Hfewer%Hkept; [by left|right; congruence].
  - intros slot (k & Hk & Hle). apply Hcov. exists k. split; [apply Hkept; by left|done].
  - intros name' [= <-]. eauto.
  - by apply Hserved.
Qed.
End working.

(* ------------------------------------------------------------------ *)
(** * A tick of the monitor *)

Definition last_target (epoch_info : EpochInfo) : Z := (get_previous_epoch_last_slot epoch_info).2.
Definition this_target (epoch_info : EpochInfo) : Z := last_target epoch_info + DEFAULT_SLOTS_PER_EPOCH.
Definition monitored_epoch (epoch_info : EpochInfo) : Z := epoch_of_slot (this_target epoch_info).

Lemma last_target_epoch epoch_info : epoch_of_slot (last_target epoch_info) = monitored_epoch epoch_info - 1.
Proof.
  unfold monitored_epoch, this_target, epoch_of_slot, DEFAULT_SLOTS_PER_EPOCH.
  replace (last_target epoch_info + 432000) with (last_target epoch_info + 1 * 432000) by lia.
  rewrite Z.div_add by done. lia.
Qed.

(** What the monitor remembers is covered by the directory. *)
Record remembers (epoch : Z) (m : Monitor) : Prop := {
  rm_last : path_ok (epoch - 1) (mo_last_epoch_backup_path m) (mo_backup m);
  rm_this : path_ok (epoch - 1) (mo_this_epoch_backup_path m) (mo_backup m);
}.

Lemma path_ok_mono epoch epoch' path backup backup' :
  epoch <= epoch' ->
  (forall end_slot, epoch' <= epoch_of_slot end_slot -> covered end_slot backup -> covered end_slot backup') ->
  path_ok epoch path backup -> path_ok epoch' path backup'.
Proof.
  intros Hle Hmono Hpath name Hname. destruct (Hpath name Hname) as (s & Hs & Hcov). exists s. split; [done|].
  intros He. apply Hmono; [done|]. apply Hcov. lia.
Qed.

Lemma path_ok_none epoch backup : path_ok epoch None backup.
Proof. intros name [=]. Qed.

(** The purge at a new epoch. *)
Lemma purge_bounded snapshots disk backup old :
  works snapshots disk -> bounded backup -> bounded (evict_all_epoch_snapshots disk backup old).1.
Proof.
  intros W Hb e. destruct (decide (e = old)) as [->|Hne].
  - destruct (kept old _) as [|s l] eqn:Hk; [cbn; lia|]. exfalso.
    apply (evict_all_kept _ _ W old backup s). rewrite Hk. by left.
  - etrans; [apply (kept_length_le e _ (kept e backup))|apply Hb].
    intros s. by apply (evict_all_other _ _ W).
Qed.

(** What a working tick does, from the directory the monitor starts it with. *)
Record ticked (snapshots : list string) (epoch_info : EpochInfo) (m m' : Monitor) : Prop := {
  ti_target : mo_current_target_slot m' = Some (this_target epoch_info);
  ti_remembers : remembers (monitored_epoch epoch_info) m';
  ti_bounded : bounded (mo_backup m) -> bounded (mo_backup m');
  ti_served_last : served snapshots (last_target epoch_info) (mo_backup m');
  ti_served_this : served snapshots (this_target epoch_info) (mo_backup m');
  ti_kept : forall e s, s ∈ kept e (mo_backup m') ->
    (s ∈ kept e (mo_backup m) /\ (mo_current_target_slot m = Some (this_target epoch_info) \/ e <> monitored_epoch epoch_info - 2))
    \/ e = monitored_epoch epoch_info \/ e = monitored_epoch epoch_info - 1;
  ti_covered : forall slot, epoch_of_slot slot <> monitored_epoch epoch_info - 2 -> covered slot (mo_backup m) -> covered slot (mo_backup m');
}.

(** The directory and the paths after the test for a new epoch. *)
Lemma new_epoch_spec snapshots disk epoch_info epoch m :
  works snapshots disk -> remembers epoch m ->
  epoch <= monitored_epoch epoch_info -> 2 <= monitored_epoch epoch_info ->
  exists backup last_path this_path,
    (if bool_decide (mo_current_target_slot m = Some (this_target epoch_info))
     then Some (mo_backup m, mo_last_epoch_backup_path m, mo_this_epoch_backup_path m)
     else old_epoch ← checked_sub (epoch_of_slot (this_target epoch_info)) 2;
          Some ((evict_all_epoch_snapshots disk (mo_backup m) old_epoch).1, mo_this_epoch_backup_path m, None))
    = Some (backup, last_path, this_path)
    /\ path_ok (monitored_epoch epoch_info - 1) last_path backup
    /\ path_ok (monitored_epoch epoch_info - 1) this_path backup
    /\ (bounded (mo_backup m) -> bounded backup)
    /\ (forall slot, epoch_of_slot slot <> monitored_epoch epoch_info - 2 -> covered slot (mo_backup m) -> covered slot backup)
    /\ forall e s, s ∈ kept e backup ->
         s ∈ kept e (mo_backup m) /\ (mo_current_target_slot m = Some (this_target epoch_info) \/ e <> monitored_epoch epoch_info - 2).
Proof.
  intros W [Hlast Hthis] Hle Htwo. case_bool_decide as Hcur.
  - exists (mo_backup m), (mo_last_epoch_backup_path m), (mo_this_epoch_backup_path m).
    split_and!; [done|by eapply path_ok_mono; [|done|done]; lia|by eapply path_ok_mono; [|done|done]; lia|by auto|by auto|by auto].
  - fold (monitored_epoch epoch_info). unfold checked_sub. ztests.
    eexists _, _, _. split; [done|]. split_and!.
    + eapply path_ok_mono; [| |exact Hthis]; [lia|]. intros slot Hs. apply (evict_all_covered _ _ W). lia.
    + apply path_ok_none.
    + by eapply purge_bounded.
    + intros slot. by apply (evict_all_covered _ _ W).
    + intros e s Hs. destruct (decide (e = monitored_epoch epoch_info - 2)) as [->|Hne].
      * by apply (evict_all_kept _ _ W) in Hs.
      * split; [by apply (evict_all_other _ _ W) in Hs|by right].
Qed.

Lemma tick_spec snapshots disk epoch_info epoch m :
  works snapshots disk -> remembers epoch m ->
  epoch <= monitored_epoch epoch_info -> 2 <= monitored_epoch epoch_info -> this_target epoch_info < U64 ->
  exists m', tick None epoch_info disk m = Some m' /\ ticked snapshots epoch_info m m'.
Proof.
  intros W Hrem Hle Htwo Hmax.
  destruct (new_epoch_spec _ _ epoch_info _ _ W Hrem Hle Htwo) as (backup & last_path & this_path & Hnew & Hlast & Hthis & Hb & Hcov & Hk).
  unfold tick, get_target_slots. fold (last_target epoch_info). unfold checked_add. fold (this_target epoch_info).
  ztests. cbn [mbind option_bind mret option_ret default]. rewrite Hnew. cbn [mbind option_bind].
  pose proof (backup_latest_spec _ _ W backup last_path (last_target epoch_info) (monitored_epoch epoch_info - 1)) as H1.
  destruct (backup_latest_for_target_slot disk backup last_path _) as [backup1 last_path1].
  rewrite last_target_epoch in H1. destruct H1 as (Hb1 & Hk1 & Hc1 & Hp1 & Hs1); [lia|done|].
  pose proof (backup_latest_spec _ _ W backup1 this_path (this_target epoch_info) (monitored_epoch epoch_info - 1)) as H2.
  destruct (backup_latest_for_target_slot disk backup1 this_path _) as [backup2 this_path2].
  fold (monitored_epoch epoch_info) in H2.
  destruct H2 as (Hb2 & Hk2 & Hc2 & Hp2 & Hs2); [lia|eapply path_ok_mono; [| |exact Hthis]; [lia|eauto]|].
  eexists. split; [done|]. constructor; cbn; [done| |by auto| |done| |by auto].
  - constructor; cbn; [eapply path_ok_mono; [| |exact Hp1]; [lia|eauto]|done].
  - intros name s Hn Hs Hl He. eauto.
  - intros e s [[Hs|He]%Hk1|He]%Hk2; [left; by apply Hk|by auto..].
Qed.

(* ------------------------------------------------------------------ *)
(** * The monitor over time *)

Abbreviation Ticks := (list (EpochInfo * Disk)).

(** The epochs the node answers do not go back, are past the first two of the
    chain and grow by at most [step]. *)
Fixpoint in_order (epoch : Z) (step : option Z) (ticks : Ticks) : Prop :=
  match ticks with
  | [] => True
  | (epoch_info, _) :: ticks =>
      epoch <= monitored_epoch epoch_info
      /\ match step with None => True | Some step => monitored_epoch epoch_info <= epoch + step end
      /\ 2 <= monitored_epoch epoch_info /\ this_target epoch_info < U64
      /\ in_order (monitored_epoch epoch_info) step ticks
  end.

Definition disks_work (ticks : Ticks) : Prop := Forall (fun t => exists snapshots, works snapshots t.2) ticks.

(** The epoch the monitor is in after the ticks. *)
Definition epoch_after (epoch : Z) (ticks : Ticks) : Z :=
  match list.last ticks with None => epoch | Some (epoch_info, _) => monitored_epoch epoch_info end.

Lemma epoch_after_cons epoch epoch_info disk ticks :
  epoch_after epoch ((epoch_info, disk) :: ticks) = epoch_after (monitored_epoch epoch_info) ticks.
Proof. unfold epoch_after. destruct ticks as [|t ticks]; [done|]. rewrite last_cons. by destruct (list.last (t :: ticks)) eqn:E. Qed.

(** An invariant that every working tick keeps holds at the end, with the
    outcome of the last tick. *)
Lemma run_invariant (I : Z -> Monitor -> Prop) step ticks epoch m :
  (forall epoch snapshots epoch_info disk m m',
     works snapshots disk -> epoch <= monitored_epoch epoch_info ->
     match step with None => True | Some step => monitored_epoch epoch_info <= epoch + step end ->
     I epoch m -> ticked snapshots epoch_info m m' -> I (monitored_epoch epoch_info) m') ->
  disks_work ticks -> in_order epoch step ticks -> remembers epoch m -> I epoch m ->
  exists m', run None ticks m = Some m' /\ I (epoch_after epoch ticks) m'
    /\ forall epoch_info disk, list.last ticks = Some (epoch_info, disk) ->
         exists before snapshots, works snapshots disk /\ ticked snapshots epoch_info before m'.
Proof.
  intros Hstep. induction ticks as [|[epoch_info disk] ticks IH] in epoch, m |- *; cbn [run in_order].
  - intros _ _ _ HI. by exists m.
  - intros Hw (Hle & Hs & Htwo & Hmax & Hord) Hrem HI. apply Forall_cons_1 in Hw as [[snapshots W] Hw].
    destruct (tick_spec _ _ _ _ _ W Hrem Hle Htwo Hmax) as (m1 & Hm1 & Ht). cbn [snd] in *. rewrite Hm1. cbn [mbind option_bind].
    destruct (IH (monitored_epoch epoch_info) m1 Hw Hord) as (m' & Hrun & HI' & Hlast);
      [by destruct Ht|by eapply (Hstep epoch snapshots epoch_info disk m)|].
    exists m'. rewrite epoch_after_cons. split_and!; [done|done|]. intros info' disk'.
    destruct ticks as [|t ticks]; [|rewrite last_cons_cons; apply Hlast].
    cbn in Hrun |- *. intros [= <- <-]. simplify_eq. by exists m, snapshots.
Qed.

Lemma works_snapshots snapshots snapshots' disk : works snapshots disk -> dk_snapshots disk = Some snapshots' -> snapshots = snapshots'.
Proof. intros W Hs. pose proof (wk_snapshots _ _ W). congruence. Qed.

Lemma remembers_init epoch backup : remembers epoch (run_init backup).
Proof. constructor; apply path_ok_none. Qed.

(** C23: While the disk works and the node's epochs do not go back, the monitor
    does not stop, no epoch has more than three snapshots in the backup, and for
    the last slot of the previous epoch and of this one the backup holds a
    snapshot of that epoch at least as recent as every one that the last tick
    found at or before that slot. *)
Theorem backup_bounded_and_latest (ticks : Ticks) (epoch : Z) (backup : Dir) :
  disks_work ticks ->
  in_order epoch None ticks ->
  bounded backup ->
  exists m, run None ticks (run_init backup) = Some m
    /\ bounded (mo_backup m)
    /\ forall epoch_info disk snapshots,
         list.last ticks = Some (epoch_info, disk) -> dk_snapshots disk = Some snapshots ->
         served snapshots (last_target epoch_info) (mo_backup m)
         /\ served snapshots (this_target epoch_info) (mo_backup m).
Proof.
  intros Hw Hord Hb.
  destruct (run_invariant (fun _ m => bounded (mo_backup m)) None ticks epoch (run_init backup)) as (m & Hrun & Hbm & Hlast);
    [by intros ??????? _ _ ? Ht; apply (ti_bounded _ _ _ _ Ht)|done|done|apply remembers_init|done|].
  exists m. split_and!; [done|done|]. intros epoch_info disk snapshots Hl Hs.
  destruct (Hlast _ _ Hl) as (before & snapshots' & W & Ht). rewrite <- (works_snapshots _ _ _ W Hs). by destruct Ht.
Qed.

(** The backup holds nothing of the epochs before this one. *)
Definition nothing_before (epoch : Z) (backup : Dir) : Prop := forall e, e < epoch -> kept e backup = [].

Lemma nothing_before_intro epoch backup :
  (forall e s, e < epoch -> s ∈ kept e backup -> False) -> nothing_before epoch backup.
Proof. intros H e He. destruct (kept e backup) as [|s l] eqn:Hk; [done|]. exfalso. apply (H e s He). rewrite Hk. by left. Qed.

Lemma nothing_before_not epoch backup e s : nothing_before epoch backup -> e < epoch -> s ∈ kept e backup -> False.
Proof. intros H He. rewrite (H e He). apply not_elem_of_nil. Qed.

(** While no epoch is skipped, only the snapshots of the two last epochs are in
    the backup. *)
Theorem old_epochs_purged (ticks : Ticks) (epoch : Z) (backup : Dir) :
  disks_work ticks ->
  in_order epoch (Some 1) ticks ->
  nothing_before (epoch - 1) backup ->
  exists m, run None ticks (run_init backup) = Some m
    /\ nothing_before (epoch_after epoch ticks - 1) (mo_backup m).
Proof.
  intros Hw Hord Hnone.
  destruct (run_invariant
    (fun epoch m => nothing_before (epoch - 1) (mo_backup m)
       /\ forall target, mo_current_target_slot m = Some target -> epoch_of_slot target = epoch)
    (Some 1) ticks epoch (run_init backup)) as (m & Hrun & [HI _] & _); [|done|done|apply remembers_init|done|by exists m].
  clear. intros epoch snapshots epoch_info disk m m' W Hle Hstep [Hnone Hcur] Ht. split.
  - apply nothing_before_intro. intros e s He Hs. destruct (ti_kept _ _ _ _ Ht e s Hs) as [[Hk [Hsame|Hne]]|]; [| |lia].
    + apply Hcur in Hsame. apply (nothing_before_not _ _ e s Hnone); [unfold monitored_epoch in *; lia|done].
    + apply (nothing_before_not _ _ e s Hnone); [lia|done].
  - rewrite (ti_target _ _ _ _ Ht). by intros target [= <-].
Qed.

(* ------------------------------------------------------------------ *)
(** * What goes wrong *)

(** A copy that fails half-way leaves a part of the file, and every later tick
    takes it for a backup. *)
Lemma partial_copy_is_accepted disk disk' backup name part :
  backup !! name = None -> dk_copy disk name = CopyFails (Some part) ->
  let '(backup', saved) := backup_incremental_snapshot disk backup name in
  saved = false /\ backup' !! name = Some part /\ backup_incremental_snapshot disk' backup' name = (backup', true).
Proof.
  intros Hnone Hcopy. unfold backup_incremental_snapshot at 1. rewrite Hnone, Hcopy.
  rewrite lookup_insert_eq. unfold backup_incremental_snapshot. by rewrite lookup_insert_eq.
Qed.

(** What is in the backup of an epoch more than two epochs old is never removed:
    only the epoch before the last is purged. *)
Lemma skipped_epoch_stays ticks epoch end_slot m :
  disks_work ticks -> in_order epoch None ticks -> remembers epoch m ->
  epoch_of_slot end_slot < epoch - 2 -> covered end_slot (mo_backup m) ->
  exists m', run None ticks m = Some m' /\ covered end_slot (mo_backup m').
Proof.
  intros Hw Hord Hrem Hold Hcov.
  destruct (run_invariant (fun epoch m => epoch_of_slot end_slot < epoch - 2 /\ covered end_slot (mo_backup m)) None ticks epoch m)
    as (m' & Hrun & [_ Hcov'] & _); [|done..|by exists m'].
  clear. intros epoch snapshots epoch_info disk m m' W Hle _ [Hold Hcov] Ht. split; [lia|].
  apply (ti_covered _ _ _ _ Ht); [lia|done].
Qed.

(** The monitor panics in the first two epochs. *)
Lemma first_epochs_panic epoch_info disk backup :
  0 <= last_target epoch_info -> monitored_epoch epoch_info < 2 -> tick None epoch_info disk (run_init backup) = None.
Proof.
  intros H0 Hlt. unfold tick, get_target_slots, checked_add. fold (last_target epoch_info). fold (this_target epoch_info).
  destruct (_ <? U64); [|done]. cbn. fold (monitored_epoch epoch_info). unfold checked_sub. ztests. done.
Qed.

(* ------------------------------------------------------------------ *)
(** * A disk that works *)

Module BackupWitness.
Definition good_disk (snapshots : list string) : Disk :=
  mkDisk (Some snapshots) (fun backup => Some (elements (dom backup))) (fun _ => CopyWrites 10) (fun _ => Some 10) (fun _ => true).

Lemma good_disk_works snapshots : works snapshots (good_disk snapshots).
Proof. constructor; cbn; eauto. Qed.

(** Two ticks in epoch 3 and one in epoch 4. *)
Definition seen : Ticks :=
  [(mkEpochInfo 3 100 1296100, good_disk ["incremental-snapshot-1200000-1296040-A.tar.zst"; "incremental-snapshot-1200000-1296080-B.tar.zst"]);
   (mkEpochInfo 3 200 1296200, good_disk ["incremental-snapshot-1200000-1296180-C.tar.zst"; "incremental-snapshot-1200000-1296190-D.tar.zst"]);
   (mkEpochInfo 4 50 1728050, good_disk ["incremental-snapshot-1700000-1728010-E.tar.zst"; "snapshot-1700000-F.tar.zst"])].

Lemma seen_works : disks_work seen.
Proof. repeat (apply Forall_cons_2; [eexists; apply good_disk_works|]). constructor. Qed.

Lemma seen_in_order : in_order 3 (Some 1) seen /\ in_order 3 None seen.
Proof. split; vm_compute; repeat split; done. Qed.

Lemma empty_bounded : bounded ∅.
Proof. intros e. unfold kept. rewrite dom_empty_L, elements_empty. cbn. lia. Qed.
End BackupWitness.

(** The third tick keeps the newest snapshots of both epochs. *)
Lemma backup_bounded_and_latest_witness :
  exists m, run None BackupWitness.seen (run_init ∅) = Some m
    /\ bounded (mo_backup m)
    /\ forall epoch_info disk snapshots,
         list.last BackupWitness.seen = Some (epoch_info, disk) -> dk_snapshots disk = Some snapshots ->
         served snapshots (last_target epoch_info) (mo_backup m)
         /\ served snapshots (this_target epoch_info) (mo_backup m).
Proof.
  apply (backup_bounded_and_latest BackupWitness.seen 3 ∅);
    [apply BackupWitness.seen_works|apply BackupWitness.seen_in_order|apply BackupWitness.empty_bounded].
Defined.

Lemma old_epochs_purged_witness :
  exists m, run None BackupWitness.seen (run_init ∅) = Some m
    /\ nothing_before (epoch_after 3 BackupWitness.seen - 1) (mo_backup m).
Proof.
  apply (old_epochs_purged BackupWitness.seen 3 ∅);
    [apply BackupWitness.seen_works|apply BackupWitness.seen_in_order|].
  intros e _. unfold kept. by rewrite dom_empty_L, elements_empty.
Defined.
