(* ===== verification/Resend.v ===== *)
(** Sending transactions again until they are seen or their blockhash expires
    (tip-router-operator-cli/src/rpc_utils.rs).

    What the node answers in an iteration of the loop is a parameter: whether the
    blockhash is valid, how each transaction is received, and the statuses it
    reports; so is the order in which a hash map or a hash set is walked. *)

From stdpp Require Import gmap.
From S2P Require Import Prelude Errors Claiming.

(** [TransactionError], as far as the loop tells the errors apart. *)
Inductive TransactionError : Type := BlockhashNotFound | AlreadyProcessed | OtherTransactionError.

(** The answer to [send_transaction_with_config]; an error may carry the error of
    the transaction. *)
Inductive Sent : Type := SentOk | SentErr (transaction_error : option TransactionError).

Section resend.
Context {Transaction Signature Status : Type} `{Countable Signature}.
(** [tx.sign] with the blockhash, and the signature it leaves. *)
Context (sign : Transaction -> Signature).

Record Answers := mkAnswers {
  an_is_blockhash_valid : option bool;
  an_transactions : gmap Signature Transaction -> list Signature;
  an_send : Signature -> Sent;
  an_checked : gset Signature -> list Signature;
  an_statuses : list Signature -> option (list (option Status));
}.

Fixpoint statuses_of_batches (get_signature_statuses : list Signature -> option (list (option Status)))
    (batches : list (list Signature)) : option (list (Signature * option Status)) :=
  match batches with
  | [] => Some []
  | signatures_batch :: batches =>
      statuses ← get_signature_statuses signatures_batch;
      signature_statuses ← statuses_of_batches get_signature_statuses batches;
      Some (zip signatures_batch statuses ++ signature_statuses)
  end.

Definition get_batched_signatures_statuses (get_signature_statuses : list Signature -> option (list (option Status)))
    (signatures : list Signature) : option (list (Signature * option Status)) :=
  statuses_of_batches get_signature_statuses (chunks (length signatures) 100 signatures).

(** The loop over the transactions: the signatures to check, those that were
    processed already, and whether the blockhash was not found. *)
Fixpoint send_all (send : Signature -> Sent) (signatures : list Signature) (check_signatures already_processed : gset Signature)
    : gset Signature * gset Signature * bool :=
  match signatures with
  | [] => (check_signatures, already_processed, false)
  | signature :: signatures =>
      match send signature with
      | SentOk => send_all send signatures ({[signature]} ∪ check_signatures) already_processed
      | SentErr (Some BlockhashNotFound) => (check_signatures, already_processed, true)
      | SentErr (Some AlreadyProcessed) => send_all send signatures check_signatures ({[signature]} ∪ already_processed)
      | SentErr _ => send_all send signatures check_signatures already_processed
      end
  end.

(** [remove] of every signature. *)
Definition remove_all (signatures : list Signature) (claim_transactions : gmap Signature Transaction) : gmap Signature Transaction :=
  foldl (fun m signature => delete signature m) claim_transactions signatures.

(** An iteration: the transactions left and whether the blockhash was not found;
    [None] when the node does not give the statuses. *)
Definition iteration (answers : Answers) (claim_transactions : gmap Signature Transaction)
    : option (gmap Signature Transaction * bool) :=
  let '(check_signatures, already_processed, is_blockhash_not_found) :=
    send_all (an_send answers) (an_transactions answers claim_transactions) ∅ ∅ in
  statuses ← get_batched_signatures_statuses (an_statuses answers) (an_checked answers check_signatures);
  let claim_transactions :=
    remove_all (omap (fun s : Signature * option Status => (fun _ => s.1) <$> s.2) statuses) claim_transactions in
  Some (remove_all (elements already_processed) claim_transactions, is_blockhash_not_found).

(** How the function ends: what is left and [num_landed], which is [None] where
    its [unwrap] fails; [Sending] is that the answers are over and it is not. *)
Inductive Outcome : Type :=
| SendFinished (claim_transactions : gmap Signature Transaction) (num_landed : option nat)
| SendFails
| Sending (claim_transactions : gmap Signature Transaction).

Definition num_landed (txs_requesting_send : nat) (claim_transactions : gmap Signature Transaction) : option nat :=
  if (size claim_transactions <=? txs_requesting_send)%nat then Some (txs_requesting_send - size claim_transactions)%nat else None.

Fixpoint send_loop (answers : list Answers) (txs_requesting_send : nat) (claim_transactions : gmap Signature Transaction) : Outcome :=
  match answers with
  | [] => Sending claim_transactions
  | a :: answers =>
      match an_is_blockhash_valid a with
      | None => SendFails
      | Some false => SendFinished claim_transactions (num_landed txs_requesting_send claim_transactions)
      | Some true =>
          match iteration a claim_transactions with
          | None => SendFails
          | Some (claim_transactions, is_blockhash_not_found) =>
              if (size claim_transactions =? 0)%nat || is_blockhash_not_found
              then SendFinished claim_transactions (num_landed txs_requesting_send claim_transactions)
              else send_loop answers txs_requesting_send claim_transactions
          end
      end
  end.

(** The map that is collected from the signed transactions. *)
Definition signed (transactions : list Transaction) : gmap Signature Transaction :=
  foldl (fun m tx => <[sign tx := tx]> m) ∅ transactions.

Definition send_until_blockhash_expires (answers : list Answers) (transactions : list Transaction) : Outcome :=
  send_loop answers (size (signed transactions)) (signed transactions).
End resend.
Arguments Answers : clear implicits.
Arguments Answers _ _ _ {_ _}.
Arguments Outcome : clear implicits.
Arguments Outcome _ _ {_ _}.
