(* ===== verification/ResendTheorems.v ===== *)
(** What is left of the transactions when the resending loop of the claiming client
    ends, and what the node said of the others. *)

From stdpp Require Import gmap.
From S2P Require Import Prelude Errors Claiming ClaimingTheorems Resend.

Section resend.
Context {Transaction Signature Status : Type} `{Countable Signature}.
Context (sign : Transaction -> Signature).
Abbreviation Answers := (Answers Transaction Signature Status).
Abbreviation Txs := (gmap Signature Transaction).

(** The walks visit every element once, and the statuses the node gives are those
    of the signatures it is asked for. *)
Record faithful (a : Answers) (status : Signature -> option Status) : Prop := {
  fa_transactions : forall txs, an_transactions a txs ≡ₚ elements (dom txs);
  fa_checked : forall signatures, an_checked a signatures ≡ₚ elements signatures;
  fa_statuses : forall signatures statuses, an_statuses a signatures = Some statuses -> statuses = status <$> signatures;
}.

(** The node says that the transaction is processed. *)
Definition confirmed (a : Answers) (status : Signature -> option Status) (signature : Signature) : bool :=
  match an_send a signature with
  | SentErr (Some AlreadyProcessed) => true
  | SentOk => bool_decide (is_Some (status signature))
  | _ => false
  end.

Definition is_not_found (a : Answers) (signature : Signature) : Prop := an_send a signature = SentErr (Some BlockhashNotFound).

(** The signatures the loop comes to. *)
Fixpoint reached (send : Signature -> Sent) (signatures : list Signature) : list Signature :=
  match signatures with
  | [] => []
  | s :: signatures => match send s with SentErr (Some BlockhashNotFound) => [] | _ => s :: reached send signatures end
  end.

Ltac visit s x Hx :=
  rewrite ?elem_of_cons, ?elem_of_union, ?elem_of_singleton;
  destruct (decide (s = x)) as [->|]; rewrite ?Hx; intuition congruence.

Lemma send_all_spec send signatures C A :
  let '(check, already, not_found) := send_all send signatures C A in
  (forall s, s ∈ check <-> s ∈ C \/ (s ∈ reached send signatures /\ send s = SentOk))
  /\ (forall s, s ∈ already <-> s ∈ A \/ (s ∈ reached send signatures /\ send s = SentErr (Some AlreadyProcessed)))
  /\ (if not_found : bool then exists s, s ∈ signatures /\ send s = SentErr (Some BlockhashNotFound)
      else reached send signatures = signatures).
Proof.
  induction signatures as [|x l IH] in C, A |- *; cbn [send_all reached].
  { split_and!; [..|done]; intros s; rewrite elem_of_nil; tauto. }
  destruct (send x) as [|[[]|]] eqn:Hx;
    [specialize (IH ({[x]} ∪ C) A)|clear IH|specialize (IH C ({[x]} ∪ A))|specialize (IH C A)..].
  2: { split_and!; [intros s; rewrite elem_of_nil; tauto..|]. exists x. split; [by left|done]. }
  all: destruct (send_all _ l _ _) as [[check already] nf]; destruct IH as (Hc & Ha & Hn); split_and!;
    [intros s; rewrite Hc; visit s x Hx|intros s; rewrite Ha; visit s x Hx|].
  all: destruct nf; [destruct Hn as (s & Hs & ?); exists s; split; [by right|done]|by rewrite Hn].
Qed.

Lemma statuses_of_batches_spec get (status : Signature -> option Status) batches l :
  (forall signatures statuses, get signatures = Some statuses -> statuses = status <$> signatures) ->
  statuses_of_batches get batches = Some l -> l = (fun s => (s, status s)) <$> concat batches.
Proof.
  intros Hget. induction batches as [|b batches IH] in l |- *; cbn [statuses_of_batches concat].
  - by intros [= <-].
  - intros (r & Hr & (l' & Hl' & [= <-])%bind_Some)%bind_Some. rewrite (IH _ Hl'), fmap_app, (Hget _ _ Hr). f_equal.
    clear. induction b as [|s b IHb]; cbn; [done|]. by f_equal.
Qed.

Lemma get_batched_spec get (status : Signature -> option Status) signatures l :
  (forall signatures statuses, get signatures = Some statuses -> statuses = status <$> signatures) ->
  get_batched_signatures_statuses get signatures = Some l -> l = (fun s => (s, status s)) <$> signatures.
Proof.
  intros Hget Hl. rewrite (statuses_of_batches_spec _ _ _ _ Hget Hl), concat_chunks; [done|lia|done].
Qed.

Lemma lookup_remove_all signatures (m : Txs) s :
  remove_all signatures m !! s = if decide (s ∈ signatures) then None else m !! s.
Proof.
  induction signatures as [|x l IH] in m |- *; cbn [remove_all foldl].
  - by rewrite decide_False by apply not_elem_of_nil.
  - change (remove_all l (delete x m) !! s = if decide (s ∈ x :: l) then None else m !! s). rewrite IH.
    destruct (decide (s ∈ l)) as [Hl|Hl]; [by rewrite decide_True by (by right)|].
    destruct (decide (s = x)) as [->|Hx].
    + rewrite decide_True by (by left). apply lookup_delete_eq.
    + rewrite decide_False by (rewrite elem_of_cons; tauto). by apply lookup_delete_ne.
Qed.

(** An iteration removes what is confirmed among the signatures it comes to. *)
Lemma iteration_spec a status (txs txs' : Txs) not_found :
  faithful a status -> iteration a txs = Some (txs', not_found) ->
  (forall s, txs' !! s = if decide (s ∈ reached (an_send a) (an_transactions a txs) /\ confirmed a status s = true) then None else txs !! s)
  /\ (if not_found then exists s, is_not_found a s else reached (an_send a) (an_transactions a txs) ≡ₚ elements (dom txs)).
Proof.
  intros F. unfold iteration. pose proof (send_all_spec (an_send a) (an_transactions a txs) ∅ ∅) as Hsend.
  destruct (send_all _ _ _ _) as [[check already] nf]. destruct Hsend as (Hc & Ha & Hn).
  intros (l & Hl & [= <- <-])%bind_Some. apply (get_batched_spec _ status) in Hl; [|apply (fa_statuses _ _ F)]. subst l.
  split; [|by destruct nf; [destruct Hn as (s & _ & Hs); by exists s|rewrite Hn; apply (fa_transactions _ _ F)]].
  intros s. rewrite !lookup_remove_all.
  assert (Hst : s ∈ omap (fun s : Signature * option Status => (fun _ => s.1) <$> s.2)
                  ((fun s => (s, status s)) <$> an_checked a check) <-> s ∈ check /\ is_Some (status s)).
  { rewrite list_elem_of_omap. split.
    - intros (? & (s' & -> & Hs')%list_elem_of_fmap & Heq). cbn in Heq. destruct (status s') eqn:E; [|done]. injection Heq as ->.
      rewrite (fa_checked _ _ F), elem_of_elements in Hs'. eauto.
    - intros (Hs & st & Hst). exists (s, status s). split.
      { apply list_elem_of_fmap. exists s. split; [done|]. by rewrite (fa_checked _ _ F), elem_of_elements. }
      cbn. by rewrite Hst. }
  specialize (Hc s). specialize (Ha s). unfold confirmed.
  repeat case_decide; try done; exfalso; rewrite ?elem_of_elements in *; destruct (an_send a s) as [|[[]|]]; rewrite ?bool_decide_eq_true in *; rewrite ?elem_of_empty in *; intuition congruence.
Qed.

(** One answer of the node with the status it has of every transaction. *)
Abbreviation Answered := (Answers * (Signature -> option Status))%type.

Definition confirms (s : Signature) (a : Answered) : Prop := confirmed a.1 a.2 s = true.

(** The transactions that no answer confirms. *)
Definition unconfirmed (answers : list Answered) (txs : Txs) : Txs :=
  filter (fun tx => Forall (fun a => confirmed a.1 a.2 tx.1 = false) answers) txs.

Lemma iteration_uninterrupted a status (txs txs' : Txs) :
  faithful a status -> iteration a txs = Some (txs', false) -> txs' = unconfirmed [(a, status)] txs.
Proof.
  intros F Hi. destruct (iteration_spec _ _ _ _ _ F Hi) as [Hget Hall]. apply map_eq. intros s. rewrite Hget.
  unfold unconfirmed. symmetry. destruct (txs !! s) as [tx|] eqn:Hs.
  - assert (Hr : s ∈ reached (an_send a) (an_transactions a txs)) by (rewrite Hall; apply elem_of_elements, elem_of_dom; eauto).
    case_decide as Hc.
    + apply map_lookup_filter_None. right. intros ? _ Hf. apply Forall_cons_1 in Hf as [Hf _]. cbn in Hf. destruct Hc. congruence.
    + apply map_lookup_filter_Some. split; [done|]. repeat constructor. cbn. destruct (confirmed a status s); [|done]. tauto.
  - case_decide; apply map_lookup_filter_None; by left.
Qed.

Lemma unconfirmed_cons a answers txs : unconfirmed (a :: answers) txs = unconfirmed answers (unconfirmed [a] txs).
Proof.
  unfold unconfirmed. rewrite map_filter_filter. apply map_filter_ext. intros s tx _. cbn. rewrite !list.Forall_cons, list.Forall_nil. tauto.
Qed.

Lemma iteration_subseteq a status (txs txs' : Txs) not_found :
  faithful a status -> iteration a txs = Some (txs', not_found) ->
  txs' ⊆ txs /\ forall s, is_Some (txs !! s) -> txs' !! s = None -> confirmed a status s = true.
Proof.
  intros F Hi. destruct (iteration_spec _ _ _ _ _ F Hi) as [Hget _]. split.
  - apply map_subseteq_spec. intros s tx. rewrite Hget. by case_decide.
  - intros s [tx Hs]. rewrite Hget, Hs. case_decide; [tauto|done].
Qed.

(** What the function promises of its end, from the transactions it starts with. *)
Definition ends_well (answers : list Answered) (initial : Txs) (outcome : Outcome Transaction Signature) : Prop :=
  match outcome with
  | Sending left_over =>
      left_over = unconfirmed answers initial /\ Forall (fun a => an_is_blockhash_valid a.1 = Some true) answers
  | SendFails =>
      Exists (fun a => an_is_blockhash_valid a.1 = None \/ exists signatures, get_batched_signatures_statuses (an_statuses a.1) signatures = None) answers
  | SendFinished left_over landed =>
      left_over ⊆ initial
      /\ (forall s, is_Some (initial !! s) -> left_over !! s = None -> Exists (confirms s) answers)
      /\ (left_over = ∅ \/ Exists (fun a => an_is_blockhash_valid a.1 = Some false \/ exists s, is_not_found a.1 s) answers)
  end.

Lemma ends_well_cons a answers (txs : Txs) outcome :
  an_is_blockhash_valid a.1 = Some true ->
  ends_well answers (unconfirmed [a] txs) outcome -> ends_well (a :: answers) txs outcome.
Proof.
  intros Hv. destruct outcome as [l n| |l]; cbn.
  - intros (Hsub & Hconf & Hwhy). split_and!.
    + etrans; [exact Hsub|]. apply map_filter_subseteq.
    + intros s [tx Hs] Hl. destruct (confirmed a.1 a.2 s) eqn:Hc; [by left|]. right. apply Hconf; [|done].
      exists tx. apply map_lookup_filter_Some. split; [done|]. by repeat constructor.
    + destruct Hwhy; [by left|right; by right].
  - by right.
  - intros [-> Hall]. split; [symmetry; apply unconfirmed_cons|by constructor].
Qed.

Lemma send_loop_spec answers requested (txs : Txs) :
  Forall (fun a => faithful a.1 a.2) answers -> ends_well answers txs (send_loop (fst <$> answers) requested txs).
Proof.
  intros HF. induction HF as [|[a status] answers F HF IH] in txs |- *; cbn [fmap list_fmap send_loop fst].
  { split; [|constructor]. symmetry. apply map_filter_id. by constructor. }
  cbn [fst snd] in F. destruct (an_is_blockhash_valid a) as [[]|] eqn:Hv.
  - destruct (iteration a txs) as [[txs' nf]|] eqn:Hi.
    + destruct (iteration_subseteq _ _ _ _ _ F Hi) as [Hsub Hconf]. destruct ((size txs' =? 0)%nat || nf) eqn:Hend.
      * split_and!; [done|by intros s Hs Hl; left; apply Hconf|]. apply orb_true_iff in Hend as [Hz| ->].
        -- left. apply map_size_empty_inv. by apply Nat.eqb_eq.
        -- right. left. right. by apply (iteration_spec _ _ _ _ _ F Hi).
      * apply orb_false_iff in Hend as [_ ->]. rewrite (iteration_uninterrupted _ _ _ _ F Hi). by apply ends_well_cons.
    + left. right. unfold iteration in Hi. destruct (send_all _ _ _ _) as [[check already] nf].
      exists (an_checked a check). cbn [fst]. by destruct (get_batched_signatures_statuses _ _).
  - split_and!; [done|intros s [tx Hs] Hnone; congruence|]. right. left. by left.
  - left. by left.
Qed.

(** [unwrap] of [num_landed] does not fail. *)
Lemma send_loop_counts answers requested (txs left_over : Txs) landed :
  (size txs <= requested)%nat -> Forall (fun a => faithful a.1 a.2) answers ->
  send_loop (fst <$> answers) requested txs = SendFinished left_over landed -> landed = Some (requested - size left_over)%nat.
Proof.
  intros Hle HF. induction HF as [|[a status] answers F HF IH] in txs, Hle |- *; cbn [fmap list_fmap send_loop fst]; [done|].
  cbn [fst snd] in F. destruct (an_is_blockhash_valid a) as [[]|]; [|..|done].
  - destruct (iteration a txs) as [[txs' nf]|] eqn:Hi; [|done].
    destruct (iteration_subseteq _ _ _ _ _ F Hi) as [Hsub%map_subseteq_size _]. destruct (_ || _).
    + intros [= <- <-]. unfold num_landed. by rewrite (proj2 (Nat.leb_le _ _)) by lia.
    + apply IH. lia.
  - intros [= <- <-]. unfold num_landed. by rewrite (proj2 (Nat.leb_le _ _)) by lia.
Qed.

(** C38: Of the transactions that are sent, only those that the node calls
    processed are given up, and as many count as landed; the function ends only
    with none left, with the blockhash expired or not found, or when the node
    does not answer. *)
Theorem resending_outcome (answers : list Answered) (transactions : list Transaction) :
  Forall (fun a => faithful a.1 a.2) answers ->
  let initial := signed sign transactions in
  ends_well answers initial (send_until_blockhash_expires sign (fst <$> answers) transactions)
  /\ forall left_over landed,
       send_until_blockhash_expires sign (fst <$> answers) transactions = SendFinished left_over landed ->
       landed = Some (size initial - size left_over)%nat.
Proof.
  intros HF. split; [by apply send_loop_spec|].
  intros left_over landed. by apply send_loop_counts.
Qed.
End resend.

(* ------------------------------------------------------------------ *)
(** * Two iterations *)

Module ResendWitness.
(** In the first iteration the node takes transaction 1 and reports it and does
    not know the others; in the second 2 was processed and 3 has failed. *)
Definition node (send : Z -> Sent) (seen : Z -> option unit) : Answers Z Z unit * (Z -> option unit) :=
  (mkAnswers (Some true) (fun txs => elements (dom txs)) send elements (fun signatures => Some (seen <$> signatures)), seen).

Definition first := node (fun s => if s =? 1 then SentOk else SentErr None) (fun s => if s =? 1 then Some tt else None).
Definition second := node (fun s => if s =? 2 then SentErr (Some AlreadyProcessed) else SentErr (Some OtherTransactionError)) (fun _ => None).
Definition expired : Answers Z Z unit * (Z -> option unit) :=
  (mkAnswers (Some false) (fun txs => elements (dom txs)) (fun _ => SentErr (Some BlockhashNotFound)) elements (fun _ => None), fun _ => None).

Lemma faithful_all : Forall (fun a => faithful a.1 a.2) [first; second; expired].
Proof. repeat (apply Forall_cons_2; [constructor; cbn; intros; by simplify_eq|]). constructor. Qed.

Example two_land :
  match send_until_blockhash_expires id (fst <$> [first; second; expired]) [1; 2; 3] with
  | SendFinished left_over landed => map_to_list left_over = [(3, 3)] /\ landed = Some 2%nat
  | _ => False
  end.
Proof. vm_compute. done. Qed.
End ResendWitness.

Lemma resending_outcome_witness :
  let answers := [ResendWitness.first; ResendWitness.second; ResendWitness.expired] in
  let initial := signed id [1; 2; 3] in
  ends_well answers initial (send_until_blockhash_expires id (fst <$> answers) [1; 2; 3])
  /\ forall left_over landed,
       send_until_blockhash_expires id (fst <$> answers) [1; 2; 3] = SendFinished left_over landed ->
       landed = Some (size initial - size left_over)%nat.
Proof. apply (resending_outcome id _ [1; 2; 3]), ResendWitness.faithful_all. Defined.
