(* ===== verification/TestNcn.v ===== *)
(** The functions of cli/src/instructions.rs that set up an NCN to try the tip
    router with: the NCN, an operator of it, and a vault that delegates to all its
    operators.  The waits between requests are left out. *)

From Stdlib Require Import String.
From S2P Require Import Prelude Errors External Config FeeGroups Getters Rpc Instructions.

Section test_ncn.
Context {W : Type} `{Solana} `{KeeperAccounts} `{Clients} `{Rpc W}.
(** [Mint::LEN] and the rent of that many bytes. *)
Context (Mint_LEN : Z) (mint_rent : Z).
Implicit Types (h : CliHandler).

Definition create_test_ncn h : Client W unit :=
  keypair ← pure_of (keypair h);
  base ← new_keypair;
  let ncn := ncn_address (h_restaking_program_id h) base in
  let config := restaking_config_address (h_restaking_program_id h) in
  send_and_log_transaction h
    [mkIx InitializeNcn [(Role.config, config); (Role.admin, keypair); (Role.base, base); (Role.ncn, ncn)]] [base].

Definition create_and_add_test_operator h (operator_fee_bps : Z) : Client W unit :=
  keypair ← pure_of (keypair h);
  ncn ← pure_of (ncn_of h);
  base ← new_keypair;
  let operator := operator_address (h_restaking_program_id h) base in
  let ncn_operator_state := ncn_operator_state_address (h_restaking_program_id h) ncn operator in
  let config := restaking_config_address (h_restaking_program_id h) in
  let initalize_operator_ix := mkIx (InitializeOperator operator_fee_bps)
    [(Role.config, config); (Role.admin, keypair); (Role.base, base); (Role.operator, operator)] in
  let initialize_ncn_operator_state_ix := mkIx InitializeNcnOperatorState
    [(Role.config, config); (Role.payer, keypair); (Role.admin, keypair); (Role.operator, operator); (Role.ncn, ncn);
     (Role.ncn_operator_state, ncn_operator_state)] in
  let ncn_warmup_operator_ix := mkIx NcnWarmupOperator
    [(Role.config, config); (Role.admin, keypair); (Role.ncn, ncn); (Role.operator, operator);
     (Role.ncn_operator_state, ncn_operator_state)] in
  let operator_warmup_ncn_ix := mkIx OperatorWarmupNcn
    [(Role.config, config); (Role.admin, keypair); (Role.ncn, ncn); (Role.operator, operator);
     (Role.ncn_operator_state, ncn_operator_state)] in
  _ ← send_and_log_transaction h [initalize_operator_ix; initialize_ncn_operator_state_ix] [base];
  send_and_log_transaction h [ncn_warmup_operator_ix; operator_warmup_ncn_ix] [].

(** The body of the loop over the operators. *)
Definition connect_operator h (keypair vault : Pubkey) (operator : Pubkey) : Client W unit :=
  let vault_config := vault_config_address (h_vault_program_id h) in
  let restaking_config := restaking_config_address (h_restaking_program_id h) in
  let operator_vault_ticket := operator_vault_ticket_address (h_restaking_program_id h) operator vault in
  let vault_operator_delegation := vault_operator_delegation_address (h_vault_program_id h) vault operator in
  let initialize_operator_vault_ticket_ix := mkIx InitializeOperatorVaultTicket
    [(Role.config, restaking_config); (Role.admin, keypair); (Role.operator, operator); (Role.vault, vault);
     (Role.operator_vault_ticket, operator_vault_ticket); (Role.payer, keypair)] in
  _ ← send_and_log_transaction h [initialize_operator_vault_ticket_ix] [];
  let warmup_operator_vault_ticket_ix := mkIx WarmupOperatorVaultTicket
    [(Role.config, restaking_config); (Role.admin, keypair); (Role.operator, operator); (Role.vault, vault);
     (Role.operator_vault_ticket, operator_vault_ticket)] in
  let initialize_vault_operator_delegation_ix := mkIx InitializeVaultOperatorDelegation
    [(Role.config, vault_config); (Role.admin, keypair); (Role.vault, vault); (Role.payer, keypair);
     (Role.operator, operator); (Role.operator_vault_ticket, operator_vault_ticket);
     (Role.vault_operator_delegation, vault_operator_delegation)] in
  let delegate_to_operator_ix := mkIx (AddDelegation 1000)
    [(Role.config, vault_config); (Role.vault, vault); (Role.operator, operator);
     (Role.vault_operator_delegation, vault_operator_delegation); (Role.admin, keypair)] in
  send_and_log_transaction h
    [warmup_operator_vault_ticket_ix; initialize_vault_operator_delegation_ix; delegate_to_operator_ix] [].

(** The token that is staked, with a million of its smallest unit for the admin. *)
Definition mint_ixs h (keypair token_mint : Pubkey) : list Instruction :=
  let admin_ata := get_associated_token_address keypair token_mint in
  [mkIx (CreateAccount mint_rent Mint_LEN (h_token_program_id h)) [(Role.from, keypair); (Role.to, token_mint)];
   mkIx (InitializeMint2 keypair 9) [(Role.mint, token_mint)];
   create_ata_ix keypair keypair token_mint (h_token_program_id h);
   mkIx (TokenMintTo 1000000) [(Role.mint, token_mint); (Role.to, admin_ata); (Role.admin, keypair)]].

Definition vault_ixs h (keypair base vrt_mint token_mint vault : Pubkey) (deposit_fee_bps withdrawal_fee_bps reward_fee_bps : Z)
    : list Instruction :=
  let vault_config := vault_config_address (h_vault_program_id h) in
  let vault_token_ata := get_associated_token_address vault token_mint in
  let admin_token_ata := get_associated_token_address keypair token_mint in
  let admin_vrt_ata := get_associated_token_address keypair vrt_mint in
  [mkIx (InitializeVault deposit_fee_bps withdrawal_fee_bps reward_fee_bps 9)
     [(Role.config, vault_config); (Role.admin, keypair); (Role.base, base); (Role.vault, vault); (Role.vrt_mint, vrt_mint);
      (Role.st_mint, token_mint); (Role.system_program, system_program_id)];
   create_ata_ix keypair vault token_mint (h_token_program_id h);
   create_ata_ix keypair keypair vrt_mint (h_token_program_id h);
   create_ata_ix keypair vault vrt_mint (h_token_program_id h);
   mkIx (VaultMintTo 10000 0)
     [(Role.config, vault_config); (Role.vault, vault); (Role.vrt_mint, vrt_mint); (Role.depositor, keypair);
      (Role.depositor_token_account, admin_token_ata); (Role.depositor_vrt_token_account, admin_vrt_ata);
      (Role.vault_fee_token_account, admin_vrt_ata); (Role.vault_token_account, vault_token_ata)]].

Definition ticket_ixs h (keypair ncn vault : Pubkey) : list Instruction * list Instruction :=
  let vault_config := vault_config_address (h_vault_program_id h) in
  let restaking_config := restaking_config_address (h_restaking_program_id h) in
  let ncn_vault_ticket := ncn_vault_ticket_address (h_restaking_program_id h) ncn vault in
  let vault_ncn_ticket := vault_ncn_ticket_address (h_vault_program_id h) vault ncn in
  ([mkIx InitializeNcnVaultTicket
      [(Role.config, restaking_config); (Role.admin, keypair); (Role.ncn, ncn); (Role.vault, vault); (Role.payer, keypair);
       (Role.ncn_vault_ticket, ncn_vault_ticket)];
    mkIx InitializeVaultNcnTicket
      [(Role.config, vault_config); (Role.admin, keypair); (Role.vault, vault); (Role.ncn, ncn); (Role.payer, keypair);
       (Role.vault_ncn_ticket, vault_ncn_ticket); (Role.ncn_vault_ticket, ncn_vault_ticket)]],
   [mkIx WarmupNcnVaultTicket
      [(Role.config, restaking_config); (Role.admin, keypair); (Role.ncn, ncn); (Role.vault, vault);
       (Role.ncn_vault_ticket, ncn_vault_ticket)];
    mkIx WarmupVaultNcnTicket
      [(Role.config, vault_config); (Role.admin, keypair); (Role.vault, vault); (Role.ncn, ncn);
       (Role.vault_ncn_ticket, vault_ncn_ticket)]]).

Definition create_and_add_test_vault h (deposit_fee_bps withdrawal_fee_bps reward_fee_bps : Z) : Client W unit :=
  keypair ← pure_of (keypair h);
  ncn ← pure_of (ncn_of h);
  vrt_mint ← new_keypair;
  token_mint ← new_keypair;
  base ← new_keypair;
  let vault := vault_address (h_vault_program_id h) base in
  all_operators ← ask (get_all_operators_in_ncn h);
  _ ← send_and_log_transaction h (mint_ixs h keypair token_mint) [token_mint];
  _ ← send_and_log_transaction h
        (vault_ixs h keypair base vrt_mint token_mint vault deposit_fee_bps withdrawal_fee_bps reward_fee_bps) [base; vrt_mint];
  _ ← send_and_log_transaction h (ticket_ixs h keypair ncn vault).1 [];
  _ ← send_and_log_transaction h (ticket_ixs h keypair ncn vault).2 [];
  for_each (connect_operator h keypair vault) all_operators.
End test_ncn.
