(* ===== verification/TestNcnTheorems.v ===== *)
(** Setting up an NCN to try the tip router with: however far a run gets, each
    instruction finds the accounts it names, and a run that gets through has the
    vault delegate to every operator of the NCN. *)

From Stdlib Require Import String.
From stdpp Require Import sets.
From S2P Require Import Prelude Errors External Config FeeGroups Getters Rpc Instructions Cranks ClientAddresses CrankTheorems TestNcn.

(** The instructions sent, in order. *)
Definition sent (rqs : list Request) : list Instruction := rqs ≫= rq_instructions.

Section sequence.
Context `{Solana} `{KeeperAccounts} `{Clients}.

(** The account an instruction creates. *)
Definition creates (ix : Instruction) : option Pubkey :=
  match ix_data ix with
  | CreateAccount _ _ _ => account_of ix Role.to
  | CreateAssociatedTokenAccountIdempotent =>
      wallet ← account_of ix Role.wallet; mint ← account_of ix Role.mint; Some (get_associated_token_address wallet mint)
  | InitializeNcn => account_of ix Role.ncn
  | InitializeOperator _ => account_of ix Role.operator
  | InitializeNcnOperatorState => account_of ix Role.ncn_operator_state
  | InitializeVault _ _ _ _ => account_of ix Role.vault
  | InitializeNcnVaultTicket => account_of ix Role.ncn_vault_ticket
  | InitializeVaultNcnTicket => account_of ix Role.vault_ncn_ticket
  | InitializeOperatorVaultTicket => account_of ix Role.operator_vault_ticket
  | InitializeVaultOperatorDelegation => account_of ix Role.vault_operator_delegation
  | _ => None
  end.

(** What is known after an instruction, and after some. *)
Definition learn (known : list Pubkey) (ix : Instruction) : list Pubkey := option_list (creates ix) ++ known.
Definition after (known : list Pubkey) (ixs : list Instruction) : list Pubkey := foldl learn known ixs.

(** Every account that an instruction names is known, or this instruction or an
    earlier one creates it. *)
Fixpoint in_sequence (known : list Pubkey) (ixs : list Instruction) : Prop :=
  match ixs with
  | [] => True
  | ix :: ixs => Forall (fun a : Role * Pubkey => a.2 ∈ learn known ix) (ix_accounts ix) /\ in_sequence (learn known ix) ixs
  end.

Lemma learn_mono known known' ix : known ⊆ known' -> learn known ix ⊆ learn known' ix.
Proof. unfold learn. set_solver. Qed.

Lemma in_sequence_step known ix ixs c :
  creates ix = c -> Forall (fun a : Role * Pubkey => a.2 ∈ option_list c ++ known) (ix_accounts ix) ->
  in_sequence (option_list c ++ known) ixs -> in_sequence known (ix :: ixs).
Proof. by intros <-. Qed.

Lemma after_grows known ixs : known ⊆ after known ixs.
Proof.
  induction ixs as [|ix ixs IH] in known |- *; [done|]. etrans; [|apply (IH (learn known ix))]. unfold learn. set_solver.
Qed.

Lemma after_creates known ixs ix k : ix ∈ ixs -> creates ix = Some k -> k ∈ after known ixs.
Proof.
  intros Hix Hk. induction ixs as [|x ixs IH] in known, Hix |- *; [by apply elem_of_nil in Hix|].
  apply elem_of_cons in Hix as [<-|Hix]; [|by apply (IH (learn known x))].
  apply (after_grows (learn known ix)). unfold learn. rewrite Hk. by left.
Qed.

Lemma in_sequence_mono known known' ixs : known ⊆ known' -> in_sequence known ixs -> in_sequence known' ixs.
Proof.
  induction ixs as [|ix ixs IH] in known, known' |- *; intros Hsub; [done|]. intros [Hix Hrest].
  split; [|by eapply IH; [apply learn_mono|]]. eapply list.Forall_impl; [exact Hix|]. cbn. intros a Ha. by apply (learn_mono known).
Qed.

Lemma in_sequence_app known ixs ixs' :
  in_sequence known ixs -> in_sequence (after known ixs) ixs' -> in_sequence known (ixs ++ ixs').
Proof.
  induction ixs as [|ix ixs IH] in known |- *; [done|]. intros [Hix Hrest] Hs. split; [done|by apply IH].
Qed.

Lemma in_sequence_prefix known ixs ixs' : ixs `prefix_of` ixs' -> in_sequence known ixs' -> in_sequence known ixs.
Proof.
  intros [rest ->]. induction ixs as [|ix ixs IH] in known |- *; [done|]. cbn [in_sequence app]. intros [Hix Hrest].
  split; [done|by apply IH].
Qed.
End sequence.

Section follows.
Context {W : Type} `{Rpc W}.

(** [m] sends these instructions in this order, all of them if it gets through. *)
Definition follows {A} (ixs : list Instruction) (m : Client W A) : Prop :=
  forall w, sent (requests (m w)) `prefix_of` ixs /\ forall a, outcome (m w) = Ok a -> sent (requests (m w)) = ixs.

Lemma follows_bind {A B} l k (m : Client W A) (f : A -> Client W B) :
  follows l m -> (forall a, follows k (f a)) -> follows (l ++ k) (m ≫= f).
Proof.
  intros Hm Hf w. destruct (Hm w) as [Hp Hl]. unfold mbind, client_bind. destruct (outcome (m w)) as [a|e]; cbn [requests outcome].
  - destruct (Hf a (world (m w))) as [Hp' Hl']. unfold sent. rewrite bind_app. fold (sent (requests (m w))). rewrite (Hl a eq_refl).
    split; [by apply prefix_app|]. intros b Hb. f_equal. by eapply Hl'.
  - split; [by apply prefix_app_r|done].
Qed.

Lemma follows_send h ixs signers : follows ixs (send_and_log_transaction h ixs signers).
Proof.
  intros w. unfold send_and_log_transaction, send_transactions, mbind, client_bind, keypair, pure_of.
  destruct (h_keypair h) as [k|]; cbn; [|split; [apply prefix_nil|done]].
  unfold send_request. destruct (send_attempts _ _ _ _ _ w) as [[? ?] ?]. unfold sent. cbn. rewrite app_nil_r. done.
Qed.

Lemma client_new_keypair {B} w k w' (f : Pubkey -> Client W B) :
  rpc_new_keypair w = (k, w') -> (new_keypair ≫= f) w = f k w'.
Proof. intros E. unfold mbind, client_bind, new_keypair. rewrite E. cbn. by destruct (f k w'). Qed.

Lemma client_asked {A B} (read : Node -> result KeeperError A) w a (f : A -> Client W B) :
  outcome (ask read w) = Ok a -> (ask read ≫= f) w = f a (world (ask read w)).
Proof.
  intros E. unfold mbind, client_bind. rewrite E. unfold ask. destruct (rpc_node w) as [nd w']. cbn. by destruct (f a w').
Qed.

Lemma follows_for_each {A} (g : A -> list Instruction) (f : A -> Client W unit) l :
  (forall x, x ∈ l -> follows (g x) (f x)) -> follows (l ≫= g) (for_each f l).
Proof.
  induction l as [|x l IH]; intros Hf; [by intros w|]. cbn [for_each mbind list_bind]. apply follows_bind; [apply Hf; by left|].
  intros _. apply IH. intros y Hy. apply Hf. by right.
Qed.
End follows.

(* ------------------------------------------------------------------ *)
(** * The vault *)

Section vault.
Context {W : Type} `{Solana} `{KeeperAccounts} `{Clients} `{Rpc W}.
Context (Mint_LEN mint_rent : Z) (h : CliHandler) (admin ncn : Pubkey).

(** What the set-up of a vault relies on. *)
Definition existing (operators keys : list Pubkey) : list Pubkey :=
  [admin; ncn; system_program_id; h_token_program_id h; vault_config_address (h_vault_program_id h);
   restaking_config_address (h_restaking_program_id h)] ++ keys ++ operators.

Definition delegates (vault operator : Pubkey) : Instruction :=
  mkIx (AddDelegation 1000)
    [(Role.config, vault_config_address (h_vault_program_id h)); (Role.vault, vault); (Role.operator, operator);
     (Role.vault_operator_delegation, vault_operator_delegation_address (h_vault_program_id h) vault operator);
     (Role.admin, admin)].

(** The instructions that connect an operator. *)
Definition connect_ixs (vault operator : Pubkey) : list Instruction :=
  let ticket := operator_vault_ticket_address (h_restaking_program_id h) operator vault in
  [mkIx InitializeOperatorVaultTicket
     [(Role.config, restaking_config_address (h_restaking_program_id h)); (Role.admin, admin); (Role.operator, operator);
      (Role.vault, vault); (Role.operator_vault_ticket, ticket); (Role.payer, admin)];
   mkIx WarmupOperatorVaultTicket
     [(Role.config, restaking_config_address (h_restaking_program_id h)); (Role.admin, admin); (Role.operator, operator);
      (Role.vault, vault); (Role.operator_vault_ticket, ticket)];
   mkIx InitializeVaultOperatorDelegation
     [(Role.config, vault_config_address (h_vault_program_id h)); (Role.admin, admin); (Role.vault, vault); (Role.payer, admin);
      (Role.operator, operator); (Role.operator_vault_ticket, ticket);
      (Role.vault_operator_delegation, vault_operator_delegation_address (h_vault_program_id h) vault operator)];
   delegates vault operator].

Lemma connect_follows vault operator : follows (W := W) (connect_ixs vault operator) (connect_operator h admin vault operator).
Proof. unfold connect_operator, connect_ixs. apply (follows_bind [_]); [apply follows_send|]. intros _. apply follows_send. Qed.

(** Instructions that are in sequence, by looking. *)
Ltac by_looking :=
  repeat lazymatch goal with
  | |- in_sequence _ [] => exact I
  | |- in_sequence _ (_ :: _) =>
      eapply in_sequence_step;
      [ unfold creates, account_of; cbn; repeat first [rewrite decide_False by discriminate | rewrite decide_True by reflexivity]; reflexivity
      | cbn [option_list app ix_accounts] | cbn [option_list app] ]
  | |- Forall _ (_ :: _) => apply Forall_cons_2
  | |- Forall _ [] => constructor
  | |- _ ∈ _ => cbn; rewrite ?elem_of_cons, ?elem_of_app; tauto
  end.

Lemma connect_in_sequence known vault operator :
  [admin; vault; operator; vault_config_address (h_vault_program_id h); restaking_config_address (h_restaking_program_id h)] ⊆ known ->
  in_sequence known (connect_ixs vault operator).
Proof.
  intros Hsub. eapply in_sequence_mono; [exact Hsub|]. unfold connect_ixs, delegates. by_looking.
Qed.

Lemma connects_in_sequence known vault operators :
  vault ∈ known ->
  [admin; vault_config_address (h_vault_program_id h); restaking_config_address (h_restaking_program_id h)] ++ operators ⊆ known ->
  in_sequence known (operators ≫= connect_ixs vault).
Proof.
  intros Hv. induction operators as [|operator operators IH] in known, Hv |- *; intros Hsub; [done|].
  cbn [mbind list_bind]. apply in_sequence_app; [apply connect_in_sequence; set_solver|].
  apply IH; [by apply after_grows|]. etrans; [|apply after_grows]. set_solver.
Qed.

Definition setup_ixs (vrt_mint token_mint base : Pubkey) (deposit withdrawal reward : Z) : list Instruction :=
  let vault := vault_address (h_vault_program_id h) base in
  mint_ixs Mint_LEN mint_rent h admin token_mint
  ++ vault_ixs h admin base vrt_mint token_mint vault deposit withdrawal reward
  ++ (ticket_ixs h admin ncn vault).1 ++ (ticket_ixs h admin ncn vault).2.

Lemma setup_in_sequence vrt_mint token_mint base deposit withdrawal reward operators :
  in_sequence (existing operators [vrt_mint; token_mint; base]) (setup_ixs vrt_mint token_mint base deposit withdrawal reward).
Proof. unfold setup_ixs, mint_ixs, vault_ixs, ticket_ixs, create_ata_ix. cbn [app fst snd]. by_looking. Qed.

Lemma setup_creates_vault vrt_mint token_mint base deposit withdrawal reward known :
  vault_address (h_vault_program_id h) base ∈ after known (setup_ixs vrt_mint token_mint base deposit withdrawal reward).
Proof.
  eapply after_creates.
  - unfold setup_ixs. apply elem_of_app. right. apply elem_of_app. left. by left.
  - by vm_compute.
Qed.

(** However far the set-up of a vault gets, every instruction sent finds the
    accounts it names; and if it gets through, the vault has delegated to every
    operator that was read. *)
Theorem test_vault_in_sequence deposit withdrawal reward w w1 w2 w3 vrt_mint token_mint base operators :
  h_keypair h = Some admin -> h_ncn h = Some ncn ->
  rpc_new_keypair w = (vrt_mint, w1) -> rpc_new_keypair w1 = (token_mint, w2) -> rpc_new_keypair w2 = (base, w3) ->
  outcome (ask (get_all_operators_in_ncn h) w3) = Ok operators ->
  let r := create_and_add_test_vault Mint_LEN mint_rent h deposit withdrawal reward w in
  in_sequence (existing operators [vrt_mint; token_mint; base]) (sent (requests r))
  /\ (outcome r = Ok tt -> forall operator, operator ∈ operators ->
        delegates (vault_address (h_vault_program_id h) base) operator ∈ sent (requests r)).
Proof.
  intros Hk Hn E1 E2 E3 Hops. set (vault := vault_address _ base).
  cbn zeta. unfold create_and_add_test_vault.
  rewrite (client_pure _ admin) by (unfold keypair; by rewrite Hk).
  rewrite (client_pure _ ncn) by (unfold ncn_of; by rewrite Hn).
  rewrite (client_new_keypair _ _ _ _ E1), (client_new_keypair _ _ _ _ E2), (client_new_keypair _ _ _ _ E3).
  rewrite (client_asked _ _ _ _ Hops). fold vault. set (m := _ ≫= _).
  assert (Hm : follows (setup_ixs vrt_mint token_mint base deposit withdrawal reward ++ (operators ≫= connect_ixs vault)) m).
  { unfold setup_ixs. rewrite <- !app_assoc. repeat (apply follows_bind; [apply follows_send|intros _]).
    apply follows_for_each. intros operator _. apply connect_follows. }
  destruct (Hm (world (ask (get_all_operators_in_ncn h) w3))) as [Hpre Hall]. split.
  - eapply in_sequence_prefix; [exact Hpre|]. apply in_sequence_app; [apply setup_in_sequence|].
    apply connects_in_sequence; [apply setup_creates_vault|].
    etrans; [|apply after_grows]. unfold existing. intros k. rewrite !elem_of_app, !elem_of_cons, elem_of_nil. tauto.
  - intros Hok operator Hin. rewrite (Hall _ Hok). apply elem_of_app. right. apply list_elem_of_bind. exists operator.
    split; [|done]. unfold connect_ixs. rewrite !elem_of_cons. tauto.
Qed.
End vault.

(* ------------------------------------------------------------------ *)
(** * A network with two operators *)

Module TwoOperators.
Import ConcreteSolana ConcretePrograms ConcreteClients EmptyNetwork.

Definition node : Node :=
  mkNode (fun _ => Ok None) (fun _ => accounts_of (Ok [(key 1, [5]); (key 2, [6])]) (Ok []) (Ok []))
    (Ok 1000) (Ok (5, 1000)) (Ok (fun _ => 432000)) (fun _ => Ok 0).

(** The world counts the keypairs that are made. *)
#[export] Instance counts : Rpc Z := {|
  rpc_node w := (node, w);
  rpc_blockhash w := (true, w);
  rpc_process w tx := (true, w);
  rpc_fetch_update_ix w feed payer := (Err Failed, w);
  rpc_new_keypair w := (key (50 + w), w + 1);
|}.
End TwoOperators.
Import ConcreteSolana ConcretePrograms ConcreteClients EmptyNetwork TwoOperators.

Lemma test_vault_in_sequence_witness :
  let r := create_and_add_test_vault 82 1461600 EmptyNetwork.h 10 10 1000 0 in
  outcome r = Ok tt /\ length (sent (requests r)) = 21%nat
  /\ in_sequence (existing EmptyNetwork.h (key 3) (key 9) [key 5; key 6] [key 50; key 51; key 52]) (sent (requests r))
  /\ (outcome r = Ok tt -> forall operator, operator ∈ [key 5; key 6] ->
        delegates EmptyNetwork.h (key 3) (vault_address (h_vault_program_id EmptyNetwork.h) (key 52)) operator ∈ sent (requests r)).
Proof.
  split; [vm_compute; reflexivity|]. split; [vm_compute; reflexivity|].
  apply (test_vault_in_sequence 82 1461600 EmptyNetwork.h (key 3) (key 9) 10 10 1000 0 1 2 3 (key 50) (key 51) (key 52) [key 5; key 6]);
    vm_compute; reflexivity.
Defined.
