(* ===== verification/Operator.v ===== *)
(** The operator client's main loop (tip-router-operator-cli/src/main.rs, the side that
    closes its conflict, and process_epoch.rs): for every epoch it generates the meta
    tree of the epoch before and writes it to a file, while a task of its own submits
    the files of the last epochs to the NCN.  The two meet in the directory of the
    tree files only. *)

From Stdlib Require Import String.
From stdpp Require Import gmap.
From S2P Require Import Prelude Errors External Config Fees MerkleTree GeneratedTree StakeMetaGenerator Submit SnapshotBackup.

Inductive OperatorError : Type := OperatorFailed | OperatorPanic.

(** The arguments of [run]; the operator's address is parsed where it is used. *)
Record Args := mkArgs {
  ag_client : Client;
  ag_tip_payment_program_id : Pubkey;
  ag_operator_address : option Pubkey;
  ag_num_monitored_epochs : nat;
  ag_start_next_epoch : bool;
}.

Section operator.
Context `{Solana} `{LedgerAccounts} `{Programs} `{TdaDecoder} (MAX_BPS : Z).

(** How the replay of the ledger up to a slot ends. *)
Inductive Replayed : Type := ReplayOk (bank : Bank) | ReplayFails | ReplayPanics.

(** The answers during one [process_epoch]: the configuration account, which need not
    decode, the listings of the snapshot directory, and the replay. *)
Record Answers := mkAnswers {
  an_config : option (option Config);
  an_listing : nat -> option (list (option string));
  an_bank : Z -> Replayed;
}.

(* ------------------------------------------------------------------ *)
(** * One epoch *)

(** Which failures of [get_meta_merkle_root] are panics. *)
Definition root_panics (bank : Bank) (args : Args) (epoch protocol_fee_bps : Z) : bool :=
  let c := ag_client args in
  match generate_stake_meta_collection bank (cl_tip_distribution_program_id c) (ag_tip_payment_program_id args) with
  | Err StakeMetaError.GeneratorPanic => true
  | Err _ => false
  | Ok stake_meta_collection =>
      match new_from_stake_meta_collection MAX_BPS stake_meta_collection (cl_ncn_address c) epoch protocol_fee_bps
              (cl_tip_router_program_id c) with
      | Err GenPanic => true
      | Err _ => false
      | Ok merkle_tree_coll =>
          match new_from_generated_merkle_tree_collection merkle_tree_coll with Err MtPanic => true | _ => false end
      end
  end.

(** [process_epoch] up to the tree. *)
Definition process_epoch (args : Args) (target_slot target_epoch : Z) (new_epoch_rollover : bool) (an : Answers)
    : result OperatorError MetaMerkleTree :=
  let c := ag_client args in
  operator_address ← ok_or (ag_operator_address args) OperatorPanic;
  ncn_config ← ok_or (an_config an) OperatorFailed;
  ncn_config ← ok_or ncn_config OperatorPanic;
  adjusted_total_fees ←
    (match protocol_fee_bps_of (cf_fee_config ncn_config) target_epoch with
     | Ok fees => Ok fees
     | Err Panic => Err OperatorPanic
     | Err _ => Err OperatorFailed
     end);
  _ ← (if new_epoch_rollover then
         match wait_for_optimal_incremental_snapshot (an_listing an) target_slot with
         | WaitReady | WaitTimedOut => Ok tt
         | WaitFails => Err OperatorFailed
         | WaitPanics => Err OperatorPanic
         end
       else Ok tt);
  bank ← (match an_bank an target_slot with
          | ReplayOk bank => Ok bank
          | ReplayFails => Err OperatorFailed
          | ReplayPanics => Err OperatorPanic
          end);
  if root_panics bank args target_epoch adjusted_total_fees then Err OperatorPanic else
  map_err (fun _ => OperatorFailed)
    (get_meta_merkle_root MAX_BPS bank (cl_tip_distribution_program_id c) (ag_tip_payment_program_id args)
       (cl_tip_router_program_id c) (cl_ncn_address c) target_epoch adjusted_total_fees).

(* ------------------------------------------------------------------ *)
(** * The loop and the submitting task *)

(** Where the loop is; a panic in it ends the program. *)
Inductive Phase : Type :=
| Reading
| Processing (epoch slot : Z)
| Writing (epoch : Z) (tree : MetaMerkleTree)
| Waiting
| Stopped.

(** The loop's variables; the tree files, one that cannot be parsed being [None];
    whether the submitting task is alive; and a record of the epochs processed and of
    what was sent. *)
Record Operator := mkOperator {
  op_phase : Phase;
  op_current_epoch : Z;
  op_new_epoch_rollover : bool;
  op_files : gmap Z (option MetaMerkleTree);
  op_processed : list Z;
  op_submitting : bool;
  op_sent : list SentIx;
}.

(** What happens next: an answer to [get_previous_epoch_last_slot] or to
    [wait_for_next_epoch], [process_epoch] up to the opening of the file, which empties
    it, the end of the writing, or a round of the submitting task. *)
Inductive Event : Type :=
| Read (info : option EpochInfo)
| Polled (info : option EpochInfo)
| Process (an : Answers) (opens : bool)
| Wrote (whole : bool)
| Submits (current_epoch : option Z) (nets : nat -> Network).

Definition init (args : Args) (epoch : Z) (files : gmap Z (option MetaMerkleTree)) : Operator :=
  mkOperator (if ag_start_next_epoch args then Waiting else Reading) epoch (ag_start_next_epoch args) files [] true [].

Definition with_phase (s : Operator) (phase : Phase) : Operator :=
  mkOperator phase (op_current_epoch s) (op_new_epoch_rollover s) (op_files s) (op_processed s) (op_submitting s) (op_sent s).
Definition with_file (s : Operator) (epoch : Z) (file : option MetaMerkleTree) : Operator :=
  mkOperator (op_phase s) (op_current_epoch s) (op_new_epoch_rollover s) (<[epoch:=file]> (op_files s)) (op_processed s)
    (op_submitting s) (op_sent s).

(** An answer that the slot of the last epoch is computed from; a read that fails is
    repeated at once. *)
Definition on_read (s : Operator) (info : option EpochInfo) : Operator :=
  match info with
  | None => s
  | Some info =>
      let '(previous_epoch, previous_epoch_slot) := get_previous_epoch_last_slot info in
      mkOperator (Processing previous_epoch previous_epoch_slot) (op_current_epoch s) (op_new_epoch_rollover s) (op_files s)
        (op_processed s ++ [previous_epoch]) (op_submitting s) (op_sent s)
  end.

(** [wait_for_next_epoch] *)
Definition on_polled (s : Operator) (info : option EpochInfo) : Operator :=
  match info with
  | None => s
  | Some info =>
      if op_current_epoch s <? ei_epoch info
      then mkOperator Reading (ei_epoch info) true (op_files s) (op_processed s) (op_submitting s) (op_sent s)
      else s
  end.

(** An error is logged, and the loop waits for the next epoch. *)
Definition on_process (args : Args) (s : Operator) (epoch slot : Z) (an : Answers) (opens : bool) : Operator :=
  match process_epoch args slot epoch (op_new_epoch_rollover s) an with
  | Ok tree => if opens then with_phase (with_file s epoch None) (Writing epoch tree) else with_phase s Waiting
  | Err OperatorFailed => with_phase s Waiting
  | Err OperatorPanic => with_phase s Stopped
  end.

Definition on_submits (args : Args) (s : Operator) (current_epoch : option Z) (nets : nat -> Network) : Operator :=
  let r := submit_recent_epochs_to_ncn current_epoch nets (ag_client args) (ag_operator_address args)
             (fun epoch => op_files s !! epoch) (ag_num_monitored_epochs args) in
  mkOperator (op_phase s) (op_current_epoch s) (op_new_epoch_rollover s) (op_files s) (op_processed s)
    (match outcome r with Err SubmitError.SubmitPanic => false | _ => true end) (op_sent s ++ sent r).

(** [None]: nothing waits for the event. *)
Definition step (args : Args) (s : Operator) (e : Event) : option Operator :=
  match e, op_phase s with
  | Read info, Reading => Some (on_read s info)
  | Polled info, Waiting => Some (on_polled s info)
  | Process an opens, Processing epoch slot => Some (on_process args s epoch slot an opens)
  | Wrote whole, Writing epoch tree => Some (with_phase (with_file s epoch (if whole then Some tree else None)) Waiting)
  | Submits _ _, Stopped => None
  | Submits current_epoch nets, _ => if op_submitting s then Some (on_submits args s current_epoch nets) else None
  | _, _ => None
  end.

Fixpoint run (args : Args) (events : list Event) (s : Operator) : option Operator :=
  match events with
  | [] => Some s
  | e :: events => s ← step args s e; run args events s
  end.
End operator.
