(* ===== verification/OperatorTheorems.v ===== *)
(** The promises of the operator's main loop (Operator): what it votes for is the root
    of the ledger that it replayed, in the processing that wrote the tree's file, up to the
    last slot of the epoch before the vote's; and with a processing that ends
    within its epoch no epoch is left out and each one with a tree is voted for. *)

From Stdlib Require Import String.
From stdpp Require Import gmap.
From S2P Require Import Prelude Errors External Accounts Config Fees MerkleTree GeneratedTree BallotBox BallotBoxProps BallotBoxTheorems VoteHandlers StakeMetaGenerator StakeMetaTheorems Submit SubmitTheorems SnapshotBackup Operator.

Section operator.
Context `{Solana} `{LedgerAccounts} `{L : PreciseNumberLaws} `{Programs} `{TdaDecoder} (MAX_BPS : Z) (args : Args).

Abbreviation run := (run MAX_BPS args).
Abbreviation step := (step MAX_BPS args).

(* ------------------------------------------------------------------ *)
(** * What is voted for *)

(** The node's clock: [first_slot] gives the first slot of each epoch. *)
Definition on_clock (first_slot : Z -> Z) (e : Event) : Prop :=
  match e with
  | Read (Some info) => 1 <= ei_epoch info /\ 0 <= ei_slot_index info /\ 1 <= first_slot (ei_epoch info) /\
                        ei_absolute_slot info = first_slot (ei_epoch info) + ei_slot_index info
  | _ => True
  end.

Section provenance.
Context (first_slot : Z -> Z).

Definition is_submits (e : Event) : Prop := match e with Submits _ _ => True | _ => False end.

(** [an] answers with the ledger at the last slot of [epoch] and with a configuration,
    and [t] is the tree of that ledger with the fees that this configuration has for the
    epoch after. *)
Definition tree_from (an : Answers) (epoch : Z) (t : MetaMerkleTree) : Prop :=
  exists bank config fees,
    an_bank an (first_slot (epoch + 1) - 1) = ReplayOk bank /\
    an_config an = Some (Some config) /\ FeeConfig.adjusted_total_fees_bps (cf_fee_config config) (epoch + 1) = Ok fees /\
    get_meta_merkle_root MAX_BPS bank (cl_tip_distribution_program_id (ag_client args)) (ag_tip_payment_program_id args)
      (cl_tip_router_program_id (ag_client args)) (cl_ncn_address (ag_client args)) epoch fees = Ok t.

(** The events end with the node's answer that it is in the epoch after [epoch], but for
    rounds of the submitting task. *)
Definition read_last (events : list Event) (epoch : Z) : Prop :=
  exists before info rounds, events = before ++ Read (Some info) :: rounds /\
    Forall is_submits rounds /\ ei_epoch info = epoch + 1.

(** They end with the processing of [epoch] after such an answer, which makes [t]. *)
Definition processed_last (events : list Event) (epoch : Z) (t : MetaMerkleTree) : Prop :=
  exists before an rounds, events = before ++ Process an true :: rounds /\
    Forall is_submits rounds /\ read_last before epoch /\ tree_from an epoch t.

(** Among them is the writing of the file of [epoch], after such a processing. *)
Definition made (events : list Event) (epoch : Z) (t : MetaMerkleTree) : Prop :=
  exists before after, events = before ++ Wrote true :: after /\ processed_last before epoch t.

(** [ix] is what a round of the submitting task sends: this operator's vote, in the epoch
    after [epoch], for the root of a tree made before that round, or of one in [files]. *)
Definition vote_for (files : gmap Z (option MetaMerkleTree)) (events : list Event) (ix : SentIx) : Prop :=
  exists before current_epoch nets after op epoch t,
    events = before ++ Submits current_epoch nets :: after /\ ag_operator_address args = Some op /\
    ix = cast_vote_ix (ag_client args) op (merkle_root t) (epoch + 1) /\
    (files !! epoch = Some (Some t) \/ made before epoch t).

Lemma last_slot info : on_clock first_slot (Read (Some info)) ->
  get_previous_epoch_last_slot info = (ei_epoch info - 1, first_slot (ei_epoch info) - 1).
Proof using Type.
  intros (He & Hi & Hf & Ha). unfold get_previous_epoch_last_slot. rewrite Ha.
  rewrite (proj2 (Z.ltb_ge _ _)) by lia. unfold saturating_sub. f_equal; lia.
Qed.

Lemma process_epoch_tree epoch rollover an t :
  process_epoch MAX_BPS args (first_slot (epoch + 1) - 1) epoch rollover an = Ok t -> tree_from an epoch t.
Proof using Type.
  intros Hp. unfold process_epoch, protocol_fee_bps_of in Hp. res_inv. subst.
  destruct (checked_add U64 epoch 1) as [e|] eqn:Ee; cbn [ok_or mbind result_bind] in *; [|done].
  apply checked_add_Some in Ee as [-> _].
  destruct (FeeConfig.adjusted_total_fees_bps _ _) as [fees|[]] eqn:Ef; try done.
  destruct (an_bank an _) as [bank| |] eqn:Eb; try done. res_inv. subst.
  unfold map_err in Hp. destruct (get_meta_merkle_root _ _ _ _ _ _ _ _) as [t'|] eqn:Et; [|done]. injection Hp as ->.
  eexists _, _, _. done.
Qed.

(** One more event: a round of the submitting task leaves the phase's past as it is, and
    what was made remains made. *)
Lemma read_last_snoc events epoch e : is_submits e -> read_last events epoch -> read_last (events ++ [e]) epoch.
Proof using Type.
  intros He (before & info & rounds & -> & Hr & Hi). exists before, info, (rounds ++ [e]).
  split; [by rewrite <- app_assoc|]. split; [|done]. apply Forall_app. by repeat constructor.
Qed.

Lemma processed_last_snoc events epoch t e :
  is_submits e -> processed_last events epoch t -> processed_last (events ++ [e]) epoch t.
Proof using Type.
  intros He (before & an & rounds & -> & Hr & Hi). exists before, an, (rounds ++ [e]).
  split; [by rewrite <- app_assoc|]. split; [|done]. apply Forall_app. by repeat constructor.
Qed.

Lemma made_snoc events epoch t e : made events epoch t -> made (events ++ [e]) epoch t.
Proof using Type.
  intros (before & after & -> & Hp). exists before, (after ++ [e]). split; [by rewrite <- app_assoc|done].
Qed.

Lemma vote_for_snoc files events ix e : vote_for files events ix -> vote_for files (events ++ [e]) ix.
Proof using Type.
  intros (before & cur & nets & after & op & epoch & t & -> & Hv). exists before, cur, nets, (after ++ [e]), op, epoch, t.
  split; [by rewrite <- app_assoc|done].
Qed.

(** Every file is empty, foreign or made; the loop's phase has its past; and so has what
    was sent. *)
Record written (files : gmap Z (option MetaMerkleTree)) (events : list Event) (s : Operator) : Prop := {
  wr_files : forall epoch t, op_files s !! epoch = Some (Some t) -> files !! epoch = Some (Some t) \/ made events epoch t;
  wr_phase : match op_phase s with
             | Processing epoch slot => slot = first_slot (epoch + 1) - 1 /\ read_last events epoch
             | Writing epoch t => processed_last events epoch t
             | _ => True
             end;
  wr_sent : forall ix, ix ∈ votes_sent (op_sent s) -> vote_for files events ix;
}.

Lemma read_ballot_box_tree net c tf epoch slot config t box :
  read_ballot_box net c tf epoch = Ok (Some (slot, config, t, box)) -> tf = Some t.
Proof using Type.
  unfold read_ballot_box. intros Hr. res_inv. subst.
  destruct (net_ballot_box _ _) as [[b|]|]; cbn in Hr; try discriminate Hr. by injection Hr as _ _ -> _.
Qed.

Lemma submit_to_ncn_votes net c op tf epoch ix :
  ix ∈ votes_sent (sent (submit_to_ncn net c op tf epoch)) ->
  exists t, tf = Some t /\ ix = cast_vote_ix c op (merkle_root t) (epoch + 1).
Proof using Type.
  unfold submit_to_ncn. destruct (read_ballot_box _ _ _ _) as [[[[[slot config] t] box]|]|] eqn:Er;
    [|rewrite attempt_Ok; set_solver|set_solver].
  apply read_ballot_box_tree in Er as ->. rewrite attempt_Ok.
  destruct (BallotBox.is_voting_valid _ _ _) as [valid|]; [rewrite attempt_Ok|set_solver].
  destruct (should_cast_vote _ _ _) as [cast|]; [rewrite attempt_Ok|set_solver].
  rewrite sent_bind, votes_sent_app, elem_of_app. intros [Hv|Hv].
  - destruct (_ && _); [|set_solver]. unfold votes_sent in Hv. apply list_elem_of_filter in Hv as [_ Hv].
    apply list_elem_of_singleton in Hv. by exists t.
  - destruct (outcome _); [|set_solver]. rewrite votes_sent_uploads in Hv by apply upload_roots_sends. set_solver.
Qed.

Lemma submit_epochs_votes nets c op files epoch i n ix :
  ix ∈ votes_sent (sent (submit_epochs nets c op files epoch i n)) ->
  exists e t, files e = Some (Some t) /\ ix = cast_vote_ix c op (merkle_root t) (e + 1).
Proof using Type.
  revert i. induction n as [|n IH]; intros i; cbn [submit_epochs]; [set_solver|].
  destruct (checked_sub epoch (Z.of_nat i)) as [e|]; cbn [ok_or]; [rewrite attempt_Ok|set_solver].
  rewrite sent_bind, votes_sent_app, elem_of_app. intros [Hv|Hv].
  - destruct (files e) as [tf|] eqn:Ef; [|set_solver]. cbn [logged sent] in Hv.
    apply submit_to_ncn_votes in Hv as (t & -> & ->). by exists e, t.
  - destruct (outcome _); [by apply IH in Hv|set_solver].
Qed.

Lemma submits_votes cur nets files ix :
  ix ∈ votes_sent (sent (submit_recent_epochs_to_ncn cur nets (ag_client args) (ag_operator_address args) files
    (ag_num_monitored_epochs args))) ->
  exists op e t, ag_operator_address args = Some op /\ files e = Some (Some t) /\
    ix = cast_vote_ix (ag_client args) op (merkle_root t) (e + 1).
Proof using Type.
  unfold submit_recent_epochs_to_ncn. destruct cur as [cur|]; cbn [ok_or]; [rewrite attempt_Ok|set_solver].
  destruct (ag_operator_address args) as [op|]; cbn [ok_or]; [rewrite attempt_Ok|set_solver].
  intros (e & t & Hf & ->)%submit_epochs_votes. by exists op, e, t.
Qed.

Lemma written_snoc files events s e (P : Prop) :
  written files events s ->
  (written files (events ++ [e]) (with_phase s Waiting) -> P) -> P.
Proof using Type.
  intros [Hf _ Hv] HP. apply HP. split; cbn; [|done|].
  - intros epoch t [Ht|Ht]%Hf; [by left|right; by apply made_snoc].
  - intros ix Hix. by apply vote_for_snoc, Hv.
Qed.

Lemma step_written files events s e s' :
  on_clock first_slot e -> written files events s -> step s e = Some s' -> written files (events ++ [e]) s'.
Proof using Type.
  intros Hc Hw Hs. apply (written_snoc files events s e _ Hw). intros [Hf _ Hv]. cbn in Hf, Hv. pose proof (wr_phase _ _ _ Hw) as Hp.
  destruct e as [info|info|an opens|whole|cur nets].
  - destruct s as [[] cur roll fs ps al se]; try done. injection Hs as <-. destruct info as [info|]; cbn [on_read]; [|by split].
    rewrite (last_slot info Hc). split; [done| |done]. cbn. replace (ei_epoch info - 1 + 1) with (ei_epoch info) by lia.
    split; [done|]. exists events, info, []. split; [done|]. split; [constructor|lia].
  - destruct s as [[] cur roll fs ps al se]; try done. injection Hs as <-. destruct info as [info|]; cbn [on_polled]; [|by split].
    cbn. by destruct (cur <? ei_epoch info); split.
  - destruct s as [[|e slot| | |] cur roll fs ps al se]; try done. injection Hs as <-. unfold on_process. cbn in Hp |- *.
    destruct Hp as [-> Hr].
    destruct (process_epoch MAX_BPS args _ e roll an) as [t|[]] eqn:Ep; [|by split|by split].
    destruct opens; [|by split]. apply process_epoch_tree in Ep. split; [| |done]; cbn in *.
    + intros e' t'. rewrite lookup_insert_Some. intros [[_ [=]]|[_ Hl]]. by apply Hf.
    + exists events, an, []. split; [done|]. split; [constructor|done].
  - destruct s as [[| |e t| |] cur roll fs ps al se]; try done. injection Hs as <-. split; [|done|done].
    cbn in *. intros e' t'. rewrite lookup_insert_Some. intros [[<- Hl]|[_ Hl]]; [|by apply Hf].
    destruct whole; [|done]. injection Hl as <-. right. by exists events, [].
  - assert (Hs' : s' = on_submits args s cur nets).
    { unfold Operator.step in Hs. destruct (op_phase s), (op_submitting s); congruence. }
    subst s'. split; [done| |].
    + cbn. destruct (op_phase s); try done; [|by apply processed_last_snoc]. destruct Hp. split; [done|by apply read_last_snoc].
    + unfold on_submits. cbn [op_sent]. intros ix. rewrite votes_sent_app, elem_of_app. intros [Hix|Hix]; [by apply Hv|].
      apply submits_votes in Hix as (op & e & t & Ho & He & ->). exists events, cur, nets, [], op, e, t.
      do 3 (split; [done|]). exact (wr_files _ _ _ Hw _ _ He).
Qed.
End provenance.

(** C19: whatever the answers and however the loop and the submitting task interleave,
    every vote that is sent is the operator's, sent in a round of the submitting task, for
    the root of a tree whose file was wholly written before that round: in the processing
    that wrote it, which followed the node's answer that it was in some epoch, the ledger
    was replayed up to the slot before that epoch's first one, and the tree is that of this
    ledger with the fees for that epoch in the configuration read then; the vote is one in
    that epoch.  Only a file that was there before the program started is voted for
    otherwise. *)
Theorem votes_are_generated_roots first_slot events epoch files s ix :
  Forall (on_clock first_slot) events -> run events (init args epoch files) = Some s -> ix ∈ votes_sent (op_sent s) ->
  vote_for first_slot files events ix.
Proof using Type.
  assert (Hgen : forall past s0, written first_slot files past s0 -> Forall (on_clock first_slot) events ->
    run events s0 = Some s -> written first_slot files (past ++ events) s).
  { induction events as [|e events IH]; intros past s0 Hw Hc Hr; cbn in Hr; [injection Hr as <-; by rewrite app_nil_r|].
    apply list.Forall_cons in Hc as [He Hc]. destruct (step s0 e) as [s1|] eqn:Es; [|done].
    rewrite (cons_middle e past events), app_assoc. apply (IH _ s1); [by eapply step_written|done|done]. }
  intros Hc Hr. apply (wr_sent _ _ _ _ (Hgen [] (init args epoch files) ltac:(split; [by left| |set_solver]; unfold init; cbn; by destruct (ag_start_next_epoch args)) Hc Hr)).
Qed.

(* ------------------------------------------------------------------ *)
(** * Every epoch gets its vote *)

(** The processing of an epoch ends before the next epoch does: the loop never sees an
    epoch further than the one after its own, and the slot is read in the epoch that
    the wait has seen. *)
Definition in_time (s : Operator) (e : Event) : Prop :=
  match e, op_phase s with
  | Read (Some info), Reading => ei_epoch info = op_current_epoch s /\ ei_slot_index info <= ei_absolute_slot info
  | Polled (Some info), Waiting => ei_epoch info <= op_current_epoch s + 1
  | _, _ => True
  end.

Fixpoint timely (events : list Event) (s : Operator) : Prop :=
  match events with
  | [] => True
  | e :: events => in_time s e /\ forall s', step s e = Some s' -> timely events s'
  end.

#[export] Instance in_time_dec s e : Decision (in_time s e).
Proof using Type. unfold in_time. destruct e as [[|]|[|]| | |]; try apply _; destruct (op_phase s); apply _. Defined.

#[export] Instance timely_dec events s : Decision (timely events s).
Proof using Type.
  revert s. induction events as [|e events IH]; intros s; [left; exact I|].
  destruct (decide (in_time s e)) as [Hin|Hin]; [|right; intros [? _]; contradiction].
  destruct (step s e) as [s'|] eqn:Es.
  - destruct (IH s') as [Ht|Ht]; [left|right].
    + split; [done|]. intros s1 [= <-]%(eq_trans (eq_sym Es)). exact Ht.
    + intros [_ Hall]. by apply Ht, Hall.
  - left. split; [done|]. intros s1 Hs. congruence.
Defined.

(** The first epoch that is processed. *)
Definition start (epoch : Z) : Z := if ag_start_next_epoch args then epoch else epoch - 1.

(** What the loop has processed, up to and without [bound]. *)
Definition up_to (first bound : Z) (s : Operator) : Prop :=
  start first <= bound /\ op_processed s = seqZ (start first) (bound - start first).

Definition on_schedule (first : Z) (s : Operator) : Prop :=
  1 <= op_current_epoch s /\ (forall e f, op_files s !! e = Some f -> e < op_current_epoch s) /\
  match op_phase s with
  | Reading => up_to first (op_current_epoch s - 1) s
  | Processing e _ | Writing e _ => e = op_current_epoch s - 1 /\ up_to first (op_current_epoch s) s
  | Waiting => up_to first (op_current_epoch s) s
  | Stopped => True
  end.

Lemma step_on_schedule first s e s' : on_schedule first s -> in_time s e -> step s e = Some s' -> on_schedule first s'.
Proof using Type.
  intros (Hc & Hf & Hp) Ht Hs. destruct e as [info|info|an opens|whole|cur nets].
  - destruct s as [[] cur roll fs ps al se]; try done. injection Hs as <-. destruct info as [info|]; [|by split].
    cbn in *. destruct Ht as [He Hi]. unfold get_previous_epoch_last_slot.
    rewrite (proj2 (Z.ltb_ge _ _)) by done. cbn. rewrite He.
    replace (saturating_sub cur 1) with (cur - 1) by (unfold saturating_sub; lia).
    destruct Hp as [Hle Hp]. unfold on_schedule, up_to in *. cbn in *.
    split; [done|]. split; [done|]. split; [done|]. split; [lia|]. rewrite Hp.
    replace (cur - start first) with (cur - 1 - start first + 1) by lia. rewrite seqZ_app by lia. f_equal.
    replace (start first + (cur - 1 - start first)) with (cur - 1) by lia. reflexivity.
  - destruct s as [[] cur roll fs ps al se]; try done. injection Hs as <-. destruct info as [info|]; [|by split].
    cbn in *. destruct (Z.ltb_spec cur (ei_epoch info)) as [Hlt|]; [|by split].
    assert (ei_epoch info = cur + 1) as -> by lia. split; [cbn; lia|]. split; [cbn; intros e f Hl; specialize (Hf e f Hl); lia|].
    cbn. replace (cur + 1 - 1) with cur by lia. exact Hp.
  - destruct s as [[|e slot| | |] cur roll fs ps al se]; try done. injection Hs as <-. unfold on_process. cbn in Hp |- *.
    destruct Hp as [-> Hp]. destruct (process_epoch _ _ _ _ _ _) as [t|[]]; [|by split|by split].
    destruct opens; [|by split]. split; [done|]. split; [|by split]. cbn in *. intros e f.
    rewrite lookup_insert_Some. intros [[<- _]|[_ Hl]]; [lia|by apply (Hf e f)].
  - destruct s as [[| |e t| |] cur roll fs ps al se]; try done. injection Hs as <-. cbn in Hp. destruct Hp as [-> Hp].
    split; [done|]. split; [|done]. cbn in *. intros e f.
    rewrite lookup_insert_Some. intros [[<- _]|[_ Hl]]; [lia|by apply (Hf e f)].
  - assert (Hs' : s' = on_submits args s cur nets).
    { unfold Operator.step in Hs. destruct (op_phase s), (op_submitting s); congruence. }
    subst s'. by split.
Qed.

Lemma submits_last cur nets files op t slot config box :
  ag_operator_address args = Some op -> op <> Pubkey_default -> (2 <= ag_num_monitored_epochs args)%nat -> 1 <= cur ->
  files cur = None -> files (cur - 1) = Some (Some t) ->
  read_ballot_box (nets 1%nat) (ag_client args) (Some t) (cur - 1) = Ok (Some (slot, config, t, box)) -> bb_inv box ->
  BallotBox.is_voting_valid box slot (cf_valid_slots_after_consensus config) = Ok true ->
  votes_for_root box op (merkle_root t) = false ->
  cast_vote_ix (ag_client args) op (merkle_root t) cur ∈ sent (submit_recent_epochs_to_ncn (Some cur) nets (ag_client args)
    (ag_operator_address args) files (ag_num_monitored_epochs args)).
Proof using L.
  intros Hop Hne Hn Hcur Hf0 Hf1 Hr Hb Hv Hroot. unfold submit_recent_epochs_to_ncn. cbn [ok_or]. rewrite attempt_Ok.
  rewrite Hop. cbn [ok_or]. rewrite attempt_Ok. destruct (ag_num_monitored_epochs args) as [|[|n]]; [lia|lia|].
  cbn [submit_epochs]. rewrite (checked_sub_ok cur (Z.of_nat 0)) by lia. cbn [ok_or]. rewrite attempt_Ok.
  replace (cur - Z.of_nat 0) with cur by lia. rewrite Hf0, ret_bind.
  rewrite (checked_sub_ok cur (Z.of_nat 1)) by lia. cbn [ok_or]. rewrite attempt_Ok.
  replace (cur - Z.of_nat 1) with (cur - 1) by lia. rewrite Hf1, sent_bind. apply elem_of_app. left.
  cbn [logged sent]. assert (Hin : cast_vote_ix (ag_client args) op (merkle_root t) cur ∈
    votes_sent (sent (submit_to_ncn (nets 1%nat) (ag_client args) op (Some t) (cur - 1)))).
  { rewrite (submit_votes _ _ _ _ _ _ _ _ _ _ Hr Hb Hne Hv), Hroot. cbn. replace (cur - 1 + 1) with cur by lia. left. }
  unfold votes_sent in Hin. apply list_elem_of_filter in Hin as [_ Hin]. exact Hin.
Qed.

(** C20: when the processing of an epoch always ends before the next epoch does, the
    loop has processed every epoch since it started, each once, whenever it waits; and
    the first round of the submitting task that can read the network then sends the
    vote for the last epoch, if its tree was made and the vote is neither recorded nor
    closed.  Two epochs have to be monitored, since the current one has no tree yet. *)
Theorem operator_votes_for_each_epoch events first s :
  1 <= first -> run events (init args first ∅) = Some s -> timely events (init args first ∅) -> op_phase s = Waiting ->
  op_processed s = seqZ (start first) (op_current_epoch s - start first) /\
  forall t op nets slot config box,
    op_files s !! (op_current_epoch s - 1) = Some (Some t) -> op_submitting s = true ->
    ag_operator_address args = Some op -> op <> Pubkey_default -> (2 <= ag_num_monitored_epochs args)%nat ->
    read_ballot_box (nets 1%nat) (ag_client args) (Some t) (op_current_epoch s - 1) = Ok (Some (slot, config, t, box)) ->
    bb_inv box -> BallotBox.is_voting_valid box slot (cf_valid_slots_after_consensus config) = Ok true ->
    votes_for_root box op (merkle_root t) = false ->
    exists s', step s (Submits (Some (op_current_epoch s)) nets) = Some s' /\
      cast_vote_ix (ag_client args) op (merkle_root t) (op_current_epoch s) ∈ op_sent s'.
Proof using L.
  intros Hfirst Hrun Ht Hwait.
  assert (Hsched : on_schedule first s).
  { assert (H0' : on_schedule first (init args first ∅)).
    { unfold init, on_schedule, up_to, start. cbn. split; [done|]. split; [by intros e f; rewrite lookup_empty|].
      destruct (ag_start_next_epoch args); cbn; (split; [lia|]); rewrite Z.sub_diag; done. }
    revert H0' Hrun Ht. generalize (init args first ∅). induction events as [|e events IH]; intros s0 Hs0 Hrun Ht; cbn in *.
    - by injection Hrun as <-.
    - destruct (step s0 e) as [s1|] eqn:Es; [|done]. destruct Ht as [Hin Ht].
      by apply (IH s1); [eapply step_on_schedule|done|apply Ht]. }
  destruct Hsched as (Hc & Hf & Hp). rewrite Hwait in Hp. split; [apply Hp|].
  intros t op nets slot config box Hfile Hal Hop Hne Hn Hr Hb Hv Hroot.
  unfold Operator.step. rewrite Hwait, Hal. eexists. split; [done|]. unfold on_submits. cbn [op_sent].
  apply elem_of_app. right. eapply submits_last; try done.
  destruct (op_files s !! op_current_epoch s) as [f|] eqn:El; [|done]. specialize (Hf _ _ El). lia.
Qed.
End operator.

(* ------------------------------------------------------------------ *)
(** * Witnesses *)

(** The operator starts in epoch 5, makes the tree of epoch 4 and votes for it. *)
Module OperatorWitness.
Import SubmitWitness VoteWitness ConfigWitness LedgerWitness ConcreteSolana ConcretePrograms.

Definition args : Args := mkArgs client (key 202) (Some (key 1)) 2 false.
Definition answers : Answers := mkAnswers (Some (Some (body c0))) (fun _ => Some []) (fun _ => ReplayOk (bank votes stakes)).
Definition node : EpochInfo := mkEpochInfo 5 100 2160100.
Definition start_state : Operator := Operator.init args 5 ∅.
Definition processing : list Event := [Read None; Read (Some node); Process answers true; Wrote true; Polled (Some node)].
Definition submitting : Event := Submits (Some 5) (fun _ => network 101 bb1 []).

Definition processed : Operator := default start_state (Operator.run 10000 args processing start_state).
Definition submitted : Operator := default start_state (Operator.run 10000 args (processing ++ [submitting]) start_state).
Definition first_sent : SentIx := match op_sent submitted with ix :: _ => ix | [] => Memo [] (key 0) end.
Definition made_tree : MetaMerkleTree := match op_files processed !! 4 with Some (Some t) => t | _ => own_tree end.

(** What [in_time] is for: an epoch is left out when the processing outlasts the next
    one, and processed twice when it changes between the wait and the read. *)
Definition failing : Event := Process (mkAnswers None (fun _ => None) (fun _ => ReplayFails)) true.
Definition in_epoch (e : Z) : option EpochInfo := Some (mkEpochInfo e 0 (e * 432000)).

Example long_processing_skips_an_epoch :
  op_processed <$> Operator.run 10000 args [Read (in_epoch 5); failing; Polled (in_epoch 7); Read (in_epoch 7)] start_state
  = Some [4; 6].
Proof. vm_compute. reflexivity. Qed.

Example late_read_repeats_an_epoch :
  op_processed <$> Operator.run 10000 args [Read (in_epoch 6); failing; Polled (in_epoch 6); Read (in_epoch 6)] start_state
  = Some [5; 5].
Proof. vm_compute. reflexivity. Qed.

Lemma runs events s : match Operator.run 10000 args events s with Some _ => true | None => false end = true ->
  Operator.run 10000 args events s = Some (default s (Operator.run 10000 args events s)).
Proof. by destruct (Operator.run 10000 args events s). Qed.

(** [node] is 100 slots into epoch 5. *)
Lemma node_clock : Forall (on_clock (fun e => 432000 * e)) (processing ++ [submitting]).
Proof. repeat constructor; cbn; lia. Qed.

Lemma first_sent_vote : first_sent ∈ votes_sent (op_sent submitted).
Proof.
  assert (Hl : match op_sent submitted with CastVote _ :: _ => true | _ => false end = true) by (vm_compute; reflexivity).
  unfold first_sent, votes_sent. destruct (op_sent submitted) as [|ix l]; [discriminate Hl|].
  apply list_elem_of_filter. split; [destruct ix; try discriminate Hl; intros []|left].
Qed.

Lemma tree_written : op_files processed !! 4 = Some (Some made_tree).
Proof.
  assert (Hf : match op_files processed !! 4 with Some (Some _) => true | _ => false end = true) by (vm_compute; reflexivity).
  unfold made_tree. by destruct (op_files processed !! 4) as [[t|]|].
Qed.

Lemma in_time_5 : timely 10000 args processing start_state.
Proof.
  apply (bool_decide_unpack _). vm_compute. exact I.
Qed.
End OperatorWitness.
Import OperatorWitness SubmitWitness VoteWitness ConfigWitness LedgerWitness ConcreteSolana ConcretePrograms.

Lemma votes_are_generated_roots_witness : exists before epoch t,
  made 10000 OperatorWitness.args (fun e => 432000 * e) before epoch t /\
  first_sent = cast_vote_ix client (key 1) (merkle_root t) (epoch + 1).
Proof.
  destruct (votes_are_generated_roots 10000 OperatorWitness.args (fun e => 432000 * e) (processing ++ [submitting]) 5 ∅
    submitted first_sent node_clock) as (before & cur & nets & after & op & epoch & t & _ & Hop & Hix & [Hf|Hm]).
  - apply runs. vm_compute. reflexivity.
  - exact first_sent_vote.
  - rewrite lookup_empty in Hf. discriminate Hf.
  - injection Hop as <-. exists before, epoch, t. split; [exact Hm|exact Hix].
Defined.

Lemma operator_votes_for_each_epoch_witness :
  op_processed processed = [4] /\
  exists s, Operator.step 10000 OperatorWitness.args processed submitting = Some s /\
    cast_vote_ix client (key 1) (merkle_root made_tree) 5 ∈ op_sent s.
Proof.
  assert (Hrun : Operator.run 10000 OperatorWitness.args processing start_state = Some processed)
    by (apply runs; vm_compute; reflexivity).
  assert (Hcur : op_current_epoch processed = 5) by (vm_compute; reflexivity).
  assert (Hwait : op_phase processed = Waiting) by (vm_compute; reflexivity).
  destruct (operator_votes_for_each_epoch (L := U256Precise.laws) 10000 OperatorWitness.args processing 5 processed
    ltac:(lia) Hrun in_time_5 Hwait) as [Hp Hv].
  rewrite Hcur in *. change (5 - 1) with 4 in Hv. split; [rewrite Hp; vm_compute; reflexivity|].
  apply (Hv made_tree (key 1) (fun _ => network 101 bb1 []) 101 (body c0) (body bb1)).
  - exact tree_written.
  - vm_compute. reflexivity.
  - reflexivity.
  - discriminate.
  - cbn. lia.
  - generalize made_tree. intros t. vm_compute. reflexivity.
  - apply new_inv.
  - vm_compute. reflexivity.
  - generalize made_tree. intros t. vm_compute. reflexivity.
Defined.
